(* ===== verification/_CoqProject ===== *)
-Q . S2P
Prelude.v
Sorting.v
PyStruct.v
Checksum.v
Addresses.v
OfConst.v
Wire.v
OfBase.v
OfMatch.v
MatchTheory.v
OfActions.v
OfStats.v
OfMessages.v
OfStatsMsg.v
Packets.v
PacketCodec.v
PacketTheory.v
PacketRoundtrip.v
PacketTyping.v
Lldp.v
LldpTheory.v
FlowTable.v
Connection.v
SoftSwitch.v
Steps.v
NXSwitch.v
SwitchTheory.v
NXTheory.v
Controller.v
ControllerTheory.v
StatsTheory.v
L2Learning.v
L2Theory.v
Discovery.v
DiscoveryTheory.v
SpanningTree.v
SpanningTheory.v
L2Multi.v
L2MultiTheory.v
OfTopology.v
OfTopologyTheory.v
OfTopologyInv.v
L3Learning.v
L3Theory.v
Dns.v
DnsTheory.v
Dhcp.v
DhcpTheory.v
PacketText.v
HostTracker.v
HostTrackerTheory.v
Vns.v
VnsTheory.v
Bridge.v
BridgeTheory.v
Revent.v
Recoco.v
RecocoInv.v
RecocoRun.v
RecocoHub.v
RecocoTheory.v
Epoll.v
EpollTheory.v
IoLoop.v
IoLoopTheory.v
Messenger.v
MessengerTheory.v
Minigraph.v
Graph.v
GraphTheory.v
