(* ===== verification/Prelude.v ===== *)
(** A verification of the core of POX, the Python OpenFlow controller under
    [src/cs561-as2-kenwith/pox/pox/]: the OpenFlow 1.0 library, the packet library, the
    software switch, the event library, the controller's end of a connection, and on top of
    them the learning switches, link discovery, the spanning tree, shortest-path forwarding,
    the host tracker and the topology of switch objects; below them all Recoco, the library
    of cooperative tasks the controller runs on, with its epoll selector and the loop of the I/O workers;
    and beside them the messenger and the graph library.  File names below are relative to that directory.  The course's bridge
    is in [src/cs561-as2-kenwith/pox_module/cs561/]: [ofhandler.py], [srhandler.py] and the
    messages they exchange with clients, [VNSProtocol.py].

    ** How the program fits together

    A controller holds one [Connection] per switch ([openflow/of_01.py]): it cuts the bytes
    of the socket into messages ([openflow/libopenflow_01.py] makes objects of them),
    answers the handshake, registers the connection with the nexus
    ([openflow/connection_arbiter.py]) and raises an event ([lib/revent/revent.py]) on nexus
    and connection for every message.  Applications listen: [forwarding/l2_learning.py]
    parses the packet of a packet-in ([lib/packet/]), learns addresses, and sends flow mods
    and packet-outs.  [openflow/discovery.py] sends LLDP frames out of every port and learns
    the links from where they come in; it raises an event for every link, from which
    [openflow/spanning_tree.py] decides the ports that flood and [forwarding/l2_multi.py] the
    ports between switches, for paths it installs switch by switch.
    [host_tracker/host_tracker.py] asks discovery which ports may have hosts.
    [forwarding/l3_learning.py] learns IP addresses and answers ARP requests itself.  The
    bridge passes frames the switch has no flow for to routers under test, clients of a server
    of its own, and sends out what they send.  At the other end, [openflow/switch_impl.py] is a switch in software: it
    has a flow table ([openflow/flow_table.py]), ports and a packet buffer, looks packets up
    by the match that [ofp_match.from_packet] makes of them, applies actions, and talks
    OpenFlow to its controller - or, in [openflow/nx_switch_impl.py], to several controllers
    with roles.  [openflow/topology.py] has an object for every switch that outlives its
    connections; its flow table, [NOMFlowTable], is kept in step with the switch's by barriers.
    [lib/recoco/recoco.py] runs all this: tasks that are Python generators, a scheduler that
    resumes them in turn, and a hub whose one [select] waits for the sockets and times of all
    of them; timers and calls from other threads go through it.  [lib/epoll_select.py] is a [select] made of epoll it can use;
    [lib/ioworker/io_worker.py] is a task that does the input and output of many sockets.
    [messenger/messenger.py] lets programs outside send JSON messages to services inside, and [messenger/mux.py]
    puts several channels on one such connection.  [lib/graph/graph.py] keeps entities and the links between
    their ports, on the multigraph of [lib/graph/minigraph.py].  The theorems follow these
    layers up to the two ends together: [L2Theory.learning_loop],
    [OfTopologyTheory.installed_in_step].

    ** The files

    Foundations.  Prelude: exceptions, the monads, bytes, slices.  Sorting: [list.sort] with
    a key.  PyStruct: the [struct] module.  Steps: relations every step of a computation
    keeps, and the equations that run computations.

    The OpenFlow library ([openflow/libopenflow_01.py], [lib/addresses.py]).  Addresses:
    EthAddr, IPAddr, CIDR.  OfConst: the constants and the maps between them.  Wire: the
    interface of packed structures - class [Wire] with its law [WireLaws] - and the packing
    of lists, proved against it; OfBase, OfActions, OfStats, OfMessages, OfStatsMsg: its
    instances, one per class of the library, each with [_init], [_pack], [_unpack], [_len]
    and [_eq] for the constructor and the methods; class [Msg] in OfMessages is the same for
    whole messages.  OfMatch: [ofp_match], with its attributes and wildcards; MatchTheory:
    what a match means (a set of headers, [sem]), the lookup's test decides it, the
    wire format keeps it.

    The packet library ([lib/packet/]).  Packets: the parsed packet classes as a tree,
    [find], and [from_packet].  Checksum, PacketCodec: checksums, [parse], [hdr] and [pack].
    PacketTheory: checksums, stability of packing, the exceptions parsing can raise.
    PacketRoundtrip: packing and parsing back.  PacketTyping: every parsed packet is well
    typed, and so is the match made of it.  Lldp, LldpTheory: the TLVs of [lldp.py].  Dns,
    DnsTheory and Dhcp, DhcpTheory: [dns.py] and [dhcp.py]; [app_codec] in Dhcp puts the three
    behind the interface [AppCodec] of the other codecs.

    The switch.  FlowTable: entries, table, flow mods.  Connection: the class table of
    [openflow/util.py], the buffers of [lib/ioworker/io_worker.py], and both readers of a
    byte stream.  SoftSwitch: [SwitchImpl]; SwitchTheory: its invariant and behaviour.
    NXSwitch, NXTheory: [NXSwitchImpl] with [openflow/nicira_ext.py].

    The controller.  Controller: [Connection], the deferred sender, the message handlers and
    the select loop of [of_01.py], the events of [openflow/__init__.py], nexus and arbiter.
    ControllerTheory: byte streams, handshake, disconnection.  StatsTheory: statistics
    replies in parts, for every kind of entry (class [StatsKind]).  L2Learning, L2Theory:
    [forwarding/l2_learning.py].  Discovery, DiscoveryTheory: [openflow/discovery.py], whose
    state [Disc] has room for that of the application beside it ([d_rest]); with it
    SpanningTree, SpanningTheory: [openflow/spanning_tree.py], L2Multi, L2MultiTheory:
    [forwarding/l2_multi.py], and HostTracker, HostTrackerTheory:
    [host_tracker/host_tracker.py].

    L3Learning, L3Theory: [forwarding/l3_learning.py].  OfTopology: [openflow/topology.py],
    the registry of [topology/topology.py], and [NOMFlowTable] of [openflow/flow_table.py];
    OfTopologyTheory: the table of a switch object and that of its switch; OfTopologyInv: ids,
    and who stays.

    Recoco: [lib/recoco/recoco.py].  The library's own generators are program counters ([gen]),
    the threads are steps that interleave: a cycle of the scheduler, the two halves of a round
    of the hub (before and after [select]), the end of a blocking call, anything other modules
    do.  RecocoInv: what other modules may do ([api]) and the invariant; RecocoRun, RecocoHub:
    scheduler and hub keep it; RecocoTheory: the step relation and the theorems.

    Epoll, EpollTheory: [lib/epoll_select.py], with the lists of its caller as objects, the kernel's table and the
    descriptors that are open; how it does under the hub.  IoLoop, IoLoopTheory: [RecocoIOLoop] of
    [lib/ioworker/io_worker.py], with a point between any two statements where other threads run ([switch]).
    Messenger, MessengerTheory: [messenger/messenger.py] and [messenger/mux.py]; the values of Python's [json]
    are a class, [Json].  Minigraph, Graph, GraphTheory: [lib/graph/minigraph.py] and [lib/graph/graph.py]; the values
    that comparisons look at are a class, [PyValue].

    The bridge.  Vns, VnsTheory: [VNSProtocol.py].  PacketText: the [__str__] methods of the
    packet classes, as far as whether they raise.  Bridge, BridgeTheory: [ofhandler.py],
    [srhandler.py].

    Revent: the event library, with its own theorems.

    ** Conventions

    Code that can raise is in [res] (a value or an exception); code that also changes state
    is in [M S], where an exception keeps the state reached, as in Python.  Exceptions are
    the built-in class that is raised ([exn]); an exception inside a handler's message counts
    as what it is.  [Diverge] is not an exception: it marks that a loop has used up its fuel.
    A method's attributes are record fields, Python's None an option; an attribute that may
    be missing says so in its type.  [show] and logging are left
    out everywhere; where formatting a message raises, that is kept.

    Objects that are shared are shared: packets in the switch live in a heap and are passed
    by reference; flow entries, compared by identity in the source, carry one ([te_id]); the
    handler lists of an event source live in a store, because [raiseEvent] walks a list that
    handlers may change.  Dictionaries are finite maps; where the code walks over one, the
    order is that of [map_to_list].  Clock readings are integers of nanoseconds, parameters
    or part of the state.  A packet's [prev], which only checksums use, is the header of its
    container.

    ** What is a parameter

    The codecs of lldp, dhcp and dns packets, for the code that only passes them on (class
    [AppCodec]: whether they parse, what they pack to, what they raise; [app_codec] is the
    instance the source has, and what its messages do to the switch is
    [app_message_stops_switch]); how deep Python's stack is ([stack], for the names in DNS
    messages); the order in which a dictionary is walked where it could
    matter; sending in [SwitchImpl] ([send], for
    the connection or for several connections); the sockets of the controller: what the
    n-th [send] of a socket does ([sock_send]: it takes some of the bytes, reports an error
    number or raises) and what [recv] returns; the listeners of the applications, which are
    computations on the controller's whole state; the nexus that the listeners of
    [ConnectionIn] choose; what [ltprotocol] does with a message for a client of the bridge
    ([client_send]) and the text of a client's connection ([client_text]).  Theorems that need more of them say so: a socket takes between
    none and all of the bytes ([socket_contract]) or all of them ([takes_all]); the
    listeners of certain events change only the applications' state ([passive]) - for the
    learning switch this is proved, not assumed; the events that sending can raise
    ([nested]) leave the application's own tables alone; what is called for a link or a path
    ([on_link], [on_path]) does what the theorem says.  Listeners of the switch's [DpPacketOut]
    are taken to leave the switch alone.  What listens to switch objects and to topology
    ([on_switch], [on_topology]); the generators and callables that use Recoco ([user_resume],
    [call]), which do to its scheduler what [api] lists: they make tasks and timers, cancel
    them, start tasks that nothing else is going to run, queue calls, quit; what a socket's
    [recv] does there ([sock_recv]), and what [select] returns ([select_ok]: descriptors asked
    for, nothing only when the time is over, the pinger when it was pinged).  For the selector, what epoll's [poll]
    returns ([poll_ok]: the events asked for, errors and hang-ups always).  For the I/O loop, the sockets
    ([recv_returns], [send_accepts]: they keep account of what passes), the clients and the handlers, which do what
    [api_io] lists - send, consume, make and close workers, stop the loop -, and when other threads
    run ([others], which does the same).  For the messenger, the event library and the services behind it
    ([raise_], [subscribe]), which may do anything but touch a connection's buffer or forget the connection; the decoder
    of [json], which takes a message when it is complete and waits for the rest when it is not ([framed]: so for objects,
    arrays and strings, not for numbers).

    ** The theorems

    Matching: [matches_with_wildcards_decides] (the test on matches decides inclusion of
    header sets), [entry_for_packet_highest] (the lookup finds the entry of highest priority
    that accepts the packet's header), the flow mods [process_flow_mod_add], [_modify],
    [_delete].

    Encodings: round trips for matches, actions, messages, frames and whole packets
    ([ethernet_roundtrip]), LLDP frames, DHCP options - but for the overload option, with which reading raises - and
    the bridge's messages ([lldp_roundtrip], [options_roundtrip], [vns_roundtrip]); a DNS message that is laid out
    as RFC 1035 says, with pointers, is read as what it says ([dns_reads_message]); checksums
    that receivers accept, [parsed_typed].

    Byte streams: readers put messages together however the stream was cut
    ([feed_reassembles]), both readers agree ([readers_agree]), and what the controller sends
    arrives in order ([stream_fifo]); so do the streams of the I/O workers ([io_streams]), as long as two threads do not
    change one buffer at the same moment ([send_meets_consume] is what happens then); JSON messages are put together too,
    until a handler closes the connection ([messages_reassembled]).

    The switch: [switch_invariant] for all reachable states, hits, misses, floods,
    packet-outs, requests and their answers; with several controllers one master
    ([one_master]), slaves without effect, fair turns.

    The controller: [handshake_completes], [stats_reassembled]; the learning switch refines
    its specification ([packet_in_decided]), its table is the last port seen
    ([table_is_last_port]), and with the switch the flows carry traffic ([learning_loop]).

    Links and paths: a probe becomes a link ([probe_discovers]) and a link goes when it is due
    ([expiry_exact]); the tree is a spanning forest of the links seen both ways
    ([spanning_tree_correct]) and its ports are told ([link_event_tells]); paths are shortest
    ([get_path_shortest]), the ports between switches follow the links
    ([adjacency_mirrors]), and a path is installed switch by switch ([path_installed]).

    Switch objects: after installing flows, serving what was sent and the barrier's answer both
    tables are in step ([installed_in_step]); ids are unique and who has joined stays
    ([joined_for_ever]).

    Tasks: each is in one place at most and no assertion fails ([one_place]); a ready or
    sleeping task has its turn within a bound ([turn_comes]); timers fire when their time has
    come and sleep on as they should ([timer_fires]); calls for later are made in order
    ([calls_in_order]); the I/O loop asks [select] for the workers there are and closes those it was told to ([io_turn]).
    [epoll_like_select]: the epoll selector does what [select] does, for callers that leave the lists they passed and the files they
    asked for alone; [changed_list_unseen] and [reopened_unwatched] are about others.

    The graph: connecting two ports undoes their old connections and leaves all others alone, and ports and edges
    always agree ([link_connects]); [unlink_separates].

    Hosts: [port_is_first_seen], [pings_count_twice], [quiet_host_raises]; the layer-3 switch
    learns ([l3_table_exact]), answers ([arp_request_answered]) and forwards ([ip_forwarded]).

    The bridge: frames reach every client under the name of their interface
    ([frame_reaches_clients]) and what a client sends goes out of the port of that name
    ([client_frame_goes_out]).

    Events: [raiseEvent_delivers], for handlers that may unsubscribe any of them meanwhile;
    [raiseEvent_resubscribe_diverges], for one that subscribes.

    Errors, as they are: what parsing raises, what a failed handshake leaves behind, which
    replies block which, which actions cannot work, which switches are lost to discovery
    ([reconnect_loses_switch]), what a link from a switch to itself stops ([self_link_blocks]),
    which ARP packets are lost ([arp_flooded_or_lost]), which frames do not cross the bridge
    ([dhcp_does_not_cross]), what two installations at a time lose ([overlapping_installs]), what
    ends the hub and the scheduler ([waking_kills_hub], [target_stops_scheduler], [epoll_under_hub]), why a
    synchronizer does not synchronize ([synchronizer_never_syncs]).

    ** Fuel and bounds

    Every loop that is not structural has fuel, and a theorem or lemma that it suffices:
    [unpack_actions] (the length of the buffer: every action consumes four bytes),
    [read_loop] and [controller_loop] (the length of the buffer, except for messages of
    length 0, on which the code itself does not end: [zero_length_frame_diverges]),
    [parse_options] and [ipv4_parse] (one more than the length of the packet: every round
    consumes a byte), [sliceup] and [processStatsBody] (the length of the data),
    [raise_loop] (the length of the handler list, for handlers that do not subscribe to the
    event being raised; one that does can keep the code busy for ever), [netmask_loop] (32 bits), [tlv_loop],
    [name_loop] and [segment_loop] (one more than the length of the data: every round consumes
    a byte), [tree_loop] (twice the number of switches: each enters the queue once at the start and at
    most once from the tree), [raw_path] (the distance, which falls with every call), [free_id] (the
    number of ids taken), [make_calls] (a parameter; more than the calls queued is enough when
    they queue none themselves, which [calls_in_order] assumes), [run_commands] (the number of commands, when other
    threads add none meanwhile: [commands_end]), [recv_loop] (the length of the buffer: every message uses a byte),
    [sendRaw] (the number of the connection: a channel is made after the one it is on).  Integers are unbounded as
    in Python; the widths of the wire formats are ranges that [struct] checks.

    ** Not modelled, and why

    The name tables of vendors, protocols and ports for printing; pcap traces; the system calls
    [select] and epoll, starting threads and processes, and start-up (operating system); the registry of
    components in [core.py], logging, command line; pickling of entities for the
    debugger; the messenger's services, web and GUI servers (HTTP and logging around third-party and standard
    libraries); the network object model on the graph library
    ([lib/graph/nom.py], unfinished in the source); the experimental distributed controllers, unfinished in the source; the
    remaining sample applications, which repeat the learning switch; Twisted's reactor; the
    Mininet scripts; vendored tools. *)
From Stdlib Require Export ZArith Lia Strings.Byte.
From stdpp Require Export base tactics list option strings gmap.
#[global] Open Scope Z_scope.

(** * Python exceptions and the error monad *)

Inductive exn :=
  | StructError | RuntimeError | AssertionError | AttributeError | TypeError
  | ValueError | IndexError | KeyError | NameError | NotImplementedError
  | SocketError | UnboundLocalError | PlainException | VNSProtocolException | SystemExit | Diverge.

#[export] Instance exn_eq_dec : EqDecision exn.
Proof. solve_decision. Defined.

Inductive res (A : Type) :=
  | Ok (a : A)
  | Err (e : exn).
Arguments Ok {A} a.
Arguments Err {A} e.

#[export] Instance res_eq_dec {A} `{!EqDecision A} : EqDecision (res A).
Proof. solve_decision. Defined.

#[export] Instance res_ret : MRet res := @Ok.
#[export] Instance res_bind : MBind res := fun A B f m =>
  match m with Ok a => f a | Err e => Err e end.
#[export] Instance res_fmap : FMap res := fun A B f m =>
  match m with Ok a => Ok (f a) | Err e => Err e end.

(** State-and-exception monad: an exception keeps the state reached so far, as
    in Python. *)
Definition M (S A : Type) : Type := S -> res A * S.

#[export] Instance M_ret S : MRet (M S) := fun A a s => (Ok a, s).
#[export] Instance M_bind S : MBind (M S) := fun A B f m s =>
  match m s with
  | (Ok a, s') => f a s'
  | (Err e, s') => (Err e, s')
  end.
Definition lift {S A} (r : res A) : M S A := fun s => (r, s).
Definition raise {S A} (e : exn) : M S A := fun s => (Err e, s).
Definition get {S} : M S S := fun s => (Ok s, s).
Definition put {S} (s : S) : M S unit := fun _ => (Ok tt, s).

Declare Scope py_scope.
Delimit Scope py_scope with py.
(** Python's tuple assignment [(x, y) = seq]: a length mismatch raises
    ValueError.  All other sequencing uses stdpp's monad notations. *)
Notation "'tuple' pat ← e ; k" :=
  (mbind (M:=res) (fun x => match x with pat => k | _ => Err ValueError end) e)
  (at level 20, pat pattern, e at level 100, k at level 200,
   format "'tuple'  pat  ←  e ;  '/' k") : py_scope.
#[global] Open Scope py_scope.


(** Facts about well-formedness and lengths that the components register. *)
Create HintDb pox.

(** * Bytes *)

(** A Python 2 [str] is a sequence of bytes. *)
Abbreviation bytes := (list Byte.byte).

#[export] Instance byte_eq_dec : EqDecision Byte.byte := Byte.byte_eq_dec.

(** [lit "..."]: the bytes of an ASCII literal. *)
Definition lit (s : String.string) : bytes := String.list_byte_of_string s.
Arguments lit s%_string.

(** [chr(z mod 256)] and [ord(c)]. *)
Definition byte_of_Z (z : Z) : Byte.byte :=
  default x00 (Byte.of_N (Z.to_N (z mod 256))).
Definition Z_of_byte (c : Byte.byte) : Z := Z.of_N (Byte.to_N c).

Lemma Z_of_byte_range c : 0 <= Z_of_byte c < 256.
Proof.
  unfold Z_of_byte. pose proof (Byte.to_N_bounded c). lia.
Qed.

Lemma byte_of_Z_of_byte c : byte_of_Z (Z_of_byte c) = c.
Proof.
  unfold byte_of_Z. rewrite Z.mod_small by apply Z_of_byte_range.
  unfold Z_of_byte. rewrite N2Z.id, Byte.of_to_N. done.
Qed.

Lemma Z_of_byte_of_Z z : Z_of_byte (byte_of_Z z) = z mod 256.
Proof.
  unfold byte_of_Z, Z_of_byte.
  pose proof (Z.mod_pos_bound z 256 ltac:(lia)) as Hz.
  destruct (Byte.of_N (Z.to_N (z mod 256))) as [c|] eqn:E; simpl.
  - apply Byte.to_of_N in E. rewrite E. lia.
  - apply Byte.of_N_None_iff in E. lia.
Qed.

#[export] Instance Z_of_byte_inj : Inj (=) (=) Z_of_byte.
Proof.
  intros x y H. rewrite <-(byte_of_Z_of_byte x), H. apply byte_of_Z_of_byte.
Qed.

(** ** Little- and big-endian unsigned integers of [n] bytes *)

Fixpoint le_enc (n : nat) (z : Z) : bytes :=
  match n with
  | O => []
  | S n => byte_of_Z z :: le_enc n (z / 256)
  end.

Fixpoint le_dec (l : bytes) : Z :=
  match l with
  | [] => 0
  | c :: l => Z_of_byte c + 256 * le_dec l
  end.

Definition be_enc (n : nat) (z : Z) : bytes := rev (le_enc n z).
Definition be_dec (l : bytes) : Z := le_dec (rev l).

Lemma le_enc_length n z : length (le_enc n z) = n.
Proof. revert z; induction n as [|n IH]; intros z; simpl; [done|]. by rewrite IH. Qed.

Lemma be_enc_length n z : length (be_enc n z) = n.
Proof. unfold be_enc. by rewrite length_rev, le_enc_length. Qed.

Lemma le_dec_range l : 0 <= le_dec l < 256 ^ Z.of_nat (length l).
Proof.
  induction l as [|c l IH]; cbn [length le_dec]; [cbn; lia|].
  pose proof (Z_of_byte_range c).
  rewrite Nat2Z.inj_succ, Z.pow_succ_r by lia. lia.
Qed.

Lemma be_dec_range l : 0 <= be_dec l < 256 ^ Z.of_nat (length l).
Proof. unfold be_dec. rewrite <-length_rev. apply le_dec_range. Qed.

Lemma le_dec_enc n z : le_dec (le_enc n z) = z mod 256 ^ Z.of_nat n.
Proof.
  revert z; induction n as [|n IH]; intros z.
  - simpl. by rewrite Z.mod_1_r.
  - cbn [le_enc le_dec]. rewrite IH, Z_of_byte_of_Z, Nat2Z.inj_succ.
    rewrite Z.pow_succ_r by lia.
    rewrite (Z.rem_mul_r z 256 (256 ^ Z.of_nat n)) by lia. lia.
Qed.

Lemma be_dec_enc n z : be_dec (be_enc n z) = z mod 256 ^ Z.of_nat n.
Proof. unfold be_dec, be_enc. rewrite rev_involutive. apply le_dec_enc. Qed.

Lemma le_enc_dec l : le_enc (length l) (le_dec l) = l.
Proof.
  induction l as [|c l IH]; [done|]. cbn [length le_enc le_dec].
  pose proof (Z_of_byte_range c) as Hc.
  f_equal.
  - rewrite <-(byte_of_Z_of_byte c) at 2. apply (inj Z_of_byte).
    rewrite !Z_of_byte_of_Z.
    replace (Z_of_byte c + 256 * le_dec l) with (Z_of_byte c + le_dec l * 256) by lia.
    by rewrite Z_mod_plus_full.
  - replace (Z_of_byte c + 256 * le_dec l) with (le_dec l * 256 + Z_of_byte c) by lia.
    rewrite Z.div_add_l, (Z.div_small (Z_of_byte c)), Z.add_0_r by lia. done.
Qed.

Lemma be_enc_dec l : be_enc (length l) (be_dec l) = l.
Proof.
  unfold be_enc, be_dec. rewrite <-(length_rev l), le_enc_dec. apply rev_involutive.
Qed.

Lemma le_dec_app k l : le_dec (k ++ l) = le_dec k + 256 ^ Z.of_nat (length k) * le_dec l.
Proof.
  induction k as [|c k IH]; cbn [app le_dec length]; [cbn; lia|].
  rewrite IH, Nat2Z.inj_succ, Z.pow_succ_r by lia. lia.
Qed.

Lemma be_dec_cons c l : be_dec (c :: l) = Z_of_byte c * 256 ^ Z.of_nat (length l) + be_dec l.
Proof.
  unfold be_dec. cbn [rev]. rewrite le_dec_app, length_rev. cbn [le_dec]. lia.
Qed.

Lemma be_enc_S n z : be_enc (S n) z = be_enc n (z / 256) ++ [byte_of_Z z].
Proof. done. Qed.

Lemma be_enc_mod n z : be_enc n (z mod 256 ^ Z.of_nat n) = be_enc n z.
Proof. rewrite <-be_dec_enc. rewrite <-(be_enc_length n z) at 1. apply be_enc_dec. Qed.

(** Joining a high part and a low part of [n] bits with [|]. *)
Lemma lor_concat x y n : 0 <= n -> 0 <= y < 2 ^ n -> Z.lor (Z.shiftl x n) y = x * 2 ^ n + y.
Proof.
  intros Hn Hy. rewrite <-Z.add_nocarry_lor; [by rewrite Z.shiftl_mul_pow2|].
  apply Z.bits_inj'. intros i Hi. rewrite Z.land_spec, Z.bits_0.
  destruct (Z.ltb_spec i n) as [H|H].
  - by rewrite Z.shiftl_spec_low.
  - apply andb_false_iff. right. rewrite <-(Z.mod_small y (2 ^ n)) by done.
    by apply Z.mod_pow2_bits_high.
Qed.

(** * Python sequence operations *)

(** Index normalisation of Python slices: a negative index counts from the end. *)
Definition py_index (len i : Z) : nat :=
  Z.to_nat (if i <? 0 then Z.max 0 (i + len) else i).

(** [l[i:]] and [l[i:j]]. *)
Definition slice_from {A} (l : list A) (i : Z) : list A :=
  drop (py_index (Z.of_nat (length l)) i) l.
Definition slice {A} (l : list A) (i j : Z) : list A :=
  let lo := py_index (Z.of_nat (length l)) i in
  let hi := py_index (Z.of_nat (length l)) j in
  take (hi - lo) (drop lo l).

(** [len(l)] as a Python integer. *)
Definition zlen {A} (l : list A) : Z := Z.of_nat (length l).

(** [s.ljust(n, '\0')]. *)
Definition ljust0 (s : bytes) (n : nat) : bytes := s ++ replicate (n - length s) x00.

(** [s.replace("\0", "")]. *)
Definition strip0 (s : bytes) : bytes := filter (.≠ x00) s.

(** [s.count(c)] for a one-character [c]. *)
Definition count_byte (c : Byte.byte) (s : bytes) : Z := zlen (filter (.= c) s).

Lemma zlen_cons {A} (x : A) l : zlen (x :: l) = 1 + zlen l.
Proof. unfold zlen. cbn [length]. lia. Qed.
Lemma zlen_app {A} (k l : list A) : zlen (k ++ l) = zlen k + zlen l.
Proof. unfold zlen. rewrite length_app. lia. Qed.
Lemma zlen_nonneg {A} (l : list A) : 0 <= zlen l.
Proof. unfold zlen. lia. Qed.

Lemma slice_from_app {A} (k l : list A) i :
  zlen k = i -> slice_from (k ++ l) i = l.
Proof.
  intros <-. unfold slice_from, py_index, zlen.
  rewrite (proj2 (Z.ltb_ge _ _)) by lia. rewrite Nat2Z.id. by rewrite drop_app_length.
Qed.

Lemma slice_from_ge {A} (k l : list A) i :
  zlen k <= i -> slice_from (k ++ l) i = slice_from l (i - zlen k).
Proof.
  unfold slice_from, py_index, zlen. intros H.
  rewrite !(proj2 (Z.ltb_ge _ _)) by lia.
  rewrite drop_app_ge by lia. f_equal. lia.
Qed.

Lemma slice_skip {A} (k l : list A) i j :
  zlen k <= i -> i <= j -> slice (k ++ l) i j = slice l (i - zlen k) (j - zlen k).
Proof.
  unfold slice, py_index, zlen. intros H Hij.
  rewrite !(proj2 (Z.ltb_ge _ _)) by lia.
  rewrite drop_app_ge by lia. f_equal; [lia|]. f_equal. lia.
Qed.

Lemma slice_hit {A} (k l : list A) j : zlen k = j -> slice (k ++ l) 0 j = k.
Proof.
  intros <-. unfold slice, py_index, zlen. simpl.
  rewrite (proj2 (Z.ltb_ge _ _)) by lia.
  rewrite Nat2Z.id, drop_0, Nat.sub_0_r. by rewrite take_app_length.
Qed.

Lemma slice_all {A} (l : list A) j : zlen l <= j -> slice l 0 j = l.
Proof.
  intros H. unfold slice, py_index, zlen in *. simpl.
  rewrite (proj2 (Z.ltb_ge _ _)) by lia. rewrite drop_0. apply take_ge. lia.
Qed.

(** A list in the middle, and what follows it. *)
Lemma slice_tail {A} (k l rest : list A) i j : zlen k = i -> j = i + zlen l ->
  slice (k ++ l ++ rest) i j = l.
Proof.
  intros Hk ->. rewrite slice_skip by (pose proof (zlen_nonneg l); lia).
  replace (i - zlen k) with 0 by lia. apply slice_hit. lia.
Qed.
Lemma slice_from_tail {A} (k l rest : list A) i j : zlen k = i -> j = i + zlen l ->
  slice_from (k ++ l ++ rest) j = rest.
Proof. intros Hk ->. rewrite app_assoc. apply slice_from_app. rewrite zlen_app. lia. Qed.

Lemma slice_from_all {A} (l : list A) : slice_from l 0 = l.
Proof. unfold slice_from, py_index. simpl. by rewrite drop_0. Qed.
Lemma zlen_slice {A} (l : list A) i j : 0 <= i <= j -> j <= zlen l -> zlen (slice l i j) = j - i.
Proof.
  intros Hi Hj. unfold zlen, slice, py_index in *. rewrite !(proj2 (Z.ltb_ge _ _)) by lia.
  rewrite length_take, length_drop. lia.
Qed.
Lemma zlen_slice_from {A} (l : list A) i : 0 <= i <= zlen l -> zlen (slice_from l i) = zlen l - i.
Proof.
  intros Hi. unfold zlen, slice_from, py_index in *. rewrite (proj2 (Z.ltb_ge _ _)) by lia.
  rewrite length_drop. lia.
Qed.

Lemma ljust0_length s n : (length s <= n)%nat -> length (ljust0 s n) = n.
Proof. intros. unfold ljust0. rewrite length_app, length_replicate. lia. Qed.

Lemma strip0_ljust0 s n : x00 ∉ s -> strip0 (ljust0 s n) = s.
Proof.
  intros Hs. unfold strip0, ljust0. rewrite filter_app.
  assert (filter (.≠ x00) (replicate (n - length s) x00) = []) as ->.
  { induction (n - length s)%nat as [|m IH]; [done|]. simpl.
    by rewrite filter_cons_False by naive_solver. }
  rewrite app_nil_r. induction s as [|c s IH]; [done|].
  apply not_elem_of_cons in Hs as [Hc Hs].
  rewrite filter_cons_True by done. f_equal. by apply IH.
Qed.
