(* ===== verification/Sorting.v ===== *)
(** [list.sort(key=..., reverse=True)]: stable insertion sort by descending key, for
    any type with a total preorder - the flow table sorts its entries this way, an
    event source its handlers. *)
From Stdlib Require Export Sorting.Sorted.
From S2P Require Import Prelude.

Class SortKey (A : Type) := {
  key_le : A -> A -> bool;
  key_le_total x y : key_le x y = false -> key_le y x = true;
  key_le_trans x y z : key_le x y = true -> key_le y z = true -> key_le x z = true
}.

Section sorting.
Context `{SortKey A}.
Implicit Types (x y : A) (l : list A).

Fixpoint insert_desc (x : A) (l : list A) : list A :=
  match l with
  | [] => [x]
  | y :: l => if key_le y x then x :: y :: l else y :: insert_desc x l
  end.
Fixpoint sort_desc (l : list A) : list A :=
  match l with
  | [] => []
  | x :: l => insert_desc x (sort_desc l)
  end.

Definition desc (x y : A) : Prop := key_le y x = true.

Lemma insert_desc_perm x l : Permutation (insert_desc x l) (x :: l).
Proof.
  induction l as [|y l IH]; cbn [insert_desc]; [done|]. destruct (key_le _ _); [done|].
  etrans; [by apply perm_skip|]. constructor.
Qed.

Lemma sort_desc_perm l : Permutation (sort_desc l) l.
Proof.
  induction l as [|x l IH]; cbn [sort_desc]; [done|].
  etrans; [apply insert_desc_perm|]. by apply perm_skip.
Qed.

Lemma sort_snoc_perm x l : Permutation (sort_desc (l ++ [x])) (x :: l).
Proof. rewrite sort_desc_perm. by rewrite Permutation_app_comm. Qed.

Lemma insert_desc_sorted x l : StronglySorted desc l -> StronglySorted desc (insert_desc x l).
Proof.
  induction 1 as [|y l Hs IH Hf]; cbn [insert_desc]; [repeat constructor|].
  destruct (key_le y x) eqn:E.
  - constructor; [by constructor|]. constructor; [done|].
    apply (Forall_impl _ _ _ Hf). unfold desc. intros z Hz. by apply (key_le_trans _ y).
  - constructor; [done|].
    rewrite insert_desc_perm. constructor; [by apply key_le_total|done].
Qed.

Lemma sort_desc_sorted l : StronglySorted desc (sort_desc l).
Proof. induction l; cbn [sort_desc]; [constructor|by apply insert_desc_sorted]. Qed.

Lemma insert_desc_app x l1 l2 :
  Forall (fun y => key_le y x = false) l1 -> Forall (fun y => key_le y x = true) l2 ->
  insert_desc x (l1 ++ l2) = l1 ++ x :: l2.
Proof.
  intros H1 H2. induction H1 as [|y l Hy _ IH]; cbn [insert_desc app].
  - destruct H2 as [|y l2 Hy]; [done|]. cbn [insert_desc]. by rewrite Hy.
  - by rewrite Hy, IH.
Qed.

Lemma sort_desc_id l : StronglySorted desc l -> sort_desc l = l.
Proof.
  induction 1 as [|x l Hs IH Hf]; [done|]. cbn [sort_desc]. rewrite IH.
  apply (insert_desc_app x []); [constructor|done].
Qed.

(** Sorting a sorted list with one more element at the end puts that element behind
    every element of at least its key. *)
Lemma sort_desc_snoc x l : StronglySorted desc l -> exists l1 l2, l = l1 ++ l2 /\
  Forall (fun y => key_le x y = true) l1 /\ Forall (fun y => key_le x y = false) l2 /\
  sort_desc (l ++ [x]) = l1 ++ x :: l2.
Proof.
  induction 1 as [|y l Hs IH Hf].
  - exists [], []. by repeat constructor.
  - destruct IH as (l1 & l2 & -> & H1 & H2 & E). destruct (key_le x y) eqn:Exy.
    + exists (y :: l1), l2. split_and!; [done|by constructor|done|].
      cbn [app sort_desc]. rewrite E. apply (insert_desc_app y []); [constructor|].
      apply Forall_app in Hf as [Hf1 Hf2]. apply Forall_app. split; [done|]. by constructor.
    + exists [], (y :: l1 ++ l2). split_and!; [done|constructor| |].
      * constructor; [done|]. apply (Forall_impl _ _ _ Hf). intros z Hz.
        destruct (key_le x z) eqn:Exz; [|done].
        rewrite (key_le_trans _ _ _ Exz Hz) in Exy. done.
      * cbn [app sort_desc]. rewrite E.
        assert (l1 = []) as ->.
        { destruct H1 as [|z l1 Hz _]; [done|]. apply Forall_app in Hf as [Hf _].
          inversion Hf as [|? ? Hzy]; subst. rewrite (key_le_trans _ _ _ Hz Hzy) in Exy. done. }
        cbn [app insert_desc].
        pose proof (key_le_total _ _ Exy) as Eyx.
        destruct (key_le x y) eqn:Exy'; [done|]. f_equal.
        apply (insert_desc_app y []); [constructor|done].
Qed.

Lemma filter_sorted f l : StronglySorted desc l -> StronglySorted desc (List.filter f l).
Proof.
  induction 1 as [|y l Hs IH Hf]; [constructor|]. cbn [List.filter]. destruct (f y); [|done].
  constructor; [done|]. rewrite Forall_forall in *. intros z Hz. apply Hf.
  apply list_elem_of_In in Hz. apply filter_In in Hz as [Hz _]. by apply list_elem_of_In.
Qed.

(** The first element that satisfies a test has the highest key of those that do. *)
Lemma find_sorted f l : StronglySorted desc l ->
  match List.find f l with
  | Some x => x ∈ l /\ f x = true /\ forall y, y ∈ l -> f y = true -> y = x \/ key_le y x = true
  | None => forall y, y ∈ l -> f y = false
  end.
Proof.
  induction 1 as [|y l Hs IH Hf]; cbn [List.find]; [by intros ? ?%elem_of_nil|].
  destruct (f y) eqn:Ey.
  - split_and!; [by left|done|]. intros z [->|Hz]%elem_of_cons _; [by left|right].
    rewrite Forall_forall in Hf. by apply (Hf z).
  - destruct (List.find f l) as [x|].
    + destruct IH as (H1 & H2 & H3). split_and!; [by right|done|].
      intros z [->|Hz]%elem_of_cons; [congruence|by apply H3].
    + intros z [->|Hz]%elem_of_cons; [done|by apply IH].
Qed.
End sorting.
