(* ===== verification/PyStruct.v ===== *)
(** The fragment of Python's [struct] module the sources use: format strings of
    the codes B H I L Q i l x, in network order ("!") or in the native order of a
    little-endian host.  [struct_pack] raises [StructError] on a value out of the
    range of its code or on a wrong number of arguments, [struct_unpack_from] on
    a buffer that is too short.  The lemmas relate the two: they are what every
    codec of the development is proved with. *)
From Stdlib Require Import Ascii.
From S2P Require Import Prelude.

(** One format code: unsigned or signed integer of [n] bytes, or a pad byte. *)
Inductive fcode :=
  | FU (n : nat)
  | FS (n : nat)
  | FX.

Definition code_of_ascii (network : bool) (c : Ascii.ascii) : option fcode :=
  match c with
  | "B"%char => Some (FU 1)
  | "H"%char => Some (FU 2)
  | "I"%char => Some (FU 4)
  | "i"%char => Some (FS 4)
  (* the native sizes of these depend on the C ABI; the sources use them only
     in network order *)
  | "L"%char => if network then Some (FU 4) else None
  | "l"%char => if network then Some (FS 4) else None
  | "Q"%char => if network then Some (FU 8) else None
  | "x"%char => Some FX
  | _ => None
  end.

Fixpoint codes_of_string (network : bool) (s : String.string) : option (list fcode) :=
  match s with
  | String.EmptyString => Some []
  | String.String c s =>
      c ← code_of_ascii network c; cs ← codes_of_string network s; Some (c :: cs)
  end.

(** [true] in the result: network (big-endian) order. *)
Definition parse_fmt (s : String.string) : option (bool * list fcode) :=
  match s with
  | String.String "!"%char s => cs ← codes_of_string true s; Some (true, cs)
  | _ => cs ← codes_of_string false s; Some (false, cs)
  end.

Definition code_size (c : fcode) : nat :=
  match c with FU n | FS n => n | FX => 1 end.
Definition codes_size (cs : list fcode) : nat := sum_list_with code_size cs.

Definition uenc (net : bool) (n : nat) (z : Z) : bytes :=
  if net then be_enc n z else le_enc n z.
Definition udec (net : bool) (l : bytes) : Z :=
  if net then be_dec l else le_dec l.

(** Two's complement reading of an unsigned [n]-byte value. *)
Definition to_signed (n : nat) (z : Z) : Z :=
  if z <? 256 ^ Z.of_nat n / 2 then z else z - 256 ^ Z.of_nat n.

Definition in_range (c : fcode) (z : Z) : bool :=
  match c with
  | FU n => (0 <=? z) && (z <? 256 ^ Z.of_nat n)
  | FS n => (- (256 ^ Z.of_nat n / 2) <=? z) && (z <? 256 ^ Z.of_nat n / 2)
  | FX => true
  end.

Fixpoint pack_codes (net : bool) (cs : list fcode) (vs : list Z) : res bytes :=
  match cs, vs with
  | [], [] => Ok []
  | FX :: cs, vs => r ← pack_codes net cs vs; Ok (x00 :: r)
  | FU n :: cs, v :: vs =>
      if in_range (FU n) v
      then r ← pack_codes net cs vs; Ok (uenc net n v ++ r)
      else Err StructError
  | FS n :: cs, v :: vs =>
      if in_range (FS n) v
      then r ← pack_codes net cs vs; Ok (uenc net n (v mod 256 ^ Z.of_nat n) ++ r)
      else Err StructError
  | _, _ => Err StructError
  end.

Fixpoint unpack_codes (net : bool) (cs : list fcode) (s : bytes) : list Z :=
  match cs with
  | [] => []
  | FX :: cs => unpack_codes net cs (drop 1 s)
  | FU n :: cs => udec net (take n s) :: unpack_codes net cs (drop n s)
  | FS n :: cs => to_signed n (udec net (take n s)) :: unpack_codes net cs (drop n s)
  end.

Definition struct_pack (fmt : String.string) (vs : list Z) : res bytes :=
  match parse_fmt fmt with
  | Some (net, cs) => pack_codes net cs vs
  | None => Err StructError
  end.
Arguments struct_pack fmt%_string vs.

Definition struct_calcsize (fmt : String.string) : Z :=
  match parse_fmt fmt with
  | Some (_, cs) => Z.of_nat (codes_size cs)
  | None => 0
  end.
Arguments struct_calcsize fmt%_string.

(** Offsets are non-negative wherever the sources call it. *)
Definition struct_unpack_from (fmt : String.string) (s : bytes) (off : Z) : res (list Z) :=
  match parse_fmt fmt with
  | Some (net, cs) =>
      if zlen s - off <? Z.of_nat (codes_size cs) then Err StructError
      else Ok (unpack_codes net cs (drop (Z.to_nat off) s))
  | None => Err StructError
  end.
Arguments struct_unpack_from fmt%_string s off.

(** [struct.unpack] wants a buffer of exactly the format's size. *)
Definition struct_unpack (fmt : String.string) (s : bytes) : res (list Z) :=
  if zlen s =? struct_calcsize fmt then struct_unpack_from fmt s 0 else Err StructError.
Arguments struct_unpack fmt%_string s.

(** * Laws *)

(** The arguments a format accepts. *)
Fixpoint codes_accept (cs : list fcode) (vs : list Z) : Prop :=
  match cs, vs with
  | [], [] => True
  | FX :: cs, vs => codes_accept cs vs
  | FU n :: cs, v :: vs => 0 <= v < 256 ^ Z.of_nat n /\ codes_accept cs vs
  | FS n :: cs, v :: vs =>
      - (256 ^ Z.of_nat n / 2) <= v < 256 ^ Z.of_nat n / 2 /\ codes_accept cs vs
  | _, _ => False
  end.

Definition fmt_accepts (fmt : String.string) (vs : list Z) : Prop :=
  match parse_fmt fmt with
  | Some (_, cs) => codes_accept cs vs
  | None => False
  end.
Arguments fmt_accepts fmt%_string vs.

Lemma uenc_length net n z : length (uenc net n z) = n.
Proof. destruct net; [apply be_enc_length | apply le_enc_length]. Qed.

Lemma udec_uenc net n z : 0 <= z < 256 ^ Z.of_nat n -> udec net (uenc net n z) = z.
Proof.
  intros H. destruct net; simpl; rewrite ?be_dec_enc, ?le_dec_enc;
    by apply Z.mod_small.
Qed.

Lemma udec_range net s : 0 <= udec net s < 256 ^ Z.of_nat (length s).
Proof. destruct net; [apply be_dec_range | apply le_dec_range]. Qed.

Lemma pow256_even n : (0 < n)%nat -> 256 ^ Z.of_nat n = 2 * (256 ^ Z.of_nat n / 2).
Proof.
  intros. replace n with (S (n - 1)) by lia.
  rewrite Nat2Z.inj_succ, Z.pow_succ_r by lia.
  set (k := 256 ^ _). replace (256 * k) with (128 * k * 2) by lia.
  rewrite Z.div_mul by lia. lia.
Qed.

Lemma to_signed_mod n v : (0 < n)%nat ->
  - (256 ^ Z.of_nat n / 2) <= v < 256 ^ Z.of_nat n / 2 ->
  to_signed n (v mod 256 ^ Z.of_nat n) = v.
Proof.
  intros Hn Hv. unfold to_signed. pose proof (pow256_even n Hn) as He.
  set (k := 256 ^ Z.of_nat n) in *.
  destruct (Z_lt_le_dec v 0).
  - replace (v mod k) with (v + k).
    + rewrite (proj2 (Z.ltb_ge _ _)) by lia. lia.
    + symmetry. replace v with (v + k + (-1) * k) at 1 by lia.
      rewrite Z_mod_plus_full. apply Z.mod_small. lia.
  - rewrite Z.mod_small by lia. rewrite (proj2 (Z.ltb_lt _ _)) by lia. done.
Qed.

(** Formats whose signed codes have at least one byte (all of them do). *)
Definition code_ok (c : fcode) : Prop := (0 < code_size c)%nat.

Lemma parse_fmt_ok fmt net cs : parse_fmt fmt = Some (net, cs) -> Forall code_ok cs.
Proof.
  assert (forall net s cs, codes_of_string net s = Some cs -> Forall code_ok cs) as Hc.
  { intros net' s. induction s as [|c s IH]; intros cs' H; simpl in H.
    - simplify_eq. constructor.
    - destruct (code_of_ascii net' c) as [f|] eqn:Ec; simplify_option_eq.
      constructor; [|by apply IH]. unfold code_of_ascii in Ec.
      repeat case_match; simplify_eq; unfold code_ok; simpl; lia. }
  assert (forall net' s, (cs' ← codes_of_string net' s; Some (net', cs'))
    = Some (net, cs) -> Forall code_ok cs) as Hp.
  { intros net' s H. destruct (codes_of_string net' s) eqn:E; [|done].
    simpl in H. simplify_eq. eauto. }
  intros H. unfold parse_fmt in H. repeat case_match; eauto.
Qed.

Lemma pack_codes_ok net cs vs : codes_accept cs vs ->
  exists s, pack_codes net cs vs = Ok s /\ length s = codes_size cs.
Proof.
  revert vs; induction cs as [|c cs IH]; intros vs H.
  - destruct vs; [|done]. by exists [].
  - destruct c as [n|n|]; [destruct vs as [|v vs]; [done|]..|];
      simpl in H |- *;
      [destruct H as [Hv (s & E & L)%IH]..|destruct (IH _ H) as (s & E & L)];
      rewrite ?E.
    1,2: rewrite (proj2 (andb_true_iff _ _)) by (rewrite Z.leb_le, Z.ltb_lt; lia);
      eexists; split; [done|];
      rewrite length_app, uenc_length, L; done.
    eexists; split; [done|]. simpl. by rewrite L.
Qed.

Lemma pack_codes_inv net cs vs s : pack_codes net cs vs = Ok s -> codes_accept cs vs.
Proof.
  revert vs s; induction cs as [|c cs IH]; intros vs s H.
  - by destruct vs.
  - destruct c as [n|n|]; [destruct vs as [|v vs]; [done|]..|]; simpl in H |- *.
    1,2: destruct (_ && _) eqn:E in H; [|done];
      destruct (pack_codes net cs vs) eqn:E'; [|done];
      apply andb_true_iff in E as [?%Z.leb_le ?%Z.ltb_lt]; split; [lia|eauto].
    destruct (pack_codes net cs vs) eqn:E'; [eauto|done].
Qed.

Lemma unpack_pack_codes net cs vs s rest : Forall code_ok cs ->
  pack_codes net cs vs = Ok s -> unpack_codes net cs (s ++ rest) = vs.
Proof.
  intros Hok. revert vs s; induction Hok as [|c cs Hc _ IH]; intros vs s H.
  - by destruct vs.
  - destruct c as [n|n|]; [destruct vs as [|v vs]; [done|]..|]; simpl in H |- *.
    1,2: destruct (_ && _) eqn:E in H; [|done];
      destruct (pack_codes net cs vs) as [r|] eqn:E'; [|done]; simpl in H; simplify_eq;
      apply andb_true_iff in E as [?%Z.leb_le ?%Z.ltb_lt];
      rewrite <-app_assoc, take_app_length', drop_app_length' by (by rewrite uenc_length);
      rewrite udec_uenc;
      [rewrite ?to_signed_mod by (done || lia); f_equal; by apply IH|].
    + done.
    + apply Z.mod_pos_bound. lia.
    + destruct (pack_codes net cs vs) as [r|] eqn:E'; [|done]. simpl in H. simplify_eq.
      simpl. rewrite drop_0. by apply IH.
Qed.

(** Packing succeeds exactly on the accepted arguments. *)
Lemma struct_pack_ok fmt vs : fmt_accepts fmt vs ->
  exists s, struct_pack fmt vs = Ok s /\ zlen s = struct_calcsize fmt.
Proof.
  unfold fmt_accepts, struct_pack, struct_calcsize, zlen.
  destruct (parse_fmt fmt) as [[net cs]|]; [|done].
  intros (s & E & L)%(pack_codes_ok net). exists s. split; [done|]. by rewrite L.
Qed.

Lemma struct_pack_inv fmt vs s : struct_pack fmt vs = Ok s -> fmt_accepts fmt vs.
Proof.
  unfold fmt_accepts, struct_pack.
  destruct (parse_fmt fmt) as [[net cs]|]; [|done]. apply pack_codes_inv.
Qed.

Lemma struct_pack_len fmt vs s : struct_pack fmt vs = Ok s -> zlen s = struct_calcsize fmt.
Proof.
  intros H. destruct (struct_pack_ok fmt vs) as (s' & E & L); [by eapply struct_pack_inv|].
  congruence.
Qed.

Lemma struct_pack_err fmt vs : ~ fmt_accepts fmt vs -> struct_pack fmt vs = Err StructError.
Proof.
  unfold fmt_accepts, struct_pack. destruct (parse_fmt fmt) as [[net cs]|]; [|done].
  revert vs; induction cs as [|c cs IH]; intros vs H.
  - by destruct vs.
  - destruct c as [n|n|]; [destruct vs as [|v vs]; [done|]..|]; simpl in H |- *.
    1,2: destruct (_ && _) eqn:E; [|done];
      apply andb_true_iff in E as [?%Z.leb_le ?%Z.ltb_lt];
      rewrite IH; [done|]; intros ?; apply H; split; [lia|done].
    by rewrite IH.
Qed.

(** Reading back what was packed, at the head of a buffer. *)
Lemma struct_unpack_hit fmt vs s rest :
  struct_pack fmt vs = Ok s -> struct_unpack_from fmt (s ++ rest) 0 = Ok vs.
Proof.
  intros H. pose proof (struct_pack_len _ _ _ H) as L. revert H L.
  unfold struct_unpack_from, struct_pack, struct_calcsize.
  destruct (parse_fmt fmt) as [[net cs]|] eqn:E; [|done]. intros H L.
  rewrite zlen_app, (proj2 (Z.ltb_ge _ _)) by (pose proof (zlen_nonneg rest); lia).
  rewrite drop_0. f_equal. eapply unpack_pack_codes; [|done]. by eapply parse_fmt_ok.
Qed.

(** Skipping a prefix of known length. *)
Lemma struct_unpack_skip fmt k s off : zlen k <= off ->
  struct_unpack_from fmt (k ++ s) off = struct_unpack_from fmt s (off - zlen k).
Proof.
  intros H. unfold struct_unpack_from. destruct (parse_fmt fmt) as [[net cs]|]; [|done].
  rewrite zlen_app. replace (zlen k + zlen s - off) with (zlen s - (off - zlen k)) by lia.
  rewrite drop_app_ge by (unfold zlen in H; lia).
  assert (Z.to_nat off - length k = Z.to_nat (off - zlen k))%nat as -> by (unfold zlen in *; lia). done.
Qed.

Lemma struct_unpack_pack fmt vs s : struct_pack fmt vs = Ok s -> struct_unpack fmt s = Ok vs.
Proof.
  intros H. unfold struct_unpack. rewrite (struct_pack_len _ _ _ H), Z.eqb_refl.
  rewrite <-(app_nil_r s). by apply struct_unpack_hit.
Qed.

(** The first eight bytes of a buffer as an OpenFlow header. *)
Lemma struct_unpack_BBHL a b c d e f g h s :
  struct_unpack_from "!BBHL" (a :: b :: c :: d :: e :: f :: g :: h :: s) 0 =
    Ok [Z_of_byte a; Z_of_byte b; be_dec [c; d]; be_dec [e; f; g; h]].
Proof.
  unfold struct_unpack_from. change (parse_fmt "!BBHL") with (Some (true, [FU 1; FU 1; FU 2; FU 4])).
  cbv beta iota. rewrite (proj2 (Z.ltb_ge _ _)) by (unfold zlen; cbn; lia).
  transitivity (Ok [be_dec [a]; be_dec [b]; be_dec [c; d]; be_dec [e; f; g; h]]); [reflexivity|].
  by rewrite !(be_dec_cons _ []), !Z.mul_1_r, !Z.add_0_r.
Qed.

(** ** One-value formats, with their result spelled out *)

(** Unpacking a buffer of the format's size. *)
Lemma struct_unpack_codes fmt net cs s : parse_fmt fmt = Some (net, cs) -> zlen s = Z.of_nat (codes_size cs) ->
  struct_unpack fmt s = Ok (unpack_codes net cs s).
Proof.
  intros E H. unfold struct_unpack, struct_unpack_from, struct_calcsize. rewrite E, H, Z.eqb_refl.
  by rewrite (proj2 (Z.ltb_ge _ _)) by lia.
Qed.

Lemma struct_pack_I z : 0 <= z < 2 ^ 32 -> struct_pack "I" [z] = Ok (le_enc 4 z).
Proof.
  intros H. unfold struct_pack. simpl.
  rewrite (proj2 (andb_true_iff _ _)) by (rewrite Z.leb_le, Z.ltb_lt; lia). done.
Qed.

Lemma struct_pack_netI z : 0 <= z < 2 ^ 32 -> struct_pack "!I" [z] = Ok (be_enc 4 z).
Proof.
  intros H. unfold struct_pack. simpl.
  rewrite (proj2 (andb_true_iff _ _)) by (rewrite Z.leb_le, Z.ltb_lt; lia).
  done.
Qed.

Lemma struct_pack_i z : - 2 ^ 31 <= z < 2 ^ 31 ->
  struct_pack "i" [z] = Ok (le_enc 4 (z mod 2 ^ 32)).
Proof.
  intros H.
  change (struct_pack "i" [z]) with
    (if in_range (FS 4) z then r ← Ok []; Ok (le_enc 4 (z mod 2 ^ 32) ++ r)
     else Err StructError).
  assert (in_range (FS 4) z = true) as ->; [|done].
  apply andb_true_iff. rewrite Z.leb_le, Z.ltb_lt.
  change (256 ^ Z.of_nat 4 / 2) with (2 ^ 31). lia.
Qed.

Lemma struct_unpack_i s : length s = 4%nat ->
  struct_unpack "i" s = Ok [to_signed 4 (le_dec s)].
Proof.
  intros H. by destruct s as [|c0 [|c1 [|c2 [|c3 [|]]]]].
Qed.

Lemma struct_unpack_neti s : length s = 4%nat ->
  struct_unpack "!i" s = Ok [to_signed 4 (be_dec s)].
Proof.
  intros H. by destruct s as [|c0 [|c1 [|c2 [|c3 [|]]]]].
Qed.

(** [n] codes B read the next [n] bytes as numbers. *)
Lemma unpack_codes_B net n s : (n <= length s)%nat ->
  unpack_codes net (replicate n (FU 1)) s = Z_of_byte <$> take n s.
Proof.
  revert s; induction n as [|n IH]; intros s H; [done|].
  destruct s as [|c s]; [simpl in H; lia|]. simpl in H |- *.
  rewrite drop_0, IH by lia. f_equal.
  destruct net; unfold udec, be_dec; simpl; lia.
Qed.

Lemma struct_unpack_6B k s rest off : zlen k = off -> length s = 6%nat ->
  struct_unpack_from "!BBBBBB" (k ++ s ++ rest) off = Ok (Z_of_byte <$> s).
Proof.
  intros <- H. rewrite struct_unpack_skip, Z.sub_diag by lia.
  unfold struct_unpack_from. simpl parse_fmt. cbv iota beta.
  rewrite zlen_app, (proj2 (Z.ltb_ge _ _)) by
    (unfold zlen; rewrite H; simpl; lia).
  change [FU 1; FU 1; FU 1; FU 1; FU 1; FU 1] with (replicate 6 (FU 1)).
  change (Z.to_nat 0) with 0%nat. rewrite drop_0.
  rewrite unpack_codes_B by (rewrite length_app; lia).
  by rewrite take_app_length'.
Qed.

(** ** Reading less than was packed *)

#[export] Instance fcode_eq_dec : EqDecision fcode.
Proof. solve_decision. Defined.

(** [g] reads the first codes of [f]; its number of values. *)
Definition fmt_prefix (g f : String.string) : bool :=
  match parse_fmt g, parse_fmt f with
  | Some (n, cs), Some (n', cs') => bool_decide (n = n') && bool_decide (cs = take (length cs) cs')
  | _, _ => false
  end.
Arguments fmt_prefix (g f)%_string.
Definition codes_arity (cs : list fcode) : nat := length (filter (.≠ FX) cs).
Definition fmt_arity (g : String.string) : nat :=
  match parse_fmt g with Some (_, cs) => codes_arity cs | None => 0 end.
Arguments fmt_arity g%_string.

Lemma unpack_codes_app net cs cs' s :
  unpack_codes net (cs ++ cs') s = unpack_codes net cs s ++ unpack_codes net cs' (drop (codes_size cs) s).
Proof.
  revert s; induction cs as [|[n|n|] cs IH]; intros s; cbn [app unpack_codes].
  - unfold codes_size. simpl. by rewrite drop_0.
  - rewrite IH, drop_drop. by unfold codes_size.
  - rewrite IH, drop_drop. by unfold codes_size.
  - rewrite IH, drop_drop. by unfold codes_size.
Qed.

Lemma unpack_codes_length net cs s : length (unpack_codes net cs s) = codes_arity cs.
Proof. revert s; induction cs as [|[n|n|] cs IH]; intros s; simpl; rewrite ?IH; done. Qed.

Lemma codes_size_take n cs : (codes_size (take n cs) <= codes_size cs)%nat.
Proof.
  unfold codes_size. revert n; induction cs as [|c cs IH]; intros [|n]; simpl; try lia.
  specialize (IH n). lia.
Qed.

Lemma struct_unpack_prefix g f vs s rest : fmt_prefix g f = true ->
  struct_pack f vs = Ok s -> struct_unpack_from g (s ++ rest) 0 = Ok (take (fmt_arity g) vs).
Proof.
  intros Hp H. pose proof (struct_pack_len _ _ _ H) as L. revert Hp H L.
  unfold struct_unpack_from, struct_pack, struct_calcsize, fmt_prefix, fmt_arity.
  destruct (parse_fmt g) as [[n cs]|]; [|done].
  destruct (parse_fmt f) as [[n' cs']|] eqn:E; [|done].
  rewrite andb_true_iff, !bool_decide_eq_true. intros [<- Hcs] H L.
  pose proof (codes_size_take (length cs) cs') as Hs. rewrite <-Hcs in Hs.
  rewrite zlen_app, (proj2 (Z.ltb_ge _ _)) by (pose proof (zlen_nonneg rest); lia).
  change (Z.to_nat 0) with 0%nat. rewrite drop_0. f_equal.
  pose proof (unpack_pack_codes n cs' vs s rest (parse_fmt_ok _ _ _ E) H) as <-.
  rewrite <-(take_drop (length cs) cs'), <-Hcs, unpack_codes_app.
  by rewrite take_app_length' by (symmetry; apply unpack_codes_length).
Qed.

(** A signed trailing word is the two's complement of an unsigned one. *)
Lemma struct_pack_HHl a b v : - 2 ^ 31 <= v < 2 ^ 31 ->
  struct_pack "!HHl" [a; b; v] = struct_pack "!HHL" [a; b; v mod 2 ^ 32].
Proof.
  intros Hv. unfold struct_pack.
  change (parse_fmt "!HHl") with (Some (true, [FU 2; FU 2; FS 4])).
  change (parse_fmt "!HHL") with (Some (true, [FU 2; FU 2; FU 4])).
  cbn [pack_codes]. destruct (in_range (FU 2) a); [|done]. destruct (in_range (FU 2) b); [|done].
  assert (in_range (FS 4) v = true) as ->.
  { apply andb_true_iff. rewrite Z.leb_le, Z.ltb_lt. change (256 ^ Z.of_nat 4 / 2) with (2 ^ 31). lia. }
  assert (in_range (FU 4) (v mod 2 ^ 32) = true) as ->; [|done].
  apply andb_true_iff. rewrite Z.leb_le, Z.ltb_lt. apply Z.mod_pos_bound. lia.
Qed.

(** What is read is always in range. *)
Lemma to_signed_bounds n z : (0 < n)%nat -> 0 <= z < 256 ^ Z.of_nat n ->
  - (256 ^ Z.of_nat n / 2) <= to_signed n z < 256 ^ Z.of_nat n / 2.
Proof.
  intros Hn Hz. unfold to_signed. pose proof (pow256_even n Hn).
  destruct (Z.ltb_spec z (256 ^ Z.of_nat n / 2)); lia.
Qed.

Lemma unpack_codes_accept net cs s : Forall code_ok cs -> (codes_size cs <= length s)%nat ->
  codes_accept cs (unpack_codes net cs s).
Proof.
  intros Hok. revert s; induction Hok as [|c cs Hc _ IH]; intros s L; [done|].
  unfold codes_size in L. simpl in L. fold (codes_size cs) in L.
  destruct c as [n|n|]; cbn [unpack_codes codes_accept]; simpl in L, Hc.
  - pose proof (udec_range net (take n s)) as R. rewrite length_take, Nat.min_l in R by lia.
    split; [done|]. apply IH. rewrite length_drop. lia.
  - pose proof (udec_range net (take n s)) as R. rewrite length_take, Nat.min_l in R by lia.
    split; [by apply to_signed_bounds|]. apply IH. rewrite length_drop. lia.
  - apply IH. rewrite length_drop. lia.
Qed.

Lemma struct_unpack_accepts fmt s off vs : 0 <= off ->
  struct_unpack_from fmt s off = Ok vs -> fmt_accepts fmt vs.
Proof.
  unfold struct_unpack_from, fmt_accepts. intros Ho.
  destruct (parse_fmt fmt) as [[net cs]|] eqn:E; [|done].
  destruct (Z.ltb_spec (zlen s - off) (Z.of_nat (codes_size cs))); [done|]. intros [= <-].
  apply unpack_codes_accept; [by eapply parse_fmt_ok|]. rewrite length_drop. unfold zlen in *. lia.
Qed.

(** Both fail with [struct.error] only. *)
Lemma struct_unpack_from_err fmt s off e : struct_unpack_from fmt s off = Err e -> e = StructError.
Proof. unfold struct_unpack_from. repeat case_match; congruence. Qed.

Lemma struct_unpack_err fmt s e : struct_unpack fmt s = Err e -> e = StructError.
Proof. unfold struct_unpack. case_match; [apply struct_unpack_from_err|congruence]. Qed.

Lemma struct_pack_err_inv fmt vs e : struct_pack fmt vs = Err e -> e = StructError.
Proof.
  unfold struct_pack. destruct (parse_fmt fmt) as [[net cs]|]; [|congruence].
  revert vs; induction cs as [|c cs IH]; intros vs.
  - destruct vs; simpl; congruence.
  - destruct c as [n|n|]; [destruct vs as [|v vs]; [simpl; congruence|]..|]; simpl;
      try (destruct (_ && _); [|congruence]);
      destruct (pack_codes net cs vs) eqn:E; simpl; try congruence;
      intros [= <-]; eauto.
Qed.

(** Packing in two parts. *)
Lemma pack_codes_app net cs1 cs2 vs1 vs2 s : codes_arity cs1 = length vs1 ->
  pack_codes net (cs1 ++ cs2) (vs1 ++ vs2) = Ok s <->
  exists s1 s2, s = s1 ++ s2 /\ pack_codes net cs1 vs1 = Ok s1 /\ pack_codes net cs2 vs2 = Ok s2.
Proof.
  revert vs1 s; induction cs1 as [|c cs1 IH]; intros vs1 s Ha.
  - destruct vs1; [|done]. cbn. split; [by exists [], s|]. by intros (? & ? & -> & [= <-] & ->).
  - destruct c as [n|n|]; [destruct vs1 as [|v vs1]; [done|]..|]; cbn in Ha |- *.
    1,2: injection Ha as Ha; destruct (_ && _); [|by split; [|intros (? & ? & _ & ? & _)]];
      pose proof (fun s => IH vs1 s Ha) as IH'; destruct (pack_codes net (cs1 ++ cs2) (vs1 ++ vs2)) as [r|];
      [destruct (proj1 (IH' r) eq_refl) as (s1 & s2 & -> & -> & ->); cbn; split;
        [intros [= <-]; eexists _, s2; by rewrite app_assoc|
         intros (? & ? & -> & [= <-] & [= <-]); by rewrite app_assoc]|
       cbn; split; [done|]; intros (s1 & s2 & -> & H1 & H2);
       destruct (pack_codes net cs1 vs1) as [r1|] eqn:E1; [|done];
       by specialize (proj2 (IH' (r1 ++ s2)) ltac:(eauto)) as [=]].
    pose proof (fun s => IH vs1 s Ha) as IH'. destruct (pack_codes net (cs1 ++ cs2) (vs1 ++ vs2)) as [r|].
    + destruct (proj1 (IH' r) eq_refl) as (s1 & s2 & -> & -> & ->). cbn.
      split; [intros [= <-]; by eexists (x00 :: s1), s2|by intros (? & ? & -> & [= <-] & [= <-])].
    + cbn; split; [done|]; intros (s1 & s2 & -> & H1 & H2).
      destruct (pack_codes net cs1 vs1) as [r1|] eqn:E1; [|done].
      by specialize (proj2 (IH' (r1 ++ s2)) ltac:(eauto)) as [=].
Qed.

Lemma pack_codes_len net cs vs s : pack_codes net cs vs = Ok s -> length s = codes_size cs.
Proof.
  intros H. destruct (pack_codes_ok net cs vs) as (s' & E & L); [by eapply pack_codes_inv|]. congruence.
Qed.

(** A field in the middle: the bytes around it do not depend on its value. *)
Lemma struct_pack_hole fmt cs1 n cs2 vs1 v vs2 s :
  parse_fmt fmt = Some (true, cs1 ++ FU n :: cs2) -> codes_arity cs1 = length vs1 ->
  struct_pack fmt (vs1 ++ v :: vs2) = Ok s ->
  exists pre post, length pre = codes_size cs1 /\ length post = codes_size cs2 /\
    forall v, 0 <= v < 256 ^ Z.of_nat n -> struct_pack fmt (vs1 ++ v :: vs2) = Ok (pre ++ be_enc n v ++ post).
Proof.
  intros Hf Ha. unfold struct_pack. rewrite Hf. rewrite pack_codes_app by done.
  intros (pre & s2 & _ & H1 & H2). cbn in H2. destruct (_ && _) in H2; [|done].
  destruct (pack_codes true cs2 vs2) as [post|] eqn:E; [|done].
  exists pre, post. split; [by eapply pack_codes_len|]. split; [by eapply pack_codes_len|].
  intros w Hw. apply pack_codes_app; [done|]. exists pre, (be_enc n w ++ post).
  split; [done|]. split; [done|]. cbn [pack_codes]. unfold in_range.
  rewrite (proj2 (andb_true_iff _ _)) by (rewrite Z.leb_le, Z.ltb_lt; lia). by rewrite E.
Qed.

(** A format in two parts. *)
Lemma struct_pack_split fmt fmt1 fmt2 cs1 cs2 vs1 vs2 s :
  parse_fmt fmt = Some (true, cs1 ++ cs2) -> parse_fmt fmt1 = Some (true, cs1) ->
  parse_fmt fmt2 = Some (true, cs2) -> codes_arity cs1 = length vs1 ->
  struct_pack fmt (vs1 ++ vs2) = Ok s ->
  exists s1 s2, s = s1 ++ s2 /\ struct_pack fmt1 vs1 = Ok s1 /\ struct_pack fmt2 vs2 = Ok s2.
Proof.
  intros E E1 E2 Ha. unfold struct_pack. rewrite E, E1, E2. by apply pack_codes_app.
Qed.

Lemma struct_pack_BB a b s : struct_pack "!BB" [a; b] = Ok s ->
  s = [byte_of_Z a; byte_of_Z b] /\ 0 <= a < 256 /\ 0 <= b < 256.
Proof.
  intros H. pose proof (struct_pack_inv _ _ _ H) as Ha. cbn in Ha. split; [|lia].
  unfold struct_pack in H. cbn in H. destruct (_ && _) in H; [|done]. destruct (_ && _) in H; [|done].
  cbn in H. congruence.
Qed.

Lemma struct_pack_B a s : struct_pack "!B" [a] = Ok s -> s = [byte_of_Z a] /\ 0 <= a < 256.
Proof.
  intros H. pose proof (struct_pack_inv _ _ _ H) as Ha. cbn in Ha. split; [|lia].
  unfold struct_pack in H. cbn in H. destruct (_ && _) in H; [|done]. cbn in H. congruence.
Qed.

#[global] Opaque struct_pack struct_unpack_from.
