(* ===== verification/Checksum.v ===== *)
(** The internet checksum of [lib/packet/packet_utils.py], and its meaning: the
    complement of the one's complement sum of the 16-bit words.  The code adds up words
    in the byte order of the (little-endian) host and swaps the result. *)
From S2P Require Import Prelude.
From S2P Require Import PyStruct.

(** [array.array('H', data)] on a little-endian host; an odd last byte is left out. *)
Fixpoint host_words (data : bytes) : list Z :=
  match data with
  | a :: b :: data => (Z_of_byte a + 256 * Z_of_byte b) :: host_words data
  | _ => []
  end.

(** [socket.ntohs]. *)
Definition ntohs (x : Z) : Z := Z.lor (Z.shiftl (Z.land x 0xff) 8) (Z.land (Z.shiftr x 8) 0xff).

(** The words but the one to skip, from index [i]. *)
Fixpoint add_words (start i : Z) (skip_word : option Z) (ws : list Z) : Z :=
  match ws with
  | [] => start
  | w :: ws =>
      let start := if bool_decide (skip_word = Some i) then start else start + w in
      add_words start (i + 1) skip_word ws
  end.

Definition checksum (data : bytes) (start : Z) (skip_word : option Z) : Z :=
  let odd := negb (zlen data mod 2 =? 0) in
  let start := add_words start 0 skip_word (host_words data) in
  let start := if odd then start + match last data with Some c => Z_of_byte c | None => 0 end
               else start in
  let start := Z.shiftr start 16 + Z.land start 0xffff in
  let start := start + Z.shiftr start 16 in
  ntohs (Z.land (Z.lnot start) 0xffff).

(** * Meaning *)

(** The words in network order, an odd last byte padded with zero. *)
Fixpoint net_words (data : bytes) : list Z :=
  match data with
  | a :: b :: data => (256 * Z_of_byte a + Z_of_byte b) :: net_words data
  | [a] => [256 * Z_of_byte a]
  | [] => []
  end.
Definition net_sum (data : bytes) : Z := fold_right Z.add 0 (net_words data).

(** The one's complement sum: carries come back at the low end; zero only of zero. *)
Definition ones_sum (n : Z) : Z := if n =? 0 then 0 else 1 + (n - 1) mod 65535.

(** The words of the host, with the odd byte. *)
Fixpoint host_sum (data : bytes) : Z :=
  match data with
  | a :: b :: data => Z_of_byte a + 256 * Z_of_byte b + host_sum data
  | [a] => Z_of_byte a
  | [] => 0
  end.

Lemma pair_ind (P : bytes -> Prop) : P [] -> (forall a, P [a]) ->
  (forall a b l, P l -> P (a :: b :: l)) -> forall l, P l.
Proof.
  intros H0 H1 H2. enough (forall l, P l /\ forall a, P (a :: l)) as H by (intros; apply H).
  induction l as [|b l [IH1 IH2]]; [auto|]. split; [apply IH2|]. intros a. by apply H2.
Qed.

Lemma add_words_none start i ws : add_words start i None ws = start + fold_right Z.add 0 ws.
Proof.
  revert start i; induction ws as [|w ws IH]; intros start i; cbn [add_words fold_right]; [lia|].
  rewrite bool_decide_eq_false_2 by done. rewrite IH. lia.
Qed.

Lemma host_sum_words data :
  fold_right Z.add 0 (host_words data) +
    (if negb (zlen data mod 2 =? 0) then match last data with Some c => Z_of_byte c | None => 0 end else 0)
  = host_sum data.
Proof.
  induction data as [|a|a b l IH] using pair_ind; [reflexivity..|].
  cbn [host_words fold_right host_sum]. rewrite <-IH.
  assert (zlen (a :: b :: l) mod 2 = zlen l mod 2) as ->.
  { unfold zlen. cbn [length]. rewrite !Nat2Z.inj_succ.
    replace (Z.succ (Z.succ (Z.of_nat (length l)))) with (Z.of_nat (length l) + 1 * 2) by lia.
    by rewrite Z_mod_plus_full. }
  destruct l as [|c l]; [change (zlen [] mod 2) with 0; cbn; lia|]. change (last (a :: b :: c :: l)) with (last (c :: l)).
  lia.
Qed.

Lemma host_sum_bound data : 0 <= host_sum data <= 65535 * ((zlen data + 1) / 2).
Proof.
  induction data as [|a|a b l IH] using pair_ind; [change ((zlen [] + 1) / 2) with 0; cbn; lia| |].
  - cbn [host_sum]. pose proof (Z_of_byte_range a). change ((zlen [a] + 1) / 2) with 1. lia.
  - cbn [host_sum]. pose proof (Z_of_byte_range a). pose proof (Z_of_byte_range b).
    assert ((zlen (a :: b :: l) + 1) / 2 = (zlen l + 1) / 2 + 1) as ->; [|lia].
    unfold zlen. cbn [length]. rewrite !Nat2Z.inj_succ.
    replace (Z.succ (Z.succ (Z.of_nat (length l))) + 1) with (Z.of_nat (length l) + 1 + 1 * 2) by lia.
    rewrite Z.div_add by lia. lia.
Qed.

(** A shift by eight bits is multiplication by 256, and 256 times 256 is one. *)
Lemma net_host_sum data : (256 * host_sum data - net_sum data) mod 65535 = 0.
Proof.
  unfold net_sum. induction data as [|a|a b l IH] using pair_ind; [done| |].
  - cbn [host_sum net_words fold_right]. by replace (256 * Z_of_byte a - (256 * Z_of_byte a + 0)) with 0 by lia.
  - cbn [host_sum net_words fold_right].
    set (s := fold_right Z.add 0 (net_words l)) in *.
    replace (256 * (Z_of_byte a + 256 * Z_of_byte b + host_sum l) - (256 * Z_of_byte a + Z_of_byte b + s))
      with (256 * host_sum l - s + Z_of_byte b * 65535) by lia.
    by rewrite Z_mod_plus_full.
Qed.

Lemma net_sum_nonneg data : 0 <= net_sum data.
Proof.
  unfold net_sum. induction data as [|a|a b l IH] using pair_ind; cbn [net_words fold_right]; [lia| |].
  - pose proof (Z_of_byte_range a). lia.
  - pose proof (Z_of_byte_range a). pose proof (Z_of_byte_range b). lia.
Qed.

Lemma net_sum_zero data : net_sum data = 0 <-> host_sum data = 0.
Proof.
  induction data as [|a|a b l IH] using pair_ind; [done| |];
    unfold net_sum; cbn [net_words fold_right host_sum].
  - pose proof (Z_of_byte_range a). lia.
  - pose proof (Z_of_byte_range a). pose proof (Z_of_byte_range b). pose proof (host_sum_bound l).
    pose proof (net_sum_nonneg l). fold (net_sum l). lia.
Qed.

Lemma ntohs_swap x : 0 <= x < 65536 -> ntohs x = 256 * (x mod 256) + x / 256.
Proof.
  intros Hx. unfold ntohs. change 0xff with (Z.ones 8). rewrite !Z.land_ones by lia.
  rewrite Z.shiftr_div_pow2 by lia. change (2 ^ 8) with 256.
  rewrite lor_concat by (change (2 ^ 8) with 256; Z.to_euclidean_division_equations; lia).
  change (2 ^ 8) with 256. rewrite (Z.mod_small (x / 256)); Z.to_euclidean_division_equations; lia.
Qed.

Lemma land_ffff x : Z.land x 0xffff = x mod 65536.
Proof. change 0xffff with (Z.ones 16). by rewrite Z.land_ones. Qed.

(** Folding twice computes the one's complement sum of up to 2^16 words. *)
Lemma fold_ones s : 0 <= s < 2 ^ 32 ->
  let s1 := Z.shiftr s 16 + Z.land s 0xffff in
  Z.land (s1 + Z.shiftr s1 16) 0xffff = ones_sum s.
Proof.
  intros Hs s1. unfold ones_sum. subst s1. rewrite !land_ffff, !Z.shiftr_div_pow2 by lia. change (2 ^ 16) with 65536. change (2 ^ 32) with 4294967296 in Hs.
  destruct (Z.eqb_spec s 0) as [->|]; [done|].
  pose proof (Z.div_mod s 65536 ltac:(lia)). pose proof (Z.mod_pos_bound s 65536 ltac:(lia)).
  assert (0 <= s / 65536 < 65536) by (Z.to_euclidean_division_equations; lia).
  set (h := s / 65536) in *. set (l := s mod 65536) in *.
  assert ((h + l) / 65536 = if 65536 <=? h + l then 1 else 0) as ->.
  { destruct (Z.leb_spec 65536 (h + l)); Z.to_euclidean_division_equations; lia. }
  replace (s - 1) with (h + l - 1 + h * 65535) by lia. rewrite Z_mod_plus_full.
  destruct (Z.leb_spec 65536 (h + l)).
  - replace (h + l + 1) with (h + l + 1 - 65536 + 1 * 65536) by lia. rewrite Z_mod_plus_full.
    replace (h + l - 1) with (h + l - 65536 + 1 * 65535) by lia. rewrite Z_mod_plus_full.
    rewrite !Z.mod_small by lia. lia.
  - rewrite Z.add_0_r. destruct (Z.eq_dec (h + l) 0); [lia|]. rewrite !Z.mod_small by lia. lia.
Qed.

Lemma ones_sum_range n : 0 <= n -> 0 <= ones_sum n <= 65535.
Proof.
  intros Hn. unfold ones_sum. destruct (Z.eqb_spec n 0); [lia|].
  pose proof (Z.mod_pos_bound (n - 1) 65535 ltac:(lia)). lia.
Qed.

(** The one's complement sum is the remainder modulo 65535, with 65535 for the
    multiples that are not zero. *)
Lemma ones_sum_mod n : 0 <= n -> (n - ones_sum n) mod 65535 = 0.
Proof.
  intros Hn. unfold ones_sum. destruct (Z.eqb_spec n 0) as [->|]; [done|].
  pose proof (Z.div_mod (n - 1) 65535 ltac:(lia)) as Hd.
  replace (n - (1 + (n - 1) mod 65535)) with (((n - 1) / 65535) * 65535) by lia.
  apply Z_mod_mult.
Qed.
Lemma ones_sum_unique n r : 0 <= n -> 0 <= r <= 65535 -> (r = 0 <-> n = 0) ->
  (n - r) mod 65535 = 0 -> r = ones_sum n.
Proof.
  intros Hn Hr H0 Hm. pose proof (ones_sum_mod n Hn) as Ho. pose proof (ones_sum_range n Hn).
  assert (ones_sum n = 0 <-> n = 0) as H1.
  { unfold ones_sum. destruct (Z.eqb_spec n 0); [done|].
    pose proof (Z.mod_pos_bound (n - 1) 65535 ltac:(lia)). split; lia. }
  destruct (Z.eq_dec n 0); [lia|]. Z.to_euclidean_division_equations. nia.
Qed.

(** The complement of the one's complement sum in network order. *)
Lemma checksum_spec data : zlen data < 2 ^ 17 ->
  checksum data 0 None = 65535 - ones_sum (net_sum data).
Proof.
  intros Hlen. unfold checksum. rewrite add_words_none, Z.add_0_l.
  pose proof (host_sum_words data) as Hw. pose proof (host_sum_bound data) as Hb.
  assert (host_sum data < 2 ^ 32) as Hb'.
  { assert ((zlen data + 1) / 2 <= 65536); [|lia].
    apply Z.div_le_upper_bound; [lia|]. change (2 ^ 17) with 131072 in Hlen. lia. }
  set (s := if negb _ then _ else _).
  assert (s = host_sum data) as ->.
  { rewrite <-Hw. unfold s. destruct (negb _); lia. }
  clear Hw. set (h := host_sum data) in *. cbv zeta.
  set (f := Z.shiftr h 16 + Z.land h 0xffff + Z.shiftr (Z.shiftr h 16 + Z.land h 0xffff) 16).
  assert (Z.land (Z.lnot f) 0xffff = 65535 - ones_sum h) as ->.
  { rewrite <-(fold_ones h) by lia. fold f. rewrite !land_ffff. unfold Z.lnot.
    Z.to_euclidean_division_equations. lia. }
  pose proof (ones_sum_range h ltac:(lia)) as Hr.
  rewrite ntohs_swap by lia.
  assert (256 * ((65535 - ones_sum h) mod 256) + (65535 - ones_sum h) / 256 =
    65535 - (256 * (ones_sum h mod 256) + ones_sum h / 256)) as ->.
  { Z.to_euclidean_division_equations. lia. }
  f_equal. apply ones_sum_unique.
  - apply net_sum_nonneg.
  - Z.to_euclidean_division_equations. lia.
  - rewrite net_sum_zero. fold h. unfold ones_sum. destruct (Z.eqb_spec h 0); [by cbn|].
    pose proof (Z.mod_pos_bound (h - 1) 65535 ltac:(lia)). split; [|done].
    Z.to_euclidean_division_equations. lia.
  - pose proof (net_host_sum data) as Hn. fold h in Hn. pose proof (ones_sum_mod h ltac:(lia)) as Ho.
    Z.to_euclidean_division_equations. nia.
Qed.

Lemma ntohs_range x : 0 <= ntohs x < 65536.
Proof.
  unfold ntohs. change 0xff with (Z.ones 8). rewrite !Z.land_ones by lia. change (2 ^ 8) with 256.
  pose proof (Z.mod_pos_bound x 256 ltac:(lia)).
  pose proof (Z.mod_pos_bound (Z.shiftr x 8) 256 ltac:(lia)).
  rewrite lor_concat by lia. change (2 ^ 8) with 256. lia.
Qed.
Lemma checksum_range data start skip : 0 <= checksum data start skip < 65536.
Proof. apply ntohs_range. Qed.

(** ** Storing and verifying *)

Lemma net_sum_cons2 a b l : net_sum (a :: b :: l) = 256 * Z_of_byte a + Z_of_byte b + net_sum l.
Proof. done. Qed.

Lemma net_sum_app pre l : zlen pre mod 2 = 0 -> net_sum (pre ++ l) = net_sum pre + net_sum l.
Proof.
  induction pre as [|a|a b pre IH] using pair_ind; [done|done|].
  intros He. cbn [app]. rewrite !net_sum_cons2, IH; [lia|].
  unfold zlen in *. cbn [length] in He. rewrite !Nat2Z.inj_succ in He.
  replace (Z.succ (Z.succ (Z.of_nat (length pre)))) with (Z.of_nat (length pre) + 1 * 2) in He by lia.
  by rewrite Z_mod_plus_full in He.
Qed.

Lemma be_enc_2 z : exists a b, be_enc 2 z = [a; b] /\ (0 <= z < 65536 -> 256 * Z_of_byte a + Z_of_byte b = z).
Proof.
  exists (byte_of_Z (z / 256)), (byte_of_Z z). split; [done|]. intros Hz.
  rewrite !Z_of_byte_of_Z. Z.to_euclidean_division_equations. lia.
Qed.

(** A 16-bit value at an even place, and the sum around it. *)
Lemma checksum_place pre x post : zlen pre mod 2 = 0 -> 0 <= x < 65536 ->
  zlen pre + zlen post < 2 ^ 17 - 2 ->
  checksum (pre ++ be_enc 2 x ++ post) 0 None = 65535 - ones_sum (net_sum pre + net_sum post + x).
Proof.
  intros He Hx Hl. destruct (be_enc_2 x) as (a & b & -> & Hab). specialize (Hab Hx).
  rewrite checksum_spec by (rewrite !zlen_app; unfold zlen at 2; cbn [length]; lia).
  rewrite net_sum_app by done. cbn [app]. rewrite net_sum_cons2, Hab. do 2 f_equal. lia.
Qed.

(** Data whose checksum was computed with its place zeroed and stored there has
    checksum zero. *)
Lemma checksum_verifies pre post : zlen pre mod 2 = 0 -> zlen pre + zlen post < 2 ^ 17 - 2 ->
  checksum (pre ++ be_enc 2 (checksum (pre ++ be_enc 2 0 ++ post) 0 None) ++ post) 0 None = 0.
Proof.
  intros He Hl. pose proof (checksum_range (pre ++ be_enc 2 0 ++ post) 0 None) as Hc.
  set (c := checksum (pre ++ be_enc 2 0 ++ post) 0 None) in *.
  assert (c = 65535 - ones_sum (net_sum pre + net_sum post)) as Ec.
  { unfold c. rewrite checksum_place by (done || lia). by rewrite Z.add_0_r. }
  rewrite checksum_place by (done || lia).
  pose proof (net_sum_nonneg pre). pose proof (net_sum_nonneg post).
  set (w := net_sum pre + net_sum post) in *.
  enough (65535 = ones_sum (w + c)) by lia.
  assert (0 <= w) as Hw by lia. pose proof (ones_sum_mod w Hw) as Hm. pose proof (ones_sum_range w Hw).
  apply ones_sum_unique; [lia|lia| |].
  - split; [lia|]. intros E. assert (w = 0) as E0 by lia. rewrite E0 in Ec. cbn in Ec. lia.
  - rewrite Ec. replace (w + (65535 - ones_sum w) - 65535) with (w - ones_sum w) by lia. done.
Qed.

(** A computed checksum of zero may be stored as all ones. *)
Lemma checksum_verifies_ones pre post : zlen pre mod 2 = 0 -> zlen pre + zlen post < 2 ^ 17 - 2 ->
  checksum (pre ++ be_enc 2 0 ++ post) 0 None = 0 ->
  checksum (pre ++ be_enc 2 0xffff ++ post) 0 None = 0.
Proof.
  intros He Hl. rewrite !checksum_place by (done || lia). rewrite Z.add_0_r.
  pose proof (net_sum_nonneg pre). pose proof (net_sum_nonneg post).
  set (w := net_sum pre + net_sum post) in *. unfold ones_sum.
  destruct (w =? 0) eqn:E0; [lia|]. apply Z.eqb_neq in E0.
  rewrite (proj2 (Z.eqb_neq _ _)) by lia. replace (w + 0xffff - 1) with (w - 1 + 1 * 65535) by lia.
  by rewrite Z_mod_plus_full.
Qed.

(** A skip place that is already behind is no skip place. *)
Lemma add_words_past i j ws start : i < j -> add_words start j (Some i) ws = add_words start j None ws.
Proof.
  revert start j; induction ws as [|v ws IH]; intros start j Hj; [done|]. cbn [add_words].
  rewrite (bool_decide_eq_false_2 (Some i = Some j)), (bool_decide_eq_false_2 (None = Some j))
    || rewrite (bool_decide_eq_false_2 (None = Some j)), (bool_decide_eq_false_2 (Some i = Some j));
    try (congruence || (intros [= ->]; lia)).
  apply IH. lia.
Qed.

(** Skipping a word is the same as its being zero. *)
Lemma add_words_skip k ws start i : 0 <= k -> ws !! Z.to_nat k = Some 0 ->
  add_words start i (Some (i + k)) ws = add_words start i None ws.
Proof.
  revert start i k; induction ws as [|w ws IH]; intros start i k Hk Hw; [done|].
  cbn [add_words]. rewrite (bool_decide_eq_false_2 (None = Some i)) by done.
  destruct (Z.eq_dec k 0) as [->|Hn].
  - cbn in Hw. injection Hw as ->. rewrite Z.add_0_r, bool_decide_eq_true_2, Z.add_0_r by done.
    apply add_words_past. lia.
  - rewrite bool_decide_eq_false_2 by (intros [= E]; lia).
    replace (i + k) with (i + 1 + (k - 1)) by lia. apply IH; [lia|].
    replace (Z.to_nat k) with (S (Z.to_nat (k - 1))) in Hw by lia. exact Hw.
Qed.

Lemma host_words_app pre l : zlen pre mod 2 = 0 -> host_words (pre ++ l) = host_words pre ++ host_words l /\
  Z.of_nat (length (host_words pre)) = zlen pre / 2.
Proof.
  induction pre as [|a|a b pre IH] using pair_ind; [done|done|].
  intros He. assert (zlen (a :: b :: pre) = zlen pre + 1 * 2) as E
    by (unfold zlen; cbn [length]; lia).
  rewrite E in *. rewrite Z_mod_plus_full in He. destruct (IH He) as [E1 E2].
  cbn [app host_words length]. rewrite E1, Z.div_add by lia. split; [done|lia].
Qed.

Lemma checksum_skip pre post k : zlen pre = 2 * k ->
  checksum (pre ++ be_enc 2 0 ++ post) 0 (Some k) = checksum (pre ++ be_enc 2 0 ++ post) 0 None.
Proof.
  change (be_enc 2 0) with [x00; x00].
  intros Hk. unfold checksum. pose proof (zlen_nonneg pre).
  assert (zlen pre mod 2 = 0) as He by (rewrite Hk, Z.mul_comm; apply Z_mod_mult).
  destruct (host_words_app pre ([x00; x00] ++ post) He) as [E1 E2]. rewrite E1.
  assert (add_words 0 0 (Some k) (host_words pre ++ host_words ([x00; x00] ++ post)) =
    add_words 0 0 None (host_words pre ++ host_words ([x00; x00] ++ post))) as ->; [|reflexivity].
  pose proof (add_words_skip k (host_words pre ++ host_words ([x00; x00] ++ post)) 0 0 ltac:(lia)) as Hs.
  rewrite Z.add_0_l in Hs. apply Hs.
  rewrite Hk, Z.mul_comm, Z.div_mul in E2 by lia.
  rewrite lookup_app_r by lia. replace (Z.to_nat k - length (host_words pre))%nat with 0%nat by lia. reflexivity.
Qed.

(** What is in the skipped word does not matter. *)
Lemma add_words_skipped start i ws1 w w' ws2 k : k = i + zlen ws1 ->
  add_words start i (Some k) (ws1 ++ w :: ws2) = add_words start i (Some k) (ws1 ++ w' :: ws2).
Proof.
  intros ->. revert start i; induction ws1 as [|v ws1 IH]; intros start i.
  - cbn [app add_words]. replace (i + zlen []) with i by (unfold zlen; cbn; lia).
    by rewrite bool_decide_eq_true_2.
  - cbn [app add_words]. replace (i + zlen (v :: ws1)) with (i + 1 + zlen ws1)
      by (unfold zlen; cbn [length]; lia). apply IH.
Qed.

Lemma checksum_skipped pre x post k : zlen pre = 2 * k ->
  checksum (pre ++ be_enc 2 x ++ post) 0 (Some k) = checksum (pre ++ be_enc 2 0 ++ post) 0 (Some k).
Proof.
  intros Hk. destruct (be_enc_2 x) as (a & b & -> & _). change (be_enc 2 0) with [x00; x00].
  unfold checksum. pose proof (zlen_nonneg pre).
  assert (zlen pre mod 2 = 0) as He by (rewrite Hk, Z.mul_comm; apply Z_mod_mult).
  destruct (host_words_app pre ([a; b] ++ post) He) as [-> E2].
  destruct (host_words_app pre ([x00; x00] ++ post) He) as [-> _].
  cbn [app host_words]. rewrite (add_words_skipped _ _ _ _ (Z_of_byte x00 + 256 * Z_of_byte x00)).
  2: { rewrite Hk, Z.mul_comm, Z.div_mul in E2 by lia. unfold zlen. lia. }
  assert (forall c d, zlen (pre ++ c :: d :: post) = zlen pre + 2 + zlen post) as El
    by (intros; rewrite zlen_app; unfold zlen; cbn [length]; lia).
  rewrite !El. destruct post as [|c post].
  - replace (zlen pre + 2 + zlen []) with (zlen pre + 1 * 2) by (unfold zlen; cbn [length]; lia).
    rewrite Z_mod_plus_full, He. reflexivity.
  - replace (last (pre ++ a :: b :: c :: post)) with (last (pre ++ x00 :: x00 :: c :: post));
      [reflexivity|]. by rewrite !last_app_cons, !last_cons_cons.
Qed.
