(* ===== verification/Addresses.v ===== *)
(** [pox/lib/addresses.py]: Ethernet and IPv4 addresses.  The host is taken to be
    little-endian (x86), which is where native-order [struct] codes and
    [socket.htonl] matter.  Also the pieces of the language those classes use:
    [int(s, base)], ["%02x" %], [str.split] and glibc's [inet_aton]. *)
From S2P Require Import Prelude.
From S2P Require Import PyStruct.

(** * Text helpers (builtins of the language) *)

Definition is_space (c : Byte.byte) : bool :=
  let n := Z_of_byte c in (n =? 32) || ((9 <=? n) && (n <=? 13)).

(** Value of a digit in bases up to 36, if it is one. *)
Definition digit_val (c : Byte.byte) : option Z :=
  let n := Z_of_byte c in
  if (48 <=? n) && (n <=? 57) then Some (n - 48)
  else if (97 <=? n) && (n <=? 122) then Some (n - 87)
  else if (65 <=? n) && (n <=? 90) then Some (n - 55)
  else None.

Fixpoint lstrip (s : bytes) : bytes :=
  match s with
  | c :: t => if is_space c then lstrip t else s
  | [] => []
  end.
Definition strip (s : bytes) : bytes := rev (lstrip (rev (lstrip s))).

(** All of [s] must be digits of the base. *)
Fixpoint digits_val (base acc : Z) (s : bytes) : res Z :=
  match s with
  | [] => Ok acc
  | c :: s =>
      match digit_val c with
      | Some d => if d <? base then digits_val base (acc * base + d) s else Err ValueError
      | None => Err ValueError
      end
  end.

(** [int(s, base)] for base 10 and 16: surrounding blanks, a sign, and for base
    16 an optional 0x prefix are accepted. *)
Definition split_sign (s : bytes) : Z * bytes :=
  match s with
  | c :: t =>
      if decide (c = x2d) then (-1, lstrip t)
      else if decide (c = x2b) then (1, lstrip t) else (1, s)
  | [] => (1, s)
  end.
Definition drop_0x (base : Z) (s : bytes) : bytes :=
  match s with
  | c :: d :: _ :: _ =>
      if (base =? 16) && bool_decide (c = x30) && (bool_decide (d = x78) || bool_decide (d = x58))
      then drop 2 s else s
  | _ => s
  end.
Definition py_int (base : Z) (s : bytes) : res Z :=
  let '(sg, s) := split_sign (strip s) in
  match drop_0x base s with
  | [] => Err ValueError
  | ds => v ← digits_val base 0 ds; Ok (sg * v)
  end.

Definition hex_digit (d : Z) : Byte.byte :=
  byte_of_Z (if d <? 10 then 48 + d else 87 + d).

(** Hexadecimal digits of a non-negative number, most significant first; the
    fuel is the number of digits that can be needed. *)
Fixpoint hex_digits (fuel : nat) (z : Z) : bytes :=
  match fuel with
  | O => []
  | S fuel => (if z <? 16 then [] else hex_digits fuel (z / 16)) ++ [hex_digit (z mod 16)]
  end.

(** ["%02x" % z]. *)
Definition fmt_02x (z : Z) : bytes :=
  let ds := hex_digits (S (Z.to_nat (Z.log2 (Z.abs z)))) (Z.abs z) in
  if z <? 0 then x2d :: ds else replicate (2 - length ds) x30 ++ ds.

(** [s.split(c)]. *)
Fixpoint split_byte (c : Byte.byte) (s : bytes) : list bytes :=
  match s with
  | [] => [[]]
  | d :: s =>
      if decide (d = c) then [] :: split_byte c s
      else match split_byte c s with
           | p :: ps => (d :: p) :: ps
           | [] => [[d]]
           end
  end.

(** [chr(z)]. *)
Definition chr (z : Z) : res Byte.byte :=
  if (0 <=? z) && (z <? 256) then Ok (byte_of_Z z) else Err ValueError.

Fixpoint mapM_res {A B} (f : A -> res B) (l : list A) : res (list B) :=
  match l with
  | [] => Ok []
  | x :: l => y ← f x; ys ← mapM_res f l; Ok (y :: ys)
  end.

(** * EthAddr *)

Record EthAddr := MkEth { eth_value : bytes }.

#[export] Instance EthAddr_eq_dec : EqDecision EthAddr.
Proof. solve_decision. Defined.

(** What the constructor tells apart by type. *)
Inductive eth_arg :=
  | EInt (z : Z)
  | EBytes (s : bytes)
  | EAddr (a : EthAddr)
  | EList (l : list Z)
  | ETuple (l : list Z)
  | ENone.

(** [EthAddr.__init__], the int branch: six times, the low byte goes in front. *)
Fixpoint eth_of_int_loop (n : nat) (addr : Z) (val : bytes) : bytes :=
  match n with
  | O => val
  | S n => eth_of_int_loop n (Z.shiftr addr 8) (byte_of_Z (Z.land addr 0xFF) :: val)
  end.
Definition eth_of_int (addr : Z) : EthAddr := MkEth (eth_of_int_loop 6 addr []).

(** [b''.join(chr(int(addr[x*2:x*2+2], 16)) for x in range(0,6))]. *)
Definition eth_of_hex12 (addr : bytes) : res bytes :=
  mapM_res (fun x => v ← py_int 16 (slice addr (x * 2) (x * 2 + 2)); chr v)
    [0; 1; 2; 3; 4; 5].

(** The bytes branch: the three hexadecimal forms are brought to 12 digits. *)
Definition eth_hex_form (addr : bytes) : bool :=
  (zlen addr =? 17) || (zlen addr =? 12) || (count_byte x3a addr =? 5).

Definition eth_hex12 (addr : bytes) : res bytes :=
  if zlen addr =? 17 then
    (* addr[2::3] *)
    let seps := slice addr 2 3 ++ slice addr 5 6 ++ slice addr 8 9
                ++ slice addr 11 12 ++ slice addr 14 15 in
    if bool_decide (seps <> lit ":::::") && bool_decide (seps <> lit "-----")
    then Err RuntimeError
    else Ok (concat (map (fun x => slice addr (x * 3) (x * 3 + 2)) [0; 1; 2; 3; 4; 5]))
  else if zlen addr =? 12 then Ok addr
  else ps ← mapM_res (fun x => v ← py_int 16 x; Ok (fmt_02x v)) (split_byte x3a addr);
       Ok (concat ps).

Definition eth_of_bytes (addr : bytes) : res EthAddr :=
  if eth_hex_form addr then
    addr ← eth_hex12 addr; v ← eth_of_hex12 addr; Ok (MkEth v)
  else if zlen addr =? 6 then Ok (MkEth addr)
  else Err RuntimeError.

Definition EthAddr_init (addr : eth_arg) : res EthAddr :=
  match addr with
  | EInt z => Ok (eth_of_int z)
  | EBytes s => eth_of_bytes s
  | EAddr a => Ok (MkEth (eth_value a))
  | EList l => v ← mapM_res chr l; Ok (MkEth v)
  | ETuple l =>
      if zlen l =? 6 then v ← mapM_res chr l; Ok (MkEth v) else Err RuntimeError
  | ENone => Ok (MkEth (replicate 6 x00))
  end.

Definition EMPTY_ETH : EthAddr := MkEth (replicate 6 x00).

(** [ord(self._value[i])]. *)
Definition eth_ord (a : EthAddr) (i : nat) : res Z :=
  match eth_value a !! i with
  | Some c => Ok (Z_of_byte c)
  | None => Err IndexError
  end.

(** The conjunction is evaluated left to right, with short cuts. *)
Definition and_then (x : res bool) (y : res bool) : res bool :=
  v ← x; if v : bool then y else Ok false.

Definition isBridgeFiltered (a : EthAddr) : res bool :=
  and_then (v ← eth_ord a 0; Ok (v =? 0x01))
  (and_then (v ← eth_ord a 1; Ok (v =? 0x80))
  (and_then (v ← eth_ord a 2; Ok (v =? 0xC2))
  (and_then (v ← eth_ord a 3; Ok (v =? 0x00))
  (and_then (v ← eth_ord a 4; Ok (v =? 0x00))
   (v ← eth_ord a 5; Ok (v <=? 0x0F)))))).

Definition isLocal (a : EthAddr) : res bool :=
  v ← eth_ord a 0; Ok (negb (Z.land v 2 =? 0)).
Definition isGlobal (a : EthAddr) : res bool := v ← isLocal a; Ok (negb v).
Definition isMulticast (a : EthAddr) : res bool :=
  v ← eth_ord a 0; Ok (negb (Z.land v 1 =? 0)).

Definition eth_toRaw (a : EthAddr) : bytes := eth_value a.

(** [toInt]: byte [i] is shifted left by [8*(5-i)]; a negative shift count
    raises ValueError. *)
Fixpoint toInt_loop (s : bytes) (i value : Z) : res Z :=
  match s with
  | [] => Ok value
  | c :: s =>
      let byte_shift := 5 - i in
      if 8 * byte_shift <? 0 then Err ValueError
      else toInt_loop s (i + 1) (value + Z.shiftl (Z_of_byte c) (8 * byte_shift))
  end.
Definition eth_toInt (a : EthAddr) : res Z := toInt_loop (eth_value a) 0 0.

Definition eth_toTuple (a : EthAddr) : list Z := Z_of_byte <$> eth_value a.

(** [separator.join(...)]. *)
Fixpoint join (sep : bytes) (ps : list bytes) : bytes :=
  match ps with
  | [] => []
  | [p] => p
  | p :: ps => p ++ sep ++ join sep ps
  end.
Definition eth_toStr (sep : bytes) (a : EthAddr) : bytes :=
  join sep ((fun c => fmt_02x (Z_of_byte c)) <$> eth_value a).

(** [__cmp__]: both orders give -1.  When the other operand cannot be converted
    the handler looks up [other.__cmp__], which lists and tuples do not have. *)
Definition eth_cmp (a : EthAddr) (other : eth_arg) : res Z :=
  let value :=
    match other with
    | EAddr o => Ok (eth_value o)
    | EBytes s => Ok s
    | _ => o ← EthAddr_init other; Ok (eth_value o)
    end in
  match value with
  | Ok v => if decide (eth_value a = v) then Ok 0 else Ok (-1)
  | Err _ => Err AttributeError
  end.

(** * IPAddr *)

(** [_value]: the address as a signed 32-bit integer, in network byte order as
    seen by the little-endian host. *)
Record IPAddr := MkIP { ip_value : Z }.

#[export] Instance IPAddr_eq_dec : EqDecision IPAddr.
Proof. solve_decision. Defined.

(** [socket.htonl] on a little-endian host. *)
Definition htonl (x : Z) : Z := be_dec (le_enc 4 x).

(** glibc [inet_aton], part by part: [strtoul] with base 0 stops at the first
    character that is not a digit of the base. *)
Fixpoint span_digits (base acc : Z) (s : bytes) : Z * bytes :=
  match s with
  | c :: t =>
      match digit_val c with
      | Some d => if d <? base then span_digits base (acc * base + d) t else (acc, s)
      | None => (acc, s)
      end
  | [] => (acc, s)
  end.
Definition is_hex (c : Byte.byte) : bool :=
  match digit_val c with Some d => d <? 16 | None => false end.
Definition strtoul0 (s : bytes) : Z * bytes :=
  match s with
  | c :: t =>
      if decide (c = x30) then
        match t with
        | d :: e :: _ =>
            if (bool_decide (d = x78) || bool_decide (d = x58)) && is_hex e
            then span_digits 16 0 (drop 1 t) else span_digits 8 0 s
        | _ => span_digits 8 0 s
        end
      else span_digits 10 0 s
  | [] => (0, s)
  end.

(** Up to four parts; [pre] holds the parts already followed by a dot.  The last
    part fills the remaining bytes. *)
Fixpoint inet_aton_loop (parts : nat) (pre : bytes) (s : bytes) {struct parts} : option bytes :=
  match s with
  | c :: _ =>
      if match digit_val c with Some d => d <? 10 | None => false end then
        let '(v, rest) := strtoul0 s in
        if 0xffffffff <? v then None
        else if bool_decide (head rest = Some x2e) then
          match parts with
          | S parts =>
              if 0xff <? v then None
              else inet_aton_loop parts (pre ++ [byte_of_Z v]) (drop 1 rest)
          | O => None
          end
        else if match rest with [] => true | c :: _ => is_space c end then
          let n := (4 - length pre)%nat in
          if v <? 256 ^ Z.of_nat n then Some (pre ++ be_enc n v) else None
        else None
      else None
  | [] => None
  end.
(** [socket.inet_aton]: a NUL in the argument is a TypeError. *)
Definition inet_aton (s : bytes) : res bytes :=
  if decide (x00 ∈ s) then Err TypeError
  else match inet_aton_loop 3 [] s with
       | Some r => Ok r
       | None => Err SocketError
       end.

(** What the constructor accepts. *)
Inductive ip_arg :=
  | IInt (z : Z)
  | IStr (s : bytes)
  | IAddr (a : IPAddr).

(** A one-value [struct.unpack]. *)
Definition unpack1 (fmt : String.string) (s : bytes) : res Z :=
  tuple [v] ← struct_unpack fmt s; Ok v.
Arguments unpack1 fmt%_string s.

Definition IPAddr_init (addr : ip_arg) (networkOrder : bool) : res IPAddr :=
  match addr with
  | IStr s =>
      if negb (zlen s =? 4)
      then raw ← inet_aton s; v ← unpack1 "i" raw; Ok (MkIP v)
      else v ← unpack1 "i" s; Ok (MkIP v)
  | IAddr a => Ok (MkIP (ip_value a))
  | IInt z =>
      let addr := Z.land z 0xffFFffFF in
      raw ← struct_pack (if networkOrder then "!I" else "I") [addr];
      v ← unpack1 "!i" raw; Ok (MkIP v)
  end.

(** [IPAddr(z)] for an integer in host order: never fails. *)
Definition ip_of_int (z : Z) : IPAddr := MkIP (to_signed 4 (htonl (z mod 2 ^ 32))).

Definition ip_toUnsigned (a : IPAddr) (networkOrder : bool) : Z :=
  if negb networkOrder then htonl (Z.land (ip_value a) 0xffFFffFF)
  else Z.land (ip_value a) 0xffFFffFF.

Definition ip_toSigned (a : IPAddr) (networkOrder : bool) : res Z :=
  if networkOrder then Ok (ip_value a)
  else let v := htonl (Z.land (ip_value a) 0xffFFffFF) in
       raw ← struct_pack "I" [v]; unpack1 "i" raw.

Definition ip_toRaw (a : IPAddr) : res bytes := struct_pack "i" [ip_value a].

(** [1 << b], [b] an arbitrary Python integer. *)
Definition py_shl1 (b : Z) : res Z := if b <? 0 then Err ValueError else Ok (Z.shiftl 1 b).

(** [inNetwork] with the network given as a tuple (address, wildcard bits). *)
Definition inNetwork (a : IPAddr) (n : ip_arg) (b : Z) : res bool :=
  n ← IPAddr_init n false;
  s ← py_shl1 b;
  Ok (Z.land (ip_toUnsigned a false) (Z.lnot (s - 1)) =? ip_toUnsigned n false).

(** [__cmp__]; [None] is the Python value. *)
Definition ip_cmp (a : IPAddr) (other : option ip_arg) : res Z :=
  match other with
  | None => Ok 1
  | Some o =>
      match IPAddr_init o false with
      | Ok o => Ok (match Z.compare (ip_value a) (ip_value o) with
                    | Lt => -1 | Eq => 0 | Gt => 1 end)
      | Err _ => Err TypeError
      end
  end.

(** [inferNetMask]: the last [return 0] of the source is inside the class D
    branch, so a class E address gets Python's [None]. *)
Definition inferNetMask (addr : IPAddr) : option Z :=
  let addr := ip_toUnsigned addr false in
  if addr =? 0 then Some 32
  else if Z.land addr (Z.shiftl 1 31) =? 0 then Some 24
  else if Z.land addr (Z.shiftl 3 30) =? Z.shiftl 2 30 then Some 16
  else if Z.land addr (Z.shiftl 7 29) =? Z.shiftl 6 29 then Some 8
  else if Z.land addr (Z.shiftl 15 28) =? Z.shiftl 14 28 then Some 0
  else None.

(** [check] of parseCIDR. *)
Definition cidr_check (r0 : IPAddr) (r1 : Z) : res (IPAddr * Z) :=
  s ← py_shl1 r1;
  if negb (Z.land (ip_toUnsigned r0 false) (s - 1) =? 0) then Err RuntimeError
  else Ok (r0, r1).

(** [while m & (1<<31): b += 1; m <<= 1]; the fuel is an upper bound of the
    number of rounds for a 32-bit [m]. *)
Fixpoint netmask_loop (fuel : nat) (m b : Z) : option (Z * Z) :=
  if Z.land m (Z.shiftl 1 31) =? 0 then Some (m, b)
  else match fuel with
       | O => None
       | S fuel => netmask_loop fuel (Z.shiftl m 1) (b + 1)
       end.

Definition parseCIDR (addr : bytes) (infer : bool) : res (IPAddr * Z) :=
  match split_byte x2f addr with
  | [] => Err IndexError
  | [addr0] =>
      a ← IPAddr_init (IStr addr0) false;
      if negb infer then Ok (a, 0)
      else match inferNetMask a with
           | None => Err TypeError
           | Some b =>
               s ← py_shl1 b;
               if Z.land (ip_toUnsigned a false) (s - 1) =? 0 then cidr_check a b
               else cidr_check a 0
           end
  | addr0 :: addr1 :: _ =>
      match py_int 10 addr1 with
      | Ok v =>
          let wild := 32 - v in
          if (0 <=? wild) && (wild <=? 32)
          then a ← IPAddr_init (IStr addr0) false; cidr_check a wild
          else Err AssertionError
      | Err _ =>
          (* maybe they passed a netmask *)
          mk ← IPAddr_init (IStr addr1) false;
          match netmask_loop 32 (ip_toUnsigned mk false) 0 with
          | None => Err Diverge
          | Some (m, b) =>
              if negb (Z.land m 0x7fffffff =? 0) then Err RuntimeError
              else let wild := 32 - b in
                   if (0 <=? wild) && (wild <=? 32)
                   then a ← IPAddr_init (IStr addr0) false; cidr_check a wild
                   else Err AssertionError
          end
      end
  end.

(** * Properties of EthAddr *)

(** A well-formed address has six bytes; every constructor branch but the
    list one guarantees it. *)
Definition eth_wf (a : EthAddr) : Prop := length (eth_value a) = 6%nat.

Lemma eth_of_int_loop_spec n z val : eth_of_int_loop n z val = be_enc n z ++ val.
Proof.
  revert z val; induction n as [|n IH]; intros z val; [done|].
  cbn [eth_of_int_loop]. rewrite IH, be_enc_S, <-app_assoc. f_equal.
  - by rewrite Z.shiftr_div_pow2 by lia.
  - simpl. f_equal. apply (inj Z_of_byte). rewrite !Z_of_byte_of_Z.
    change 0xFF with (Z.ones 8). rewrite Z.land_ones by lia. by rewrite Z.mod_mod by lia.
Qed.

Lemma eth_of_int_value z : eth_value (eth_of_int z) = be_enc 6 z.
Proof. unfold eth_of_int, eth_value. by rewrite eth_of_int_loop_spec, app_nil_r. Qed.

Lemma toInt_loop_spec s i v : i + zlen s = 6 -> toInt_loop s i v = Ok (v + be_dec s).
Proof.
  revert i v; induction s as [|c s IH]; intros i v H; cbn [toInt_loop].
  - f_equal. change (be_dec []) with 0. lia.
  - unfold zlen in *. cbn [length] in H. rewrite (proj2 (Z.ltb_ge _ _)) by lia.
    rewrite IH by lia. f_equal. rewrite be_dec_cons, Z.shiftl_mul_pow2 by lia.
    replace (8 * (5 - i)) with (8 * Z.of_nat (length s)) by lia.
    rewrite Z.pow_mul_r by lia. change (2 ^ 8) with 256. lia.
Qed.

Lemma eth_toInt_spec a : eth_wf a -> eth_toInt a = Ok (be_dec (eth_value a)).
Proof. intros H. unfold eth_toInt. rewrite toInt_loop_spec; [done|]. unfold zlen. by rewrite H. Qed.

Lemma eth_of_int_wf z : eth_wf (eth_of_int z).
Proof. unfold eth_wf. rewrite eth_of_int_value. apply be_enc_length. Qed.

Lemma eth_int_roundtrip z : eth_toInt (eth_of_int z) = Ok (z mod 2 ^ 48).
Proof.
  rewrite eth_toInt_spec by apply eth_of_int_wf. rewrite eth_of_int_value, be_dec_enc. done.
Qed.

Lemma eth_of_int_be_dec a : eth_wf a -> eth_of_int (be_dec (eth_value a)) = a.
Proof.
  intros H. destruct a as [s]. change (length s = 6%nat) in H. unfold eth_of_int.
  rewrite eth_of_int_loop_spec, app_nil_r. f_equal.
  rewrite <-H at 1. apply be_enc_dec.
Qed.

Lemma chr_of_byte c : chr (Z_of_byte c) = Ok c.
Proof.
  unfold chr. pose proof (Z_of_byte_range c).
  rewrite (proj2 (andb_true_iff _ _)) by (rewrite Z.leb_le, Z.ltb_lt; lia).
  by rewrite byte_of_Z_of_byte.
Qed.

Lemma mapM_chr_of_bytes s : mapM_res chr (Z_of_byte <$> s) = Ok s.
Proof.
  induction s as [|c s IH]; [done|]. rewrite fmap_cons. cbn [mapM_res].
  rewrite chr_of_byte. cbn. by rewrite IH.
Qed.

(** Six values read with the format "BBBBBB" are an address. *)
Lemma eth_of_tuple_bytes s : length s = 6%nat ->
  EthAddr_init (ETuple (Z_of_byte <$> s)) = Ok (MkEth s).
Proof.
  intros H. cbn [EthAddr_init]. unfold zlen. rewrite length_fmap, H.
  change (Z.of_nat 6 =? 6) with true. cbn [negb]. by rewrite mapM_chr_of_bytes.
Qed.

(** Raw bytes are taken as they are unless exactly five of them are ':'. *)
Lemma eth_of_bytes_raw s : length s = 6%nat -> count_byte x3a s <> 5 ->
  eth_of_bytes s = Ok (MkEth s).
Proof.
  intros H Hc. unfold eth_of_bytes, eth_hex_form, zlen. rewrite H.
  rewrite (proj2 (Z.eqb_neq (count_byte x3a s) 5) Hc). done.
Qed.

Lemma py_int_err base s e : py_int base s = Err e -> e = ValueError.
Proof.
  assert (forall acc t e', digits_val base acc t = Err e' -> e' = ValueError) as Hd.
  { intros acc t. revert acc; induction t as [|c t IH]; intros acc e' H; [done|].
    simpl in H. repeat case_match; naive_solver. }
  unfold py_int. destruct (split_sign (strip s)) as [sg t].
  destruct (drop_0x base t) as [|c ds]; [congruence|].
  destruct (digits_val base 0 (c :: ds)) as [v|e'] eqn:E; [done|].
  intros [= <-]. eauto.
Qed.

(** ... and in that one case the split/hex path is taken and fails. *)
Lemma eth_of_bytes_five_colons s : length s = 6%nat -> count_byte x3a s = 5 ->
  eth_of_bytes s = Err ValueError.
Proof.
  intros H Hc. unfold eth_of_bytes, eth_hex_form, zlen at 1 2. rewrite H, Hc.
  change ((Z.of_nat 6 =? 17) || (Z.of_nat 6 =? 12) || (5 =? 5)) with true. cbn [negb].
  unfold eth_hex12, zlen. rewrite H.
  change (Z.of_nat 6 =? 17) with false. change (Z.of_nat 6 =? 12) with false. cbv iota.
  assert (In [] (split_byte x3a s)) as Hin.
  { destruct s as [|c0 [|c1 [|c2 [|c3 [|c4 [|c5 [|]]]]]]]; try done.
    destruct (decide (c0 = x3a)) as [->|N0]; [simpl; auto|].
    destruct (decide (c1 = x3a)) as [->|N1].
    - destruct (decide (c2 = x3a)) as [->|N2].
      + simpl. rewrite (decide_False (P:=c0 = x3a)) by done.
        destruct (split_byte x3a [c3; c4; c5]); simpl; auto.
      + exfalso. revert Hc. unfold count_byte, zlen.
        rewrite (filter_cons_False (.= x3a) _ _ N0), filter_cons_True, (filter_cons_False (.= x3a) _ _ N2) by done.
        pose proof (length_filter (.= x3a) [c3; c4; c5]) as L. simpl in *. lia.
    - exfalso. revert Hc. unfold count_byte, zlen.
      rewrite (filter_cons_False (.= x3a) _ _ N0), (filter_cons_False (.= x3a) _ _ N1).
      pose proof (length_filter (.= x3a) [c2; c3; c4; c5]) as L. simpl in *. lia. }
  assert (mapM_res (fun x => v ← py_int 16 x; Ok (fmt_02x v)) (split_byte x3a s)
          = Err ValueError) as ->; [|done].
  induction (split_byte x3a s) as [|p ps IH]; [done|]. simpl.
  destruct (py_int 16 p) as [v|e] eqn:E; simpl; [|by rewrite (py_int_err _ _ _ E)].
  destruct Hin as [->|Hin]; [done|]. by rewrite IH.
Qed.

(** Text form: two hexadecimal digits per byte. *)
Lemma byte_forall (P : Byte.byte -> bool) :
  forallb (fun n => P (byte_of_Z (Z.of_nat n))) (seq 0 256) = true -> forall c, P c = true.
Proof.
  intros H c. rewrite forallb_forall in H.
  specialize (H (Z.to_nat (Z_of_byte c))). pose proof (Z_of_byte_range c).
  rewrite Z2Nat.id, byte_of_Z_of_byte in H by lia. apply H. apply in_seq. lia.
Qed.

Definition hex2 (c : Byte.byte) : bytes := fmt_02x (Z_of_byte c).

Definition hex2_ok (c : Byte.byte) : bool :=
  match hex2 c with
  | [d; e] => bool_decide (py_int 16 [d; e] = Ok (Z_of_byte c))
  | _ => false
  end.

Lemma hex2_ok_all c : hex2_ok c = true.
Proof. apply byte_forall. vm_compute. done. Qed.

Lemma hex2_spec c : exists d e, hex2 c = [d; e] /\ py_int 16 [d; e] = Ok (Z_of_byte c).
Proof.
  pose proof (hex2_ok_all c) as H. unfold hex2_ok in H.
  repeat case_match; try done. apply bool_decide_eq_true in H. eauto.
Qed.

(** Parsing what [EthAddr.toStr] prints - with a colon or a dash between the bytes -
    gives the address back. *)
Theorem eth_str_roundtrip sep a : eth_wf a -> sep = x3a \/ sep = x2d ->
  eth_of_bytes (eth_toStr [sep] a) = Ok a.
Proof.
  destruct a as [s]. unfold eth_wf. simpl. intros H Hsep.
  destruct s as [|c0 [|c1 [|c2 [|c3 [|c4 [|c5 [|]]]]]]]; try done.
  unfold eth_toStr. simpl.
  change (fmt_02x (Z_of_byte c0)) with (hex2 c0). change (fmt_02x (Z_of_byte c1)) with (hex2 c1).
  change (fmt_02x (Z_of_byte c2)) with (hex2 c2). change (fmt_02x (Z_of_byte c3)) with (hex2 c3).
  change (fmt_02x (Z_of_byte c4)) with (hex2 c4). change (fmt_02x (Z_of_byte c5)) with (hex2 c5).
  destruct (hex2_spec c0) as (d0 & e0 & -> & P0), (hex2_spec c1) as (d1 & e1 & -> & P1),
    (hex2_spec c2) as (d2 & e2 & -> & P2), (hex2_spec c3) as (d3 & e3 & -> & P3),
    (hex2_spec c4) as (d4 & e4 & -> & P4), (hex2_spec c5) as (d5 & e5 & -> & P5).
  assert (eth_hex12 [d0; e0; sep; d1; e1; sep; d2; e2; sep; d3; e3; sep; d4; e4; sep; d5; e5]
    = Ok [d0; e0; d1; e1; d2; e2; d3; e3; d4; e4; d5; e5]) as E.
  { destruct Hsep as [-> | ->]; reflexivity. }
  unfold eth_of_bytes. simpl app. rewrite E.
  change (eth_hex_form _) with true. cbn [mbind res_bind].
  unfold eth_of_hex12, slice, py_index, zlen. simpl.
  rewrite P0, P1, P2, P3, P4, P5. cbn. by rewrite !chr_of_byte.
Qed.

(** [__cmp__] answers 0 exactly on equal addresses ... *)
Lemma eth_cmp_zero a o : eth_cmp a (EAddr o) = Ok 0 <-> a = o.
Proof.
  destruct a as [s], o as [t]. unfold eth_cmp; cbn [eth_value].
  destruct (decide (s = t)); split; congruence.
Qed.
(** [EthAddr.__cmp__] answers -1 both ways on different addresses: it is not an
    order, so sorting addresses means nothing. *)
Theorem eth_cmp_not_antisymmetric a o : a <> o ->
  eth_cmp a (EAddr o) = Ok (-1) /\ eth_cmp o (EAddr a) = Ok (-1).
Proof.
  destruct a as [s], o as [t]. intros. unfold eth_cmp; cbn [eth_value].
  rewrite !decide_False by congruence. done.
Qed.

(** * Properties of IPAddr *)

Definition ip_wf (a : IPAddr) : Prop := - 2 ^ 31 <= ip_value a < 2 ^ 31.

Lemma land_ffffffff z : Z.land z 0xffFFffFF = z mod 2 ^ 32.
Proof. change 0xffFFffFF with (Z.ones 32). by apply Z.land_ones. Qed.

Lemma htonl_range x : 0 <= htonl x < 2 ^ 32.
Proof.
  unfold htonl. pose proof (be_dec_range (le_enc 4 x)) as H.
  rewrite le_enc_length in H. exact H.
Qed.

Lemma htonl_htonl x : htonl (htonl x) = x mod 2 ^ 32.
Proof.
  unfold htonl, be_dec.
  pose proof (le_enc_dec (rev (le_enc 4 x))) as H.
  rewrite length_rev, le_enc_length in H. rewrite H, rev_involutive. apply le_dec_enc.
Qed.

Lemma to_signed_range z : 0 <= z < 2 ^ 32 -> - 2 ^ 31 <= to_signed 4 z < 2 ^ 31.
Proof.
  intros H. unfold to_signed.
  change (256 ^ Z.of_nat 4) with (2 ^ 32). change (2 ^ 32 / 2) with (2 ^ 31).
  destruct (Z.ltb_spec z (2 ^ 31)); lia.
Qed.

Lemma to_signed_unsigned z : 0 <= z < 2 ^ 32 -> to_signed 4 z mod 2 ^ 32 = z.
Proof.
  intros H. unfold to_signed.
  change (256 ^ Z.of_nat 4) with (2 ^ 32). change (2 ^ 32 / 2) with (2 ^ 31).
  destruct (Z.ltb_spec z (2 ^ 31)).
  - by apply Z.mod_small.
  - replace (z - 2 ^ 32) with (z + (-1) * 2 ^ 32) by lia.
    rewrite Z_mod_plus_full. by apply Z.mod_small.
Qed.

Lemma ip_of_int_wf z : ip_wf (ip_of_int z).
Proof. apply to_signed_range, htonl_range. Qed.
#[export] Hint Resolve ip_of_int_wf eth_of_int_wf : pox.

Lemma IPAddr_init_int z : IPAddr_init (IInt z) false = Ok (ip_of_int z).
Proof.
  unfold IPAddr_init. rewrite land_ffffffff.
  rewrite struct_pack_I by (apply Z.mod_pos_bound; lia). cbn [mbind res_bind].
  unfold unpack1. rewrite struct_unpack_neti by apply le_enc_length. done.
Qed.

(** An address built from a host-order integer reads back as that integer,
    reduced to 32 bits; and an address is determined by it. *)
Lemma ip_toUnsigned_of_int z : ip_toUnsigned (ip_of_int z) false = z mod 2 ^ 32.
Proof.
  unfold ip_toUnsigned, ip_of_int. cbn [negb ip_value].
  rewrite land_ffffffff, to_signed_unsigned by apply htonl_range.
  rewrite htonl_htonl. by rewrite Z.mod_mod by lia.
Qed.

Lemma ip_toUnsigned_range a : 0 <= ip_toUnsigned a false < 2 ^ 32.
Proof. apply htonl_range. Qed.

Lemma ip_of_toUnsigned a : ip_wf a -> ip_of_int (ip_toUnsigned a false) = a.
Proof.
  destruct a as [v]. unfold ip_wf. cbn [ip_value]. intros H.
  unfold ip_of_int, ip_toUnsigned. cbn [negb ip_value].
  rewrite land_ffffffff. rewrite (Z.mod_small (htonl _)) by apply htonl_range.
  rewrite htonl_htonl, Z.mod_mod by lia. f_equal.
  apply (to_signed_mod 4); [lia|exact H].
Qed.

Lemma ip_toUnsigned_inj a o : ip_wf a -> ip_wf o ->
  ip_toUnsigned a false = ip_toUnsigned o false -> a = o.
Proof.
  intros Ha Ho E. rewrite <-(ip_of_toUnsigned a), <-(ip_of_toUnsigned o) by done.
  by rewrite E.
Qed.

Lemma ip_toSigned_spec a :
  ip_toSigned a false = Ok (to_signed 4 (ip_toUnsigned a false)).
Proof.
  unfold ip_toSigned, ip_toUnsigned. cbn [negb].
  rewrite struct_pack_I by apply htonl_range. cbn [mbind res_bind].
  unfold unpack1. rewrite struct_unpack_i by apply le_enc_length. cbn [mbind res_bind].
  do 2 f_equal. rewrite le_dec_enc. apply Z.mod_small. apply htonl_range.
Qed.

(** The raw form is the address in network order, and reads back. *)
Lemma ip_toRaw_spec a : ip_wf a -> ip_toRaw a = Ok (be_enc 4 (ip_toUnsigned a false)).
Proof.
  intros H. unfold ip_toRaw. rewrite struct_pack_i by done. f_equal.
  unfold ip_toUnsigned, htonl. cbn [negb]. rewrite land_ffffffff.
  pose proof (be_enc_dec (le_enc 4 (ip_value a mod 2 ^ 32))) as E.
  rewrite le_enc_length in E. by rewrite E.
Qed.

Lemma ip_of_raw s : length s = 4%nat ->
  IPAddr_init (IStr s) false = Ok (ip_of_int (be_dec s)).
Proof.
  intros H. unfold IPAddr_init, zlen. rewrite H.
  change (negb (Z.of_nat 4 =? 4)) with false. cbv iota.
  unfold unpack1. rewrite struct_unpack_i by done. cbn [mbind res_bind].
  unfold ip_of_int. do 3 f_equal.
  rewrite Z.mod_small by (pose proof (be_dec_range s) as R; rewrite H in R; exact R).
  unfold htonl. pose proof (be_enc_dec s) as E. rewrite H in E. unfold be_enc in E.
  change (be_dec (le_enc 4 (be_dec s))) with (le_dec (rev (le_enc 4 (be_dec s)))).
  by rewrite E.
Qed.

(** ** Networks *)

Lemma land_lnot_low x k : 0 <= k -> Z.land x (Z.lnot (Z.shiftl 1 k - 1)) = x - x mod 2 ^ k.
Proof.
  intros H. rewrite Z.shiftl_1_l.
  replace (2 ^ k - 1) with (Z.ones k) by (rewrite Z.ones_equiv; lia).
  rewrite <-Z.ldiff_land, Z.ldiff_ones_r by done.
  rewrite Z.shiftr_div_pow2, Z.shiftl_mul_pow2 by done.
  pose proof (Z.div_mod x (2 ^ k)). lia.
Qed.

Lemma land_low x k : 0 <= k -> Z.land x (Z.shiftl 1 k - 1) = x mod 2 ^ k.
Proof.
  intros H. rewrite Z.shiftl_1_l.
  replace (2 ^ k - 1) with (Z.ones k) by (rewrite Z.ones_equiv; lia).
  by apply Z.land_ones.
Qed.

(** [inNetwork] compares everything above the wildcard bits, and requires the
    network's own low bits to be zero. *)
Lemma inNetwork_spec a n k : 0 <= k ->
  inNetwork a (IAddr n) k =
    Ok (bool_decide (ip_toUnsigned a false / 2 ^ k = ip_toUnsigned n false / 2 ^ k
                     /\ ip_toUnsigned n false mod 2 ^ k = 0)).
Proof.
  intros Hk. unfold inNetwork, py_shl1. cbn [IPAddr_init mbind res_bind].
  rewrite (proj2 (Z.ltb_ge _ _)) by lia. cbn [mbind res_bind].
  rewrite land_lnot_low by done. f_equal.
  change (ip_toUnsigned {| ip_value := ip_value n |} false) with (ip_toUnsigned n false).
  set (x := ip_toUnsigned a false). set (y := ip_toUnsigned n false).
  assert (0 < 2 ^ k) by lia.
  pose proof (Z.div_mod x (2 ^ k)). pose proof (Z.div_mod y (2 ^ k)).
  apply eq_true_iff_eq. rewrite Z.eqb_eq, bool_decide_eq_true. split.
  - intros E. assert (y = 2 ^ k * (x / 2 ^ k)) as Ey by lia.
    rewrite Ey. rewrite Z.mul_comm, Z.div_mul, Z.mod_mul by lia. done.
  - intros [E1 E2]. lia.
Qed.

(** ** Network classes and CIDR *)

Lemma land_shiftl_ones u k s : 0 <= k -> 0 <= s ->
  Z.land u (Z.shiftl (Z.ones k) s) = Z.shiftl ((u / 2 ^ s) mod 2 ^ k) s.
Proof.
  intros Hk Hs. rewrite <-Z.land_ones, <-Z.shiftr_div_pow2 by done.
  apply Z.bits_inj'. intros n Hn.
  rewrite Z.land_spec, !Z.shiftl_spec, Z.land_spec by done.
  destruct (Z_lt_le_dec n s).
  - by rewrite !(Z.testbit_neg_r _ (n - s)), !andb_false_r by lia.
  - rewrite Z.shiftr_spec by lia. by replace (n - s + s) with n by lia.
Qed.

(** The leading [k] bits of a 32-bit number, compared with a constant. *)
Lemma leading_bits u k c : 0 <= u < 2 ^ 32 -> 0 <= k <= 32 ->
  (Z.land u (Z.shiftl (Z.ones k) (32 - k)) =? Z.shiftl c (32 - k))
  = (u / 2 ^ (32 - k) =? c).
Proof.
  intros Hu Hk. rewrite land_shiftl_ones by lia.
  assert (2 ^ 32 = 2 ^ k * 2 ^ (32 - k)) as E by (rewrite <-Z.pow_add_r by lia; f_equal; lia).
  rewrite (Z.mod_small (u / _)); cycle 1.
  { split; [apply Z.div_pos; lia|]. apply Z.div_lt_upper_bound; lia. }
  rewrite !Z.shiftl_mul_pow2 by lia. apply eq_true_iff_eq. rewrite !Z.eqb_eq.
  assert (0 < 2 ^ (32 - k)) by lia. nia.
Qed.

(** [inferNetMask] by address class: default network, A, B, C, D - and Python's
    None for class E. *)
Definition class_wild (u : Z) : option Z :=
  if u =? 0 then Some 32
  else if u <? 0x80000000 then Some 24
  else if u <? 0xC0000000 then Some 16
  else if u <? 0xE0000000 then Some 8
  else if u <? 0xF0000000 then Some 0
  else None.

Lemma inferNetMask_class a : inferNetMask a = class_wild (ip_toUnsigned a false).
Proof.
  unfold inferNetMask, class_wild. pose proof (ip_toUnsigned_range a) as Hu.
  set (u := ip_toUnsigned a false) in *. cbv zeta.
  destruct (Z.eqb_spec u 0); [done|].
  change (Z.land u (Z.shiftl 1 31) =? 0) with
    (Z.land u (Z.shiftl (Z.ones 1) (32 - 1)) =? Z.shiftl 0 (32 - 1)).
  change (Z.shiftl 3 30) with (Z.shiftl (Z.ones 2) (32 - 2)).
  change (Z.shiftl 2 30) with (Z.shiftl 2 (32 - 2)).
  change (Z.shiftl 7 29) with (Z.shiftl (Z.ones 3) (32 - 3)).
  change (Z.shiftl 6 29) with (Z.shiftl 6 (32 - 3)).
  change (Z.shiftl 15 28) with (Z.shiftl (Z.ones 4) (32 - 4)).
  change (Z.shiftl 14 28) with (Z.shiftl 14 (32 - 4)).
  rewrite !leading_bits by lia.
  change (2 ^ (32 - 1)) with 0x80000000. change (2 ^ (32 - 2)) with 0x40000000.
  change (2 ^ (32 - 3)) with 0x20000000. change (2 ^ (32 - 4)) with 0x10000000.
  repeat match goal with
  | |- context [Z.eqb ?x ?y] => destruct (Z.eqb_spec x y)
  | |- context [Z.ltb ?x ?y] => destruct (Z.ltb_spec x y)
  end; first [reflexivity | exfalso; Z.to_euclidean_division_equations; lia].
Qed.

Lemma netmask_loop_total m fuel k : 0 <= m < 2 ^ 32 -> Z.of_nat fuel + k = 32 -> 0 <= k ->
  exists b, netmask_loop fuel (m * 2 ^ k) k = Some (m * 2 ^ b, b) /\ k <= b <= 32.
Proof.
  intros Hm. revert k; induction fuel as [|fuel IH]; intros k Hf Hk; cbn [netmask_loop].
  - assert (k = 32) as -> by lia.
    assert (Z.land (m * 2 ^ 32) (Z.shiftl 1 31) = 0) as ->.
    { apply Z.bits_inj'. intros n Hn. rewrite Z.land_spec, Z.bits_0, Z.shiftl_spec by done.
      destruct (Z_lt_le_dec n 32).
      - by rewrite Z.mul_pow2_bits_low.
      - rewrite andb_comm, Z.bits_above_log2; [done|lia|]. simpl. lia. }
    eexists; split; [done|lia].
  - destruct (Z.eqb_spec (Z.land (m * 2 ^ k) (Z.shiftl 1 31)) 0).
    + eexists; split; [done|lia].
    + rewrite Z.shiftl_mul_pow2, <-Z.mul_assoc, <-Z.pow_add_r by lia.
      destruct (IH (k + 1)) as (b & E & ?); [lia..|].
      exists b. split; [exact E|lia].
Qed.

Lemma cidr_check_ok a w r : cidr_check a w = Ok r ->
  r = (a, w) /\ 0 <= w /\ ip_toUnsigned a false mod 2 ^ w = 0.
Proof.
  unfold cidr_check, py_shl1. destruct (Z.ltb_spec w 0); [done|]. cbn [mbind res_bind].
  rewrite land_low by done. destruct (Z.eqb_spec (ip_toUnsigned a false mod 2 ^ w) 0); [|done].
  cbn [negb]. by intros [= <-].
Qed.

Lemma class_wild_range u w : class_wild u = Some w -> 0 <= w <= 32.
Proof. unfold class_wild. intros. repeat case_match; simplify_eq; lia. Qed.

(** A CIDR that parses has between 0 and 32 wildcard bits and no host part ... *)
Lemma parseCIDR_ok s infer a w : parseCIDR s infer = Ok (a, w) ->
  0 <= w <= 32 /\ ip_toUnsigned a false mod 2 ^ w = 0.
Proof.
  unfold parseCIDR. intros H.
  destruct (split_byte x2f s) as [|s0 [|s1 ss]]; [done|..].
  - destruct (IPAddr_init _ _) as [a0|]; [cbn [mbind res_bind] in H|done].
    destruct infer; cbn [negb] in H; cycle 1.
    { simplify_eq. rewrite Z.mod_1_r. lia. }
    rewrite inferNetMask_class in H.
    destruct (class_wild _) as [w0|] eqn:Ew; [|done].
    unfold py_shl1 in H. apply class_wild_range in Ew.
    rewrite (proj2 (Z.ltb_ge _ _)) in H by lia. cbn [mbind res_bind] in H.
    case_match; apply cidr_check_ok in H as ([= -> ->] & ? & ?); split; (done || lia).
  - destruct (py_int 10 s1) as [v|].
    + destruct ((0 <=? 32 - v) && (32 - v <=? 32)) eqn:E; [|done].
      destruct (IPAddr_init _ _) as [a0|]; [cbn [mbind res_bind] in H|done].
      apply andb_true_iff in E as [?%Z.leb_le ?%Z.leb_le].
      apply cidr_check_ok in H as ([= -> ->] & ? & ?). split; (done || lia).
    + destruct (IPAddr_init (IStr s1) _) as [mk|]; [cbn [mbind res_bind] in H|done].
      destruct (netmask_loop _ _ _) as [[m k]|]; [|done].
      destruct (negb _) in H; [done|].
      destruct ((0 <=? 32 - k) && (32 - k <=? 32)) eqn:E; [|done].
      destruct (IPAddr_init _ _) as [a0|]; [cbn [mbind res_bind] in H|done].
      apply andb_true_iff in E as [?%Z.leb_le ?%Z.leb_le].
      apply cidr_check_ok in H as ([= -> ->] & ? & ?). split; (done || lia).
Qed.

Lemma py_shl1_err k : py_shl1 k <> Err Diverge.
Proof. unfold py_shl1. by case_match. Qed.

Lemma IPAddr_init_err x n : IPAddr_init x n <> Err Diverge.
Proof.
  assert (forall f s, unpack1 f s <> Err Diverge) as Hu.
  { intros f s. unfold unpack1. destruct (struct_unpack f s) eqn:E; cbn.
    - repeat case_match; done.
    - apply struct_unpack_err in E. congruence. }
  assert (forall f s, (v ← unpack1 f s; Ok (MkIP v)) <> Err Diverge) as Hv.
  { intros f s. specialize (Hu f s). destruct (unpack1 f s); cbn; congruence. }
  destruct x as [z|s|a]; simpl; [|destruct (negb _); [|apply Hv]|done].
  - destruct (struct_pack _ _) eqn:E; cbn [mbind res_bind]; [apply Hv|].
    apply struct_pack_err_inv in E. congruence.
  - unfold inet_aton. repeat case_match; cbn [mbind res_bind]; first [apply Hv|done].
Qed.

(** [parseCIDR] ends on every string: the loop that counts the bits of a netmask is
    over within 32 rounds. *)
Theorem parseCIDR_terminates s infer : parseCIDR s infer <> Err Diverge.
Proof.
  assert (forall a w, cidr_check a w <> Err Diverge) as Hc.
  { intros a w. unfold cidr_check, py_shl1. destruct (w <? 0); cbn [mbind res_bind]; [done|].
    by destruct (negb _). }
  assert (forall i w, (a ← IPAddr_init i false; cidr_check a w) <> Err Diverge) as Hi.
  { intros i w. pose proof (IPAddr_init_err i false).
    destruct (IPAddr_init i false); cbn; [apply Hc|congruence]. }
  unfold parseCIDR. destruct (split_byte x2f s) as [|s0 [|s1 ss]]; [done|..].
  - pose proof (IPAddr_init_err (IStr s0) false).
    destruct (IPAddr_init _ _) as [a0|]; cbn [mbind res_bind]; [|congruence].
    destruct infer; cbn [negb]; [|done].
    destruct (inferNetMask a0) as [w|]; [|done].
    pose proof (py_shl1_err w). destruct (py_shl1 w); cbn [mbind res_bind]; [|congruence].
    case_match; apply Hc.
  - destruct (py_int 10 s1); [case_match; [apply Hi|done]|].
    pose proof (IPAddr_init_err (IStr s1) false).
    destruct (IPAddr_init (IStr s1) false) as [mk|]; cbn [mbind res_bind]; [|congruence].
    pose proof (netmask_loop_total (ip_toUnsigned mk false) 32 0
      (ip_toUnsigned_range mk) eq_refl ltac:(lia)) as (k & E & _).
    rewrite Z.mul_1_r in E. rewrite E.
    repeat case_match; first [apply Hi | done].
Qed.

(** The documented example, and the class E case that raises TypeError. *)
Example parseCIDR_24 :
  parseCIDR (lit "192.168.102.0/24") true = Ok (ip_of_int 0xC0A86600, 8).
Proof. vm_compute. reflexivity. Qed.
Example parseCIDR_netmask :
  parseCIDR (lit "10.0.0.0/255.255.0.0") true = Ok (ip_of_int 0x0A000000, 16).
Proof. vm_compute. reflexivity. Qed.
Example parseCIDR_class_e : parseCIDR (lit "240.0.0.1") true = Err TypeError.
Proof. vm_compute. reflexivity. Qed.

(** * Properties of the address classes *)

(** Integers and Ethernet addresses convert both ways: an address made of an integer
    is worth its low 48 bits, and the integer of an address makes that address. *)
Theorem eth_int_inverse z a : eth_wf a ->
  eth_toInt (eth_of_int z) = Ok (z mod 2 ^ 48) /\
  exists v, eth_toInt a = Ok v /\ 0 <= v < 2 ^ 48 /\ eth_of_int v = a.
Proof.
  intros Ha. split; [apply eth_int_roundtrip|]. exists (be_dec (eth_value a)).
  split; [by apply eth_toInt_spec|]. split; [|by apply eth_of_int_be_dec].
  pose proof (be_dec_range (eth_value a)) as Hr. unfold eth_wf in Ha. rewrite Ha in Hr. exact Hr.
Qed.

(** The six raw bytes of an address make the address again, unless exactly five of
    them are colons: then the constructor takes them for hexadecimal text and fails. *)
Theorem eth_raw_roundtrip a : eth_wf a ->
  eth_of_bytes (eth_toRaw a) = if count_byte x3a (eth_value a) =? 5 then Err ValueError else Ok a.
Proof.
  intros Ha. unfold eth_toRaw. destruct (Z.eqb_spec (count_byte x3a (eth_value a)) 5).
  - by apply eth_of_bytes_five_colons.
  - rewrite eth_of_bytes_raw by done. by destruct a.
Qed.

(** A network that [parseCIDR] accepts is one [inNetwork] understands: its prefix and
    wildcard bits are in range, it has no host part, and an address is in it exactly when
    it agrees above the wildcard bits. *)
Theorem parseCIDR_inNetwork s infer n w a : parseCIDR s infer = Ok (n, w) ->
  0 <= w <= 32 /\ ip_toUnsigned n false mod 2 ^ w = 0 /\
  inNetwork a (IAddr n) w =
    Ok (bool_decide (ip_toUnsigned a false / 2 ^ w = ip_toUnsigned n false / 2 ^ w)).
Proof.
  intros H. destruct (parseCIDR_ok _ _ _ _ H) as [Hw Hn]. split; [done|]. split; [done|].
  rewrite inNetwork_spec by lia. f_equal. apply bool_decide_ext. tauto.
Qed.

Lemma eth_str_roundtrip_witness :
  eth_of_bytes (eth_toStr [x2d] (eth_of_int 0x020a0000ff01)) = Ok (eth_of_int 0x020a0000ff01).
Proof. apply eth_str_roundtrip; [reflexivity|right; reflexivity]. Defined.

Lemma eth_cmp_not_antisymmetric_witness :
  let a := eth_of_int 1 in let o := eth_of_int 2 in
  eth_cmp a (EAddr o) = Ok (-1) /\ eth_cmp o (EAddr a) = Ok (-1).
Proof. apply (eth_cmp_not_antisymmetric (eth_of_int 1) (eth_of_int 2)). vm_compute. discriminate. Defined.

Lemma eth_int_inverse_witness :
  eth_toInt (eth_of_int (2 ^ 48 + 7)) = Ok 7 /\
  exists v, eth_toInt (eth_of_int 9) = Ok v /\ 0 <= v < 2 ^ 48 /\ eth_of_int v = eth_of_int 9.
Proof. exact (eth_int_inverse (2 ^ 48 + 7) (eth_of_int 9) eq_refl). Defined.

Lemma eth_raw_roundtrip_witness :
  eth_of_bytes [x3a; x3a; x3a; x3a; x3a; x01] = Err ValueError /\
  eth_of_bytes [x3a; x3a; x3a; x3a; x02; x01] = Ok (MkEth [x3a; x3a; x3a; x3a; x02; x01]).
Proof.
  split; [exact (eth_raw_roundtrip (MkEth [x3a; x3a; x3a; x3a; x3a; x01]) eq_refl)|].
  exact (eth_raw_roundtrip (MkEth [x3a; x3a; x3a; x3a; x02; x01]) eq_refl).
Defined.

Lemma parseCIDR_inNetwork_witness :
  let n := ip_of_int 0x0A010000 in
  0 <= 16 <= 32 /\ ip_toUnsigned n false mod 2 ^ 16 = 0 /\
  inNetwork (ip_of_int 0x0A01FFFE) (IAddr n) 16 =
    Ok (bool_decide (ip_toUnsigned (ip_of_int 0x0A01FFFE) false / 2 ^ 16 = ip_toUnsigned n false / 2 ^ 16)).
Proof.
  apply (parseCIDR_inNetwork (lit "10.1.0.0/16") true (ip_of_int 0x0A010000) 16).
  vm_compute. reflexivity.
Defined.
