(* ===== verification/OfConst.v ===== *)
(** [pox/openflow/libopenflow_01.py]: the name/value tables, what [_init] derives
    from them, and the constants the message classes use. *)
From S2P Require Import Prelude.

(** A [*_rev_map] dict: names to values (the names are distinct). *)
Abbreviation rev_map := (list (string * Z)).

Definition ofp_port_config_rev_map : rev_map :=
  [ ("OFPPC_PORT_DOWN", 1);
    ("OFPPC_NO_STP", 2);
    ("OFPPC_NO_RECV", 4);
    ("OFPPC_NO_RECV_STP", 8);
    ("OFPPC_NO_FLOOD", 16);
    ("OFPPC_NO_FWD", 32);
    ("OFPPC_NO_PACKET_IN", 64) ].

Definition ofp_port_state_rev_map : rev_map :=
  [ ("OFPPS_STP_LISTEN", 0);
    ("OFPPS_LINK_DOWN", 1);
    ("OFPPS_STP_LEARN", 256);
    ("OFPPS_STP_FORWARD", 512);
    ("OFPPS_STP_BLOCK", 768) ].

Definition ofp_port_features_rev_map : rev_map :=
  [ ("OFPPF_10MB_HD", 1);
    ("OFPPF_10MB_FD", 2);
    ("OFPPF_100MB_HD", 4);
    ("OFPPF_100MB_FD", 8);
    ("OFPPF_1GB_HD", 16);
    ("OFPPF_1GB_FD", 32);
    ("OFPPF_10GB_FD", 64);
    ("OFPPF_COPPER", 128);
    ("OFPPF_FIBER", 256);
    ("OFPPF_AUTONEG", 512);
    ("OFPPF_PAUSE", 1024);
    ("OFPPF_PAUSE_ASYM", 2048) ].

Definition ofp_queue_properties_rev_map : rev_map :=
  [ ("OFPQT_MIN_RATE", 0) ].

Definition ofp_flow_wildcards_rev_map : rev_map :=
  [ ("OFPFW_IN_PORT", 1);
    ("OFPFW_DL_VLAN", 2);
    ("OFPFW_DL_SRC", 4);
    ("OFPFW_DL_DST", 8);
    ("OFPFW_DL_TYPE", 16);
    ("OFPFW_NW_PROTO", 32);
    ("OFPFW_TP_SRC", 64);
    ("OFPFW_TP_DST", 128);
    ("OFPFW_DL_VLAN_PCP", 1048576);
    ("OFPFW_NW_TOS", 2097152) ].

Definition ofp_action_type_rev_map : rev_map :=
  [ ("OFPAT_OUTPUT", 0);
    ("OFPAT_SET_VLAN_VID", 1);
    ("OFPAT_SET_VLAN_PCP", 2);
    ("OFPAT_STRIP_VLAN", 3);
    ("OFPAT_SET_DL_SRC", 4);
    ("OFPAT_SET_DL_DST", 5);
    ("OFPAT_SET_NW_SRC", 6);
    ("OFPAT_SET_NW_DST", 7);
    ("OFPAT_SET_NW_TOS", 8);
    ("OFPAT_SET_TP_SRC", 9);
    ("OFPAT_SET_TP_DST", 10);
    ("OFPAT_ENQUEUE", 11);
    ("OFPAT_SET_MPLS_LABEL", 13);
    ("OFPAT_SET_MPLS_TC", 14);
    ("OFPAT_SET_MPLS_TTL", 15);
    ("OFPAT_DEC_MPLS_TTL", 16);
    ("OFPAT_PUSH_MPLS", 19);
    ("OFPAT_POP_MPLS", 20);
    ("OFPAT_RESUBMIT", 21);
    ("OFPAT_VENDOR", 65535) ].

Definition ofp_capabilities_rev_map : rev_map :=
  [ ("OFPC_FLOW_STATS", 1);
    ("OFPC_TABLE_STATS", 2);
    ("OFPC_PORT_STATS", 4);
    ("OFPC_STP", 8);
    ("OFPC_RESERVED", 16);
    ("OFPC_IP_REASM", 32);
    ("OFPC_QUEUE_STATS", 64);
    ("OFPC_ARP_MATCH_IP", 128) ].

Definition ofp_config_flags_rev_map : rev_map :=
  [ ("OFPC_FRAG_NORMAL", 0);
    ("OFPC_FRAG_DROP", 1);
    ("OFPC_FRAG_REASM", 2);
    ("OFPC_FRAG_MASK", 3) ].

Definition ofp_flow_mod_command_rev_map : rev_map :=
  [ ("OFPFC_ADD", 0);
    ("OFPFC_MODIFY", 1);
    ("OFPFC_MODIFY_STRICT", 2);
    ("OFPFC_DELETE", 3);
    ("OFPFC_DELETE_STRICT", 4) ].

Definition ofp_flow_mod_flags_rev_map : rev_map :=
  [ ("OFPFF_SEND_FLOW_REM", 1);
    ("OFPFF_CHECK_OVERLAP", 2);
    ("OFPFF_EMERG", 4) ].

Definition ofp_stats_types_rev_map : rev_map :=
  [ ("OFPST_DESC", 0);
    ("OFPST_FLOW", 1);
    ("OFPST_AGGREGATE", 2);
    ("OFPST_TABLE", 3);
    ("OFPST_PORT", 4);
    ("OFPST_QUEUE", 5);
    ("OFPST_VENDOR", 65535) ].

Definition ofp_stats_reply_flags_rev_map : rev_map :=
  [ ("OFPSF_REPLY_MORE", 1) ].

Definition ofp_packet_in_reason_rev_map : rev_map :=
  [ ("OFPR_NO_MATCH", 0);
    ("OFPR_ACTION", 1) ].

Definition ofp_flow_removed_reason_rev_map : rev_map :=
  [ ("OFPRR_IDLE_TIMEOUT", 0);
    ("OFPRR_HARD_TIMEOUT", 1);
    ("OFPRR_DELETE", 2) ].

Definition ofp_port_reason_rev_map : rev_map :=
  [ ("OFPPR_ADD", 0);
    ("OFPPR_DELETE", 1);
    ("OFPPR_MODIFY", 2) ].

Definition ofp_error_type_rev_map : rev_map :=
  [ ("OFPET_HELLO_FAILED", 0);
    ("OFPET_BAD_REQUEST", 1);
    ("OFPET_BAD_ACTION", 2);
    ("OFPET_FLOW_MOD_FAILED", 3);
    ("OFPET_PORT_MOD_FAILED", 4);
    ("OFPET_QUEUE_OP_FAILED", 5) ].

Definition ofp_hello_failed_code_rev_map : rev_map :=
  [ ("OFPHFC_INCOMPATIBLE", 0);
    ("OFPHFC_EPERM", 1) ].

Definition ofp_bad_request_code_rev_map : rev_map :=
  [ ("OFPBRC_BAD_VERSION", 0);
    ("OFPBRC_BAD_TYPE", 1);
    ("OFPBRC_BAD_STAT", 2);
    ("OFPBRC_BAD_VENDOR", 3);
    ("OFPBRC_BAD_SUBTYPE", 4);
    ("OFPBRC_EPERM", 5);
    ("OFPBRC_BAD_LEN", 6);
    ("OFPBRC_BUFFER_EMPTY", 7);
    ("OFPBRC_BUFFER_UNKNOWN", 8) ].

Definition ofp_bad_action_code_rev_map : rev_map :=
  [ ("OFPBAC_BAD_TYPE", 0);
    ("OFPBAC_BAD_LEN", 1);
    ("OFPBAC_BAD_VENDOR", 2);
    ("OFPBAC_BAD_VENDOR_TYPE", 3);
    ("OFPBAC_BAD_OUT_PORT", 4);
    ("OFPBAC_BAD_ARGUMENT", 5);
    ("OFPBAC_EPERM", 6);
    ("OFPBAC_TOO_MANY", 7);
    ("OFPBAC_BAD_QUEUE", 8) ].

Definition ofp_flow_mod_failed_code_rev_map : rev_map :=
  [ ("OFPFMFC_ALL_TABLES_FULL", 0);
    ("OFPFMFC_OVERLAP", 1);
    ("OFPFMFC_EPERM", 2);
    ("OFPFMFC_BAD_EMERG_TIMEOUT", 3);
    ("OFPFMFC_BAD_COMMAND", 4);
    ("OFPFMFC_UNSUPPORTED", 5) ].

Definition ofp_port_mod_failed_code_rev_map : rev_map :=
  [ ("OFPPMFC_BAD_PORT", 0);
    ("OFPPMFC_BAD_HW_ADDR", 1) ].

Definition ofp_queue_op_failed_code_rev_map : rev_map :=
  [ ("OFPQOFC_BAD_PORT", 0);
    ("OFPQOFC_BAD_QUEUE", 1);
    ("OFPQOFC_EPERM", 2) ].

Definition ofp_port_rev_map : rev_map :=
  [ ("OFPP_MAX", 65280);
    ("OFPP_IN_PORT", 65528);
    ("OFPP_TABLE", 65529);
    ("OFPP_NORMAL", 65530);
    ("OFPP_FLOOD", 65531);
    ("OFPP_ALL", 65532);
    ("OFPP_CONTROLLER", 65533);
    ("OFPP_LOCAL", 65534);
    ("OFPP_NONE", 65535) ].

Definition ofp_type_rev_map : rev_map :=
  [ ("OFPT_HELLO", 0);
    ("OFPT_ERROR", 1);
    ("OFPT_ECHO_REQUEST", 2);
    ("OFPT_ECHO_REPLY", 3);
    ("OFPT_VENDOR", 4);
    ("OFPT_FEATURES_REQUEST", 5);
    ("OFPT_FEATURES_REPLY", 6);
    ("OFPT_GET_CONFIG_REQUEST", 7);
    ("OFPT_GET_CONFIG_REPLY", 8);
    ("OFPT_SET_CONFIG", 9);
    ("OFPT_PACKET_IN", 10);
    ("OFPT_FLOW_REMOVED", 11);
    ("OFPT_PORT_STATUS", 12);
    ("OFPT_PACKET_OUT", 13);
    ("OFPT_FLOW_MOD", 14);
    ("OFPT_PORT_MOD", 15);
    ("OFPT_STATS_REQUEST", 16);
    ("OFPT_STATS_REPLY", 17);
    ("OFPT_BARRIER_REQUEST", 18);
    ("OFPT_BARRIER_REPLY", 19);
    ("OFPT_QUEUE_GET_CONFIG_REQUEST", 20);
    ("OFPT_QUEUE_GET_CONFIG_REPLY", 21) ].

(** [m[k]] on a rev_map known to have [k]. *)
Definition rev_get (m : rev_map) (k : string) : Z :=
  default (-1) (snd <$> find (fun e => String.eqb (fst e) k) m).

(** [_init] binds every name of every table as a global of the module. *)
Definition OFPPC_PORT_DOWN : Z := Eval vm_compute in rev_get ofp_port_config_rev_map "OFPPC_PORT_DOWN".
Definition OFPPC_NO_STP : Z := Eval vm_compute in rev_get ofp_port_config_rev_map "OFPPC_NO_STP".
Definition OFPPC_NO_RECV : Z := Eval vm_compute in rev_get ofp_port_config_rev_map "OFPPC_NO_RECV".
Definition OFPPC_NO_RECV_STP : Z := Eval vm_compute in rev_get ofp_port_config_rev_map "OFPPC_NO_RECV_STP".
Definition OFPPC_NO_FLOOD : Z := Eval vm_compute in rev_get ofp_port_config_rev_map "OFPPC_NO_FLOOD".
Definition OFPPC_NO_FWD : Z := Eval vm_compute in rev_get ofp_port_config_rev_map "OFPPC_NO_FWD".
Definition OFPPC_NO_PACKET_IN : Z := Eval vm_compute in rev_get ofp_port_config_rev_map "OFPPC_NO_PACKET_IN".
Definition OFPPS_STP_LISTEN : Z := Eval vm_compute in rev_get ofp_port_state_rev_map "OFPPS_STP_LISTEN".
Definition OFPPS_LINK_DOWN : Z := Eval vm_compute in rev_get ofp_port_state_rev_map "OFPPS_LINK_DOWN".
Definition OFPPS_STP_LEARN : Z := Eval vm_compute in rev_get ofp_port_state_rev_map "OFPPS_STP_LEARN".
Definition OFPPS_STP_FORWARD : Z := Eval vm_compute in rev_get ofp_port_state_rev_map "OFPPS_STP_FORWARD".
Definition OFPPS_STP_BLOCK : Z := Eval vm_compute in rev_get ofp_port_state_rev_map "OFPPS_STP_BLOCK".
Definition OFPPF_10MB_HD : Z := Eval vm_compute in rev_get ofp_port_features_rev_map "OFPPF_10MB_HD".
Definition OFPPF_10MB_FD : Z := Eval vm_compute in rev_get ofp_port_features_rev_map "OFPPF_10MB_FD".
Definition OFPPF_100MB_HD : Z := Eval vm_compute in rev_get ofp_port_features_rev_map "OFPPF_100MB_HD".
Definition OFPPF_100MB_FD : Z := Eval vm_compute in rev_get ofp_port_features_rev_map "OFPPF_100MB_FD".
Definition OFPPF_1GB_HD : Z := Eval vm_compute in rev_get ofp_port_features_rev_map "OFPPF_1GB_HD".
Definition OFPPF_1GB_FD : Z := Eval vm_compute in rev_get ofp_port_features_rev_map "OFPPF_1GB_FD".
Definition OFPPF_10GB_FD : Z := Eval vm_compute in rev_get ofp_port_features_rev_map "OFPPF_10GB_FD".
Definition OFPPF_COPPER : Z := Eval vm_compute in rev_get ofp_port_features_rev_map "OFPPF_COPPER".
Definition OFPPF_FIBER : Z := Eval vm_compute in rev_get ofp_port_features_rev_map "OFPPF_FIBER".
Definition OFPPF_AUTONEG : Z := Eval vm_compute in rev_get ofp_port_features_rev_map "OFPPF_AUTONEG".
Definition OFPPF_PAUSE : Z := Eval vm_compute in rev_get ofp_port_features_rev_map "OFPPF_PAUSE".
Definition OFPPF_PAUSE_ASYM : Z := Eval vm_compute in rev_get ofp_port_features_rev_map "OFPPF_PAUSE_ASYM".
Definition OFPQT_MIN_RATE : Z := Eval vm_compute in rev_get ofp_queue_properties_rev_map "OFPQT_MIN_RATE".
Definition OFPFW_IN_PORT : Z := Eval vm_compute in rev_get ofp_flow_wildcards_rev_map "OFPFW_IN_PORT".
Definition OFPFW_DL_VLAN : Z := Eval vm_compute in rev_get ofp_flow_wildcards_rev_map "OFPFW_DL_VLAN".
Definition OFPFW_DL_SRC : Z := Eval vm_compute in rev_get ofp_flow_wildcards_rev_map "OFPFW_DL_SRC".
Definition OFPFW_DL_DST : Z := Eval vm_compute in rev_get ofp_flow_wildcards_rev_map "OFPFW_DL_DST".
Definition OFPFW_DL_TYPE : Z := Eval vm_compute in rev_get ofp_flow_wildcards_rev_map "OFPFW_DL_TYPE".
Definition OFPFW_NW_PROTO : Z := Eval vm_compute in rev_get ofp_flow_wildcards_rev_map "OFPFW_NW_PROTO".
Definition OFPFW_TP_SRC : Z := Eval vm_compute in rev_get ofp_flow_wildcards_rev_map "OFPFW_TP_SRC".
Definition OFPFW_TP_DST : Z := Eval vm_compute in rev_get ofp_flow_wildcards_rev_map "OFPFW_TP_DST".
Definition OFPFW_DL_VLAN_PCP : Z := Eval vm_compute in rev_get ofp_flow_wildcards_rev_map "OFPFW_DL_VLAN_PCP".
Definition OFPFW_NW_TOS : Z := Eval vm_compute in rev_get ofp_flow_wildcards_rev_map "OFPFW_NW_TOS".
Definition OFPAT_OUTPUT : Z := Eval vm_compute in rev_get ofp_action_type_rev_map "OFPAT_OUTPUT".
Definition OFPAT_SET_VLAN_VID : Z := Eval vm_compute in rev_get ofp_action_type_rev_map "OFPAT_SET_VLAN_VID".
Definition OFPAT_SET_VLAN_PCP : Z := Eval vm_compute in rev_get ofp_action_type_rev_map "OFPAT_SET_VLAN_PCP".
Definition OFPAT_STRIP_VLAN : Z := Eval vm_compute in rev_get ofp_action_type_rev_map "OFPAT_STRIP_VLAN".
Definition OFPAT_SET_DL_SRC : Z := Eval vm_compute in rev_get ofp_action_type_rev_map "OFPAT_SET_DL_SRC".
Definition OFPAT_SET_DL_DST : Z := Eval vm_compute in rev_get ofp_action_type_rev_map "OFPAT_SET_DL_DST".
Definition OFPAT_SET_NW_SRC : Z := Eval vm_compute in rev_get ofp_action_type_rev_map "OFPAT_SET_NW_SRC".
Definition OFPAT_SET_NW_DST : Z := Eval vm_compute in rev_get ofp_action_type_rev_map "OFPAT_SET_NW_DST".
Definition OFPAT_SET_NW_TOS : Z := Eval vm_compute in rev_get ofp_action_type_rev_map "OFPAT_SET_NW_TOS".
Definition OFPAT_SET_TP_SRC : Z := Eval vm_compute in rev_get ofp_action_type_rev_map "OFPAT_SET_TP_SRC".
Definition OFPAT_SET_TP_DST : Z := Eval vm_compute in rev_get ofp_action_type_rev_map "OFPAT_SET_TP_DST".
Definition OFPAT_ENQUEUE : Z := Eval vm_compute in rev_get ofp_action_type_rev_map "OFPAT_ENQUEUE".
Definition OFPAT_SET_MPLS_LABEL : Z := Eval vm_compute in rev_get ofp_action_type_rev_map "OFPAT_SET_MPLS_LABEL".
Definition OFPAT_SET_MPLS_TC : Z := Eval vm_compute in rev_get ofp_action_type_rev_map "OFPAT_SET_MPLS_TC".
Definition OFPAT_SET_MPLS_TTL : Z := Eval vm_compute in rev_get ofp_action_type_rev_map "OFPAT_SET_MPLS_TTL".
Definition OFPAT_DEC_MPLS_TTL : Z := Eval vm_compute in rev_get ofp_action_type_rev_map "OFPAT_DEC_MPLS_TTL".
Definition OFPAT_PUSH_MPLS : Z := Eval vm_compute in rev_get ofp_action_type_rev_map "OFPAT_PUSH_MPLS".
Definition OFPAT_POP_MPLS : Z := Eval vm_compute in rev_get ofp_action_type_rev_map "OFPAT_POP_MPLS".
Definition OFPAT_RESUBMIT : Z := Eval vm_compute in rev_get ofp_action_type_rev_map "OFPAT_RESUBMIT".
Definition OFPAT_VENDOR : Z := Eval vm_compute in rev_get ofp_action_type_rev_map "OFPAT_VENDOR".
Definition OFPC_FLOW_STATS : Z := Eval vm_compute in rev_get ofp_capabilities_rev_map "OFPC_FLOW_STATS".
Definition OFPC_TABLE_STATS : Z := Eval vm_compute in rev_get ofp_capabilities_rev_map "OFPC_TABLE_STATS".
Definition OFPC_PORT_STATS : Z := Eval vm_compute in rev_get ofp_capabilities_rev_map "OFPC_PORT_STATS".
Definition OFPC_STP : Z := Eval vm_compute in rev_get ofp_capabilities_rev_map "OFPC_STP".
Definition OFPC_RESERVED : Z := Eval vm_compute in rev_get ofp_capabilities_rev_map "OFPC_RESERVED".
Definition OFPC_IP_REASM : Z := Eval vm_compute in rev_get ofp_capabilities_rev_map "OFPC_IP_REASM".
Definition OFPC_QUEUE_STATS : Z := Eval vm_compute in rev_get ofp_capabilities_rev_map "OFPC_QUEUE_STATS".
Definition OFPC_ARP_MATCH_IP : Z := Eval vm_compute in rev_get ofp_capabilities_rev_map "OFPC_ARP_MATCH_IP".
Definition OFPC_FRAG_NORMAL : Z := Eval vm_compute in rev_get ofp_config_flags_rev_map "OFPC_FRAG_NORMAL".
Definition OFPC_FRAG_DROP : Z := Eval vm_compute in rev_get ofp_config_flags_rev_map "OFPC_FRAG_DROP".
Definition OFPC_FRAG_REASM : Z := Eval vm_compute in rev_get ofp_config_flags_rev_map "OFPC_FRAG_REASM".
Definition OFPC_FRAG_MASK : Z := Eval vm_compute in rev_get ofp_config_flags_rev_map "OFPC_FRAG_MASK".
Definition OFPFC_ADD : Z := Eval vm_compute in rev_get ofp_flow_mod_command_rev_map "OFPFC_ADD".
Definition OFPFC_MODIFY : Z := Eval vm_compute in rev_get ofp_flow_mod_command_rev_map "OFPFC_MODIFY".
Definition OFPFC_MODIFY_STRICT : Z := Eval vm_compute in rev_get ofp_flow_mod_command_rev_map "OFPFC_MODIFY_STRICT".
Definition OFPFC_DELETE : Z := Eval vm_compute in rev_get ofp_flow_mod_command_rev_map "OFPFC_DELETE".
Definition OFPFC_DELETE_STRICT : Z := Eval vm_compute in rev_get ofp_flow_mod_command_rev_map "OFPFC_DELETE_STRICT".
Definition OFPFF_SEND_FLOW_REM : Z := Eval vm_compute in rev_get ofp_flow_mod_flags_rev_map "OFPFF_SEND_FLOW_REM".
Definition OFPFF_CHECK_OVERLAP : Z := Eval vm_compute in rev_get ofp_flow_mod_flags_rev_map "OFPFF_CHECK_OVERLAP".
Definition OFPFF_EMERG : Z := Eval vm_compute in rev_get ofp_flow_mod_flags_rev_map "OFPFF_EMERG".
Definition OFPST_DESC : Z := Eval vm_compute in rev_get ofp_stats_types_rev_map "OFPST_DESC".
Definition OFPST_FLOW : Z := Eval vm_compute in rev_get ofp_stats_types_rev_map "OFPST_FLOW".
Definition OFPST_AGGREGATE : Z := Eval vm_compute in rev_get ofp_stats_types_rev_map "OFPST_AGGREGATE".
Definition OFPST_TABLE : Z := Eval vm_compute in rev_get ofp_stats_types_rev_map "OFPST_TABLE".
Definition OFPST_PORT : Z := Eval vm_compute in rev_get ofp_stats_types_rev_map "OFPST_PORT".
Definition OFPST_QUEUE : Z := Eval vm_compute in rev_get ofp_stats_types_rev_map "OFPST_QUEUE".
Definition OFPST_VENDOR : Z := Eval vm_compute in rev_get ofp_stats_types_rev_map "OFPST_VENDOR".
Definition OFPSF_REPLY_MORE : Z := Eval vm_compute in rev_get ofp_stats_reply_flags_rev_map "OFPSF_REPLY_MORE".
Definition OFPR_NO_MATCH : Z := Eval vm_compute in rev_get ofp_packet_in_reason_rev_map "OFPR_NO_MATCH".
Definition OFPR_ACTION : Z := Eval vm_compute in rev_get ofp_packet_in_reason_rev_map "OFPR_ACTION".
Definition OFPRR_IDLE_TIMEOUT : Z := Eval vm_compute in rev_get ofp_flow_removed_reason_rev_map "OFPRR_IDLE_TIMEOUT".
Definition OFPRR_HARD_TIMEOUT : Z := Eval vm_compute in rev_get ofp_flow_removed_reason_rev_map "OFPRR_HARD_TIMEOUT".
Definition OFPRR_DELETE : Z := Eval vm_compute in rev_get ofp_flow_removed_reason_rev_map "OFPRR_DELETE".
Definition OFPPR_ADD : Z := Eval vm_compute in rev_get ofp_port_reason_rev_map "OFPPR_ADD".
Definition OFPPR_DELETE : Z := Eval vm_compute in rev_get ofp_port_reason_rev_map "OFPPR_DELETE".
Definition OFPPR_MODIFY : Z := Eval vm_compute in rev_get ofp_port_reason_rev_map "OFPPR_MODIFY".
Definition OFPET_HELLO_FAILED : Z := Eval vm_compute in rev_get ofp_error_type_rev_map "OFPET_HELLO_FAILED".
Definition OFPET_BAD_REQUEST : Z := Eval vm_compute in rev_get ofp_error_type_rev_map "OFPET_BAD_REQUEST".
Definition OFPET_BAD_ACTION : Z := Eval vm_compute in rev_get ofp_error_type_rev_map "OFPET_BAD_ACTION".
Definition OFPET_FLOW_MOD_FAILED : Z := Eval vm_compute in rev_get ofp_error_type_rev_map "OFPET_FLOW_MOD_FAILED".
Definition OFPET_PORT_MOD_FAILED : Z := Eval vm_compute in rev_get ofp_error_type_rev_map "OFPET_PORT_MOD_FAILED".
Definition OFPET_QUEUE_OP_FAILED : Z := Eval vm_compute in rev_get ofp_error_type_rev_map "OFPET_QUEUE_OP_FAILED".
Definition OFPHFC_INCOMPATIBLE : Z := Eval vm_compute in rev_get ofp_hello_failed_code_rev_map "OFPHFC_INCOMPATIBLE".
Definition OFPHFC_EPERM : Z := Eval vm_compute in rev_get ofp_hello_failed_code_rev_map "OFPHFC_EPERM".
Definition OFPBRC_BAD_VERSION : Z := Eval vm_compute in rev_get ofp_bad_request_code_rev_map "OFPBRC_BAD_VERSION".
Definition OFPBRC_BAD_TYPE : Z := Eval vm_compute in rev_get ofp_bad_request_code_rev_map "OFPBRC_BAD_TYPE".
Definition OFPBRC_BAD_STAT : Z := Eval vm_compute in rev_get ofp_bad_request_code_rev_map "OFPBRC_BAD_STAT".
Definition OFPBRC_BAD_VENDOR : Z := Eval vm_compute in rev_get ofp_bad_request_code_rev_map "OFPBRC_BAD_VENDOR".
Definition OFPBRC_BAD_SUBTYPE : Z := Eval vm_compute in rev_get ofp_bad_request_code_rev_map "OFPBRC_BAD_SUBTYPE".
Definition OFPBRC_EPERM : Z := Eval vm_compute in rev_get ofp_bad_request_code_rev_map "OFPBRC_EPERM".
Definition OFPBRC_BAD_LEN : Z := Eval vm_compute in rev_get ofp_bad_request_code_rev_map "OFPBRC_BAD_LEN".
Definition OFPBRC_BUFFER_EMPTY : Z := Eval vm_compute in rev_get ofp_bad_request_code_rev_map "OFPBRC_BUFFER_EMPTY".
Definition OFPBRC_BUFFER_UNKNOWN : Z := Eval vm_compute in rev_get ofp_bad_request_code_rev_map "OFPBRC_BUFFER_UNKNOWN".
Definition OFPBAC_BAD_TYPE : Z := Eval vm_compute in rev_get ofp_bad_action_code_rev_map "OFPBAC_BAD_TYPE".
Definition OFPBAC_BAD_LEN : Z := Eval vm_compute in rev_get ofp_bad_action_code_rev_map "OFPBAC_BAD_LEN".
Definition OFPBAC_BAD_VENDOR : Z := Eval vm_compute in rev_get ofp_bad_action_code_rev_map "OFPBAC_BAD_VENDOR".
Definition OFPBAC_BAD_VENDOR_TYPE : Z := Eval vm_compute in rev_get ofp_bad_action_code_rev_map "OFPBAC_BAD_VENDOR_TYPE".
Definition OFPBAC_BAD_OUT_PORT : Z := Eval vm_compute in rev_get ofp_bad_action_code_rev_map "OFPBAC_BAD_OUT_PORT".
Definition OFPBAC_BAD_ARGUMENT : Z := Eval vm_compute in rev_get ofp_bad_action_code_rev_map "OFPBAC_BAD_ARGUMENT".
Definition OFPBAC_EPERM : Z := Eval vm_compute in rev_get ofp_bad_action_code_rev_map "OFPBAC_EPERM".
Definition OFPBAC_TOO_MANY : Z := Eval vm_compute in rev_get ofp_bad_action_code_rev_map "OFPBAC_TOO_MANY".
Definition OFPBAC_BAD_QUEUE : Z := Eval vm_compute in rev_get ofp_bad_action_code_rev_map "OFPBAC_BAD_QUEUE".
Definition OFPFMFC_ALL_TABLES_FULL : Z := Eval vm_compute in rev_get ofp_flow_mod_failed_code_rev_map "OFPFMFC_ALL_TABLES_FULL".
Definition OFPFMFC_OVERLAP : Z := Eval vm_compute in rev_get ofp_flow_mod_failed_code_rev_map "OFPFMFC_OVERLAP".
Definition OFPFMFC_EPERM : Z := Eval vm_compute in rev_get ofp_flow_mod_failed_code_rev_map "OFPFMFC_EPERM".
Definition OFPFMFC_BAD_EMERG_TIMEOUT : Z := Eval vm_compute in rev_get ofp_flow_mod_failed_code_rev_map "OFPFMFC_BAD_EMERG_TIMEOUT".
Definition OFPFMFC_BAD_COMMAND : Z := Eval vm_compute in rev_get ofp_flow_mod_failed_code_rev_map "OFPFMFC_BAD_COMMAND".
Definition OFPFMFC_UNSUPPORTED : Z := Eval vm_compute in rev_get ofp_flow_mod_failed_code_rev_map "OFPFMFC_UNSUPPORTED".
Definition OFPPMFC_BAD_PORT : Z := Eval vm_compute in rev_get ofp_port_mod_failed_code_rev_map "OFPPMFC_BAD_PORT".
Definition OFPPMFC_BAD_HW_ADDR : Z := Eval vm_compute in rev_get ofp_port_mod_failed_code_rev_map "OFPPMFC_BAD_HW_ADDR".
Definition OFPQOFC_BAD_PORT : Z := Eval vm_compute in rev_get ofp_queue_op_failed_code_rev_map "OFPQOFC_BAD_PORT".
Definition OFPQOFC_BAD_QUEUE : Z := Eval vm_compute in rev_get ofp_queue_op_failed_code_rev_map "OFPQOFC_BAD_QUEUE".
Definition OFPQOFC_EPERM : Z := Eval vm_compute in rev_get ofp_queue_op_failed_code_rev_map "OFPQOFC_EPERM".
Definition OFPP_MAX : Z := Eval vm_compute in rev_get ofp_port_rev_map "OFPP_MAX".
Definition OFPP_IN_PORT : Z := Eval vm_compute in rev_get ofp_port_rev_map "OFPP_IN_PORT".
Definition OFPP_TABLE : Z := Eval vm_compute in rev_get ofp_port_rev_map "OFPP_TABLE".
Definition OFPP_NORMAL : Z := Eval vm_compute in rev_get ofp_port_rev_map "OFPP_NORMAL".
Definition OFPP_FLOOD : Z := Eval vm_compute in rev_get ofp_port_rev_map "OFPP_FLOOD".
Definition OFPP_ALL : Z := Eval vm_compute in rev_get ofp_port_rev_map "OFPP_ALL".
Definition OFPP_CONTROLLER : Z := Eval vm_compute in rev_get ofp_port_rev_map "OFPP_CONTROLLER".
Definition OFPP_LOCAL : Z := Eval vm_compute in rev_get ofp_port_rev_map "OFPP_LOCAL".
Definition OFPP_NONE : Z := Eval vm_compute in rev_get ofp_port_rev_map "OFPP_NONE".
Definition OFPT_HELLO : Z := Eval vm_compute in rev_get ofp_type_rev_map "OFPT_HELLO".
Definition OFPT_ERROR : Z := Eval vm_compute in rev_get ofp_type_rev_map "OFPT_ERROR".
Definition OFPT_ECHO_REQUEST : Z := Eval vm_compute in rev_get ofp_type_rev_map "OFPT_ECHO_REQUEST".
Definition OFPT_ECHO_REPLY : Z := Eval vm_compute in rev_get ofp_type_rev_map "OFPT_ECHO_REPLY".
Definition OFPT_VENDOR : Z := Eval vm_compute in rev_get ofp_type_rev_map "OFPT_VENDOR".
Definition OFPT_FEATURES_REQUEST : Z := Eval vm_compute in rev_get ofp_type_rev_map "OFPT_FEATURES_REQUEST".
Definition OFPT_FEATURES_REPLY : Z := Eval vm_compute in rev_get ofp_type_rev_map "OFPT_FEATURES_REPLY".
Definition OFPT_GET_CONFIG_REQUEST : Z := Eval vm_compute in rev_get ofp_type_rev_map "OFPT_GET_CONFIG_REQUEST".
Definition OFPT_GET_CONFIG_REPLY : Z := Eval vm_compute in rev_get ofp_type_rev_map "OFPT_GET_CONFIG_REPLY".
Definition OFPT_SET_CONFIG : Z := Eval vm_compute in rev_get ofp_type_rev_map "OFPT_SET_CONFIG".
Definition OFPT_PACKET_IN : Z := Eval vm_compute in rev_get ofp_type_rev_map "OFPT_PACKET_IN".
Definition OFPT_FLOW_REMOVED : Z := Eval vm_compute in rev_get ofp_type_rev_map "OFPT_FLOW_REMOVED".
Definition OFPT_PORT_STATUS : Z := Eval vm_compute in rev_get ofp_type_rev_map "OFPT_PORT_STATUS".
Definition OFPT_PACKET_OUT : Z := Eval vm_compute in rev_get ofp_type_rev_map "OFPT_PACKET_OUT".
Definition OFPT_FLOW_MOD : Z := Eval vm_compute in rev_get ofp_type_rev_map "OFPT_FLOW_MOD".
Definition OFPT_PORT_MOD : Z := Eval vm_compute in rev_get ofp_type_rev_map "OFPT_PORT_MOD".
Definition OFPT_STATS_REQUEST : Z := Eval vm_compute in rev_get ofp_type_rev_map "OFPT_STATS_REQUEST".
Definition OFPT_STATS_REPLY : Z := Eval vm_compute in rev_get ofp_type_rev_map "OFPT_STATS_REPLY".
Definition OFPT_BARRIER_REQUEST : Z := Eval vm_compute in rev_get ofp_type_rev_map "OFPT_BARRIER_REQUEST".
Definition OFPT_BARRIER_REPLY : Z := Eval vm_compute in rev_get ofp_type_rev_map "OFPT_BARRIER_REPLY".
Definition OFPT_QUEUE_GET_CONFIG_REQUEST : Z := Eval vm_compute in rev_get ofp_type_rev_map "OFPT_QUEUE_GET_CONFIG_REQUEST".
Definition OFPT_QUEUE_GET_CONFIG_REPLY : Z := Eval vm_compute in rev_get ofp_type_rev_map "OFPT_QUEUE_GET_CONFIG_REPLY".

(** [_init]: the forward map [dict((v,k) for k,v in m.iteritems())], kept when no
    value is lost ([len(forward) == len(m)]). *)
Definition forward_map (m : rev_map) : gmap Z string :=
  list_to_map ((fun e => (snd e, fst e)) <$> m).
Definition init_forward (m : rev_map) : option (gmap Z string) :=
  if decide (size (forward_map m) = length m) then Some (forward_map m) else None.

Definition all_rev_maps : list rev_map :=
  [ ofp_port_config_rev_map;
    ofp_port_state_rev_map;
    ofp_port_features_rev_map;
    ofp_queue_properties_rev_map;
    ofp_flow_wildcards_rev_map;
    ofp_action_type_rev_map;
    ofp_capabilities_rev_map;
    ofp_config_flags_rev_map;
    ofp_flow_mod_command_rev_map;
    ofp_flow_mod_flags_rev_map;
    ofp_stats_types_rev_map;
    ofp_stats_reply_flags_rev_map;
    ofp_packet_in_reason_rev_map;
    ofp_flow_removed_reason_rev_map;
    ofp_port_reason_rev_map;
    ofp_error_type_rev_map;
    ofp_hello_failed_code_rev_map;
    ofp_bad_request_code_rev_map;
    ofp_bad_action_code_rev_map;
    ofp_flow_mod_failed_code_rev_map;
    ofp_port_mod_failed_code_rev_map;
    ofp_queue_op_failed_code_rev_map;
    ofp_port_rev_map;
    ofp_type_rev_map ].

(** Values from macro definitions. *)
Definition TABLE_ALL : Z := 0xff.
Definition TABLE_EMERGENCY : Z := 0xfe.
Definition OFPPS_STP_MASK : Z := 768.
Definition OFPQT_NONE : Z := 0.
Definition OFPFW_NW_DST_BITS : Z := 6.
Definition OFPFW_NW_SRC_BITS : Z := 6.
Definition OFPFW_NW_SRC_SHIFT : Z := 8.
Definition OFPFW_NW_DST_SHIFT : Z := 14.
Definition OFPFW_NW_SRC_ALL : Z := 8192.
Definition OFPFW_NW_SRC_MASK : Z := 16128.
Definition OFPFW_NW_DST_ALL : Z := 524288.
Definition OFPFW_NW_DST_MASK : Z := 1032192.
Definition OFPFW_ALL : Z := Z.shiftl 1 22 - 1.
Definition OFP_FLOW_PERMANENT : Z := 0.
Definition OFP_VERSION : Z := 0x01.
Definition OFP_DEFAULT_MISS_SEND_LEN : Z := 128.
Definition OFP_DEFAULT_PRIORITY : Z := 0x8000.
Definition OFP_VLAN_NONE : Z := 0xffff.
Definition OFP_PHY_PORT_BYTES : Z := 48.
Definition NO_BUFFER : Z := 4294967295.
Definition MAX_XID : Z := 0x7fFFffFF.

(** * The derived forward maps *)

Lemma all_forward_ok :
  Forall (fun m => is_Some (init_forward m)) all_rev_maps.
Proof. repeat constructor; vm_compute; eauto. Qed.

(** Looking a value up in a forward map gives back the name it was defined by. *)
Lemma init_forward_lookup m f k v :
  init_forward m = Some f -> NoDup (snd <$> m) -> (k, v) ∈ m -> f !! v = Some k.
Proof.
  unfold init_forward. case_decide; [|done]. intros [= <-] Hnd Hin.
  apply elem_of_list_to_map_1.
  - rewrite <-list_fmap_compose. exact Hnd.
  - apply list_elem_of_fmap. by exists (k, v).
Qed.

Lemma all_values_nodup : Forall (fun m => NoDup (snd <$> m)) all_rev_maps.
Proof. repeat constructor; by apply (bool_decide_unpack _); vm_compute. Qed.

(** For each of the tables of constants, [_init] can build the forward map, and the
    map leads from the value of every constant back to its name. *)
Theorem forward_maps_inverse m k v : m ∈ all_rev_maps -> (k, v) ∈ m ->
  exists f, init_forward m = Some f /\ f !! v = Some k.
Proof.
  intros Hm Hkv. pose proof (proj1 (Forall_forall _ _) all_forward_ok m Hm) as [f Ef].
  exists f. split; [done|]. apply (init_forward_lookup m f k v); [done| |done].
  exact (proj1 (Forall_forall _ _) all_values_nodup m Hm).
Qed.

Lemma forward_maps_inverse_witness :
  exists f, init_forward ofp_flow_mod_command_rev_map = Some f /\ f !! 3 = Some "OFPFC_DELETE"%string.
Proof.
  apply forward_maps_inverse; apply (bool_decide_unpack _); vm_compute; exact I.
Defined.

#[global] Hint Unfold OFP_VERSION OFP_DEFAULT_MISS_SEND_LEN OFP_DEFAULT_PRIORITY : pox.
