(* ===== verification/Wire.v ===== *)
(** The contract every packed structure of [libopenflow_01.py] offers to its
    clients - [pack], [unpack], [__len__] - as a type class, its law, and the
    tactics that prove the law for a concrete structure. *)
From S2P Require Import Prelude.
From S2P Require Import PyStruct.
From S2P Require Import Addresses.

(** [pack(assertstruct)] may update the object (so the new object is returned)
    and may return Python's None instead of bytes; [unpack(b)] updates the object
    and returns what it did not consume. *)
Class Wire (T : Type) := {
  pack : bool -> T -> res (T * option bytes);
  unpack : T -> bytes -> res (T * bytes);
  plen : T -> Z;
  (** Objects whose fields fit their wire format. *)
  wire_wf : T -> Prop;
  (** Objects of the same Python class, where [T] is a sum of classes. *)
  same_class : T -> T -> Prop
}.

(** The law: a well-formed object packs to exactly [len] bytes, leaving a
    well-formed object that any object of the class becomes by unpacking them. *)
Class WireLaws (T : Type) `{Wire T} := {
  pack_unpack x : wire_wf x ->
    exists x' s, pack true x = Ok (x', Some s) /\ wire_wf x' /\ zlen s = plen x' /\
      forall y rest, same_class x' y -> unpack y (s ++ rest) = Ok (x', rest)
}.

(** [packed += x] where [x] may be None: a TypeError then. *)
Definition append_opt (packed : bytes) (s : option bytes) : res bytes :=
  match s with Some s => Ok (packed ++ s) | None => Err TypeError end.

(** [for i in l: packed += i.pack(assertstruct)]. *)
Fixpoint pack_list `{Wire T} (assertstruct : bool) (packed : bytes) (l : list T)
    : res (list T * bytes) :=
  match l with
  | [] => Ok ([], packed)
  | i :: l =>
      '(i, s) ← pack assertstruct i;
      packed ← append_opt packed s;
      '(l, packed) ← pack_list assertstruct packed l;
      Ok (i :: l, packed)
  end.

(** [l = n; for i in xs: l += len(i)]. *)
Definition len_list `{Wire T} (n : Z) (xs : list T) : Z :=
  fold_left (fun l i => l + plen i) xs n.

(** [struct.pack] of an attribute that may still be None. *)
Definition need_int (v : option Z) : res Z :=
  match v with Some v => Ok v | None => Err StructError end.

(** [==] on integers that may be None. *)
Definition oz_eqb (x y : option Z) : bool := bool_decide (x = y).

(** [isinstance(x, bytes) or EthAddr] attributes. *)
Inductive hwaddr :=
  | HwEth (a : EthAddr)
  | HwBytes (s : bytes).

#[export] Instance hwaddr_eq_dec : EqDecision hwaddr.
Proof. solve_decision. Defined.

Definition hw_raw (h : hwaddr) : bytes :=
  match h with HwEth a => eth_toRaw a | HwBytes s => s end.
(** [len(h)]: an EthAddr always answers 6. *)
Definition hw_len (h : hwaddr) : Z :=
  match h with HwEth _ => 6 | HwBytes s => zlen s end.
(** [==] on optional addresses: two byte strings compare as such, and as soon as
    an EthAddr is involved its [__cmp__] converts the other side - None becomes
    the all-zero address. *)
Definition hw_eqb (x y : option hwaddr) : bool :=
  match x, y with
  | None, None => true
  | None, Some (HwEth a) | Some (HwEth a), None => bool_decide (eth_value a = replicate 6 x00)
  | None, Some (HwBytes _) | Some (HwBytes _), None => false
  | Some a, Some b => bool_decide (hw_raw a = hw_raw b)
  end.

(** Addresses that survive a trip through [EthAddr(bytes)]. *)
Definition hw_wf (h : hwaddr) : Prop :=
  match h with
  | HwEth a => eth_wf a /\ count_byte x3a (eth_value a) <> 5
  | HwBytes _ => False
  end.

Definition hw_of_bytes (s : bytes) : res hwaddr := a ← eth_of_bytes s; Ok (HwEth a).

Lemma hw_of_bytes_raw h : hw_wf h -> hw_of_bytes (hw_raw h) = Ok h.
Proof.
  destruct h as [[s]|]; [|done]. intros [H Hc]. unfold hw_of_bytes. simpl.
  by rewrite eth_of_bytes_raw.
Qed.
Lemma hw_raw_len h : hw_wf h -> zlen (hw_raw h) = 6.
Proof. destruct h as [[s]|]; [|done]. intros [H _]. unfold zlen. simpl. unfold eth_wf in H. simpl in H. by rewrite H. Qed.

(** Text fields padded with NULs. *)
Definition text_wf (n : nat) (s : bytes) : Prop := (length s <= n)%nat /\ x00 ∉ s.

Lemma text_zlen n s : text_wf n s -> zlen (ljust0 s n) = Z.of_nat n.
Proof. intros [H _]. unfold zlen. by rewrite ljust0_length. Qed.
Lemma text_strip n s : text_wf n s -> strip0 (ljust0 s n) = s.
Proof. intros [_ H]. by apply strip0_ljust0. Qed.

(** Unsigned fields. *)
Abbreviation u8 z := (0 <= z < 2 ^ 8).
Abbreviation u16 z := (0 <= z < 2 ^ 16).
Abbreviation u32 z := (0 <= z < 2 ^ 32).
Abbreviation u64 z := (0 <= z < 2 ^ 64).

(** * Packing lists *)

(** [s] is the concatenation of chunks from which the elements of [l] are read
    back one after the other. *)
Inductive wire_image `{Wire T} : list T -> bytes -> Prop :=
  | wi_nil : wire_image [] []
  | wi_cons x l s t :
      wire_wf x -> zlen s = plen x ->
      (forall y rest, same_class x y -> unpack y (s ++ rest) = Ok (x, rest)) ->
      wire_image l t -> wire_image (x :: l) (s ++ t).

Lemma len_list_acc `{Wire T} n (l : list T) : len_list n l = n + len_list 0 l.
Proof.
  unfold len_list. revert n; induction l as [|x l IH]; intros n; simpl; [lia|].
  rewrite (IH (n + plen x)), (IH (0 + plen x)). lia.
Qed.

Lemma len_list_cons `{Wire T} x (l : list T) : len_list 0 (x :: l) = plen x + len_list 0 l.
Proof.
  change (len_list 0 (x :: l)) with (len_list (0 + plen x) l). by rewrite len_list_acc.
Qed.

Lemma wire_image_len `{Wire T} (l : list T) s : wire_image l s -> zlen s = len_list 0 l.
Proof.
  induction 1 as [|x l s t _ Hs _ _ IH]; [done|].
  by rewrite zlen_app, Hs, IH, len_list_cons.
Qed.

Lemma wire_image_wf `{Wire T} (l : list T) s : wire_image l s -> Forall wire_wf l.
Proof. induction 1; by constructor. Qed.

Lemma pack_list_ok `{WireLaws T} (l : list T) packed : Forall wire_wf l ->
  exists l' s, pack_list true packed l = Ok (l', packed ++ s) /\
    wire_image l' s /\ length l' = length l.
Proof.
  intros Hl. revert packed; induction Hl as [|x l Hx _ IH]; intros packed.
  - exists [], []. rewrite app_nil_r. repeat split. constructor.
  - destruct (pack_unpack x Hx) as (x' & s & E & Hwf & Hlen & Hu).
    destruct (IH (packed ++ s)) as (l' & t & E' & Hi & Hl').
    exists (x' :: l'), (s ++ t). split_and!.
    + cbn [pack_list]. rewrite E. cbn [mbind res_bind append_opt]. rewrite E'.
      cbn [mbind res_bind]. by rewrite app_assoc.
    + by constructor.
    + simpl. by rewrite Hl'.
Qed.

(** * Tactics *)

(** [zlen k = n] for a piece [k] of a message: known from a hypothesis, or
    closed. *)
Ltac piece_len k :=
  match goal with
  | L : zlen k = ?n |- _ => constr:(L)
  | _ =>
      let n := eval vm_compute in (zlen k) in
      lazymatch n with
      | Zpos _ => constr:(eq_refl : zlen k = n)
      | Z0 => constr:(eq_refl : zlen k = n)
      end
  end.

Ltac norm_sub :=
  repeat match goal with
  | |- context [Z.sub (Zpos ?a) (Zpos ?b)] =>
      let v := eval vm_compute in (Z.sub (Zpos a) (Zpos b)) in
      change (Z.sub (Zpos a) (Zpos b)) with v
  | |- context [Z.sub (Zpos ?a) Z0] => change (Z.sub (Zpos a) Z0) with (Zpos a)
  | |- context [Z.sub Z0 Z0] => change (Z.sub Z0 Z0) with Z0
  end.

(** Replace each [struct_pack f vs] of the goal by [Ok s], its arguments being in
    range. *)
Ltac pack_step :=
  match goal with
  | |- context [struct_pack ?f ?vs] =>
      let s := fresh "s" in let E := fresh "E" in let L := fresh "L" in
      destruct (struct_pack_ok f vs ltac:(unfold fmt_accepts; simpl; lia)) as (s & E & L);
      let n := eval vm_compute in (struct_calcsize f) in
      change (struct_calcsize f) with n in L;
      rewrite E; cbn [mbind res_bind]
  end.

Lemma struct_unpack_skip_n fmt k s off n : zlen k = n -> n <= off ->
  struct_unpack_from fmt (k ++ s) off = struct_unpack_from fmt s (off - n).
Proof. intros <-. apply struct_unpack_skip. Qed.
Lemma slice_from_ge_n {A} (k l : list A) i n :
  zlen k = n -> n <= i -> slice_from (k ++ l) i = slice_from l (i - n).
Proof. intros <-. apply slice_from_ge. Qed.
Lemma slice_skip_n {A} (k l : list A) i j n :
  zlen k = n -> n <= i -> i <= j -> slice (k ++ l) i j = slice l (i - n) (j - n).
Proof. intros <-. apply slice_skip. Qed.

Ltac read_step :=
  match goal with
  | E : struct_pack ?f ?vs = Ok ?k |- context [struct_unpack_from ?f (?k ++ ?s) 0] =>
      rewrite (struct_unpack_hit f vs k s E)
  | E : struct_pack ?f ?vs = Ok ?k |- context [struct_unpack_from ?g (?k ++ ?s) 0] =>
      rewrite (struct_unpack_prefix g f vs k s eq_refl E);
      let n := eval vm_compute in (fmt_arity g) in change (fmt_arity g) with n; cbn [take]
  | |- context [struct_unpack_from ?f (?k ++ ?s) ?off] =>
      let L := piece_len k in
      rewrite (struct_unpack_skip_n f k s off _ L) by lia; norm_sub
  | |- context [slice_from ?s 0] => rewrite (slice_from_all s)
  | |- context [slice_from (?k ++ ?s) ?i] =>
      let L := piece_len k in
      rewrite (slice_from_ge_n k s i _ L) by lia; norm_sub
  | L : zlen ?k = ?j |- context [slice (?k ++ ?s) 0 ?j] => rewrite (slice_hit k s j L)
  | |- context [slice (?k ++ ?s) ?i ?j] =>
      let L := piece_len k in
      rewrite (slice_skip_n k s i j _ L) by lia; norm_sub
  end; cbn [mbind res_bind mret res_ret].

(** [zlen] of a concatenation whose pieces have known lengths. *)
Ltac len_tac :=
  rewrite ?zlen_app;
  repeat match goal with
  | |- context [zlen ?k] =>
      match k with
      | _ ++ _ => fail 1
      | _ => let L := piece_len k in rewrite L
      end
  end;
  try reflexivity; try lia.

(** The length guard at the head of every [unpack]. *)
Ltac guard_tac :=
  match goal with
  | |- context [Z.ltb (zlen (?a ++ ?rest)) ?n] =>
      rewrite (proj2 (Z.ltb_ge (zlen (a ++ rest)) n)) by
        (rewrite ?zlen_app;
         repeat match goal with
         | |- context [zlen ?r] =>
           is_var r; lazymatch goal with
           | _ : 0 <= zlen r |- _ => fail
           | _ => pose proof (zlen_nonneg r)
           end
         end; len_tac)
  end.

(** Decide closed comparisons left by the guards of [pack]. *)
Ltac norm_guard :=
  repeat match goal with
  | |- context [Z.eqb ?a ?b] =>
      let v := eval vm_compute in (Z.eqb a b) in
      lazymatch v with true => idtac | false => idtac end;
      change (Z.eqb a b) with v
  end; cbn [negb andb orb].

Ltac pack_tac := norm_guard; repeat pack_step.

Ltac read_tac :=
  rewrite <-?app_assoc; guard_tac; repeat read_step.
