(* ===== verification/OfBase.v ===== *)
(** [libopenflow_01.py], part 1: transaction ids, the OpenFlow header, and the
    port and queue structures. *)
From S2P Require Import Prelude.
From S2P Require Import PyStruct.
From S2P Require Import Addresses.
From S2P Require Import OfConst.
From S2P Require Import Wire.

(** * Transaction identifiers *)

(** The module global [_nextXID] is the state; [generateXID] advances it twice. *)
Definition generateXID : M Z Z := fun _nextXID =>
  let r := _nextXID in
  let _nextXID := _nextXID + 1 in
  let _nextXID := (_nextXID + 1) mod (MAX_XID + 1) in
  (Ok r, _nextXID).

(** [xid_generator]: the generator's local variable is its state. *)
Definition xid_generator (start : Z) : Z := start mod (MAX_XID + 1).
Definition xid_next : M Z Z := fun n => (Ok n, (n + 1) mod (MAX_XID + 1)).

(** * ofp_header *)

Record ofp_header := Hdr {
  hdr_version : Z;
  hdr_type : Z;
  hdr_length : Z;
  hdr_xid : option Z
}.

#[export] Instance ofp_header_eq_dec : EqDecision ofp_header.
Proof. solve_decision. Defined.

Definition ofp_header_init : ofp_header := Hdr OFP_VERSION 0 8 None.

(** [header_type in ofp_type_map]: the forward map of the message types. *)
Definition ofp_header_assert (h : ofp_header) : bool :=
  existsb (fun e => snd e =? hdr_type h) ofp_type_rev_map.

Definition set_length (l : Z) (h : ofp_header) : ofp_header :=
  Hdr (hdr_version h) (hdr_type h) l (hdr_xid h).
Definition set_type (t : Z) (h : ofp_header) : ofp_header :=
  Hdr (hdr_version h) t (hdr_length h) (hdr_xid h).

Definition ofp_header_pack (h : ofp_header) : M Z (ofp_header * bytes) :=
  h ← match hdr_xid h with
      | None => x ← generateXID;
                mret (Hdr (hdr_version h) (hdr_type h) (hdr_length h) (Some x))
      | Some _ => mret h
      end;
  if negb (ofp_header_assert h) then raise RuntimeError
  else x ← lift (need_int (hdr_xid h));
       s ← lift (struct_pack "!BBHL" [hdr_version h; hdr_type h; hdr_length h; x]);
       mret (h, s).

Definition ofp_header_unpack (h : ofp_header) (b : bytes) : res (ofp_header * bytes) :=
  if zlen b <? 8 then Ok (h, b)
  else tuple [v; t; l; x] ← struct_unpack_from "!BBHL" b 0;
       Ok (Hdr v t l (Some x), slice_from b 8).

Definition ofp_header_eq (a o : ofp_header) : bool :=
  if negb (hdr_version a =? hdr_version o) then false
  else if negb (hdr_type a =? hdr_type o) then false
  else if negb (hdr_length a =? hdr_length o) then false
  else if negb (bool_decide (hdr_xid a = hdr_xid o)) then false
  else true.

(** * ofp_phy_port *)

Record ofp_phy_port := PhyPort {
  pp_port_no : Z;
  pp_hw_addr : hwaddr;
  pp_name : bytes;
  pp_config : Z;
  pp_state : Z;
  pp_curr : Z;
  pp_advertised : Z;
  pp_supported : Z;
  pp_peer : Z
}.

#[export] Instance ofp_phy_port_eq_dec : EqDecision ofp_phy_port.
Proof. solve_decision. Defined.

Definition ofp_phy_port_init : ofp_phy_port :=
  PhyPort 0 (HwEth EMPTY_ETH) [] 0 0 0 0 0 0.

Definition ofp_phy_port_assert (p : ofp_phy_port) : bool :=
  if negb (hw_len (pp_hw_addr p) =? 6) then false
  else if 16 <? zlen (pp_name p) then false
  else true.

Definition ofp_phy_port_pack (assertstruct : bool) (p : ofp_phy_port)
    : res (ofp_phy_port * option bytes) :=
  if assertstruct && negb (ofp_phy_port_assert p) then Ok (p, None)
  else
    a ← struct_pack "!H" [pp_port_no p];
    let c := hw_raw (pp_hw_addr p) in
    let d := ljust0 (pp_name p) 16 in
    e ← struct_pack "!LLLLLL" [pp_config p; pp_state p; pp_curr p; pp_advertised p;
                               pp_supported p; pp_peer p];
    Ok (p, Some (a ++ c ++ d ++ e)).

Definition ofp_phy_port_unpack (p : ofp_phy_port) (b : bytes)
    : res (ofp_phy_port * bytes) :=
  if zlen b <? 48 then Ok (p, b)
  else
    tuple [port_no] ← struct_unpack_from "!H" b 0;
    hw_addr ← hw_of_bytes (slice b 2 8);
    let name := strip0 (slice b 8 24) in
    tuple [config; state; curr; advertised; supported; peer]
      ← struct_unpack_from "!LLLLLL" b 24;
    Ok (PhyPort port_no hw_addr name config state curr advertised supported peer,
        slice_from b 48).

Definition ofp_phy_port_len (p : ofp_phy_port) : Z := 48.

Definition ofp_phy_port_eq (a o : ofp_phy_port) : bool :=
  if negb (pp_port_no a =? pp_port_no o) then false
  else if negb (hw_eqb (Some (pp_hw_addr a)) (Some (pp_hw_addr o))) then false
  else if negb (bool_decide (pp_name a = pp_name o)) then false
  else if negb (pp_config a =? pp_config o) then false
  else if negb (pp_state a =? pp_state o) then false
  else if negb (pp_curr a =? pp_curr o) then false
  else if negb (pp_advertised a =? pp_advertised o) then false
  else if negb (pp_supported a =? pp_supported o) then false
  else if negb (pp_peer a =? pp_peer o) then false
  else true.

(** * Queue structures *)

Record ofp_queue_prop_header := QPropHeader { qph_property : Z; qph_length : Z }.
#[export] Instance ofp_queue_prop_header_eq_dec : EqDecision ofp_queue_prop_header.
Proof. solve_decision. Defined.

Definition ofp_queue_prop_header_init : ofp_queue_prop_header := QPropHeader 0 8.

Definition ofp_queue_prop_header_pack (assertstruct : bool) (q : ofp_queue_prop_header)
    : res (ofp_queue_prop_header * option bytes) :=
  a ← struct_pack "!HH" [qph_property q; qph_length q];
  Ok (q, Some (a ++ replicate 4 x00)).

Definition ofp_queue_prop_header_unpack (q : ofp_queue_prop_header) (b : bytes)
    : res (ofp_queue_prop_header * bytes) :=
  if zlen b <? 8 then Ok (q, b)
  else tuple [p; l] ← struct_unpack_from "!HH" b 0;
       Ok (QPropHeader p l, slice_from b 8).

Definition ofp_queue_prop_header_len (q : ofp_queue_prop_header) : Z := 8.

Definition ofp_queue_prop_header_eq (a o : ofp_queue_prop_header) : bool :=
  if negb (qph_property a =? qph_property o) then false
  else if negb (qph_length a =? qph_length o) then false
  else true.

Record ofp_queue_prop_min_rate := QPropMinRate {
  qmr_prop_header : ofp_queue_prop_header;
  qmr_rate : Z
}.
#[export] Instance ofp_queue_prop_min_rate_eq_dec : EqDecision ofp_queue_prop_min_rate.
Proof. solve_decision. Defined.

Definition ofp_queue_prop_min_rate_init : ofp_queue_prop_min_rate :=
  QPropMinRate ofp_queue_prop_header_init 0.

Definition ofp_queue_prop_min_rate_pack (assertstruct : bool) (q : ofp_queue_prop_min_rate)
    : res (ofp_queue_prop_min_rate * option bytes) :=
  '(h, a) ← ofp_queue_prop_header_pack true (qmr_prop_header q);
  packed ← append_opt [] a;
  c ← struct_pack "!H" [qmr_rate q];
  Ok (QPropMinRate h (qmr_rate q), Some (packed ++ c ++ replicate 6 x00)).

Definition ofp_queue_prop_min_rate_unpack (q : ofp_queue_prop_min_rate) (b : bytes)
    : res (ofp_queue_prop_min_rate * bytes) :=
  if zlen b <? 16 then Ok (q, b)
  else '(h, _) ← ofp_queue_prop_header_unpack (qmr_prop_header q) (slice_from b 0);
       tuple [rate] ← struct_unpack_from "!H" b 8;
       Ok (QPropMinRate h rate, slice_from b 16).

Definition ofp_queue_prop_min_rate_len (q : ofp_queue_prop_min_rate) : Z := 16.

Definition ofp_queue_prop_min_rate_eq (a o : ofp_queue_prop_min_rate) : bool :=
  if negb (ofp_queue_prop_header_eq (qmr_prop_header a) (qmr_prop_header o)) then false
  else if negb (qmr_rate a =? qmr_rate o) then false
  else true.

(** What a queue's property list holds. *)
Inductive queue_prop :=
  | QHeader (q : ofp_queue_prop_header)
  | QMinRate (q : ofp_queue_prop_min_rate).
#[export] Instance queue_prop_eq_dec : EqDecision queue_prop.
Proof. solve_decision. Defined.

Definition queue_prop_pack (assertstruct : bool) (q : queue_prop)
    : res (queue_prop * option bytes) :=
  match q with
  | QHeader q => '(q, s) ← ofp_queue_prop_header_pack assertstruct q; Ok (QHeader q, s)
  | QMinRate q => '(q, s) ← ofp_queue_prop_min_rate_pack assertstruct q; Ok (QMinRate q, s)
  end.
Definition queue_prop_unpack (q : queue_prop) (b : bytes) : res (queue_prop * bytes) :=
  match q with
  | QHeader q => '(q, s) ← ofp_queue_prop_header_unpack q b; Ok (QHeader q, s)
  | QMinRate q => '(q, s) ← ofp_queue_prop_min_rate_unpack q b; Ok (QMinRate q, s)
  end.
Definition queue_prop_len (q : queue_prop) : Z :=
  match q with
  | QHeader q => ofp_queue_prop_header_len q
  | QMinRate q => ofp_queue_prop_min_rate_len q
  end.
Definition queue_prop_eq (a o : queue_prop) : bool :=
  match a, o with
  | QHeader a, QHeader o => ofp_queue_prop_header_eq a o
  | QMinRate a, QMinRate o => ofp_queue_prop_min_rate_eq a o
  | _, _ => false
  end.

#[export] Instance queue_prop_wire : Wire queue_prop := {
  pack := queue_prop_pack;
  unpack := queue_prop_unpack;
  plen := queue_prop_len;
  wire_wf q := match q with
    | QHeader q => u16 (qph_property q) /\ u16 (qph_length q)
    | QMinRate q => u16 (qph_property (qmr_prop_header q)) /\
        u16 (qph_length (qmr_prop_header q)) /\ u16 (qmr_rate q)
    end;
  same_class a o := match a, o with
    | QHeader _, QHeader _ | QMinRate _, QMinRate _ => True
    | _, _ => False
    end
}.

(** List comparison [==]: same length, elements equal pairwise. *)
Fixpoint list_eqb {A} (eqb : A -> A -> bool) (k l : list A) : bool :=
  match k, l with
  | [], [] => true
  | x :: k, y :: l => eqb x y && list_eqb eqb k l
  | _, _ => false
  end.

Record ofp_packet_queue := PacketQueue {
  pq_queue_id : Z;
  pq_length : Z;
  pq_properties : list queue_prop
}.
#[export] Instance ofp_packet_queue_eq_dec : EqDecision ofp_packet_queue.
Proof. solve_decision. Defined.

Definition ofp_packet_queue_init : ofp_packet_queue := PacketQueue 0 0 [].

Definition ofp_packet_queue_pack (assertstruct : bool) (q : ofp_packet_queue)
    : res (ofp_packet_queue * option bytes) :=
  a ← struct_pack "!LH" [pq_queue_id q; pq_length q];
  '(ps, packed) ← pack_list assertstruct (a ++ replicate 2 x00) (pq_properties q);
  Ok (PacketQueue (pq_queue_id q) (pq_length q) ps, Some packed).

(** The properties are not read back. *)
Definition ofp_packet_queue_unpack (q : ofp_packet_queue) (b : bytes)
    : res (ofp_packet_queue * bytes) :=
  if zlen b <? 8 then Ok (q, b)
  else tuple [i; l] ← struct_unpack_from "!LH" b 0;
       Ok (PacketQueue i l (pq_properties q), slice_from b 8).

Definition ofp_packet_queue_len (q : ofp_packet_queue) : Z := len_list 8 (pq_properties q).

Definition ofp_packet_queue_eq (a o : ofp_packet_queue) : bool :=
  if negb (pq_queue_id a =? pq_queue_id o) then false
  else if negb (pq_length a =? pq_length o) then false
  else if negb (list_eqb queue_prop_eq (pq_properties a) (pq_properties o)) then false
  else true.

#[export] Instance ofp_packet_queue_wire : Wire ofp_packet_queue := {
  pack := ofp_packet_queue_pack;
  unpack := ofp_packet_queue_unpack;
  plen := ofp_packet_queue_len;
  wire_wf q := u32 (pq_queue_id q) /\ u16 (pq_length q) /\
    Forall wire_wf (pq_properties q);
  same_class _ _ := True
}.

Definition ofp_phy_port_wf (p : ofp_phy_port) : Prop :=
  u16 (pp_port_no p) /\ hw_wf (pp_hw_addr p) /\ text_wf 16 (pp_name p) /\
  u32 (pp_config p) /\ u32 (pp_state p) /\ u32 (pp_curr p) /\
  u32 (pp_advertised p) /\ u32 (pp_supported p) /\ u32 (pp_peer p).

#[export] Instance ofp_phy_port_wire : Wire ofp_phy_port := {
  pack := ofp_phy_port_pack;
  unpack := ofp_phy_port_unpack;
  plen := ofp_phy_port_len;
  wire_wf := ofp_phy_port_wf;
  same_class _ _ := True
}.

#[export] Instance ofp_phy_port_laws : WireLaws ofp_phy_port.
Proof.
  constructor. intros [no hw name cf st cu ad su pe] Hwf.
  pose proof Hwf as (H1 & Hhw & Hname & H2).
  simpl in *.
  unfold ofp_phy_port_pack, ofp_phy_port_assert; simpl.
  assert (hw_len hw = 6) as -> by (by destruct hw as [|]).
  assert ((16 <? zlen name) = false) as ->.
  { destruct Hname as [Hn _]. unfold zlen. apply Z.ltb_ge. lia. }
  pack_tac.
  pose proof (hw_raw_len hw Hhw) as Lh. pose proof (text_zlen 16 name Hname) as Ln.
  change (Z.of_nat 16) with 16 in Ln.
  do 2 eexists. split; [reflexivity|]. split; [exact Hwf|]. split; [len_tac|].
  intros y rest _. unfold ofp_phy_port_unpack. read_tac.
  rewrite (hw_of_bytes_raw hw Hhw). cbn [mbind res_bind].
  rewrite (text_strip 16 name Hname). repeat read_step. done.
Qed.

(** Packing a port leaves it as it is. *)
Lemma ofp_phy_port_pack_same p x s : ofp_phy_port_pack true p = Ok (x, Some s) -> x = p.
Proof.
  unfold ofp_phy_port_pack. destruct (true && _); [congruence|].
  destruct (struct_pack "!H" _); cbn [mbind res_bind]; [|congruence].
  destruct (struct_pack "!LLLLLL" _); cbn [mbind res_bind]; congruence.
Qed.
Lemma ofp_phy_port_ok p : ofp_phy_port_wf p ->
  exists s, ofp_phy_port_pack true p = Ok (p, Some s) /\ zlen s = 48 /\
    forall y rest, ofp_phy_port_unpack y (s ++ rest) = Ok (p, rest).
Proof.
  intros Hp. destruct (@pack_unpack ofp_phy_port ofp_phy_port_wire _ p Hp) as (x & s & E & _ & L & U).
  pose proof (ofp_phy_port_pack_same p x s E) as ->.
  exists s. split; [exact E|]. split; [exact L|]. intros y rest. by apply U.
Qed.

#[export] Instance queue_prop_laws : WireLaws queue_prop.
Proof.
  constructor. intros [[p l]|[[p l] r]] Hwf; pose proof Hwf as Hwf'; simpl in Hwf'.
  - simpl. unfold ofp_queue_prop_header_pack. simpl. pack_tac.
    do 2 eexists. split; [reflexivity|]. split; [exact Hwf|]. split; [len_tac|].
    intros [y|y] rest; [intros _|done]. simpl. unfold ofp_queue_prop_header_unpack.
    read_tac. done.
  - simpl. unfold ofp_queue_prop_min_rate_pack, ofp_queue_prop_header_pack. simpl. pack_tac.
    do 2 eexists. split; [reflexivity|]. split; [exact Hwf|]. split; [len_tac|].
    intros [y|y] rest; [done|intros _]. simpl. unfold ofp_queue_prop_min_rate_unpack.
    read_tac. unfold ofp_queue_prop_header_unpack. read_tac. done.
Qed.

(** * Transaction ids *)

(** [generateXID] steps by two: the [n]-th id drawn from a state is this. *)
Fixpoint xids (n : nat) (next : Z) : list Z * Z :=
  match n with
  | O => ([], next)
  | S n => match generateXID next with
           | (Ok x, next) => let '(l, next) := xids n next in (x :: l, next)
           | (Err _, next) => ([], next)
           end
  end.

Lemma generateXID_spec next :
  generateXID next = (Ok next, (next + 2) mod 2 ^ 31).
Proof. unfold generateXID. by replace (next + 1 + 1) with (next + 2) by lia. Qed.

Lemma xids_nth n k next : 0 <= next < 2 ^ 31 -> (k < n)%nat ->
  fst (xids n next) !! k = Some ((next + 2 * Z.of_nat k) mod 2 ^ 31).
Proof.
  revert k next; induction n as [|n IH]; intros k next Hn Hk; [lia|].
  cbn [xids]. rewrite generateXID_spec. specialize (IH (k - 1)%nat ((next + 2) mod 2 ^ 31)).
  destruct (xids n ((next + 2) mod 2 ^ 31)) as [l r] eqn:E. cbn [fst] in *.
  destruct k as [|k].
  - simpl. by rewrite Z.add_0_r, Z.mod_small.
  - rewrite lookup_cons. replace (S k - 1)%nat with k in IH by lia.
    rewrite IH by (lia || apply Z.mod_pos_bound; lia).
    rewrite Zplus_mod_idemp_l. do 2 f_equal. lia.
Qed.

Lemma xids_length n next : length (fst (xids n next)) = n.
Proof.
  revert next; induction n as [|n IH]; intros next; [done|].
  cbn [xids]. rewrite generateXID_spec. specialize (IH ((next + 2) mod 2 ^ 31)).
  destruct (xids n _) as [l r]. simpl in *. by rewrite IH.
Qed.

(** No two of the first 2^30 transaction ids that [generateXID] gives from any state
    coincide, and all fit the 31 bits of MAX_XID. *)
Theorem xids_distinct n next : 0 <= next < 2 ^ 31 -> Z.of_nat n <= 2 ^ 30 ->
  NoDup (fst (xids n next)) /\ Forall (fun x => 0 <= x <= MAX_XID) (fst (xids n next)).
Proof.
  intros Hn Hle. split.
  - apply NoDup_alt. intros i j x Hi Hj.
    pose proof (lookup_lt_Some _ _ _ Hi) as Li. pose proof (lookup_lt_Some _ _ _ Hj) as Lj.
    rewrite xids_length in Li, Lj.
    rewrite xids_nth in Hi, Hj by done. simplify_eq.
    pose proof (Z.div_mod (next + 2 * Z.of_nat i) (2 ^ 31)).
    pose proof (Z.div_mod (next + 2 * Z.of_nat j) (2 ^ 31)).
    lia.
  - apply Forall_lookup. intros i x Hi.
    pose proof (lookup_lt_Some _ _ _ Hi) as Li. rewrite xids_length in Li.
    rewrite xids_nth in Hi by done. simplify_eq.
    unfold MAX_XID. pose proof (Z.mod_pos_bound (next + 2 * Z.of_nat i) (2 ^ 31)). lia.
Qed.

(** * The header *)

(** A header whose fields fit the wire; an unset xid is generated when packing. *)
Definition hdr_wf (h : ofp_header) : Prop :=
  u8 (hdr_version h) /\ 0 <= hdr_type h <= 21 /\ u16 (hdr_length h) /\
  match hdr_xid h with Some x => u32 x | None => True end.

(** The header with its xid settled, and the generator's next state. *)
Definition hdr_settle (h : ofp_header) (next : Z) : ofp_header * Z :=
  match hdr_xid h with
  | Some _ => (h, next)
  | None => (Hdr (hdr_version h) (hdr_type h) (hdr_length h) (Some next),
             (next + 2) mod 2 ^ 31)
  end.

Lemma ofp_header_assert_ok h : ofp_header_assert h = true <-> 0 <= hdr_type h <= 21.
Proof.
  unfold ofp_header_assert. rewrite existsb_exists. split.
  - intros ([n t] & Hin & Ht). apply Z.eqb_eq in Ht. simpl in Ht. subst.
    simpl in Hin. repeat (destruct Hin as [[= <- <-]|Hin]; [lia|]). done.
  - intros H. exists (nth (Z.to_nat (hdr_type h)) ofp_type_rev_map ("", 0)).
    split; [apply nth_In; simpl; lia|].
    assert (forallb (fun t => snd (nth (Z.to_nat t) ofp_type_rev_map ("", 0)) =? t)
      (Z.of_nat <$> seq 0 22) = true) as Ha by by vm_compute.
    rewrite forallb_forall in Ha. apply (Ha (hdr_type h)).
    apply list_elem_of_In, list_elem_of_fmap. exists (Z.to_nat (hdr_type h)).
    rewrite elem_of_seq. lia.
Qed.

Lemma hdr_settle_wf h st h' st' : hdr_wf h -> 0 <= st < 2 ^ 31 ->
  hdr_settle h st = (h', st') -> hdr_wf h' /\ 0 <= st' < 2 ^ 31 /\
  hdr_length h' = hdr_length h /\ hdr_type h' = hdr_type h /\ is_Some (hdr_xid h').
Proof.
  intros (Hv & Ht & Hl & Hx) Hst. unfold hdr_settle.
  destruct h as [v t l [x|]]; simpl in *; intros [= <- <-]; simpl.
  - unfold hdr_wf; simpl. split_and!; eauto; lia.
  - pose proof (Z.mod_pos_bound (st + 2) (2 ^ 31)).
    unfold hdr_wf; simpl. split_and!; eauto; lia.
Qed.

(** Packing a well-formed header gives the 8 bytes that unpack to it. *)
Lemma ofp_header_pack_ok h st h' st' : hdr_wf h -> 0 <= st < 2 ^ 31 ->
  hdr_settle h st = (h', st') ->
  exists s, ofp_header_pack h st = (Ok (h', s), st') /\ zlen s = 8 /\ forall y rest, ofp_header_unpack y (s ++ rest) = Ok (h', rest).
Proof.
  intros Hwf Hst Hs. pose proof (hdr_settle_wf h st h' st' Hwf Hst Hs) as (Hwf' & _ & _ & _ & Hx).
  destruct Hwf' as (Hv & Ht & Hl & Hx'). destruct Hx as [x Hx]. rewrite Hx in Hx'.
  destruct h' as [v t l ox]; simpl in *; subst ox.
  destruct (struct_pack_ok "!BBHL" [v; t; l; x]) as (s & E & L).
  { unfold fmt_accepts; simpl; lia. }
  change (struct_calcsize "!BBHL") with 8 in L.
  exists s. split_and!; [|done|].
  - unfold ofp_header_pack, hdr_settle in *.
    destruct h as [v0 t0 l0 [x0|]]; simpl in *; simplify_eq;
      unfold mbind, M_bind, mret, M_ret, lift; rewrite ?generateXID_spec;
      rewrite (proj2 (ofp_header_assert_ok _)) by (simpl; lia); cbn; by rewrite E.
  - intros y rest. unfold ofp_header_unpack. read_tac. done.
Qed.

Lemma xids_distinct_witness :
  NoDup (fst (xids 4 0x7ffffffd)) /\ Forall (fun x => 0 <= x <= MAX_XID) (fst (xids 4 0x7ffffffd)).
Proof. apply xids_distinct; [split; [discriminate|reflexivity]|discriminate]. Defined.
