(* ===== verification/OfMatch.v ===== *)
(** [libopenflow_01.py], part 2: [ofp_match] - attributes behind wildcard bits,
    the wire format, equality and the subsumption test.  Attribute values are
    integers, addresses ([hwaddr], [nwaddr]) or None; the tuple form of the
    network setters is modelled in [make_addr] only, because the object it leaves
    behind holds a Python tuple where an address belongs. *)
From S2P Require Import Prelude.
From S2P Require Import PyStruct.
From S2P Require Import Addresses.
From S2P Require Import OfConst.
From S2P Require Import Wire.

(** An IPv4 attribute: the class default is the integer 0. *)
Inductive nwaddr :=
  | NwInt (z : Z)
  | NwIP (a : IPAddr).
#[export] Instance nwaddr_eq_dec : EqDecision nwaddr.
Proof. solve_decision. Defined.

Definition nw_arg_of (a : nwaddr) : ip_arg :=
  match a with NwInt z => IInt z | NwIP a => IAddr a end.

(** [==] on optional addresses. *)
Definition nw_eqb (x y : option nwaddr) : bool :=
  match x, y with
  | None, None => true
  | None, Some _ | Some _, None => false
  | Some (NwInt a), Some (NwInt b) => a =? b
  | Some (NwIP a), Some (NwIP b) => ip_value a =? ip_value b
  | Some (NwIP a), Some (NwInt b) | Some (NwInt b), Some (NwIP a) =>
      ip_value a =? ip_value (ip_of_int b)
  end.

(** The attributes with a leading underscore, and [wildcards]. *)
Record ofp_match := Match {
  m_wildcards : Z;
  m_in_port : Z;
  m_dl_src : hwaddr;
  m_dl_dst : hwaddr;
  m_dl_vlan : Z;
  m_dl_vlan_pcp : Z;
  m_dl_type : Z;
  m_nw_tos : Z;
  m_nw_proto : Z;
  m_nw_src : nwaddr;
  m_nw_dst : nwaddr;
  m_tp_src : Z;
  m_tp_dst : Z
}.
#[export] Instance ofp_match_eq_dec : EqDecision ofp_match.
Proof. solve_decision. Defined.

(** * Wildcard words *)

Definition clear_bits (w c : Z) : Z := Z.land w (Z.lnot c).

(** nw_src and nw_dst wildcard counts above 32 mean the same as 32. *)
Definition normalize_wildcards (wildcards : Z) : Z :=
  let wildcards :=
    if 32 <? Z.shiftr (Z.land wildcards OFPFW_NW_SRC_MASK) OFPFW_NW_SRC_SHIFT
    then Z.lor (clear_bits wildcards OFPFW_NW_SRC_MASK) (Z.shiftl 32 OFPFW_NW_SRC_SHIFT)
    else wildcards in
  if 32 <? Z.shiftr (Z.land wildcards OFPFW_NW_DST_MASK) OFPFW_NW_DST_SHIFT
  then Z.lor (clear_bits wildcards OFPFW_NW_DST_MASK) (Z.shiftl 32 OFPFW_NW_DST_SHIFT)
  else wildcards.

(** * Attribute access *)

(** [__getattr__] answers None when the attribute's wildcard bits are all set. *)
Definition wild (m : ofp_match) (bit : Z) : bool := Z.land (m_wildcards m) bit =? bit.

Definition attr {A} (bit : Z) (get : ofp_match -> A) (m : ofp_match) : option A :=
  if wild m bit then None else Some (get m).

Definition g_in_port := attr OFPFW_IN_PORT m_in_port.
Definition g_dl_src := attr OFPFW_DL_SRC m_dl_src.
Definition g_dl_dst := attr OFPFW_DL_DST m_dl_dst.
Definition g_dl_vlan := attr OFPFW_DL_VLAN m_dl_vlan.
Definition g_dl_vlan_pcp := attr OFPFW_DL_VLAN_PCP m_dl_vlan_pcp.
Definition g_dl_type := attr OFPFW_DL_TYPE m_dl_type.
Definition g_nw_tos := attr OFPFW_NW_TOS m_nw_tos.
Definition g_nw_proto := attr OFPFW_NW_PROTO m_nw_proto.
Definition g_tp_src := attr OFPFW_TP_SRC m_tp_src.
Definition g_tp_dst := attr OFPFW_TP_DST m_tp_dst.

Definition get_nw_dst (m : ofp_match) : option nwaddr * Z :=
  if Z.land (m_wildcards m) OFPFW_NW_DST_ALL =? OFPFW_NW_DST_ALL then (None, 0)
  else let w := Z.shiftr (Z.land (m_wildcards m) OFPFW_NW_DST_MASK) OFPFW_NW_DST_SHIFT in
       (Some (m_nw_dst m), if w <=? 32 then 32 - w else 0).
Definition get_nw_src (m : ofp_match) : option nwaddr * Z :=
  if Z.land (m_wildcards m) OFPFW_NW_SRC_ALL =? OFPFW_NW_SRC_ALL then (None, 0)
  else let w := Z.shiftr (Z.land (m_wildcards m) OFPFW_NW_SRC_MASK) OFPFW_NW_SRC_SHIFT in
       (Some (m_nw_src m), if w <=? 32 then 32 - w else 0).

Definition g_nw_src (m : ofp_match) : option nwaddr :=
  if wild m OFPFW_NW_SRC_ALL then None else fst (get_nw_src m).
Definition g_nw_dst (m : ofp_match) : option nwaddr :=
  if wild m OFPFW_NW_DST_ALL then None else fst (get_nw_dst m).

(** ** Setters *)

Definition with_wildcards (w : Z) (m : ofp_match) : ofp_match :=
  Match w (m_in_port m) (m_dl_src m) (m_dl_dst m) (m_dl_vlan m) (m_dl_vlan_pcp m)
    (m_dl_type m) (m_nw_tos m) (m_nw_proto m) (m_nw_src m) (m_nw_dst m) (m_tp_src m)
    (m_tp_dst m).

(** The integer attributes, with their entries of [ofp_match_data]. *)
Inductive int_field :=
  | In_port | Dl_vlan | Dl_vlan_pcp | Dl_type | Nw_tos | Nw_proto | Tp_src | Tp_dst.

Definition int_field_bit (f : int_field) : Z :=
  match f with
  | In_port => OFPFW_IN_PORT
  | Dl_vlan => OFPFW_DL_VLAN
  | Dl_vlan_pcp => OFPFW_DL_VLAN_PCP
  | Dl_type => OFPFW_DL_TYPE
  | Nw_tos => OFPFW_NW_TOS
  | Nw_proto => OFPFW_NW_PROTO
  | Tp_src => OFPFW_TP_SRC
  | Tp_dst => OFPFW_TP_DST
  end.

Definition store_int (f : int_field) (v : Z) (m : ofp_match) : ofp_match :=
  let '(Match w ip ds dd vl vp ty to pr ns nd ts td) := m in
  match f with
  | In_port => Match w v ds dd vl vp ty to pr ns nd ts td
  | Dl_vlan => Match w ip ds dd v vp ty to pr ns nd ts td
  | Dl_vlan_pcp => Match w ip ds dd vl v ty to pr ns nd ts td
  | Dl_type => Match w ip ds dd vl vp v to pr ns nd ts td
  | Nw_tos => Match w ip ds dd vl vp ty v pr ns nd ts td
  | Nw_proto => Match w ip ds dd vl vp ty to v ns nd ts td
  | Tp_src => Match w ip ds dd vl vp ty to pr ns nd v td
  | Tp_dst => Match w ip ds dd vl vp ty to pr ns nd ts v
  end.

(** [__setattr__] on an integer attribute. *)
Definition set_int (f : int_field) (value : option Z) (m : ofp_match) : ofp_match :=
  match value with
  | None =>
      let m := store_int f 0 m in
      with_wildcards (Z.lor (m_wildcards m) (int_field_bit f)) m
  | Some v =>
      let m := store_int f v m in
      with_wildcards (clear_bits (m_wildcards m) (int_field_bit f)) m
  end.

Inductive dl_field := Dl_src | Dl_dst.
Definition dl_field_bit (f : dl_field) : Z :=
  match f with Dl_src => OFPFW_DL_SRC | Dl_dst => OFPFW_DL_DST end.
Definition store_dl (f : dl_field) (v : hwaddr) (m : ofp_match) : ofp_match :=
  let '(Match w ip ds dd vl vp ty to pr ns nd ts td) := m in
  match f with
  | Dl_src => Match w ip v dd vl vp ty to pr ns nd ts td
  | Dl_dst => Match w ip ds v vl vp ty to pr ns nd ts td
  end.
Definition set_dl (f : dl_field) (value : option hwaddr) (m : ofp_match) : ofp_match :=
  match value with
  | None =>
      let m := store_dl f (HwEth EMPTY_ETH) m in
      with_wildcards (Z.lor (m_wildcards m) (dl_field_bit f)) m
  | Some v =>
      let m := store_dl f v m in
      with_wildcards (clear_bits (m_wildcards m) (dl_field_bit f)) m
  end.

Definition store_nw_src (v : nwaddr) (m : ofp_match) : ofp_match :=
  let '(Match w ip ds dd vl vp ty to pr ns nd ts td) := m in
  Match w ip ds dd vl vp ty to pr v nd ts td.
Definition store_nw_dst (v : nwaddr) (m : ofp_match) : ofp_match :=
  let '(Match w ip ds dd vl vp ty to pr ns nd ts td) := m in
  Match w ip ds dd vl vp ty to pr ns v ts td.

(** Arguments of the network setters. *)
Inductive nw_arg :=
  | ANone
  | AAddr (a : nwaddr)
  | AStr (s : bytes)
  | ATuple (a : nwaddr) (bits : Z).

(** What [_make_addr] returns as the address: for a tuple argument the assignment
    [ip = ipOrIPAndBits] of the last branch puts the tuple itself there. *)
Inductive made_ip :=
  | MAddr (a : nwaddr)
  | MTuple (a : nwaddr) (bits : Z).

Definition make_addr (arg : nw_arg) (bits : option Z) : res (option (made_ip * Z)) :=
  match arg with
  | ANone => Ok None
  | _ =>
      '(ip, b) ←
        match arg with
        | AStr s =>
            if negb (zlen s =? 4) && bool_decide (x2f ∈ s) then
              match split_byte x2f s with
              | s0 :: s1 :: _ =>
                  b ← py_int 10 s1; a ← IPAddr_init (IStr s0) false; Ok (MAddr (NwIP a), b)
              | _ => Err IndexError
              end
            else a ← IPAddr_init (IStr s) false; Ok (MAddr (NwIP a), 32)
        | ATuple a b => Ok (MTuple a b, b)
        | AAddr a => Ok (MAddr a, 32)
        | ANone => Err TypeError
        end;
      let b := match bits with Some bits => bits | None => b end in
      let b := if 32 <? b then 32 else if b <? 0 then 0 else b in
      Ok (Some (ip, b))
  end.

(** The setters, for arguments that are not tuples; note that [set_nw_dst(None)]
    resets [_nw_src]. *)
Definition set_nw_dst (arg : nw_arg) (m : ofp_match) : res ofp_match :=
  a ← make_addr arg None;
  match a with
  | None =>
      let m := store_nw_src (NwInt 0) m in
      Ok (with_wildcards
            (Z.lor (clear_bits (m_wildcards m) OFPFW_NW_DST_MASK) OFPFW_NW_DST_ALL) m)
  | Some (MAddr ip, b) =>
      let m := store_nw_dst ip m in
      Ok (with_wildcards
            (Z.lor (clear_bits (m_wildcards m) OFPFW_NW_DST_MASK)
                   (Z.shiftl (32 - b) OFPFW_NW_DST_SHIFT)) m)
  | Some (MTuple _ _, _) => Err TypeError
  end.
Definition set_nw_src (arg : nw_arg) (m : ofp_match) : res ofp_match :=
  a ← make_addr arg None;
  match a with
  | None =>
      let m := store_nw_src (NwInt 0) m in
      Ok (with_wildcards
            (Z.lor (clear_bits (m_wildcards m) OFPFW_NW_SRC_MASK) OFPFW_NW_SRC_ALL) m)
  | Some (MAddr ip, b) =>
      let m := store_nw_src ip m in
      Ok (with_wildcards
            (Z.lor (clear_bits (m_wildcards m) OFPFW_NW_SRC_MASK)
                   (Z.shiftl (32 - b) OFPFW_NW_SRC_SHIFT)) m)
  | Some (MTuple _ _, _) => Err TypeError
  end.

(** [ofp_match()]: defaults everywhere and everything wildcarded. *)
Definition ofp_match_init : ofp_match :=
  Match (normalize_wildcards OFPFW_ALL) 0 (HwEth EMPTY_ETH) (HwEth EMPTY_ETH) 0 0 0 0 0
    (NwInt 0) (NwInt 0) 0 0.

Definition ofp_match_clone (m : ofp_match) : ofp_match :=
  let '(Match w ip ds dd vl vp ty to pr ns nd ts td) := m in
  Match w ip ds dd vl vp ty to pr ns nd ts td.

(** * Wire format *)

(** The constant masks of [_wire_wildcards] and [_unwire_wildcards]. *)
Definition TP_WILD : Z := Z.lor OFPFW_TP_SRC OFPFW_TP_DST.
Definition ARP_WILD : Z := Z.lor (Z.lor OFPFW_NW_TOS OFPFW_TP_SRC) OFPFW_TP_DST.
Definition NONIP_WILD : Z :=
  Z.lor (Z.lor (Z.lor (Z.lor (Z.lor OFPFW_NW_TOS OFPFW_NW_PROTO) OFPFW_NW_SRC_MASK)
                      OFPFW_NW_DST_MASK) OFPFW_TP_SRC) OFPFW_TP_DST.

Definition opt_is (v : Z) (o : option Z) : bool := bool_decide (o = Some v).
(** [x in (1,6,17)]. *)
Definition in_transport (o : option Z) : bool := opt_is 1 o || opt_is 6 o || opt_is 17 o.

Definition wire_wildcards (m : ofp_match) (wildcards : Z) : Z :=
  if opt_is 0x0800 (g_dl_type m) then
    if negb (in_transport (g_nw_proto m)) then clear_bits wildcards TP_WILD else wildcards
  else if opt_is 0x0806 (g_dl_type m) then clear_bits wildcards ARP_WILD
  else clear_bits wildcards NONIP_WILD.

Definition unwire_wildcards (m : ofp_match) (wildcards : Z) : Z :=
  if m_dl_type m =? 0x0800 then
    if negb (in_transport (Some (m_nw_proto m))) then Z.lor wildcards TP_WILD else wildcards
  else if m_dl_type m =? 0x0806 then Z.lor wildcards ARP_WILD
  else Z.lor wildcards NONIP_WILD.

(** [_assert]: only [_dl_dst] is looked at. *)
Definition ofp_match_assert (m : ofp_match) : bool := hw_len (m_dl_dst m) =? 6.

(** [v or 0]. *)
Definition or0 (o : option Z) : Z := default 0 o.

(** The bytes written for [dl_src]/[dl_dst]. *)
Definition dl_bytes (o : option hwaddr) : bytes :=
  if hw_eqb o None then eth_toRaw EMPTY_ETH
  else match o with Some h => hw_raw h | None => [] end.

Definition fix_addr (o : option nwaddr) : Z :=
  match o with
  | None => 0
  | Some (NwInt z) => Z.land z 0xffFFffFF
  | Some (NwIP a) => ip_toUnsigned a false
  end.

Definition check_ip (m : ofp_match) (val : option Z) : Z :=
  if opt_is 0x0800 (g_dl_type m) then or0 val else 0.
Definition check_ip_or_arp (m : ofp_match) (val : option Z) : Z :=
  if opt_is 0x0800 (g_dl_type m) || opt_is 0x0806 (g_dl_type m) then or0 val else 0.
Definition check_tp (m : ofp_match) (val : option Z) : Z :=
  if opt_is 0x0800 (g_dl_type m) && in_transport (g_nw_proto m) then or0 val else 0.

Definition ofp_match_pack (assertstruct flow_mod : bool) (m : ofp_match) : res bytes :=
  if assertstruct && negb (ofp_match_assert m) then Err RuntimeError
  else
    a ← struct_pack "!LH" [if flow_mod then wire_wildcards m (m_wildcards m) else m_wildcards m;
                           or0 (g_in_port m)];
    let s := dl_bytes (g_dl_src m) in
    let d := dl_bytes (g_dl_dst m) in
    v ← struct_pack "!HB" [or0 (g_dl_vlan m); or0 (g_dl_vlan_pcp m)];
    t ← struct_pack "!HBB" [or0 (g_dl_type m); check_ip m (g_nw_tos m);
                            check_ip_or_arp m (g_nw_proto m)];
    n ← struct_pack "!LLHH" [check_ip_or_arp m (Some (fix_addr (g_nw_src m)));
                             check_ip_or_arp m (Some (fix_addr (g_nw_dst m)));
                             check_tp m (g_tp_src m); check_tp m (g_tp_dst m)];
    Ok (a ++ s ++ d ++ v ++ [x00] ++ t ++ [x00; x00] ++ n).

Definition ofp_match_len (m : ofp_match) : Z := 40.

Definition ofp_match_unpack (flow_mod : bool) (m : ofp_match) (b : bytes)
    : res (ofp_match * bytes) :=
  if zlen b <? ofp_match_len m then Ok (m, b)
  else
    tuple [wildcards; in_port] ← struct_unpack_from "!LH" b 0;
    src ← struct_unpack_from "!BBBBBB" b 6;
    dl_src ← EthAddr_init (ETuple src);
    dst ← struct_unpack_from "!BBBBBB" b 12;
    dl_dst ← EthAddr_init (ETuple dst);
    tuple [dl_vlan; dl_vlan_pcp] ← struct_unpack_from "!HB" b 18;
    tuple [dl_type; nw_tos; nw_proto] ← struct_unpack_from "!HBB" b 22;
    tuple [nw_src; nw_dst; tp_src; tp_dst] ← struct_unpack_from "!LLHH" b 28;
    nw_src ← IPAddr_init (IInt nw_src) false;
    nw_dst ← IPAddr_init (IInt nw_dst) false;
    let m := Match wildcards in_port (HwEth dl_src) (HwEth dl_dst) dl_vlan dl_vlan_pcp
               dl_type nw_tos nw_proto (NwIP nw_src) (NwIP nw_dst) tp_src tp_dst in
    let w := normalize_wildcards (if flow_mod then unwire_wildcards m wildcards else wildcards) in
    Ok (with_wildcards w m, slice_from b (ofp_match_len m)).

(** * Comparisons *)

Definition ofp_match_eq (a o : ofp_match) : bool :=
  if negb (m_wildcards a =? m_wildcards o) then false
  else if negb (oz_eqb (g_in_port a) (g_in_port o)) then false
  else if negb (hw_eqb (g_dl_src a) (g_dl_src o)) then false
  else if negb (hw_eqb (g_dl_dst a) (g_dl_dst o)) then false
  else if negb (oz_eqb (g_dl_vlan a) (g_dl_vlan o)) then false
  else if negb (oz_eqb (g_dl_vlan_pcp a) (g_dl_vlan_pcp o)) then false
  else if negb (oz_eqb (g_dl_type a) (g_dl_type o)) then false
  else if negb (oz_eqb (g_nw_tos a) (g_nw_tos o)) then false
  else if negb (oz_eqb (g_nw_proto a) (g_nw_proto o)) then false
  else if negb (nw_eqb (g_nw_src a) (g_nw_src o)) then false
  else if negb (nw_eqb (g_nw_dst a) (g_nw_dst o)) then false
  else if negb (oz_eqb (g_tp_src a) (g_tp_src o)) then false
  else if negb (oz_eqb (g_tp_dst a) (g_tp_dst o)) then false
  else true.

(** [is_wildcarded] and [is_exact]. *)
Definition is_wildcarded (m : ofp_match) : bool :=
  negb (Z.land (m_wildcards m) OFPFW_ALL =? 0).
Definition is_exact (m : ofp_match) : bool := negb (is_wildcarded m).

(** [match_fail], for integers and for hardware addresses: None imposes nothing -
    and neither does any address that compares equal to None. *)
Definition fail_int (mine others : option Z) : bool :=
  negb (oz_eqb mine None) && negb (oz_eqb mine others).
Definition fail_hw (mine others : option hwaddr) : bool :=
  negb (hw_eqb mine None) && negb (hw_eqb mine others).

(** One of the two network comparisons at the end: [false] when it makes
    [matches_with_wildcards] return False. *)
Definition nw_covers (mine others : option nwaddr * Z) : res bool :=
  match fst mine with
  | None => Ok true
  | Some a =>
      if snd others <? snd mine then Ok false
      else match fst others with
           | None => Err RuntimeError
           | Some o => o ← IPAddr_init (nw_arg_of o) false;
                       inNetwork o (nw_arg_of a) (32 - snd mine)
           end
  end.

Definition matches_with_wildcards (a o : ofp_match) (consider_other_wildcards : bool)
    : res bool :=
  if ofp_match_eq a o then Ok true
  else
    let nw_mask := Z.lor OFPFW_NW_SRC_MASK OFPFW_NW_DST_MASK in
    let self_bits := clear_bits (m_wildcards a) nw_mask in
    let other_bits := clear_bits (m_wildcards o) nw_mask in
    if consider_other_wildcards && negb (Z.lor self_bits other_bits =? self_bits) then Ok false
    else if fail_int (g_in_port a) (g_in_port o) then Ok false
    else if fail_int (g_dl_vlan a) (g_dl_vlan o) then Ok false
    else if fail_hw (g_dl_src a) (g_dl_src o) then Ok false
    else if fail_hw (g_dl_dst a) (g_dl_dst o) then Ok false
    else if fail_int (g_dl_type a) (g_dl_type o) then Ok false
    else if fail_int (g_nw_proto a) (g_nw_proto o) then Ok false
    else if fail_int (g_tp_src a) (g_tp_src o) then Ok false
    else if fail_int (g_tp_dst a) (g_tp_dst o) then Ok false
    else if fail_int (g_dl_vlan_pcp a) (g_dl_vlan_pcp o) then Ok false
    else if fail_int (g_nw_tos a) (g_nw_tos o) then Ok false
    else
      s ← nw_covers (get_nw_src a) (get_nw_src o);
      if negb s then Ok false
      else
        d ← nw_covers (get_nw_dst a) (get_nw_dst o);
        Ok d.

(** [hash_code]: the integer attributes are folded in with xor. *)
Definition hash_code (m : ofp_match) : Z :=
  let ints := [g_in_port m; g_dl_vlan m; g_dl_vlan_pcp m; g_dl_type m; g_nw_tos m;
               g_nw_proto m;
               match g_nw_src m with Some (NwInt z) => Some z | _ => None end;
               match g_nw_dst m with Some (NwInt z) => Some z | _ => None end;
               g_tp_src m; g_tp_dst m] in
  let h := fold_left (fun h v => match v with Some v => Z.lxor h v | None => h end)
             ints (m_wildcards m) in
  Z.land h 0x7fFFffFF.

(** [optimize]; the object is the state.  The assignment to [eelf.nw_proto] in
    the not-IP-and-not-ARP branch raises NameError. *)
Definition ofp_match_optimize : M ofp_match unit := fun m =>
  let m := if opt_is OFP_VLAN_NONE (g_dl_vlan m) then set_int Dl_vlan_pcp (Some 0) m else m in
  let finish m := (Ok tt, with_wildcards (normalize_wildcards (m_wildcards m)) m) in
  let zero_tp m := set_int Tp_dst (Some 0) (set_int Tp_src (Some 0) m) in
  match g_dl_type m with
  | None => finish m
  | Some t =>
      if negb (t =? 0x0800) then
        if negb (t =? 0x0806) then
          match (m ← set_nw_src (AAddr (NwIP (ip_of_int 0))) m;
                 set_nw_dst (AAddr (NwIP (ip_of_int 0))) m) with
          | Ok m => (Err NameError, m)
          | Err e => (Err e, m)
          end
        else finish (zero_tp (set_int Nw_tos (Some 0) m))
      else if negb (in_transport (g_nw_proto m)) then finish (zero_tp m)
      else finish m
  end.

(** * Wildcard words: lemmas *)

Definition src_bits (w : Z) : Z := Z.shiftr (Z.land w OFPFW_NW_SRC_MASK) OFPFW_NW_SRC_SHIFT.
Definition dst_bits (w : Z) : Z := Z.shiftr (Z.land w OFPFW_NW_DST_MASK) OFPFW_NW_DST_SHIFT.

Lemma src_bits_mod w : src_bits w = (w / 2 ^ 8) mod 2 ^ 6.
Proof.
  unfold src_bits, OFPFW_NW_SRC_SHIFT. rewrite Z.shiftr_land.
  change (Z.shiftr OFPFW_NW_SRC_MASK 8) with (Z.ones 6).
  by rewrite Z.land_ones, Z.shiftr_div_pow2 by lia.
Qed.
Lemma dst_bits_mod w : dst_bits w = (w / 2 ^ 14) mod 2 ^ 6.
Proof.
  unfold dst_bits, OFPFW_NW_DST_SHIFT. rewrite Z.shiftr_land.
  change (Z.shiftr OFPFW_NW_DST_MASK 14) with (Z.ones 6).
  by rewrite Z.land_ones, Z.shiftr_div_pow2 by lia.
Qed.

Lemma land_pow2_eqb w k : 0 <= k -> (Z.land w (2 ^ k) =? 2 ^ k) = Z.testbit w k.
Proof.
  intros Hk. apply eq_true_iff_eq. rewrite Z.eqb_eq. split.
  - intros E. apply (f_equal (fun z => Z.testbit z k)) in E.
    rewrite Z.land_spec, Z.pow2_bits_true in E by done. by rewrite andb_true_r in E.
  - intros E. apply Z.bits_inj'. intros n Hn. rewrite Z.land_spec, Z.pow2_bits_eqb by done.
    destruct (Z.eqb_spec k n) as [->|]; [by rewrite E|by rewrite andb_false_r].
Qed.

Lemma nw_src_all_bits w : (Z.land w OFPFW_NW_SRC_ALL =? OFPFW_NW_SRC_ALL) = (32 <=? src_bits w).
Proof.
  change OFPFW_NW_SRC_ALL with (2 ^ 13). rewrite land_pow2_eqb, src_bits_mod by lia.
  apply eq_true_iff_eq. rewrite Z.leb_le, Z.testbit_true by lia.
  Z.to_euclidean_division_equations; lia.
Qed.
Lemma nw_dst_all_bits w : (Z.land w OFPFW_NW_DST_ALL =? OFPFW_NW_DST_ALL) = (32 <=? dst_bits w).
Proof.
  change OFPFW_NW_DST_ALL with (2 ^ 19). rewrite land_pow2_eqb, dst_bits_mod by lia.
  apply eq_true_iff_eq. rewrite Z.leb_le, Z.testbit_true by lia.
  Z.to_euclidean_division_equations; lia.
Qed.

(** What the network getters answer: nothing, or an address with 1 to 32
    significant bits. *)
Lemma get_nw_src_spec m :
  get_nw_src m = if 32 <=? src_bits (m_wildcards m) then (None, 0)
                 else (Some (m_nw_src m), 32 - src_bits (m_wildcards m)).
Proof.
  unfold get_nw_src. rewrite nw_src_all_bits. destruct (Z.leb_spec 32 (src_bits (m_wildcards m))); [done|].
  cbv zeta. fold (src_bits (m_wildcards m)). by rewrite (proj2 (Z.leb_le _ _)) by lia.
Qed.
Lemma get_nw_dst_spec m :
  get_nw_dst m = if 32 <=? dst_bits (m_wildcards m) then (None, 0)
                 else (Some (m_nw_dst m), 32 - dst_bits (m_wildcards m)).
Proof.
  unfold get_nw_dst. rewrite nw_dst_all_bits. destruct (Z.leb_spec 32 (dst_bits (m_wildcards m))); [done|].
  cbv zeta. fold (dst_bits (m_wildcards m)). by rewrite (proj2 (Z.leb_le _ _)) by lia.
Qed.
Lemma g_nw_src_fst m : g_nw_src m = fst (get_nw_src m).
Proof. unfold g_nw_src, wild. rewrite get_nw_src_spec, nw_src_all_bits. by case_match. Qed.
Lemma g_nw_dst_fst m : g_nw_dst m = fst (get_nw_dst m).
Proof. unfold g_nw_dst, wild. rewrite get_nw_dst_spec, nw_dst_all_bits. by case_match. Qed.

(** ** Bitwise reasoning *)

(** Equality bit by bit, with the constant masks related by closed equations. *)
Ltac bits_at n :=
  repeat first [rewrite Z.lor_spec | rewrite Z.land_spec | rewrite Z.lnot_spec by lia].
Ltac bit_fact n E :=
  let H := fresh "B" in
  pose proof (f_equal (fun z => Z.testbit z n) E) as H; cbv beta in H;
  repeat first [rewrite Z.lor_spec in H | rewrite Z.land_spec in H | rewrite Z.lnot_spec in H by lia].
Ltac bool_cases :=
  repeat match goal with
  | |- context [Z.testbit ?w ?n] => destruct (Z.testbit w n)
  | H : context [Z.testbit ?w ?n] |- _ => destruct (Z.testbit w n)
  end; simpl in *; try done.

Lemma lor_clear_restore w c : Z.land w c = c -> Z.lor (clear_bits w c) c = w.
Proof.
  intros E. unfold clear_bits. apply Z.bits_inj'. intros n Hn. bit_fact n E.
  bits_at n. bool_cases.
Qed.

Lemma lor_clear w c : Z.lor (clear_bits w c) c = Z.lor w c.
Proof. unfold clear_bits. apply Z.bits_inj'. intros n Hn. bits_at n. bool_cases. Qed.

(** Normal words. *)
Definition norm_wild (w : Z) : Prop := src_bits w <= 32 /\ dst_bits w <= 32.

Definition set_src32 (w : Z) : Z :=
  Z.lor (clear_bits w OFPFW_NW_SRC_MASK) (Z.shiftl 32 OFPFW_NW_SRC_SHIFT).
Definition set_dst32 (w : Z) : Z :=
  Z.lor (clear_bits w OFPFW_NW_DST_MASK) (Z.shiftl 32 OFPFW_NW_DST_SHIFT).

Lemma normalize_cases w : normalize_wildcards w =
  (let w := if 32 <? src_bits w then set_src32 w else w in
   if 32 <? dst_bits w then set_dst32 w else w).
Proof. done. Qed.

Lemma normalize_id w : norm_wild w -> normalize_wildcards w = w.
Proof.
  intros [Hs Hd]. rewrite normalize_cases. cbv zeta.
  rewrite (proj2 (Z.ltb_ge 32 (src_bits w)) Hs).
  by rewrite (proj2 (Z.ltb_ge 32 (dst_bits w)) Hd).
Qed.

Lemma src_bits_set_src w : src_bits (set_src32 w) = 32.
Proof.
  unfold src_bits, set_src32, clear_bits.
  assert (Z.land (Z.lor (Z.land w (Z.lnot OFPFW_NW_SRC_MASK)) (Z.shiftl 32 OFPFW_NW_SRC_SHIFT))
            OFPFW_NW_SRC_MASK = 8192) as ->; [|done].
  assert (Z.land (Z.shiftl 32 OFPFW_NW_SRC_SHIFT) OFPFW_NW_SRC_MASK = 8192) as E by done.
  apply Z.bits_inj'. intros n Hn. bit_fact n E. bits_at n. rewrite <-B. bool_cases.
Qed.
Lemma dst_bits_set_src w : dst_bits (set_src32 w) = dst_bits w.
Proof.
  unfold dst_bits, set_src32, clear_bits. f_equal.
  assert (Z.land OFPFW_NW_SRC_MASK OFPFW_NW_DST_MASK = 0) as E by done.
  assert (Z.land (Z.shiftl 32 OFPFW_NW_SRC_SHIFT) OFPFW_NW_DST_MASK = 0) as E' by done.
  apply Z.bits_inj'. intros n Hn. bit_fact n E. bit_fact n E'. rewrite Z.bits_0 in B, B0.
  bits_at n. bool_cases.
Qed.
Lemma dst_bits_set_dst w : dst_bits (set_dst32 w) = 32.
Proof.
  unfold dst_bits, set_dst32, clear_bits.
  assert (Z.land (Z.lor (Z.land w (Z.lnot OFPFW_NW_DST_MASK)) (Z.shiftl 32 OFPFW_NW_DST_SHIFT))
            OFPFW_NW_DST_MASK = 524288) as ->; [|done].
  assert (Z.land (Z.shiftl 32 OFPFW_NW_DST_SHIFT) OFPFW_NW_DST_MASK = 524288) as E by done.
  apply Z.bits_inj'. intros n Hn. bit_fact n E. bits_at n. rewrite <-B. bool_cases.
Qed.
Lemma src_bits_set_dst w : src_bits (set_dst32 w) = src_bits w.
Proof.
  unfold src_bits, set_dst32, clear_bits. f_equal.
  assert (Z.land OFPFW_NW_DST_MASK OFPFW_NW_SRC_MASK = 0) as E by done.
  assert (Z.land (Z.shiftl 32 OFPFW_NW_DST_SHIFT) OFPFW_NW_SRC_MASK = 0) as E' by done.
  apply Z.bits_inj'. intros n Hn. bit_fact n E. bit_fact n E'. rewrite Z.bits_0 in B, B0.
  bits_at n. bool_cases.
Qed.

(** Normalisation gives a normal word, and keeps both prefix lengths. *)
Lemma normalize_norm w : norm_wild (normalize_wildcards w).
Proof.
  rewrite normalize_cases. unfold norm_wild.
  destruct (Z.ltb_spec 32 (src_bits w)); cbv zeta;
    match goal with |- context [32 <? ?d] => destruct (Z.ltb_spec 32 d) end;
    rewrite ?src_bits_set_dst, ?src_bits_set_src, ?dst_bits_set_dst, ?dst_bits_set_src in *; lia.
Qed.

(** A word whose not-IP bits are exactly those of the normalised not-IP mask
    survives clearing, setting and normalising that mask. *)
Definition NONIP_32 : Z := Eval vm_compute in normalize_wildcards NONIP_WILD.

Lemma normalize_nonip w : Z.land w NONIP_WILD = NONIP_32 ->
  normalize_wildcards (Z.lor (clear_bits w NONIP_WILD) NONIP_WILD) = w.
Proof.
  intros E. rewrite lor_clear.
  assert (src_bits (Z.lor w NONIP_WILD) = 63) as Es.
  { unfold src_bits. assert (Z.land (Z.lor w NONIP_WILD) OFPFW_NW_SRC_MASK = OFPFW_NW_SRC_MASK) as ->; [|done].
    assert (Z.land NONIP_WILD OFPFW_NW_SRC_MASK = OFPFW_NW_SRC_MASK) as F by done.
    apply Z.bits_inj'. intros n Hn. bit_fact n F. bits_at n. bool_cases. }
  assert (dst_bits (Z.lor w NONIP_WILD) = 63) as Ed.
  { unfold dst_bits. assert (Z.land (Z.lor w NONIP_WILD) OFPFW_NW_DST_MASK = OFPFW_NW_DST_MASK) as ->; [|done].
    assert (Z.land NONIP_WILD OFPFW_NW_DST_MASK = OFPFW_NW_DST_MASK) as F by done.
    apply Z.bits_inj'. intros n Hn. bit_fact n F. bits_at n. bool_cases. }
  rewrite normalize_cases, Es. change (32 <? 63) with true. cbv zeta iota.
  rewrite dst_bits_set_src, Ed. change (32 <? 63) with true. cbv iota.
  assert (set_dst32 (set_src32 NONIP_WILD) = NONIP_32) as F by done.
  assert (Z.land NONIP_WILD OFPFW_NW_SRC_MASK = OFPFW_NW_SRC_MASK) as G by done.
  assert (Z.land NONIP_WILD OFPFW_NW_DST_MASK = OFPFW_NW_DST_MASK) as H by done.
  unfold set_dst32, set_src32, clear_bits in *.
  apply Z.bits_inj'. intros n Hn. bit_fact n E. bit_fact n F. bit_fact n G. bit_fact n H.
  bits_at n. clear E F G H. bool_cases.
Qed.

(** ** Addresses in matches *)

(** The address an attribute stands for, as an unsigned integer. *)
Definition nw_val (a : nwaddr) : Z :=
  match a with NwInt z => z mod 2 ^ 32 | NwIP a => ip_toUnsigned a false end.

Lemma nw_val_range a : u32 (nw_val a).
Proof. destruct a; simpl; [apply Z.mod_pos_bound; lia|apply ip_toUnsigned_range]. Qed.

Lemma IPAddr_init_nw a : exists i, IPAddr_init (nw_arg_of a) false = Ok i /\
  ip_toUnsigned i false = nw_val a.
Proof.
  destruct a as [z|[v]]; simpl nw_arg_of.
  - rewrite IPAddr_init_int. eexists; split; [done|]. apply ip_toUnsigned_of_int.
  - by eexists.
Qed.

Lemma inNetwork_nw i a k : 0 <= k ->
  inNetwork i (nw_arg_of a) k =
    Ok (bool_decide (ip_toUnsigned i false / 2 ^ k = nw_val a / 2 ^ k /\ nw_val a mod 2 ^ k = 0)).
Proof.
  intros Hk. destruct (IPAddr_init_nw a) as (n & E & <-).
  rewrite <-(inNetwork_spec i n k Hk). unfold inNetwork. rewrite E.
  cbn [mbind res_bind IPAddr_init]. by destruct n.
Qed.

(** One network attribute covers another: at most as many significant bits, and
    the same significant bits; an attribute with host bits set covers nothing. *)
Definition nw_sub (mine others : option nwaddr * Z) : bool :=
  match fst mine with
  | None => true
  | Some a =>
      match fst others with
      | None => false
      | Some o =>
          (snd mine <=? snd others) &&
          bool_decide (nw_val o / 2 ^ (32 - snd mine) = nw_val a / 2 ^ (32 - snd mine) /\
                       nw_val a mod 2 ^ (32 - snd mine) = 0)
      end
  end.

(** What the getters can return. *)
Definition nw_pair_wf (p : option nwaddr * Z) : Prop :=
  match fst p with None => snd p = 0 | Some _ => 1 <= snd p <= 32 end.

Lemma get_nw_src_wf m : nw_pair_wf (get_nw_src m).
Proof.
  rewrite get_nw_src_spec. pose proof (src_bits_mod (m_wildcards m)) as E.
  pose proof (Z.mod_pos_bound (m_wildcards m / 2 ^ 8) (2 ^ 6)).
  destruct (Z.leb_spec 32 (src_bits (m_wildcards m))); unfold nw_pair_wf; simpl; lia.
Qed.
Lemma get_nw_dst_wf m : nw_pair_wf (get_nw_dst m).
Proof.
  rewrite get_nw_dst_spec. pose proof (dst_bits_mod (m_wildcards m)) as E.
  pose proof (Z.mod_pos_bound (m_wildcards m / 2 ^ 14) (2 ^ 6)).
  destruct (Z.leb_spec 32 (dst_bits (m_wildcards m))); unfold nw_pair_wf; simpl; lia.
Qed.

Lemma nw_covers_spec mine others : nw_pair_wf mine -> nw_pair_wf others ->
  nw_covers mine others = Ok (nw_sub mine others).
Proof.
  destruct mine as [[a|] n], others as [[o|] k]; unfold nw_pair_wf, nw_covers, nw_sub; simpl;
    intros Hn Hk; try done.
  - destruct (IPAddr_init_nw o) as (i & -> & <-). cbn [mbind res_bind].
    rewrite inNetwork_nw by lia.
    destruct (Z.ltb_spec k n), (Z.leb_spec n k); try lia; done.
  - subst k. by rewrite (proj2 (Z.ltb_lt _ _)) by lia.
Qed.

(** ** Subsumption *)

(** The tests of [matches_with_wildcards] on all attributes but the network ones. *)
Definition fields_cover (a o : ofp_match) : bool :=
  negb (fail_int (g_in_port a) (g_in_port o) || fail_int (g_dl_vlan a) (g_dl_vlan o) ||
        fail_hw (g_dl_src a) (g_dl_src o) || fail_hw (g_dl_dst a) (g_dl_dst o) ||
        fail_int (g_dl_type a) (g_dl_type o) || fail_int (g_nw_proto a) (g_nw_proto o) ||
        fail_int (g_tp_src a) (g_tp_src o) || fail_int (g_tp_dst a) (g_tp_dst o) ||
        fail_int (g_dl_vlan_pcp a) (g_dl_vlan_pcp o) || fail_int (g_nw_tos a) (g_nw_tos o)).

Definition NW_MASK : Z := Z.lor OFPFW_NW_SRC_MASK OFPFW_NW_DST_MASK.
Definition bits_cover (a o : ofp_match) : bool :=
  Z.lor (clear_bits (m_wildcards a) NW_MASK) (clear_bits (m_wildcards o) NW_MASK)
    =? clear_bits (m_wildcards a) NW_MASK.

Definition covers (cow : bool) (a o : ofp_match) : bool :=
  (negb cow || bits_cover a o) && fields_cover a o &&
  nw_sub (get_nw_src a) (get_nw_src o) && nw_sub (get_nw_dst a) (get_nw_dst o).

Lemma matches_with_wildcards_eq a o cow :
  matches_with_wildcards a o cow = Ok (ofp_match_eq a o || covers cow a o).
Proof.
  unfold matches_with_wildcards. destruct (ofp_match_eq a o); [done|]. cbv zeta.
  rewrite !nw_covers_spec by auto using get_nw_src_wf, get_nw_dst_wf.
  unfold covers, fields_cover, bits_cover. fold NW_MASK.
  destruct cow; cbn [andb negb orb];
    repeat match goal with
    | |- context [if negb (?x =? ?y) then Ok false else _] =>
        destruct (x =? y); cbn [orb negb andb]; try done
    | |- context [if ?b then Ok false else _] => destruct b; cbn [orb negb andb]; try done
    end;
  cbn [mbind res_bind];
  by repeat match goal with |- context [nw_sub ?x ?y] => destruct (nw_sub x y) end.
Qed.
