(* ===== verification/MatchTheory.v ===== *)
(** What a match means: the packet headers it accepts.  The subsumption test of
    [ofp_match] is shown to decide inclusion of these sets, and the wire format to
    preserve the match. *)
From S2P Require Import Prelude.
From S2P Require Import PyStruct.
From S2P Require Import Addresses.
From S2P Require Import OfConst.
From S2P Require Import Wire.
From S2P Require Import OfMatch.

(** * Semantics *)

(** A packet's header fields, None where the packet has no such field; network
    addresses as unsigned integers. *)
Record header := Header {
  h_in_port : option Z;
  h_dl_src : option bytes;
  h_dl_dst : option bytes;
  h_dl_vlan : option Z;
  h_dl_vlan_pcp : option Z;
  h_dl_type : option Z;
  h_nw_tos : option Z;
  h_nw_proto : option Z;
  h_nw_src : option Z;
  h_nw_dst : option Z;
  h_tp_src : option Z;
  h_tp_dst : option Z
}.

Definition sem_int (g h : option Z) : bool :=
  match g with None => true | Some v => bool_decide (h = Some v) end.
(** As the code has it, the all-zero hardware address accepts everything. *)
Definition sem_hw (g : option hwaddr) (h : option bytes) : bool :=
  hw_eqb g None ||
  match g with None => true | Some a => bool_decide (h = Some (hw_raw a)) end.
(** A prefix accepts the addresses that agree on its significant bits, and none
    when it has host bits set. *)
Definition sem_nw (g : option nwaddr * Z) (h : option Z) : bool :=
  match fst g with
  | None => true
  | Some a =>
      match h with
      | None => false
      | Some u => bool_decide (u / 2 ^ (32 - snd g) = nw_val a / 2 ^ (32 - snd g) /\
                               nw_val a mod 2 ^ (32 - snd g) = 0)
      end
  end.

(** The headers a match accepts. *)
Definition sem (m : ofp_match) (h : header) : bool :=
  sem_int (g_in_port m) (h_in_port h) &&
  sem_hw (g_dl_src m) (h_dl_src h) && sem_hw (g_dl_dst m) (h_dl_dst h) &&
  sem_int (g_dl_vlan m) (h_dl_vlan h) && sem_int (g_dl_vlan_pcp m) (h_dl_vlan_pcp h) &&
  sem_int (g_dl_type m) (h_dl_type h) && sem_int (g_nw_tos m) (h_nw_tos h) &&
  sem_int (g_nw_proto m) (h_nw_proto h) &&
  sem_nw (get_nw_src m) (h_nw_src h) && sem_nw (get_nw_dst m) (h_nw_dst h) &&
  sem_int (g_tp_src m) (h_tp_src h) && sem_int (g_tp_dst m) (h_tp_dst h).

(** Hardware addresses are EthAddr objects, as [unpack] and [from_packet] build
    them. *)
Definition dl_eth (m : ofp_match) : Prop :=
  (exists a, m_dl_src m = HwEth a) /\ (exists a, m_dl_dst m = HwEth a).

(** * Field by field *)

Lemma oz_eqb_true x y : oz_eqb x y = true <-> x = y.
Proof. apply bool_decide_eq_true. Qed.

Lemma sem_int_mono a b h : fail_int a b = false -> sem_int b h = true -> sem_int a h = true.
Proof.
  unfold fail_int, sem_int. rewrite andb_false_iff, !negb_false_iff, !oz_eqb_true.
  intros [->| ->]; done.
Qed.

Definition is_eth (o : option hwaddr) : Prop :=
  match o with Some (HwBytes _) => False | _ => True end.

Lemma hw_eqb_sem a b h : is_eth a -> is_eth b -> hw_eqb a b = true ->
  sem_hw b h = true -> sem_hw a h = true.
Proof.
  unfold sem_hw. destruct a as [[[a]|a]|], b as [[[b]|b]|]; simpl; try done; intros _ _.
  - rewrite bool_decide_eq_true. by intros ->.
  - by intros ->.
Qed.

Lemma sem_hw_mono a b h : is_eth a -> is_eth b -> fail_hw a b = false ->
  sem_hw b h = true -> sem_hw a h = true.
Proof.
  unfold fail_hw. rewrite andb_false_iff, !negb_false_iff. intros Ha Hb [E|E].
  - intros _. unfold sem_hw. by rewrite E.
  - by apply hw_eqb_sem.
Qed.

Lemma div_pow2_mono u v n k : n <= k -> 0 <= n -> k <= 32 ->
  u / 2 ^ (32 - k) = v / 2 ^ (32 - k) -> u / 2 ^ (32 - n) = v / 2 ^ (32 - n).
Proof.
  intros. replace (32 - n) with (32 - k + (k - n)) by lia.
  rewrite Z.pow_add_r, <-!Z.div_div by lia. congruence.
Qed.

Lemma sem_nw_mono p q h : nw_pair_wf p -> nw_pair_wf q -> nw_sub p q = true ->
  sem_nw q h = true -> sem_nw p h = true.
Proof.
  destruct p as [[a|] n], q as [[o|] k]; unfold nw_pair_wf, nw_sub, sem_nw; simpl; try done.
  intros Hn Hk. rewrite andb_true_iff, Z.leb_le, bool_decide_eq_true. intros (Hle & E & H0).
  destruct h as [u|]; [|done]. rewrite !bool_decide_eq_true. intros [E' _].
  split; [|done]. rewrite <-E. apply (div_pow2_mono _ _ n k); lia.
Qed.

Lemma nw_eqb_val a o : nw_eqb (Some a) (Some o) = true -> nw_val a = nw_val o.
Proof.
  assert (forall v z, ip_value v = ip_value (ip_of_int z) ->
            ip_toUnsigned v false = z mod 2 ^ 32) as Hm.
  { intros v z E. rewrite <-ip_toUnsigned_of_int. destruct v, (ip_of_int z); simpl in E. congruence. }
  destruct a as [z|v], o as [z'|v']; unfold nw_eqb; rewrite Z.eqb_eq; cbn [nw_val].
  - by intros ->.
  - intros E. by rewrite (Hm v' z).
  - apply Hm.
  - destruct v, v'; simpl. by intros ->.
Qed.

Lemma sem_nw_eq p q h : snd p = snd q -> nw_eqb (fst p) (fst q) = true ->
  sem_nw q h = true -> sem_nw p h = true.
Proof.
  destruct p as [[a|] n], q as [[o|] k]; unfold sem_nw; cbn [fst snd]; intros <- E; try done.
  - by rewrite (nw_eqb_val _ _ E).
  - by destruct a.
Qed.

Lemma attr_is_eth m : dl_eth m -> is_eth (g_dl_src m) /\ is_eth (g_dl_dst m).
Proof.
  intros [[a Ha] [b Hb]]. unfold g_dl_src, g_dl_dst, attr. rewrite Ha, Hb.
  by destruct (wild m OFPFW_DL_SRC), (wild m OFPFW_DL_DST).
Qed.

(** * Soundness of the test *)

Lemma get_nw_snd a o : m_wildcards a = m_wildcards o ->
  snd (get_nw_src a) = snd (get_nw_src o) /\ snd (get_nw_dst a) = snd (get_nw_dst o).
Proof.
  intros E. rewrite !get_nw_src_spec, !get_nw_dst_spec, E.
  destruct (32 <=? src_bits _), (32 <=? dst_bits _); done.
Qed.

Lemma if_negb_true (b c : bool) : (if negb b then false else c) = true <-> b = true /\ c = true.
Proof. destruct b; simpl; [tauto|]. split; [done|by intros []]. Qed.

Lemma eq_sem a b h : dl_eth a -> dl_eth b -> ofp_match_eq a b = true ->
  sem b h = true -> sem a h = true.
Proof.
  intros Ha Hb. destruct (attr_is_eth a Ha), (attr_is_eth b Hb).
  unfold ofp_match_eq. rewrite !if_negb_true, !oz_eqb_true, Z.eqb_eq.
  intros (Hw & E1 & E2 & E3 & E4 & E5 & E6 & E7 & E8 & E9 & E10 & E11 & E12 & _).
  destruct (get_nw_snd a b Hw) as [S1 S2]. rewrite !g_nw_src_fst in E9. rewrite !g_nw_dst_fst in E10.
  unfold sem. rewrite !andb_true_iff.
  rewrite E1, E4, E5, E6, E7, E8, E11, E12. intuition eauto using hw_eqb_sem, sem_nw_eq.
Qed.

Lemma covers_sem a b cow h : dl_eth a -> dl_eth b -> covers cow a b = true ->
  sem b h = true -> sem a h = true.
Proof.
  intros Ha Hb. destruct (attr_is_eth a Ha), (attr_is_eth b Hb).
  unfold covers, fields_cover, sem. rewrite !andb_true_iff, negb_true_iff, !orb_false_iff.
  intuition eauto using sem_int_mono, sem_hw_mono, sem_nw_mono, get_nw_src_wf, get_nw_dst_wf.
Qed.

(** * Completeness *)

(** Matches whose bits are the known ones, whose unwildcarded hardware addresses
    are not zero and whose network addresses have no host bits. *)
Definition hw_set (o : option hwaddr) : Prop := o <> None -> hw_eqb o None = false.
Definition nw_clean (p : option nwaddr * Z) : Prop :=
  match fst p with None => True | Some a => nw_val a mod 2 ^ (32 - snd p) = 0 end.
Definition canonical (m : ofp_match) : Prop :=
  0 <= m_wildcards m <= OFPFW_ALL /\ dl_eth m /\
  hw_set (g_dl_src m) /\ hw_set (g_dl_dst m) /\
  nw_clean (get_nw_src m) /\ nw_clean (get_nw_dst m).

(** A header the match accepts that says nothing about the wildcarded fields;
    the network addresses are chosen by [s] and [d]. *)
Definition sample (m : ofp_match) (s d : option Z) : header :=
  Header (g_in_port m) (hw_raw <$> g_dl_src m) (hw_raw <$> g_dl_dst m) (g_dl_vlan m)
    (g_dl_vlan_pcp m) (g_dl_type m) (g_nw_tos m) (g_nw_proto m) s d (g_tp_src m) (g_tp_dst m).

Lemma sem_int_refl g : sem_int g g = true.
Proof. destruct g; simpl; [by apply bool_decide_eq_true|done]. Qed.
Lemma sem_hw_refl g : sem_hw g (hw_raw <$> g) = true.
Proof. unfold sem_hw. destruct g; simpl; [|done]. by rewrite orb_comm, bool_decide_true. Qed.

Lemma sem_sample m s d : sem_nw (get_nw_src m) s = true -> sem_nw (get_nw_dst m) d = true ->
  sem m (sample m s d) = true.
Proof.
  intros Hs Hd. unfold sem, sample. cbn. by rewrite !sem_int_refl, !sem_hw_refl, Hs, Hd.
Qed.

Lemma sem_int_fail g h : sem_int g h = true -> fail_int g h = false.
Proof.
  unfold fail_int. destruct g as [v|]; [|done]. simpl.
  rewrite bool_decide_eq_true. intros ->. unfold oz_eqb.
  by rewrite (bool_decide_true (Some v = Some v)).
Qed.
Lemma sem_hw_fail g h : is_eth g -> is_eth h ->
  sem_hw g (hw_raw <$> h) = true -> fail_hw g h = false.
Proof.
  unfold sem_hw, fail_hw. intros Hg Hh. destruct (hw_eqb g None) eqn:E; [done|]. simpl.
  destruct g as [[[a]|]|]; try done. rewrite bool_decide_eq_true.
  destruct h as [[[b]|]|]; try done. simpl. intros [= <-]. by rewrite bool_decide_true.
Qed.

(** The two extreme addresses of a prefix tell a longer prefix apart. *)
Lemma sem_nw_sub p q : nw_pair_wf p -> nw_pair_wf q -> nw_clean p -> nw_clean q ->
  (forall u, sem_nw q u = true -> sem_nw p u = true) -> nw_sub p q = true.
Proof.
  destruct p as [[a|] n], q as [[o|] k]; unfold nw_pair_wf, nw_clean, nw_sub, sem_nw; simpl;
    try done; intros Hn Hk Ca Co H.
  2:{ by specialize (H None eq_refl). }
  pose proof (H (Some (nw_val o))) as H1. rewrite !bool_decide_eq_true in H1.
  destruct H1 as [H1 _]; [done|].
  rewrite andb_true_iff, Z.leb_le, bool_decide_eq_true. split; [|done].
  destruct (Z.le_gt_cases n k) as [|Hlt]; [done|exfalso].
  pose proof (H (Some (nw_val o + 2 ^ (32 - n)))) as H2. rewrite !bool_decide_eq_true in H2.
  destruct H2 as [H2 _].
  { split; [|done]. replace (32 - k) with (32 - n + (n - k)) in * by lia.
    rewrite Z.pow_add_r in * by lia.
    apply Z.mod_divide in Co as [c ->]; [|lia].
    replace (c * (2 ^ (32 - n) * 2 ^ (n - k)) + 2 ^ (32 - n))
      with (2 ^ (32 - n) * (c * 2 ^ (n - k) + 1)) by lia.
    replace (c * (2 ^ (32 - n) * 2 ^ (n - k))) with (2 ^ (32 - n) * (c * 2 ^ (n - k))) by lia.
    rewrite !Z.div_mul_cancel_l by lia.
    rewrite !Z.div_add_l by lia. rewrite Z.div_mul by lia.
    rewrite Z.div_small; [lia|]. pose proof (Z.pow_gt_1 2 (n - k)). lia. }
  rewrite <-H1 in H2.
  replace (nw_val o + 2 ^ (32 - n)) with (nw_val o + 1 * 2 ^ (32 - n)) in H2 by lia.
  rewrite Z.div_add in H2 by lia. lia.
Qed.

(** The wildcard bits outside the two network masks, by position. *)
Definition field_bits : list Z := [0; 1; 2; 3; 4; 5; 6; 7; 20; 21].

Lemma bits_cover_intro a b :
  0 <= m_wildcards a <= OFPFW_ALL -> 0 <= m_wildcards b <= OFPFW_ALL ->
  Forall (fun k => Z.testbit (m_wildcards b) k = true -> Z.testbit (m_wildcards a) k = true)
    field_bits ->
  bits_cover a b = true.
Proof.
  change OFPFW_ALL with (2 ^ 22 - 1). intros Ha Hb H. unfold bits_cover, clear_bits.
  apply Z.eqb_eq, Z.bits_inj'. intros n Hn. bits_at n.
  destruct (Z.lt_ge_cases n 22) as [Hlt|Hge].
  2:{ rewrite <-(Z.mod_small (m_wildcards a) (2 ^ 22)), <-(Z.mod_small (m_wildcards b) (2 ^ 22)) by lia.
      by rewrite !Z.mod_pow2_bits_high by lia. }
  destruct (Z.testbit NW_MASK n) eqn:En; [by rewrite !andb_false_r|]. rewrite !andb_true_r.
  assert (n ∈ field_bits) as Hin.
  { apply list_elem_of_In. unfold field_bits.
    assert (n < 8 \/ 20 <= n) as [Hc|Hc]; [|simpl; lia..].
    destruct (Z.lt_ge_cases n 8), (Z.le_gt_cases 20 n); try lia; exfalso.
    assert (Z.testbit NW_MASK n = true); [|congruence].
    assert (forallb (Z.testbit NW_MASK) [8;9;10;11;12;13;14;15;16;17;18;19] = true) as F by done.
    rewrite forallb_forall in F. apply F. simpl. lia. }
  rewrite Forall_forall in H. specialize (H n Hin).
  destruct (Z.testbit (m_wildcards b) n); [by rewrite H|by rewrite orb_false_r].
Qed.

Lemma wild_bit m k : 0 <= k -> wild m (2 ^ k) = Z.testbit (m_wildcards m) k.
Proof. intros. by apply land_pow2_eqb. Qed.

(** A field the second match leaves open and the first does not makes the test
    fail. *)
Lemma fail_int_wild f k a b : 0 <= k ->
  fail_int (attr (2 ^ k) f a) (attr (2 ^ k) f b) = false ->
  Z.testbit (m_wildcards b) k = true -> Z.testbit (m_wildcards a) k = true.
Proof.
  intros Hk. unfold attr. rewrite !wild_bit by done. intros H Hb. rewrite Hb in H.
  by destruct (Z.testbit (m_wildcards a) k).
Qed.
Lemma fail_hw_wild f k a b : 0 <= k -> hw_set (attr (2 ^ k) f a) ->
  fail_hw (attr (2 ^ k) f a) (attr (2 ^ k) f b) = false ->
  Z.testbit (m_wildcards b) k = true -> Z.testbit (m_wildcards a) k = true.
Proof.
  intros Hk. unfold attr, hw_set, fail_hw. rewrite !wild_bit by done. intros Hs H Hb. rewrite Hb in H.
  destruct (Z.testbit (m_wildcards a) k); [done|]. by rewrite Hs in H.
Qed.

Lemma fields_bits_cover a b : canonical a -> canonical b ->
  fields_cover a b = true -> bits_cover a b = true.
Proof.
  intros (Wa & _ & Sa & Da & _) (Wb & _).
  unfold fields_cover. rewrite negb_true_iff, !orb_false_iff.
  intros [[[[[[[[[F0 F1] F2] F3] F4] F5] F6] F7] F20] F21].
  apply bits_cover_intro; [done..|]. unfold field_bits. repeat constructor.
  - by apply (fail_int_wild m_in_port).
  - by apply (fail_int_wild m_dl_vlan).
  - by apply (fail_hw_wild m_dl_src).
  - by apply (fail_hw_wild m_dl_dst).
  - by apply (fail_int_wild m_dl_type).
  - by apply (fail_int_wild m_nw_proto).
  - by apply (fail_int_wild m_tp_src).
  - by apply (fail_int_wild m_tp_dst).
  - by apply (fail_int_wild m_dl_vlan_pcp).
  - by apply (fail_int_wild m_nw_tos).
Qed.

Lemma sample_nw p : nw_clean p -> exists u, sem_nw p u = true.
Proof.
  unfold nw_clean, sem_nw. destruct p as [[a|] n]; simpl; [|by exists None].
  intros H. exists (Some (nw_val a)). by rewrite bool_decide_true.
Qed.

Lemma subset_covers a b : canonical a -> canonical b ->
  (forall h, sem b h = true -> sem a h = true) -> covers true a b = true.
Proof.
  intros Ca Cb H. pose proof Ca as (_ & Ea & _ & _ & Na & Ma). pose proof Cb as (_ & Eb & _ & _ & Nb & Mb).
  destruct (attr_is_eth a Ea), (attr_is_eth b Eb).
  destruct (sample_nw _ Nb) as [s Hs]. destruct (sample_nw _ Mb) as [d Hd].
  assert (fields_cover a b = true) as HF.
  { pose proof (H _ (sem_sample b s d Hs Hd)) as Hh. unfold sem, sample in Hh. cbn in Hh.
    rewrite !andb_true_iff in Hh. unfold fields_cover. rewrite negb_true_iff, !orb_false_iff.
    intuition auto using sem_int_fail, sem_hw_fail. }
  unfold covers. rewrite HF, fields_bits_cover by done. simpl. rewrite andb_true_iff. split.
  - apply sem_nw_sub; auto using get_nw_src_wf. intros u Hu.
    pose proof (H _ (sem_sample b u d Hu Hd)) as Hh. unfold sem, sample in Hh. cbn in Hh.
    rewrite !andb_true_iff in Hh. tauto.
  - apply sem_nw_sub; auto using get_nw_dst_wf. intros u Hu.
    pose proof (H _ (sem_sample b s u Hs Hu)) as Hh. unfold sem, sample in Hh. cbn in Hh.
    rewrite !andb_true_iff in Hh. tauto.
Qed.

(** A positive answer of [matches_with_wildcards] is right: every header that the
    second match accepts, the first accepts too - with or without regard to the second
    match's wildcards. *)
Theorem matches_with_wildcards_sound a b cow h : dl_eth a -> dl_eth b ->
  matches_with_wildcards a b cow = Ok true -> sem b h = true -> sem a h = true.
Proof.
  rewrite matches_with_wildcards_eq. intros Ha Hb [= [E|E]%orb_true_iff].
  - by apply eq_sem.
  - by apply (covers_sem a b cow).
Qed.

(** C1: On canonical matches - no zero hardware address, no host bits in a prefix -
    [matches_with_wildcards] decides exactly whether the first match accepts every header
    the second one accepts. *)
Theorem matches_with_wildcards_decides a b : canonical a -> canonical b ->
  matches_with_wildcards a b true = Ok true <->
  forall h, sem b h = true -> sem a h = true.
Proof.
  intros Ca Cb. rewrite matches_with_wildcards_eq.
  destruct Ca as (? & Ea & Ca), Cb as (? & Eb & Cb). split.
  - intros [= [E|E]%orb_true_iff] h; [by apply eq_sem|by apply (covers_sem a b true)].
  - intros H'. rewrite subset_covers by done. by rewrite orb_true_r.
Qed.

(** * Matching a packet *)

(** The header a packet's match describes: what its attributes say. *)
Definition header_of (m : ofp_match) : header :=
  sample m (nw_val <$> fst (get_nw_src m)) (nw_val <$> fst (get_nw_dst m)).

(** A packet's match has whole addresses. *)
Definition nw_whole (p : option nwaddr * Z) : Prop := fst p <> None -> snd p = 32.
Definition packet_match (m : ofp_match) : Prop :=
  dl_eth m /\ nw_whole (get_nw_src m) /\ nw_whole (get_nw_dst m).

Lemma negb_fail_int g h : negb (fail_int g h) = sem_int g h.
Proof.
  unfold fail_int, sem_int, oz_eqb. destruct g as [v|]; [|done]. simpl.
  rewrite negb_involutive. apply bool_decide_ext. naive_solver.
Qed.
Lemma negb_fail_hw g h : is_eth g -> is_eth h -> negb (fail_hw g h) = sem_hw g (hw_raw <$> h).
Proof.
  intros Hg Hh. apply eq_true_iff_eq. rewrite negb_true_iff. split.
  - intros E. apply (sem_hw_mono g h); [done..|]. apply sem_hw_refl.
  - by apply sem_hw_fail.
Qed.
Lemma nw_sub_sem p q : nw_pair_wf p -> nw_whole q -> nw_sub p q = sem_nw p (nw_val <$> fst q).
Proof.
  unfold nw_pair_wf, nw_whole, nw_sub, sem_nw.
  destruct p as [[a|] n], q as [[o|] k]; simpl; try done.
  intros Hn Hk. rewrite Hk by done. by rewrite (proj2 (Z.leb_le n 32)) by lia.
Qed.

Lemma covers_packet a p : dl_eth a -> packet_match p -> covers false a p = sem a (header_of p).
Proof.
  intros Ha (Hp & Hs & Hd). destruct (attr_is_eth a Ha), (attr_is_eth p Hp).
  unfold covers, fields_cover, sem, header_of, sample. cbn [h_in_port h_dl_src h_dl_dst h_dl_vlan
    h_dl_vlan_pcp h_dl_type h_nw_tos h_nw_proto h_nw_src h_nw_dst h_tp_src h_tp_dst].
  rewrite !nw_sub_sem by auto using get_nw_src_wf, get_nw_dst_wf.
  rewrite <-!negb_fail_int, <-!negb_fail_hw, !negb_orb by done.
  apply eq_true_iff_eq. rewrite !andb_true_iff, orb_true_iff. tauto.
Qed.

Lemma nw_whole_self p : nw_whole p -> sem_nw p (nw_val <$> fst p) = true.
Proof.
  unfold nw_whole, sem_nw. destruct p as [[a|] n]; [|done]. simpl. intros ->; [|done].
  apply bool_decide_true. split; [done|]. by rewrite Z.mod_1_r.
Qed.

(** The question a table lookup asks. *)
Lemma matches_packet a p : dl_eth a -> packet_match p ->
  matches_with_wildcards a p false = Ok (sem a (header_of p)).
Proof.
  intros Ha Hp. rewrite matches_with_wildcards_eq, covers_packet by done.
  destruct (ofp_match_eq a p) eqn:E; [|done]. symmetry. simpl. f_equal.
  pose proof Hp as (Hp' & Hs & Hd).
  apply (eq_sem a p); [done..|]. apply sem_sample; by apply nw_whole_self.
Qed.

(** * The wire format *)

Definition nw_wf (a : nwaddr) : Prop := match a with NwInt z => u32 z | NwIP i => ip_wf i end.
Definition dl_wf (h : hwaddr) : Prop := match h with HwEth a => eth_wf a | HwBytes _ => False end.

Definition match_wf (m : ofp_match) : Prop :=
  u32 (m_wildcards m) /\ norm_wild (m_wildcards m) /\
  u16 (m_in_port m) /\ dl_wf (m_dl_src m) /\ dl_wf (m_dl_dst m) /\
  u16 (m_dl_vlan m) /\ u8 (m_dl_vlan_pcp m) /\ u16 (m_dl_type m) /\
  u8 (m_nw_tos m) /\ u8 (m_nw_proto m) /\ nw_wf (m_nw_src m) /\ nw_wf (m_nw_dst m) /\
  u16 (m_tp_src m) /\ u16 (m_tp_dst m).

(** The match that comes out at the other end: wildcarded fields have become
    zero, and so have the fields the other fields make meaningless. *)
Definition wire_view (flow_mod : bool) (m : ofp_match) : ofp_match :=
  let v :=
    Match (if flow_mod then wire_wildcards m (m_wildcards m) else m_wildcards m)
      (or0 (g_in_port m)) (HwEth (MkEth (dl_bytes (g_dl_src m))))
      (HwEth (MkEth (dl_bytes (g_dl_dst m)))) (or0 (g_dl_vlan m)) (or0 (g_dl_vlan_pcp m))
      (or0 (g_dl_type m)) (check_ip m (g_nw_tos m)) (check_ip_or_arp m (g_nw_proto m))
      (NwIP (ip_of_int (check_ip_or_arp m (Some (fix_addr (g_nw_src m))))))
      (NwIP (ip_of_int (check_ip_or_arp m (Some (fix_addr (g_nw_dst m))))))
      (check_tp m (g_tp_src m)) (check_tp m (g_tp_dst m)) in
  with_wildcards (normalize_wildcards
    (if flow_mod then unwire_wildcards v (m_wildcards v) else m_wildcards v)) v.

(** [v] fits [n] bits. *)
Abbreviation ubits n v := (0 <= v < 2 ^ n).

Lemma or0_attr_range n bit get m : 0 <= n -> ubits n (get m) -> ubits n (or0 (attr bit get m)).
Proof. unfold attr. intros. destruct (wild m bit); simpl; lia. Qed.
Lemma check_ip_range n m o : 0 <= n -> ubits n (or0 o) -> ubits n (check_ip m o).
Proof. unfold check_ip. intros. destruct (opt_is _ _); lia. Qed.
Lemma check_ip_or_arp_range n m o : 0 <= n -> ubits n (or0 o) -> ubits n (check_ip_or_arp m o).
Proof. unfold check_ip_or_arp. intros. destruct (_ || _); lia. Qed.
Lemma check_tp_range n m o : 0 <= n -> ubits n (or0 o) -> ubits n (check_tp m o).
Proof. unfold check_tp. intros. destruct (_ && _); lia. Qed.

Lemma fix_addr_range o : u32 (fix_addr o).
Proof.
  destruct o as [[z|i]|]; cbn [fix_addr]; [|apply ip_toUnsigned_range|lia].
  rewrite land_ffffffff. apply Z.mod_pos_bound. lia.
Qed.

Lemma clear_bits_u32 w c : u32 w -> u32 (clear_bits w c).
Proof.
  intros H. unfold clear_bits. rewrite <-(Z.mod_small w (2 ^ 32)) by lia.
  rewrite <-Z.land_ones by lia. rewrite <-Z.land_assoc, (Z.land_comm (Z.ones 32)), Z.land_assoc.
  rewrite Z.land_ones by lia. apply Z.mod_pos_bound. lia.
Qed.
Lemma wire_wildcards_u32 m w : u32 w -> u32 (wire_wildcards m w).
Proof.
  intros. unfold wire_wildcards.
  destruct (opt_is 0x0800 (g_dl_type m)), (opt_is 0x0806 (g_dl_type m)), (negb (in_transport (g_nw_proto m))); auto using clear_bits_u32.
Qed.

Lemma dl_bytes_len o : match o with Some h => dl_wf h | None => True end ->
  length (dl_bytes o) = 6%nat.
Proof.
  unfold dl_bytes. destruct (hw_eqb o None) eqn:E; [done|].
  by destruct o as [[a|]|].
Qed.
Lemma dl_bytes_attr bit get m : dl_wf (get m) -> length (dl_bytes (attr bit get m)) = 6%nat.
Proof. intros. apply dl_bytes_len. unfold attr. by destruct (wild m bit). Qed.

#[export] Hint Resolve wire_wildcards_u32 dl_bytes_attr : pox.

(** The bytes of a well-formed match unpack to its wire view. *)
Lemma ofp_match_pack_view m fm : match_wf m ->
  exists s, ofp_match_pack true fm m = Ok s /\ zlen s = 40 /\
    forall y rest, ofp_match_unpack fm y (s ++ rest) = Ok (wire_view fm m, rest).
Proof.
  intros (Hw & Hn & Hip & Hds & Hdd & Hvl & Hvp & Hty & Hto & Hpr & _ & _ & Hts & Htd).
  assert (length (dl_bytes (g_dl_src m)) = 6%nat) as Ls by (unfold g_dl_src; auto with pox).
  assert (length (dl_bytes (g_dl_dst m)) = 6%nat) as Ld by (unfold g_dl_dst; auto with pox).
  assert (hw_len (m_dl_dst m) = 6) as E6 by (by destruct (m_dl_dst m)).
  unfold ofp_match_pack, ofp_match_assert. rewrite E6. cbn [andb negb Z.eqb Pos.eqb].
  set (w := if fm then _ else _).
  assert (u32 w) as Rw by (unfold w; destruct fm; auto with pox).
  assert (u16 (or0 (g_in_port m))) as R1 by (apply or0_attr_range; [lia|done]).
  assert (u16 (or0 (g_dl_vlan m))) as R2 by (apply or0_attr_range; [lia|done]).
  assert (u8 (or0 (g_dl_vlan_pcp m))) as R3 by (apply or0_attr_range; [lia|done]).
  assert (u16 (or0 (g_dl_type m))) as R4 by (apply or0_attr_range; [lia|done]).
  assert (u8 (check_ip m (g_nw_tos m))) as R5.
  { apply check_ip_range, or0_attr_range; [lia..|done]. }
  assert (u8 (check_ip_or_arp m (g_nw_proto m))) as R6.
  { apply check_ip_or_arp_range, or0_attr_range; [lia..|done]. }
  assert (u32 (check_ip_or_arp m (Some (fix_addr (g_nw_src m))))) as R7
    by (apply check_ip_or_arp_range; [lia|apply fix_addr_range]).
  assert (u32 (check_ip_or_arp m (Some (fix_addr (g_nw_dst m))))) as R8
    by (apply check_ip_or_arp_range; [lia|apply fix_addr_range]).
  assert (u16 (check_tp m (g_tp_src m))) as R9.
  { apply check_tp_range, or0_attr_range; [lia..|done]. }
  assert (u16 (check_tp m (g_tp_dst m))) as R10.
  { apply check_tp_range, or0_attr_range; [lia..|done]. }
  pack_tac.
  assert (zlen (dl_bytes (g_dl_src m)) = 6) as Zs by (unfold zlen; by rewrite Ls).
  assert (zlen (dl_bytes (g_dl_dst m)) = 6) as Zd by (unfold zlen; by rewrite Ld).
  eexists. split; [reflexivity|]. split; [len_tac|]. intros y rest.
  unfold ofp_match_unpack, ofp_match_len. rewrite <-!app_assoc. guard_tac.
  do 2 read_step.
  assert (zlen s2 = 6) as Z2 by (etrans; [eassumption|reflexivity]).
  rewrite (struct_unpack_6B s2 _ _ 6 Z2 Ls). cbn [mbind res_bind].
  rewrite eth_of_tuple_bytes by done. cbn [mbind res_bind].
  rewrite (struct_unpack_skip_n _ s2 _ 12 6 Z2) by lia. norm_sub.
  rewrite (struct_unpack_6B _ _ _ 6 Zs Ld). cbn [mbind res_bind].
  rewrite eth_of_tuple_bytes by done. cbn [mbind res_bind].
  repeat read_step. rewrite !IPAddr_init_int. cbn [mbind res_bind]. repeat read_step. done.
Qed.

(** ** What survives the wire *)

(** The wildcards the OpenFlow specification wants for the attributes that the
    others make meaningless: ports without a transport protocol, TOS and ports in
    ARP, everything above layer 2 otherwise. *)
Definition consistent (m : ofp_match) : Prop :=
  if opt_is 0x0800 (g_dl_type m) then
    if in_transport (g_nw_proto m) then True
    else Z.land (m_wildcards m) TP_WILD = TP_WILD
  else if opt_is 0x0806 (g_dl_type m) then Z.land (m_wildcards m) ARP_WILD = ARP_WILD
  else Z.land (m_wildcards m) NONIP_WILD = NONIP_32.

Lemma opt_is_or0 v o : v <> 0 -> (or0 o =? v) = opt_is v o.
Proof.
  intros Hv. unfold opt_is. destruct o as [z|]; simpl.
  - apply eq_true_iff_eq. rewrite Z.eqb_eq, bool_decide_eq_true. split; congruence.
  - by destruct v.
Qed.
Lemma in_transport_or0 o : in_transport (Some (or0 o)) = in_transport o.
Proof. by destruct o. Qed.

Lemma wire_view_wildcards m fm : match_wf m -> consistent m ->
  m_wildcards (wire_view fm m) = m_wildcards m.
Proof.
  intros (_ & Hn & _) Hc. unfold wire_view, with_wildcards. cbv zeta. cbn [m_wildcards].
  destruct fm; [|by apply normalize_id].
  unfold unwire_wildcards. cbn [m_dl_type m_nw_proto]. rewrite !opt_is_or0 by done.
  unfold consistent, wire_wildcards, check_ip_or_arp in *.
  destruct (opt_is 0x0800 (g_dl_type m)).
  - cbn [orb]. rewrite in_transport_or0. destruct (in_transport (g_nw_proto m)); cbn [negb].
    + by apply normalize_id.
    + rewrite lor_clear_restore by done. by apply normalize_id.
  - destruct (opt_is 0x0806 (g_dl_type m)).
    + rewrite lor_clear_restore by done. by apply normalize_id.
    + by apply normalize_nonip.
Qed.

Lemma land_eq_bit w c x k : Z.land w c = x -> Z.testbit x k = true -> Z.testbit w k = true.
Proof. intros <-. rewrite Z.land_spec. by destruct (Z.testbit w k). Qed.

Lemma consistent_ip m k : consistent m -> Z.testbit ARP_WILD k = true ->
  Z.testbit NONIP_32 k = true -> Z.testbit (m_wildcards m) k = false ->
  opt_is 0x0800 (g_dl_type m) = true.
Proof.
  unfold consistent. intros Hc Ha Hn Hk. destruct (opt_is 0x0800 _); [done|].
  destruct (opt_is 0x0806 _); pose proof (land_eq_bit _ _ _ k Hc); intuition congruence.
Qed.
Lemma consistent_ip_or_arp m : consistent m ->
  src_bits (m_wildcards m) < 32 \/ dst_bits (m_wildcards m) < 32 \/
    Z.testbit (m_wildcards m) 5 = false ->
  opt_is 0x0800 (g_dl_type m) || opt_is 0x0806 (g_dl_type m) = true.
Proof.
  unfold consistent. intros Hc Hk. destruct (opt_is 0x0800 _); [done|].
  destruct (opt_is 0x0806 _); [done|exfalso].
  pose proof (land_eq_bit _ _ _ 13 Hc eq_refl) as B13.
  pose proof (land_eq_bit _ _ _ 19 Hc eq_refl) as B19.
  pose proof (land_eq_bit _ _ _ 5 Hc eq_refl) as B5.
  pose proof (nw_src_all_bits (m_wildcards m)) as S. pose proof (nw_dst_all_bits (m_wildcards m)) as D.
  change OFPFW_NW_SRC_ALL with (2 ^ 13) in S. change OFPFW_NW_DST_ALL with (2 ^ 19) in D.
  rewrite land_pow2_eqb in S, D by done. rewrite B13 in S. rewrite B19 in D.
  symmetry in S, D. rewrite Z.leb_le in S, D.
  destruct Hk as [|[|]]; [lia|lia|congruence].
Qed.
Lemma consistent_tp m k : consistent m -> Z.testbit TP_WILD k = true ->
  Z.testbit ARP_WILD k = true -> Z.testbit NONIP_32 k = true ->
  Z.testbit (m_wildcards m) k = false ->
  opt_is 0x0800 (g_dl_type m) && in_transport (g_nw_proto m) = true.
Proof.
  unfold consistent. intros Hc Ht Ha Hn Hk. destruct (opt_is 0x0800 _); [|destruct (opt_is 0x0806 _)].
  - destruct (in_transport _); [done|]. pose proof (land_eq_bit _ _ _ k Hc). intuition congruence.
  - pose proof (land_eq_bit _ _ _ k Hc). intuition congruence.
  - pose proof (land_eq_bit _ _ _ k Hc). intuition congruence.
Qed.

Lemma attr_same {A} k (get : ofp_match -> A) v m : 0 <= k -> m_wildcards v = m_wildcards m ->
  (Z.testbit (m_wildcards m) k = false -> get v = get m) ->
  attr (2 ^ k) get v = attr (2 ^ k) get m.
Proof.
  intros Hk Hw Hg. unfold attr. rewrite !wild_bit, Hw by done.
  destruct (Z.testbit (m_wildcards m) k); [done|]. by rewrite Hg.
Qed.
Lemma or0_set k get m : 0 <= k -> Z.testbit (m_wildcards m) k = false ->
  or0 (attr (2 ^ k) get m) = get m.
Proof. intros Hk E. unfold attr. by rewrite wild_bit, E. Qed.

Lemma hw_eqb_dl_bytes k get v m : 0 <= k -> m_wildcards v = m_wildcards m ->
  get v = HwEth (MkEth (dl_bytes (attr (2 ^ k) get m))) ->
  hw_eqb (attr (2 ^ k) get v) (attr (2 ^ k) get m) = true.
Proof.
  intros Hk Hw Hv. unfold attr in *. rewrite !wild_bit in * by done. rewrite Hw.
  destruct (Z.testbit (m_wildcards m) k); [done|]. rewrite Hv.
  unfold hw_eqb at 1, dl_bytes. apply bool_decide_eq_true. cbn [hw_raw eth_toRaw eth_value].
  destruct (hw_eqb (Some (get m)) None) eqn:E; [|done].
  destruct (get m) as [a|]; [|done]. apply bool_decide_eq_true in E. symmetry. exact E.
Qed.

Lemma nw_eqb_view a : nw_wf a -> nw_eqb (Some (NwIP (ip_of_int (fix_addr (Some a))))) (Some a) = true.
Proof.
  destruct a as [z|i]; unfold nw_wf, nw_eqb; intros H; apply Z.eqb_eq; cbn [fix_addr].
  - rewrite land_ffffffff, (Z.mod_small z) by exact H. reflexivity.
  - rewrite ip_of_toUnsigned by exact H. reflexivity.
Qed.

Lemma wire_view_eq m fm : match_wf m -> consistent m ->
  ofp_match_eq (wire_view fm m) m = true.
Proof.
  intros Hwf Hc. pose proof (wire_view_wildcards m fm Hwf Hc) as Hw.
  destruct Hwf as (_ & _ & _ & _ & _ & _ & _ & _ & _ & _ & Hns & Hnd & _ & _).
  set (v := wire_view fm m) in *.
  unfold ofp_match_eq. rewrite !if_negb_true, !oz_eqb_true, Z.eqb_eq. split_and!; [done|..|done].
  - by apply (attr_same 0); [..|apply (or0_set 0)].
  - by apply (hw_eqb_dl_bytes 2).
  - by apply (hw_eqb_dl_bytes 3).
  - by apply (attr_same 1); [..|apply (or0_set 1)].
  - by apply (attr_same 20); [..|apply (or0_set 20)].
  - by apply (attr_same 4); [..|apply (or0_set 4)].
  - apply (attr_same 21); [done..|]. intros E.
    change (check_ip m (g_nw_tos m) = m_nw_tos m). unfold check_ip.
    rewrite (consistent_ip m 21) by done. by apply (or0_set 21).
  - apply (attr_same 5); [done..|]. intros E.
    change (check_ip_or_arp m (g_nw_proto m) = m_nw_proto m). unfold check_ip_or_arp.
    rewrite consistent_ip_or_arp by auto. by apply (or0_set 5).
  - rewrite !g_nw_src_fst, !get_nw_src_spec, Hw. destruct (Z.leb_spec 32 (src_bits (m_wildcards m))); [done|].
    change (m_nw_src v) with (NwIP (ip_of_int (check_ip_or_arp m (Some (fix_addr (g_nw_src m)))))).
    unfold check_ip_or_arp. rewrite consistent_ip_or_arp by auto.
    rewrite g_nw_src_fst, get_nw_src_spec, (proj2 (Z.leb_gt _ _)) by done. by apply nw_eqb_view.
  - rewrite !g_nw_dst_fst, !get_nw_dst_spec, Hw. destruct (Z.leb_spec 32 (dst_bits (m_wildcards m))); [done|].
    change (m_nw_dst v) with (NwIP (ip_of_int (check_ip_or_arp m (Some (fix_addr (g_nw_dst m)))))).
    unfold check_ip_or_arp. rewrite consistent_ip_or_arp by auto.
    rewrite g_nw_dst_fst, get_nw_dst_spec, (proj2 (Z.leb_gt _ _)) by done. by apply nw_eqb_view.
  - apply (attr_same 6); [done..|]. intros E.
    change (check_tp m (g_tp_src m) = m_tp_src m). unfold check_tp.
    rewrite (consistent_tp m 6) by done. by apply (or0_set 6).
  - apply (attr_same 7); [done..|]. intros E.
    change (check_tp m (g_tp_dst m) = m_tp_dst m). unfold check_tp.
    rewrite (consistent_tp m 7) by done. by apply (or0_set 7).
Qed.

(** A well-formed match whose wildcards agree with its protocol fields survives the
    wire: what [unpack] reads from the bytes of [pack] is equal to it, whatever bytes
    follow and whatever the object held before. *)
Theorem ofp_match_roundtrip m fm : match_wf m -> consistent m ->
  exists s, ofp_match_pack true fm m = Ok s /\ zlen s = ofp_match_len m /\
    forall y rest, exists v, ofp_match_unpack fm y (s ++ rest) = Ok (v, rest) /\
      ofp_match_eq v m = true.
Proof.
  intros Hwf Hc. destruct (ofp_match_pack_view m fm Hwf) as (s & E & L & U).
  exists s. split; [done|]. split; [done|]. intros y rest. exists (wire_view fm m).
  split; [apply U|by apply wire_view_eq].
Qed.

(** ** Concrete instances *)

(** HTTP from 10.1.0.0/16. *)
Definition http_match : ofp_match :=
  match set_nw_src (AStr (lit "10.1.0.0/16"))
    (set_int Tp_dst (Some 80) (set_int Nw_proto (Some 6) (set_int Dl_type (Some 0x0800) ofp_match_init)))
  with Ok m => m | Err _ => ofp_match_init end.
(** HTTP to one server from one host. *)
Definition one_flow : ofp_match :=
  match set_nw_src (AAddr (NwIP (ip_of_int 0x0a010203))) (set_int Tp_src (Some 5000) http_match)
  with Ok m => m | Err _ => ofp_match_init end.

Ltac canonical_tac :=
  split; [vm_compute; split; discriminate|]; split; [split; eexists; reflexivity|];
  split; [intros Hn; exfalso; apply Hn; reflexivity|];
  split; [intros Hn; exfalso; apply Hn; reflexivity|]; split; vm_compute; solve [reflexivity|exact I].
Lemma http_canonical : canonical http_match.
Proof. canonical_tac. Qed.
Lemma one_flow_canonical : canonical one_flow.
Proof. canonical_tac. Qed.

Lemma matches_with_wildcards_sound_witness :
  let h := sample one_flow (Some 0x0a010203) None in
  sem one_flow h = true /\ sem http_match h = true.
Proof.
  split; [vm_compute; reflexivity|].
  apply (matches_with_wildcards_sound http_match one_flow true);
    [split; eexists; reflexivity|split; eexists; reflexivity|vm_compute; reflexivity|vm_compute; reflexivity].
Defined.

Lemma matches_with_wildcards_decides_witness :
  (forall h, sem one_flow h = true -> sem http_match h = true) /\
  ~ (forall h, sem http_match h = true -> sem one_flow h = true).
Proof.
  split.
  - apply (matches_with_wildcards_decides http_match one_flow); [apply http_canonical|apply one_flow_canonical|].
    vm_compute. reflexivity.
  - intros Hn. apply (matches_with_wildcards_decides one_flow http_match) in Hn;
      [vm_compute in Hn; discriminate|apply one_flow_canonical|apply http_canonical].
Defined.

Lemma ofp_match_roundtrip_witness :
  exists s, ofp_match_pack true true http_match = Ok s /\ zlen s = 40 /\
    forall y rest, exists v, ofp_match_unpack true y (s ++ rest) = Ok (v, rest) /\
      ofp_match_eq v http_match = true.
Proof.
  apply (ofp_match_roundtrip http_match true).
  - repeat (split; [vm_compute; repeat split; discriminate|]).
    vm_compute; repeat split; discriminate.
  - vm_compute. exact I.
Defined.
