(* ===== verification/OfActions.v ===== *)
(** [libopenflow_01.py], part 3: the action structures and [_unpack_actions].
    An action list on the wire carries no count: the reader trusts the length each
    action declares, so the theorems at the end are about its progress, what it
    accepts, and what it reads back. *)
From S2P Require Import Prelude.
From S2P Require Import PyStruct.
From S2P Require Import Addresses.
From S2P Require Import OfConst.
From S2P Require Import Wire.

(** * The action classes *)

(** ** ofp_action_header

    The class of unknown actions, and the base class of [ofp_action_mpls_dec_ttl]
    and [ofp_action_resubmit]. *)

Record ofp_action_header := ActHeader {
  ah_type : option Z;
  ah_length : Z;
  ah_data : bytes
}.
#[export] Instance ofp_action_header_eq_dec : EqDecision ofp_action_header.
Proof. solve_decision. Defined.

Definition ofp_action_header_init : ofp_action_header := ActHeader None 8 [].

(** The data is not written out. *)
Definition ofp_action_header_pack (assertstruct : bool) (a : ofp_action_header)
    : res (ofp_action_header * option bytes) :=
  type ← need_int (ah_type a);
  s ← struct_pack "!HH" [type; ah_length a];
  Ok (a, Some (s ++ replicate 4 x00)).

Definition ofp_action_header_unpack (a : ofp_action_header) (b : bytes)
    : res (ofp_action_header * bytes) :=
  if zlen b <? 8 then Ok (a, b)
  else tuple [type; length] ← struct_unpack_from "!HH" b 0;
       if zlen b <? length then Ok (ActHeader (Some type) length (ah_data a), b)
       else Ok (ActHeader (Some type) length (slice b 8 (8 + length)), slice_from b length).

Definition ofp_action_header_len (a : ofp_action_header) : Z := ah_length a.

Definition ofp_action_header_eq (a o : ofp_action_header) : bool :=
  if negb (oz_eqb (ah_type a) (ah_type o)) then false
  else if negb (ah_length a =? ah_length o) then false
  else true.

(** The two subclasses only set the type. *)
Definition ofp_action_mpls_dec_ttl_init : ofp_action_header :=
  let super := ofp_action_header_init in
  ActHeader (Some OFPAT_DEC_MPLS_TTL) (ah_length super) (ah_data super).
Definition ofp_action_resubmit_init : ofp_action_header :=
  let super := ofp_action_header_init in
  ActHeader (Some OFPAT_RESUBMIT) (ah_length super) (ah_data super).

(** ** ofp_action_output *)

Record ofp_action_output := ActOutput {
  ao_type : Z;
  ao_length : Z;
  ao_port : option Z;
  ao_max_len : Z
}.
#[export] Instance ofp_action_output_eq_dec : EqDecision ofp_action_output.
Proof. solve_decision. Defined.

Definition ofp_action_output_init : ofp_action_output := ActOutput OFPAT_OUTPUT 8 None 0xffFF.

Definition ofp_action_output_pack (assertstruct : bool) (a : ofp_action_output)
    : res (ofp_action_output * option bytes) :=
  let a := if negb (oz_eqb (ao_port a) (Some OFPP_CONTROLLER))
           then ActOutput (ao_type a) (ao_length a) (ao_port a) 0 else a in
  port ← need_int (ao_port a);
  s ← struct_pack "!HHHH" [ao_type a; ao_length a; port; ao_max_len a];
  Ok (a, Some s).

Definition ofp_action_output_unpack (a : ofp_action_output) (b : bytes)
    : res (ofp_action_output * bytes) :=
  if zlen b <? 8 then Ok (a, b)
  else tuple [type; length; port; max_len] ← struct_unpack_from "!HHHH" b 0;
       Ok (ActOutput type length (Some port) max_len, slice_from b 8).

Definition ofp_action_output_len (a : ofp_action_output) : Z := 8.

Definition ofp_action_output_eq (a o : ofp_action_output) : bool :=
  if negb (ao_type a =? ao_type o) then false
  else if negb (ao_length a =? ao_length o) then false
  else if negb (oz_eqb (ao_port a) (ao_port o)) then false
  else if negb (ao_max_len a =? ao_max_len o) then false
  else true.

(** ** ofp_action_enqueue *)

Record ofp_action_enqueue := ActEnqueue {
  aq_type : Z;
  aq_length : Z;
  aq_port : Z;
  aq_queue_id : Z
}.
#[export] Instance ofp_action_enqueue_eq_dec : EqDecision ofp_action_enqueue.
Proof. solve_decision. Defined.

Definition ofp_action_enqueue_init : ofp_action_enqueue := ActEnqueue OFPAT_ENQUEUE 16 0 0.

Definition ofp_action_enqueue_pack (assertstruct : bool) (a : ofp_action_enqueue)
    : res (ofp_action_enqueue * option bytes) :=
  s ← struct_pack "!HHH" [aq_type a; aq_length a; aq_port a];
  t ← struct_pack "!L" [aq_queue_id a];
  Ok (a, Some (s ++ replicate 6 x00 ++ t)).

Definition ofp_action_enqueue_unpack (a : ofp_action_enqueue) (b : bytes)
    : res (ofp_action_enqueue * bytes) :=
  if zlen b <? 16 then Ok (a, b)
  else tuple [type; length; port] ← struct_unpack_from "!HHH" b 0;
       tuple [queue_id] ← struct_unpack_from "!L" b 12;
       Ok (ActEnqueue type length port queue_id, slice_from b 16).

Definition ofp_action_enqueue_len (a : ofp_action_enqueue) : Z := 16.

Definition ofp_action_enqueue_eq (a o : ofp_action_enqueue) : bool :=
  if negb (aq_type a =? aq_type o) then false
  else if negb (aq_length a =? aq_length o) then false
  else if negb (aq_port a =? aq_port o) then false
  else if negb (aq_queue_id a =? aq_queue_id o) then false
  else true.

(** ** ofp_action_push_mpls *)

Definition unicast_mpls_ethertype : Z := 0x8847.
Definition multicast_mpls_ethertype : Z := 0x8848.

Record ofp_action_push_mpls := ActPushMpls {
  apm_type : Z;
  apm_length : Z;
  apm_ethertype : Z
}.
#[export] Instance ofp_action_push_mpls_eq_dec : EqDecision ofp_action_push_mpls.
Proof. solve_decision. Defined.

Definition ofp_action_push_mpls_init : ofp_action_push_mpls := ActPushMpls OFPAT_PUSH_MPLS 8 unicast_mpls_ethertype.

Definition ofp_action_push_mpls_assert (a : ofp_action_push_mpls) : bool :=
  (apm_ethertype a =? unicast_mpls_ethertype) ||
  (apm_ethertype a =? multicast_mpls_ethertype).

Definition ofp_action_push_mpls_pack (assertstruct : bool) (a : ofp_action_push_mpls)
    : res (ofp_action_push_mpls * option bytes) :=
  if assertstruct then
    if negb (ofp_action_push_mpls_assert a) then Ok (a, None) else
    s ← struct_pack "!HHHxx" [apm_type a; apm_length a; apm_ethertype a];
    Ok (a, Some s)
  else Ok (a, None).

Definition ofp_action_push_mpls_unpack (a : ofp_action_push_mpls) (b : bytes)
    : res (ofp_action_push_mpls * bytes) :=
  if zlen b <? 8 then Ok (a, b)
  else tuple [type; length; ethertype] ← struct_unpack_from "!HHH" b 0;
       Ok (ActPushMpls type length ethertype, slice_from b 8).

Definition ofp_action_push_mpls_len (a : ofp_action_push_mpls) : Z := apm_length a.

Definition ofp_action_push_mpls_eq (a o : ofp_action_push_mpls) : bool :=
  if negb (apm_type a =? apm_type o) then false
  else if negb (apm_length a =? apm_length o) then false
  else if negb (apm_ethertype a =? apm_ethertype o) then false
  else true.

(** ** ofp_action_mpls_label *)

Record ofp_action_mpls_label := ActMplsLabel {
  aml_type : Z;
  aml_length : Z;
  aml_mpls_label : Z
}.
#[export] Instance ofp_action_mpls_label_eq_dec : EqDecision ofp_action_mpls_label.
Proof. solve_decision. Defined.

Definition ofp_action_mpls_label_init : ofp_action_mpls_label := ActMplsLabel OFPAT_SET_MPLS_LABEL 8 0.

Definition ofp_action_mpls_label_pack (assertstruct : bool) (a : ofp_action_mpls_label)
    : res (ofp_action_mpls_label * option bytes) :=
  if assertstruct then
    s ← struct_pack "!HHI" [aml_type a; aml_length a; aml_mpls_label a];
    Ok (a, Some s)
  else Ok (a, None).

Definition ofp_action_mpls_label_unpack (a : ofp_action_mpls_label) (b : bytes)
    : res (ofp_action_mpls_label * bytes) :=
  if zlen b <? 8 then Ok (a, b)
  else tuple [type; length; mpls_label] ← struct_unpack_from "!HHI" b 0;
       Ok (ActMplsLabel type length mpls_label, slice_from b 8).

Definition ofp_action_mpls_label_len (a : ofp_action_mpls_label) : Z := aml_length a.

Definition ofp_action_mpls_label_eq (a o : ofp_action_mpls_label) : bool :=
  if negb (aml_type a =? aml_type o) then false
  else if negb (aml_length a =? aml_length o) then false
  else if negb (aml_mpls_label a =? aml_mpls_label o) then false
  else true.

(** ** ofp_action_mpls_tc *)

Record ofp_action_mpls_tc := ActMplsTc {
  amc_type : Z;
  amc_length : Z;
  amc_mpls_tc : Z
}.
#[export] Instance ofp_action_mpls_tc_eq_dec : EqDecision ofp_action_mpls_tc.
Proof. solve_decision. Defined.

Definition ofp_action_mpls_tc_init : ofp_action_mpls_tc := ActMplsTc OFPAT_SET_MPLS_TC 8 0.

Definition ofp_action_mpls_tc_pack (assertstruct : bool) (a : ofp_action_mpls_tc)
    : res (ofp_action_mpls_tc * option bytes) :=
  if assertstruct then
    s ← struct_pack "!HHBxxx" [amc_type a; amc_length a; amc_mpls_tc a];
    Ok (a, Some s)
  else Ok (a, None).

Definition ofp_action_mpls_tc_unpack (a : ofp_action_mpls_tc) (b : bytes)
    : res (ofp_action_mpls_tc * bytes) :=
  if zlen b <? 8 then Ok (a, b)
  else tuple [type; length; mpls_tc] ← struct_unpack_from "!HHB" b 0;
       Ok (ActMplsTc type length mpls_tc, slice_from b 8).

Definition ofp_action_mpls_tc_len (a : ofp_action_mpls_tc) : Z := amc_length a.

Definition ofp_action_mpls_tc_eq (a o : ofp_action_mpls_tc) : bool :=
  if negb (amc_type a =? amc_type o) then false
  else if negb (amc_length a =? amc_length o) then false
  else if negb (amc_mpls_tc a =? amc_mpls_tc o) then false
  else true.

(** ** ofp_action_mpls_ttl *)

Record ofp_action_mpls_ttl := ActMplsTtl {
  amt_type : Z;
  amt_length : Z;
  amt_mpls_ttl : Z
}.
#[export] Instance ofp_action_mpls_ttl_eq_dec : EqDecision ofp_action_mpls_ttl.
Proof. solve_decision. Defined.

Definition ofp_action_mpls_ttl_init : ofp_action_mpls_ttl := ActMplsTtl OFPAT_SET_MPLS_TTL 8 0.

Definition ofp_action_mpls_ttl_pack (assertstruct : bool) (a : ofp_action_mpls_ttl)
    : res (ofp_action_mpls_ttl * option bytes) :=
  if assertstruct then
    s ← struct_pack "!HHBxxx" [amt_type a; amt_length a; amt_mpls_ttl a];
    Ok (a, Some s)
  else Ok (a, None).

Definition ofp_action_mpls_ttl_unpack (a : ofp_action_mpls_ttl) (b : bytes)
    : res (ofp_action_mpls_ttl * bytes) :=
  if zlen b <? 8 then Ok (a, b)
  else tuple [type; length; mpls_ttl] ← struct_unpack_from "!HHB" b 0;
       Ok (ActMplsTtl type length mpls_ttl, slice_from b 8).

Definition ofp_action_mpls_ttl_len (a : ofp_action_mpls_ttl) : Z := amt_length a.

Definition ofp_action_mpls_ttl_eq (a o : ofp_action_mpls_ttl) : bool :=
  if negb (amt_type a =? amt_type o) then false
  else if negb (amt_length a =? amt_length o) then false
  else if negb (amt_mpls_ttl a =? amt_mpls_ttl o) then false
  else true.

(** ** ofp_action_pop_mpls *)

Record ofp_action_pop_mpls := ActPopMpls {
  apo_type : Z;
  apo_length : Z;
  apo_ethertype : Z
}.
#[export] Instance ofp_action_pop_mpls_eq_dec : EqDecision ofp_action_pop_mpls.
Proof. solve_decision. Defined.

Definition ofp_action_pop_mpls_init : ofp_action_pop_mpls := ActPopMpls OFPAT_POP_MPLS 8 0.

Definition ofp_action_pop_mpls_pack (assertstruct : bool) (a : ofp_action_pop_mpls)
    : res (ofp_action_pop_mpls * option bytes) :=
  if assertstruct then
    s ← struct_pack "!HHHxx" [apo_type a; apo_length a; apo_ethertype a];
    Ok (a, Some s)
  else Ok (a, None).

Definition ofp_action_pop_mpls_unpack (a : ofp_action_pop_mpls) (b : bytes)
    : res (ofp_action_pop_mpls * bytes) :=
  if zlen b <? 8 then Ok (a, b)
  else tuple [type; length; ethertype] ← struct_unpack_from "!HHH" b 0;
       Ok (ActPopMpls type length ethertype, slice_from b 8).

Definition ofp_action_pop_mpls_len (a : ofp_action_pop_mpls) : Z := apo_length a.

Definition ofp_action_pop_mpls_eq (a o : ofp_action_pop_mpls) : bool :=
  if negb (apo_type a =? apo_type o) then false
  else if negb (apo_length a =? apo_length o) then false
  else if negb (apo_ethertype a =? apo_ethertype o) then false
  else true.

(** ** ofp_action_vlan_vid *)

Record ofp_action_vlan_vid := ActVlanVid {
  avv_type : Z;
  avv_length : Z;
  avv_vlan_vid : Z
}.
#[export] Instance ofp_action_vlan_vid_eq_dec : EqDecision ofp_action_vlan_vid.
Proof. solve_decision. Defined.

Definition ofp_action_vlan_vid_init : ofp_action_vlan_vid := ActVlanVid OFPAT_SET_VLAN_VID 8 0.

Definition ofp_action_vlan_vid_pack (assertstruct : bool) (a : ofp_action_vlan_vid)
    : res (ofp_action_vlan_vid * option bytes) :=
  s ← struct_pack "!HHH" [avv_type a; avv_length a; avv_vlan_vid a];
  Ok (a, Some (s ++ replicate 2 x00)).

Definition ofp_action_vlan_vid_unpack (a : ofp_action_vlan_vid) (b : bytes)
    : res (ofp_action_vlan_vid * bytes) :=
  if zlen b <? 8 then Ok (a, b)
  else tuple [type; length; vlan_vid] ← struct_unpack_from "!HHH" b 0;
       Ok (ActVlanVid type length vlan_vid, slice_from b 8).

Definition ofp_action_vlan_vid_len (a : ofp_action_vlan_vid) : Z := 8.

Definition ofp_action_vlan_vid_eq (a o : ofp_action_vlan_vid) : bool :=
  if negb (avv_type a =? avv_type o) then false
  else if negb (avv_length a =? avv_length o) then false
  else if negb (avv_vlan_vid a =? avv_vlan_vid o) then false
  else true.

(** ** ofp_action_vlan_pcp *)

Record ofp_action_vlan_pcp := ActVlanPcp {
  avp_type : Z;
  avp_length : Z;
  avp_vlan_pcp : Z
}.
#[export] Instance ofp_action_vlan_pcp_eq_dec : EqDecision ofp_action_vlan_pcp.
Proof. solve_decision. Defined.

Definition ofp_action_vlan_pcp_init : ofp_action_vlan_pcp := ActVlanPcp OFPAT_SET_VLAN_PCP 8 0.

Definition ofp_action_vlan_pcp_pack (assertstruct : bool) (a : ofp_action_vlan_pcp)
    : res (ofp_action_vlan_pcp * option bytes) :=
  s ← struct_pack "!HHB" [avp_type a; avp_length a; avp_vlan_pcp a];
  Ok (a, Some (s ++ replicate 3 x00)).

Definition ofp_action_vlan_pcp_unpack (a : ofp_action_vlan_pcp) (b : bytes)
    : res (ofp_action_vlan_pcp * bytes) :=
  if zlen b <? 8 then Ok (a, b)
  else tuple [type; length; vlan_pcp] ← struct_unpack_from "!HHB" b 0;
       Ok (ActVlanPcp type length vlan_pcp, slice_from b 8).

Definition ofp_action_vlan_pcp_len (a : ofp_action_vlan_pcp) : Z := 8.

Definition ofp_action_vlan_pcp_eq (a o : ofp_action_vlan_pcp) : bool :=
  if negb (avp_type a =? avp_type o) then false
  else if negb (avp_length a =? avp_length o) then false
  else if negb (avp_vlan_pcp a =? avp_vlan_pcp o) then false
  else true.

(** ** ofp_action_dl_addr *)

Record ofp_action_dl_addr := ActDlAddr {
  ada_type : option Z;
  ada_length : Z;
  ada_dl_addr : hwaddr
}.
#[export] Instance ofp_action_dl_addr_eq_dec : EqDecision ofp_action_dl_addr.
Proof. solve_decision. Defined.

Definition ofp_action_dl_addr_init (type : option Z) (dl_addr : option eth_arg)
    : res ofp_action_dl_addr :=
  let a := ActDlAddr type 16 (HwEth EMPTY_ETH) in
  match dl_addr with
  | Some d => e ← EthAddr_init d; Ok (ActDlAddr type 16 (HwEth e))
  | None => Ok a
  end.
Definition dl_addr_set_dst (dl_addr : option eth_arg) : res ofp_action_dl_addr :=
  ofp_action_dl_addr_init (Some OFPAT_SET_DL_DST) dl_addr.
Definition dl_addr_set_src (dl_addr : option eth_arg) : res ofp_action_dl_addr :=
  ofp_action_dl_addr_init (Some OFPAT_SET_DL_SRC) dl_addr.

(** The first test of [_assert], on the class of [dl_addr], holds by typing. *)
Definition ofp_action_dl_addr_assert (a : ofp_action_dl_addr) : bool :=
  match ada_dl_addr a with HwBytes s => zlen s =? 6 | HwEth _ => true end.

Definition ofp_action_dl_addr_pack (assertstruct : bool) (a : ofp_action_dl_addr)
    : res (ofp_action_dl_addr * option bytes) :=
  if assertstruct && negb (ofp_action_dl_addr_assert a) then Ok (a, None)
  else type ← need_int (ada_type a);
       s ← struct_pack "!HH" [type; ada_length a];
       Ok (a, Some (s ++ hw_raw (ada_dl_addr a) ++ replicate 6 x00)).

Definition ofp_action_dl_addr_unpack (a : ofp_action_dl_addr) (b : bytes)
    : res (ofp_action_dl_addr * bytes) :=
  if zlen b <? 16 then Ok (a, b)
  else tuple [type; length] ← struct_unpack_from "!HH" b 0;
       addr ← struct_unpack_from "!BBBBBB" b 4;
       dl_addr ← EthAddr_init (ETuple addr);
       Ok (ActDlAddr (Some type) length (HwEth dl_addr), slice_from b 16).

Definition ofp_action_dl_addr_len (a : ofp_action_dl_addr) : Z := 16.

Definition ofp_action_dl_addr_eq (a o : ofp_action_dl_addr) : bool :=
  if negb (oz_eqb (ada_type a) (ada_type o)) then false
  else if negb (ada_length a =? ada_length o) then false
  else if negb (hw_eqb (Some (ada_dl_addr a)) (Some (ada_dl_addr o))) then false
  else true.

(** ** ofp_action_nw_addr *)

Record ofp_action_nw_addr := ActNwAddr {
  ana_type : option Z;
  ana_length : Z;
  ana_nw_addr : IPAddr
}.
#[export] Instance ofp_action_nw_addr_eq_dec : EqDecision ofp_action_nw_addr.
Proof. solve_decision. Defined.

Definition ofp_action_nw_addr_init (type : option Z) (nw_addr : option ip_arg)
    : res ofp_action_nw_addr :=
  i ← IPAddr_init (match nw_addr with Some a => a | None => IInt 0 end) false;
  Ok (ActNwAddr type 8 i).
Definition nw_addr_set_dst (nw_addr : option ip_arg) : res ofp_action_nw_addr :=
  ofp_action_nw_addr_init (Some OFPAT_SET_NW_DST) nw_addr.
Definition nw_addr_set_src (nw_addr : option ip_arg) : res ofp_action_nw_addr :=
  ofp_action_nw_addr_init (Some OFPAT_SET_NW_SRC) nw_addr.

Definition ofp_action_nw_addr_pack (assertstruct : bool) (a : ofp_action_nw_addr)
    : res (ofp_action_nw_addr * option bytes) :=
  type ← need_int (ana_type a);
  nw_addr ← ip_toSigned (ana_nw_addr a) false;
  s ← struct_pack "!HHl" [type; ana_length a; nw_addr];
  Ok (a, Some s).

Definition ofp_action_nw_addr_unpack (a : ofp_action_nw_addr) (b : bytes)
    : res (ofp_action_nw_addr * bytes) :=
  if zlen b <? 8 then Ok (a, b)
  else tuple [type; length; nw_addr] ← struct_unpack_from "!HHL" b 0;
       nw_addr ← IPAddr_init (IInt nw_addr) false;
       Ok (ActNwAddr (Some type) length nw_addr, slice_from b 8).

Definition ofp_action_nw_addr_len (a : ofp_action_nw_addr) : Z := 8.

Definition ofp_action_nw_addr_eq (a o : ofp_action_nw_addr) : bool :=
  if negb (oz_eqb (ana_type a) (ana_type o)) then false
  else if negb (ana_length a =? ana_length o) then false
  else if negb (ip_value (ana_nw_addr a) =? ip_value (ana_nw_addr o)) then false
  else true.

(** ** ofp_action_nw_tos *)

Record ofp_action_nw_tos := ActNwTos {
  ant_type : Z;
  ant_length : Z;
  ant_nw_tos : Z
}.
#[export] Instance ofp_action_nw_tos_eq_dec : EqDecision ofp_action_nw_tos.
Proof. solve_decision. Defined.

Definition ofp_action_nw_tos_init (nw_tos : Z) : ofp_action_nw_tos :=
  ActNwTos OFPAT_SET_NW_TOS 8 nw_tos.

Definition ofp_action_nw_tos_pack (assertstruct : bool) (a : ofp_action_nw_tos)
    : res (ofp_action_nw_tos * option bytes) :=
  s ← struct_pack "!HHB" [ant_type a; ant_length a; ant_nw_tos a];
  Ok (a, Some (s ++ replicate 3 x00)).

Definition ofp_action_nw_tos_unpack (a : ofp_action_nw_tos) (b : bytes)
    : res (ofp_action_nw_tos * bytes) :=
  if zlen b <? 8 then Ok (a, b)
  else tuple [type; length; nw_tos] ← struct_unpack_from "!HHB" b 0;
       Ok (ActNwTos type length nw_tos, slice_from b 8).

Definition ofp_action_nw_tos_len (a : ofp_action_nw_tos) : Z := 8.

Definition ofp_action_nw_tos_eq (a o : ofp_action_nw_tos) : bool :=
  if negb (ant_type a =? ant_type o) then false
  else if negb (ant_length a =? ant_length o) then false
  else if negb (ant_nw_tos a =? ant_nw_tos o) then false
  else true.

(** ** ofp_action_tp_port *)

Record ofp_action_tp_port := ActTpPort {
  atp_type : option Z;
  atp_length : Z;
  atp_tp_port : option Z
}.
#[export] Instance ofp_action_tp_port_eq_dec : EqDecision ofp_action_tp_port.
Proof. solve_decision. Defined.

Definition ofp_action_tp_port_init (type tp_port : option Z) : ofp_action_tp_port :=
  ActTpPort type 8 tp_port.
Definition tp_port_set_dst (tp_port : option Z) : ofp_action_tp_port :=
  ofp_action_tp_port_init (Some OFPAT_SET_TP_DST) tp_port.
Definition tp_port_set_src (tp_port : option Z) : ofp_action_tp_port :=
  ofp_action_tp_port_init (Some OFPAT_SET_TP_SRC) tp_port.

Definition ofp_action_tp_port_pack (assertstruct : bool) (a : ofp_action_tp_port)
    : res (ofp_action_tp_port * option bytes) :=
  type ← need_int (atp_type a);
  tp_port ← need_int (atp_tp_port a);
  s ← struct_pack "!HHH" [type; atp_length a; tp_port];
  Ok (a, Some (s ++ replicate 2 x00)).

Definition ofp_action_tp_port_unpack (a : ofp_action_tp_port) (b : bytes)
    : res (ofp_action_tp_port * bytes) :=
  if zlen b <? 8 then Ok (a, b)
  else tuple [type; length; tp_port] ← struct_unpack_from "!HHH" b 0;
       Ok (ActTpPort (Some type) length (Some tp_port), slice_from b 8).

Definition ofp_action_tp_port_len (a : ofp_action_tp_port) : Z := 8.

Definition ofp_action_tp_port_eq (a o : ofp_action_tp_port) : bool :=
  if negb (oz_eqb (atp_type a) (atp_type o)) then false
  else if negb (atp_length a =? atp_length o) then false
  else if negb (oz_eqb (atp_tp_port a) (atp_tp_port o)) then false
  else true.

(** ** ofp_action_vendor_header *)

Record ofp_action_vendor_header := ActVendor {
  ave_type : Z;
  ave_length : Z;
  ave_vendor : Z
}.
#[export] Instance ofp_action_vendor_header_eq_dec : EqDecision ofp_action_vendor_header.
Proof. solve_decision. Defined.

Definition ofp_action_vendor_header_init : ofp_action_vendor_header := ActVendor OFPAT_VENDOR 8 0.

Definition ofp_action_vendor_header_pack (assertstruct : bool) (a : ofp_action_vendor_header)
    : res (ofp_action_vendor_header * option bytes) :=
  s ← struct_pack "!HHL" [ave_type a; ave_length a; ave_vendor a];
  Ok (a, Some s).

Definition ofp_action_vendor_header_unpack (a : ofp_action_vendor_header) (b : bytes)
    : res (ofp_action_vendor_header * bytes) :=
  if zlen b <? 8 then Ok (a, b)
  else tuple [type; length; vendor] ← struct_unpack_from "!HHL" b 0;
       Ok (ActVendor type length vendor, slice_from b 8).

Definition ofp_action_vendor_header_len (a : ofp_action_vendor_header) : Z := 8.

Definition ofp_action_vendor_header_eq (a o : ofp_action_vendor_header) : bool :=
  if negb (ave_type a =? ave_type o) then false
  else if negb (ave_length a =? ave_length o) then false
  else if negb (ave_vendor a =? ave_vendor o) then false
  else true.


(** * Any action *)

Inductive action :=
  | AHeader (a : ofp_action_header)
  | ADecTtl (a : ofp_action_header)
  | AResubmit (a : ofp_action_header)
  | AOutput (a : ofp_action_output)
  | AEnqueue (a : ofp_action_enqueue)
  | APushMpls (a : ofp_action_push_mpls)
  | AMplsLabel (a : ofp_action_mpls_label)
  | AMplsTc (a : ofp_action_mpls_tc)
  | AMplsTtl (a : ofp_action_mpls_ttl)
  | APopMpls (a : ofp_action_pop_mpls)
  | AVlanVid (a : ofp_action_vlan_vid)
  | AVlanPcp (a : ofp_action_vlan_pcp)
  | ADlAddr (a : ofp_action_dl_addr)
  | ANwAddr (a : ofp_action_nw_addr)
  | ANwTos (a : ofp_action_nw_tos)
  | ATpPort (a : ofp_action_tp_port)
  | AVendor (a : ofp_action_vendor_header).
#[export] Instance action_eq_dec : EqDecision action.
Proof. solve_decision. Defined.

(** Dynamic dispatch. *)
Definition action_pack (assertstruct : bool) (a : action) : res (action * option bytes) :=
  match a with
  | AHeader a => '(a, s) ← ofp_action_header_pack assertstruct a; Ok (AHeader a, s)
  | ADecTtl a => '(a, s) ← ofp_action_header_pack assertstruct a; Ok (ADecTtl a, s)
  | AResubmit a => '(a, s) ← ofp_action_header_pack assertstruct a; Ok (AResubmit a, s)
  | AOutput a => '(a, s) ← ofp_action_output_pack assertstruct a; Ok (AOutput a, s)
  | AEnqueue a => '(a, s) ← ofp_action_enqueue_pack assertstruct a; Ok (AEnqueue a, s)
  | APushMpls a => '(a, s) ← ofp_action_push_mpls_pack assertstruct a; Ok (APushMpls a, s)
  | AMplsLabel a => '(a, s) ← ofp_action_mpls_label_pack assertstruct a; Ok (AMplsLabel a, s)
  | AMplsTc a => '(a, s) ← ofp_action_mpls_tc_pack assertstruct a; Ok (AMplsTc a, s)
  | AMplsTtl a => '(a, s) ← ofp_action_mpls_ttl_pack assertstruct a; Ok (AMplsTtl a, s)
  | APopMpls a => '(a, s) ← ofp_action_pop_mpls_pack assertstruct a; Ok (APopMpls a, s)
  | AVlanVid a => '(a, s) ← ofp_action_vlan_vid_pack assertstruct a; Ok (AVlanVid a, s)
  | AVlanPcp a => '(a, s) ← ofp_action_vlan_pcp_pack assertstruct a; Ok (AVlanPcp a, s)
  | ADlAddr a => '(a, s) ← ofp_action_dl_addr_pack assertstruct a; Ok (ADlAddr a, s)
  | ANwAddr a => '(a, s) ← ofp_action_nw_addr_pack assertstruct a; Ok (ANwAddr a, s)
  | ANwTos a => '(a, s) ← ofp_action_nw_tos_pack assertstruct a; Ok (ANwTos a, s)
  | ATpPort a => '(a, s) ← ofp_action_tp_port_pack assertstruct a; Ok (ATpPort a, s)
  | AVendor a => '(a, s) ← ofp_action_vendor_header_pack assertstruct a; Ok (AVendor a, s)
  end.
Definition action_unpack (a : action) (b : bytes) : res (action * bytes) :=
  match a with
  | AHeader a => '(a, s) ← ofp_action_header_unpack a b; Ok (AHeader a, s)
  | ADecTtl a => '(a, s) ← ofp_action_header_unpack a b; Ok (ADecTtl a, s)
  | AResubmit a => '(a, s) ← ofp_action_header_unpack a b; Ok (AResubmit a, s)
  | AOutput a => '(a, s) ← ofp_action_output_unpack a b; Ok (AOutput a, s)
  | AEnqueue a => '(a, s) ← ofp_action_enqueue_unpack a b; Ok (AEnqueue a, s)
  | APushMpls a => '(a, s) ← ofp_action_push_mpls_unpack a b; Ok (APushMpls a, s)
  | AMplsLabel a => '(a, s) ← ofp_action_mpls_label_unpack a b; Ok (AMplsLabel a, s)
  | AMplsTc a => '(a, s) ← ofp_action_mpls_tc_unpack a b; Ok (AMplsTc a, s)
  | AMplsTtl a => '(a, s) ← ofp_action_mpls_ttl_unpack a b; Ok (AMplsTtl a, s)
  | APopMpls a => '(a, s) ← ofp_action_pop_mpls_unpack a b; Ok (APopMpls a, s)
  | AVlanVid a => '(a, s) ← ofp_action_vlan_vid_unpack a b; Ok (AVlanVid a, s)
  | AVlanPcp a => '(a, s) ← ofp_action_vlan_pcp_unpack a b; Ok (AVlanPcp a, s)
  | ADlAddr a => '(a, s) ← ofp_action_dl_addr_unpack a b; Ok (ADlAddr a, s)
  | ANwAddr a => '(a, s) ← ofp_action_nw_addr_unpack a b; Ok (ANwAddr a, s)
  | ANwTos a => '(a, s) ← ofp_action_nw_tos_unpack a b; Ok (ANwTos a, s)
  | ATpPort a => '(a, s) ← ofp_action_tp_port_unpack a b; Ok (ATpPort a, s)
  | AVendor a => '(a, s) ← ofp_action_vendor_header_unpack a b; Ok (AVendor a, s)
  end.
Definition action_len (a : action) : Z :=
  match a with
  | AHeader a => ofp_action_header_len a
  | ADecTtl a => ofp_action_header_len a
  | AResubmit a => ofp_action_header_len a
  | AOutput a => ofp_action_output_len a
  | AEnqueue a => ofp_action_enqueue_len a
  | APushMpls a => ofp_action_push_mpls_len a
  | AMplsLabel a => ofp_action_mpls_label_len a
  | AMplsTc a => ofp_action_mpls_tc_len a
  | AMplsTtl a => ofp_action_mpls_ttl_len a
  | APopMpls a => ofp_action_pop_mpls_len a
  | AVlanVid a => ofp_action_vlan_vid_len a
  | AVlanPcp a => ofp_action_vlan_pcp_len a
  | ADlAddr a => ofp_action_dl_addr_len a
  | ANwAddr a => ofp_action_nw_addr_len a
  | ANwTos a => ofp_action_nw_tos_len a
  | ATpPort a => ofp_action_tp_port_len a
  | AVendor a => ofp_action_vendor_header_len a
  end.
Definition action_eq (a o : action) : bool :=
  match a, o with
  | AHeader a, AHeader o => ofp_action_header_eq a o
  | ADecTtl a, ADecTtl o => ofp_action_header_eq a o
  | AResubmit a, AResubmit o => ofp_action_header_eq a o
  | AOutput a, AOutput o => ofp_action_output_eq a o
  | AEnqueue a, AEnqueue o => ofp_action_enqueue_eq a o
  | APushMpls a, APushMpls o => ofp_action_push_mpls_eq a o
  | AMplsLabel a, AMplsLabel o => ofp_action_mpls_label_eq a o
  | AMplsTc a, AMplsTc o => ofp_action_mpls_tc_eq a o
  | AMplsTtl a, AMplsTtl o => ofp_action_mpls_ttl_eq a o
  | APopMpls a, APopMpls o => ofp_action_pop_mpls_eq a o
  | AVlanVid a, AVlanVid o => ofp_action_vlan_vid_eq a o
  | AVlanPcp a, AVlanPcp o => ofp_action_vlan_pcp_eq a o
  | ADlAddr a, ADlAddr o => ofp_action_dl_addr_eq a o
  | ANwAddr a, ANwAddr o => ofp_action_nw_addr_eq a o
  | ANwTos a, ANwTos o => ofp_action_nw_tos_eq a o
  | ATpPort a, ATpPort o => ofp_action_tp_port_eq a o
  | AVendor a, AVendor o => ofp_action_vendor_header_eq a o
  | _, _ => false
  end.

(** [_action_map]: the callables, as constructors of the sum. *)
Definition action_map (t : Z) : option (res action) :=
  if t =? OFPAT_OUTPUT then Some (Ok (AOutput ofp_action_output_init))
  else if t =? OFPAT_SET_VLAN_VID then Some (Ok (AVlanVid ofp_action_vlan_vid_init))
  else if t =? OFPAT_SET_VLAN_PCP then Some (Ok (AVlanPcp ofp_action_vlan_pcp_init))
  else if t =? OFPAT_SET_DL_SRC then Some (a ← ofp_action_dl_addr_init None None; Ok (ADlAddr a))
  else if t =? OFPAT_SET_DL_DST then Some (a ← ofp_action_dl_addr_init None None; Ok (ADlAddr a))
  else if t =? OFPAT_SET_NW_SRC then Some (a ← ofp_action_nw_addr_init None None; Ok (ANwAddr a))
  else if t =? OFPAT_SET_NW_DST then Some (a ← ofp_action_nw_addr_init None None; Ok (ANwAddr a))
  else if t =? OFPAT_SET_NW_TOS then Some (Ok (ANwTos (ofp_action_nw_tos_init 0)))
  else if t =? OFPAT_SET_TP_SRC then Some (Ok (ATpPort (ofp_action_tp_port_init None (Some 0))))
  else if t =? OFPAT_SET_TP_DST then Some (Ok (ATpPort (ofp_action_tp_port_init None (Some 0))))
  else if t =? OFPAT_ENQUEUE then Some (Ok (AEnqueue ofp_action_enqueue_init))
  else if t =? OFPAT_PUSH_MPLS then Some (Ok (APushMpls ofp_action_push_mpls_init))
  else if t =? OFPAT_POP_MPLS then Some (Ok (APopMpls ofp_action_pop_mpls_init))
  else if t =? OFPAT_SET_MPLS_LABEL then Some (Ok (AMplsLabel ofp_action_mpls_label_init))
  else if t =? OFPAT_SET_MPLS_TC then Some (Ok (AMplsTc ofp_action_mpls_tc_init))
  else if t =? OFPAT_SET_MPLS_TTL then Some (Ok (AMplsTtl ofp_action_mpls_ttl_init))
  else if t =? OFPAT_DEC_MPLS_TTL then Some (Ok (ADecTtl ofp_action_mpls_dec_ttl_init))
  else if t =? OFPAT_RESUBMIT then Some (Ok (AResubmit ofp_action_resubmit_init))
  else None.

(** [_unpack_actions]: the loop, with fuel for its iterations.  The trailing
    [assert] makes a declared length the class does not confirm an error. *)
Fixpoint unpack_actions_loop (fuel : nat) (b : bytes) (end_ offset : Z)
    (actions : list action) : res (list action * Z) :=
  if offset <? end_ then
    match fuel with
    | O => Err Diverge
    | S fuel =>
        tuple [t; l] ← struct_unpack_from "!HH" b offset;
        if zlen b - offset <? l then Ok ([], offset)
        else
          a ← match action_map t with
              | None => Ok (AHeader ofp_action_header_init)
              | Some a => a
              end;
          '(a, _) ← action_unpack a (slice b offset (offset + l));
          if negb (action_len a =? l) then Err AssertionError
          else unpack_actions_loop fuel b end_ (offset + l) (actions ++ [a])
    end
  else Ok (actions, offset).

(** As much fuel as there are bytes is enough: see [unpack_actions_terminates]. *)
Definition unpack_actions (b : bytes) (length_ offset : Z) : res (list action * Z) :=
  if zlen b - offset <? length_ then Ok ([], offset)
  else unpack_actions_loop (length b) b (length_ + offset) offset [].

(** * Progress of the reader *)

(** The object [_unpack_actions] makes for a type. *)
Definition fresh_action (t : Z) : res action :=
  match action_map t with None => Ok (AHeader ofp_action_header_init) | Some a => a end.

(** Classes whose objects start with a length of at least 8. *)
Lemma fresh_action_ok t : exists a, fresh_action t = Ok a /\ 8 <= action_len a.
Proof.
  unfold fresh_action, action_map.
  repeat match goal with |- context [if ?b then _ else _] => destruct b end;
    eexists; (split; [reflexivity|]); by vm_compute.
Qed.

(** On fewer than 8 bytes no class changes the object. *)
Lemma action_unpack_short a b : zlen b < 8 -> action_unpack a b = Ok (a, b).
Proof.
  intros H. destruct a; simpl;
  unfold ofp_action_header_unpack, ofp_action_output_unpack, ofp_action_enqueue_unpack,
    ofp_action_push_mpls_unpack, ofp_action_mpls_label_unpack, ofp_action_mpls_tc_unpack,
    ofp_action_mpls_ttl_unpack, ofp_action_pop_mpls_unpack, ofp_action_vlan_vid_unpack,
    ofp_action_vlan_pcp_unpack, ofp_action_dl_addr_unpack, ofp_action_nw_addr_unpack,
    ofp_action_nw_tos_unpack, ofp_action_tp_port_unpack, ofp_action_vendor_header_unpack;
  by rewrite (proj2 (Z.ltb_lt _ _)) by lia.
Qed.

Lemma EthAddr_init_tuple_err l : EthAddr_init (ETuple l) <> Err Diverge.
Proof.
  assert (mapM_res chr l <> Err Diverge) as H.
  { induction l as [|z l IH]; [done|]. cbn [mapM_res].
    assert (chr z <> Err Diverge) by (unfold chr; destruct (_ && _); congruence).
    destruct (chr z); cbn [mbind res_bind]; [|congruence].
    destruct (mapM_res chr l); cbn [mbind res_bind]; congruence. }
  cbn [EthAddr_init]. destruct (zlen l =? 6); cbn [negb]; [|congruence].
  destruct (mapM_res chr l); cbn [mbind res_bind]; congruence.
Qed.

(** Split an unpacker into its outcomes. *)
Ltac unpack_cases :=
  repeat (cbn [mbind res_bind];
    match goal with
    | |- context [if ?b then _ else _] => destruct b
    | |- context [struct_unpack_from ?f ?b ?o] =>
        let E := fresh in destruct (struct_unpack_from f b o) eqn:E;
        [|apply struct_unpack_from_err in E; subst]
    | |- context [EthAddr_init (ETuple ?l)] =>
        let E := fresh in
        pose proof (EthAddr_init_tuple_err l) as E; destruct (EthAddr_init (ETuple l))
    | |- context [IPAddr_init ?x ?n] =>
        let E := fresh in pose proof (IPAddr_init_err x n) as E; destruct (IPAddr_init x n)
    | |- context [match ?l with [] => _ | _ :: _ => _ end] => destruct l
    end); cbn [mbind res_bind]; try congruence.

Lemma action_unpack_err a b : action_unpack a b <> Err Diverge.
Proof.
  destruct a; simpl;
  unfold ofp_action_header_unpack, ofp_action_output_unpack, ofp_action_enqueue_unpack,
    ofp_action_push_mpls_unpack, ofp_action_mpls_label_unpack, ofp_action_mpls_tc_unpack,
    ofp_action_mpls_ttl_unpack, ofp_action_pop_mpls_unpack, ofp_action_vlan_vid_unpack,
    ofp_action_vlan_pcp_unpack, ofp_action_dl_addr_unpack, ofp_action_nw_addr_unpack,
    ofp_action_nw_tos_unpack, ofp_action_tp_port_unpack, ofp_action_vendor_header_unpack;
  unpack_cases.
Qed.

Lemma slice_zlen {A} (l : list A) i j : 0 <= i <= j -> j <= zlen l -> zlen (slice l i j) = j - i.
Proof.
  intros Hij Hj. unfold slice, py_index, zlen in *.
  rewrite !(proj2 (Z.ltb_ge _ _)) by lia. rewrite length_take, length_drop. lia.
Qed.

(** One iteration: an accepted action is at least 8 bytes long. *)
Lemma accepted_length a b a' r l : fresh_action l = Ok a -> action_unpack a b = Ok (a', r) ->
  action_len a' = zlen b -> 8 <= zlen b.
Proof.
  intros Ha Hu Hl. destruct (fresh_action_ok l) as (a0 & E & H8).
  assert (a0 = a) as -> by congruence.
  destruct (Z.lt_ge_cases (zlen b) 8); [|done].
  rewrite action_unpack_short in Hu by done. assert (a' = a) as -> by congruence. lia.
Qed.

Lemma unpack_actions_loop_total fuel b end_ offset acts : 0 <= offset ->
  end_ <= zlen b -> zlen b - offset <= 8 * Z.of_nat fuel ->
  unpack_actions_loop fuel b end_ offset acts <> Err Diverge.
Proof.
  revert offset acts; induction fuel as [|fuel IH]; intros offset acts Ho He Hf;
    cbn [unpack_actions_loop]; destruct (Z.ltb_spec offset end_); try done; [lia|].
  destruct (struct_unpack_from "!HH" b offset) as [tl|e] eqn:E; cbn [mbind res_bind];
    [|apply struct_unpack_from_err in E; congruence].
  pose proof (struct_unpack_accepts _ _ _ _ Ho E) as Ha.
  destruct tl as [|t [|l [|? ?]]]; try done.
  unfold fmt_accepts in Ha; simpl in Ha.
  destruct (Z.ltb_spec (zlen b - offset) l); [done|].
  fold (fresh_action t). destruct (fresh_action_ok t) as (a & Ea & _). rewrite Ea. cbn [mbind res_bind].
  destruct (action_unpack a (slice b offset (offset + l))) as [[a' r]|e] eqn:Eu; cbn [mbind res_bind];
    [|intros [= ->]; by eapply action_unpack_err].
  destruct (Z.eqb_spec (action_len a') l); cbn [negb]; [|done].
  assert (zlen (slice b offset (offset + l)) = l) as Hl by (rewrite slice_zlen; lia).
  assert (8 <= l); [|apply IH; lia].
  rewrite <-Hl. eapply accepted_length; [exact Ea|exact Eu|by rewrite Hl].
Qed.

(** C38: [_unpack_actions] comes back from any buffer - garbage, truncated, or with
    lengths of zero: every action it accepts is at least 8 bytes long. *)
Theorem unpack_actions_terminates b n offset : 0 <= offset ->
  unpack_actions b n offset <> Err Diverge.
Proof.
  intros Ho. unfold unpack_actions. destruct (Z.ltb_spec (zlen b - offset) n); [done|].
  apply unpack_actions_loop_total; unfold zlen in *; lia.
Qed.

(** * Round trip of action lists *)

(** Actions that [_unpack_actions] can read back: their type is the one that
    makes their class, the declared length is the real one, the fields fit.  A
    vendor action never qualifies (its type is not in [_action_map]), nor does a
    generic action with data (packing drops it). *)
Definition action_wf (a : action) : Prop :=
  match a with
  | AHeader a => exists t, ah_type a = Some t /\ u16 t /\ action_map t = None /\
      ah_length a = 8 /\ ah_data a = []
  | ADecTtl a => a = ofp_action_mpls_dec_ttl_init
  | AResubmit a => a = ofp_action_resubmit_init
  | AOutput a => ao_type a = OFPAT_OUTPUT /\ ao_length a = 8 /\
      (exists p, ao_port a = Some p /\ u16 p) /\ u16 (ao_max_len a)
  | AEnqueue a => aq_type a = OFPAT_ENQUEUE /\ aq_length a = 16 /\ u16 (aq_port a) /\
      u32 (aq_queue_id a)
  | APushMpls a => apm_type a = OFPAT_PUSH_MPLS /\ apm_length a = 8 /\
      (apm_ethertype a = 0x8847 \/ apm_ethertype a = 0x8848)
  | AMplsLabel a => aml_type a = OFPAT_SET_MPLS_LABEL /\ aml_length a = 8 /\ u32 (aml_mpls_label a)
  | AMplsTc a => amc_type a = OFPAT_SET_MPLS_TC /\ amc_length a = 8 /\ u8 (amc_mpls_tc a)
  | AMplsTtl a => amt_type a = OFPAT_SET_MPLS_TTL /\ amt_length a = 8 /\ u8 (amt_mpls_ttl a)
  | APopMpls a => apo_type a = OFPAT_POP_MPLS /\ apo_length a = 8 /\ u16 (apo_ethertype a)
  | AVlanVid a => avv_type a = OFPAT_SET_VLAN_VID /\ avv_length a = 8 /\ u16 (avv_vlan_vid a)
  | AVlanPcp a => avp_type a = OFPAT_SET_VLAN_PCP /\ avp_length a = 8 /\ u8 (avp_vlan_pcp a)
  | ADlAddr a => (ada_type a = Some OFPAT_SET_DL_SRC \/ ada_type a = Some OFPAT_SET_DL_DST) /\
      ada_length a = 16 /\ exists e, ada_dl_addr a = HwEth e /\ eth_wf e
  | ANwAddr a => (ana_type a = Some OFPAT_SET_NW_SRC \/ ana_type a = Some OFPAT_SET_NW_DST) /\
      ana_length a = 8 /\ ip_wf (ana_nw_addr a)
  | ANwTos a => ant_type a = OFPAT_SET_NW_TOS /\ ant_length a = 8 /\ u8 (ant_nw_tos a)
  | ATpPort a => (atp_type a = Some OFPAT_SET_TP_SRC \/ atp_type a = Some OFPAT_SET_TP_DST) /\
      atp_length a = 8 /\ exists p, atp_tp_port a = Some p /\ u16 p
  | AVendor _ => False
  end.

(** What packing leaves: an output action to anything but the controller has its
    [max_len] reset. *)
Definition action_settle (a : action) : action :=
  match a with
  | AOutput o => if oz_eqb (ao_port o) (Some OFPP_CONTROLLER) then a
                 else AOutput (ActOutput (ao_type o) (ao_length o) (ao_port o) 0)
  | _ => a
  end.

#[export] Instance action_wire : Wire action := {
  pack := action_pack;
  unpack := action_unpack;
  plen := action_len;
  wire_wf := action_wf;
  same_class _ _ := True
}.

(** The bytes [s] of [a]: they start with a type and [a]'s length, and an object
    fresh for that type becomes [a] by unpacking them. *)
Definition action_image (a : action) (s : bytes) : Prop :=
  zlen s = action_len a /\ 8 <= zlen s /\
  exists t f, (forall rest, struct_unpack_from "!HH" (s ++ rest) 0 = Ok [t; zlen s]) /\
    fresh_action t = Ok f /\ exists r, action_unpack f s = Ok (a, r).

(** Packing settles the action, and the bytes are its image. *)
Definition image_ok (a : action) : Prop :=
  exists s, action_pack true a = Ok (action_settle a, Some s) /\ action_image (action_settle a) s.

(** One class at a time: pack, read the head, read the whole. *)
Ltac show_types :=
  cbv delta [OFPAT_OUTPUT OFPAT_SET_VLAN_VID OFPAT_SET_VLAN_PCP OFPAT_SET_DL_SRC OFPAT_SET_DL_DST
    OFPAT_SET_NW_SRC OFPAT_SET_NW_DST OFPAT_SET_NW_TOS OFPAT_SET_TP_SRC OFPAT_SET_TP_DST
    OFPAT_ENQUEUE OFPAT_SET_MPLS_LABEL OFPAT_SET_MPLS_TC OFPAT_SET_MPLS_TTL OFPAT_DEC_MPLS_TTL
    OFPAT_PUSH_MPLS OFPAT_POP_MPLS OFPAT_RESUBMIT].
Ltac image_pack :=
  show_types; pack_tac; eexists; split; [reflexivity|];
  split; [unfold action_len; len_tac|]; split; [len_tac|].
Ltac image_head :=
  show_types; let rest := fresh "rest" in intros rest; rewrite <-?app_assoc; read_step;
  repeat f_equal; symmetry; len_tac.
Ltac pad_nil :=
  match goal with |- context [zlen ?s <? _] => rewrite <-(app_nil_r s) end.
Ltac image_tac P U t :=
  unfold image_ok; cbn [action_pack action_settle]; unfold P; cbn -[replicate];
  image_pack; exists t; eexists; split_and!;
  [image_head|reflexivity|eexists; cbn [action_unpack]; unfold U; pad_nil; read_tac].

Lemma image_enqueue a : action_wf (AEnqueue a) -> image_ok (AEnqueue a).
Proof.
  destruct a. intros (E1 & E2 & H1 & H2). cbn in *. subst.
  by image_tac ofp_action_enqueue_pack ofp_action_enqueue_unpack 11.
Qed.
Lemma image_vlan_vid a : action_wf (AVlanVid a) -> image_ok (AVlanVid a).
Proof.
  destruct a. intros (E1 & E2 & H). cbn in *. subst.
  by image_tac ofp_action_vlan_vid_pack ofp_action_vlan_vid_unpack 1.
Qed.
Lemma image_vlan_pcp a : action_wf (AVlanPcp a) -> image_ok (AVlanPcp a).
Proof.
  destruct a. intros (E1 & E2 & H). cbn in *. subst.
  by image_tac ofp_action_vlan_pcp_pack ofp_action_vlan_pcp_unpack 2.
Qed.
Lemma image_nw_tos a : action_wf (ANwTos a) -> image_ok (ANwTos a).
Proof.
  destruct a. intros (E1 & E2 & H). cbn in *. subst.
  by image_tac ofp_action_nw_tos_pack ofp_action_nw_tos_unpack 8.
Qed.
Lemma image_mpls_label a : action_wf (AMplsLabel a) -> image_ok (AMplsLabel a).
Proof.
  destruct a. intros (E1 & E2 & H). cbn in *. subst.
  by image_tac ofp_action_mpls_label_pack ofp_action_mpls_label_unpack 13.
Qed.
Lemma image_mpls_tc a : action_wf (AMplsTc a) -> image_ok (AMplsTc a).
Proof.
  destruct a. intros (E1 & E2 & H). cbn in *. subst.
  by image_tac ofp_action_mpls_tc_pack ofp_action_mpls_tc_unpack 14.
Qed.
Lemma image_mpls_ttl a : action_wf (AMplsTtl a) -> image_ok (AMplsTtl a).
Proof.
  destruct a. intros (E1 & E2 & H). cbn in *. subst.
  by image_tac ofp_action_mpls_ttl_pack ofp_action_mpls_ttl_unpack 15.
Qed.
Lemma image_pop_mpls a : action_wf (APopMpls a) -> image_ok (APopMpls a).
Proof.
  destruct a. intros (E1 & E2 & H). cbn in *. subst.
  by image_tac ofp_action_pop_mpls_pack ofp_action_pop_mpls_unpack 20.
Qed.
Lemma image_push_mpls a : action_wf (APushMpls a) -> image_ok (APushMpls a).
Proof.
  destruct a. intros (E1 & E2 & [H|H]); cbn in *; subst;
  by image_tac ofp_action_push_mpls_pack ofp_action_push_mpls_unpack 19.
Qed.
Lemma image_dec_ttl a : action_wf (ADecTtl a) -> image_ok (ADecTtl a).
Proof.
  cbn. intros ->. image_tac ofp_action_header_pack ofp_action_header_unpack 16. by guard_tac.
Qed.
Lemma image_resubmit a : action_wf (AResubmit a) -> image_ok (AResubmit a).
Proof.
  cbn. intros ->. image_tac ofp_action_header_pack ofp_action_header_unpack 21. by guard_tac.
Qed.
Lemma image_tp_port a : action_wf (ATpPort a) -> image_ok (ATpPort a).
Proof.
  destruct a. intros ([E1|E1] & E2 & p & E3 & H); cbn in *; subst.
  - by image_tac ofp_action_tp_port_pack ofp_action_tp_port_unpack 9.
  - by image_tac ofp_action_tp_port_pack ofp_action_tp_port_unpack 10.
Qed.
Lemma image_output a : action_wf (AOutput a) -> image_ok (AOutput a).
Proof.
  destruct a. intros (E1 & E2 & (p & E3 & Hp) & H). cbn in *. subst.
  unfold image_ok. cbn [action_pack action_settle]. unfold ofp_action_output_pack. cbn -[oz_eqb].
  destruct (oz_eqb (Some p) (Some OFPP_CONTROLLER)); cbn -[oz_eqb];
    image_pack; exists 0; eexists; (split_and!;
    [image_head|reflexivity|eexists; cbn [action_unpack]; unfold ofp_action_output_unpack; pad_nil; read_tac; done]).
Qed.
Lemma image_dl_addr a : action_wf (ADlAddr a) -> image_ok (ADlAddr a).
Proof.
  destruct a as [ty l h]. intros (Hty & E2 & [e] & E3 & He). unfold eth_wf in He. cbn in *. subst.
  assert (zlen e = 6) as Le by (unfold zlen; by rewrite He).
  unfold image_ok. cbn [action_pack action_settle]. unfold ofp_action_dl_addr_pack.
  destruct Hty as [-> | ->]; cbn -[replicate]; image_pack;
    [exists 4|exists 5]; eexists; (split_and!; [image_head|reflexivity|]);
    eexists; cbn [action_unpack]; unfold ofp_action_dl_addr_unpack; pad_nil;
    rewrite <-!app_assoc; guard_tac; read_step;
    match goal with L : zlen ?s = 4 |- _ => rewrite (struct_unpack_6B s _ _ 4 L He) end;
    cbn [mbind res_bind]; rewrite eth_of_tuple_bytes by done; cbn [mbind res_bind];
    by repeat read_step.
Qed.
Lemma image_nw_addr a : action_wf (ANwAddr a) -> image_ok (ANwAddr a).
Proof.
  destruct a as [ty l i]. intros (Hty & E2 & Hi). cbn in *. subst.
  unfold image_ok. cbn [action_pack action_settle]. unfold ofp_action_nw_addr_pack.
  pose proof (ip_toUnsigned_range i) as Hr. pose proof (to_signed_range _ Hr) as Hs.
  destruct Hty as [-> | ->]; cbn -[replicate ip_toSigned]; rewrite ip_toSigned_spec;
    cbn [mbind res_bind]; rewrite struct_pack_HHl, to_signed_unsigned by done;
    image_pack; [exists 6|exists 7]; eexists; (split_and!; [image_head|reflexivity|]);
    eexists; cbn [action_unpack]; unfold ofp_action_nw_addr_unpack; pad_nil; read_tac;
    rewrite IPAddr_init_int, ip_of_toUnsigned by done; cbn [mbind res_bind]; by repeat read_step.
Qed.
Lemma image_header a : action_wf (AHeader a) -> image_ok (AHeader a).
Proof.
  destruct a as [ty l d]. intros (t & E1 & Ht & Hm & E2 & E3). cbn in *. subst.
  unfold image_ok. cbn [action_pack action_settle]. unfold ofp_action_header_pack. cbn -[replicate].
  image_pack. exists t. eexists. split_and!; [image_head|unfold fresh_action; by rewrite Hm|].
  eexists. cbn [action_unpack]. unfold ofp_action_header_unpack. pad_nil. read_tac. by guard_tac.
Qed.

(** Every action that can be read back is. *)
Lemma action_image_ok a : action_wf a -> image_ok a.
Proof.
  destruct a; [apply image_header|apply image_dec_ttl|apply image_resubmit|apply image_output
    |apply image_enqueue|apply image_push_mpls|apply image_mpls_label|apply image_mpls_tc
    |apply image_mpls_ttl|apply image_pop_mpls|apply image_vlan_vid|apply image_vlan_pcp
    |apply image_dl_addr|apply image_nw_addr|apply image_nw_tos|apply image_tp_port|done].
Qed.

(** ** Lists *)

Inductive actions_image : list action -> bytes -> Prop :=
  | ai_nil : actions_image [] []
  | ai_cons a l s t : action_image a s -> actions_image l t -> actions_image (a :: l) (s ++ t).

Lemma pack_actions_ok l packed : Forall action_wf l ->
  exists s, pack_list true packed l = Ok (action_settle <$> l, packed ++ s) /\
    actions_image (action_settle <$> l) s.
Proof.
  intros H. revert packed; induction H as [|a l Ha _ IH]; intros packed.
  - exists []. rewrite app_nil_r. split; [done|constructor].
  - destruct (action_image_ok a Ha) as (s & E & Hi). destruct (IH (packed ++ s)) as (t & E' & Ht).
    exists (s ++ t). split; [|by constructor]. cbn [pack_list pack action_wire].
    rewrite E. cbn [mbind res_bind append_opt]. rewrite E'. cbn [mbind res_bind].
    by rewrite app_assoc.
Qed.

Lemma unpack_actions_image l s : actions_image l s -> forall fuel pre rest acts,
  (length l <= fuel)%nat ->
  unpack_actions_loop fuel (pre ++ s ++ rest) (zlen pre + zlen s) (zlen pre) acts =
    Ok (acts ++ l, zlen pre + zlen s).
Proof.
  induction 1 as [|a l s t Ha _ IH]; intros fuel pre rest acts Hf.
  - destruct fuel; cbn [unpack_actions_loop]; rewrite Z.add_0_r, Z.ltb_irrefl; by rewrite app_nil_r.
  - destruct fuel as [|fuel]; [simpl in Hf; lia|]. cbn [unpack_actions_loop].
    destruct Ha as (Hlen & H8 & ty & f & Hhead & Hf' & r & Hu).
    pose proof (zlen_nonneg t) as Ht.
    rewrite (zlen_app s t), (proj2 (Z.ltb_lt _ _)) by lia.
    rewrite struct_unpack_skip, Z.sub_diag by lia.
    rewrite <-(app_assoc s), Hhead. cbn [mbind res_bind].
    rewrite !zlen_app, (proj2 (Z.ltb_ge _ _)) by (pose proof (zlen_nonneg rest); lia).
    fold (fresh_action ty). rewrite Hf'. cbn [mbind res_bind].
    rewrite slice_skip by lia.
    replace (zlen pre - zlen pre) with 0 by lia.
    rewrite slice_hit by lia. rewrite Hu. cbn [mbind res_bind].
    rewrite <-Hlen, Z.eqb_refl. cbn [negb].
    specialize (IH fuel (pre ++ s) rest (acts ++ [a])). rewrite zlen_app in IH.
    rewrite <-!app_assoc in IH. rewrite Z.add_assoc. apply IH. simpl in Hf. lia.
Qed.

Lemma actions_image_len l s : actions_image l s -> 8 * zlen l <= zlen s.
Proof.
  induction 1 as [|a l s t (_ & H8 & _) _ IH]; [done|]. rewrite zlen_app. unfold zlen in *. simpl. lia.
Qed.
Lemma actions_image_total l s : actions_image l s -> zlen s = len_list 0 l.
Proof.
  induction 1 as [|a l s t (Ha & _) _ IH]; [done|]. by rewrite zlen_app, Ha, IH, len_list_cons.
Qed.
Lemma unpack_actions_read l s pre rest : actions_image l s ->
  unpack_actions (pre ++ s ++ rest) (zlen s) (zlen pre) = Ok (l, zlen pre + zlen s).
Proof.
  intros H. unfold unpack_actions. rewrite !zlen_app.
  rewrite (proj2 (Z.ltb_ge _ _)) by (pose proof (zlen_nonneg rest); lia).
  rewrite (Z.add_comm (zlen s)). rewrite (unpack_actions_image l s H); [done|].
  pose proof (actions_image_len l s H). unfold zlen in *. rewrite !length_app. lia.
Qed.

(** Settling changes neither the length nor the fields' ranges. *)
Lemma settle_len a : action_len (action_settle a) = action_len a.
Proof. destruct a; try done. simpl. by destruct (oz_eqb _ _). Qed.
Lemma settle_len_list n l : len_list n (action_settle <$> l) = len_list n l.
Proof.
  rewrite !(len_list_acc n). f_equal.
  induction l as [|a l IH]; [done|]. cbn [fmap list_fmap]. rewrite !len_list_cons, IH.
  f_equal. apply settle_len.
Qed.
Lemma settle_wf a : action_wf a -> action_wf (action_settle a).
Proof.
  destruct a as [[]|[]|[]|[]|[]|[]|[]|[]|[]|[]|[]|[]|[]|[]|[]|[]|[]]; try done.
  cbn [action_settle]. destruct (oz_eqb _ _); [done|]. simpl. intuition lia.
Qed.

(** Packing a list of well-formed actions succeeds, and [_unpack_actions] at the place
    of the bytes, told their length, gives back the list - with [max_len] reset where the
    output is not the controller - and the offset behind them. *)
Theorem actions_roundtrip l packed rest : Forall action_wf l ->
  exists s, pack_list true packed l = Ok (action_settle <$> l, packed ++ s) /\
    zlen s = len_list 0 (action_settle <$> l) /\
    unpack_actions (packed ++ s ++ rest) (zlen s) (zlen packed) =
      Ok (action_settle <$> l, zlen packed + zlen s).
Proof.
  intros Hl. destruct (pack_actions_ok l packed Hl) as (s & E & Hi). exists s.
  split; [done|]. split; [by apply actions_image_total|by apply unpack_actions_read].
Qed.

Lemma actions_roundtrip_witness :
  let l := [AVlanVid (ActVlanVid OFPAT_SET_VLAN_VID 8 5); AOutput (ActOutput OFPAT_OUTPUT 8 (Some 2) 64)] in
  exists s, pack_list true [] l = Ok (action_settle <$> l, [] ++ s) /\
    zlen s = len_list 0 (action_settle <$> l) /\
    unpack_actions ([] ++ s ++ [x00]) (zlen s) (zlen (@nil Byte.byte)) =
      Ok (action_settle <$> l, zlen (@nil Byte.byte) + zlen s).
Proof.
  apply actions_roundtrip. repeat constructor; try discriminate.
  exists 2. repeat split; discriminate.
Defined.

Lemma unpack_actions_terminates_witness :
  0 <= 0 /\ unpack_actions (replicate 64 x00) 64 0 <> Err Diverge.
Proof. split; [discriminate|]. apply unpack_actions_terminates. discriminate. Defined.
