(* ===== verification/OfStats.v ===== *)
(** [libopenflow_01.py], part 4: the bodies of statistics requests and replies. *)
From S2P Require Import Prelude.
From S2P Require Import PyStruct.
From S2P Require Import Addresses.
From S2P Require Import OfConst.
From S2P Require Import Wire.
From S2P Require Import OfBase.
From S2P Require Import OfMatch.
From S2P Require Import MatchTheory.
From S2P Require Import OfActions.

(** * The structures *)

(** ** ofp_desc_stats *)

Record ofp_desc_stats := DescStats {
  ds_mfr_desc : bytes;
  ds_hw_desc : bytes;
  ds_sw_desc : bytes;
  ds_serial_num : bytes;
  ds_dp_desc : bytes
}.
#[export] Instance ofp_desc_stats_eq_dec : EqDecision ofp_desc_stats.
Proof. solve_decision. Defined.

Definition ofp_desc_stats_init : ofp_desc_stats := DescStats [] [] [] [] [].

Definition ofp_desc_stats_assert (m : ofp_desc_stats) : bool :=
  if 256 <? zlen (ds_mfr_desc m) then false
  else if 256 <? zlen (ds_hw_desc m) then false
  else if 256 <? zlen (ds_sw_desc m) then false
  else if 32 <? zlen (ds_serial_num m) then false
  else if 256 <? zlen (ds_dp_desc m) then false
  else true.

Definition ofp_desc_stats_pack (assertstruct : bool) (m : ofp_desc_stats)
    : res (ofp_desc_stats * option bytes) :=
  if assertstruct && negb (ofp_desc_stats_assert m) then Ok (m, None)
  else
    Ok (m, Some (ljust0 (ds_mfr_desc m) 256 ++ ljust0 (ds_hw_desc m) 256 ++ ljust0 (ds_sw_desc
      m) 256 ++ ljust0 (ds_serial_num m) 32 ++ ljust0 (ds_dp_desc m) 256)).

Definition ofp_desc_stats_unpack (m : ofp_desc_stats) (b : bytes)
    : res (ofp_desc_stats * bytes) :=
  if zlen b <? 1056 then Ok (m, b)
  else
    let mfr_desc := strip0 (slice b 0 256) in
    let hw_desc := strip0 (slice b 256 512) in
    let sw_desc := strip0 (slice b 512 768) in
    let serial_num := strip0 (slice b 768 800) in
    let dp_desc := strip0 (slice b 800 1056) in
    Ok (DescStats mfr_desc hw_desc sw_desc serial_num dp_desc, slice_from b 1056).

Definition ofp_desc_stats_len (m : ofp_desc_stats) : Z := 1056.

Definition ofp_desc_stats_eq (a o : ofp_desc_stats) : bool :=
  if negb (bool_decide (ds_mfr_desc a = ds_mfr_desc o)) then false
  else if negb (bool_decide (ds_hw_desc a = ds_hw_desc o)) then false
  else if negb (bool_decide (ds_sw_desc a = ds_sw_desc o)) then false
  else if negb (bool_decide (ds_serial_num a = ds_serial_num o)) then false
  else if negb (bool_decide (ds_dp_desc a = ds_dp_desc o)) then false
  else true.

(** ** ofp_aggregate_stats_request *)

Record ofp_aggregate_stats_request := AggregateStatsRequest {
  asr_match : ofp_match;
  asr_table_id : Z;
  asr_out_port : Z
}.
#[export] Instance ofp_aggregate_stats_request_eq_dec : EqDecision ofp_aggregate_stats_request.
Proof. solve_decision. Defined.

Definition ofp_aggregate_stats_request_init : ofp_aggregate_stats_request :=
  AggregateStatsRequest ofp_match_init TABLE_ALL OFPP_NONE.

Definition ofp_aggregate_stats_request_pack (assertstruct : bool) (m : ofp_aggregate_stats_request)
    : res (ofp_aggregate_stats_request * option bytes) :=
  a ← ofp_match_pack true false (asr_match m);
  c ← struct_pack "!BBH" [asr_table_id m; 0; asr_out_port m];
  Ok (m, Some (a ++ c)).

Definition ofp_aggregate_stats_request_unpack (m : ofp_aggregate_stats_request) (b : bytes)
    : res (ofp_aggregate_stats_request * bytes) :=
  if zlen b <? 4 + ofp_match_len (asr_match m) then Ok (m, b)
  else
    '(match_, _) ← ofp_match_unpack false (asr_match m) (slice_from b 0);
    tuple [table_id; _; out_port] ← struct_unpack_from "!BBH" b (ofp_match_len match_);
    Ok (AggregateStatsRequest match_ table_id out_port, slice_from b 44).

Definition ofp_aggregate_stats_request_len (m : ofp_aggregate_stats_request) : Z := 44.

Definition ofp_aggregate_stats_request_eq (a o : ofp_aggregate_stats_request) : bool :=
  if negb (ofp_match_eq (asr_match a) (asr_match o)) then false
  else if negb (asr_table_id a =? asr_table_id o) then false
  else if negb (asr_out_port a =? asr_out_port o) then false
  else true.

(** ** ofp_aggregate_stats *)

Record ofp_aggregate_stats := AggregateStats {
  as_packet_count : Z;
  as_byte_count : Z;
  as_flow_count : Z
}.
#[export] Instance ofp_aggregate_stats_eq_dec : EqDecision ofp_aggregate_stats.
Proof. solve_decision. Defined.

Definition ofp_aggregate_stats_init : ofp_aggregate_stats := AggregateStats 0 0 0.

Definition ofp_aggregate_stats_pack (assertstruct : bool) (m : ofp_aggregate_stats)
    : res (ofp_aggregate_stats * option bytes) :=
  a ← struct_pack "!QQL" [as_packet_count m; as_byte_count m; as_flow_count m];
  Ok (m, Some (a ++ replicate 4 x00)).

Definition ofp_aggregate_stats_unpack (m : ofp_aggregate_stats) (b : bytes)
    : res (ofp_aggregate_stats * bytes) :=
  if zlen b <? 24 then Ok (m, b)
  else
    tuple [packet_count; byte_count; flow_count] ← struct_unpack_from "!QQL" b 0;
    Ok (AggregateStats packet_count byte_count flow_count, slice_from b 24).

Definition ofp_aggregate_stats_len (m : ofp_aggregate_stats) : Z := 24.

Definition ofp_aggregate_stats_eq (a o : ofp_aggregate_stats) : bool :=
  if negb (as_packet_count a =? as_packet_count o) then false
  else if negb (as_byte_count a =? as_byte_count o) then false
  else if negb (as_flow_count a =? as_flow_count o) then false
  else true.

(** ** ofp_table_stats *)

Record ofp_table_stats := TableStats {
  ts_table_id : Z;
  ts_name : bytes;
  ts_wildcards : Z;
  ts_max_entries : Z;
  ts_active_count : Z;
  ts_lookup_count : Z;
  ts_matched_count : Z
}.
#[export] Instance ofp_table_stats_eq_dec : EqDecision ofp_table_stats.
Proof. solve_decision. Defined.

Definition ofp_table_stats_init : ofp_table_stats := TableStats 0 [] 0 0 0 0 0.

Definition ofp_table_stats_assert (m : ofp_table_stats) : bool :=
  if 32 <? zlen (ts_name m) then false else true.

Definition ofp_table_stats_pack (assertstruct : bool) (m : ofp_table_stats)
    : res (ofp_table_stats * option bytes) :=
  if assertstruct && negb (ofp_table_stats_assert m) then Ok (m, None)
  else
    a ← struct_pack "!B" [ts_table_id m];
    c ← struct_pack "!LLLQQ" [ts_wildcards m; ts_max_entries m; ts_active_count m;
      ts_lookup_count m; ts_matched_count m];
    Ok (m, Some (a ++ replicate 3 x00 ++ ljust0 (ts_name m) 32 ++ c)).

Definition ofp_table_stats_unpack (m : ofp_table_stats) (b : bytes)
    : res (ofp_table_stats * bytes) :=
  if zlen b <? 64 then Ok (m, b)
  else
    tuple [table_id] ← struct_unpack_from "!B" b 0;
    let name := strip0 (slice b 4 36) in
    tuple [wildcards; max_entries; active_count; lookup_count; matched_count] ←
      struct_unpack_from "!LLLQQ" b 36;
    Ok (TableStats table_id name wildcards max_entries active_count lookup_count matched_count,
      slice_from b 64).

Definition ofp_table_stats_len (m : ofp_table_stats) : Z := 64.

Definition ofp_table_stats_eq (a o : ofp_table_stats) : bool :=
  if negb (ts_table_id a =? ts_table_id o) then false
  else if negb (bool_decide (ts_name a = ts_name o)) then false
  else if negb (ts_wildcards a =? ts_wildcards o) then false
  else if negb (ts_max_entries a =? ts_max_entries o) then false
  else if negb (ts_active_count a =? ts_active_count o) then false
  else if negb (ts_lookup_count a =? ts_lookup_count o) then false
  else if negb (ts_matched_count a =? ts_matched_count o) then false
  else true.

(** ** ofp_port_stats_request *)

Record ofp_port_stats_request := PortStatsRequest {
  psr_port_no : Z
}.
#[export] Instance ofp_port_stats_request_eq_dec : EqDecision ofp_port_stats_request.
Proof. solve_decision. Defined.

Definition ofp_port_stats_request_init : ofp_port_stats_request := PortStatsRequest 0.

Definition ofp_port_stats_request_pack (assertstruct : bool) (m : ofp_port_stats_request)
    : res (ofp_port_stats_request * option bytes) :=
  a ← struct_pack "!H" [psr_port_no m];
  Ok (m, Some (a ++ replicate 6 x00)).

Definition ofp_port_stats_request_unpack (m : ofp_port_stats_request) (b : bytes)
    : res (ofp_port_stats_request * bytes) :=
  if zlen b <? 8 then Ok (m, b)
  else
    tuple [port_no] ← struct_unpack_from "!H" b 0;
    Ok (PortStatsRequest port_no, slice_from b 8).

Definition ofp_port_stats_request_len (m : ofp_port_stats_request) : Z := 8.

Definition ofp_port_stats_request_eq (a o : ofp_port_stats_request) : bool :=
  if negb (psr_port_no a =? psr_port_no o) then false
  else true.

(** ** ofp_port_stats *)

Record ofp_port_stats := PortStats {
  ps_port_no : Z;
  ps_rx_packets : Z;
  ps_tx_packets : Z;
  ps_rx_bytes : Z;
  ps_tx_bytes : Z;
  ps_rx_dropped : Z;
  ps_tx_dropped : Z;
  ps_rx_errors : Z;
  ps_tx_errors : Z;
  ps_rx_frame_err : Z;
  ps_rx_over_err : Z;
  ps_rx_crc_err : Z;
  ps_collisions : Z
}.
#[export] Instance ofp_port_stats_eq_dec : EqDecision ofp_port_stats.
Proof. solve_decision. Defined.

Definition ofp_port_stats_init : ofp_port_stats := PortStats 0 0 0 0 0 0 0 0 0 0 0 0 0.

Definition ofp_port_stats_pack (assertstruct : bool) (m : ofp_port_stats)
    : res (ofp_port_stats * option bytes) :=
  a ← struct_pack "!H" [ps_port_no m];
  c ← struct_pack "!QQQQQQQQQQQQ" [ps_rx_packets m; ps_tx_packets m; ps_rx_bytes m; ps_tx_bytes
    m; ps_rx_dropped m; ps_tx_dropped m; ps_rx_errors m; ps_tx_errors m; ps_rx_frame_err m;
    ps_rx_over_err m; ps_rx_crc_err m; ps_collisions m];
  Ok (m, Some (a ++ replicate 6 x00 ++ c)).

Definition ofp_port_stats_unpack (m : ofp_port_stats) (b : bytes)
    : res (ofp_port_stats * bytes) :=
  if zlen b <? 104 then Ok (m, b)
  else
    tuple [port_no] ← struct_unpack_from "!H" b 0;
    tuple [rx_packets; tx_packets; rx_bytes; tx_bytes; rx_dropped; tx_dropped; rx_errors;
      tx_errors; rx_frame_err; rx_over_err; rx_crc_err; collisions] ← struct_unpack_from
      "!QQQQQQQQQQQQ" b 8;
    Ok (PortStats port_no rx_packets tx_packets rx_bytes tx_bytes rx_dropped tx_dropped
      rx_errors tx_errors rx_frame_err rx_over_err rx_crc_err collisions, slice_from b 104).

Definition ofp_port_stats_len (m : ofp_port_stats) : Z := 104.

Definition ofp_port_stats_eq (a o : ofp_port_stats) : bool :=
  if negb (ps_port_no a =? ps_port_no o) then false
  else if negb (ps_rx_packets a =? ps_rx_packets o) then false
  else if negb (ps_tx_packets a =? ps_tx_packets o) then false
  else if negb (ps_rx_bytes a =? ps_rx_bytes o) then false
  else if negb (ps_tx_bytes a =? ps_tx_bytes o) then false
  else if negb (ps_rx_dropped a =? ps_rx_dropped o) then false
  else if negb (ps_tx_dropped a =? ps_tx_dropped o) then false
  else if negb (ps_rx_errors a =? ps_rx_errors o) then false
  else if negb (ps_tx_errors a =? ps_tx_errors o) then false
  else if negb (ps_rx_frame_err a =? ps_rx_frame_err o) then false
  else if negb (ps_rx_over_err a =? ps_rx_over_err o) then false
  else if negb (ps_rx_crc_err a =? ps_rx_crc_err o) then false
  else if negb (ps_collisions a =? ps_collisions o) then false
  else true.

(** [__add__]: the sum belongs to no port. *)
Definition ofp_port_stats_add (a o : ofp_port_stats) : ofp_port_stats :=
  PortStats OFPP_NONE (ps_rx_packets a + ps_rx_packets o) (ps_tx_packets a + ps_tx_packets o)
    (ps_rx_bytes a + ps_rx_bytes o) (ps_tx_bytes a + ps_tx_bytes o) (ps_rx_dropped a +
    ps_rx_dropped o) (ps_tx_dropped a + ps_tx_dropped o) (ps_rx_errors a + ps_rx_errors o)
    (ps_tx_errors a + ps_tx_errors o) (ps_rx_frame_err a + ps_rx_frame_err o) (ps_rx_over_err a
    + ps_rx_over_err o) (ps_rx_crc_err a + ps_rx_crc_err o) (ps_collisions a + ps_collisions o).

(** ** ofp_queue_stats_request *)

Record ofp_queue_stats_request := QueueStatsRequest {
  qsr_port_no : Z;
  qsr_queue_id : Z
}.
#[export] Instance ofp_queue_stats_request_eq_dec : EqDecision ofp_queue_stats_request.
Proof. solve_decision. Defined.

Definition ofp_queue_stats_request_init : ofp_queue_stats_request := QueueStatsRequest 0 0.

Definition ofp_queue_stats_request_pack (assertstruct : bool) (m : ofp_queue_stats_request)
    : res (ofp_queue_stats_request * option bytes) :=
  a ← struct_pack "!H" [qsr_port_no m];
  c ← struct_pack "!L" [qsr_queue_id m];
  Ok (m, Some (a ++ replicate 2 x00 ++ c)).

Definition ofp_queue_stats_request_unpack (m : ofp_queue_stats_request) (b : bytes)
    : res (ofp_queue_stats_request * bytes) :=
  if zlen b <? 8 then Ok (m, b)
  else
    tuple [port_no] ← struct_unpack_from "!H" b 0;
    tuple [queue_id] ← struct_unpack_from "!L" b 4;
    Ok (QueueStatsRequest port_no queue_id, slice_from b 8).

Definition ofp_queue_stats_request_len (m : ofp_queue_stats_request) : Z := 8.

Definition ofp_queue_stats_request_eq (a o : ofp_queue_stats_request) : bool :=
  if negb (qsr_port_no a =? qsr_port_no o) then false
  else if negb (qsr_queue_id a =? qsr_queue_id o) then false
  else true.

(** ** ofp_queue_stats *)

Record ofp_queue_stats := QueueStats {
  qs_port_no : Z;
  qs_queue_id : Z;
  qs_tx_bytes : Z;
  qs_tx_packets : Z;
  qs_tx_errors : Z
}.
#[export] Instance ofp_queue_stats_eq_dec : EqDecision ofp_queue_stats.
Proof. solve_decision. Defined.

Definition ofp_queue_stats_init : ofp_queue_stats := QueueStats 0 0 0 0 0.

Definition ofp_queue_stats_pack (assertstruct : bool) (m : ofp_queue_stats)
    : res (ofp_queue_stats * option bytes) :=
  a ← struct_pack "!H" [qs_port_no m];
  c ← struct_pack "!LQQQ" [qs_queue_id m; qs_tx_bytes m; qs_tx_packets m; qs_tx_errors m];
  Ok (m, Some (a ++ replicate 2 x00 ++ c)).

Definition ofp_queue_stats_unpack (m : ofp_queue_stats) (b : bytes)
    : res (ofp_queue_stats * bytes) :=
  if zlen b <? 32 then Ok (m, b)
  else
    tuple [port_no] ← struct_unpack_from "!H" b 0;
    tuple [queue_id; tx_bytes; tx_packets; tx_errors] ← struct_unpack_from "!LQQQ" b 4;
    Ok (QueueStats port_no queue_id tx_bytes tx_packets tx_errors, slice_from b 32).

Definition ofp_queue_stats_len (m : ofp_queue_stats) : Z := 32.

Definition ofp_queue_stats_eq (a o : ofp_queue_stats) : bool :=
  if negb (qs_port_no a =? qs_port_no o) then false
  else if negb (qs_queue_id a =? qs_queue_id o) then false
  else if negb (qs_tx_bytes a =? qs_tx_bytes o) then false
  else if negb (qs_tx_packets a =? qs_tx_packets o) then false
  else if negb (qs_tx_errors a =? qs_tx_errors o) then false
  else true.

(** ** ofp_flow_stats_request *)

Record ofp_flow_stats_request := FlowStatsRequest {
  fsr_match : ofp_match;
  fsr_table_id : Z;
  fsr_out_port : Z
}.
#[export] Instance ofp_flow_stats_request_eq_dec : EqDecision ofp_flow_stats_request.
Proof. solve_decision. Defined.

Definition ofp_flow_stats_request_init : ofp_flow_stats_request :=
  FlowStatsRequest ofp_match_init TABLE_ALL OFPP_NONE.

Definition ofp_flow_stats_request_pack (assertstruct : bool) (m : ofp_flow_stats_request)
    : res (ofp_flow_stats_request * option bytes) :=
  a ← ofp_match_pack true false (fsr_match m);
  c ← struct_pack "!BBH" [fsr_table_id m; 0; fsr_out_port m];
  Ok (m, Some (a ++ c)).

Definition ofp_flow_stats_request_len (m : ofp_flow_stats_request) : Z :=
  4 + ofp_match_len (fsr_match m).

(** The last line indexes the buffer instead of slicing it: the result is the one
    byte after the request, and an IndexError when there is none. *)
Definition ofp_flow_stats_request_unpack (m : ofp_flow_stats_request) (b : bytes)
    : res (ofp_flow_stats_request * bytes) :=
  if zlen b <? 44 then Ok (m, b)
  else
    '(match_, _) ← ofp_match_unpack false (fsr_match m) (slice_from b 0);
    tuple [table_id; _; out_port] ← struct_unpack_from "!BBH" b (ofp_match_len match_);
    let m := FlowStatsRequest match_ table_id out_port in
    match b !! Z.to_nat (ofp_flow_stats_request_len m) with
    | Some c => Ok (m, [c])
    | None => Err IndexError
    end.

Definition ofp_flow_stats_request_eq (a o : ofp_flow_stats_request) : bool :=
  if negb (ofp_match_eq (fsr_match a) (fsr_match o)) then false
  else if negb (fsr_table_id a =? fsr_table_id o) then false
  else if negb (fsr_out_port a =? fsr_out_port o) then false
  else true.

(** ** ofp_flow_stats *)

Record ofp_flow_stats := FlowStats {
  fs_length : Z;
  fs_table_id : Z;
  fs_match : ofp_match;
  fs_duration_sec : Z;
  fs_duration_nsec : Z;
  fs_priority : Z;
  fs_idle_timeout : Z;
  fs_hard_timeout : Z;
  fs_cookie : Z;
  fs_packet_count : Z;
  fs_byte_count : Z;
  fs_actions : list action
}.
#[export] Instance ofp_flow_stats_eq_dec : EqDecision ofp_flow_stats.
Proof. solve_decision. Defined.

Definition ofp_flow_stats_init : ofp_flow_stats :=
  FlowStats 0 0 ofp_match_init 0 0 OFP_DEFAULT_PRIORITY 0 0 0 0 0 [].

Definition ofp_flow_stats_pack (assertstruct : bool) (m : ofp_flow_stats)
    : res (ofp_flow_stats * option bytes) :=
  a ← struct_pack "!HBB" [fs_length m; fs_table_id m; 0];
  x ← ofp_match_pack true false (fs_match m);
  c ← struct_pack "!LLHHH" [fs_duration_sec m; fs_duration_nsec m; fs_priority m;
                            fs_idle_timeout m; fs_hard_timeout m];
  d ← struct_pack "!QQQ" [fs_cookie m; fs_packet_count m; fs_byte_count m];
  '(l, packed) ← pack_list assertstruct (a ++ x ++ c ++ replicate 6 x00 ++ d) (fs_actions m);
  Ok (FlowStats (fs_length m) (fs_table_id m) (fs_match m) (fs_duration_sec m)
        (fs_duration_nsec m) (fs_priority m) (fs_idle_timeout m) (fs_hard_timeout m)
        (fs_cookie m) (fs_packet_count m) (fs_byte_count m) l, Some packed).

Definition ofp_flow_stats_len (m : ofp_flow_stats) : Z :=
  len_list (48 + ofp_match_len (fs_match m)) (fs_actions m).

Definition ofp_flow_stats_unpack (m : ofp_flow_stats) (b : bytes)
    : res (ofp_flow_stats * bytes) :=
  if zlen b <? 48 + ofp_match_len (fs_match m) then Ok (m, b)
  else
    tuple [length; table_id; _] ← struct_unpack_from "!HBB" b 0;
    '(match_, _) ← ofp_match_unpack false (fs_match m) (slice_from b 4);
    tuple [duration_sec; duration_nsec; priority; idle_timeout; hard_timeout]
      ← struct_unpack_from "!LLHHH" b (4 + ofp_match_len match_);
    tuple [cookie; packet_count; byte_count]
      ← struct_unpack_from "!QQQ" b (24 + ofp_match_len match_);
    '(actions, offset) ← unpack_actions b (length - (48 + ofp_match_len match_))
                           (48 + ofp_match_len match_);
    let m := FlowStats length table_id match_ duration_sec duration_nsec priority
               idle_timeout hard_timeout cookie packet_count byte_count actions in
    if negb (offset =? length) then Err AssertionError
    else if negb (length =? ofp_flow_stats_len m) then Err AssertionError
    else Ok (m, slice_from b offset).

Definition ofp_flow_stats_eq (a o : ofp_flow_stats) : bool :=
  if negb (fs_length a =? fs_length o) then false
  else if negb (fs_table_id a =? fs_table_id o) then false
  else if negb (ofp_match_eq (fs_match a) (fs_match o)) then false
  else if negb (fs_duration_sec a =? fs_duration_sec o) then false
  else if negb (fs_duration_nsec a =? fs_duration_nsec o) then false
  else if negb (fs_priority a =? fs_priority o) then false
  else if negb (fs_idle_timeout a =? fs_idle_timeout o) then false
  else if negb (fs_hard_timeout a =? fs_hard_timeout o) then false
  else if negb (fs_cookie a =? fs_cookie o) then false
  else if negb (fs_packet_count a =? fs_packet_count o) then false
  else if negb (fs_byte_count a =? fs_byte_count o) then false
  else if negb (list_eqb action_eq (fs_actions a) (fs_actions o)) then false
  else true.

(** * Laws *)

#[export] Instance ofp_desc_stats_wire : Wire ofp_desc_stats := {
  pack := ofp_desc_stats_pack; unpack := ofp_desc_stats_unpack; plen := ofp_desc_stats_len;
  wire_wf m := text_wf 256 (ds_mfr_desc m) /\ text_wf 256 (ds_hw_desc m) /\
    text_wf 256 (ds_sw_desc m) /\ text_wf 32 (ds_serial_num m) /\ text_wf 256 (ds_dp_desc m);
  same_class _ _ := True
}.
#[export] Instance ofp_aggregate_stats_wire : Wire ofp_aggregate_stats := {
  pack := ofp_aggregate_stats_pack; unpack := ofp_aggregate_stats_unpack;
  plen := ofp_aggregate_stats_len;
  wire_wf m := u64 (as_packet_count m) /\ u64 (as_byte_count m) /\ u32 (as_flow_count m);
  same_class _ _ := True
}.
#[export] Instance ofp_table_stats_wire : Wire ofp_table_stats := {
  pack := ofp_table_stats_pack; unpack := ofp_table_stats_unpack; plen := ofp_table_stats_len;
  wire_wf m := u8 (ts_table_id m) /\ text_wf 32 (ts_name m) /\ u32 (ts_wildcards m) /\
    u32 (ts_max_entries m) /\ u32 (ts_active_count m) /\ u64 (ts_lookup_count m) /\
    u64 (ts_matched_count m);
  same_class _ _ := True
}.
#[export] Instance ofp_port_stats_request_wire : Wire ofp_port_stats_request := {
  pack := ofp_port_stats_request_pack; unpack := ofp_port_stats_request_unpack;
  plen := ofp_port_stats_request_len;
  wire_wf m := u16 (psr_port_no m);
  same_class _ _ := True
}.
#[export] Instance ofp_port_stats_wire : Wire ofp_port_stats := {
  pack := ofp_port_stats_pack; unpack := ofp_port_stats_unpack; plen := ofp_port_stats_len;
  wire_wf m := u16 (ps_port_no m) /\ u64 (ps_rx_packets m) /\ u64 (ps_tx_packets m) /\
    u64 (ps_rx_bytes m) /\ u64 (ps_tx_bytes m) /\ u64 (ps_rx_dropped m) /\
    u64 (ps_tx_dropped m) /\ u64 (ps_rx_errors m) /\ u64 (ps_tx_errors m) /\
    u64 (ps_rx_frame_err m) /\ u64 (ps_rx_over_err m) /\ u64 (ps_rx_crc_err m) /\
    u64 (ps_collisions m);
  same_class _ _ := True
}.
#[export] Instance ofp_queue_stats_request_wire : Wire ofp_queue_stats_request := {
  pack := ofp_queue_stats_request_pack; unpack := ofp_queue_stats_request_unpack;
  plen := ofp_queue_stats_request_len;
  wire_wf m := u16 (qsr_port_no m) /\ u32 (qsr_queue_id m);
  same_class _ _ := True
}.
#[export] Instance ofp_queue_stats_wire : Wire ofp_queue_stats := {
  pack := ofp_queue_stats_pack; unpack := ofp_queue_stats_unpack; plen := ofp_queue_stats_len;
  wire_wf m := u16 (qs_port_no m) /\ u32 (qs_queue_id m) /\ u64 (qs_tx_bytes m) /\
    u64 (qs_tx_packets m) /\ u64 (qs_tx_errors m);
  same_class _ _ := True
}.

(** Structures whose fields are all integers. *)
Ltac int_laws P U :=
  constructor; intros x Hwf; pose proof Hwf as Hwf'; destruct x; simpl in Hwf';
  match goal with |- context [pack ?b ?m] => change (pack b m) with (P b m) end;
  unfold P; cbn -[replicate]; pack_tac;
  do 2 eexists; (split; [reflexivity|]); (split; [exact Hwf|]); (split; [len_tac|]);
  intros y rest _; unfold U; read_tac; reflexivity.

#[export] Instance ofp_aggregate_stats_laws : WireLaws ofp_aggregate_stats.
Proof. int_laws ofp_aggregate_stats_pack ofp_aggregate_stats_unpack. Qed.
#[export] Instance ofp_port_stats_request_laws : WireLaws ofp_port_stats_request.
Proof. int_laws ofp_port_stats_request_pack ofp_port_stats_request_unpack. Qed.
#[export] Instance ofp_port_stats_laws : WireLaws ofp_port_stats.
Proof. int_laws ofp_port_stats_pack ofp_port_stats_unpack. Qed.
#[export] Instance ofp_queue_stats_request_laws : WireLaws ofp_queue_stats_request.
Proof. int_laws ofp_queue_stats_request_pack ofp_queue_stats_request_unpack. Qed.
#[export] Instance ofp_queue_stats_laws : WireLaws ofp_queue_stats.
Proof. int_laws ofp_queue_stats_pack ofp_queue_stats_unpack. Qed.

Lemma text_le n s : text_wf n s -> (Z.of_nat n <? zlen s) = false.
Proof. intros [H _]. apply Z.ltb_ge. unfold zlen. lia. Qed.

#[export] Instance ofp_table_stats_laws : WireLaws ofp_table_stats.
Proof.
  constructor. intros [t n w me ac lc mc] Hwf. pose proof Hwf as (H1 & Hn & H2). simpl in *.
  unfold ofp_table_stats_pack, ofp_table_stats_assert. cbn -[replicate ljust0 Z.ltb].
  pose proof (text_le 32 n Hn) as E. change (Z.of_nat 32) with 32 in E. rewrite E. cbn [negb].
  pose proof (text_zlen 32 n Hn) as Ln. change (Z.of_nat 32) with 32 in Ln.
  pack_tac. do 2 eexists. split; [reflexivity|]. split; [exact Hwf|]. split; [len_tac|].
  intros y rest _. unfold ofp_table_stats_unpack. read_tac.
  rewrite (text_strip 32 n Hn). by repeat read_step.
Qed.

#[export] Instance ofp_desc_stats_laws : WireLaws ofp_desc_stats.
Proof.
  constructor. intros [a c d e f] Hwf. pose proof Hwf as (Ha & Hc & Hd & He & Hf). simpl in *.
  unfold ofp_desc_stats_pack, ofp_desc_stats_assert. cbn [ds_mfr_desc ds_hw_desc ds_sw_desc
    ds_serial_num ds_dp_desc].
  assert (forall n s, text_wf n s -> (Z.of_nat n <? zlen s) = false) as T by apply text_le.
  pose proof (T _ _ Ha) as Ta. pose proof (T _ _ Hc) as Tc. pose proof (T _ _ Hd) as Td.
  pose proof (T _ _ He) as Te. pose proof (T _ _ Hf) as Tf.
  change (Z.of_nat 256) with 256 in *. change (Z.of_nat 32) with 32 in *.
  rewrite Ta, Tc, Td, Te, Tf. cbn [negb andb].
  pose proof (text_zlen _ _ Ha) as La. pose proof (text_zlen _ _ Hc) as Lc.
  pose proof (text_zlen _ _ Hd) as Ld. pose proof (text_zlen _ _ He) as Le.
  pose proof (text_zlen _ _ Hf) as Lf. change (Z.of_nat 256) with 256 in *.
  change (Z.of_nat 32) with 32 in *.
  do 2 eexists. split; [reflexivity|]. split; [exact Hwf|]. split; [len_tac|].
  intros y rest _. unfold ofp_desc_stats_unpack. read_tac.
  rewrite !text_strip by done. by repeat read_step.
Qed.

#[export] Instance ofp_flow_stats_wire : Wire ofp_flow_stats := {
  pack := ofp_flow_stats_pack; unpack := ofp_flow_stats_unpack; plen := ofp_flow_stats_len;
  wire_wf m := u16 (fs_length m) /\ fs_length m = ofp_flow_stats_len m /\ u8 (fs_table_id m) /\
    match_wf (fs_match m) /\ wire_view false (fs_match m) = fs_match m /\
    u32 (fs_duration_sec m) /\ u32 (fs_duration_nsec m) /\ u16 (fs_priority m) /\
    u16 (fs_idle_timeout m) /\ u16 (fs_hard_timeout m) /\ u64 (fs_cookie m) /\
    u64 (fs_packet_count m) /\ u64 (fs_byte_count m) /\ Forall action_wf (fs_actions m);
  same_class _ _ := True
}.
#[export] Instance ofp_flow_stats_laws : WireLaws ofp_flow_stats.
Proof.
  constructor. intros [l t m ds dn pr it ht ck pc bc acts] Hwf.
  pose proof Hwf as (H1 & Hl & H2 & Hm & Hv & H3 & H4 & H5 & H6 & H7 & H8 & H9 & H10 & Ha). simpl in *.
  destruct (ofp_match_pack_view _ false Hm) as (x & Ex & Lx & Ux).
  unfold ofp_flow_stats_pack. cbn [fs_length fs_table_id fs_match fs_duration_sec fs_duration_nsec fs_priority
    fs_idle_timeout fs_hard_timeout fs_cookie fs_packet_count fs_byte_count fs_actions].
  pack_tac. rewrite Ex. cbn [mbind res_bind]. pack_tac.
  set (p := _ ++ x ++ _).
  assert (zlen p = 88) as Lp by (unfold p; len_tac).
  destruct (pack_actions_ok acts p Ha) as (u & Eu & Iu). rewrite Eu. cbn [mbind res_bind].
  assert (48 + 40 + zlen u = l) as Lall.
  { rewrite Hl. unfold ofp_flow_stats_len, ofp_match_len. cbn [fs_match fs_actions].
    by rewrite len_list_acc, (actions_image_total _ _ Iu), settle_len_list. }
  assert (l = ofp_flow_stats_len (FlowStats l t m ds dn pr it ht ck pc bc (action_settle <$> acts))) as Hl'.
  { rewrite Hl at 1. unfold ofp_flow_stats_len, ofp_match_len. cbn [fs_match fs_actions].
    by rewrite settle_len_list. }
  assert (Forall action_wf (action_settle <$> acts)) as Ha'.
  { apply Forall_fmap. eapply Forall_impl; [exact Ha|]. apply settle_wf. }
  do 2 eexists. split; [reflexivity|]. split.
  { exact (conj H1 (conj Hl' (conj H2 (conj Hm (conj Hv (conj H3 (conj H4 (conj H5 (conj H6 (conj H7 (conj H8 (conj H9 (conj H10 Ha'))))))))))))). }
  split.
  { cbn [plen ofp_flow_stats_wire]. rewrite <-Hl', zlen_app, Lp. lia. }
  intros y rest _. unfold ofp_flow_stats_unpack, ofp_match_len. rewrite <-app_assoc.
  rewrite (proj2 (Z.ltb_ge _ _)) by
    (rewrite !zlen_app; pose proof (zlen_nonneg u); pose proof (zlen_nonneg rest); lia).
  unfold p. rewrite <-!app_assoc. repeat read_step. rewrite Ux, Hv. cbn [mbind res_bind].
  change (4 + 40) with 44. change (24 + 40) with 64. repeat read_step.
  change (44 - 4 - 40) with 0. repeat read_step. change (64 - 4 - 40 - 14 - 6) with 0. repeat read_step.
  pose proof (unpack_actions_read _ u p rest Iu) as R. unfold p in R at 1. rewrite <-!app_assoc, Lp in R.
  change (48 + 40) with 88 in *. replace (l - 88) with (zlen u) by lia. rewrite R. cbn [mbind res_bind].
  replace (88 + zlen u) with l by lia. rewrite Z.eqb_refl, <-Hl', Z.eqb_refl. cbn [negb].
  assert (slice_from (p ++ u ++ rest) l = rest) as Er by (apply (slice_from_tail _ _ _ 88); lia).
  unfold p in Er. rewrite <-!app_assoc in Er. by rewrite Er.
Qed.

(** The two requests that carry a match. *)
Lemma ofp_aggregate_stats_request_ok x : match_wf (asr_match x) -> u8 (asr_table_id x) ->
  u16 (asr_out_port x) ->
  exists s, ofp_aggregate_stats_request_pack true x = Ok (x, Some s) /\ zlen s = 44 /\
    forall y rest, ofp_aggregate_stats_request_unpack y (s ++ rest) =
      Ok (AggregateStatsRequest (wire_view false (asr_match x)) (asr_table_id x) (asr_out_port x), rest).
Proof.
  intros Hm Ht Ho. destruct (ofp_match_pack_view _ false Hm) as (a & Ea & La & Ua).
  unfold ofp_aggregate_stats_request_pack. rewrite Ea. cbn [mbind res_bind]. pack_tac.
  eexists. split; [reflexivity|]. split; [len_tac|]. intros y rest.
  unfold ofp_aggregate_stats_request_unpack, ofp_match_len. rewrite <-app_assoc. change (4 + 40) with 44.
  guard_tac. repeat read_step. rewrite Ua. cbn [mbind res_bind]. by repeat read_step.
Qed.

(** [ofp_flow_stats_request.unpack] never succeeds on its own bytes: it indexes the
    byte after them where it should return the rest.  When more bytes follow it reads the
    fields right, but answers with a single byte. *)
Theorem ofp_flow_stats_request_unpack_rest x : match_wf (fsr_match x) -> u8 (fsr_table_id x) ->
  u16 (fsr_out_port x) ->
  exists s, ofp_flow_stats_request_pack true x = Ok (x, Some s) /\ zlen s = 44 /\
    forall y, ofp_flow_stats_request_unpack y s = Err IndexError /\
    forall c rest, ofp_flow_stats_request_unpack y (s ++ c :: rest) =
      Ok (FlowStatsRequest (wire_view false (fsr_match x)) (fsr_table_id x) (fsr_out_port x), [c]).
Proof.
  intros Hm Ht Ho. destruct (ofp_match_pack_view _ false Hm) as (a & Ea & La & Ua).
  unfold ofp_flow_stats_request_pack. rewrite Ea. cbn [mbind res_bind]. pack_tac.
  eexists. split; [reflexivity|]. assert (zlen (a ++ s) = 44) as Las by len_tac. split; [done|].
  intros y.
  assert (forall rest, ofp_flow_stats_request_unpack y ((a ++ s) ++ rest) =
    match rest with
    | c :: _ => Ok (FlowStatsRequest (wire_view false (fsr_match x)) (fsr_table_id x) (fsr_out_port x), [c])
    | [] => Err IndexError
    end) as H.
  { intros rest. unfold ofp_flow_stats_request_unpack, ofp_flow_stats_request_len, ofp_match_len.
    rewrite <-app_assoc. guard_tac. repeat read_step. rewrite Ua. cbn [mbind res_bind].
    repeat read_step. rewrite app_assoc. change (Z.to_nat (4 + 40)) with 44%nat.
    rewrite lookup_app_r by (unfold zlen in Las; lia).
    replace (44 - length (a ++ s))%nat with 0%nat by (unfold zlen in Las; lia).
    by destruct rest. }
  split.
  - rewrite <-(app_nil_r (a ++ s)). apply H.
  - intros c rest. apply (H (c :: rest)).
Qed.

(** The description of a switch survives the wire when its texts fit their fields and
    hold no NUL. *)
Theorem ofp_desc_stats_roundtrip m : wire_wf m ->
  exists s, ofp_desc_stats_pack true m = Ok (m, Some s) /\ zlen s = 1056 /\
    forall y rest, ofp_desc_stats_unpack y (s ++ rest) = Ok (m, rest).
Proof.
  intros Hw. destruct (pack_unpack m Hw) as (m' & s & E & _ & L & U).
  assert (m' = m) as ->.
  { cbn in E. unfold ofp_desc_stats_pack in E. destruct (_ && _); [done|]. by injection E. }
  exists s. split; [done|]. split; [done|]. intros y rest. by apply U.
Qed.

Lemma ofp_desc_stats_roundtrip_witness :
  let m := DescStats (lit "Stanford") (lit "none") (lit "POX") (lit "1") (lit "switch") in
  exists s, ofp_desc_stats_pack true m = Ok (m, Some s) /\ zlen s = 1056 /\
    forall y rest, ofp_desc_stats_unpack y (s ++ rest) = Ok (m, rest).
Proof.
  apply ofp_desc_stats_roundtrip. cbn [wire_wf ofp_desc_stats_wire].
  split_and!; (split; [vm_compute; lia|]); intros Hin; apply list_elem_of_In in Hin; vm_compute in Hin;
    repeat destruct Hin as [Hin|Hin]; done.
Defined.

Lemma ofp_flow_stats_request_unpack_rest_witness :
  let x := FlowStatsRequest http_match 255 OFPP_NONE in
  exists s, ofp_flow_stats_request_pack true x = Ok (x, Some s) /\ zlen s = 44 /\
    forall y, ofp_flow_stats_request_unpack y s = Err IndexError /\
    forall c rest, ofp_flow_stats_request_unpack y (s ++ c :: rest) =
      Ok (FlowStatsRequest (wire_view false http_match) 255 OFPP_NONE, [c]).
Proof.
  apply (ofp_flow_stats_request_unpack_rest (FlowStatsRequest http_match 255 OFPP_NONE));
    [|split; [discriminate|reflexivity]|split; [discriminate|reflexivity]].
  vm_compute. repeat split; discriminate.
Defined.
