(* ===== verification/OfMessages.v ===== *)
(** [libopenflow_01.py], part 5: the messages - the classes derived from
    [ofp_header].  [pack] runs in the state of the transaction id generator and
    may change the message (its length, its xid), so it returns the new object. *)
From S2P Require Import Prelude.
From S2P Require Import PyStruct.
From S2P Require Import Addresses.
From S2P Require Import OfConst.
From S2P Require Import Wire.
From S2P Require Import OfBase.
From S2P Require Import OfMatch.
From S2P Require Import MatchTheory.
From S2P Require Import OfActions.

(** * The message classes *)

(** ** ofp_switch_config *)

Record ofp_switch_config := SwitchConfig {
  sc_hdr : ofp_header;
  sc_flags : Z;
  sc_miss_send_len : Z
}.
#[export] Instance ofp_switch_config_eq_dec : EqDecision ofp_switch_config.
Proof. solve_decision. Defined.

Definition ofp_switch_config_init : ofp_switch_config := SwitchConfig (Hdr OFP_VERSION
  OFPT_SET_CONFIG 12 None) 0 OFP_DEFAULT_MISS_SEND_LEN.

Definition ofp_switch_config_pack (assertstruct : bool) (m : ofp_switch_config)
    : M Z (ofp_switch_config * option bytes) :=
  '(h, p) ← ofp_header_pack (sc_hdr m);
  a ← lift (struct_pack "!HH" [sc_flags m; sc_miss_send_len m]);
  mret (SwitchConfig h (sc_flags m) (sc_miss_send_len m), Some (p ++ a)).

Definition ofp_switch_config_unpack (m : ofp_switch_config) (b : bytes)
    : res (ofp_switch_config * bytes) :=
  if zlen b <? 12 then Ok (m, b)
  else
    '(h, _) ← ofp_header_unpack (sc_hdr m) (slice_from b 0);
    tuple [flags; miss_send_len] ← struct_unpack_from "!HH" b 8;
    Ok (SwitchConfig h flags miss_send_len, slice_from b 12).

Definition ofp_switch_config_len (m : ofp_switch_config) : Z := 12.

Definition ofp_switch_config_eq (a o : ofp_switch_config) : bool :=
  if negb (ofp_header_eq (sc_hdr a) (sc_hdr o)) then false
  else if negb (sc_flags a =? sc_flags o) then false
  else if negb (sc_miss_send_len a =? sc_miss_send_len o) then false
  else true.

(** ** ofp_port_mod *)

Record ofp_port_mod := PortMod {
  pm_hdr : ofp_header;
  pm_port_no : Z;
  pm_hw_addr : hwaddr;
  pm_config : Z;
  pm_mask : Z;
  pm_advertise : Z
}.
#[export] Instance ofp_port_mod_eq_dec : EqDecision ofp_port_mod.
Proof. solve_decision. Defined.

Definition ofp_port_mod_init : ofp_port_mod := PortMod (Hdr OFP_VERSION OFPT_PORT_MOD 32 None) 0
  (HwEth EMPTY_ETH) 0 0 0.

Definition ofp_port_mod_assert (m : ofp_port_mod) : bool :=
  hw_len (pm_hw_addr m) =? 6.

Definition ofp_port_mod_pack (assertstruct : bool) (m : ofp_port_mod)
    : M Z (ofp_port_mod * option bytes) :=
  if assertstruct && negb (ofp_port_mod_assert m) then mret (m, None)
  else
    '(h, p) ← ofp_header_pack (pm_hdr m);
    a ← lift (struct_pack "!H" [pm_port_no m]);
    c ← lift (struct_pack "!LLL" [pm_config m; pm_mask m; pm_advertise m]);
    mret (PortMod h (pm_port_no m) (pm_hw_addr m) (pm_config m) (pm_mask m) (pm_advertise m),
      Some (p ++ a ++ hw_raw (pm_hw_addr m) ++ c ++ replicate 4 x00)).

Definition ofp_port_mod_unpack (m : ofp_port_mod) (b : bytes)
    : res (ofp_port_mod * bytes) :=
  if zlen b <? 32 then Ok (m, b)
  else
    '(h, _) ← ofp_header_unpack (pm_hdr m) (slice_from b 0);
    tuple [port_no] ← struct_unpack_from "!H" b 8;
    hw_addr ← hw_of_bytes (slice b 10 16);
    tuple [config; mask; advertise] ← struct_unpack_from "!LLL" b 16;
    Ok (PortMod h port_no hw_addr config mask advertise, slice_from b 32).

Definition ofp_port_mod_len (m : ofp_port_mod) : Z := 32.

Definition ofp_port_mod_eq (a o : ofp_port_mod) : bool :=
  if negb (ofp_header_eq (pm_hdr a) (pm_hdr o)) then false
  else if negb (pm_port_no a =? pm_port_no o) then false
  else if negb (hw_eqb (Some (pm_hw_addr a)) (Some (pm_hw_addr o))) then false
  else if negb (pm_config a =? pm_config o) then false
  else if negb (pm_mask a =? pm_mask o) then false
  else if negb (pm_advertise a =? pm_advertise o) then false
  else true.

(** ** ofp_queue_get_config_request *)

Record ofp_queue_get_config_request := QueueGetConfigRequest {
  qgr_hdr : ofp_header;
  qgr_port : Z
}.
#[export] Instance ofp_queue_get_config_request_eq_dec : EqDecision ofp_queue_get_config_request.
Proof. solve_decision. Defined.

Definition ofp_queue_get_config_request_init : ofp_queue_get_config_request :=
  QueueGetConfigRequest (Hdr OFP_VERSION OFPT_QUEUE_GET_CONFIG_REQUEST 12 None) 0.

Definition ofp_queue_get_config_request_pack (assertstruct : bool) (m : ofp_queue_get_config_request)
    : M Z (ofp_queue_get_config_request * option bytes) :=
  '(h, p) ← ofp_header_pack (qgr_hdr m);
  a ← lift (struct_pack "!H" [qgr_port m]);
  mret (QueueGetConfigRequest h (qgr_port m), Some (p ++ a ++ replicate 2 x00)).

Definition ofp_queue_get_config_request_unpack (m : ofp_queue_get_config_request) (b : bytes)
    : res (ofp_queue_get_config_request * bytes) :=
  if zlen b <? 12 then Ok (m, b)
  else
    '(h, _) ← ofp_header_unpack (qgr_hdr m) (slice_from b 0);
    tuple [port] ← struct_unpack_from "!H" b 8;
    Ok (QueueGetConfigRequest h port, slice_from b 12).

Definition ofp_queue_get_config_request_len (m : ofp_queue_get_config_request) : Z := 12.

Definition ofp_queue_get_config_request_eq (a o : ofp_queue_get_config_request) : bool :=
  if negb (ofp_header_eq (qgr_hdr a) (qgr_hdr o)) then false
  else if negb (qgr_port a =? qgr_port o) then false
  else true.

(** ** ofp_barrier_reply *)

Record ofp_barrier_reply := BarrierReply {
  bp_hdr : ofp_header
}.
#[export] Instance ofp_barrier_reply_eq_dec : EqDecision ofp_barrier_reply.
Proof. solve_decision. Defined.

Definition ofp_barrier_reply_init : ofp_barrier_reply := BarrierReply (Hdr OFP_VERSION
  OFPT_BARRIER_REPLY 8 None).

Definition ofp_barrier_reply_pack (assertstruct : bool) (m : ofp_barrier_reply)
    : M Z (ofp_barrier_reply * option bytes) :=
  '(h, p) ← ofp_header_pack (bp_hdr m);
  mret (BarrierReply h, Some p).

Definition ofp_barrier_reply_unpack (m : ofp_barrier_reply) (b : bytes)
    : res (ofp_barrier_reply * bytes) :=
  if zlen b <? 8 then Ok (m, b)
  else
    '(h, _) ← ofp_header_unpack (bp_hdr m) (slice_from b 0);
    Ok (BarrierReply h, slice_from b 8).

Definition ofp_barrier_reply_len (m : ofp_barrier_reply) : Z := 8.

Definition ofp_barrier_reply_eq (a o : ofp_barrier_reply) : bool :=
  if negb (ofp_header_eq (bp_hdr a) (bp_hdr o)) then false
  else true.

(** ** ofp_barrier_request *)

Record ofp_barrier_request := BarrierRequest {
  bq_hdr : ofp_header
}.
#[export] Instance ofp_barrier_request_eq_dec : EqDecision ofp_barrier_request.
Proof. solve_decision. Defined.

Definition ofp_barrier_request_init : ofp_barrier_request := BarrierRequest (Hdr OFP_VERSION
  OFPT_BARRIER_REQUEST 8 None).

Definition ofp_barrier_request_pack (assertstruct : bool) (m : ofp_barrier_request)
    : M Z (ofp_barrier_request * option bytes) :=
  '(h, p) ← ofp_header_pack (bq_hdr m);
  mret (BarrierRequest h, Some p).

Definition ofp_barrier_request_unpack (m : ofp_barrier_request) (b : bytes)
    : res (ofp_barrier_request * bytes) :=
  if zlen b <? 8 then Ok (m, b)
  else
    '(h, _) ← ofp_header_unpack (bq_hdr m) (slice_from b 0);
    Ok (BarrierRequest h, slice_from b 8).

Definition ofp_barrier_request_len (m : ofp_barrier_request) : Z := 8.

Definition ofp_barrier_request_eq (a o : ofp_barrier_request) : bool :=
  if negb (ofp_header_eq (bq_hdr a) (bq_hdr o)) then false
  else true.

(** ** ofp_flow_removed *)

Record ofp_flow_removed := FlowRemoved {
  fr_hdr : ofp_header;
  fr_match : ofp_match;
  fr_cookie : Z;
  fr_priority : Z;
  fr_reason : Z;
  fr_duration_sec : Z;
  fr_duration_nsec : Z;
  fr_idle_timeout : Z;
  fr_packet_count : Z;
  fr_byte_count : Z
}.
#[export] Instance ofp_flow_removed_eq_dec : EqDecision ofp_flow_removed.
Proof. solve_decision. Defined.

Definition ofp_flow_removed_init : ofp_flow_removed := FlowRemoved (Hdr OFP_VERSION
  OFPT_FLOW_REMOVED 88 None) ofp_match_init 0 0 0 0 0 0 0 0.

Definition ofp_flow_removed_pack (assertstruct : bool) (m : ofp_flow_removed)
    : M Z (ofp_flow_removed * option bytes) :=
  '(h, p) ← ofp_header_pack (fr_hdr m);
  a ← lift (ofp_match_pack true false (fr_match m));
  c ← lift (struct_pack "!QHB" [fr_cookie m; fr_priority m; fr_reason m]);
  d ← lift (struct_pack "!LLH" [fr_duration_sec m; fr_duration_nsec m; fr_idle_timeout m]);
  e ← lift (struct_pack "!QQ" [fr_packet_count m; fr_byte_count m]);
  mret (FlowRemoved h (fr_match m) (fr_cookie m) (fr_priority m) (fr_reason m) (fr_duration_sec
    m) (fr_duration_nsec m) (fr_idle_timeout m) (fr_packet_count m) (fr_byte_count m), Some (p
    ++ a ++ c ++ replicate 1 x00 ++ d ++ replicate 2 x00 ++ e)).

Definition ofp_flow_removed_unpack (m : ofp_flow_removed) (b : bytes)
    : res (ofp_flow_removed * bytes) :=
  if zlen b <? 48 + ofp_match_len (fr_match m) then Ok (m, b)
  else
    '(h, _) ← ofp_header_unpack (fr_hdr m) (slice_from b 0);
    '(match_, _) ← ofp_match_unpack false (fr_match m) (slice_from b 8);
    tuple [cookie; priority; reason] ← struct_unpack_from "!QHB" b (8 + ofp_match_len match_);
    tuple [duration_sec; duration_nsec; idle_timeout] ← struct_unpack_from "!LLH" b (20 +
      ofp_match_len match_);
    tuple [packet_count; byte_count] ← struct_unpack_from "!QQ" b (32 + ofp_match_len match_);
    Ok (FlowRemoved h match_ cookie priority reason duration_sec duration_nsec idle_timeout
      packet_count byte_count, slice_from b (48 + ofp_match_len match_)).

Definition ofp_flow_removed_len (m : ofp_flow_removed) : Z := 48 + ofp_match_len (fr_match m).

Definition ofp_flow_removed_eq (a o : ofp_flow_removed) : bool :=
  if negb (ofp_header_eq (fr_hdr a) (fr_hdr o)) then false
  else if negb (ofp_match_eq (fr_match a) (fr_match o)) then false
  else if negb (fr_cookie a =? fr_cookie o) then false
  else if negb (fr_priority a =? fr_priority o) then false
  else if negb (fr_reason a =? fr_reason o) then false
  else if negb (fr_duration_sec a =? fr_duration_sec o) then false
  else if negb (fr_duration_nsec a =? fr_duration_nsec o) then false
  else if negb (fr_idle_timeout a =? fr_idle_timeout o) then false
  else if negb (fr_packet_count a =? fr_packet_count o) then false
  else if negb (fr_byte_count a =? fr_byte_count o) then false
  else true.

(** ** ofp_port_status *)

Record ofp_port_status := PortStatus {
  pst_hdr : ofp_header;
  pst_reason : Z;
  pst_desc : ofp_phy_port
}.
#[export] Instance ofp_port_status_eq_dec : EqDecision ofp_port_status.
Proof. solve_decision. Defined.

Definition ofp_port_status_init : ofp_port_status := PortStatus (Hdr OFP_VERSION
  OFPT_PORT_STATUS 64 None) 0 ofp_phy_port_init.

Definition ofp_port_status_pack (assertstruct : bool) (m : ofp_port_status)
    : M Z (ofp_port_status * option bytes) :=
  '(h, p) ← ofp_header_pack (pst_hdr m);
  a ← lift (struct_pack "!B" [pst_reason m]);
  '(d, s) ← lift (ofp_phy_port_pack true (pst_desc m));
  packed ← lift (append_opt (p ++ a ++ replicate 7 x00) s);
  mret (PortStatus h (pst_reason m) d, Some packed).

Definition ofp_port_status_unpack (m : ofp_port_status) (b : bytes)
    : res (ofp_port_status * bytes) :=
  if zlen b <? 64 then Ok (m, b)
  else
    '(h, _) ← ofp_header_unpack (pst_hdr m) (slice_from b 0);
    tuple [reason] ← struct_unpack_from "!B" b 8;
    '(desc, _) ← ofp_phy_port_unpack (pst_desc m) (slice_from b 16);
    Ok (PortStatus h reason desc, slice_from b 64).

Definition ofp_port_status_len (m : ofp_port_status) : Z := 64.

Definition ofp_port_status_eq (a o : ofp_port_status) : bool :=
  if negb (ofp_header_eq (pst_hdr a) (pst_hdr o)) then false
  else if negb (pst_reason a =? pst_reason o) then false
  else if negb (ofp_phy_port_eq (pst_desc a) (pst_desc o)) then false
  else true.

(** ** ofp_hello *)

Record ofp_hello := Hello {
  he_hdr : ofp_header
}.
#[export] Instance ofp_hello_eq_dec : EqDecision ofp_hello.
Proof. solve_decision. Defined.

Definition ofp_hello_init : ofp_hello := Hello (Hdr OFP_VERSION OFPT_HELLO 8 None).

Definition ofp_hello_pack (assertstruct : bool) (m : ofp_hello)
    : M Z (ofp_hello * option bytes) :=
  '(h, p) ← ofp_header_pack (he_hdr m);
  mret (Hello h, Some p).

Definition ofp_hello_unpack (m : ofp_hello) (b : bytes)
    : res (ofp_hello * bytes) :=
  if zlen b <? 8 then Ok (m, b)
  else
    '(h, _) ← ofp_header_unpack (he_hdr m) (slice_from b 0);
    Ok (Hello h, slice_from b 8).

Definition ofp_hello_len (m : ofp_hello) : Z := 8.

Definition ofp_hello_eq (a o : ofp_hello) : bool :=
  if negb (ofp_header_eq (he_hdr a) (he_hdr o)) then false
  else true.

(** ** ofp_vendor_header *)

Record ofp_vendor_header := VendorHeader {
  vh_hdr : ofp_header;
  vh_vendor : Z
}.
#[export] Instance ofp_vendor_header_eq_dec : EqDecision ofp_vendor_header.
Proof. solve_decision. Defined.

Definition ofp_vendor_header_init : ofp_vendor_header := VendorHeader (Hdr OFP_VERSION
  OFPT_VENDOR 8 None) 0.

Definition ofp_vendor_header_pack (assertstruct : bool) (m : ofp_vendor_header)
    : M Z (ofp_vendor_header * option bytes) :=
  '(h, p) ← ofp_header_pack (vh_hdr m);
  a ← lift (struct_pack "!L" [vh_vendor m]);
  mret (VendorHeader h (vh_vendor m), Some (p ++ a)).

Definition ofp_vendor_header_unpack (m : ofp_vendor_header) (b : bytes)
    : res (ofp_vendor_header * bytes) :=
  if zlen b <? 12 then Ok (m, b)
  else
    '(h, _) ← ofp_header_unpack (vh_hdr m) (slice_from b 0);
    tuple [vendor] ← struct_unpack_from "!L" b 8;
    Ok (VendorHeader h vendor, slice_from b 12).

Definition ofp_vendor_header_len (m : ofp_vendor_header) : Z := 12.

Definition ofp_vendor_header_eq (a o : ofp_vendor_header) : bool :=
  if negb (ofp_header_eq (vh_hdr a) (vh_hdr o)) then false
  else if negb (vh_vendor a =? vh_vendor o) then false
  else true.

(** ** ofp_features_request *)

Record ofp_features_request := FeaturesRequest {
  fq_hdr : ofp_header
}.
#[export] Instance ofp_features_request_eq_dec : EqDecision ofp_features_request.
Proof. solve_decision. Defined.

Definition ofp_features_request_init : ofp_features_request := FeaturesRequest (Hdr OFP_VERSION
  OFPT_FEATURES_REQUEST 8 None).

Definition ofp_features_request_pack (assertstruct : bool) (m : ofp_features_request)
    : M Z (ofp_features_request * option bytes) :=
  '(h, p) ← ofp_header_pack (fq_hdr m);
  mret (FeaturesRequest h, Some p).

Definition ofp_features_request_unpack (m : ofp_features_request) (b : bytes)
    : res (ofp_features_request * bytes) :=
  if zlen b <? 8 then Ok (m, b)
  else
    '(h, _) ← ofp_header_unpack (fq_hdr m) (slice_from b 0);
    Ok (FeaturesRequest h, slice_from b 8).

Definition ofp_features_request_len (m : ofp_features_request) : Z := 8.

Definition ofp_features_request_eq (a o : ofp_features_request) : bool :=
  if negb (ofp_header_eq (fq_hdr a) (fq_hdr o)) then false
  else true.

(** ** ofp_get_config_request *)

Record ofp_get_config_request := GetConfigRequest {
  gq_hdr : ofp_header
}.
#[export] Instance ofp_get_config_request_eq_dec : EqDecision ofp_get_config_request.
Proof. solve_decision. Defined.

Definition ofp_get_config_request_init : ofp_get_config_request := GetConfigRequest (Hdr
  OFP_VERSION OFPT_GET_CONFIG_REQUEST 8 None).

Definition ofp_get_config_request_pack (assertstruct : bool) (m : ofp_get_config_request)
    : M Z (ofp_get_config_request * option bytes) :=
  '(h, p) ← ofp_header_pack (gq_hdr m);
  mret (GetConfigRequest h, Some p).

Definition ofp_get_config_request_unpack (m : ofp_get_config_request) (b : bytes)
    : res (ofp_get_config_request * bytes) :=
  if zlen b <? 8 then Ok (m, b)
  else
    '(h, _) ← ofp_header_unpack (gq_hdr m) (slice_from b 0);
    Ok (GetConfigRequest h, slice_from b 8).

Definition ofp_get_config_request_len (m : ofp_get_config_request) : Z := 8.

Definition ofp_get_config_request_eq (a o : ofp_get_config_request) : bool :=
  if negb (ofp_header_eq (gq_hdr a) (gq_hdr o)) then false
  else true.

(** ** ofp_get_config_reply *)

Record ofp_get_config_reply := GetConfigReply {
  gr_hdr : ofp_header;
  gr_flags : Z;
  gr_miss_send_len : Z
}.
#[export] Instance ofp_get_config_reply_eq_dec : EqDecision ofp_get_config_reply.
Proof. solve_decision. Defined.

Definition ofp_get_config_reply_init : ofp_get_config_reply := GetConfigReply (Hdr OFP_VERSION
  OFPT_GET_CONFIG_REPLY 12 None) 0 OFP_DEFAULT_MISS_SEND_LEN.

Definition ofp_get_config_reply_pack (assertstruct : bool) (m : ofp_get_config_reply)
    : M Z (ofp_get_config_reply * option bytes) :=
  '(h, p) ← ofp_header_pack (gr_hdr m);
  a ← lift (struct_pack "!HH" [gr_flags m; gr_miss_send_len m]);
  mret (GetConfigReply h (gr_flags m) (gr_miss_send_len m), Some (p ++ a)).

Definition ofp_get_config_reply_unpack (m : ofp_get_config_reply) (b : bytes)
    : res (ofp_get_config_reply * bytes) :=
  if zlen b <? 12 then Ok (m, b)
  else
    '(h, _) ← ofp_header_unpack (gr_hdr m) (slice_from b 0);
    tuple [flags; miss_send_len] ← struct_unpack_from "!HH" b 8;
    Ok (GetConfigReply h flags miss_send_len, slice_from b 12).

Definition ofp_get_config_reply_len (m : ofp_get_config_reply) : Z := 12.

Definition ofp_get_config_reply_eq (a o : ofp_get_config_reply) : bool :=
  if negb (ofp_header_eq (gr_hdr a) (gr_hdr o)) then false
  else if negb (gr_flags a =? gr_flags o) then false
  else if negb (gr_miss_send_len a =? gr_miss_send_len o) then false
  else true.

(** ** ofp_set_config *)

Record ofp_set_config := SetConfig {
  stc_hdr : ofp_header;
  stc_flags : Z;
  stc_miss_send_len : Z
}.
#[export] Instance ofp_set_config_eq_dec : EqDecision ofp_set_config.
Proof. solve_decision. Defined.

Definition ofp_set_config_init : ofp_set_config := SetConfig (Hdr OFP_VERSION OFPT_SET_CONFIG 12
  None) 0 OFP_DEFAULT_MISS_SEND_LEN.

Definition ofp_set_config_pack (assertstruct : bool) (m : ofp_set_config)
    : M Z (ofp_set_config * option bytes) :=
  '(h, p) ← ofp_header_pack (stc_hdr m);
  a ← lift (struct_pack "!HH" [stc_flags m; stc_miss_send_len m]);
  mret (SetConfig h (stc_flags m) (stc_miss_send_len m), Some (p ++ a)).

Definition ofp_set_config_unpack (m : ofp_set_config) (b : bytes)
    : res (ofp_set_config * bytes) :=
  if zlen b <? 12 then Ok (m, b)
  else
    '(h, _) ← ofp_header_unpack (stc_hdr m) (slice_from b 0);
    tuple [flags; miss_send_len] ← struct_unpack_from "!HH" b 8;
    Ok (SetConfig h flags miss_send_len, slice_from b 12).

Definition ofp_set_config_len (m : ofp_set_config) : Z := 12.

Definition ofp_set_config_eq (a o : ofp_set_config) : bool :=
  if negb (ofp_header_eq (stc_hdr a) (stc_hdr o)) then false
  else if negb (stc_flags a =? stc_flags o) then false
  else if negb (stc_miss_send_len a =? stc_miss_send_len o) then false
  else true.


(** ** ofp_features_reply *)

Record ofp_features_reply := FeaturesReply {
  fy_hdr : ofp_header;
  fy_datapath_id : Z;
  fy_n_buffers : Z;
  fy_n_tables : Z;
  fy_capabilities : Z;
  fy_actions : Z;
  fy_ports : list ofp_phy_port
}.
#[export] Instance ofp_features_reply_eq_dec : EqDecision ofp_features_reply.
Proof. solve_decision. Defined.

Definition ofp_features_reply_len (m : ofp_features_reply) : Z :=
  fold_left (fun l _ => l + OFP_PHY_PORT_BYTES) (fy_ports m) 32.

(** The keyword arguments are set before [length] is computed. *)
Definition ofp_features_reply_init (datapath_id n_buffers n_tables capabilities actions : Z)
    (ports : list ofp_phy_port) : ofp_features_reply :=
  let m := FeaturesReply (Hdr OFP_VERSION OFPT_FEATURES_REPLY 8 None) datapath_id n_buffers
             n_tables capabilities actions ports in
  FeaturesReply (set_length (ofp_features_reply_len m) (fy_hdr m)) datapath_id n_buffers
    n_tables capabilities actions ports.

Definition ofp_features_reply_pack (assertstruct : bool) (m : ofp_features_reply)
    : M Z (ofp_features_reply * option bytes) :=
  '(h, p) ← ofp_header_pack (fy_hdr m);
  a ← lift (struct_pack "!QLB" [fy_datapath_id m; fy_n_buffers m; fy_n_tables m]);
  c ← lift (struct_pack "!LL" [fy_capabilities m; fy_actions m]);
  '(l, packed) ← lift (pack_list assertstruct (p ++ a ++ replicate 3 x00 ++ c) (fy_ports m));
  mret (FeaturesReply h (fy_datapath_id m) (fy_n_buffers m) (fy_n_tables m)
          (fy_capabilities m) (fy_actions m) l, Some packed).

Definition ofp_features_reply_unpack (m : ofp_features_reply) (b : bytes)
    : res (ofp_features_reply * bytes) :=
  if zlen b <? 32 then Ok (m, b)
  else
    '(h, _) ← ofp_header_unpack (fy_hdr m) (slice_from b 0);
    tuple [datapath_id; n_buffers; n_tables] ← struct_unpack_from "!QLB" b 8;
    tuple [capabilities; actions] ← struct_unpack_from "!LL" b 24;
    let portCount := (hdr_length h - 32) / OFP_PHY_PORT_BYTES in
    ports ← mapM_res (fun i =>
              '(p, _) ← ofp_phy_port_unpack ofp_phy_port_init
                          (slice_from b (32 + Z.of_nat i * OFP_PHY_PORT_BYTES));
              Ok p) (seq 0 (Z.to_nat portCount));
    Ok (FeaturesReply h datapath_id n_buffers n_tables capabilities actions ports,
        slice_from b (hdr_length h)).

Definition ofp_features_reply_eq (a o : ofp_features_reply) : bool :=
  if negb (ofp_header_eq (fy_hdr a) (fy_hdr o)) then false
  else if negb (fy_datapath_id a =? fy_datapath_id o) then false
  else if negb (fy_n_buffers a =? fy_n_buffers o) then false
  else if negb (fy_n_tables a =? fy_n_tables o) then false
  else if negb (fy_capabilities a =? fy_capabilities o) then false
  else if negb (fy_actions a =? fy_actions o) then false
  else if negb (list_eqb ofp_phy_port_eq (fy_ports a) (fy_ports o)) then false
  else true.

(** ** ofp_flow_mod *)

Record ofp_flow_mod := FlowMod {
  fm_hdr : ofp_header;
  fm_match : ofp_match;
  fm_cookie : Z;
  fm_command : Z;
  fm_idle_timeout : Z;
  fm_hard_timeout : Z;
  fm_priority : Z;
  fm_buffer_id : Z;
  fm_out_port : Z;
  fm_flags : Z;
  fm_actions : list action
}.
#[export] Instance ofp_flow_mod_eq_dec : EqDecision ofp_flow_mod.
Proof. solve_decision. Defined.

Definition ofp_flow_mod_init : ofp_flow_mod :=
  FlowMod (Hdr OFP_VERSION OFPT_FLOW_MOD 8 None) ofp_match_init 0 OFPFC_ADD 0 0
    OFP_DEFAULT_PRIORITY (-1) OFPP_NONE 0 [].

Definition ofp_flow_mod_len (m : ofp_flow_mod) : Z :=
  len_list (32 + ofp_match_len (fm_match m)) (fm_actions m).

Definition ofp_flow_mod_pack (assertstruct : bool) (m : ofp_flow_mod)
    : M Z (ofp_flow_mod * option bytes) :=
  '(h, p) ← ofp_header_pack (set_length (ofp_flow_mod_len m) (fm_hdr m));
  a ← lift (ofp_match_pack true true (fm_match m));
  c ← lift (struct_pack "!QHHHHLHH"
        [fm_cookie m; fm_command m; fm_idle_timeout m; fm_hard_timeout m; fm_priority m;
         Z.land (fm_buffer_id m) 0xffffffff; fm_out_port m; fm_flags m]);
  '(l, packed) ← lift (pack_list assertstruct (p ++ a ++ c) (fm_actions m));
  mret (FlowMod h (fm_match m) (fm_cookie m) (fm_command m) (fm_idle_timeout m)
          (fm_hard_timeout m) (fm_priority m) (fm_buffer_id m) (fm_out_port m) (fm_flags m) l,
        Some packed).

Definition ofp_flow_mod_unpack (m : ofp_flow_mod) (b : bytes) : res (ofp_flow_mod * bytes) :=
  if zlen b <? 72 then Ok (m, b)
  else
    '(h, _) ← ofp_header_unpack (fm_hdr m) (slice_from b 0);
    '(match_, _) ← ofp_match_unpack true (fm_match m) (slice_from b 8);
    tuple [cookie; command; idle_timeout; hard_timeout; priority; buffer_id; out_port; flags]
      ← struct_unpack_from "!QHHHHLHH" b (8 + ofp_match_len match_);
    let buffer_id := if buffer_id =? 0xffffffff then -1 else buffer_id in
    '(actions, offset) ← unpack_actions b (hdr_length h - (32 + ofp_match_len match_))
                           (32 + ofp_match_len match_);
    if negb (offset =? hdr_length h) then Err AssertionError
    else Ok (FlowMod h match_ cookie command idle_timeout hard_timeout priority buffer_id
               out_port flags actions, slice_from b offset).

Definition ofp_flow_mod_eq (a o : ofp_flow_mod) : bool :=
  if negb (ofp_header_eq (fm_hdr a) (fm_hdr o)) then false
  else if negb (ofp_match_eq (fm_match a) (fm_match o)) then false
  else if negb (fm_cookie a =? fm_cookie o) then false
  else if negb (fm_command a =? fm_command o) then false
  else if negb (fm_idle_timeout a =? fm_idle_timeout o) then false
  else if negb (fm_hard_timeout a =? fm_hard_timeout o) then false
  else if negb (fm_priority a =? fm_priority o) then false
  else if negb (fm_buffer_id a =? fm_buffer_id o) then false
  else if negb (fm_out_port a =? fm_out_port o) then false
  else if negb (fm_flags a =? fm_flags o) then false
  else if negb (list_eqb action_eq (fm_actions a) (fm_actions o)) then false
  else true.

(** ** ofp_queue_get_config_reply *)

Record ofp_queue_get_config_reply := QueueGetConfigReply {
  qgy_hdr : ofp_header;
  qgy_port : Z;
  qgy_queues : list ofp_packet_queue
}.
#[export] Instance ofp_queue_get_config_reply_eq_dec : EqDecision ofp_queue_get_config_reply.
Proof. solve_decision. Defined.

Definition ofp_queue_get_config_reply_init : ofp_queue_get_config_reply :=
  QueueGetConfigReply (Hdr OFP_VERSION OFPT_QUEUE_GET_CONFIG_REPLY 16 None) 0 [].

Definition ofp_queue_get_config_reply_pack (assertstruct : bool)
    (m : ofp_queue_get_config_reply) : M Z (ofp_queue_get_config_reply * option bytes) :=
  '(h, p) ← ofp_header_pack (qgy_hdr m);
  a ← lift (struct_pack "!H" [qgy_port m]);
  '(l, packed) ← lift (pack_list assertstruct (p ++ a ++ replicate 6 x00) (qgy_queues m));
  mret (QueueGetConfigReply h (qgy_port m) l, Some packed).

(** The queues are not read back. *)
Definition ofp_queue_get_config_reply_unpack (m : ofp_queue_get_config_reply) (b : bytes)
    : res (ofp_queue_get_config_reply * bytes) :=
  if zlen b <? 16 then Ok (m, b)
  else
    '(h, _) ← ofp_header_unpack (qgy_hdr m) (slice_from b 0);
    tuple [port] ← struct_unpack_from "!H" b 8;
    Ok (QueueGetConfigReply h port (qgy_queues m), slice_from b 16).

Definition ofp_queue_get_config_reply_len (m : ofp_queue_get_config_reply) : Z :=
  len_list 16 (qgy_queues m).

Definition ofp_queue_get_config_reply_eq (a o : ofp_queue_get_config_reply) : bool :=
  if negb (ofp_header_eq (qgy_hdr a) (qgy_hdr o)) then false
  else if negb (qgy_port a =? qgy_port o) then false
  else if negb (list_eqb ofp_packet_queue_eq (qgy_queues a) (qgy_queues o)) then false
  else true.

(** ** ofp_packet_out

    [data] is a property over [_data], which always holds bytes: its setter turns
    None into the empty string. *)

Record ofp_packet_out := PacketOut {
  po_hdr : ofp_header;
  po_buffer_id : Z;
  po_in_port : Z;
  po_actions : list action;
  po_data : bytes
}.
#[export] Instance ofp_packet_out_eq_dec : EqDecision ofp_packet_out.
Proof. solve_decision. Defined.

Definition ofp_packet_out_init : ofp_packet_out :=
  PacketOut (Hdr OFP_VERSION OFPT_PACKET_OUT 8 None) (-1) OFPP_NONE [] [].

(** Messages made from scratch, with the fields the controller's programs set. *)
Definition packet_out (buffer_id in_port : Z) (actions : list action) : ofp_packet_out :=
  PacketOut (po_hdr ofp_packet_out_init) buffer_id in_port actions (po_data ofp_packet_out_init).
Definition flow_mod (match_ : ofp_match) (idle hard buffer_id : Z) (actions : list action) : ofp_flow_mod :=
  FlowMod (fm_hdr ofp_flow_mod_init) match_ (fm_cookie ofp_flow_mod_init)
    (fm_command ofp_flow_mod_init) idle hard (fm_priority ofp_flow_mod_init) buffer_id
    (fm_out_port ofp_flow_mod_init) (fm_flags ofp_flow_mod_init) actions.
Definition action_output (port : Z) : action := AOutput (ActOutput OFPAT_OUTPUT 8 (Some port) 0xffff).

Definition ofp_packet_out_assert (m : ofp_packet_out) : bool :=
  if negb (po_buffer_id m =? -1) && negb (bool_decide (po_data m = [])) then false else true.

Definition ofp_packet_out_pack (assertstruct : bool) (m : ofp_packet_out)
    : M Z (ofp_packet_out * option bytes) :=
  if assertstruct && negb (ofp_packet_out_assert m) then raise RuntimeError
  else
    '(l, actions) ← lift (pack_list assertstruct [] (po_actions m));
    let actions_len := zlen actions in
    '(h, p) ← ofp_header_pack (set_length (16 + actions_len + zlen (po_data m)) (po_hdr m));
    a ← lift (struct_pack "!LHH" [Z.land (po_buffer_id m) 0xffFFffFF; po_in_port m; actions_len]);
    mret (PacketOut h (po_buffer_id m) (po_in_port m) l (po_data m),
          Some (p ++ a ++ actions ++ po_data m)).

Definition ofp_packet_out_unpack (m : ofp_packet_out) (b : bytes)
    : res (ofp_packet_out * bytes) :=
  if zlen b <? 16 then Ok (m, b)
  else
    '(h, _) ← ofp_header_unpack (po_hdr m) (slice_from b 0);
    tuple [buffer_id; in_port; actions_len] ← struct_unpack_from "!LHH" b 8;
    let buffer_id := if buffer_id =? 0xffFFffFF then -1 else buffer_id in
    '(actions, offset) ← unpack_actions b actions_len 16;
    let data := if offset <? hdr_length h then slice b offset (hdr_length h) else [] in
    Ok (PacketOut h buffer_id in_port actions data, slice_from b (hdr_length h)).

(** The length attribute, which [__len__] adds up here instead of the lengths. *)
Definition action_length_attr (a : action) : Z :=
  match a with
  | AHeader a | ADecTtl a | AResubmit a => ah_length a
  | AOutput a => ao_length a
  | AEnqueue a => aq_length a
  | APushMpls a => apm_length a
  | AMplsLabel a => aml_length a
  | AMplsTc a => amc_length a
  | AMplsTtl a => amt_length a
  | APopMpls a => apo_length a
  | AVlanVid a => avv_length a
  | AVlanPcp a => avp_length a
  | ADlAddr a => ada_length a
  | ANwAddr a => ana_length a
  | ANwTos a => ant_length a
  | ATpPort a => atp_length a
  | AVendor a => ave_length a
  end.
Definition ofp_packet_out_len (m : ofp_packet_out) : Z :=
  16 + fold_left Z.add (action_length_attr <$> po_actions m) 0 + zlen (po_data m).

(** The data is not compared. *)
Definition ofp_packet_out_eq (a o : ofp_packet_out) : bool :=
  if negb (ofp_header_eq (po_hdr a) (po_hdr o)) then false
  else if negb (po_buffer_id a =? po_buffer_id o) then false
  else if negb (po_in_port a =? po_in_port o) then false
  else if negb (list_eqb action_eq (po_actions a) (po_actions o)) then false
  else true.

(** ** ofp_packet_in *)

Record ofp_packet_in := PacketIn {
  pi_hdr : ofp_header;
  pi_in_port : Z;
  pi_buffer_id : Z;
  pi_reason : Z;
  pi_data : bytes;
  pi_total_len : Z
}.
#[export] Instance ofp_packet_in_eq_dec : EqDecision ofp_packet_in.
Proof. solve_decision. Defined.

Definition ofp_packet_in_init : ofp_packet_in :=
  PacketIn (Hdr OFP_VERSION OFPT_PACKET_IN 8 None) OFPP_NONE (-1) 0 [] 0.

Definition ofp_packet_in_len (m : ofp_packet_in) : Z := 18 + zlen (pi_data m) * 1.

Definition ofp_packet_in_pack (assertstruct : bool) (m : ofp_packet_in)
    : M Z (ofp_packet_in * option bytes) :=
  let m := PacketIn (set_length (ofp_packet_in_len m) (pi_hdr m)) (pi_in_port m)
             (pi_buffer_id m) (pi_reason m) (pi_data m) (ofp_packet_in_len m) in
  '(h, p) ← ofp_header_pack (pi_hdr m);
  a ← lift (struct_pack "!LHHBB" [Z.land (pi_buffer_id m) 0xffFFffFF; pi_total_len m;
                                  pi_in_port m; pi_reason m; 0]);
  mret (PacketIn h (pi_in_port m) (pi_buffer_id m) (pi_reason m) (pi_data m) (pi_total_len m),
        Some (p ++ a ++ pi_data m)).

Definition ofp_packet_in_unpack (m : ofp_packet_in) (b : bytes) : res (ofp_packet_in * bytes) :=
  if zlen b <? 18 then Ok (m, b)
  else
    '(h, _) ← ofp_header_unpack (pi_hdr m) (slice_from b 0);
    tuple [buffer_id; total_len; in_port; reason; _] ← struct_unpack_from "!LHHBB" b 8;
    let buffer_id := if buffer_id =? 0xFFffFFff then -1 else buffer_id in
    if zlen b <? hdr_length h
    then Ok (PacketIn h in_port buffer_id reason (pi_data m) total_len, b)
    else Ok (PacketIn h in_port buffer_id reason (slice b 18 (hdr_length h)) total_len,
             slice_from b (hdr_length h)).

Definition ofp_packet_in_eq (a o : ofp_packet_in) : bool :=
  if negb (ofp_header_eq (pi_hdr a) (pi_hdr o)) then false
  else if negb (pi_buffer_id a =? pi_buffer_id o) then false
  else if negb (pi_total_len a =? pi_total_len o) then false
  else if negb (pi_in_port a =? pi_in_port o) then false
  else if negb (pi_reason a =? pi_reason o) then false
  else if negb (bool_decide (pi_data a = pi_data o)) then false
  else true.

(** ** ofp_error

    [data] is a list of integers, as its default and [pack] have it. *)

Record ofp_error := OfpError {
  oe_hdr : ofp_header;
  oe_type : Z;
  oe_code : Z;
  oe_data : list Z
}.
#[export] Instance ofp_error_eq_dec : EqDecision ofp_error.
Proof. solve_decision. Defined.

Definition ofp_error_init : ofp_error :=
  OfpError (Hdr OFP_VERSION OFPT_ERROR 8 None) 0 0 [].

Definition ofp_error_len (m : ofp_error) : Z := 12 + zlen (oe_data m) * 1.

Fixpoint pack_bytes (packed : bytes) (data : list Z) : res bytes :=
  match data with
  | [] => Ok packed
  | i :: data => s ← struct_pack "!B" [i]; pack_bytes (packed ++ s) data
  end.

Definition ofp_error_pack (assertstruct : bool) (m : ofp_error)
    : M Z (ofp_error * option bytes) :=
  '(h, p) ← ofp_header_pack (set_length (ofp_error_len m) (oe_hdr m));
  a ← lift (struct_pack "!HH" [oe_type m; oe_code m]);
  packed ← lift (pack_bytes (p ++ a) (oe_data m));
  mret (OfpError h (oe_type m) (oe_code m) (oe_data m), Some packed).

(** The data is not read back. *)
Definition ofp_error_unpack (m : ofp_error) (b : bytes) : res (ofp_error * bytes) :=
  if zlen b <? 12 then Ok (m, b)
  else
    '(h, _) ← ofp_header_unpack (oe_hdr m) (slice_from b 0);
    tuple [type; code] ← struct_unpack_from "!HH" b 8;
    Ok (OfpError h type code (oe_data m), slice_from b 12).

Definition ofp_error_eq (a o : ofp_error) : bool :=
  if negb (ofp_header_eq (oe_hdr a) (oe_hdr o)) then false
  else if negb (oe_type a =? oe_type o) then false
  else if negb (oe_code a =? oe_code o) then false
  else if negb (bool_decide (oe_data a = oe_data o)) then false
  else true.

(** ** ofp_echo_request

    [pack] does not update [length]. *)

Record ofp_echo_request := EchoRequest {
  er_hdr : ofp_header;
  er_body : bytes
}.
#[export] Instance ofp_echo_request_eq_dec : EqDecision ofp_echo_request.
Proof. solve_decision. Defined.

Definition ofp_echo_request_init : ofp_echo_request := EchoRequest (Hdr OFP_VERSION OFPT_ECHO_REQUEST 8 None) [].

Definition ofp_echo_request_pack (assertstruct : bool) (m : ofp_echo_request) : M Z (ofp_echo_request * option bytes) :=
  '(h, p) ← ofp_header_pack (er_hdr m);
  mret (EchoRequest h (er_body m), Some (p ++ er_body m)).

Definition ofp_echo_request_unpack (m : ofp_echo_request) (b : bytes) : res (ofp_echo_request * bytes) :=
  if zlen b <? 8 then Ok (m, b)
  else
    '(h, _) ← ofp_header_unpack (er_hdr m) (slice_from b 0);
    if zlen b <? hdr_length h then Ok (EchoRequest h (er_body m), b)
    else
      let l := hdr_length h - 8 in
      Ok (EchoRequest h (slice b 8 (8 + l)), slice_from b (8 + l)).

Definition ofp_echo_request_len (m : ofp_echo_request) : Z := 8 + zlen (er_body m).

Definition ofp_echo_request_eq (a o : ofp_echo_request) : bool :=
  if negb (ofp_header_eq (er_hdr a) (er_hdr o)) then false
  else if negb (bool_decide (er_body a = er_body o)) then false
  else true.

(** ** ofp_echo_reply

    [pack] does not update [length]. *)

Record ofp_echo_reply := EchoReply {
  ey_hdr : ofp_header;
  ey_body : bytes
}.
#[export] Instance ofp_echo_reply_eq_dec : EqDecision ofp_echo_reply.
Proof. solve_decision. Defined.

Definition ofp_echo_reply_init : ofp_echo_reply := EchoReply (Hdr OFP_VERSION OFPT_ECHO_REPLY 8 None) [].

Definition ofp_echo_reply_pack (assertstruct : bool) (m : ofp_echo_reply) : M Z (ofp_echo_reply * option bytes) :=
  '(h, p) ← ofp_header_pack (ey_hdr m);
  mret (EchoReply h (ey_body m), Some (p ++ ey_body m)).

Definition ofp_echo_reply_unpack (m : ofp_echo_reply) (b : bytes) : res (ofp_echo_reply * bytes) :=
  if zlen b <? 8 then Ok (m, b)
  else
    '(h, _) ← ofp_header_unpack (ey_hdr m) (slice_from b 0);
    if zlen b <? hdr_length h then Ok (EchoReply h (ey_body m), b)
    else
      let l := hdr_length h - 8 in
      Ok (EchoReply h (slice b 8 (8 + l)), slice_from b (8 + l)).

Definition ofp_echo_reply_len (m : ofp_echo_reply) : Z := 8 + zlen (ey_body m).

Definition ofp_echo_reply_eq (a o : ofp_echo_reply) : bool :=
  if negb (ofp_header_eq (ey_hdr a) (ey_hdr o)) then false
  else if negb (bool_decide (ey_body a = ey_body o)) then false
  else true.

(** ** ofp_vendor

    With [data] as bytes; objects that pack themselves are the vendor
    extensions'. *)

Record ofp_vendor := Vendor {
  ve_hdr : ofp_header;
  ve_vendor : Z;
  ve_data : bytes
}.
#[export] Instance ofp_vendor_eq_dec : EqDecision ofp_vendor.
Proof. solve_decision. Defined.

Definition ofp_vendor_init : ofp_vendor := Vendor (Hdr OFP_VERSION OFPT_VENDOR 12 None) 0 [].

Definition ofp_vendor_pack (assertstruct : bool) (m : ofp_vendor)
    : M Z (ofp_vendor * option bytes) :=
  '(h, p) ← ofp_header_pack (set_length (12 + zlen (ve_data m)) (ve_hdr m));
  a ← lift (struct_pack "!L" [ve_vendor m]);
  mret (Vendor h (ve_vendor m) (ve_data m), Some (p ++ a ++ ve_data m)).

Definition ofp_vendor_unpack (m : ofp_vendor) (b : bytes) : res (ofp_vendor * bytes) :=
  if zlen b <? 12 then Ok (m, b)
  else
    '(h, _) ← ofp_header_unpack (ve_hdr m) (slice_from b 0);
    tuple [vendor] ← struct_unpack_from "!L" b 8;
    if zlen b <? hdr_length h then Ok (Vendor h vendor (ve_data m), b)
    else Ok (Vendor h vendor (slice b 12 (hdr_length h)), slice_from b (hdr_length h)).

Definition ofp_vendor_len (m : ofp_vendor) : Z := 12 + zlen (ve_data m).

Definition ofp_vendor_eq (a o : ofp_vendor) : bool :=
  if negb (ofp_header_eq (ve_hdr a) (ve_hdr o)) then false
  else if negb (ve_vendor a =? ve_vendor o) then false
  else if negb (bool_decide (ve_data a = ve_data o)) then false
  else true.

(** * The contract of a message class *)

(** [mready] is what [pack] does to the message before the header is packed. *)
Class Msg (T : Type) := {
  mhdr : T -> ofp_header;
  with_hdr : ofp_header -> T -> T;
  mready : T -> T;
  mpack : bool -> T -> M Z (T * option bytes);
  munpack : T -> bytes -> res (T * bytes);
  mlen : T -> Z;
  (** Messages that fit the wire, with a length field that is right when packed. *)
  msg_wf : T -> Prop;
  (** What the reader sees: the message up to what matches and actions lose. *)
  mview : T -> T
}.

(** [s] carries [x]: its header announces the length of [s], and any object of
    the class turns into (the view of) [x] by unpacking it and leaves what follows. *)
Definition carries `{Msg T} (x : T) (s : bytes) : Prop :=
  zlen s = hdr_length (mhdr x) /\ mlen x = zlen s /\
  (forall y rest, exists r, ofp_header_unpack y (s ++ rest) = Ok (mhdr x, r)) /\
  forall y rest, munpack y (s ++ rest) = Ok (mview x, rest).

Class MsgLaws (T : Type) `{Msg T} := {
  msg_pack_ok x st : msg_wf x -> 0 <= st < 2 ^ 31 ->
    exists s, mpack true x st =
      (Ok (with_hdr (fst (hdr_settle (mhdr (mready x)) st)) (mready x), Some s),
       snd (hdr_settle (mhdr (mready x)) st)) /\
      carries (with_hdr (fst (hdr_settle (mhdr (mready x)) st)) (mready x)) s
}.

(** Pack the header, naming its bytes and their properties. *)
Ltac pack_header :=
  match goal with
  | Hw : hdr_wf ?h, Hst : 0 <= ?st < 2 ^ 31 |- context [ofp_header_pack ?h ?st] =>
      let h' := fresh "h'" in let st' := fresh "st'" in let Es := fresh "Es" in
      let p := fresh "p" in let Ep := fresh "Ep" in let Lp := fresh "Lp" in let Up := fresh "Up" in
      destruct (hdr_settle h st) as [h' st'] eqn:Es;
      destruct (ofp_header_pack_ok h st h' st' Hw Hst Es) as (p & Ep & Lp & Up);
      destruct (hdr_settle_wf h st h' st' Hw Hst Es) as (_ & _ & ? & _ & _);
      rewrite Ep; cbn [fst snd]
  end.
Ltac unfold_M := unfold mbind, M_bind, lift, mret, M_ret.
(** [struct_pack] under [lift]. *)
Ltac mpack_step :=
  match goal with
  | |- context [struct_pack ?f ?vs] =>
      let s := fresh "s" in let E := fresh "E" in let L := fresh "L" in
      destruct (struct_pack_ok f vs ltac:(unfold fmt_accepts; simpl; lia)) as (s & E & L);
      let n := eval vm_compute in (struct_calcsize f) in
      change (struct_calcsize f) with n in L;
      rewrite E; cbv beta iota
  end.
Ltac carries_tac U :=
  split;
    [match goal with |- _ = hdr_length ?x => let y := eval hnf in x in change x with y end;
     len_tac; lia|];
  split; [len_tac|];
  split;
    [intros; eexists; rewrite <-?app_assoc; eauto|];
  intros y rest; unfold U; rewrite <-?app_assoc; guard_tac; repeat read_step;
  match goal with
  | Up : forall y rest, ofp_header_unpack y (?k ++ rest) = Ok (?h, rest) |- _ => rewrite Up
  end;
  cbn [mbind res_bind]; repeat read_step.
(** [I]: the instance, [P], [U] and [L] its functions. *)
Ltac show_msg I :=
  unfold carries; cbn [mhdr with_hdr mready mpack munpack mlen mview msg_wf I].
Ltac msg_tac I P U L :=
  show_msg I; unfold P, L; unfold_M; pack_header; repeat mpack_step;
  eexists; (split; [reflexivity|]); carries_tac U.

#[export] Instance ofp_switch_config_msg : Msg ofp_switch_config := {
  mhdr := sc_hdr; with_hdr h m := SwitchConfig h (sc_flags m) (sc_miss_send_len m); mready m := m;
  mpack := ofp_switch_config_pack; munpack := ofp_switch_config_unpack; mlen := ofp_switch_config_len; mview m := m;
  msg_wf m := hdr_wf (sc_hdr m) /\ hdr_length (sc_hdr m) = 12 /\ u16 (sc_flags m) /\ u16 (sc_miss_send_len m)
}.
#[export] Instance ofp_switch_config_msg_laws : MsgLaws ofp_switch_config.
Proof.
  constructor. intros x st Hwf Hst. cbn [msg_wf ofp_switch_config_msg] in Hwf. destruct_and? Hwf.
  msg_tac ofp_switch_config_msg ofp_switch_config_pack ofp_switch_config_unpack ofp_switch_config_len.
  reflexivity.
Qed.

#[export] Instance ofp_get_config_reply_msg : Msg ofp_get_config_reply := {
  mhdr := gr_hdr; with_hdr h m := GetConfigReply h (gr_flags m) (gr_miss_send_len m); mready m := m;
  mpack := ofp_get_config_reply_pack; munpack := ofp_get_config_reply_unpack; mlen := ofp_get_config_reply_len; mview m := m;
  msg_wf m := hdr_wf (gr_hdr m) /\ hdr_length (gr_hdr m) = 12 /\ u16 (gr_flags m) /\ u16 (gr_miss_send_len m)
}.
#[export] Instance ofp_get_config_reply_msg_laws : MsgLaws ofp_get_config_reply.
Proof.
  constructor. intros x st Hwf Hst. cbn [msg_wf ofp_get_config_reply_msg] in Hwf. destruct_and? Hwf.
  msg_tac ofp_get_config_reply_msg ofp_get_config_reply_pack ofp_get_config_reply_unpack ofp_get_config_reply_len.
  reflexivity.
Qed.

#[export] Instance ofp_set_config_msg : Msg ofp_set_config := {
  mhdr := stc_hdr; with_hdr h m := SetConfig h (stc_flags m) (stc_miss_send_len m); mready m := m;
  mpack := ofp_set_config_pack; munpack := ofp_set_config_unpack; mlen := ofp_set_config_len; mview m := m;
  msg_wf m := hdr_wf (stc_hdr m) /\ hdr_length (stc_hdr m) = 12 /\ u16 (stc_flags m) /\ u16 (stc_miss_send_len m)
}.
#[export] Instance ofp_set_config_msg_laws : MsgLaws ofp_set_config.
Proof.
  constructor. intros x st Hwf Hst. cbn [msg_wf ofp_set_config_msg] in Hwf. destruct_and? Hwf.
  msg_tac ofp_set_config_msg ofp_set_config_pack ofp_set_config_unpack ofp_set_config_len.
  reflexivity.
Qed.

#[export] Instance ofp_queue_get_config_request_msg : Msg ofp_queue_get_config_request := {
  mhdr := qgr_hdr; with_hdr h m := QueueGetConfigRequest h (qgr_port m); mready m := m;
  mpack := ofp_queue_get_config_request_pack; munpack := ofp_queue_get_config_request_unpack; mlen := ofp_queue_get_config_request_len; mview m := m;
  msg_wf m := hdr_wf (qgr_hdr m) /\ hdr_length (qgr_hdr m) = 12 /\ u16 (qgr_port m)
}.
#[export] Instance ofp_queue_get_config_request_msg_laws : MsgLaws ofp_queue_get_config_request.
Proof.
  constructor. intros x st Hwf Hst. cbn [msg_wf ofp_queue_get_config_request_msg] in Hwf. destruct_and? Hwf.
  msg_tac ofp_queue_get_config_request_msg ofp_queue_get_config_request_pack ofp_queue_get_config_request_unpack ofp_queue_get_config_request_len.
  reflexivity.
Qed.

#[export] Instance ofp_vendor_header_msg : Msg ofp_vendor_header := {
  mhdr := vh_hdr; with_hdr h m := VendorHeader h (vh_vendor m); mready m := m;
  mpack := ofp_vendor_header_pack; munpack := ofp_vendor_header_unpack; mlen := ofp_vendor_header_len; mview m := m;
  msg_wf m := hdr_wf (vh_hdr m) /\ hdr_length (vh_hdr m) = 12 /\ u32 (vh_vendor m)
}.
#[export] Instance ofp_vendor_header_msg_laws : MsgLaws ofp_vendor_header.
Proof.
  constructor. intros x st Hwf Hst. cbn [msg_wf ofp_vendor_header_msg] in Hwf. destruct_and? Hwf.
  msg_tac ofp_vendor_header_msg ofp_vendor_header_pack ofp_vendor_header_unpack ofp_vendor_header_len.
  reflexivity.
Qed.

#[export] Instance ofp_barrier_reply_msg : Msg ofp_barrier_reply := {
  mhdr := bp_hdr; with_hdr h m := BarrierReply h; mready m := m;
  mpack := ofp_barrier_reply_pack; munpack := ofp_barrier_reply_unpack; mlen := ofp_barrier_reply_len; mview m := m;
  msg_wf m := hdr_wf (bp_hdr m) /\ hdr_length (bp_hdr m) = 8
}.
#[export] Instance ofp_barrier_reply_msg_laws : MsgLaws ofp_barrier_reply.
Proof.
  constructor. intros x st Hwf Hst. cbn [msg_wf ofp_barrier_reply_msg] in Hwf. destruct_and? Hwf.
  msg_tac ofp_barrier_reply_msg ofp_barrier_reply_pack ofp_barrier_reply_unpack ofp_barrier_reply_len.
  reflexivity.
Qed.

#[export] Instance ofp_barrier_request_msg : Msg ofp_barrier_request := {
  mhdr := bq_hdr; with_hdr h m := BarrierRequest h; mready m := m;
  mpack := ofp_barrier_request_pack; munpack := ofp_barrier_request_unpack; mlen := ofp_barrier_request_len; mview m := m;
  msg_wf m := hdr_wf (bq_hdr m) /\ hdr_length (bq_hdr m) = 8
}.
#[export] Instance ofp_barrier_request_msg_laws : MsgLaws ofp_barrier_request.
Proof.
  constructor. intros x st Hwf Hst. cbn [msg_wf ofp_barrier_request_msg] in Hwf. destruct_and? Hwf.
  msg_tac ofp_barrier_request_msg ofp_barrier_request_pack ofp_barrier_request_unpack ofp_barrier_request_len.
  reflexivity.
Qed.

#[export] Instance ofp_hello_msg : Msg ofp_hello := {
  mhdr := he_hdr; with_hdr h m := Hello h; mready m := m;
  mpack := ofp_hello_pack; munpack := ofp_hello_unpack; mlen := ofp_hello_len; mview m := m;
  msg_wf m := hdr_wf (he_hdr m) /\ hdr_length (he_hdr m) = 8
}.
#[export] Instance ofp_hello_msg_laws : MsgLaws ofp_hello.
Proof.
  constructor. intros x st Hwf Hst. cbn [msg_wf ofp_hello_msg] in Hwf. destruct_and? Hwf.
  msg_tac ofp_hello_msg ofp_hello_pack ofp_hello_unpack ofp_hello_len.
  reflexivity.
Qed.

#[export] Instance ofp_features_request_msg : Msg ofp_features_request := {
  mhdr := fq_hdr; with_hdr h m := FeaturesRequest h; mready m := m;
  mpack := ofp_features_request_pack; munpack := ofp_features_request_unpack; mlen := ofp_features_request_len; mview m := m;
  msg_wf m := hdr_wf (fq_hdr m) /\ hdr_length (fq_hdr m) = 8
}.
#[export] Instance ofp_features_request_msg_laws : MsgLaws ofp_features_request.
Proof.
  constructor. intros x st Hwf Hst. cbn [msg_wf ofp_features_request_msg] in Hwf. destruct_and? Hwf.
  msg_tac ofp_features_request_msg ofp_features_request_pack ofp_features_request_unpack ofp_features_request_len.
  reflexivity.
Qed.

#[export] Instance ofp_get_config_request_msg : Msg ofp_get_config_request := {
  mhdr := gq_hdr; with_hdr h m := GetConfigRequest h; mready m := m;
  mpack := ofp_get_config_request_pack; munpack := ofp_get_config_request_unpack; mlen := ofp_get_config_request_len; mview m := m;
  msg_wf m := hdr_wf (gq_hdr m) /\ hdr_length (gq_hdr m) = 8
}.
#[export] Instance ofp_get_config_request_msg_laws : MsgLaws ofp_get_config_request.
Proof.
  constructor. intros x st Hwf Hst. cbn [msg_wf ofp_get_config_request_msg] in Hwf. destruct_and? Hwf.
  msg_tac ofp_get_config_request_msg ofp_get_config_request_pack ofp_get_config_request_unpack ofp_get_config_request_len.
  reflexivity.
Qed.

(** ** Messages with addresses, ports and matches *)

#[export] Instance ofp_port_mod_msg : Msg ofp_port_mod := {
  mhdr := pm_hdr;
  with_hdr h m := PortMod h (pm_port_no m) (pm_hw_addr m) (pm_config m) (pm_mask m) (pm_advertise m);
  mready m := m; mpack := ofp_port_mod_pack; munpack := ofp_port_mod_unpack;
  mlen := ofp_port_mod_len; mview m := m;
  msg_wf m := hdr_wf (pm_hdr m) /\ hdr_length (pm_hdr m) = 32 /\ u16 (pm_port_no m) /\
    hw_wf (pm_hw_addr m) /\ u32 (pm_config m) /\ u32 (pm_mask m) /\ u32 (pm_advertise m)
}.
#[export] Instance ofp_port_mod_msg_laws : MsgLaws ofp_port_mod.
Proof.
  constructor. intros x st (Hw & Hl & H1 & Hhw & H2 & H3 & H4) Hst.
  show_msg ofp_port_mod_msg. unfold ofp_port_mod_pack, ofp_port_mod_assert, ofp_port_mod_len.
  assert ((hw_len (pm_hw_addr x) =? 6) = true) as -> by (by destruct (pm_hw_addr x)).
  pose proof (hw_raw_len _ Hhw) as Lh. cbn [andb negb]. unfold_M. pack_header. repeat mpack_step.
  eexists. split; [reflexivity|]. carries_tac ofp_port_mod_unpack.
  rewrite (hw_of_bytes_raw _ Hhw). cbn [mbind res_bind]. by repeat read_step.
Qed.

#[export] Instance ofp_port_status_msg : Msg ofp_port_status := {
  mhdr := pst_hdr; with_hdr h m := PortStatus h (pst_reason m) (pst_desc m);
  mready m := m; mpack := ofp_port_status_pack; munpack := ofp_port_status_unpack;
  mlen := ofp_port_status_len; mview m := m;
  msg_wf m := hdr_wf (pst_hdr m) /\ hdr_length (pst_hdr m) = 64 /\ u8 (pst_reason m) /\
    ofp_phy_port_wf (pst_desc m)
}.
#[export] Instance ofp_port_status_msg_laws : MsgLaws ofp_port_status.
Proof.
  constructor. intros x st (Hw & Hl & H1 & Hd) Hst.
  destruct (ofp_phy_port_ok (pst_desc x) Hd) as (ds & Ed & Ld & Ud).
  show_msg ofp_port_status_msg. unfold ofp_port_status_pack, ofp_port_status_len.
  unfold_M. pack_header. repeat mpack_step. rewrite Ed. cbn [append_opt].
  eexists. split; [reflexivity|]. carries_tac ofp_port_status_unpack.
  rewrite Ud. cbn [mbind res_bind]. by repeat read_step.
Qed.

#[export] Instance ofp_flow_removed_msg : Msg ofp_flow_removed := {
  mhdr := fr_hdr;
  with_hdr h m := FlowRemoved h (fr_match m) (fr_cookie m) (fr_priority m) (fr_reason m)
    (fr_duration_sec m) (fr_duration_nsec m) (fr_idle_timeout m) (fr_packet_count m)
    (fr_byte_count m);
  mready m := m; mpack := ofp_flow_removed_pack; munpack := ofp_flow_removed_unpack;
  mlen := ofp_flow_removed_len;
  mview m := FlowRemoved (fr_hdr m) (wire_view false (fr_match m)) (fr_cookie m) (fr_priority m)
    (fr_reason m) (fr_duration_sec m) (fr_duration_nsec m) (fr_idle_timeout m)
    (fr_packet_count m) (fr_byte_count m);
  msg_wf m := hdr_wf (fr_hdr m) /\ hdr_length (fr_hdr m) = 88 /\ match_wf (fr_match m) /\
    u64 (fr_cookie m) /\ u16 (fr_priority m) /\ u8 (fr_reason m) /\ u32 (fr_duration_sec m) /\
    u32 (fr_duration_nsec m) /\ u16 (fr_idle_timeout m) /\ u64 (fr_packet_count m) /\
    u64 (fr_byte_count m)
}.
#[export] Instance ofp_flow_removed_msg_laws : MsgLaws ofp_flow_removed.
Proof.
  constructor. intros x st (Hw & Hl & Hm & Hwf) Hst.
  destruct (ofp_match_pack_view _ false Hm) as (a & Ea & La & Ua).
  show_msg ofp_flow_removed_msg.
  unfold ofp_flow_removed_pack, ofp_flow_removed_len, ofp_match_len. change (48 + 40) with 88.
  unfold_M. pack_header. rewrite Ea. repeat mpack_step. eexists. split; [reflexivity|].
  unfold ofp_flow_removed_unpack, ofp_match_len. change (48 + 40) with 88.
  change (8 + 40) with 48. change (20 + 40) with 60. change (32 + 40) with 72.
  carries_tac ofp_flow_removed_unpack. rewrite Ua. cbn [mbind res_bind].
  by repeat read_step.
Qed.

(** ** Messages with a tail of bytes *)

(** [buffer_id & 0xffffffff], and back. *)
Definition buffer_wf (z : Z) : Prop := z = -1 \/ 0 <= z < 0xffffffff.
Lemma buffer_wire z : buffer_wf z -> u32 (Z.land z 0xffffffff) /\
  (if Z.land z 0xffffffff =? 0xffffffff then -1 else Z.land z 0xffffffff) = z.
Proof.
  intros H. rewrite land_ffffffff. destruct H as [->|H]; [done|].
  rewrite Z.mod_small by lia. split; [lia|]. by rewrite (proj2 (Z.eqb_neq _ _)) by lia.
Qed.

#[export] Instance ofp_echo_request_msg : Msg ofp_echo_request := {
  mhdr := er_hdr; with_hdr h m := EchoRequest h (er_body m); mready m := m;
  mpack := ofp_echo_request_pack; munpack := ofp_echo_request_unpack;
  mlen := ofp_echo_request_len; mview m := m;
  msg_wf m := hdr_wf (er_hdr m) /\ hdr_length (er_hdr m) = 8 + zlen (er_body m)
}.
#[export] Instance ofp_echo_reply_msg : Msg ofp_echo_reply := {
  mhdr := ey_hdr; with_hdr h m := EchoReply h (ey_body m); mready m := m;
  mpack := ofp_echo_reply_pack; munpack := ofp_echo_reply_unpack;
  mlen := ofp_echo_reply_len; mview m := m;
  msg_wf m := hdr_wf (ey_hdr m) /\ hdr_length (ey_hdr m) = 8 + zlen (ey_body m)
}.

#[export] Instance ofp_echo_request_msg_laws : MsgLaws ofp_echo_request.
Proof.
  constructor. intros x st (Hw & Hl) Hst. show_msg ofp_echo_request_msg.
  unfold ofp_echo_request_pack, ofp_echo_request_len. unfold_M. pack_header.
  pose proof (zlen_nonneg (er_body x)).
  eexists. split; [reflexivity|].
  split; [cbn [er_hdr]; rewrite zlen_app; lia|]. split; [cbn [er_body]; rewrite zlen_app; lia|].
  split; [intros; eexists; rewrite <-app_assoc; eauto|]. intros y rest.
  unfold ofp_echo_request_unpack. rewrite <-app_assoc. guard_tac. rewrite slice_from_all, Up.
  cbn [mbind res_bind]. rewrite (proj2 (Z.ltb_ge _ _)) by (rewrite !zlen_app; pose proof (zlen_nonneg rest); lia).
  cbv zeta. by rewrite (slice_tail p), (slice_from_tail p _ _ 8) by lia.
Qed.
#[export] Instance ofp_echo_reply_msg_laws : MsgLaws ofp_echo_reply.
Proof.
  constructor. intros x st (Hw & Hl) Hst. show_msg ofp_echo_reply_msg.
  unfold ofp_echo_reply_pack, ofp_echo_reply_len. unfold_M. pack_header.
  pose proof (zlen_nonneg (ey_body x)).
  eexists. split; [reflexivity|].
  split; [cbn [ey_hdr]; rewrite zlen_app; lia|]. split; [cbn [ey_body]; rewrite zlen_app; lia|].
  split; [intros; eexists; rewrite <-app_assoc; eauto|]. intros y rest.
  unfold ofp_echo_reply_unpack. rewrite <-app_assoc. guard_tac. rewrite slice_from_all, Up.
  cbn [mbind res_bind]. rewrite (proj2 (Z.ltb_ge _ _)) by (rewrite !zlen_app; pose proof (zlen_nonneg rest); lia).
  cbv zeta. by rewrite (slice_tail p), (slice_from_tail p _ _ 8) by lia.
Qed.

#[export] Instance ofp_vendor_msg : Msg ofp_vendor := {
  mhdr := ve_hdr; with_hdr h m := Vendor h (ve_vendor m) (ve_data m);
  mready m := Vendor (set_length (12 + zlen (ve_data m)) (ve_hdr m)) (ve_vendor m) (ve_data m);
  mpack := ofp_vendor_pack; munpack := ofp_vendor_unpack;
  mlen := ofp_vendor_len; mview m := m;
  msg_wf m := hdr_wf (set_length (12 + zlen (ve_data m)) (ve_hdr m)) /\ u32 (ve_vendor m)
}.
#[export] Instance ofp_vendor_msg_laws : MsgLaws ofp_vendor.
Proof.
  constructor. intros x st (Hw & Hv) Hst. show_msg ofp_vendor_msg.
  unfold ofp_vendor_pack, ofp_vendor_len. cbn [ve_hdr ve_vendor ve_data].
  unfold_M. pack_header. repeat mpack_step. cbn [hdr_length set_length] in *.
  pose proof (zlen_nonneg (ve_data x)).
  eexists. split; [reflexivity|].
  split; [cbn [ve_hdr]; rewrite !zlen_app; lia|]. split; [rewrite !zlen_app; lia|].
  split; [intros; eexists; rewrite <-app_assoc; eauto|]. intros y rest.
  unfold ofp_vendor_unpack. rewrite <-!app_assoc. guard_tac. rewrite slice_from_all, Up. cbn [mbind res_bind].
  do 2 read_step. rewrite (proj2 (Z.ltb_ge _ _)) by (rewrite !zlen_app; pose proof (zlen_nonneg rest); lia).
  rewrite !(app_assoc p). by rewrite (slice_tail (p ++ s)), (slice_from_tail (p ++ s) _ _ 12) by (rewrite ?zlen_app; lia).
Qed.

#[export] Instance ofp_packet_in_msg : Msg ofp_packet_in := {
  mhdr := pi_hdr;
  with_hdr h m := PacketIn h (pi_in_port m) (pi_buffer_id m) (pi_reason m) (pi_data m) (pi_total_len m);
  mready m := PacketIn (set_length (ofp_packet_in_len m) (pi_hdr m)) (pi_in_port m)
    (pi_buffer_id m) (pi_reason m) (pi_data m) (ofp_packet_in_len m);
  mpack := ofp_packet_in_pack; munpack := ofp_packet_in_unpack;
  mlen := ofp_packet_in_len; mview m := m;
  msg_wf m := hdr_wf (set_length (ofp_packet_in_len m) (pi_hdr m)) /\ u16 (pi_in_port m) /\
    buffer_wf (pi_buffer_id m) /\ u8 (pi_reason m)
}.
#[export] Instance ofp_packet_in_msg_laws : MsgLaws ofp_packet_in.
Proof.
  constructor. intros x st (Hw & Hip & Hb & Hr) Hst. show_msg ofp_packet_in_msg.
  destruct (buffer_wire _ Hb) as [Hb1 Hb2]. pose proof Hw as (_ & _ & Hlen & _).
  unfold ofp_packet_in_pack, ofp_packet_in_len in *. cbn [hdr_length set_length] in Hlen.
  cbn [pi_hdr pi_in_port pi_buffer_id pi_reason pi_data pi_total_len].
  unfold_M. pack_header. repeat mpack_step. cbn [hdr_length set_length] in *.
  pose proof (zlen_nonneg (pi_data x)).
  eexists. split; [reflexivity|].
  split; [cbn [pi_hdr]; rewrite !zlen_app; lia|]. split; [rewrite !zlen_app; lia|].
  split; [intros; eexists; rewrite <-app_assoc; eauto|]. intros y rest.
  unfold ofp_packet_in_unpack. rewrite <-!app_assoc. guard_tac. rewrite slice_from_all, Up. cbn [mbind res_bind].
  do 2 read_step. rewrite (proj2 (Z.ltb_ge _ _)) by (rewrite !zlen_app; pose proof (zlen_nonneg rest); lia).
  rewrite Hb2. rewrite !(app_assoc p).
  by rewrite (slice_tail (p ++ s)), (slice_from_tail (p ++ s) _ _ 18) by (rewrite ?zlen_app; lia).
Qed.

(** ** Messages with lists *)

#[export] Instance ofp_flow_mod_msg : Msg ofp_flow_mod := {
  mhdr := fm_hdr;
  with_hdr h m := FlowMod h (fm_match m) (fm_cookie m) (fm_command m) (fm_idle_timeout m)
    (fm_hard_timeout m) (fm_priority m) (fm_buffer_id m) (fm_out_port m) (fm_flags m) (fm_actions m);
  mready m := FlowMod (set_length (ofp_flow_mod_len m) (fm_hdr m)) (fm_match m) (fm_cookie m)
    (fm_command m) (fm_idle_timeout m) (fm_hard_timeout m) (fm_priority m) (fm_buffer_id m)
    (fm_out_port m) (fm_flags m) (action_settle <$> fm_actions m);
  mpack := ofp_flow_mod_pack; munpack := ofp_flow_mod_unpack; mlen := ofp_flow_mod_len;
  mview m := FlowMod (fm_hdr m) (wire_view true (fm_match m)) (fm_cookie m) (fm_command m)
    (fm_idle_timeout m) (fm_hard_timeout m) (fm_priority m) (fm_buffer_id m) (fm_out_port m)
    (fm_flags m) (fm_actions m);
  msg_wf m := hdr_wf (set_length (ofp_flow_mod_len m) (fm_hdr m)) /\ match_wf (fm_match m) /\
    u64 (fm_cookie m) /\ u16 (fm_command m) /\ u16 (fm_idle_timeout m) /\
    u16 (fm_hard_timeout m) /\ u16 (fm_priority m) /\ buffer_wf (fm_buffer_id m) /\
    u16 (fm_out_port m) /\ u16 (fm_flags m) /\ Forall action_wf (fm_actions m)
}.
#[export] Instance ofp_flow_mod_msg_laws : MsgLaws ofp_flow_mod.
Proof.
  constructor. intros x st (Hw & Hm & H1 & H2 & H3 & H4 & H5 & Hb & H6 & H7 & Ha) Hst.
  destruct (buffer_wire _ Hb) as [Hb1 Hb2].
  destruct (ofp_match_pack_view _ true Hm) as (a & Ea & La & Ua).
  show_msg ofp_flow_mod_msg. unfold ofp_flow_mod_pack, ofp_match_len.
  cbn [fm_hdr fm_match fm_cookie fm_command fm_idle_timeout fm_hard_timeout fm_priority
    fm_buffer_id fm_out_port fm_flags fm_actions].
  unfold_M. pack_header. rewrite Ea. repeat mpack_step.
  destruct (pack_actions_ok (fm_actions x) (p ++ a ++ s) Ha) as (t & Et & It). rewrite Et.
  eexists. split; [reflexivity|].
  assert (zlen ((p ++ a ++ s) ++ t) = ofp_flow_mod_len x) as Lall.
  { unfold ofp_flow_mod_len, ofp_match_len. rewrite len_list_acc, !zlen_app.
    rewrite (actions_image_total _ _ It), settle_len_list. lia. }
  cbn [hdr_length set_length] in *.
  split; [lia|]. split.
  { rewrite Lall. unfold ofp_flow_mod_len, ofp_match_len. apply settle_len_list. }
  split; [intros; eexists; rewrite <-!app_assoc; eauto|]. intros y rest.
  unfold ofp_flow_mod_unpack, ofp_match_len.
  rewrite (proj2 (Z.ltb_ge _ _)) by
    (pose proof (zlen_nonneg t); pose proof (zlen_nonneg rest); rewrite !zlen_app; lia).
  rewrite <-!app_assoc, slice_from_all, Up. cbn [mbind res_bind].
  change (8 + 40) with 48. change (32 + 40) with 72.
  repeat read_step. rewrite Ua. cbn [mbind res_bind]. repeat read_step.
  rewrite Hb2.
  assert (zlen (p ++ a ++ s) = 72) as Lpre by (rewrite !zlen_app; lia).
  pose proof (unpack_actions_read _ t (p ++ a ++ s) rest It) as R. rewrite <-!app_assoc, Lpre in R.
  rewrite zlen_app in Lall. replace (hdr_length h' - 72) with (zlen t) by lia. rewrite R.
  cbn [mbind res_bind]. replace (72 + zlen t) with (hdr_length h') by lia. rewrite Z.eqb_refl.
  cbn [negb].
  assert (slice_from (p ++ a ++ s ++ t ++ rest) (hdr_length h') = rest) as ->; [|done].
  replace (p ++ a ++ s ++ t ++ rest) with ((p ++ a ++ s) ++ t ++ rest) by by rewrite <-!app_assoc.
  apply (slice_from_tail _ _ _ 72); lia.
Qed.

Lemma length_attr_wf a : action_wf a -> action_length_attr a = action_len a.
Proof.
  destruct a as [[]|[]|[]|[]|[]|[]|[]|[]|[]|[]|[]|[]|[]|[]|[]|[]|[]]; simpl; try done; intuition.
Qed.
Lemma length_attr_list l n : Forall action_wf l ->
  n + fold_left Z.add (action_length_attr <$> l) 0 = len_list n l.
Proof.
  intros H. rewrite len_list_acc. f_equal.
  assert (forall z, fold_left Z.add (action_length_attr <$> l) z = len_list z l) as G; [|apply G].
  induction H as [|a l Ha _ IH]; intros z; [done|]. cbn [fmap list_fmap fold_left].
  change (len_list z (a :: l)) with (len_list (z + action_len a) l).
  rewrite length_attr_wf by done. apply IH.
Qed.

#[export] Instance ofp_packet_out_msg : Msg ofp_packet_out := {
  mhdr := po_hdr;
  with_hdr h m := PacketOut h (po_buffer_id m) (po_in_port m) (po_actions m) (po_data m);
  mready m := PacketOut (set_length (len_list 16 (po_actions m) + zlen (po_data m)) (po_hdr m))
    (po_buffer_id m) (po_in_port m) (action_settle <$> po_actions m) (po_data m);
  mpack := ofp_packet_out_pack; munpack := ofp_packet_out_unpack; mlen := ofp_packet_out_len;
  mview m := m;
  msg_wf m := hdr_wf (set_length (len_list 16 (po_actions m) + zlen (po_data m)) (po_hdr m)) /\
    (po_buffer_id m = -1 \/ po_data m = []) /\ buffer_wf (po_buffer_id m) /\
    u16 (po_in_port m) /\ Forall action_wf (po_actions m)
}.
#[export] Instance ofp_packet_out_msg_laws : MsgLaws ofp_packet_out.
Proof.
  constructor. intros x st (Hw & Hbd & Hb & H1 & Ha) Hst.
  destruct (buffer_wire _ Hb) as [Hb1 Hb2].
  show_msg ofp_packet_out_msg. unfold ofp_packet_out_pack.
  assert (ofp_packet_out_assert x = true) as ->.
  { unfold ofp_packet_out_assert. destruct Hbd as [-> | ->]; [done|]. by rewrite andb_comm. }
  cbn [po_hdr po_buffer_id po_in_port po_actions po_data andb negb]. unfold_M.
  destruct (pack_actions_ok (po_actions x) [] Ha) as (t & Et & It). rewrite Et. cbn [app].
  assert (16 + zlen t = len_list 16 (po_actions x)) as Lt.
  { by rewrite (actions_image_total _ _ It), settle_len_list, <-len_list_acc. }
  rewrite Lt. pose proof Hw as (_ & _ & Hlen & _). cbn [hdr_length set_length] in Hlen.
  pose proof (zlen_nonneg t). pose proof (zlen_nonneg (po_data x)).
  pack_header. repeat mpack_step. cbn [hdr_length set_length] in *.
  eexists. split; [reflexivity|].
  split; [rewrite !zlen_app; lia|]. split.
  { unfold ofp_packet_out_len. cbn [po_actions po_data].
    rewrite length_attr_list by (apply Forall_fmap, (Forall_impl _ _ _ Ha), settle_wf).
    rewrite settle_len_list, !zlen_app. lia. }
  split; [intros; eexists; rewrite <-!app_assoc; eauto|]. intros y rest.
  unfold ofp_packet_out_unpack. pose proof (zlen_nonneg rest).
  rewrite (proj2 (Z.ltb_ge _ _)) by (rewrite !zlen_app; lia).
  rewrite <-!app_assoc, slice_from_all, Up. cbn [mbind res_bind]. do 2 read_step. rewrite Hb2.
  assert (zlen (p ++ s) = 16) as Lpre by (rewrite !zlen_app; lia).
  pose proof (unpack_actions_read _ t (p ++ s) (po_data x ++ rest) It) as R.
  rewrite <-!app_assoc, Lpre in R. rewrite R. cbn [mbind res_bind].
  assert (p ++ s ++ t ++ po_data x ++ rest = (p ++ s ++ t) ++ po_data x ++ rest) as ->
    by by rewrite <-!app_assoc.
  assert (zlen (p ++ s ++ t) = 16 + zlen t) as Lpt by (rewrite !zlen_app; lia).
  rewrite (slice_from_tail _ _ _ (16 + zlen t)) by lia.
  destruct (Z.ltb_spec (16 + zlen t) (hdr_length h')).
  - by rewrite slice_tail by lia.
  - assert (po_data x = []) as ->; [|done].
    destruct (po_data x); [done|]. unfold zlen in *. simpl in *. lia.
Qed.

(** *** Port lists *)

Lemma pack_ports_ok l packed : Forall ofp_phy_port_wf l ->
  exists s, pack_list true packed l = Ok (l, packed ++ s) /\ wire_image l s.
Proof.
  intros H. revert packed; induction H as [|p l Hp _ IH]; intros packed.
  - exists []. rewrite app_nil_r. split; [done|constructor].
  - destruct (ofp_phy_port_ok p Hp) as (s & E & L & U). destruct (IH (packed ++ s)) as (t & E' & Ht).
    exists (s ++ t). split.
    + cbn [pack_list pack ofp_phy_port_wire]. rewrite E. cbn [mbind res_bind append_opt].
      rewrite E'. cbn [mbind res_bind]. by rewrite app_assoc.
    + constructor; [done|exact L| |exact Ht]. intros y rest _. apply U.
Qed.

Lemma unpack_ports_ok l s : wire_image l s -> forall k pre rest,
  zlen pre = 32 + Z.of_nat k * OFP_PHY_PORT_BYTES ->
  mapM_res (fun i => '(p, _) ← ofp_phy_port_unpack ofp_phy_port_init
              (slice_from (pre ++ s ++ rest) (32 + Z.of_nat i * OFP_PHY_PORT_BYTES)); Ok p)
    (seq k (length l)) = Ok l.
Proof.
  induction 1 as [|p l s t Hp Ls Us Ht IH]; intros k pre rest Hk; [done|].
  cbn [length seq mapM_res]. rewrite slice_from_app by done. rewrite <-app_assoc, Us by done.
  cbn [mbind res_bind].
  assert (pre ++ s ++ t ++ rest = (pre ++ s) ++ t ++ rest) as -> by by rewrite <-!app_assoc.
  rewrite IH; [done|]. rewrite zlen_app, Hk, Ls.
  change (plen p) with OFP_PHY_PORT_BYTES. unfold OFP_PHY_PORT_BYTES. lia.
Qed.

Lemma ports_len l n : fold_left (fun z (_ : ofp_phy_port) => z + OFP_PHY_PORT_BYTES) l n =
  n + 48 * zlen l.
Proof.
  revert n; induction l as [|p l IH]; intros n; [unfold zlen; simpl; lia|].
  cbn [fold_left]. rewrite IH. unfold zlen, OFP_PHY_PORT_BYTES. cbn [length]. lia.
Qed.

#[export] Instance ofp_features_reply_msg : Msg ofp_features_reply := {
  mhdr := fy_hdr;
  with_hdr h m := FeaturesReply h (fy_datapath_id m) (fy_n_buffers m) (fy_n_tables m)
    (fy_capabilities m) (fy_actions m) (fy_ports m);
  mready m := m;
  mpack := ofp_features_reply_pack; munpack := ofp_features_reply_unpack;
  mlen := ofp_features_reply_len; mview m := m;
  msg_wf m := hdr_wf (fy_hdr m) /\ hdr_length (fy_hdr m) = ofp_features_reply_len m /\
    u64 (fy_datapath_id m) /\ u32 (fy_n_buffers m) /\ u8 (fy_n_tables m) /\
    u32 (fy_capabilities m) /\ u32 (fy_actions m) /\ Forall ofp_phy_port_wf (fy_ports m)
}.
#[export] Instance ofp_features_reply_msg_laws : MsgLaws ofp_features_reply.
Proof.
  constructor. intros x st (Hw & Hl & H1 & H2 & H3 & H4 & H5 & Hp) Hst.
  show_msg ofp_features_reply_msg. unfold ofp_features_reply_pack, ofp_features_reply_len in *.
  rewrite ports_len in Hl. unfold_M. pack_header. repeat mpack_step.
  match goal with |- context [pack_list true ?b _] => set (pre := b) end.
  destruct (pack_ports_ok (fy_ports x) pre Hp) as (t & Et & It).
  rewrite Et. eexists. split; [reflexivity|].
  cbn [fy_hdr fy_ports fy_datapath_id fy_n_buffers fy_n_tables fy_capabilities fy_actions].
  assert (zlen t = 48 * zlen (fy_ports x)) as Lt.
  { rewrite (wire_image_len _ _ It). clear. induction (fy_ports x) as [|q l IH]; [done|].
    rewrite len_list_cons, IH. unfold zlen. cbn [length plen ofp_phy_port_wire].
    unfold ofp_phy_port_len. lia. }
  assert (zlen pre = 32) as Lpre by (unfold pre; len_tac).
  pose proof (zlen_nonneg (fy_ports x)).
  split; [rewrite zlen_app; lia|]. split; [rewrite ports_len, zlen_app; lia|].
  split; [intros; eexists; unfold pre; rewrite <-!app_assoc; eauto|]. intros y rest.
  pose proof (zlen_nonneg rest). unfold ofp_features_reply_unpack.
  rewrite <-(app_assoc _ t rest).
  rewrite (proj2 (Z.ltb_ge _ _)) by (rewrite (zlen_app _ (t ++ rest)), zlen_app; lia).
  assert (hdr_length h' - 32 = zlen (fy_ports x) * 48) as Hn by lia.
  assert ((hdr_length h' - 32) / OFP_PHY_PORT_BYTES = zlen (fy_ports x)) as Hc.
  { rewrite Hn. unfold OFP_PHY_PORT_BYTES. by rewrite Z.div_mul. }
  pose proof (unpack_ports_ok _ _ It 0 pre rest Lpre) as R.
  assert (slice_from (pre ++ t ++ rest) (hdr_length h') = rest) as Hrest.
  { apply (slice_from_tail _ _ _ 32); lia. }
  revert R Hrest. unfold pre. rewrite <-!app_assoc. intros R Hrest.
  rewrite slice_from_all, Up. cbn [mbind res_bind]. do 6 read_step.
  rewrite Hc. unfold zlen at 1. rewrite Nat2Z.id, R. cbn [mbind res_bind]. by rewrite Hrest.
Qed.

(** * Properties of the messages *)

(** The contract, unfolded. *)
Lemma msg_roundtrip `{MsgLaws T} (x : T) st : msg_wf x -> 0 <= st < 2 ^ 31 ->
  let '(h, st') := hdr_settle (mhdr (mready x)) st in
  exists s, mpack true x st = (Ok (with_hdr h (mready x), Some s), st') /\
    zlen s = hdr_length (mhdr (with_hdr h (mready x))) /\
    forall y rest, munpack y (s ++ rest) = Ok (mview (with_hdr h (mready x)), rest).
Proof.
  intros Hw Hst. destruct (msg_pack_ok x st Hw Hst) as (s & E & L & _ & _ & U).
  destruct (hdr_settle _ _) as [h st']. by exists s.
Qed.

(** A well-formed flow mod packs to as many bytes as its header then announces, and
    [unpack] reads from them - whatever follows - every field back; the match as the wire
    keeps it, the actions with [max_len] settled. *)
Theorem ofp_flow_mod_roundtrip m st : msg_wf m -> 0 <= st < 2 ^ 31 ->
  let '(h, st') := hdr_settle (set_length (ofp_flow_mod_len m) (fm_hdr m)) st in
  exists m' s, ofp_flow_mod_pack true m st = (Ok (m', Some s), st') /\ zlen s = ofp_flow_mod_len m /\
    forall y rest, ofp_flow_mod_unpack y (s ++ rest) =
      Ok (FlowMod h (wire_view true (fm_match m)) (fm_cookie m) (fm_command m) (fm_idle_timeout m)
            (fm_hard_timeout m) (fm_priority m) (fm_buffer_id m) (fm_out_port m) (fm_flags m)
            (action_settle <$> fm_actions m), rest).
Proof.
  intros Hw Hst. pose proof (msg_roundtrip m st Hw Hst) as HR. cbn [mhdr mready ofp_flow_mod_msg fm_hdr] in HR.
  pose proof (hdr_settle_wf (set_length (ofp_flow_mod_len m) (fm_hdr m)) st) as Hs.
  destruct (hdr_settle _ _) as [h st'] eqn:E. destruct HR as (s & Ep & Ls & U).
  destruct (Hs h st' (proj1 Hw) Hst eq_refl) as (_ & _ & Hlen & _).
  eexists _, s. split; [exact Ep|]. split; [by rewrite Ls; cbn; rewrite Hlen|]. exact U.
Qed.

(** A packet out with well-formed actions - and either data or a buffer, not both -
    packs to as many bytes as its header then announces, and unpacks to itself with the
    actions settled: the reader finds the end of the actions and of the data. *)
Theorem ofp_packet_out_roundtrip m st : msg_wf m -> 0 <= st < 2 ^ 31 ->
  let len := len_list 16 (po_actions m) + zlen (po_data m) in
  let '(h, st') := hdr_settle (set_length len (po_hdr m)) st in
  exists s, ofp_packet_out_pack true m st =
      (Ok (PacketOut h (po_buffer_id m) (po_in_port m) (action_settle <$> po_actions m) (po_data m),
           Some s), st') /\ zlen s = len /\
    forall y rest, ofp_packet_out_unpack y (s ++ rest) =
      Ok (PacketOut h (po_buffer_id m) (po_in_port m) (action_settle <$> po_actions m) (po_data m), rest).
Proof.
  intros Hw Hst len. pose proof (msg_roundtrip m st Hw Hst) as HR.
  cbn [mhdr mready ofp_packet_out_msg po_hdr] in HR. fold len in HR.
  pose proof (hdr_settle_wf (set_length len (po_hdr m)) st) as Hs.
  destruct (hdr_settle _ _) as [h st'] eqn:E. destruct HR as (s & Ep & Ls & U).
  destruct (Hs h st' (proj1 Hw) Hst eq_refl) as (_ & _ & Hlen & _).
  exists s. split; [exact Ep|]. split; [by rewrite Ls; cbn; rewrite Hlen|]. exact U.
Qed.

(** A packet in survives the wire with its data whole; [pack] sets both the length of
    the header and [total_len] to the length of the message. *)
Theorem ofp_packet_in_roundtrip m st : msg_wf m -> 0 <= st < 2 ^ 31 ->
  let len := 18 + zlen (pi_data m) in
  let '(h, st') := hdr_settle (set_length len (pi_hdr m)) st in
  exists s, ofp_packet_in_pack true m st =
      (Ok (PacketIn h (pi_in_port m) (pi_buffer_id m) (pi_reason m) (pi_data m) len, Some s), st') /\
    zlen s = len /\
    forall y rest, ofp_packet_in_unpack y (s ++ rest) =
      Ok (PacketIn h (pi_in_port m) (pi_buffer_id m) (pi_reason m) (pi_data m) len, rest).
Proof.
  intros Hw Hst len. pose proof (msg_roundtrip m st Hw Hst) as HR.
  cbn [mhdr mready ofp_packet_in_msg pi_hdr] in HR.
  assert (ofp_packet_in_len m = len) as El by (unfold ofp_packet_in_len, len; lia). rewrite El in HR.
  pose proof (hdr_settle_wf (set_length len (pi_hdr m)) st) as Hs.
  destruct (hdr_settle _ _) as [h st'] eqn:E. destruct HR as (s & Ep & Ls & U).
  assert (hdr_wf (set_length len (pi_hdr m))) as Hh by (rewrite <-El; exact (proj1 Hw)).
  destruct (Hs h st' Hh Hst eq_refl) as (_ & _ & Hlen & _).
  exists s. split; [exact Ep|]. split; [by rewrite Ls; cbn; rewrite Hlen|]. exact U.
Qed.

(** A features reply whose length field counts its ports survives the wire: all ports
    come back, in order. *)
Theorem ofp_features_reply_roundtrip m st : msg_wf m -> 0 <= st < 2 ^ 31 ->
  let '(h, st') := hdr_settle (fy_hdr m) st in
  let m' := FeaturesReply h (fy_datapath_id m) (fy_n_buffers m) (fy_n_tables m) (fy_capabilities m)
    (fy_actions m) (fy_ports m) in
  exists s, ofp_features_reply_pack true m st = (Ok (m', Some s), st') /\
    zlen s = 32 + 48 * zlen (fy_ports m) /\
    forall y rest, ofp_features_reply_unpack y (s ++ rest) = Ok (m', rest).
Proof.
  intros Hw Hst. pose proof (msg_roundtrip m st Hw Hst) as HR.
  cbn [mhdr mready ofp_features_reply_msg fy_hdr] in HR.
  pose proof (hdr_settle_wf (fy_hdr m) st) as Hs.
  destruct (hdr_settle _ _) as [h st'] eqn:E. destruct HR as (s & Ep & Ls & U).
  destruct (Hs h st' (proj1 Hw) Hst eq_refl) as (_ & _ & Hlen & _).
  exists s. split; [exact Ep|]. split; [|exact U].
  rewrite Ls. cbn. rewrite Hlen. destruct Hw as (_ & -> & _). unfold ofp_features_reply_len. by rewrite ports_len.
Qed.

(** A flow removed message survives the wire, with the match as the wire keeps it. *)
Theorem ofp_flow_removed_roundtrip m st : msg_wf m -> 0 <= st < 2 ^ 31 ->
  let '(h, st') := hdr_settle (fr_hdr m) st in
  exists m' s, ofp_flow_removed_pack true m st = (Ok (m', Some s), st') /\ zlen s = 88 /\
    forall y rest, ofp_flow_removed_unpack y (s ++ rest) =
      Ok (FlowRemoved h (wire_view false (fr_match m)) (fr_cookie m) (fr_priority m) (fr_reason m)
            (fr_duration_sec m) (fr_duration_nsec m) (fr_idle_timeout m) (fr_packet_count m)
            (fr_byte_count m), rest).
Proof.
  intros Hw Hst. pose proof (msg_roundtrip m st Hw Hst) as HR.
  cbn [mhdr mready ofp_flow_removed_msg fr_hdr] in HR.
  pose proof (hdr_settle_wf (fr_hdr m) st) as Hs.
  destruct (hdr_settle _ _) as [h st'] eqn:E. destruct HR as (s & Ep & Ls & U).
  destruct (Hs h st' (proj1 Hw) Hst eq_refl) as (_ & _ & Hlen & _).
  eexists _, s. split; [exact Ep|]. split; [|exact U].
  rewrite Ls. cbn. rewrite Hlen. by destruct Hw as (_ & -> & _).
Qed.

(** A port status survives the wire: the description of the port comes back with its
    address and its name. *)
Theorem ofp_port_status_roundtrip m st : msg_wf m -> 0 <= st < 2 ^ 31 ->
  let '(h, st') := hdr_settle (pst_hdr m) st in
  exists s, ofp_port_status_pack true m st =
      (Ok (PortStatus h (pst_reason m) (pst_desc m), Some s), st') /\ zlen s = 64 /\
    forall y rest, ofp_port_status_unpack y (s ++ rest) =
      Ok (PortStatus h (pst_reason m) (pst_desc m), rest).
Proof.
  intros Hw Hst. pose proof (msg_roundtrip m st Hw Hst) as HR.
  cbn [mhdr mready ofp_port_status_msg pst_hdr] in HR.
  pose proof (hdr_settle_wf (pst_hdr m) st) as Hs.
  destruct (hdr_settle _ _) as [h st'] eqn:E. destruct HR as (s & Ep & Ls & U).
  destruct (Hs h st' (proj1 Hw) Hst eq_refl) as (_ & _ & Hlen & _).
  exists s. split; [exact Ep|]. split; [|exact U].
  rewrite Ls. cbn. rewrite Hlen. by destruct Hw as (_ & -> & _).
Qed.

(** An error message never brings its data: whatever bytes it is read from, the data
    stays what it was before, and the bytes after the first twelve are left over. *)
Theorem ofp_error_unpack_drops_data m b v r : 12 <= zlen b ->
  ofp_error_unpack m b = Ok (v, r) -> oe_data v = oe_data m /\ r = slice_from b 12.
Proof.
  intros Hb. unfold ofp_error_unpack. rewrite (proj2 (Z.ltb_ge _ _)) by done.
  destruct (ofp_header_unpack _ _) as [[h ?]|]; [|done]. cbn [mbind res_bind].
  destruct (struct_unpack_from "!HH" b 8) as [[|ty [|code [|]]]|]; try done.
  by intros [= <- <-].
Qed.

(** Two packet outs that differ only in their data are equal to [__eq__]. *)
Theorem ofp_packet_out_eq_ignores_data h buffer_id in_port actions d1 d2 :
  ofp_header_eq h h = true -> list_eqb action_eq actions actions = true ->
  ofp_packet_out_eq (PacketOut h buffer_id in_port actions d1)
    (PacketOut h buffer_id in_port actions d2) = true.
Proof.
  intros Hh Ha. unfold ofp_packet_out_eq. cbn [po_hdr po_buffer_id po_in_port po_actions].
  by rewrite Hh, !Z.eqb_refl, Ha.
Qed.

(** ** Concrete instances *)

Definition flow_actions : list action := [AOutput (ActOutput OFPAT_OUTPUT 8 (Some 2) 64)].
Definition demo_flow_mod : ofp_flow_mod :=
  FlowMod (Hdr OFP_VERSION OFPT_FLOW_MOD 8 None) http_match 7 OFPFC_ADD 10 60 100 (-1) OFPP_NONE 0
    flow_actions.
Lemma flow_actions_wf : Forall action_wf flow_actions.
Proof. repeat constructor; try discriminate. exists 2. repeat split; discriminate. Qed.
Lemma http_match_wf : match_wf http_match.
Proof. vm_compute. repeat split; discriminate. Qed.
Ltac field_tac := solve [reflexivity | exact I | split; [discriminate|reflexivity] | repeat split; discriminate].

Lemma ofp_flow_mod_roundtrip_witness :
  let m := demo_flow_mod in
  let '(h, st') := hdr_settle (set_length (ofp_flow_mod_len m) (fm_hdr m)) 1 in
  exists m' s, ofp_flow_mod_pack true m 1 = (Ok (m', Some s), st') /\ zlen s = 80 /\
    forall y rest, ofp_flow_mod_unpack y (s ++ rest) =
      Ok (FlowMod h (wire_view true (fm_match m)) 7 OFPFC_ADD 10 60 100 (-1) OFPP_NONE 0
            (action_settle <$> flow_actions), rest).
Proof.
  apply (ofp_flow_mod_roundtrip demo_flow_mod 1); [|split; [discriminate|reflexivity]].
  split; [repeat split; discriminate|]. split; [apply http_match_wf|].
  split_and!; try field_tac; [by left|apply flow_actions_wf].
Defined.

Definition demo_packet_out : ofp_packet_out :=
  PacketOut (Hdr OFP_VERSION OFPT_PACKET_OUT 8 (Some 9)) (-1) OFPP_NONE flow_actions (lit "frame").
Lemma ofp_packet_out_roundtrip_witness :
  let m := demo_packet_out in
  let '(h, st') := hdr_settle (set_length 29 (po_hdr m)) 1 in
  exists s, ofp_packet_out_pack true m 1 =
      (Ok (PacketOut h (-1) OFPP_NONE (action_settle <$> flow_actions) (lit "frame"), Some s), st') /\
    zlen s = 29 /\
    forall y rest, ofp_packet_out_unpack y (s ++ rest) =
      Ok (PacketOut h (-1) OFPP_NONE (action_settle <$> flow_actions) (lit "frame"), rest).
Proof.
  apply (ofp_packet_out_roundtrip demo_packet_out 1); [|split; [discriminate|reflexivity]].
  split; [repeat split; discriminate|].
  split_and!; try field_tac; [by left|by left|apply flow_actions_wf].
Defined.

Definition demo_packet_in : ofp_packet_in :=
  PacketIn (Hdr OFP_VERSION OFPT_PACKET_IN 8 None) 3 17 OFPR_NO_MATCH (lit "frame") 0.
Lemma ofp_packet_in_roundtrip_witness :
  let '(h, st') := hdr_settle (set_length 23 (pi_hdr demo_packet_in)) 1 in
  exists s, ofp_packet_in_pack true demo_packet_in 1 =
      (Ok (PacketIn h 3 17 OFPR_NO_MATCH (lit "frame") 23, Some s), st') /\ zlen s = 23 /\
    forall y rest, ofp_packet_in_unpack y (s ++ rest) =
      Ok (PacketIn h 3 17 OFPR_NO_MATCH (lit "frame") 23, rest).
Proof.
  apply (ofp_packet_in_roundtrip demo_packet_in 1); [|split; [discriminate|reflexivity]].
  split; [repeat split; discriminate|]. split_and!; try field_tac.
  right. split; [discriminate|reflexivity].
Defined.

Definition demo_port : ofp_phy_port :=
  PhyPort 1 (HwEth (eth_of_int 0x020000000001)) (lit "eth0") 0 0 0 0 0 0.
Lemma demo_port_wf : ofp_phy_port_wf demo_port.
Proof.
  unfold ofp_phy_port_wf, hw_wf, text_wf.
  split_and!; try field_tac; try (vm_compute; solve [lia|discriminate]).
  intros Hin. apply list_elem_of_In in Hin. vm_compute in Hin. repeat destruct Hin as [Hin|Hin]; done.
Qed.

Definition demo_features : ofp_features_reply :=
  FeaturesReply (Hdr OFP_VERSION OFPT_FEATURES_REPLY 128 (Some 5)) 1 256 1 0 0 [demo_port; demo_port].
Lemma ofp_features_reply_roundtrip_witness :
  exists s, ofp_features_reply_pack true demo_features 1 = (Ok (demo_features, Some s), 1) /\
    zlen s = 128 /\
    forall y rest, ofp_features_reply_unpack y (s ++ rest) = Ok (demo_features, rest).
Proof.
  apply (ofp_features_reply_roundtrip demo_features 1); [|split; [discriminate|reflexivity]].
  split; [repeat split; discriminate|]. split_and!; try field_tac.
  repeat constructor; apply demo_port_wf.
Defined.

Definition demo_flow_removed : ofp_flow_removed :=
  FlowRemoved (Hdr OFP_VERSION OFPT_FLOW_REMOVED 88 (Some 0)) http_match 7 100 OFPRR_DELETE 12 500 10 4 400.
Lemma ofp_flow_removed_roundtrip_witness :
  let m := demo_flow_removed in
  exists m' s, ofp_flow_removed_pack true m 1 = (Ok (m', Some s), 1) /\ zlen s = 88 /\
    forall y rest, ofp_flow_removed_unpack y (s ++ rest) =
      Ok (FlowRemoved (fr_hdr m) (wire_view false (fr_match m)) 7 100 OFPRR_DELETE 12 500 10 4 400, rest).
Proof.
  apply (ofp_flow_removed_roundtrip demo_flow_removed 1); [|split; [discriminate|reflexivity]].
  split; [repeat split; discriminate|]. split; [reflexivity|]. split; [apply http_match_wf|].
  split_and!; field_tac.
Defined.

Definition demo_port_status : ofp_port_status :=
  PortStatus (Hdr OFP_VERSION OFPT_PORT_STATUS 64 None) OFPPR_ADD demo_port.
Lemma ofp_port_status_roundtrip_witness :
  let '(h, st') := hdr_settle (pst_hdr demo_port_status) 1 in
  exists s, ofp_port_status_pack true demo_port_status 1 =
      (Ok (PortStatus h OFPPR_ADD demo_port, Some s), st') /\ zlen s = 64 /\
    forall y rest, ofp_port_status_unpack y (s ++ rest) = Ok (PortStatus h OFPPR_ADD demo_port, rest).
Proof.
  apply (ofp_port_status_roundtrip demo_port_status 1); [|split; [discriminate|reflexivity]].
  split; [repeat split; discriminate|]. split_and!; try field_tac. apply demo_port_wf.
Defined.

Lemma ofp_error_unpack_drops_data_witness :
  let b := [x01; x01; x00; x0e; x00; x00; x00; x07; x00; x01; x00; x02; x2a; x2b] in
  exists v, ofp_error_unpack ofp_error_init b = Ok (v, [x2a; x2b]) /\ oe_data v = [] /\
    [x2a; x2b] = slice_from b 12.
Proof.
  cbv zeta. eexists. split; [vm_compute; reflexivity|].
  apply (ofp_error_unpack_drops_data ofp_error_init
    [x01; x01; x00; x0e; x00; x00; x00; x07; x00; x01; x00; x02; x2a; x2b]);
    [discriminate|vm_compute; reflexivity].
Defined.

Lemma ofp_packet_out_eq_ignores_data_witness :
  let h := Hdr OFP_VERSION OFPT_PACKET_OUT 29 (Some 9) in
  ofp_packet_out_eq (PacketOut h (-1) OFPP_NONE flow_actions (lit "one frame"))
    (PacketOut h (-1) OFPP_NONE flow_actions (lit "another")) = true.
Proof. apply ofp_packet_out_eq_ignores_data; vm_compute; reflexivity. Defined.
