(* ===== verification/OfStatsMsg.v ===== *)
(** [libopenflow_01.py], part 6: the statistics request and reply messages, whose
    body is a byte string, an object that packs itself, or (in replies) a list.
    [body_data] caches the packed body per body object; bodies are values here, so
    the cache never shows and is left out. *)
From S2P Require Import Prelude.
From S2P Require Import PyStruct.
From S2P Require Import Addresses.
From S2P Require Import OfConst.
From S2P Require Import Wire.
From S2P Require Import OfBase.
From S2P Require Import OfMatch.
From S2P Require Import MatchTheory.
From S2P Require Import OfActions.
From S2P Require Import OfStats.
From S2P Require Import OfMessages.

(** What a body can be made of. *)
Inductive stats_part :=
  | SpBytes (b : bytes)
  | SpDesc (x : ofp_desc_stats)
  | SpFlow (x : ofp_flow_stats)
  | SpAggregate (x : ofp_aggregate_stats)
  | SpTable (x : ofp_table_stats)
  | SpPort (x : ofp_port_stats)
  | SpQueue (x : ofp_queue_stats)
  | SpFlowRequest (x : ofp_flow_stats_request)
  | SpAggregateRequest (x : ofp_aggregate_stats_request)
  | SpPortRequest (x : ofp_port_stats_request)
  | SpQueueRequest (x : ofp_queue_stats_request).
#[export] Instance stats_part_eq_dec : EqDecision stats_part.
Proof. solve_decision. Defined.

(** [b.pack() if hasattr(b, 'pack') else b]. *)
Definition part_pack (b : stats_part) : res (option bytes) :=
  match b with
  | SpBytes b => Ok (Some b)
  | SpDesc x => '(_, s) ← ofp_desc_stats_pack true x; Ok s
  | SpFlow x => '(_, s) ← ofp_flow_stats_pack true x; Ok s
  | SpAggregate x => '(_, s) ← ofp_aggregate_stats_pack true x; Ok s
  | SpTable x => '(_, s) ← ofp_table_stats_pack true x; Ok s
  | SpPort x => '(_, s) ← ofp_port_stats_pack true x; Ok s
  | SpQueue x => '(_, s) ← ofp_queue_stats_pack true x; Ok s
  | SpFlowRequest x => '(_, s) ← ofp_flow_stats_request_pack true x; Ok s
  | SpAggregateRequest x => '(_, s) ← ofp_aggregate_stats_request_pack true x; Ok s
  | SpPortRequest x => '(_, s) ← ofp_port_stats_request_pack true x; Ok s
  | SpQueueRequest x => '(_, s) ← ofp_queue_stats_request_pack true x; Ok s
  end.
(** [len(b)]. *)
Definition part_len (b : stats_part) : Z :=
  match b with
  | SpBytes b => zlen b
  | SpDesc x => ofp_desc_stats_len x
  | SpFlow x => ofp_flow_stats_len x
  | SpAggregate x => ofp_aggregate_stats_len x
  | SpTable x => ofp_table_stats_len x
  | SpPort x => ofp_port_stats_len x
  | SpQueue x => ofp_queue_stats_len x
  | SpFlowRequest x => ofp_flow_stats_request_len x
  | SpAggregateRequest x => ofp_aggregate_stats_request_len x
  | SpPortRequest x => ofp_port_stats_request_len x
  | SpQueueRequest x => ofp_queue_stats_request_len x
  end.

(** A None where bytes are needed. *)
Definition some_bytes (s : option bytes) : res bytes :=
  match s with Some s => Ok s | None => Err TypeError end.

(** * ofp_stats_request *)

Record ofp_stats_request := StatsRequest {
  srq_hdr : ofp_header;
  srq_type : option Z;
  srq_flags : Z;
  srq_body : stats_part
}.

Definition ofp_stats_request_init : ofp_stats_request :=
  StatsRequest (Hdr OFP_VERSION OFPT_STATS_REQUEST 8 None) None 0 (SpBytes []).

Definition srq_body_data (m : ofp_stats_request) : res (option bytes) := part_pack (srq_body m).

Definition ofp_stats_request_len (m : ofp_stats_request) : res Z :=
  d ← srq_body_data m; d ← some_bytes d; Ok (12 + zlen d).

Definition ofp_stats_request_pack (assertstruct : bool) (m : ofp_stats_request)
    : M Z (ofp_stats_request * option bytes) :=
  l ← lift (ofp_stats_request_len m);
  d ← lift (srq_body_data m);
  let type := match srq_type m with
              | Some t => Some t
              | None => match srq_body m with
                        | SpFlowRequest _ => Some OFPST_FLOW
                        | SpAggregateRequest _ => Some OFPST_AGGREGATE
                        | _ => if bool_decide (d = Some []) then Some OFPST_DESC else None
                        end
              end in
  '(h, p) ← ofp_header_pack (set_length l (srq_hdr m));
  t ← lift (need_int type);
  a ← lift (struct_pack "!HH" [t; srq_flags m]);
  packed ← lift (append_opt (p ++ a) d);
  mret (StatsRequest h type (srq_flags m) (srq_body m), Some packed).

Definition ofp_stats_request_unpack (m : ofp_stats_request) (b : bytes)
    : res (ofp_stats_request * bytes) :=
  if zlen b <? 12 then Ok (m, b)
  else
    '(h, _) ← ofp_header_unpack (srq_hdr m) (slice_from b 0);
    tuple [type; flags] ← struct_unpack_from "!HH" b 8;
    let m := StatsRequest h (Some type) flags (SpBytes (slice b 12 (hdr_length h))) in
    l ← ofp_stats_request_len m;
    if negb (hdr_length h =? l) then Err AssertionError
    else Ok (m, slice_from b (hdr_length h)).

Definition ofp_stats_request_eq (a o : ofp_stats_request) : res bool :=
  if negb (ofp_header_eq (srq_hdr a) (srq_hdr o)) then Ok false
  else if negb (oz_eqb (srq_type a) (srq_type o)) then Ok false
  else if negb (srq_flags a =? srq_flags o) then Ok false
  else x ← srq_body_data a; y ← srq_body_data o; Ok (bool_decide (x = y)).

(** * ofp_stats_reply *)

Inductive reply_body :=
  | RbOne (b : stats_part)
  | RbList (l : list stats_part).

Record ofp_stats_reply := StatsReply {
  srp_hdr : ofp_header;
  srp_type : Z;
  srp_flags : Z;
  srp_body : reply_body
}.

Definition ofp_stats_reply_init : ofp_stats_reply :=
  StatsReply (Hdr OFP_VERSION OFPT_STATS_REPLY 8 None) 0 0 (RbOne (SpBytes [])).

Fixpoint pack_parts (data : bytes) (l : list stats_part) : res bytes :=
  match l with
  | [] => Ok data
  | b :: l => s ← part_pack b; data ← append_opt data s; pack_parts data l
  end.

Definition srp_body_data (m : ofp_stats_reply) : res (option bytes) :=
  match srp_body m with
  | RbOne b => part_pack b
  | RbList l => s ← pack_parts [] l; Ok (Some s)
  end.

(** [len(self.body)]: the number of elements when the body is a list. *)
Definition ofp_stats_reply_len (m : ofp_stats_reply) : Z :=
  12 + match srp_body m with RbOne b => part_len b | RbList l => zlen l end.

(** The test on [type] is about Python's builtin and never holds, so the type is
    left as it is. *)
Definition ofp_stats_reply_pack (assertstruct : bool) (m : ofp_stats_reply)
    : M Z (ofp_stats_reply * option bytes) :=
  '(h, p) ← ofp_header_pack (set_length (ofp_stats_reply_len m) (srp_hdr m));
  a ← lift (struct_pack "!HH" [srp_type m; srp_flags m]);
  d ← lift (srp_body_data m);
  packed ← lift (append_opt (p ++ a) d);
  mret (StatsReply h (srp_type m) (srp_flags m) (srp_body m), Some packed).

Definition ofp_stats_reply_unpack (m : ofp_stats_reply) (b : bytes)
    : res (ofp_stats_reply * bytes) :=
  if zlen b <? 12 then Ok (m, b)
  else
    '(h, _) ← ofp_header_unpack (srp_hdr m) (slice_from b 0);
    tuple [type; flags] ← struct_unpack_from "!HH" b 8;
    Ok (StatsReply h type flags (RbOne (SpBytes (slice b 12 (hdr_length h)))),
        slice_from b (hdr_length h)).

(** * The contract, for bodies that are byte strings *)

#[export] Instance ofp_stats_request_msg : Msg ofp_stats_request := {
  mhdr := srq_hdr;
  with_hdr h m := StatsRequest h (srq_type m) (srq_flags m) (srq_body m);
  mready m := StatsRequest (set_length (12 + part_len (srq_body m)) (srq_hdr m)) (srq_type m)
    (srq_flags m) (srq_body m);
  mpack := ofp_stats_request_pack; munpack := ofp_stats_request_unpack;
  mlen m := 12 + part_len (srq_body m); mview m := m;
  msg_wf m := hdr_wf (set_length (12 + part_len (srq_body m)) (srq_hdr m)) /\
    (exists t, srq_type m = Some t /\ u16 t) /\ u16 (srq_flags m) /\
    (exists d, srq_body m = SpBytes d)
}.
#[export] Instance ofp_stats_request_msg_laws : MsgLaws ofp_stats_request.
Proof.
  constructor. intros [h ty fl bd] st (Hw & (t & Ht & Ht16) & Hf & (d & Hd)) Hst.
  cbn in Ht, Hd, Hf. subst. cbn [part_len srq_body srq_hdr] in Hw.
  show_msg ofp_stats_request_msg.
  unfold ofp_stats_request_pack, ofp_stats_request_len, srq_body_data.
  cbn [srq_hdr srq_type srq_flags srq_body part_pack part_len mbind res_bind some_bytes].
  unfold_M. pack_header. cbn [need_int]. repeat mpack_step. cbn [append_opt hdr_length set_length] in *.
  pose proof (zlen_nonneg d).
  eexists. split; [reflexivity|].
  split; [rewrite !zlen_app; lia|]. split; [rewrite !zlen_app; lia|].
  split; [intros; eexists; rewrite <-!app_assoc; eauto|]. intros y rest.
  unfold ofp_stats_request_unpack. rewrite <-!app_assoc. guard_tac. rewrite slice_from_all, Up.
  cbn [mbind res_bind]. do 2 read_step.
  unfold ofp_stats_request_len, srq_body_data. cbn [srq_body part_pack mbind res_bind some_bytes].
  rewrite !(app_assoc p).
  rewrite (slice_tail (p ++ s)), (slice_from_tail (p ++ s) _ _ 12) by (rewrite ?zlen_app; lia).
  rewrite (proj2 (Z.eqb_eq _ _)) by lia. done.
Qed.

#[export] Instance ofp_stats_reply_msg : Msg ofp_stats_reply := {
  mhdr := srp_hdr;
  with_hdr h m := StatsReply h (srp_type m) (srp_flags m) (srp_body m);
  mready m := StatsReply (set_length (ofp_stats_reply_len m) (srp_hdr m)) (srp_type m)
    (srp_flags m) (srp_body m);
  mpack := ofp_stats_reply_pack; munpack := ofp_stats_reply_unpack;
  mlen := ofp_stats_reply_len; mview m := m;
  msg_wf m := hdr_wf (set_length (ofp_stats_reply_len m) (srp_hdr m)) /\
    u16 (srp_type m) /\ u16 (srp_flags m) /\ (exists d, srp_body m = RbOne (SpBytes d))
}.
#[export] Instance ofp_stats_reply_msg_laws : MsgLaws ofp_stats_reply.
Proof.
  constructor. intros [h ty fl bd] st (Hw & Ht & Hf & (d & Hd)) Hst.
  cbn in Ht, Hd, Hf. subst. unfold ofp_stats_reply_len in Hw. cbn [part_len srp_body srp_hdr] in Hw.
  show_msg ofp_stats_reply_msg.
  unfold ofp_stats_reply_pack, ofp_stats_reply_len, srp_body_data.
  cbn [srp_hdr srp_type srp_flags srp_body part_pack part_len].
  unfold_M. pack_header. repeat mpack_step. cbn [append_opt hdr_length set_length] in *.
  pose proof (zlen_nonneg d).
  eexists. split; [reflexivity|].
  split; [rewrite !zlen_app; lia|]. split; [rewrite !zlen_app; lia|].
  split; [intros; eexists; rewrite <-!app_assoc; eauto|]. intros y rest.
  unfold ofp_stats_reply_unpack. rewrite <-!app_assoc. guard_tac. rewrite slice_from_all, Up.
  cbn [mbind res_bind]. do 2 read_step. rewrite !(app_assoc p).
  by rewrite (slice_tail (p ++ s)), (slice_from_tail (p ++ s) _ _ 12) by (rewrite ?zlen_app; lia).
Qed.

(** * A reply whose body is a list *)

Definition parts_len (l : list bytes) : Z := zlen (concat l).
Lemma pack_parts_bytes l acc : pack_parts acc (map SpBytes l) = Ok (acc ++ concat l).
Proof.
  revert acc; induction l as [|d l IH]; intros acc; cbn [map pack_parts part_pack concat mbind res_bind append_opt].
  - by rewrite app_nil_r.
  - by rewrite IH, app_assoc.
Qed.

(** A statistics reply with a list for a body announces the number of its elements
    instead of their length, so that a reader who trusts the header takes the end of the
    body for the next message. *)
Theorem ofp_stats_reply_list_length h type flags (l : list bytes) st :
  hdr_wf (set_length (12 + zlen l) h) -> 0 <= st < 2 ^ 31 -> u16 type -> u16 flags ->
  zlen l < parts_len l ->
  exists m' s, ofp_stats_reply_pack true (StatsReply h type flags (RbList (map SpBytes l))) st =
      (Ok (m', Some s), snd (hdr_settle (set_length (12 + zlen l) h) st)) /\
    zlen s = 12 + parts_len l /\ hdr_length (srp_hdr m') = 12 + zlen l /\
    forall y, exists v r, ofp_stats_reply_unpack y s = Ok (v, r) /\ r <> [].
Proof.
  intros Hw Hst Ht Hf Hl. unfold ofp_stats_reply_pack, ofp_stats_reply_len, srp_body_data, parts_len in *.
  cbn [srp_hdr srp_type srp_flags srp_body]. unfold zlen at 1 2. rewrite length_map. fold (zlen l).
  unfold_M. pack_header. repeat mpack_step. rewrite pack_parts_bytes. cbn [mbind res_bind append_opt app].
  cbn [hdr_length set_length] in *. pose proof (zlen_nonneg l).
  eexists _, _. split; [reflexivity|]. split; [rewrite !zlen_app; lia|]. split; [done|].
  intros y. unfold ofp_stats_reply_unpack. rewrite <-!app_assoc. guard_tac. rewrite slice_from_all, Up.
  cbn [mbind res_bind]. do 2 read_step. eexists _, _. split; [reflexivity|].
  intros Hr. apply (f_equal length) in Hr. unfold slice_from, py_index in Hr.
  rewrite length_drop, (proj2 (Z.ltb_ge _ _)) in Hr by lia. cbn [length] in Hr.
  unfold zlen in *. rewrite !length_app in Hr. lia.
Qed.

Lemma ofp_stats_reply_list_length_witness :
  let h := Hdr OFP_VERSION OFPT_STATS_REPLY 8 (Some 3) in
  exists m' s, ofp_stats_reply_pack true
      (StatsReply h OFPST_TABLE 0 (RbList (map SpBytes [replicate 64 x00]))) 1 = (Ok (m', Some s), 1) /\
    zlen s = 76 /\ hdr_length (srp_hdr m') = 13 /\
    forall y, exists v r, ofp_stats_reply_unpack y s = Ok (v, r) /\ r <> [].
Proof.
  apply (ofp_stats_reply_list_length (Hdr OFP_VERSION OFPT_STATS_REPLY 8 (Some 3)) OFPST_TABLE 0
    [replicate 64 x00] 1); try (split; [discriminate|reflexivity]); [|reflexivity].
  repeat split; discriminate.
Defined.
