(* ===== verification/Packets.v ===== *)
(** Packets ([lib/packet/]): the attributes of the packet classes, the operations of
    [packet_base] that do not depend on the class, and [ofp_match.from_packet], which
    turns a packet into a match.  A packet is a chain of layers through [next]; the
    attribute [prev] is the layer before, as the parsers and [set_payload] leave it.
    The codecs are in [PacketCodec]. *)
From S2P Require Import Prelude.
From S2P Require Import PyStruct.
From S2P Require Import Addresses.
From S2P Require Import OfConst.
From S2P Require Import Wire.
From S2P Require Import OfMatch.
From S2P Require Import MatchTheory.

(** [vlan]: the attribute [c] exists only after parsing; [cfi] is never used. *)
Record vlan := Vlan {
  vlan_pcp : Z; vlan_cfi : Z; vlan_id : Z; vlan_eth_type : Z; vlan_c : option Z
}.
#[export] Instance vlan_eq_dec : EqDecision vlan.
Proof. solve_decision. Defined.

Record mpls := Mpls { mpls_label : Z; mpls_tc : Z; mpls_s : Z; mpls_ttl : Z }.
#[export] Instance mpls_eq_dec : EqDecision mpls.
Proof. solve_decision. Defined.

(** [ipv4].  After a failed parse the addresses are still the integers that were
    read, so they are [nwaddr]s. *)
Record ipv4 := Ipv4 {
  ip_v : Z; ip_hl : Z; ip_tos : Z; ip_iplen : Z; ip_id : Z; ip_flags : Z; ip_frag : Z;
  ip_ttl : Z; ip_protocol : Z; ip_csum : Z;
  ip_srcip : nwaddr;
  ip_dstip : nwaddr
}.
#[export] Instance ipv4_eq_dec : EqDecision ipv4.
Proof. solve_decision. Defined.

(** An address as a key: an integer (which a failed parse leaves as the source) is the same key
    as an [IPAddr] if it is equal to it and hashes like it. *)
Definition ip_key (a : nwaddr) : Z + Z :=
  match a with
  | NwIP a => inl (ip_value a)
  | NwInt z => if ip_value (ip_of_int z) =? z then inl z else inr z
  end.
(** [!= 0]. *)
Definition nw_nonzero (a : nwaddr) : bool :=
  match a with NwIP a => negb (ip_toUnsigned a false =? 0) | NwInt z => negb (z =? 0) end.

Record arp := Arp {
  arp_hwtype : Z; arp_prototype : Z;
  arp_hwsrc : hwaddr; arp_hwdst : hwaddr;
  arp_hwlen : Z; arp_opcode : Z; arp_protolen : Z;
  arp_protosrc : nwaddr;
  arp_protodst : nwaddr
}.
#[export] Instance arp_eq_dec : EqDecision arp.
Proof. solve_decision. Defined.

Record udp := Udp { udp_srcport : Z; udp_dstport : Z; udp_len : Z; udp_csum : Z }.
#[export] Instance udp_eq_dec : EqDecision udp.
Proof. solve_decision. Defined.

(** The value of a TCP option: None, an integer, a pair (timestamps), a list of
    pairs (SACK) or raw bytes (unknown options). *)
Inductive opt_val :=
  | VNone
  | VInt (z : Z)
  | VPair (x y : Z)
  | VPairs (l : list (Z * Z))
  | VBytes (b : bytes).
#[export] Instance opt_val_eq_dec : EqDecision opt_val.
Proof. solve_decision. Defined.

Record tcp_opt := TcpOpt { opt_type : Z; opt_value : opt_val }.
#[export] Instance tcp_opt_eq_dec : EqDecision tcp_opt.
Proof. solve_decision. Defined.

Record tcp := Tcp {
  tcp_srcport : Z; tcp_dstport : Z; tcp_seq : Z; tcp_ack : Z; tcp_off : Z; tcp_res : Z;
  tcp_flags : Z; tcp_win : Z; tcp_csum : Z; tcp_urg : Z; tcp_tcplen : Z;
  tcp_options : list tcp_opt
}.
#[export] Instance tcp_eq_dec : EqDecision tcp.
Proof. solve_decision. Defined.

Record icmp := Icmp { icmp_type : Z; icmp_code : Z; icmp_csum : Z }.
#[export] Instance icmp_eq_dec : EqDecision icmp.
Proof. solve_decision. Defined.

Record echo := Echo { echo_id : Z; echo_seq : Z }.
#[export] Instance echo_eq_dec : EqDecision echo.
Proof. solve_decision. Defined.

Record unreach := Unreach { unreach_unused : Z; unreach_next_mtu : Z }.
#[export] Instance unreach_eq_dec : EqDecision unreach.
Proof. solve_decision. Defined.

Record eapol := Eapol { eapol_version : Z; eapol_type : Z; eapol_bodylen : Z }.
#[export] Instance eapol_eq_dec : EqDecision eapol.
Proof. solve_decision. Defined.

(** [eap]: the attribute [type] exists only after parsing a request or a response. *)
Record eap := Eap { eap_code : Z; eap_id : Z; eap_length : Z; eap_type : option Z }.
#[export] Instance eap_eq_dec : EqDecision eap.
Proof. solve_decision. Defined.

(** The packet classes a packet can hold.  [LApp]: an object of one of the remaining
    classes (lldp, dhcp, dns), known by its class and the bytes it was made of; these
    classes leave [next] None. *)
Inductive app_class := C_lldp | C_dhcp | C_dns.
#[export] Instance app_class_eq_dec : EqDecision app_class.
Proof. solve_decision. Defined.

Inductive layer :=
  | LVlan (v : vlan)
  | LMpls (m : mpls)
  | LIpv4 (h : ipv4)
  | LArp (a : arp)
  | LUdp (u : udp)
  | LTcp (t : tcp)
  | LIcmp (i : icmp)
  | LEcho (e : echo)
  | LUnreach (u : unreach)
  | LEapol (e : eapol)
  | LEap (e : eap)
  | LApp (c : app_class) (raw : bytes).
#[export] Instance layer_eq_dec : EqDecision layer.
Proof. solve_decision. Defined.

(** What the attribute [next] can be: absent ([icmp] and [unreach] do not run the
    base constructor), None, raw bytes, or a packet: its attribute [parsed] - absent
    likewise - its own attributes and its [next]. *)
Inductive payload :=
  | PMissing
  | PNone
  | PBytes (b : bytes)
  | PPacket (parsed : option bool) (l : layer) (next : payload).
#[export] Instance payload_eq_dec : EqDecision payload.
Proof. solve_decision. Defined.

Record ethernet := Ethernet {
  eth_dst : hwaddr;
  eth_src : hwaddr;
  eth_type : Z;
  eth_next : payload;
  eth_parsed : bool
}.
#[export] Instance ethernet_eq_dec : EqDecision ethernet.
Proof. solve_decision. Defined.

(** * [packet_base] *)

Definition class_name (l : layer) : String.string :=
  match l with
  | LVlan _ => "vlan" | LMpls _ => "mpls" | LIpv4 _ => "ipv4" | LArp _ => "arp"
  | LUdp _ => "udp" | LTcp _ => "tcp" | LIcmp _ => "icmp" | LEcho _ => "echo"
  | LUnreach _ => "unreach" | LEapol _ => "eapol" | LEap _ => "eap"
  | LApp C_lldp _ => "lldp"
  | LApp C_dhcp _ => "dhcp" | LApp C_dns _ => "dns"
  end.

Definition attr_parsed (parsed : option bool) : res bool :=
  match parsed with Some b => Ok b | None => Err AttributeError end.

(** [self.next and isinstance(self.next, packet_base)]: a packet counts as true when
    its [parsed] is True, a string when it is not empty. *)
Fixpoint find (proto : String.string) (p : payload) : res (option payload) :=
  match p with
  | PPacket parsed l next =>
      self ← (if String.eqb (class_name l) proto then attr_parsed parsed else Ok false);
      if (self : bool) then Ok (Some p)
      else match next with
           | PMissing => Err AttributeError
           | PNone | PBytes _ => Ok None
           | PPacket nparsed _ _ =>
               b ← attr_parsed nparsed;
               if (b : bool) then find proto next else Ok None
           end
  | _ => Ok None
  end.

Definition eth_find (proto : String.string) (packet : ethernet) : res (option (ethernet + payload)) :=
  if String.eqb "ethernet" proto && eth_parsed packet then Ok (Some (inl packet))
  else match eth_next packet with
       | PMissing => Err AttributeError
       | PNone | PBytes _ => Ok None
       | PPacket nparsed _ _ =>
           b ← attr_parsed nparsed;
           r ← (if (b : bool) then find proto (eth_next packet) else Ok None : res (option payload));
           Ok (option_map inr r)
       end.

(** [ofp_match.from_packet]. *)
Definition from_packet (packet : ethernet) (in_port : option Z) : res ofp_match :=
  let m := ofp_match_init in
  let m := match in_port with Some i => set_int In_port (Some i) m | None => m end in
  let m := set_dl Dl_src (Some (eth_src packet)) m in
  let m := set_dl Dl_dst (Some (eth_dst packet)) m in
  let m := set_int Dl_type (Some (eth_type packet)) m in
  let p := eth_next packet in
  let '(m, p) :=
    match p with
    | PPacket _ (LVlan v) next =>
        (set_int Dl_vlan_pcp (Some (vlan_pcp v)) (set_int Dl_vlan (Some (vlan_id v))
           (set_int Dl_type (Some (vlan_eth_type v)) m)), next)
    | _ => (set_int Dl_vlan_pcp (Some 0) (set_int Dl_vlan (Some OFP_VLAN_NONE) m), p)
    end in
  match p with
  | PPacket _ (LIpv4 h) next =>
      m ← set_nw_src (AAddr (ip_srcip h)) m;
      m ← set_nw_dst (AAddr (ip_dstip h)) m;
      let m := set_int Nw_proto (Some (ip_protocol h)) m in
      let m := set_int Nw_tos (Some (ip_tos h)) m in
      Ok (match next with
          | PPacket _ (LUdp u) _ =>
              set_int Tp_dst (Some (udp_dstport u)) (set_int Tp_src (Some (udp_srcport u)) m)
          | PPacket _ (LTcp t) _ =>
              set_int Tp_dst (Some (tcp_dstport t)) (set_int Tp_src (Some (tcp_srcport t)) m)
          | PPacket _ (LIcmp i) _ =>
              set_int Tp_dst (Some (icmp_code i)) (set_int Tp_src (Some (icmp_type i)) m)
          | _ => m
          end)
  | PPacket _ (LArp h) _ =>
      if arp_opcode h <=? 255 then
        let m := set_int Nw_proto (Some (arp_opcode h)) m in
        m ← set_nw_src (AAddr (arp_protosrc h)) m;
        set_nw_dst (AAddr (arp_protodst h)) m
      else Ok m
  | _ => Ok m
  end.

(** * The header of a packet *)

(** The layer behind an optional VLAN tag. *)
Definition inner (packet : ethernet) : payload :=
  match eth_next packet with PPacket _ (LVlan _) next => next | p => p end.

Definition packet_header (packet : ethernet) (in_port : option Z) : header :=
  let vlan := match eth_next packet with
              | PPacket _ (LVlan v) _ => (vlan_id v, vlan_pcp v, vlan_eth_type v)
              | _ => (OFP_VLAN_NONE, 0, eth_type packet)
              end in
  let '(id, pcp, ty) := vlan in
  let '(tos, proto, src, dst) :=
    match inner packet with
    | PPacket _ (LIpv4 h) _ => (Some (ip_tos h), Some (ip_protocol h), Some (nw_val (ip_srcip h)),
                    Some (nw_val (ip_dstip h)))
    | PPacket _ (LArp h) _ => if arp_opcode h <=? 255
                  then (None, Some (arp_opcode h), Some (nw_val (arp_protosrc h)),
                        Some (nw_val (arp_protodst h)))
                  else (None, None, None, None)
    | _ => (None, None, None, None)
    end in
  let '(tps, tpd) :=
    match inner packet with
    | PPacket _ (LIpv4 _) (PPacket _ (LUdp u) _) => (Some (udp_srcport u), Some (udp_dstport u))
    | PPacket _ (LIpv4 _) (PPacket _ (LTcp t) _) => (Some (tcp_srcport t), Some (tcp_dstport t))
    | PPacket _ (LIpv4 _) (PPacket _ (LIcmp i) _) => (Some (icmp_type i), Some (icmp_code i))
    | _ => (None, None)
    end in
  Header in_port (Some (hw_raw (eth_src packet))) (Some (hw_raw (eth_dst packet)))
    (Some id) (Some pcp) (Some ty) tos proto src dst tps tpd.

Definition eth_addrs (packet : ethernet) : Prop :=
  (exists a, eth_src packet = HwEth a) /\ (exists a, eth_dst packet = HwEth a).

(** A packet's match says exactly what the packet's header is. *)
Lemma from_packet_header packet in_port : eth_addrs packet ->
  exists m, from_packet packet in_port = Ok m /\ packet_match m /\
    header_of m = packet_header packet in_port.
Proof.
  intros [[s Hs] [d Hd]]. destruct packet as [dst src ty p pa]. cbn in Hs, Hd. subst.
  unfold packet_match, dl_eth, nw_whole, from_packet, packet_header, inner.
  destruct in_port as [i|], p as [| | |pd [v|m|h|h|u|t|ic|e|un|eo|ea|c raw] p]; cbn [eth_next eth_src eth_dst eth_type];
    try (destruct p as [| | |pd' [v'|m'|h|h|u|t|ic|e|un|eo|ea|c raw] p]);
    try (destruct (arp_opcode h <=? 255));
    try (destruct p as [| | |pd2 [v2|m2|h2|h2|u|t|ic|e|un2|eo2|ea2|c raw] p]);
    eexists; (split; [reflexivity|]); lazy -[nw_val hw_raw];
    (split; [split; [eauto|by split]|reflexivity]).
Qed.

(** The match made from a packet describes the packet and nothing else: a match
    accepts the packet - by the lookup's test - exactly when it accepts the packet's
    header. *)
Theorem from_packet_faithful packet in_port a : eth_addrs packet -> dl_eth a ->
  exists m, from_packet packet in_port = Ok m /\
    matches_with_wildcards a m false = Ok (sem a (packet_header packet in_port)).
Proof.
  intros He Ha. destruct (from_packet_header packet in_port He) as (m & E & Hm & Hh).
  exists m. split; [done|]. rewrite <-Hh. by apply matches_packet.
Qed.

Lemma from_packet_faithful_witness :
  let p := Ethernet (HwEth EMPTY_ETH) (HwEth EMPTY_ETH) 0x8100
    (PPacket (Some true) (LVlan (Vlan 3 0 12 0x0800 (Some 0)))
      (PPacket (Some true) (LIpv4 (Ipv4 4 5 0 40 1 0 0 64 6 0 (NwInt 0x0a010203) (NwInt 2)))
        (PPacket (Some true) (LTcp (Tcp 5000 80 1 2 5 0 0 0 0 0 20 [])) (PBytes [])))) true in
  sem http_match (packet_header p (Some 1)) = true /\
  exists m, from_packet p (Some 1) = Ok m /\
    matches_with_wildcards http_match m false = Ok (sem http_match (packet_header p (Some 1))).
Proof.
  split; [vm_compute; reflexivity|].
  apply from_packet_faithful; split; eexists; reflexivity.
Defined.
