(* ===== verification/PacketCodec.v ===== *)
(** The codecs of [lib/packet/]: [parse], [hdr] and [pack] of ethernet, vlan, mpls, arp,
    ipv4, udp, tcp, icmp and eapol packets.  The codecs of lldp, dhcp and dns are the
    interface [AppCodec].  Attributes that are set and never read ([raw], [hdr_len],
    [payload_len]) are left out. *)
From S2P Require Import Prelude.
From S2P Require Import PyStruct.
From S2P Require Import Checksum.
From S2P Require Import Addresses.
From S2P Require Import Wire.
From S2P Require Import OfMatch.
From S2P Require Import Packets.

(** The remaining packet classes: whether the constructor, given bytes, leaves the
    attribute [parsed] True (or raises), and what packing that object gives. *)
Class AppCodec := {
  app_parsed : app_class -> bytes -> res bool;
  app_pack : app_class -> bytes -> res bytes
}.

(** What constructors draw on: the class attribute [ipv4.ip_id] and [random.randint]. *)
Record pstate := PState { ps_ip_id : Z; ps_random : nat -> Z }.

Definition next_ip_id : M pstate Z :=
  s ← get;
  let i := Z.land (ps_ip_id s + 1) 0xffff in
  put (PState i (ps_random s));; mret i.
Definition randint : M pstate Z :=
  s ← get;
  put (PState (ps_ip_id s) (fun n => ps_random s (S n)));; mret (ps_random s 0%nat).

(** * Defaults of the constructors *)

Definition LLDP_TYPE : Z := 0x88cc.
Definition ETHER_ANY : hwaddr := HwEth (MkEth (replicate 6 x00)).
Definition IP_ANY : nwaddr := NwIP (MkIP 0).

Definition vlan_init : vlan := Vlan 0 0 0 0 None.
Definition mpls_init : mpls := Mpls 0 0 0 0.
Definition arp_init : arp := Arp 1 0x0800 ETHER_ANY ETHER_ANY 6 0 4 IP_ANY IP_ANY.
Definition ipv4_init (id : Z) : ipv4 := Ipv4 4 (20 / 4) 0 20 id 0 0 64 0 0 IP_ANY IP_ANY.
Definition udp_init : udp := Udp 0 0 8 0.
Definition tcp_init : tcp := Tcp 0 0 0 0 0 0 0 0 0 0 0 [].
Definition icmp_init : icmp := Icmp 0 0 0.
Definition echo_init (id : Z) : echo := Echo id 0.
Definition unreach_init : unreach := Unreach 0 0.
Definition eapol_init : eapol := Eapol 1 0 0.
Definition eap_init : eap := Eap 1 0 0 None.
Definition ethernet_init : ethernet := Ethernet ETHER_ANY ETHER_ANY 0 (PBytes []) false.

(** * TCP options *)

Definition EOL := 0.
Definition NOP := 1.
Definition MSS := 2.
Definition WSOPT := 3.
Definition SACKPERM := 4.
Definition SACK := 5.
Definition TSOPT := 8.

Definition ord_at (arr : bytes) (i : Z) : res Z :=
  match arr !! Z.to_nat i with Some c => Ok (Z_of_byte c) | None => Err IndexError end.

(** ["!" + "II" * num]. *)
Fixpoint repeat_II (num : nat) : String.string :=
  match num with O => "" | S num => "II" +:+ repeat_II num end.
Definition fmt_IIs (num : nat) : String.string := "!" +:+ repeat_II num.

(** [zip(val[0::2], val[1::2])]. *)
Fixpoint pairs (val : list Z) : list (Z * Z) :=
  match val with x :: y :: val => (x, y) :: pairs val | _ => [] end.

(** One option that is not EOL or NOP, at index [i]. *)
Definition parse_option (arr : bytes) (dlen i ty : Z) : res (tcp_opt * Z) :=
  if dlen <? i + 2 then Err RuntimeError else
  len ← ord_at arr (i + 1);
  if dlen <? i + len then Err RuntimeError else
  if len <? 2 then Err RuntimeError else
  o ← (if ty =? MSS then
         if negb (len =? 4) then Err RuntimeError else
         tuple [val] ← struct_unpack "!H" (slice arr (i + 2) (i + 4)); Ok (TcpOpt MSS (VInt val))
       else if ty =? WSOPT then
         if negb (len =? 3) then Err RuntimeError else
         v ← ord_at arr (i + 2); Ok (TcpOpt WSOPT (VInt v))
       else if ty =? SACKPERM then
         if negb (len =? 2) then Err RuntimeError else Ok (TcpOpt SACKPERM VNone)
       else if ty =? SACK then
         if (2 <=? len) && ((len - 2) mod 8 =? 0) then
           let num := (len - 2) / 8 in
           val ← struct_unpack (fmt_IIs (Z.to_nat num)) (slice_from arr (i + 2));
           Ok (TcpOpt SACK (VPairs (pairs val)))
         else Err RuntimeError
       else if ty =? TSOPT then
         if negb (len =? 10) then Err RuntimeError else
         tuple [val1; val2] ← struct_unpack "!II" (slice arr (i + 2) (i + 10));
         Ok (TcpOpt TSOPT (VPair val1 val2))
       else Ok (TcpOpt ty (VBytes (slice arr (i + 2) (i + 2 + len)))));
  Ok (o, i + len).

(** [parse_options]: the loop over the options; the state is [self.options]. *)
Fixpoint parse_options_loop (fuel : nat) (arr : bytes) (dlen hdr_len i : Z) : M (list tcp_opt) Z :=
  match fuel with
  | O => raise Diverge
  | S fuel =>
      if i <? hdr_len then
        ty ← lift (ord_at arr i);
        if ty =? EOL then mret i
        else if ty =? NOP then
          options ← get;
          put (options ++ [TcpOpt NOP VNone]);;
          parse_options_loop fuel arr dlen hdr_len (i + 1)
        else
          r ← lift (parse_option arr dlen i ty);
          options ← get;
          put (options ++ [r.1]);;
          parse_options_loop fuel arr dlen hdr_len r.2
      else mret i
  end.
Definition parse_options (raw : bytes) (hdr_len : Z) : M (list tcp_opt) Z :=
  put [];; parse_options_loop (S (length raw)) raw (zlen raw) hdr_len 20.

(** [tcp_opt.to_bytes].  Values no parser makes for the type raise what [struct] or the
    attribute access raises. *)
Definition to_bytes (o : tcp_opt) : res bytes :=
  let type := opt_type o in
  if (type =? EOL) || (type =? NOP) then struct_pack "B" [type]
  else if type =? MSS then
    match opt_value o with VInt v => struct_pack "!BBH" [type; 4; v] | _ => Err StructError end
  else if type =? WSOPT then
    match opt_value o with VInt v => struct_pack "!BBB" [type; 3; v] | _ => Err StructError end
  else if type =? SACKPERM then struct_pack "!BB" [type; 2]
  else if type =? SACK then
    match opt_value o with
    | VPairs l => struct_pack (fmt_IIs (length l)) (concat ((fun p => [p.1; p.2]) <$> l))
    | VPair _ _ | VBytes _ => Err StructError
    | _ => Err TypeError
    end
  else if type =? TSOPT then
    match opt_value o with
    | VPair x y => struct_pack "!BBII" [type; 10; x; y]
    | VPairs _ | VBytes _ => Err StructError
    | _ => Err TypeError
    end
  else Ok [].

(** * [parse] *)

Definition payload_parsed (p : payload) : option bool :=
  match p with PPacket parsed _ _ => parsed | _ => None end.

Definition eap_new (raw : bytes) : res payload :=
  if zlen raw <? 4 then Ok (PPacket (Some false) (LEap eap_init) PNone) else
  tuple [code; id; length] ← struct_unpack "!BBH" (slice raw 0 4);
  let done (t : option Z) := PPacket (Some true) (LEap (Eap code id length t)) PNone in
  if (code =? 1) || (code =? 2) then
    tuple [type] ← struct_unpack "!B" (slice raw 4 5); Ok (done (Some type))
  else Ok (done None).

Definition eapol_new (raw : bytes) : res payload :=
  if zlen raw <? 4 then Ok (PPacket (Some false) (LEapol eapol_init) PNone) else
  tuple [version; type; bodylen] ← struct_unpack "!BBH" (slice raw 0 4);
  next ← (if type =? 0 then eap_new (slice_from raw 4) else Ok PNone);
  Ok (PPacket (Some true) (LEapol (Eapol version type bodylen)) next).

Definition mpls_new (raw : bytes) : res payload :=
  if zlen raw <? 4 then Ok (PPacket (Some false) (LMpls mpls_init) PNone) else
  tuple [label_high; label_low_tc_s; ttl] ← struct_unpack "!HBB" (slice raw 0 4);
  let s := Z.land label_low_tc_s 0x1 in
  let tc := Z.shiftr (Z.land label_low_tc_s 0xf) 1 in
  let label := Z.lor (Z.shiftl label_high 4) (Z.shiftr label_low_tc_s 4) in
  Ok (PPacket (Some true) (LMpls (Mpls label tc s ttl)) (PBytes (slice_from raw 4))).

Definition nw_of_raw (s : bytes) : res nwaddr :=
  tuple [z] ← struct_unpack "!I" s;
  a ← IPAddr_init (IInt z) false; Ok (NwIP a).

Definition arp_new (raw : bytes) : res payload :=
  if zlen raw <? 28 then Ok (PPacket (Some false) (LArp arp_init) (PBytes [])) else
  tuple [hwtype; prototype; hwlen; protolen; opcode] ← struct_unpack "!HHBBH" (slice raw 0 8);
  hw ← (if negb (hwlen =? 6) then Ok (ETHER_ANY, ETHER_ANY)
        else src ← hw_of_bytes (slice raw 8 14);
             dst ← hw_of_bytes (slice raw 18 24); Ok (src, dst));
  proto ← (if negb (protolen =? 4) then Ok (IP_ANY, IP_ANY)
           else src ← nw_of_raw (slice raw 14 18);
                dst ← nw_of_raw (slice raw 24 28); Ok (src, dst));
  Ok (PPacket (Some true)
        (LArp (Arp hwtype prototype hw.1 hw.2 hwlen opcode protolen proto.1 proto.2))
        (PBytes (slice_from raw 28))).

(** [parse_options] inside [try ... except Exception]: a failed parse leaves the
    options read so far and [parsed] False. *)
Definition tcp_new (raw : bytes) : res payload :=
  let fresh := PPacket (Some false) (LTcp tcp_init) (PBytes []) in
  if zlen raw <? 20 then Ok fresh else
  tuple [srcport; dstport; seq; ack; offres; flags; win; csum; urg]
    ← struct_unpack "!HHIIBBHHH" (slice raw 0 20);
  let off := Z.shiftr offres 4 in
  let tcp := Tcp srcport dstport seq ack off (Z.land offres 0x0f) flags win csum urg (zlen raw) in
  let hdr_len := off * 4 in
  if (hdr_len <? 20) || (zlen raw <? hdr_len)
  then Ok (PPacket (Some false) (LTcp (tcp [])) (PBytes [])) else
  match parse_options raw hdr_len [] with
  | (Err Diverge, _) => Err Diverge
  | (Err _, options) => Ok (PPacket (Some false) (LTcp (tcp options)) (PBytes []))
  | (Ok _, options) =>
      Ok (PPacket (Some true) (LTcp (tcp options)) (PBytes (slice_from raw hdr_len)))
  end.

Definition SERVER_PORT := 67.
Definition CLIENT_PORT := 68.
Definition DNS_PORT := 53.

Definition app_new `{AppCodec} (c : app_class) (raw : bytes) : res payload :=
  parsed ← app_parsed c raw; Ok (PPacket (Some parsed) (LApp c raw) PNone).

Definition udp_new `{AppCodec} (raw : bytes) : res payload :=
  if zlen raw <? 8 then Ok (PPacket (Some false) (LUdp udp_init) PNone) else
  tuple [srcport; dstport; len; csum] ← struct_unpack "!HHHH" (slice raw 0 8);
  let udp := PPacket (Some true) (LUdp (Udp srcport dstport len csum)) in
  if len <? 8 then Ok (udp PNone) else
  if (dstport =? SERVER_PORT) || (dstport =? CLIENT_PORT)
  then next ← app_new C_dhcp (slice_from raw 8); Ok (udp next)
  else if (dstport =? DNS_PORT) || (srcport =? DNS_PORT)
  then next ← app_new C_dns (slice_from raw 8); Ok (udp next)
  else if zlen raw <? len then Ok (udp PNone)
  else Ok (udp (PBytes (slice_from raw 8))).

Definition echo_new (raw : bytes) : M pstate payload :=
  id ← randint;
  if zlen raw <? 4 then mret (PPacket (Some false) (LEcho (echo_init id)) PNone) else
  lift (tuple [id; seq] ← struct_unpack "!HH" (slice raw 0 4);
        Ok (PPacket (Some true) (LEcho (Echo id seq)) (PBytes (slice_from raw 4)))).

Section Nested.
(** The [ipv4] constructor, which [unreach] calls for the datagram it quotes. *)
Context `{AppCodec} (ipv4_rec : bytes -> M pstate payload).

Definition unreach_new (raw : bytes) : M pstate payload :=
  if zlen raw <? 4 then mret (PPacket None (LUnreach unreach_init) PMissing) else
  h ← lift (tuple [unused; next_mtu] ← struct_unpack "!HH" (slice raw 0 4);
            Ok (Unreach unused next_mtu));
  next ← (if 28 <=? zlen raw then ipv4_rec (slice_from raw 4)
          else mret (PBytes (slice_from raw 4)));
  mret (PPacket (Some true) (LUnreach h) next).

Definition icmp_new (raw : bytes) : M pstate payload :=
  if zlen raw <? 4 then mret (PPacket None (LIcmp icmp_init) PMissing) else
  h ← lift (tuple [type; code; csum] ← struct_unpack "!BBH" (slice raw 0 4);
            Ok (Icmp type code csum));
  next ← (if (icmp_type h =? 8) || (icmp_type h =? 0) then echo_new (slice_from raw 4)
          else if icmp_type h =? 3 then unreach_new (slice_from raw 4)
          else mret (PBytes (slice_from raw 4)));
  mret (PPacket (Some true) (LIcmp h) next).

(** The header fields [ipv4.parse] reads, addresses still integers. *)
Definition ipv4_fields (raw : bytes) : res ipv4 :=
  tuple [vhl; tos; iplen; id; frag; ttl; protocol; csum; srcip; dstip]
    ← struct_unpack "!BBHHHBBHII" (slice raw 0 20);
  Ok (Ipv4 (Z.shiftr vhl 4) (Z.land vhl 0x0f) tos iplen id (Z.shiftr frag 13)
        (Z.land frag 0x1fff) ttl protocol csum (NwInt srcip) (NwInt dstip)).

Definition nw_to_ip (a : nwaddr) : res nwaddr :=
  a ← IPAddr_init (nw_arg_of a) false; Ok (NwIP a).

Definition with_addrs (h : ipv4) (src dst : nwaddr) : ipv4 :=
  Ipv4 (ip_v h) (ip_hl h) (ip_tos h) (ip_iplen h) (ip_id h) (ip_flags h) (ip_frag h)
    (ip_ttl h) (ip_protocol h) (ip_csum h) src dst.

(** The payload of an IPv4 packet, by protocol. *)
Definition ipv4_payload (h : ipv4) (dlen : Z) (body : bytes) : M pstate payload :=
  if ip_protocol h =? 17 then lift (udp_new body)
  else if ip_protocol h =? 6 then lift (tcp_new body)
  else if ip_protocol h =? 1 then icmp_new body
  else if dlen <? ip_iplen h then mret (PBytes [])
  else mret (PBytes body).

(** What [ipv4.parse] does once the header is found good. *)
Definition ipv4_body (raw : bytes) (h : ipv4) : M pstate payload :=
  let dlen := zlen raw in
  dst ← lift (nw_to_ip (ip_dstip h));
  src ← lift (nw_to_ip (ip_srcip h));
  let h := with_addrs h src dst in
  let length := if dlen <? ip_iplen h then dlen else ip_iplen h in
  let body := slice raw (ip_hl h * 4) length in
  next ← ipv4_payload h dlen body;
  next ← match next with
         | PPacket parsed _ _ =>
             p ← lift (attr_parsed parsed);
             if (p : bool) then mret next else mret (PBytes body)
         | _ => mret next
         end;
  mret (PPacket (Some true) (LIpv4 h) next).

Definition ipv4_new (raw : bytes) : M pstate payload :=
  id ← next_ip_id;
  let dlen := zlen raw in
  let failed h := PPacket (Some false) (LIpv4 h) (PBytes []) in
  if dlen <? 20 then mret (failed (ipv4_init id)) else
  h ← lift (ipv4_fields raw);
  if negb (ip_v h =? 4) then mret (failed h)
  else if ip_hl h <? 5 then mret (failed h)
  else if ip_iplen h <? 20 then mret (failed h)
  else if (ip_iplen h <=? ip_hl h * 4) || (dlen <? ip_hl h * 4) then mret (failed h)
  else ipv4_body raw h.
End Nested.

(** The constructors call each other; every nested call is on fewer bytes. *)
Fixpoint ipv4_parse `{AppCodec} (fuel : nat) (raw : bytes) : M pstate payload :=
  match fuel with
  | O => raise Diverge
  | S fuel => ipv4_new (ipv4_parse fuel) raw
  end.

(** [ethernet.type_parsers] without vlan. *)
Definition type_parser `{AppCodec} (type : Z) : option (bytes -> M pstate payload) :=
  if (type =? 0x0806) || (type =? 0x8035) then Some (fun raw => lift (arp_new raw))
  else if type =? 0x0800 then Some (fun raw => ipv4_parse (S (length raw)) raw)
  else if type =? 0x88cc then Some (fun raw => lift (app_new C_lldp raw))
  else if type =? 0x888e then Some (fun raw => lift (eapol_new raw))
  else if (type =? 0x8847) || (type =? 0x8848) then Some (fun raw => lift (mpls_new raw))
  else None.

Definition vlan_new `{AppCodec} (raw : bytes) : M pstate payload :=
  if zlen raw <? 4 then mret (PPacket (Some false) (LVlan vlan_init) PNone) else
  v ← lift (tuple [pcpid; eth_type] ← struct_unpack "!HH" (slice raw 0 4);
            Ok (Vlan (Z.shiftr pcpid 13) 0 (Z.land pcpid 0x0fff) eth_type
                  (Some (Z.land pcpid 0x1000))));
  if vlan_eth_type v =? 0x8100 then raise AssertionError else
  next ← match type_parser (vlan_eth_type v) with
         | Some parse => parse (slice_from raw 4)
         | None => mret PNone
         end;
  mret (PPacket (Some true) (LVlan v) next).

(** [ethernet(raw)]. *)
Definition ethernet_new `{AppCodec} (raw : bytes) : M pstate ethernet :=
  if zlen raw <? 14 then mret ethernet_init else
  dst ← lift (hw_of_bytes (slice raw 0 6));
  src ← lift (hw_of_bytes (slice raw 6 12));
  type ← lift (tuple [type] ← struct_unpack "!H" (slice raw 12 14); Ok type);
  next ← (if type =? 0x8100 then vlan_new (slice_from raw 14)
          else match type_parser type with
               | Some parse => parse (slice_from raw 14)
               | None => mret (PBytes (slice_from raw 14))
               end);
  mret (Ethernet dst src type next true).

(** * Checksums and [hdr] *)

(** [toUnsigned]; the integers of an unparsed packet have no such method. *)
Definition nw_unsigned (a : nwaddr) : res Z :=
  match a with NwIP a => Ok (ip_toUnsigned a false) | NwInt _ => Err AttributeError end.

Definition vlan_hdr (v : vlan) : res bytes :=
  c ← match vlan_c v with Some c => Ok c | None => Err AttributeError end;
  let pcpid := Z.shiftl (vlan_pcp v) 13 in
  let pcpid := Z.lor pcpid (Z.shiftl c 12) in
  let pcpid := Z.lor pcpid (vlan_id v) in
  struct_pack "!HH" [pcpid; vlan_eth_type v].

Definition mpls_hdr (m : mpls) : res bytes :=
  let label := Z.land (mpls_label m) 0xfffff in
  let tc := Z.land (mpls_tc m) 0x7 in
  let s := Z.land (mpls_s m) 0x1 in
  let ttl := Z.land (mpls_ttl m) 0xff in
  let label_high := Z.shiftr label 4 in
  let label_low_tc_s := Z.lor (Z.lor (Z.shiftl (Z.land label 0xf) 4) (Z.shiftl tc 1)) s in
  struct_pack "!HBB" [label_high; label_low_tc_s; ttl].

Definition nw_packed (a : nwaddr) : res bytes :=
  match a with
  | NwIP a => struct_pack "!I" [ip_toUnsigned a false]
  | NwInt z => struct_pack "!I" [z]
  end.

Definition arp_hdr (a : arp) : res bytes :=
  buf ← struct_pack "!HHBBH" [arp_hwtype a; arp_prototype a; arp_hwlen a; arp_protolen a; arp_opcode a];
  src ← nw_packed (arp_protosrc a);
  dst ← nw_packed (arp_protodst a);
  Ok (buf ++ hw_raw (arp_hwsrc a) ++ src ++ hw_raw (arp_hwdst a) ++ dst).

(** The ten fields of the header, with the given checksum. *)
Definition ipv4_packed (h : ipv4) (csum : Z) : res bytes :=
  src ← nw_unsigned (ip_srcip h);
  dst ← nw_unsigned (ip_dstip h);
  struct_pack "!BBHHHBBHII"
    [Z.shiftl (ip_v h) 4 + ip_hl h; ip_tos h; ip_iplen h; ip_id h;
     Z.lor (Z.shiftl (ip_flags h) 13) (ip_frag h); ip_ttl h; ip_protocol h; csum; src; dst].
Definition ipv4_checksum (h : ipv4) : res Z :=
  data ← ipv4_packed h 0; Ok (checksum data 0 None).

Definition with_iplen (n : Z) (h : ipv4) : ipv4 :=
  Ipv4 (ip_v h) (ip_hl h) (ip_tos h) n (ip_id h) (ip_flags h) (ip_frag h) (ip_ttl h)
    (ip_protocol h) (ip_csum h) (ip_srcip h) (ip_dstip h).
Definition with_ip_csum (c : Z) (h : ipv4) : ipv4 :=
  Ipv4 (ip_v h) (ip_hl h) (ip_tos h) (ip_iplen h) (ip_id h) (ip_flags h) (ip_frag h) (ip_ttl h)
    (ip_protocol h) c (ip_srcip h) (ip_dstip h).

Definition ipv4_hdr (payload : bytes) : M ipv4 bytes :=
  h ← get;
  put (with_iplen (ip_hl h * 4 + zlen payload) h);;
  h ← get;
  c ← lift (ipv4_checksum h);
  put (with_ip_csum c h);;
  h ← get;
  lift (ipv4_packed h (ip_csum h)).

(** The pseudo header TCP and UDP checksums start with. *)
Definition ippacket (prev : ipv4) (payload_len : Z) : res bytes :=
  src ← nw_unsigned (ip_srcip prev);
  dst ← nw_unsigned (ip_dstip prev);
  struct_pack "!IIBBH" [src; dst; 0; ip_protocol prev; payload_len].

(** What a checksum is computed over: the bytes the packet was made of ([unparsed]) or
    the payload as it is now. *)
Inductive segment := Unparsed (raw : bytes) | Packed (payload : bytes).

(** [prev] is the container if that is an [ipv4].  The code packs [next] once more to
    have the payload; [payload] is the result of the first time. *)
Definition udp_checksum (prev : option ipv4) (u : udp) (seg : segment) : res Z :=
  match prev with
  | None => Ok 0
  | Some h =>
      let payload_len := match seg with Unparsed raw => zlen raw | Packed p => 8 + zlen p end in
      ph ← ippacket h payload_len;
      payload ← match seg with
                | Unparsed raw => Ok raw
                | Packed p =>
                    myhdr ← struct_pack "!HHHH" [udp_srcport u; udp_dstport u; payload_len; 0];
                    Ok (myhdr ++ p)
                end;
      let r := checksum (ph ++ payload) 0 (Some 9) in
      Ok (if r =? 0 then 0xffff else r)
  end.

Definition udp_hdr (prev : option ipv4) (payload : bytes) : M udp bytes :=
  u ← get;
  put (Udp (udp_srcport u) (udp_dstport u) (zlen payload + 8) (udp_csum u));;
  u ← get;
  c ← lift (udp_checksum prev u (Packed payload));
  put (Udp (udp_srcport u) (udp_dstport u) (udp_len u) c);;
  u ← get;
  lift (struct_pack "!HHHH" [udp_srcport u; udp_dstport u; udp_len u; udp_csum u]).

Fixpoint pack_options (packet : bytes) (options : list tcp_opt) : res bytes :=
  match options with
  | [] => Ok packet
  | o :: options => s ← to_bytes o; pack_options (packet ++ s) options
  end.
Definition tcp_packed (t : tcp) (csum : Z) : res bytes :=
  let offres := Z.lor (Z.shiftl (tcp_off t) 4) (tcp_res t) in
  packet ← struct_pack "!HHIIBBHHH"
    [tcp_srcport t; tcp_dstport t; tcp_seq t; tcp_ack t; offres; tcp_flags t; tcp_win t; csum; tcp_urg t];
  pack_options packet (tcp_options t).

Definition tcp_checksum (prev : option ipv4) (t : tcp) (seg : segment) : res Z :=
  match prev with
  | None => Ok 0
  | Some h =>
      payload ← match seg with
                | Unparsed raw => Ok raw
                | Packed p => packet ← tcp_packed t 0; Ok (packet ++ p)
                end;
      ph ← ippacket h (zlen payload);
      Ok (checksum (ph ++ payload) 0 (Some 14))
  end.

Definition with_tcp_csum (c : Z) (t : tcp) : tcp :=
  Tcp (tcp_srcport t) (tcp_dstport t) (tcp_seq t) (tcp_ack t) (tcp_off t) (tcp_res t)
    (tcp_flags t) (tcp_win t) c (tcp_urg t) (tcp_tcplen t) (tcp_options t).

Definition tcp_hdr (prev : option ipv4) (payload : bytes) : M tcp bytes :=
  t ← get;
  c ← lift (tcp_checksum prev t (Packed payload));
  put (with_tcp_csum c t);;
  t ← get;
  lift (tcp_packed t (tcp_csum t)).

Definition icmp_hdr (payload : bytes) : M icmp bytes :=
  i ← get;
  s ← lift (struct_pack "!BBH" [icmp_type i; icmp_code i; 0]);
  put (Icmp (icmp_type i) (icmp_code i) (checksum (s ++ payload) 0 None));;
  i ← get;
  lift (struct_pack "!BBH" [icmp_type i; icmp_code i; icmp_csum i]).

Definition echo_hdr (e : echo) : res bytes := struct_pack "!HH" [echo_id e; echo_seq e].
Definition unreach_hdr (u : unreach) : res bytes :=
  struct_pack "!HH" [unreach_unused u; unreach_next_mtu u].
Definition eapol_hdr (e : eapol) : res bytes :=
  struct_pack "!BBH" [eapol_version e; eapol_type e; eapol_bodylen e].
Definition eap_hdr (e : eap) : res bytes :=
  struct_pack "!BBH" [eap_code e; eap_id e; eap_length e].

(** [hdr] of a layer; the layer changes where the method sets attributes. *)
Definition in_layer {S} (wrap : S -> layer) (m : M S bytes) (s : S) : res bytes * layer :=
  let '(r, s) := m s in (r, wrap s).
Definition hdr (prev : option ipv4) (l : layer) (payload : bytes) : res bytes * layer :=
  match l with
  | LVlan v => (vlan_hdr v, l)
  | LMpls m => (mpls_hdr m, l)
  | LIpv4 h => in_layer LIpv4 (ipv4_hdr payload) h
  | LArp a => (arp_hdr a, l)
  | LUdp u => in_layer LUdp (udp_hdr prev payload) u
  | LTcp t => in_layer LTcp (tcp_hdr prev payload) t
  | LIcmp i => in_layer LIcmp (icmp_hdr payload) i
  | LEcho e => (echo_hdr e, l)
  | LUnreach u => (unreach_hdr u, l)
  | LEapol e => (eapol_hdr e, l)
  | LEap e => (eap_hdr e, l)
  | LApp _ _ => (Err NotImplementedError, l)
  end.

(** [packet_base.pack] on what [next] holds: strings are packed already.  The result is
    the bytes and the packet as packing leaves it. *)
Fixpoint pack `{AppCodec} (prev : option ipv4) (p : payload) : res bytes * payload :=
  match p with
  | PMissing => (Err AttributeError, p)
  | PNone => (Ok [], p)
  | PBytes b => (Ok b, p)
  | PPacket parsed (LApp c raw) next => (app_pack c raw, p)
  | PPacket parsed l next =>
      let '(r, next) := pack (match l with LIpv4 h => Some h | _ => None end) next in
      match r with
      | Err e => (Err e, PPacket parsed l next)
      | Ok rest =>
          let '(h, l) := hdr prev l rest in
          ((fun h => h ++ rest) <$> h, PPacket parsed l next)
      end
  end.

(** [struct]'s format [6s]. *)
Definition pad6 (s : bytes) : bytes := ljust0 (take 6 s) 6.
Definition ethernet_hdr (packet : ethernet) : res bytes :=
  ty ← struct_pack "!H" [eth_type packet];
  Ok (pad6 (hw_raw (eth_dst packet)) ++ pad6 (hw_raw (eth_src packet)) ++ ty).

Definition ethernet_pack `{AppCodec} (packet : ethernet) : res bytes * ethernet :=
  let '(r, next) := pack None (eth_next packet) in
  let packet := Ethernet (eth_dst packet) (eth_src packet) (eth_type packet) next (eth_parsed packet) in
  (rest ← r; h ← ethernet_hdr packet; Ok (h ++ rest), packet).
