(* ===== verification/PacketTheory.v ===== *)
(** What the packet codecs guarantee: packed packets carry valid checksums, packing is
    stable, and packed packets parse back. *)
From S2P Require Import Prelude.
From S2P Require Import PyStruct.
From S2P Require Import Checksum.
From S2P Require Import Addresses.
From S2P Require Import Wire.
From S2P Require Import OfMatch.
From S2P Require Import Packets.
From S2P Require Import PacketCodec.

(** * Checksums *)

(** [struct_pack] with a 16-bit hole: the bytes before and after do not depend on what
    is put in. *)
Definition hole (n m : Z) (f : Z -> res bytes) : Prop :=
  exists pre post, zlen pre = n /\ zlen post = m /\
    forall c, u16 c -> f c = Ok (pre ++ be_enc 2 c ++ post).

Lemma ipv4_packed_hole h c s : ipv4_packed h c = Ok s -> hole 10 8 (ipv4_packed h).
Proof.
  unfold ipv4_packed, hole. destruct (nw_unsigned (ip_srcip h)) as [src|]; [|discriminate].
  destruct (nw_unsigned (ip_dstip h)) as [dst|]; [|discriminate]. cbn [mbind res_bind].
  intros H. destruct (struct_pack_hole "!BBHHHBBHII" [FU 1; FU 1; FU 2; FU 2; FU 2; FU 1; FU 1] 2
    [FU 4; FU 4] [_; _; _; _; _; _; _] c [src; dst] s eq_refl eq_refl H) as (pre & post & L1 & L2 & E).
  exists pre, post. unfold zlen. rewrite L1, L2. done.
Qed.

Lemma zlen_be_enc n z : zlen (be_enc n z) = Z.of_nat n.
Proof. unfold zlen. by rewrite be_enc_length. Qed.
#[local] Opaque be_enc.

Lemma checksum_u16 data start skip : u16 (checksum data start skip).
Proof. pose proof (checksum_range data start skip). lia. Qed.

Lemma ipv4_hdr_checksum payload h s h' : ipv4_hdr payload h = (Ok s, h') ->
  zlen s = 20 /\ checksum s 0 None = 0.
Proof.
  unfold ipv4_hdr, get, put, lift, mbind, M_bind, ipv4_checksum.
  set (h1 := with_iplen _ h). destruct (ipv4_packed h1 0) as [data|] eqn:E; [|discriminate].
  destruct (ipv4_packed_hole h1 0 data E) as (pre & post & L1 & L2 & Hp).
  cbn [mbind res_bind]. rewrite Hp in E by lia. injection E as <-.
  set (c := checksum _ 0 None). change (ip_csum (with_ip_csum c h1)) with c.
  change (ipv4_packed (with_ip_csum c h1)) with (ipv4_packed h1).
  rewrite Hp by apply checksum_u16. intros [= <- <-]. split.
  - rewrite !zlen_app, zlen_be_enc. lia.
  - apply checksum_verifies; [by rewrite L1|lia].
Qed.

Lemma ippacket_ok h n ph : ippacket h n = Ok ph -> zlen ph = 12 /\ u16 n.
Proof.
  unfold ippacket. destruct (nw_unsigned (ip_srcip h)); [|discriminate].
  destruct (nw_unsigned (ip_dstip h)); [|discriminate]. cbn [mbind res_bind]. intros H. split; [exact (struct_pack_len _ _ _ H)|].
  apply struct_pack_inv in H. cbn in H. lia.
Qed.

(** A checksum at word [k] of data after a pseudo header, in the three uses the code
    makes of it. *)
Lemma checksum_stored ph pre post k c : zlen ph + zlen pre = 2 * k -> zlen pre + zlen post < 2 ^ 16 ->
  zlen ph = 12 ->
  c = checksum (ph ++ pre ++ be_enc 2 0 ++ post) 0 (Some k) ->
  checksum (ph ++ pre ++ be_enc 2 c ++ post) 0 None = 0 /\
  forall x, checksum (ph ++ pre ++ be_enc 2 x ++ post) 0 (Some k) = c.
Proof.
  intros Hk Hl Hph Hc. rewrite !(app_assoc ph) in *. rewrite checksum_skip in Hc by (rewrite zlen_app; lia).
  split.
  - rewrite Hc. apply checksum_verifies; rewrite zlen_app; [|lia]. rewrite Hk, Z.mul_comm. apply Z_mod_mult.
  - intros x. rewrite app_assoc, checksum_skipped by (rewrite zlen_app; lia).
    by rewrite checksum_skip by (rewrite zlen_app; lia).
Qed.

Definition udp_packed (u : udp) (len csum : Z) : res bytes :=
  struct_pack "!HHHH" [udp_srcport u; udp_dstport u; len; csum].

Lemma udp_packed_hole u len c s : udp_packed u len c = Ok s -> hole 6 0 (udp_packed u len).
Proof.
  intros H. destruct (struct_pack_hole "!HHHH" [FU 2; FU 2; FU 2] 2 [] [_; _; _] c [] s
    eq_refl eq_refl H) as (pre & post & L1 & L2 & E).
  exists pre, post. unfold zlen. rewrite L1, L2. done.
Qed.

(** A UDP header packed inside IPv4. *)
Lemma udp_hdr_checksum h payload u s u' : udp_hdr (Some h) payload u = (Ok s, u') ->
  exists ph, ippacket h (zlen (s ++ payload)) = Ok ph /\
    checksum (ph ++ s ++ payload) 0 None = 0 /\ udp_csum u' <> 0 /\
    udp_checksum (Some h) u' (Unparsed (s ++ payload)) = Ok (udp_csum u').
Proof.
  unfold udp_hdr, get, put, lift, mbind, M_bind. cbn [udp_srcport udp_dstport udp_len udp_csum].
  unfold udp_checksum at 1. cbn [udp_srcport udp_dstport]. rewrite (Z.add_comm 8).
  destruct (ippacket h (zlen payload + 8)) as [ph|] eqn:Eph; [|discriminate].
  destruct (ippacket_ok _ _ _ Eph) as [Lph Hn]. cbn [mbind res_bind].
  destruct (struct_pack "!HHHH" [_; _; _; 0]) as [myhdr|] eqn:E; [|discriminate].
  destruct (udp_packed_hole _ _ _ _ E) as (pre & post & L1 & L2 & Hp).
  pose proof (zlen_nonneg payload).
  change (udp_packed u (zlen payload + 8) 0 = Ok myhdr) in E. rewrite Hp in E by lia. injection E as <-.
  assert (post = []) as -> by (destruct post; [done|unfold zlen in L2; cbn [length] in L2; lia]).
  cbn [mbind res_bind]. rewrite app_nil_r, <-!app_assoc.
  set (r := checksum (ph ++ pre ++ be_enc 2 0 ++ payload) 0 (Some 9)).
  destruct (checksum_stored ph pre payload 9 r) as [Hz Hs]; [lia|lia|done|done|].
  pose proof (checksum_u16 (ph ++ pre ++ be_enc 2 0 ++ payload) 0 (Some 9)) as Hr. fold r in Hr.
  set (c := if r =? 0 then 65535 else r).
  assert (u16 c /\ c <> 0) as [Hc Hc0] by (unfold c; destruct (Z.eqb_spec r 0); lia).
  change (struct_pack "!HHHH" _) with (udp_packed u (zlen payload + 8) c). rewrite Hp by done.
  rewrite app_nil_r. intros [= <- <-]. exists ph. cbn [udp_csum].
  assert (zlen ((pre ++ be_enc 2 c) ++ payload) = zlen payload + 8) as El
    by (rewrite !zlen_app, L1, zlen_be_enc; lia).
  rewrite El. split; [done|]. rewrite <-app_assoc. split; [|split; [done|]].
  - unfold c. destruct (Z.eqb_spec r 0) as [E0|]; [|done]. rewrite E0 in Hz. rewrite !app_assoc in *.
    rewrite <-app_assoc in Hz |- *. apply checksum_verifies_ones; [|rewrite zlen_app; lia|done].
    by rewrite zlen_app, Lph, L1.
  - unfold udp_checksum. rewrite app_assoc, El, Eph. cbn [mbind res_bind]. rewrite <-app_assoc, Hs. done.
Qed.

Lemma pack_options_acc packet options :
  pack_options packet options = (fun s => packet ++ s) <$> pack_options [] options.
Proof.
  revert packet; induction options as [|o options IH]; intros packet; cbn [pack_options].
  - cbn. by rewrite app_nil_r.
  - destruct (to_bytes o) as [s|]; [|done]. cbn [mbind res_bind].
    rewrite (IH (packet ++ s)), (IH ([] ++ s)). destruct (pack_options [] options); [|done].
    cbn. by rewrite <-app_assoc.
Qed.

Lemma tcp_packed_hole t c s : tcp_packed t c = Ok s ->
  exists pre post, zlen pre = 16 /\
    forall c, u16 c -> tcp_packed t c = Ok (pre ++ be_enc 2 c ++ post).
Proof.
  unfold tcp_packed. destruct (struct_pack "!HHIIBBHHH" _) as [p|] eqn:E; [|discriminate].
  cbn [mbind res_bind]. rewrite pack_options_acc.
  destruct (pack_options [] (tcp_options t)) as [opts|] eqn:Eo; [|discriminate]. intros _.
  destruct (struct_pack_hole "!HHIIBBHHH" [FU 2; FU 2; FU 4; FU 4; FU 1; FU 1; FU 2] 2 [FU 2]
    [_; _; _; _; _; _; _] c [_] p eq_refl eq_refl E) as (pre & post & L1 & _ & Hp).
  exists pre, (post ++ opts). split; [unfold zlen; by rewrite L1|].
  intros c' Hc. specialize (Hp c' Hc). cbn [app] in Hp. rewrite Hp. cbn [mbind res_bind]. rewrite pack_options_acc, Eo.
  cbn. by rewrite <-!app_assoc.
Qed.

(** A TCP header packed inside IPv4. *)
Lemma tcp_hdr_checksum h payload t s t' : tcp_hdr (Some h) payload t = (Ok s, t') ->
  exists ph, ippacket h (zlen (s ++ payload)) = Ok ph /\
    checksum (ph ++ s ++ payload) 0 None = 0 /\
    tcp_checksum (Some h) t' (Unparsed (s ++ payload)) = Ok (tcp_csum t').
Proof.
  unfold tcp_hdr, get, put, lift, mbind, M_bind. unfold tcp_checksum at 1.
  destruct (tcp_packed t 0) as [packet|] eqn:E; [|discriminate].
  destruct (tcp_packed_hole _ _ _ E) as (pre & post & L1 & Hp). rewrite Hp in E by lia. injection E as <-.
  cbn [mbind res_bind]. rewrite <-!app_assoc.
  destruct (ippacket h (zlen (pre ++ _))) as [ph|] eqn:Eph; [|discriminate].
  destruct (ippacket_ok _ _ _ Eph) as [Lph Hn]. cbn [mbind res_bind].
  rewrite !zlen_app, zlen_be_enc in Hn. pose proof (zlen_nonneg post). pose proof (zlen_nonneg payload).
  set (c := checksum (ph ++ pre ++ be_enc 2 0 ++ post ++ payload) 0 (Some 14)).
  destruct (checksum_stored ph pre (post ++ payload) 14 c) as [Hz Hs];
    [lia|rewrite zlen_app; lia|done|done|].
  pose proof (checksum_u16 (ph ++ pre ++ be_enc 2 0 ++ post ++ payload) 0 (Some 14)) as Hc. fold c in Hc.
  change (tcp_csum (with_tcp_csum c t)) with c. change (tcp_packed (with_tcp_csum c t)) with (tcp_packed t).
  rewrite Hp by done. intros [= <- <-]. exists ph. rewrite <-!app_assoc. cbn [tcp_csum with_tcp_csum].
  assert (zlen (pre ++ be_enc 2 c ++ post ++ payload) = zlen (pre ++ be_enc 2 0 ++ post ++ payload)) as El
    by (rewrite !zlen_app, !zlen_be_enc; done).
  rewrite El. split; [done|]. split; [done|].
  unfold tcp_checksum. cbn [mbind res_bind]. rewrite El, Eph. cbn [mbind res_bind]. by rewrite Hs.
Qed.

Lemma icmp_hdr_checksum payload i s i' : zlen payload < 2 ^ 16 -> icmp_hdr payload i = (Ok s, i') ->
  checksum (s ++ payload) 0 None = 0.
Proof.
  intros Hl. unfold icmp_hdr, get, put, lift, mbind, M_bind.
  destruct (struct_pack "!BBH" [_; _; 0]) as [p|] eqn:E; [|discriminate].
  destruct (struct_pack_hole "!BBH" [FU 1; FU 1] 2 [] [_; _] 0 [] p eq_refl eq_refl E)
    as (pre & post & L1 & L2 & Hp).
  destruct post; [|discriminate]. cbn [app] in Hp. rewrite Hp in E by (cbn; lia). injection E as <-.
  cbn [icmp_type icmp_code icmp_csum]. rewrite app_nil_r, <-!app_assoc.
  set (c := checksum _ 0 None). pose proof (checksum_u16 (pre ++ be_enc 2 0 ++ payload) 0 None) as Hc. fold c in Hc.
  rewrite Hp by (cbn; lia). intros [= <- <-]. rewrite app_nil_r, <-!app_assoc.
  apply checksum_verifies; unfold zlen at 1; rewrite L1; cbn; [done|lia].
Qed.

(** ** Packed layers *)

Definition is_app (l : layer) : bool := match l with LApp _ _ => true | _ => false end.
Definition container (l : layer) : option ipv4 := match l with LIpv4 h => Some h | _ => None end.

Section Pack.
Context `{AppCodec}.

Lemma pack_layer prev parsed l next : is_app l = false ->
  pack prev (PPacket parsed l next) =
    let '(r, next) := pack (container l) next in
    match r with
    | Err e => (Err e, PPacket parsed l next)
    | Ok rest => let '(h, l) := hdr prev l rest in
                 ((fun h => h ++ rest) <$> h, PPacket parsed l next)
    end.
Proof. by destruct l. Qed.

Lemma pack_inv prev parsed l next s p : is_app l = false ->
  pack prev (PPacket parsed l next) = (Ok s, p) ->
  exists rest next' h l', pack (container l) next = (Ok rest, next') /\
    hdr prev l rest = (Ok h, l') /\ s = h ++ rest /\ p = PPacket parsed l' next'.
Proof.
  intros Hl. rewrite pack_layer by done.
  destruct (pack (container l) next) as [[rest|] next'] eqn:E1; [|discriminate].
  destruct (hdr prev l rest) as [[h|] l'] eqn:E2; [|discriminate].
  cbn. intros [= <- <-]. eauto 10.
Qed.

Lemma in_layer_inv {S} (wrap : S -> layer) m s r l :
  in_layer wrap m s = (Ok r, l) -> exists s', m s = (Ok r, s') /\ l = wrap s'.
Proof. unfold in_layer. destruct (m s) as [r' s']. intros [= -> <-]. eauto. Qed.

(** Whatever a packed IPv4 packet holds, the 20 header bytes it starts with have
    internet checksum zero, so a receiver accepts the header. *)
Theorem ipv4_pack_checksum prev parsed h next s p :
  pack prev (PPacket parsed (LIpv4 h) next) = (Ok s, p) -> checksum (take 20 s) 0 None = 0.
Proof.
  intros (rest & next' & hb & l' & _ & Hh & -> & _)%pack_inv; [|done].
  cbn [hdr] in Hh. apply in_layer_inv in Hh as (h' & Hh & _). apply ipv4_hdr_checksum in Hh as [Hl Hc].
  by rewrite take_app_length' by (unfold zlen in Hl; lia).
Qed.

(** A UDP datagram packed inside an IPv4 packet carries a valid, non-zero checksum:
    with the pseudo header before it the datagram has internet checksum zero, and
    checking it as received ([unparsed]) gives the checksum it carries. *)
Theorem udp_pack_checksum h parsed u next s p :
  pack (Some h) (PPacket parsed (LUdp u) next) = (Ok s, p) ->
  exists ph u' next', p = PPacket parsed (LUdp u') next' /\ ippacket h (zlen s) = Ok ph /\
    checksum (ph ++ s) 0 None = 0 /\ udp_csum u' <> 0 /\
    udp_checksum (Some h) u' (Unparsed s) = Ok (udp_csum u').
Proof.
  intros (rest & next' & hb & l' & _ & Hh & -> & ->)%pack_inv; [|done].
  cbn [hdr] in Hh. apply in_layer_inv in Hh as (u' & Hh & ->).
  apply udp_hdr_checksum in Hh as (ph & H1 & H2 & H3 & H4). exists ph, u', next'. auto.
Qed.

(** A TCP segment packed inside an IPv4 packet, options included, carries a valid
    checksum, and checking it as received gives the checksum it carries. *)
Theorem tcp_pack_checksum h parsed t next s p :
  pack (Some h) (PPacket parsed (LTcp t) next) = (Ok s, p) ->
  exists ph t' next', p = PPacket parsed (LTcp t') next' /\ ippacket h (zlen s) = Ok ph /\
    checksum (ph ++ s) 0 None = 0 /\ tcp_checksum (Some h) t' (Unparsed s) = Ok (tcp_csum t').
Proof.
  intros (rest & next' & hb & l' & _ & Hh & -> & ->)%pack_inv; [|done].
  cbn [hdr] in Hh. apply in_layer_inv in Hh as (t' & Hh & ->).
  apply tcp_hdr_checksum in Hh as (ph & H1 & H2 & H3). exists ph, t', next'. auto.
Qed.

(** A packed ICMP message has internet checksum zero. *)
Theorem icmp_pack_checksum prev parsed i next s p : zlen s < 2 ^ 16 ->
  pack prev (PPacket parsed (LIcmp i) next) = (Ok s, p) -> checksum s 0 None = 0.
Proof.
  intros Hl (rest & next' & hb & l' & _ & Hh & -> & _)%pack_inv; [|done].
  cbn [hdr] in Hh. apply in_layer_inv in Hh as (i' & Hh & _).
  rewrite zlen_app in Hl. pose proof (zlen_nonneg hb). eapply icmp_hdr_checksum; [lia|done].
Qed.
End Pack.

(** ** Packing again *)

(** What packing reads of the container. *)
Definition pseudo (h : ipv4) : nwaddr * nwaddr * Z := (ip_srcip h, ip_dstip h, ip_protocol h).

Lemma ippacket_pseudo h h' n : pseudo h = pseudo h' -> ippacket h n = ippacket h' n.
Proof. unfold pseudo, ippacket. by intros [= -> -> ->]. Qed.

Lemma hdr_pseudo prev prev' l payload : pseudo <$> prev = pseudo <$> prev' ->
  hdr prev l payload = hdr prev' l payload.
Proof.
  destruct prev as [h|], prev' as [h'|]; cbn; intros Hp; [|discriminate Hp|discriminate Hp|done].
  assert (pseudo h = pseudo h') as Hps by (unfold pseudo in *; congruence).
  destruct l; try done; cbn [hdr]; unfold in_layer, udp_hdr, tcp_hdr, udp_checksum, tcp_checksum,
    get, put, lift, mbind, M_bind, res_bind.
  - by rewrite (ippacket_pseudo h h').
  - destruct (tcp_packed t 0); [|done]. by rewrite (ippacket_pseudo h h').
Qed.

Lemma ipv4_hdr_stable payload h s h' : ipv4_hdr payload h = (Ok s, h') ->
  pseudo h' = pseudo h /\ ipv4_hdr payload h' = (Ok s, h').
Proof.
  unfold ipv4_hdr, get, put, lift, mbind, M_bind, ipv4_checksum.
  set (h1 := with_iplen _ h). destruct (ipv4_packed h1 0) as [data|] eqn:E; [|discriminate].
  cbn [mbind res_bind]. set (c := checksum data 0 None). intros [= Es <-]. split; [done|].
  change (with_iplen _ (with_ip_csum c h1)) with (with_ip_csum c h1).
  change (ipv4_packed (with_ip_csum c h1)) with (ipv4_packed h1). rewrite E. cbn [mbind res_bind].
  fold c. change (with_ip_csum c (with_ip_csum c h1)) with (with_ip_csum c h1).
  change (ipv4_packed (with_ip_csum c h1)) with (ipv4_packed h1). by rewrite <-Es.
Qed.

Lemma udp_hdr_stable prev payload u s u' : udp_hdr prev payload u = (Ok s, u') ->
  udp_hdr prev payload u' = (Ok s, u').
Proof.
  unfold udp_hdr, get, put, lift, mbind, M_bind. cbn [udp_srcport udp_dstport udp_len udp_csum].
  destruct u as [sp dp len cs]. cbn [udp_srcport udp_dstport udp_csum].
  destruct (udp_checksum prev _ _) as [c|] eqn:E; [|discriminate]. intros [= Es <-].
  cbn [udp_srcport udp_dstport udp_len udp_csum].
  change (udp_checksum prev (Udp sp dp (zlen payload + 8) c))
    with (udp_checksum prev (Udp sp dp (zlen payload + 8) cs)).
  rewrite E. cbn. by rewrite <-Es.
Qed.

Lemma tcp_hdr_stable prev payload t s t' : tcp_hdr prev payload t = (Ok s, t') ->
  tcp_hdr prev payload t' = (Ok s, t').
Proof.
  unfold tcp_hdr, get, put, lift, mbind, M_bind.
  destruct (tcp_checksum prev t (Packed payload)) as [c|] eqn:E; [|discriminate]. intros [= Es <-].
  change (tcp_checksum prev (with_tcp_csum c t)) with (tcp_checksum prev t). rewrite E.
  change (with_tcp_csum c (with_tcp_csum c t)) with (with_tcp_csum c t). by rewrite <-Es.
Qed.

Lemma icmp_hdr_stable payload i s i' : icmp_hdr payload i = (Ok s, i') ->
  icmp_hdr payload i' = (Ok s, i').
Proof.
  unfold icmp_hdr, get, put, lift, mbind, M_bind. cbn [icmp_type icmp_code icmp_csum].
  destruct (struct_pack "!BBH" [_; _; 0]) as [p|] eqn:E; [|discriminate]. intros [= Es <-].
  cbn [icmp_type icmp_code icmp_csum]. rewrite E. cbn. by rewrite <-Es.
Qed.

Lemma hdr_stable prev l payload s l' : hdr prev l payload = (Ok s, l') ->
  hdr prev l' payload = (Ok s, l') /\ is_app l' = is_app l /\
  pseudo <$> container l' = pseudo <$> container l.
Proof.
  destruct l; cbn [hdr]; intros H; try (injection H as Hs <-; cbn [hdr]; rewrite Hs; done);
    try done; apply in_layer_inv in H as (x & H & ->); cbn [hdr in_layer container is_app]; unfold in_layer.
  - apply ipv4_hdr_stable in H as [Hp ->]. cbn. by rewrite Hp.
  - by apply udp_hdr_stable in H as ->.
  - by apply tcp_hdr_stable in H as ->.
  - by apply icmp_hdr_stable in H as ->.
Qed.

Section Stable.
Context `{AppCodec}.

Lemma pack_pseudo prev prev' p : pseudo <$> prev = pseudo <$> prev' -> pack prev p = pack prev' p.
Proof.
  intros Hp. destruct p as [| | |parsed l next]; [done..|]. destruct (is_app l) eqn:El.
  - by destruct l.
  - rewrite !pack_layer by done. destruct (pack (container l) next) as [[rest|] next']; [|done].
    by rewrite (hdr_pseudo prev prev').
Qed.

(** Packing writes lengths and checksums into the packet; packing the packet it leaves
    gives the same bytes and changes nothing more.  (So it does not matter that the UDP
    checksum packs the payload a second time.) *)
Theorem pack_stable prev p s p' : pack prev p = (Ok s, p') -> pack prev p' = (Ok s, p').
Proof.
  revert prev s p'; induction p as [| | |parsed l next IH]; intros prev s p';
    [by intros [=]|by intros [= <- <-]..|].
  destruct (is_app l) eqn:El; [destruct l; try done; intros [= Hs <-]; cbn; by rewrite Hs|].
  intros (rest & next' & h & l' & Hn & Hh & -> & ->)%pack_inv; [|done].
  apply hdr_stable in Hh as (Hh & Ha & Hc).
  rewrite pack_layer by congruence.
  rewrite (pack_pseudo _ (container l)) by done. rewrite (IH _ _ _ Hn), Hh. done.
Qed.
End Stable.

(** * What parsing can raise *)

(** [errs E m]: an error of [m] is one of [E]. *)
Definition errs {A} (E : exn -> Prop) (r : res A) : Prop := forall e, r = Err e -> E e.
Definition errsM {S A} (E : exn -> Prop) (m : M S A) : Prop := forall s, errs E (m s).1.

Section Errs.
Context {E : exn -> Prop}.

Lemma errs_ok {A} (a : A) : errs E (Ok a).
Proof. by intros e [=]. Qed.
Lemma errs_err {A} e : E e -> errs E (Err e : res A).
Proof. by intros He e' [= <-]. Qed.
Lemma errs_bind {A B} (r : res A) (f : A -> res B) :
  errs E r -> (forall a, errs E (f a)) -> errs E (mbind f r).
Proof. intros Hr Hf e. destruct r as [a|e']; cbn; [apply Hf|]. intros [= <-]. by apply Hr. Qed.
Lemma errsM_ret {S A} (a : A) : errsM E (mret a : M S A).
Proof. intros s. apply errs_ok. Qed.
Lemma errsM_lift {S A} (r : res A) : errs E r -> errsM E (lift r : M S A).
Proof. by intros Hr s. Qed.
Lemma errsM_raise {S A} e : E e -> errsM E (raise e : M S A).
Proof. intros He s. by apply errs_err. Qed.
Lemma errsM_get {S} : errsM E (get : M S S).
Proof. intros s. apply errs_ok. Qed.
Lemma errsM_put {S} (s : S) : errsM E (put s).
Proof. intros s'. apply errs_ok. Qed.
Lemma errsM_bind {S A B} (m : M S A) (f : A -> M S B) :
  errsM E m -> (forall a, errsM E (f a)) -> errsM E (mbind f m).
Proof.
  intros Hm Hf s e. unfold mbind, M_bind. specialize (Hm s). destruct (m s) as [[a|e'] s']; cbn in *.
  - apply Hf.
  - intros [= <-]. by apply Hm.
Qed.
Lemma errsM_bind_lift {S A B} (r : res A) (f : A -> M S B) :
  errs E r -> (forall a, r = Ok a -> errsM E (f a)) -> errsM E (mbind f (lift r)).
Proof.
  intros Hr Hf s e. unfold mbind, M_bind, lift. destruct r as [a|e']; cbn; [by apply Hf|].
  intros [= <-]. by apply Hr.
Qed.
End Errs.

Create HintDb errs.
#[export] Hint Resolve errs_ok errs_err errsM_ret errsM_lift errsM_raise errsM_get errsM_put : errs.

(** Goes through a monadic program: binds, conditionals and matches. *)
Ltac errs_step :=
  match goal with
  | |- errs _ (mbind _ _) => apply errs_bind; [|intros]
  | |- errsM _ (mbind _ _) => apply errsM_bind; [|intros]
  | |- errsM _ (lift _) => apply errsM_lift
  | |- errs _ (if ?b then _ else _) => destruct b
  | |- errsM _ (if ?b then _ else _) => destruct b
  | |- errs _ (match ?x with _ => _ end) => destruct x
  | |- errsM _ (match ?x with _ => _ end) => destruct x
  end.
Ltac errs_solve := repeat first [progress eauto with errs | errs_step].

(** The exceptions of the parsers: an unusable Ethernet address, a VLAN tag in a VLAN
    tag, an ICMP message without header, an EAP message without type. *)
Definition parse_exn `{AppCodec} (e : exn) : Prop :=
  In e [ValueError; AssertionError; AttributeError; StructError] \/
  exists c raw, app_parsed c raw = Err e.

Section ParseErrs.
Context `{AppCodec}.

Lemma parse_exn_struct fmt s : errs parse_exn (struct_unpack fmt s).
Proof. intros e He. apply struct_unpack_err in He as ->. left. cbn. auto. Qed.
Lemma parse_exn_value : parse_exn ValueError.
Proof. left. cbn. auto. Qed.
Lemma parse_exn_assertion : parse_exn AssertionError.
Proof. left. cbn. auto. Qed.
Lemma parse_exn_attribute : parse_exn AttributeError.
Proof. left. cbn. auto. Qed.
Lemma parse_exn_app c raw : errs parse_exn (app_parsed c raw).
Proof. intros e He. right. eauto. Qed.
#[local] Hint Resolve parse_exn_struct parse_exn_value parse_exn_assertion parse_exn_attribute
  parse_exn_app : errs.

Lemma app_new_errs c raw : errs parse_exn (app_new c raw).
Proof. unfold app_new. errs_solve. Qed.
Lemma eap_new_errs raw : errs parse_exn (eap_new raw).
Proof. unfold eap_new. errs_solve. Qed.
#[local] Hint Resolve app_new_errs eap_new_errs : errs.
Lemma eapol_new_errs raw : errs parse_exn (eapol_new raw).
Proof. unfold eapol_new. errs_solve. Qed.
Lemma mpls_new_errs raw : errs parse_exn (mpls_new raw).
Proof. unfold mpls_new. errs_solve. Qed.
Lemma udp_new_errs raw : errs parse_exn (udp_new raw).
Proof. unfold udp_new. errs_solve. Qed.
Lemma echo_new_errs raw : errsM parse_exn (echo_new raw).
Proof. unfold echo_new, randint. errs_solve. Qed.

(** Six bytes are no Ethernet address exactly when five of them are colons. *)
Lemma hw_of_bytes_six s : zlen s = 6 ->
  hw_of_bytes s = if count_byte x3a s =? 5 then Err ValueError else Ok (HwEth (MkEth s)).
Proof.
  intros Hl. assert (length s = 6%nat) as Hl' by (unfold zlen in Hl; lia). unfold hw_of_bytes.
  destruct (Z.eqb_spec (count_byte x3a s) 5) as [Hc|Hc].
  - by rewrite eth_of_bytes_five_colons.
  - by rewrite eth_of_bytes_raw.
Qed.

Lemma hw_slice_errs raw i : 0 <= i -> i + 6 <= zlen raw -> errs parse_exn (hw_of_bytes (slice raw i (i + 6))).
Proof.
  intros Hi Hl. rewrite hw_of_bytes_six by (rewrite zlen_slice; lia). errs_solve.
Qed.

Lemma nw_of_raw_errs s : errs parse_exn (nw_of_raw s).
Proof.
  unfold nw_of_raw. apply errs_bind; [eauto with errs|]. intros [|z [|]]; eauto with errs.
  rewrite IPAddr_init_int. errs_solve.
Qed.
Lemma nw_to_ip_int z : nw_to_ip (NwInt z) = Ok (NwIP (ip_of_int z)).
Proof. unfold nw_to_ip. cbn [nw_arg_of]. by rewrite IPAddr_init_int. Qed.
#[local] Hint Resolve nw_of_raw_errs : errs.

Lemma arp_new_errs raw : errs parse_exn (arp_new raw).
Proof.
  unfold arp_new. destruct (Z.ltb_spec (zlen raw) 28); [eauto with errs|].
  pose proof (hw_slice_errs raw 8 ltac:(lia) ltac:(lia)).
  pose proof (hw_slice_errs raw 18 ltac:(lia) ltac:(lia)). errs_solve.
Qed.

Lemma parse_option_step arr dlen i ty o j : parse_option arr dlen i ty = Ok (o, j) -> i + 2 <= j <= dlen.
Proof.
  unfold parse_option. destruct (dlen <? i + 2); [discriminate|].
  destruct (ord_at arr (i + 1)) as [len|]; [|discriminate]. cbn [mbind res_bind].
  destruct (Z.ltb_spec dlen (i + len)); [discriminate|]. destruct (Z.ltb_spec len 2); [discriminate|].
  match goal with |- mbind _ ?r = _ -> _ => destruct r; [|discriminate] end.
  cbn [mbind res_bind]. intros [= _ <-]. lia.
Qed.

Definition no_loop (e : exn) : Prop := e <> Diverge.
Lemma no_loop_struct fmt s : errs no_loop (struct_unpack fmt s).
Proof. by intros e ->%struct_unpack_err. Qed.
Lemma no_loop_ord arr i : errs no_loop (ord_at arr i).
Proof. unfold ord_at. destruct (_ !! _); [apply errs_ok|by apply errs_err]. Qed.
Lemma no_loop_exns : no_loop RuntimeError /\ no_loop ValueError.
Proof. done. Qed.

Lemma parse_option_no_loop arr dlen i ty : errs no_loop (parse_option arr dlen i ty).
Proof.
  pose proof no_loop_struct. pose proof no_loop_ord. destruct no_loop_exns. unfold parse_option. errs_solve.
Qed.

(** Every round of the option loop moves on, so the fuel - one more than the bytes there
    are - does not run out. *)
Lemma parse_options_loop_total fuel arr dlen hdr_len i : 0 < Z.of_nat fuel -> hdr_len - i < Z.of_nat fuel ->
  errsM no_loop (parse_options_loop fuel arr dlen hdr_len i).
Proof.
  revert i; induction fuel as [|fuel IH]; intros i H0 Hf; [lia|]. cbn [parse_options_loop].
  destruct (Z.ltb_spec i hdr_len); [|apply errsM_ret].
  apply errsM_bind; [apply errsM_lift, no_loop_ord|]. intros ty.
  destruct (ty =? EOL); [apply errsM_ret|]. destruct (ty =? NOP).
  - apply errsM_bind; [apply errsM_get|]. intros options. apply errsM_bind; [apply errsM_put|].
    intros _. apply IH; lia.
  - intros options. unfold lift, get, put, mbind, M_bind.
    destruct (parse_option arr dlen i ty) as [[o j]|e] eqn:E.
    + apply parse_option_step in E. apply (IH j); lia.
    + cbn. apply errs_err. by eapply parse_option_no_loop.
Qed.

Lemma tcp_new_errs raw : errs parse_exn (tcp_new raw).
Proof.
  unfold tcp_new. destruct (Z.ltb_spec (zlen raw) 20); [eauto with errs|].
  apply errs_bind; [eauto with errs|]. intros vs. do 9 (destruct vs as [|? vs]; [eauto with errs|]).
  destruct vs; [|eauto with errs]. set (hdr_len := _ * 4).
  destruct ((hdr_len <? 20) || (zlen raw <? hdr_len)) eqn:Eh; [eauto with errs|].
  apply orb_false_iff in Eh as [_ Hh%Z.ltb_ge].
  pose proof (parse_options_loop_total (S (length raw)) raw (zlen raw) hdr_len 20
    ltac:(lia) ltac:(unfold zlen in *; lia) []) as Ht. unfold parse_options, put, mbind, M_bind.
  destruct (parse_options_loop (S (length raw)) raw (zlen raw) hdr_len 20 []) as [[i|e] options].
  - eauto with errs.
  - destruct e; eauto with errs. by specialize (Ht Diverge eq_refl).
Qed.
#[local] Hint Resolve arp_new_errs tcp_new_errs udp_new_errs mpls_new_errs eapol_new_errs echo_new_errs : errs.

Lemma unreach_new_errs rec raw :
  (forall b, zlen b < zlen raw -> errsM parse_exn (rec b)) -> errsM parse_exn (unreach_new rec raw).
Proof.
  intros Hr. unfold unreach_new. destruct (Z.ltb_spec (zlen raw) 4); [eauto with errs|].
  apply errsM_bind; [errs_solve|]. intros h. apply errsM_bind; [|eauto with errs].
  destruct (28 <=? zlen raw); [|eauto with errs]. apply Hr. rewrite zlen_slice_from; lia.
Qed.

Lemma icmp_new_errs rec raw :
  (forall b, zlen b < zlen raw -> errsM parse_exn (rec b)) -> errsM parse_exn (icmp_new rec raw).
Proof.
  intros Hr. unfold icmp_new. destruct (Z.ltb_spec (zlen raw) 4); [eauto with errs|].
  apply errsM_bind; [errs_solve|]. intros h. apply errsM_bind; [|eauto with errs].
  destruct (_ || _); [eauto with errs|]. destruct (_ =? 3); [|eauto with errs].
  apply unreach_new_errs. intros b Hb. apply Hr. rewrite zlen_slice_from in Hb; lia.
Qed.

Lemma ipv4_fields_errs raw : errs parse_exn (ipv4_fields raw).
Proof. unfold ipv4_fields. errs_solve. Qed.
Lemma ipv4_fields_ints raw h : ipv4_fields raw = Ok h ->
  exists src dst, ip_srcip h = NwInt src /\ ip_dstip h = NwInt dst.
Proof.
  unfold ipv4_fields. destruct (struct_unpack _ _) as [vs|]; [|discriminate]. cbn [mbind res_bind].
  do 11 (destruct vs as [|? vs]; try discriminate). intros [= <-]. cbn. eauto.
Qed.
#[local] Hint Resolve ipv4_fields_errs : errs.

Lemma ipv4_payload_errs rec h dlen body :
  (forall b, zlen b < zlen body -> errsM parse_exn (rec b)) -> errsM parse_exn (ipv4_payload rec h dlen body).
Proof.
  intros Hr. unfold ipv4_payload. pose proof (icmp_new_errs rec body Hr). errs_solve.
Qed.

Lemma ipv4_new_errs rec raw :
  (forall b, zlen b < zlen raw -> errsM parse_exn (rec b)) -> errsM parse_exn (ipv4_new rec raw).
Proof.
  intros Hr. unfold ipv4_new. apply errsM_bind; [unfold next_ip_id; errs_solve|]. intros id.
  destruct (Z.ltb_spec (zlen raw) 20); [eauto with errs|].
  apply errsM_bind_lift; [apply ipv4_fields_errs|]. intros h E.
  destruct (ipv4_fields_ints _ _ E) as (src & dst & Hs & Hd).
  destruct (negb _); [eauto with errs|]. destruct (Z.ltb_spec (ip_hl h) 5); [eauto with errs|].
  destruct (ip_iplen h <? 20); [eauto with errs|].
  destruct ((ip_iplen h <=? ip_hl h * 4) || (zlen raw <? ip_hl h * 4)) eqn:Eh; [eauto with errs|].
  apply orb_false_iff in Eh as [Hi%Z.leb_gt Hl%Z.ltb_ge].
  unfold ipv4_body. rewrite Hs, Hd, !nw_to_ip_int.
  apply errsM_bind; [eauto with errs|]. intros d. apply errsM_bind; [eauto with errs|]. intros s.
  apply errsM_bind.
  - apply ipv4_payload_errs. intros b Hb. apply Hr.
    change (ip_hl (with_addrs h s d)) with (ip_hl h) in Hb.
    change (ip_iplen (with_addrs h s d)) with (ip_iplen h) in Hb.
    destruct (zlen raw <? ip_iplen h) eqn:El; [|apply Z.ltb_ge in El]; rewrite zlen_slice in Hb; lia.
  - intros next. apply errsM_bind; [|eauto with errs]. unfold attr_parsed. errs_solve.
Qed.

Lemma ipv4_parse_errs fuel raw : zlen raw < Z.of_nat fuel -> errsM parse_exn (ipv4_parse fuel raw).
Proof.
  revert raw; induction fuel as [|fuel IH]; intros raw Hf.
  - pose proof (zlen_nonneg raw). lia.
  - apply ipv4_new_errs. intros b Hb. apply IH. lia.
Qed.
#[local] Hint Resolve ipv4_parse_errs app_new_errs : errs.

Lemma type_parser_errs ty parse raw : type_parser ty = Some parse -> errsM parse_exn (parse raw).
Proof.
  unfold type_parser. assert (zlen raw < Z.of_nat (S (length raw))) as H0 by (unfold zlen; lia).
  repeat match goal with |- (if ?b then _ else _) = _ -> _ => destruct b end; intros [= <-]; cbv beta;
    try (apply errsM_lift; eauto with errs). exact (ipv4_parse_errs _ raw H0).
Qed.

Lemma vlan_new_errs raw : errsM parse_exn (vlan_new raw).
Proof.
  unfold vlan_new. destruct (zlen raw <? 4); [eauto with errs|]. apply errsM_bind; [errs_solve|]. intros v.
  destruct (_ =? _); [eauto with errs|]. apply errsM_bind; [|eauto with errs].
  destruct (type_parser (vlan_eth_type v)) eqn:E; [by eapply type_parser_errs|eauto with errs].
Qed.

(** Whatever bytes a frame has, making an [ethernet] object of them ends, with a packet
    or with one of four exceptions (or what the dhcp, dns and lldp parsers raise): never
    an endless loop, a bad index or a wrong type. *)
Theorem ethernet_new_raises raw s e s' : ethernet_new raw s = (Err e, s') -> parse_exn e.
Proof.
  assert (errsM parse_exn (ethernet_new raw)) as Herr; [|intros He; apply (Herr s); by rewrite He].
  unfold ethernet_new. destruct (Z.ltb_spec (zlen raw) 14); [eauto with errs|].
  pose proof (hw_slice_errs raw 0 ltac:(lia) ltac:(lia)). pose proof (hw_slice_errs raw 6 ltac:(lia) ltac:(lia)).
  apply errsM_bind; [eauto with errs|]. intros dst. apply errsM_bind; [eauto with errs|]. intros src.
  apply errsM_bind; [errs_solve|]. intros ty. apply errsM_bind; [|eauto with errs].
  destruct (ty =? 0x8100); [apply vlan_new_errs|].
  destruct (type_parser ty) eqn:E; [by eapply type_parser_errs|eauto with errs].
Qed.
End ParseErrs.

(** * The CFI bit *)

Lemma bit_lower_bound x n : 0 <= x -> 0 <= n -> Z.testbit x n = true -> 2 ^ n <= x.
Proof.
  intros Hx Hn Hb. destruct (Z.lt_ge_cases x (2 ^ n)) as [Hlt|]; [|done].
  rewrite <-(Z.mod_small x (2 ^ n)) in Hb by lia. by rewrite Z.mod_pow2_bits_high in Hb by lia.
Qed.

(** A VLAN tag with the CFI bit set parses, and cannot be packed again: [parse] keeps
    the bit where it stands in the tag word and [hdr] shifts it there once more. *)
Theorem vlan_cfi_unpackable `{AppCodec} hb rest w ty st p st' :
  struct_pack "!HH" [w; ty] = Ok hb -> Z.testbit w 12 = true ->
  vlan_new (hb ++ rest) st = (Ok p, st') ->
  exists v next, p = PPacket (Some true) (LVlan v) next /\ vlan_hdr v = Err StructError.
Proof.
  intros E Hb. pose proof (struct_pack_len _ _ _ E) as L. change (struct_calcsize _) with 4 in L.
  pose proof (struct_pack_inv _ _ _ E) as Hr. cbn in Hr. pose proof (zlen_nonneg rest).
  unfold vlan_new. rewrite (proj2 (Z.ltb_ge _ _)) by (rewrite zlen_app; lia).
  rewrite slice_hit by done. rewrite (struct_unpack_pack _ _ _ E). cbn [mbind res_bind].
  unfold mbind, M_bind, lift, mret, M_ret. set (v := Vlan _ _ _ _ _).
  destruct (vlan_eth_type v =? 0x8100); [discriminate|].
  match goal with |- match ?m st with _ => _ end = _ -> _ => destruct (m st) as [[next|] st1]; [|discriminate] end.
  intros [= <- _]. exists v, next. split; [done|]. unfold vlan_hdr. cbn [vlan_c vlan_pcp vlan_id v mbind res_bind].
  apply struct_pack_err. cbn. intros [Hlt _]. revert Hlt.
  set (x := Z.lor _ _). intros Hlt.
  assert (2 ^ 24 <= x); [|lia]. apply bit_lower_bound; [lia|lia|].
  unfold x. rewrite !Z.lor_spec. apply orb_true_iff. left. apply orb_true_iff. right.
  rewrite Z.shiftl_spec by lia. cbn [Z.sub Z.opp Z.add Z.pos_sub Pos.pred_double].
  rewrite Z.land_spec. change (24 - 12) with 12. by rewrite Hb.
Qed.

(** * Examples *)

(** A codec for examples: no lldp, dhcp or dns object parses. *)
Definition no_apps : AppCodec := {| app_parsed _ _ := Ok false; app_pack _ raw := Ok raw |}.

Definition ex_ipv4 (proto : Z) : ipv4 :=
  Ipv4 4 5 0 20 0x1234 2 0 64 proto 0 (NwIP (ip_of_int 0x0a000001)) (NwIP (ip_of_int 0x0a000002)).
Definition ex_udp : payload :=
  PPacket (Some true) (LUdp (Udp 5000 6000 8 0)) (PBytes (lit "hello")).
Definition ex_tcp : tcp :=
  Tcp 5000 80 1 0 10 0 2 8192 0 0 42
    [TcpOpt MSS (VInt 1460); TcpOpt SACKPERM VNone; TcpOpt TSOPT (VPair 1 2); TcpOpt NOP VNone; TcpOpt WSOPT (VInt 7)].

Lemma ipv4_pack_checksum_witness :
  let r := @pack no_apps None (PPacket (Some true) (LIpv4 (ex_ipv4 17)) ex_udp) in
  exists s p, r = (Ok s, p) /\ checksum (take 20 s) 0 None = 0.
Proof.
  eexists _, _. split; [vm_compute; reflexivity|].
  eapply (@ipv4_pack_checksum no_apps None (Some true) (ex_ipv4 17) ex_udp). vm_compute. reflexivity.
Defined.

Lemma udp_pack_checksum_witness :
  exists s p, @pack no_apps (Some (ex_ipv4 17)) ex_udp = (Ok s, p) /\
  exists ph u' next', p = PPacket (Some true) (LUdp u') next' /\ ippacket (ex_ipv4 17) (zlen s) = Ok ph /\
    checksum (ph ++ s) 0 None = 0 /\ udp_csum u' <> 0 /\
    udp_checksum (Some (ex_ipv4 17)) u' (Unparsed s) = Ok (udp_csum u').
Proof.
  eexists _, _. split; [vm_compute; reflexivity|].
  apply (@udp_pack_checksum no_apps (ex_ipv4 17) (Some true) (Udp 5000 6000 8 0) (PBytes (lit "hello"))).
  vm_compute. reflexivity.
Defined.

Lemma tcp_pack_checksum_witness :
  exists s p, @pack no_apps (Some (ex_ipv4 6)) (PPacket (Some true) (LTcp ex_tcp) (PBytes (lit "hi"))) = (Ok s, p) /\
  exists ph t' next', p = PPacket (Some true) (LTcp t') next' /\ ippacket (ex_ipv4 6) (zlen s) = Ok ph /\
    checksum (ph ++ s) 0 None = 0 /\ tcp_checksum (Some (ex_ipv4 6)) t' (Unparsed s) = Ok (tcp_csum t').
Proof.
  eexists _, _. split; [vm_compute; reflexivity|].
  apply (@tcp_pack_checksum no_apps (ex_ipv4 6) (Some true) ex_tcp (PBytes (lit "hi"))).
  vm_compute. reflexivity.
Defined.

Lemma pack_stable_witness :
  exists s p, @pack no_apps (Some (ex_ipv4 17)) ex_udp = (Ok s, p) /\
    @pack no_apps (Some (ex_ipv4 17)) p = (Ok s, p).
Proof.
  eexists _, _. split; [vm_compute; reflexivity|].
  apply (@pack_stable no_apps (Some (ex_ipv4 17)) ex_udp). vm_compute. reflexivity.
Defined.

(** An IPv4 packet announcing ICMP with a single byte of it. *)
Definition short_icmp : bytes :=
  byte_of_Z <$> ([0;0;0;0;0;2] ++ [0;0;0;0;0;1] ++ [8;0] ++
    [0x45;0;0;21;0;0;0;0;64;1;0;0;10;0;0;1;10;0;0;2] ++ [8]).
Lemma ethernet_new_raises_witness :
  let st := PState 0 (fun _ => 0) in
  exists st', @ethernet_new no_apps short_icmp st = (Err AttributeError, st') /\
    @parse_exn no_apps AttributeError.
Proof.
  eexists. split; [vm_compute; reflexivity|].
  eapply (@ethernet_new_raises no_apps short_icmp (PState 0 (fun _ => 0)) AttributeError).
  vm_compute. reflexivity.
Defined.

Lemma vlan_cfi_unpackable_witness :
  let p := PPacket (Some true) (LVlan (Vlan 0 0 5 0 (Some 0x1000))) PNone in
  let st := PState 0 (fun _ => 0) in
  @vlan_new no_apps ([x10; x05; x00; x00] ++ []) st = (Ok p, st) /\
  exists v next, p = PPacket (Some true) (LVlan v) next /\ vlan_hdr v = Err StructError.
Proof.
  split; [vm_compute; reflexivity|].
  refine (@vlan_cfi_unpackable no_apps [x10; x05; x00; x00] [] 0x1005 0 (PState 0 (fun _ => 0)) _
    (PState 0 (fun _ => 0)) _ _ _); vm_compute; reflexivity.
Defined.
