(* ===== verification/PacketRoundtrip.v ===== *)
(** Packed packets parse back: for every well-formed packet [ethernet.pack] succeeds and
    [ethernet(raw)] makes of the bytes the packet that packing left behind. *)
From S2P Require Import Prelude.
From S2P Require Import PyStruct.
From S2P Require Import Checksum.
From S2P Require Import Addresses.
From S2P Require Import Wire.
From S2P Require Import OfMatch.
From S2P Require Import Packets.
From S2P Require Import PacketCodec.
From S2P Require Import PacketTheory.

(** A mask of ones. *)
Lemma land_mask x n m : m = Z.ones n -> 0 <= n -> Z.land x m = x mod 2 ^ n.
Proof. intros -> Hn. by apply Z.land_ones. Qed.

(** * TCP options *)

(** The options that survive: [SACK] is written without its kind and length, an unknown
    option is not written at all, [EOL] ends the list. *)
Definition opt_ok (o : tcp_opt) : Prop :=
  match opt_value o with
  | VNone => opt_type o = NOP \/ opt_type o = SACKPERM
  | VInt v => (opt_type o = MSS /\ u16 v) \/ (opt_type o = WSOPT /\ u8 v)
  | VPair x y => opt_type o = TSOPT /\ u32 x /\ u32 y
  | VPairs _ | VBytes _ => False
  end.

Lemma ord_at_app (pre : bytes) c l i : i = zlen pre -> ord_at (pre ++ c :: l) i = Ok (Z_of_byte c).
Proof.
  intros ->. unfold ord_at, zlen. rewrite Nat2Z.id, list_lookup_middle; done.
Qed.
Lemma ord_at_app2 (pre : bytes) b c l i : i = zlen pre + 1 ->
  ord_at (pre ++ b :: c :: l) i = Ok (Z_of_byte c).
Proof.
  intros ->. change (pre ++ b :: c :: l) with (pre ++ [b] ++ c :: l). rewrite app_assoc.
  apply ord_at_app. by rewrite zlen_app.
Qed.

(** The value field of an option, when [s] is all of it. *)
Lemma slice_mid {A} (pre s l : list A) i j : i = zlen pre -> j = zlen pre + zlen s ->
  slice (pre ++ s ++ l) i j = s.
Proof.
  intros -> ->. pose proof (zlen_nonneg s). rewrite slice_skip by lia.
  rewrite Z.sub_diag. apply slice_hit. lia.
Qed.

(** The bytes of an option: kind, length, value. *)
Lemma opt_shape o s : opt_ok o -> to_bytes o = Ok s -> opt_type o <> NOP ->
  exists rest, s = byte_of_Z (opt_type o) :: byte_of_Z (zlen s) :: rest /\
    0 <= opt_type o < 256 /\ zlen s < 256 /\ opt_type o <> EOL /\
    match opt_value o with
    | VInt x => if opt_type o =? MSS then struct_pack "!H" [x] = Ok rest /\ zlen s = 4
                else rest = [byte_of_Z x] /\ u8 x /\ opt_type o = WSOPT
    | VPair x y => struct_pack "!II" [x; y] = Ok rest /\ opt_type o = TSOPT /\ zlen s = 10
    | _ => rest = [] /\ opt_type o = SACKPERM
    end.
Proof.
  intros Ho Hs Hn. destruct o as [ty v]. cbn [opt_type opt_value] in *. unfold opt_ok in Ho. cbn in Ho.
  unfold to_bytes in Hs. cbn [opt_type opt_value] in Hs. destruct v as [|x|x y| |]; try done.
  - destruct Ho as [->| ->]; [done|]. change (struct_pack "!BB" [SACKPERM; 2] = Ok s) in Hs.
    apply struct_pack_BB in Hs as [-> _]. by exists [].
  - destruct Ho as [[-> Hx]|[-> Hx]].
    + change (struct_pack "!BBH" ([MSS; 4] ++ [x]) = Ok s) in Hs.
      apply (struct_pack_split "!BBH" "!BB" "!H" [FU 1; FU 1] [FU 2]) in Hs as (s1 & s2 & -> & H1 & H2); [|done..].
      apply struct_pack_BB in H1 as [-> _]. apply struct_pack_len in H2 as L2. change (zlen s2 = 2) in L2.
      exists s2. rewrite zlen_app, L2. done.
    + change (struct_pack "!BBB" ([WSOPT; 3] ++ [x]) = Ok s) in Hs.
      apply (struct_pack_split "!BBB" "!BB" "!B" [FU 1; FU 1] [FU 1]) in Hs as (s1 & s2 & -> & H1 & H2); [|done..].
      apply struct_pack_BB in H1 as [-> _]. apply struct_pack_B in H2 as [-> _]. by exists [byte_of_Z x].
  - destruct Ho as (-> & Hx & Hy). change (struct_pack "!BBII" ([TSOPT; 10] ++ [x; y]) = Ok s) in Hs.
    apply (struct_pack_split "!BBII" "!BB" "!II" [FU 1; FU 1] [FU 4; FU 4]) in Hs as (s1 & s2 & -> & H1 & H2); [|done..].
    apply struct_pack_BB in H1 as [-> _]. apply struct_pack_len in H2 as L2. change (zlen s2 = 8) in L2.
    exists s2. rewrite zlen_app, L2. done.
Qed.

Lemma opt_parse pre o s post : opt_ok o -> to_bytes o = Ok s -> opt_type o <> NOP ->
  exists c rest, s = c :: rest /\ Z_of_byte c = opt_type o /\ opt_type o <> EOL /\
    parse_option (pre ++ s ++ post) (zlen (pre ++ s ++ post)) (zlen pre) (opt_type o)
      = Ok (o, zlen pre + zlen s).
Proof.
  intros Ho Hs Hn. destruct (opt_shape o s Ho Hs Hn) as (rest & E & Ht & Hl & He & Hv).
  exists (byte_of_Z (opt_type o)), (byte_of_Z (zlen s) :: rest). split; [done|].
  rewrite Z_of_byte_of_Z, Z.mod_small by done. split; [done|]. split; [done|].
  assert (zlen s = 2 + zlen rest) as Ez by (rewrite E at 1; unfold zlen; cbn [length]; lia).
  pose proof (zlen_nonneg rest). pose proof (zlen_nonneg post).
  assert (pre ++ s ++ post = (pre ++ [byte_of_Z (opt_type o); byte_of_Z (zlen s)]) ++ rest ++ post) as Ea
    by (rewrite E at 1; by rewrite <-app_assoc).
  assert (ord_at (pre ++ s ++ post) (zlen pre + 1) = Ok (zlen s)) as Eo.
  { rewrite Ea, <-app_assoc. cbn [app]. rewrite (ord_at_app2 pre) by done.
    by rewrite Z_of_byte_of_Z, Z.mod_small by lia. }
  set (pre2 := pre ++ [byte_of_Z (opt_type o); byte_of_Z (zlen s)]) in *.
  assert (zlen pre2 = zlen pre + 2) as Ep by (unfold pre2; by rewrite zlen_app).
  unfold parse_option. rewrite Eo. cbn [mbind res_bind]. rewrite !zlen_app.
  rewrite !(proj2 (Z.ltb_ge _ _)) by lia. rewrite Ea.
  destruct o as [ty v]. cbn [opt_type opt_value] in *. unfold opt_ok in Ho. cbn in Ho.
  destruct v as [|x|x y| |]; try done.
  - destruct Hv as [-> ->]. destruct Ho as [Ho|_]; [done|]. cbn [zlen] in Ez. rewrite Ez. done.
  - destruct (Z.eqb_spec ty MSS) as [->|Hm].
    + destruct Hv as [Hv Hz]. rewrite Hz in Ez |- *. cbn [mbind res_bind negb]. change (MSS =? MSS) with true. cbn iota.
      rewrite slice_mid by lia. rewrite (struct_unpack_pack _ _ _ Hv). done.
    + destruct Hv as (-> & Hx & ->). rewrite Ez. cbn [app]. rewrite ord_at_app by lia.
      cbn. by rewrite Z_of_byte_of_Z, Z.mod_small by lia.
  - destruct Hv as (Hv & -> & Hz). rewrite Hz in Ez |- *. change (TSOPT =? MSS) with false. change (TSOPT =? WSOPT) with false.
    change (TSOPT =? SACKPERM) with false. change (TSOPT =? SACK) with false. change (TSOPT =? TSOPT) with true.
    cbn [negb Z.eqb]. cbv iota. rewrite slice_mid by lia. rewrite (struct_unpack_pack _ _ _ Hv). done.
Qed.

Lemma opt_bytes_pos o s : opt_ok o -> to_bytes o = Ok s -> 0 < zlen s.
Proof.
  intros Ho Hs. destruct (decide (opt_type o = NOP)) as [E|E].
  - unfold to_bytes in Hs. rewrite E in Hs. vm_compute in Hs. by injection Hs as <-.
  - destruct (opt_shape o s Ho Hs E) as (rest & -> & _). unfold zlen. cbn [length]. lia.
Qed.

(** The option loop reads back what [pack_options] wrote. *)
Lemma options_parse options os : Forall opt_ok options -> pack_options [] options = Ok os ->
  forall fuel pre post acc arr n, zlen os < Z.of_nat fuel -> arr = pre ++ os ++ post -> n = zlen pre + zlen os ->
    parse_options_loop fuel arr (zlen arr) n (zlen pre) acc = (Ok n, acc ++ options).
Proof.
  intros Hall. revert os; induction Hall as [|o options Ho _ IH]; intros os Hos fuel pre post acc arr n Hf -> ->.
  - injection Hos as <-. destruct fuel as [|fuel]; [unfold zlen in Hf; cbn in Hf; lia|]. cbn [parse_options_loop].
    change (zlen (@nil Byte.byte)) with 0. rewrite Z.add_0_r, Z.ltb_irrefl, app_nil_r. done.
  - cbn [pack_options] in Hos. destruct (to_bytes o) as [s|] eqn:Hs; [|discriminate].
    cbn [mbind res_bind] in Hos. rewrite pack_options_acc in Hos.
    destruct (pack_options [] options) as [os'|] eqn:E; [|discriminate]. injection Hos as <-. cbn [app] in *.
    pose proof (opt_bytes_pos o s Ho Hs). rewrite (zlen_app s os') in Hf |- *. pose proof (zlen_nonneg os').
    destruct fuel as [|fuel]; [lia|]. cbn [parse_options_loop].
    rewrite (proj2 (Z.ltb_lt _ _)) by lia.
    assert (forall acc, parse_options_loop fuel (pre ++ (s ++ os') ++ post) (zlen (pre ++ (s ++ os') ++ post))
      (zlen pre + (zlen s + zlen os')) (zlen pre + zlen s) acc
      = (Ok (zlen pre + (zlen s + zlen os')), acc ++ options)) as IH'.
    { intros acc'. rewrite <-(zlen_app pre s).
      apply (IH os' eq_refl fuel (pre ++ s) post acc'); [lia| |rewrite zlen_app; lia].
      by rewrite <-!app_assoc. }
    unfold lift, get, put, mbind, M_bind. destruct (decide (opt_type o = NOP)) as [En|En].
    + destruct o as [ty v]. cbn in En. subst ty.
      assert (s = [x01]) as -> by (vm_compute in Hs; congruence).
      assert (v = VNone) as ->.
      { unfold opt_ok in Ho. cbn in Ho. destruct v; [done| | |done..].
        - destruct Ho as [[? _]|[? _]]; discriminate.
        - destruct Ho as [? _]; discriminate. }
      cbn [app]. rewrite ord_at_app by done. change (Z_of_byte x01 =? EOL) with false.
      change (Z_of_byte x01 =? NOP) with true. cbv iota.
      etransitivity; [apply IH'|]. by rewrite <-app_assoc.
    + destruct (opt_parse pre o s (os' ++ post) Ho Hs En) as (c & rest & Ec & Hc & He & Hp).
      rewrite (app_assoc s os') in Hp.
      assert (ord_at (pre ++ (s ++ os') ++ post) (zlen pre) = Ok (opt_type o)) as ->.
      { rewrite Ec. cbn [app]. by rewrite ord_at_app, Hc. }
      rewrite (proj2 (Z.eqb_neq _ _) He), (proj2 (Z.eqb_neq _ _) En), Hp. cbn [fst snd].
      rewrite IH', <-app_assoc. done.
Qed.

(** * Well-formed packets *)

(** Attributes within the widths of the header; [tcp_off] says how long the options are. *)
Definition udp_ok (u : udp) : Prop :=
  u16 (udp_srcport u) /\ u16 (udp_dstport u) /\
  udp_dstport u <> SERVER_PORT /\ udp_dstport u <> CLIENT_PORT /\
  udp_dstport u <> DNS_PORT /\ udp_srcport u <> DNS_PORT.
Definition tcp_ok (t : tcp) (n : Z) : Prop :=
  u16 (tcp_srcport t) /\ u16 (tcp_dstport t) /\ u32 (tcp_seq t) /\ u32 (tcp_ack t) /\
  0 <= tcp_off t < 16 /\ 0 <= tcp_res t < 16 /\ u8 (tcp_flags t) /\ u16 (tcp_win t) /\
  u16 (tcp_urg t) /\ tcp_tcplen t = n /\ Forall opt_ok (tcp_options t) /\
  exists os, pack_options [] (tcp_options t) = Ok os /\ tcp_off t * 4 = 20 + zlen os.
Definition echo_ok (e : echo) : Prop := u16 (echo_id e) /\ u16 (echo_seq e).
Definition unreach_ok (u : unreach) : Prop := u16 (unreach_unused u) /\ u16 (unreach_next_mtu u).
Definition addr_ok (a : nwaddr) : Prop := match a with NwIP a => ip_wf a | NwInt _ => False end.
(** [hdr] writes 20 bytes whatever [hl] says, so only packets without options survive. *)
Definition ipv4_ok (h : ipv4) : Prop :=
  ip_v h = 4 /\ ip_hl h = 5 /\ u8 (ip_tos h) /\ u16 (ip_id h) /\ 0 <= ip_flags h < 8 /\
  0 <= ip_frag h < 2 ^ 13 /\ u8 (ip_ttl h) /\ u8 (ip_protocol h) /\
  addr_ok (ip_srcip h) /\ addr_ok (ip_dstip h).

Abbreviation node l next := (PPacket (Some true) l next).

(** [ip_pkt n p]: [p] is an IPv4 packet of [n] bytes that survives; [ip_body proto n p]:
    [p] is a payload of [n] bytes for the protocol.  An IPv4 packet without payload does
    not survive: [parse] wants the header shorter than the packet. *)
Inductive ip_pkt : Z -> payload -> Prop :=
  | ip_pkt_intro h n next :
      ipv4_ok h -> 0 < n -> u16 (20 + n) -> ip_body (ip_protocol h) n next ->
      ip_pkt (20 + n) (node (LIpv4 h) next)
with ip_body : Z -> Z -> payload -> Prop :=
  | body_raw proto b : proto <> 17 -> proto <> 6 -> proto <> 1 -> ip_body proto (zlen b) (PBytes b)
  | body_udp u b : udp_ok u -> ip_body 17 (8 + zlen b) (node (LUdp u) (PBytes b))
  | body_tcp t b n : tcp_ok t n -> n = tcp_off t * 4 + zlen b -> ip_body 6 n (node (LTcp t) (PBytes b))
  | body_icmp i n next : u8 (icmp_code i) -> icmp_body (icmp_type i) n next ->
      ip_body 1 (4 + n) (node (LIcmp i) next)
with icmp_body : Z -> Z -> payload -> Prop :=
  | icmp_echo ty e b : ty = 8 \/ ty = 0 -> echo_ok e ->
      icmp_body ty (4 + zlen b) (node (LEcho e) (PBytes b))
  | icmp_unreach u b : unreach_ok u -> zlen b < 24 ->
      icmp_body 3 (4 + zlen b) (node (LUnreach u) (PBytes b))
  | icmp_unreach_ip u n next : unreach_ok u -> 24 <= n -> ip_pkt n next ->
      icmp_body 3 (4 + n) (node (LUnreach u) next)
  | icmp_other ty b : u8 ty -> ty <> 8 -> ty <> 0 -> ty <> 3 -> icmp_body ty (zlen b) (PBytes b).

Scheme ip_pkt_ind3 := Induction for ip_pkt Sort Prop
with ip_body_ind3 := Induction for ip_body Sort Prop
with icmp_body_ind3 := Induction for icmp_body Sort Prop.
Combined Scheme ip_mutind from ip_pkt_ind3, ip_body_ind3, icmp_body_ind3.

(** * Headers *)

Lemma read_head fmt vs hb rest n : struct_pack fmt vs = Ok hb -> n = zlen hb ->
  struct_unpack fmt (slice (hb ++ rest) 0 n) = Ok vs.
Proof. intros H ->. rewrite slice_hit by done. by apply struct_unpack_pack. Qed.

Lemma addr_ok_unsigned a : addr_ok a -> exists z, nw_unsigned a = Ok z /\ u32 z /\ NwIP (ip_of_int z) = a.
Proof.
  destruct a as [z|a]; [done|]. intros Ha. exists (ip_toUnsigned a false). split; [done|].
  split; [apply ip_toUnsigned_range|]. f_equal. by apply ip_of_toUnsigned.
Qed.

Lemma ippacket_total h n : ipv4_ok h -> u16 n -> exists ph, ippacket h n = Ok ph.
Proof.
  intros (_ & _ & _ & _ & _ & _ & _ & Hp & Hs & Hd) Hn. unfold ippacket.
  destruct (addr_ok_unsigned _ Hs) as (s & -> & Hs' & _). destruct (addr_ok_unsigned _ Hd) as (d & -> & Hd' & _).
  cbn [mbind res_bind]. destruct (struct_pack_ok "!IIBBH" [s; d; 0; ip_protocol h; n]) as (ph & E & _); [|eauto].
  cbn. lia.
Qed.

Lemma frag_word flags frag : 0 <= flags < 8 -> 0 <= frag < 2 ^ 13 ->
  let w := Z.lor (Z.shiftl flags 13) frag in
  u16 w /\ Z.shiftr w 13 = flags /\ Z.land w 0x1fff = frag.
Proof.
  intros Hf Hg w. assert (w = flags * 2 ^ 13 + frag) as E by (apply lor_concat; lia).
  rewrite E. split; [lia|]. split.
  - rewrite Z.shiftr_div_pow2 by lia. rewrite Z.div_add_l, Z.div_small by lia. lia.
  - change 0x1fff with (Z.ones 13). rewrite Z.land_ones by lia.
    rewrite Z.add_comm, Z_mod_plus_full. apply Z.mod_small. lia.
Qed.

(** ** UDP *)

Section Roundtrip.
Context `{AppCodec}.

Lemma udp_roundtrip h u b : ipv4_ok h -> udp_ok u -> u16 (8 + zlen b) ->
  exists s p', pack (Some h) (node (LUdp u) (PBytes b)) = (Ok s, p') /\ zlen s = 8 + zlen b /\
    udp_new s = Ok p' /\ payload_parsed p' = Some true.
Proof.
  intros Hh (Hs & Hd & N1 & N2 & N3 & N4) Hn. rewrite pack_layer by done. cbn [pack container hdr].
  unfold in_layer, udp_hdr, get, put, lift, mbind, M_bind. cbn [udp_srcport udp_dstport udp_len udp_csum].
  unfold udp_checksum. cbn [udp_srcport udp_dstport].
  destruct (ippacket_total h (8 + zlen b) Hh Hn) as [ph ->]. cbn [mbind res_bind].
  destruct (struct_pack_ok "!HHHH" [udp_srcport u; udp_dstport u; 8 + zlen b; 0]) as (my & -> & _); [cbn; lia|].
  cbn [mbind res_bind]. set (r := checksum _ 0 _). pose proof (checksum_u16 (ph ++ my ++ b) 0 (Some 9)) as Hr.
  fold r in Hr. set (c := if r =? 0 then 65535 else r).
  assert (u16 c) as Hc by (unfold c; destruct (r =? 0); lia).
  destruct (struct_pack_ok "!HHHH" [udp_srcport u; udp_dstport u; zlen b + 8; c]) as (hb & E & L); [cbn; lia|].
  change (struct_calcsize _) with 8 in L. cbn [udp_srcport udp_dstport udp_len udp_csum]. rewrite E.
  exists (hb ++ b). eexists. split; [reflexivity|]. split; [rewrite zlen_app; lia|]. split; [|done].
  pose proof (zlen_nonneg b). unfold udp_new. rewrite zlen_app, L, (proj2 (Z.ltb_ge _ _)) by lia.
  rewrite (read_head _ _ _ _ _ E) by done. cbn [mbind res_bind].
  rewrite !(proj2 (Z.ltb_ge _ _)) by lia.
  rewrite !(proj2 (Z.eqb_neq _ _)) by done. cbn [orb]. by rewrite slice_from_app.
Qed.

(** ** TCP *)

Lemma tcp_header_total t n c : tcp_ok t n -> u16 c -> exists hb os,
  tcp_packed t c = Ok (hb ++ os) /\ zlen hb = 20 /\ pack_options [] (tcp_options t) = Ok os /\
  tcp_off t * 4 = 20 + zlen os /\
  struct_pack "!HHIIBBHHH" [tcp_srcport t; tcp_dstport t; tcp_seq t; tcp_ack t;
    Z.lor (Z.shiftl (tcp_off t) 4) (tcp_res t); tcp_flags t; tcp_win t; c; tcp_urg t] = Ok hb.
Proof.
  intros (? & ? & ? & ? & Ho & Hr & ? & ? & ? & _ & _ & os & Hos & Hoff) Hc.
  unfold tcp_packed. rewrite (lor_concat (tcp_off t) (tcp_res t) 4) by lia.
  destruct (struct_pack_ok "!HHIIBBHHH" [tcp_srcport t; tcp_dstport t; tcp_seq t; tcp_ack t;
    tcp_off t * 2 ^ 4 + tcp_res t; tcp_flags t; tcp_win t; c; tcp_urg t]) as (hb & E & L); [cbn; lia|].
  exists hb, os. rewrite E. cbn [mbind res_bind]. rewrite pack_options_acc, Hos. done.
Qed.

Lemma tcp_new_packed t n c hb os b : tcp_ok t n -> n = tcp_off t * 4 + zlen b -> u16 c ->
  zlen hb = 20 -> pack_options [] (tcp_options t) = Ok os -> tcp_off t * 4 = 20 + zlen os ->
  struct_pack "!HHIIBBHHH" [tcp_srcport t; tcp_dstport t; tcp_seq t; tcp_ack t;
    Z.lor (Z.shiftl (tcp_off t) 4) (tcp_res t); tcp_flags t; tcp_win t; c; tcp_urg t] = Ok hb ->
  tcp_new (hb ++ os ++ b) = Ok (node (LTcp (with_tcp_csum c t)) (PBytes b)).
Proof.
  intros (_ & _ & _ & _ & Ho & Hr & _ & _ & _ & Hl & Hall & _) Hn Hc L Hos Hoff E.
  pose proof (zlen_nonneg b). pose proof (zlen_nonneg os).
  assert (zlen (hb ++ os ++ b) = n) as Ln by (rewrite !zlen_app; lia).
  unfold tcp_new. rewrite Ln, (proj2 (Z.ltb_ge n 20)) by lia. rewrite (read_head _ _ _ _ _ E) by done.
  cbn [mbind res_bind]. rewrite (lor_concat (tcp_off t) (tcp_res t) 4) by lia.
  assert (Z.shiftr (tcp_off t * 2 ^ 4 + tcp_res t) 4 = tcp_off t) as ->.
  { rewrite Z.shiftr_div_pow2 by lia. rewrite Z.div_add_l, Z.div_small by lia. lia. }
  assert (Z.land (tcp_off t * 2 ^ 4 + tcp_res t) 15 = tcp_res t) as ->.
  { change 15 with (Z.ones 4). rewrite Z.land_ones by lia.
    rewrite Z.add_comm, Z_mod_plus_full. apply Z.mod_small. lia. }
  rewrite !(proj2 (Z.ltb_ge _ _)) by lia. cbn [orb].
  unfold parse_options, put, mbind, M_bind.
  replace 20 with (zlen hb) at 1 by lia.
  rewrite (options_parse _ _ Hall Hos _ hb b [] _ (tcp_off t * 4)); [|unfold zlen in *; lia|done|lia].
  cbn [app]. do 2 f_equal; [unfold with_tcp_csum; by rewrite Hl|].
  f_equal. rewrite app_assoc. apply slice_from_app. rewrite zlen_app. lia.
Qed.

Lemma tcp_roundtrip h t b n : ipv4_ok h -> tcp_ok t n -> n = tcp_off t * 4 + zlen b -> u16 n ->
  exists s p', pack (Some h) (node (LTcp t) (PBytes b)) = (Ok s, p') /\ zlen s = n /\
    tcp_new s = Ok p' /\ payload_parsed p' = Some true.
Proof.
  intros Hh Ht Hn Hn16. rewrite pack_layer by done. cbn [pack container hdr].
  unfold in_layer, tcp_hdr, get, put, lift, mbind, M_bind.
  assert (exists c, tcp_checksum (Some h) t (Packed b) = Ok c /\ u16 c) as (c & -> & Hc).
  { unfold tcp_checksum. destruct (tcp_header_total t n 0 Ht) as (hb & os & -> & L & _ & Ho & _); [lia|].
    cbn [mbind res_bind]. destruct (ippacket_total h (zlen ((hb ++ os) ++ b)) Hh) as [ph ->];
      [rewrite !zlen_app; lia|]. cbn [mbind res_bind]. eexists. split; [done|apply checksum_u16]. }
  destruct (tcp_header_total t n c Ht Hc) as (hb & os & E & L & Hos & Ho & Ep).
  change (tcp_packed (with_tcp_csum c t)) with (tcp_packed t). cbn [tcp_csum with_tcp_csum].
  change (tcp_csum (with_tcp_csum c t)) with c. rewrite E.
  exists ((hb ++ os) ++ b). eexists. split; [reflexivity|]. split; [rewrite !zlen_app; lia|].
  split; [|done]. rewrite <-app_assoc. by eapply tcp_new_packed.
Qed.

(** ** ICMP *)

Lemma echo_roundtrip e b : echo_ok e ->
  exists s, pack None (node (LEcho e) (PBytes b)) = (Ok s, node (LEcho e) (PBytes b)) /\
    zlen s = 4 + zlen b /\
    forall st, exists st', echo_new s st = (Ok (node (LEcho e) (PBytes b)), st').
Proof.
  intros [Hi Hs]. rewrite pack_layer by done. cbn [pack container hdr]. unfold echo_hdr.
  destruct (struct_pack_ok "!HH" [echo_id e; echo_seq e]) as (hb & E & L); [cbn; lia|].
  change (struct_calcsize _) with 4 in L. rewrite E. exists (hb ++ b). split; [done|].
  split; [rewrite zlen_app; lia|]. intros st. eexists. unfold echo_new, randint, get, put, lift, mbind, M_bind.
  pose proof (zlen_nonneg b). rewrite (proj2 (Z.ltb_ge _ _)) by (rewrite zlen_app; lia).
  rewrite (read_head _ _ _ _ _ E) by done. cbn [res_bind]. rewrite slice_from_app by done. by destruct e.
Qed.

(** [unreach] reads the datagram it quotes when there are 28 bytes. *)
Lemma unreach_head u rest : unreach_ok u -> exists hb, unreach_hdr u = Ok hb /\ zlen hb = 4 /\
  forall rec, unreach_new rec (hb ++ rest) =
    (next ← (if 28 <=? 4 + zlen rest then rec rest else mret (PBytes rest));
     mret (node (LUnreach u) next)).
Proof.
  intros [Hu Hm]. unfold unreach_hdr.
  destruct (struct_pack_ok "!HH" [unreach_unused u; unreach_next_mtu u]) as (hb & E & L); [cbn; lia|].
  change (struct_calcsize _) with 4 in L. exists hb. split; [done|]. split; [done|]. intros rec.
  unfold unreach_new. pose proof (zlen_nonneg rest).
  rewrite (proj2 (Z.ltb_ge _ _)) by (rewrite zlen_app; lia).
  rewrite (read_head _ _ _ _ _ E) by done. rewrite slice_from_app, zlen_app, L by done.
  by destruct u.
Qed.

(** The header of an ICMP message, whatever follows. *)
Lemma icmp_head i rest : u8 (icmp_type i) -> u8 (icmp_code i) ->
  exists hb i', icmp_hdr rest i = (Ok hb, i') /\ zlen hb = 4 /\ icmp_type i' = icmp_type i /\
    forall rec, icmp_new rec (hb ++ rest) =
      (next ← (if (icmp_type i =? 8) || (icmp_type i =? 0) then echo_new rest
               else if icmp_type i =? 3 then unreach_new rec rest else mret (PBytes rest));
       mret (node (LIcmp i') next)).
Proof.
  intros Ht Hc. unfold icmp_hdr, get, put, lift, mbind, M_bind.
  destruct (struct_pack_ok "!BBH" [icmp_type i; icmp_code i; 0]) as (p & -> & _); [cbn; lia|].
  cbn [icmp_type icmp_code icmp_csum]. set (c := checksum _ 0 None).
  pose proof (checksum_u16 (p ++ rest) 0 None) as Hcs. fold c in Hcs.
  destruct (struct_pack_ok "!BBH" [icmp_type i; icmp_code i; c]) as (hb & E & L); [cbn; lia|].
  change (struct_calcsize _) with 4 in L. rewrite E. exists hb. eexists. split; [reflexivity|].
  split; [done|]. split; [done|]. intros rec. unfold icmp_new. pose proof (zlen_nonneg rest).
  rewrite (proj2 (Z.ltb_ge _ _)) by (rewrite zlen_app; lia).
  rewrite (read_head _ _ _ _ _ E) by done. by rewrite slice_from_app.
Qed.

(** ** IPv4 *)

(** [ipv4.parse] replaces a payload that did not parse by its bytes. *)
Definition keep_parsed (body : bytes) (next : payload) : M pstate payload :=
  match next with
  | PPacket parsed _ _ =>
      p ← lift (attr_parsed parsed);
      if (p : bool) then mret next else mret (PBytes body)
  | _ => mret next
  end.

Lemma ipv4_packed_total h c : ipv4_ok h -> u16 (ip_iplen h) -> u16 c -> exists hb src dst,
  ipv4_packed h c = Ok hb /\ zlen hb = 20 /\ u32 src /\ u32 dst /\
  NwIP (ip_of_int src) = ip_srcip h /\ NwIP (ip_of_int dst) = ip_dstip h /\
  forall rest, ipv4_fields (hb ++ rest) =
    Ok (Ipv4 4 5 (ip_tos h) (ip_iplen h) (ip_id h) (ip_flags h) (ip_frag h) (ip_ttl h) (ip_protocol h) c
         (NwInt src) (NwInt dst)).
Proof.
  intros (Hv & Hl & Ht & Hid & Hfl & Hfr & Httl & Hp & Hs & Hd) Hn Hc. unfold ipv4_packed.
  destruct (addr_ok_unsigned _ Hs) as (src & -> & Hs' & Es). destruct (addr_ok_unsigned _ Hd) as (dst & -> & Hd' & Ed).
  destruct (frag_word _ _ Hfl Hfr) as (Hw & Ef & Eg). cbn [mbind res_bind]. rewrite Hv, Hl.
  set (w := Z.lor _ _) in *.
  destruct (struct_pack_ok "!BBHHHBBHII" [Z.shiftl 4 4 + 5; ip_tos h; ip_iplen h; ip_id h; w; ip_ttl h;
    ip_protocol h; c; src; dst]) as (hb & E & L); [change (Z.shiftl 4 4 + 5) with 69; cbn; lia|].
  change (struct_calcsize _) with 20 in L. exists hb, src, dst. rewrite E. do 6 (split; [done|]).
  intros rest. unfold ipv4_fields. rewrite (read_head _ _ _ _ _ E) by done. cbn [mbind res_bind].
  rewrite Ef, Eg. done.
Qed.

Lemma ipv4_new_good rec raw st h : 20 <= zlen raw -> ipv4_fields raw = Ok h -> ip_v h = 4 ->
  5 <= ip_hl h -> 20 <= ip_iplen h -> ip_hl h * 4 < ip_iplen h -> ip_hl h * 4 <= zlen raw ->
  exists st', ipv4_new rec raw st = ipv4_body rec raw h st'.
Proof.
  intros H1 Hf H2 H3 H4 H5 H6. eexists. unfold ipv4_new, next_ip_id, get, put, mbind, M_bind, mret, M_ret.
  rewrite (proj2 (Z.ltb_ge _ _)) by done. unfold lift. rewrite Hf, H2.
  rewrite !(proj2 (Z.ltb_ge _ _)), (proj2 (Z.leb_gt _ _)) by done. reflexivity.
Qed.

Lemma ipv4_head h rest : ipv4_ok h -> 0 < zlen rest -> u16 (20 + zlen rest) ->
  exists hb h', ipv4_hdr rest h = (Ok hb, h') /\ zlen hb = 20 /\
    ip_protocol h' = ip_protocol h /\ ip_iplen h' = 20 + zlen rest /\
    forall rec st, exists st', ipv4_new rec (hb ++ rest) st =
      (next ← ipv4_payload rec h' (ip_iplen h') rest;
       next ← keep_parsed rest next;
       mret (node (LIpv4 h') next)) st'.
Proof.
  intros Hh Hpos Hn. unfold ipv4_hdr, get, put, lift, mbind, M_bind.
  set (h1 := with_iplen _ h).
  assert (ip_iplen h1 = 20 + zlen rest) as E1.
  { destruct Hh as (_ & Hl & _). unfold h1. cbn [ip_iplen with_iplen]. rewrite Hl. lia. }
  assert (ipv4_ok h1) as Hh1 by exact Hh.
  destruct (ipv4_packed_total h1 0 Hh1) as (hb0 & _ & _ & E0 & _); [lia|lia|].
  unfold ipv4_checksum. rewrite E0. cbn [mbind res_bind]. set (c := checksum hb0 0 None).
  pose proof (checksum_u16 hb0 0 None) as Hc. fold c in Hc.
  destruct (ipv4_packed_total h1 c Hh1) as (hb & src & dst & E & L & _ & _ & Es & Ed & Hf); [lia|lia|].
  change (ipv4_packed (with_ip_csum c h1)) with (ipv4_packed h1).
  change (ip_csum (with_ip_csum c h1)) with c. rewrite E.
  exists hb, (with_ip_csum c h1). split; [done|]. split; [done|]. split; [done|]. split; [done|].
  intros rec st. pose proof (Hf rest) as Hfr.
  edestruct (ipv4_new_good rec (hb ++ rest) st) as [st' ->]; [|exact Hfr|..];
    rewrite ?zlen_app; cbn [ip_v ip_hl ip_iplen]; [lia..|].
  exists st'. unfold ipv4_body. cbn [ip_dstip ip_srcip]. rewrite !nw_to_ip_int.
  unfold mbind, M_bind at 1 2, lift at 1 2.
  assert (with_addrs (Ipv4 4 5 (ip_tos h1) (ip_iplen h1) (ip_id h1) (ip_flags h1) (ip_frag h1) (ip_ttl h1)
    (ip_protocol h1) c (NwInt src) (NwInt dst)) (NwIP (ip_of_int src)) (NwIP (ip_of_int dst))
    = with_ip_csum c h1) as ->.
  { destruct Hh1 as (Hv & Hl & _). unfold with_addrs, with_ip_csum. cbn. rewrite Es, Ed, <-Hv, <-Hl. done. }
  change (ip_iplen (with_ip_csum c h1)) with (ip_iplen h1). change (ip_hl (with_ip_csum c h1)) with (ip_hl h1).
  destruct Hh1 as (_ & -> & _). rewrite zlen_app, L, E1, Z.ltb_irrefl.
  rewrite slice_skip, L by lia. rewrite slice_all by lia. done.
Qed.

(** What the induction shows of the three kinds of packets. *)
Definition ip_survives (n : Z) (p : payload) : Prop := exists s p',
  pack None p = (Ok s, p') /\ zlen s = n /\ payload_parsed p' = Some true /\
  forall fuel st, n < Z.of_nat fuel -> exists st', ipv4_parse fuel s st = (Ok p', st').

Definition body_survives (proto n : Z) (p : payload) : Prop := forall h,
  ipv4_ok h -> ip_protocol h = proto -> u16 (20 + n) -> exists s p',
  pack (Some h) p = (Ok s, p') /\ zlen s = n /\
  forall fuel st h', ip_protocol h' = proto -> n < Z.of_nat fuel -> exists st',
    (next ← ipv4_payload (ipv4_parse fuel) h' (ip_iplen h') s; keep_parsed s next) st = (Ok p', st').

Definition icmp_parse (rec : bytes -> M pstate payload) (ty : Z) (s : bytes) : M pstate payload :=
  if (ty =? 8) || (ty =? 0) then echo_new s
  else if ty =? 3 then unreach_new rec s else mret (PBytes s).
Definition icmp_survives (ty n : Z) (p : payload) : Prop := u8 ty /\ exists s p',
  pack None p = (Ok s, p') /\ zlen s = n /\
  forall fuel st, n < Z.of_nat fuel -> exists st', icmp_parse (ipv4_parse fuel) ty s st = (Ok p', st').

Lemma ip_pkt_survives h n next : ipv4_ok h -> 0 < n -> u16 (20 + n) ->
  body_survives (ip_protocol h) n next -> ip_survives (20 + n) (node (LIpv4 h) next).
Proof.
  intros Hh Hn H16 Hb. destruct (Hb h Hh eq_refl H16) as (rest & next' & Hp & Lr & Hparse).
  destruct (ipv4_head h rest) as (hb & h' & Eh & Lh & Epr & Eil & Hnew); [done|lia|lia|].
  exists (hb ++ rest), (node (LIpv4 h') next'). rewrite pack_layer by done. cbn [container]. rewrite Hp.
  cbn [hdr]. unfold in_layer. rewrite Eh. split; [done|]. split; [rewrite zlen_app; lia|]. split; [done|].
  intros [|fuel] st Hf; [lia|]. cbn [ipv4_parse]. destruct (Hnew (ipv4_parse fuel) st) as [st1 ->].
  destruct (Hparse fuel st1 h' Epr) as [st' E]; [lia|]. exists st'.
  revert E. unfold mbind, M_bind. destruct (ipv4_payload _ _ _ _ st1) as [[x|e] st2]; [|done].
  by intros ->.
Qed.

Lemma body_parsed s p' next st (m : M pstate payload) : m st = (Ok p', next) ->
  payload_parsed p' = Some true -> (next ← m; keep_parsed s next) st = (Ok p', next).
Proof.
  intros E Hp. unfold mbind, M_bind. rewrite E. destruct p' as [| | |parsed l q]; try done.
  cbn in Hp. subst. done.
Qed.

Lemma body_raw_survives proto b : proto <> 17 -> proto <> 6 -> proto <> 1 ->
  body_survives proto (zlen b) (PBytes b).
Proof.
  intros H1 H2 H3 h Hh Hp Hn. exists b, (PBytes b). split; [done|]. split; [done|].
  intros fuel st h' Hp' Hf. exists st. unfold ipv4_payload.
  rewrite Hp', !(proj2 (Z.eqb_neq _ _)) by done. unfold mbind, M_bind, mret, M_ret.
  destruct (ip_iplen h' <? ip_iplen h') eqn:E; [apply Z.ltb_lt in E; lia|]. done.
Qed.

Lemma body_icmp_survives i n next : u8 (icmp_code i) -> icmp_survives (icmp_type i) n next ->
  body_survives 1 (4 + n) (node (LIcmp i) next).
Proof.
  intros Hc (Ht & rest & next' & Hp & Lr & Hparse) h Hh Hpr Hn.
  destruct (icmp_head i rest Ht Hc) as (hb & i' & Eh & Lh & _ & Hnew).
  exists (hb ++ rest), (node (LIcmp i') next'). rewrite pack_layer by done. cbn [container]. rewrite Hp.
  cbn [hdr]. unfold in_layer. rewrite Eh. split; [done|]. split; [rewrite zlen_app; lia|].
  intros fuel st h' Hp' Hf. destruct (Hparse fuel st) as [st' E]; [lia|]. exists st'.
  apply body_parsed; [|done]. unfold ipv4_payload. rewrite Hp'. cbn [Z.eqb Pos.eqb]. cbv iota.
  change (1 =? 1) with true. cbv iota. rewrite Hnew. fold (icmp_parse (ipv4_parse fuel) (icmp_type i) rest).
  unfold mbind, M_bind. by rewrite E.
Qed.

Lemma icmp_unreach_bytes_survives u b : unreach_ok u -> zlen b < 24 ->
  icmp_survives 3 (4 + zlen b) (node (LUnreach u) (PBytes b)).
Proof.
  intros Hu Hb. split; [lia|]. destruct (unreach_head u b Hu) as (hb & Eh & Lh & Hnew).
  exists (hb ++ b), (node (LUnreach u) (PBytes b)). rewrite pack_layer by done. cbn [pack container hdr].
  rewrite Eh. split; [done|]. split; [rewrite zlen_app; lia|].
  intros fuel st Hf. exists st. unfold icmp_parse. cbn [Z.eqb Pos.eqb orb]. rewrite Hnew.
  rewrite (proj2 (Z.leb_gt _ _)) by lia. done.
Qed.

Lemma icmp_unreach_ip_survives u n next : unreach_ok u -> 24 <= n -> ip_survives n next ->
  icmp_survives 3 (4 + n) (node (LUnreach u) next).
Proof.
  intros Hu Hn (rest & next' & Hp & Lr & _ & Hparse). split; [lia|].
  destruct (unreach_head u rest Hu) as (hb & Eh & Lh & Hnew).
  exists (hb ++ rest), (node (LUnreach u) next'). rewrite pack_layer by done. cbn [container hdr].
  rewrite Hp, Eh. split; [done|]. split; [rewrite zlen_app; lia|].
  intros fuel st Hf. destruct (Hparse fuel st) as [st' E]; [lia|]. exists st'.
  unfold icmp_parse. cbn [Z.eqb Pos.eqb orb]. rewrite Hnew, (proj2 (Z.leb_le _ _)) by lia.
  unfold mbind, M_bind. by rewrite E.
Qed.

(** IPv4 packets, with all they can hold, survive. *)
Lemma ip_packets_survive :
  (forall n p, ip_pkt n p -> ip_survives n p) /\
  (forall proto n p, ip_body proto n p -> body_survives proto n p) /\
  (forall ty n p, icmp_body ty n p -> icmp_survives ty n p).
Proof.
  apply ip_mutind.
  - intros. by apply ip_pkt_survives.
  - intros. by apply body_raw_survives.
  - intros u b Hu h Hh Hp Hn. pose proof (zlen_nonneg b). destruct (udp_roundtrip h u b Hh Hu) as (s & p' & E & L & Hnew & Hpa); [lia|].
    exists s, p'. split; [done|]. split; [done|]. intros fuel st h' Hp' _. exists st.
    apply body_parsed; [|done]. unfold ipv4_payload. rewrite Hp'. unfold lift. cbn [Z.eqb Pos.eqb]. by rewrite Hnew.
  - intros t b n Ht En h Hh Hp Hn. pose proof (zlen_nonneg b).
    assert (0 <= tcp_off t) by apply Ht. destruct (tcp_roundtrip h t b n Hh Ht En) as (s & p' & E & L & Hnew & Hpa); [lia|].
    exists s, p'. split; [done|]. split; [done|]. intros fuel st h' Hp' _. exists st.
    apply body_parsed; [|done]. unfold ipv4_payload. rewrite Hp'. unfold lift. cbn [Z.eqb Pos.eqb]. by rewrite Hnew.
  - intros. by apply body_icmp_survives.
  - intros ty e b Hty He. split; [lia|]. destruct (echo_roundtrip e b He) as (s & E & L & Hnew).
    exists s, (node (LEcho e) (PBytes b)). split; [done|]. split; [done|]. intros fuel st _.
    unfold icmp_parse. assert ((ty =? 8) || (ty =? 0) = true) as -> by (by destruct Hty as [-> | ->]). apply Hnew.
  - intros. by apply icmp_unreach_bytes_survives.
  - intros. by apply icmp_unreach_ip_survives.
  - intros ty b Ht H8 H0 H3. split; [done|]. exists b, (PBytes b). split; [done|]. split; [done|].
    intros fuel st _. exists st. unfold icmp_parse. by rewrite !(proj2 (Z.eqb_neq _ _)) by done.
Qed.

(** ** ARP, MPLS, EAPOL *)

Definition arp_ok (a : arp) : Prop :=
  u16 (arp_hwtype a) /\ u16 (arp_prototype a) /\ arp_hwlen a = 6 /\ arp_protolen a = 4 /\
  u16 (arp_opcode a) /\ hw_wf (arp_hwsrc a) /\ hw_wf (arp_hwdst a) /\
  addr_ok (arp_protosrc a) /\ addr_ok (arp_protodst a).
Definition mpls_ok (m : mpls) : Prop :=
  0 <= mpls_label m < 2 ^ 20 /\ 0 <= mpls_tc m < 8 /\ 0 <= mpls_s m < 2 /\ u8 (mpls_ttl m).
Definition eapol_ok (e : eapol) : Prop :=
  u8 (eapol_version e) /\ u8 (eapol_type e) /\ eapol_type e <> 0 /\ u16 (eapol_bodylen e).

Lemma nw_packed_ok a : addr_ok a -> exists s, nw_packed a = Ok s /\ zlen s = 4 /\ nw_of_raw s = Ok a.
Proof.
  destruct a as [z|a]; [done|]. intros Ha. unfold nw_packed, nw_of_raw.
  pose proof (struct_pack_netI _ (ip_toUnsigned_range a)) as E. eexists. split; [exact E|].
  split; [by rewrite zlen_be_enc|]. rewrite (struct_unpack_pack _ _ _ E). cbn [mbind res_bind].
  rewrite IPAddr_init_int. cbn [mbind res_bind]. by rewrite ip_of_toUnsigned.
Qed.

Lemma arp_roundtrip a b : arp_ok a ->
  exists s, pack None (node (LArp a) (PBytes b)) = (Ok s, node (LArp a) (PBytes b)) /\ zlen s = 28 + zlen b /\
    arp_new s = Ok (node (LArp a) (PBytes b)).
Proof.
  intros (H1 & H2 & Hl & Pl & H3 & Hs & Hd & Ps & Pd). rewrite pack_layer by done. cbn [pack container hdr].
  unfold arp_hdr. destruct (struct_pack_ok "!HHBBH" [arp_hwtype a; arp_prototype a; arp_hwlen a;
    arp_protolen a; arp_opcode a]) as (hb & E & L); [rewrite Hl, Pl; cbn; lia|].
  change (struct_calcsize _) with 8 in L.
  destruct (nw_packed_ok _ Ps) as (ps & Eps & Lps & Rps). destruct (nw_packed_ok _ Pd) as (pd & Epd & Lpd & Rpd).
  rewrite E, Eps, Epd. cbn [mbind res_bind]. eexists. split; [reflexivity|].
  pose proof (hw_raw_len _ Hs) as Ls. pose proof (hw_raw_len _ Hd) as Ld.
  pose proof (hw_of_bytes_raw _ Hs) as Rs. pose proof (hw_of_bytes_raw _ Hd) as Rd.
  set (rs := hw_raw (arp_hwsrc a)) in *. set (rd := hw_raw (arp_hwdst a)) in *.
  pose proof (zlen_nonneg b). rewrite <-!app_assoc. split; [rewrite !zlen_app; lia|]. unfold arp_new.
  rewrite (proj2 (Z.ltb_ge _ _)) by (rewrite !zlen_app; lia).
  rewrite (read_head _ _ _ _ _ E) by done. cbn [mbind res_bind]. rewrite Hl, Pl. cbn [Z.eqb Pos.eqb negb].
  rewrite !(slice_skip_n hb _ _ _ 8) by lia. cbn [Z.sub Z.opp Z.add Z.pos_sub Pos.pred_double].
  rewrite (slice_hit rs) by lia. rewrite !(slice_skip_n rs _ _ _ 6) by lia.
  cbn [Z.sub Z.opp Z.add Z.pos_sub Pos.pred_double].
  rewrite (slice_hit ps) by lia. rewrite !(slice_skip_n ps _ _ _ 4) by lia.
  cbn [Z.sub Z.opp Z.add Z.pos_sub Pos.pred_double].
  rewrite (slice_hit rd) by lia. rewrite !(slice_skip_n rd _ _ _ 6) by lia.
  cbn [Z.sub Z.opp Z.add Z.pos_sub Pos.pred_double].
  rewrite (slice_hit pd) by lia. rewrite Rs, Rd, Rps, Rpd. cbn [mbind res_bind fst snd].
  assert (slice_from (hb ++ rs ++ ps ++ rd ++ pd ++ b) 28 = b) as ->.
  { rewrite !app_assoc. apply slice_from_app. rewrite !zlen_app. lia. }
  do 4 f_equal. destruct a. cbn in *. congruence.
Qed.

Lemma mpls_roundtrip m b : mpls_ok m ->
  exists s, pack None (node (LMpls m) (PBytes b)) = (Ok s, node (LMpls m) (PBytes b)) /\
    mpls_new s = Ok (node (LMpls m) (PBytes b)).
Proof.
  destruct m as [label tc st ttl]. intros (Hl & Ht & Hs & Httl). cbn [mpls_label mpls_tc mpls_s mpls_ttl] in *.
  rewrite pack_layer by done. cbn [pack container hdr]. unfold mpls_hdr. cbn [mpls_label mpls_tc mpls_s mpls_ttl].
  rewrite (land_mask label 20), (land_mask tc 3), (land_mask st 1), (land_mask ttl 8), (land_mask _ 4) by done. rewrite !(Z.mod_small label), (Z.mod_small tc), (Z.mod_small st), (Z.mod_small ttl) by lia.
  rewrite Z.shiftr_div_pow2 by lia.
  assert (Z.lor (Z.lor (Z.shiftl (label mod 2 ^ 4) 4) (Z.shiftl tc 1)) st = label mod 16 * 16 + tc * 2 + st) as ->.
  { rewrite <-Z.lor_assoc, (lor_concat tc st 1) by lia. rewrite (lor_concat _ (tc * 2 ^ 1 + st) 4) by lia. change (2 ^ 4) with 16. change (2 ^ 1) with 2. lia. }
  set (low := label mod 16 * 16 + tc * 2 + st).
  assert (0 <= low < 256) as Hlow by (unfold low; Z.to_euclidean_division_equations; lia).
  destruct (struct_pack_ok "!HBB" [label / 2 ^ 4; low; ttl]) as (hb & E & L).
  { cbn. Z.to_euclidean_division_equations. lia. }
  change (struct_calcsize _) with 4 in L. rewrite E. eexists. split; [reflexivity|].
  pose proof (zlen_nonneg b). unfold mpls_new. rewrite (proj2 (Z.ltb_ge _ _)) by (rewrite zlen_app; lia).
  rewrite (read_head _ _ _ _ _ E) by done. cbn [mbind res_bind]. rewrite slice_from_app by done.
  rewrite (land_mask low 1 1), (land_mask low 4 15) by done.
  rewrite !Z.shiftr_div_pow2 by lia.
  rewrite (lor_concat (label / 2 ^ 4) (low / 2 ^ 4) 4) by (unfold low in *; Z.to_euclidean_division_equations; lia).
  do 4 f_equal; unfold low; Z.to_euclidean_division_equations; lia.
Qed.

Lemma eapol_roundtrip e : eapol_ok e ->
  exists s, pack None (node (LEapol e) PNone) = (Ok s, node (LEapol e) PNone) /\
    eapol_new s = Ok (node (LEapol e) PNone).
Proof.
  intros (Hv & Ht & Hn & Hb). rewrite pack_layer by done. cbn [pack container hdr]. unfold eapol_hdr.
  destruct (struct_pack_ok "!BBH" [eapol_version e; eapol_type e; eapol_bodylen e]) as (hb & E & L); [cbn; lia|].
  change (struct_calcsize _) with 4 in L. rewrite E. eexists. split; [reflexivity|].
  unfold eapol_new. rewrite zlen_app, L. rewrite (read_head _ _ _ _ _ E) by done. cbn [mbind res_bind].
  change (4 + zlen [] <? 4) with false. cbv iota. rewrite (proj2 (Z.eqb_neq _ _)) by done. by destruct e.
Qed.

(** ** What a frame can carry *)

(** The payload of an ethertype that [type_parser] knows. *)
Inductive l3_ok : Z -> payload -> Prop :=
  | l3_arp ty a b : ty = 0x0806 \/ ty = 0x8035 -> arp_ok a -> l3_ok ty (node (LArp a) (PBytes b))
  | l3_ip n p : ip_pkt n p -> l3_ok 0x0800 p
  | l3_mpls ty m b : ty = 0x8847 \/ ty = 0x8848 -> mpls_ok m -> l3_ok ty (node (LMpls m) (PBytes b))
  | l3_eapol e : eapol_ok e -> l3_ok 0x888e (node (LEapol e) PNone).

Lemma l3_roundtrip ty p : l3_ok ty p -> exists parse s p',
  type_parser ty = Some parse /\ pack None p = (Ok s, p') /\
  forall st, exists st', parse s st = (Ok p', st').
Proof.
  intros [ty' a b Hty Ha|n q Hq|ty' m b Hty Hm|e He].
  - destruct (arp_roundtrip a b Ha) as (s & E & _ & Hn). exists (fun raw => lift (arp_new raw)), s. eexists.
    split; [by destruct Hty as [-> | ->]|]. split; [exact E|]. intros st. exists st. unfold lift. by rewrite Hn.
  - apply ip_packets_survive in Hq as (s & p' & E & L & _ & Hp).
    exists (fun raw => ipv4_parse (S (length raw)) raw), s, p'. split; [done|]. split; [done|].
    intros st. apply Hp. unfold zlen in L. lia.
  - destruct (mpls_roundtrip m b Hm) as (s & E & Hn). exists (fun raw => lift (mpls_new raw)), s. eexists.
    split; [by destruct Hty as [-> | ->]|]. split; [exact E|]. intros st. exists st. unfold lift. by rewrite Hn.
  - destruct (eapol_roundtrip e He) as (s & E & Hn). exists (fun raw => lift (eapol_new raw)), s. eexists.
    split; [done|]. split; [exact E|]. intros st. exists st. unfold lift. by rewrite Hn.
Qed.

(** Ethertypes without a parser. *)
Definition parsed_types : list Z := [0x0806; 0x8035; 0x0800; 0x88cc; 0x888e; 0x8847; 0x8848].
Lemma type_parser_none ty : ty ∉ parsed_types -> type_parser ty = None.
Proof.
  unfold parsed_types, type_parser. rewrite !not_elem_of_cons. intros (? & ? & ? & ? & ? & ? & ? & _).
  by rewrite !(proj2 (Z.eqb_neq _ _)) by done.
Qed.

(** A tag without the CFI bit. *)
Definition vlan_ok (v : vlan) : Prop :=
  0 <= vlan_pcp v < 8 /\ vlan_cfi v = 0 /\ 0 <= vlan_id v < 2 ^ 12 /\ u16 (vlan_eth_type v) /\
  vlan_eth_type v <> 0x8100 /\ vlan_c v = Some 0.

(** Behind a tag with an unknown ethertype there is nothing: [vlan.parse] drops it. *)
Inductive frame_next : Z -> payload -> Prop :=
  | frame_l3 ty p : l3_ok ty p -> frame_next ty p
  | frame_vlan v p : vlan_ok v -> l3_ok (vlan_eth_type v) p -> frame_next 0x8100 (node (LVlan v) p)
  | frame_vlan_unknown v : vlan_ok v -> vlan_eth_type v ∉ parsed_types ->
      frame_next 0x8100 (node (LVlan v) PNone)
  | frame_other ty b : ty <> 0x8100 -> ty ∉ parsed_types -> frame_next ty (PBytes b).

Definition frame_ok (packet : ethernet) : Prop :=
  hw_wf (eth_dst packet) /\ hw_wf (eth_src packet) /\ u16 (eth_type packet) /\
  eth_parsed packet = true /\ frame_next (eth_type packet) (eth_next packet).

(** The tag word. *)
Lemma tag_word pcp id : 0 <= pcp < 8 -> 0 <= id < 2 ^ 12 ->
  let w := Z.lor (Z.lor (Z.shiftl pcp 13) (Z.shiftl 0 12)) id in
  u16 w /\ Z.shiftr w 13 = pcp /\ Z.land w 0x0fff = id /\ Z.land w 0x1000 = 0.
Proof.
  intros Hp Hi w. assert (w = pcp * 2 ^ 13 + id) as Ew.
  { unfold w. rewrite Z.shiftl_0_l, Z.lor_0_r. apply lor_concat; lia. }
  split; [lia|]. split; [|split].
  - rewrite Ew, Z.shiftr_div_pow2, Z.div_add_l, Z.div_small by lia. lia.
  - rewrite (land_mask w 12) by done. rewrite Ew. replace (pcp * 2 ^ 13 + id) with (id + pcp * 2 * 2 ^ 12) by lia.
    rewrite Z_mod_plus_full. by apply Z.mod_small.
  - apply Z.bits_inj'. intros n Hn. rewrite Z.land_spec, Z.bits_0. change 0x1000 with (2 ^ 12).
    rewrite Z.pow2_bits_eqb by lia. destruct (Z.eqb_spec 12 n) as [<-|]; [|apply andb_false_r].
    rewrite andb_true_r, Ew. apply Z.testbit_false; [lia|].
    replace (pcp * 2 ^ 13 + id) with (id + pcp * 2 * 2 ^ 12) by lia.
    rewrite Z.div_add, Z.div_small by lia. rewrite Z.add_0_l. apply Z_mod_mult.
Qed.

Lemma vlan_head v : vlan_ok v -> exists hb, vlan_hdr v = Ok hb /\ zlen hb = 4 /\
  forall rest, vlan_new (hb ++ rest) =
    (next ← match type_parser (vlan_eth_type v) with
            | Some parse => parse rest
            | None => mret PNone
            end;
     mret (node (LVlan v) next)).
Proof.
  intros (Hp & Hc & Hi & Hty & Hn & Hcc). unfold vlan_hdr. rewrite Hcc. cbn [mbind res_bind].
  destruct (tag_word _ _ Hp Hi) as (Hw & E1 & E2 & E3). set (w := Z.lor _ _) in *.
  destruct (struct_pack_ok "!HH" [w; vlan_eth_type v]) as (hb & E & L); [cbn; lia|].
  change (struct_calcsize _) with 4 in L. exists hb. split; [done|]. split; [done|]. intros rest.
  unfold vlan_new. pose proof (zlen_nonneg rest). rewrite (proj2 (Z.ltb_ge _ _)) by (rewrite zlen_app; lia).
  rewrite (read_head _ _ _ _ _ E) by done.
  cbn [mbind res_bind]. rewrite E1, E2, E3. unfold mbind at 1, M_bind at 1, lift at 1. cbn [vlan_eth_type].
  rewrite (proj2 (Z.eqb_neq _ _)) by done. rewrite slice_from_app by done.
  clear -Hc Hcc. destruct v. cbn in *. by subst.
Qed.

Lemma next_roundtrip ty p : frame_next ty p -> exists s p', pack None p = (Ok s, p') /\
  forall st, exists st',
    (if ty =? 0x8100 then vlan_new s
     else match type_parser ty with Some parse => parse s | None => mret (PBytes s) end) st = (Ok p', st').
Proof.
  intros [ty' q Hq|v q Hv Hq|v Hv Hu|ty' b Hn Hu].
  - destruct (l3_roundtrip _ _ Hq) as (parse & s & p' & Et & E & Hp). exists s, p'. split; [done|].
    assert ((ty' =? 0x8100) = false) as ->; [|by rewrite Et].
    destruct Hq; repeat match goal with H : _ \/ _ |- _ => destruct H as [-> | ->] end; done.
  - destruct (l3_roundtrip _ _ Hq) as (parse & s & p' & Et & E & Hp).
    destruct (vlan_head v Hv) as (hb & Eh & L & Hnew). exists (hb ++ s), (node (LVlan v) p').
    rewrite pack_layer by done. cbn [container hdr]. rewrite E, Eh. split; [done|].
    intros st. destruct (Hp st) as [st' Ep]. exists st'. cbn [Z.eqb Pos.eqb]. rewrite Hnew, Et.
    unfold mbind, M_bind. by rewrite Ep.
  - destruct (vlan_head v Hv) as (hb & Eh & L & Hnew). exists (hb ++ []), (node (LVlan v) PNone).
    rewrite pack_layer by done. cbn [container hdr pack]. rewrite Eh. split; [done|].
    intros st. exists st. cbn [Z.eqb Pos.eqb]. by rewrite Hnew, type_parser_none.
  - exists b, (PBytes b). split; [done|]. intros st. exists st.
    by rewrite (proj2 (Z.eqb_neq _ _)), type_parser_none by done.
Qed.

Lemma pad6_six s : zlen s = 6 -> pad6 s = s.
Proof.
  intros H6. unfold pad6, ljust0. rewrite take_ge by (unfold zlen in H6; lia).
  replace (6 - length s)%nat with 0%nat by (unfold zlen in H6; lia). apply app_nil_r.
Qed.

(** The header packs, and parsing what begins with it goes on with the rest. *)
Lemma ethernet_read dst src ty : hw_wf dst -> hw_wf src -> u16 ty -> exists h, zlen h = 14 /\
  (forall next parsed, ethernet_hdr (Ethernet dst src ty next parsed) = Ok h) /\
  forall rest st, ethernet_new (h ++ rest) st =
    (next ← (if ty =? 0x8100 then vlan_new rest
             else match type_parser ty with Some parse => parse rest | None => mret (PBytes rest) end);
     mret (Ethernet dst src ty next true)) st.
Proof.
  intros Hd Hs Hty. unfold ethernet_hdr. cbn [eth_dst eth_src eth_type].
  destruct (struct_pack_ok "!H" [ty]) as (tb & Et & Lt); [cbn; lia|].
  change (struct_calcsize _) with 2 in Lt. pose proof (hw_raw_len _ Hd) as Ld. pose proof (hw_raw_len _ Hs) as Ls.
  exists (hw_raw dst ++ hw_raw src ++ tb). split; [rewrite !zlen_app; lia|]. split; [intros; rewrite Et; cbn [mbind res_bind]; by rewrite !pad6_six|].
  intros rest st. rewrite <-!app_assoc. unfold ethernet_new.
  pose proof (zlen_nonneg rest). rewrite (proj2 (Z.ltb_ge _ _)) by (rewrite !zlen_app; lia).
  set (rd := hw_raw dst) in *. set (rs := hw_raw src) in *.
  assert (slice_from (rd ++ rs ++ tb ++ rest) 14 = rest) as ->
    by (rewrite !app_assoc; apply slice_from_app; rewrite !zlen_app; lia).
  rewrite (slice_hit rd) by lia. rewrite !(slice_skip_n rd _ _ _ 6) by lia.
  cbn [Z.sub Z.opp Z.add Z.pos_sub Pos.pred_double]. rewrite (slice_hit rs) by lia.
  rewrite (slice_skip_n rs _ _ _ 6) by lia. cbn [Z.sub Z.opp Z.add Z.pos_sub Pos.pred_double].
  rewrite (read_head _ _ _ _ _ Et) by lia. unfold rd, rs. by rewrite (hw_of_bytes_raw _ Hd), (hw_of_bytes_raw _ Hs).
Qed.

Lemma ethernet_survives packet : frame_ok packet -> exists s packet',
  ethernet_pack packet = (Ok s, packet') /\ ethernet_pack packet' = (Ok s, packet') /\
  forall st, exists st', ethernet_new s st = (Ok packet', st').
Proof.
  destruct packet as [dst src ty next parsed]. intros (Hd & Hs & Hty & Hpa & Hn). cbn in *. subst parsed.
  destruct (next_roundtrip _ _ Hn) as (rest & next' & E & Hp). unfold ethernet_pack. cbn [eth_next].
  rewrite E. cbn [eth_dst eth_src eth_type eth_parsed mbind res_bind].
  destruct (ethernet_read dst src ty Hd Hs Hty) as (h & _ & Eh & Hread). rewrite Eh. cbn [mbind res_bind].
  eexists _, _. split; [reflexivity|]. cbn [eth_next eth_dst eth_src eth_type eth_parsed].
  split; [rewrite (pack_stable _ _ _ _ E); cbn [mbind res_bind]; by rewrite Eh|].
  intros st. rewrite Hread. destruct (Hp st) as [st' Ep]. exists st'. unfold mbind, M_bind. by rewrite Ep.
Qed.

(** A frame that holds an ARP packet, whatever its flags say. *)
Lemma arp_frame_survives dst src ty a b parsed parsed' : hw_wf dst -> hw_wf src -> ty = 0x0806 \/ ty = 0x8035 -> arp_ok a ->
  exists s, (ethernet_pack (Ethernet dst src ty (PPacket parsed (LArp a) (PBytes b)) parsed')).1 = Ok s /\ zlen s = 42 + zlen b /\
    forall st, ethernet_new s st = (Ok (Ethernet dst src ty (node (LArp a) (PBytes b)) true), st).
Proof.
  intros Hd Hs Hty Ha. destruct (arp_roundtrip a b Ha) as (s & E & L & Hn).
  destruct (ethernet_read dst src ty Hd Hs) as (h & Lh & Eh & Hread); [by destruct Hty as [->| ->]|].
  exists (h ++ s). split; [|split; [rewrite zlen_app; lia|]].
  - unfold ethernet_pack. cbn [eth_next]. rewrite pack_layer in E |- * by done. cbn [container hdr pack] in *.
    destruct (arp_hdr a) as [hb|]; [|done]. cbn [fmap res_fmap] in E. injection E as <-.
    cbn [eth_dst eth_src eth_type eth_parsed mbind res_bind fst fmap res_fmap]. by rewrite Eh.
  - intros st. rewrite Hread. destruct Hty as [->| ->]; cbn [Z.eqb Pos.eqb type_parser]; unfold lift, mbind, M_bind; cbn; by rewrite Hn.
Qed.

(** C26: A well-formed Ethernet frame - ARP, MPLS, EAPOL, or IPv4 with UDP, TCP (options
    included), ICMP, an ICMP error quoting another IPv4 packet, or anything else, behind
    a VLAN tag or not - packs, and parsing the bytes makes exactly the packet that
    packing left behind (with its lengths and checksums filled in), which packs to the
    same bytes.  Well formed is [frame_ok]: fields in their ranges, lengths that fit, no IP options,
    TCP options of the known kinds but for selective acknowledgements. *)
Theorem ethernet_roundtrip packet : frame_ok packet -> exists s packet',
  ethernet_pack packet = (Ok s, packet') /\ ethernet_pack packet' = (Ok s, packet') /\
  forall st, exists st', ethernet_new s st = (Ok packet', st').
Proof. apply ethernet_survives. Qed.
End Roundtrip.

(** A TCP SYN with options behind a VLAN tag. *)
Definition ex_frame : ethernet :=
  Ethernet (HwEth (MkEth (be_enc 6 2))) (HwEth (MkEth (be_enc 6 1))) 0x8100
    (node (LVlan (Vlan 3 0 12 0x0800 (Some 0)))
      (node (LIpv4 (ex_ipv4 6)) (node (LTcp ex_tcp) (PBytes (lit "hi"))))) true.
Lemma ex_frame_ok : frame_ok ex_frame.
Proof.
  unfold frame_ok, ex_frame. cbn [eth_dst eth_src eth_type eth_parsed eth_next].
  split; [split; [done|by vm_compute]|]. split; [split; [done|by vm_compute]|].
  split; [lia|]. split; [done|]. apply frame_vlan; [unfold vlan_ok; cbn; repeat (split; [lia|]); done|]. cbn [vlan_eth_type].
  apply (l3_ip (20 + 42)). apply ip_pkt_intro; [|lia|lia|].
  - unfold ipv4_ok. cbn -[ip_of_int]. repeat (split; [lia|]). split; apply ip_of_int_wf.
  - apply (body_tcp ex_tcp (lit "hi") 42); [|done]. unfold tcp_ok. cbn -[pack_options].
    repeat (split; [lia|]). split.
    + repeat constructor; unfold opt_ok; cbn; lia.
    + eexists. split; [vm_compute; reflexivity|done].
Qed.

Lemma ethernet_roundtrip_witness : frame_ok ex_frame /\ exists s packet',
  @ethernet_pack no_apps ex_frame = (Ok s, packet') /\ @ethernet_pack no_apps packet' = (Ok s, packet') /\
  forall st, exists st', @ethernet_new no_apps s st = (Ok packet', st').
Proof. split; [exact ex_frame_ok|]. apply (@ethernet_roundtrip no_apps ex_frame), ex_frame_ok. Defined.
