(* ===== verification/PacketTyping.v ===== *)
(** What parsing guarantees about the objects it makes: every field within the width it
    was read with, every layer under the type that announces it - and so matches made from
    parsed packets that fit the wire and survive it. *)
From S2P Require Import Prelude.
From S2P Require Import PyStruct.
From S2P Require Import Addresses.
From S2P Require Import OfConst.
From S2P Require Import Wire.
From S2P Require Import OfBase.
From S2P Require Import OfMatch.
From S2P Require Import MatchTheory.
From S2P Require Import Packets.
From S2P Require Import PacketCodec.
From S2P Require Import PacketTheory.
From S2P Require Import PacketRoundtrip.

(** * Typed packets *)

Definition typed_l4 (proto : Z) (p : payload) : Prop :=
  match p with
  | PPacket _ (LUdp u) _ => proto = 17 /\ u16 (udp_srcport u) /\ u16 (udp_dstport u)
  | PPacket _ (LTcp t) _ => proto = 6 /\ u16 (tcp_srcport t) /\ u16 (tcp_dstport t)
  | PPacket _ (LIcmp i) _ => proto = 1 /\ u8 (icmp_type i) /\ u8 (icmp_code i)
  | _ => True
  end.
Definition typed_l3 (type : Z) (p : payload) : Prop :=
  match p with
  | PPacket _ (LIpv4 h) next => type = 0x0800 /\ u8 (ip_tos h) /\ u8 (ip_protocol h) /\
      nw_wf (ip_srcip h) /\ nw_wf (ip_dstip h) /\ typed_l4 (ip_protocol h) next
  | PPacket _ (LArp a) _ => (type = 0x0806 \/ type = 0x8035) /\ u16 (arp_opcode a) /\
      nw_wf (arp_protosrc a) /\ nw_wf (arp_protodst a)
  | PPacket _ (LVlan _) _ => False
  | _ => True
  end.
Definition typed_next (type : Z) (p : payload) : Prop :=
  match p with
  | PPacket _ (LVlan v) next => u16 (vlan_id v) /\ u8 (vlan_pcp v) /\ u16 (vlan_eth_type v) /\
      typed_l3 (vlan_eth_type v) next
  | p => typed_l3 type p
  end.
Definition typed (p : ethernet) : Prop :=
  dl_wf (eth_dst p) /\ dl_wf (eth_src p) /\ u16 (eth_type p) /\ typed_next (eth_type p) (eth_next p).

(** * Results and their properties *)

Definition yields {A} (P : A -> Prop) (r : res A) : Prop := forall a, r = Ok a -> P a.
Definition yieldsM {S A} (P : A -> Prop) (m : M S A) : Prop := forall s a s', m s = (Ok a, s') -> P a.

Lemma yields_ok {A} (P : A -> Prop) a : P a -> yields P (Ok a).
Proof. by intros ? ? [= <-]. Qed.
Lemma yields_bind {A B} (Q : A -> Prop) (P : B -> Prop) (r : res A) f :
  yields Q r -> (forall a, Q a -> yields P (f a)) -> yields P (r ≫= f).
Proof. intros Hr Hf b. destruct r as [a|e]; [|done]. cbn. apply Hf. by apply Hr. Qed.
Lemma yields_any {A} (r : res A) : yields (fun _ => True) r.
Proof. done. Qed.
Lemma yieldsM_ret {S A} (P : A -> Prop) a : P a -> yieldsM (S:=S) P (mret a).
Proof. by intros ? ? ? ? [= <- <-]. Qed.
Lemma yieldsM_lift {S A} (P : A -> Prop) (r : res A) : yields P r -> yieldsM (S:=S) P (lift r).
Proof. intros H s a s' [= E _]. by apply H. Qed.
Lemma yieldsM_bind {S A B} (Q : A -> Prop) (P : B -> Prop) (m : M S A) f :
  yieldsM Q m -> (forall a, Q a -> yieldsM P (f a)) -> yieldsM P (m ≫= f).
Proof.
  intros Hm Hf s b s'. unfold mbind, M_bind. destruct (m s) as [[a|e] s1] eqn:E; [|done].
  apply Hf. by eapply Hm.
Qed.
Lemma yieldsM_any {S A} (m : M S A) : yieldsM (fun _ => True) m.
Proof. done. Qed.
Lemma yieldsM_weaken {S A} (P Q : A -> Prop) (m : M S A) : (forall a, P a -> Q a) -> yieldsM P m -> yieldsM Q m.
Proof. intros HPQ Hm s a s' E. apply HPQ. by eapply Hm. Qed.

(** [struct.unpack] gives what its format accepts. *)
Lemma yields_unpack fmt s : yields (fmt_accepts fmt) (struct_unpack fmt s).
Proof.
  unfold struct_unpack. destruct (_ =? _); [|done]. intros vs E. by apply (struct_unpack_accepts _ s 0 vs).
Qed.

(** Reading a tuple: the ranges of its components become hypotheses. *)
Ltac components H vs :=
  cbn [codes_accept] in H;
  lazymatch type of H with
  | context [match vs with _ => _ end] => destruct vs as [|? vs]; components H vs
  | _ => destruct_and? H; try contradiction
  end.
Ltac unpacked :=
  apply (yields_bind _ _ _ _ (yields_unpack _ _));
  let vs := fresh "vs" in let H := fresh "H" in
  intros vs H;
  match type of H with fmt_accepts ?fmt _ =>
    let p := eval vm_compute in (parse_fmt fmt) in
    change (match p with Some (_, cs) => codes_accept cs vs | None => False end) in H end;
  components H vs; subst; cbn [mbind res_bind].

Create HintDb typing.
#[local] Hint Resolve yieldsM_any : typing.

(** * The parsers *)

Lemma hw_of_bytes_typed s : length s = 6%nat -> yields dl_wf (hw_of_bytes s).
Proof.
  intros H. rewrite hw_of_bytes_six by (unfold zlen; lia). destruct (_ =? 5); [done|]. by apply yields_ok.
Qed.
Lemma nw_of_raw_typed s : yields nw_wf (nw_of_raw s).
Proof.
  unfold nw_of_raw. unpacked. rewrite IPAddr_init_int. cbn. apply yields_ok. apply ip_of_int_wf.
Qed.

Lemma app_new_typed `{AppCodec} c raw type proto :
  yields (fun p => typed_l3 type p /\ typed_l4 proto p) (app_new c raw).
Proof. unfold app_new. eapply yields_bind; [apply yields_any|]. intros ? _. by apply yields_ok. Qed.

Lemma eapol_new_typed raw type : yields (typed_l3 type) (eapol_new raw).
Proof.
  unfold eapol_new. destruct (_ <? _); [by apply yields_ok|]. unpacked.
  eapply yields_bind; [apply yields_any|]. intros ? _. by apply yields_ok.
Qed.
Lemma mpls_new_typed raw type : yields (typed_l3 type) (mpls_new raw).
Proof. unfold mpls_new. destruct (_ <? _); [by apply yields_ok|]. unpacked. by apply yields_ok. Qed.

Lemma arp_new_typed raw type : type = 0x0806 \/ type = 0x8035 -> yields (typed_l3 type) (arp_new raw).
Proof.
  intros Ht. assert (nw_wf IP_ANY) as Hany by (by vm_compute).
  unfold arp_new. destruct (_ <? _); [apply yields_ok; by split_and!|]. unpacked.
  eapply yields_bind; [apply yields_any|]. intros hw _.
  apply (yields_bind (fun p => nw_wf p.1 /\ nw_wf p.2)).
  { destruct (negb _); [by apply yields_ok|].
    eapply yields_bind; [apply nw_of_raw_typed|]. intros src Hs.
    eapply yields_bind; [apply nw_of_raw_typed|]. intros dst Hd. by apply yields_ok. }
  intros proto [Hp1 Hp2]. apply yields_ok. by split_and!.
Qed.

Lemma udp_new_typed `{AppCodec} raw : yields (typed_l4 17) (udp_new raw).
Proof.
  unfold udp_new. destruct (_ <? _); [by apply yields_ok|]. unpacked.
  assert (forall parsed u next, u16 (udp_srcport u) -> u16 (udp_dstport u) -> typed_l4 17 (PPacket parsed (LUdp u) next))
    as Hu by done.
  repeat match goal with |- yields _ (if ?b then _ else _) => destruct b end;
    try (apply yields_ok; by apply Hu);
    (eapply yields_bind; [apply yields_any|]; intros ? _; apply yields_ok; by apply Hu).
Qed.
Lemma tcp_new_typed raw : yields (typed_l4 6) (tcp_new raw).
Proof.
  unfold tcp_new. destruct (_ <? _); [by apply yields_ok|]. unpacked.
  destruct (_ || _); [by apply yields_ok|].
  destruct (parse_options _ _ _) as [[?|[]] ?]; first [by apply yields_ok|done].
Qed.
Section Nested.
Context `{AppCodec} (rec : bytes -> M pstate payload).
Lemma icmp_new_typed raw : yieldsM (typed_l4 1) (icmp_new rec raw).
Proof.
  unfold icmp_new. destruct (_ <? _); [by apply yieldsM_ret|].
  apply (yieldsM_bind (fun h => u8 (icmp_type h) /\ u8 (icmp_code h))).
  { apply yieldsM_lift. unpacked. by apply yields_ok. }
  intros h [H1 H2]. eapply yieldsM_bind; [apply yieldsM_any|]. intros next _. by apply yieldsM_ret.
Qed.
Lemma ipv4_payload_typed h dlen body : yieldsM (typed_l4 (ip_protocol h)) (ipv4_payload rec h dlen body).
Proof.
  unfold ipv4_payload.
  destruct (Z.eqb_spec (ip_protocol h) 17) as [->|]; [apply yieldsM_lift, udp_new_typed|].
  destruct (Z.eqb_spec (ip_protocol h) 6) as [->|]; [apply yieldsM_lift, tcp_new_typed|].
  destruct (Z.eqb_spec (ip_protocol h) 1) as [->|]; [apply icmp_new_typed|].
  destruct (_ <? _); by apply yieldsM_ret.
Qed.
Lemma ipv4_new_typed raw : yieldsM (typed_l3 0x0800) (ipv4_new rec raw).
Proof.
  unfold ipv4_new. eapply yieldsM_bind; [apply yieldsM_any|]. intros id _.
  destruct (_ <? _); [apply yieldsM_ret; by repeat split|].
  apply (yieldsM_bind (fun h => u8 (ip_tos h) /\ u8 (ip_protocol h) /\
    exists s d, ip_srcip h = NwInt s /\ ip_dstip h = NwInt d /\ u32 s /\ u32 d)).
  { apply yieldsM_lift. unfold ipv4_fields. unpacked. apply yields_ok. cbn. split_and!; try done. by eexists _, _. }
  intros h (H1 & H2 & s & d & Es & Ed & Hs & Hd).
  assert (forall parsed next, typed_l4 (ip_protocol h) next -> typed_l3 0x0800 (PPacket parsed (LIpv4 h) next)) as Hh.
  { intros parsed next Hn. cbn. rewrite Es, Ed. exact (conj eq_refl (conj H1 (conj H2 (conj Hs (conj Hd Hn))))). }
  repeat match goal with |- yieldsM _ (if ?b then _ else _) => destruct b end; try (by apply yieldsM_ret, Hh).
  unfold ipv4_body. rewrite Es, Ed, !nw_to_ip_int.
  apply (yieldsM_bind (eq (NwIP (ip_of_int d)))); [by apply yieldsM_lift, yields_ok|]. intros dst <-.
  apply (yieldsM_bind (eq (NwIP (ip_of_int s)))); [by apply yieldsM_lift, yields_ok|]. intros src <-. cbv zeta.
  eapply yieldsM_bind; [apply ipv4_payload_typed|]. intros next Hn.
  apply (yieldsM_bind (typed_l4 (ip_protocol h))).
  { destruct next; try by apply yieldsM_ret. eapply yieldsM_bind; [apply yieldsM_any|]. intros [] _; by apply yieldsM_ret. }
  intros next' Hn'. apply yieldsM_ret.
  exact (conj eq_refl (conj H1 (conj H2 (conj (ip_of_int_wf s) (conj (ip_of_int_wf d) Hn'))))).
Qed.
End Nested.

Lemma type_parser_typed `{AppCodec} type parse raw : type_parser type = Some parse -> yieldsM (typed_l3 type) (parse raw).
Proof.
  unfold type_parser.
  destruct (Z.eqb_spec type 0x0806), (Z.eqb_spec type 0x8035); cbn [orb];
    try (intros [= <-]; apply yieldsM_lift, arp_new_typed; by auto).
  destruct (Z.eqb_spec type 0x0800) as [->|]; [intros [= <-]; apply ipv4_new_typed|].
  destruct (type =? 0x88cc).
  { intros [= <-]. apply yieldsM_lift. intros p E. by apply (app_new_typed C_lldp raw type 0 p E). }
  destruct (type =? 0x888e); [intros [= <-]; apply yieldsM_lift, eapol_new_typed|].
  destruct (_ || _); [intros [= <-]; apply yieldsM_lift, mpls_new_typed|done].
Qed.

Lemma vlan_new_typed `{AppCodec} raw type : yieldsM (typed_next type) (vlan_new raw).
Proof.
  unfold vlan_new. destruct (_ <? _); [by apply yieldsM_ret|].
  apply (yieldsM_bind (fun v => u16 (vlan_id v) /\ u8 (vlan_pcp v) /\ u16 (vlan_eth_type v))).
  { apply yieldsM_lift. unpacked. apply yields_ok. cbn. split_and!; try done.
    - apply Z.land_nonneg. lia.
    - change 0x0fff with (Z.ones 12). rewrite Z.land_ones by lia. pose proof (Z.mod_pos_bound z (2 ^ 12)). lia.
    - rewrite Z.shiftr_div_pow2 by lia. apply Z.div_pos; lia.
    - rewrite Z.shiftr_div_pow2 by lia. apply Z.div_lt_upper_bound; lia. }
  intros v (H1 & H2 & H3). destruct (_ =? _); [done|].
  apply (yieldsM_bind (typed_l3 (vlan_eth_type v))).
  { destruct (type_parser _) eqn:E; [by eapply type_parser_typed|by apply yieldsM_ret]. }
  intros next Hn. by apply yieldsM_ret.
Qed.

Lemma ethernet_new_yields `{AppCodec} raw : yieldsM typed (ethernet_new raw).
Proof.
  unfold ethernet_new.
  destruct (Z.ltb_spec (zlen raw) 14) as [|Hl]; [apply yieldsM_ret; by vm_compute|]. unfold zlen in Hl.
  apply (yieldsM_bind dl_wf); [apply yieldsM_lift, hw_of_bytes_typed|intros dst Hd].
  { unfold slice, py_index. cbn [Z.ltb Z.compare]. rewrite length_take, length_drop. lia. }
  apply (yieldsM_bind dl_wf); [apply yieldsM_lift, hw_of_bytes_typed|intros src Hs].
  { unfold slice, py_index. cbn [Z.ltb Z.compare]. rewrite length_take, length_drop. lia. }
  apply (yieldsM_bind (fun t => u16 t)); [apply yieldsM_lift; unpacked; by apply yields_ok|]. intros type Ht.
  apply (yieldsM_bind (typed_next type)); [|intros next Hn; by apply yieldsM_ret].
  destruct (type =? 0x8100); [apply vlan_new_typed|].
  destruct (type_parser type) as [parse|] eqn:E; [|by apply yieldsM_ret].
  eapply yieldsM_weaken; [|by eapply type_parser_typed].
  intros [| | |parsed [] next] Hp; try done.
Qed.

(** ** Packing keeps the header *)

(** A layer without the lengths and checksums that packing fills in. *)
Definition unfilled (l : layer) : layer :=
  match l with
  | LIpv4 h => LIpv4 (with_ip_csum 0 (with_iplen 0 h))
  | LUdp u => LUdp (Udp (udp_srcport u) (udp_dstport u) 0 0)
  | LTcp t => LTcp (with_tcp_csum 0 t)
  | LIcmp i => LIcmp (Icmp (icmp_type i) (icmp_code i) 0)
  | l => l
  end.
Fixpoint unfilled_packet (p : payload) : payload :=
  match p with
  | PPacket parsed l next => PPacket parsed (unfilled l) (unfilled_packet next)
  | p => p
  end.

Lemma hdr_unfilled prev l payload : unfilled (hdr prev l payload).2 = unfilled l.
Proof.
  destruct l as [v|m|h|h|u|t|ic|e|un|eo|ea|c raw]; try done; cbn [hdr]; unfold in_layer.
  - unfold ipv4_hdr, get, put, lift, mbind, M_bind. by destruct (ipv4_checksum _).
  - unfold udp_hdr, get, put, lift, mbind, M_bind. by destruct (udp_checksum _ _ _).
  - unfold tcp_hdr, get, put, lift, mbind, M_bind. by destruct (tcp_checksum _ _ _).
  - unfold icmp_hdr, get, put, lift, mbind, M_bind. by destruct (struct_pack _ _).
Qed.

Lemma pack_unfilled `{AppCodec} prev p : unfilled_packet (pack prev p).2 = unfilled_packet p.
Proof.
  revert prev; induction p as [| | |parsed l next IH]; intros prev; [done..|]. destruct (is_app l) eqn:El.
  - by destruct l.
  - rewrite pack_layer by done. specialize (IH (container l)). destruct (pack (container l) next) as [[rest|] next'].
    + pose proof (hdr_unfilled prev l rest) as Hh. destruct (hdr prev l rest) as [h l']. cbn in *. by rewrite Hh, IH.
    + cbn in *. by rewrite IH.
Qed.

Definition unfilled_frame (p : ethernet) : ethernet :=
  Ethernet (eth_dst p) (eth_src p) (eth_type p) (unfilled_packet (eth_next p)) (eth_parsed p).

Lemma unfilled_header p i : packet_header (unfilled_frame p) i = packet_header p i.
Proof.
  destruct p as [dst src ty p pa]. unfold packet_header, inner, unfilled_frame. cbn [eth_next eth_src eth_dst eth_type].
  destruct p as [| | |pd [v|m|h|h|u|t|ic|e|un|eo|ea|c raw] p]; try reflexivity;
    destruct p as [| | |pd' [v'|m'|h'|h'|u|t|ic|e|un|eo|ea|c raw] p]; try reflexivity;
    destruct p as [| | |pd2 [v2|m2|h2|h2|u|t|ic|e|un2|eo2|ea2|c raw] p]; reflexivity.
Qed.

(** Filling in lengths and checksums does not change what a packet matches. *)
Lemma ethernet_pack_header `{AppCodec} p s p' i : ethernet_pack p = (Ok s, p') ->
  packet_header p' i = packet_header p i /\ eth_dst p' = eth_dst p /\ eth_src p' = eth_src p /\
  eth_type p' = eth_type p.
Proof.
  unfold ethernet_pack. pose proof (pack_unfilled None (eth_next p)) as Hu.
  destruct (pack None (eth_next p)) as [r next]. intros [= _ <-]. split; [|done].
  rewrite <-(unfilled_header p), <-unfilled_header. unfold unfilled_frame.
  cbn [eth_dst eth_src eth_type eth_next eth_parsed snd] in *. by rewrite Hu.
Qed.

(** ** Matches of parsed packets *)

(** The type behind an optional tag, which is what [from_packet] matches on. *)
Definition match_type (p : ethernet) : Z :=
  match eth_next p with PPacket _ (LVlan v) _ => vlan_eth_type v | _ => eth_type p end.

Lemma header_type p i : h_dl_type (packet_header p i) = Some (match_type p).
Proof.
  unfold packet_header, match_type. destruct (eth_next p) as [| | |? [] ?];
    by repeat match goal with |- context [let '(_, _) := ?x in _] => destruct x end.
Qed.

Lemma opt_is_eq v z : opt_is v (Some z) = bool_decide (z = v).
Proof. unfold opt_is. apply bool_decide_ext. naive_solver. Qed.

(** What [from_packet] assigns for the layers above the link. *)
Definition l4_ports (p : payload) : option (Z * Z) :=
  match p with
  | PPacket _ (LUdp u) _ => Some (udp_srcport u, udp_dstport u)
  | PPacket _ (LTcp t) _ => Some (tcp_srcport t, tcp_dstport t)
  | PPacket _ (LIcmp i) _ => Some (icmp_type i, icmp_code i)
  | _ => None
  end.
Definition with_ports (ports : option (Z * Z)) (m : ofp_match) : ofp_match :=
  match ports with
  | Some (s, d) => set_int Tp_dst (Some d) (set_int Tp_src (Some s) m)
  | None => m
  end.
Definition l3_match (p : payload) (m : ofp_match) : res ofp_match :=
  match p with
  | PPacket _ (LIpv4 h) next =>
      m ← set_nw_src (AAddr (ip_srcip h)) m;
      m ← set_nw_dst (AAddr (ip_dstip h)) m;
      Ok (with_ports (l4_ports next) (set_int Nw_tos (Some (ip_tos h)) (set_int Nw_proto (Some (ip_protocol h)) m)))
  | PPacket _ (LArp h) _ =>
      if arp_opcode h <=? 255
      then m ← set_nw_src (AAddr (arp_protosrc h)) (set_int Nw_proto (Some (arp_opcode h)) m);
           set_nw_dst (AAddr (arp_protodst h)) m
      else Ok m
  | _ => Ok m
  end.
Definition link_match (dst src : hwaddr) (id pcp type : Z) : ofp_match :=
  set_int Dl_vlan_pcp (Some pcp) (set_int Dl_vlan (Some id) (set_int Dl_type (Some type)
    (set_dl Dl_dst (Some dst) (set_dl Dl_src (Some src) ofp_match_init)))).

Lemma retyped dst src type type' :
  set_int Dl_type (Some type) (set_int Dl_type (Some type') (set_dl Dl_dst (Some dst) (set_dl Dl_src (Some src) ofp_match_init))) =
  set_int Dl_type (Some type) (set_dl Dl_dst (Some dst) (set_dl Dl_src (Some src) ofp_match_init)).
Proof. lazy. reflexivity. Qed.
Lemma from_packet_layers p : from_packet p None =
  match eth_next p with
  | PPacket _ (LVlan v) next =>
      l3_match next (link_match (eth_dst p) (eth_src p) (vlan_id v) (vlan_pcp v) (vlan_eth_type v))
  | next => l3_match next (link_match (eth_dst p) (eth_src p) OFP_VLAN_NONE 0 (eth_type p))
  end.
Proof.
  destruct p as [dst src ty p pa]. unfold from_packet. cbn [eth_next eth_dst eth_src eth_type].
  assert (forall pd h next (m : ofp_match),
    (m ← set_nw_src (AAddr (ip_srcip h)) m; m ← set_nw_dst (AAddr (ip_dstip h)) m;
     let m := set_int Nw_proto (Some (ip_protocol h)) m in let m := set_int Nw_tos (Some (ip_tos h)) m in
     Ok (match next with
         | PPacket _ (LUdp u) _ => set_int Tp_dst (Some (udp_dstport u)) (set_int Tp_src (Some (udp_srcport u)) m)
         | PPacket _ (LTcp t) _ => set_int Tp_dst (Some (tcp_dstport t)) (set_int Tp_src (Some (tcp_srcport t)) m)
         | PPacket _ (LIcmp i) _ => set_int Tp_dst (Some (icmp_code i)) (set_int Tp_src (Some (icmp_type i)) m)
         | _ => m
         end)) = l3_match (PPacket pd (LIpv4 h) next) m) as Hip.
  { intros pd h next m. unfold l3_match. destruct (set_nw_src _ m); [|done]. cbn [mbind res_bind].
    destruct (set_nw_dst _ _); [|done]. cbn [mbind res_bind]. by destruct next as [| | |? [] ?]. }
  destruct p as [| | |pd [v|m|h|h|u|t|ic|e|un|eo|ea|c raw] p];
    [| | |destruct p as [| | |pd' [v'|m'|h'|h'|u|t|ic|e|un|eo|ea|c raw] p]| | | | | | | | | | |].
  all: rewrite ?retyped; fold (link_match dst src OFP_VLAN_NONE 0 ty); cbn [l3_match];
    try fold (link_match dst src (vlan_id v) (vlan_pcp v) (vlan_eth_type v)).
  all: lazymatch goal with |- context [ip_srcip ?x] => exact (Hip None x _ _) | _ => reflexivity end.
Qed.

Lemma l4_ports_typed proto p : typed_l4 proto p ->
  match l4_ports p with Some (s, d) => in_transport (Some proto) = true /\ u16 s /\ u16 d | None => True end.
Proof.
  destruct p as [| | |pd [v|m|h|h|u|t|ic|e|un|eo|ea|c raw] p]; cbn [typed_l4 l4_ports]; try done.
  - by intros (-> & H).
  - by intros (-> & H).
  - intros (-> & H1 & H2). split; [done|]. lia.
Qed.

(** A match made by assignments: the wildcards are concrete, the fields typed. *)
Ltac match_fields :=
  match goal with |- match_wf ?m => let v := eval lazy in m in change (match_wf v) end;
  unfold match_wf; cbn [m_wildcards m_in_port m_dl_src m_dl_dst m_dl_vlan m_dl_vlan_pcp m_dl_type m_nw_tos
    m_nw_proto m_nw_src m_nw_dst m_tp_src m_tp_dst];
  repeat match goal with |- _ /\ _ => split end; first [assumption|lia|by vm_compute].

Section made.
Context (dst src : EthAddr) (id pcp type : Z).
Hypothesis Hd : eth_wf dst.
Hypothesis Hs : eth_wf src.
Hypothesis Hid : u16 id.
Hypothesis Hpcp : u8 pcp.
Hypothesis Htype : u16 type.

Let base : ofp_match := link_match (HwEth dst) (HwEth src) id pcp type.
Definition made (m : ofp_match) : Prop := match_wf m /\ (type <> 0x8035 -> consistent m).

Lemma made_base : made base.
Proof.
  split; [match_fields|intros _]. unfold consistent. change (g_dl_type base) with (Some type).
  rewrite !opt_is_eq. do 2 (case_bool_decide; [by vm_compute|]). by vm_compute.
Qed.

Lemma made_arp op s d : type = 0x0806 \/ type = 0x8035 -> nw_wf s -> nw_wf d -> u16 op -> op <= 255 ->
  exists m, (m ← set_nw_src (AAddr s) (set_int Nw_proto (Some op) base); set_nw_dst (AAddr d) m) = Ok m /\ made m.
Proof.
  intros Ht H1 H2 H3 H4. destruct s, d; (eexists; split; [reflexivity|]; split; [match_fields|]);
    (intros Hne; destruct Ht as [->|Ht]; [by vm_compute|by destruct Hne]).
Qed.

Lemma ip_consistent m proto : g_dl_type m = Some 0x0800 -> g_nw_proto m = Some proto ->
  in_transport (Some proto) = true \/ Z.land (m_wildcards m) TP_WILD = TP_WILD -> consistent m.
Proof.
  intros Et Ep Hw. unfold consistent. rewrite Et, Ep, opt_is_eq, bool_decide_true by done.
  destruct (in_transport _); [done|]. by destruct Hw.
Qed.

(** IPv4: ports only under the protocols that have them. *)
Lemma made_ip proto tos s d ports : type = 0x0800 -> nw_wf s -> nw_wf d -> u8 proto -> u8 tos ->
  match ports with Some (p, q) => in_transport (Some proto) = true /\ u16 p /\ u16 q | None => True end ->
  exists m, (m ← set_nw_src (AAddr s) base; m ← set_nw_dst (AAddr d) m;
             Ok (with_ports ports (set_int Nw_tos (Some tos) (set_int Nw_proto (Some proto) m)))) = Ok m /\ made m.
Proof.
  intros -> H1 H2 H3 H4 Hp. destruct ports as [[p q]|].
  - destruct Hp as (Ht & Hp & Hq). destruct s, d; (eexists; split; [reflexivity|]; split; [match_fields|intros _];
      apply (ip_consistent _ proto); [by vm_compute|by vm_compute|by left]).
  - destruct s, d; (eexists; split; [reflexivity|]; split; [match_fields|intros _];
      apply (ip_consistent _ proto); [by vm_compute|by vm_compute|right; by vm_compute]).
Qed.

Lemma made_l3 next : typed_l3 type next -> exists m, l3_match next base = Ok m /\ made m.
Proof.
  intros Hn. assert (exists m, Ok base = Ok m /\ made m) as Hbase by (eexists; split; [reflexivity|apply made_base]).
  destruct next as [| | |pd [v|m|h|h|u|t|ic|e|un|eo|ea|c raw] p]; try exact Hbase; cbn [typed_l3 l3_match] in *.
  - destruct Hn as (Ht & H1 & H2 & H3 & H4 & H5). apply made_ip; try assumption. by apply l4_ports_typed.
  - destruct Hn as (Ht & H1 & H2 & H3). destruct (Z.leb_spec (arp_opcode h) 255); [|exact Hbase].
    by apply made_arp.
Qed.
End made.

Lemma typed_from_packet p : typed p -> eth_addrs p /\ exists m, from_packet p None = Ok m /\
  match_wf m /\ (match_type p <> 0x8035 -> consistent m).
Proof.
  destruct p as [dst src ty p pa]. intros (Hd & Hs & Hty & Hn). cbn in Hd, Hs, Hty, Hn.
  destruct dst as [dst|]; [|done]. destruct src as [src|]; [|done].
  split; [split; by eexists|]. unfold match_type. rewrite from_packet_layers. cbn [eth_next eth_dst eth_src eth_type] in *.
  assert (u16 OFP_VLAN_NONE) as Hnone by by vm_compute. assert (u8 0) as H0 by by vm_compute.
  destruct p as [| | |pd [v|m|h|h|u|t|ic|e|un|eo|ea|c raw] p];
    try (apply (made_l3 dst src OFP_VLAN_NONE 0 ty Hd Hs Hnone H0 Hty); assumption).
  destruct Hn as (Hv1 & Hv2 & Hv3 & Hn).
  apply (made_l3 dst src (vlan_id v) (vlan_pcp v) (vlan_eth_type v) Hd Hs Hv1 Hv2 Hv3); assumption.
Qed.

(** C34: Parsing gives well-typed packets: whatever bytes come in, the addresses of the frame
    are Ethernet addresses of six bytes, every field that is matched on fits the width it
    was read with, and IPv4, ARP, UDP, TCP and ICMP layers stand only where the type or the
    protocol of the layer around them says so.  Hence the match made from a parsed packet
    exists and fits the wire, and - RARP apart - wildcards exactly what the OpenFlow
    specification makes meaningless, so that it survives the wire unchanged. *)
Theorem parsed_typed `{AppCodec} raw st p st' : ethernet_new raw st = (Ok p, st') ->
  typed p /\ eth_addrs p /\ exists m, from_packet p None = Ok m /\ match_wf m /\
    (match_type p <> 0x8035 -> consistent m).
Proof. intros E. apply ethernet_new_yields in E. split; [done|]. by apply typed_from_packet. Qed.

(** ICMP behind a VLAN tag. *)
Definition ex_tagged : bytes :=
  byte_of_Z <$> ([0;0;0;0;0;2] ++ [0;0;0;0;0;1] ++ [0x81;0] ++ [0x60;12;8;0] ++
    [0x45;0;0;28;0;0;0;0;64;1;0;0;10;0;0;1;10;0;0;2] ++ [8;0;0;0;0;1;0;1]).
Lemma parsed_typed_witness :
  exists p st', @ethernet_new no_apps ex_tagged (PState 0 (fun _ => 0)) = (Ok p, st') /\ match_type p = 0x0800 /\
    typed p /\ exists m, from_packet p None = Ok m /\ match_wf m /\ consistent m.
Proof.
  eexists _, _. split; [vm_compute; reflexivity|]. split; [reflexivity|].
  edestruct (@parsed_typed no_apps ex_tagged (PState 0 (fun _ => 0))) as (Ht & _ & m & E & Hw & Hc);
    [vm_compute; reflexivity|]. split; [exact Ht|]. exists m. split; [exact E|]. split; [exact Hw|].
  apply Hc. intros Hne. discriminate Hne.
Defined.
