(* ===== verification/Lldp.v ===== *)
(** [lib/packet/lldp.py]: link layer discovery packets - the kinds of TLV with their parsers
    and [pack], the packet's [parse] and [hdr] - and the codec that the packet library's
    interface asks of the class. *)
From S2P Require Import Prelude.
From S2P Require Import PyStruct.
From S2P Require Import Packets.
From S2P Require Import PacketCodec.

Definition MIN_LEN : Z := 4 + 4 + 4 + 2.
Definition END_TLV : Z := 0.
Definition CHASSIS_ID_TLV : Z := 1.
Definition PORT_ID_TLV : Z := 2.
Definition TTL_TLV : Z := 3.
Definition PORT_DESC_TLV : Z := 4.
Definition SYSTEM_NAME_TLV : Z := 5.
Definition SYSTEM_DESC_TLV : Z := 6.
Definition SYSTEM_CAP_TLV : Z := 7.
Definition MANAGEMENT_ADDR_TLV : Z := 8.
Definition ORGANIZATIONALLY_SPECIFIC_TLV : Z := 127.

(** * The TLV classes *)

(** [BasicTlv]: an object of [port_description], [system_name] or [system_description],
    which differ only in their type, or of [unknown_tlv], whose type is None until it
    parses. *)
Inductive tlv :=
  | ChassisId (strlen subtype : Z) (id : option bytes)
  | PortId (subtype : Z) (id : option bytes)
  | Ttl (strlen ttl : Z)
  | EndTlv (strlen : Z)
  | BasicTlv (type : option Z) (len : Z) (next : bytes)
  | OrgSpecific (len : Z) (oui : bytes) (subtype : Z) (next : bytes)
  | SystemCapabilities (len : Z) (caps enabled_caps : list bool)
  | ManagementAddress (address_subtype : Z) (address : bytes)
      (interface_numbering_subtype interface_number : Z) (object_identifier : bytes).
#[export] Instance tlv_eq_dec : EqDecision tlv.
Proof. solve_decision. Defined.

Definition tlv_type (t : tlv) : option Z :=
  match t with
  | ChassisId _ _ _ => Some CHASSIS_ID_TLV
  | PortId _ _ => Some PORT_ID_TLV
  | Ttl _ _ => Some TTL_TLV
  | EndTlv _ => Some END_TLV
  | BasicTlv type _ _ => type
  | OrgSpecific _ _ _ _ => Some ORGANIZATIONALLY_SPECIFIC_TLV
  | SystemCapabilities _ _ _ => Some SYSTEM_CAP_TLV
  | ManagementAddress _ _ _ _ _ => Some MANAGEMENT_ADDR_TLV
  end.

(** ** Construction *)

Definition SUB_MAC : Z := 4.
Definition SUB_LOCAL : Z := 7.
Definition SUB_PORT : Z := 2.

Definition chassis_id_init : tlv := ChassisId 0 0 None.
Definition chassis_id_fill (subtype : Z) (strval : bytes) : tlv := ChassisId (1 + zlen strval) subtype (Some strval).
Definition port_id_init : tlv := PortId 0 None.
Definition port_id_fill (subtype : Z) (strval : bytes) : tlv := PortId subtype (Some strval).
Definition ttl_init : tlv := Ttl 2 0.
Definition ttl_fill (ttl : Z) : tlv := Ttl 2 ttl.
Definition end_tlv_init : tlv := EndTlv 0.
Definition basic_tlv_init (type : option Z) : tlv := BasicTlv type 0 [].
Definition basic_tlv_fill (type : option Z) (strval : bytes) : tlv := BasicTlv type (zlen strval) strval.
Definition management_address_init : tlv := ManagementAddress 0 [] 0 0 [].
Definition organizationally_specific_init : tlv := OrgSpecific 0 [x00; x00; x00] 0 [].
Definition system_capabilities_init : tlv := SystemCapabilities 0 (replicate 16 false) (replicate 16 false).

(** ** Parsing *)

(** The type and the length that a TLV starts with. *)
Definition type_len (arr : bytes) : res (Z * Z) :=
  tuple [typelen] ← struct_unpack "!H" (slice arr 0 2);
  Ok (Z.shiftr typelen 9, Z.land typelen 0x01ff).

Definition py_assert (b : bool) : res unit := if b then Ok tt else Err AssertionError.

Definition chassis_id_parse (arr : bytes) : res tlv :=
  '(type, strlen) ← type_len arr;
  '_ ← py_assert (type =? 1);
  '_ ← py_assert (2 <=? strlen);
  tuple [subtype] ← struct_unpack "!B" (slice arr 2 3);
  Ok (ChassisId strlen subtype (Some (slice_from arr 3))).

Definition port_id_parse (arr : bytes) : res tlv :=
  '(type, strlen) ← type_len arr;
  '_ ← py_assert (type =? 2);
  '_ ← py_assert (2 <=? strlen);
  tuple [subtype] ← struct_unpack "!B" (slice arr 2 3);
  let id := slice_from arr 3 in
  '_ ← py_assert (strlen =? 1 + zlen id);
  Ok (PortId subtype (Some id)).

Definition ttl_parse (arr : bytes) : res tlv :=
  '(type, strlen) ← type_len arr;
  '_ ← py_assert (type =? 3);
  if negb (strlen =? 2) then Ok (Ttl strlen 0)
  else tuple [ttl] ← struct_unpack "!H" (slice arr 2 4); Ok (Ttl strlen ttl).

Definition end_tlv_parse (arr : bytes) : res tlv :=
  '(type, strlen) ← type_len arr;
  '_ ← py_assert (type =? END_TLV);
  Ok (EndTlv strlen).

Definition basic_tlv_parse (arr : bytes) : res tlv :=
  '(type, len) ← type_len arr;
  Ok (BasicTlv (Some type) len (slice_from arr 2)).

(** [struct.unpack("3sB", self.next[0:4])]. *)
Definition organizationally_specific_parse (arr : bytes) : res tlv :=
  '(_, len) ← type_len arr;
  let next := slice_from arr 2 in
  tuple [subtype] ← struct_unpack "!B" (slice next 3 4);
  Ok (OrgSpecific len (slice next 0 3) subtype (slice_from next 4)).

(** [cap and (1 << i)], not [cap & (1 << i)]. *)
Definition capability_bit (cap i : Z) : bool :=
  let v := if cap =? 0 then cap else Z.shiftl 1 i in negb (v =? 0).
Definition system_capabilities_parse (arr : bytes) : res tlv :=
  '(_, len) ← type_len arr;
  tuple [cap; en] ← struct_unpack "!HH" (slice_from arr 2);
  Ok (SystemCapabilities len (map (capability_bit cap) (seqZ 0 16)) (map (capability_bit en) (seqZ 0 16))).

Definition management_address_parse (data : bytes) : res tlv :=
  '_ ← type_len data;
  asl ← ord_at data 2;
  let asl := asl - 1 in
  address_subtype ← ord_at data 3;
  let address := slice data 4 (4 + asl) in
  ifn_subtype ← ord_at data (4 + asl);
  tuple [ifn] ← struct_unpack "!L" (slice data (4 + asl + 1) (4 + asl + 1 + 4));
  osl ← ord_at data (9 + asl);
  Ok (ManagementAddress address_subtype address ifn_subtype ifn
        (slice data (9 + asl + 1) (9 + asl + 1 + osl))).

(** [lldp.tlv_parsers], and [unknown_tlv] for the other types. *)
Definition tlv_parsers (type : Z) : option (bytes -> res tlv) :=
  if type =? CHASSIS_ID_TLV then Some chassis_id_parse
  else if type =? PORT_ID_TLV then Some port_id_parse
  else if type =? TTL_TLV then Some ttl_parse
  else if (type =? SYSTEM_NAME_TLV) || (type =? SYSTEM_DESC_TLV) || (type =? PORT_DESC_TLV) then Some basic_tlv_parse
  else if type =? END_TLV then Some end_tlv_parse
  else if type =? ORGANIZATIONALLY_SPECIFIC_TLV then Some organizationally_specific_parse
  else if type =? SYSTEM_CAP_TLV then Some system_capabilities_parse
  else if type =? MANAGEMENT_ADDR_TLV then Some management_address_parse
  else None.
Definition tlv_parse (type : Z) : bytes -> res tlv := default basic_tlv_parse (tlv_parsers type).

(** ** Packing *)

(** [struct.pack]'s [ns]. *)
Definition pack_s (n : Z) (s : bytes) : bytes := take (Z.to_nat n) (ljust0 s (Z.to_nat n)).

Definition typelen (type len : Z) : Z := Z.lor (Z.shiftl type 9) (Z.land len 0x01ff).

Definition chassis_id_pack (strlen subtype : Z) (id : option bytes) : res bytes :=
  if strlen - 1 <? 0 then Err StructError
  else
    h ← struct_pack "!HB" [typelen CHASSIS_ID_TLV strlen; subtype];
    match id with Some id => Ok (h ++ pack_s (strlen - 1) id) | None => Err StructError end.
Definition port_id_pack (subtype : Z) (id : option bytes) : res bytes :=
  match id with
  | None => Err TypeError
  | Some id =>
      let strlen := 1 + zlen id in
      h ← struct_pack "!HB" [typelen PORT_ID_TLV strlen; subtype];
      Ok (h ++ pack_s (strlen - 1) id)
  end.
Definition ttl_pack (strlen ttl : Z) : res bytes := struct_pack "!HH" [typelen TTL_TLV strlen; ttl].
Definition end_tlv_pack (strlen : Z) : res bytes := struct_pack "!H" [typelen END_TLV strlen].
Definition basic_tlv_pack (type : option Z) (len : Z) (next : bytes) : res bytes :=
  match type with
  | None => Err TypeError
  | Some type => h ← struct_pack "!H" [typelen type len]; Ok (h ++ next)
  end.
Definition organizationally_specific_pack (len : Z) (oui : bytes) (subtype : Z) (next : bytes) : res bytes :=
  h ← struct_pack "!H" [typelen ORGANIZATIONALLY_SPECIFIC_TLV len];
  s ← struct_pack "!B" [subtype];
  Ok (h ++ pack_s 3 oui ++ s ++ next).
Fixpoint bits_value (i : Z) (l : list bool) : Z :=
  match l with
  | [] => 0
  | b :: l => Z.lor (if b then Z.shiftl 1 i else 0) (bits_value (i + 1) l)
  end.
Definition system_capabilities_pack (len : Z) (caps enabled_caps : list bool) : res bytes :=
  if (length caps <? 16)%nat || (length enabled_caps <? 16)%nat then Err IndexError
  else struct_pack "!HHH" [typelen SYSTEM_CAP_TLV len; bits_value 0 (take 16 caps); bits_value 0 (take 16 enabled_caps)].
Definition management_address_len (address object_identifier : bytes) : Z :=
  2 + 1 + 1 + zlen address + 1 + 4 + 1 + zlen object_identifier.
Definition management_address_pack (address_subtype : Z) (address : bytes) (ifn_subtype ifn : Z)
    (object_identifier : bytes) : res bytes :=
  h ← struct_pack "!H" [typelen MANAGEMENT_ADDR_TLV (management_address_len address object_identifier - 2)];
  a ← struct_pack "!BB" [zlen address + 1; address_subtype];
  i ← struct_pack "!BLB" [ifn_subtype; ifn; zlen object_identifier];
  Ok (h ++ a ++ address ++ i ++ object_identifier).

Definition tlv_pack (t : tlv) : res bytes :=
  match t with
  | ChassisId strlen subtype id => chassis_id_pack strlen subtype id
  | PortId subtype id => port_id_pack subtype id
  | Ttl strlen ttl => ttl_pack strlen ttl
  | EndTlv strlen => end_tlv_pack strlen
  | BasicTlv type len next => basic_tlv_pack type len next
  | OrgSpecific len oui subtype next => organizationally_specific_pack len oui subtype next
  | SystemCapabilities len caps enabled => system_capabilities_pack len caps enabled
  | ManagementAddress st a ist i oid => management_address_pack st a ist i oid
  end.

(** * The packet *)

Record lldp := Lldp { lldp_tlvs : list tlv; lldp_parsed : bool }.
Definition lldp_init : lldp := Lldp [] false.
Definition add_tlv (t : tlv) (l : lldp) : lldp := Lldp (lldp_tlvs l ++ [t]) (lldp_parsed l).

(** [next_tlv]: the TLV it appends, and what it returns; None when it gives up. *)
Definition next_tlv (array : bytes) : res (option (tlv * Z)) :=
  if zlen array <? 2 then Ok None else
  '(type, length) ← type_len array;
  if zlen array <? length then Ok None else
  t ← tlv_parse type (slice array 0 (2 + length));
  Ok (Some (t, 2 + length)).

(** One of the three TLVs a packet starts with: the TLVs so far and, when it is of the right
    type, the position after it. *)
Definition mandatory (raw : bytes) (type : Z) (tlvs : list tlv) (pduhead : Z) : res (list tlv * option Z) :=
  r ← next_tlv (slice_from raw pduhead);
  match r with
  | None => Ok (tlvs, None)
  | Some (t, n) => Ok (tlvs ++ [t], if bool_decide (tlv_type t = Some type) then Some (pduhead + n) else None)
  end.

(** The loop over the other TLVs: the TLVs, and [parsed]. *)
Fixpoint tlv_loop (fuel : nat) (raw : bytes) (tlvs : list tlv) (pduhead : Z) : res lldp :=
  match fuel with
  | O => Err Diverge
  | S fuel =>
      r ← next_tlv (slice_from raw pduhead);
      match r with
      | None => Ok (Lldp tlvs false)
      | Some (t, n) =>
          let tlvs := tlvs ++ [t] in
          if bool_decide (tlv_type t = Some END_TLV) then Ok (Lldp tlvs true)
          else if zlen raw <=? pduhead + n then Ok (Lldp tlvs false)
          else tlv_loop fuel raw tlvs (pduhead + n)
      end
  end.

Definition lldp_new (raw : bytes) : res lldp :=
  if zlen raw <? MIN_LEN then Ok (Lldp [] false) else
  '(tlvs, p) ← mandatory raw CHASSIS_ID_TLV [] 0;
  match p with None => Ok (Lldp tlvs false) | Some p =>
  '(tlvs, p) ← mandatory raw PORT_ID_TLV tlvs p;
  match p with None => Ok (Lldp tlvs false) | Some p =>
  '(tlvs, p) ← mandatory raw TTL_TLV tlvs p;
  match p with None => Ok (Lldp tlvs false) | Some p =>
  tlv_loop (S (length raw)) raw tlvs p
  end end end.

(** [hdr], and so [pack]: [next] is None. *)
Fixpoint pack_tlvs (tlvs : list tlv) : res bytes :=
  match tlvs with
  | [] => Ok []
  | t :: tlvs => s ← tlv_pack t; r ← pack_tlvs tlvs; Ok (s ++ r)
  end.
Definition lldp_pack (l : lldp) : res bytes := pack_tlvs (lldp_tlvs l).

(** The codec of the class, beside those of the others. *)
Definition lldp_codec (others : AppCodec) : AppCodec := {|
  app_parsed c raw := match c with C_lldp => l ← lldp_new raw; Ok (lldp_parsed l) | _ => app_parsed c raw end;
  app_pack c raw := match c with C_lldp => l ← lldp_new raw; lldp_pack l | _ => app_pack c raw end
|}.
