(* ===== verification/LldpTheory.v ===== *)
(** Discovery packets survive packing and parsing; what parsing does to any bytes. *)
From S2P Require Import Prelude.
From S2P Require Import PyStruct.
From S2P Require Import Wire.
From S2P Require Import Packets.
From S2P Require Import PacketCodec.
From S2P Require Import PacketTheory.
From S2P Require Import PacketRoundtrip.
From S2P Require Import PacketTyping.
From S2P Require Import Lldp.

(** * One TLV *)

Lemma typelen_word type len : 0 <= type < 128 -> 0 <= len < 512 ->
  u16 (typelen type len) /\ Z.shiftr (typelen type len) 9 = type /\ Z.land (typelen type len) 0x1ff = len.
Proof.
  intros Ht Hl. unfold typelen. rewrite (land_mask len 9 0x1ff), Z.mod_small by (done || lia).
  rewrite lor_concat by lia. split; [lia|]. split.
  - rewrite Z.shiftr_div_pow2 by lia. rewrite Z.div_add_l, Z.div_small by lia. lia.
  - rewrite (land_mask _ 9 0x1ff) by (done || lia). rewrite Z.add_comm, Z.mod_add, Z.mod_small by lia. done.
Qed.

Lemma type_len_read type len : 0 <= type < 128 -> 0 <= len < 512 ->
  exists h, struct_pack "!H" [typelen type len] = Ok h /\ zlen h = 2 /\
    forall rest, type_len (h ++ rest) = Ok (type, len).
Proof.
  intros Ht Hl. destruct (typelen_word type len Ht Hl) as (Hw & E1 & E2).
  destruct (struct_pack_ok "!H" [typelen type len]) as (h & E & L); [cbn; lia|].
  change (struct_calcsize _) with 2 in L. exists h. split; [done|]. split; [done|]. intros rest.
  unfold type_len. rewrite (read_head _ _ _ _ _ E) by done. cbn [mbind res_bind]. by rewrite E1, E2.
Qed.

(** A TLV of the announced length is cut out of the bytes that follow it. *)
Lemma next_tlv_packed type body : 0 <= type < 128 -> zlen body < 512 ->
  exists h, struct_pack "!H" [typelen type (zlen body)] = Ok h /\ zlen h = 2 /\
    (forall rest, type_len (h ++ rest) = Ok (type, zlen body)) /\
    forall rest, next_tlv ((h ++ body) ++ rest) =
      (t ← tlv_parse type (h ++ body); Ok (Some (t, zlen (h ++ body)))).
Proof.
  intros Ht Hb. pose proof (zlen_nonneg body). destruct (type_len_read type (zlen body)) as (h & E & L & Hr); [lia..|].
  exists h. split; [done|]. split; [done|]. split; [done|]. intros rest. pose proof (zlen_nonneg rest).
  unfold next_tlv. rewrite !zlen_app, L, !(proj2 (Z.ltb_ge _ _)) by lia.
  rewrite <-app_assoc, Hr. cbn [mbind res_bind]. rewrite (proj2 (Z.ltb_ge _ _)) by lia.
  rewrite app_assoc, slice_hit by (rewrite zlen_app; lia). done.
Qed.

(** The TLVs that survive: the lengths and types are consistent, the fields fit.  Of
    [system_capabilities] nothing survives that has a capability. *)
Definition tlv_ok (t : tlv) : Prop :=
  match t with
  | ChassisId strlen subtype (Some id) => strlen = 1 + zlen id /\ 2 <= strlen < 512 /\ u8 subtype
  | PortId subtype (Some id) => 2 <= 1 + zlen id < 512 /\ u8 subtype
  | Ttl strlen ttl => strlen = 2 /\ u16 ttl
  | EndTlv strlen => strlen = 0
  | BasicTlv (Some type) len next => len = zlen next /\ len < 512 /\
      (type ∈ [PORT_DESC_TLV; SYSTEM_NAME_TLV; SYSTEM_DESC_TLV] \/ 9 <= type < 127)
  | OrgSpecific len oui subtype next => len = 4 + zlen next /\ len < 512 /\ zlen oui = 3 /\ u8 subtype
  | ManagementAddress st a ist i oid => u8 st /\ u8 ist /\ u32 i /\ zlen a < 255 /\ zlen oid < 256 /\
      management_address_len a oid < 514
  | _ => False
  end.

Lemma pack_s_id n s : n = zlen s -> pack_s n s = s.
Proof.
  intros ->. unfold pack_s, zlen. rewrite Nat2Z.id. unfold ljust0. rewrite take_app_le by done. by apply firstn_all.
Qed.

Definition tlv_survives (t : tlv) : Prop := exists s, tlv_pack t = Ok s /\ 2 <= zlen s < 514 /\
  forall rest, next_tlv (s ++ rest) = Ok (Some (t, zlen s)).

(** From the body a TLV packs to, and its parser on it. *)
Lemma survives_intro t type body : 0 <= type < 128 -> zlen body < 512 ->
  (forall h, struct_pack "!H" [typelen type (zlen body)] = Ok h -> tlv_pack t = Ok (h ++ body)) ->
  (forall h, zlen h = 2 -> (forall rest, type_len (h ++ rest) = Ok (type, zlen body)) ->
    tlv_parse type (h ++ body) = Ok t) ->
  tlv_survives t.
Proof.
  intros Ht Hb Hpack Hparse. destruct (next_tlv_packed type body Ht Hb) as (h & E & L & Hr & Hn).
  exists (h ++ body). split; [by apply Hpack|]. pose proof (zlen_nonneg body).
  split; [rewrite zlen_app; lia|]. intros rest. by rewrite Hn, Hparse.
Qed.

Lemma pack_HB a b h : struct_pack "!H" [a] = Ok h -> u8 b -> struct_pack "!HB" [a; b] = Ok (h ++ [byte_of_Z b]).
Proof.
  intros E Hb. pose proof (struct_pack_inv _ _ _ E) as Ha. cbn in Ha.
  destruct (struct_pack_ok "!HB" [a; b]) as (s & E' & _); [cbn; lia|].
  destruct (struct_pack_split "!HB" "!H" "!B" [FU 2] [FU 1] [a] [b] s) as (s1 & s2 & -> & E1 & E2); [done..|].
  rewrite E in E1. injection E1 as <-. apply struct_pack_B in E2 as [-> _]. done.
Qed.

Lemma unpack_B b : u8 b -> struct_unpack "!B" [byte_of_Z b] = Ok [b].
Proof.
  intros Hb. destruct (struct_pack_ok "!B" [b]) as (s & E & _); [cbn; lia|].
  pose proof (struct_pack_B _ _ E) as [-> _]. by apply struct_unpack_pack.
Qed.

(** Reading a TLV [h ++ body]. *)
Lemma slice_body {A} (h body : list A) i j : zlen h = 2 -> 2 <= i -> i <= j ->
  slice (h ++ body) i j = slice body (i - 2) (j - 2).
Proof. intros L Hi Hj. rewrite slice_skip by lia. by rewrite L. Qed.
Lemma slice_from_body {A} (h body : list A) i : zlen h = 2 -> 2 <= i ->
  slice_from (h ++ body) i = slice_from body (i - 2).
Proof. intros L Hi. rewrite slice_from_ge by lia. by rewrite L. Qed.

Lemma chassis_id_survives strlen subtype id : tlv_ok (ChassisId strlen subtype (Some id)) ->
  tlv_survives (ChassisId strlen subtype (Some id)).
Proof.
  intros (Hl & Hb & Hs). apply (survives_intro _ 1 (byte_of_Z subtype :: id)); [lia|rewrite zlen_cons; lia| |].
  - intros h E. cbn [tlv_pack]. unfold chassis_id_pack. rewrite (proj2 (Z.ltb_ge _ _)) by lia.
    rewrite zlen_cons, <-Hl in E. rewrite (pack_HB _ _ _ E) by done. cbn [mbind res_bind].
    rewrite pack_s_id by lia. by rewrite <-app_assoc.
  - intros h L Hr. change (tlv_parse 1) with chassis_id_parse. unfold chassis_id_parse. rewrite Hr, zlen_cons, <-Hl.
    cbn [mbind res_bind Z.eqb Pos.eqb py_assert]. rewrite (proj2 (Z.leb_le _ _)) by lia. cbn [mbind res_bind py_assert].
    rewrite slice_body by lia. change (slice (?b :: ?l) (2 - 2) (3 - 2)) with [b]. rewrite unpack_B by done.
    cbn [mbind res_bind]. by rewrite slice_from_body by lia.
Qed.

Lemma port_id_survives subtype id : tlv_ok (PortId subtype (Some id)) -> tlv_survives (PortId subtype (Some id)).
Proof.
  intros (Hb & Hs). apply (survives_intro _ 2 (byte_of_Z subtype :: id)); [lia|rewrite zlen_cons; lia| |].
  - intros h E. cbn [tlv_pack]. unfold port_id_pack. rewrite zlen_cons in E. rewrite (pack_HB _ _ _ E) by done.
    cbn [mbind res_bind]. rewrite pack_s_id by lia. by rewrite <-app_assoc.
  - intros h L Hr. change (tlv_parse 2) with port_id_parse. unfold port_id_parse. rewrite Hr, zlen_cons.
    cbn [mbind res_bind Z.eqb Pos.eqb py_assert]. rewrite (proj2 (Z.leb_le _ _)) by lia. cbn [mbind res_bind py_assert].
    rewrite slice_body by lia. change (slice (?b :: ?l) (2 - 2) (3 - 2)) with [b]. rewrite unpack_B by done.
    cbn [mbind res_bind]. rewrite slice_from_body by lia.
    change (slice_from (byte_of_Z subtype :: id) (3 - 2)) with id. by rewrite Z.eqb_refl.
Qed.

Lemma ttl_survives strlen ttl : tlv_ok (Ttl strlen ttl) -> tlv_survives (Ttl strlen ttl).
Proof.
  intros (-> & Ht). destruct (struct_pack_ok "!H" [ttl]) as (b & Eb & Lb); [cbn; lia|].
  change (struct_calcsize _) with 2 in Lb. apply (survives_intro _ 3 b); [lia..| |].
  - intros h E. cbn [tlv_pack]. unfold ttl_pack. rewrite Lb in E.
    destruct (struct_pack_ok "!HH" [typelen TTL_TLV 2; ttl]) as (s & E' & _); [split; [by vm_compute|cbn; lia]|].
    destruct (struct_pack_split "!HH" "!H" "!H" [FU 2] [FU 2] [typelen TTL_TLV 2] [ttl] s) as (s1 & s2 & -> & E1 & E2); [done..|].
    unfold TTL_TLV in *. rewrite E in E1. injection E1 as <-. rewrite Eb in E2. by injection E2 as <-.
  - intros h L Hr. change (tlv_parse 3) with ttl_parse. unfold ttl_parse. rewrite Hr, Lb.
    cbn [mbind res_bind Z.eqb Pos.eqb py_assert negb]. rewrite slice_body by lia.
    change (2 - 2) with 0. change (4 - 2) with 2. rewrite <-(app_nil_r b), (read_head _ _ _ _ _ Eb) by done. done.
Qed.

Lemma end_tlv_survives : tlv_survives (EndTlv 0).
Proof.
  apply (survives_intro _ 0 []); [lia|by vm_compute| |].
  - intros h E. by rewrite app_nil_r.
  - intros h L Hr. change (tlv_parse 0) with end_tlv_parse. unfold end_tlv_parse. by rewrite Hr.
Qed.

Lemma basic_tlv_survives type len next : tlv_ok (BasicTlv (Some type) len next) ->
  tlv_survives (BasicTlv (Some type) len next).
Proof.
  intros (-> & Hl & Ht). assert (0 <= type < 128 /\ tlv_parse type = basic_tlv_parse) as [Hr Hp].
  { unfold PORT_DESC_TLV, SYSTEM_NAME_TLV, SYSTEM_DESC_TLV in Ht.
    rewrite !elem_of_cons, elem_of_nil in Ht. destruct Ht as [[->|[->|[->|[]]]]|Ht]; [split; [lia|done]..|].
    split; [lia|]. unfold tlv_parse, tlv_parsers, CHASSIS_ID_TLV, PORT_ID_TLV, TTL_TLV, SYSTEM_NAME_TLV, SYSTEM_DESC_TLV,
      PORT_DESC_TLV, END_TLV, ORGANIZATIONALLY_SPECIFIC_TLV, SYSTEM_CAP_TLV, MANAGEMENT_ADDR_TLV.
    rewrite !(proj2 (Z.eqb_neq type _)) by lia. done. }
  apply (survives_intro _ type next); [done..| |].
  - intros h E. cbn [tlv_pack]. unfold basic_tlv_pack. by rewrite E.
  - intros h L Hh. rewrite Hp. unfold basic_tlv_parse. rewrite Hh. cbn [mbind res_bind].
    by rewrite slice_from_body, slice_from_all by lia.
Qed.

Lemma organizationally_specific_survives len oui subtype next : tlv_ok (OrgSpecific len oui subtype next) ->
  tlv_survives (OrgSpecific len oui subtype next).
Proof.
  intros (-> & Hl & Ho & Hs). destruct (struct_pack_ok "!B" [subtype]) as (b & Eb & _); [cbn; lia|].
  pose proof (struct_pack_B _ _ Eb) as [-> _].
  assert (zlen (oui ++ byte_of_Z subtype :: next) = 4 + zlen next) as Lb by (rewrite zlen_app, zlen_cons; lia).
  pose proof (zlen_nonneg next).
  apply (survives_intro _ 127 (oui ++ byte_of_Z subtype :: next)); [lia..| |].
  - intros h E. cbn [tlv_pack]. unfold organizationally_specific_pack. rewrite Lb in E.
    unfold ORGANIZATIONALLY_SPECIFIC_TLV. rewrite E, Eb. cbn [mbind res_bind]. by rewrite pack_s_id.
  - intros h L Hh. change (tlv_parse 127) with organizationally_specific_parse. unfold organizationally_specific_parse.
    rewrite Hh, Lb. cbn [mbind res_bind]. rewrite slice_from_body, slice_from_all by lia.
    rewrite (slice_skip oui _ 3 4), Ho by lia. change (slice (?b :: ?l) (3 - 3) (4 - 3)) with [b]. rewrite unpack_B by done.
    cbn [mbind res_bind]. rewrite slice_hit by done. rewrite slice_from_ge, Ho by lia. done.
Qed.

Lemma ord_mid pre v post i : zlen pre = i -> u8 v -> ord_at (pre ++ byte_of_Z v :: post) i = Ok v.
Proof. intros <- Hv. rewrite ord_at_app by done. by rewrite Z_of_byte_of_Z, Z.mod_small. Qed.

(** The body of a management address, [n] being the packed interface number. *)
Section management_address.
Context (st : Z) (a : bytes) (ist i : Z) (oid n : bytes).
Hypothesis Hok : tlv_ok (ManagementAddress st a ist i oid).
Hypothesis En : struct_pack "!L" [i] = Ok n.
Let body : bytes :=
  [byte_of_Z (zlen a + 1); byte_of_Z st] ++ a ++ ([byte_of_Z ist] ++ n ++ [byte_of_Z (zlen oid)]) ++ oid.

Lemma management_address_body_len : zlen n = 4 /\ zlen body = management_address_len a oid - 2.
Proof.
  pose proof (struct_pack_len _ _ _ En) as Ln. change (struct_calcsize _) with 4 in Ln. split; [done|].
  unfold body, management_address_len. rewrite !zlen_app, Ln. change (zlen [?x; ?y]) with 2. change (zlen [?x]) with 1. lia.
Qed.

Lemma management_address_packs h : struct_pack "!H" [typelen 8 (zlen body)] = Ok h ->
  tlv_pack (ManagementAddress st a ist i oid) = Ok (h ++ body).
Proof.
  destruct Hok as (Hst & Hist & Hi & Ha & Ho & Hlen). unfold management_address_len in Hlen.
  pose proof (zlen_nonneg a). pose proof (zlen_nonneg oid).
  destruct management_address_body_len as [_ ->]. unfold management_address_len. intros E.
  cbn [tlv_pack]. unfold management_address_pack, management_address_len, MANAGEMENT_ADDR_TLV.
  rewrite E. cbn [mbind res_bind].
  destruct (struct_pack_ok "!BB" [zlen a + 1; st]) as (s & E' & _); [cbn; lia|].
  pose proof (struct_pack_BB _ _ _ E') as [-> _]. rewrite E'. cbn [mbind res_bind].
  destruct (struct_pack_ok "!BLB" [ist; i; zlen oid]) as (s & E2 & _); [cbn; lia|]. rewrite E2. cbn [mbind res_bind].
  destruct (struct_pack_split "!BLB" "!B" "!LB" [FU 1] [FU 4; FU 1] [ist] [i; zlen oid] s) as (s1 & s2 & -> & E3 & E4); [done..|].
  apply struct_pack_B in E3 as [-> _].
  destruct (struct_pack_split "!LB" "!L" "!B" [FU 4] [FU 1] [i] [zlen oid] s2) as (s3 & s4 & -> & E5 & E6); [done..|].
  apply struct_pack_B in E6 as [-> _]. rewrite En in E5. injection E5 as <-. unfold body. by rewrite <-!app_assoc.
Qed.

Lemma management_address_parses h : zlen h = 2 -> (forall rest, type_len (h ++ rest) = Ok (8, zlen body)) ->
  tlv_parse 8 (h ++ body) = Ok (ManagementAddress st a ist i oid).
Proof.
  destruct Hok as (Hst & Hist & Hi & Ha & Ho & Hlen). destruct management_address_body_len as [Ln _]. intros L Hh.
  pose proof (zlen_nonneg a). pose proof (zlen_nonneg oid).
  change (tlv_parse 8) with management_address_parse. unfold management_address_parse. rewrite Hh. cbn [mbind res_bind].
  unfold body. clear Hh.
  set (b1 := byte_of_Z (zlen a + 1)). set (b2 := byte_of_Z st). set (b3 := byte_of_Z ist). set (b4 := byte_of_Z (zlen oid)).
  assert (zlen [b1; b2] = 2) as L2 by done. assert (zlen [b3] = 1 /\ zlen [b1] = 1 /\ zlen [b4] = 1) as (L3 & L1 & L4) by done.
  set (d := h ++ _).
  assert (ord_at d 2 = Ok (zlen a + 1)) as -> by (apply ord_mid; lia).
  assert (d = (h ++ [b1]) ++ b2 :: (a ++ ([b3] ++ n ++ [b4]) ++ oid)) as D by (unfold d; by rewrite <-!app_assoc).
  assert (ord_at d 3 = Ok st) as -> by (rewrite D; apply ord_mid; [rewrite zlen_app; lia|lia]). clear D.
  cbn [mbind res_bind]. replace (zlen a + 1 - 1) with (zlen a) by lia.
  assert (d = (h ++ [b1; b2]) ++ a ++ (([b3] ++ n ++ [b4]) ++ oid)) as D by (unfold d; by rewrite <-!app_assoc).
  assert (slice d 4 (4 + zlen a) = a) as -> by (rewrite D; apply slice_mid; rewrite zlen_app; lia). clear D.
  assert (d = (h ++ [b1; b2] ++ a) ++ b3 :: (n ++ [b4] ++ oid)) as D by (unfold d; by rewrite <-!app_assoc).
  assert (ord_at d (4 + zlen a) = Ok ist) as -> by (rewrite D; apply ord_mid; [rewrite !zlen_app; lia|lia]). clear D.
  assert (d = (h ++ [b1; b2] ++ a ++ [b3]) ++ n ++ ([b4] ++ oid)) as D by (unfold d; by rewrite <-!app_assoc).
  assert (slice d (4 + zlen a + 1) (4 + zlen a + 1 + 4) = n) as -> by (rewrite D; apply slice_mid; rewrite !zlen_app; lia). clear D.
  cbn [mbind res_bind]. rewrite (struct_unpack_pack _ _ _ En). cbn [mbind res_bind].
  assert (d = (h ++ [b1; b2] ++ a ++ [b3] ++ n) ++ b4 :: oid) as D by (unfold d; by rewrite <-!app_assoc).
  assert (ord_at d (9 + zlen a) = Ok (zlen oid)) as -> by (rewrite D; apply ord_mid; [rewrite !zlen_app; lia|lia]). clear D.
  assert (d = (h ++ [b1; b2] ++ a ++ [b3] ++ n ++ [b4]) ++ oid ++ []) as D by (unfold d; by rewrite <-!app_assoc, app_nil_r).
  cbn [mbind res_bind]. rewrite D, slice_mid by (rewrite !zlen_app; lia). done.
Qed.
End management_address.

Lemma management_address_survives st a ist i oid : tlv_ok (ManagementAddress st a ist i oid) ->
  tlv_survives (ManagementAddress st a ist i oid).
Proof.
  intros H. pose proof H as (_ & _ & Hi & Ha & _ & Hlen). destruct (struct_pack_ok "!L" [i]) as (n & En & _); [cbn; lia|].
  pose proof (management_address_body_len st a ist i oid n En) as [_ Lb]. cbv zeta in Lb.
  eapply (survives_intro _ 8); [lia| | |].
  2: intros h; by apply management_address_packs.
  1: rewrite Lb; lia.
  intros h L. by apply management_address_parses.
Qed.

Lemma tlv_ok_survives t : tlv_ok t -> tlv_survives t.
Proof.
  destruct t as [? ? [?|]|? [?|]|? ?|?|[?|] ? ?|? ? ? ?|? ? ?|? ? ? ? ?]; try done.
  - apply chassis_id_survives.
  - apply port_id_survives.
  - apply ttl_survives.
  - intros ->. apply end_tlv_survives.
  - apply basic_tlv_survives.
  - apply organizationally_specific_survives.
  - apply management_address_survives.
Qed.

(** * The packet *)

Lemma mandatory_len t s ty : tlv_ok t -> tlv_type t = Some ty -> 1 <= ty <= 3 -> tlv_pack t = Ok s -> 4 <= zlen s.
Proof.
  intros Ht Hty Hr. destruct t as [l st [id|]|st [id|]|l v|l|[bt|] l n|l o st n|l c e|st a ist i o]; try done;
    cbn [tlv_ok tlv_type tlv_pack] in *.
  - unfold chassis_id_pack. destruct (_ <? 0); [done|]. destruct (struct_pack _ _) eqn:E; [|done].
    apply struct_pack_len in E. cbn. intros [= <-]. rewrite pack_s_id, zlen_app, E by lia.
    change (struct_calcsize _) with 3. lia.
  - unfold port_id_pack. destruct (struct_pack _ _) eqn:E; [|done]. apply struct_pack_len in E.
    intros [= <-]. rewrite pack_s_id, zlen_app, E by lia. change (struct_calcsize _) with 3. lia.
  - unfold ttl_pack. intros E. apply struct_pack_len in E. rewrite E. by vm_compute.
  - injection Hty as <-. unfold END_TLV in Hr. lia.
  - injection Hty as ->. destruct Ht as (_ & _ & Ht). unfold PORT_DESC_TLV, SYSTEM_NAME_TLV, SYSTEM_DESC_TLV in Ht.
    rewrite !elem_of_cons, elem_of_nil in Ht. lia.
  - injection Hty as <-. unfold ORGANIZATIONALLY_SPECIFIC_TLV in Hr. lia.
  - injection Hty as <-. unfold MANAGEMENT_ADDR_TLV in Hr. lia.
Qed.

Lemma mandatory_read pre s rest t ty tlvs : (forall rest, next_tlv (s ++ rest) = Ok (Some (t, zlen s))) ->
  tlv_type t = Some ty ->
  mandatory (pre ++ s ++ rest) ty tlvs (zlen pre) = Ok (tlvs ++ [t], Some (zlen (pre ++ s))).
Proof.
  intros Hn Ht. unfold mandatory. rewrite slice_from_app by done. rewrite Hn. cbn [mbind res_bind].
  by rewrite bool_decide_true, zlen_app by done.
Qed.

Lemma pack_tlvs_app l1 l2 s1 s2 : pack_tlvs l1 = Ok s1 -> pack_tlvs l2 = Ok s2 -> pack_tlvs (l1 ++ l2) = Ok (s1 ++ s2).
Proof.
  revert s1; induction l1 as [|t l1 IH]; intros s1; [by intros [= <-]|]. cbn [pack_tlvs app].
  destruct (tlv_pack t) as [s|]; [|done]. cbn [mbind res_bind]. destruct (pack_tlvs l1) as [r|]; [|done].
  intros [= <-] E2. rewrite (IH r) by done. cbn [mbind res_bind]. by rewrite app_assoc.
Qed.

Lemma tlvs_read mids : Forall (fun t => tlv_ok t /\ tlv_type t <> Some END_TLV) mids ->
  exists s, pack_tlvs (mids ++ [EndTlv 0]) = Ok s /\ 2 <= zlen s /\
    forall fuel pre tlvs, (length mids < fuel)%nat ->
      tlv_loop fuel (pre ++ s) tlvs (zlen pre) = Ok (Lldp (tlvs ++ mids ++ [EndTlv 0]) true).
Proof.
  destruct end_tlv_survives as (e & Ee & Le & Hn).
  induction 1 as [|t mids [Ht Hne] _ IH]; cbn [app pack_tlvs].
  - rewrite Ee. cbn [mbind res_bind]. exists (e ++ []). split; [done|]. rewrite zlen_app. split; [pose proof (zlen_nonneg (@nil Byte.byte)); lia|].
    intros [|fuel] pre tlvs Hf; [lia|]. cbn [tlv_loop]. rewrite slice_from_app by done. rewrite Hn. done.
  - destruct (tlv_ok_survives t Ht) as (b & Eb & Lb & Hnb). destruct IH as (s & Es & Ls & IH).
    rewrite Eb, Es. cbn [mbind res_bind]. exists (b ++ s). split; [done|]. rewrite zlen_app. split; [lia|].
    intros [|fuel] pre tlvs Hf; cbn [length] in Hf; [lia|]. cbn [tlv_loop].
    rewrite slice_from_app by done. rewrite Hnb. cbn [mbind res_bind]. rewrite bool_decide_false by done.
    rewrite !zlen_app, (proj2 (Z.leb_gt _ _)) by lia. rewrite <-zlen_app, app_assoc, IH by lia. by rewrite <-app_assoc.
Qed.

Lemma pack_tlvs_long l s : Forall tlv_ok l -> pack_tlvs l = Ok s ->
  (length l <= length s)%nat /\ zlen s <= 514 * zlen l.
Proof.
  intros Hl; revert s; induction Hl as [|t l Ht _ IH]; intros s; [by intros [= <-]|]. cbn [pack_tlvs].
  destruct (tlv_ok_survives t Ht) as (b & Eb & Lb & _). rewrite Eb. cbn [mbind res_bind]. rewrite zlen_cons.
  destruct (pack_tlvs l) as [r|]; [|done]. intros [= <-]. specialize (IH r eq_refl).
  rewrite length_app, zlen_app. unfold zlen in *. cbn [length]. lia.
Qed.

Lemma lldp_survives c p t mids b : tlv_ok c -> tlv_ok p -> tlv_ok t ->
  tlv_type c = Some CHASSIS_ID_TLV -> tlv_type p = Some PORT_ID_TLV -> tlv_type t = Some TTL_TLV ->
  Forall (fun t => tlv_ok t /\ tlv_type t <> Some END_TLV) mids ->
  let tlvs := c :: p :: t :: mids ++ [EndTlv 0] in
  exists s, lldp_pack (Lldp tlvs b) = Ok s /\ lldp_new s = Ok (Lldp tlvs true).
Proof.
  intros Hc Hp Ht Tc Tp Tt Hm tlvs. destruct (tlvs_read mids Hm) as (s & Es & Ls & Hloop).
  destruct (tlv_ok_survives c Hc) as (sc & Ec & _ & Nc). destruct (tlv_ok_survives p Hp) as (sp & Ep & _ & Np).
  destruct (tlv_ok_survives t Ht) as (st & Et & _ & Nt).
  pose proof (mandatory_len c sc 1 Hc Tc ltac:(lia) Ec). pose proof (mandatory_len p sp 2 Hp Tp ltac:(lia) Ep).
  pose proof (mandatory_len t st 3 Ht Tt ltac:(lia) Et).
  exists (sc ++ sp ++ st ++ s). unfold lldp_pack, tlvs. cbn [lldp_tlvs pack_tlvs]. rewrite Ec, Ep, Et, Es. split; [done|].
  unfold lldp_new, MIN_LEN. rewrite (proj2 (Z.ltb_ge _ _)) by (rewrite !zlen_app; lia).
  pose proof (mandatory_read [] sc (sp ++ st ++ s) c _ [] Nc Tc) as M1. cbn [app] in M1. change (zlen (@nil Byte.byte)) with 0 in M1.
  rewrite M1. cbn [mbind res_bind]. rewrite (mandatory_read sc sp (st ++ s) p _ _ Np Tp). cbn [mbind res_bind].
  rewrite (app_assoc sc sp (st ++ s)), (mandatory_read (sc ++ sp) st s t _ _ Nt Tt). cbn [mbind res_bind].
  rewrite (app_assoc (sc ++ sp) st s), Hloop; [done|].
  assert (length (mids ++ [EndTlv 0]) <= length s)%nat as Hlen.
  { apply pack_tlvs_long; [|done]. apply Forall_app. split; [|by apply Forall_singleton].
    eapply Forall_impl; [exact Hm|]. by intros ? [? _]. }
  rewrite length_app in Hlen |- *. cbn in Hlen. lia.
Qed.

(** * Any bytes *)

Definition lldp_exn (e : exn) : Prop := In e [StructError; AssertionError; IndexError].

Lemma errs_unpack {B} fmt s (f : list Z -> res B) : (forall vs, fmt_accepts fmt vs -> errs lldp_exn (f vs)) ->
  errs lldp_exn (struct_unpack fmt s ≫= f).
Proof.
  intros Hf e. destruct (struct_unpack fmt s) as [vs|e'] eqn:E; cbn.
  - apply Hf. by apply (yields_unpack fmt s).
  - intros [= <-]. apply struct_unpack_err in E as ->. by left.
Qed.
Lemma errs_ord s i : errs lldp_exn (ord_at s i).
Proof. unfold ord_at. destruct (_ !! _); [apply errs_ok|]. apply errs_err. right. right. by left. Qed.
Lemma errs_assert b : errs lldp_exn (py_assert b).
Proof. destruct b; [apply errs_ok|]. apply errs_err. right. by left. Qed.

Ltac errs_unpacked :=
  apply errs_unpack; let vs := fresh "vs" in let H := fresh "H" in intros vs H;
  match type of H with fmt_accepts ?fmt _ =>
    let p := eval vm_compute in (parse_fmt fmt) in
    change (match p with Some (_, cs) => codes_accept cs vs | None => False end) in H end;
  components H vs; subst; cbn [mbind res_bind].
Ltac errs_tlv :=
  repeat first [errs_unpacked | apply errs_bind; [first [apply errs_ord|apply errs_assert]|intros ?]
    | apply errs_ok | match goal with |- errs _ (if ?b then _ else _) => destruct b end].

Lemma errs_type_len {B} arr (f : Z * Z -> res B) : (forall a, errs lldp_exn (f a)) -> errs lldp_exn (type_len arr ≫= f).
Proof. intros Hf. unfold type_len. apply errs_bind; [errs_tlv|done]. Qed.

Lemma tlv_parse_errs type arr : errs lldp_exn (tlv_parse type arr).
Proof.
  unfold tlv_parse, tlv_parsers.
  repeat match goal with |- context [if ?b then _ else _] => destruct b; cbn [default] end;
    unfold chassis_id_parse, port_id_parse, ttl_parse, end_tlv_parse, basic_tlv_parse, organizationally_specific_parse,
      system_capabilities_parse, management_address_parse; apply errs_type_len; intros [? ?]; errs_tlv.
Qed.

Lemma next_tlv_spec arr : errs lldp_exn (next_tlv arr) /\ forall t n, next_tlv arr = Ok (Some (t, n)) -> 2 <= n.
Proof.
  unfold next_tlv. destruct (_ <? 2); [split; [apply errs_ok|done]|]. split.
  - apply errs_type_len. intros [type len]. destruct (_ <? _); [apply errs_ok|].
    apply errs_bind; [apply tlv_parse_errs|]. intros t. apply errs_ok.
  - intros t n. unfold type_len. destruct (struct_unpack "!H" _) as [vs|] eqn:E; [|done].
    apply yields_unpack in E. change (fmt_accepts "!H" vs) with (codes_accept [FU 2] vs) in E.
    components E vs; subst. cbn [mbind res_bind]. destruct (_ <? _); [done|].
    destruct (tlv_parse _ _) as [t'|]; [|done]. cbn. intros [= <- <-].
    assert (0 <= Z.land z 0x1ff) by (apply Z.land_nonneg; lia). lia.
Qed.

Lemma tlv_loop_errs fuel raw tlvs p : zlen raw - p < Z.of_nat fuel -> 0 < Z.of_nat fuel -> errs lldp_exn (tlv_loop fuel raw tlvs p).
Proof.
  revert tlvs p; induction fuel as [|fuel IH]; intros tlvs p Hf H0; [lia|]. cbn [tlv_loop].
  destruct (next_tlv_spec (slice_from raw p)) as [He Hn]. intros e.
  destruct (next_tlv (slice_from raw p)) as [[[t n]|]|e'] eqn:E; cbn [mbind res_bind].
  - specialize (Hn t n eq_refl). destruct (bool_decide _); [done|].
    destruct (Z.leb_spec (zlen raw) (p + n)); [done|]. apply IH; lia.
  - done.
  - intros [= <-]. by apply He.
Qed.

Lemma mandatory_spec raw ty tlvs p : errs lldp_exn (mandatory raw ty tlvs p) /\
  forall l q, mandatory raw ty tlvs p = Ok (l, Some q) -> p <= q.
Proof.
  unfold mandatory. destruct (next_tlv_spec (slice_from raw p)) as [He Hn].
  destruct (next_tlv (slice_from raw p)) as [[[t n]|]|e'] eqn:E; cbn [mbind res_bind]; split; try done.
  2: { intros e [= <-]. by apply He. }
  intros l q. specialize (Hn t n eq_refl). destruct (bool_decide _); [|done]. intros [= _ <-]. lia.
Qed.

Lemma lldp_new_errs raw : errs lldp_exn (lldp_new raw).
Proof.
  unfold lldp_new. destruct (_ <? _); [apply errs_ok|].
  destruct (mandatory_spec raw CHASSIS_ID_TLV [] 0) as [E1 P1].
  destruct (mandatory raw CHASSIS_ID_TLV [] 0) as [[l1 [p1|]]|e1]; cbn [mbind res_bind]; [|apply errs_ok|by apply errs_err, E1].
  destruct (mandatory_spec raw PORT_ID_TLV l1 p1) as [E2 P2].
  destruct (mandatory raw PORT_ID_TLV l1 p1) as [[l2 [p2|]]|e2]; cbn [mbind res_bind]; [|apply errs_ok|by apply errs_err, E2].
  destruct (mandatory_spec raw TTL_TLV l2 p2) as [E3 P3].
  destruct (mandatory raw TTL_TLV l2 p2) as [[l3 [p3|]]|e3]; cbn [mbind res_bind]; [|apply errs_ok|by apply errs_err, E3].
  apply tlv_loop_errs; [|lia]. specialize (P1 l1 p1 eq_refl). specialize (P2 l2 p2 eq_refl). specialize (P3 l3 p3 eq_refl).
  unfold zlen. lia.
Qed.

(** * Theorems *)

(** A discovery packet of well-formed TLVs - the three mandatory ones, any others but
    capabilities, the end - packs, and parsing the bytes gives the same TLVs. *)
Theorem lldp_roundtrip c p t mids b : tlv_ok c -> tlv_ok p -> tlv_ok t ->
  tlv_type c = Some CHASSIS_ID_TLV -> tlv_type p = Some PORT_ID_TLV -> tlv_type t = Some TTL_TLV ->
  Forall (fun t => tlv_ok t /\ tlv_type t <> Some END_TLV) mids ->
  let tlvs := c :: p :: t :: mids ++ [EndTlv 0] in
  exists s, lldp_pack (Lldp tlvs b) = Ok s /\ lldp_new s = Ok (Lldp tlvs true).
Proof. apply lldp_survives. Qed.

(** Parsing ends on any bytes: it makes a packet or raises one of three exceptions - a
    TLV too short for its fields, a length its class does not accept, an index outside a
    management address. *)
Theorem lldp_new_ends raw : (exists l, lldp_new raw = Ok l) \/
  exists e, lldp_new raw = Err e /\ In e [StructError; AssertionError; IndexError].
Proof. destruct (lldp_new raw) as [l|e] eqn:E; [by left; exists l|]. right. exists e. split; [done|]. by apply (lldp_new_errs raw). Qed.

Lemma bits_value_spec i l : 0 <= i -> exists k, bits_value i l = k * 2 ^ i /\ 0 <= k < 2 ^ zlen l /\
  negb (k =? 0) = existsb id l.
Proof.
  revert i; induction l as [|b l IH]; intros i Hi; [by exists 0|]. cbn [bits_value existsb].
  destruct (IH (i + 1)) as (k & E & Hk & Hz); [lia|]. rewrite E, zlen_cons.
  assert (0 < 2 ^ i) by lia. assert (2 ^ (i + 1) = 2 * 2 ^ i) as P by (rewrite Z.pow_add_r; lia).
  assert (2 ^ (1 + zlen l) = 2 * 2 ^ zlen l) as -> by (rewrite Z.pow_add_r by (pose proof (zlen_nonneg l); lia); lia).
  destruct b.
  - exists (2 * k + 1). split; [|split; [lia|cbn [orb id]; by destruct (Z.eqb_spec (2 * k + 1) 0); [lia|]]].
    rewrite Z.lor_comm, <-(Z.shiftl_mul_pow2 k), lor_concat by (rewrite ?Z.shiftl_mul_pow2; lia).
    rewrite Z.shiftl_mul_pow2; lia.
  - exists (2 * k). split; [rewrite Z.lor_0_l; lia|]. split; [lia|]. cbn [orb id]. rewrite <-Hz.
    destruct (Z.eqb_spec (2 * k) 0), (Z.eqb_spec k 0); done || lia.
Qed.

Lemma capability_bits cap : map (capability_bit cap) (seqZ 0 16) = replicate 16 (negb (cap =? 0)).
Proof. unfold capability_bit. cbv zeta. by destruct (Z.eqb_spec cap 0) as [->|]; vm_compute. Qed.

(** Capabilities do not survive: parsing tests [cap and (1 << i)], so a packet with any
    capability is read as one with all of them. *)
Theorem capabilities_saturate caps enabled : length caps = 16%nat -> length enabled = 16%nat ->
  exists s, system_capabilities_pack 4 caps enabled = Ok s /\
    system_capabilities_parse s =
      Ok (SystemCapabilities 4 (replicate 16 (existsb id caps)) (replicate 16 (existsb id enabled))).
Proof.
  intros Lc Le. destruct (bits_value_spec 0 caps ltac:(lia)) as (c & Ec & Hc & Zc).
  destruct (bits_value_spec 0 enabled ltac:(lia)) as (e & Ee & He & Ze). unfold zlen in Hc, He. rewrite Lc in Hc. rewrite Le in He.
  unfold system_capabilities_pack. rewrite Lc, Le, !firstn_all2, Ec, Ee by lia. cbn [Nat.ltb Nat.leb orb].
  change (2 ^ 0) with 1. rewrite !Z.mul_1_r. change (Z.of_nat 16) with 16 in *.
  destruct (type_len_read SYSTEM_CAP_TLV 4) as (h & Eh & Lh & Hr); [unfold SYSTEM_CAP_TLV; lia|lia|].
  destruct (struct_pack_ok "!HHH" [typelen SYSTEM_CAP_TLV 4; c; e]) as (s & E & _); [split; [by vm_compute|cbn; lia]|].
  exists s. split; [done|].
  destruct (struct_pack_split "!HHH" "!H" "!HH" [FU 2] [FU 2; FU 2] [typelen SYSTEM_CAP_TLV 4] [c; e] s)
    as (s1 & s2 & -> & E1 & E2); [done..|]. rewrite Eh in E1. injection E1 as <-.
  unfold system_capabilities_parse. rewrite Hr. cbn [mbind res_bind]. rewrite slice_from_app by done.
  rewrite (struct_unpack_pack _ _ _ E2). cbn [mbind res_bind]. by rewrite !capability_bits, Zc, Ze.
Qed.

(** * The theorems on examples *)

Lemma lldp_roundtrip_witness :
  let tlvs := [chassis_id_fill SUB_LOCAL (lit "dpid:1f"); port_id_fill SUB_PORT (lit "17"); ttl_fill 120;
    ManagementAddress 1 [x0a; x00; x00; x01] 2 7 []; basic_tlv_fill (Some SYSTEM_DESC_TLV) (lit "dpid:1f"); EndTlv 0] in
  exists s, lldp_pack (Lldp tlvs false) = Ok s /\ lldp_new s = Ok (Lldp tlvs true).
Proof.
  apply (lldp_roundtrip (chassis_id_fill SUB_LOCAL (lit "dpid:1f")) (port_id_fill SUB_PORT (lit "17")) (ttl_fill 120)
    [ManagementAddress 1 [x0a; x00; x00; x01] 2 7 []; basic_tlv_fill (Some SYSTEM_DESC_TLV) (lit "dpid:1f")] false).
  - by vm_compute.
  - by vm_compute.
  - by vm_compute.
  - reflexivity.
  - reflexivity.
  - reflexivity.
  - apply Forall_cons. split; [split; [|done]|apply Forall_singleton; split; [|done]].
    + by vm_compute.
    + split; [done|]. split; [done|]. left. do 2 right. left.
Defined.

Lemma capabilities_saturate_witness :
  let caps := true :: replicate 15 false in exists s, system_capabilities_pack 4 caps (replicate 16 false) = Ok s /\
    system_capabilities_parse s = Ok (SystemCapabilities 4 (replicate 16 true) (replicate 16 false)).
Proof. apply (capabilities_saturate (true :: replicate 15 false) (replicate 16 false)); reflexivity. Defined.
