(* ===== verification/FlowTable.v ===== *)
(** [flow_table.py]: table entries, the flow table, and the table of the software
    switch.  Entries are objects compared by identity, so an entry carries its
    identity [te_id]; the table's state holds the next one and the log of the
    [FlowTableModification] events raised.  Clock readings are integers in
    nanoseconds, passed in as the [now] the methods take. *)
From Stdlib Require Import Sorting.Permutation Sorting.Sorted.
From S2P Require Import Prelude.
From S2P Require Import Sorting.
From S2P Require Import PyStruct.
From S2P Require Import Addresses.
From S2P Require Import OfConst.
From S2P Require Import Wire.
From S2P Require Import OfBase.
From S2P Require Import OfMatch.
From S2P Require Import MatchTheory.
From S2P Require Import OfActions.
From S2P Require Import OfStats.
From S2P Require Import OfMessages.
From S2P Require Import Packets.

(** * TableEntry *)

Record TableEntry := Entry {
  te_id : Z;
  te_priority : Z;
  te_cookie : Z;
  te_idle_timeout : Z;
  te_hard_timeout : Z;
  te_match : ofp_match;
  te_actions : list action;
  te_buffer_id : option Z;
  te_created : Z;
  te_last_touched : Z;
  te_bytes : Z;
  te_packets : Z
}.
#[export] Instance TableEntry_eq_dec : EqDecision TableEntry.
Proof. solve_decision. Defined.

Definition NS : Z := 10 ^ 9.

Definition TableEntry_init (id priority cookie idle_timeout hard_timeout : Z)
    (match_ : ofp_match) (actions : list action) (buffer_id : option Z) (now : Z) : TableEntry :=
  Entry id priority cookie idle_timeout hard_timeout match_ actions buffer_id now now 0 0.

Definition from_flow_mod (id : Z) (fm : ofp_flow_mod) (now : Z) : TableEntry :=
  TableEntry_init id (fm_priority fm) (fm_cookie fm) (fm_idle_timeout fm) (fm_hard_timeout fm)
    (fm_match fm) (fm_actions fm) (Some (fm_buffer_id fm)) now.

(** The keyword arguments besides the entry's are [command] and [xid]; a
    [buffer_id] of None makes an unpackable message. *)
Definition to_flow_mod (e : TableEntry) (command : Z) (xid : option Z) : res ofp_flow_mod :=
  match te_buffer_id e with
  | Some b =>
      Ok (FlowMod (Hdr OFP_VERSION OFPT_FLOW_MOD 8 xid) (te_match e) (te_cookie e) command
            (te_idle_timeout e) (te_hard_timeout e) (te_priority e) b OFPP_NONE 0 (te_actions e))
  | None => Err TypeError
  end.

Definition check_port (out_port : option Z) (e : TableEntry) : bool :=
  match out_port with
  | None => true
  | Some p => existsb (fun a => match a with AOutput o => oz_eqb (ao_port o) (Some p) | _ => false end)
                (te_actions e)
  end.

Definition is_matched_by (e : TableEntry) (m : ofp_match) (priority : option Z) (strict : bool)
    (out_port : option Z) : res bool :=
  if strict then
    Ok ((ofp_match_eq (te_match e) m && oz_eqb (Some (te_priority e)) priority) &&
        check_port out_port e)
  else b ← matches_with_wildcards m (te_match e) true; Ok (b && check_port out_port e).

Definition touch_packet (byte_count now : Z) (e : TableEntry) : TableEntry :=
  Entry (te_id e) (te_priority e) (te_cookie e) (te_idle_timeout e) (te_hard_timeout e)
    (te_match e) (te_actions e) (te_buffer_id e) (te_created e) now
    (te_bytes e + byte_count) (te_packets e + 1).

Definition is_expired (now : Z) (e : TableEntry) : bool :=
  ((0 <? te_hard_timeout e) && (te_hard_timeout e * NS <? now - te_created e)) ||
  ((0 <? te_idle_timeout e) && (te_idle_timeout e * NS <? now - te_last_touched e)).

(** [byte_count] gets the clock reading of the last packet. *)
Definition entry_flow_stats (now : Z) (e : TableEntry) : ofp_flow_stats :=
  let duration := now - te_created e in
  FlowStats 0 0 (te_match e) (Z.quot duration NS) duration (te_priority e) (te_idle_timeout e)
    (te_hard_timeout e) (te_cookie e) (te_packets e) (te_last_touched e) (te_actions e).

Definition set_actions (acts : list action) (e : TableEntry) : TableEntry :=
  Entry (te_id e) (te_priority e) (te_cookie e) (te_idle_timeout e) (te_hard_timeout e)
    (te_match e) acts (te_buffer_id e) (te_created e) (te_last_touched e) (te_bytes e) (te_packets e).

(** * FlowTable *)

Record FlowTableModification := Modification {
  mod_added : list TableEntry;
  mod_removed : list TableEntry
}.

Record FlowTable := Table {
  ft_table : list TableEntry;
  ft_next : Z;
  ft_events : list FlowTableModification
}.

Definition FlowTable_init : FlowTable := Table [] 0 [].

Definition FlowTable_len (t : FlowTable) : Z := zlen (ft_table t).

Definition set_table (l : list TableEntry) (t : FlowTable) : FlowTable :=
  Table l (ft_next t) (ft_events t).
Definition raise_modification (added removed : list TableEntry) (t : FlowTable) : FlowTable :=
  Table (ft_table t) (ft_next t) (ft_events t ++ [Modification added removed]).

(** Exact matches go first. *)
Definition entry_key (e : TableEntry) : Z :=
  if is_wildcarded (te_match e) then te_priority e else Z.shiftl 1 16 + 1.

#[export, refine] Instance entry_sort_key : SortKey TableEntry := {
  key_le a b := entry_key a <=? entry_key b; key_le_total := _; key_le_trans := _
}.
Proof.
  - intros a b. rewrite Z.leb_gt, Z.leb_le. lia.
  - intros a b c. rewrite !Z.leb_le. lia.
Defined.

Definition add_entry (e : TableEntry) (t : FlowTable) : FlowTable :=
  let t := set_table (ft_table t ++ [e]) t in
  let t := set_table (sort_desc (ft_table t)) t in
  raise_modification [e] [] t.

(** [list.remove]: the first element that is the object. *)
Fixpoint list_remove (e : TableEntry) (l : list TableEntry) : res (list TableEntry) :=
  match l with
  | [] => Err ValueError
  | y :: l => if te_id y =? te_id e then Ok l else l ← list_remove e l; Ok (y :: l)
  end.
Fixpoint remove_all (es : list TableEntry) (l : list TableEntry) : res (list TableEntry) :=
  match es with
  | [] => Ok l
  | e :: es => l ← list_remove e l; remove_all es l
  end.

Definition remove_entry (e : TableEntry) (t : FlowTable) : res FlowTable :=
  l ← list_remove e (ft_table t);
  Ok (raise_modification [] [e] (set_table l t)).

(** [last_action.port] is an integer: asking for its [port_no] fails. *)
Fixpoint entries_for_port_loop (l : list TableEntry) : res (list TableEntry) :=
  match l with
  | [] => Ok []
  | e :: l =>
      match last (te_actions e) with
      | Some (AOutput _) => Err AttributeError
      | _ => entries_for_port_loop l
      end
  end.
Definition entries_for_port (port_no : Z) (t : FlowTable) : res (list TableEntry) :=
  entries_for_port_loop (ft_table t).

Fixpoint filter_res (f : TableEntry -> res bool) (l : list TableEntry) : res (list TableEntry) :=
  match l with
  | [] => Ok []
  | e :: l => b ← f e; r ← filter_res f l; Ok (if b : bool then e :: r else r)
  end.

Definition matching_entries (m : ofp_match) (priority : Z) (strict : bool) (out_port : option Z)
    (t : FlowTable) : res (list TableEntry) :=
  filter_res (fun e => is_matched_by e m (Some priority) strict out_port) (ft_table t).

Definition table_flow_stats (m : ofp_match) (out_port : option Z) (now : Z) (t : FlowTable)
    : res (list ofp_flow_stats) :=
  l ← matching_entries m 0 false out_port t; Ok (map (entry_flow_stats now) l).

Definition expired_entries (now : Z) (t : FlowTable) : list TableEntry :=
  List.filter (is_expired now) (ft_table t).

Definition remove_expired_entries (now : Z) (t : FlowTable) : res (list TableEntry * FlowTable) :=
  let remove_flows := expired_entries now t in
  l ← remove_all remove_flows (ft_table t);
  Ok (remove_flows, raise_modification [] remove_flows (set_table l t)).

Definition remove_matching_entries (m : ofp_match) (priority : Z) (strict : bool) (t : FlowTable)
    : res (list TableEntry * FlowTable) :=
  remove_flows ← matching_entries m priority strict None t;
  l ← remove_all remove_flows (ft_table t);
  Ok (remove_flows, raise_modification [] remove_flows (set_table l t)).

Fixpoint first_match (p : ofp_match) (l : list TableEntry) : res (option TableEntry) :=
  match l with
  | [] => Ok None
  | e :: l => b ← matches_with_wildcards (te_match e) p false;
              if b : bool then Ok (Some e) else first_match p l
  end.
Definition entry_for_packet (packet : ethernet) (in_port : Z) (t : FlowTable)
    : res (option TableEntry) :=
  p ← from_packet packet (Some in_port); first_match p (ft_table t).

(** * SwitchFlowTable *)

Inductive flow_mod_result :=
  | FmAdded
  | FmModified (l : list TableEntry)
  | FmRemoved (l : list TableEntry).

(** The entry a flow mod adds takes the next identity. *)
Definition add_flow_mod (fm : ofp_flow_mod) (now : Z) (t : FlowTable) : FlowTable :=
  let e := from_flow_mod (ft_next t) fm now in
  add_entry e (Table (ft_table t) (ft_next t + 1) (ft_events t)).

(** The MODIFY loop: the table and the modified entries, both updated in place. *)
Fixpoint modify_loop (fm : ofp_flow_mod) (is_strict : bool) (l : list TableEntry)
    : res (list TableEntry * list TableEntry) :=
  match l with
  | [] => Ok ([], [])
  | e :: l =>
      b ← is_matched_by e (fm_match fm) (Some (fm_priority fm)) is_strict None;
      '(l, modified) ← modify_loop fm is_strict l;
      if b : bool
      then let e := set_actions (fm_actions fm) e in Ok (e :: l, e :: modified)
      else Ok (e :: l, modified)
  end.

Definition process_flow_mod (fm : ofp_flow_mod) (now : Z) (t : FlowTable)
    : res (flow_mod_result * FlowTable) :=
  if negb (Z.land (fm_flags fm) OFPFF_CHECK_OVERLAP =? 0) then Err NotImplementedError
  else if negb (fm_out_port fm =? OFPP_NONE) then Err NotImplementedError
  else if fm_command fm =? OFPFC_ADD then
    '(_, t) ← remove_matching_entries (fm_match fm) (fm_priority fm) true t;
    Ok (FmAdded, add_flow_mod fm now t)
  else if (fm_command fm =? OFPFC_MODIFY) || (fm_command fm =? OFPFC_MODIFY_STRICT) then
    let is_strict := fm_command fm =? OFPFC_MODIFY_STRICT in
    '(l, modified) ← modify_loop fm is_strict (ft_table t);
    match modified with
    | [] => Ok (FmAdded, add_flow_mod fm now t)
    | _ => Ok (FmModified modified, set_table l t)
    end
  else if (fm_command fm =? OFPFC_DELETE) || (fm_command fm =? OFPFC_DELETE_STRICT) then
    (* is_strict is computed and not used *)
    '(removed, t) ← remove_matching_entries (fm_match fm) (fm_priority fm) true t;
    Ok (FmRemoved removed, t)
  else Err AttributeError.

(** * Invariant *)

(** The table is sorted by descending key, its entries are distinct objects, and
    the next identity is unused.  [match_ok]: hardware addresses of the matches are
    EthAddr objects, as [unpack] makes them. *)
Definition table_wf (t : FlowTable) : Prop :=
  StronglySorted desc (ft_table t) /\ NoDup (te_id <$> ft_table t) /\
  Forall (fun e => te_id e < ft_next t) (ft_table t) /\
  Forall (fun e => dl_eth (te_match e)) (ft_table t).

(** ** Removal *)

Lemma remove_all_cons y es l : te_id y ∉ (te_id <$> es) ->
  remove_all es (y :: l) = (l ← remove_all es l; Ok (y :: l)).
Proof.
  revert l; induction es as [|e es IH]; intros l Hy; [done|].
  cbn [fmap list_fmap] in Hy. apply not_elem_of_cons in Hy as [Hne Hy].
  cbn [remove_all list_remove]. rewrite (proj2 (Z.eqb_neq _ _)) by congruence.
  destruct (list_remove e l) as [r|]; cbn [mbind res_bind]; [by apply IH|done].
Qed.

Lemma id_in_filter f y l : te_id y ∉ (te_id <$> l) -> te_id y ∉ (te_id <$> List.filter f l).
Proof.
  intros H (e & E & He%list_elem_of_In)%list_elem_of_fmap. apply H.
  apply filter_In in He as [He _]. rewrite E. by apply list_elem_of_fmap_2, list_elem_of_In.
Qed.

(** Removing the entries that satisfy a test leaves the others. *)
Lemma remove_all_filter f l : NoDup (te_id <$> l) ->
  remove_all (List.filter f l) l = Ok (List.filter (fun e => negb (f e)) l).
Proof.
  induction l as [|y l IH]; [done|]. cbn [fmap list_fmap].
  intros [Hy Hl]%NoDup_cons. cbn [List.filter]. destruct (f y); cbn [negb].
  - cbn [remove_all list_remove]. rewrite Z.eqb_refl. by apply IH.
  - rewrite remove_all_cons by by apply id_in_filter. by rewrite IH.
Qed.

Lemma filter_res_ok g f l : (forall e, g e = Ok (f e)) -> filter_res g l = Ok (List.filter f l).
Proof.
  intros H. induction l as [|e l IH]; [done|]. cbn [filter_res List.filter].
  rewrite H, IH. cbn [mbind res_bind]. by destruct (f e).
Qed.

(** [is_matched_by] never fails. *)
Definition matched (m : ofp_match) (priority : option Z) (strict : bool) (out_port : option Z)
    (e : TableEntry) : bool :=
  (if strict then ofp_match_eq (te_match e) m && oz_eqb (Some (te_priority e)) priority
   else ofp_match_eq m (te_match e) || covers true m (te_match e)) && check_port out_port e.

Lemma is_matched_by_ok e m priority strict out_port :
  is_matched_by e m priority strict out_port = Ok (matched m priority strict out_port e).
Proof.
  unfold is_matched_by, matched. destruct strict; [done|].
  by rewrite matches_with_wildcards_eq.
Qed.

Lemma matching_entries_ok m priority strict out_port t :
  matching_entries m priority strict out_port t =
    Ok (List.filter (matched m (Some priority) strict out_port) (ft_table t)).
Proof. apply filter_res_ok. intros. apply is_matched_by_ok. Qed.

Lemma remove_matching_entries_ok m priority strict t : NoDup (te_id <$> ft_table t) ->
  let f := matched m (Some priority) strict None in
  remove_matching_entries m priority strict t =
    Ok (List.filter f (ft_table t),
        raise_modification [] (List.filter f (ft_table t))
          (set_table (List.filter (fun e => negb (f e)) (ft_table t)) t)).
Proof.
  intros Hn f. unfold remove_matching_entries. rewrite matching_entries_ok. cbn [mbind res_bind].
  by rewrite remove_all_filter.
Qed.

(** ** Preservation *)

Lemma filter_Forall {P : TableEntry -> Prop} f l : Forall P l -> Forall P (List.filter f l).
Proof.
  rewrite !Forall_forall. intros H z Hz. apply H. apply list_elem_of_In in Hz.
  apply filter_In in Hz as [Hz _]. by apply list_elem_of_In.
Qed.
Lemma filter_NoDup f l : NoDup (te_id <$> l) -> NoDup (te_id <$> List.filter f l).
Proof.
  induction l as [|y l IH]; [done|]. cbn [fmap list_fmap]. intros [Hy Hl]%NoDup_cons.
  cbn [List.filter]. destruct (f y); [|by apply IH]. cbn [fmap list_fmap].
  constructor; [by apply id_in_filter|by apply IH].
Qed.

Lemma filter_table_wf f a b t : table_wf t ->
  table_wf (raise_modification a b (set_table (List.filter f (ft_table t)) t)).
Proof.
  intros (H1 & H2 & H3 & H4). unfold table_wf. cbn.
  split_and!; [by apply filter_sorted|by apply filter_NoDup|by apply filter_Forall|by apply filter_Forall].
Qed.

Lemma add_flow_mod_wf fm now t : table_wf t -> dl_eth (fm_match fm) -> table_wf (add_flow_mod fm now t).
Proof.
  intros (H1 & H2 & H3 & H4) Hd. unfold add_flow_mod, add_entry, table_wf. cbn.
  set (e := from_flow_mod (ft_next t) fm now).
  split_and!.
  - apply sort_desc_sorted.
  - rewrite sort_snoc_perm. cbn. constructor; [|done].
    intros (y & E & Hy)%list_elem_of_fmap. rewrite Forall_forall in H3. specialize (H3 y Hy).
    cbn in E. lia.
  - rewrite sort_snoc_perm. constructor; [cbn; lia|].
    apply (Forall_impl _ _ _ H3). intros; lia.
  - rewrite sort_snoc_perm. by constructor.
Qed.

(** ** Flow mods *)

Definition modify_entry (f : TableEntry -> bool) (acts : list action) (e : TableEntry) : TableEntry :=
  if f e then set_actions acts e else e.

Lemma modify_loop_ok fm strict l :
  let f := matched (fm_match fm) (Some (fm_priority fm)) strict None in
  modify_loop fm strict l =
    Ok (map (modify_entry f (fm_actions fm)) l, map (set_actions (fm_actions fm)) (List.filter f l)).
Proof.
  intros f. induction l as [|e l IH]; [done|]. cbn [modify_loop].
  rewrite is_matched_by_ok, IH. fold f. cbn [mbind res_bind map List.filter].
  unfold modify_entry. by destruct (f e).
Qed.

(** Changes in place that keep what the order and the identity depend on. *)
Lemma map_entries_wf g t : table_wf t ->
  (forall e, te_id (g e) = te_id e) -> (forall e, te_match (g e) = te_match e) ->
  (forall e, te_priority (g e) = te_priority e) ->
  table_wf (set_table (map g (ft_table t)) t).
Proof.
  intros (H1 & H2 & H3 & H4) Ei Em Ep. unfold table_wf. cbn.
  assert (forall e, entry_key (g e) = entry_key e) as Ek by (intros; unfold entry_key; by rewrite Em, Ep).
  split_and!.
  - clear -H1 Ek. induction H1 as [|e l Hs IH Hf]; cbn [map]; constructor; [done|].
    rewrite Forall_map. apply (Forall_impl _ _ _ Hf). unfold desc; cbn [key_le entry_sort_key]. intros. by rewrite !Ek.
  - replace (te_id <$> map g (ft_table t)) with (te_id <$> ft_table t); [done|].
    clear -Ei. induction (ft_table t) as [|e l IH]; [done|]. cbn [fmap list_fmap map] in *. by rewrite Ei, IH.
  - rewrite Forall_map. apply (Forall_impl _ _ _ H3). intros. cbn. by rewrite Ei.
  - rewrite Forall_map. apply (Forall_impl _ _ _ H4). intros. cbn. by rewrite Em.
Qed.

Lemma map_modify_wf f acts t : table_wf t ->
  table_wf (set_table (map (modify_entry f acts) (ft_table t)) t).
Proof. intros Ht. by apply map_entries_wf; [done|intros e; unfold modify_entry; destruct (f e)..]. Qed.

(** The test that selects the entries a flow mod replaces or deletes: the same
    match and the same priority. *)
Definition same_flow (fm : ofp_flow_mod) (e : TableEntry) : bool :=
  ofp_match_eq (te_match e) (fm_match fm) && (te_priority e =? fm_priority fm).

Lemma matched_strict fm e :
  matched (fm_match fm) (Some (fm_priority fm)) true None e = same_flow fm e.
Proof.
  unfold matched, same_flow, check_port. rewrite andb_true_r. f_equal.
  unfold oz_eqb. apply eq_true_iff_eq. rewrite bool_decide_eq_true, Z.eqb_eq. split; congruence.
Qed.

Lemma filter_ext {A} (f g : A -> bool) l : (forall x, f x = g x) -> List.filter f l = List.filter g l.
Proof. intros H. induction l as [|x l IH]; [done|]. cbn. by rewrite H, IH. Qed.

(** Every flow mod the switch accepts keeps the invariant. *)
Lemma process_flow_mod_wf fm now t r t' : table_wf t -> dl_eth (fm_match fm) ->
  process_flow_mod fm now t = Ok (r, t') -> table_wf t'.
Proof.
  intros Ht Hd. pose proof Ht as (_ & Hn & _ & _). unfold process_flow_mod.
  destruct (negb _); [done|]. destruct (negb _); [done|].
  rewrite !remove_matching_entries_ok by done. cbn [mbind res_bind].
  destruct (_ =? OFPFC_ADD).
  { intros [= <- <-]. apply add_flow_mod_wf; [|done]. by apply filter_table_wf. }
  destruct (_ || _).
  { rewrite modify_loop_ok. cbn [mbind res_bind]. destruct (map _ (List.filter _ _)); intros [= <- <-].
    - by apply add_flow_mod_wf.
    - by apply map_modify_wf. }
  destruct (_ || _); [|done]. intros [= <- <-]. by apply filter_table_wf.
Qed.

(** ** Lookup *)

Lemma first_match_ok p l : packet_match p -> Forall (fun e => dl_eth (te_match e)) l ->
  first_match p l = Ok (List.find (fun e => sem (te_match e) (header_of p)) l).
Proof.
  intros Hp. induction 1 as [|e l He _ IH]; [done|]. cbn [first_match List.find].
  rewrite matches_packet by done. cbn [mbind res_bind]. by destruct (sem _ _).
Qed.

Lemma entry_for_packet_ok packet in_port t : table_wf t -> eth_addrs packet ->
  entry_for_packet packet in_port t =
    Ok (List.find (fun e => sem (te_match e) (packet_header packet (Some in_port))) (ft_table t)).
Proof.
  intros (_ & _ & _ & Hd) He. unfold entry_for_packet.
  destruct (from_packet_header packet (Some in_port) He) as (m & -> & Hm & <-).
  cbn [mbind res_bind]. by apply first_match_ok.
Qed.

(** * Properties of the flow table *)

Lemma filter_keep (f : TableEntry -> bool) l e : e ∈ List.filter f l <-> e ∈ l /\ f e = true.
Proof. by rewrite !list_elem_of_In, filter_In. Qed.

(** A flow mod without the two unsupported requests. *)
Definition supported (fm : ofp_flow_mod) : Prop :=
  Z.land (fm_flags fm) OFPFF_CHECK_OVERLAP = 0 /\ fm_out_port fm = OFPP_NONE.

Lemma process_supported fm now t : supported fm -> process_flow_mod fm now t =
  (if fm_command fm =? OFPFC_ADD then
    '(_, t) ← remove_matching_entries (fm_match fm) (fm_priority fm) true t;
    Ok (FmAdded, add_flow_mod fm now t)
  else if (fm_command fm =? OFPFC_MODIFY) || (fm_command fm =? OFPFC_MODIFY_STRICT) then
    '(l, modified) ← modify_loop fm (fm_command fm =? OFPFC_MODIFY_STRICT) (ft_table t);
    match modified with
    | [] => Ok (FmAdded, add_flow_mod fm now t)
    | _ => Ok (FmModified modified, set_table l t)
    end
  else if (fm_command fm =? OFPFC_DELETE) || (fm_command fm =? OFPFC_DELETE_STRICT) then
    '(removed, t) ← remove_matching_entries (fm_match fm) (fm_priority fm) true t;
    Ok (FmRemoved removed, t)
  else Err AttributeError).
Proof. intros [Hf Ho]. unfold process_flow_mod. by rewrite Hf, Ho. Qed.

Lemma remove_same_flow fm t : NoDup (te_id <$> ft_table t) ->
  remove_matching_entries (fm_match fm) (fm_priority fm) true t =
    Ok (List.filter (same_flow fm) (ft_table t),
        raise_modification [] (List.filter (same_flow fm) (ft_table t))
          (set_table (List.filter (fun e => negb (same_flow fm e)) (ft_table t)) t)).
Proof.
  intros Hn. rewrite remove_matching_entries_ok by done.
  rewrite (filter_ext (matched _ _ _ _) (same_flow fm)) by apply matched_strict.
  rewrite (filter_ext (fun e => negb (matched _ _ _ _ e)) (fun e => negb (same_flow fm e)))
    by (intros; by rewrite matched_strict). done.
Qed.

(** The table an addition leaves: the new entry behind all entries of at least its
    key. *)
Lemma add_flow_mod_table fm now t : StronglySorted desc (ft_table t) ->
  let e := from_flow_mod (ft_next t) fm now in
  exists l1 l2, ft_table t = l1 ++ l2 /\ ft_table (add_flow_mod fm now t) = l1 ++ e :: l2 /\
    Forall (fun y => entry_key e <= entry_key y) l1 /\ Forall (fun y => entry_key y < entry_key e) l2.
Proof.
  intros Hs e. destruct (sort_desc_snoc e (ft_table t) Hs) as (l1 & l2 & El & H1 & H2 & E).
  exists l1, l2. split_and!; [done|exact E| |].
  - apply (Forall_impl _ _ _ H1). intros y. cbn. by rewrite Z.leb_le.
  - apply (Forall_impl _ _ _ H2). intros y. cbn. by rewrite Z.leb_gt.
Qed.

(** C2: The packet lookup answers with a matching entry of the highest effective
    priority - exact matches above all others - and with None only if no entry matches
    the packet's header. *)
Theorem entry_for_packet_highest packet in_port t : table_wf t -> eth_addrs packet ->
  exists r, entry_for_packet packet in_port t = Ok r /\
    match r with
    | Some e => e ∈ ft_table t /\ sem (te_match e) (packet_header packet (Some in_port)) = true /\
        forall e', e' ∈ ft_table t -> sem (te_match e') (packet_header packet (Some in_port)) = true ->
          entry_key e' <= entry_key e
    | None => forall e, e ∈ ft_table t -> sem (te_match e) (packet_header packet (Some in_port)) = false
    end.
Proof.
  intros Ht He. rewrite entry_for_packet_ok by done. eexists. split; [done|].
  pose proof (find_sorted (fun e => sem (te_match e) (packet_header packet (Some in_port)))
    (ft_table t) (proj1 Ht)) as Hf.
  destruct (List.find _ _) as [e|]; [|done]. destruct Hf as (H1 & H2 & H3). split_and!; [done..|].
  intros e' Hin Hs. destruct (H3 e' Hin Hs) as [->|Hle]; [lia|]. by apply Z.leb_le.
Qed.

(** An addition. *)
Lemma add_ok fm now t : table_wf t -> dl_eth (fm_match fm) -> supported fm ->
  fm_command fm = OFPFC_ADD ->
  let e := from_flow_mod (ft_next t) fm now in
  exists t' l1 l2, process_flow_mod fm now t = Ok (FmAdded, t') /\ table_wf t' /\
    ft_table t' = l1 ++ e :: l2 /\
    l1 ++ l2 = List.filter (fun e => negb (same_flow fm e)) (ft_table t) /\
    Forall (fun y => entry_key e <= entry_key y) l1 /\
    Forall (fun y => entry_key y < entry_key e) l2.
Proof.
  intros Ht Hd Hs Hc e. pose proof Ht as (Hsort & Hn & _ & _).
  rewrite process_supported, Hc, remove_same_flow by done. cbn [Z.eqb OFPFC_ADD mbind res_bind].
  set (t0 := raise_modification [] _ _).
  assert (table_wf t0) as Ht0 by (by apply filter_table_wf).
  destruct (add_flow_mod_table fm now t0 (proj1 Ht0)) as (l1 & l2 & El & E & H1 & H2).
  exists (add_flow_mod fm now t0), l1, l2. split_and!; try done. by apply add_flow_mod_wf.
Qed.

(** The entry of a flow mod that covers a packet no entry had is the one found for it. *)
Lemma added_found fm now t q i : table_wf t -> dl_eth (fm_match fm) -> supported fm ->
  fm_command fm = OFPFC_ADD -> eth_addrs q -> entry_for_packet q i t = Ok None ->
  sem (fm_match fm) (packet_header q (Some i)) = true ->
  exists t', process_flow_mod fm now t = Ok (FmAdded, t') /\ table_wf t' /\
    entry_for_packet q i t' = Ok (Some (from_flow_mod (ft_next t) fm now)).
Proof.
  intros Ht Hd Hs Hc Hq Hmiss Hsem.
  destruct (add_ok fm now t Ht Hd Hs Hc) as (t' & l1 & l2 & E & Ht' & El & Eo & _ & _).
  exists t'. split; [done|]. split; [done|]. rewrite entry_for_packet_ok in Hmiss |- * by done.
  injection Hmiss as Hmiss. rewrite El. f_equal.
  assert (List.find (fun e => sem (te_match e) (packet_header q (Some i))) l1 = None) as H1.
  { destruct (List.find _ l1) as [e|] eqn:Ef; [|done]. apply find_some in Ef as [Hin He].
    assert (In e (ft_table t)) as Hin' by (eapply (proj1 (filter_In _ _ _)); rewrite <-Eo; apply in_or_app; by left).
    by rewrite (find_none _ _ Hmiss e Hin') in He. }
  clear -H1 Hsem. induction l1 as [|e l1 IH]; cbn in *; [by rewrite Hsem|].
  destruct (sem (te_match e) _); [done|]. by apply IH.
Qed.

(** ADD replaces: the entries with the same match and priority go, every other entry
    stays, and the new one stands behind all entries of at least its effective
    priority. *)
Theorem process_flow_mod_add fm now t : table_wf t -> dl_eth (fm_match fm) -> supported fm ->
  fm_command fm = OFPFC_ADD ->
  let e := from_flow_mod (ft_next t) fm now in
  exists t' l1 l2, process_flow_mod fm now t = Ok (FmAdded, t') /\ table_wf t' /\
    ft_table t' = l1 ++ e :: l2 /\
    l1 ++ l2 = List.filter (fun e => negb (same_flow fm e)) (ft_table t) /\
    Forall (fun y => entry_key e <= entry_key y) l1 /\
    Forall (fun y => entry_key y < entry_key e) l2.
Proof. apply add_ok. Qed.

(** MODIFY gives the entries it matches - those the flow mod's match covers, for
    MODIFY_STRICT those with the same match and priority - the new actions and leaves the
    table as it is otherwise; when it matches nothing it adds an entry. *)
Theorem process_flow_mod_modify fm now t : table_wf t -> dl_eth (fm_match fm) -> supported fm ->
  fm_command fm = OFPFC_MODIFY \/ fm_command fm = OFPFC_MODIFY_STRICT ->
  let f e := if fm_command fm =? OFPFC_MODIFY_STRICT then same_flow fm e
             else ofp_match_eq (fm_match fm) (te_match e) || covers true (fm_match fm) (te_match e) in
  if existsb f (ft_table t)
  then process_flow_mod fm now t =
         Ok (FmModified (map (set_actions (fm_actions fm)) (List.filter f (ft_table t))),
             set_table (map (modify_entry f (fm_actions fm)) (ft_table t)) t)
  else process_flow_mod fm now t = Ok (FmAdded, add_flow_mod fm now t).
Proof.
  intros Ht Hd Hs Hc f. rewrite process_supported by done.
  assert ((fm_command fm =? OFPFC_ADD) = false) as -> by (destruct Hc as [->| ->]; done).
  assert (((fm_command fm =? OFPFC_MODIFY) || (fm_command fm =? OFPFC_MODIFY_STRICT)) = true) as ->
    by (destruct Hc as [->| ->]; done).
  rewrite modify_loop_ok. cbn [mbind res_bind].
  assert (forall e, matched (fm_match fm) (Some (fm_priority fm)) (fm_command fm =? OFPFC_MODIFY_STRICT) None e
    = f e) as Hf.
  { intros e. unfold f. destruct (_ =? _); [apply matched_strict|].
    unfold matched, check_port. by rewrite andb_true_r. }
  rewrite (filter_ext _ f) by done.
  rewrite (map_ext (modify_entry _ _) (modify_entry f (fm_actions fm)))
    by (intros e; unfold modify_entry; by rewrite Hf).
  destruct (existsb f (ft_table t)) eqn:E.
  - apply existsb_exists in E as (e & Hin & He).
    destruct (List.filter f (ft_table t)) as [|x l] eqn:El; [|done].
    assert (e ∈ List.filter f (ft_table t)) as Hf' by (apply filter_keep; by rewrite list_elem_of_In).
    rewrite El in Hf'. by apply elem_of_nil in Hf'.
  - destruct (List.filter f (ft_table t)) as [|x l] eqn:El; [done|].
    assert (x ∈ List.filter f (ft_table t)) as Hx by (rewrite El; by left).
    apply filter_keep in Hx as [Hin Hx]. rewrite (proj2 (existsb_exists _ _)) in E; [done|].
    exists x. by rewrite <-list_elem_of_In.
Qed.

(** DELETE and DELETE_STRICT do the same thing, whatever DELETE's wildcards cover:
    they remove exactly the entries with the same match and the same priority. *)
Theorem process_flow_mod_delete fm now t : table_wf t -> supported fm ->
  fm_command fm = OFPFC_DELETE \/ fm_command fm = OFPFC_DELETE_STRICT ->
  exists t', process_flow_mod fm now t =
      Ok (FmRemoved (List.filter (same_flow fm) (ft_table t)), t') /\ table_wf t' /\
    ft_table t' = List.filter (fun e => negb (same_flow fm e)) (ft_table t) /\
    ft_events t' = ft_events t ++ [Modification [] (List.filter (same_flow fm) (ft_table t))].
Proof.
  intros Ht Hs Hc. pose proof Ht as (_ & Hn & _ & _). rewrite process_supported by done.
  assert ((fm_command fm =? OFPFC_ADD) = false) as -> by (destruct Hc as [->| ->]; done).
  assert (((fm_command fm =? OFPFC_MODIFY) || (fm_command fm =? OFPFC_MODIFY_STRICT)) = false) as ->
    by (destruct Hc as [->| ->]; done).
  assert (((fm_command fm =? OFPFC_DELETE) || (fm_command fm =? OFPFC_DELETE_STRICT)) = true) as ->
    by (destruct Hc as [->| ->]; done).
  rewrite remove_same_flow by done. cbn [mbind res_bind]. eexists. split; [done|].
  split; [by apply filter_table_wf|]. done.
Qed.

(** Whatever flow mod the switch accepts, the table stays sorted by effective
    priority, with distinct entries; what it does not accept raises one of two
    exceptions. *)
Theorem process_flow_mod_invariant fm now t : table_wf t -> dl_eth (fm_match fm) ->
  match process_flow_mod fm now t with
  | Ok (_, t') => table_wf t'
  | Err e => e = NotImplementedError \/ e = AttributeError
  end.
Proof.
  intros Ht Hd. pose proof (process_flow_mod_wf fm now t) as Hw.
  destruct (process_flow_mod fm now t) as [[r t']|e] eqn:E; [by eapply Hw|].
  revert E. clear Hw. pose proof Ht as (_ & Hn & _ & _). unfold process_flow_mod.
  destruct (negb _); [intros [= <-]; by left|]. destruct (negb _); [intros [= <-]; by left|].
  rewrite !remove_same_flow by done. cbn [mbind res_bind].
  destruct (_ =? OFPFC_ADD); [done|]. rewrite modify_loop_ok. cbn [mbind res_bind].
  destruct (_ || _); [by destruct (map _ (List.filter _ _))|].
  destruct (_ || _); [done|]. intros [= <-]. by right.
Qed.

(** Expiry removes and returns exactly the entries whose idle or hard timeout is over,
    keeps the others in order, and reports the removal. *)
Theorem remove_expired_entries_exact now t : table_wf t ->
  exists t', remove_expired_entries now t = Ok (List.filter (is_expired now) (ft_table t), t') /\
    table_wf t' /\ ft_table t' = List.filter (fun e => negb (is_expired now e)) (ft_table t) /\
    (forall e, e ∈ ft_table t -> te_hard_timeout e <= 0 -> te_idle_timeout e <= 0 -> e ∈ ft_table t').
Proof.
  intros Ht. pose proof Ht as (_ & Hn & _ & _).
  unfold remove_expired_entries, expired_entries. rewrite remove_all_filter by done.
  cbn [mbind res_bind]. eexists. split; [done|]. split; [by apply filter_table_wf|]. split; [done|].
  intros e Hin H1 H2. apply filter_keep. split; [done|]. unfold is_expired.
  by rewrite (proj2 (Z.ltb_ge 0 (te_hard_timeout e)) H1), (proj2 (Z.ltb_ge 0 (te_idle_timeout e)) H2).
Qed.

(** [entries_for_port] cannot find anything: it fails on the first entry whose last
    action is an output, and answers with no entries otherwise. *)
Theorem entries_for_port_never port_no t :
  entries_for_port port_no t =
    if existsb (fun e => if last (te_actions e) is Some (AOutput _) then true else false) (ft_table t)
    then Err AttributeError else Ok [].
Proof.
  unfold entries_for_port. induction (ft_table t) as [|e l IH]; [done|].
  cbn [entries_for_port_loop existsb]. by destruct (last (te_actions e)) as [[]|].
Qed.

(** ** Concrete instances *)

(** A switch that forwards HTTP to port 1 and everything else to port 2. *)
Definition web_match : ofp_match :=
  set_int Tp_dst (Some 80) (set_int Nw_proto (Some 6) (set_int Dl_type (Some 0x0800) ofp_match_init)).
Definition output_to (p : Z) : list action := [AOutput (ActOutput OFPAT_OUTPUT 8 (Some p) 0xffff)].
Definition web_mod (command : Z) : ofp_flow_mod :=
  FlowMod (Hdr OFP_VERSION OFPT_FLOW_MOD 8 (Some 7)) web_match 0 command 0 0 100 0 OFPP_NONE 0 (output_to 1).
Definition any_mod (command : Z) : ofp_flow_mod :=
  FlowMod (Hdr OFP_VERSION OFPT_FLOW_MOD 8 (Some 8)) ofp_match_init 0 command 10 0 50 0 OFPP_NONE 0
    (output_to 2).
Definition web_table : FlowTable :=
  add_flow_mod (any_mod OFPFC_ADD) 0 (add_flow_mod (web_mod OFPFC_ADD) 0 FlowTable_init).

Lemma web_table_wf : table_wf web_table.
Proof.
  unfold web_table. repeat (apply add_flow_mod_wf; [|split; eexists; reflexivity]).
  split_and!; constructor.
Qed.

Definition web_packet : ethernet :=
  Ethernet (HwEth EMPTY_ETH) (HwEth EMPTY_ETH) 0x0800
    (PPacket (Some true) (LIpv4 (Ipv4 4 5 0 40 1 0 0 64 6 0 (NwInt 1) (NwInt 2)))
      (PPacket (Some true) (LTcp (Tcp 5000 80 1 2 5 0 0 0 0 0 20 [])) (PBytes []))) true.

Lemma entry_for_packet_highest_witness :
  (exists e, entry_for_packet web_packet 3 web_table = Ok (Some e) /\ te_priority e = 100) /\
  exists r, entry_for_packet web_packet 3 web_table = Ok r /\
    match r with
    | Some e => e ∈ ft_table web_table /\ sem (te_match e) (packet_header web_packet (Some 3)) = true /\
        forall e', e' ∈ ft_table web_table -> sem (te_match e') (packet_header web_packet (Some 3)) = true ->
          entry_key e' <= entry_key e
    | None => forall e, e ∈ ft_table web_table -> sem (te_match e) (packet_header web_packet (Some 3)) = false
    end.
Proof.
  split; [eexists; vm_compute; split; reflexivity|].
  apply (entry_for_packet_highest web_packet 3 web_table); [apply web_table_wf|split; eexists; reflexivity].
Defined.

Lemma process_flow_mod_add_witness :
  let fm := web_mod OFPFC_ADD in let e := from_flow_mod (ft_next web_table) fm 5 in
  exists t' l1 l2, process_flow_mod fm 5 web_table = Ok (FmAdded, t') /\ table_wf t' /\
    ft_table t' = l1 ++ e :: l2 /\
    l1 ++ l2 = List.filter (fun e => negb (same_flow fm e)) (ft_table web_table) /\
    Forall (fun y => entry_key e <= entry_key y) l1 /\ Forall (fun y => entry_key y < entry_key e) l2.
Proof.
  apply (process_flow_mod_add (web_mod OFPFC_ADD) 5 web_table);
    [apply web_table_wf|split; eexists; reflexivity|split; reflexivity|reflexivity].
Defined.

Lemma process_flow_mod_modify_witness :
  exists t', process_flow_mod (any_mod OFPFC_MODIFY) 5 web_table =
    Ok (FmModified (map (set_actions (output_to 2)) (ft_table web_table)), t').
Proof.
  pose proof (process_flow_mod_modify (any_mod OFPFC_MODIFY) 5 web_table web_table_wf
    ltac:(split; eexists; reflexivity) ltac:(split; reflexivity) ltac:(left; reflexivity)) as E.
  eexists. exact E.
Defined.

Lemma process_flow_mod_delete_witness :
  let fm := any_mod OFPFC_DELETE in
  length (List.filter (same_flow fm) (ft_table web_table)) = 1%nat /\
  exists t', process_flow_mod fm 5 web_table =
      Ok (FmRemoved (List.filter (same_flow fm) (ft_table web_table)), t') /\ table_wf t' /\
    ft_table t' = List.filter (fun e => negb (same_flow fm e)) (ft_table web_table) /\
    ft_events t' = ft_events web_table ++
      [Modification [] (List.filter (same_flow fm) (ft_table web_table))].
Proof.
  split; [vm_compute; reflexivity|].
  apply (process_flow_mod_delete (any_mod OFPFC_DELETE) 5 web_table);
    [apply web_table_wf|split; reflexivity|left; reflexivity].
Defined.

Lemma process_flow_mod_invariant_witness :
  match process_flow_mod (web_mod OFPFC_MODIFY_STRICT) 5 web_table with
  | Ok (_, t') => table_wf t'
  | Err e => e = NotImplementedError \/ e = AttributeError
  end.
Proof.
  apply (process_flow_mod_invariant (web_mod OFPFC_MODIFY_STRICT) 5 web_table);
    [apply web_table_wf|split; eexists; reflexivity].
Defined.

Lemma remove_expired_entries_exact_witness :
  let now := 11 * NS in
  length (List.filter (is_expired now) (ft_table web_table)) = 1%nat /\
  exists t', remove_expired_entries now web_table =
      Ok (List.filter (is_expired now) (ft_table web_table), t') /\
    table_wf t' /\ ft_table t' = List.filter (fun e => negb (is_expired now e)) (ft_table web_table) /\
    (forall e, e ∈ ft_table web_table -> te_hard_timeout e <= 0 -> te_idle_timeout e <= 0 -> e ∈ ft_table t').
Proof.
  split; [vm_compute; reflexivity|].
  exact (remove_expired_entries_exact (11 * NS) web_table web_table_wf).
Defined.
