(* ===== verification/Connection.v ===== *)
(** The byte stream of a connection: the type-to-class table of [openflow/util.py],
    the buffers of [lib/ioworker], and the two readers that cut a stream into
    messages - [Connection.read] of [of_01.py] for the controller,
    [ControllerConnection.read] of [switch_impl.py] for the software switch.  What
    the handlers do is a parameter: a function on an application state that may
    raise. *)
From S2P Require Import Prelude.
From S2P Require Import PyStruct.
From S2P Require Import Addresses.
From S2P Require Import OfConst.
From S2P Require Import Wire.
From S2P Require Import OfBase.
From S2P Require Import OfMatch.
From S2P Require Import MatchTheory.
From S2P Require Import OfActions.
From S2P Require Import OfStats.
From S2P Require Import OfMessages.
From S2P Require Import OfStatsMsg.

(** * Messages of any class *)

Inductive of_msg :=
  | MHello (m : ofp_hello)
  | MError (m : ofp_error)
  | MEchoRequest (m : ofp_echo_request)
  | MEchoReply (m : ofp_echo_reply)
  | MVendor (m : ofp_vendor)
  | MFeaturesRequest (m : ofp_features_request)
  | MFeaturesReply (m : ofp_features_reply)
  | MGetConfigRequest (m : ofp_get_config_request)
  | MGetConfigReply (m : ofp_get_config_reply)
  | MSetConfig (m : ofp_set_config)
  | MPacketIn (m : ofp_packet_in)
  | MFlowRemoved (m : ofp_flow_removed)
  | MPortStatus (m : ofp_port_status)
  | MPacketOut (m : ofp_packet_out)
  | MFlowMod (m : ofp_flow_mod)
  | MPortMod (m : ofp_port_mod)
  | MStatsRequest (m : ofp_stats_request)
  | MStatsReply (m : ofp_stats_reply)
  | MBarrierRequest (m : ofp_barrier_request)
  | MBarrierReply (m : ofp_barrier_reply)
  | MQueueGetConfigRequest (m : ofp_queue_get_config_request)
  | MQueueGetConfigReply (m : ofp_queue_get_config_reply).

(** [msg_obj.unpack(buf)]. *)
Definition of_msg_unpack (m : of_msg) (b : bytes) : res (of_msg * bytes) :=
  match m with
  | MHello m => '(m, s) ← ofp_hello_unpack m b; Ok (MHello m, s)
  | MError m => '(m, s) ← ofp_error_unpack m b; Ok (MError m, s)
  | MEchoRequest m => '(m, s) ← ofp_echo_request_unpack m b; Ok (MEchoRequest m, s)
  | MEchoReply m => '(m, s) ← ofp_echo_reply_unpack m b; Ok (MEchoReply m, s)
  | MVendor m => '(m, s) ← ofp_vendor_unpack m b; Ok (MVendor m, s)
  | MFeaturesRequest m => '(m, s) ← ofp_features_request_unpack m b; Ok (MFeaturesRequest m, s)
  | MFeaturesReply m => '(m, s) ← ofp_features_reply_unpack m b; Ok (MFeaturesReply m, s)
  | MGetConfigRequest m => '(m, s) ← ofp_get_config_request_unpack m b; Ok (MGetConfigRequest m, s)
  | MGetConfigReply m => '(m, s) ← ofp_get_config_reply_unpack m b; Ok (MGetConfigReply m, s)
  | MSetConfig m => '(m, s) ← ofp_set_config_unpack m b; Ok (MSetConfig m, s)
  | MPacketIn m => '(m, s) ← ofp_packet_in_unpack m b; Ok (MPacketIn m, s)
  | MFlowRemoved m => '(m, s) ← ofp_flow_removed_unpack m b; Ok (MFlowRemoved m, s)
  | MPortStatus m => '(m, s) ← ofp_port_status_unpack m b; Ok (MPortStatus m, s)
  | MPacketOut m => '(m, s) ← ofp_packet_out_unpack m b; Ok (MPacketOut m, s)
  | MFlowMod m => '(m, s) ← ofp_flow_mod_unpack m b; Ok (MFlowMod m, s)
  | MPortMod m => '(m, s) ← ofp_port_mod_unpack m b; Ok (MPortMod m, s)
  | MStatsRequest m => '(m, s) ← ofp_stats_request_unpack m b; Ok (MStatsRequest m, s)
  | MStatsReply m => '(m, s) ← ofp_stats_reply_unpack m b; Ok (MStatsReply m, s)
  | MBarrierRequest m => '(m, s) ← ofp_barrier_request_unpack m b; Ok (MBarrierRequest m, s)
  | MBarrierReply m => '(m, s) ← ofp_barrier_reply_unpack m b; Ok (MBarrierReply m, s)
  | MQueueGetConfigRequest m => '(m, s) ← ofp_queue_get_config_request_unpack m b; Ok (MQueueGetConfigRequest m, s)
  | MQueueGetConfigReply m => '(m, s) ← ofp_queue_get_config_reply_unpack m b; Ok (MQueueGetConfigReply m, s)
  end.

(** [classes]: each message type with a new object of its class. *)
Definition type_classes : list (Z * of_msg) :=
  [ (OFPT_HELLO, MHello ofp_hello_init);
    (OFPT_ERROR, MError ofp_error_init);
    (OFPT_ECHO_REQUEST, MEchoRequest ofp_echo_request_init);
    (OFPT_ECHO_REPLY, MEchoReply ofp_echo_reply_init);
    (OFPT_VENDOR, MVendor ofp_vendor_init);
    (OFPT_FEATURES_REQUEST, MFeaturesRequest ofp_features_request_init);
    (OFPT_FEATURES_REPLY, MFeaturesReply (ofp_features_reply_init 0 0 0 0 0 []));
    (OFPT_GET_CONFIG_REQUEST, MGetConfigRequest ofp_get_config_request_init);
    (OFPT_GET_CONFIG_REPLY, MGetConfigReply ofp_get_config_reply_init);
    (OFPT_SET_CONFIG, MSetConfig ofp_set_config_init);
    (OFPT_PACKET_IN, MPacketIn ofp_packet_in_init);
    (OFPT_FLOW_REMOVED, MFlowRemoved ofp_flow_removed_init);
    (OFPT_PORT_STATUS, MPortStatus ofp_port_status_init);
    (OFPT_PACKET_OUT, MPacketOut ofp_packet_out_init);
    (OFPT_FLOW_MOD, MFlowMod ofp_flow_mod_init);
    (OFPT_PORT_MOD, MPortMod ofp_port_mod_init);
    (OFPT_STATS_REQUEST, MStatsRequest ofp_stats_request_init);
    (OFPT_STATS_REPLY, MStatsReply ofp_stats_reply_init);
    (OFPT_BARRIER_REQUEST, MBarrierRequest ofp_barrier_request_init);
    (OFPT_BARRIER_REPLY, MBarrierReply ofp_barrier_reply_init);
    (OFPT_QUEUE_GET_CONFIG_REQUEST, MQueueGetConfigRequest ofp_queue_get_config_request_init);
    (OFPT_QUEUE_GET_CONFIG_REPLY, MQueueGetConfigReply ofp_queue_get_config_reply_init) ].

Definition class_of (t : Z) : option of_msg :=
  snd <$> List.find (fun e => fst e =? t) type_classes.

(** The table leaves out the class of the highest type: the range stops before
    [max]. *)
Definition make_type_to_class_table : list of_msg :=
  let max := fold_left Z.max (map fst type_classes) (-1) in
  omap (fun i => class_of (Z.of_nat i)) (seq 0 (Z.to_nat max)).

(** [classes[ofp_type]()]. *)
Definition new_message (t : Z) : res of_msg :=
  match make_type_to_class_table !! Z.to_nat t with
  | Some m => Ok m
  | None => Err IndexError
  end.

(** * IOWorker *)

Record IOWorker := Worker { w_send_buf : bytes; w_receive_buf : bytes }.

Definition IOWorker_init : IOWorker := Worker [] [].

Definition worker_send (data : bytes) (w : IOWorker) : IOWorker :=
  Worker (w_send_buf w ++ data) (w_receive_buf w).
(** The receive handler that is called next is the reader's [read]. *)
Definition push_receive_data (new_data : bytes) (w : IOWorker) : IOWorker :=
  Worker (w_send_buf w) (w_receive_buf w ++ new_data).
Definition peek_receive_buf (w : IOWorker) : bytes := w_receive_buf w.
Definition consume_receive_buf (l : Z) (w : IOWorker) : res IOWorker :=
  if l <=? zlen (w_receive_buf w)
  then Ok (Worker (w_send_buf w) (slice_from (w_receive_buf w) l))
  else Err AssertionError.
Definition ready_to_send (w : IOWorker) : bool := 0 <? zlen (w_send_buf w).
Definition consume_send_buf (l : Z) (w : IOWorker) : res IOWorker :=
  if l <=? zlen (w_send_buf w)
  then Ok (Worker (slice_from (w_send_buf w) l) (w_receive_buf w))
  else Err AssertionError.

(** * The readers *)

(** [ord(buf[i])]. *)
Definition buf_ord (b : bytes) (i : nat) : res Z :=
  match b !! i with Some c => Ok (Z_of_byte c) | None => Err IndexError end.

(** [ord(buf[2]) << 8 | ord(buf[3])]. *)
Definition packet_length (b : bytes) : res Z :=
  x ← buf_ord b 2; y ← buf_ord b 3; Ok (Z.lor (Z.shiftl x 8) y).

Section readers.
Context {A : Type}.
(** [h(con, msg)] for the handler [h] of a type; a missing handler is one that
    raises. *)
Variable handle : Z -> of_msg -> A -> res unit * A.

(** What one iteration makes of a buffer of more than four bytes. *)
Inductive frame_result :=
  | FrBadVersion
  | FrIncomplete
  | FrMessage (ofp_type : Z) (m : of_msg) (packet_length : Z).

Definition next_frame (b : bytes) : res frame_result :=
  v ← buf_ord b 0;
  if negb (v =? OFP_VERSION) then Ok FrBadVersion
  else
    ofp_type ← buf_ord b 1;
    l ← packet_length b;
    if zlen b <? l then Ok FrIncomplete
    else
      m ← new_message ofp_type;
      '(m, _) ← of_msg_unpack m b;
      Ok (FrMessage ofp_type m l).

(** The loop of [Connection.read]: a handler's exception is logged and the loop
    goes on; one of [next_frame] leaves the method. *)
Fixpoint read_loop (fuel : nat) : M (bytes * A) bool := fun '(buf, app) =>
  if 4 <? zlen buf then
    match fuel with
    | O => (Err Diverge, (buf, app))
    | S fuel =>
        match next_frame buf with
        | Err e => (Err e, (buf, app))
        | Ok FrBadVersion => (Ok false, (buf, app))
        | Ok FrIncomplete => (Ok true, (buf, app))
        | Ok (FrMessage ofp_type msg l) =>
            let buf := slice_from buf l in
            let '(_, app) := handle ofp_type msg app in
            read_loop fuel (buf, app)
        end
    end
  else (Ok true, (buf, app)).

(** [Connection.read], given what [recv] returned. *)
Definition connection_read (d : bytes) : M (bytes * A) bool := fun '(buf, app) =>
  if zlen d =? 0 then (Ok false, (buf, app))
  else let buf := buf ++ d in read_loop (length buf) (buf, app).

(** The loop of [ControllerConnection.read]; it stops at a handler's exception.
    The result None is Python's None. *)
Fixpoint controller_loop (fuel : nat) : M (IOWorker * A) (option bool) := fun '(w, app) =>
  let message := peek_receive_buf w in
  if 4 <? zlen message then
    match fuel with
    | O => (Err Diverge, (w, app))
    | S fuel =>
        match next_frame message with
        | Err e => (Err e, (w, app))
        | Ok FrBadVersion => (Ok (Some false), (w, app))
        | Ok FrIncomplete => (Ok None, (w, app))
        | Ok (FrMessage ofp_type msg l) =>
            match consume_receive_buf l w with
            | Err e => (Err e, (w, app))
            | Ok w =>
                let '(r, app) := handle ofp_type msg app in
                match r with
                | Ok _ => controller_loop fuel (w, app)
                | Err _ => (Ok (Some false), (w, app))
                end
            end
        end
    end
  else (Ok (Some true), (w, app)).

Definition controller_read : M (IOWorker * A) (option bool) := fun '(w, app) =>
  controller_loop (length (peek_receive_buf w)) (w, app).
End readers.

(** * Frames *)

(** [s] is the frame of message [m] of type [t]: it announces its own length, and
    a new object of the class of [t] turns into [m] by unpacking it, whatever
    follows. *)
Record frame (s : bytes) (t : Z) (m : of_msg) : Prop := {
  frame_long : 8 <= zlen s;
  frame_version : buf_ord s 0 = Ok OFP_VERSION;
  frame_type : buf_ord s 1 = Ok t;
  frame_length : packet_length s = Ok (zlen s);
  frame_body : exists m0, new_message t = Ok m0 /\
    forall rest, of_msg_unpack m0 (s ++ rest) = Ok (m, rest)
}.

(** The bytes [p] that a frame starts with, when more are to come. *)
Definition partial (p : bytes) : Prop :=
  exists s t m q, frame s t m /\ s = p ++ q /\ q <> [].

Lemma buf_ord_app s rest i : (i < length s)%nat -> buf_ord (s ++ rest) i = buf_ord s i.
Proof. intros H. unfold buf_ord. by rewrite lookup_app_l. Qed.

Lemma packet_length_app s rest : 4 <= zlen s -> packet_length (s ++ rest) = packet_length s.
Proof.
  unfold zlen. intros H. unfold packet_length. by rewrite !buf_ord_app by lia.
Qed.

Lemma next_frame_hit s t m rest : frame s t m ->
  next_frame (s ++ rest) = Ok (FrMessage t m (zlen s)).
Proof.
  intros [Hl Hv Ht Hn (m0 & Hm0 & Hm)]. unfold next_frame.
  rewrite packet_length_app by lia. unfold zlen in Hl.
  rewrite !buf_ord_app by lia. rewrite Hv, Ht, Hn. cbn [mbind res_bind].
  rewrite Z.eqb_refl, zlen_app, (proj2 (Z.ltb_ge _ _)) by (pose proof (zlen_nonneg rest); lia).
  cbn [negb]. rewrite Hm0. cbn [mbind res_bind]. by rewrite Hm.
Qed.

Lemma next_frame_partial p : partial p -> 4 < zlen p -> next_frame p = Ok FrIncomplete.
Proof.
  intros (s & t & m & q & [Hl Hv Ht Hn _] & -> & Hq) Hp.
  unfold next_frame. pose proof Hp as Hp'. unfold zlen in Hp.
  rewrite buf_ord_app in Hv, Ht by lia. rewrite packet_length_app in Hn by lia.
  rewrite Hv, Ht, Hn. cbn [mbind res_bind]. rewrite Z.eqb_refl. cbn [negb].
  rewrite zlen_app, (proj2 (Z.ltb_lt _ _)); [done|].
  destruct q; [done|]. unfold zlen. simpl. lia.
Qed.

Lemma app_app_inv {A} (x y s r : list A) : x ++ y = s ++ r ->
  (exists z, x = s ++ z /\ r = z ++ y) \/ (exists z, z <> [] /\ s = x ++ z /\ y = z ++ r).
Proof.
  revert s; induction x as [|a x IH]; intros s H.
  - destruct s as [|b s]; [left; by exists [] |right].
    exists (b :: s). by rewrite app_nil_l in H.
  - destruct s as [|b s]; [left; by exists (a :: x)|].
    injection H as -> H. destruct (IH s H) as [(z & -> & ->)|(z & Hz & -> & ->)]; [left|right]; by exists z.
Qed.

(** A frame with its type and message. *)
Abbreviation parsed := (bytes * (Z * of_msg))%type.
Definition frames (fs : list parsed) : Prop := Forall (fun f => frame f.1 f.2.1 f.2.2) fs.
Definition wire_of (fs : list parsed) : bytes := concat (map fst fs).

(** Cutting a stream anywhere leaves whole frames and the start of the next one. *)
Lemma stream_cut fs p x y : frames fs -> p = [] \/ partial p -> x ++ y = wire_of fs ++ p ->
  exists fs1 fs2 p', fs = fs1 ++ fs2 /\ x = wire_of fs1 ++ p' /\
    (p' = [] \/ partial p') /\ p' ++ y = wire_of fs2 ++ p.
Proof.
  revert x; induction fs as [|[s [t m]] fs IH]; intros x Hfs Hp E.
  - exists [], [], x. split; [done|]. split; [done|]. split; [|done].
    destruct Hp as [->|(s & t & m & q & Hf & -> & Hq)].
    + left. cbn in E. by apply app_nil in E as [-> _].
    + right. cbn in E. subst p. exists (x ++ y ++ q), t, m, (y ++ q).
      rewrite <-app_assoc in Hf. split; [done|]. split; [done|].
      destruct y; [done|discriminate].
  - apply Forall_cons in Hfs as [Hf Hfs]. cbn in Hf.
    unfold wire_of in E. cbn [map concat fst] in E. rewrite <-app_assoc in E.
    destruct (app_app_inv _ _ _ _ E) as [(z & -> & Ez)|(z & Hz & -> & ->)].
    + destruct (IH z Hfs Hp (eq_sym Ez)) as (fs1 & fs2 & p' & -> & -> & Hp' & E').
      exists ((s, (t, m)) :: fs1), fs2, p'. unfold wire_of; cbn [map concat fst].
      by rewrite <-!app_assoc.
    + exists [], ((x ++ z, (t, m)) :: fs), x. split; [done|]. split; [done|]. split.
      * right. by exists (x ++ z), t, m, z.
      * unfold wire_of; cbn [map concat fst]. by rewrite <-!app_assoc.
Qed.

(** No frame is the start of a longer one. *)
Lemma partial_no_frame b fs p : frames fs -> b = [] \/ partial b ->
  b = wire_of fs ++ p -> fs = [].
Proof.
  destruct fs as [|[s [t m]] fs]; [done|]. intros Hfs Hb E.
  apply Forall_cons in Hfs as [[Hl _ _ Hn _] _]. cbn in Hl, Hn.
  unfold wire_of in E; cbn [map concat fst] in E. rewrite <-app_assoc in E.
  destruct Hb as [->|(s' & t' & m' & q & [_ _ _ Hn' _] & -> & Hq)].
  - symmetry in E. apply app_nil in E as [-> _]. by cbn in Hl.
  - subst b. rewrite <-!app_assoc, packet_length_app, Hn in Hn' by lia.
    injection Hn' as Hn'. unfold zlen in Hn'. rewrite !length_app in Hn'.
    destruct q; [done|]. cbn [length] in Hn'. lia.
Qed.

Section reassembly.
Context {A : Type} (handle : Z -> of_msg -> A -> res unit * A).

(** The handlers called on the messages in order. *)
Definition dispatch (fs : list parsed) (app : A) : A :=
  fold_left (fun app f => snd (handle f.2.1 f.2.2 app)) fs app.

Lemma read_loop_frames fs p app fuel : frames fs -> p = [] \/ partial p ->
  (length (wire_of fs ++ p) <= fuel)%nat ->
  read_loop handle fuel (wire_of fs ++ p, app) = (Ok true, (p, dispatch fs app)).
Proof.
  revert fuel app; induction fs as [|[s [t m]] fs IH]; intros fuel app Hfs Hp Hfuel.
  - unfold dispatch; cbn [fold_left].
    change (wire_of [] ++ p) with p in *.
    destruct fuel as [|fuel]; cbn [read_loop]; destruct (Z.ltb_spec 4 (zlen p)) as [H|H]; try done.
    + unfold zlen in H. lia.
    + destruct Hp as [->|Hp]; [by cbn in H|]. by rewrite next_frame_partial.
  - apply Forall_cons in Hfs as [Hf Hfs]. cbn in Hf.
    unfold wire_of in *. cbn [map concat fst] in *. rewrite <-app_assoc in *.
    pose proof (frame_long _ _ _ Hf) as Hl. rewrite length_app in Hfuel. unfold zlen in Hl.
    destruct fuel as [|fuel]; [lia|]. cbn [read_loop].
    rewrite zlen_app, (proj2 (Z.ltb_lt _ _)) by (unfold zlen; lia).
    rewrite (next_frame_hit _ _ _ _ Hf), slice_from_app by done.
    unfold dispatch; cbn [fold_left fst snd].
    destruct (handle t m app) as [r app'] eqn:E. rewrite IH by (done || lia). done.
Qed.

(** The main loop of the controller's task on a connection: it reads again until
    [read] returns False or raises. *)
Fixpoint feed (ds : list bytes) : M (bytes * A) bool := fun s =>
  match ds with
  | [] => (Ok true, s)
  | d :: ds =>
      match connection_read handle d s with
      | (Ok true, s) => feed ds s
      | r => r
      end
  end.

Lemma feed_from ds buf fs p app : Forall (.≠ []) ds -> frames fs ->
  buf = [] \/ partial buf -> p = [] \/ partial p -> buf ++ concat ds = wire_of fs ++ p ->
  feed ds (buf, app) = (Ok true, (p, dispatch fs app)).
Proof.
  revert buf fs app; induction ds as [|d ds IH]; intros buf fs app Hds Hfs Hb Hp E.
  - cbn [concat] in E. rewrite app_nil_r in E.
    pose proof (partial_no_frame buf fs p Hfs Hb E) as ->. by rewrite E.
  - apply Forall_cons in Hds as [Hd Hds]. cbn [feed concat] in *.
    unfold connection_read. rewrite (proj2 (Z.eqb_neq _ _))
      by (destruct d; [congruence|unfold zlen; simpl; lia]).
    rewrite app_assoc in E.
    destruct (stream_cut fs p (buf ++ d) (concat ds) Hfs Hp E)
      as (fs1 & fs2 & p' & -> & -> & Hp' & E').
    apply Forall_app in Hfs as [Hfs1 Hfs2].
    rewrite read_loop_frames by done.
    unfold dispatch; rewrite fold_left_app; fold (dispatch fs1 app).
    by apply IH.
Qed.
End reassembly.

(** * From packed messages to frames *)

(** How the classes of messages enter the table: [disp_wrap] is the constructor,
    [disp_type] the type whose entry is the class of [disp_new]. *)
Class Dispatch (T : Type) `{Msg T} := {
  disp_wrap : T -> of_msg;
  disp_type : Z;
  disp_new : T;
  disp_table : new_message disp_type = Ok (disp_wrap disp_new);
  disp_unpack x b : of_msg_unpack (disp_wrap x) b = '(x, s) ← munpack x b; Ok (disp_wrap x, s)
}.

#[export] Instance ofp_hello_disp : Dispatch ofp_hello :=
  { disp_wrap := MHello; disp_type := OFPT_HELLO; disp_new := ofp_hello_init;
    disp_table := eq_refl; disp_unpack x b := eq_refl }.
#[export] Instance ofp_echo_request_disp : Dispatch ofp_echo_request :=
  { disp_wrap := MEchoRequest; disp_type := OFPT_ECHO_REQUEST; disp_new := ofp_echo_request_init;
    disp_table := eq_refl; disp_unpack x b := eq_refl }.
#[export] Instance ofp_echo_reply_disp : Dispatch ofp_echo_reply :=
  { disp_wrap := MEchoReply; disp_type := OFPT_ECHO_REPLY; disp_new := ofp_echo_reply_init;
    disp_table := eq_refl; disp_unpack x b := eq_refl }.
#[export] Instance ofp_vendor_disp : Dispatch ofp_vendor :=
  { disp_wrap := MVendor; disp_type := OFPT_VENDOR; disp_new := ofp_vendor_init;
    disp_table := eq_refl; disp_unpack x b := eq_refl }.
#[export] Instance ofp_features_request_disp : Dispatch ofp_features_request :=
  { disp_wrap := MFeaturesRequest; disp_type := OFPT_FEATURES_REQUEST;
    disp_new := ofp_features_request_init; disp_table := eq_refl; disp_unpack x b := eq_refl }.
#[export] Instance ofp_features_reply_disp : Dispatch ofp_features_reply :=
  { disp_wrap := MFeaturesReply; disp_type := OFPT_FEATURES_REPLY;
    disp_new := ofp_features_reply_init 0 0 0 0 0 [];
    disp_table := eq_refl; disp_unpack x b := eq_refl }.
#[export] Instance ofp_get_config_request_disp : Dispatch ofp_get_config_request :=
  { disp_wrap := MGetConfigRequest; disp_type := OFPT_GET_CONFIG_REQUEST;
    disp_new := ofp_get_config_request_init; disp_table := eq_refl; disp_unpack x b := eq_refl }.
#[export] Instance ofp_get_config_reply_disp : Dispatch ofp_get_config_reply :=
  { disp_wrap := MGetConfigReply; disp_type := OFPT_GET_CONFIG_REPLY;
    disp_new := ofp_get_config_reply_init; disp_table := eq_refl; disp_unpack x b := eq_refl }.
#[export] Instance ofp_set_config_disp : Dispatch ofp_set_config :=
  { disp_wrap := MSetConfig; disp_type := OFPT_SET_CONFIG; disp_new := ofp_set_config_init;
    disp_table := eq_refl; disp_unpack x b := eq_refl }.
#[export] Instance ofp_packet_in_disp : Dispatch ofp_packet_in :=
  { disp_wrap := MPacketIn; disp_type := OFPT_PACKET_IN; disp_new := ofp_packet_in_init;
    disp_table := eq_refl; disp_unpack x b := eq_refl }.
#[export] Instance ofp_flow_removed_disp : Dispatch ofp_flow_removed :=
  { disp_wrap := MFlowRemoved; disp_type := OFPT_FLOW_REMOVED; disp_new := ofp_flow_removed_init;
    disp_table := eq_refl; disp_unpack x b := eq_refl }.
#[export] Instance ofp_port_status_disp : Dispatch ofp_port_status :=
  { disp_wrap := MPortStatus; disp_type := OFPT_PORT_STATUS; disp_new := ofp_port_status_init;
    disp_table := eq_refl; disp_unpack x b := eq_refl }.
#[export] Instance ofp_packet_out_disp : Dispatch ofp_packet_out :=
  { disp_wrap := MPacketOut; disp_type := OFPT_PACKET_OUT; disp_new := ofp_packet_out_init;
    disp_table := eq_refl; disp_unpack x b := eq_refl }.
#[export] Instance ofp_flow_mod_disp : Dispatch ofp_flow_mod :=
  { disp_wrap := MFlowMod; disp_type := OFPT_FLOW_MOD; disp_new := ofp_flow_mod_init;
    disp_table := eq_refl; disp_unpack x b := eq_refl }.
#[export] Instance ofp_port_mod_disp : Dispatch ofp_port_mod :=
  { disp_wrap := MPortMod; disp_type := OFPT_PORT_MOD; disp_new := ofp_port_mod_init;
    disp_table := eq_refl; disp_unpack x b := eq_refl }.
#[export] Instance ofp_stats_request_disp : Dispatch ofp_stats_request :=
  { disp_wrap := MStatsRequest; disp_type := OFPT_STATS_REQUEST; disp_new := ofp_stats_request_init;
    disp_table := eq_refl; disp_unpack x b := eq_refl }.
#[export] Instance ofp_stats_reply_disp : Dispatch ofp_stats_reply :=
  { disp_wrap := MStatsReply; disp_type := OFPT_STATS_REPLY; disp_new := ofp_stats_reply_init;
    disp_table := eq_refl; disp_unpack x b := eq_refl }.
#[export] Instance ofp_barrier_request_disp : Dispatch ofp_barrier_request :=
  { disp_wrap := MBarrierRequest; disp_type := OFPT_BARRIER_REQUEST;
    disp_new := ofp_barrier_request_init; disp_table := eq_refl; disp_unpack x b := eq_refl }.
#[export] Instance ofp_barrier_reply_disp : Dispatch ofp_barrier_reply :=
  { disp_wrap := MBarrierReply; disp_type := OFPT_BARRIER_REPLY;
    disp_new := ofp_barrier_reply_init; disp_table := eq_refl; disp_unpack x b := eq_refl }.
#[export] Instance ofp_queue_get_config_request_disp : Dispatch ofp_queue_get_config_request :=
  { disp_wrap := MQueueGetConfigRequest; disp_type := OFPT_QUEUE_GET_CONFIG_REQUEST;
    disp_new := ofp_queue_get_config_request_init; disp_table := eq_refl; disp_unpack x b := eq_refl }.

(** The first four bytes of a header, read one by one. *)
Lemma header_bytes y s h r : 8 <= zlen s -> ofp_header_unpack y s = Ok (h, r) ->
  buf_ord s 0 = Ok (hdr_version h) /\ buf_ord s 1 = Ok (hdr_type h) /\
  packet_length s = Ok (hdr_length h).
Proof.
  intros Hl. unfold ofp_header_unpack. rewrite (proj2 (Z.ltb_ge _ _)) by lia.
  destruct s as [|a [|b [|c [|d [|e [|f [|g [|i s]]]]]]]]; try (unfold zlen in Hl; simpl in Hl; lia).
  rewrite struct_unpack_BBHL. cbn [mbind res_bind]. intros [= <- _]. cbn.
  split; [done|]. split; [done|]. f_equal.
  pose proof (Z_of_byte_range d). 
  rewrite lor_concat by lia. unfold be_dec. cbn -[Z.mul]. lia.
Qed.

Lemma carried_frame `{Dispatch T} (x : T) s : carries x s ->
  hdr_version (mhdr x) = OFP_VERSION -> hdr_type (mhdr x) = disp_type ->
  frame s disp_type (disp_wrap (mview x)).
Proof.
  intros (Hn & _ & Hh & Hu) Hv Ht.
  assert (8 <= zlen s) as Hl.
  { destruct (Z.ltb_spec (zlen s) 8) as [H8|]; [|done].
    pose proof (Hh (set_length (hdr_length (mhdr x) + 1) (mhdr x)) []) as (r & E).
    unfold ofp_header_unpack in E. rewrite app_nil_r, (proj2 (Z.ltb_lt _ _) H8) in E.
    injection E as E _. apply (f_equal hdr_length) in E. cbn in E. lia. }
  destruct (Hh (mhdr x) []) as (r & E). rewrite app_nil_r in E.
  destruct (header_bytes _ _ _ _ Hl E) as (B0 & B1 & BL).
  split; try done; [by rewrite B0, Hv|by rewrite B1, Ht|by rewrite BL, Hn|].
  exists (disp_wrap disp_new). split; [apply disp_table|].
  intros rest. by rewrite disp_unpack, Hu.
Qed.

(** * Errors of the reader *)

(** The class of the last type is missing from the table. *)
Lemma new_message_none t : 21 <= t -> new_message t = Err IndexError.
Proof.
  intros H. unfold new_message. rewrite lookup_ge_None_2; [done|].
  change (length make_type_to_class_table) with 21%nat. lia.
Qed.

(** A consumed frame shortens the buffer unless its length field is zero. *)
Lemma next_frame_length b t m l : next_frame b = Ok (FrMessage t m l) -> 0 <= l <= zlen b.
Proof.
  unfold next_frame, packet_length.
  destruct (buf_ord b 0) as [v|]; [|done]. cbn [mbind res_bind].
  destruct (negb _); [done|]. destruct (buf_ord b 1) as [t'|]; [|done]. cbn [mbind res_bind].
  destruct (buf_ord b 2) as [x|] eqn:E2; [|done]. cbn [mbind res_bind].
  destruct (buf_ord b 3) as [y|] eqn:E3; [|done]. cbn [mbind res_bind].
  destruct (Z.ltb_spec (zlen b) (Z.lor (Z.shiftl x 8) y)) as [|H]; [done|].
  destruct (new_message t') as [m0|]; [|done]. cbn [mbind res_bind].
  destruct (of_msg_unpack m0 b) as [[m1 r]|]; [|done]. cbn [mbind res_bind].
  intros [= <- <- <-]. split; [|done].
  assert (0 <= x /\ 0 <= y) as [??].
  { unfold buf_ord in E2, E3. destruct (b !! 2%nat) as [cx|]; [|done].
    destruct (b !! 3%nat) as [cy|]; [|done]. injection E2 as <-. injection E3 as <-.
    pose proof (Z_of_byte_range cx). pose proof (Z_of_byte_range cy). lia. }
  apply Z.lor_nonneg. split; [|done]. by apply Z.shiftl_nonneg.
Qed.

Section agreement.
Context {A : Type} (handle : Z -> of_msg -> A -> res unit * A).

(** What the reader of the switch returns where the reader of the controller
    returns a boolean: None where the latter breaks out of its loop. *)
Definition same_result (r : res bool) (r' : res (option bool)) : Prop :=
  match r, r' with
  | Ok b, Ok (Some b') => b = b'
  | Ok b, Ok None => b = true
  | Err e, Err e' => e = e'
  | _, _ => False
  end.

Lemma loops_agree fuel w app : (forall t m a, fst (handle t m a) = Ok tt) ->
  let '(r, (buf, app1)) := read_loop handle fuel (w_receive_buf w, app) in
  let '(r', (w', app2)) := controller_loop handle fuel (w, app) in
  same_result r r' /\ w_receive_buf w' = buf /\ w_send_buf w' = w_send_buf w /\ app2 = app1.
Proof.
  intros Hh. revert w app; induction fuel as [|fuel IH]; intros w app;
    cbn [read_loop controller_loop]; unfold peek_receive_buf;
    (destruct (4 <? zlen (w_receive_buf w)); [|done]); [done|].
  destruct (next_frame (w_receive_buf w)) as [[| |t m l]|e] eqn:E; try done.
  apply next_frame_length in E as [_ Hl]. unfold consume_receive_buf.
  rewrite (proj2 (Z.leb_le _ _) Hl).
  pose proof (Hh t m app) as Ht. destruct (handle t m app) as [r app'].
  cbn in Ht. subst r. specialize (IH (Worker (w_send_buf w) (slice_from (w_receive_buf w) l)) app').
  exact IH.
Qed.
End agreement.

(** * Properties of the stream *)

(** C27: However the network cuts a stream of frames into pieces, reading the pieces calls
    the handlers on exactly the messages of the frames, in order, and keeps the beginning
    of an unfinished one in the buffer - even when handlers raise. *)
Theorem feed_reassembles {A} (handle : Z -> of_msg -> A -> res unit * A) ds fs p app :
  Forall (.≠ []) ds -> frames fs -> p = [] \/ partial p -> concat ds = wire_of fs ++ p ->
  feed handle ds ([], app) = (Ok true, (p, dispatch handle fs app)).
Proof. intros Hds Hfs Hp E. by apply feed_from; [| |left| |]. Qed.

(** C36: What a message class packs is a frame of its type: the reader of the other side
    finds its end and makes of it the message that was packed, as the wire keeps it. *)
Theorem packed_message_frame {T} `{MsgLaws T, !Dispatch T} (x : T) st : msg_wf x -> 0 <= st < 2 ^ 31 ->
  let '(h, st') := hdr_settle (mhdr (mready x)) st in
  hdr_version (mhdr (with_hdr h (mready x))) = OFP_VERSION ->
  hdr_type (mhdr (with_hdr h (mready x))) = disp_type ->
  exists s, mpack true x st = (Ok (with_hdr h (mready x), Some s), st') /\
    frame s disp_type (disp_wrap (mview (with_hdr h (mready x)))).
Proof.
  intros Hw Hst. destruct (msg_pack_ok x st Hw Hst) as (s & E & C).
  destruct (hdr_settle _ _) as [h st']. intros Hv Ht. exists s. split; [exact E|].
  by apply carried_frame.
Qed.

(** A message that announces length zero is never consumed: with one at the head of
    the buffer - here a hello - the read loop handles it over and over and never comes
    back. *)
Theorem zero_length_frame_diverges {A} (handle : Z -> of_msg -> A -> res unit * A) fuel a b c d rest app :
  exists buf' app', read_loop handle fuel (x01 :: x00 :: x00 :: x00 :: a :: b :: c :: d :: rest, app) =
    (Err Diverge, (buf', app')).
Proof.
  set (buf := x01 :: _).
  assert (exists m, next_frame buf = Ok (FrMessage 0 m 0)) as [m Hm].
  { unfold next_frame. cbn [buf_ord lookup list_lookup mbind res_bind packet_length buf].
    change (negb (Z_of_byte x01 =? OFP_VERSION)) with false. cbv iota.
    change (Z.lor (Z.shiftl (Z_of_byte x00) 8) (Z_of_byte x00)) with 0.
    rewrite (proj2 (Z.ltb_ge _ _)) by apply zlen_nonneg.
    change (new_message (Z_of_byte x00)) with (@Ok of_msg (MHello ofp_hello_init)).
    cbn [mbind res_bind of_msg_unpack]. unfold ofp_hello_unpack.
    rewrite (proj2 (Z.ltb_ge _ _)) by (unfold buf, zlen; cbn [length]; lia).
    rewrite slice_from_all. unfold ofp_header_unpack.
    rewrite (proj2 (Z.ltb_ge _ _)) by (unfold buf, zlen; cbn [length]; lia).
    unfold buf. rewrite struct_unpack_BBHL. cbn [mbind res_bind]. by eexists. }
  revert app; induction fuel as [|fuel IH]; intros app; cbn [read_loop];
    rewrite (proj2 (Z.ltb_lt _ _)) by (unfold buf, zlen; cbn [length]; lia).
  - by exists buf, app.
  - rewrite Hm, slice_from_all. destruct (handle 0 m app) as [r app']. apply IH.
Qed.

(** The class table stops before the last message type: a complete frame of type 21 -
    a queue configuration reply - or above makes the reader fail. *)
Theorem last_type_index_error b t l : buf_ord b 0 = Ok OFP_VERSION -> buf_ord b 1 = Ok t -> 21 <= t ->
  packet_length b = Ok l -> l <= zlen b -> next_frame b = Err IndexError.
Proof.
  intros H0 H1 Ht Hl Hb. unfold next_frame. rewrite H0, H1, Hl. cbn [mbind res_bind].
  rewrite Z.eqb_refl, (proj2 (Z.ltb_ge _ _)) by done. cbn [negb].
  by rewrite new_message_none.
Qed.

(** The switch's reader does what the controller's does, given the same bytes and
    handlers that do not raise: the same result - but for None in place of True when a
    frame is incomplete - the same messages handled, the same bytes left over; and its
    assertion never fails. *)
Theorem readers_agree {A} (handle : Z -> of_msg -> A -> res unit * A) d buf sent app :
  (forall t m a, fst (handle t m a) = Ok tt) -> d <> [] ->
  let '(r, (buf', app1)) := connection_read handle d (buf, app) in
  let '(r', (w', app2)) := controller_read handle (push_receive_data d (Worker sent buf), app) in
  same_result r r' /\ w_receive_buf w' = buf' /\ w_send_buf w' = sent /\ app2 = app1.
Proof.
  intros Hh Hd. unfold connection_read, controller_read. rewrite (proj2 (Z.eqb_neq _ _))
    by (destruct d; [done|unfold zlen; cbn [length]; lia]).
  exact (loops_agree handle (length (buf ++ d)) (push_receive_data d (Worker sent buf)) app Hh).
Qed.

(** ** Concrete instances *)

(** Handlers that log the types of messages; echo requests make theirs fail. *)
Definition log_handler (t : Z) (m : of_msg) (log : list Z) : res unit * list Z :=
  (if t =? OFPT_ECHO_REQUEST then Err ValueError else Ok tt, log ++ [t]).

(** A hello, then a barrier request. *)
Definition hello_bytes : bytes := [x01; x00; x00; x08; x00; x00; x00; x05].
Definition barrier_bytes : bytes := [x01; x12; x00; x08; x00; x00; x00; x07].
Definition hello_msg : of_msg := MHello (Hello (Hdr 1 OFPT_HELLO 8 (Some 5))).
Definition barrier_msg : of_msg := MBarrierRequest (BarrierRequest (Hdr 1 OFPT_BARRIER_REQUEST 8 (Some 7))).

Lemma header_only_frame (s : bytes) h t m0 m : length s = 8%nat ->
  ofp_header_unpack ofp_header_init s = Ok (h, []) -> hdr_version h = OFP_VERSION -> hdr_type h = t ->
  hdr_length h = 8 -> new_message t = Ok m0 ->
  (forall rest, of_msg_unpack m0 (s ++ rest) = Ok (m, rest)) -> frame s t m.
Proof.
  intros Hl Hh Hv Ht Hn Hm0 Hm.
  destruct (header_bytes _ _ _ _ ltac:(unfold zlen; rewrite Hl; lia) Hh) as (B0 & B1 & B2).
  split; [unfold zlen; rewrite Hl; done|by rewrite B0, Hv|by rewrite B1, Ht| |by exists m0].
  rewrite B2, Hn. unfold zlen. by rewrite Hl.
Qed.

Lemma demo_frames : frames [(hello_bytes, (OFPT_HELLO, hello_msg));
                            (barrier_bytes, (OFPT_BARRIER_REQUEST, barrier_msg))].
Proof.
  repeat constructor; cbn [fst snd].
  all: eapply header_only_frame;
    [reflexivity|vm_compute; reflexivity|reflexivity|reflexivity|reflexivity|vm_compute; reflexivity|].
  all: intros rest; cbn [of_msg_unpack]; unfold ofp_hello_unpack, ofp_barrier_request_unpack;
    rewrite (proj2 (Z.ltb_ge _ _)) by (rewrite zlen_app; pose proof (zlen_nonneg rest); unfold zlen at 1; cbn [length hello_bytes barrier_bytes]; lia);
    rewrite slice_from_all; unfold ofp_header_unpack;
    rewrite (proj2 (Z.ltb_ge _ _)) by (rewrite zlen_app; pose proof (zlen_nonneg rest); unfold zlen at 1; cbn [length hello_bytes barrier_bytes]; lia);
    unfold hello_bytes, barrier_bytes; cbn [app]; rewrite struct_unpack_BBHL; reflexivity.
Qed.

(** The stream in three pieces, with the first six bytes of another hello behind. *)
Lemma feed_reassembles_witness :
  feed log_handler [[x01; x00; x00]; [x08; x00; x00; x00; x05; x01; x12; x00; x08; x00; x00];
                    [x00; x07; x01; x00; x00; x08; x00; x00]] ([], []) =
    (Ok true, ([x01; x00; x00; x08; x00; x00], [OFPT_HELLO; OFPT_BARRIER_REQUEST])).
Proof.
  apply (feed_reassembles log_handler
    [[x01; x00; x00]; [x08; x00; x00; x00; x05; x01; x12; x00; x08; x00; x00];
     [x00; x07; x01; x00; x00; x08; x00; x00]]
    [(hello_bytes, (OFPT_HELLO, hello_msg)); (barrier_bytes, (OFPT_BARRIER_REQUEST, barrier_msg))]
    [x01; x00; x00; x08; x00; x00] []).
  - repeat constructor; discriminate.
  - apply demo_frames.
  - right. exists hello_bytes, OFPT_HELLO, hello_msg, [x00; x05].
    split; [|split; [reflexivity|discriminate]]. pose proof demo_frames as Hf. by inversion Hf.
  - reflexivity.
Defined.

Lemma packed_message_frame_witness :
  exists s, ofp_flow_mod_pack true demo_flow_mod 1 =
      (Ok (with_hdr (Hdr OFP_VERSION OFPT_FLOW_MOD 80 (Some 1)) (mready demo_flow_mod), Some s), 3) /\
    frame s OFPT_FLOW_MOD
      (MFlowMod (mview (with_hdr (Hdr OFP_VERSION OFPT_FLOW_MOD 80 (Some 1)) (mready demo_flow_mod)))).
Proof.
  refine (packed_message_frame demo_flow_mod 1 _ _ eq_refl eq_refl); [|split; [discriminate|reflexivity]].
  split; [repeat split; discriminate|]. split; [apply http_match_wf|].
  split_and!; try field_tac; [by left|apply flow_actions_wf].
Defined.

Lemma last_type_index_error_witness :
  next_frame [x01; x15; x00; x08; x00; x00; x00; x01] = Err IndexError.
Proof.
  apply (last_type_index_error [x01; x15; x00; x08; x00; x00; x00; x01] 21 8);
    [reflexivity|reflexivity|lia|reflexivity|discriminate].
Defined.

Lemma readers_agree_witness :
  let count (t : Z) (m : of_msg) (n : nat) := (Ok tt, S n) in
  let '(r, (buf', n1)) := connection_read count (hello_bytes ++ [x01; x00; x00; x08; x00]) ([], 0%nat) in
  let '(r', (w', n2)) := controller_read count
    (push_receive_data (hello_bytes ++ [x01; x00; x00; x08; x00]) (Worker [] []), 0%nat) in
  same_result r r' /\ w_receive_buf w' = buf' /\ w_send_buf w' = [] /\ n2 = n1.
Proof.
  exact (readers_agree (fun _ _ n => (Ok tt, S n)) (hello_bytes ++ [x01; x00; x00; x08; x00]) [] [] 0%nat
    (fun _ _ _ => eq_refl) ltac:(discriminate)).
Defined.
