(* ===== verification/SoftSwitch.v ===== *)
(** The software switch ([openflow/switch_impl.py]): the flow table, the ports and the
    packet buffer behind the OpenFlow handlers, and the data plane.  Packets are mutable
    objects that the buffer and the pipeline share, so they live in a heap and are
    passed by reference.  [send] is a parameter: [SwitchImpl] and [NXSwitchImpl] send
    differently.  Logging, and the [show] methods it calls, are left out; listeners of
    [DpPacketOut] are taken to leave the switch and the packet alone. *)
From S2P Require Import Prelude.
From S2P Require Import PyStruct.
From S2P Require Import Addresses.
From S2P Require Import OfConst.
From S2P Require Import Wire.
From S2P Require Import OfBase.
From S2P Require Import OfMatch.
From S2P Require Import OfActions.
From S2P Require Import OfStats.
From S2P Require Import OfMessages.
From S2P Require Import OfStatsMsg.
From S2P Require Import Packets.
From S2P Require Import PacketCodec.
From S2P Require Import FlowTable.
From S2P Require Import Connection.

(** Running a computation on a part of the state. *)
Definition zoom {S T A} (part : S -> T) (set : T -> S -> S) (m : M T A) : M S A :=
  fun s => let '(r, t) := m (part s) in (r, set t s).

(** * Capabilities *)

Record SwitchCapabilities := Capabilities {
  cap_flow_stats : bool; cap_table_stats : bool; cap_port_stats : bool; cap_stp : bool;
  cap_multi_phy_tx : bool; cap_ip_resam : bool;
  cap_ip_frag : Z; cap_miss_send_len : Z;
  act_output : bool; act_set_vlan_vid : bool; act_set_vlan_pcp : bool; act_strip_vlan : bool;
  act_set_dl_src : bool; act_set_dl_dst : bool; act_set_nw_src : bool; act_set_nw_dst : bool;
  act_set_tp_src : bool; act_set_tp_dst : bool; act_vendor : bool
}.

Definition SwitchCapabilities_init (miss_send_len : Z) : SwitchCapabilities :=
  Capabilities false false false false false false 0 miss_send_len
    true true true true true true true true true true false.

(** [ofp_capabilities_rev_map[name]]; there is no OFPC_MULTI_PHY_TX. *)
Definition capability (name : String.string) : res Z :=
  match List.find (fun e => String.eqb (fst e) name) ofp_capabilities_rev_map with
  | Some (_, v) => Ok v
  | None => Err KeyError
  end.
Fixpoint sum_capabilities (value : Z) (l : list (bool * String.string)) : res Z :=
  match l with
  | [] => Ok value
  | (true, name) :: l => v ← capability name; sum_capabilities (value + v) l
  | (false, _) :: l => sum_capabilities value l
  end.
Definition get_capabilities (c : SwitchCapabilities) : res Z :=
  sum_capabilities 0
    [ (cap_flow_stats c, "OFPC_FLOW_STATS"%string); (cap_table_stats c, "OFPC_TABLE_STATS"%string);
      (cap_port_stats c, "OFPC_PORT_STATS"%string); (cap_stp c, "OFPC_STP"%string);
      (cap_multi_phy_tx c, "OFPC_MULTI_PHY_TX"%string); (cap_ip_resam c, "OFPC_IP_REASM"%string) ].

Definition action_bit (b : bool) (type : Z) : Z := if b then Z.shiftl 1 (type + 1) else 0.
Definition get_actions (c : SwitchCapabilities) : Z :=
  0 + action_bit (act_output c) OFPAT_OUTPUT + action_bit (act_set_vlan_vid c) OFPAT_SET_VLAN_VID
    + action_bit (act_set_vlan_pcp c) OFPAT_SET_VLAN_PCP + action_bit (act_strip_vlan c) OFPAT_STRIP_VLAN
    + action_bit (act_set_dl_src c) OFPAT_SET_DL_SRC + action_bit (act_set_dl_dst c) OFPAT_SET_DL_DST
    + action_bit (act_set_nw_src c) OFPAT_SET_NW_SRC + action_bit (act_set_nw_dst c) OFPAT_SET_NW_DST
    + action_bit (act_set_tp_src c) OFPAT_SET_TP_SRC + action_bit (act_set_tp_dst c) OFPAT_SET_TP_DST.

(** * State *)

(** [sw_heap]: the ethernet objects; a reference is a position.  [sw_xid_count]: the
    switch's own generator of transaction ids; [sw_xids]: [_nextXID] of
    [libopenflow_01.py].  [sw_out]: the packets sent out of ports ([DpPacketOut] events,
    with the packet as it is then). *)
Record Switch (C : Type) := MkSwitch {
  sw_dpid : Z;
  sw_n_buffers : Z;
  sw_n_tables : Z;
  sw_capabilities : SwitchCapabilities;
  sw_ports : gmap Z ofp_phy_port;
  sw_table : FlowTable;
  sw_heap : list ethernet;
  sw_buffer : list (option (nat * Z));
  sw_xid_count : Z;
  sw_pstate : pstate;
  sw_xids : Z;
  sw_out : list (ethernet * ofp_phy_port);
  sw_chan : C
}.
Arguments MkSwitch {C}.
Arguments sw_dpid {C} _. Arguments sw_n_buffers {C} _. Arguments sw_n_tables {C} _.
Arguments sw_capabilities {C} _. Arguments sw_ports {C} _. Arguments sw_table {C} _.
Arguments sw_heap {C} _. Arguments sw_buffer {C} _. Arguments sw_xid_count {C} _.
Arguments sw_pstate {C} _. Arguments sw_xids {C} _. Arguments sw_out {C} _. Arguments sw_chan {C} _.

Section Setters.
Context {C : Type}.
Implicit Types s : Switch C.
Definition set_ports (v : gmap Z ofp_phy_port) s : Switch C := MkSwitch (sw_dpid s) (sw_n_buffers s) (sw_n_tables s) (sw_capabilities s) v
  (sw_table s) (sw_heap s) (sw_buffer s) (sw_xid_count s) (sw_pstate s) (sw_xids s) (sw_out s) (sw_chan s).
Definition set_flow_table (v : FlowTable) s : Switch C := MkSwitch (sw_dpid s) (sw_n_buffers s) (sw_n_tables s) (sw_capabilities s) (sw_ports s)
  v (sw_heap s) (sw_buffer s) (sw_xid_count s) (sw_pstate s) (sw_xids s) (sw_out s) (sw_chan s).
Definition set_heap (v : list ethernet) s : Switch C := MkSwitch (sw_dpid s) (sw_n_buffers s) (sw_n_tables s) (sw_capabilities s) (sw_ports s)
  (sw_table s) v (sw_buffer s) (sw_xid_count s) (sw_pstate s) (sw_xids s) (sw_out s) (sw_chan s).
Definition set_buffer (v : list (option (nat * Z))) s : Switch C := MkSwitch (sw_dpid s) (sw_n_buffers s) (sw_n_tables s) (sw_capabilities s) (sw_ports s)
  (sw_table s) (sw_heap s) v (sw_xid_count s) (sw_pstate s) (sw_xids s) (sw_out s) (sw_chan s).
Definition set_xid_count (v : Z) s : Switch C := MkSwitch (sw_dpid s) (sw_n_buffers s) (sw_n_tables s) (sw_capabilities s) (sw_ports s)
  (sw_table s) (sw_heap s) (sw_buffer s) v (sw_pstate s) (sw_xids s) (sw_out s) (sw_chan s).
Definition set_pstate (v : pstate) s : Switch C := MkSwitch (sw_dpid s) (sw_n_buffers s) (sw_n_tables s) (sw_capabilities s) (sw_ports s)
  (sw_table s) (sw_heap s) (sw_buffer s) (sw_xid_count s) v (sw_xids s) (sw_out s) (sw_chan s).
Definition set_xids (v : Z) s : Switch C := MkSwitch (sw_dpid s) (sw_n_buffers s) (sw_n_tables s) (sw_capabilities s) (sw_ports s)
  (sw_table s) (sw_heap s) (sw_buffer s) (sw_xid_count s) (sw_pstate s) v (sw_out s) (sw_chan s).
Definition set_out (v : list (ethernet * ofp_phy_port)) s : Switch C := MkSwitch (sw_dpid s) (sw_n_buffers s) (sw_n_tables s) (sw_capabilities s) (sw_ports s)
  (sw_table s) (sw_heap s) (sw_buffer s) (sw_xid_count s) (sw_pstate s) (sw_xids s) v (sw_chan s).
Definition set_chan (v : C) s : Switch C := MkSwitch (sw_dpid s) (sw_n_buffers s) (sw_n_tables s) (sw_capabilities s) (sw_ports s)
  (sw_table s) (sw_heap s) (sw_buffer s) (sw_xid_count s) (sw_pstate s) (sw_xids s) (sw_out s) v.
End Setters.

(** ["%2x"]. *)
Definition fmt_2x (z : Z) : bytes :=
  let ds := hex_digits (S (Z.to_nat (Z.log2 (Z.abs z)))) (Z.abs z) in
  let ds := if z <? 0 then x2d :: ds else ds in
  replicate (2 - length ds) x20 ++ ds.
Definition default_port (prefix i : Z) : res ofp_phy_port :=
  a ← EthAddr_init (EBytes (lit "00:00:00:00:" ++ fmt_2x (prefix mod 255) ++ lit ":" ++ fmt_2x i));
  Ok (PhyPort i (HwEth a) [] 0 0 0 0 0 0).
Definition default_port_list (num_ports : nat) (prefix : Z) : res (list ofp_phy_port) :=
  mapM_res (fun i => default_port prefix (Z.of_nat i)) (seq 1 num_ports).

(** The constructor, with the ports listed or counted. *)
Definition SwitchImpl_init {C} (dpid : Z) (ports : nat + list ofp_phy_port)
    (miss_send_len n_buffers n_tables : Z) (capabilities : option SwitchCapabilities)
    (ps : pstate) (xids : Z) (chan : C) : res (Switch C) :=
  ports ← match ports with inl n => default_port_list n dpid | inr l => Ok l end;
  Ok (MkSwitch dpid n_buffers n_tables
        (match capabilities with Some c => c | None => SwitchCapabilities_init miss_send_len end)
        (foldl (fun m p => <[pp_port_no p := p]> m) ∅ ports)
        FlowTable_init [] [] (xid_generator 1) ps xids [] chan).

(** * Sending *)

(** [message.pack()] of any class: the message as packing leaves it, and the bytes. *)
Definition of_msg_pack (m : of_msg) : M Z (of_msg * option bytes) :=
  let done {T} (wrap : T -> of_msg) (p : M Z (T * option bytes)) : M Z (of_msg * option bytes) :=
    '(m, s) ← p; mret (wrap m, s) in
  match m with
  | MHello m => done MHello (ofp_hello_pack true m)
  | MError m => done MError (ofp_error_pack true m)
  | MEchoRequest m => done MEchoRequest (ofp_echo_request_pack true m)
  | MEchoReply m => done MEchoReply (ofp_echo_reply_pack true m)
  | MVendor m => done MVendor (ofp_vendor_pack true m)
  | MFeaturesRequest m => done MFeaturesRequest (ofp_features_request_pack true m)
  | MFeaturesReply m => done MFeaturesReply (ofp_features_reply_pack true m)
  | MGetConfigRequest m => done MGetConfigRequest (ofp_get_config_request_pack true m)
  | MGetConfigReply m => done MGetConfigReply (ofp_get_config_reply_pack true m)
  | MSetConfig m => done MSetConfig (ofp_set_config_pack true m)
  | MPacketIn m => done MPacketIn (ofp_packet_in_pack true m)
  | MFlowRemoved m => done MFlowRemoved (ofp_flow_removed_pack true m)
  | MPortStatus m => done MPortStatus (ofp_port_status_pack true m)
  | MPacketOut m => done MPacketOut (ofp_packet_out_pack true m)
  | MFlowMod m => done MFlowMod (ofp_flow_mod_pack true m)
  | MPortMod m => done MPortMod (ofp_port_mod_pack true m)
  | MStatsRequest m => done MStatsRequest (ofp_stats_request_pack true m)
  | MStatsReply m => done MStatsReply (ofp_stats_reply_pack true m)
  | MBarrierRequest m => done MBarrierRequest (ofp_barrier_request_pack true m)
  | MBarrierReply m => done MBarrierReply (ofp_barrier_reply_pack true m)
  | MQueueGetConfigRequest m => done MQueueGetConfigRequest (ofp_queue_get_config_request_pack true m)
  | MQueueGetConfigReply m => done MQueueGetConfigReply (ofp_queue_get_config_reply_pack true m)
  end.

(** [self.xid_count.next()]. *)
Definition next_xid {C} : M (Switch C) Z := zoom sw_xid_count set_xid_count xid_next.

(** The keyword argument [xid] of a message's constructor. *)
Definition with_xid `{Msg T} (xid : option Z) (m : T) : T :=
  let h := mhdr m in
  with_hdr (Hdr (hdr_version h) (hdr_type h) (hdr_length h) xid) m.

(** * Actions *)

(** [action.type]. *)
Definition action_type (a : action) : option Z :=
  match a with
  | AHeader a | ADecTtl a | AResubmit a => ah_type a
  | AOutput a => Some (ao_type a)
  | AEnqueue a => Some (aq_type a)
  | APushMpls a => Some (apm_type a)
  | AMplsLabel a => Some (aml_type a)
  | AMplsTc a => Some (amc_type a)
  | AMplsTtl a => Some (amt_type a)
  | APopMpls a => Some (apo_type a)
  | AVlanVid a => Some (avv_type a)
  | AVlanPcp a => Some (avp_type a)
  | ADlAddr a => ada_type a
  | ANwAddr a => ana_type a
  | ANwTos a => Some (ant_type a)
  | ATpPort a => atp_type a
  | AVendor a => Some (ave_type a)
  end.

(** The attributes the handlers read; a class without the attribute raises. *)
Definition attr_port (a : action) : res (option Z) :=
  match a with AOutput a => Ok (ao_port a) | AEnqueue a => Ok (Some (aq_port a)) | _ => Err AttributeError end.
Definition attr_vlan_pcp (a : action) : res Z :=
  match a with AVlanPcp a => Ok (avp_vlan_pcp a) | _ => Err AttributeError end.
Definition attr_dl_addr (a : action) : res hwaddr :=
  match a with ADlAddr a => Ok (ada_dl_addr a) | _ => Err AttributeError end.
Definition attr_nw_addr (a : action) : res IPAddr :=
  match a with ANwAddr a => Ok (ana_nw_addr a) | _ => Err AttributeError end.
Definition attr_nw_tos (a : action) : res Z :=
  match a with ANwTos a => Ok (ant_nw_tos a) | _ => Err AttributeError end.
Definition attr_tp_port (a : action) : res (option Z) :=
  match a with ATpPort a => Ok (atp_tp_port a) | _ => Err AttributeError end.
Definition attr_ethertype (a : action) : res Z :=
  match a with
  | APushMpls a => Ok (apm_ethertype a) | APopMpls a => Ok (apo_ethertype a) | _ => Err AttributeError
  end.
Definition attr_mpls_label (a : action) : res Z :=
  match a with AMplsLabel a => Ok (aml_mpls_label a) | _ => Err AttributeError end.
Definition attr_mpls_tc (a : action) : res Z :=
  match a with AMplsTc a => Ok (amc_mpls_tc a) | _ => Err AttributeError end.
Definition attr_mpls_ttl (a : action) : res Z :=
  match a with AMplsTtl a => Ok (amt_mpls_ttl a) | _ => Err AttributeError end.

(** * Packets by reference *)

Definition deref {C} (r : nat) : M (Switch C) ethernet :=
  s ← get; lift (match sw_heap s !! r with Some p => Ok p | None => Err NameError end).
Definition store {C} (r : nat) (p : ethernet) : M (Switch C) unit :=
  s ← get; put (set_heap (<[r := p]> (sw_heap s)) s).
Definition alloc {C} (p : ethernet) : M (Switch C) nat :=
  s ← get; put (set_heap (sw_heap s ++ [p]) s);; mret (length (sw_heap s)).
Definition update {C} (r : nat) (f : ethernet -> ethernet) : M (Switch C) unit :=
  p ← deref r; store r (f p).

Definition with_next (next : payload) (p : ethernet) : ethernet :=
  Ethernet (eth_dst p) (eth_src p) (eth_type p) next (eth_parsed p).
Definition with_type (type : Z) (p : ethernet) : ethernet :=
  Ethernet (eth_dst p) (eth_src p) type (eth_next p) (eth_parsed p).
Definition with_src (src : hwaddr) (p : ethernet) : ethernet :=
  Ethernet (eth_dst p) src (eth_type p) (eth_next p) (eth_parsed p).
Definition with_dst (dst : hwaddr) (p : ethernet) : ethernet :=
  Ethernet dst (eth_src p) (eth_type p) (eth_next p) (eth_parsed p).
Definition with_tos (tos : Z) (h : ipv4) : ipv4 :=
  Ipv4 (ip_v h) (ip_hl h) tos (ip_iplen h) (ip_id h) (ip_flags h) (ip_frag h) (ip_ttl h)
    (ip_protocol h) (ip_csum h) (ip_srcip h) (ip_dstip h).

(** [packet.pack()]: packing sets lengths and checksums in the object. *)
Definition pack_at `{AppCodec} {C} (r : nat) : M (Switch C) bytes :=
  p ← deref r;
  let '(b, p) := ethernet_pack p in
  store r p;; lift b.

(** [packet.next] is an [mpls] with these fields and payload. *)
Definition next_mpls (p : ethernet) : option (option bool * mpls * payload) :=
  match eth_next p with PPacket parsed (LMpls m) next => Some (parsed, m, next) | _ => None end.
Definition is_vlan (p : ethernet) : bool :=
  match eth_next p with PPacket _ (LVlan _) _ => true | _ => false end.
Definition is_ipv4 (p : ethernet) : bool :=
  match eth_next p with PPacket _ (LIpv4 _) _ => true | _ => false end.

(** The entry [entry.touch_packet] changes is the table's. *)
Definition touch_entry (id byte_count now : Z) (t : FlowTable) : FlowTable :=
  set_table (map (fun e => if te_id e =? id then touch_packet byte_count now e else e) (ft_table t)) t.

Section SwitchImpl.
Context `{AppCodec} {C : Type} (send : of_msg -> M (Switch C) unit).

(** * Messages the switch sends *)

Definition send_hello : M (Switch C) unit := send (MHello ofp_hello_init).
Definition send_echo : M (Switch C) unit := send (MEchoRequest ofp_echo_request_init).

Definition send_packet_in (in_port : Z) (buffer_id : option Z) (packet : nat) (xid reason : option Z)
    : M (Switch C) unit :=
  let reason := default OFPR_NO_MATCH reason in
  let buffer_id := default 0xFFFFFFFF buffer_id in
  xid ← match xid with Some x => mret x | None => next_xid end;
  data ← pack_at packet;
  send (MPacketIn (with_xid (Some xid)
    (PacketIn (pi_hdr ofp_packet_in_init) in_port buffer_id reason data 0))).

Definition send_port_status (port : ofp_phy_port) (reason : Z) : M (Switch C) unit :=
  if negb (existsb (fun e => snd e =? reason) ofp_port_reason_rev_map) then raise AssertionError
  else send (MPortStatus (PortStatus (pst_hdr ofp_port_status_init) reason port)).

(** * The packet buffer *)

(** The first free slot, or a new one.  Buffer ids count from 1. *)
Fixpoint fill_slot (v : nat * Z) (i : Z) (l : list (option (nat * Z))) : list (option (nat * Z)) * Z :=
  match l with
  | [] => ([Some v], i + 1)
  | None :: l => (Some v :: l, i + 1)
  | Some x :: l => let '(l, id) := fill_slot v (i + 1) l in (Some x :: l, id)
  end.
Definition buffer_packet (packet : nat) (in_port : Z) : M (Switch C) Z :=
  s ← get;
  let '(l, id) := fill_slot (packet, in_port) 0 (sw_buffer s) in
  put (set_buffer l s);; mret id.

(** * Output *)

(** [port_no] None: formatting the message of the RuntimeError fails. *)
Definition real_send (packet : nat) (port_no : option Z) : M (Switch C) unit :=
  s ← get;
  match port_no with
  | None => raise TypeError
  | Some n =>
      match sw_ports s !! n with
      | None => raise RuntimeError
      | Some port => p ← deref packet; s ← get; put (set_out (sw_out s ++ [(p, port)]) s)
      end
  end.

(** Ports in the order of [map_to_list], for the dict's own. *)
Fixpoint flood (packet : nat) (in_port : Z) (ports : list (Z * ofp_phy_port)) : M (Switch C) unit :=
  match ports with
  | [] => mret tt
  | (no, port) :: ports =>
      (if no =? in_port then mret tt else real_send packet (Some (pp_port_no port)));;
      flood packet in_port ports
  end.

(** [None < OFPP_MAX] holds.  Raising a string is a TypeError. *)
Definition output_packet (packet : nat) (out_port : option Z) (in_port : Z) : M (Switch C) unit :=
  match out_port with
  | None => real_send packet None
  | Some p =>
      if p <? OFPP_MAX then real_send packet (Some p)
      else if p =? OFPP_IN_PORT then real_send packet (Some in_port)
      else if (p =? OFPP_FLOOD) || (p =? OFPP_ALL) then
        s ← get; flood packet in_port (map_to_list (sw_ports s))
      else if p =? OFPP_CONTROLLER then
        buffer_id ← buffer_packet packet in_port;
        xid ← next_xid;
        send_packet_in in_port (Some buffer_id) packet (Some xid) (Some OFPR_ACTION)
      else raise TypeError
  end.

(** * Actions on a packet *)

(** [packet.next = vlan(...)]: the new tag takes the packet's type and not its payload. *)
Definition push_vlan (packet : nat) : M (Switch C) unit :=
  p ← deref packet;
  if is_vlan p then mret tt
  else store packet (with_type 0x8100
         (with_next (PPacket (Some false) (LVlan (Vlan 0 0 0 (eth_type p) None)) PNone) p)).
(** No action has an attribute [vlan_id]. *)
Definition do_set_vlan_id (a : action) (packet : nat) : M (Switch C) unit :=
  push_vlan packet;; raise AttributeError.
(** [pcp] becomes an attribute of the ethernet object, which nothing reads. *)
Definition do_set_vlan_pcp (a : action) (packet : nat) : M (Switch C) unit :=
  push_vlan packet;; _ ← lift (attr_vlan_pcp a); mret tt.
Definition do_strip_vlan (a : action) (packet : nat) : M (Switch C) unit :=
  p ← deref packet;
  match eth_next p with
  | PPacket _ (LVlan v) next =>
      store packet (with_type (vlan_eth_type v) p);;
      match next with
      | PMissing => raise AttributeError
      | _ => update packet (with_next next)
      end
  | _ => mret tt
  end.
Definition do_set_dl_src (a : action) (packet : nat) : M (Switch C) unit :=
  addr ← lift (attr_dl_addr a); update packet (with_src addr).
Definition do_set_dl_dst (a : action) (packet : nat) : M (Switch C) unit :=
  addr ← lift (attr_dl_addr a); update packet (with_dst addr).
(** [nw_src] and [nw_dst] are not attributes of [ipv4]: setting them changes nothing. *)
Definition do_set_nw (a : action) (packet : nat) : M (Switch C) unit :=
  p ← deref packet;
  if is_ipv4 p then _ ← lift (attr_nw_addr a); mret tt else mret tt.
Definition do_set_nw_tos (a : action) (packet : nat) : M (Switch C) unit :=
  p ← deref packet;
  match eth_next p with
  | PPacket parsed (LIpv4 h) next =>
      tos ← lift (attr_nw_tos a);
      store packet (with_next (PPacket parsed (LIpv4 (with_tos tos h)) next) p)
  | _ => mret tt
  end.
(** Only a transport header directly inside the frame is looked at.  A port of None,
    which no action that can be packed has, is not modelled. *)
Definition do_set_tp (set_udp : Z -> udp -> udp) (set_tcp : Z -> tcp -> tcp)
    (a : action) (packet : nat) : M (Switch C) unit :=
  let port := o ← attr_tp_port a; match o with Some z => Ok z | None => Err TypeError end in
  p ← deref packet;
  match eth_next p with
  | PPacket parsed (LUdp u) next =>
      z ← lift port; store packet (with_next (PPacket parsed (LUdp (set_udp z u)) next) p)
  | PPacket parsed (LTcp t) next =>
      z ← lift port; store packet (with_next (PPacket parsed (LTcp (set_tcp z t)) next) p)
  | _ => mret tt
  end.
Definition do_set_tp_src : action -> nat -> M (Switch C) unit :=
  do_set_tp (fun z u => Udp z (udp_dstport u) (udp_len u) (udp_csum u))
    (fun z t => Tcp z (tcp_dstport t) (tcp_seq t) (tcp_ack t) (tcp_off t) (tcp_res t) (tcp_flags t)
                  (tcp_win t) (tcp_csum t) (tcp_urg t) (tcp_tcplen t) (tcp_options t)).
Definition do_set_tp_dst : action -> nat -> M (Switch C) unit :=
  do_set_tp (fun z u => Udp (udp_srcport u) z (udp_len u) (udp_csum u))
    (fun z t => Tcp (tcp_srcport t) z (tcp_seq t) (tcp_ack t) (tcp_off t) (tcp_res t) (tcp_flags t)
                  (tcp_win t) (tcp_csum t) (tcp_urg t) (tcp_tcplen t) (tcp_options t)).
(** An enqueue action has no [tp_port]; had it one, an integer has no [port]. *)
Definition do_enqueue (a : action) (packet : nat) : M (Switch C) unit := raise AttributeError.

Definition push_mpls_tag (ethertype : res Z) (packet : nat) : M (Switch C) unit :=
  p ← deref packet;
  let bottom_of_stack := bool_decide (is_Some (next_mpls p)) in
  _ ← pack_at packet;
  let m := Mpls 0 0 (if bottom_of_stack then 1 else 0) 0 in
  update packet (with_next (PPacket (Some false) (LMpls m) PNone));;
  ethertype ← lift ethertype;
  update packet (with_type ethertype).
Definition do_push_mpls (a : action) (packet : nat) : M (Switch C) unit :=
  push_mpls_tag (attr_ethertype a) packet.

(** [ethernet.type_parsers], vlan included. *)
Definition any_parser (type : Z) : option (bytes -> M pstate payload) :=
  if type =? 0x8100 then Some vlan_new else type_parser type.
Definition do_pop_mpls (a : action) (packet : nat) : M (Switch C) unit :=
  p ← deref packet;
  match next_mpls p with
  | None => mret tt
  | Some (parsed, m, next) =>
      let keep next := store packet (with_next (PPacket parsed (LMpls m) next) p) in
      raw ← match next with
            | PBytes b => mret b
            | PMissing | PNone => raise AttributeError
            | _ =>
                let '(r, next) := pack None next in
                keep next;; b ← lift r; keep (PBytes b);; mret b
            end;
      ethertype ← lift (attr_ethertype a);
      next ← match any_parser ethertype with
             | Some parse => zoom sw_pstate set_pstate (parse raw)
             | None => mret (PBytes raw)
             end;
      update packet (with_next next)
  end.

Definition set_mpls (f : mpls -> res mpls) (packet : nat) : M (Switch C) unit :=
  p ← deref packet;
  (if bool_decide (is_Some (next_mpls p)) then mret tt
   else push_mpls_tag (Ok (apm_ethertype ofp_action_push_mpls_init)) packet);;
  p ← deref packet;
  match next_mpls p with
  | Some (parsed, m, next) =>
      m ← lift (f m); store packet (with_next (PPacket parsed (LMpls m) next) p)
  | None => mret tt
  end.
Definition do_set_mpls_label (a : action) : nat -> M (Switch C) unit :=
  set_mpls (fun m => v ← attr_mpls_label a; Ok (Mpls v (mpls_tc m) (mpls_s m) (mpls_ttl m))).
Definition do_set_mpls_tc (a : action) : nat -> M (Switch C) unit :=
  set_mpls (fun m => v ← attr_mpls_tc a; Ok (Mpls (mpls_label m) v (mpls_s m) (mpls_ttl m))).
Definition do_set_mpls_ttl (a : action) : nat -> M (Switch C) unit :=
  set_mpls (fun m => v ← attr_mpls_ttl a; Ok (Mpls (mpls_label m) (mpls_tc m) (mpls_s m) v)).
Definition do_dec_mpls_ttl (a : action) (packet : nat) : M (Switch C) unit :=
  p ← deref packet;
  match next_mpls p with
  | Some (parsed, m, next) =>
      store packet (with_next (PPacket parsed
        (LMpls (Mpls (mpls_label m) (mpls_tc m) (mpls_s m) (mpls_ttl m - 1))) next) p)
  | None => mret tt
  end.

(** [handler_map]. *)
Definition action_handler (in_port type : Z) : option (action -> nat -> M (Switch C) unit) :=
  if type =? OFPAT_OUTPUT then
    Some (fun a packet => port ← lift (attr_port a); output_packet packet port in_port)
  else if type =? OFPAT_SET_VLAN_VID then Some do_set_vlan_id
  else if type =? OFPAT_SET_VLAN_PCP then Some do_set_vlan_pcp
  else if type =? OFPAT_STRIP_VLAN then Some do_strip_vlan
  else if type =? OFPAT_SET_DL_SRC then Some do_set_dl_src
  else if type =? OFPAT_SET_DL_DST then Some do_set_dl_dst
  else if type =? OFPAT_SET_NW_SRC then Some do_set_nw
  else if type =? OFPAT_SET_NW_DST then Some do_set_nw
  else if type =? OFPAT_SET_NW_TOS then Some do_set_nw_tos
  else if type =? OFPAT_SET_TP_SRC then Some do_set_tp_src
  else if type =? OFPAT_SET_TP_DST then Some do_set_tp_dst
  else if type =? OFPAT_ENQUEUE then Some do_enqueue
  else if type =? OFPAT_PUSH_MPLS then Some do_push_mpls
  else if type =? OFPAT_POP_MPLS then Some do_pop_mpls
  else if type =? OFPAT_SET_MPLS_LABEL then Some do_set_mpls_label
  else if type =? OFPAT_SET_MPLS_TC then Some do_set_mpls_tc
  else if type =? OFPAT_SET_MPLS_TTL then Some do_set_mpls_ttl
  else if type =? OFPAT_DEC_MPLS_TTL then Some do_dec_mpls_ttl
  else None.

(** [action.type] is never the class [ofp_action_resubmit].  Formatting the message of
    the NotImplementedError fails: [type] is the builtin there. *)
Definition do_action (in_port : Z) (packet : nat) (a : action) : M (Switch C) unit :=
  match t ← action_type a; action_handler in_port t with
  | Some h => h a packet
  | None => raise TypeError
  end.
Fixpoint do_actions (in_port : Z) (packet : nat) (actions : list action) : M (Switch C) unit :=
  match actions with
  | [] => mret tt
  | a :: actions => do_action in_port packet a;; do_actions in_port packet actions
  end.

(** The packet is an ethernet object or raw bytes. *)
Definition process_actions_for_packet (actions : list action) (packet : nat + bytes) (in_port : Z)
    : M (Switch C) unit :=
  r ← match packet with
      | inl r => mret r
      | inr raw => p ← zoom sw_pstate set_pstate (ethernet_new raw); alloc p
      end;
  do_actions in_port r actions.

Definition process_actions_for_packet_from_buffer (actions : list action) (buffer_id : Z)
    : M (Switch C) unit :=
  let buffer_id := buffer_id - 1 in
  s ← get;
  if zlen (sw_buffer s) <? buffer_id then mret tt
  else match sw_buffer s !! Z.to_nat buffer_id with
       | None => raise IndexError
       | Some None => mret tt
       | Some (Some (packet, in_port)) =>
           process_actions_for_packet actions (inl packet) in_port;;
           s ← get;
           put (set_buffer (<[Z.to_nat buffer_id := None]> (sw_buffer s)) s)
       end.

(** * The data plane *)

Definition process_packet (now : Z) (packet : nat) (in_port : Z) : M (Switch C) unit :=
  p ← deref packet;
  s ← get;
  entry ← lift (entry_for_packet p in_port (sw_table s));
  match entry with
  | Some e =>
      data ← pack_at packet;
      s ← get;
      put (set_flow_table (touch_entry (te_id e) (zlen data) now (sw_table s)) s);;
      process_actions_for_packet (te_actions e) (inl packet) in_port
  | None =>
      buffer_id ← buffer_packet packet in_port;
      xid ← next_xid;
      send_packet_in in_port (Some buffer_id) packet (Some xid) (Some OFPR_NO_MATCH)
  end.

Definition take_port_down (port : ofp_phy_port) : M (Switch C) unit :=
  s ← get;
  match sw_ports s !! pp_port_no port with
  | None => raise RuntimeError
  | Some _ =>
      put (set_ports (delete (pp_port_no port) (sw_ports s)) s);;
      send_port_status port OFPPR_DELETE
  end.
Definition bring_port_up (port : ofp_phy_port) : M (Switch C) unit :=
  s ← get;
  match sw_ports s !! pp_port_no port with
  | Some _ => raise RuntimeError
  | None =>
      put (set_ports (<[pp_port_no port := port]> (sw_ports s)) s);;
      send_port_status port OFPPR_ADD
  end.

(** * OpenFlow handlers *)

(** [str] of an integer. *)
Fixpoint dec_digits (fuel : nat) (z : Z) : bytes :=
  match fuel with
  | O => []
  | S fuel => (if z <? 10 then [] else dec_digits fuel (z / 10)) ++ [byte_of_Z (48 + z mod 10)]
  end.
Definition str_int (z : Z) : bytes :=
  (if z <? 0 then [x2d] else []) ++ dec_digits (S (Z.to_nat (Z.log2 (Z.abs z)))) (Z.abs z).

Definition receive_echo (m : ofp_echo_request) : M (Switch C) unit :=
  send (MEchoReply (with_xid (hdr_xid (er_hdr m)) ofp_echo_reply_init)).

Definition receive_features_request (m : ofp_features_request) : M (Switch C) unit :=
  s ← get;
  capabilities ← lift (get_capabilities (sw_capabilities s));
  send (MFeaturesReply (with_xid (hdr_xid (fq_hdr m))
    (ofp_features_reply_init (sw_dpid s) (sw_n_buffers s) (sw_n_tables s) capabilities
       (get_actions (sw_capabilities s)) (map snd (map_to_list (sw_ports s)))))).

Definition receive_flow_mod (now : Z) (m : ofp_flow_mod) : M (Switch C) unit :=
  s ← get;
  '(_, t) ← lift (process_flow_mod m now (sw_table s));
  put (set_flow_table t s);;
  if 0 <? fm_buffer_id m
  then process_actions_for_packet_from_buffer (fm_actions m) (fm_buffer_id m) else mret tt.

Definition receive_packet_out (m : ofp_packet_out) : M (Switch C) unit :=
  if negb (bool_decide (po_data m = []))
  then process_actions_for_packet (po_actions m) (inr (po_data m)) (po_in_port m)
  else if 0 <? po_buffer_id m
  then process_actions_for_packet_from_buffer (po_actions m) (po_buffer_id m)
  else mret tt.

Definition receive_barrier_request (m : ofp_barrier_request) : M (Switch C) unit :=
  send (MBarrierReply (with_xid (hdr_xid (bq_hdr m)) ofp_barrier_reply_init)).

Definition receive_get_config_request (m : ofp_get_config_request) : M (Switch C) unit :=
  send (MGetConfigReply (with_xid (hdr_xid (gq_hdr m)) ofp_get_config_reply_init)).

Definition desc_stats (dpid : Z) : ofp_desc_stats :=
  DescStats (lit "BadAssEmulatedPoxSwitch(TM)") (lit "your finest emulated asics")
    (lit "pox. reliable, fast, stable. Choose 0 (or more?)") (str_int dpid)
    (lit "high performance emuswitch. Several packets per second have been observed (but not by reliable witnesses)").

(** The body of the reply.  A request read from the wire has a byte string as its body.
    The switch has no attribute [table_id], [unpack] returns the rest of the string,
    which has no [port_no], and the table has no [table_stats].  A [type] of None
    cannot be formatted. *)
Definition stats_body (dpid : Z) (type : option Z) (body : bytes) : res stats_part :=
  match type with
  | None => Err TypeError
  | Some t =>
      if t =? OFPST_DESC then Ok (SpDesc (desc_stats dpid))
      else if t =? OFPST_FLOW then
        _ ← ofp_flow_stats_request_unpack ofp_flow_stats_request_init body; Err AttributeError
      else if t =? OFPST_AGGREGATE then
        _ ← ofp_aggregate_stats_request_unpack ofp_aggregate_stats_request_init body; Err AttributeError
      else if t =? OFPST_PORT then
        _ ← ofp_port_stats_request_unpack ofp_port_stats_request_init body; Err AttributeError
      else Err AttributeError
  end.
Definition receive_stats_request (m : ofp_stats_request) : M (Switch C) unit :=
  s ← get;
  body ← lift (match srq_body m with SpBytes b => stats_body (sw_dpid s) (srq_type m) b | _ => Err TypeError end);
  send (MStatsReply (with_xid (hdr_xid (srq_hdr m))
    (StatsReply (srp_hdr ofp_stats_reply_init) 0 0 (RbOne body)))).

Definition receive_vendor (m : ofp_vendor) : M (Switch C) unit :=
  send (MError (OfpError (oe_hdr ofp_error_init) OFPET_BAD_REQUEST OFPBRC_BAD_VENDOR [])).

(** [ofp_handlers]: a message of a type comes as an object of its class.  [vendor]: the
    switch's [_receive_vendor].  Replies to an echo and [set_config] are only logged. *)
Definition handler (vendor : ofp_vendor -> M (Switch C) unit) (now : Z) (m : of_msg)
    : option (M (Switch C) unit) :=
  match m with
  | MHello _ => Some send_hello
  | MEchoRequest m => Some (receive_echo m)
  | MFeaturesRequest m => Some (receive_features_request m)
  | MFlowMod m => Some (receive_flow_mod now m)
  | MPacketOut m => Some (receive_packet_out m)
  | MBarrierRequest m => Some (receive_barrier_request m)
  | MGetConfigRequest m => Some (receive_get_config_request m)
  | MSetConfig _ => Some (mret tt)
  | MStatsRequest m => Some (receive_stats_request m)
  | MVendor m => Some (vendor m)
  | MEchoReply _ => Some (mret tt)
  | _ => None
  end.
End SwitchImpl.

(** * One controller *)

(** [ControllerConnection.send]: the message, which packing may change, and the bytes
    given to the worker.  A message whose [pack] gives None cannot be sent. *)
Definition conn_pack (m : of_msg) : M Z (of_msg * bytes) :=
  '(m, data) ← of_msg_pack m;
  match data with Some d => mret (m, d) | None => raise TypeError end.

(** [SwitchImpl.send].  The connection is the byte strings given to the worker, in
    order. *)
Definition switch_send (m : of_msg) : M (Switch (option (list bytes))) unit :=
  s ← get;
  match sw_chan s with
  | Some sent =>
      '(_, d) ← zoom sw_xids set_xids (conn_pack m);
      s ← get; put (set_chan (Some (sent ++ [d])) s)
  | None => mret tt
  end.

(** What [ControllerConnection.read] calls for a message; a type without a handler is a
    RuntimeError. *)
Definition switch_handle `{AppCodec} (now : Z) (ofp_type : Z) (m : of_msg)
    : M (Switch (option (list bytes))) unit :=
  match handler switch_send (receive_vendor switch_send) now m with
  | Some h => h
  | None => raise RuntimeError
  end.

(** [SwitchImpl]'s connection reading what the controller sent. *)
Definition switch_read `{AppCodec} (now : Z)
    : M (IOWorker * Switch (option (list bytes))) (option bool) :=
  controller_read (switch_handle now).
