(* ===== verification/Steps.v ===== *)
(** Reasoning about computations in the state-and-exception monad: relations between the
    states before and after that every step keeps, with the tactic that goes through the
    code, and the equations that run it. *)
From S2P Require Import Prelude.

(** * Relations that every step keeps *)

(** From [s], the computation ends in a related state, whether or not it raises. *)
Definition keeps_at {S} (R : relation S) {A} (s : S) (m : M S A) : Prop := R s (m s).2.

Section keeps.
Context {S : Type} (R : relation S) `{!PreOrder R}.
Lemma keeps_pure {A} s (m : M S A) : (m s).2 = s -> keeps_at R s m.
Proof. unfold keeps_at. by intros ->. Qed.
Lemma keeps_bind {A B} s (m : M S A) (f : A -> M S B) :
  keeps_at R s m -> (forall a s', m s = (Ok a, s') -> R s s' -> keeps_at R s' (f a)) ->
  keeps_at R s (m ≫= f).
Proof.
  unfold keeps_at, mbind, M_bind. intros Hm Hf. destruct (m s) as [[a|e] s'] eqn:E; cbn in *; [|done].
  etrans; [done|]. by apply Hf.
Qed.
Lemma keeps_put {B} s v (f : unit -> M S B) : R s v -> keeps_at R v (f tt) -> keeps_at R s (put v ≫= f).
Proof. intros. apply keeps_bind; [done|]. by intros ?? [= <- <-]. Qed.
Lemma keeps_lift {A B} s (x : res A) (f : A -> M S B) :
  (forall a, x = Ok a -> keeps_at R s (f a)) -> keeps_at R s (lift x ≫= f).
Proof. intros Hf. apply keeps_bind; [by apply keeps_pure|]. intros a s' [= E <-] _. by apply Hf. Qed.
End keeps.

(** Symbolic execution of the code under [keeps_at]; [tac] settles the relation at an
    assignment, calls are left to the hypotheses and lemmas of the hint base [keeps]. *)
Create HintDb keeps.
Ltac keeps_step tac :=
  match goal with
  | |- keeps_at ?R ?s (mret _) => by apply (keeps_pure R)
  | |- keeps_at ?R ?s (lift _) => by apply (keeps_pure R)
  | |- keeps_at ?R ?s (raise _) => by apply (keeps_pure R)
  | |- keeps_at ?R ?s (put _) => unfold keeps_at, put; cbn [snd]; tac
  | |- keeps_at ?R ?s (mbind ?f get) => change (keeps_at R s (f s)); cbv beta
  | |- keeps_at ?R ?s (mbind _ (put _)) => apply (keeps_put R); [tac|]
  | |- keeps_at ?R ?s (mbind _ (lift _)) => apply (keeps_lift R); intros
  | |- keeps_at ?R ?s (mbind _ (mret _)) => apply (keeps_bind R); [by apply (keeps_pure R)|intros ? ? [= <- <-] _]
  | |- keeps_at ?R ?s (mbind _ _) => apply (keeps_bind R); [|intros ? ? ? ?]
  | |- keeps_at ?R ?s (let '(_, _) := ?x in _) => destruct x eqn:?
  | |- keeps_at ?R ?s (match ?x with _ => _ end) => destruct x eqn:?
  | |- keeps_at ?R ?s _ => solve [eauto with keeps]
  end.
Ltac keeps_solve tac := repeat keeps_step tac.

(** * Running the code *)

Lemma bind_ok {S A B} (m : M S A) (f : A -> M S B) s a s' :
  m s = (Ok a, s') -> (m ≫= f) s = f a s'.
Proof. unfold mbind, M_bind. by intros ->. Qed.
Lemma bind_err {S A B} (m : M S A) (f : A -> M S B) s e s' : m s = (Err e, s') -> (m ≫= f) s = (Err e, s').
Proof. unfold mbind, M_bind. by intros ->. Qed.
Lemma bind_get {S B} (f : S -> M S B) s : (get ≫= f) s = f s s.
Proof. done. Qed.
Lemma bind_put {S B} v (f : unit -> M S B) s : (put v ≫= f) s = f tt v.
Proof. done. Qed.

