(* ===== verification/NXSwitch.v ===== *)
(** The software switch with several controllers ([openflow/nx_switch_impl.py]) and the
    vendor data it understands ([openflow/nicira_ext.py]). *)
From S2P Require Import Prelude.
From S2P Require Import PyStruct.
From S2P Require Import OfConst.
From S2P Require Import OfBase.
From S2P Require Import OfMessages.
From S2P Require Import PacketCodec.
From S2P Require Import FlowTable.
From S2P Require Import Connection.
From S2P Require Import SoftSwitch.

(** * Vendor data *)

Definition VENDOR_ID : Z := 0x00002320.
Definition ROLE_REQUEST : Z := 10.
Definition ROLE_REPLY : Z := 11.
Definition ROLE_OTHER : Z := 0.
Definition ROLE_MASTER : Z := 1.
Definition ROLE_SLAVE : Z := 2.

(** The attribute [length] of these classes is never packed or read; it is left out. *)
Record nx_data := NxData { nxd_subtype : Z }.
Definition nx_data_init : nx_data := NxData 0.
Definition nx_data_pack (d : nx_data) : res bytes := struct_pack "!L" [nxd_subtype d].
Definition nx_data_unpack (d : nx_data) (b : bytes) : res (nx_data * bytes) :=
  if zlen b <? 4 then Ok (d, b)
  else tuple [subtype] ← struct_unpack_from "!L" b 0; Ok (NxData subtype, slice_from b 4).

Record role_data := RoleData { rd_nx : nx_data; rd_role : Z }.
Definition role_data_init (subtype role : Z) : role_data := RoleData (NxData subtype) role.
Definition role_data_pack (d : role_data) : res bytes :=
  a ← nx_data_pack (rd_nx d); b ← struct_pack "!L" [rd_role d]; Ok (a ++ b).
Definition role_data_unpack (d : role_data) (b : bytes) : res (role_data * bytes) :=
  if zlen b <? 8 then Ok (d, b)
  else
    '(nx, _) ← nx_data_unpack (rd_nx d) (slice_from b 0);
    tuple [role] ← struct_unpack_from "!L" b 4;
    Ok (RoleData nx role, slice_from b 8).

(** The classes [role_request_data] and [role_reply_data]. *)
Inductive nx_vendor_data :=
  | RoleRequest (d : role_data)
  | RoleReply (d : role_data).

Definition unpack_vendor_data_nx (data : bytes) : res nx_vendor_data :=
  if zlen data <? 4 then Err RuntimeError
  else
    '(nx, _) ← nx_data_unpack nx_data_init data;
    if nxd_subtype nx =? ROLE_REQUEST then
      '(d, _) ← role_data_unpack (role_data_init ROLE_REQUEST ROLE_OTHER) data; Ok (RoleRequest d)
    else if nxd_subtype nx =? ROLE_REPLY then
      '(d, _) ← role_data_unpack (role_data_init ROLE_REPLY ROLE_OTHER) data; Ok (RoleReply d)
    else Err NotImplementedError.

(** * State *)

(** A connection is its [ID].  [nx_last_id]: the class attribute [ControllerConnection.ID].
    [nx_sent]: the byte strings given to the workers, with the connection. *)
Record NX := MkNX {
  nx_connections : list Z;
  nx_role_by_conn : gmap Z Z;
  nx_connection_in_action : option Z;
  nx_next_other : Z;
  nx_last_id : Z;
  nx_sent : list (Z * bytes)
}.
Definition NX_init (last_id : Z) : NX := MkNX [] ∅ None 0 last_id [].

Definition set_roles (r : gmap Z Z) (x : NX) : NX :=
  MkNX (nx_connections x) r (nx_connection_in_action x) (nx_next_other x) (nx_last_id x) (nx_sent x).
Definition set_in_action (c : option Z) (x : NX) : NX :=
  MkNX (nx_connections x) (nx_role_by_conn x) c (nx_next_other x) (nx_last_id x) (nx_sent x).
Definition set_next_other (n : Z) (x : NX) : NX :=
  MkNX (nx_connections x) (nx_role_by_conn x) (nx_connection_in_action x) n (nx_last_id x) (nx_sent x).
Definition log_sent (c : Z) (d : bytes) (x : NX) : NX :=
  MkNX (nx_connections x) (nx_role_by_conn x) (nx_connection_in_action x) (nx_next_other x)
    (nx_last_id x) (nx_sent x ++ [(c, d)]).

Abbreviation NXSwitchImpl := (Switch NX).
Definition modify_nx (f : NX -> NX) : M NXSwitchImpl unit :=
  s ← get; put (set_chan (f (sw_chan s)) s).

(** [add_connection]; [set_io_worker] makes the connection and adds it. *)
Definition add_connection (c : Z) : M NXSwitchImpl Z :=
  modify_nx (fun x => MkNX (nx_connections x ++ [c]) (<[c := ROLE_OTHER]> (nx_role_by_conn x))
    (nx_connection_in_action x) (nx_next_other x) (nx_last_id x) (nx_sent x));;
  mret c.
Definition set_io_worker : M NXSwitchImpl Z :=
  s ← get;
  let id := nx_last_id (sw_chan s) + 1 in
  modify_nx (fun x => MkNX (nx_connections x) (nx_role_by_conn x) (nx_connection_in_action x)
    (nx_next_other x) id (nx_sent x));;
  add_connection id.

(** * Sending *)

(** [c.send(message)]: the message object as packing leaves it. *)
Definition send_to (c : Z) (m : of_msg) : M NXSwitchImpl of_msg :=
  '(m, d) ← zoom sw_xids set_xids (conn_pack m);
  modify_nx (log_sent c d);; mret m.

Fixpoint send_to_all (cs : list Z) (m : of_msg) : M NXSwitchImpl unit :=
  match cs with
  | [] => mret tt
  | c :: cs => m ← send_to c m; send_to_all cs m
  end.

(** [[c for c in self.connections if self.role_by_conn[c.ID] == role]]. *)
Fixpoint with_role (role : Z) (roles : gmap Z Z) (cs : list Z) : res (list Z) :=
  match cs with
  | [] => Ok []
  | c :: cs =>
      match roles !! c with
      | None => Err KeyError
      | Some r => l ← with_role role roles cs; Ok (if r =? role then c :: l else l)
      end
  end.

Definition messages_for_all (m : of_msg) : bool :=
  match m with MPortStatus _ => true | _ => false end.

Definition nx_send (m : of_msg) : M NXSwitchImpl unit :=
  s ← get;
  let x := sw_chan s in
  if messages_for_all m then send_to_all (nx_connections x) m
  else match nx_connection_in_action x with
  | Some c => _ ← send_to c m; mret tt
  | None =>
      masters ← lift (with_role ROLE_MASTER (nx_role_by_conn x) (nx_connections x));
      match masters with
      | c :: _ => _ ← send_to c m; mret tt
      | [] =>
          others ← lift (with_role ROLE_OTHER (nx_role_by_conn x) (nx_connections x));
          match others with
          | [] => mret tt
          | _ =>
              let n := nx_next_other x mod zlen others in
              modify_nx (set_next_other n);;
              c ← lift (match others !! Z.to_nat n with Some c => Ok c | None => Err IndexError end);
              _ ← send_to c m;
              modify_nx (fun x => set_next_other (nx_next_other x + 1) x)
          end
      end
  end.

(** * Rights and roles *)

Definition slave_blacklist (m : of_msg) : bool :=
  match m with
  | MFlowMod _ | MPacketOut _ | MPortMod _ | MBarrierRequest _ => true | _ => false
  end.

Definition check_rights (m : of_msg) (c : Z) : M NXSwitchImpl bool :=
  s ← get;
  match nx_role_by_conn (sw_chan s) !! c with
  | None => raise KeyError
  | Some r => mret (if negb (r =? ROLE_SLAVE) then true else negb (slave_blacklist m))
  end.

Definition send_error (c : Z) : M NXSwitchImpl unit :=
  _ ← send_to c (MError (OfpError (oe_hdr ofp_error_init) OFPET_BAD_REQUEST OFPBRC_BAD_VENDOR []));
  mret tt.

(** A new master makes slaves of the other connections. *)
Definition demote (c : Z) (cs : list Z) (roles : gmap Z Z) : gmap Z Z :=
  foldl (fun roles c' => if c' =? c then roles else <[c' := ROLE_SLAVE]> roles) roles cs.
Definition set_role (c role : Z) : M NXSwitchImpl unit :=
  modify_nx (fun x => set_roles (<[c := role]> (nx_role_by_conn x)) x);;
  if role =? ROLE_MASTER
  then modify_nx (fun x => set_roles (demote c (nx_connections x) (nx_role_by_conn x)) x)
  else mret tt.

(** The clause [except NotImplemented] catches nothing: that is not an exception class. *)
Definition nx_receive_vendor (c : Z) (vendor : ofp_vendor) : M NXSwitchImpl unit :=
  if ve_vendor vendor =? VENDOR_ID then
    data ← lift (unpack_vendor_data_nx (ve_data vendor));
    match data with
    | RoleRequest d =>
        set_role c (rd_role d);;
        data ← lift (role_data_pack (role_data_init ROLE_REPLY (rd_role d)));
        nx_send (MVendor (Vendor (ve_hdr ofp_vendor_init) VENDOR_ID data))
    | RoleReply _ => mret tt
    end
  else receive_vendor nx_send vendor.

(** The handlers [beef_up_handlers] makes, called by the reader of connection [c].  An
    exception leaves [connection_in_action] set. *)
Definition nx_handle `{AppCodec} (now c : Z) (ofp_type : Z) (m : of_msg) : M NXSwitchImpl unit :=
  match handler nx_send (nx_receive_vendor c) now m with
  | None => raise RuntimeError
  | Some h =>
      modify_nx (set_in_action (Some c));;
      rights ← check_rights m c;
      (if (rights : bool) then h else send_error c);;
      modify_nx (set_in_action None)
  end.

Definition nx_read `{AppCodec} (now c : Z) : M (IOWorker * NXSwitchImpl) (option bool) :=
  controller_read (nx_handle now c).
