(* ===== verification/SwitchTheory.v ===== *)
(** The software switch: what every operation keeps, the invariant of its state, and
    what the handlers and the data plane do. *)
From S2P Require Import Prelude.
From S2P Require Import Steps.
From S2P Require Import PyStruct.
From S2P Require Import Addresses.
From S2P Require Import OfConst.
From S2P Require Import Wire.
From S2P Require Import OfBase.
From S2P Require Import OfMatch.
From S2P Require Import MatchTheory.
From S2P Require Import OfActions.
From S2P Require Import OfMessages.
From S2P Require Import OfStatsMsg.
From S2P Require Import Packets.
From S2P Require Import PacketCodec.
From S2P Require Import PacketTheory.
From S2P Require Import FlowTable.
From S2P Require Import Connection.
From S2P Require Import SoftSwitch.
From S2P Require Import NXSwitch.

(** * The connections *)

(** What a preorder on the connections' state says of [send], it says of the switch. *)
Section connections.
Context `{AppCodec} {C : Type} (Q : relation C) `{!PreOrder Q}.
Definition by_chan : relation (Switch C) := fun s s' => Q (sw_chan s) (sw_chan s').
#[local] Instance by_chan_preorder : PreOrder by_chan.
Proof. split; unfold by_chan; [intros x; reflexivity|intros x y z; apply transitivity]. Qed.

Lemma zoom_chan {T A} (part : Switch C -> T) set (m : M T A) s :
  (forall v, sw_chan (set v s) = sw_chan s) -> keeps_at by_chan s (zoom part set m).
Proof.
  intros Hs. unfold keeps_at, by_chan, zoom. destruct (m (part s)); cbn. by rewrite Hs.
Qed.

Variable send : of_msg -> M (Switch C) unit.
Hypothesis send_keeps : forall m s, messages_for_all m = false -> keeps_at by_chan s (send m).
Ltac go := keeps_solve ltac:(unfold by_chan; simpl; reflexivity).
#[local] Hint Resolve send_keeps : keeps.
#[local] Hint Extern 1 (keeps_at _ _ (zoom _ _ _)) => by apply zoom_chan : keeps.

Lemma deref_chan r s : keeps_at by_chan s (deref r). Proof. unfold deref. go. Qed.
Lemma store_chan r p s : keeps_at by_chan s (store r p). Proof. unfold store. go. Qed.
Lemma alloc_chan p s : keeps_at by_chan s (alloc p). Proof. unfold alloc. go. Qed.
#[local] Hint Resolve deref_chan store_chan alloc_chan : keeps.
Lemma update_chan r f s : keeps_at by_chan s (update r f). Proof. unfold update. go. Qed.
Lemma pack_at_chan r s : keeps_at by_chan s (pack_at r). Proof. unfold pack_at. go. Qed.
Lemma buffer_packet_chan r i s : keeps_at by_chan s (buffer_packet r i).
Proof. unfold buffer_packet. go. Qed.
Lemma next_xid_chan s : keeps_at by_chan s next_xid. Proof. by apply zoom_chan. Qed.
#[local] Hint Resolve update_chan pack_at_chan buffer_packet_chan next_xid_chan : keeps.
Lemma send_packet_in_chan i b p x r s : keeps_at by_chan s (send_packet_in send i b p x r).
Proof. unfold send_packet_in. go. Qed.
Lemma real_send_chan p o s : keeps_at by_chan s (real_send p o). Proof. unfold real_send. go. Qed.
#[local] Hint Resolve send_packet_in_chan real_send_chan : keeps.
Lemma flood_chan p i l s : keeps_at by_chan s (flood p i l).
Proof. revert s; induction l as [|[no port] l IH]; intros s; cbn [flood]; go. Qed.
#[local] Hint Resolve flood_chan : keeps.
Lemma output_packet_chan p o i s : keeps_at by_chan s (output_packet send p o i).
Proof. unfold output_packet. go. Qed.
Lemma push_vlan_chan p s : keeps_at by_chan s (push_vlan p). Proof. unfold push_vlan. go. Qed.
Lemma push_mpls_tag_chan t p s : keeps_at by_chan s (push_mpls_tag t p).
Proof. unfold push_mpls_tag. go. Qed.
#[local] Hint Resolve output_packet_chan push_vlan_chan push_mpls_tag_chan : keeps.
Lemma set_mpls_chan f p s : keeps_at by_chan s (set_mpls f p). Proof. unfold set_mpls. go. Qed.
#[local] Hint Resolve set_mpls_chan : keeps.

Lemma do_action_chan i p a s : keeps_at by_chan s (do_action send i p a).
Proof.
  unfold do_action. destruct (action_type a) as [t|]; cbn [mbind option_bind]; [|go].
  unfold action_handler.
  repeat (destruct (t =? _);
    [unfold do_set_vlan_id, do_set_vlan_pcp, do_strip_vlan, do_set_dl_src, do_set_dl_dst, do_set_nw,
       do_set_nw_tos, do_set_tp_src, do_set_tp_dst, do_set_tp, do_enqueue, do_push_mpls, do_pop_mpls,
       do_set_mpls_label, do_set_mpls_tc, do_set_mpls_ttl, do_dec_mpls_ttl; go|]); go.
Qed.
#[local] Hint Resolve do_action_chan : keeps.
Lemma do_actions_chan i p l s : keeps_at by_chan s (do_actions send i p l).
Proof. revert s; induction l as [|a l IH]; intros s; cbn [do_actions]; go. Qed.
#[local] Hint Resolve do_actions_chan : keeps.
Lemma process_actions_for_packet_chan l p i s :
  keeps_at by_chan s (process_actions_for_packet send l p i).
Proof. unfold process_actions_for_packet. go. Qed.
#[local] Hint Resolve process_actions_for_packet_chan : keeps.
Lemma process_actions_for_packet_from_buffer_chan l b s :
  keeps_at by_chan s (process_actions_for_packet_from_buffer send l b).
Proof. unfold process_actions_for_packet_from_buffer. go. Qed.
#[local] Hint Resolve process_actions_for_packet_from_buffer_chan : keeps.

Lemma process_packet_chan now p i s : keeps_at by_chan s (process_packet send now p i).
Proof. unfold process_packet. go. Qed.
Lemma handler_chan vendor now m h s : (forall v s, keeps_at by_chan s (vendor v)) ->
  handler send vendor now m = Some h -> keeps_at by_chan s h.
Proof.
  intros Hv E. destruct m; try discriminate; injection E as <-; try apply Hv;
    unfold send_hello, receive_echo, receive_features_request, receive_flow_mod, receive_packet_out,
      receive_barrier_request, receive_get_config_request, receive_stats_request; go.
Qed.

Hypothesis send_all_keeps : forall m s, keeps_at by_chan s (send m).
#[local] Hint Resolve send_all_keeps : keeps.
Lemma send_port_status_chan p r s : keeps_at by_chan s (send_port_status send p r).
Proof. unfold send_port_status. go. Qed.
#[local] Hint Resolve send_port_status_chan : keeps.
Lemma take_port_down_chan p s : keeps_at by_chan s (take_port_down send p).
Proof. unfold take_port_down. go. Qed.
Lemma bring_port_up_chan p s : keeps_at by_chan s (bring_port_up send p).
Proof. unfold bring_port_up. go. Qed.
End connections.

(** * The switch invariant *)

(** What the switch asks of the way its messages leave: nothing but the connections and
    the generator of xids changes. *)
Class Sends {C} (send : of_msg -> M (Switch C) unit) :=
  sends_frame m s : exists c x, (send m s).2 = set_chan c (set_xids x s).

#[export] Instance switch_sends : Sends switch_send.
Proof.
  intros m s. unfold switch_send, mbind, M_bind, get, put, zoom, mret, M_ret.
  destruct (sw_chan s) as [sent|] eqn:Ec.
  - destruct (conn_pack m (sw_xids s)) as [[[m' d]|e] x] eqn:E.
    + exists (Some (sent ++ [d])), x. reflexivity.
    + exists (Some sent), x. destruct s; cbn in *. by subst.
  - exists None, (sw_xids s). destruct s; cbn in *. by subst.
Qed.

Definition valid {C} (s : Switch C) (r : nat) : Prop := (r < length (sw_heap s))%nat.

(** The flow table is well formed, every buffered packet exists, ports are known by their
    own numbers, and the next transaction id is one. *)
Record switch_wf {C} (s : Switch C) : Prop := {
  wf_table : table_wf (sw_table s);
  wf_buffer : Forall (fun o => match o with Some (r, _) => valid s r | None => True end) (sw_buffer s);
  wf_ports : map_Forall (fun n p => pp_port_no p = n) (sw_ports s);
  wf_xid_count : 0 <= sw_xid_count s <= MAX_XID
}.

(** Packets are never lost, and the invariant is kept. *)
Definition sound {C} : relation (Switch C) := fun s s' =>
  (length (sw_heap s) <= length (sw_heap s'))%nat /\ (switch_wf s -> switch_wf s').
#[export] Instance sound_preorder {C} : PreOrder (sound (C:=C)).
Proof. split; [by split|]. intros x y z [? ?] [? ?]. split; [lia|auto]. Qed.

Lemma sound_valid {C} (s s' : Switch C) r : sound s s' -> valid s r -> valid s' r.
Proof. unfold sound, valid. intros [? _] ?. lia. Qed.

(** Changes that the invariant does not mention. *)
Lemma sound_same {C} (s s' : Switch C) : length (sw_heap s') = length (sw_heap s) ->
  sw_table s' = sw_table s -> sw_buffer s' = sw_buffer s -> sw_ports s' = sw_ports s ->
  sw_xid_count s' = sw_xid_count s -> sound s s'.
Proof.
  intros Eh Et Eb Ep Ex. split; [lia|]. intros [H1 H2 H3 H4].
  constructor; rewrite ?Et, ?Eb, ?Ep, ?Ex; [done| |done|done].
  apply (Forall_impl _ _ _ H2). intros [[r i]|]; [|done]. unfold valid. by rewrite Eh.
Qed.

Lemma fill_slot_Forall P v i l : P (Some v) -> Forall P l -> Forall P (fill_slot v i l).1.
Proof.
  intros Hv Hl. revert i. induction Hl as [|[x|] l Hx Hl IH]; intros i; cbn [fill_slot].
  - by repeat constructor.
  - specialize (IH (i + 1)). destruct (fill_slot v (i + 1) l). cbn in *. by constructor.
  - cbn. by constructor.
Qed.

Section invariant.
Context `{AppCodec} {C : Type} (send : of_msg -> M (Switch C) unit) `{!Sends send}.
Implicit Types s : Switch C.

Lemma zoom_pstate_sound {A} (m : M pstate A) s : keeps_at sound s (zoom sw_pstate set_pstate m).
Proof. unfold keeps_at, zoom. destruct (m (sw_pstate s)). by apply sound_same. Qed.
Lemma next_xid_sound s : keeps_at sound s next_xid.
Proof.
  unfold keeps_at, next_xid, zoom, xid_next. cbn. split; [done|]. intros [H1 H2 H3 H4].
  constructor; [done|done|done|]. cbn. pose proof (Z.mod_pos_bound (sw_xid_count s + 1) (MAX_XID + 1) ltac:(by vm_compute)). lia.
Qed.
Lemma send_sound m s : keeps_at sound s (send m).
Proof. unfold keeps_at. destruct (sends_frame m s) as (c & x & ->). by apply sound_same. Qed.
Lemma buffer_packet_sound r i s : valid s r -> keeps_at sound s (buffer_packet r i).
Proof.
  intros Hr. unfold keeps_at, buffer_packet, mbind, M_bind, get, put.
  destruct (fill_slot (r, i) 0 (sw_buffer s)) as [l id] eqn:E. cbn.
  split; [done|]. intros [H1 H2 H3 H4]. constructor; [done| |done|done].
  pose proof (fill_slot_Forall _ (r, i) 0 (sw_buffer s) Hr H2) as Hf. by rewrite E in Hf.
Qed.
#[local] Hint Resolve zoom_pstate_sound next_xid_sound send_sound buffer_packet_sound : keeps.
#[local] Hint Extern 1 (valid _ _) => match goal with
  | Hr : sound ?s ?s', Hv : valid ?s ?r |- valid ?s' ?r => apply (sound_valid s s' r Hr Hv)
  end : keeps.
Ltac go := keeps_solve ltac:(by apply sound_same; rewrite ?length_insert).

Lemma deref_sound r s : keeps_at sound s (deref r). Proof. unfold deref. go. Qed.
Lemma store_sound r p s : keeps_at sound s (store r p).
Proof. unfold store. go. apply sound_same; cbn; by rewrite ?length_insert. Qed.
#[local] Hint Resolve deref_sound store_sound : keeps.
Lemma alloc_sound p s : keeps_at sound s (alloc p).
Proof.
  unfold alloc. go. split; [cbn; rewrite length_app; lia|]. intros [H1 H2 H3 H4].
  constructor; [done| |done|done]. apply (Forall_impl _ _ _ H2).
  intros [[r i]|]; [|done]. unfold valid. cbn. rewrite length_app. lia.
Qed.
Lemma update_sound r f s : keeps_at sound s (update r f). Proof. unfold update. go. Qed.
Lemma pack_at_sound r s : keeps_at sound s (pack_at r). Proof. unfold pack_at. go. Qed.
#[local] Hint Resolve alloc_sound update_sound pack_at_sound : keeps.
Lemma send_packet_in_sound i b p x r s : keeps_at sound s (send_packet_in send i b p x r).
Proof. unfold send_packet_in. go. Qed.
Lemma real_send_sound p o s : keeps_at sound s (real_send p o). Proof. unfold real_send. go. Qed.
#[local] Hint Resolve send_packet_in_sound real_send_sound : keeps.
Lemma flood_sound p i l s : keeps_at sound s (flood p i l).
Proof. revert s; induction l as [|[no port] l IH]; intros s; cbn [flood]; go. Qed.
#[local] Hint Resolve flood_sound : keeps.
Lemma output_packet_sound p o i s : valid s p -> keeps_at sound s (output_packet send p o i).
Proof. intros Hp. unfold output_packet. go. Qed.
Lemma push_vlan_sound p s : keeps_at sound s (push_vlan p). Proof. unfold push_vlan. go. Qed.
Lemma push_mpls_tag_sound t p s : keeps_at sound s (push_mpls_tag t p).
Proof. unfold push_mpls_tag. go. Qed.
#[local] Hint Resolve output_packet_sound push_vlan_sound push_mpls_tag_sound : keeps.
Lemma set_mpls_sound f p s : keeps_at sound s (set_mpls f p). Proof. unfold set_mpls. go. Qed.
#[local] Hint Resolve set_mpls_sound : keeps.

Lemma do_action_sound i p a s : valid s p -> keeps_at sound s (do_action send i p a).
Proof.
  intros Hp. unfold do_action. destruct (action_type a) as [t|]; cbn [mbind option_bind]; [|go].
  unfold action_handler.
  repeat (destruct (t =? _);
    [unfold do_set_vlan_id, do_set_vlan_pcp, do_strip_vlan, do_set_dl_src, do_set_dl_dst, do_set_nw,
       do_set_nw_tos, do_set_tp_src, do_set_tp_dst, do_set_tp, do_enqueue, do_push_mpls, do_pop_mpls,
       do_set_mpls_label, do_set_mpls_tc, do_set_mpls_ttl, do_dec_mpls_ttl; go|]); go.
Qed.
#[local] Hint Resolve do_action_sound : keeps.
Lemma do_actions_sound i p l s : valid s p -> keeps_at sound s (do_actions send i p l).
Proof. revert s; induction l as [|a l IH]; intros s Hp; cbn [do_actions]; go. Qed.
#[local] Hint Resolve do_actions_sound : keeps.
Lemma process_actions_for_packet_sound l p i s : match p with inl r => valid s r | inr _ => True end ->
  keeps_at sound s (process_actions_for_packet send l p i).
Proof.
  destruct p as [r|raw]; intros Hp; unfold process_actions_for_packet; [go|].
  apply (keeps_bind sound); [go|]. intros r s1 E _. apply do_actions_sound.
  unfold zoom, alloc, mbind, M_bind, get, put in E. destruct (ethernet_new raw (sw_pstate s)) as [[p|e] ps]; [|done].
  cbn in E. injection E as <- <-. unfold valid. cbn. rewrite length_app. cbn. lia.
Qed.

Lemma free_slot_sound i s : keeps_at sound s (s ← get; put (set_buffer (<[i := None]> (sw_buffer s)) s)).
Proof.
  split; [done|]. intros [H1 H2 H3 H4]. constructor; [done| |done|done].
  cbn. by apply Forall_insert.
Qed.

(** Where a packet of the buffer is used the invariant must hold already. *)
Lemma process_actions_for_packet_from_buffer_wf l b s : switch_wf s ->
  sound s (process_actions_for_packet_from_buffer send l b s).2.
Proof.
  intros Hs. change (keeps_at sound s (process_actions_for_packet_from_buffer send l b)).
  unfold process_actions_for_packet_from_buffer. repeat keeps_step idtac. 
  - match goal with E : sw_buffer s !! _ = Some (Some (?r, ?i)) |- _ =>
      pose proof (Forall_lookup_1 _ _ _ _ (wf_buffer s Hs) E) end.
    by apply process_actions_for_packet_sound.
  - apply free_slot_sound.
Qed.

Lemma touch_entry_wf id n now t : table_wf t -> table_wf (touch_entry id n now t).
Proof. intros Ht. by apply map_entries_wf; [done|intros e; destruct (_ =? _)..]. Qed.

Lemma process_packet_sound now p i s : valid s p -> keeps_at sound s (process_packet send now p i).
Proof.
  intros Hp. unfold process_packet. apply (keeps_bind sound); [apply deref_sound|]. intros pk s1 _ H1.
  assert (valid s1 p) as Hp1 by by apply (sound_valid s).
  repeat keeps_step idtac; try (by auto using buffer_packet_sound, pack_at_sound with keeps).
  - split; [done|]. intros [W1 W2 W3 W4]. constructor; try done. by apply touch_entry_wf.
  - apply process_actions_for_packet_sound. unfold valid in *. cbn.
    match goal with Hr : sound s1 ?s2 |- context [sw_heap ?s2] => destruct Hr; lia end.
Qed.

Lemma send_port_status_sound p r s : keeps_at sound s (send_port_status send p r).
Proof. unfold send_port_status. destruct (negb _); [by apply (keeps_pure sound)|]. apply send_sound. Qed.
Lemma take_port_down_sound p s : keeps_at sound s (take_port_down send p).
Proof.
  unfold take_port_down. repeat keeps_step idtac; [|apply send_port_status_sound].
  split; [done|]. intros [H1 H2 H3 H4]. constructor; [done|done| |done]. by apply map_Forall_delete.
Qed.
Lemma bring_port_up_sound p s : keeps_at sound s (bring_port_up send p).
Proof.
  unfold bring_port_up. repeat keeps_step idtac; [|apply send_port_status_sound].
  split; [done|]. intros [H1 H2 H3 H4]. constructor; [done|done| |done]. by apply map_Forall_insert_2.
Qed.

(** Flow mods with addresses as [unpack] makes them. *)
Definition message_ok (m : of_msg) : Prop :=
  match m with MFlowMod fm => dl_eth (fm_match fm) | _ => True end.

Lemma handler_wf vendor now m h s : (forall v s, keeps_at sound s (vendor v)) -> message_ok m ->
  handler send vendor now m = Some h -> switch_wf s -> switch_wf (h s).2.
Proof.
  intros Hv Hm E Hs. enough (keeps_at sound s h) as [_ Hk] by auto.
  pose proof send_sound.
  destruct m; try discriminate; injection E as <-; try apply Hv; try (by apply (keeps_pure sound));
    unfold send_hello, receive_echo, receive_features_request, receive_barrier_request,
      receive_get_config_request, receive_stats_request; try solve [repeat keeps_step idtac].
  - unfold receive_packet_out. repeat keeps_step idtac; [by apply process_actions_for_packet_sound|].
    by apply process_actions_for_packet_from_buffer_wf.
  - unfold receive_flow_mod. repeat keeps_step idtac;
      match goal with E : process_flow_mod _ _ _ = Ok (_, ?t) |- _ =>
        assert (switch_wf (set_flow_table t s)) as Hw by
          (constructor; [by eapply process_flow_mod_wf; [apply Hs|..]|apply Hs..]) end.
    + by split.
    + by apply process_actions_for_packet_from_buffer_wf.
Qed.
End invariant.

(** ** Reachable states *)

(** The switch with one controller: a message of the controller, a frame from the network,
    a port going down or coming up. *)
Inductive switch_step `{AppCodec} : relation (Switch (option (list bytes))) :=
  | switch_message now t m s : message_ok m -> switch_step s (switch_handle now t m s).2
  | switch_frame now p in_port s : switch_step s ((r ← alloc p; process_packet switch_send now r in_port) s).2
  | switch_port_down port s : switch_step s (take_port_down switch_send port s).2
  | switch_port_up port s : switch_step s (bring_port_up switch_send port s).2.

Lemma SwitchImpl_init_wf {C} dpid ports miss n_buffers n_tables caps ps xids (c : C) s :
  SwitchImpl_init dpid ports miss n_buffers n_tables caps ps xids c = Ok s -> switch_wf s.
Proof.
  unfold SwitchImpl_init. destruct (match ports with inl n => _ | inr l => _ end) as [l|]; [|done].
  cbn [mbind res_bind]. intros [= <-]. constructor; cbn.
  - repeat split; constructor.
  - constructor.
  - assert (forall m : gmap Z ofp_phy_port, map_Forall (fun n p => pp_port_no p = n) m ->
      map_Forall (fun n p => pp_port_no p = n) (foldl (fun m p => <[pp_port_no p := p]> m) m l)) as Hl.
    { clear. induction l as [|p l IH]; intros m Hm; [done|]. cbn. apply IH. by apply map_Forall_insert_2. }
    apply Hl. apply map_Forall_empty.
  - by vm_compute.
Qed.

Lemma switch_step_wf `{AppCodec} s s' : switch_step s s' -> switch_wf s -> switch_wf s'.
Proof.
  intros [now t m s0 Hm|now p in_port s0|port s0|port s0] Hs.
  - unfold switch_handle. destruct (handler _ _ _ _) as [h|] eqn:E; [|done].
    eapply (handler_wf switch_send); [|exact Hm|exact E|exact Hs].
    intros v s1. unfold receive_vendor. apply send_sound; apply _.
  - refine (proj2 (_ : keeps_at sound s0 _) Hs). apply (keeps_bind sound); [apply alloc_sound|].
    intros r s1 E _. apply (process_packet_sound switch_send).
    unfold alloc, mbind, M_bind, get, put in E. cbn in E. injection E as <- <-.
    unfold valid. cbn. rewrite length_app. cbn. lia.
  - by apply (take_port_down_sound switch_send).
  - by apply (bring_port_up_sound switch_send).
Qed.

(** C3: From its construction on, whatever the controller sends and the network does, and
    whether or not handlers raise, the switch stays well formed: the flow table is sorted
    with distinct entries, every packet in the buffer exists, every port is known by its
    own number and the transaction counter is in range. *)
Theorem switch_invariant `{AppCodec} dpid ports miss n_buffers n_tables caps ps xids c s0 s :
  SwitchImpl_init dpid ports miss n_buffers n_tables caps ps xids c = Ok s0 ->
  rtc switch_step s0 s -> switch_wf s.
Proof.
  intros H0%SwitchImpl_init_wf Hs. revert H0. induction Hs as [|s0 s1 s Hstep _ IH]; [done|].
  intros H0. apply IH. by apply (switch_step_wf s0).
Qed.

(** * What the switch does *)

Section execution.
Context {C : Type}.
Implicit Types s : Switch C.
Lemma deref_eq r p s : sw_heap s !! r = Some p -> deref r s = (Ok p, s).
Proof. unfold deref. rewrite bind_get. by intros ->. Qed.
Lemma store_eq r p s : store r p s = (Ok tt, set_heap (<[r := p]> (sw_heap s)) s).
Proof. done. Qed.
Lemma alloc_eq p s : alloc p s = (Ok (length (sw_heap s)), set_heap (sw_heap s ++ [p]) s).
Proof. done. Qed.
Lemma pack_at_eq `{AppCodec} r p s b p' : sw_heap s !! r = Some p -> ethernet_pack p = (b, p') ->
  pack_at r s = (b, set_heap (<[r := p']> (sw_heap s)) s).
Proof.
  intros Hr Hp. unfold pack_at. erewrite bind_ok by by apply deref_eq. rewrite Hp.
  erewrite bind_ok by apply store_eq. done.
Qed.
Lemma real_send_eq r p n port s : sw_heap s !! r = Some p -> sw_ports s !! n = Some port ->
  real_send r (Some n) s = (Ok tt, set_out (sw_out s ++ [(p, port)]) s).
Proof.
  intros Hr Hn. unfold real_send. rewrite bind_get, Hn. erewrite bind_ok by by apply deref_eq. done.
Qed.
Lemma buffer_packet_eq r i s : buffer_packet r i s =
  (Ok (fill_slot (r, i) 0 (sw_buffer s)).2, set_buffer (fill_slot (r, i) 0 (sw_buffer s)).1 s).
Proof. unfold buffer_packet. rewrite bind_get. by destruct (fill_slot _ _ _). Qed.
End execution.

(** ** The buffer *)

Lemma fill_slot_spec v i l : exists k, (fill_slot v i l).2 = i + Z.of_nat k + 1 /\
  (l !! k = Some None \/ (k = length l /\ None ∉ l)) /\
  (fill_slot v i l).1 !! k = Some (Some v) /\
  (forall j, (j < k)%nat -> l !! j <> Some None) /\
  forall j, j <> k -> (fill_slot v i l).1 !! j = l !! j.
Proof.
  revert i; induction l as [|[x|] l IH]; intros i; cbn [fill_slot].
  - exists 0%nat. cbn. split; [lia|]. split; [right; split; [done|apply not_elem_of_nil]|].
    split; [done|]. split; [lia|]. intros [|j] ?; [done|]. done.
  - destruct (IH (i + 1)) as (k & Ei & Hk & El & Hb & Ho). destruct (fill_slot v (i + 1) l) as [l' id].
    exists (S k). cbn in *. split; [lia|]. split.
    { destruct Hk as [?|[-> Hn]]; [by left|right]. split; [done|]. by apply not_elem_of_cons. }
    split; [done|]. split; [intros [|j] ?; [done|]; apply Hb; lia|].
    intros [|j] ?; [done|]. apply Ho. congruence.
  - exists 0%nat. cbn. split; [lia|]. split; [by left|]. split; [done|]. split; [lia|]. by intros [|j].
Qed.

(** Buffering a packet takes the first free slot, and a new one only when all are
    taken - the announced number of buffers is no bound; the id, counted from 1, names
    that slot, which now holds the packet, and no other slot changes. *)
Theorem buffer_packet_slot {C} r in_port (s : Switch C) :
  exists k s', buffer_packet r in_port s = (Ok (Z.of_nat k + 1), s') /\
    sw_buffer s' !! k = Some (Some (r, in_port)) /\
    (sw_buffer s !! k = Some None \/ (k = length (sw_buffer s) /\ None ∉ sw_buffer s)) /\
    (forall j, (j < k)%nat -> sw_buffer s !! j <> Some None) /\
    forall j, j <> k -> sw_buffer s' !! j = sw_buffer s !! j.
Proof.
  destruct (fill_slot_spec (r, in_port) 0 (sw_buffer s)) as (k & E & Hk & Hl & Hb & Ho).
  exists k. eexists. rewrite buffer_packet_eq, E. by split.
Qed.

(** A buffer id right after the last slot raises an IndexError; any larger one is
    ignored.  Neither changes the switch. *)
Theorem buffer_id_boundary `{AppCodec} actions id (s : Switch (option (list bytes))) :
  zlen (sw_buffer s) < id ->
  process_actions_for_packet_from_buffer switch_send actions id s =
    (if id =? zlen (sw_buffer s) + 1 then Err IndexError else Ok tt, s).
Proof.
  intros Hid. unfold process_actions_for_packet_from_buffer. rewrite bind_get.
  destruct (Z.ltb_spec (zlen (sw_buffer s)) (id - 1)) as [Hlt|Hge].
  - rewrite (proj2 (Z.eqb_neq _ _)) by lia. done.
  - rewrite (proj2 (Z.eqb_eq _ _)) by lia. rewrite lookup_ge_None_2; [done|]. unfold zlen in *. lia.
Qed.

(** ** Flooding *)

Lemma flood_eq {C} p pk in_port l (s : Switch C) : sw_heap s !! p = Some pk ->
  Forall (fun e => sw_ports s !! e.1 = Some e.2 /\ pp_port_no e.2 = e.1) l ->
  flood p in_port l s = (Ok tt,
    set_out (sw_out s ++ map (fun e => (pk, e.2)) (List.filter (fun e => negb (e.1 =? in_port)) l)) s).
Proof.
  intros Hp Hl. revert s Hp Hl. induction l as [|[no port] l IH]; intros s Hp Hl.
  { cbn. rewrite app_nil_r. by destruct s. }
  apply Forall_cons in Hl as [[Hno Hn] Hl]. cbn [fst snd] in Hno, Hn. cbn [flood List.filter fst].
  destruct (no =? in_port); cbn [negb].
  - erewrite bind_ok by done. by apply IH.
  - erewrite bind_ok by (apply real_send_eq; [done|by rewrite Hn]).
    rewrite IH by done. cbn [map snd sw_out set_out]. by rewrite <-app_assoc.
Qed.

(** Output to FLOOD or ALL sends the packet, as it is, out of every port but the one
    it came in by, exactly once each, and changes nothing else. *)
Theorem flood_exact `{AppCodec} {C} (send : of_msg -> M (Switch C) unit) p pk in_port out_port s :
  switch_wf s -> sw_heap s !! p = Some pk -> out_port = OFPP_FLOOD \/ out_port = OFPP_ALL ->
  exists ports, output_packet send p (Some out_port) in_port s =
      (Ok tt, set_out (sw_out s ++ map (pair pk) ports) s) /\
    NoDup (pp_port_no <$> ports) /\
    forall port, port ∈ ports <-> exists n, n <> in_port /\ sw_ports s !! n = Some port.
Proof.
  intros Hs Hp Ho. set (l := map_to_list (sw_ports s)).
  assert (Forall (fun e => sw_ports s !! e.1 = Some e.2 /\ pp_port_no e.2 = e.1) l) as Hl.
  { apply Forall_forall. intros [n port] He%elem_of_map_to_list. split; [done|]. by apply (wf_ports s Hs). }
  set (k := List.filter (fun e => negb (e.1 =? in_port)) l).
  exists (map snd k). split; [|split].
  - unfold output_packet. assert ((out_port <? OFPP_MAX) = false) as -> by by destruct Ho as [->| ->].
    assert ((out_port =? OFPP_IN_PORT) = false) as -> by by destruct Ho as [->| ->].
    assert ((out_port =? OFPP_FLOOD) || (out_port =? OFPP_ALL) = true) as -> by by destruct Ho as [->| ->].
    rewrite bind_get, (flood_eq p pk) by done. by rewrite map_map.
  - assert (pp_port_no <$> map snd k = fst <$> k) as ->.
    { rewrite <-list_fmap_compose. apply list_fmap_ext. intros i e He. apply list_elem_of_lookup_2 in He.
      apply list_elem_of_In, filter_In in He as [He _]. apply list_elem_of_In in He.
      rewrite Forall_forall in Hl. by apply (Hl e). }
    pose proof (NoDup_fst_map_to_list (sw_ports s)) as Hn. fold l in Hn. clear -Hn. unfold k.
    induction l as [|e l IH]; [constructor|]. cbn [fmap list_fmap] in Hn. apply NoDup_cons in Hn as [He Hn].
    cbn [List.filter]. destruct (negb _); [|by apply IH]. cbn [fmap list_fmap]. apply NoDup_cons.
    split; [|by apply IH]. intros (e' & E & Hin)%list_elem_of_fmap. apply He. rewrite E. apply list_elem_of_fmap_2.
    apply list_elem_of_In, filter_In in Hin as [Hin _]. by apply list_elem_of_In.
  - intros port. rewrite list_elem_of_In, in_map_iff. split.
    + intros ([n q] & <- & [Hin Hne]%filter_In). exists n. cbn in *.
      apply list_elem_of_In, elem_of_map_to_list in Hin. split; [|done]. intros ->. by rewrite Z.eqb_refl in Hne.
    + intros (n & Hne & Hn). exists (n, port). split; [done|]. apply filter_In. split.
      * by apply list_elem_of_In, elem_of_map_to_list.
      * cbn. by rewrite (proj2 (Z.eqb_neq _ _)).
Qed.

(** ** Frames that match no entry *)

(** Sending a packet-in over the connection. *)
Lemma packet_in_sent sent m (s : Switch (option (list bytes))) : sw_chan s = Some sent ->
  msg_wf m -> 0 <= sw_xids s < 2 ^ 31 -> hdr_xid (pi_hdr m) <> None ->
  hdr_version (pi_hdr m) = OFP_VERSION -> hdr_type (pi_hdr m) = OFPT_PACKET_IN ->
  exists d, switch_send (MPacketIn m) s = (Ok tt, set_chan (Some (sent ++ [d])) s) /\
    ofp_packet_in_unpack ofp_packet_in_init d = Ok (mready m, []) /\ frame d OFPT_PACKET_IN (MPacketIn (mready m)).
Proof.
  intros Hc Hm Hx Hh Hv Ht. destruct (msg_pack_ok m (sw_xids s) Hm Hx) as (d & E & Hd).
  exists d. destruct m as [[v t l x] i b r data n]. cbn in Hh, Hv, Ht. destruct x as [x|]; [|done].
  cbn [hdr_settle mhdr mready with_hdr ofp_packet_in_msg set_length pi_hdr hdr_xid fst snd hdr_version
    hdr_type hdr_length pi_in_port pi_buffer_id pi_reason pi_data pi_total_len] in E, Hd |- *.
  split; [|split; [rewrite <-(app_nil_r d); apply Hd|refine (carried_frame _ d Hd _ _); done]].
  change (mpack true ?m) with (ofp_packet_in_pack true m) in E.
  unfold switch_send. rewrite bind_get, Hc. unfold zoom, conn_pack, of_msg_pack, mbind, M_bind. rewrite E.
  unfold get, put. destruct s. done.
Qed.

Lemma send_packet_in_eq `{AppCodec} {C} (send : of_msg -> M (Switch C) unit) in_port id p pk data pk' x reason s :
  sw_heap s !! p = Some pk -> ethernet_pack pk = (Ok data, pk') ->
  send_packet_in send in_port (Some id) p (Some x) (Some reason) s =
    send (MPacketIn (PacketIn (Hdr OFP_VERSION OFPT_PACKET_IN 8 (Some x)) in_port id reason data 0))
      (set_heap (<[p := pk']> (sw_heap s)) s).
Proof.
  intros Hp Hpk. unfold send_packet_in. erewrite bind_ok by done.
  by erewrite bind_ok by by eapply pack_at_eq.
Qed.

Lemma do_output `{AppCodec} {C} (send : of_msg -> M (Switch C) unit) in_port r port ml :
  do_action send in_port r (AOutput (ActOutput OFPAT_OUTPUT 8 port ml)) = output_packet send r port in_port.
Proof. done. Qed.

(** Releasing a buffered packet to a port. *)
Lemma release_from_buffer `{AppCodec} {C} (send : of_msg -> M (Switch C) unit) k p pk in_port n port ml s :
  sw_buffer s !! k = Some (Some (p, in_port)) -> sw_heap s !! p = Some pk ->
  n < OFPP_MAX -> sw_ports s !! n = Some port ->
  process_actions_for_packet_from_buffer send [AOutput (ActOutput OFPAT_OUTPUT 8 (Some n) ml)] (Z.of_nat k + 1) s =
    (Ok tt, set_buffer (<[k := None]> (sw_buffer s)) (set_out (sw_out s ++ [(pk, port)]) s)).
Proof.
  intros Hk Hp Hn Hport. unfold process_actions_for_packet_from_buffer. rewrite bind_get.
  replace (Z.of_nat k + 1 - 1) with (Z.of_nat k) by lia. rewrite Nat2Z.id, Hk.
  apply lookup_lt_Some in Hk as Hlt. rewrite (proj2 (Z.ltb_ge _ _)) by (unfold zlen; lia).
  erewrite (bind_ok _ _ s tt (set_out (sw_out s ++ [(pk, port)]) s)); [reflexivity|].
  unfold process_actions_for_packet. erewrite bind_ok by done. cbn [do_actions].
  erewrite bind_ok; [done|]. rewrite do_output. unfold output_packet. rewrite (proj2 (Z.ltb_lt _ _)) by done.
  by apply real_send_eq.
Qed.

(** The switch after a frame [p] that no entry matched: its slot [k], the packet as packing
    leaves it, and the packet-in on the connection. *)
Definition missed (p p' : ethernet) (l : list (option (nat * Z))) (sent : list bytes)
    (s : Switch (option (list bytes))) : Switch (option (list bytes)) :=
  set_chan (Some sent) (set_heap (sw_heap s ++ [p'])
    (set_xid_count ((sw_xid_count s + 1) mod (MAX_XID + 1)) (set_buffer l (set_heap (sw_heap s ++ [p]) s)))).

Lemma miss_announced `{AppCodec} now p p' data in_port sent (s : Switch (option (list bytes))) :
  sw_chan s = Some sent -> 0 <= sw_xids s < 2 ^ 31 -> 0 <= sw_xid_count s <= MAX_XID -> u16 in_port ->
  zlen (sw_buffer s) < 2 ^ 31 -> entry_for_packet p in_port (sw_table s) = Ok None ->
  ethernet_pack p = (Ok data, p') -> 18 + zlen data < 2 ^ 16 ->
  exists k l d, (r ← alloc p; process_packet switch_send now r in_port) s = (Ok tt, missed p p' l (sent ++ [d]) s) /\
    l !! k = Some (Some (length (sw_heap s), in_port)) /\ Z.of_nat k <= zlen (sw_buffer s) /\
    let m := PacketIn (Hdr OFP_VERSION OFPT_PACKET_IN (18 + zlen data) (Some (sw_xid_count s)))
               in_port (Z.of_nat k + 1) OFPR_NO_MATCH data (18 + zlen data) in
    ofp_packet_in_unpack ofp_packet_in_init d = Ok (m, []) /\ frame d OFPT_PACKET_IN (MPacketIn m).
Proof.
  intros Hc Hx Hxc Hin Hbuf He Hpk Hlen. set (r := length (sw_heap s)).
  destruct (fill_slot_spec (r, in_port) 0 (sw_buffer s)) as (k & Eid & Hk & Hlk & _).
  destruct (fill_slot (r, in_port) 0 (sw_buffer s)) as [l id] eqn:Ef. cbn [fst snd] in Eid, Hlk.
  assert (Z.of_nat k <= zlen (sw_buffer s)) as Hkl.
  { unfold zlen. destruct Hk as [Hk|[-> _]]; [apply lookup_lt_Some in Hk; lia|lia]. }
  rewrite Z.add_0_l in Eid.
  set (m := PacketIn (Hdr OFP_VERSION OFPT_PACKET_IN 8 (Some (sw_xid_count s))) in_port id OFPR_NO_MATCH data 0).
  set (s0 := set_heap (sw_heap s ++ [p']) (set_xid_count ((sw_xid_count s + 1) mod (MAX_XID + 1))
    (set_buffer l (set_heap (sw_heap s ++ [p]) s)))).
  pose proof (zlen_nonneg data) as Hd0.
  assert (msg_wf m) as Hm.
  { cbn [msg_wf ofp_packet_in_msg m pi_in_port pi_buffer_id pi_reason]. split; [|split; [done|split]].
    - unfold hdr_wf, ofp_packet_in_len; cbn. unfold MAX_XID in Hxc. repeat split; first [lia|by vm_compute].
    - right. lia.
    - done. }
  destruct (packet_in_sent sent m s0 Hc Hm Hx) as (d & Ed & Hd & Hf); [done..|].
  assert (mready m = PacketIn (Hdr OFP_VERSION OFPT_PACKET_IN (18 + zlen data) (Some (sw_xid_count s)))
    in_port (Z.of_nat k + 1) OFPR_NO_MATCH data (18 + zlen data)) as Er.
  { unfold mready, ofp_packet_in_msg, ofp_packet_in_len, set_length; cbn. by rewrite Z.mul_1_r, Eid. }
  rewrite Er in Hd, Hf. exists k, l, d. split; [|by split_and!].
  assert ((sw_heap s ++ [p]) !! r = Some p) as Hr by by apply list_lookup_middle.
  rewrite (bind_ok _ _ _ _ _ (alloc_eq p s)). unfold process_packet.
  erewrite bind_ok by by apply deref_eq. rewrite bind_get.
  erewrite bind_ok; [|unfold lift; cbn [sw_table set_heap]; by rewrite He].
  cbv beta iota. erewrite bind_ok by apply buffer_packet_eq. cbn [sw_buffer set_heap]. fold r. rewrite Ef. cbv beta. cbn [fst snd].
  erewrite bind_ok by done. cbv beta.
  rewrite (send_packet_in_eq _ _ _ _ p data p') by done. unfold missed. fold s0. rewrite <-Ed. f_equal.
  unfold s0. cbn [sw_heap set_xid_count set_buffer set_heap]. f_equal.
  unfold r. rewrite insert_app_r_alt by lia. by rewrite Nat.sub_diag.
Qed.

(** C4: A frame that no entry matches is kept and announced; the controller can then send
    it on.  The frame takes a buffer slot and the controller receives a packet-in with its
    bytes, the port it came by, the reason and the slot's id; a packet-out that names this
    id and a port sends exactly that frame out of the port and frees the slot. *)
Theorem miss_then_packet_out `{AppCodec} now p p' data in_port n port ml sent po
    (s : Switch (option (list bytes))) :
  sw_chan s = Some sent -> 0 <= sw_xids s < 2 ^ 31 -> 0 <= sw_xid_count s <= MAX_XID -> u16 in_port ->
  zlen (sw_buffer s) < 2 ^ 31 -> entry_for_packet p in_port (sw_table s) = Ok None ->
  ethernet_pack p = (Ok data, p') -> 18 + zlen data < 2 ^ 16 ->
  n < OFPP_MAX -> sw_ports s !! n = Some port ->
  exists id d s1, (r ← alloc p; process_packet switch_send now r in_port) s = (Ok tt, s1) /\
    sw_chan s1 = Some (sent ++ [d]) /\
    ofp_packet_in_unpack ofp_packet_in_init d =
      Ok (PacketIn (Hdr OFP_VERSION OFPT_PACKET_IN (18 + zlen data) (Some (sw_xid_count s)))
            in_port id OFPR_NO_MATCH data (18 + zlen data), []) /\
    (po_data po = [] -> po_buffer_id po = id ->
     po_actions po = [AOutput (ActOutput OFPAT_OUTPUT 8 (Some n) ml)] ->
     exists s2, receive_packet_out switch_send po s1 = (Ok tt, s2) /\
       sw_out s2 = sw_out s ++ [(p', port)] /\ sw_chan s2 = sw_chan s1 /\
       sw_buffer s2 !! Z.to_nat (id - 1) = Some None).
Proof.
  intros Hc Hx Hxc Hin Hbuf He Hpk Hlen Hn Hport.
  destruct (miss_announced now p p' data in_port sent s) as (k & l & d & E & Hlk & _ & Hd & _); [done..|].
  exists (Z.of_nat k + 1), d, (missed p p' l (sent ++ [d]) s). split; [done|]. split; [done|]. split; [done|].
  intros Hpd Hpi Hpa. set (s1 := missed p p' l (sent ++ [d]) s).
  assert (sw_heap s1 !! length (sw_heap s) = Some p') as Hr by by apply list_lookup_middle.
  pose proof (release_from_buffer switch_send k _ p' in_port n port ml s1 Hlk Hr Hn Hport) as E2.
  eexists. split.
  { unfold receive_packet_out. rewrite Hpd, Hpi, Hpa, bool_decide_true by done. cbn [negb].
    rewrite (proj2 (Z.ltb_lt _ _)) by lia. exact E2. }
  split; [done|]. split; [done|]. cbn. replace (Z.to_nat (Z.of_nat k + 1 - 1)) with k by lia.
  apply list_lookup_insert_eq. by apply lookup_lt_Some in Hlk.
Qed.

(** ** Frames that match *)

(** A frame with an entry that outputs it. *)
Lemma hit_sent `{AppCodec} {C} (send : of_msg -> M (Switch C) unit) now p p' data in_port e n port ml s :
  entry_for_packet p in_port (sw_table s) = Ok (Some e) -> ethernet_pack p = (Ok data, p') ->
  te_actions e = [AOutput (ActOutput OFPAT_OUTPUT 8 (Some n) ml)] ->
  n < OFPP_MAX -> sw_ports s !! n = Some port ->
  exists s', (r ← alloc p; process_packet send now r in_port) s = (Ok tt, s') /\
    sw_out s' = sw_out s ++ [(p', port)] /\ sw_chan s' = sw_chan s /\ sw_buffer s' = sw_buffer s /\
    ft_table (sw_table s') = map (fun e' => if te_id e' =? te_id e then touch_packet (zlen data) now e' else e')
      (ft_table (sw_table s)).
Proof.
  intros He Hpk Ha Hn Hport. set (r := length (sw_heap s)).
  assert ((sw_heap s ++ [p]) !! r = Some p) as Hr by by apply list_lookup_middle.
  eexists. split.
  - rewrite (bind_ok _ _ _ _ _ (alloc_eq p s)). unfold process_packet.
    erewrite bind_ok by by apply deref_eq. rewrite bind_get.
    erewrite bind_ok; [|unfold lift; cbn [sw_table set_heap]; by rewrite He].
    cbv beta iota. erewrite bind_ok by by eapply pack_at_eq. rewrite bind_get, bind_put, Ha.
    unfold process_actions_for_packet. erewrite bind_ok by done. cbn [do_actions].
    etrans; [eapply bind_ok|reflexivity]. rewrite do_output. unfold output_packet.
    rewrite (proj2 (Z.ltb_lt _ _)) by done. apply (real_send_eq r p' n port); [|done]. cbn. fold r.
    apply list_lookup_insert_eq. by apply lookup_lt_Some in Hr.
  - done.
Qed.

(** A frame is counted on the entry the lookup finds, and on no other, by its length
    as packed; an entry that outputs to a port sends it out of that port, once. *)
Theorem hit_forwards `{AppCodec} {C} (send : of_msg -> M (Switch C) unit) now p p' data in_port e n port ml s :
  entry_for_packet p in_port (sw_table s) = Ok (Some e) -> ethernet_pack p = (Ok data, p') ->
  te_actions e = [AOutput (ActOutput OFPAT_OUTPUT 8 (Some n) ml)] ->
  n < OFPP_MAX -> sw_ports s !! n = Some port ->
  exists s', (r ← alloc p; process_packet send now r in_port) s = (Ok tt, s') /\
    sw_out s' = sw_out s ++ [(p', port)] /\ sw_chan s' = sw_chan s /\ sw_buffer s' = sw_buffer s /\
    ft_table (sw_table s') = map (fun e' => if te_id e' =? te_id e then touch_packet (zlen data) now e' else e')
      (ft_table (sw_table s)).
Proof. apply hit_sent. Qed.

(** ** Actions that do not do what they say *)

(** Setting the VLAN id of an untagged packet always fails, and not before it has
    replaced the packet's content by an empty tag; what follows in the action list is not
    done, and a buffered packet keeps its slot with the content lost. *)
Theorem set_vlan_vid_destroys `{AppCodec} {C} (send : of_msg -> M (Switch C) unit) k r in_port p vid actions id s :
  sw_buffer s !! k = Some (Some (r, in_port)) -> sw_heap s !! r = Some p -> is_vlan p = false ->
  id = Z.of_nat k + 1 ->
  process_actions_for_packet_from_buffer send
      (AVlanVid (ActVlanVid OFPAT_SET_VLAN_VID 8 vid) :: actions) id s =
    (Err AttributeError,
     set_heap (<[r := Ethernet (eth_dst p) (eth_src p) 0x8100
       (PPacket (Some false) (LVlan (Vlan 0 0 0 (eth_type p) None)) PNone) (eth_parsed p)]> (sw_heap s)) s).
Proof.
  intros Hk Hr Hv ->. unfold process_actions_for_packet_from_buffer. rewrite bind_get.
  replace (Z.of_nat k + 1 - 1) with (Z.of_nat k) by lia. rewrite Nat2Z.id, Hk.
  apply lookup_lt_Some in Hk as Hlt. rewrite (proj2 (Z.ltb_ge _ _)) by (unfold zlen; lia).
  unfold process_actions_for_packet, do_actions, do_action, push_vlan, mbind, M_bind. cbn.
  unfold do_set_vlan_id, push_vlan. unfold mbind, M_bind. rewrite (deref_eq r p) by done. by rewrite Hv.
Qed.


(** Setting network addresses or transport ports of an IPv4 packet - untagged, as it
    comes off the wire - succeeds and changes nothing at all. *)
Theorem rewriting_has_no_effect `{AppCodec} {C} (send : of_msg -> M (Switch C) unit) in_port r p parsed h next a s :
  sw_heap s !! r = Some p -> eth_next p = PPacket parsed (LIpv4 h) next ->
  (exists addr t, a = ANwAddr (ActNwAddr (Some t) 8 addr) /\ t ∈ [OFPAT_SET_NW_SRC; OFPAT_SET_NW_DST]) \/
  (exists z t, a = ATpPort (ActTpPort (Some t) 8 (Some z)) /\ t ∈ [OFPAT_SET_TP_SRC; OFPAT_SET_TP_DST]) ->
  do_action send in_port r a s = (Ok tt, s).
Proof.
  intros Hr Hn [(addr & t & -> & Ht)|(z & t & -> & Ht)];
    apply elem_of_cons in Ht as [->|Ht%list_elem_of_singleton]; try subst t;
    unfold do_action; cbn [action_type ana_type atp_type mbind option_bind];
    match goal with |- context [action_handler ?f ?i ?t] =>
      let x := eval cbn in (action_handler f i t) in change (action_handler f i t) with x end; cbv iota beta;
    unfold do_set_nw, do_set_tp_src, do_set_tp_dst, do_set_tp, is_ipv4;
    (erewrite bind_ok by by apply deref_eq); by rewrite Hn.
Qed.

(** ** Requests and replies *)

(** What goes over the connection is a frame of the message. *)
Lemma message_sent `{Dispatch T} `{!MsgLaws T} (x : T) sent (s : Switch (option (list bytes))) :
  (forall st, of_msg_pack (disp_wrap x) st = ('(m, d) ← mpack true x; mret (disp_wrap m, d)) st) ->
  sw_chan s = Some sent -> msg_wf x -> 0 <= sw_xids s < 2 ^ 31 ->
  let h := hdr_settle (mhdr (mready x)) (sw_xids s) in
  let x' := with_hdr h.1 (mready x) in
  hdr_version (mhdr x') = OFP_VERSION -> hdr_type (mhdr x') = disp_type ->
  exists d, switch_send (disp_wrap x) s = (Ok tt, set_chan (Some (sent ++ [d])) (set_xids h.2 s)) /\
    frame d disp_type (disp_wrap (mview x')).
Proof.
  intros Hp Hc Hw Hx h x' Hv Ht. destruct (msg_pack_ok x (sw_xids s) Hw Hx) as (d & E & Hd).
  exists d. split; [|by apply carried_frame].
  unfold switch_send. rewrite bind_get, Hc. unfold zoom, conn_pack.
  unfold mbind, M_bind, get, put. rewrite Hp. unfold mbind, M_bind. rewrite E. done.
Qed.

(** The same, for a message that has its transaction id. *)
Lemma reply_sent `{Dispatch T} `{!MsgLaws T} (y : T) x sent (s : Switch (option (list bytes))) :
  (forall st, of_msg_pack (disp_wrap y) st = ('(m, d) ← mpack true y; mret (disp_wrap m, d)) st) ->
  sw_chan s = Some sent -> 0 <= sw_xids s < 2 ^ 31 ->
  msg_wf y -> hdr_xid (mhdr (mready y)) = Some x ->
  with_hdr (mhdr (mready y)) (mready y) = y -> mview y = y ->
  hdr_version (mhdr y) = OFP_VERSION -> hdr_type (mhdr y) = disp_type ->
  exists d, switch_send (disp_wrap y) s = (Ok tt, set_chan (Some (sent ++ [d])) s) /\
    frame d disp_type (disp_wrap y).
Proof.
  intros Hp Hc Hs Hw Hxy Hy Hvy Hv Ht.
  pose proof (message_sent y sent s Hp Hc Hw Hs) as Hm. unfold hdr_settle in Hm. rewrite Hxy in Hm.
  cbn [fst snd] in Hm. rewrite Hy, Hvy in Hm. destruct (Hm Hv Ht) as (d & E & Hf).
  exists d. split; [|done]. rewrite E. by destruct s.
Qed.

(** The reply to a request with transaction id [x]: an echo reply has no body. *)
Definition reply_of (m : of_msg) : option (Z * of_msg) :=
  match m with
  | MEchoRequest r =>
      Some (OFPT_ECHO_REPLY, MEchoReply (EchoReply (Hdr OFP_VERSION OFPT_ECHO_REPLY 8 (hdr_xid (er_hdr r))) []))
  | MBarrierRequest r =>
      Some (OFPT_BARRIER_REPLY, MBarrierReply (BarrierReply (Hdr OFP_VERSION OFPT_BARRIER_REPLY 8 (hdr_xid (bq_hdr r)))))
  | MGetConfigRequest r =>
      Some (OFPT_GET_CONFIG_REPLY, MGetConfigReply (GetConfigReply
        (Hdr OFP_VERSION OFPT_GET_CONFIG_REPLY 12 (hdr_xid (gq_hdr r))) 0 OFP_DEFAULT_MISS_SEND_LEN))
  | _ => None
  end.
Definition request_xid (m : of_msg) : option Z :=
  match m with
  | MEchoRequest r => hdr_xid (er_hdr r)
  | MBarrierRequest r => hdr_xid (bq_hdr r)
  | MGetConfigRequest r => hdr_xid (gq_hdr r)
  | _ => None
  end.

(** An echo, barrier or get-config request is answered at once by one message, of the
    matching type and with the transaction id of the request, framed so that the reader at
    the other end takes exactly this reply from the stream; an echo reply is empty,
    whatever the request carried. *)
Theorem request_answered `{AppCodec} now t m reply_type reply x sent (s : Switch (option (list bytes))) :
  reply_of m = Some (reply_type, reply) -> request_xid m = Some x -> u32 x ->
  sw_chan s = Some sent -> 0 <= sw_xids s < 2 ^ 31 ->
  exists d, switch_handle now t m s = (Ok tt, set_chan (Some (sent ++ [d])) s) /\
    frame d reply_type reply.
Proof.
  intros Hr Hx Hx32 Hc Hs.
  destruct m; try discriminate; injection Hr as <- <-; cbn [request_xid] in Hx; rewrite Hx;
    unfold switch_handle, handler, receive_echo, receive_barrier_request, receive_get_config_request;
    rewrite Hx.
  - refine (reply_sent (EchoReply (Hdr OFP_VERSION OFPT_ECHO_REPLY 8 (Some x)) []) x sent s _ _ _ _ _ _ _ _ _); first [done|by repeat split; cbn; lia].
  - refine (reply_sent (GetConfigReply (Hdr OFP_VERSION OFPT_GET_CONFIG_REPLY 12 (Some x)) 0 OFP_DEFAULT_MISS_SEND_LEN) x sent s _ _ _ _ _ _ _ _ _); first [done|by repeat split; cbn; lia].
  - refine (reply_sent (BarrierReply (Hdr OFP_VERSION OFPT_BARRIER_REPLY 8 (Some x))) x sent s _ _ _ _ _ _ _ _ _); first [done|by repeat split; cbn; lia].
Qed.

(** * Examples *)

(** A switch with ports 1 and 2, and a frame of an unknown type. *)
Definition ex_ports : gmap Z ofp_phy_port :=
  <[1 := PhyPort 1 (HwEth (MkEth (replicate 6 x01))) [] 0 0 0 0 0 0]>
    (<[2 := PhyPort 2 (HwEth (MkEth (replicate 6 x02))) [] 0 0 0 0 0 0]> ∅).
Definition ex_switch {C} (c : C) : Switch C :=
  MkSwitch 1 100 1 (SwitchCapabilities_init 128) ex_ports FlowTable_init [] [] 1 (PState 0 (fun _ => 0)) 0 [] c.
Definition ex_plain : ethernet :=
  Ethernet (HwEth (MkEth (replicate 6 x0a))) (HwEth (MkEth (replicate 6 x0b))) 0x1234 (PBytes [x01; x02]) true.

Lemma switch_invariant_witness :
  exists s0 s, SwitchImpl_init 1 (inl 2%nat) 128 100 1 None (PState 0 (fun _ => 0)) 0 (Some []) = Ok s0 /\
    s = ((r ← alloc ex_plain; process_packet (H:=no_apps) switch_send 5 r 1) s0).2 /\
    length (sw_buffer s) = 1%nat /\ switch_wf s.
Proof.
  eexists _, _. split; [vm_compute; reflexivity|]. split; [reflexivity|]. split; [vm_compute; reflexivity|].
  refine (@switch_invariant no_apps 1 (inl 2%nat) 128 100 1 None (PState 0 (fun _ => 0)) 0 (Some []) _ _ _ _).
  - vm_compute. reflexivity.
  - apply rtc_once. apply (@switch_frame no_apps 5 ex_plain 1).
Defined.

Lemma buffer_id_boundary_witness :
  process_actions_for_packet_from_buffer (H:=no_apps) switch_send [] 1 (ex_switch None) =
    (Err IndexError, ex_switch None).
Proof. exact (@buffer_id_boundary no_apps [] 1 (ex_switch None) eq_refl). Defined.

Definition ex_wf : Switch (option (list bytes)) := set_heap [ex_plain] (ex_switch (Some [])).
Lemma ex_switch_wf : switch_wf ex_wf.
Proof.
  constructor; cbn.
  - repeat split; constructor.
  - constructor.
  - unfold ex_ports. by repeat (apply map_Forall_insert_2; [done|]).
  - by vm_compute.
Qed.
Lemma flood_exact_witness :
  exists ports, output_packet (H:=no_apps) switch_send 0 (Some OFPP_FLOOD) 1 ex_wf =
      (Ok tt, set_out (sw_out ex_wf ++ map (pair ex_plain) ports) ex_wf) /\
    NoDup (pp_port_no <$> ports) /\
    forall port, port ∈ ports <-> exists n, n <> 1 /\ sw_ports ex_wf !! n = Some port.
Proof.
  exact (@flood_exact no_apps _ switch_send 0 ex_plain 1 OFPP_FLOOD ex_wf ex_switch_wf eq_refl (or_introl eq_refl)).
Defined.

Definition ex_port2 : ofp_phy_port := PhyPort 2 (HwEth (MkEth (replicate 6 x02))) [] 0 0 0 0 0 0.
Definition ex_packet_out : ofp_packet_out :=
  PacketOut (Hdr 1 OFPT_PACKET_OUT 24 (Some 9)) 1 OFPP_NONE [AOutput (ActOutput OFPAT_OUTPUT 8 (Some 2) 0)] [].
Lemma miss_then_packet_out_witness :
  exists d s1 s2,
    (r ← alloc ex_plain; process_packet (H:=no_apps) switch_send 5 r 1) (ex_switch (Some [])) = (Ok tt, s1) /\
    sw_chan s1 = Some [d] /\ receive_packet_out (H:=no_apps) switch_send ex_packet_out s1 = (Ok tt, s2) /\
    sw_out s2 = [(ex_plain, ex_port2)] /\ sw_buffer s2 !! 0%nat = Some None.
Proof.
  destruct (@miss_then_packet_out no_apps 5 ex_plain ex_plain (replicate 6 x0a ++ replicate 6 x0b ++ [x12; x34; x01; x02])
    1 2 ex_port2 0 [] ex_packet_out (ex_switch (Some [])) eq_refl) as (id & d & s1 & E & Hc & Hd & Hout).
  1-9: first [vm_compute; reflexivity | vm_compute; split; congruence | vm_compute; congruence].
  assert (id = 1) as ->.
  { clear Hout. vm_compute in E. injection E as <-. vm_compute in Hc. injection Hc as <-.
    vm_compute in Hd. injection Hd as <-. reflexivity. }
  destruct Hout as (s2 & E2 & Ho & _ & Hb); [reflexivity..|].
  exists d, s1, s2. split_and!; [exact E|exact Hc|exact E2|exact Ho|exact Hb].
Defined.

Definition ex_entry : TableEntry :=
  Entry 0 1 0 0 0 ofp_match_init [AOutput (ActOutput OFPAT_OUTPUT 8 (Some 2) 0)] None 0 0 0 0.
Lemma hit_forwards_witness :
  exists s', (r ← alloc ex_plain; process_packet (H:=no_apps) switch_send 5 r 1)
      (set_flow_table (Table [ex_entry] 1 []) (ex_switch None)) = (Ok tt, s') /\
    sw_out s' = [(ex_plain, ex_port2)] /\ te_bytes <$> ft_table (sw_table s') = [16].
Proof.
  destruct (@hit_forwards no_apps _ switch_send 5 ex_plain ex_plain
    (replicate 6 x0a ++ replicate 6 x0b ++ [x12; x34; x01; x02]) 1 ex_entry 2 ex_port2 0
    (set_flow_table (Table [ex_entry] 1 []) (ex_switch None))) as (s' & E & Eo & _ & _ & Et).
  1-5: vm_compute; reflexivity.
  exists s'. split; [exact E|]. split; [exact Eo|]. rewrite Et. vm_compute. reflexivity.
Defined.

Definition ex_held : Switch (option (list bytes)) := set_buffer [Some (0%nat, 1)] ex_wf.
Lemma set_vlan_vid_destroys_witness :
  process_actions_for_packet_from_buffer (H:=no_apps) switch_send
      [AVlanVid (ActVlanVid OFPAT_SET_VLAN_VID 8 7)] 1 ex_held =
    (Err AttributeError,
     set_heap [Ethernet (eth_dst ex_plain) (eth_src ex_plain) 0x8100
       (PPacket (Some false) (LVlan (Vlan 0 0 0 0x1234 None)) PNone) true] ex_held).
Proof.
  exact (@set_vlan_vid_destroys no_apps _ switch_send 0 0 1 ex_plain 7 [] 1 ex_held eq_refl eq_refl eq_refl eq_refl).
Defined.

Definition ex_ip_frame : ethernet :=
  Ethernet (HwEth (MkEth (replicate 6 x0a))) (HwEth (MkEth (replicate 6 x0b))) 0x0800
    (PPacket (Some true) (LIpv4 (Ipv4 4 5 0 28 1 0 0 64 17 0 (NwIP (MkIP 1)) (NwIP (MkIP 2))))
      (PPacket (Some true) (LUdp (Udp 5 6 8 0)) PNone)) true.
Lemma rewriting_has_no_effect_witness :
  do_action (H:=no_apps) switch_send 1 0 (ATpPort (ActTpPort (Some OFPAT_SET_TP_DST) 8 (Some 99)))
      (set_heap [ex_ip_frame] ex_wf) = (Ok tt, set_heap [ex_ip_frame] ex_wf).
Proof.
  refine (@rewriting_has_no_effect no_apps _ switch_send 1 0 ex_ip_frame _ _ _
    (ATpPort (ActTpPort (Some OFPAT_SET_TP_DST) 8 (Some 99))) (set_heap [ex_ip_frame] ex_wf) eq_refl eq_refl _).
  right. exists 99, OFPAT_SET_TP_DST. split; [reflexivity|]. right. left.
Defined.

Lemma request_answered_witness :
  exists d, switch_handle (H:=no_apps) 5 OFPT_ECHO_REQUEST
      (MEchoRequest (EchoRequest (Hdr 1 OFPT_ECHO_REQUEST 10 (Some 77)) [x01; x02])) (ex_switch (Some [])) =
    (Ok tt, set_chan (Some [d]) (ex_switch (Some []))) /\
    frame d OFPT_ECHO_REPLY (MEchoReply (EchoReply (Hdr OFP_VERSION OFPT_ECHO_REPLY 8 (Some 77)) [])).
Proof.
  refine (@request_answered no_apps 5 OFPT_ECHO_REQUEST
    (MEchoRequest (EchoRequest (Hdr 1 OFPT_ECHO_REQUEST 10 (Some 77)) [x01; x02])) _ _ 77 []
    (ex_switch (Some [])) eq_refl eq_refl _ eq_refl _); vm_compute; split; congruence.
Defined.
