(* ===== verification/NXTheory.v ===== *)
(** Several controllers on one switch: roles, rights, and who gets which message. *)
From S2P Require Import Prelude.
From S2P Require Import Steps.
From S2P Require Import PyStruct.
From S2P Require Import OfConst.
From S2P Require Import Wire.
From S2P Require Import OfBase.
From S2P Require Import OfMatch.
From S2P Require Import OfActions.
From S2P Require Import OfMessages.
From S2P Require Import OfStatsMsg.
From S2P Require Import Packets.
From S2P Require Import PacketCodec.
From S2P Require Import PacketTheory.
From S2P Require Import FlowTable.
From S2P Require Import Connection.
From S2P Require Import SoftSwitch.
From S2P Require Import NXSwitch.
From S2P Require Import SwitchTheory.

(** * Sending keeps roles and connections *)

Definition same_roles : relation NX := fun x x' =>
  nx_connections x' = nx_connections x /\ nx_role_by_conn x' = nx_role_by_conn x /\
  nx_last_id x' = nx_last_id x.
#[export] Instance same_roles_preorder : PreOrder same_roles.
Proof. unfold same_roles. split; [done|]. intros x y z (? & ? & ?) (? & ? & ?). split_and!; congruence. Qed.

#[export] Hint Extern 1 (keeps_at (by_chan ?Q) _ (zoom _ _ _)) => by apply (zoom_chan Q) : keeps.

(** [nx_send] and its parts, for a relation that the log and the round robin keep. *)
Section sending.
Context (Q : relation NX) `{!PreOrder Q}.
#[local] Existing Instance by_chan_preorder.
Hypothesis Hnext : forall n x, Q x (set_next_other n x).
Hypothesis Hlog : forall d x c, Q x (log_sent c d x).
#[local] Hint Resolve Hnext Hlog : core.
Ltac go := keeps_solve ltac:(unfold by_chan; simpl; first [reflexivity|done]).

Lemma send_to_chan c m s : keeps_at (by_chan Q) s (send_to c m).
Proof. unfold send_to, modify_nx. go. Qed.
#[local] Hint Resolve send_to_chan : keeps.
Lemma send_to_all_chan cs m s : keeps_at (by_chan Q) s (send_to_all cs m).
Proof. revert m s; induction cs as [|c cs IH]; intros m s; cbn [send_to_all]; go. Qed.
#[local] Hint Resolve send_to_all_chan : keeps.
Lemma nx_send_chan m s : keeps_at (by_chan Q) s (nx_send m).
Proof. unfold nx_send, modify_nx. go. Qed.
End sending.

Lemma nx_send_roles m s : keeps_at (by_chan same_roles) s (nx_send m).
Proof. apply nx_send_chan; [apply _|done|done]. Qed.

(** * At most one master *)

Definition is_master (x : NX) (c : Z) : Prop :=
  c ∈ nx_connections x /\ nx_role_by_conn x !! c = Some ROLE_MASTER.

(** Connections are distinct, were numbered by the class counter and have a role, and
    one of them at most is the master. *)
Record nx_wf (x : NX) : Prop := {
  nx_distinct : NoDup (nx_connections x);
  nx_numbered : Forall (fun c => c <= nx_last_id x) (nx_connections x);
  nx_roles_known : Forall (fun c => is_Some (nx_role_by_conn x !! c)) (nx_connections x);
  nx_one_master c c' : is_master x c -> is_master x c' -> c = c'
}.

Lemma same_roles_wf x x' : same_roles x x' -> nx_wf x -> nx_wf x'.
Proof.
  intros (E1 & E2 & E3) [H1 H2 H3 H4].
  constructor; rewrite ?E1, ?E2, ?E3; try done. intros c c'. unfold is_master. rewrite E1, E2. apply H4.
Qed.

Definition keeps_wf (c : Z) : relation NX := fun x x' =>
  nx_wf x /\ c ∈ nx_connections x -> nx_wf x' /\ c ∈ nx_connections x'.
#[export] Instance keeps_wf_preorder c : PreOrder (keeps_wf c).
Proof. unfold keeps_wf. split; [intros ?; done|]. intros x y z ? ? ?; auto. Qed.

Lemma same_roles_keeps_wf c x x' : same_roles x x' -> keeps_wf c x x'.
Proof. intros Hs [Hw Hc]. split; [by apply (same_roles_wf x)|]. destruct Hs as (-> & _). done. Qed.

Lemma demote_lookup c cs roles c' :
  demote c cs roles !! c' = if decide (c' ∈ cs /\ c' <> c) then Some ROLE_SLAVE else roles !! c'.
Proof.
  unfold demote. revert roles; induction cs as [|d cs IH]; intros roles; cbn [foldl].
  { rewrite decide_False; [done|]. intros [H _]. by apply elem_of_nil in H. }
  rewrite IH. destruct (decide (c' ∈ cs /\ c' <> c)) as [[? ?]|Hn].
  { rewrite decide_True; [done|]. split; [by right|done]. }
  destruct (Z.eqb_spec d c) as [->|Hd].
  - rewrite decide_False; [done|]. intros [[->|H]%elem_of_cons ?]; [done|]. by apply Hn.
  - destruct (decide (c' = d)) as [->|Hcd].
    + rewrite lookup_insert_eq, decide_True; [done|]. split; [by left|done].
    + rewrite lookup_insert_ne by done. rewrite decide_False; [done|].
      intros [[->|H]%elem_of_cons ?]; [done|]. by apply Hn.
Qed.

#[local] Arguments demote : simpl never.

(** [set_role] on the connections' state. *)
Definition role_set (c role : Z) (x : NX) : NX :=
  let x := set_roles (<[c := role]> (nx_role_by_conn x)) x in
  if role =? ROLE_MASTER then set_roles (demote c (nx_connections x) (nx_role_by_conn x)) x else x.
Lemma set_role_eq c role s : set_role c role s = (Ok tt, set_chan (role_set c role (sw_chan s)) s).
Proof. unfold set_role, role_set, modify_nx, mbind, M_bind, get, put. by destruct (role =? ROLE_MASTER). Qed.

Lemma role_set_wf c role x : keeps_wf c x (role_set c role x).
Proof.
  intros [[H1 H2 H3 H4] Hc]. unfold role_set. destruct (Z.eqb_spec role ROLE_MASTER) as [->|Hr].
  - split; [|done]. constructor; cbn; [done|done| |].
    + rewrite Forall_forall in *. intros c' Hc'. rewrite demote_lookup.
      destruct (decide _); [by eexists|]. destruct (decide (c = c')) as [->|Hn].
      * rewrite lookup_insert_eq. by eexists.
      * rewrite lookup_insert_ne by done. by apply H3.
    + assert (forall d, is_master (set_roles (demote c (nx_connections x) (<[c:=ROLE_MASTER]> (nx_role_by_conn x))) x) d -> d = c) as Hm.
      { intros d [Hd Hl]. cbn in *. rewrite demote_lookup in Hl.
        destruct (decide (d ∈ nx_connections x ∧ d ≠ c)) as [_|Hn]; [by injection Hl|].
        destruct (decide (d = c)) as [->|]; [done|]. exfalso. by apply Hn. }
      intros d d' Hd Hd'. cbn in Hd, Hd'. by rewrite (Hm d Hd), (Hm d' Hd').
  - split; [|done]. constructor; cbn; [done|done| |].
    + rewrite Forall_forall in *. intros c' Hc'. destruct (decide (c = c')) as [->|Hn].
      * rewrite lookup_insert_eq. by eexists.
      * rewrite lookup_insert_ne by done. by apply H3.
    + assert (forall d, is_master (set_roles (<[c:=role]> (nx_role_by_conn x)) x) d -> is_master x d) as Hm.
      { intros d [Hd Hl]. cbn in *. split; [done|]. destruct (decide (c = d)) as [->|Hn].
        - rewrite lookup_insert_eq in Hl. by injection Hl.
        - by rewrite lookup_insert_ne in Hl. }
      intros d d' Hd%Hm Hd'%Hm. by apply H4.
Qed.

Section reachability.
Context `{AppCodec}.
#[local] Existing Instance by_chan_preorder.
Ltac go := keeps_solve ltac:(unfold by_chan; simpl; apply same_roles_keeps_wf; repeat split).

Lemma nx_send_wf c m s : keeps_at (by_chan (keeps_wf c)) s (nx_send m).
Proof. apply same_roles_keeps_wf. apply nx_send_roles. Qed.
#[local] Hint Resolve nx_send_wf : keeps.
Lemma set_role_wf c role s : keeps_at (by_chan (keeps_wf c)) s (set_role c role).
Proof. unfold keeps_at, by_chan. rewrite set_role_eq. apply role_set_wf. Qed.
#[local] Hint Resolve set_role_wf : keeps.
Lemma nx_receive_vendor_wf c v s : keeps_at (by_chan (keeps_wf c)) s (nx_receive_vendor c v).
Proof. unfold nx_receive_vendor, receive_vendor. go. Qed.

Lemma nx_handle_wf now c t m s : keeps_at (by_chan (keeps_wf c)) s (nx_handle now c t m).
Proof.
  unfold nx_handle. destruct (handler nx_send (nx_receive_vendor c) now m) as [h|] eqn:E; [|go].
  assert (forall s, keeps_at (by_chan (keeps_wf c)) s h) as Hh.
  { intros s'. apply (handler_chan _ _ (fun m s _ => nx_send_wf c m s) _ _ _ _ s' (nx_receive_vendor_wf c) E). }
  unfold modify_nx, check_rights, send_error, send_to, modify_nx. go.
Qed.

(** What can happen to the switch: a controller connects, the reader of a connection
    hands over a message, a frame arrives at a port, a port goes down or comes up.
    Exceptions end a step early. *)
Inductive nx_step : NXSwitchImpl -> NXSwitchImpl -> Prop :=
  | step_connect s : nx_step s (set_io_worker s).2
  | step_message now c t m s : c ∈ nx_connections (sw_chan s) -> nx_step s (nx_handle now c t m s).2
  | step_packet now p in_port s :
      nx_step s ((r ← alloc p; process_packet nx_send now r in_port) s).2
  | step_port_down port s : nx_step s (take_port_down nx_send port s).2
  | step_port_up port s : nx_step s (bring_port_up nx_send port s).2.

Definition connected (x : NX) : NX :=
  let id := nx_last_id x + 1 in
  MkNX (nx_connections x ++ [id]) (<[id := ROLE_OTHER]> (nx_role_by_conn x))
    (nx_connection_in_action x) (nx_next_other x) id (nx_sent x).
Lemma set_io_worker_eq s :
  set_io_worker s = (Ok (nx_last_id (sw_chan s) + 1), set_chan (connected (sw_chan s)) s).
Proof. done. Qed.

Lemma set_io_worker_wf s : nx_wf (sw_chan s) -> nx_wf (sw_chan (set_io_worker s).2).
Proof.
  rewrite set_io_worker_eq. cbn. set (x := sw_chan s). intros [H1 H2 H3 H4]. assert (nx_last_id x + 1 ∉ nx_connections x) as Hf.
  { rewrite Forall_forall in H2. intros Hin. specialize (H2 _ Hin). lia. }
  constructor; cbn.
  - apply NoDup_app. split_and!; [done| |apply NoDup_singleton]. intros d Hd ->%list_elem_of_singleton. done.
  - apply Forall_app. split; [|by constructor; [lia|]]. apply (Forall_impl _ _ _ H2). lia.
  - apply Forall_app. split.
    + rewrite Forall_forall in *. intros d Hd. rewrite lookup_insert_ne by (intros <-; done). by apply H3.
    + constructor; [|done]. rewrite lookup_insert_eq. by eexists.
  - assert (forall d, is_master (connected x) d -> is_master x d) as Hm.
    { intros d [Hd Hl]. cbn in Hd, Hl. destruct (decide (nx_last_id x + 1 = d)) as [<-|Hn].
      - rewrite lookup_insert_eq in Hl. done.
      - rewrite lookup_insert_ne in Hl by done. apply elem_of_app in Hd as [Hd|Hd%list_elem_of_singleton]; [done|congruence]. }
    intros d d' Hd Hd'. apply H4; by apply Hm.
Qed.

(** C23: However controllers connect, ask for roles and send, and whatever the network
    does, no two connections of the switch are ever masters at the same time. *)
Theorem one_master last_id s0 s c c' : sw_chan s0 = NX_init last_id -> rtc nx_step s0 s ->
  is_master (sw_chan s) c -> is_master (sw_chan s) c' -> c = c'.
Proof.
  intros H0 Hs. assert (nx_wf (sw_chan s)) as Hw; [|by apply nx_one_master].
  assert (nx_wf (sw_chan s0)) as Hw0.
  { rewrite H0. constructor; cbn; [constructor..|]. intros ? ? [Hc _]. by apply elem_of_nil in Hc. }
  clear H0. induction Hs as [|s0 s1 s Hstep _ IH]; [done|]. apply IH.
  assert (forall m s, keeps_at (by_chan same_roles) s (nx_send m)) as Hsend by apply nx_send_roles.
  destruct Hstep.
  - by apply set_io_worker_wf.
  - by apply (nx_handle_wf now c0 t m s0).
  - eapply same_roles_wf; [|exact Hw0]. apply (keeps_bind (by_chan same_roles)); [apply (alloc_chan same_roles)|].
    intros r s' _ _. apply (process_packet_chan same_roles nx_send (fun m s _ => Hsend m s)).
  - eapply same_roles_wf; [|exact Hw0]. apply (take_port_down_chan same_roles nx_send Hsend).
  - eapply same_roles_wf; [|exact Hw0]. apply (bring_port_up_chan same_roles nx_send Hsend).
Qed.
End reachability.

(** * What a slave can do *)

(** Everything of the switch but its connections and the generator of xids. *)
Definition same_switch {C} : relation (Switch C) := fun s s' =>
  set_chan (sw_chan s) (set_xids (sw_xids s) s') = s.
#[export] Instance same_switch_preorder {C} : PreOrder (same_switch (C:=C)).
Proof.
  unfold same_switch. split; [by intros []|]. intros [] [] [] E1 E2.
  injection E1. injection E2. intros. by subst.
Qed.

Section slaves.
Context `{AppCodec}.
Ltac go := keeps_solve ltac:(by repeat match goal with s : NXSwitchImpl |- _ => destruct s end).

Lemma zoom_xids_same {A} (m : M Z A) (s : NXSwitchImpl) : keeps_at same_switch s (zoom sw_xids set_xids m).
Proof. unfold keeps_at, zoom, same_switch. destruct (m (sw_xids s)). by destruct s. Qed.
#[local] Hint Resolve zoom_xids_same : keeps.
Lemma send_to_same c m s : keeps_at same_switch s (send_to c m).
Proof. unfold send_to, modify_nx. go. Qed.
#[local] Hint Resolve send_to_same : keeps.
Lemma send_to_all_same cs m s : keeps_at same_switch s (send_to_all cs m).
Proof. revert m s; induction cs as [|c cs IH]; intros m s; cbn [send_to_all]; go. Qed.
#[local] Hint Resolve send_to_all_same : keeps.
Lemma nx_send_same m s : keeps_at same_switch s (nx_send m).
Proof. unfold nx_send, modify_nx. go. Qed.
#[local] Hint Resolve nx_send_same : keeps.
Lemma nx_receive_vendor_same c v s : keeps_at same_switch s (nx_receive_vendor c v).
Proof. unfold nx_receive_vendor, set_role, modify_nx, receive_vendor. go. Qed.
#[local] Hint Resolve nx_receive_vendor_same : keeps.

(** C25: Nothing a slave controller sends changes the switch: its flow table, ports,
    packet buffer, packets and output stay as they are, whatever the message. *)
Theorem slave_changes_nothing now c t m s :
  nx_role_by_conn (sw_chan s) !! c = Some ROLE_SLAVE ->
  same_switch s (nx_handle now c t m s).2.
Proof.
  intros Hrole. change (keeps_at same_switch s (nx_handle now c t m)).
  unfold nx_handle. destruct (handler nx_send (nx_receive_vendor c) now m) as [h|] eqn:E; [|go].
  unfold modify_nx, check_rights. apply (keeps_bind same_switch); [go|].
  intros [] s1 [= <-] _. apply (keeps_bind same_switch); [go|].
  intros rights s2 E2 _. unfold mbind, M_bind, get in E2; cbn in E2. rewrite Hrole in E2. cbn in E2.
  injection E2 as <- <-. apply (keeps_bind same_switch); [|intros; go].
  destruct m; cbn [slave_blacklist negb]; try discriminate; try (unfold send_error; go);
    injection E as <-; try apply nx_receive_vendor_same;
    unfold send_hello, receive_echo, receive_features_request, receive_get_config_request,
      receive_stats_request; go.
Qed.
End slaves.

(** * Who gets the answers *)

Definition all_to (c : Z) (l : list (Z * bytes)) : Prop := Forall (fun e => e.1 = c) l.

(** While the message of [c] is being handled, everything is sent to [c]. *)
Definition answers (c : Z) : relation NX := fun x x' =>
  nx_connection_in_action x = Some c ->
  nx_connection_in_action x' = Some c /\ exists l, nx_sent x' = nx_sent x ++ l /\ all_to c l.
#[export] Instance answers_preorder c : PreOrder (answers c).
Proof.
  unfold answers, all_to. split.
  - intros x Hx. split; [done|]. exists []. split; [by rewrite app_nil_r|constructor].
  - intros x y z Hxy Hyz Hx. destruct (Hxy Hx) as (Hy & l & El & Hl).
    destruct (Hyz Hy) as (Hz & k & Ek & Hk). split; [done|]. exists (l ++ k).
    split; [by rewrite Ek, El, app_assoc|]. by apply Forall_app.
Qed.

Lemma same_log_answers c x x' : nx_connection_in_action x' = nx_connection_in_action x ->
  nx_sent x' = nx_sent x -> answers c x x'.
Proof.
  intros E1 E2 Hx. split; [congruence|]. exists []. split; [by rewrite app_nil_r|constructor].
Qed.

Lemma nx_send_active c m s : messages_for_all m = false ->
  nx_connection_in_action (sw_chan s) = Some c -> nx_send m s = (_ ← send_to c m; mret tt) s.
Proof. intros Hm Hc. unfold nx_send, mbind at 1, M_bind at 1, get. by rewrite Hm, Hc. Qed.

Section answering.
Context `{AppCodec}.
Variable c : Z.
#[local] Existing Instance by_chan_preorder.
Ltac go := keeps_solve ltac:(unfold by_chan; simpl; first [reflexivity|by apply same_log_answers]).

Lemma send_to_answers m s : keeps_at (by_chan (answers c)) s (send_to c m).
Proof.
  unfold send_to, modify_nx. go. unfold by_chan, answers; cbn. intros Hx. split; [done|].
  eexists. split; [done|]. by repeat constructor.
Qed.
#[local] Hint Resolve send_to_answers : keeps.
Lemma nx_send_answers m s : messages_for_all m = false -> keeps_at (by_chan (answers c)) s (nx_send m).
Proof.
  intros Hm Hc.
  rewrite (nx_send_active c) by done. revert Hc. change (keeps_at (by_chan (answers c)) s (_ ← send_to c m; mret tt)). go.
Qed.
#[local] Hint Resolve nx_send_answers : keeps.
Lemma nx_receive_vendor_answers v s : keeps_at (by_chan (answers c)) s (nx_receive_vendor c v).
Proof. unfold nx_receive_vendor, set_role, modify_nx, receive_vendor. go. Qed.

(** The guarded handler, up to the point where it gives up the connection. *)
Lemma handler_answers now m h s : handler nx_send (nx_receive_vendor c) now m = Some h ->
  keeps_at (by_chan (answers c)) s
    (rights ← check_rights m c; if rights : bool then h else send_error c).
Proof.
  intros E. assert (forall s, keeps_at (by_chan (answers c)) s h) as Hh.
  { intros s'. apply (handler_chan (answers c) nx_send (fun m s Hm => nx_send_answers m s Hm)
      _ _ _ _ s' nx_receive_vendor_answers E). }
  unfold check_rights, send_error. go.
Qed.

(** Handling a message sends to the connection it came from and to no other one,
    whichever controller is the master. *)
Theorem answers_go_back now t m s :
  exists l, nx_sent (sw_chan (nx_handle now c t m s).2) = nx_sent (sw_chan s) ++ l /\ all_to c l.
Proof.
  unfold nx_handle. destruct (handler nx_send (nx_receive_vendor c) now m) as [h|] eqn:E.
  2: { exists []. split; [by rewrite app_nil_r|constructor]. }
  set (s1 := set_chan (set_in_action (Some c) (sw_chan s)) s).
  pose proof (handler_answers now m h s1 E eq_refl) as (_ & l & El & Hl).
  exists l. split; [|done]. change (nx_sent (sw_chan s)) with (nx_sent (sw_chan s1)). rewrite <-El.
  unfold modify_nx, mbind, M_bind, get, put. cbn [fst snd]. fold s1.
  destruct (check_rights m c s1) as [[rights|e] s2]; [|done].
  by destruct ((if rights then h else send_error c) s2) as [[[]|e] s3].
Qed.

(** When the handler of a message raises, its connection stays the one in action:
    from then on every message but port status - packet-ins, hellos - is sent to that
    controller, whether or not it is the master. *)
Theorem exception_captures now t m s e s' h :
  handler nx_send (nx_receive_vendor c) now m = Some h ->
  nx_handle now c t m s = (Err e, s') ->
  nx_connection_in_action (sw_chan s') = Some c /\
  forall m', messages_for_all m' = false -> nx_send m' s' = (_ ← send_to c m'; mret tt) s'.
Proof.
  intros E. unfold nx_handle. rewrite E. intros Hrun.
  set (s1 := set_chan (set_in_action (Some c) (sw_chan s)) s) in *.
  pose proof (handler_answers now m h s1 E eq_refl) as (Ha & _).
  assert (nx_connection_in_action (sw_chan s') = Some c) as Hc.
  { revert Ha Hrun. unfold modify_nx, mbind, M_bind, get, put. cbn [fst snd]. fold s1.
    destruct (check_rights m c s1) as [[rights|e1] s2]; [|by intros Ha [= <- <-]].
    destruct ((if rights then h else send_error c) s2) as [[[]|e1] s3]; [done|]. by intros Ha [= <- <-]. }
  split; [done|]. intros m' Hm'. by apply nx_send_active.
Qed.
End answering.

(** * Distribution among equals *)

(** A message that packs, whatever the next xid. *)
Definition packs (m : of_msg) : Prop := forall st, 0 <= st < 2 ^ 31 ->
  exists m' d st', conn_pack m st = (Ok (m', d), st') /\ 0 <= st' < 2 ^ 31.

Fixpoint nx_send_each (ms : list of_msg) : M NXSwitchImpl unit :=
  match ms with [] => mret tt | m :: ms => nx_send m;; nx_send_each ms end.

(** No connection is active, none is the master, and [others] have the role OTHER. *)
Record idle (others : list Z) (s : NXSwitchImpl) : Prop := {
  idle_active : nx_connection_in_action (sw_chan s) = None;
  idle_masters : with_role ROLE_MASTER (nx_role_by_conn (sw_chan s)) (nx_connections (sw_chan s)) = Ok [];
  idle_others : with_role ROLE_OTHER (nx_role_by_conn (sw_chan s)) (nx_connections (sw_chan s)) = Ok others;
  idle_next : 0 <= nx_next_other (sw_chan s);
  idle_xids : 0 <= sw_xids s < 2 ^ 31
}.

Lemma nx_send_other others m s c : idle others s -> messages_for_all m = false -> packs m ->
  others !! Z.to_nat (nx_next_other (sw_chan s) mod zlen others) = Some c ->
  exists d s', nx_send m s = (Ok tt, s') /\ idle others s' /\
    nx_next_other (sw_chan s') = nx_next_other (sw_chan s) mod zlen others + 1 /\
    nx_sent (sw_chan s') = nx_sent (sw_chan s) ++ [(c, d)].
Proof.
  intros [Ha Hm Ho Hn Hx] Hf Hp Hc. destruct (Hp _ Hx) as (m' & d & st' & E & Hst').
  assert (0 < zlen others) as Hlen by (unfold zlen; destruct others; [done|cbn; lia]).
  pose proof (Z.mod_pos_bound (nx_next_other (sw_chan s)) _ Hlen) as Hmod.
  exists d, (set_chan (set_next_other (nx_next_other (sw_chan s) mod zlen others + 1)
    (log_sent c d (sw_chan s))) (set_xids st' s)).
  split.
  - unfold nx_send, mbind at 1, M_bind at 1, get. rewrite Hf, Ha, Hm, Ho.
    unfold mbind, M_bind, lift. destruct others as [|o others]; [done|].
    unfold modify_nx, mbind, M_bind, get, put. cbn [fst snd]. rewrite Hc.
    unfold send_to, zoom, mbind, M_bind. cbn [sw_xids set_chan]. by rewrite E.
  - split; [|done]. constructor; cbn; try done. lia.
Qed.

(** The connection that gets the [i]-th message. *)
Definition turn (others : list Z) (next i : Z) : option Z :=
  others !! Z.to_nat ((next + i) mod zlen others).

Lemma nx_send_each_turns others ms s : idle others s -> others <> [] ->
  Forall (fun m => messages_for_all m = false /\ packs m) ms ->
  exists sent s', nx_send_each ms s = (Ok tt, s') /\
    nx_sent (sw_chan s') = nx_sent (sw_chan s) ++ sent /\
    map (fun e => Some e.1) sent =
      map (fun i => turn others (nx_next_other (sw_chan s)) (Z.of_nat i)) (seq 0 (length ms)).
Proof.
  intros Hi Hne Hms. revert s Hi. induction Hms as [|m ms [Hf Hp] _ IH]; intros s Hi.
  { exists [], s. by rewrite app_nil_r. }
  assert (0 < zlen others) as Hlen by (unfold zlen; destruct others; [done|cbn; lia]).
  pose proof (Z.mod_pos_bound (nx_next_other (sw_chan s)) _ Hlen) as Hmod.
  destruct (lookup_lt_is_Some_2 others (Z.to_nat (nx_next_other (sw_chan s) mod zlen others))) as [c Hc].
  { unfold zlen in *. lia. }
  destruct (nx_send_other others m s c Hi Hf Hp Hc) as (d & s1 & E1 & Hi1 & En & Es).
  destruct (IH s1 Hi1) as (sent & s' & E' & Es' & Et).
  exists ((c, d) :: sent), s'. split; [|split].
  - cbn [nx_send_each]. unfold mbind, M_bind. by rewrite E1.
  - by rewrite Es', Es, <-app_assoc.
  - cbn [length seq map fst]. f_equal.
    + unfold turn. by rewrite Z.add_0_r, Hc.
    + rewrite Et, <-seq_shift, map_map. apply map_ext. intros i. unfold turn. do 2 f_equal.
      rewrite En, Nat2Z.inj_succ, <-Z.add_assoc, Zplus_mod_idemp_l. f_equal. lia.
Qed.

(** One round is everybody's turn. *)
Lemma turns_rotate others next : 0 <= next -> others <> [] ->
  map (fun i => turn others next (Z.of_nat i)) (seq 0 (length others)) =
    map Some (rotate (Z.to_nat (next mod zlen others)) others).
Proof.
  intros Hn Hne. apply list_eq. intros i. rewrite !list_lookup_fmap.
  assert (0 < zlen others) as Hlen by (unfold zlen; destruct others; [done|cbn; lia]).
  pose proof (Z.mod_pos_bound next _ Hlen) as Hmod.
  destruct (decide (i < length others)%nat) as [Hlt|Hge].
  - rewrite lookup_seq_lt by done. cbn [fmap option_fmap option_map Nat.add].
    unfold turn. rewrite lookup_rotate_r by done. unfold rotate_nat_add.
    rewrite Z2Nat.id by lia. fold (zlen others). rewrite Zplus_mod_idemp_l.
    pose proof (Z.mod_pos_bound (next + Z.of_nat i) _ Hlen) as Hi.
    destruct (lookup_lt_is_Some_2 others (Z.to_nat ((next + Z.of_nat i) mod zlen others))) as [c ->];
      [unfold zlen in *; lia|done].
  - rewrite !lookup_ge_None_2 by (rewrite ?length_seq, ?length_rotate; lia). done.
Qed.

Lemma rotate_perm {A} k (l : list A) : rotate k l ≡ₚ l.
Proof. unfold rotate. rewrite Permutation_app_comm. by rewrite take_drop. Qed.

(** With no master and no message being handled, messages take turns: of as many
    messages in a row as there are equal controllers, each controller gets exactly
    one. *)
Theorem round_robin_fair others ms s : idle others s -> others <> [] ->
  length ms = length others -> Forall (fun m => messages_for_all m = false /\ packs m) ms ->
  exists sent s', nx_send_each ms s = (Ok tt, s') /\
    nx_sent (sw_chan s') = nx_sent (sw_chan s) ++ sent /\ map fst sent ≡ₚ others.
Proof.
  intros Hi Hne Hlen Hms. destruct (nx_send_each_turns others ms s Hi Hne Hms) as (sent & s' & E & Es & Et).
  exists sent, s'. split_and!; [done..|].
  rewrite Hlen, turns_rotate in Et by (done || apply Hi).
  rewrite <-(rotate_perm (Z.to_nat (nx_next_other (sw_chan s) mod zlen others)) others).
  assert (map fst sent = rotate (Z.to_nat (nx_next_other (sw_chan s) mod zlen others)) others) as ->; [|done].
  apply (inj (fmap (M:=list) Some)). etrans; [|exact Et]. exact (map_map fst Some sent).
Qed.

(** * Port changes reach everybody *)

(** Packed once, a message has its xid: packing it again gives the same bytes and draws
    no other. *)
Lemma header_pack_again h st h' p st' : ofp_header_pack h st = (Ok (h', p), st') ->
  ofp_header_pack h' st' = (Ok (h', p), st').
Proof.
  unfold ofp_header_pack, mbind, M_bind, mret, M_ret, lift, raise, generateXID.
  destruct (hdr_xid h) as [x|] eqn:Ex; cbv beta iota zeta.
  - destruct (negb (ofp_header_assert h)) eqn:Ea; [done|]. rewrite Ex. cbn [need_int].
    destruct (struct_pack _ _) eqn:Ep; [|done]. intros [= <- <- <-]. by rewrite Ex, Ea, Ex; cbn [need_int]; rewrite Ep.
  - cbn [hdr_xid hdr_version hdr_type hdr_length need_int].
    destruct (negb _) eqn:Ea; [done|].
    destruct (struct_pack _ _) eqn:Ep; [|done]. intros [= <- <- <-].
    cbn [hdr_xid hdr_version hdr_type hdr_length need_int]. by rewrite Ea, Ep.
Qed.

Lemma port_status_pack_again m st m' d st' :
  ofp_port_status_pack true m st = (Ok (m', d), st') ->
  ofp_port_status_pack true m' st' = (Ok (m', d), st').
Proof.
  unfold ofp_port_status_pack, mbind, M_bind, mret, M_ret, lift.
  destruct (ofp_header_pack (pst_hdr m) st) as [[[h p]|e] st1] eqn:Eh; [|done].
  destruct (struct_pack "!B" _) as [a|e] eqn:Ea; [|done].
  destruct (ofp_phy_port_pack true (pst_desc m)) as [[port s]|e] eqn:Ed; [|done].
  destruct (append_opt _ s) as [packed|e] eqn:Es; [|done]. intros [= <- <- <-].
  cbn [pst_hdr pst_reason pst_desc]. rewrite (header_pack_again _ _ _ _ _ Eh), Ea.
  assert (ofp_phy_port_pack true port = Ok (port, s)) as ->; [|by rewrite Es].
  assert (port = pst_desc m) as ->; [|done]. revert Ed. unfold ofp_phy_port_pack.
  destruct (true && _); [by intros [=]|]. destruct (struct_pack "!H" _); [|done].
  cbn [mbind res_bind]. destruct (struct_pack "!LLLLLL" _); [|done]. by intros [=].
Qed.

Lemma conn_pack_port_status m st m' d st' : ofp_port_status_pack true m st = (Ok (m', Some d), st') ->
  conn_pack (MPortStatus m) st = (Ok (MPortStatus m', d), st').
Proof. intros E. unfold conn_pack, of_msg_pack, mbind, M_bind. by rewrite E. Qed.

Lemma send_to_all_settled cs m d s :
  conn_pack m (sw_xids s) = (Ok (m, d), sw_xids s) ->
  exists x, send_to_all cs m s = (Ok tt, set_chan x s) /\
    nx_sent x = nx_sent (sw_chan s) ++ map (fun c => (c, d)) cs.
Proof.
  revert s; induction cs as [|c cs IH]; intros s Em.
  { exists (sw_chan s). rewrite app_nil_r. split; [by destruct s|done]. }
  cbn [send_to_all]. unfold send_to at 1, zoom, modify_nx.
  destruct (IH (set_chan (log_sent c d (sw_chan s)) s) Em) as (x & E & Ex). exists x.
  unfold mbind, M_bind, get, put, mret, M_ret in *. rewrite Em. cbn [fst snd].
  replace (set_xids (sw_xids s) s) with s by by destruct s. rewrite E. split; [done|].
  rewrite Ex. cbn. by rewrite <-app_assoc.
Qed.

(** A message that packs the same the second time reaches all as the same bytes. *)
Lemma send_to_all_same_bytes cs m m' d st' s :
  conn_pack m (sw_xids s) = (Ok (m', d), st') -> conn_pack m' st' = (Ok (m', d), st') ->
  exists s', send_to_all cs m s = (Ok tt, s') /\ same_switch s s' /\
    nx_sent (sw_chan s') = nx_sent (sw_chan s) ++ map (fun c => (c, d)) cs.
Proof.
  intros E1 E2. destruct cs as [|c cs].
  { exists s. rewrite app_nil_r. split; [done|]. split; [by apply same_switch_preorder|done]. }
  set (s1 := set_chan (log_sent c d (sw_chan s)) (set_xids st' s)).
  destruct (send_to_all_settled cs m' d s1 E2) as (x & E & Ex). exists (set_chan x s1).
  split; [|split].
  - cbn [send_to_all]. unfold send_to at 1, zoom, modify_nx, mbind, M_bind, get, put, mret, M_ret.
    rewrite E1. cbn [fst snd]. exact E.
  - by destruct s.
  - cbn [sw_chan set_chan]. rewrite Ex. cbn. by rewrite <-app_assoc.
Qed.

(** A port that is taken down is gone, and every connected controller - slaves
    included - is sent the same port-status message, which reads back as the deleted
    port. *)
Theorem port_down_announced port p s : sw_ports s !! pp_port_no port = Some p ->
  ofp_phy_port_wf port -> 0 <= sw_xids s < 2 ^ 31 ->
  exists d s', take_port_down nx_send port s = (Ok tt, s') /\
    sw_ports s' = delete (pp_port_no port) (sw_ports s) /\
    nx_sent (sw_chan s') = nx_sent (sw_chan s) ++ map (fun c => (c, d)) (nx_connections (sw_chan s)) /\
    forall rest, ofp_port_status_unpack ofp_port_status_init (d ++ rest) =
      Ok (PortStatus (Hdr OFP_VERSION OFPT_PORT_STATUS 64 (Some (sw_xids s))) OFPPR_DELETE port, rest).
Proof.
  intros Hp Hw Hx. set (m := PortStatus (pst_hdr ofp_port_status_init) OFPPR_DELETE port).
  assert (msg_wf m) as Hm.
  { split; [|by split_and!]. by repeat split; cbn. }
  destruct (msg_pack_ok m (sw_xids s) Hm Hx) as (d & E & _ & _ & _ & Hd).
  change (mpack true m) with (ofp_port_status_pack true m) in E.
  set (m' := with_hdr _ _) in E, Hd. set (st' := snd _) in E.
  pose proof (conn_pack_port_status _ _ _ _ _ E) as E1.
  pose proof (conn_pack_port_status _ _ _ _ _ (port_status_pack_again _ _ _ _ _ E)) as E2.
  destruct (send_to_all_same_bytes (nx_connections (sw_chan s)) _ _ _ _
    (set_ports (delete (pp_port_no port) (sw_ports s)) s) E1 E2) as (s' & Es & Hs & Esent).
  exists d, s'. split; [|split; [|split; [done|]]].
  - unfold take_port_down, mbind, M_bind, get. rewrite Hp. unfold put.
    unfold send_port_status. destruct (negb _) eqn:En; [by vm_compute in En|]. exact Es.
  - unfold same_switch in Hs. apply (f_equal sw_ports) in Hs. exact Hs.
  - intros rest. exact (Hd ofp_port_status_init rest).
Qed.

(** * Roles on request *)

(** Role requests and replies survive the wire: what [pack] makes of them,
    [unpack_vendor_data_nx] reads back as the same kind of data with the same role. *)
Theorem role_data_roundtrip subtype role rest : u32 role ->
  subtype = ROLE_REQUEST \/ subtype = ROLE_REPLY ->
  exists b, role_data_pack (role_data_init subtype role) = Ok b /\ zlen b = 8 /\
    unpack_vendor_data_nx (b ++ rest) =
      Ok ((if subtype =? ROLE_REQUEST then RoleRequest else RoleReply) (role_data_init subtype role)).
Proof.
  intros Hr Hs. unfold role_data_pack, nx_data_pack. cbn [rd_nx rd_role nxd_subtype role_data_init].
  assert (u32 subtype) as Hs32 by (unfold ROLE_REQUEST, ROLE_REPLY in Hs; lia).
  destruct (struct_pack_ok "!L" [subtype] ltac:(unfold fmt_accepts; simpl; lia)) as (k & Ek & Lk).
  destruct (struct_pack_ok "!L" [role] ltac:(unfold fmt_accepts; simpl; lia)) as (r & Er & Lr).
  change (struct_calcsize "!L") with 4 in Lk, Lr.
  rewrite Ek, Er. cbn [mbind res_bind]. exists (k ++ r). split; [done|]. split; [rewrite zlen_app; lia|].
  assert (forall d, nx_data_unpack d (k ++ r ++ rest) = Ok (NxData subtype, r ++ rest)) as Hn.
  { intros d. unfold nx_data_unpack. guard_tac. by repeat read_step. }
  assert (forall d, role_data_unpack d (k ++ r ++ rest) = Ok (role_data_init subtype role, rest)) as Hd.
  { intros d. unfold role_data_unpack. pose proof (zlen_nonneg rest).
    rewrite (proj2 (Z.ltb_ge _ _)) by (rewrite !zlen_app; lia).
    rewrite slice_from_all, Hn. cbn [mbind res_bind]. by repeat read_step. }
  rewrite <-app_assoc. unfold unpack_vendor_data_nx. guard_tac. rewrite Hn. cbn [mbind res_bind nxd_subtype].
  by destruct Hs as [->| ->]; cbn [Z.eqb Pos.eqb ROLE_REQUEST ROLE_REPLY]; rewrite Hd.
Qed.

(** A request for the role of master is granted: the controller becomes the master,
    every other one becomes a slave, the requester - and nobody else - gets a role reply,
    and the rest of the switch stays as it is. *)
Theorem master_on_request `{AppCodec} now c h data s :
  c ∈ nx_connections (sw_chan s) -> is_Some (nx_role_by_conn (sw_chan s) !! c) ->
  0 <= sw_xids s < 2 ^ 31 ->
  role_data_pack (role_data_init ROLE_REQUEST ROLE_MASTER) = Ok data ->
  exists d s', nx_handle now c OFPT_VENDOR (MVendor (Vendor h VENDOR_ID data)) s = (Ok tt, s') /\
    same_switch s s' /\
    (forall c', c' ∈ nx_connections (sw_chan s) ->
      nx_role_by_conn (sw_chan s') !! c' = Some (if c' =? c then ROLE_MASTER else ROLE_SLAVE)) /\
    nx_sent (sw_chan s') = nx_sent (sw_chan s) ++ [(c, d)] /\
    exists hdr reply, ofp_vendor_unpack ofp_vendor_init d = Ok (Vendor hdr VENDOR_ID reply, []) /\
      unpack_vendor_data_nx reply = Ok (RoleReply (role_data_init ROLE_REPLY ROLE_MASTER)).
Proof.
  intros Hc [r Hr] Hx Hdata.
  assert (unpack_vendor_data_nx data = Ok (RoleRequest (role_data_init ROLE_REQUEST ROLE_MASTER))) as Hd.
  { vm_compute in Hdata. injection Hdata as <-. by vm_compute. }
  destruct (role_data_pack (role_data_init ROLE_REPLY ROLE_MASTER)) as [reply|] eqn:Er;
    [|by vm_compute in Er].
  assert (zlen reply = 8 /\ unpack_vendor_data_nx reply = Ok (RoleReply (role_data_init ROLE_REPLY ROLE_MASTER))) as [Hl Hu].
  { vm_compute in Er. injection Er as <-. by vm_compute. }
  set (m := Vendor (ve_hdr ofp_vendor_init) VENDOR_ID reply).
  assert (msg_wf m) as Hm.
  { cbn [msg_wf ofp_vendor_msg m ve_data ve_vendor]. rewrite Hl. by repeat split; cbn. }
  destruct (msg_pack_ok m (sw_xids s) Hm Hx) as (d & E & _ & _ & _ & Hdu).
  change (mpack true m) with (ofp_vendor_pack true m) in E.
  set (m' := with_hdr _ _) in E, Hdu. set (st' := snd _) in E.
  set (x := role_set c ROLE_MASTER (set_in_action (Some c) (sw_chan s))).
  exists d, (set_chan (set_in_action None (log_sent c d x)) (set_xids st' s)).
  split; [|split; [|split; [|split]]].
  - unfold nx_handle, handler, modify_nx, check_rights, mbind, M_bind, get, put. cbn [fst snd].
    cbn [sw_chan set_chan nx_role_by_conn set_in_action]. rewrite Hr. unfold mret, M_ret.
    cbn [slave_blacklist negb]. replace (if negb (r =? ROLE_SLAVE) then true else true) with true by by destruct (negb _).
    unfold nx_receive_vendor. cbn [ve_vendor ve_data]. rewrite Z.eqb_refl, Hd.
    unfold lift, mbind, M_bind. cbn [fst snd rd_role role_data_init]. rewrite set_role_eq, Er.
    cbn [sw_chan set_chan]. fold x. fold m.
    rewrite (nx_send_active c) by done. unfold send_to, zoom, modify_nx, mbind, M_bind, get, put, mret, M_ret.
    unfold conn_pack, of_msg_pack, mbind, M_bind. cbn [sw_xids set_chan]. rewrite E. done.
  - by destruct s.
  - intros c' Hc'. cbn [sw_chan set_chan nx_role_by_conn set_in_action log_sent]. unfold x, role_set.
    rewrite Z.eqb_refl. cbn [nx_role_by_conn set_roles nx_connections set_in_action].
    rewrite demote_lookup. destruct (Z.eqb_spec c' c) as [->|Hne].
    + rewrite decide_False by (by intros [_ ?]). by rewrite lookup_insert_eq.
    + by rewrite decide_True.
  - done.
  - exists (ve_hdr m'), reply. split; [|done]. rewrite <-(app_nil_r d). exact (Hdu ofp_vendor_init []).
Qed.

(** * Examples *)

(** The example switch with two controllers, numbered 1 and 2. *)
Definition ex_nx : NXSwitchImpl := (set_io_worker (set_io_worker (ex_switch (NX_init 0))).2).2.
Definition ex_request : of_msg :=
  MVendor (Vendor (Hdr 1 OFPT_VENDOR 20 (Some 7)) VENDOR_ID [x00;x00;x00;x0a;x00;x00;x00;x01]).
Definition ex_nx_master : NXSwitchImpl := (nx_handle (H:=no_apps) 0 2 OFPT_VENDOR ex_request ex_nx).2.

Lemma one_master_witness : is_master (sw_chan ex_nx_master) 2 /\ 2 = 2.
Proof.
  assert (is_master (sw_chan ex_nx_master) 2) as Hm.
  { split; [vm_compute; right; left|vm_compute; reflexivity]. }
  split; [exact Hm|].
  refine (@one_master no_apps 0 (ex_switch (NX_init 0)) ex_nx_master 2 2 eq_refl _ Hm Hm).
  eapply rtc_l; [apply step_connect|]. eapply rtc_l; [apply step_connect|].
  eapply rtc_l; [|apply rtc_refl]. apply (@step_message no_apps 0 2 OFPT_VENDOR ex_request ex_nx).
  vm_compute. right. left.
Defined.

Definition ex_flow_mod : of_msg :=
  MFlowMod (FlowMod (Hdr 1 OFPT_FLOW_MOD 72 (Some 1)) ofp_match_init 0 OFPFC_ADD 0 0 1 (-1) OFPP_NONE 2 []).

Lemma slave_changes_nothing_witness :
  nx_role_by_conn (sw_chan ex_nx_master) !! 1 = Some ROLE_SLAVE /\
  same_switch ex_nx_master (nx_handle (H:=no_apps) 5 1 OFPT_FLOW_MOD ex_flow_mod ex_nx_master).2.
Proof.
  assert (nx_role_by_conn (sw_chan ex_nx_master) !! 1 = Some ROLE_SLAVE) as Hr by (vm_compute; reflexivity).
  split; [exact Hr|]. exact (@slave_changes_nothing no_apps 5 1 OFPT_FLOW_MOD ex_flow_mod ex_nx_master Hr).
Defined.

(** The flow mod asks for the overlap check the table does not implement. *)
Lemma exception_captures_witness :
  exists h s', handler (H:=no_apps) nx_send (nx_receive_vendor 1) 5 ex_flow_mod = Some h /\
    nx_handle (H:=no_apps) 5 1 OFPT_FLOW_MOD ex_flow_mod ex_nx = (Err NotImplementedError, s') /\
    nx_connection_in_action (sw_chan s') = Some 1.
Proof.
  eexists _, _. split; [reflexivity|]. split; [vm_compute; reflexivity|].
  refine (proj1 (@exception_captures no_apps 1 5 OFPT_FLOW_MOD ex_flow_mod ex_nx NotImplementedError _ _ eq_refl _)).
  vm_compute. reflexivity.
Defined.

Lemma hello_packs : packs (MHello ofp_hello_init).
Proof.
  intros st Hst. assert (msg_wf ofp_hello_init) as Hw by (by repeat split; cbn).
  destruct (msg_pack_ok ofp_hello_init st Hw Hst) as (d & E & _).
  change (mpack true ofp_hello_init) with (ofp_hello_pack true ofp_hello_init) in E.
  eexists _, d, _. split.
  - unfold conn_pack, of_msg_pack, mbind, M_bind. rewrite E. reflexivity.
  - cbn [hdr_settle mhdr mready ofp_hello_msg he_hdr ofp_hello_init hdr_xid snd].
    apply Z.mod_pos_bound. lia.
Qed.

Lemma round_robin_fair_witness :
  idle [1; 2] ex_nx /\
  exists sent s', nx_send_each [MHello ofp_hello_init; MHello ofp_hello_init] ex_nx = (Ok tt, s') /\
    nx_sent (sw_chan s') = nx_sent (sw_chan ex_nx) ++ sent /\ map fst sent ≡ₚ [1; 2].
Proof.
  assert (idle [1; 2] ex_nx) as Hi.
  { constructor; try (vm_compute; reflexivity); vm_compute; intuition congruence. }
  split; [exact Hi|].
  refine (round_robin_fair [1; 2] [MHello ofp_hello_init; MHello ofp_hello_init] ex_nx Hi _ eq_refl _).
  - discriminate.
  - repeat constructor; apply hello_packs.
Defined.

Lemma port_down_announced_witness :
  let port := PhyPort 1 (HwEth (Addresses.MkEth (replicate 6 x01))) [] 0 0 0 0 0 0 in
  exists d s', take_port_down nx_send port ex_nx = (Ok tt, s') /\
    sw_ports s' = delete (pp_port_no port) (sw_ports ex_nx) /\
    nx_sent (sw_chan s') = nx_sent (sw_chan ex_nx) ++ map (fun c => (c, d)) (nx_connections (sw_chan ex_nx)) /\
    forall rest, ofp_port_status_unpack ofp_port_status_init (d ++ rest) =
      Ok (PortStatus (Hdr OFP_VERSION OFPT_PORT_STATUS 64 (Some (sw_xids ex_nx))) OFPPR_DELETE port, rest).
Proof.
  intros port. apply (port_down_announced port port ex_nx).
  - vm_compute. reflexivity.
  - unfold ofp_phy_port_wf. cbn. split_and!; try lia; try reflexivity; [by vm_compute|split; [cbn; lia|apply not_elem_of_nil]].
  - vm_compute; split; [discriminate|reflexivity].
Defined.

Lemma role_data_roundtrip_witness :
  exists b, role_data_pack (role_data_init ROLE_REPLY 2) = Ok b /\ zlen b = 8 /\
    unpack_vendor_data_nx (b ++ [x01]) = Ok (RoleReply (role_data_init ROLE_REPLY 2)).
Proof. apply (role_data_roundtrip ROLE_REPLY 2 [x01]); [lia|right; reflexivity]. Defined.

Lemma master_on_request_witness :
  exists d s', nx_handle (H:=no_apps) 0 2 OFPT_VENDOR ex_request ex_nx = (Ok tt, s') /\
    nx_sent (sw_chan s') = [(2, d)].
Proof.
  destruct (@master_on_request no_apps 0 2 (Hdr 1 OFPT_VENDOR 20 (Some 7)) [x00;x00;x00;x0a;x00;x00;x00;x01] ex_nx)
    as (d & s' & E & _ & _ & Es & _).
  - vm_compute. right. left.
  - vm_compute. eexists. reflexivity.
  - vm_compute; split; [discriminate|reflexivity].
  - vm_compute. reflexivity.
  - exists d, s'. split; [exact E|exact Es].
Defined.
