(* ===== verification/Controller.v ===== *)
(** The controller's side of an OpenFlow connection: the connection objects and the
    message handlers of [openflow/of_01.py], the events they raise
    ([openflow/__init__.py]), and the nexus and arbiter of
    [openflow/connection_arbiter.py].  The sockets, and what the applications do on an
    event, are parameters: functions of a socket's calls, and computations on the
    state of the controller. *)
From S2P Require Import Prelude.
From S2P Require Import OfConst.
From S2P Require Import Wire.
From S2P Require Import OfBase.
From S2P Require Import OfMatch.
From S2P Require Import OfActions.
From S2P Require Import OfStats.
From S2P Require Import OfMessages.
From S2P Require Import OfStatsMsg.
From S2P Require Import PacketCodec.
From S2P Require Import Connection.
From S2P Require Import SoftSwitch.

(** * The events *)

Inductive event :=
  | EvConnectionUp (ofp : ofp_features_reply)
  | EvConnectionDown
  | EvPortStatus (ofp : ofp_port_status)
  | EvFlowRemoved (ofp : ofp_flow_removed)
  | EvPacketIn (ofp : ofp_packet_in)
  | EvErrorIn (ofp : ofp_error)
  | EvBarrierIn (ofp : ofp_barrier_reply)
  | EvRawStatsReply (ofp : ofp_stats_reply)
  | EvSwitchDescReceived (ofp : ofp_stats_reply) (stats : ofp_desc_stats)
  | EvFlowStatsReceived (ofp : list ofp_stats_reply) (stats : list ofp_flow_stats)
  | EvAggregateFlowStatsReceived (ofp : ofp_stats_reply) (stats : ofp_aggregate_stats)
  | EvTableStatsReceived (ofp : list ofp_stats_reply) (stats : list ofp_table_stats)
  | EvPortStatsReceived (ofp : list ofp_stats_reply) (stats : list ofp_port_stats)
  | EvQueueStatsReceived (ofp : list ofp_stats_reply) (stats : list ofp_queue_stats).

(** The sources: [core.openflow], and the connections, by their [ID]. *)
Inductive source := Nexus | OnCon (id : Z).
#[export] Instance source_eq_dec : EqDecision source.
Proof. solve_decision. Defined.

(** The attributes the constructors compute. *)
Record port_change := PortChange { pc_modified : bool; pc_added : bool; pc_deleted : bool; pc_port : Z }.
Definition PortStatus_attrs (ofp : ofp_port_status) : port_change :=
  PortChange (pst_reason ofp =? OFPPR_MODIFY) (pst_reason ofp =? OFPPR_ADD)
    (pst_reason ofp =? OFPPR_DELETE) (pp_port_no (pst_desc ofp)).

Record removal := Removal { fx_idle : bool; fx_hard : bool; fx_timeout : bool; fx_deleted : bool }.
Definition FlowRemoved_attrs (ofp : ofp_flow_removed) : removal :=
  if fr_reason ofp =? OFPRR_IDLE_TIMEOUT then Removal true false true false
  else if fr_reason ofp =? OFPRR_HARD_TIMEOUT then Removal false true true false
  else if fr_reason ofp =? OFPRR_DELETE then Removal false false false true
  else Removal false false false false.

(** [OpenFlowNexus._eventMixin_events]: [ErrorIn] is not in it, so no listener for it
    can be added to the nexus, and raising it there does nothing. *)
Definition nexus_declares (e : event) : bool :=
  match e with EvErrorIn _ => false | _ => true end.

(** * The state *)

(** What [sock.send] does: it takes some bytes, or fails. *)
Inductive send_result :=
  | Sent (l : Z)
  | SendErrno (eagain : bool)
  | SendRaises (e : exn).

(** One call of [handle_FEATURES_REPLY] before the connection is up: the message, and the
    [xid] of the barrier, which packing sets. *)
Record Handshake := MkHandshake { hs_reply : ofp_features_reply; hs_barrier : option Z }.

(** [Connection]; [con_nexus] is false for the dummy.  [con_handshakes] are the closures
    of all handshakes, [con_finishing] those that listen to [BarrierIn] and [ErrorIn].
    [con_calls] and [con_out] are the socket's: its calls so far, and the bytes it took. *)
Record Con := MkCon {
  con_nexus : bool;
  con_buf : bytes;
  con_dpid : option Z;
  con_features : option ofp_features_reply;
  con_disconnected : bool;
  con_connect_time : option Z;
  con_previous_stats : list ofp_stats_reply;
  con_handshakes : list Handshake;
  con_finishing : list nat;
  con_calls : nat;
  con_out : bytes
}.
Definition Con_fresh : Con := MkCon false [] None None false None [] [] [] 0 [].
#[export] Instance Con_inhabited : Inhabited Con := populate Con_fresh.

Definition con_set_nexus c := MkCon true (con_buf c) (con_dpid c) (con_features c) (con_disconnected c)
  (con_connect_time c) (con_previous_stats c) (con_handshakes c) (con_finishing c) (con_calls c) (con_out c).
Definition con_set_buf b c := MkCon (con_nexus c) b (con_dpid c) (con_features c) (con_disconnected c)
  (con_connect_time c) (con_previous_stats c) (con_handshakes c) (con_finishing c) (con_calls c) (con_out c).
Definition con_set_dpid d c := MkCon (con_nexus c) (con_buf c) d (con_features c) (con_disconnected c)
  (con_connect_time c) (con_previous_stats c) (con_handshakes c) (con_finishing c) (con_calls c) (con_out c).
Definition con_set_features f c := MkCon (con_nexus c) (con_buf c) (con_dpid c) (Some f) (con_disconnected c)
  (con_connect_time c) (con_previous_stats c) (con_handshakes c) (con_finishing c) (con_calls c) (con_out c).
Definition con_set_disconnected c := MkCon (con_nexus c) (con_buf c) (con_dpid c) (con_features c) true
  (con_connect_time c) (con_previous_stats c) (con_handshakes c) (con_finishing c) (con_calls c) (con_out c).
Definition con_set_connect_time t c := MkCon (con_nexus c) (con_buf c) (con_dpid c) (con_features c)
  (con_disconnected c) (Some t) (con_previous_stats c) (con_handshakes c) (con_finishing c) (con_calls c) (con_out c).
Definition con_set_previous_stats l c := MkCon (con_nexus c) (con_buf c) (con_dpid c) (con_features c)
  (con_disconnected c) (con_connect_time c) l (con_handshakes c) (con_finishing c) (con_calls c) (con_out c).
Definition con_set_handshakes h l c := MkCon (con_nexus c) (con_buf c) (con_dpid c) (con_features c)
  (con_disconnected c) (con_connect_time c) (con_previous_stats c) h l (con_calls c) (con_out c).
Definition con_set_socket n b c := MkCon (con_nexus c) (con_buf c) (con_dpid c) (con_features c)
  (con_disconnected c) (con_connect_time c) (con_previous_stats c) (con_handshakes c) (con_finishing c) n b.

(** The program: the connections, the counter [Connection.ID], [core.openflow]'s
    [_connections], the deferred sender, the clock, the generator of xids and the state
    behind packet constructors, the sockets the task selects on, what the applications
    keep, and the events raised so far. *)
Record World (A : Type) := MkWorld {
  w_cons : gmap Z Con;
  w_ID : Z;
  w_nexus : gmap (option Z) Z;
  w_sending : bool;
  w_deferred : gmap Z (list bytes);
  w_now : Z;
  w_xids : Z;
  w_ps : pstate;
  w_sockets : list (option Z);
  w_app : A;
  w_raised : list (source * Z * event)
}.
Arguments MkWorld {A}. Arguments w_cons {A}. Arguments w_ID {A}. Arguments w_nexus {A}.
Arguments w_sending {A}. Arguments w_deferred {A}. Arguments w_now {A}. Arguments w_xids {A}.
Arguments w_ps {A}. Arguments w_sockets {A}. Arguments w_app {A}. Arguments w_raised {A}.

Section setters.
Context {A : Type}.
Implicit Type w : World A.
Definition w_set_cons v w := MkWorld v (w_ID w) (w_nexus w) (w_sending w) (w_deferred w) (w_now w)
  (w_xids w) (w_ps w) (w_sockets w) (w_app w) (w_raised w).
Definition w_set_ID v w := MkWorld (w_cons w) v (w_nexus w) (w_sending w) (w_deferred w) (w_now w)
  (w_xids w) (w_ps w) (w_sockets w) (w_app w) (w_raised w).
Definition w_set_nexus v w := MkWorld (w_cons w) (w_ID w) v (w_sending w) (w_deferred w) (w_now w)
  (w_xids w) (w_ps w) (w_sockets w) (w_app w) (w_raised w).
Definition w_set_deferred s v w := MkWorld (w_cons w) (w_ID w) (w_nexus w) s v (w_now w)
  (w_xids w) (w_ps w) (w_sockets w) (w_app w) (w_raised w).
Definition w_set_now v w := MkWorld (w_cons w) (w_ID w) (w_nexus w) (w_sending w) (w_deferred w) v
  (w_xids w) (w_ps w) (w_sockets w) (w_app w) (w_raised w).
Definition w_set_xids v w := MkWorld (w_cons w) (w_ID w) (w_nexus w) (w_sending w) (w_deferred w) (w_now w)
  v (w_ps w) (w_sockets w) (w_app w) (w_raised w).
Definition w_set_ps v w := MkWorld (w_cons w) (w_ID w) (w_nexus w) (w_sending w) (w_deferred w) (w_now w)
  (w_xids w) v (w_sockets w) (w_app w) (w_raised w).
Definition w_set_sockets v w := MkWorld (w_cons w) (w_ID w) (w_nexus w) (w_sending w) (w_deferred w) (w_now w)
  (w_xids w) (w_ps w) v (w_app w) (w_raised w).
Definition w_set_app (v : A) w := MkWorld (w_cons w) (w_ID w) (w_nexus w) (w_sending w) (w_deferred w) (w_now w)
  (w_xids w) (w_ps w) (w_sockets w) v (w_raised w).
Definition w_set_raised v w := MkWorld (w_cons w) (w_ID w) (w_nexus w) (w_sending w) (w_deferred w) (w_now w)
  (w_xids w) (w_ps w) (w_sockets w) (w_app w) v.
(** The connection object [id], and its attributes assigned. *)
Definition the_con (id : Z) w : Con := w_cons w !!! id.
Definition w_update (id : Z) (f : Con -> Con) w : World A := w_set_cons (<[id := f (the_con id w)]> (w_cons w)) w.
Definition modify (f : World A -> World A) : M (World A) unit := fun w => (Ok tt, f w).
Definition set_con (id : Z) (f : Con -> Con) : M (World A) unit := modify (w_update id f).
Definition get_con (id : Z) : M (World A) Con := fun w => (Ok (the_con id w), w).
End setters.

(** What [e.nexus] can be. *)
Inductive nexus_ref := NexusNone | NexusFalse | NexusObject.

(** [OpenFlowConnectionArbiter.getNexus]: [choice] is what the listeners of
    [ConnectionIn] made of [e.nexus]. *)
Definition getNexus (default choice : nexus_ref) : nexus_ref :=
  let n := match choice with NexusNone => default | n => n end in
  match n with NexusFalse => NexusObject | n => n end.

(** ** Slices for the deferred sender *)

Section slices.
Variable PIPE_BUF : Z.
Fixpoint sliceup_loop (fuel : nat) (data : bytes) (out : list bytes) : res (list bytes) :=
  if PIPE_BUF <? zlen data then
    match fuel with
    | O => Err Diverge
    | S fuel => sliceup_loop fuel (slice_from data PIPE_BUF) (out ++ [slice data 0 PIPE_BUF])
    end
  else Ok (if 0 <? zlen data then out ++ [data] else out).
Definition sliceup (data : bytes) : res (list bytes) := sliceup_loop (length data) data [].
End slices.

(** ** The entries of a statistics reply *)

(** [_processStatsBody] with a fresh object [init] of the class of [obj]. *)
Section stats_body.
Context {T : Type} (init : T) (unpack : T -> bytes -> res (T * bytes)).
Fixpoint process_stats_loop (fuel : nat) (body : bytes) : res (list T) :=
  if negb (zlen body =? 0) then
    match fuel with
    | O => Err Diverge
    | S fuel =>
        '(obj, rest) ← unpack init body;
        if zlen rest <? zlen body then
          r ← process_stats_loop fuel rest; Ok (obj :: r)
        else Err AssertionError
    end
  else Ok [].
Definition processStatsBody (body : bytes) : res (list T) := process_stats_loop (length body) body.
End stats_body.

(** [part.body]: unpacking leaves raw bytes there; no other body can be unpacked. *)
Definition part_body (m : ofp_stats_reply) : res bytes :=
  match srp_body m with RbOne (SpBytes b) => Ok b | _ => Err TypeError end.

(** The loop over the parts: [msg += _processStatsBody(part.body, ...)]. *)
Fixpoint process_parts {T} (init : T) (unpack : T -> bytes -> res (T * bytes))
    (parts : list ofp_stats_reply) : res (list T) :=
  match parts with
  | [] => Ok []
  | part :: parts =>
      body ← part_body part;
      l ← processStatsBody init unpack body;
      r ← process_parts init unpack parts;
      Ok (l ++ r)
  end.
Definition first_part (parts : list ofp_stats_reply) : res ofp_stats_reply :=
  match parts with p :: _ => Ok p | [] => Err IndexError end.

(** * The operations *)

Section controller.
Context {A : Type}.
(** [select.PIPE_BUF]; [sock.send] of a connection, by the number of calls before; what
    every listener of the applications does on an event, by its source and connection;
    the arbiter's default and the choice its listeners make; [core.openflow]'s
    [miss_send_len] and [clear_flows_on_connect]. *)
Variable PIPE_BUF : Z.
Variable sock_send : Z -> nat -> bytes -> send_result.
Variable listener : source -> Z -> event -> M (World A) unit.
Variable arbiter_default : nexus_ref.
Variable arbiter_choice : Z -> nexus_ref.
Variable miss_send_len : option Z.
Variable clear_flows_on_connect : bool.
Implicit Type w : World A.

(** ** Raising events *)

(** [raiseEventNoErrors] for the applications' listeners: an exception ends there. *)
Definition app_event (src : source) (id : Z) (e : event) : M (World A) unit := fun w =>
  let w := w_set_raised (w_raised w ++ [(src, id, e)]) w in
  (Ok tt, snd (listener src id e w)).

(** [con.ofnexus.raiseEventNoErrors]; the dummy only logs. *)
Definition raise_nexus (id : Z) (e : event) : M (World A) unit :=
  con ← get_con id;
  if con_nexus con && nexus_declares e then app_event Nexus id e else mret tt.

(** Both, as most handlers do. *)
Definition raise_both (id : Z) (e : event) : M (World A) unit :=
  '_ ← raise_nexus id e; app_event (OnCon id) id e.

(** ** The deferred sender *)

(** [DeferredSender.send]; [sending] is set before the data is looked at. *)
Definition deferred_send (id : Z) (data : bytes) : M (World A) unit :=
  '_ ← modify (fun w => w_set_deferred true (w_deferred w) w);
  slices ← lift (sliceup PIPE_BUF data);
  modify (fun w =>
    w_set_deferred true
      (match w_deferred w !! id with
       | None => <[id := slices]> (w_deferred w)
       | Some l => <[id := l ++ slices]> (w_deferred w)
       end) w).

Definition deferred_kill (id : Z) : M (World A) unit :=
  modify (fun w => w_set_deferred (w_sending w) (delete id (w_deferred w)) w).

(** ** Disconnecting, sending *)

(** [OpenFlowNexus._connect] and [_disconnect]. *)
Definition nexus_connect (id : Z) : M (World A) unit :=
  modify (fun w => w_set_nexus (<[con_dpid (the_con id w) := id]> (w_nexus w)) w).
Definition nexus_disconnect (dpid : option Z) : M (World A) unit := fun w =>
  match w_nexus w !! dpid with
  | Some _ => (Ok tt, w_set_nexus (delete dpid (w_nexus w)) w)
  | None => (Err KeyError, w)
  end.

(** [try: m; except: pass]. *)
Definition ignore_errors {S} (m : M S unit) : M S unit := fun s => (Ok tt, snd (m s)).

(** [Connection.disconnect]; shutting the socket down shows in no state. *)
Definition disconnect (id : Z) : M (World A) unit :=
  '_ ← set_con id con_set_disconnected;
  con ← get_con id;
  '_ ← (if con_nexus con then ignore_errors (nexus_disconnect (con_dpid con)) else mret tt);
  con ← get_con id;
  match con_dpid con with
  | Some _ => raise_nexus id EvConnectionDown
  | None => mret tt
  end.

(** [con.sock.send(data)]: the socket keeps the bytes it says it took. *)
Definition sock_call (id : Z) (data : bytes) : M (World A) send_result := fun w =>
  let con := the_con id w in
  let r := sock_send id (con_calls con) data in
  let took := match r with Sent l => slice data 0 l | _ => [] end in
  (Ok r, w_update id (con_set_socket (S (con_calls con)) (con_out con ++ took)) w).

(** [Connection.send] from the test of [deferredSender.sending] on. *)
Definition send_raw (id : Z) (data : bytes) : M (World A) unit :=
  w ← get;
  if w_sending w then deferred_send id data
  else
    r ← sock_call id data;
    match r with
    | Sent l => if negb (l =? zlen data) then deferred_send id (slice_from data l) else mret tt
    | SendErrno true => deferred_send id data
    | SendErrno false => disconnect id
    | SendRaises e => raise e
    end.

(** [Connection.send] of bytes. *)
Definition con_send_bytes (id : Z) (data : bytes) : M (World A) unit :=
  con ← get_con id;
  if con_disconnected con then mret tt else send_raw id data.

(** [data.pack()] with the generator of xids; the result None is no data to send. *)
Definition run_pack {T} (pack : T -> M Z (T * option bytes)) (data : T) : M (World A) (T * bytes) :=
  zoom w_xids w_set_xids
    ('(m, s) ← pack data; match s with Some s => mret (m, s) | None => raise TypeError end).

(** [Connection.send] of an object that has [pack]; the object as it is afterwards. *)
Definition con_send {T} (id : Z) (pack : T -> M Z (T * option bytes)) (data : T) : M (World A) T :=
  con ← get_con id;
  if con_disconnected con then mret data
  else
    '(data, s) ← run_pack pack data;
    '_ ← send_raw id s;
    mret data.

(** [con.send(msg.pack())]: packed even when nothing is sent. *)
Definition con_send_packed {T} (id : Z) (pack : T -> M Z (T * option bytes)) (data : T)
    : M (World A) unit :=
  '(_, s) ← run_pack pack data;
  con_send_bytes id s.

(** [Connection.__init__]: the new object's [ID]. *)
Definition Connection_init : M (World A) Z :=
  w ← get;
  let id := w_ID w + 1 in
  '_ ← put (w_set_ID id (w_set_cons (<[id := Con_fresh]> (w_cons w)) w));
  '_ ← con_send id (ofp_hello_pack true) ofp_hello_init;
  mret id.

(** [DeferredSender.run]: the data of one writable connection; true when nothing is left
    for any connection.  The list in the dictionary is changed in place. *)
Fixpoint flush_loop (id : Z) (alldata : list bytes) : M (World A) bool :=
  match alldata with
  | [] =>
      '_ ← deferred_kill id;
      w ← get;
      if bool_decide (w_deferred w = ∅) then
        '_ ← put (w_set_deferred false (w_deferred w) w); mret true
      else mret false
  | data :: rest =>
      r ← sock_call id data;
      match r with
      | Sent l =>
          if negb (l =? zlen data) then
            '_ ← modify (fun w => w_set_deferred (w_sending w) (<[id := slice_from data l :: rest]> (w_deferred w)) w);
            mret false
          else
            '_ ← modify (fun w => w_set_deferred (w_sending w) (<[id := rest]> (w_deferred w)) w);
            flush_loop id rest
      | SendErrno true => mret false
      | SendErrno false => '_ ← disconnect id; '_ ← deferred_kill id; mret false
      | SendRaises _ => mret false
      end
  end.
Fixpoint flush_all (wlist : list Z) : M (World A) unit :=
  match wlist with
  | [] => mret tt
  | id :: wlist =>
      w ← get;
      match w_deferred w !! id with
      | None => flush_all wlist
      | Some alldata =>
          stop ← flush_loop id alldata;
          if stop : bool then mret tt else flush_all wlist
      end
  end.
Fixpoint kill_all (elist : list Z) : M (World A) unit :=
  match elist with
  | [] => mret tt
  | id :: elist => '_ ← deferred_kill id; kill_all elist
  end.
(** One round of the thread's loop, with what [select] returned. *)
Definition deferred_round (elist wlist : list Z) : M (World A) unit :=
  '_ ← kill_all elist; flush_all wlist.

(** ** The handshake *)

Definition handshake (id : Z) (k : nat) w : Handshake :=
  nth k (con_handshakes (the_con id w)) (MkHandshake (ofp_features_reply_init 0 0 0 0 0 []) None).

(** [finish_connecting] and [con.removeListeners(listeners)]. *)
Definition finish_connecting (id : Z) (k : nat) (xid : option Z) : M (World A) unit :=
  w ← get;
  let h := handshake id k w in
  '_ ← (if negb (bool_decide (xid = hs_barrier h)) then
          '_ ← set_con id (con_set_dpid None);
          disconnect id
        else
          '_ ← set_con id (con_set_connect_time (w_now w));
          raise_both id (EvConnectionUp (hs_reply h)));
  set_con id (fun c => con_set_handshakes (con_handshakes c)
                         (List.filter (fun j => negb (Nat.eqb j k)) (con_finishing c)) c).

Definition also_finish_connecting (id : Z) (k : nat) (m : ofp_error) : M (World A) unit :=
  w ← get;
  if negb (bool_decide (hdr_xid (oe_hdr m) = hs_barrier (handshake id k w))) then mret tt
  else if negb (oe_type m =? OFPET_BAD_REQUEST) then mret tt
  else if negb (oe_code m =? OFPBRC_BAD_TYPE) then mret tt
  else finish_connecting id k (hdr_xid (oe_hdr m)).

(** The walk of [raiseEvent] over the list that was registered when it began:
    [removeListeners] makes a new list. *)
Fixpoint run_listeners (f : nat -> M (World A) unit) (ks : list nat) : M (World A) unit :=
  match ks with
  | [] => mret tt
  | k :: ks => '_ ← f k; run_listeners f ks
  end.

(** [con.raiseEventNoErrors] of [BarrierIn] and [ErrorIn]: the handshakes' listeners,
    then the applications'. *)
Definition con_event_finishing (id : Z) (f : nat -> M (World A) unit) (e : event) : M (World A) unit :=
  con ← get_con id;
  '_ ← run_listeners f (con_finishing con);
  app_event (OnCon id) id e.

(** ** The handlers *)

Definition handle_HELLO (id : Z) (m : ofp_hello) : M (World A) unit :=
  con_send_packed id (ofp_features_request_pack true) ofp_features_request_init.

Definition handle_ECHO_REQUEST (id : Z) (m : ofp_echo_request) : M (World A) unit :=
  let h := er_hdr m in
  let reply := EchoRequest (Hdr (hdr_version h) OFPT_ECHO_REPLY (hdr_length h) (hdr_xid h)) (er_body m) in
  con_send_packed id (ofp_echo_request_pack true) reply.

Definition handle_FLOW_REMOVED (id : Z) (m : ofp_flow_removed) := raise_both id (EvFlowRemoved m).
Definition handle_PORT_STATUS (id : Z) (m : ofp_port_status) := raise_both id (EvPortStatus m).
Definition handle_PACKET_IN (id : Z) (m : ofp_packet_in) := raise_both id (EvPacketIn m).
Definition handle_ERROR_MSG (id : Z) (m : ofp_error) : M (World A) unit :=
  '_ ← raise_nexus id (EvErrorIn m);
  con_event_finishing id (fun k => also_finish_connecting id k m) (EvErrorIn m).
Definition handle_BARRIER (id : Z) (m : ofp_barrier_reply) : M (World A) unit :=
  '_ ← raise_nexus id (EvBarrierIn m);
  con_event_finishing id (fun k => finish_connecting id k (hdr_xid (bp_hdr m))) (EvBarrierIn m).

(** The flow mod that clears the switch's table. *)
Definition clear_flows : ofp_flow_mod :=
  FlowMod (fm_hdr ofp_flow_mod_init) ofp_match_init (fm_cookie ofp_flow_mod_init) OFPFC_DELETE
    (fm_idle_timeout ofp_flow_mod_init) (fm_hard_timeout ofp_flow_mod_init)
    (fm_priority ofp_flow_mod_init) (fm_buffer_id ofp_flow_mod_init) (fm_out_port ofp_flow_mod_init)
    (fm_flags ofp_flow_mod_init) (fm_actions ofp_flow_mod_init).

(** The two listeners are added, and the handshake's number is the new one's. *)
Definition add_handshake (id : Z) (m : ofp_features_reply) : M (World A) nat := fun w =>
  let con := the_con id w in
  let k := length (con_handshakes con) in
  (Ok k, w_update id (con_set_handshakes (con_handshakes con ++ [MkHandshake m None])
                        (con_finishing con ++ [k])) w).
Definition set_barrier (id : Z) (k : nat) (xid : option Z) : M (World A) unit :=
  set_con id (fun c => con_set_handshakes
    (alter (fun h => MkHandshake (hs_reply h) xid) k (con_handshakes c)) (con_finishing c) c).

(** [con.send(barrier)]: packing gives the barrier its xid. *)
Definition send_barrier (id : Z) (k : nat) : M (World A) unit :=
  con ← get_con id;
  if con_disconnected con then mret tt
  else
    '(barrier, s) ← run_pack (ofp_barrier_request_pack true) ofp_barrier_request_init;
    '_ ← set_barrier id k (hdr_xid (bq_hdr barrier));
    send_raw id s.

Definition handle_FEATURES_REPLY (id : Z) (m : ofp_features_reply) : M (World A) unit :=
  con ← get_con id;
  let connecting := bool_decide (con_connect_time con = None) in
  '_ ← set_con id (con_set_features m);
  '_ ← set_con id (con_set_dpid (Some (fy_datapath_id m)));
  if negb connecting then
    if con_nexus con then nexus_connect id else raise AttributeError
  else
    match getNexus arbiter_default (arbiter_choice id) with
    | NexusNone => disconnect id
    | _ =>
        '_ ← set_con id con_set_nexus;
        '_ ← nexus_connect id;
        k ← add_handshake id m;
        '_ ← (match miss_send_len with
              | Some l =>
                  '_ ← con_send id (ofp_switch_config_pack true)
                    (SwitchConfig (sc_hdr ofp_switch_config_init) (sc_flags ofp_switch_config_init) l);
                  mret tt
              | None => mret tt
              end);
        '_ ← (if clear_flows_on_connect then
                '_ ← con_send id (ofp_flow_mod_pack true) clear_flows; mret tt
              else mret tt);
        send_barrier id k
    end.

(** ** Statistics *)

Definition handle_OFPST_DESC (id : Z) (parts : list ofp_stats_reply) : M (World A) unit :=
  part ← lift (first_part parts);
  body ← lift (part_body part);
  '(msg, _) ← lift (ofp_desc_stats_unpack ofp_desc_stats_init body);
  raise_both id (EvSwitchDescReceived part msg).
Definition handle_OFPST_FLOW (id : Z) (parts : list ofp_stats_reply) : M (World A) unit :=
  msg ← lift (process_parts ofp_flow_stats_init ofp_flow_stats_unpack parts);
  raise_both id (EvFlowStatsReceived parts msg).
Definition handle_OFPST_AGGREGATE (id : Z) (parts : list ofp_stats_reply) : M (World A) unit :=
  part ← lift (first_part parts);
  body ← lift (part_body part);
  '(msg, _) ← lift (ofp_aggregate_stats_unpack ofp_aggregate_stats_init body);
  raise_both id (EvAggregateFlowStatsReceived part msg).
Definition handle_OFPST_TABLE (id : Z) (parts : list ofp_stats_reply) : M (World A) unit :=
  msg ← lift (process_parts ofp_table_stats_init ofp_table_stats_unpack parts);
  raise_both id (EvTableStatsReceived parts msg).
Definition handle_OFPST_PORT (id : Z) (parts : list ofp_stats_reply) : M (World A) unit :=
  msg ← lift (process_parts ofp_port_stats_init ofp_port_stats_unpack parts);
  raise_both id (EvPortStatsReceived parts msg).
Definition handle_OFPST_QUEUE (id : Z) (parts : list ofp_stats_reply) : M (World A) unit :=
  msg ← lift (process_parts ofp_queue_stats_init ofp_queue_stats_unpack parts);
  raise_both id (EvQueueStatsReceived parts msg).

Definition statsHandlerMap (type : Z) : option (Z -> list ofp_stats_reply -> M (World A) unit) :=
  if type =? OFPST_DESC then Some handle_OFPST_DESC
  else if type =? OFPST_FLOW then Some handle_OFPST_FLOW
  else if type =? OFPST_AGGREGATE then Some handle_OFPST_AGGREGATE
  else if type =? OFPST_TABLE then Some handle_OFPST_TABLE
  else if type =? OFPST_PORT then Some handle_OFPST_PORT
  else if type =? OFPST_QUEUE then Some handle_OFPST_QUEUE
  else None.

(** The types whose replies come in parts. *)
Definition aggregated (type : Z) : bool :=
  bool_decide (type ∈ [OFPST_FLOW; OFPST_TABLE; OFPST_PORT; OFPST_QUEUE]).

(** [_incoming_stats_reply].  The message for a reply of another request reads
    [self._previous_stats_reply], which does not exist, before anything is assigned; the
    one for a type without handler indexes the list just emptied. *)
Definition incoming_stats_reply (id : Z) (ofp : ofp_stats_reply) : M (World A) unit :=
  con ← get_con id;
  let more := negb (Z.land (srp_flags ofp) 1 =? 0) in
  if more && negb (aggregated (srp_type ofp)) then set_con id (con_set_previous_stats [])
  else
    '_ ← match con_previous_stats con with
         | first :: _ =>
             if bool_decide (hdr_xid (srp_hdr ofp) = hdr_xid (srp_hdr first))
                && (srp_type ofp =? srp_type first)
             then set_con id (con_set_previous_stats (con_previous_stats con ++ [ofp]))
             else raise AttributeError
         | [] => set_con id (con_set_previous_stats [ofp])
         end;
    if more then mret tt
    else
      con ← get_con id;
      let s := con_previous_stats con in
      first ← lift (first_part s);
      '_ ← set_con id (con_set_previous_stats []);
      match statsHandlerMap (srp_type first) with
      | None => raise IndexError
      | Some handler => handler id s
      end.

Definition handle_STATS_REPLY (id : Z) (m : ofp_stats_reply) : M (World A) unit :=
  '_ ← raise_both id (EvRawStatsReply m);
  incoming_stats_reply id m.

(** ** Reading *)

(** [handlers[ofp_type](self, msg)]: beyond the end of the table, or None in it. *)
Definition of_handle (id : Z) (ofp_type : Z) (m : of_msg) : M (World A) unit :=
  if OFPT_BARRIER_REPLY <? ofp_type then raise IndexError
  else
    match m with
    | MHello m => handle_HELLO id m
    | MEchoRequest m => handle_ECHO_REQUEST id m
    | MPacketIn m => handle_PACKET_IN id m
    | MFeaturesReply m => handle_FEATURES_REPLY id m
    | MPortStatus m => handle_PORT_STATUS id m
    | MError m => handle_ERROR_MSG id m
    | MBarrierReply m => handle_BARRIER id m
    | MStatsReply m => handle_STATS_REPLY id m
    | MFlowRemoved m => handle_FLOW_REMOVED id m
    | _ => raise TypeError
    end.

(** What [sock.recv(2048)] gives. *)
Inductive recv_result := Received (d : bytes) | RecvRaises (e : exn).

(** [Connection.read], whose loop is [connection_read] with these handlers. *)
Definition con_read (id : Z) (r : recv_result) : M (World A) bool :=
  match r with
  | RecvRaises e => raise e
  | Received d => fun w =>
      let '(r, (buf, w)) := connection_read (of_handle id) d (con_buf (the_con id w), w) in
      (r, w_update id (con_set_buf buf) w)
  end.

(** ** The nexus *)

Definition getConnection (dpid : option Z) w : option Z := w_nexus w !! dpid.

Definition sendToDPID (dpid : option Z) (data : bytes) : M (World A) bool :=
  w ← get;
  match w_nexus w !! dpid with
  | Some id => '_ ← con_send_bytes id data; mret true
  | None => mret false
  end.

(** [_handle_DownEvent], over the values of the dictionary as they were. *)
Fixpoint disconnect_each (ids : list Z) : M (World A) unit :=
  match ids with
  | [] => mret tt
  | id :: ids => '_ ← ignore_errors (disconnect id); disconnect_each ids
  end.
Definition handle_DownEvent : M (World A) unit :=
  w ← get; disconnect_each (map_to_list (w_nexus w)).*2.

(** ** The task *)

(** [sockets.remove(con)]; None is the listener. *)
Definition remove_socket (s : option Z) : M (World A) unit := fun w =>
  match list_find (fun t => t = s) (w_sockets w) with
  | Some (i, _) => (Ok tt, w_set_sockets (delete i (w_sockets w)) w)
  | None => (Err ValueError, w)
  end.

(** [con.close()] closes the socket and changes nothing else. *)
Definition con_close (id : Z) : M (World A) unit := mret tt.

Fixpoint task_errors (elist : list (option Z)) : M (World A) (option (option Z)) :=
  match elist with
  | [] => mret None
  | None :: _ => mret (Some None)
  | Some id :: elist =>
      '_ ← ignore_errors (con_close id);
      '_ ← ignore_errors (remove_socket (Some id));
      task_errors elist
  end.

(** The readable sockets; Some con is the one an exception left [con] at. *)
Fixpoint task_reads (rlist : list (option Z)) (recv : Z -> recv_result)
    : M (World A) (option (option Z)) := fun w =>
  match rlist with
  | [] => (Ok None, w)
  | None :: rlist =>
      match (id ← Connection_init; modify (fun w => w_set_sockets (w_sockets w ++ [Some id]) w)) w with
      | (Ok _, w) => task_reads rlist recv w
      | (Err _, w) => (Ok (Some None), w)
      end
  | Some id :: rlist =>
      match (b ← con_read id (recv id);
             if b : bool then mret tt else '_ ← con_close id; remove_socket (Some id)) w with
      | (Ok _, w) => task_reads rlist recv w
      | (Err _, w) => (Ok (Some (Some id)), w)
      end
  end.

(** One turn of [OpenFlow_01_Task.run] with what [select] returned: true to go on.  An
    exception ends the round: on the listener it ends the task, otherwise the connection is
    closed and no longer selected on. *)
Definition task_round (rlist elist : list (option Z)) (recv : Z -> recv_result) : M (World A) bool :=
  failed ← task_errors elist;
  failed ← match failed with Some c => mret (Some c) | None => task_reads rlist recv end;
  match failed with
  | None => mret true
  | Some None => mret false
  | Some (Some id) =>
      '_ ← ignore_errors (con_close id);
      '_ ← ignore_errors (remove_socket (Some id));
      mret true
  end.
End controller.
