(* ===== verification/ControllerTheory.v ===== *)
(** The controller's connections: the bytes that reach the sockets, the handshake,
    registration with the nexus, and the statistics replies put together from parts. *)
From S2P Require Import Prelude.
From S2P Require Import Steps.
From S2P Require Import OfConst.
From S2P Require Import PyStruct.
From S2P Require Import Wire.
From S2P Require Import OfBase.
From S2P Require Import OfMatch.
From S2P Require Import OfActions.
From S2P Require Import OfStats.
From S2P Require Import OfMessages.
From S2P Require Import OfStatsMsg.
From S2P Require Import PacketCodec.
From S2P Require Import Connection.
From S2P Require Import SoftSwitch.
From S2P Require Import Controller.

(** * Slices *)

Lemma slice_split {A} (l : list A) i : 0 <= i -> slice l 0 i ++ slice_from l i = l.
Proof.
  intros Hi. unfold slice, slice_from, py_index. rewrite (proj2 (Z.ltb_ge i 0)) by lia.
  cbn [Z.ltb Z.compare Z.to_nat]. rewrite drop_0, Nat.sub_0_r. apply take_drop.
Qed.

Lemma slice_from_length {A} (l : list A) i : 0 <= i -> length (slice_from l i) = (length l - Z.to_nat i)%nat.
Proof. intros. unfold slice_from, py_index. rewrite (proj2 (Z.ltb_ge i 0)) by lia. apply length_drop. Qed.

(** Slicing loses nothing, and no slice is longer than PIPE_BUF. *)
Lemma sliceup_loop_spec PIPE_BUF fuel data out : 0 < PIPE_BUF -> (length data <= fuel)%nat ->
  Forall (fun s => 0 < zlen s <= PIPE_BUF) out ->
  exists l, sliceup_loop PIPE_BUF fuel data out = Ok l /\ concat l = concat out ++ data /\
    Forall (fun s => 0 < zlen s <= PIPE_BUF) l.
Proof.
  intros HP. revert data out; induction fuel as [|fuel IH]; intros data out Hf Ho; cbn [sliceup_loop].
  - destruct data; [|cbn in Hf; lia]. cbn [zlen length]. change (zlen (@nil Byte.byte)) with 0.
    rewrite (proj2 (Z.ltb_ge _ _)) by lia. cbn. exists out. by rewrite app_nil_r.
  - destruct (Z.ltb_spec PIPE_BUF (zlen data)) as [Hl|Hl].
    + pose proof (slice_split data PIPE_BUF ltac:(lia)) as Hs. unfold zlen in Hl.
      destruct (IH (slice_from data PIPE_BUF) (out ++ [slice data 0 PIPE_BUF])) as (l & E & Hc & HF).
      * rewrite slice_from_length; lia.
      * apply Forall_app. split; [done|]. apply Forall_singleton.
        assert (length (slice data 0 PIPE_BUF) = Z.to_nat PIPE_BUF) as L.
        { apply (f_equal length) in Hs. rewrite length_app, slice_from_length in Hs by lia. lia. }
        unfold zlen. rewrite L. lia.
      * exists l. split; [done|]. split; [|done]. rewrite Hc, concat_app. cbn [concat].
        by rewrite app_nil_r, <-app_assoc, Hs.
    + destruct (Z.ltb_spec 0 (zlen data)) as [H0|H0].
      * exists (out ++ [data]). split; [done|]. rewrite concat_app. cbn. rewrite app_nil_r. split; [done|].
        apply Forall_app. split; [done|]. by apply Forall_singleton.
      * destruct data; [|cbn in H0; unfold zlen in H0; cbn in H0; lia].
        exists out. by rewrite app_nil_r.
Qed.

Lemma sliceup_spec PIPE_BUF data : 0 < PIPE_BUF ->
  exists l, sliceup PIPE_BUF data = Ok l /\ concat l = data /\ Forall (fun s => 0 < zlen s <= PIPE_BUF) l.
Proof. intros HP. by destruct (sliceup_loop_spec PIPE_BUF (length data) data [] HP) as (l & E & Hc & H); [| |exists l]. Qed.

(** * The bytes that reach the sockets *)

(** What a connection was given: the bytes its socket took, and those waiting. *)
Definition stream {A} (id : Z) (w : World A) : bytes :=
  con_out (the_con id w) ++ concat (default [] (w_deferred w !! id)).
Definition gone {A} (id : Z) (w : World A) : bool := con_disconnected (the_con id w).

(** Nothing waits unless the deferred sender is active. *)
Definition order_ok {A} (w : World A) : Prop := w_sending w = false -> w_deferred w = ∅.

(** For the connections [P], the step appends [f id] to what [id] was given, unless [id]
    is disconnected; disconnected connections stay so. *)
Definition gives {A} (P : Z -> Prop) (f : Z -> bytes) (w w' : World A) : Prop :=
  (order_ok w -> order_ok w') /\
  forall id, (gone id w = true -> gone id w' = true) /\
    (P id -> gone id w' = false -> stream id w' = stream id w ++ f id).
Abbreviation nothing := (fun _ : Z => @nil Byte.byte).

Lemma gives_trans {A} P f g (w1 w2 w3 : World A) :
  gives P f w1 w2 -> gives P g w2 w3 -> gives P (fun id => f id ++ g id) w1 w3.
Proof.
  intros [O1 H1] [O2 H2]. split; [tauto|]. intros id. destruct (H1 id) as [D1 S1], (H2 id) as [D2 S2].
  split; [tauto|]. intros HP Hg. rewrite S2, S1, app_assoc by first [done|destruct (gone id w2); [by rewrite D2 in Hg|done]].
  done.
Qed.

(** Streams seen through an update of one connection. *)
Lemma the_con_update {A} id f (w : World A) id' :
  the_con id' (w_update id f w) = if decide (id' = id) then f (the_con id w) else the_con id' w.
Proof.
  unfold the_con, w_update. cbn. case_decide as E; [subst; apply lookup_total_insert_eq|].
  by apply lookup_total_insert_ne.
Qed.

Lemma the_con_deferred {A} id s d (w : World A) : the_con id (w_set_deferred s d w) = the_con id w.
Proof. done. Qed.

(** ** Hypotheses on the surroundings *)

(** [send] of a socket takes part of the bytes, or raises socket.error. *)
Definition socket_contract (sock_send : Z -> nat -> bytes -> send_result) : Prop :=
  forall id n data, match sock_send id n data with
    | Sent l => 0 <= l <= zlen data
    | SendErrno _ => True
    | SendRaises _ => False
    end.

(** On an event of these kinds, the applications change nothing but their own state. *)
Definition passive {A} (listener : source -> Z -> event -> M (World A) unit) (E : event -> Prop) : Prop :=
  forall src id e w, E e -> exists a, snd (listener src id e w) = w_set_app a w.

Section streams.
Context {A : Type} (PIPE_BUF : Z) (sock_send : Z -> nat -> bytes -> send_result).
Context (listener : source -> Z -> event -> M (World A) unit).
Hypothesis HP : 0 < PIPE_BUF.
Hypothesis Hsock : socket_contract sock_send.
Hypothesis Hdown : passive listener (fun e => e = EvConnectionDown).
Implicit Type w : World A.

Lemma deferred_send_eq id data w : exists slices, concat slices = data /\
  deferred_send PIPE_BUF id data w =
    (Ok tt, w_set_deferred true (<[id := default [] (w_deferred w !! id) ++ slices]> (w_deferred w)) w).
Proof.
  destruct (sliceup_spec PIPE_BUF data HP) as (l & E & Hl & _). exists l. split; [done|].
  unfold deferred_send. erewrite bind_ok by done. erewrite bind_ok by (unfold lift; by rewrite E).
  unfold modify. cbn. by destruct (w_deferred w !! id).
Qed.

(** What a disconnection changes besides the applications' state. *)
Lemma disconnect_eq id w : exists nexus raised a,
  disconnect listener id w =
    (Ok tt, w_set_app a (w_set_raised raised (w_set_nexus nexus (w_update id con_set_disconnected w)))).
Proof.
  unfold disconnect. erewrite bind_ok by done. cbv beta. erewrite bind_ok by done.
  set (w1 := w_update id con_set_disconnected w). set (con := the_con id w1).
  assert (exists nexus, (if con_nexus con then ignore_errors (nexus_disconnect (con_dpid con)) else mret tt) w1
    = (Ok tt, w_set_nexus nexus w1)) as [nexus En].
  { destruct (con_nexus con); [|exists (w_nexus w1); by destruct w1].
    unfold ignore_errors, nexus_disconnect. destruct (w_nexus w1 !! con_dpid con).
    - by eexists.
    - exists (w_nexus w1). by destruct w1. }
  erewrite bind_ok by exact En. erewrite bind_ok by done.
  change (the_con id (w_set_nexus nexus w1)) with con.
  assert (w_set_nexus nexus w1 = w_set_app (w_app w) (w_set_raised (w_raised w) (w_set_nexus nexus w1))) as Hsame
    by by destruct w.
  exists nexus. destruct (con_dpid con); [|exists (w_raised w), (w_app w); unfold mret, M_ret; by rewrite <-Hsame].
  unfold raise_nexus. erewrite bind_ok by done. change (the_con id (w_set_nexus nexus w1)) with con.
  destruct (con_nexus con && _); [|exists (w_raised w), (w_app w); unfold mret, M_ret; by rewrite <-Hsame].
  unfold app_event. edestruct (Hdown Nexus id EvConnectionDown) as [a ->]; [done|]. by eexists _, a.
Qed.

(** ** One step *)

(** The connection [id] is given [f], the others nothing. *)
Definition only (id : Z) (f : bytes) : Z -> bytes := fun id' => if decide (id' = id) then f else [].

Lemma gives_intro P id f w w' : (order_ok w -> order_ok w') ->
  (forall id', id' <> id -> the_con id' w' = the_con id' w /\ w_deferred w' !! id' = w_deferred w !! id') ->
  (gone id w = true -> gone id w' = true) ->
  (gone id w' = false -> stream id w' = stream id w ++ f) -> gives P (only id f) w w'.
Proof.
  intros Ho Hn Hg Hs. split; [done|]. intros id'. unfold only. case_decide as E; [by subst|].
  destruct (Hn id' E) as [E1 E2]. unfold gone, stream. rewrite E1, E2, app_nil_r. done.
Qed.

Lemma disconnect_gives P id f w : gives P (only id f) w (disconnect listener id w).2.
Proof.
  destruct (disconnect_eq id w) as (n & r & a & ->). cbn [snd]. apply gives_intro.
  - done.
  - intros id' E. split; [|done]. transitivity (the_con id' (w_update id con_set_disconnected w)); [done|].
    rewrite the_con_update. by case_decide.
  - unfold gone. intros _. transitivity (con_disconnected (the_con id (w_update id con_set_disconnected w))); [done|].
    rewrite the_con_update. by case_decide.
  - unfold gone. change (the_con id _) with (the_con id (w_update id con_set_disconnected w)).
    rewrite the_con_update. case_decide; [|done]. discriminate.
Qed.

Lemma deferred_send_gives P id data w : gives P (only id data) w (deferred_send PIPE_BUF id data w).2.
Proof.
  destruct (deferred_send_eq id data w) as (l & Hl & ->). cbn [snd]. apply gives_intro.
  - done.
  - intros id' E. split; [done|]. cbn. by rewrite lookup_insert_ne.
  - done.
  - intros _. unfold stream. cbn. rewrite lookup_insert_eq. cbn. change (the_con id _) with (the_con id w).
    by rewrite concat_app, Hl, app_assoc.
Qed.

(** The socket takes bytes; what it does not take is to be sent on. *)
Lemma sock_call_eq id data w :
  sock_call sock_send id data w =
    (Ok (sock_send id (con_calls (the_con id w)) data),
     w_update id (con_set_socket (S (con_calls (the_con id w))) (con_out (the_con id w) ++
       match sock_send id (con_calls (the_con id w)) data with Sent l => slice data 0 l | _ => [] end)) w).
Proof. done. Qed.

(** After a call that took [b], the connection has been given [b] more. *)
Lemma took_gives P id n b w : default [] (w_deferred w !! id) = [] ->
  gives P (only id b) w (w_update id (con_set_socket n (con_out (the_con id w) ++ b)) w).
Proof.
  intros Hd. apply gives_intro.
  - done.
  - intros id' E. rewrite the_con_update. by case_decide.
  - unfold gone. rewrite the_con_update. by case_decide.
  - intros _. unfold stream. rewrite the_con_update. case_decide; [|done]. cbn. rewrite Hd. cbn.
    by rewrite !app_nil_r.
Qed.

Lemma gives_only P id f g h (w1 w2 w3 : World A) : f ++ g = h ->
  gives P (only id f) w1 w2 -> gives P (only id g) w2 w3 -> gives P (only id h) w1 w3.
Proof.
  intros <- H1 H2. pose proof (gives_trans _ _ _ _ _ _ H1 H2) as [O H]. split; [done|].
  intros id'. destruct (H id') as [D S]. split; [done|]. intros Hp Hg. rewrite (S Hp Hg).
  unfold only. by case_decide.
Qed.

Lemma send_raw_gives P id data w : order_ok w ->
  gives P (only id data) w (send_raw PIPE_BUF sock_send listener id data w).2.
Proof.
  intros Ho. unfold send_raw. rewrite bind_get. destruct (w_sending w) eqn:Es; [apply deferred_send_gives|].
  erewrite bind_ok by apply sock_call_eq.
  pose proof (Hsock id (con_calls (the_con id w)) data) as Hc.
  assert (default [] (w_deferred w !! id) = []) as Hd by (rewrite (Ho Es); by rewrite lookup_empty).
  destruct (sock_send id (con_calls (the_con id w)) data) as [l|[]|e].
  - destruct (Z.eqb_spec l (zlen data)) as [->|Hne]; cbn [negb].
    + pose proof (took_gives P id (S (con_calls (the_con id w))) data w Hd) as H.
      by rewrite slice_all by lia.
    + eapply gives_only; [apply (slice_split data l); lia|by apply took_gives|]. apply deferred_send_gives.
  - eapply (gives_only _ _ [] data); [done|by apply took_gives|]. apply deferred_send_gives.
  - eapply (gives_only _ _ [] data); [done|by apply took_gives|]. apply disconnect_gives.
  - done.
Qed.

Lemma gives_refl P w : gives P nothing w w.
Proof. split; [done|]. intros id. split; [done|]. intros. by rewrite app_nil_r. Qed.
Lemma only_nil P id w w' : gives P (only id []) w w' -> gives P nothing w w'.
Proof.
  intros [O H]. split; [done|]. intros id'. destruct (H id') as [D S]. split; [done|].
  intros Hp Hg. rewrite (S Hp Hg). unfold only. by case_decide.
Qed.
Lemma nothing_trans P f (w1 w2 w3 : World A) : gives P nothing w1 w2 -> gives P f w2 w3 -> gives P f w1 w3.
Proof. apply (gives_trans P nothing f). Qed.

(** ** The deferred sender *)

Lemma kill_gives (P : Z -> Prop) id w : ~ P id \/ default [] (w_deferred w !! id) = [] \/ gone id w = true ->
  gives P nothing w (deferred_kill id w).2.
Proof.
  intros H. split.
  - unfold order_ok. cbn. intros Ho Es. rewrite (Ho Es). apply delete_empty.
  - intros id'. split; [done|]. intros HP' Hg. rewrite app_nil_r. unfold stream. cbn.
    change (the_con id' _) with (the_con id' w). destruct (decide (id' = id)) as [->|E].
    + rewrite lookup_delete_eq. destruct H as [H|[->|H]]; [done|done|].
      change (gone id w = false) in Hg. congruence.
    + by rewrite lookup_delete_ne.
Qed.

(** Taking from the head of the queue what the socket took. *)
Lemma unqueue_gives P id n took rest l w : w_deferred w !! id = Some l -> took ++ concat rest = concat l ->
  gives P nothing w (w_set_deferred (w_sending w) (<[id := rest]> (w_deferred w))
    (w_update id (con_set_socket n (con_out (the_con id w) ++ took)) w)).
Proof.
  intros Hl Hc. apply (only_nil P id). apply gives_intro.
  - unfold order_ok. cbn. intros Ho Es. rewrite (Ho Es) in Hl. by rewrite lookup_empty in Hl.
  - intros id' E. split; [|cbn; by rewrite lookup_insert_ne].
    rewrite the_con_deferred, the_con_update. by case_decide.
  - unfold gone. rewrite the_con_deferred, the_con_update. by case_decide.
  - intros _. unfold stream. rewrite the_con_deferred, the_con_update. case_decide; [|done].
    cbn. rewrite lookup_insert_eq, Hl. cbn. by rewrite app_nil_r, <-app_assoc, Hc.
Qed.

Lemma flush_loop_gives P id l w : w_deferred w !! id = Some l ->
  gives P nothing w (flush_loop sock_send listener id l w).2.
Proof.
  revert w; induction l as [|data l IH]; intros w Hl; cbn [flush_loop].
  - erewrite bind_ok by reflexivity. rewrite bind_get.
    eapply nothing_trans; [apply (kill_gives P id w); right; left; by rewrite Hl|].
    set (w1 := (deferred_kill id w).2). change (w_set_deferred _ _ w) with w1.
    case_bool_decide as E; [|apply gives_refl]. rewrite bind_put. cbn [snd mret M_ret].
    split; [by intros _ _|]. intros id'. split; [done|]. intros. by rewrite app_nil_r.
  - erewrite bind_ok by apply sock_call_eq.
    pose proof (Hsock id (con_calls (the_con id w)) data) as Hc.
    set (n := S (con_calls (the_con id w))).
    assert (gives P nothing w (w_update id (con_set_socket n (con_out (the_con id w) ++ [])) w)) as Hnone.
    { pose proof (unqueue_gives P id n [] (data :: l) (data :: l) w Hl eq_refl) as H.
      cbn [w_update w_set_deferred w_deferred w_set_cons] in H. rewrite insert_id in H by done. exact H. }
    destruct (sock_send id (con_calls (the_con id w)) data) as [k|[]|e]; [| | |done].
    + destruct (Z.eqb_spec k (zlen data)) as [->|Hne]; cbn [negb].
      * erewrite bind_ok by done. cbn [w_deferred w_sending w_update w_set_cons].
        eapply nothing_trans; [apply (unqueue_gives P id n (slice data 0 (zlen data)) l (data :: l) w Hl)|].
        { by rewrite slice_all by lia. }
        apply IH. cbn. apply lookup_insert_eq.
      * erewrite bind_ok by done. apply (unqueue_gives P id n _ _ (data :: l) w Hl). cbn.
        by rewrite app_assoc, (slice_split data k) by lia.
    + exact Hnone.
    + set (w1 := w_update id _ w). pose proof (disconnect_gives P id [] w1) as Hd. apply only_nil in Hd.
      destruct (disconnect_eq id w1) as (m & r & a & E).
      erewrite (bind_ok (disconnect listener id)) by exact E. rewrite E in Hd. cbn [snd] in Hd.
      set (w2 := w_set_app a _) in *. eapply nothing_trans; [exact Hnone|].
      eapply nothing_trans; [exact Hd|].
      erewrite bind_ok by reflexivity. apply (kill_gives P id w2). right; right.
      unfold gone, w2. change (the_con id (w_set_app _ _)) with (the_con id (w_update id con_set_disconnected w1)).
      rewrite the_con_update. by case_decide.
Qed.

Lemma flush_loop_ok id l w : exists b, (flush_loop sock_send listener id l w).1 = Ok b.
Proof.
  revert w; induction l as [|data l IH]; intros w; cbn [flush_loop].
  - erewrite bind_ok by reflexivity. rewrite bind_get. case_bool_decide; by eexists.
  - erewrite bind_ok by apply sock_call_eq.
    pose proof (Hsock id (con_calls (the_con id w)) data) as Hc.
    destruct (sock_send id (con_calls (the_con id w)) data) as [k|[]|e]; [|by eexists| |done].
    + destruct (Z.eqb_spec k (zlen data)); cbn [negb]; [erewrite bind_ok by reflexivity; apply IH|by eexists].
    + set (w1 := w_update _ _ _). destruct (disconnect_eq id w1) as (m & r & a & E).
      erewrite (bind_ok (disconnect listener id)) by exact E. by eexists.
Qed.

Lemma flush_all_gives P l w : gives P nothing w (flush_all sock_send listener l w).2.
Proof.
  revert w; induction l as [|id l IH]; intros w; cbn [flush_all]; [apply gives_refl|].
  rewrite bind_get. destruct (w_deferred w !! id) as [q|] eqn:Hq; [|apply IH].
  pose proof (flush_loop_gives P id q w Hq) as H. destruct (flush_loop_ok id q w) as [b E].
  destruct (flush_loop sock_send listener id q w) as [r w1] eqn:Ef. cbn [fst snd] in *. subst r.
  erewrite bind_ok by exact Ef. destruct b; [exact H|]. eapply nothing_trans; [exact H|apply IH].
Qed.

Lemma kill_all_gives P l w : (forall id, id ∈ l -> ~ P id) ->
  exists w', kill_all l w = (Ok tt, w') /\ gives P nothing w w'.
Proof.
  revert w; induction l as [|id l IH]; intros w Hl; cbn [kill_all].
  - exists w. split; [done|apply gives_refl].
  - destruct (IH (deferred_kill id w).2) as (w' & E & H); [intros; apply Hl; by right|].
    exists w'. split; [by erewrite bind_ok by reflexivity|].
    eapply nothing_trans; [|exact H]. apply kill_gives. left. apply Hl. by left.
Qed.

(** ** All steps *)

(** What the threads do to the connections: the applications send data, the deferred
    sender makes a round with the connections in error and the writable ones. *)
Inductive io_step :=
  | IoSend (id : Z) (data : bytes)
  | IoRound (elist wlist : list Z).
Definition io_run (o : io_step) : M (World A) unit :=
  match o with
  | IoSend id data => con_send_bytes PIPE_BUF sock_send listener id data
  | IoRound elist wlist => deferred_round sock_send listener elist wlist
  end.
Definition io_runs (l : list io_step) w : World A := foldl (fun w o => (io_run o w).2) w l.
(** The data handed over for a connection, and the connections a round gives up. *)
Definition handed (id : Z) (l : list io_step) : bytes :=
  concat (omap (fun o => match o with IoSend i d => if decide (id = i) then Some d else None | _ => None end) l).
Definition in_error (id : Z) (l : list io_step) : Prop :=
  exists elist wlist, IoRound elist wlist ∈ l /\ id ∈ elist.

Lemma io_run_gives P o w : order_ok w -> (forall id, P id -> ~ in_error id [o]) ->
  gives P (fun id => handed id [o]) w (io_run o w).2.
Proof.
  intros Ho HP'. destruct o as [i data|elist wlist]; cbn [io_run].
  - assert (gives P (only i data) w (con_send_bytes PIPE_BUF sock_send listener i data w).2) as [O H].
    { unfold con_send_bytes. erewrite bind_ok by reflexivity. cbv beta.
      destruct (con_disconnected (the_con i w)) eqn:E; [|by apply send_raw_gives].
      apply gives_intro; [done|done|done|]. unfold gone. cbn. congruence. }
    split; [done|]. intros id. destruct (H id) as [D S]. split; [done|]. intros Hp Hg.
    rewrite (S Hp Hg). unfold only, handed. cbn. case_decide; cbn; by rewrite ?app_nil_r.
  - unfold deferred_round. destruct (kill_all_gives P elist w) as (w1 & E & H).
    { intros id Hin Hp. apply (HP' id Hp). exists elist, wlist. by split; [left|]. }
    erewrite bind_ok by exact E. eapply nothing_trans; [exact H|]. apply flush_all_gives.
Qed.

(** C28: Whatever part of the bytes the sockets take at each call, and however sends and
    rounds of the deferred sender follow each other, the bytes a connection's socket took
    and those still waiting are, in order and without loss or repetition, the data the
    applications gave it - until it is disconnected or in error. *)
Theorem stream_fifo l w : order_ok w ->
  order_ok (io_runs l w) /\
  forall id, gone id (io_runs l w) = false -> ~ in_error id l ->
    stream id (io_runs l w) = stream id w ++ handed id l.
Proof.
  intros Ho. set (P := fun id => ~ in_error id l).
  assert (gives P (fun id => handed id l) w (io_runs l w)) as [O H];
    [|split; [by apply O|]; intros id Hg Hp; by apply H].
  assert (forall id, P id -> ~ in_error id l) as HP' by done. clearbody P. revert w Ho HP'.
  induction l as [|o l IH]; intros w Ho HP'; [apply gives_refl|].
  assert (forall id, P id -> ~ in_error id [o] /\ ~ in_error id l) as HP2.
  { intros id Hp. split; intros (e & wl & Hin & He); apply (HP' id Hp); exists e, wl; (split; [|done]).
    - apply list_elem_of_singleton in Hin as <-. by left.
    - by right. }
  pose proof (io_run_gives P o w Ho (fun id Hp => proj1 (HP2 id Hp))) as H1.
  assert (order_ok (io_run o w).2) as Ho1 by by apply H1.
  pose proof (gives_trans _ _ _ _ _ _ H1 (IH _ Ho1 (fun id Hp => proj2 (HP2 id Hp)))) as [O H].
  change (io_runs (o :: l) w) with (io_runs l (io_run o w).2).
  split; [done|]. intros id. destruct (H id) as [D S]. split; [done|]. intros Hp Hg.
  rewrite (S Hp Hg). f_equal. unfold handed. destruct o; cbn; [case_decide|]; cbn; by rewrite ?app_nil_r.
Qed.
End streams.

(** * What sending does to the applications *)

(** Sending keeps what the listeners keep: a relation on the applications' state that their
    reaction to a [ConnectionDown] respects. *)
Section app_kept.
Context {A : Type} (R : relation A) `{!PreOrder R} (PIPE_BUF : Z) (sock_send : Z -> nat -> bytes -> send_result).
Context (listener : source -> Z -> event -> M (World A) unit).
Hypothesis Hlistener : forall src id e w, R (w_app w) (w_app (listener src id e w).2).

Definition app_kept (w w' : World A) : Prop := R (w_app w) (w_app w').
#[global] Instance app_kept_preorder : PreOrder app_kept.
Proof. split; unfold app_kept; [intros x; reflexivity|intros x y z ? ?; by etrans]. Qed.

Lemma kept_same {T} (m : M (World A) T) w : w_app (m w).2 = w_app w -> keeps_at app_kept w m.
Proof. unfold keeps_at, app_kept. by intros ->. Qed.
#[local] Hint Extern 2 (keeps_at app_kept _ (get_con _)) => by apply kept_same : keeps.
#[local] Hint Extern 2 (keeps_at app_kept _ (set_con _ _)) => by apply kept_same : keeps.
#[local] Hint Extern 2 (keeps_at app_kept _ (modify _)) => by apply kept_same : keeps.
#[local] Hint Extern 2 (keeps_at app_kept _ (sock_call _ _ _)) => by apply kept_same : keeps.
Ltac kept_solve := keeps_solve ltac:(unfold app_kept; simpl; reflexivity).

Lemma app_event_kept src id e w : keeps_at app_kept w (app_event listener src id e).
Proof. unfold keeps_at, app_kept, app_event. cbn [snd]. apply (Hlistener src id e (w_set_raised _ w)). Qed.
Lemma run_pack_kept {T} (pack : T -> M Z (T * option bytes)) m w : keeps_at app_kept w (run_pack pack m).
Proof.
  apply kept_same. unfold run_pack, zoom. match goal with |- context [let (_, _) := ?e in _] => by destruct e end.
Qed.
Lemma deferred_send_kept id b w : keeps_at app_kept w (deferred_send PIPE_BUF id b).
Proof. unfold deferred_send. kept_solve. Qed.
#[local] Hint Resolve app_event_kept run_pack_kept deferred_send_kept : keeps.
Lemma raise_nexus_kept id e w : keeps_at app_kept w (raise_nexus listener id e).
Proof. unfold raise_nexus. kept_solve. Qed.
Lemma nexus_disconnect_kept d w : keeps_at app_kept w (ignore_errors (nexus_disconnect d)).
Proof. apply kept_same. unfold ignore_errors, nexus_disconnect. by destruct (w_nexus w !! d). Qed.
#[local] Hint Resolve raise_nexus_kept nexus_disconnect_kept : keeps.
Lemma disconnect_kept id w : keeps_at app_kept w (disconnect listener id).
Proof. unfold disconnect. kept_solve. Qed.
#[local] Hint Resolve disconnect_kept : keeps.
Lemma send_raw_kept id b w : keeps_at app_kept w (send_raw PIPE_BUF sock_send listener id b).
Proof. unfold send_raw. kept_solve. Qed.
#[local] Hint Resolve send_raw_kept : keeps.
Lemma con_send_bytes_kept id b w : keeps_at app_kept w (con_send_bytes PIPE_BUF sock_send listener id b).
Proof. unfold con_send_bytes. kept_solve. Qed.
#[local] Hint Resolve con_send_bytes_kept : keeps.
Lemma con_send_kept {T} id (pack : T -> M Z (T * option bytes)) m w :
  keeps_at app_kept w (con_send PIPE_BUF sock_send listener id pack m).
Proof. unfold con_send. kept_solve. Qed.
Lemma sendToDPID_kept dpid b w : keeps_at app_kept w (sendToDPID PIPE_BUF sock_send listener dpid b).
Proof. unfold sendToDPID. kept_solve. Qed.
End app_kept.

(** * The handshake *)

(** The world [w] with the connection [id], the registrations, the xid generator, the
    events raised and the applications' state as given. *)
Definition after {A : Type} (id : Z) (c : Con) (n : gmap (option Z) Z) (x : Z) (r : list (source * Z * event)) (a : A)
    (w : World A) : World A :=
  w_set_app a (w_set_raised r (w_set_xids x (w_set_nexus n (w_set_cons (<[id := c]> (w_cons w)) w)))).

Lemma after_self {A} id c (w : World A) : w_cons w !! id = Some c ->
  w = after id c (w_nexus w) (w_xids w) (w_raised w) (w_app w) w.
Proof. intros H. destruct w; cbn in *. unfold after. cbn. by rewrite insert_id. Qed.
Lemma the_con_after {A} id c n x r a (w : World A) : the_con id (after id c n x r a w) = c.
Proof. apply lookup_total_insert_eq. Qed.
Lemma the_con_after_ne {A} id id' c n x r a (w : World A) : id' <> id ->
  the_con id' (after id c n x r a w) = the_con id' w.
Proof. intros. by apply lookup_total_insert_ne. Qed.
Lemma update_after {A} id f c n x r a (w : World A) :
  w_update id f (after id c n x r a w) = after id (f c) n x r a w.
Proof.
  unfold w_update. rewrite the_con_after. unfold after, w_set_cons, w_set_app. cbn. by rewrite insert_insert_eq.
Qed.

Lemma app_event_passive {A} (listener : source -> Z -> event -> M (World A) unit) E src i e id c n x r a w :
  passive listener E -> E e -> exists a',
    app_event listener src i e (after id c n x r a w) = (Ok tt, after id c n x (r ++ [(src, i, e)]) a' w).
Proof.
  intros Hp He. unfold app_event. cbn [w_raised after w_set_app w_set_raised].
  edestruct (Hp src i e) as [a' ->]; [done|]. by exists a'.
Qed.

(** The events that the handshake of a connection raises. *)
Definition handshake_event (e : event) : Prop :=
  match e with
  | EvConnectionUp _ | EvConnectionDown | EvBarrierIn _ | EvErrorIn _ => True
  | _ => False
  end.

Section handshakes.
Context {A : Type} (PIPE_BUF : Z) (sock_send : Z -> nat -> bytes -> send_result).
Context (listener : source -> Z -> event -> M (World A) unit).
Context (arbiter_default : nexus_ref) (arbiter_choice : Z -> nexus_ref).
Hypothesis Hpassive : passive listener handshake_event.
Implicit Types (w : World A) (c : Con).

Lemma app_event_after src i e id c n x r a w : handshake_event e ->
  exists a', app_event listener src i e (after id c n x r a w) = (Ok tt, after id c n x (r ++ [(src, i, e)]) a' w).
Proof. by apply app_event_passive. Qed.

(** What raising on the nexus adds to the events. *)
Definition nexus_raised (c : Con) (id : Z) (e : event) : list (source * Z * event) :=
  if con_nexus c && nexus_declares e then [(Nexus, id, e)] else [].
Lemma raise_nexus_after id e c n x r a w : handshake_event e ->
  exists a', raise_nexus listener id e (after id c n x r a w) =
    (Ok tt, after id c n x (r ++ nexus_raised c id e) a' w).
Proof.
  intros He. unfold raise_nexus, nexus_raised. erewrite bind_ok by reflexivity. rewrite the_con_after.
  destruct (con_nexus c && _); [by apply app_event_after|]. exists a. by rewrite app_nil_r.
Qed.
Lemma raise_both_after id e c n x r a w : handshake_event e ->
  exists a', raise_both listener id e (after id c n x r a w) =
    (Ok tt, after id c n x (r ++ nexus_raised c id e ++ [(OnCon id, id, e)]) a' w).
Proof.
  intros He. unfold raise_both. destruct (raise_nexus_after id e c n x r a w He) as [a' E].
  erewrite bind_ok by exact E. destruct (app_event_after (OnCon id) id e id c n x (r ++ nexus_raised c id e) a' w He)
    as [a'' ->]. exists a''. by rewrite app_assoc.
Qed.

(** The registrations after [_disconnect], which ignores a missing one. *)
Definition unregistered (c : Con) (n : gmap (option Z) Z) : gmap (option Z) Z :=
  if con_nexus c then delete (con_dpid c) n else n.

Lemma disconnect_after id c n x r a w :
  exists a', disconnect listener id (after id c n x r a w) =
    (Ok tt, after id (con_set_disconnected c) (unregistered c n) x
              (r ++ match con_dpid c with Some _ => nexus_raised c id EvConnectionDown | None => [] end) a' w).
Proof.
  unfold disconnect. erewrite bind_ok by (unfold set_con, modify; by rewrite update_after).
  erewrite bind_ok by reflexivity. rewrite the_con_after. cbn [con_nexus con_dpid con_set_disconnected].
  set (w1 := after id (con_set_disconnected c) n x r a w).
  assert ((if con_nexus c then ignore_errors (nexus_disconnect (con_dpid c)) else mret tt) w1 =
    (Ok tt, after id (con_set_disconnected c) (unregistered c n) x r a w)) as E1.
  { unfold unregistered, ignore_errors, nexus_disconnect. destruct (con_nexus c); [|reflexivity]. change (w_nexus w1) with n.
    destruct (n !! con_dpid c) eqn:E; [reflexivity|]. by rewrite delete_id. }
  erewrite bind_ok by exact E1. erewrite bind_ok by reflexivity. rewrite the_con_after. cbn [con_dpid con_set_disconnected].
  destruct (con_dpid c); [|exists a; by rewrite app_nil_r].
  exact (raise_nexus_after id EvConnectionDown (con_set_disconnected c) (unregistered c n) x r a w I).
Qed.

(** ** Finishing *)

Definition hs_of (k : nat) (c : Con) : Handshake :=
  nth k (con_handshakes c) (MkHandshake (ofp_features_reply_init 0 0 0 0 0 []) None).
Definition forget (k : nat) (c : Con) : Con :=
  con_set_handshakes (con_handshakes c) (List.filter (fun j => negb (Nat.eqb j k)) (con_finishing c)) c.

Lemma finish_up id k c n x r a w : con_nexus c = true ->
  let h := hs_of k c in let up := EvConnectionUp (hs_reply h) in
  exists a', finish_connecting listener id k (hs_barrier h) (after id c n x r a w) =
    (Ok tt, after id (forget k (con_set_connect_time (w_now w) c)) n x
              (r ++ [(Nexus, id, up); (OnCon id, id, up)]) a' w).
Proof.
  intros Hn h up. unfold finish_connecting. rewrite bind_get.
  assert (handshake id k (after id c n x r a w) = h) as -> by (unfold handshake; by rewrite the_con_after).
  rewrite bool_decide_true by done. cbn [negb].
  set (c1 := con_set_connect_time (w_now w) c).
  destruct (raise_both_after id up c1 n x r a w I) as [a' E]. exists a'.
  assert (nexus_raised c1 id up = [(Nexus, id, up)]) as Er by (unfold nexus_raised; cbn; by rewrite Hn).
  rewrite Er in E. erewrite bind_ok; cycle 1.
  { erewrite bind_ok by (unfold set_con, modify; rewrite update_after; reflexivity). exact E. }
  unfold set_con, modify. by rewrite update_after.
Qed.

Lemma finish_failed id k xid c n x r a w : xid <> hs_barrier (hs_of k c) ->
  exists a', finish_connecting listener id k xid (after id c n x r a w) =
    (Ok tt, after id (forget k (con_set_disconnected (con_set_dpid None c)))
              (if con_nexus c then delete None n else n) x r a' w).
Proof.
  intros Hx. unfold finish_connecting. rewrite bind_get.
  assert (handshake id k (after id c n x r a w) = hs_of k c) as -> by (unfold handshake; by rewrite the_con_after).
  rewrite bool_decide_false by done. cbn [negb].
  destruct (disconnect_after id (con_set_dpid None c) n x r a w) as [a' E]. exists a'.
  cbn [con_dpid con_set_dpid] in E. rewrite app_nil_r in E.
  erewrite bind_ok; cycle 1.
  { erewrite bind_ok by (unfold set_con, modify; rewrite update_after; reflexivity). exact E. }
  unfold set_con, modify. by rewrite update_after.
Qed.

(** ** Sending to a socket that takes everything *)

Definition takes_all (id : Z) : Prop := forall n data, sock_send id n data = Sent (zlen data).

Definition sent (b : bytes) (c : Con) : Con := con_set_socket (S (con_calls c)) (con_out c ++ b) c.

Lemma send_raw_after id b c n x r a w : takes_all id -> w_sending w = false ->
  send_raw PIPE_BUF sock_send listener id b (after id c n x r a w) = (Ok tt, after id (sent b c) n x r a w).
Proof.
  intros Ht Hs. unfold send_raw. rewrite bind_get. cbn [w_sending after w_set_app w_set_raised w_set_xids w_set_nexus w_set_cons].
  rewrite Hs. erewrite bind_ok by apply sock_call_eq. rewrite the_con_after, Ht, Z.eqb_refl, slice_all by lia.
  cbn [negb]. by rewrite update_after.
Qed.

Lemma run_pack_after {T} (pack : T -> M Z (T * option bytes)) m m' b x x' id c n r a w :
  pack m x = (Ok (m', Some b), x') ->
  run_pack pack m (after id c n x r a w) = (Ok (m', b), after id c n x' r a w).
Proof.
  intros E. unfold run_pack, zoom. cbn [w_xids after w_set_app w_set_raised w_set_xids].
  by rewrite (bind_ok _ _ _ _ _ E).
Qed.

Lemma con_send_after {T} (pack : T -> M Z (T * option bytes)) m m' b x x' id c n r a w :
  takes_all id -> w_sending w = false -> con_disconnected c = false -> pack m x = (Ok (m', Some b), x') ->
  con_send PIPE_BUF sock_send listener id pack m (after id c n x r a w) =
    (Ok m', after id (sent b c) n x' r a w).
Proof.
  intros Ht Hs Hd E. unfold con_send. erewrite bind_ok by reflexivity. rewrite the_con_after, Hd.
  erewrite bind_ok by by apply run_pack_after. cbv beta iota. by erewrite bind_ok by by apply send_raw_after.
Qed.

(** Packing a message that fits, with what its reader makes of the bytes. *)
Lemma packs `{MsgLaws T, !Dispatch T} (m : T) x : msg_wf m -> 0 <= x < 2 ^ 31 ->
  let h := (hdr_settle (mhdr (mready m)) x).1 in
  let m' := with_hdr h (mready m) in
  hdr_version (mhdr m') = OFP_VERSION -> hdr_type (mhdr m') = disp_type ->
  exists b x', mpack true m x = (Ok (m', Some b), x') /\ 0 <= x' < 2 ^ 31 /\
    frame b disp_type (disp_wrap (mview m')).
Proof.
  intros Hw Hx h m' Hv Ht. destruct (msg_pack_ok m x Hw Hx) as (b & E & Hc). exists b, (hdr_settle (mhdr (mready m)) x).2.
  split; [exact E|]. split; [|by apply carried_frame].
  unfold hdr_settle. destruct (hdr_xid _); cbn [snd]; [done|]. by apply Z.mod_pos_bound.
Qed.

(** A switch config is packed as the set-config it is read as. *)
Lemma switch_config_packs h f l x : ofp_switch_config_pack true (SwitchConfig h f l) x =
  match ofp_set_config_pack true (SetConfig h f l) x with
  | (Ok (m, b), x') => (Ok (SwitchConfig (stc_hdr m) (stc_flags m) (stc_miss_send_len m), b), x')
  | (Err e, x') => (Err e, x')
  end.
Proof.
  unfold ofp_switch_config_pack, ofp_set_config_pack, mbind, M_bind, lift. cbn [sc_hdr stc_hdr].
  destruct (ofp_header_pack h x) as [[[h' p]|e] x']; [|done]. cbn [sc_flags sc_miss_send_len stc_flags stc_miss_send_len].
  by destruct (struct_pack _ _).
Qed.

Lemma clear_flows_wf : msg_wf clear_flows.
Proof. by repeat split; first [done|cbn; lia|constructor|vm_compute; congruence]. Qed.

(** ** The handlers of the handshake *)

Abbreviation handle := (of_handle PIPE_BUF sock_send listener arbiter_default arbiter_choice).

(** The connection once the features reply [m] is handled, with the barrier's xid [x]. *)
Definition greeted (m : ofp_features_reply) (s1 s2 s3 : bytes) (x : Z) (c : Con) : Con :=
  let c := con_set_nexus (con_set_dpid (Some (fy_datapath_id m)) (con_set_features m c)) in
  let k := length (con_handshakes c) in
  let c := con_set_handshakes (con_handshakes c ++ [MkHandshake m (Some x)]) (con_finishing c ++ [k]) c in
  sent s3 (sent s2 (sent s1 c)).

Lemma alter_last {B} (f : B -> B) (l : list B) y : alter f (length l) (l ++ [y]) = l ++ [f y].
Proof. induction l as [|z l IH]; [done|]. cbn. f_equal. exact IH. Qed.

Lemma features_reply_after id m l c n x r a w :
  takes_all id -> w_sending w = false -> 0 <= x < 2 ^ 31 -> con_disconnected c = false ->
  con_connect_time c = None -> getNexus arbiter_default (arbiter_choice id) = NexusObject -> u16 l ->
  exists s1 s2 s3 h1 h2 y x',
    frame s1 OFPT_SET_CONFIG (MSetConfig (SetConfig h1 0 l)) /\
    frame s2 OFPT_FLOW_MOD (MFlowMod (mview (with_hdr h2 (mready clear_flows)))) /\
    frame s3 OFPT_BARRIER_REQUEST
      (MBarrierRequest (BarrierRequest (Hdr OFP_VERSION OFPT_BARRIER_REQUEST 8 (Some y)))) /\
    handle (Some l) true id OFPT_FEATURES_REPLY (MFeaturesReply m) (after id c n x r a w) =
      (Ok tt, after id (greeted m s1 s2 s3 y c) (<[Some (fy_datapath_id m) := id]> n) x' r a w).
Proof.
  intros Ht Hs Hx Hd Hc Hnx Hl.
  destruct (packs (SetConfig (Hdr OFP_VERSION OFPT_SET_CONFIG 12 None) 0 l) x) as (s1 & x1 & E1 & Hx1 & F1);
    [repeat split; first [apply Hl|by vm_compute]|done..|].
  destruct (packs clear_flows x1 clear_flows_wf Hx1) as (s2 & x2 & E2 & Hx2 & F2); [done|done|].
  destruct (packs ofp_barrier_request_init x2) as (s3 & x3 & E3 & Hx3 & F3);
    [repeat split; by vm_compute|done..|].
  exists s1, s2, s3, (Hdr OFP_VERSION OFPT_SET_CONFIG 12 (Some x)), (hdr_settle (mhdr (mready clear_flows)) x1).1, x2, x3.
  split; [exact F1|]. split; [exact F2|]. split; [exact F3|].
  unfold of_handle. cbn [Z.ltb Z.compare OFPT_BARRIER_REPLY OFPT_FEATURES_REPLY Pos.compare Pos.compare_cont].
  unfold handle_FEATURES_REPLY. erewrite bind_ok by reflexivity. rewrite the_con_after, Hc. cbv zeta.
  erewrite bind_ok by (unfold set_con, modify; rewrite update_after; reflexivity).
  erewrite bind_ok by (unfold set_con, modify; rewrite update_after; reflexivity).
  rewrite bool_decide_true by done. cbn [negb]. rewrite Hnx.
  erewrite bind_ok by (unfold set_con, modify; rewrite update_after; reflexivity).
  set (c1 := con_set_nexus _).
  erewrite bind_ok; cycle 1.
  { unfold nexus_connect, modify. rewrite the_con_after.
    change (w_set_nexus _ (after id c1 n x r a w)) with (after id c1 (<[con_dpid c1 := id]> n) x r a w). reflexivity. }
  erewrite bind_ok by (unfold add_handshake; rewrite the_con_after, update_after; reflexivity).
  erewrite bind_ok; cycle 1.
  { erewrite bind_ok; [reflexivity|]. eapply con_send_after; [done..|]. rewrite switch_config_packs.
    change (sc_hdr ofp_switch_config_init) with (Hdr OFP_VERSION OFPT_SET_CONFIG 12 None).
    change (sc_flags ofp_switch_config_init) with 0.
    change (mpack true ?m) with (ofp_set_config_pack true m) in E1. by rewrite E1. }
  erewrite bind_ok; cycle 1.
  { erewrite bind_ok; [reflexivity|]. eapply con_send_after; [done..|]. exact E2. }
  unfold send_barrier. erewrite bind_ok by reflexivity. rewrite the_con_after.
  change (con_disconnected (sent s2 _)) with (con_disconnected c). rewrite Hd.
  erewrite bind_ok by (apply run_pack_after; exact E3). cbv beta iota.
  erewrite bind_ok by (unfold set_barrier, set_con, modify; rewrite update_after; reflexivity).
  rewrite send_raw_after by done. do 2 f_equal.
  cbn [sent con_set_socket con_set_handshakes con_handshakes con_finishing].
  by rewrite alter_last.
Qed.

Lemma barrier_after l cl id b c n x r a w ks : con_finishing c = ks -> con_nexus c = true ->
  exists a', handle l cl id OFPT_BARRIER_REPLY (MBarrierReply b) (after id c n x r a w) =
    (_ ← run_listeners (fun k => finish_connecting listener id k (hdr_xid (bp_hdr b))) ks;
     app_event listener (OnCon id) id (EvBarrierIn b))
      (after id c n x (r ++ [(Nexus, id, EvBarrierIn b)]) a' w).
Proof.
  intros Hk Hn. unfold of_handle, handle_BARRIER.
  destruct (raise_nexus_after id (EvBarrierIn b) c n x r a w I) as [a' E].
  unfold nexus_raised in E. rewrite Hn in E. exists a'.
  cbn [Z.ltb Z.compare OFPT_BARRIER_REPLY Pos.compare Pos.compare_cont].
  erewrite bind_ok by exact E. unfold con_event_finishing. erewrite bind_ok by reflexivity.
  by rewrite the_con_after, Hk.
Qed.

(** C22: A switch that answers the greeting is announced.  Its features reply registers the
    connection under its datapath id and is answered by exactly three messages - the miss
    length, a flow mod that deletes every flow, a barrier request - and announces nothing
    yet; the barrier reply with the request's transaction id raises [ConnectionUp], first on
    the nexus and then on the connection, which from then on counts as connected. *)
Theorem handshake_completes id m l c w :
  takes_all id -> w_sending w = false -> 0 <= w_xids w < 2 ^ 31 -> w_cons w !! id = Some c ->
  con_disconnected c = false -> con_connect_time c = None -> con_finishing c = [] ->
  getNexus arbiter_default (arbiter_choice id) = NexusObject -> u16 l ->
  let n := <[Some (fy_datapath_id m) := id]> (w_nexus w) in
  exists s1 s2 s3 h1 h2 y w1,
    handle (Some l) true id OFPT_FEATURES_REPLY (MFeaturesReply m) w = (Ok tt, w1) /\
    con_out (the_con id w1) = con_out c ++ s1 ++ s2 ++ s3 /\
    frame s1 OFPT_SET_CONFIG (MSetConfig (SetConfig h1 0 l)) /\
    frame s2 OFPT_FLOW_MOD (MFlowMod (mview (with_hdr h2 (mready clear_flows)))) /\
    frame s3 OFPT_BARRIER_REQUEST
      (MBarrierRequest (BarrierRequest (Hdr OFP_VERSION OFPT_BARRIER_REQUEST 8 (Some y)))) /\
    w_nexus w1 = n /\ w_raised w1 = w_raised w /\
    forall b, hdr_xid (bp_hdr b) = Some y ->
      exists w2, handle (Some l) true id OFPT_BARRIER_REPLY (MBarrierReply b) w1 = (Ok tt, w2) /\
        con_connect_time (the_con id w2) = Some (w_now w) /\
        con_dpid (the_con id w2) = Some (fy_datapath_id m) /\ gone id w2 = false /\ w_nexus w2 = n /\
        w_raised w2 = w_raised w ++
          [(Nexus, id, EvBarrierIn b); (Nexus, id, EvConnectionUp m);
           (OnCon id, id, EvConnectionUp m); (OnCon id, id, EvBarrierIn b)].
Proof.
  intros Ht Hs Hx Hid Hd Hc Hf Hnx Hl n.
  destruct (features_reply_after id m l c (w_nexus w) (w_xids w) (w_raised w) (w_app w) w)
    as (s1 & s2 & s3 & h1 & h2 & y & x' & F1 & F2 & F3 & E); [done..|].
  rewrite <-(after_self id c w Hid) in E. fold n in E. eexists s1, s2, s3, h1, h2, y, _. split; [exact E|].
  rewrite the_con_after. split; [cbn; by rewrite !app_assoc|]. split_and!; [done..|].
  intros b Hb. set (c1 := greeted m s1 s2 s3 y c).
  destruct (barrier_after (Some l) true id b c1 n x' (w_raised w) (w_app w) w [length (con_handshakes c)])
    as [a1 ->]; [cbn; by rewrite Hf|done|].
  set (k := length (con_handshakes c)). set (r1 := w_raised w ++ _).
  destruct (finish_up id k c1 n x' r1 a1 w eq_refl) as [a2 E2].
  assert (hs_of k c1 = MkHandshake m (Some y)) as Hh by apply nth_middle.
  rewrite Hh in E2. cbn [hs_barrier hs_reply] in E2. cbn [run_listeners]. rewrite Hb.
  set (c2 := forget k (con_set_connect_time (w_now w) c1)) in *.
  set (r2 := r1 ++ _) in *.
  destruct (app_event_after (OnCon id) id (EvBarrierIn b) id c2 n x' r2 a2 w I) as [a3 E3].
  eexists. split.
  { erewrite bind_ok by (erewrite bind_ok by exact E2; reflexivity). exact E3. }
  unfold gone. rewrite the_con_after. split_and!; [done|done|done|done|].
  cbn [w_raised after w_set_app w_set_raised]. unfold r2, r1. by rewrite <-!app_assoc.
Qed.

(** A barrier reply with another transaction id ends the handshake: nothing is announced,
    and the connection is disconnected with its datapath id forgotten - so that neither
    [ConnectionDown] is raised nor the registration removed: the nexus keeps the dead
    connection, and takes what is sent to this datapath as sent. *)
Theorem failed_handshake_stays_registered l cl id k b c w d data :
  w_cons w !! id = Some c -> con_nexus c = true -> con_finishing c = [k] ->
  hs_barrier (hs_of k c) <> hdr_xid (bp_hdr b) -> w_nexus w !! Some d = Some id ->
  exists w', handle l cl id OFPT_BARRIER_REPLY (MBarrierReply b) w = (Ok tt, w') /\
    gone id w' = true /\ con_dpid (the_con id w') = None /\
    w_raised w' = w_raised w ++ [(Nexus, id, EvBarrierIn b); (OnCon id, id, EvBarrierIn b)] /\
    getConnection (Some d) w' = Some id /\
    sendToDPID PIPE_BUF sock_send listener (Some d) data w' = (Ok true, w').
Proof.
  intros Hid Hn Hf Hx Hd. pose proof (after_self id c w Hid) as Ew.
  destruct (barrier_after l cl id b c (w_nexus w) (w_xids w) (w_raised w) (w_app w) w [k] Hf Hn) as [a1 E1].
  rewrite <-Ew in E1. set (r1 := w_raised w ++ _) in E1.
  destruct (finish_failed id k (hdr_xid (bp_hdr b)) c (w_nexus w) (w_xids w) r1 a1 w) as [a2 E2]; [congruence|].
  rewrite Hn in E2. set (c2 := forget k _) in *. set (n := delete None (w_nexus w)) in *.
  destruct (app_event_after (OnCon id) id (EvBarrierIn b) id c2 n (w_xids w) r1 a2 w I) as [a3 E3].
  set (w' := after id c2 n _ _ a3 w) in E3.
  assert (n !! Some d = Some id) as Hd' by (unfold n; by rewrite lookup_delete_ne).
  assert (the_con id w' = c2) as Hc2 by apply the_con_after.
  exists w'. split.
  { rewrite E1. cbn [run_listeners]. erewrite bind_ok by (erewrite bind_ok by exact E2; reflexivity). exact E3. }
  unfold gone. rewrite Hc2. split_and!; [done|done| |done|].
  - cbn. unfold r1. by rewrite <-app_assoc.
  - unfold sendToDPID. rewrite bind_get. change (w_nexus w') with n. rewrite Hd'.
    erewrite bind_ok; [reflexivity|].
    unfold con_send_bytes. erewrite bind_ok by reflexivity. by rewrite Hc2.
Qed.

(** A switch that answers two features requests before the barrier - each greeting makes
    one - is announced and then cut off: the barrier reply for the first handshake raises
    [ConnectionUp], and is at once taken as the failure of the second.  The applications
    never hear of the end of the connection they were told of, which stays registered. *)
Theorem second_features_reply_cuts_off l cl id j k b c w d :
  w_cons w !! id = Some c -> con_nexus c = true -> con_finishing c = [j; k] -> j <> k ->
  hs_barrier (hs_of j c) = hdr_xid (bp_hdr b) -> hs_barrier (hs_of k c) <> hdr_xid (bp_hdr b) ->
  w_nexus w !! Some d = Some id ->
  let up := EvConnectionUp (hs_reply (hs_of j c)) in
  exists w', handle l cl id OFPT_BARRIER_REPLY (MBarrierReply b) w = (Ok tt, w') /\
    gone id w' = true /\ getConnection (Some d) w' = Some id /\
    w_raised w' = w_raised w ++
      [(Nexus, id, EvBarrierIn b); (Nexus, id, up); (OnCon id, id, up); (OnCon id, id, EvBarrierIn b)].
Proof.
  intros Hid Hn Hf Hjk Hj Hk Hd up. pose proof (after_self id c w Hid) as Ew.
  destruct (barrier_after l cl id b c (w_nexus w) (w_xids w) (w_raised w) (w_app w) w [j; k] Hf Hn) as [a1 E1].
  rewrite <-Ew in E1. set (r1 := w_raised w ++ _) in E1.
  destruct (finish_up id j c (w_nexus w) (w_xids w) r1 a1 w Hn) as [a2 E2]. rewrite Hj in E2.
  set (c2 := forget j _) in *. set (r2 := r1 ++ _) in E2.
  destruct (finish_failed id k (hdr_xid (bp_hdr b)) c2 (w_nexus w) (w_xids w) r2 a2 w) as [a3 E3].
  { change (hs_of k c2) with (hs_of k c). congruence. }
  change (con_nexus c2) with (con_nexus c) in E3. rewrite Hn in E3.
  set (c3 := forget k _) in *. set (n := delete None (w_nexus w)) in *.
  destruct (app_event_after (OnCon id) id (EvBarrierIn b) id c3 n (w_xids w) r2 a3 w I) as [a4 E4].
  eexists. split.
  { rewrite E1. cbn [run_listeners].
    erewrite bind_ok by (erewrite bind_ok by exact E2; erewrite bind_ok by exact E3; reflexivity).
    exact E4. }
  unfold gone. rewrite the_con_after. split_and!; [done|change (n !! Some d = Some id); unfold n; by rewrite lookup_delete_ne|].
  cbn [w_raised after w_set_app w_set_raised]. unfold r2, r1. by rewrite <-!app_assoc.
Qed.

(** When a switch has connected again, the end of its first connection removes the
    registration of the second: the nexus finds no connection for a switch whose
    connection is up, and the applications are told that the datapath is down. *)
Theorem stale_disconnect_unregisters old new c d data w :
  w_cons w !! old = Some c -> con_nexus c = true -> con_dpid c = Some d -> old <> new ->
  w_nexus w !! Some d = Some new -> gone new w = false ->
  exists w', disconnect listener old w = (Ok tt, w') /\
    w_raised w' = w_raised w ++ [(Nexus, old, EvConnectionDown)] /\
    gone new w' = false /\ getConnection (Some d) w' = None /\
    sendToDPID PIPE_BUF sock_send listener (Some d) data w' = (Ok false, w').
Proof.
  intros Hid Hn Hd Hne Hreg Hg. pose proof (after_self old c w Hid) as Ew.
  destruct (disconnect_after old c (w_nexus w) (w_xids w) (w_raised w) (w_app w) w) as [a E].
  rewrite <-Ew, Hd in E. unfold nexus_raised, unregistered in E. rewrite Hn, Hd in E.
  set (w' := after old _ _ _ _ a w) in E. exists w'.
  assert (w_nexus w' !! Some d = None) as Hl by apply lookup_delete_eq.
  split_and!; [exact E|done| |exact Hl|].
  - unfold gone, w'. by rewrite the_con_after_ne.
  - unfold sendToDPID. by rewrite bind_get, Hl.
Qed.

(** When the switch closes the connection, the task stops selecting on the socket and
    that is all: the connection stays registered and up, and no [ConnectionDown] is
    raised. *)
Theorem eof_unnoticed l cl id w : Some id ∈ w_sockets w ->
  exists w', task_round PIPE_BUF sock_send listener arbiter_default arbiter_choice l cl
               [Some id] [] (fun _ => Received []) w = (Ok true, w') /\
    w_nexus w' = w_nexus w /\ w_raised w' = w_raised w /\ the_con id w' = the_con id w /\
    exists s1 s2, w_sockets w = s1 ++ Some id :: s2 /\ w_sockets w' = s1 ++ s2.
Proof.
  intros Hin. set (w1 := w_update id (con_set_buf (con_buf (the_con id w))) w).
  assert (the_con id w1 = the_con id w) as Hc.
  { unfold w1. rewrite the_con_update. case_decide; [|done]. by destruct (the_con id w). }
  destruct (list_find (fun t => t = Some id) (w_sockets w1)) as [[i t]|] eqn:Ef; cycle 1.
  { apply list_find_None in Ef. by eapply Forall_forall in Ef. }
  pose proof Ef as (Hi & -> & _)%list_find_Some.
  exists (w_set_sockets (delete i (w_sockets w1)) w1). split.
  - unfold task_round. erewrite bind_ok by reflexivity. erewrite bind_ok; cycle 1.
    { cbn [task_reads]. erewrite (bind_ok (con_read _ _ _ _ _ _ _ _ _)); cycle 1.
    { unfold con_read, connection_read. cbn. reflexivity. }
    cbv beta iota. fold w1. erewrite bind_ok by reflexivity.
    unfold remove_socket. rewrite Ef. reflexivity. }
    reflexivity.
  - split_and!; [done|done|exact Hc|]. exists (take i (w_sockets w)), (drop (S i) (w_sockets w)).
    split; [by rewrite take_drop_middle|apply delete_take_drop].
Qed.
End handshakes.

(** * Examples *)

Definition ex_listener (src : source) (id : Z) (e : event) : M (World unit) unit := mret tt.
Lemma ex_passive E : passive ex_listener E.
Proof. intros src id e w _. exists (w_app w). by destruct w. Defined.

(** A socket that first would block and then takes three bytes at a time. *)
Definition ex_slow (id : Z) (n : nat) (data : bytes) : send_result :=
  match n with O => SendErrno true | _ => Sent (Z.min 3 (zlen data)) end.
Lemma ex_slow_contract : socket_contract ex_slow.
Proof. intros id [|n] data; cbn; [exact I|]. pose proof (zlen_nonneg data). lia. Defined.

Definition ex_con (finishing : list nat) : Con :=
  MkCon true [] (Some 9) None false None []
    (MkHandshake (ofp_features_reply_init 9 0 0 0 0 []) <$> [Some 5; Some 6]) finishing 0 [].
Definition ex_world (c : Con) : World unit :=
  MkWorld (<[1 := c]> ∅) 1 ∅ false ∅ 100 7 (PState 0 (fun _ => 0)) [None; Some 1] tt [].
Definition ex_named (c : Con) (id : Z) : World unit := w_set_nexus (<[Some 9 := id]> ∅) (ex_world c).

Definition ex_steps : list io_step := [IoSend 1 (repeat x41 5); IoRound [] [1]; IoSend 1 [x42]; IoRound [] [1]].
Lemma stream_fifo_witness :
  let w := ex_world (ex_con []) in
  con_out (the_con 1 (io_runs 4 ex_slow ex_listener ex_steps w)) = repeat x41 5 ++ [x42] /\
  stream 1 (io_runs 4 ex_slow ex_listener ex_steps w) = stream 1 w ++ handed 1 ex_steps.
Proof.
  split; [vm_compute; reflexivity|].
  refine (proj2 (@stream_fifo unit 4 ex_slow ex_listener eq_refl ex_slow_contract (ex_passive _) ex_steps
    (ex_world (ex_con [])) (fun _ => eq_refl)) 1 _ _); [vm_compute; reflexivity|].
  intros (e & wl & Hin & He). unfold ex_steps in Hin. rewrite !elem_of_cons in Hin.
  destruct Hin as [[=]|[[= -> ->]|[[=]|[[= -> ->]|Hin]]]]; [by apply not_elem_of_nil in He..|].
  by apply not_elem_of_nil in Hin.
Defined.

Definition ex_socket (id : Z) (n : nat) (data : bytes) : send_result := Sent (zlen data).
Definition ex_features : ofp_features_reply := ofp_features_reply_init 9 0 0 0 0 [].
Definition ex_barrier (x : Z) : ofp_barrier_reply := BarrierReply (Hdr OFP_VERSION OFPT_BARRIER_REPLY 8 (Some x)).

Lemma handshake_completes_witness :
  let w := ex_world (MkCon false [] None None false None [] [] [] 0 []) in
  exists s1 s2 s3 y w1 w2,
    of_handle 4 ex_socket ex_listener NexusObject (fun _ => NexusNone) (Some 128) true 1
      OFPT_FEATURES_REPLY (MFeaturesReply ex_features) w = (Ok tt, w1) /\
    con_out (the_con 1 w1) = s1 ++ s2 ++ s3 /\ w_nexus w1 = <[Some 9 := 1]> ∅ /\
    of_handle 4 ex_socket ex_listener NexusObject (fun _ => NexusNone) (Some 128) true 1
      OFPT_BARRIER_REPLY (MBarrierReply (ex_barrier y)) w1 = (Ok tt, w2) /\
    con_connect_time (the_con 1 w2) = Some 100.
Proof.
  destruct (@handshake_completes unit 4 ex_socket ex_listener NexusObject (fun _ => NexusNone) (ex_passive _)
    1 ex_features 128 (MkCon false [] None None false None [] [] [] 0 [])
    (ex_world (MkCon false [] None None false None [] [] [] 0 [])))
    as (s1 & s2 & s3 & h1 & h2 & y & w1 & E1 & Ho & _ & _ & _ & Hn & _ & H);
    [exact (fun _ _ => eq_refl)|reflexivity|by vm_compute|reflexivity..|by vm_compute|].
  destruct (H (ex_barrier y) eq_refl) as (w2 & E2 & Ht & _).
  exists s1, s2, s3, y, w1, w2. exact (conj E1 (conj Ho (conj Hn (conj E2 Ht)))).
Defined.

Lemma failed_handshake_stays_registered_witness :
  exists w', of_handle 4 ex_socket ex_listener NexusObject (fun _ => NexusNone) None true 1
      OFPT_BARRIER_REPLY (MBarrierReply (ex_barrier 8)) (ex_named (ex_con [0%nat]) 1) = (Ok tt, w') /\
    gone 1 w' = true /\ getConnection (Some 9) w' = Some 1.
Proof.
  destruct (@failed_handshake_stays_registered unit 4 ex_socket ex_listener NexusObject (fun _ => NexusNone)
    (ex_passive _) None true 1 0%nat (ex_barrier 8) (ex_con [0%nat]) (ex_named (ex_con [0%nat]) 1) 9 [])
    as (w' & E & Hg & _ & _ & Hc & _); [reflexivity..| |reflexivity|].
  - intros H. discriminate H.
  - exists w'. exact (conj E (conj Hg Hc)).
Defined.

(** Barriers 5 and 6 are outstanding, and the first is answered. *)
Lemma second_features_reply_cuts_off_witness :
  exists w', of_handle 4 ex_socket ex_listener NexusObject (fun _ => NexusNone) None true 1
      OFPT_BARRIER_REPLY (MBarrierReply (ex_barrier 5)) (ex_named (ex_con [0%nat; 1%nat]) 1) = (Ok tt, w') /\
    gone 1 w' = true /\ getConnection (Some 9) w' = Some 1.
Proof.
  destruct (@second_features_reply_cuts_off unit 4 ex_socket ex_listener NexusObject (fun _ => NexusNone)
    (ex_passive _) None true 1 0%nat 1%nat (ex_barrier 5) (ex_con [0%nat; 1%nat])
    (ex_named (ex_con [0%nat; 1%nat]) 1) 9)
    as (w' & E & Hg & Hc & _); [reflexivity..|discriminate|reflexivity| |reflexivity|].
  - intros H. discriminate H.
  - exists w'. exact (conj E (conj Hg Hc)).
Defined.

(** Connection 2 has replaced connection 1. *)
Lemma stale_disconnect_unregisters_witness :
  exists w', disconnect ex_listener 1 (ex_named (ex_con []) 2) = (Ok tt, w') /\
    gone 2 w' = false /\ getConnection (Some 9) w' = None.
Proof.
  destruct (@stale_disconnect_unregisters unit 4 ex_socket ex_listener (ex_passive _) 1 2 (ex_con []) 9 []
    (ex_named (ex_con []) 2)) as (w' & E & _ & Hg & Hc & _); [reflexivity..|lia|reflexivity|reflexivity|].
  exists w'. exact (conj E (conj Hg Hc)).
Defined.

Lemma eof_unnoticed_witness :
  exists w', task_round 4 ex_socket ex_listener NexusObject (fun _ => NexusNone) None true
      [Some 1] [] (fun _ => Received []) (ex_named (ex_con []) 1) = (Ok true, w') /\
    w_nexus w' = <[Some 9 := 1]> ∅ /\ gone 1 w' = false.
Proof.
  destruct (@eof_unnoticed unit 4 ex_socket ex_listener NexusObject (fun _ => NexusNone)
    None true 1 (ex_named (ex_con []) 1)) as (w' & E & Hn & _ & Hc & _); [right; left|].
  exists w'. split; [exact E|]. split; [exact Hn|]. unfold gone. by rewrite Hc.
Defined.
