(* ===== verification/StatsTheory.v ===== *)
(** Statistics replies at the controller: reading the entries of a body, putting the
    parts of a reply together, and what goes wrong when two replies interleave. *)
From S2P Require Import Prelude.
From S2P Require Import Steps.
From S2P Require Import OfConst.
From S2P Require Import Wire.
From S2P Require Import OfBase.
From S2P Require Import OfMatch.
From S2P Require Import MatchTheory.
From S2P Require Import OfActions.
From S2P Require Import OfStats.
From S2P Require Import OfMessages.
From S2P Require Import OfStatsMsg.
From S2P Require Import PacketCodec.
From S2P Require Import Connection.
From S2P Require Import SoftSwitch.
From S2P Require Import Controller.
From S2P Require Import ControllerTheory.

(** * Bodies *)

Section bodies.
Context {T : Type} (init : T) (unpack : T -> bytes -> res (T * bytes)).

(** The loop ends: each object takes something, or the assertion fails. *)
Lemma process_stats_loop_total fuel body : (length body <= fuel)%nat ->
  (forall b, unpack init b <> Err Diverge) -> process_stats_loop init unpack fuel body <> Err Diverge.
Proof.
  intros Hf Hu. revert body Hf; induction fuel as [|fuel IH]; intros body Hf; cbn [process_stats_loop].
  - destruct body; [done|cbn in Hf; lia].
  - destruct (Z.eqb_spec (zlen body) 0); [done|]. cbn [negb].
    destruct (unpack init body) as [[obj rest]|e] eqn:E; cbn [mbind res_bind]; [|intros [= ->]; by apply (Hu body)].
    destruct (Z.ltb_spec (zlen rest) (zlen body)) as [Hl|]; [|done].
    assert (length rest <= fuel)%nat as Hr by (unfold zlen in Hl; lia). specialize (IH rest Hr).
    destruct (process_stats_loop _ _ _ _); cbn; congruence.
Qed.
End bodies.

(** A kind of statistics that comes in parts: its type, a new object of the class of its
    entries, its event - and the handler the controller has for it. *)
Class StatsKind (T : Type) `{Wire T} := {
  sk_type : Z;
  sk_init : T;
  sk_event : list ofp_stats_reply -> list T -> event;
  sk_aggregated : aggregated sk_type = true;
  sk_same x : same_class x sk_init;
  sk_pos x : wire_wf x -> 0 < plen x;
  sk_handler A (listener : source -> Z -> event -> M (World A) unit) :
    statsHandlerMap listener sk_type = Some (fun id parts =>
      msg ← lift (process_parts sk_init unpack parts); raise_both listener id (sk_event parts msg))
}.

#[export, refine] Instance flow_stats_kind : StatsKind ofp_flow_stats := {
  sk_type := OFPST_FLOW; sk_init := ofp_flow_stats_init; sk_event := EvFlowStatsReceived;
  sk_aggregated := eq_refl; sk_same _ := I; sk_handler _ _ := eq_refl
}.
Proof.
  intros x Hx. cbn [plen ofp_flow_stats_wire]. unfold ofp_flow_stats_len, ofp_match_len. rewrite len_list_acc.
  destruct (pack_actions_ok (fs_actions x) []) as (s & _ & Hs); [by apply Hx|].
  apply actions_image_total in Hs. rewrite settle_len_list in Hs. pose proof (zlen_nonneg s). lia.
Defined.
#[export, refine] Instance table_stats_kind : StatsKind ofp_table_stats := {
  sk_type := OFPST_TABLE; sk_init := ofp_table_stats_init; sk_event := EvTableStatsReceived;
  sk_aggregated := eq_refl; sk_same _ := I; sk_handler _ _ := eq_refl
}.
Proof. done. Defined.
#[export, refine] Instance port_stats_kind : StatsKind ofp_port_stats := {
  sk_type := OFPST_PORT; sk_init := ofp_port_stats_init; sk_event := EvPortStatsReceived;
  sk_aggregated := eq_refl; sk_same _ := I; sk_handler _ _ := eq_refl
}.
Proof. done. Defined.
#[export, refine] Instance queue_stats_kind : StatsKind ofp_queue_stats := {
  sk_type := OFPST_QUEUE; sk_init := ofp_queue_stats_init; sk_event := EvQueueStatsReceived;
  sk_aggregated := eq_refl; sk_same _ := I; sk_handler _ _ := eq_refl
}.
Proof. done. Defined.

Section kind.
Context `{StatsKind T}.

Lemma process_stats_image l s fuel : wire_image l s -> (length s <= fuel)%nat ->
  process_stats_loop sk_init unpack fuel s = Ok l.
Proof.
  intros Hi. revert fuel; induction Hi as [|x l s t Hx Hs Hu _ IH]; intros fuel Hf; [by destruct fuel|].
  pose proof (sk_pos x Hx) as Hp. rewrite length_app in Hf. unfold zlen in Hs.
  destruct fuel as [|fuel]; [lia|]. cbn [process_stats_loop].
  rewrite (proj2 (Z.eqb_neq _ _)) by (rewrite zlen_app; pose proof (zlen_nonneg t); unfold zlen at 1; lia).
  cbn [negb]. rewrite Hu by apply sk_same. cbn [mbind res_bind].
  rewrite (proj2 (Z.ltb_lt _ _)) by (rewrite zlen_app; unfold zlen at 2; lia).
  rewrite IH by lia. done.
Qed.

(** A reply of this kind with the entries [l]. *)
Definition part_of (xid : option Z) (p : ofp_stats_reply) (l : list T) : Prop :=
  srp_type p = sk_type /\ hdr_xid (srp_hdr p) = xid /\
  exists s, srp_body p = RbOne (SpBytes s) /\ wire_image l s.

Lemma process_parts_ok xid ps ls : Forall2 (part_of xid) ps ls ->
  process_parts sk_init unpack ps = Ok (concat ls).
Proof.
  induction 1 as [|p l ps ls (_ & _ & s & Hb & Hi) _ IH]; [done|]. cbn [process_parts concat].
  unfold part_body. rewrite Hb. cbn [mbind res_bind]. unfold processStatsBody.
  rewrite (process_stats_image l) by done. cbn [mbind res_bind]. by rewrite IH.
Qed.
End kind.

(** * The controller *)

Definition stats_event (e : event) : Prop :=
  match e with
  | EvRawStatsReply _ | EvFlowStatsReceived _ _ | EvTableStatsReceived _ _
  | EvPortStatsReceived _ _ | EvQueueStatsReceived _ _ => True
  | _ => False
  end.

(** The events raised on both sources. *)
Definition both (id : Z) (e : event) : list (source * Z * event) := [(Nexus, id, e); (OnCon id, id, e)].
Definition raws (id : Z) (ps : list ofp_stats_reply) : list (source * Z * event) :=
  concat (map (fun p => both id (EvRawStatsReply p)) ps).
Definition more (p : ofp_stats_reply) : bool := negb (Z.land (srp_flags p) 1 =? 0).

Section replies.
Context {A : Type} (listener : source -> Z -> event -> M (World A) unit).
Hypothesis Hpassive : passive listener stats_event.
Implicit Types (w : World A) (c : Con).

Fixpoint handle_replies (id : Z) (ps : list ofp_stats_reply) : M (World A) unit :=
  match ps with
  | [] => mret tt
  | p :: ps => '_ ← handle_STATS_REPLY listener id p; handle_replies id ps
  end.

Lemma raise_both_stats id e c n x r a w : stats_event e -> nexus_declares e = true -> con_nexus c = true ->
  exists a', raise_both listener id e (after id c n x r a w) = (Ok tt, after id c n x (r ++ both id e) a' w).
Proof.
  intros He Hd Hn. unfold raise_both, raise_nexus.
  destruct (app_event_passive listener _ Nexus id e id c n x r a w Hpassive He) as [a1 E1].
  destruct (app_event_passive listener _ (OnCon id) id e id c n x (r ++ [(Nexus, id, e)]) a1 w Hpassive He) as [a2 E2].
  exists a2. erewrite bind_ok; cycle 1.
  { erewrite bind_ok by reflexivity. rewrite the_con_after, Hn, Hd. exact E1. }
  rewrite E2. unfold both. by rewrite <-app_assoc.
Qed.

Section of_kind.
Context `{StatsKind T}.
Hypothesis Hevent : forall ps (l : list T), stats_event (sk_event ps l) /\ nexus_declares (sk_event ps l) = true.

(** A part that continues what has come so far. *)
Lemma part_kept id xid p (l : list T) ps c n x r a w : con_nexus c = true -> con_previous_stats c = ps ->
  Forall (fun q => hdr_xid (srp_hdr q) = xid /\ srp_type q = sk_type) ps -> part_of xid p l -> more p = true ->
  exists a', handle_STATS_REPLY listener id p (after id c n x r a w) =
    (Ok tt, after id (con_set_previous_stats (ps ++ [p]) c) n x (r ++ both id (EvRawStatsReply p)) a' w).
Proof.
  intros Hn Hps Hall (Ht & Hx & _) Hm. unfold handle_STATS_REPLY.
  destruct (raise_both_stats id (EvRawStatsReply p) c n x r a w I eq_refl Hn) as [a' E]. exists a'.
  erewrite bind_ok by exact E. unfold incoming_stats_reply. erewrite bind_ok by reflexivity.
  rewrite the_con_after, Hps. unfold more in Hm. rewrite Hm, Ht, sk_aggregated. cbn [andb negb].
  erewrite bind_ok; [reflexivity|]. unfold set_con, modify. destruct ps as [|q ps].
  - by rewrite update_after.
  - apply Forall_cons in Hall as [[Hq Hq'] _]. rewrite bool_decide_true, Hq', Z.eqb_refl by congruence.
    cbn [andb]. by rewrite update_after.
Qed.
Lemma part_last id xid p (l : list T) ps c n x r a w : con_nexus c = true -> con_previous_stats c = ps ->
  Forall (fun q => hdr_xid (srp_hdr q) = xid /\ srp_type q = sk_type) ps -> part_of xid p l -> more p = false ->
  exists a', handle_STATS_REPLY listener id p (after id c n x r a w) =
    (msg ← lift (process_parts sk_init unpack (ps ++ [p])); raise_both listener id (sk_event (ps ++ [p]) msg))
      (after id (con_set_previous_stats [] c) n x (r ++ both id (EvRawStatsReply p)) a' w).
Proof.
  intros Hn Hps Hall (Ht & Hx & _) Hm. unfold handle_STATS_REPLY.
  destruct (raise_both_stats id (EvRawStatsReply p) c n x r a w I eq_refl Hn) as [a' E]. exists a'.
  erewrite bind_ok by exact E. unfold incoming_stats_reply. erewrite bind_ok by reflexivity.
  rewrite the_con_after, Hps. unfold more in Hm. rewrite Hm. cbn [andb].
  set (r1 := r ++ _).
  erewrite (bind_ok _ _ _ _ (after id (con_set_previous_stats (ps ++ [p]) c) n x r1 a' w)); cycle 1.
  { unfold set_con, modify. destruct ps as [|q ps]; [by rewrite update_after|].
    apply Forall_cons in Hall as [[Hq Hq'] _]. rewrite Ht, bool_decide_true, Hq', Z.eqb_refl by congruence.
    cbn [andb]. by rewrite update_after. }
  erewrite bind_ok by reflexivity. rewrite the_con_after. cbn [con_previous_stats con_set_previous_stats].
  assert (exists q, first_part (ps ++ [p]) = Ok q /\ srp_type q = sk_type) as (q & Eq & Hq).
  { destruct ps as [|q ps]; [by exists p|]. exists q. apply Forall_cons in Hall as [[_ Hq'] _]. done. }
  erewrite bind_ok by (unfold lift; by rewrite Eq).
  erewrite bind_ok by (unfold set_con, modify; rewrite update_after; reflexivity).
  rewrite Hq, sk_handler. done.
Qed.

Lemma replies_from id xid ps qs (lp lq : list (list T)) c n x r a w : con_nexus c = true ->
  con_previous_stats c = ps -> Forall2 (part_of xid) ps lp -> Forall2 (part_of xid) qs lq ->
  forall p l, Forall (fun q => more q = true) qs -> part_of xid p l -> more p = false ->
  exists a', handle_replies id (qs ++ [p]) (after id c n x r a w) =
    (Ok tt, after id (con_set_previous_stats [] c) n x
       (r ++ raws id (qs ++ [p]) ++ both id (sk_event (ps ++ qs ++ [p]) (concat lp ++ concat lq ++ l))) a' w).
Proof.
  intros Hn Hps Hp Hq p l Hm Hl Hlast. revert ps lp c r a Hn Hps Hp Hm.
  induction Hq as [|q l' qs lq Hq1 _ IH]; intros ps lp c r a Hn Hps Hp Hm;
    assert (Forall (fun q => hdr_xid (srp_hdr q) = xid /\ srp_type q = sk_type) ps) as Hall
      by (clear -Hp; induction Hp as [|? ? ? ? (? & ? & _)]; by constructor).
  - cbn [app handle_replies]. destruct (part_last id xid p l ps c n x r a w) as [a1 E]; [done..|].
    assert (process_parts sk_init unpack (ps ++ [p]) = Ok (concat (lp ++ [l]))) as Hpp.
    { apply (process_parts_ok xid). apply Forall2_app; [done|]. by constructor. }
    set (msg := concat (lp ++ [l])) in Hpp.
    destruct (raise_both_stats id (sk_event (ps ++ [p]) msg) (con_set_previous_stats [] c) n x
      (r ++ both id (EvRawStatsReply p)) a1 w) as [a2 E2]; [apply Hevent..|done|].
    exists a2. erewrite bind_ok; cycle 1.
    { rewrite E. erewrite bind_ok by (unfold lift; by rewrite Hpp). exact E2. }
    unfold msg. rewrite concat_app. cbn. by rewrite app_nil_r, <-app_assoc.
  - apply Forall_cons in Hm as [Hm1 Hm]. cbn [app handle_replies].
    destruct (part_kept id xid q l' ps c n x r a w) as [a1 E]; [done..|]. erewrite bind_ok by exact E.
    destruct (IH (ps ++ [q]) (lp ++ [l']) (con_set_previous_stats (ps ++ [q]) c)
      (r ++ both id (EvRawStatsReply q)) a1) as [a2 E2]; [done|done| |done|].
    { apply Forall2_app; [done|]. by constructor. }
    exists a2. rewrite E2. rewrite concat_app. cbn [concat map raws].
    rewrite app_nil_r, <-!app_assoc. done.
Qed.

End of_kind.

(** The statement for one kind. *)
Definition reassembles T `{StatsKind T} : Prop :=
  forall id xid qs p (lq : list (list T)) l c w,
    w_cons w !! id = Some c -> con_nexus c = true -> con_previous_stats c = [] ->
    Forall2 (part_of xid) qs lq -> Forall (fun q => more q = true) qs ->
    part_of xid p l -> more p = false ->
    exists w', handle_replies id (qs ++ [p]) w = (Ok tt, w') /\
      con_previous_stats (the_con id w') = [] /\
      w_raised w' = w_raised w ++ raws id (qs ++ [p]) ++
        both id (sk_event (qs ++ [p]) (concat lq ++ l)).

Lemma reassembles_kind `{StatsKind T} :
  (forall ps (l : list T), stats_event (sk_event ps l) /\ nexus_declares (sk_event ps l) = true) -> reassembles T.
Proof.
  intros He id xid qs p lq l c w Hid Hn Hps Hq Hm Hl Hlast.
  destruct (replies_from He id xid [] qs [] lq c (w_nexus w) (w_xids w) (w_raised w) (w_app w) w
    Hn Hps ltac:(constructor) Hq p l Hm Hl Hlast) as [a E].
  rewrite <-(after_self id c w Hid) in E. eexists. split; [exact E|]. by rewrite the_con_after.
Qed.

(** A statistics reply in parts - of flows, tables, ports or queues - raises every part
    as it comes, and with the last one a single event with the entries of all of them in
    order, read back from their bytes; nothing is left for the next reply. *)
Theorem stats_reassembled :
  reassembles ofp_flow_stats /\ reassembles ofp_table_stats /\
  reassembles ofp_port_stats /\ reassembles ofp_queue_stats.
Proof. split_and!; by apply reassembles_kind. Qed.

(** A reply that was begun and never finished blocks all others: as long as its first
    part is waiting, every reply to another request ends in an AttributeError - the message
    about it names a missing attribute - and no statistics are delivered. *)
Theorem unfinished_reply_blocks id p0 ps rs c w :
  w_cons w !! id = Some c -> con_nexus c = true -> con_previous_stats c = p0 :: ps ->
  Forall (fun q => hdr_xid (srp_hdr q) <> hdr_xid (srp_hdr p0) /\ (more q = false \/ aggregated (srp_type q) = true)) rs ->
  exists a, foldl (fun w q => (handle_STATS_REPLY listener id q w).2) w rs =
      after id c (w_nexus w) (w_xids w) (w_raised w ++ raws id rs) a w /\
    Forall (fun q => forall n x r a', (handle_STATS_REPLY listener id q (after id c n x r a' w)).1 = Err AttributeError) rs.
Proof.
  intros Hid Hn Hps Hrs.
  assert (Forall (fun q => forall n x r a, exists a', handle_STATS_REPLY listener id q (after id c n x r a w) =
    (Err AttributeError, after id c n x (r ++ both id (EvRawStatsReply q)) a' w)) rs) as Hone.
  { eapply Forall_impl; [exact Hrs|]. intros q [Hx Hm] n x r a. cbv beta in *. unfold handle_STATS_REPLY.
    destruct (raise_both_stats id (EvRawStatsReply q) c n x r a w I eq_refl Hn) as [a' E]. exists a'.
    erewrite bind_ok by exact E. unfold incoming_stats_reply. erewrite bind_ok by reflexivity.
    rewrite the_con_after, Hps. change (negb (Z.land (srp_flags q) 1 =? 0)) with (more q).
    assert (more q && negb (aggregated (srp_type q)) = false) as -> by by destruct Hm as [->| ->]; destruct (more q).
    by rewrite bool_decide_false. }
  enough (forall r a, exists a', foldl (fun w q => (handle_STATS_REPLY listener id q w).2)
    (after id c (w_nexus w) (w_xids w) r a w) rs = after id c (w_nexus w) (w_xids w) (r ++ raws id rs) a' w) as He.
  { destruct (He (w_raised w) (w_app w)) as [a' E]. rewrite <-(after_self id c w Hid) in E.
    exists a'. split; [done|]. eapply Forall_impl; [exact Hone|]. intros q Hq n x r a.
    destruct (Hq n x r a) as [? ->]. done. }
  clear Hrs. induction Hone as [|q rs Hq _ IH]; intros r a; [exists a; cbn; by rewrite app_nil_r|].
  cbn [foldl]. destruct (Hq (w_nexus w) (w_xids w) r a) as [a1 ->]. cbn [snd].
  destruct (IH (r ++ both id (EvRawStatsReply q)) a1) as [a2 ->]. exists a2.
  unfold raws. cbn [map concat]. by rewrite app_assoc.
Qed.
End replies.

(** * Examples *)

Definition ex_queue (n : Z) : ofp_queue_stats := QueueStats 1 n 100 10 0.
Definition ex_reply (flags xid : Z) (body : bytes) : ofp_stats_reply :=
  StatsReply (Hdr OFP_VERSION OFPT_STATS_REPLY (12 + zlen body) (Some xid)) OFPST_QUEUE flags (RbOne (SpBytes body)).
Definition ex_body (n : Z) : bytes := default [] (match Wire.pack true (ex_queue n) with Ok (_, s) => s | Err _ => None end).

Lemma ex_part flags xid : part_of (Some xid) (ex_reply flags xid (ex_body 3)) [ex_queue 3].
Proof.
  split; [done|]. split; [done|]. exists (ex_body 3). split; [done|].
  destruct (pack_unpack (ex_queue 3)) as (x' & s & E & Hw & Hl & Hu); [by vm_compute|].
  vm_compute in E. injection E as <- <-. rewrite <-(app_nil_r (ex_body 3)).
  by apply wi_cons; [by vm_compute|by vm_compute|intros y rest _; apply Hu|apply wi_nil].
Qed.

Lemma stats_reassembled_witness :
  let c := ex_con [] in
  let q := ex_reply 1 40 (ex_body 3) in let p := ex_reply 0 40 (ex_body 3) in
  exists w', handle_replies ex_listener 1 [q; p] (ex_world c) = (Ok tt, w') /\
    w_raised w' = raws 1 [q; p] ++ both 1 (EvQueueStatsReceived [q; p] [ex_queue 3; ex_queue 3]).
Proof.
  intros c q p.
  destruct (proj2 (proj2 (proj2 (@stats_reassembled unit ex_listener (ex_passive _)))) 1 (Some 40) [q] p
    [[ex_queue 3]] [ex_queue 3] c (ex_world c)) as (w' & E & _ & H); [reflexivity..| | | |reflexivity|].
  - constructor; [apply ex_part|constructor].
  - constructor; [reflexivity|constructor].
  - apply ex_part.
  - exists w'. exact (conj E H).
Defined.

(** The first part of the reply 40 is waiting when the reply 41 comes, twice. *)
Lemma unfinished_reply_blocks_witness :
  let q := ex_reply 1 40 (ex_body 3) in let p := ex_reply 0 41 (ex_body 3) in
  let c := con_set_previous_stats [q] (ex_con []) in
  exists w', foldl (fun w q => (handle_STATS_REPLY ex_listener 1 q w).2) (ex_world c) [p; p] = w' /\
    w_raised w' = raws 1 [p; p] /\ con_previous_stats (the_con 1 w') = [q].
Proof.
  intros q p c.
  destruct (@unfinished_reply_blocks unit ex_listener (ex_passive _) 1 q [] [p; p] c (ex_world c)) as (a & E & _);
    [reflexivity..| |].
  - constructor; [|constructor; [|constructor]]; (split; [intros H; discriminate H|left; reflexivity]).
  - eexists. split; [exact E|]. split; [reflexivity|]. by rewrite the_con_after.
Defined.
