(* ===== verification/L2Learning.v ===== *)
(** [forwarding/l2_learning.py]: a learning switch on every connection.  The component is
    a listener of the controller: it hears [ConnectionUp] on the nexus, makes a
    [LearningSwitch] for the connection, and that hears the connection's [PacketIn]. *)
From S2P Require Import Prelude.
From S2P Require Import Addresses.
From S2P Require Import OfConst.
From S2P Require Import Wire.
From S2P Require Import OfBase.
From S2P Require Import OfMatch.
From S2P Require Import OfActions.
From S2P Require Import OfMessages.
From S2P Require Import Packets.
From S2P Require Import PacketCodec.
From S2P Require Import Connection.
From S2P Require Import SoftSwitch.
From S2P Require Import Controller.

#[export] Instance byte_countable : Countable Byte.byte :=
  inj_countable Byte.to_N Byte.of_N Byte.of_to_N.

(** Seconds, on a clock of nanoseconds. *)
Definition FLOOD_DELAY : Z := 5 * 10 ^ 9.

(** [macToPort] is keyed by addresses, which hash and compare as their raw bytes. *)
Record LearningSwitch := MkLearningSwitch {
  ls_connection : Z;
  ls_transparent : bool;
  ls_macToPort : gmap bytes Z
}.

Definition eth_test (f : EthAddr -> res bool) (a : hwaddr) : res bool :=
  match a with HwEth a => f a | HwBytes _ => Err AttributeError end.

Section learning.
Context `{AppCodec}.
Variable PIPE_BUF : Z.
Variable sock_send : Z -> nat -> bytes -> send_result.

(** The program: the transparency [launch] was given, and the switches made so far. *)
Record l2_learning := L2 { l2_transparent : bool; l2_switches : list LearningSwitch }.
Abbreviation World := (Controller.World l2_learning).
Implicit Type w : World.

(** The applications' own listener; it is what hears a [ConnectionDown] that sending
    raises, and this application does not. *)
Definition quiet (src : source) (id : Z) (e : event) : M World unit := mret tt.
Definition send {T} (id : Z) (pack : T -> M Z (T * option bytes)) (data : T) : M World unit :=
  '_ ← con_send PIPE_BUF sock_send quiet id pack data; mret tt.

(** [flood] and [drop]. *)
Definition flood (con : Z) (ofp : ofp_packet_in) : M World unit :=
  if pi_buffer_id ofp =? -1 then mret tt
  else
    w ← get;
    late ← match con_connect_time (the_con con w) with
           | Some t => mret (FLOOD_DELAY <? w_now w - t)
           | None => raise TypeError
           end;
    let actions := if late : bool then [action_output OFPP_FLOOD] else [] in
    send con (ofp_packet_out_pack true) (packet_out (pi_buffer_id ofp) (pi_in_port ofp) actions).

Definition drop (con : Z) (packet : ethernet) (ofp : ofp_packet_in) (duration : option (Z * Z))
    : M World unit :=
  match duration with
  | Some (idle, hard) =>
      m ← lift (from_packet packet None);
      send con (ofp_flow_mod_pack true) (flow_mod m idle hard (pi_buffer_id ofp) [])
  | None =>
      if negb (pi_buffer_id ofp =? -1) then
        send con (ofp_packet_out_pack true) (packet_out (pi_buffer_id ofp) (pi_in_port ofp) [])
      else mret tt
  end.

(** [self.macToPort[packet.src] = event.port] of the [i]-th switch. *)
Definition learn (i : nat) (packet : ethernet) (port : Z) : M World unit :=
  modify (fun w => w_set_app
    (L2 (l2_transparent (w_app w))
       (alter (fun s => MkLearningSwitch (ls_connection s) (ls_transparent s)
                          (<[hw_raw (eth_src packet) := port]> (ls_macToPort s)))
          i (l2_switches (w_app w)))) w).
Definition the_switch (i : nat) w : LearningSwitch :=
  nth i (l2_switches (w_app w)) (MkLearningSwitch 0 false ∅).

(** [LearningSwitch._handle_PacketIn], after [event.parse()]. *)
Definition handle_packet (i : nat) (packet : ethernet) (ofp : ofp_packet_in) : M World unit :=
  let port_in := pi_in_port ofp in
  '_ ← learn i packet port_in;
  w ← get;
  let s := the_switch i w in
  let con := ls_connection s in
  filtered ← (if ls_transparent s then mret false
              else if eth_type packet =? LLDP_TYPE then mret true
              else lift (eth_test isBridgeFiltered (eth_dst packet)));
  if filtered : bool then drop con packet ofp None
  else
    multicast ← lift (eth_test isMulticast (eth_dst packet));
    if multicast : bool then flood con ofp
    else
      match ls_macToPort s !! hw_raw (eth_dst packet) with
      | None => flood con ofp
      | Some port =>
          if port =? port_in then drop con packet ofp (Some (10, 10))
          else
            m ← lift (from_packet packet None);
            send con (ofp_flow_mod_pack true)
              (flow_mod m 10 30 (pi_buffer_id ofp) [action_output port])
      end.

(** [event.parse()]; the event keeps the packet for the next switch. *)
Definition parse_event (ofp : ofp_packet_in) : M World ethernet :=
  zoom w_ps w_set_ps (ethernet_new (pi_data ofp)).

(** The switches of the connection, in the order they were made. *)
Fixpoint each_switch (con : Z) (packet : ethernet) (ofp : ofp_packet_in) (i : nat)
    (l : list LearningSwitch) : M World unit :=
  match l with
  | [] => mret tt
  | s :: l =>
      '_ ← (if ls_connection s =? con then handle_packet i packet ofp else mret tt);
      each_switch con packet ofp (S i) l
  end.

(** The listener: [l2_learning._handle_ConnectionUp], which makes the switch, and the
    switches' [_handle_PacketIn]. *)
Definition l2_listener (src : source) (id : Z) (e : event) : M World unit :=
  match src, e with
  | Nexus, EvConnectionUp _ =>
      modify (fun w => w_set_app
        (L2 (l2_transparent (w_app w))
           (l2_switches (w_app w) ++ [MkLearningSwitch id (l2_transparent (w_app w)) ∅])) w)
  | OnCon con, EvPacketIn ofp =>
      w ← get;
      if existsb (fun s => ls_connection s =? con) (l2_switches (w_app w)) then
        packet ← parse_event ofp;
        each_switch con packet ofp 0 (l2_switches (w_app w))
      else mret tt
  | _, _ => mret tt
  end.
End learning.
