(* ===== verification/L2Theory.v ===== *)
(** The learning switch: its table, what it decides for a packet, and - together with the
    software switch - that the flow it installs carries the following frames. *)
From S2P Require Import Prelude.
From S2P Require Import Steps.
From S2P Require Import Addresses.
From S2P Require Import OfConst.
From S2P Require Import Wire.
From S2P Require Import OfBase.
From S2P Require Import OfMatch.
From S2P Require Import MatchTheory.
From S2P Require Import OfActions.
From S2P Require Import OfMessages.
From S2P Require Import Packets.
From S2P Require Import PacketCodec.
From S2P Require Import PacketTheory.
From S2P Require Import PacketRoundtrip.
From S2P Require Import PacketTyping.
From S2P Require Import FlowTable.
From S2P Require Import Connection.
From S2P Require Import SoftSwitch.
From S2P Require Import SwitchTheory.
From S2P Require Import Controller.
From S2P Require Import ControllerTheory.
From S2P Require Import L2Learning.

(** * The tests on addresses *)

Definition mac (d : EthAddr) : Z := be_dec (eth_value d).

Lemma bytes_six (s : bytes) : length s = 6%nat -> exists a b c d e f, s = [a; b; c; d; e; f].
Proof. destruct s as [|a [|b [|c [|d [|e [|f [|? ?]]]]]]]; try done. intros _. by eexists _, _, _, _, _, _. Qed.

Lemma mac_six a b c d e f : mac (MkEth [a; b; c; d; e; f]) =
  Z_of_byte a * 2 ^ 40 + Z_of_byte b * 2 ^ 32 + Z_of_byte c * 2 ^ 24 + Z_of_byte d * 2 ^ 16 +
  Z_of_byte e * 2 ^ 8 + Z_of_byte f.
Proof. unfold mac, be_dec. cbn. lia. Qed.

(** The sixteen addresses of 802.1D. *)
Lemma bridge_filtered d : length (eth_value d) = 6%nat ->
  isBridgeFiltered d = Ok (bool_decide (0x0180C2000000 <= mac d <= 0x0180C200000F)).
Proof.
  destruct d as [s]. cbn [eth_value]. intros H. destruct (bytes_six s H) as (a & b & c & d & e & f & ->).
  unfold isBridgeFiltered, eth_ord. cbn [eth_value lookup list_lookup mbind res_bind]. rewrite mac_six.
  pose proof (Z_of_byte_range a). pose proof (Z_of_byte_range b). pose proof (Z_of_byte_range c).
  pose proof (Z_of_byte_range d). pose proof (Z_of_byte_range e). pose proof (Z_of_byte_range f).
  unfold and_then. cbn [mbind res_bind].
  repeat match goal with
  | |- context [?x =? ?y] => destruct (Z.eqb_spec x y); cbn [mbind res_bind];
      [|rewrite bool_decide_false by lia; done]
  end.
  f_equal. apply eq_true_iff_eq. rewrite bool_decide_eq_true, Z.leb_le. lia.
Qed.

(** The group bit. *)
Lemma multicast_bit d : length (eth_value d) = 6%nat -> isMulticast d = Ok (Z.testbit (mac d) 40).
Proof.
  destruct d as [s]. cbn [eth_value]. intros H. destruct (bytes_six s H) as (a & b & c & d & e & f & ->).
  unfold isMulticast, eth_ord. cbn [eth_value lookup list_lookup mbind res_bind]. rewrite mac_six.
  pose proof (Z_of_byte_range b). pose proof (Z_of_byte_range c).
  pose proof (Z_of_byte_range d). pose proof (Z_of_byte_range e). pose proof (Z_of_byte_range f).
  f_equal. replace (_ + Z_of_byte f) with ((Z_of_byte b * 2 ^ 32 + Z_of_byte c * 2 ^ 24 + Z_of_byte d * 2 ^ 16 +
    Z_of_byte e * 2 ^ 8 + Z_of_byte f) + Z_of_byte a * 2 ^ 40) by lia.
  set (r := _ + Z_of_byte f). rewrite Z.testbit_eqb by lia.
  rewrite Z.div_add, (Z.div_small r) by (unfold r; lia). rewrite Z.add_0_l.
  assert (Z.land (Z_of_byte a) 1 = Z_of_byte a mod 2) as -> by by apply (Z.land_ones _ 1).
  pose proof (Z.mod_pos_bound (Z_of_byte a) 2 ltac:(lia)) as Hm.
  destruct (Z.eqb_spec (Z_of_byte a mod 2) 0) as [->|]; [done|]. destruct (Z.eqb_spec (Z_of_byte a mod 2) 1); [done|lia].
Qed.

(** * Specification *)

(** What a learning switch asks of the switch for a packet. *)
Inductive decision :=
  | Ignore
  | Release (actions : list action)
  | Install (idle hard : Z) (actions : list action).

(** [port]: where the destination was last seen; [late]: whether the connection has been
    up for longer than the flood delay. *)
Definition verdict (transparent : bool) (dst : EthAddr) (type in_port : Z) (port : option Z)
    (buffered late : bool) : decision :=
  let release actions := if buffered then Release actions else Ignore in
  let flood := release (if late then [action_output OFPP_FLOOD] else []) in
  if negb transparent && ((type =? LLDP_TYPE) || bool_decide (0x0180C2000000 <= mac dst <= 0x0180C200000F))
  then release []
  else if Z.testbit (mac dst) 40 then flood
  else match port with
       | None => flood
       | Some port => if port =? in_port then Install 10 10 [] else Install 10 30 [action_output port]
       end.

(** What the connection's socket took for a decision: a message that its reader
    makes the decision of. *)
Definition realizes (d : decision) (m : ofp_match) (ofp : ofp_packet_in) (c c' : Con) : Prop :=
  match d with
  | Ignore => c' = c
  | Release actions => exists b h, c' = sent b c /\ frame b OFPT_PACKET_OUT
      (MPacketOut (PacketOut h (pi_buffer_id ofp) (pi_in_port ofp) (action_settle <$> actions) []))
  | Install idle hard actions => exists b h, c' = sent b c /\ frame b OFPT_FLOW_MOD
      (MFlowMod (FlowMod h (wire_view true m) 0 OFPFC_ADD idle hard OFP_DEFAULT_PRIORITY
        (pi_buffer_id ofp) OFPP_NONE 0 (action_settle <$> actions)))
  end.

Definition learned (i : nat) (packet : ethernet) (port : Z) (app : l2_learning) : l2_learning :=
  L2 (l2_transparent app)
    (alter (fun s => MkLearningSwitch (ls_connection s) (ls_transparent s)
                       (<[hw_raw (eth_src packet) := port]> (ls_macToPort s))) i (l2_switches app)).

Section decisions.
Context `{AppCodec} (PIPE_BUF : Z) (sock_send : Z -> nat -> bytes -> send_result).
Implicit Type w : World l2_learning.

Lemma send_after `{MsgLaws T, !Dispatch T} (m : T) id c n x r a w :
  takes_all sock_send id -> w_sending w = false -> con_disconnected c = false ->
  msg_wf m -> 0 <= x < 2 ^ 31 -> 
  let h := (hdr_settle (mhdr (mready m)) x).1 in
  let m' := with_hdr h (mready m) in
  hdr_version (mhdr m') = OFP_VERSION -> hdr_type (mhdr m') = disp_type ->
  exists b x', send PIPE_BUF sock_send id (mpack true) m (after id c n x r a w) =
      (Ok tt, after id (sent b c) n x' r a w) /\ 0 <= x' < 2 ^ 31 /\
    frame b disp_type (disp_wrap (mview m')).
Proof.
  intros Ht Hs Hd Hw Hx h m' Hv Hty. destruct (packs m x Hw Hx Hv Hty) as (b & x' & E & Hx' & F).
  exists b, x'. split; [|done]. unfold send. by erewrite bind_ok by (by eapply con_send_after).
Qed.

Lemma packet_out_wf buffer in_port actions : buffer_wf buffer -> u16 in_port -> Forall action_wf actions ->
  zlen actions <= 1 -> Forall (fun a => action_len a = 8) actions ->
  msg_wf (packet_out buffer in_port actions).
Proof.
  intros Hb Hi Ha Hl H8. cbn [msg_wf ofp_packet_out_msg packet_out po_hdr po_actions po_data po_buffer_id po_in_port].
  assert (len_list 16 actions = 16 \/ len_list 16 actions = 24) as Hlen.
  { destruct actions as [|a [|? ?]]; [by left| |unfold zlen in Hl; cbn in Hl; lia]. right.
    apply Forall_cons in H8 as [H8 _]. unfold len_list. cbn. by rewrite H8. }
  split_and!; [|by right|done|apply Hi|apply Hi|done].
  change (zlen (po_data ofp_packet_out_init)) with 0. destruct Hlen as [->| ->]; repeat split; by vm_compute.
Qed.
Lemma flow_mod_wf m idle hard buffer actions : match_wf m -> u16 idle -> u16 hard -> buffer_wf buffer ->
  Forall action_wf actions -> zlen actions <= 1 -> Forall (fun a => action_len a = 8) actions ->
  msg_wf (flow_mod m idle hard buffer actions).
Proof.
  intros Hm Hi Hh Hb Ha Hl H8. cbn [msg_wf ofp_flow_mod_msg].
  assert (ofp_flow_mod_len (flow_mod m idle hard buffer actions) = 72 \/
          ofp_flow_mod_len (flow_mod m idle hard buffer actions) = 80) as Hlen.
  { unfold ofp_flow_mod_len, flow_mod, ofp_match_len. cbn [fm_match fm_actions].
    destruct actions as [|a [|? ?]]; [by left| |unfold zlen in Hl; cbn in Hl; lia]. right.
    apply Forall_cons in H8 as [H8 _]. unfold len_list. cbn. by rewrite H8. }
  split; [destruct Hlen as [->| ->]; repeat split; by vm_compute|].
  unfold flow_mod. cbn [fm_match fm_cookie fm_command fm_idle_timeout fm_hard_timeout fm_priority
    fm_buffer_id fm_out_port fm_flags fm_actions].
  split; [done|]. split; [by vm_compute|]. split; [by vm_compute|]. split; [done|]. split; [done|].
  split; [by vm_compute|]. split; [done|]. split; [by vm_compute|]. split; [by vm_compute|]. done.
Qed.

Lemma output_wf port : u16 port -> action_wf (action_output port).
Proof. intros Hp. unfold action_output. cbn. split_and!; [done|done|by exists port|lia..]. Qed.

(** ** Handling a packet *)

Lemma learn_after i packet port id c n x r app w :
  learn i packet port (after id c n x r app w) = (Ok tt, after id c n x r (learned i packet port app) w).
Proof. done. Qed.

Lemma the_switch_learned i packet port app id c n x r w s : l2_switches app !! i = Some s ->
  the_switch i (after id c n x r (learned i packet port app) w) =
    MkLearningSwitch (ls_connection s) (ls_transparent s) (<[hw_raw (eth_src packet) := port]> (ls_macToPort s)).
Proof.
  intros Hi. unfold the_switch. cbn [w_app after w_set_app learned l2_switches]. apply nth_lookup_Some.
  by rewrite list_lookup_alter_eq, Hi.
Qed.

Section packet.
Context (id : Z) (c : Con) (n : gmap (option Z) Z) (x t : Z) (r : list (source * Z * event)) (w : World l2_learning).
Context (packet : ethernet) (m : ofp_match) (ofp : ofp_packet_in).
Hypothesis Ht : takes_all sock_send id.
Hypothesis Hs : w_sending w = false.
Hypothesis Hup : con_disconnected c = false.
Hypothesis Hct : con_connect_time c = Some t.
Hypothesis Hx : 0 <= x < 2 ^ 31.
Hypothesis Hb : buffer_wf (pi_buffer_id ofp).
Hypothesis Hin : u16 (pi_in_port ofp).
Hypothesis Hm : from_packet packet None = Ok m.
Hypothesis Hmw : match_wf m.

Let late : bool := FLOOD_DELAY <? w_now w - t.
Let buffered : bool := negb (pi_buffer_id ofp =? -1).

Lemma release_after app actions : Forall action_wf actions -> zlen actions <= 1 ->
  Forall (fun a => action_len a = 8) actions ->
  exists c' x', realizes (Release actions) m ofp c c' /\
    send PIPE_BUF sock_send id (ofp_packet_out_pack true) (packet_out (pi_buffer_id ofp) (pi_in_port ofp) actions)
      (after id c n x r app w) = (Ok tt, after id c' n x' r app w).
Proof.
  intros Ha Hl H8.
  pose proof (packet_out_wf (pi_buffer_id ofp) (pi_in_port ofp) actions Hb Hin Ha Hl H8) as Hw.
  destruct (send_after (packet_out (pi_buffer_id ofp) (pi_in_port ofp) actions) id c n x r app w Ht Hs Hup Hw Hx)
    as (b & x' & E & _ & F); [done|done|].
  exists (sent b c), x'. split; [|exact E]. exists b. eexists. split; [done|]. exact F.
Qed.

Lemma install_after app idle hard actions : u16 idle -> u16 hard -> Forall action_wf actions ->
  zlen actions <= 1 -> Forall (fun a => action_len a = 8) actions ->
  exists c' x', realizes (Install idle hard actions) m ofp c c' /\
    send PIPE_BUF sock_send id (ofp_flow_mod_pack true) (flow_mod m idle hard (pi_buffer_id ofp) actions)
      (after id c n x r app w) = (Ok tt, after id c' n x' r app w).
Proof.
  intros Hi Hh Ha Hl H8.
  pose proof (flow_mod_wf m idle hard (pi_buffer_id ofp) actions Hmw Hi Hh Hb Ha Hl H8) as Hw.
  destruct (send_after (flow_mod m idle hard (pi_buffer_id ofp) actions) id c n x r app w Ht Hs Hup Hw Hx)
    as (b & x' & E & _ & F); [done|done|].
  exists (sent b c), x'. split; [|exact E]. exists b. eexists. split; [done|]. exact F.
Qed.

Lemma flood_after app : exists c' x',
  realizes (if buffered then Release (if late then [action_output OFPP_FLOOD] else []) else Ignore) m ofp c c' /\
  flood PIPE_BUF sock_send id ofp (after id c n x r app w) = (Ok tt, after id c' n x' r app w).
Proof.
  unfold flood, buffered. destruct (pi_buffer_id ofp =? -1); cbn [negb]; [by exists c, x|].
  rewrite bind_get, the_con_after, Hct.
  change (w_now (after id c n x r app w)) with (w_now w). erewrite bind_ok by reflexivity. fold late.
  destruct late; apply release_after; try done; [|by repeat constructor].
  apply Forall_singleton. by apply output_wf.
Qed.

Lemma drop_after app : exists c' x', realizes (if buffered then Release [] else Ignore) m ofp c c' /\
  drop PIPE_BUF sock_send id packet ofp None (after id c n x r app w) = (Ok tt, after id c' n x' r app w).
Proof.
  unfold drop, buffered. destruct (pi_buffer_id ofp =? -1); cbn [negb]; [by exists c, x|].
  by apply release_after.
Qed.

Lemma handle_packet_after i s app dst : l2_switches app !! i = Some s -> ls_connection s = id ->
  eth_dst packet = HwEth dst -> length (eth_value dst) = 6%nat ->
  (forall p, ls_macToPort s !! eth_value dst = Some p -> u16 p) ->
  let known := <[hw_raw (eth_src packet) := pi_in_port ofp]> (ls_macToPort s) in
  exists c' x',
    realizes (verdict (ls_transparent s) dst (eth_type packet) (pi_in_port ofp) (known !! eth_value dst)
                buffered late) m ofp c c' /\
    handle_packet PIPE_BUF sock_send i packet ofp (after id c n x r app w) =
      (Ok tt, after id c' n x' r (learned i packet (pi_in_port ofp) app) w).
Proof.
  intros Hi Hid Hdst Hlen Hports known. set (app' := learned i packet (pi_in_port ofp) app).
  unfold handle_packet. erewrite bind_ok by apply learn_after. rewrite bind_get.
  rewrite (the_switch_learned i packet _ app id c n x r w s Hi). fold app'. fold known.
  cbn [ls_connection ls_transparent ls_macToPort]. rewrite Hid, Hdst. unfold verdict.
  set (f := bool_decide (0x0180C2000000 <= mac dst <= 0x0180C200000F)).
  erewrite (bind_ok _ _ _ (negb (ls_transparent s) && ((eth_type packet =? LLDP_TYPE) || f))); cycle 1.
  { destruct (ls_transparent s); [done|]. cbn [negb andb]. destruct (eth_type packet =? LLDP_TYPE); [done|].
    unfold lift, eth_test. by rewrite bridge_filtered. }
  destruct (negb (ls_transparent s) && _); [apply drop_after|].
  erewrite bind_ok by (unfold lift, eth_test; by rewrite multicast_bit).
  destruct (Z.testbit (mac dst) 40); [apply flood_after|]. cbn [hw_raw]. unfold eth_toRaw.
  destruct (known !! eth_value dst) as [port|] eqn:Hk; [|apply flood_after].
  destruct (Z.eqb_spec port (pi_in_port ofp)) as [->|Hne].
  - unfold drop. erewrite bind_ok by (unfold lift; by rewrite Hm). apply install_after; try done; by repeat constructor.
  - erewrite bind_ok by (unfold lift; by rewrite Hm).
    assert (u16 port) as Hp.
    { unfold known in Hk. apply lookup_insert_Some in Hk as [[_ <-]|[_ Hk]]; [done|]. by apply Hports. }
    apply install_after; try done; [|by repeat constructor]. apply Forall_singleton. by apply output_wf.
Qed.
End packet.

(** ** The event *)

(** [s], at [i], is the only switch of the connection. *)
Definition only_switch (id : Z) (i : nat) (s : LearningSwitch) (l : list LearningSwitch) : Prop :=
  ls_connection s = id /\ exists l1 l2, l = l1 ++ s :: l2 /\ i = length l1 /\
    Forall (fun s' => ls_connection s' <> id) l1 /\ Forall (fun s' => ls_connection s' <> id) l2.

Lemma each_switch_none id packet ofp k l w : Forall (fun s' => ls_connection s' <> id) l ->
  each_switch PIPE_BUF sock_send id packet ofp k l w = (Ok tt, w).
Proof.
  intros Hl. revert k; induction Hl as [|s l Hs _ IH]; intros k; [done|]. cbn [each_switch].
  rewrite (proj2 (Z.eqb_neq _ _)) by done. by erewrite bind_ok by reflexivity.
Qed.

Lemma each_switch_only id packet ofp i s l w w' : only_switch id i s l ->
  handle_packet PIPE_BUF sock_send i packet ofp w = (Ok tt, w') ->
  each_switch PIPE_BUF sock_send id packet ofp 0 l w = (Ok tt, w').
Proof.
  intros (Hs & l1 & l2 & -> & -> & H1 & H2) E. change (length l1) with (0 + length l1)%nat in E. revert E.
  generalize 0%nat as k. induction H1 as [|s1 l1 Hs1 _ IH]; intros k E.
  - cbn [app each_switch length] in *. rewrite Hs, Z.eqb_refl. rewrite Nat.add_0_r in E.
    erewrite bind_ok by exact E. by apply each_switch_none.
  - cbn [app each_switch length] in *. rewrite (proj2 (Z.eqb_neq _ _)) by done. erewrite bind_ok by reflexivity.
    apply IH. by rewrite <-Nat.add_succ_comm in E.
Qed.

Lemma only_switch_lookup id i s l : only_switch id i s l ->
  l !! i = Some s /\ existsb (fun s => ls_connection s =? id) l = true.
Proof.
  intros (Hs & l1 & l2 & -> & -> & _). split; [by apply list_lookup_middle|].
  rewrite existsb_app. cbn. by rewrite Hs, Z.eqb_refl, orb_true_r.
Qed.

Lemma packet_in_decision def choice l cl id i s c t ofp packet ps' m dst w :
  w_cons w !! id = Some c -> con_connect_time c = Some t -> con_disconnected c = false ->
  takes_all sock_send id -> w_sending w = false -> 0 <= w_xids w < 2 ^ 31 ->
  only_switch id i s (l2_switches (w_app w)) ->
  ethernet_new (pi_data ofp) (w_ps w) = (Ok packet, ps') -> from_packet packet None = Ok m -> match_wf m ->
  eth_dst packet = HwEth dst -> length (eth_value dst) = 6%nat ->
  buffer_wf (pi_buffer_id ofp) -> u16 (pi_in_port ofp) ->
  (forall p, ls_macToPort s !! eth_value dst = Some p -> u16 p) ->
  let known := <[hw_raw (eth_src packet) := pi_in_port ofp]> (ls_macToPort s) in
  let buffered := negb (pi_buffer_id ofp =? -1) in
  let late := FLOOD_DELAY <? w_now w - t in
  exists w', of_handle PIPE_BUF sock_send (l2_listener PIPE_BUF sock_send) def choice l cl id
               OFPT_PACKET_IN (MPacketIn ofp) w = (Ok tt, w') /\
    w_app w' = learned i packet (pi_in_port ofp) (w_app w) /\ w_nexus w' = w_nexus w /\
    (forall id', id' <> id -> the_con id' w' = the_con id' w) /\
    realizes (verdict (ls_transparent s) dst (eth_type packet) (pi_in_port ofp) (known !! eth_value dst)
                buffered late) m ofp c (the_con id w').
Proof.
  intros Hid Hct Hup Ht Hs Hx Hsw Hp Hm Hmw Hdst Hlen Hb Hin Hports known buffered late.
  destruct (only_switch_lookup _ _ _ _ Hsw) as [Hi He].
  set (w0 := w_set_raised (w_raised w ++ nexus_raised c id (EvPacketIn ofp)) w).
  assert (raise_nexus (l2_listener PIPE_BUF sock_send) id (EvPacketIn ofp) w = (Ok tt, w0)) as E0.
  { unfold raise_nexus. erewrite bind_ok by reflexivity. unfold w0, nexus_raised.
    assert (the_con id w = c) as -> by (unfold the_con; by apply lookup_total_correct).
    destruct (con_nexus c && _); [done|]. rewrite app_nil_r. by destruct w. }
  set (w1 := w_set_raised (w_raised w0 ++ [(OnCon id, id, EvPacketIn ofp)]) w0).
  set (w2 := w_set_ps ps' w1).
  pose proof (after_self id c w2 Hid) as Ew.
  destruct (handle_packet_after id c (w_nexus w2) (w_xids w2) t (w_raised w2) w2 packet m ofp Ht Hs Hup Hct Hx Hb Hin
    Hm Hmw i s (w_app w2) dst Hi (proj1 Hsw) Hdst Hlen Hports) as (c' & x' & Hr & E).
  rewrite <-Ew in E.
  assert (l2_listener PIPE_BUF sock_send (OnCon id) id (EvPacketIn ofp) w1 =
    (Ok tt, after id c' (w_nexus w2) x' (w_raised w2) (learned i packet (pi_in_port ofp) (w_app w2)) w2)) as El.
  { cbn [l2_listener]. rewrite bind_get. change (l2_switches (w_app w1)) with (l2_switches (w_app w)). rewrite He.
    erewrite bind_ok by (unfold parse_event, zoom; change (w_ps w1) with (w_ps w); rewrite Hp; reflexivity).
    by apply (each_switch_only id packet ofp i s). }
  eexists. split.
  { unfold of_handle, handle_PACKET_IN, raise_both.
    cbn [Z.ltb Z.compare OFPT_BARRIER_REPLY OFPT_PACKET_IN Pos.compare Pos.compare_cont].
    erewrite bind_ok by exact E0. unfold app_event. fold w1. rewrite El. cbn [snd]. reflexivity. }
  rewrite the_con_after. split_and!; [done|done| |exact Hr].
  intros id' Hne. by rewrite the_con_after_ne.
Qed.

(** C24: A packet that the switch sends up.  The learning switch of the connection records the
    port of the packet's source, and sends what the specification decides, nothing else: a
    packet from or to the link-local protocols is dropped, a group or unknown destination
    flooded (once the connection is old enough), a packet back to its own port dropped for
    ten seconds, any other sent by a new flow. *)
Theorem packet_in_decided def choice l cl id i s c t ofp packet ps' m dst w :
  w_cons w !! id = Some c -> con_connect_time c = Some t -> con_disconnected c = false ->
  takes_all sock_send id -> w_sending w = false -> 0 <= w_xids w < 2 ^ 31 ->
  only_switch id i s (l2_switches (w_app w)) ->
  ethernet_new (pi_data ofp) (w_ps w) = (Ok packet, ps') -> from_packet packet None = Ok m ->
  eth_dst packet = HwEth dst ->
  buffer_wf (pi_buffer_id ofp) -> u16 (pi_in_port ofp) ->
  (forall p, ls_macToPort s !! eth_value dst = Some p -> u16 p) ->
  let known := <[hw_raw (eth_src packet) := pi_in_port ofp]> (ls_macToPort s) in
  let buffered := negb (pi_buffer_id ofp =? -1) in
  let late := FLOOD_DELAY <? w_now w - t in
  exists w', of_handle PIPE_BUF sock_send (l2_listener PIPE_BUF sock_send) def choice l cl id
               OFPT_PACKET_IN (MPacketIn ofp) w = (Ok tt, w') /\
    w_app w' = learned i packet (pi_in_port ofp) (w_app w) /\ w_nexus w' = w_nexus w /\
    (forall id', id' <> id -> the_con id' w' = the_con id' w) /\
    realizes (verdict (ls_transparent s) dst (eth_type packet) (pi_in_port ofp) (known !! eth_value dst)
                buffered late) m ofp c (the_con id w').
Proof.
  intros Hid Hct Hup Ht Hs Hx Hsw Hp Hm Hdst. pose proof Hp as Htyped. apply ethernet_new_yields in Htyped.
  destruct (typed_from_packet packet Htyped) as (_ & m' & Em & Hmw & _). assert (m' = m) as -> by congruence.
  destruct Htyped as (Hd & _). rewrite Hdst in Hd. by apply (packet_in_decision _ choice l cl id i s c t ofp packet ps').
Qed.

(** ** The table *)

(** Nothing but learning changes the application's state. *)
Definition same_app : relation (World l2_learning) := app_kept eq.
#[local] Instance same_app_preorder : PreOrder same_app := app_kept_preorder eq.

Ltac same_solve := keeps_solve ltac:(unfold same_app, app_kept; simpl; reflexivity).
#[local] Hint Extern 2 (keeps_at same_app _ (get_con _)) => by apply (kept_same eq) : keeps.
Lemma con_send_app {T} id (pack : T -> M Z (T * option bytes)) m w :
  keeps_at same_app w (con_send PIPE_BUF sock_send quiet id pack m).
Proof. by apply con_send_kept; [apply _|]. Qed.
#[local] Hint Resolve con_send_app : keeps.
Lemma send_app {T} id (pack : T -> M Z (T * option bytes)) m w :
  keeps_at same_app w (send PIPE_BUF sock_send id pack m).
Proof. unfold send. same_solve. Qed.
#[local] Hint Resolve send_app : keeps.
Lemma flood_app id ofp w : keeps_at same_app w (flood PIPE_BUF sock_send id ofp).
Proof. unfold flood. same_solve. Qed.
Lemma drop_app id p ofp d w : keeps_at same_app w (drop PIPE_BUF sock_send id p ofp d).
Proof. unfold drop. same_solve. Qed.
#[local] Hint Resolve flood_app drop_app : keeps.

Lemma handle_packet_app i packet ofp w :
  w_app (handle_packet PIPE_BUF sock_send i packet ofp w).2 = learned i packet (pi_in_port ofp) (w_app w).
Proof.
  unfold handle_packet. set (w1 := w_set_app (learned i packet (pi_in_port ofp) (w_app w)) w).
  erewrite (bind_ok _ _ _ tt w1) by reflexivity.
  change (learned i packet (pi_in_port ofp) (w_app w)) with (w_app w1). generalize w1 as v. intros v.
  symmetry. match goal with |- _ = w_app (?m v).2 => change (keeps_at same_app v m) end. same_solve.
Qed.

(** The table of a learning switch says, for every address, by which port it was last
    seen - whatever became of the packets. *)
Theorem table_is_last_port i s (l : list (ethernet * ofp_packet_in)) w a :
  l2_switches (w_app w) !! i = Some s ->
  let w' := foldl (fun w p => (handle_packet PIPE_BUF sock_send i p.1 p.2 w).2) w l in
  exists s', l2_switches (w_app w') !! i = Some s' /\ ls_connection s' = ls_connection s /\
    ls_macToPort s' !! a =
      match last (List.filter (fun p => bool_decide (hw_raw (eth_src p.1) = a)) l) with
      | Some p => Some (pi_in_port p.2)
      | None => ls_macToPort s !! a
      end.
Proof.
  revert w s; induction l as [|[p ofp] l IH]; intros w s Hs; [by exists s|]. cbn [foldl fst snd].
  set (w1 := (handle_packet PIPE_BUF sock_send i p ofp w).2).
  set (s1 := MkLearningSwitch (ls_connection s) (ls_transparent s) (<[hw_raw (eth_src p) := pi_in_port ofp]> (ls_macToPort s))).
  assert (l2_switches (w_app w1) !! i = Some s1) as Hs1.
  { unfold w1. rewrite handle_packet_app. cbn [learned l2_switches]. by rewrite list_lookup_alter_eq, Hs. }
  destruct (IH w1 s1 Hs1) as (s' & E & Hc & Hm). exists s'. split; [done|]. split; [done|]. rewrite Hm.
  cbn [List.filter fst]. case_bool_decide as Ea.
  - change (?x :: ?y) with ([x] ++ y). rewrite last_app.
    destruct (last (List.filter _ l)); [done|]. cbn. subst a. by rewrite lookup_insert_eq.
  - destruct (last (List.filter _ l)); [done|]. cbn. by rewrite lookup_insert_ne.
Qed.
End decisions.

(** * The learning switch at work *)

(** The match made from a packet, as it arrives at the switch, accepts the packet on every
    port. *)
Lemma own_flow_accepts p m i : eth_addrs p -> from_packet p None = Ok m -> match_wf m -> consistent m ->
  dl_eth (wire_view true m) /\ sem (wire_view true m) (packet_header p (Some i)) = true.
Proof.
  intros Hp Em Hw Hc. destruct (from_packet_header p None Hp) as (m' & E & (Hd & Hs & Ht) & Hh).
  assert (m' = m) as -> by congruence.
  assert (dl_eth (wire_view true m)) as Hdv by by split; eexists.
  split; [done|]. apply (eq_sem _ m); [done..|by apply wire_view_eq|].
  assert (h_in_port (packet_header p None) = None) as Hi.
  { unfold packet_header. by repeat match goal with |- context [let '(_, _) := ?x in _] => destruct x end. }
  rewrite <-Hh in Hi. cbn in Hi.
  assert (packet_header p (Some i) = Header (Some i) (h_dl_src (header_of m)) (h_dl_dst (header_of m))
    (h_dl_vlan (header_of m)) (h_dl_vlan_pcp (header_of m)) (h_dl_type (header_of m)) (h_nw_tos (header_of m))
    (h_nw_proto (header_of m)) (h_nw_src (header_of m)) (h_nw_dst (header_of m)) (h_tp_src (header_of m))
    (h_tp_dst (header_of m))) as ->.
  { rewrite Hh. unfold packet_header.
    by repeat match goal with |- context [let '(_, _) := ?x in _] => destruct x end. }
  assert (sem m (header_of m) = true) as Hself by (apply sem_sample; by apply nw_whole_self).
  revert Hself. unfold sem. cbn [h_in_port h_dl_src h_dl_dst h_dl_vlan h_dl_vlan_pcp h_dl_type h_nw_tos h_nw_proto
    h_nw_src h_nw_dst h_tp_src h_tp_dst]. rewrite Hi. done.
Qed.

(** A packet with the header [h] on [in_port] finds the same entry as any other. *)
Lemma same_header_entry p q i t : table_wf t -> eth_addrs p -> eth_addrs q ->
  packet_header q (Some i) = packet_header p (Some i) -> entry_for_packet q i t = entry_for_packet p i t.
Proof. intros Ht Hp Hq Hh. rewrite !entry_for_packet_ok by done. by rewrite Hh. Qed.

(** A well-formed frame as the controller sees it: parsed back, with a match for it. *)
Lemma parsed_back `{AppCodec} p data p' st i : frame_ok p -> ethernet_pack p = (Ok data, p') ->
  eth_addrs p /\ (exists st', ethernet_new data st = (Ok p', st')) /\ eth_addrs p' /\
  packet_header p' i = packet_header p i /\ eth_dst p' = eth_dst p /\ eth_src p' = eth_src p /\ eth_type p' = eth_type p /\
  exists m, from_packet p' None = Ok m /\ match_wf m /\ (match_type p <> 0x8035 -> consistent m) /\ dl_wf (eth_dst p').
Proof.
  intros Hf E. destruct (ethernet_survives p Hf) as (s & q & E' & _ & Hnew). rewrite E in E'. injection E' as <- <-.
  destruct (Hnew st) as [st' En]. pose proof En as Ht. apply ethernet_new_yields in Ht.
  destruct (typed_from_packet p' Ht) as (Hp' & m & Em & Hmw & Hmc).
  destruct (ethernet_pack_header p data p' i E) as (Hh & Hd & Hs & Hty). split.
  { destruct Hf as (Hd' & Hs' & _). destruct (eth_dst p) eqn:?, (eth_src p) eqn:?; try done. split; by eexists. }
  split; [by exists st'|]. split; [done|]. split; [done|]. split; [done|]. split; [done|]. split; [done|].
  exists m. split; [done|]. split; [done|]. split; [|by destruct Ht].
  intros Hne. apply Hmc. intros E'. apply Hne. pose proof (header_type p' i) as H1. rewrite Hh, header_type in H1. congruence.
Qed.

(** C18: Switch and controller together.  A frame to a learned address that no entry of the
    switch matches goes up as a packet-in; the learning switch answers with a flow mod; the
    switch then sends that very frame out of the learned port, and from then on every frame
    with the same header on that port, without asking again. *)
Theorem learning_loop `{AppCodec} PIPE_BUF sock_send def choice l cl id i ls c t dst w
    now (p p' : ethernet) data in_port n port sent (s : Switch (option (list bytes))) :
  (* the switch *)
  sw_chan s = Some sent -> 0 <= sw_xids s < 2 ^ 31 -> 0 <= sw_xid_count s <= MAX_XID -> u16 in_port ->
  zlen (sw_buffer s) < 2 ^ 31 -> table_wf (sw_table s) -> frame_ok p ->
  entry_for_packet p in_port (sw_table s) = Ok None -> ethernet_pack p = (Ok data, p') ->
  18 + zlen data < 2 ^ 16 -> 0 <= n < OFPP_MAX -> sw_ports s !! n = Some port ->
  (* the controller *)
  w_cons w !! id = Some c -> con_connect_time c = Some t -> con_disconnected c = false ->
  takes_all sock_send id -> w_sending w = false -> 0 <= w_xids w < 2 ^ 31 ->
  only_switch id i ls (l2_switches (w_app w)) ->
  (* the packet *)
  match_type p <> 0x8035 -> eth_dst p = HwEth dst -> hw_raw (eth_src p) <> eth_value dst ->
  eth_type p <> LLDP_TYPE -> ~ 0x0180C2000000 <= mac dst <= 0x0180C200000F -> Z.testbit (mac dst) 40 = false ->
  ls_macToPort ls !! eth_value dst = Some n -> n <> in_port ->
  exists s1 d pin w2 b fm s2,
    (r ← alloc p; process_packet switch_send now r in_port) s = (Ok tt, s1) /\
    sw_chan s1 = Some (sent ++ [d]) /\ frame d OFPT_PACKET_IN (MPacketIn pin) /\
    of_handle PIPE_BUF sock_send (l2_listener PIPE_BUF sock_send) def choice l cl id
      OFPT_PACKET_IN (MPacketIn pin) w = (Ok tt, w2) /\
    con_out (the_con id w2) = con_out c ++ b /\ frame b OFPT_FLOW_MOD (MFlowMod fm) /\
    switch_handle now OFPT_FLOW_MOD (MFlowMod fm) s1 = (Ok tt, s2) /\
    sw_out s2 = sw_out s ++ [(p', port)] /\ sw_chan s2 = sw_chan s1 /\
    forall q q' data' now', eth_addrs q -> packet_header q (Some in_port) = packet_header p (Some in_port) ->
      ethernet_pack q = (Ok data', q') ->
      exists s3, (r ← alloc q; process_packet switch_send now' r in_port) s2 = (Ok tt, s3) /\
        sw_out s3 = sw_out s2 ++ [(q', port)] /\ sw_chan s3 = sw_chan s2.
Proof.
  intros Hch Hx Hxc Hin Hbuf Ht Hfr He Hpk Hlen Hn Hport Hid Hct Hup Htake Hs Hxw Hsw Hrarp Hdst Hsrc
    Hll Hbf Hmc40 Hknown Hne.
  destruct (parsed_back p data p' (w_ps w) (Some in_port) Hfr Hpk)
    as (Hp & [ps' Hnew] & Hpp & Hhd & Hdst' & Hsrc' & Hty' & m & Em & Hmw & Hmc & Hd6).
  rewrite <-Hty' in Hll. rewrite <-Hdst' in Hdst. rewrite <-Hsrc' in Hsrc. specialize (Hmc Hrarp).
  rewrite Hdst in Hd6. set (packet := p') in Hnew, Hpp, Hhd, Em, Hll, Hdst, Hsrc.
  destruct (miss_announced now p p' data in_port sent s) as (k & buf & d & E1 & Hk & Hkb & _ & Fd); [done..|].
  set (s1 := missed p p' buf (sent ++ [d]) s) in *. cbv zeta in Fd.
  set (pin := PacketIn _ in_port (Z.of_nat k + 1) OFPR_NO_MATCH data _) in Fd.
  destruct (packet_in_decision PIPE_BUF sock_send def choice l cl id i ls c t pin packet ps' m dst w)
    as (w2 & E2 & _ & _ & _ & Hr); [done..| |done| |].
  { right. cbn. lia. }
  { intros n' Hn'. assert (n' = n) as -> by congruence. unfold OFPP_MAX in Hn. lia. }
  cbn [pi_in_port pi_buffer_id pin] in Hr. rewrite lookup_insert_ne, Hknown in Hr by done.
  rewrite (proj2 (Z.eqb_neq (Z.of_nat k + 1) _)) in Hr by lia. unfold verdict in Hr.
  rewrite (proj2 (Z.eqb_neq (eth_type packet) _)), bool_decide_false, andb_false_r, Hmc40,
    (proj2 (Z.eqb_neq n _)) in Hr by done.
  destruct Hr as (b & h & Hc' & Fb). set (fm := FlowMod h _ _ _ _ _ _ _ _ _ _) in Fb.
  destruct (own_flow_accepts packet m in_port Hpp Em Hmw Hmc) as [Hdl Hsem]. rewrite Hhd in Hsem.
  destruct (added_found fm now (sw_table s) p in_port Ht Hdl) as (t' & E3 & Ht' & Hfound); [done..|].
  assert (exists ml, fm_actions fm = [AOutput (ActOutput OFPAT_OUTPUT 8 (Some n) ml)]) as [ml Hacts].
  { cbn. destruct (oz_eqb _ _); by eexists. }
  set (s1' := set_flow_table t' s1).
  assert (sw_heap s1' !! length (sw_heap s) = Some p') as Hr' by by apply list_lookup_middle.
  pose proof (release_from_buffer switch_send k _ p' in_port n port ml s1' Hk Hr' (proj2 Hn) Hport) as E4.
  eexists s1, d, pin, w2, b, fm, _. split; [exact E1|]. split; [done|]. split; [exact Fd|]. split; [exact E2|].
  split; [by rewrite Hc'|]. split; [exact Fb|]. split.
  { unfold switch_handle, handler, receive_flow_mod. rewrite bind_get. change (sw_table s1) with (sw_table s).
    erewrite bind_ok by (unfold lift; rewrite E3; reflexivity). cbv beta iota. rewrite bind_put. fold s1'.
    change (fm_buffer_id fm) with (Z.of_nat k + 1). rewrite (proj2 (Z.ltb_lt _ _)) by lia.
    rewrite Hacts. exact E4. }
  split; [done|]. split; [done|]. intros q q' data' now' Hq Hhq Hpq.
  set (s2 := set_buffer _ _).
  destruct (hit_sent switch_send now' q q' data' in_port (from_flow_mod (ft_next (sw_table s)) fm now) n port ml s2)
    as (s3 & E5 & Ho & Hc & _); [|done|exact Hacts|apply Hn|exact Hport|by exists s3].
  change (sw_table s2) with t'. by rewrite (same_header_entry p q).
Qed.

(** * Examples *)

(** Ports 1 and 2; the station 00-00-00-00-00-02 has been seen on port 2. *)
Definition ex_mac (n : Z) : EthAddr := MkEth (be_enc 6 n).
Definition ex_ls : LearningSwitch := MkLearningSwitch 1 false (<[be_enc 6 2 := 2]> ∅).
Definition ex_l2_con : Con := MkCon true [] (Some 9) None false (Some 0) [] [] [] 0 [].
Definition ex_l2_world : World l2_learning :=
  MkWorld (<[1 := ex_l2_con]> ∅) 1 (<[Some 9 := 1]> ∅) false ∅ 100000000000 7 (PState 0 (fun _ => 0)) [] (L2 false [ex_ls]) [].
Lemma ex_only : only_switch 1 0 ex_ls (l2_switches (w_app ex_l2_world)).
Proof. split; [done|]. exists [], []. by repeat split. Qed.

(** A frame for the station 3, which is unknown. *)
Definition ex_stranger : bytes := byte_of_Z <$> ([0;0;0;0;0;3] ++ [0;0;0;0;0;1] ++ [0x12;0x34] ++ [1;2;3]).
Definition ex_pin : ofp_packet_in := PacketIn (Hdr OFP_VERSION OFPT_PACKET_IN 18 (Some 1)) 1 5 OFPR_NO_MATCH ex_stranger 17.
Definition ex_l2_listener := l2_listener (H := no_apps) 512 ex_socket.
Lemma packet_in_decided_witness :
  exists packet w', (@ethernet_new no_apps ex_stranger (PState 0 (fun _ => 0))).1 = Ok packet /\
    of_handle 512 ex_socket ex_l2_listener NexusObject (fun _ => NexusNone) None true 1 OFPT_PACKET_IN (MPacketIn ex_pin)
      ex_l2_world = (Ok tt, w') /\
    ls_macToPort (the_switch 0 w') !! be_enc 6 1 = Some 1 /\
    exists b h, con_out (the_con 1 w') = b /\ frame b OFPT_PACKET_OUT
      (MPacketOut (PacketOut h 5 1 (action_settle <$> [action_output OFPP_FLOOD]) [])).
Proof.
  eexists. 
  edestruct (@packet_in_decided no_apps 512 ex_socket NexusObject (fun _ => NexusNone) None true 1 0%nat ex_ls ex_l2_con 0
    ex_pin) as (w' & E & Ha & _ & _ & Hr).
  8: vm_compute; reflexivity. 8: vm_compute; reflexivity. 8: reflexivity. 7: exact ex_only.
  { reflexivity. } { reflexivity. } { reflexivity. } { exact (fun _ _ => eq_refl). } { reflexivity. } { by vm_compute. }
  { by right. } { by vm_compute. } { intros p Hp. vm_compute in Hp. discriminate Hp. }
  exists w'. split; [vm_compute; reflexivity|]. split; [exact E|]. split.
  { unfold the_switch. rewrite Ha. vm_compute. reflexivity. }
  destruct Hr as (b & h & Hc & F). exists b, h. split; [by rewrite Hc|exact F].
Defined.

Lemma table_is_last_port_witness :
  let p n := (Ethernet (HwEth (ex_mac 2)) (HwEth (ex_mac n)) 0x1234 (PBytes []) true) in
  let pin n := PacketIn (Hdr OFP_VERSION OFPT_PACKET_IN 18 (Some 1)) n (-1) OFPR_NO_MATCH [] 0 in
  let l := [(p 1, pin 1); (p 3, pin 4); (p 1, pin 2)] in
  let w' := foldl (fun w q => (handle_packet 512 ex_socket 0 q.1 q.2 w).2) ex_l2_world l in
  exists s', l2_switches (w_app w') !! 0%nat = Some s' /\ ls_macToPort s' !! be_enc 6 1 = Some 2.
Proof.
  intros p pin l w'.
  destruct (@table_is_last_port 512 ex_socket 0%nat ex_ls l ex_l2_world (be_enc 6 1) eq_refl) as (s' & E & _ & H).
  exists s'. split; [exact E|]. rewrite H. vm_compute. reflexivity.
Defined.

(** A frame from port 1 to the station 2, for which the flow table has nothing. *)
Definition ex_known : ethernet :=
  Ethernet (HwEth (ex_mac 2)) (HwEth (ex_mac 1)) 0x1234 (PBytes [x01; x02]) true.
Lemma ex_known_ok : frame_ok ex_known.
Proof.
  split; [split; by vm_compute|]. split; [split; by vm_compute|]. split; [by vm_compute|]. split; [done|].
  apply frame_other; [done|]. unfold parsed_types. cbn. rewrite !not_elem_of_cons. split_and!; try done. apply not_elem_of_nil.
Qed.
Definition ex_known_bytes : bytes := byte_of_Z <$> ([0;0;0;0;0;2] ++ [0;0;0;0;0;1] ++ [0x12;0x34] ++ [1;2]).
Lemma learning_loop_witness :
  exists s1 d pin w2 b fm s2,
    (r ← alloc ex_known; process_packet (H := no_apps) switch_send 5 r 1) (ex_switch (Some [])) = (Ok tt, s1) /\
    sw_chan s1 = Some [d] /\ frame d OFPT_PACKET_IN (MPacketIn pin) /\
    of_handle 512 ex_socket ex_l2_listener NexusObject (fun _ => NexusNone) None true 1 OFPT_PACKET_IN (MPacketIn pin)
      ex_l2_world = (Ok tt, w2) /\ con_out (the_con 1 w2) = b /\ frame b OFPT_FLOW_MOD (MFlowMod fm) /\
    switch_handle (H := no_apps) 5 OFPT_FLOW_MOD (MFlowMod fm) s1 = (Ok tt, s2) /\ length (sw_out s2) = 1%nat.
Proof.
  destruct (@learning_loop no_apps 512 ex_socket NexusObject (fun _ => NexusNone) None true 1 0%nat ex_ls ex_l2_con 0
    (ex_mac 2) ex_l2_world 5 ex_known ex_known ex_known_bytes 1 2 (PhyPort 2 (HwEth (MkEth (replicate 6 x02))) [] 0 0 0 0 0 0)
    [] (ex_switch (Some []))) as (s1 & d & pin & w2 & b & fm & s2 & E1 & Hc & F1 & E2 & Ho & F2 & E3 & Hout & _).
  19: exact ex_only. 6: by repeat split; constructor. 6: exact ex_known_ok.
  25: { exists s1, d, pin, w2, b, fm, s2. split; [exact E1|]. split; [exact Hc|]. split; [exact F1|]. split; [exact E2|].
    split; [exact Ho|]. split; [exact F2|]. split; [exact E3|]. rewrite Hout. reflexivity. }
  14: exact (fun _ _ => eq_refl).
  all: try reflexivity.
  all: first [by vm_compute|vm_compute; congruence|vm_compute; intuition congruence].
Defined.
