(* ===== verification/Discovery.v ===== *)
(** [openflow/discovery.py]: link discovery.  [LLDPSender] keeps a probe for every port of
    every switch and sends them in turn; [Discovery] reads the probes that other switches
    send up, and keeps the links they travelled over with the time each was last seen.  The
    component is a listener of the nexus; it raises [LinkEvent], whose listeners are a
    parameter. *)
From S2P Require Import Prelude.
From S2P Require Import Addresses.
From S2P Require Import OfConst.
From S2P Require Import PyStruct.
From S2P Require Import Wire.
From S2P Require Import OfBase.
From S2P Require Import OfMatch.
From S2P Require Import OfActions.
From S2P Require Import OfMessages.
From S2P Require Import Packets.
From S2P Require Import PacketCodec.
From S2P Require Import Lldp.
From S2P Require Import SoftSwitch.
From S2P Require Import Controller.

(** Seconds are on a clock of nanoseconds. *)
Definition LLDP_TTL : Z := 120.
Definition LINK_TIMEOUT : Z := 10 * 10 ^ 9.
Definition NDP_MULTICAST : hwaddr := HwEth (MkEth [x01; x23; x20; x00; x00; x01]).

(** [Discovery.Link].  A datapath id is None before the features reply and after a failed
    handshake. *)
Record Link := MkLink { dpid1 : option Z; port1 : Z; dpid2 : option Z; port2 : Z }.
#[export] Instance Link_eq_dec : EqDecision Link.
Proof. solve_decision. Defined.
#[export, refine] Instance Link_countable : Countable Link :=
  inj_countable' (fun l => (dpid1 l, port1 l, dpid2 l, port2 l)) (fun '(a, b, c, d) => MkLink a b c d) _.
Proof. by intros []. Defined.

(** [LinkEvent.portForDPID]. *)
Definition portForDPID (l : Link) (dpid : option Z) : option Z :=
  if bool_decide (dpid1 l = dpid) then Some (port1 l)
  else if bool_decide (dpid2 l = dpid) then Some (port2 l)
  else None.

(** * The state *)

Record SendItem := MkSendItem { si_dpid : option Z; si_port : Z; si_packet : bytes }.

(** [LLDPSender] and [Discovery] in one record.  [d_timer]: when the
    sender's timer is set, the number that the five seconds of [LLDP_SEND_CYCLE] are divided by for its period.  [d_rest] is what the other applications keep. *)
Record Disc (B : Type) := MkDisc {
  d_explicit_drop : bool;
  d_install_flow : bool;
  d_dps : gset (option Z);
  d_adjacency : gmap Link Z;
  d_packets : list SendItem;
  d_timer : option Z;
  d_rest : B
}.
Arguments MkDisc {B}. Arguments d_explicit_drop {B}. Arguments d_install_flow {B}. Arguments d_dps {B}.
Arguments d_adjacency {B}. Arguments d_packets {B}. Arguments d_timer {B}. Arguments d_rest {B}.

Section setters.
Context {B : Type}.
Implicit Type d : Disc B.
Definition Discovery_init (explicit_drop install_flow : bool) (rest : B) : Disc B :=
  MkDisc explicit_drop install_flow ∅ ∅ [] None rest.
Definition set_dps v d := MkDisc (d_explicit_drop d) (d_install_flow d) v (d_adjacency d) (d_packets d) (d_timer d) (d_rest d).
Definition set_adjacency v d := MkDisc (d_explicit_drop d) (d_install_flow d) (d_dps d) v (d_packets d) (d_timer d) (d_rest d).
Definition set_sender p t d := MkDisc (d_explicit_drop d) (d_install_flow d) (d_dps d) (d_adjacency d) p t (d_rest d).
Definition set_rest (v : B) d := MkDisc (d_explicit_drop d) (d_install_flow d) (d_dps d) (d_adjacency d) (d_packets d) (d_timer d) v.
End setters.

(** * Probes *)

(** [hex(long(dpid))[2:-1]]: without the [0x] and the [L] - and, of a negative number,
    without the sign. *)
Definition long_hex (z : Z) : bytes :=
  (if z <? 0 then [x78] else []) ++ hex_digits (S (Z.to_nat (Z.log2 (Z.abs z)))) (Z.abs z).
Definition dpid_text (dpid : option Z) : res bytes :=
  match dpid with Some d => Ok (lit "dpid:" ++ long_hex d) | None => Err TypeError end.

(** [create_discovery_packet]. *)
Definition discovery_tlvs (text : bytes) (portNum : Z) : list tlv :=
  [chassis_id_fill SUB_LOCAL text; port_id_fill SUB_PORT (str_int portNum); ttl_fill LLDP_TTL;
   basic_tlv_fill (Some SYSTEM_DESC_TLV) text; end_tlv_init].
Definition discovery_frame (dpid : option Z) (portNum : Z) (portAddr : hwaddr) : res bytes :=
  text ← dpid_text dpid;
  rest ← lldp_pack (Lldp (discovery_tlvs text portNum) false);
  h ← ethernet_hdr (Ethernet NDP_MULTICAST portAddr LLDP_TYPE (eth_next ethernet_init) false);
  Ok (h ++ rest).
Definition discovery_packet_out (portNum : Z) (data : bytes) : ofp_packet_out :=
  PacketOut (po_hdr ofp_packet_out_init) (po_buffer_id ofp_packet_out_init) (po_in_port ofp_packet_out_init)
    [action_output portNum] data.

(** ** What a probe says *)

Definition starts_dpid (s : bytes) : bool := bool_decide (slice s 0 5 = lit "dpid:").

(** The first line that gives a number. *)
Fixpoint dpid_line (lines : list bytes) : option Z :=
  match lines with
  | [] => None
  | line :: lines =>
      if starts_dpid line then
        match py_int 16 (slice_from line 5) with Ok d => Some d | Err _ => dpid_line lines end
      else dpid_line lines
  end.
Definition text_dpid (next : bytes) : option Z :=
  match dpid_line (split_byte x0a next) with
  | Some d => Some d
  | None =>
      if zlen next =? 8 then match struct_unpack "!Q" next with Ok [d] => Some d | _ => None end
      else None
  end.
(** [lookInSysDesc]: the first system description decides. *)
Fixpoint lookInSysDesc (tlvs : list tlv) : option Z :=
  match tlvs with
  | [] => None
  | BasicTlv (Some type) _ next :: tlvs => if type =? SYSTEM_DESC_TLV then text_dpid next else lookInSysDesc tlvs
  | _ :: tlvs => lookInSysDesc tlvs
  end.

(** The chassis id: of the local kind it is never read, because a string has no method
    [tostring] and the exception is caught. *)
Definition chassis_dpid (t : tlv) : res (option Z) :=
  match t with
  | ChassisId _ subtype id =>
      '_ ← (if subtype =? SUB_LOCAL then match id with Some _ => Ok tt | None => Err AttributeError end else Ok tt);
      if subtype =? SUB_MAC then
        match id with
        | Some id =>
            if zlen id =? 6 then
              match struct_unpack "!Q" ([x00; x00] ++ id) with Ok [d] => Ok (Some d) | _ => Ok None end
            else Ok None
        | None => Err TypeError
        end
      else Ok None
  | _ => Err AttributeError
  end.

Definition isdigit (s : bytes) : bool :=
  negb (zlen s =? 0) && forallb (fun c => (48 <=? Z_of_byte c) && (Z_of_byte c <=? 57)) s.

(** [originatorPort]; the outer None is a return. *)
Definition originator_port (t : tlv) : res (option Z) :=
  match t with
  | PortId subtype (Some id) =>
      if negb (subtype =? SUB_PORT) then Ok None
      else if isdigit id then p ← py_int 10 id; Ok (Some p)
      else if zlen id =? 2 then match struct_unpack "!H" id with Ok [p] => Ok (Some p) | _ => Ok None end
      else Ok None
  | _ => Err AttributeError
  end.

(** The data of a probe, as far as they do not depend on the state: the switch it says it is
    from; the port is looked at later. *)
Definition originator_dpid (tlvs : list tlv) : res (option Z) :=
  match lookInSysDesc (drop 3 tlvs) with
  | Some d => Ok (Some d)
  | None => match tlvs with c :: _ => chassis_dpid c | [] => Err IndexError end
  end.

Definition probe_shape (tlvs : list tlv) : bool :=
  match tlvs with
  | c :: p :: t :: _ => bool_decide (tlv_type c = Some CHASSIS_ID_TLV) && bool_decide (tlv_type p = Some PORT_ID_TLV)
      && bool_decide (tlv_type t = Some TTL_TLV)
  | _ => false
  end.

(** [not x] of an attribute [next]. *)
Definition truthy (p : payload) : res bool :=
  match p with
  | PMissing => Err AttributeError
  | PNone => Ok false
  | PBytes b => Ok (negb (zlen b =? 0))
  | PPacket parsed _ _ => attr_parsed parsed
  end.

(** [dpidToStr], of [lib/util.py]: the formatting of a datapath id, which raises for some. *)
Definition dpidToStr (dpid : option Z) : res bytes :=
  match dpid with
  | None => Err TypeError
  | Some d =>
      s ← struct_pack "!Q" [d];
      let r := join (lit "-") ((fun c => fmt_02x (Z_of_byte c)) <$> slice_from s 2) in
      if bool_decide (slice s 0 2 = [x00; x00]) then Ok r
      else tuple [n] ← struct_unpack "!H" (slice s 0 2); Ok (r ++ lit "|" ++ str_int n)
  end.

(** * The component *)

Section discovery.
Context {B : Type}.
Abbreviation World := (Controller.World (Disc B)).
Implicit Type w : World.
Variable others : AppCodec.
#[local] Instance discovery_codec : AppCodec := lldp_codec others.
Variable PIPE_BUF : Z.
Variable sock_send : Z -> nat -> bytes -> send_result.
(** What hears a [ConnectionDown] that sending raises. *)
Variable nested : source -> Z -> event -> M World unit.
(** The listeners of [LinkEvent]. *)
Variable on_link : bool -> Link -> M World unit.

Definition modify_disc (f : Disc B -> Disc B) : M World unit := modify (fun w => w_set_app (f (w_app w)) w).
Definition get_disc : M World (Disc B) := w ← get; mret (w_app w).

(** ** The sender *)

Definition setTimer : M World unit :=
  modify_disc (fun d => set_sender (d_packets d)
    (if (length (d_packets d) =? 0)%nat then None else Some (zlen (d_packets d))) d).

Definition keep_packets (keep : SendItem -> bool) : M World unit :=
  modify_disc (fun d => set_sender (List.filter keep (d_packets d)) (d_timer d) d).

Definition create_discovery_packet (dpid : option Z) (portNum : Z) (portAddr : hwaddr) : M World bytes :=
  data ← lift (discovery_frame dpid portNum portAddr);
  '(_, s) ← run_pack (ofp_packet_out_pack true) (discovery_packet_out portNum data);
  mret s.
Definition append_probe (dpid : option Z) (portNum : Z) (portAddr : hwaddr) : M World unit :=
  s ← create_discovery_packet dpid portNum portAddr;
  modify_disc (fun d => set_sender (d_packets d ++ [MkSendItem dpid portNum s]) (d_timer d) d).

Fixpoint add_ports (dpid : option Z) (ports : list (Z * hwaddr)) : M World unit :=
  match ports with
  | [] => mret tt
  | (portNum, portAddr) :: ports =>
      if OFPP_MAX <? portNum then add_ports dpid ports
      else '_ ← append_probe dpid portNum portAddr; add_ports dpid ports
  end.
Definition addSwitch (dpid : option Z) (ports : list (Z * hwaddr)) : M World unit :=
  '_ ← keep_packets (fun p => negb (bool_decide (si_dpid p = dpid)));
  '_ ← add_ports dpid ports;
  setTimer.
Definition delSwitch (dpid : option Z) : M World unit :=
  '_ ← keep_packets (fun p => negb (bool_decide (si_dpid p = dpid))); setTimer.
Definition delPort (dpid : option Z) (portNum : Z) : M World unit :=
  '_ ← keep_packets (fun p => negb (bool_decide (si_dpid p = dpid)) || negb (si_port p =? portNum)); setTimer.
Definition addPort (dpid : option Z) (portNum : Z) (portAddr : hwaddr) : M World unit :=
  if OFPP_MAX <? portNum then mret tt
  else
    '_ ← delPort dpid portNum;
    '_ ← append_probe dpid portNum portAddr;
    setTimer.

Definition timerHandler : M World unit :=
  d ← get_disc;
  match d_packets d with
  | [] => raise IndexError
  | item :: packets =>
      '_ ← modify_disc (fun d => set_sender (packets ++ [item]) (d_timer d) d);
      '_ ← sendToDPID PIPE_BUF sock_send nested (si_dpid item) (si_packet item);
      mret tt
  end.

(** ** The links *)

Fixpoint deleteLinks (links : list Link) : M World unit :=
  match links with
  | [] => mret tt
  | link :: links =>
      d ← get_disc;
      match d_adjacency d !! link with
      | None => raise KeyError
      | Some _ =>
          '_ ← modify_disc (fun d => set_adjacency (delete link (d_adjacency d)) d);
          '_ ← on_link false link;
          deleteLinks links
      end
  end.

Definition isSwitchOnlyPort (adjacency : gmap Link Z) (dpid : option Z) (port : Z) : bool :=
  existsb (fun l => bool_decide (dpid1 l = dpid /\ port1 l = port) || bool_decide (dpid2 l = dpid /\ port2 l = port))
    (map_to_list adjacency).*1.

(** The links that are due, in order; formatting one for the log can raise. *)
Fixpoint due_links (now : Z) (l : list (Link * Z)) : res (list Link) :=
  match l with
  | [] => Ok []
  | (link, timestamp) :: l =>
      if LINK_TIMEOUT <? now - timestamp then
        '_ ← dpidToStr (dpid1 link);
        '_ ← dpidToStr (dpid2 link);
        r ← due_links now l; Ok (link :: r)
      else due_links now l
  end.
Definition expireLinks : M World unit :=
  w ← get;
  deleteme ← lift (due_links (w_now w) (map_to_list (d_adjacency (w_app w))));
  deleteLinks deleteme.

(** ** The handlers *)

Definition handle_ConnectionUp (con : Z) (ofp : ofp_features_reply) : M World unit :=
  w ← get;
  let dpid := con_dpid (the_con con w) in
  let d := w_app w in
  if bool_decide (dpid ∈ d_dps d) then raise AssertionError
  else
    '_ ← (if d_install_flow d then
            '_ ← lift (dpidToStr dpid);
            let m := set_dl Dl_dst (Some NDP_MULTICAST) (set_int Dl_type (Some LLDP_TYPE) ofp_match_init) in
            '_ ← con_send PIPE_BUF sock_send nested con (ofp_flow_mod_pack true)
                   (flow_mod m 0 0 (fm_buffer_id ofp_flow_mod_init) [action_output OFPP_CONTROLLER]);
            mret tt
          else mret tt);
    '_ ← modify_disc (fun d => set_dps ({[dpid]} ∪ d_dps d) d);
    addSwitch dpid (map (fun p => (pp_port_no p, pp_hw_addr p)) (fy_ports ofp)).

Definition handle_ConnectionDown (con : Z) : M World unit :=
  w ← get;
  let dpid := con_dpid (the_con con w) in
  if negb (bool_decide (dpid ∈ d_dps (w_app w))) then raise AssertionError
  else
    '_ ← modify_disc (fun d => set_dps (d_dps d ∖ {[dpid]}) d);
    '_ ← delSwitch dpid;
    d ← get_disc;
    deleteLinks (List.filter (fun l => bool_decide (dpid1 l = dpid) || bool_decide (dpid2 l = dpid))
                   (map_to_list (d_adjacency d)).*1).

Definition handle_PortStatus (con : Z) (ofp : ofp_port_status) : M World unit :=
  w ← get;
  let dpid := con_dpid (the_con con w) in
  let e := PortStatus_attrs ofp in
  if pc_port e <=? OFPP_MAX then
    if pc_added e then addPort dpid (pc_port e) (pp_hw_addr (pst_desc ofp))
    else if pc_deleted e then delPort dpid (pc_port e)
    else mret tt
  else mret tt.

(** The end of [_handle_PacketIn], for a probe from [d] out of [p]. *)
Definition link_seen (d p : Z) (dpid : option Z) (port : Z) : M World bool :=
  if bool_decide ((dpid, port) = (Some d, p)) then mret false
  else
    w ← get;
    let link := MkLink (Some d) p dpid port in
    match d_adjacency (w_app w) !! link with
    | None =>
        '_ ← modify_disc (fun s => set_adjacency (<[link := w_now w]> (d_adjacency s)) s);
        '_ ← lift (dpidToStr (dpid1 link));
        '_ ← lift (dpidToStr (dpid2 link));
        '_ ← ignore_errors (on_link true link);
        mret true
    | Some _ =>
        '_ ← modify_disc (fun s => set_adjacency (<[link := w_now w]> (d_adjacency s)) s);
        mret true
    end.

(** What it makes of the TLVs. *)
Definition handle_tlvs (tlvs : list tlv) (dpid : option Z) (port : Z) : M World bool :=
  if negb (probe_shape tlvs) then mret false
  else
    o ← lift (originator_dpid tlvs);
    match o with
    | None => mret false
    | Some d =>
        s ← get_disc;
        if negb (bool_decide (Some d ∈ d_dps s)) then mret false
        else
          o ← lift (match tlvs with _ :: t :: _ => originator_port t | _ => Err IndexError end);
          match o with
          | None => mret false
          | Some p => link_seen d p dpid port
          end
    end.

(** [_handle_PacketIn]; true when it returns [EventHalt]. *)
Definition handle_PacketIn (con : Z) (ofp : ofp_packet_in) : M World bool :=
  w ← get;
  let dpid := con_dpid (the_con con w) in
  packet ← zoom w_ps w_set_ps (ethernet_new (pi_data ofp));
  if negb (eth_type packet =? LLDP_TYPE) then mret false
  else if negb (bool_decide (eth_dst packet = NDP_MULTICAST)) then mret false
  else
    t ← lift (truthy (eth_next packet));
    if negb t then mret false
    else
      match eth_next packet with
      | PPacket _ (LApp C_lldp raw) _ =>
          w ← get;
          '_ ← (if d_explicit_drop (w_app w) && negb (pi_buffer_id ofp =? -1) then
                  '_ ← con_send PIPE_BUF sock_send nested con (ofp_packet_out_pack true)
                         (packet_out (pi_buffer_id ofp) (pi_in_port ofp) []);
                  mret tt
                else mret tt);
          lldph ← lift (lldp_new raw);
          handle_tlvs (lldp_tlvs lldph) dpid (pi_in_port ofp)
      | _ => raise AssertionError
      end.

(** The listener on the nexus. *)
Definition discovery_listener (src : source) (con : Z) (e : event) : M World unit :=
  match src, e with
  | Nexus, EvConnectionUp ofp => handle_ConnectionUp con ofp
  | Nexus, EvConnectionDown => handle_ConnectionDown con
  | Nexus, EvPortStatus ofp => handle_PortStatus con ofp
  | Nexus, EvPacketIn ofp => '_ ← handle_PacketIn con ofp; mret tt
  | _, _ => mret tt
  end.
End discovery.
