(* ===== verification/DiscoveryTheory.v ===== *)
(** Discovery end to end: the probe that [LLDPSender] makes for a port is read by
    [Discovery] on another switch as the link it travelled over; what disconnecting and
    expiry do to the links; and that the sender's queue goes round. *)
From S2P Require Import Prelude.
From S2P Require Import Steps.
From S2P Require Import PyStruct.
From S2P Require Import Addresses.
From S2P Require Import OfConst.
From S2P Require Import Wire.
From S2P Require Import OfBase.
From S2P Require Import OfMatch.
From S2P Require Import OfActions.
From S2P Require Import OfMessages.
From S2P Require Import Packets.
From S2P Require Import PacketCodec.
From S2P Require Import PacketTheory.
From S2P Require Import PacketRoundtrip.
From S2P Require Import Lldp.
From S2P Require Import LldpTheory.
From S2P Require Import SoftSwitch.
From S2P Require Import Controller.
From S2P Require Import Discovery.

(** * Numerals *)

(** Digits in a base up to 16. *)
Definition plain (base : Z) (c : Byte.byte) : bool :=
  match digit_val c with Some d => d <? base | None => false end.

Definition plain_facts (c : Byte.byte) : bool :=
  implb (plain 16 c) (negb (is_space c) && bool_decide (c <> x2d) && bool_decide (c <> x2b) &&
    bool_decide (c <> x78) && bool_decide (c <> x58) && bool_decide (c <> x0a)).
Lemma plain_facts_all c : plain_facts c = true.
Proof. revert c. apply byte_forall. vm_compute. done. Qed.

Section numerals.
Context (base : Z) (digit : Z -> Byte.byte) (digits : nat -> Z -> bytes).
Hypothesis Hbase : 2 <= base <= 16.
Hypothesis digits_S : forall fuel z, digits (S fuel) z = (if z <? base then [] else digits fuel (z / base)) ++ [digit (z mod base)].
Hypothesis digit_ok : forall d, 0 <= d < base -> digit_val (digit d) = Some d.

Lemma digits_val_app acc s c : digits_val base acc (s ++ [c]) = (v ← digits_val base acc s; digits_val base v [c]).
Proof.
  revert acc; induction s as [|x s IH]; intros acc; [done|]. cbn [app digits_val].
  destruct (digit_val x) as [d|]; [|done]. destruct (d <? base); [|done]. apply IH.
Qed.

Lemma digits_spec fuel z : 0 <= z < 2 ^ Z.of_nat (S fuel) ->
  digits_val base 0 (digits (S fuel) z) = Ok z /\ Forall (fun c => plain base c) (digits (S fuel) z) /\
  1 <= zlen (digits (S fuel) z) <= Z.of_nat (S fuel).
Proof.
  revert z; induction fuel as [|fuel IH]; intros z Hz; rewrite digits_S; pose proof (Z.mod_pos_bound z base) as Hm.
  - assert (z < base) by (change (2 ^ Z.of_nat 1) with 2 in Hz; lia). rewrite (proj2 (Z.ltb_lt _ _)) by done.
    rewrite Z.mod_small by lia. cbn [app digits_val]. rewrite digit_ok, (proj2 (Z.ltb_lt _ _)) by lia.
    split; [by rewrite Z.mul_0_l|]. split; [|by vm_compute]. apply Forall_singleton. unfold plain. rewrite digit_ok by lia.
    apply Is_true_true, Z.ltb_lt. lia.
  - assert (plain base (digit (z mod base))) as Hp.
    { unfold plain. rewrite digit_ok by lia. apply Is_true_true, Z.ltb_lt. lia. }
    destruct (Z.ltb_spec z base) as [Hs|Hs].
    + rewrite Z.mod_small by lia. cbn [app digits_val]. rewrite digit_ok, (proj2 (Z.ltb_lt _ _)) by lia.
      split; [by rewrite Z.mul_0_l|]. rewrite Z.mod_small in Hp by lia. split; [by apply Forall_singleton|].
      change (zlen [_]) with 1. lia.
    + assert (0 <= z / base < 2 ^ Z.of_nat (S fuel)) as Hq.
      { split; [apply Z.div_pos; lia|]. apply Z.div_lt_upper_bound; [lia|].
        rewrite (Nat2Z.inj_succ (S fuel)), Z.pow_succ_r in Hz by lia. nia. }
      destruct (IH _ Hq) as (Hv & HF & Hl). rewrite digits_val_app, Hv. cbn [mbind res_bind digits_val].
      rewrite digit_ok, (proj2 (Z.ltb_lt _ _)) by lia. split; [f_equal; rewrite (Z.mul_comm (z / base)), <-Z.div_mod by lia; done|].
      split; [apply Forall_app; split; [done|by apply Forall_singleton]|]. rewrite zlen_app. change (zlen [_]) with 1. lia.
Qed.

Lemma numeral_spec z : 0 <= z -> let s := digits (S (Z.to_nat (Z.log2 (Z.abs z)))) (Z.abs z) in
  digits_val base 0 s = Ok z /\ Forall (fun c => plain base c) s /\ 1 <= zlen s <= Z.log2 z + 1.
Proof.
  intros Hz. rewrite Z.abs_eq by done. pose proof (Z.log2_nonneg z).
  destruct (digits_spec (Z.to_nat (Z.log2 z)) z) as (Hv & HF & Hl).
  - rewrite Nat2Z.inj_succ, Z2Nat.id by lia. destruct (decide (z = 0)) as [->|]; [by vm_compute|].
    split; [done|]. by apply Z.log2_spec; lia.
  - split; [done|]. split; [done|]. lia.
Qed.
End numerals.

Lemma plain_spec base c : base <= 16 -> plain base c ->
  is_space c = false /\ c <> x2d /\ c <> x2b /\ c <> x78 /\ c <> x58 /\ c <> x0a.
Proof.
  intros Hb Hc. assert (plain 16 c) as H16.
  { unfold plain in *. destruct (digit_val c) as [d|]; [|done]. apply Is_true_true, Z.ltb_lt.
    apply Is_true_true, Z.ltb_lt in Hc. lia. }
  pose proof (Is_true_true_2 _ (plain_facts_all c)) as Hf. unfold plain_facts in Hf. apply Is_true_true in H16. rewrite H16 in Hf. cbn [implb] in Hf.
  rewrite !andb_True in Hf. destruct Hf as [[[[[Hf H1] H2] H3] H4] H5]. apply negb_True, Is_true_false in Hf.
  apply bool_decide_unpack in H1, H2, H3, H4, H5. done.
Qed.

(** [int] of a numeral: there is nothing to strip, no sign and no prefix. *)
Lemma py_int_plain base s : base <= 16 -> s <> [] -> Forall (fun c => plain base c) s -> py_int base s = digits_val base 0 s.
Proof.
  intros Hb Hne Hs. assert (forall s, Forall (fun c => plain base c) s -> lstrip s = s) as Hl.
  { intros s' [|c s'' Hc _]; [done|]. cbn [lstrip]. by rewrite (proj1 (plain_spec base c Hb Hc)). }
  unfold py_int, strip. rewrite (Hl s Hs), (Hl (rev s)), rev_involutive by by apply Forall_rev.
  destruct Hs as [|c s Hc Hs]; [done|]. destruct (plain_spec base c Hb Hc) as (_ & H1 & H2 & _).
  unfold split_sign. rewrite !decide_False by done.
  assert (drop_0x base (c :: s) = c :: s) as ->.
  { destruct Hs as [|d s Hd Hs]; [done|]. destruct (plain_spec base d Hb Hd) as (_ & _ & _ & H3 & H4 & _).
    unfold drop_0x. destruct s; [done|]. rewrite !(bool_decide_false (d = _)) by done. cbn [orb]. by rewrite andb_false_r. }
  destruct (digits_val base 0 (c :: s)) as [v|]; [|done]. cbn [mbind res_bind]. by rewrite Z.mul_1_l.
Qed.

Lemma hex_digit_ok d : 0 <= d < 16 -> digit_val (hex_digit d) = Some d.
Proof.
  intros Hd. assert (forallb (fun d => bool_decide (digit_val (hex_digit d) = Some d)) (seqZ 0 16)) as H by by vm_compute.
  rewrite forallb_True, Forall_forall in H. eapply bool_decide_unpack, H, elem_of_seqZ. lia.
Qed.
Lemma dec_digit_ok d : 0 <= d < 10 -> digit_val (byte_of_Z (48 + d)) = Some d.
Proof.
  intros Hd. assert (forallb (fun d => bool_decide (digit_val (byte_of_Z (48 + d)) = Some d)) (seqZ 0 10)) as H by by vm_compute.
  rewrite forallb_True, Forall_forall in H. eapply bool_decide_unpack, H, elem_of_seqZ. lia.
Qed.

Lemma long_hex_spec z : 0 <= z -> py_int 16 (long_hex z) = Ok z /\ Forall (fun c => plain 16 c) (long_hex z) /\
  1 <= zlen (long_hex z) <= Z.log2 z + 1.
Proof.
  intros Hz. unfold long_hex. rewrite (proj2 (Z.ltb_ge _ _)) by done. cbn [app].
  destruct (numeral_spec 16 hex_digit hex_digits) with (z := z) as (Hv & HF & Hl); [done..|apply hex_digit_ok|done|].
  split; [|done]. rewrite py_int_plain; [done|done| |done]. intros E. rewrite E in Hl. change (zlen []) with 0 in Hl. lia.
Qed.

Lemma str_int_spec z : 0 <= z -> py_int 10 (str_int z) = Ok z /\ isdigit (str_int z) /\
  1 <= zlen (str_int z) <= Z.log2 z + 1.
Proof.
  intros Hz. unfold str_int. rewrite (proj2 (Z.ltb_ge _ _)) by done. cbn [app].
  destruct (numeral_spec 10 (fun d => byte_of_Z (48 + d)) dec_digits) with (z := z) as (Hv & HF & Hl);
    [done..|apply dec_digit_ok|done|].
  split; [|split; [|done]].
  - rewrite py_int_plain; [done|done| |done]. intros E. rewrite E in Hl. change (zlen []) with 0 in Hl. lia.
  - unfold isdigit. rewrite (proj2 (Z.eqb_neq _ _)) by lia. cbn [negb andb]. apply forallb_True.
    eapply Forall_impl; [exact HF|]. intros c. unfold plain, digit_val. cbv zeta.
    destruct ((48 <=? Z_of_byte c) && (Z_of_byte c <=? 57)); [done|].
    destruct ((97 <=? _) && _) eqn:E1; [apply andb_true_iff in E1 as [?%Z.leb_le ?%Z.leb_le]|];
      [intros Hc%Is_true_true%Z.ltb_lt; lia|].
    destruct ((65 <=? _) && _) eqn:E2; [apply andb_true_iff in E2 as [?%Z.leb_le ?%Z.leb_le]|done].
    intros Hc%Is_true_true%Z.ltb_lt; lia.
Qed.

(** * Probes *)

Lemma split_byte_none c s : c ∉ s -> split_byte c s = [s].
Proof.
  induction s as [|x s IH]; intros Hc; [done|]. cbn [split_byte]. apply not_elem_of_cons in Hc as [Hx Hs].
  rewrite decide_False by congruence. by rewrite IH.
Qed.

Section probe.
Context (d p : Z).
Hypothesis Hd : 0 <= d < 2 ^ 64.
Hypothesis Hp : 0 <= p <= OFPP_MAX.
Let text : bytes := lit "dpid:" ++ long_hex d.

Lemma log2_word z k : 0 <= z < 2 ^ k -> 0 <= k -> Z.log2 z <= k.
Proof.
  intros Hz Hk. destruct (decide (z = 0)) as [->|]; [done|]. apply Z.lt_le_incl, Z.log2_lt_pow2; lia.
Qed.

Lemma probe_text : 6 <= zlen text <= 70 /\ text_dpid text = Some d.
Proof.
  destruct (long_hex_spec d) as (Hv & HF & Hl); [lia|]. pose proof (log2_word d 64 Hd ltac:(lia)).
  unfold text. rewrite zlen_app. change (zlen (lit "dpid:")) with 5. split; [lia|].
  unfold text_dpid. rewrite split_byte_none.
  - cbn [dpid_line]. unfold starts_dpid. rewrite slice_hit, bool_decide_true, slice_from_app by done. by rewrite Hv.
  - intros [H0|H0]%elem_of_app; [by apply (bool_decide_unpack (x0a ∉ lit "dpid:")) in H0; [|vm_compute]|].
    rewrite Forall_forall in HF. apply HF in H0. by apply (plain_spec 16) in H0 as (_ & _ & _ & _ & _ & []).
Qed.

Lemma probe_tlvs_ok : Forall tlv_ok (discovery_tlvs text p).
Proof.
  pose proof probe_text as [Ht _]. assert (p < 2 ^ 16) by (unfold OFPP_MAX in Hp; lia).
  destruct (str_int_spec p) as (_ & _ & Hl); [lia|]. pose proof (log2_word p 16 ltac:(lia) ltac:(lia)).
  unfold discovery_tlvs, chassis_id_fill, port_id_fill, ttl_fill, basic_tlv_fill, end_tlv_init.
  repeat (apply Forall_cons; split); [| | | |done|by apply Forall_nil]; cbn [tlv_ok].
  - split; [done|]. split; [lia|by vm_compute].
  - split; [lia|by vm_compute].
  - split; [done|by vm_compute].
  - split; [done|]. split; [lia|]. left. do 2 right. left.
Qed.

Lemma Forall4 {A} (P : A -> Prop) a b c d' l : Forall P (a :: b :: c :: d' :: l) -> P a /\ P b /\ P c /\ P d' /\ Forall P l.
Proof. by rewrite !Forall_cons. Qed.

Lemma probe_read others addr : hw_wf addr -> exists raw data,
  discovery_frame (Some d) p addr = Ok data /\ zlen data <= 2600 /\
  lldp_new raw = Ok (Lldp (discovery_tlvs text p) true) /\
  forall st, @ethernet_new (lldp_codec others) data st =
    (Ok (Ethernet NDP_MULTICAST addr LLDP_TYPE (PPacket (Some true) (LApp C_lldp raw) PNone) true), st).
Proof.
  intros Ha. pose proof probe_tlvs_ok as Hok. pose proof Hok as (O1 & O2 & O3 & O4 & _)%Forall4.
  destruct (lldp_survives (chassis_id_fill SUB_LOCAL text) (port_id_fill SUB_PORT (str_int p)) (ttl_fill LLDP_TTL)
    [basic_tlv_fill (Some SYSTEM_DESC_TLV) text] false) as (raw & Ep & En); [done..|by apply Forall_singleton|].
  change (lldp_pack (Lldp (discovery_tlvs text p) false) = Ok raw) in Ep.
  destruct (@ethernet_read (lldp_codec others) NDP_MULTICAST addr LLDP_TYPE) as (h & Lh & Eh & Hread); [done|done|by vm_compute|].
  exists raw, (h ++ raw). unfold discovery_frame, dpid_text. cbn [mbind res_bind]. fold text. rewrite Ep. cbn [mbind res_bind].
  rewrite Eh. split; [done|]. split; [|split; [exact En|]].
  - destruct (pack_tlvs_long _ raw Hok Ep) as [_ Hl]. change (zlen (discovery_tlvs text p)) with 5 in Hl. rewrite zlen_app. lia.
  - intros st. rewrite Hread. change (LLDP_TYPE =? 0x8100) with false. cbv iota.
    change (@type_parser (lldp_codec others) LLDP_TYPE) with (Some (fun raw => lift (S:=pstate) (@app_new (lldp_codec others) C_lldp raw))).
    cbv iota beta.
    unfold app_new. cbn [app_parsed lldp_codec]. rewrite En. done.
Qed.
End probe.

(** ** Making one *)

Section handling.
Context {B : Type} (others : AppCodec) (PIPE_BUF : Z) (sock_send : Z -> nat -> bytes -> send_result).
Abbreviation World := (Controller.World (Disc B)).
Implicit Type w : World.
Context (nested : source -> Z -> event -> M World unit) (on_link : bool -> Link -> M World unit).

Lemma discovery_packet_out_wf p data : 0 <= p <= OFPP_MAX -> zlen data <= 2600 -> msg_wf (discovery_packet_out p data).
Proof.
  intros Hp Hl. assert (u16 p) as Hp16 by (unfold OFPP_MAX in Hp; lia). pose proof (zlen_nonneg data).
  cbn [msg_wf ofp_packet_out_msg discovery_packet_out po_hdr po_actions po_data po_buffer_id po_in_port].
  change (len_list 16 [action_output p]) with 24. split; [|split; [by left|split; [by left|split; [by vm_compute|]]]].
  - unfold hdr_wf. cbn. unfold OFP_VERSION, OFPT_PACKET_OUT. split; [lia|]. split; [lia|]. by split; [lia|].
  - apply Forall_singleton. cbn. split; [done|]. split; [done|]. split; [by exists p|]. by vm_compute.
Qed.

(** The packet out that carries the frame. *)
Lemma create_spec dpid p addr data w : 0 <= p <= OFPP_MAX -> zlen data <= 2600 -> 0 <= w_xids w < 2 ^ 31 ->
  discovery_frame dpid p addr = Ok data -> exists s x' h,
  create_discovery_packet (B:=B) dpid p addr w = (Ok s, w_set_xids x' w) /\ 0 <= x' < 2 ^ 31 /\
  forall y rest, ofp_packet_out_unpack y (s ++ rest) =
    Ok (PacketOut h (-1) OFPP_NONE [action_settle (action_output p)] data, rest).
Proof.
  intros Hp Hl Hx E. pose proof (msg_roundtrip (discovery_packet_out p data) (w_xids w)
    (discovery_packet_out_wf p data Hp Hl) Hx) as HR.
  destruct (hdr_settle _ _) as [h x'] eqn:Eh. destruct HR as (s & Ep & _ & U). exists s, x', h.
  unfold create_discovery_packet. rewrite E. split; [|split; [|exact U]].
  - erewrite bind_ok by reflexivity. unfold run_pack, zoom.
    assert ((( '(m, s) ← ofp_packet_out_pack true (discovery_packet_out p data);
       match s with Some s => mret (m, s) | None => raise TypeError end) : M Z (ofp_packet_out * bytes)) (w_xids w) =
      (Ok (with_hdr h (mready (discovery_packet_out p data)), s), x')) as Er by (by erewrite bind_ok by exact Ep).
    erewrite bind_ok; [|rewrite Er; reflexivity]. done.
  - unfold hdr_settle in Eh. cbn in Eh. injection Eh as _ <-. by apply Z.mod_pos_bound.
Qed.

(** ** Reading it *)

(** The datapath ids that can be formatted. *)
Definition printable (dpid : option Z) : Prop := exists s, dpidToStr dpid = Ok s.
Lemma printable_word d : 0 <= d < 2 ^ 64 -> printable (Some d).
Proof.
  intros Hd. unfold printable, dpidToStr. destruct (struct_pack_ok "!Q" [d]) as (s & E & L); [cbn; lia|].
  change (struct_calcsize _) with 8 in L. rewrite E. cbn [mbind res_bind].
  case_bool_decide; [by eexists|]. assert (length (slice s 0 2) = 2%nat) as L2.
  { unfold slice, py_index. cbn [Z.ltb Z.compare]. unfold zlen in L. rewrite length_take, length_drop. lia. }
  destruct (slice s 0 2) as [|a [|b [|]]]; try done. by eexists.
Qed.

(** What becomes of a probe from port [p] of switch [d] that comes in on [port] of [dpid]. *)
Definition probe_result (d p : Z) (dpid : option Z) (port : Z) w : res bool * World :=
  if bool_decide (Some d ∈ d_dps (w_app w)) && negb (bool_decide ((dpid, port) = (Some d, p))) then
    let link := MkLink (Some d) p dpid port in
    let w' := w_set_app (set_adjacency (<[link := w_now w]> (d_adjacency (w_app w))) (w_app w)) w in
    (Ok true, if bool_decide (is_Some (d_adjacency (w_app w) !! link)) then w' else (on_link true link w').2)
  else (Ok false, w).

Lemma handle_probe_tlvs d p dpid port w : 0 <= d < 2 ^ 64 -> 0 <= p <= OFPP_MAX -> printable dpid ->
  handle_tlvs on_link (discovery_tlvs (lit "dpid:" ++ long_hex d) p) dpid port w = probe_result d p dpid port w.
Proof.
  intros Hd Hp Hs. unfold handle_tlvs, probe_result.
  change (probe_shape (discovery_tlvs ?t ?p)) with true. cbn [negb].
  assert (originator_dpid (discovery_tlvs (lit "dpid:" ++ long_hex d) p) = Ok (Some d)) as ->.
  { unfold originator_dpid. destruct (probe_text d Hd) as [_ Ht].
    change (lookInSysDesc (drop 3 (discovery_tlvs ?t p))) with (text_dpid t). by rewrite Ht. }
  erewrite bind_ok by reflexivity. cbv iota. unfold get_disc. erewrite bind_ok by reflexivity.
  destruct (bool_decide (Some d ∈ _)); [|done]. cbn [negb andb].
  destruct (str_int_spec p) as (Hv & Hdig & _); [lia|].
  assert (originator_port (port_id_fill SUB_PORT (str_int p)) = Ok (Some p)) as Hport.
  { unfold originator_port, port_id_fill. cbn [Z.eqb Pos.eqb negb SUB_PORT]. apply Is_true_true in Hdig. by rewrite Hdig, Hv. }
  cbn [discovery_tlvs]. rewrite Hport. erewrite bind_ok by reflexivity. cbv iota. unfold link_seen.
  destruct (bool_decide ((dpid, port) = _)); [done|]. cbn [negb]. rewrite bind_get.
  destruct (printable_word d Hd) as [sd Hs']. destruct Hs as [ss Hs].
  destruct (d_adjacency (w_app w) !! _) eqn:El.
  - rewrite bool_decide_true by done. by erewrite bind_ok by reflexivity.
  - rewrite bool_decide_false by (by intros [? ?]). erewrite bind_ok by reflexivity.
    cbn [dpid1 dpid2]. rewrite Hs', Hs. erewrite bind_ok by reflexivity. erewrite bind_ok by reflexivity. done.
Qed.

(** C5: Discovery, end to end.  The probe that the sender makes for port [p] of switch [d] is
    a packet out that unpacks to its frame and an output to that port; and when that frame
    comes in on a port of another connection, of switch [e] - parsed by the Ethernet and LLDP
    parsers - [_handle_PacketIn] sees the link from [d]'s port to [e]'s: it adds it with the
    time and raises [LinkEvent] when it is new, updates its time when it is not, and ignores
    the probe when [d] is not connected or the port is the one it came from.  (The packet-in has no buffer, or
    [_explicit_drop] is off: otherwise the buffered packet is released first.) *)
Theorem probe_discovers d p addr w0 : 0 <= d < 2 ^ 64 -> 0 <= p <= OFPP_MAX -> hw_wf addr -> 0 <= w_xids w0 < 2 ^ 31 ->
  exists s x' h data, create_discovery_packet (Some d) p addr w0 = (Ok s, w_set_xids x' w0) /\
    (forall y rest, ofp_packet_out_unpack y (s ++ rest) =
      Ok (PacketOut h (-1) OFPP_NONE [action_settle (action_output p)] data, rest)) /\
    forall id m e w, pi_data m = data -> con_dpid (the_con id w) = Some e -> 0 <= e < 2 ^ 64 ->
      d_explicit_drop (w_app w) = false \/ pi_buffer_id m = -1 ->
      handle_PacketIn others PIPE_BUF sock_send nested on_link id m w = probe_result d p (Some e) (pi_in_port m) w.
Proof.
  intros Hd Hp Ha Hx. destruct (probe_read d p Hd Hp others addr Ha) as (raw & data & Ef & Hl & En & Eth).
  destruct (create_spec (Some d) p addr data w0 Hp Hl Hx Ef) as (s & x' & h & Ec & _ & U).
  exists s, x', h, data. split; [done|]. split; [done|]. intros id m e w <- Hdp He Hdrop.
  unfold handle_PacketIn. rewrite bind_get, Hdp.
  erewrite bind_ok by (unfold zoom; rewrite Eth; reflexivity).
  cbn [eth_type eth_dst eth_next]. rewrite Z.eqb_refl, bool_decide_true by done. cbn [negb].
  erewrite bind_ok by reflexivity. cbn [negb]. rewrite bind_get.
  assert (w_set_ps (w_ps w) w = w) as -> by by destruct w.
  assert (d_explicit_drop (w_app w) && negb (pi_buffer_id m =? -1) = false) as ->
    by (destruct Hdrop as [->| ->]; [done|by rewrite andb_false_r]).
  erewrite bind_ok by reflexivity. rewrite En. erewrite bind_ok by reflexivity. cbn [lldp_tlvs].
  apply handle_probe_tlvs; [done..|]. by apply printable_word.
Qed.
End handling.

(** * Links that go *)

Section links.
Context {B : Type} (on_link : bool -> Link -> M (Controller.World (Disc B)) unit).
Implicit Type w : Controller.World (Disc B).

(** A listener of [LinkEvent] that raises nothing and leaves discovery alone. *)
Definition keeps_links : Prop := forall added l w, exists w', on_link added l w = (Ok tt, w') /\
  d_adjacency (w_app w') = d_adjacency (w_app w) /\ d_dps (w_app w') = d_dps (w_app w) /\
  d_packets (w_app w') = d_packets (w_app w).

Lemma deleteLinks_spec links w : keeps_links -> NoDup links ->
  (forall l, l ∈ links -> is_Some (d_adjacency (w_app w) !! l)) ->
  exists w', deleteLinks on_link links w = (Ok tt, w') /\
    (forall l, d_adjacency (w_app w') !! l = if decide (l ∈ links) then None else d_adjacency (w_app w) !! l) /\
    d_dps (w_app w') = d_dps (w_app w) /\ d_packets (w_app w') = d_packets (w_app w).
Proof.
  intros Hk Hnd; revert w; induction Hnd as [|l links Hl _ IH]; intros w Hin.
  { exists w. split; [done|]. split; [|done]. intros l. by rewrite decide_False by apply not_elem_of_nil. }
  cbn [deleteLinks]. unfold get_disc. erewrite bind_ok by reflexivity.
  destruct (Hin l) as [t El]; [by left|]. rewrite El. erewrite bind_ok by reflexivity.
  match goal with |- context [(on_link false l ≫= _) ?w1] => set (w1' := w1) end.
  destruct (Hk false l w1') as (w2 & Eo & A2 & D2 & P2). erewrite bind_ok by exact Eo.
  destruct (IH w2) as (w3 & E3 & A3 & D3 & P3).
  - intros l' Hl'. rewrite A2. unfold w1'. cbn. rewrite lookup_delete_ne by (intros ->; done). apply Hin. by right.
  - exists w3. split; [exact E3|]. split; [|split; [by rewrite D3, D2|by rewrite P3, P2]]. intros l'. rewrite A3, A2. unfold w1'. cbn.
    destruct (decide (l' = l)) as [->|Hne].
    + rewrite lookup_delete_eq. rewrite (decide_True (P := l ∈ l :: links)) by left. by destruct (decide _).
    + rewrite lookup_delete_ne by done. apply decide_ext. rewrite elem_of_cons. tauto.
Qed.

Lemma filter_links (f : Link -> bool) (m : gmap Link Z) :
  NoDup (List.filter f (map_to_list m).*1) /\
  forall l, l ∈ List.filter f (map_to_list m).*1 <-> is_Some (m !! l) /\ f l = true.
Proof.
  split.
  - apply NoDup_ListNoDup, List.NoDup_filter, NoDup_ListNoDup, NoDup_fst_map_to_list.
  - intros l. rewrite list_elem_of_In, filter_In, <-list_elem_of_In, list_elem_of_fmap. split.
    + intros [([l' t] & -> & H%elem_of_map_to_list) Hf]. split; [by exists t|done].
    + intros [[t H] Hf]. split; [|done]. exists (l, t). split; [done|]. by apply elem_of_map_to_list.
Qed.

Lemma down_spec id w : keeps_links -> let dpid := con_dpid (the_con id w) in dpid ∈ d_dps (w_app w) ->
  exists w', handle_ConnectionDown on_link id w = (Ok tt, w') /\
    d_dps (w_app w') = d_dps (w_app w) ∖ {[dpid]} /\
    d_packets (w_app w') = List.filter (fun p => negb (bool_decide (si_dpid p = dpid))) (d_packets (w_app w)) /\
    forall l, d_adjacency (w_app w') !! l =
      if decide (dpid1 l = dpid \/ dpid2 l = dpid) then None else d_adjacency (w_app w) !! l.
Proof.
  intros Hk dpid Hin. unfold handle_ConnectionDown. rewrite bind_get, bool_decide_true by done. cbn [negb]. fold dpid.
  erewrite bind_ok by reflexivity. erewrite bind_ok by reflexivity. unfold get_disc. erewrite bind_ok by reflexivity.
  match goal with |- context [deleteLinks _ _ ?w1] => set (w1' := w1) end.
  change (d_adjacency (w_app w1')) with (d_adjacency (w_app w)).
  set (f := fun l => bool_decide (dpid1 l = dpid) || bool_decide (dpid2 l = dpid)).
  destruct (filter_links f (d_adjacency (w_app w))) as [Hnd Hf].
  destruct (deleteLinks_spec _ w1' Hk Hnd) as (w2 & E & A & D & P); [by intros l [? _]%Hf|].
  exists w2. split; [exact E|]. split; [by rewrite D|]. split; [by rewrite P|]. intros l. rewrite A.
  change (d_adjacency (w_app w1')) with (d_adjacency (w_app w)).
  assert (f l = true <-> dpid1 l = dpid \/ dpid2 l = dpid) as Hfl by (unfold f; by rewrite orb_true_iff, !bool_decide_eq_true).
  destruct (decide (l ∈ _)) as [Hl|Hl]; destruct (decide (dpid1 l = dpid \/ dpid2 l = dpid)) as [Hd|Hd]; [done| | |done].
  - apply Hf in Hl as [_ Hl]. tauto.
  - destruct (d_adjacency (w_app w) !! l) eqn:El; [|done]. exfalso. apply Hl, Hf. split; [by rewrite El|tauto].
Qed.

Lemma NoDup_fst_filter {A C} (f : A * C -> bool) (l : list (A * C)) : NoDup l.*1 -> NoDup (List.filter f l).*1.
Proof.
  induction l as [|x l IH]; [done|]. cbn [List.filter fmap list_fmap]. intros [Hx Hl]%NoDup_cons.
  destruct (f x); [|by apply IH]. apply NoDup_cons. split; [|by apply IH]. intros Hin. apply Hx.
  apply list_elem_of_fmap in Hin as (y & -> & Hy). apply list_elem_of_In, filter_In in Hy as [Hy _].
  apply list_elem_of_fmap. exists y. split; [done|]. by apply list_elem_of_In.
Qed.

Lemma due_links_spec now l : Forall (fun lt => printable (dpid1 lt.1) /\ printable (dpid2 lt.1)) l ->
  due_links now l = Ok (List.filter (fun lt => LINK_TIMEOUT <? now - lt.2) l).*1.
Proof.
  induction 1 as [|[link t] l [[s1 H1] [s2 H2]] _ IH]; [done|]. cbn [due_links List.filter snd fst] in *.
  destruct (LINK_TIMEOUT <? now - t); [|done]. rewrite H1, H2. cbn [mbind res_bind]. by rewrite IH.
Qed.

(** [_expireLinks] removes exactly the links that were last seen more than
    [LINK_TIMEOUT] ago, and keeps the others with their times - when every listener of
    [LinkEvent] returns and leaves discovery alone, and every datapath id can be formatted. *)
Theorem expiry_exact w : keeps_links ->
  (forall l, is_Some (d_adjacency (w_app w) !! l) -> printable (dpid1 l) /\ printable (dpid2 l)) ->
  exists w', expireLinks on_link w = (Ok tt, w') /\
    (forall l, d_adjacency (w_app w') !! l =
      (t ← d_adjacency (w_app w) !! l; if LINK_TIMEOUT <? w_now w - t then None else Some t)) /\
    d_dps (w_app w') = d_dps (w_app w) /\ d_packets (w_app w') = d_packets (w_app w).
Proof.
  intros Hk Hp. unfold expireLinks. rewrite bind_get. rewrite due_links_spec.
  2: { apply Forall_forall. intros [l t] H%elem_of_map_to_list. apply Hp. by exists t. }
  erewrite bind_ok by reflexivity.
  set (m := d_adjacency (w_app w)). set (due := (List.filter _ _).*1).
  assert (forall l, l ∈ due <-> exists t, m !! l = Some t /\ (LINK_TIMEOUT <? w_now w - t) = true) as Hdue.
  { intros l. unfold due. rewrite list_elem_of_fmap. split.
    - intros ([l' t] & -> & H). apply list_elem_of_In, filter_In in H as [H Ht].
      apply list_elem_of_In, elem_of_map_to_list in H. by exists t.
    - intros (t & H & Ht). exists (l, t). split; [done|]. apply list_elem_of_In, filter_In. split; [|done].
      by apply list_elem_of_In, elem_of_map_to_list. }
  destruct (deleteLinks_spec due w Hk) as (w' & E & A & D & P).
  - apply NoDup_fst_filter, NoDup_fst_map_to_list.
  - intros l (t & H & _)%Hdue. by exists t.
  - exists w'. split; [exact E|]. split; [|done]. intros l. rewrite A. fold m.
    destruct (decide (l ∈ due)) as [(t & H & Ht)%Hdue|Hl]; [by rewrite H; cbn; rewrite Ht|].
    destruct (m !! l) as [t|] eqn:El; [|done]. cbn. destruct (LINK_TIMEOUT <? w_now w - t) eqn:Et; [|done].
    exfalso. apply Hl, Hdue. by exists t.
Qed.

End links.

(** A switch [d] that connects again while discovery still knows its old connection is
    lost to discovery.  Its second [ConnectionUp] fails an assertion and changes nothing; the
    [ConnectionDown] of the old connection then forgets the switch, its probes and its links
    - and from then on every probe of it that comes in anywhere is ignored, although it is
    connected. *)
Theorem reconnect_loses_switch {B} others PIPE_BUF sock_send (nested : source -> Z -> event -> M (Controller.World (Disc B)) unit)
    on_link id1 id2 ofp w d : keeps_links on_link -> d ∈ d_dps (w_app w) ->
  con_dpid (the_con id1 w) = d -> con_dpid (the_con id2 w) = d ->
  let up := discovery_listener others PIPE_BUF sock_send nested on_link Nexus id2 (EvConnectionUp ofp) w in
  up = (Err AssertionError, w) /\
  exists w', discovery_listener others PIPE_BUF sock_send nested on_link Nexus id1 EvConnectionDown w = (Ok tt, w') /\
    d ∉ d_dps (w_app w') /\ Forall (fun p => si_dpid p <> d) (d_packets (w_app w')) /\
    (forall l, is_Some (d_adjacency (w_app w') !! l) -> dpid1 l <> d /\ dpid2 l <> d) /\
    forall tlvs dpid port w'', d_dps (w_app w'') = d_dps (w_app w') -> originator_dpid tlvs = Ok d ->
      handle_tlvs on_link tlvs dpid port w'' = (Ok false, w'').
Proof.
  intros Hk Hd E1 E2 up. split.
  { unfold up. cbn [discovery_listener]. unfold handle_ConnectionUp. rewrite bind_get, E2. by rewrite bool_decide_true. }
  cbn [discovery_listener]. destruct (down_spec on_link id1 w Hk) as (w' & E & D & P & A); [by rewrite E1|].
  rewrite E1 in *. exists w'. split; [done|]. split; [rewrite D; set_solver|]. split; [|split].
  - rewrite P. apply Forall_forall. intros x Hx. apply list_elem_of_In, filter_In in Hx as [_ Hx].
    apply negb_true_iff in Hx. by apply bool_decide_eq_false in Hx.
  - intros l. rewrite A. destruct (decide _) as [|Hn]; [by intros [? ?]|]. tauto.
  - intros tlvs dpid port w'' D' Ho. unfold handle_tlvs. destruct (probe_shape tlvs); [|done]. cbn [negb]. rewrite Ho.
    erewrite bind_ok by reflexivity. destruct d as [d|]; [|done]. unfold get_disc. erewrite bind_ok by reflexivity.
    rewrite bool_decide_false by (rewrite D', D; set_solver). done.
Qed.

(** * The theorems on an example *)

(** Switches 1 and 2, on connections 1 and 2; the listener counts. *)
Definition ex_con (dpid : Z) : Con := con_set_dpid (Some dpid) Con_fresh.
Definition ex_link : Link := MkLink (Some 1) 3 (Some 2) 4.
Definition ex_old_link : Link := MkLink (Some 2) 4 (Some 1) 3.
Definition ex_disc : Disc nat :=
  MkDisc false true {[Some 1; Some 2]} {[ex_link := 95 * 10 ^ 9; ex_old_link := 80 * 10 ^ 9]} [] None 0%nat.
Definition ex_world : Controller.World (Disc nat) :=
  MkWorld {[1 := ex_con 1; 2 := ex_con 2; 3 := ex_con 1]} 4 {[Some 1 := 1; Some 2 := 2]} false ∅ (100 * 10 ^ 9) 7
    (PState 0 (fun _ => 0)) [] ex_disc [].
Definition ex_on_link (_ : bool) (_ : Link) : M (Controller.World (Disc nat)) unit :=
  modify_disc (fun d => set_rest (S (d_rest d)) d).
Definition ex_nested (_ : source) (_ : Z) (_ : event) : M (Controller.World (Disc nat)) unit := mret tt.
Definition ex_socket (_ : Z) (_ : nat) (data : bytes) : send_result := Sent (zlen data).
Lemma ex_keeps : keeps_links ex_on_link.
Proof. intros b l w. eexists. split; [reflexivity|]. by repeat split. Qed.

Lemma probe_discovers_witness : exists s x' h data,
  create_discovery_packet (Some 1) 3 (HwEth (MkEth (replicate 6 x01))) ex_world = (Ok s, w_set_xids x' ex_world) /\
  ofp_packet_out_unpack ofp_packet_out_init (s ++ []) =
    Ok (PacketOut h (-1) OFPP_NONE [action_settle (action_output 3)] data, []) /\
  handle_PacketIn no_apps 10 ex_socket ex_nested ex_on_link 2
    (PacketIn (pi_hdr ofp_packet_in_init) 5 (-1) 0 data 0) ex_world =
  probe_result ex_on_link 1 3 (Some 2) 5 ex_world.
Proof.
  destruct (probe_discovers no_apps 10 ex_socket ex_nested ex_on_link 1 3 (HwEth (MkEth (replicate 6 x01))) ex_world)
    as (s & x' & h & data & E & U & H); [lia|unfold OFPP_MAX; lia|by vm_compute|by vm_compute|].
  exists s, x', h, data. split; [exact E|]. split; [apply U|].
  apply (H 2 (PacketIn (pi_hdr ofp_packet_in_init) 5 (-1) 0 data 0) 2 ex_world);
    [reflexivity|by vm_compute|lia|by left].
Defined.

Lemma expiry_exact_witness : exists w', expireLinks ex_on_link ex_world = (Ok tt, w') /\
  d_adjacency (w_app w') !! ex_link = Some (95 * 10 ^ 9) /\ d_adjacency (w_app w') !! ex_old_link = None.
Proof.
  destruct (expiry_exact ex_on_link ex_world) as (w' & E & A & _).
  - exact ex_keeps.
  - intros l [t H]. cbn in H. apply lookup_insert_Some in H as [[<- _]|[_ H]]; [split; by apply printable_word|].
    apply lookup_singleton_Some in H as [<- _]. split; by apply printable_word.
  - exists w'. split; [exact E|]. rewrite !A. split; vm_compute; reflexivity.
Defined.

Lemma reconnect_loses_switch_witness :
  discovery_listener no_apps 10 ex_socket ex_nested ex_on_link Nexus 3 (EvConnectionUp (ofp_features_reply_init 1 0 0 0 0 [])) ex_world =
    (Err AssertionError, ex_world) /\
  exists w', discovery_listener no_apps 10 ex_socket ex_nested ex_on_link Nexus 1 EvConnectionDown ex_world = (Ok tt, w') /\
    Some 1 ∉ d_dps (w_app w').
Proof.
  destruct (reconnect_loses_switch no_apps 10 ex_socket ex_nested ex_on_link 1 3 (ofp_features_reply_init 1 0 0 0 0 []) ex_world (Some 1))
    as (E & w' & E' & D & _); [exact ex_keeps|by vm_compute|by vm_compute|by vm_compute|].
  split; [exact E|]. exists w'. split; [exact E'|exact D].
Defined.
