(* ===== verification/SpanningTree.v ===== *)
(** [openflow/spanning_tree.py]: a spanning tree of the switches that discovery found, and
    the ports that may flood.  A listener of discovery's [LinkEvent]. *)
From stdpp Require Import sorting.
From S2P Require Import Prelude.
From S2P Require Import OfConst.
From S2P Require Import OfBase.
From S2P Require Import OfMessages.
From S2P Require Import PacketCodec.
From S2P Require Import SoftSwitch.
From S2P Require Import Controller.
From S2P Require Import Discovery.

Abbreviation dpid := (option Z).

(** [sorted] on datapath ids; None is smaller than any number. *)
Definition dpid_le (a b : dpid) : Prop :=
  match a, b with
  | None, _ => True
  | Some _, None => False
  | Some a, Some b => a <= b
  end.
#[export] Instance dpid_le_dec : RelDecision dpid_le.
Proof. intros [a|] [b|]; unfold Decision; cbn; solve_decision. Defined.
Definition sorted (X : gset dpid) : list dpid := merge_sort dpid_le (elements X).

(** * The adjacency *)

(** [adj[s1][s2]]: first the links from [s1] to [s2], then the port of [s1]. *)
Inductive entry := Links (l : list Link) | Port (p : Z).
Abbreviation adj_t := (gmap dpid (gmap dpid entry)).
Implicit Type adj : adj_t.

Definition adj_get adj (s1 s2 : dpid) : option entry := m ← adj !! s1; m !! s2.
Definition adj_set adj (s1 s2 : dpid) (e : entry) : adj_t := <[s1 := <[s2 := e]> (default ∅ (adj !! s1))]> adj.
Definition adj_del adj (s1 s2 : dpid) : adj_t := <[s1 := delete s2 (default ∅ (adj !! s1))]> adj.

Definition flip (l : Link) : Link := MkLink (dpid2 l) (port2 l) (dpid1 l) (port1 l).

Definition add_link adj (l : Link) : adj_t :=
  adj_set adj (dpid1 l) (dpid2 l)
    (Links (match adj_get adj (dpid1 l) (dpid2 l) with Some (Links ls) => ls ++ [l] | _ => [l] end)).
Definition all_links (links : list Link) : adj_t := foldl add_link ∅ links.
Definition all_switches (links : list Link) : gset dpid :=
  list_to_set (map dpid1 links) ∪ list_to_set (map dpid2 links).

(** ** Culling *)

Definition cull_pair (adjacency : gmap Link Z) adj (s1 s2 : dpid) : res adj_t :=
  match adj_get adj s1 s2 with
  | Some (Links ls) =>
      if bool_decide (s1 = s2) then Err AssertionError
      else match List.find (fun l => bool_decide (is_Some (adjacency !! flip l))) ls with
           | Some l => Ok (adj_set (adj_set adj s1 s2 (Port (port1 l))) s2 s1 (Port (port2 l)))
           | None => Ok (adj_del (adj_del adj s1 s2) s2 s1)
           end
  | _ => Ok adj
  end.
Fixpoint cull_pairs (adjacency : gmap Link Z) adj (pairs : list (dpid * dpid)) : res adj_t :=
  match pairs with
  | [] => Ok adj
  | (s1, s2) :: pairs => adj ← cull_pair adjacency adj s1 s2; cull_pairs adjacency adj pairs
  end.
Definition all_pairs (switches : list dpid) : list (dpid * dpid) :=
  concat (map (fun s1 => map (pair s1) switches) switches).

(** * The tree *)

Abbreviation tree_t := (gmap dpid (gset (dpid * Z))).
Implicit Type tree : tree_t.

Definition tree_add tree (v w : dpid) (p : Z) : tree_t := <[v := {[(w, p)]} ∪ default ∅ (tree !! v)]> tree.

(** A port that can go into a set: anything else that [adj] holds is a list. *)
Definition adj_port adj (v w : dpid) : res Z :=
  match adj_get adj v w with Some (Port p) => Ok p | _ => Err TypeError end.

Fixpoint grow adj (v : dpid) (neighbours : list dpid) (more : gset dpid) tree : res (gset dpid * tree_t) :=
  match neighbours with
  | [] => Ok (more, tree)
  | w :: neighbours =>
      if bool_decide (is_Some (tree !! w)) then grow adj v neighbours more tree
      else
        p ← adj_port adj v w;
        p' ← adj_port adj w v;
        grow adj v neighbours ({[w]} ∪ more) (tree_add (tree_add tree v w p) w v p')
  end.

Fixpoint tree_loop (fuel : nat) adj (q : list dpid) (done : gset dpid) tree : res tree_t :=
  match q with
  | [] => Ok tree
  | v :: q =>
      match fuel with
      | O => Err Diverge
      | S fuel =>
          if bool_decide (v ∈ done) then tree_loop fuel adj q done tree
          else
            '(more, tree) ← grow adj v (map_to_list (default ∅ (adj !! v))).*1 ∅ tree;
            tree_loop fuel adj (sorted more ++ q) ({[v]} ∪ done) tree
      end
  end.

Definition calc_spanning_tree (adjacency : gmap Link Z) : res tree_t :=
  let links := (map_to_list adjacency).*1 in
  let switches := all_switches links in
  adj ← cull_pairs adjacency (all_links links) (all_pairs (elements switches));
  tree_loop (2 * size switches) adj (sorted switches) ∅ ∅.

(** * The ports *)

(** [_prev]: whether a port floods, as far as it was told. *)
Abbreviation prev_t := (gmap dpid (gmap Z bool)).

Section handler.
Abbreviation World := (Controller.World (Disc prev_t)).
Implicit Type w : World.
Variable PIPE_BUF : Z.
Variable sock_send : Z -> nat -> bytes -> send_result.
Variable nested : source -> Z -> event -> M World unit.

Definition port_mod (p : ofp_phy_port) (flood : bool) : ofp_port_mod :=
  PortMod (pm_hdr ofp_port_mod_init) (pp_port_no p) (pp_hw_addr p) (if flood then 0 else OFPPC_NO_FLOOD)
    OFPPC_NO_FLOOD (pm_advertise ofp_port_mod_init).

Definition floods (adjacency : gmap Link Z) (sw : dpid) (ports : gset (dpid * Z)) (port : Z) : bool :=
  bool_decide (port ∈ (elements ports).*2) || negb (isSwitchOnlyPort adjacency sw port).

Definition prev_get (prev : prev_t) (sw : dpid) (port : Z) : option bool := m ← prev !! sw; m !! port.
Definition prev_set (prev : prev_t) (sw : dpid) (port : Z) (flood : bool) : prev_t :=
  <[sw := <[port := flood]> (default ∅ (prev !! sw))]> prev.

Fixpoint push_ports (sw : dpid) (ports : gset (dpid * Z)) (con : Z) (l : list ofp_phy_port) : M World unit :=
  match l with
  | [] => mret tt
  | p :: l =>
      '_ ← (if pp_port_no p <? OFPP_MAX then
              w ← get;
              let d := w_app w in
              let flood := floods (d_adjacency d) sw ports (pp_port_no p) in
              if bool_decide (prev_get (d_rest d) sw (pp_port_no p) = Some flood) then mret tt
              else
                '_ ← modify_disc (fun d => set_rest (prev_set (d_rest d) sw (pp_port_no p) flood) d);
                '_ ← con_send PIPE_BUF sock_send nested con (ofp_port_mod_pack true) (port_mod p flood);
                mret tt
            else mret tt);
      push_ports sw ports con l
  end.

Fixpoint push_tree (l : list (dpid * gset (dpid * Z))) : M World unit :=
  match l with
  | [] => mret tt
  | (sw, ports) :: l =>
      w ← get;
      '_ ← match getConnection sw w with
           | None => mret tt
           | Some con =>
               match con_features (the_con con w) with
               | None => raise AttributeError
               | Some f => push_ports sw ports con (fy_ports f)
               end
           end;
      push_tree l
  end.

(** [try: ... except: _prev.clear()]. *)
Definition or_clear (m : M World unit) : M World unit := fun w =>
  match m w with
  | (Ok _, w) => (Ok tt, w)
  | (Err _, w) => modify_disc (set_rest ∅) w
  end.

(** [_handle]. *)
Definition handle_LinkEvent (added : bool) (link : Link) : M World unit :=
  w ← get;
  tree ← lift (calc_spanning_tree (d_adjacency (w_app w)));
  or_clear (push_tree (map_to_list tree)).
End handler.

(** Discovery with the spanning tree as its listener.  [depth] bounds how deep disconnections
    can nest in the handling of others: each is of another connection. *)
Fixpoint spanning_listener (others : AppCodec) (PIPE_BUF : Z) (sock_send : Z -> nat -> bytes -> send_result) (depth : nat)
    (src : source) (con : Z) (e : event) : M (World (Disc prev_t)) unit :=
  match depth with
  | O => mret tt
  | S depth =>
      let nested := spanning_listener others PIPE_BUF sock_send depth in
      discovery_listener others PIPE_BUF sock_send nested (handle_LinkEvent PIPE_BUF sock_send nested) src con e
  end.
