(* ===== verification/SpanningTheory.v ===== *)
(** The spanning tree: for any links without loops, what [_calc_spanning_tree] computes is a
    forest of links seen in both directions that joins whatever such links join; and what a
    loop does to it. *)
From stdpp Require Import sorting.
From S2P Require Import Prelude.
From S2P Require Import Steps.
From S2P Require Import Addresses.
From S2P Require Import OfConst.
From S2P Require Import PyStruct.
From S2P Require Import Wire.
From S2P Require Import OfBase.
From S2P Require Import OfMessages.
From S2P Require Import PacketCodec.
From S2P Require Import SoftSwitch.
From S2P Require Import Connection.
From S2P Require Import Controller.
From S2P Require Import ControllerTheory.
From S2P Require Import Discovery.
From S2P Require Import SpanningTree.

Implicit Types (adj : adj_t) (tree : tree_t).

(** * Forests *)

Section forest.
Context {V : Type} `{EqDecision V}.
Implicit Types (E : relation V) (a b v w x y : V).

(** [E] without the edge between [a] and [b]. *)
Definition cut E a b : relation V := fun x y => E x y /\ ~ (x = a /\ y = b) /\ ~ (x = b /\ y = a).

(** Every edge is the only way between its ends. *)
Definition forest E : Prop := forall a b, E a b -> ~ rtc (cut E a b) a b.

Definition with_edge E v w : relation V := fun x y => E x y \/ (x = v /\ y = w) \/ (x = w /\ y = v).

(** Following a map that takes steps to steps, or to standing still. *)
Lemma rtc_map E E' (f : V -> V) x y : (forall x y, E x y -> f x = f y \/ E' (f x) (f y)) ->
  rtc E x y -> rtc E' (f x) (f y).
Proof.
  intros Hf. induction 1 as [x|x y z Hxy _ IH]; [done|]. destruct (Hf x y Hxy) as [->|?]; [done|]. by eapply rtc_l.
Qed.

(** A new leaf [w] at [v]. *)
Lemma forest_leaf E v w : forest E -> (forall x, ~ E x w /\ ~ E w x) -> v <> w -> forest (with_edge E v w).
Proof.
  intros HE Hw Hne a b Hab.
  assert (forall a b, E a b -> a <> w /\ b <> w) as Hends.
  { intros x y Hxy. split; intros ->; by apply (Hw x) in Hxy || by apply (Hw y) in Hxy. }
  assert (forall x y, (x = v /\ y = w) \/ (x = w /\ y = v) -> ~ rtc (cut (with_edge E v w) x y) v w) as Hnew.
  { intros x y Hxy Hr. apply rtc_inv_r in Hr as [?|(z & _ & Hz & H1 & H2)]; [done|].
    destruct Hz as [Hz|[[-> _]|[_ Hz]]]; [by apply (Hw z) in Hz| |by symmetry in Hz].
    destruct Hxy as [[-> ->]|[-> ->]]; tauto. }
  destruct Hab as [Hab|[[-> ->]|[-> ->]]]; [|by apply Hnew; left|].
  - intros Hr. destruct (Hends a b Hab) as [Ha Hb]. apply (HE a b Hab).
    set (f := fun x => if decide (x = w) then v else x).
    assert (f a = a /\ f b = b) as [Fa Fb] by (unfold f; by rewrite !decide_False by done).
    rewrite <-Fa, <-Fb. revert Hr. apply rtc_map. intros x y [[Hxy|[[-> ->]|[-> ->]]] Hc].
    + right. destruct (Hends x y Hxy). unfold f. rewrite !decide_False by done. by split.
    + left. unfold f. by rewrite decide_False, decide_True by done.
    + left. unfold f. by rewrite decide_True, decide_False by done.
  - intros Hr. apply rtc_inv in Hr as [?|(z & [Hz Hc] & _)]; [done|].
    destruct Hz as [Hz|[[? ->]|[_ ->]]]; [by apply (Hw z) in Hz|done|tauto].
Qed.
End forest.

(** * The adjacency *)

Lemma adj_get_set adj s1 s2 e a b :
  adj_get (adj_set adj s1 s2 e) a b = if decide ((a, b) = (s1, s2)) then Some e else adj_get adj a b.
Proof.
  unfold adj_get, adj_set. destruct (decide (a = s1)) as [->|Ha].
  - rewrite lookup_insert_eq. cbn [mbind option_bind]. destruct (decide (b = s2)) as [->|Hb].
    + by rewrite lookup_insert_eq, decide_True.
    + rewrite lookup_insert_ne, decide_False by congruence. by destruct (adj !! s1).
  - by rewrite lookup_insert_ne, decide_False by congruence.
Qed.
Lemma adj_get_del adj s1 s2 a b :
  adj_get (adj_del adj s1 s2) a b = if decide ((a, b) = (s1, s2)) then None else adj_get adj a b.
Proof.
  unfold adj_get, adj_del. destruct (decide (a = s1)) as [->|Ha].
  - rewrite lookup_insert_eq. cbn [mbind option_bind]. destruct (decide (b = s2)) as [->|Hb].
    + by rewrite lookup_delete_eq, decide_True.
    + rewrite lookup_delete_ne, decide_False by congruence. by destruct (adj !! s1).
  - by rewrite lookup_insert_ne, decide_False by congruence.
Qed.

(** The links between two switches, in order. *)
Definition between (a b : option Z) (l : Link) : bool := bool_decide (dpid1 l = a /\ dpid2 l = b).
Definition links_of (links : list Link) (a b : option Z) : list Link := List.filter (between a b) links.
Definition links_entry (ls : list Link) : option entry := match ls with [] => None | _ => Some (Links ls) end.

Lemma all_links_get links a b : adj_get (all_links links) a b = links_entry (links_of links a b).
Proof.
  unfold all_links. rewrite <-(rev_involutive links). generalize (rev links) as l. intros l.
  induction l as [|x l IH]; [done|]. cbn [rev]. rewrite foldl_app. cbn [foldl]. unfold links_of in *. rewrite List.filter_app.
  unfold add_link at 1. rewrite adj_get_set. cbn [List.filter]. unfold between at 2.
  destruct (decide ((a, b) = (dpid1 x, dpid2 x))) as [[= -> ->]|Hne].
  - rewrite bool_decide_true, IH by done. destruct (List.filter _ _) as [|y ls]; done.
  - rewrite bool_decide_false by (intros [? ?]; congruence). by rewrite app_nil_r.
Qed.

Section culling.
Context (adjacency : gmap Link Z).
Let links := (map_to_list adjacency).*1.
Hypothesis no_loops : forall l, is_Some (adjacency !! l) -> dpid1 l <> dpid2 l.

Lemma links_in l : l ∈ links <-> is_Some (adjacency !! l).
Proof.
  unfold links. rewrite list_elem_of_fmap. split.
  - intros ([l' t] & -> & H). apply elem_of_map_to_list in H. by exists t.
  - intros [t H]. exists (l, t). split; [done|]. by apply elem_of_map_to_list.
Qed.
Lemma links_of_in a b l : l ∈ links_of links a b <-> is_Some (adjacency !! l) /\ dpid1 l = a /\ dpid2 l = b.
Proof.
  unfold links_of. rewrite list_elem_of_In, filter_In, <-list_elem_of_In, links_in.
  unfold between. rewrite bool_decide_eq_true. naive_solver.
Qed.

(** Switches joined by a link that was seen in both directions, with its ports. *)
Definition bilink (a : option Z) (p : Z) (b : option Z) (q : Z) : Prop :=
  is_Some (adjacency !! MkLink a p b q) /\ is_Some (adjacency !! MkLink b q a p).
Definition joined (a b : option Z) : Prop := exists p q, bilink a p b q.
Lemma bilink_sym a p b q : bilink a p b q -> bilink b q a p.
Proof. by intros [? ?]. Qed.
Lemma joined_sym a b : joined a b -> joined b a.
Proof. intros (p & q & ?%bilink_sym). by exists q, p. Qed.

(** The adjacency when the pairs [P] have been culled. *)
Record culled (P : list (option Z * option Z)) adj : Prop := {
  cd_links a b ls : adj_get adj a b = Some (Links ls) -> ls = links_of links a b /\ ls <> [] /\ (a, b) ∉ P;
  cd_port a b p : adj_get adj a b = Some (Port p) -> exists q, adj_get adj b a = Some (Port q) /\ bilink a p b q;
  cd_joined a b : joined a b -> is_Some (adj_get adj a b)
}.

Lemma culled_start : culled [] (all_links links).
Proof.
  split; intros a b; rewrite all_links_get; unfold links_entry.
  - intros ls. destruct (links_of links a b) eqn:E; [done|]. intros [= <-]. split; [done|]. split; [done|]. apply not_elem_of_nil.
  - intros p. by destruct (links_of links a b).
  - intros (p & q & H & _). assert (MkLink a p b q ∈ links_of links a b) as Hin by by apply links_of_in.
    by destruct (links_of links a b); [apply not_elem_of_nil in Hin|].
Qed.

Lemma culled_pair P adj s1 s2 : culled P adj ->
  exists adj', cull_pair adjacency adj s1 s2 = Ok adj' /\ culled ((s1, s2) :: P) adj'.
Proof.
  intros [Hl Hp Hj]. unfold cull_pair. destruct (adj_get adj s1 s2) as [[ls|p]|] eqn:E.
  - destruct (Hl _ _ _ E) as (Els & Hne & HP).
    assert (forall l, l ∈ ls -> is_Some (adjacency !! l) /\ dpid1 l = s1 /\ dpid2 l = s2) as Hin
      by (intros l; rewrite Els; apply links_of_in).
    assert (s1 <> s2) as Hs.
    { intros <-. destruct ls as [|l ls]; [done|]. destruct (Hin l) as (H & H1 & H2); [by left|].
      by apply (no_loops l H); rewrite H1, H2. }
    rewrite bool_decide_false by done. destruct (List.find _ ls) as [l|] eqn:Ef.
    + apply find_some in Ef as [Hf Hfl]. rewrite <-list_elem_of_In in Hf. apply bool_decide_eq_true in Hfl.
      destruct (Hin l Hf) as (Hl1 & <- & <-). assert (bilink (dpid1 l) (port1 l) (dpid2 l) (port2 l)) as Hb by by destruct l.
      eexists. split; [done|]. split; intros a b; rewrite !adj_get_set.
      * intros ls'. destruct (decide _); [done|]. destruct (decide _); [done|]. intros H.
        destruct (Hl _ _ _ H) as (? & ? & ?). split; [done|]. split; [done|]. by apply not_elem_of_cons.
      * intros p. destruct (decide ((a, b) = (dpid2 l, dpid1 l))) as [[= -> ->]|].
        -- intros [= <-]. exists (port1 l). rewrite decide_False, decide_True by congruence. by split; [|apply bilink_sym].
        -- destruct (decide ((a, b) = (dpid1 l, dpid2 l))) as [[= -> ->]|].
           ++ intros [= <-]. exists (port2 l). by rewrite decide_True.
           ++ intros H. destruct (Hp _ _ _ H) as (q & Hq & ?). exists q.
              by rewrite !decide_False by congruence.
      * intros Hab. do 2 (destruct (decide _); [done|]). by apply Hj.
    + eexists. split; [done|].
      assert (~ joined s1 s2) as Hnj.
      { intros (p & q & H1 & H2). assert (MkLink s1 p s2 q ∈ ls) as Hls by (rewrite Els; by apply links_of_in).
        rewrite list_elem_of_In in Hls. apply (find_none _ _ Ef) in Hls. by apply bool_decide_eq_false in Hls. }
      split; intros a b; rewrite !adj_get_del.
      * intros ls'. do 2 (destruct (decide _); [done|]). intros H.
        destruct (Hl _ _ _ H) as (? & ? & ?). split; [done|]. split; [done|]. by apply not_elem_of_cons.
      * intros p. do 2 (destruct (decide _); [done|]). intros H. destruct (Hp _ _ _ H) as (q & Hq & Hb).
        exists q. by rewrite !decide_False by congruence.
      * intros Hab. destruct (decide ((a, b) = (s2, s1))) as [[= -> ->]|]; [by apply joined_sym in Hab|].
        destruct (decide ((a, b) = (s1, s2))) as [[= -> ->]|]; [done|]. by apply Hj.
  - exists adj. split; [done|]. split; [|done..]. intros a b ls H. destruct (Hl _ _ _ H) as (? & ? & ?).
    split; [done|]. split; [done|]. apply not_elem_of_cons. split; [|done]. congruence.
  - exists adj. split; [done|]. split; [|done..]. intros a b ls H. destruct (Hl _ _ _ H) as (? & ? & ?).
    split; [done|]. split; [done|]. apply not_elem_of_cons. split; [|done]. congruence.
Qed.

Lemma culled_pairs pairs P adj : culled P adj ->
  exists adj', cull_pairs adjacency adj pairs = Ok adj' /\ culled (rev pairs ++ P) adj'.
Proof.
  revert P adj; induction pairs as [|[s1 s2] pairs IH]; intros P adj HP; [by exists adj|]. cbn [cull_pairs].
  destruct (culled_pair P adj s1 s2 HP) as (adj1 & E & H1). rewrite E. cbn [mbind res_bind].
  destruct (IH _ _ H1) as (adj2 & E2 & H2). exists adj2. split; [done|]. cbn [rev]. by rewrite <-app_assoc.
Qed.

(** What is left: for joined switches, and only for them, the ports of one link. *)
Record symmetric adj : Prop := {
  sy_get a b e : adj_get adj a b = Some e ->
    exists p q, e = Port p /\ adj_get adj b a = Some (Port q) /\ bilink a p b q;
  sy_joined a b : joined a b -> is_Some (adj_get adj a b)
}.

Lemma culled_all : exists adj,
  cull_pairs adjacency (all_links links) (all_pairs (elements (all_switches links))) = Ok adj /\ symmetric adj.
Proof.
  destruct (culled_pairs (all_pairs (elements (all_switches links))) [] (all_links links) culled_start) as (adj & E & [Hl Hp Hj]).
  exists adj. split; [done|]. split; [|done]. intros a b [ls|p] H.
  - exfalso. destruct (Hl _ _ _ H) as (Els & Hne & HP). destruct ls as [|l ls]; [done|].
    assert (l ∈ links_of links a b) as Hin by (rewrite <-Els; left). apply links_of_in in Hin as (Hin & <- & <-).
    apply HP. rewrite app_nil_r, list_elem_of_In, <-in_rev, <-list_elem_of_In. unfold all_pairs.
    apply links_in in Hin.
    assert (dpid1 l ∈ all_switches links /\ dpid2 l ∈ all_switches links) as [H1 H2].
    { unfold all_switches. rewrite !elem_of_union, !elem_of_list_to_set, !list_elem_of_fmap. split; [left|right]; by exists l. }
    apply elem_of_elements in H1, H2. rewrite list_elem_of_In, in_concat. exists (map (pair (dpid1 l)) (elements (all_switches links))).
    split; rewrite <-list_elem_of_In; apply list_elem_of_fmap; eauto.
  - destruct (Hp _ _ _ H) as (q & Hq & Hb). by exists p, q.
Qed.

(** * Growing the tree *)

Definition tree_port tree (v w : option Z) (p : Z) : Prop := (w, p) ∈ default ∅ (tree !! v).
Definition tree_edge tree (v w : option Z) : Prop := exists p, tree_port tree v w p.

Lemma tree_port_add tree v w p a b q :
  tree_port (tree_add tree v w p) a b q <-> tree_port tree a b q \/ (a, b, q) = (v, w, p).
Proof.
  unfold tree_port, tree_add. destruct (decide (a = v)) as [->|Hne].
  - rewrite lookup_insert_eq. cbn [from_option id]. rewrite elem_of_union, elem_of_singleton. intuition congruence.
  - rewrite lookup_insert_ne by done. intuition congruence.
Qed.
Lemma tree_edge_two tree v w p q a b :
  tree_edge (tree_add (tree_add tree v w p) w v q) a b <-> with_edge (tree_edge tree) v w a b.
Proof.
  unfold tree_edge, with_edge. setoid_rewrite tree_port_add. setoid_rewrite tree_port_add. split.
  - intros (r & [[H|H]|H]); [left; by exists r|right; left; by simplify_eq|right; right; by simplify_eq].
  - intros [(r & H)|[[-> ->]|[-> ->]]]; [exists r; tauto|exists p; tauto|exists q; tauto].
Qed.
Lemma dom_tree_add tree v w p : dom (tree_add tree v w p) = {[v]} ∪ dom tree.
Proof. apply dom_insert_L. Qed.

Section tree.
Context (adj : adj_t).
Hypothesis Hadj : symmetric adj.

Let near (a b : option Z) : Prop := is_Some (adj_get adj a b).
Lemma near_port a b : near a b -> exists p q, adj_port adj a b = Ok p /\ adj_port adj b a = Ok q /\
  adj_get adj a b = Some (Port p) /\ adj_get adj b a = Some (Port q).
Proof.
  intros [e H]. destruct (sy_get _ Hadj _ _ _ H) as (p & q & -> & H' & _). exists p, q. unfold adj_port. by rewrite H, H'.
Qed.
Lemma near_sym a b : near a b -> near b a.
Proof. intros H. destruct (near_port a b H) as (p & q & _ & _ & _ & E). by eexists. Qed.
Lemma near_ne a b : near a b -> a <> b.
Proof.
  intros [e H] <-. destruct (sy_get _ Hadj _ _ _ H) as (p & q & _ & _ & [Hb _]). by apply (no_loops _ Hb).
Qed.

(** What is always true of the tree. *)
Record growing tree : Prop := {
  gr_port v w p : tree_port tree v w p -> adj_get adj v w = Some (Port p);
  gr_sym v w : tree_edge tree v w -> tree_edge tree w v;
  gr_forest : forest (tree_edge tree)
}.
Lemma growing_dom tree v w : growing tree -> tree_edge tree v w -> v ∈ dom tree /\ w ∈ dom tree.
Proof.
  intros [_ Hs _] H. assert (forall v w, tree_edge tree v w -> v ∈ dom tree) as Hd.
  { intros x y [p Hp]. unfold tree_port in Hp. apply elem_of_dom. destruct (tree !! x); [done|].
    by apply elem_of_empty in Hp. }
  split; [by eapply Hd|]. eapply Hd. by apply Hs.
Qed.

(** Adding the neighbours of [v] that the tree does not have. *)
Record grown (v : option Z) (ns : list (option Z)) tree tree' (more more' : gset (option Z)) : Prop := {
  gn_growing : growing tree';
  gn_keeps a b : tree_edge tree a b -> tree_edge tree' a b;
  gn_dom : dom tree ⊆ dom tree';
  gn_new w : w ∈ more' -> w ∈ more \/ ((w ∉ dom tree) /\ near v w /\ tree_edge tree' v w);
  gn_more : more ⊆ more';
  gn_all w : w ∈ ns -> w ∈ dom tree \/ w ∈ more';
  gn_only x : x ∈ dom tree' -> x ∈ dom tree \/ x ∈ more' \/ x = v
}.

Lemma grow_spec v ns more tree : growing tree -> Forall (near v) ns -> v ∉ more ->
  exists more' tree', grow adj v ns more tree = Ok (more', tree') /\ grown v ns tree tree' more more'.
Proof.
  intros Hg Hns; revert more tree Hg; induction Hns as [|w ns Hw Hns IH]; intros more tree Hg Hv.
  { exists more, tree. split; [done|]. split; try done; [by left| |by left]. intros w Hw. by apply not_elem_of_nil in Hw. }
  cbn [grow]. case_bool_decide as Ht.
  - destruct (IH more tree Hg Hv) as (more' & tree' & E & [H1 H2 H3 H4 H5 H6 H7]). exists more', tree'. split; [done|].
    split; try done. intros x [->|Hx]%elem_of_cons; [left; by apply elem_of_dom|by apply H6].
  - destruct (near_port v w Hw) as (p & q & -> & -> & Gp & Gq). cbn [mbind res_bind].
    assert (v <> w) as Hne by by apply near_ne. assert (w ∉ dom tree) as Hwt by by rewrite elem_of_dom.
    set (tree1 := tree_add (tree_add tree v w p) w v q).
    assert (dom tree1 = {[w]} ∪ ({[v]} ∪ dom tree)) as Hd by (unfold tree1; by rewrite !dom_tree_add).
    assert (growing tree1) as Hg1.
    { split.
      - intros a b r Hr. apply tree_port_add in Hr as [Hr|Hr]; [apply tree_port_add in Hr as [Hr|Hr]|];
          [by apply (gr_port _ Hg)|by injection Hr as -> -> ->..].
      - intros a b. unfold tree1. rewrite !tree_edge_two. unfold with_edge. intros [H|H]; [left; by apply (gr_sym _ Hg)|tauto].
      - assert (forest (with_edge (tree_edge tree) v w)) as Hf.
        { apply forest_leaf; [apply Hg| |done]. intros x. split; intros H%(growing_dom _ _ _ Hg); tauto. }
        intros a b Hab Hr. apply tree_edge_two in Hab. apply (Hf a b Hab). revert Hr.
        apply (rtc_map _ _ id). intros x y [Hxy Hc]. right. split; [by apply tree_edge_two in Hxy|done]. }
    destruct (IH ({[w]} ∪ more) tree1 Hg1) as (more' & tree' & E & [H1 H2 H3 H4 H5 H6 H7]); [set_solver|].
    exists more', tree'. split; [done|].
    assert (tree_edge tree' v w) as Hvw by (apply H2, tree_edge_two; right; by left).
    split; [done| | | | | |].
    + intros a b Hab. apply H2, tree_edge_two. by left.
    + set_solver.
    + intros x Hx. destruct (H4 x Hx) as [[->%elem_of_singleton|?]%elem_of_union|(? & ? & ?)]; [by right|by left|].
      right. split; [set_solver|done].
    + set_solver.
    + intros x [->|Hx]%elem_of_cons; [right; set_solver|]. destruct (H6 x Hx) as [Hx'|]; [|by right].
      rewrite Hd in Hx'. apply elem_of_union in Hx' as [->%elem_of_singleton|[->%elem_of_singleton|?]%elem_of_union];
        [right; set_solver| |by left]. exfalso. rewrite Forall_forall in Hns. by apply (near_ne v v (Hns v Hx)).
    + intros x Hx. destruct (H7 x Hx) as [Hx'|[?|?]]; [|tauto..]. rewrite Hd in Hx'. set_solver.
Qed.

(** ** The loop *)

Context (switches : gset (option Z)).
Hypothesis Hswitches : forall a b, near a b -> a ∈ switches.

Lemma elem_sorted X x : x ∈ sorted X <-> x ∈ X.
Proof. unfold sorted. rewrite merge_sort_Permutation. apply elem_of_elements. Qed.
Lemma length_sorted X : length (sorted X) = size X.
Proof. unfold sorted. by rewrite merge_sort_Permutation. Qed.

(** The queue is the switches of the component at hand that the tree has and that were not
    looked at, before the switches it began with. *)
Record looping (front back : list (option Z)) (done : gset (option Z)) tree : Prop := {
  lp_growing : growing tree;
  lp_done a b : a ∈ done -> near a b -> rtc (tree_edge tree) a b;
  lp_front a b : a ∈ front -> b ∈ front -> rtc (tree_edge tree) a b;
  lp_tree a : a ∈ dom tree -> a ∈ done \/ a ∈ front;
  lp_rest a : a ∈ switches -> a ∈ done \/ a ∈ front ++ back
}.

Lemma growing_rtc_sym tree a b : growing tree -> rtc (tree_edge tree) a b -> rtc (tree_edge tree) b a.
Proof.
  intros Hg. induction 1 as [|a b c H _ IH]; [done|]. eapply rtc_r; [exact IH|]. by apply (gr_sym _ Hg).
Qed.

Lemma looping_skip v front back done tree : v ∈ done -> looping (v :: front) back done tree -> looping front back done tree.
Proof. intros Hv [H1 H2 H3 H4 H5]. split; [done|done|set_solver..]. Qed.

Lemma looping_grow v front back done tree tree' ns more : looping (v :: front) back done tree ->
  (forall w, near v w -> w ∈ ns) -> grown v ns tree tree' ∅ more -> looping (sorted more ++ front) back ({[v]} ∪ done) tree'.
Proof.
  intros [L1 L2 L3 L4 L5] Hns [G1 G2 G3 G4 G5 G6 G7].
  assert (forall a b, rtc (tree_edge tree) a b -> rtc (tree_edge tree') a b) as Hmono
    by (intros a b; by apply rtc_subrel).
  assert (forall w, w ∈ more -> rtc (tree_edge tree') v w) as Hmore.
  { intros w Hw. destruct (G4 w Hw) as [?|(_ & _ & ?)]; [set_solver|]. by apply rtc_once. }
  assert (forall w, w ∈ sorted more ++ front -> rtc (tree_edge tree') v w) as Hfront.
  { intros w [Hw|Hw]%elem_of_app; [by apply Hmore, elem_sorted|]. apply Hmono, L3; set_solver. }
  split; [done| | | |].
  - intros a b [->%elem_of_singleton|Ha]%elem_of_union Hab; [|by apply Hmono, L2].
    destruct (G6 b (Hns b Hab)) as [Hb|Hb]; [|by apply Hmore]. destruct (L4 b Hb) as [Hd|Hf].
    + apply growing_rtc_sym, Hmono, L2; [done..|by apply near_sym].
    + apply Hmono, L3; [by left|done].
  - intros a b Ha Hb. transitivity v; [|by apply Hfront]. by apply growing_rtc_sym, Hfront.
  - intros a Ha. destruct (G7 a Ha) as [Ht|[Hm| ->]]; [|right; set_unfold; left; by apply elem_sorted|set_solver].
    destruct (L4 a Ht) as [?|?]; set_solver.
  - intros a Ha. destruct (L5 a Ha) as [?|?]; set_solver.
Qed.

Lemma near_keys v w : near v w <-> w ∈ (map_to_list (default ∅ (adj !! v))).*1.
Proof.
  unfold near, adj_get. rewrite list_elem_of_fmap. split.
  - intros [e He]. destruct (adj !! v) as [m|]; [|done]. exists (w, e). split; [done|]. by apply elem_of_map_to_list.
  - intros ([w' e] & -> & He%elem_of_map_to_list). destruct (adj !! v) as [m|]; [by exists e|]. done.
Qed.

(** How many more steps the loop can take. *)
Definition togo (q : list (option Z)) tree : nat := (length q + size (switches ∖ dom tree))%nat.

Lemma togo_grown v q ns tree tree' more : grown v ns tree tree' ∅ more ->
  (S (togo (sorted more ++ q) tree') <= togo (v :: q) tree)%nat.
Proof.
  intros [G1 G2 G3 G4 G5 G6 G7]. unfold togo. cbn [length]. rewrite length_app, length_sorted.
  assert (size (switches ∖ dom tree') + size more <= size (switches ∖ dom tree))%nat; [|lia].
  rewrite <-size_union.
  - apply subseteq_size. intros x Hx. apply elem_of_union in Hx as [Hx|Hx]; apply elem_of_difference; [set_solver|].
    destruct (G4 x Hx) as [?|(? & Hn & _)]; [set_solver|]. split; [|done]. by eapply Hswitches, near_sym.
  - intros x Hx' Hx. apply elem_of_difference in Hx' as [_ Hn]. apply Hn. destruct (G4 x Hx) as [?|(_ & _ & He)]; [set_solver|].
    by apply (growing_dom _ _ _ G1) in He as [_ ?].
Qed.

Lemma tree_loop_spec fuel front back done tree : (togo (front ++ back) tree <= fuel)%nat -> looping front back done tree ->
  exists tree', tree_loop fuel adj (front ++ back) done tree = Ok tree' /\ growing tree' /\
    forall a b, near a b -> rtc (tree_edge tree') a b.
Proof.
  revert front back done tree. induction fuel as [|fuel IH]; intros front back done tree Hf HL.
  { destruct (front ++ back) as [|v q] eqn:E; [|cbn in Hf; lia]. exists tree. split; [done|]. split; [apply HL|].
    intros a b Hab. destruct (lp_rest _ _ _ _ HL a) as [Ha|Ha]; [by eapply Hswitches|by apply (lp_done _ _ _ _ HL)|].
    rewrite E in Ha. by apply not_elem_of_nil in Ha. }
  assert (forall v front back, (togo (v :: front ++ back) tree <= S fuel)%nat -> looping (v :: front) back done tree ->
    exists tree', tree_loop (S fuel) adj (v :: front ++ back) done tree = Ok tree' /\ growing tree' /\
      forall a b, near a b -> rtc (tree_edge tree') a b) as Hstep.
  { clear front back Hf HL. intros v front back Hf HL. cbn [tree_loop]. case_bool_decide as Hv.
    - apply IH; [unfold togo in *; cbn in Hf; lia|]. by eapply looping_skip.
    - set (ns := (map_to_list (default ∅ (adj !! v))).*1).
      destruct (grow_spec v ns ∅ tree) as (more & tree1 & E & HG); [apply HL| |set_solver|].
      { apply Forall_forall. intros w Hw. by apply near_keys. }
      rewrite E. cbn [mbind res_bind]. rewrite app_assoc. apply IH.
      + apply (togo_grown v (front ++ back)) in HG. rewrite <-app_assoc. lia.
      + eapply looping_grow; [done| |done]. intros w. by apply near_keys. }
  destruct front as [|v front]; [|by apply Hstep]. destruct back as [|v back].
  - exists tree. split; [done|]. split; [apply HL|]. intros a b Hab.
    destruct (lp_rest _ _ _ _ HL a) as [Ha|Ha]; [by eapply Hswitches|by apply (lp_done _ _ _ _ HL)|].
    by apply not_elem_of_nil in Ha.
  - apply (Hstep v [] back Hf). destruct HL as [H1 H2 H3 H4 H5]. split; [done|done| |set_solver|done].
    intros a b Ha Hb. apply list_elem_of_singleton in Ha as ->. by apply list_elem_of_singleton in Hb as ->.
Qed.
End tree.

Lemma tree_spec : exists tree, calc_spanning_tree adjacency = Ok tree /\
  (forall v w p, tree_port tree v w p -> exists q, bilink v p w q /\ tree_port tree w v q) /\
  (forall a b, joined a b -> rtc (tree_edge tree) a b) /\ forest (tree_edge tree).
Proof.
  destruct culled_all as (adj & E & Hadj). unfold calc_spanning_tree. fold links. rewrite E. cbn [mbind res_bind].
  assert (forall a b, is_Some (adj_get adj a b) -> a ∈ all_switches links) as Hsw.
  { intros a b [e He]. destruct (sy_get _ Hadj _ _ _ He) as (p & q & _ & _ & [Hb%links_in _]).
    unfold all_switches. apply elem_of_union_l, elem_of_list_to_set, list_elem_of_fmap. by exists (MkLink a p b q). }
  destruct (tree_loop_spec adj Hadj (all_switches links) Hsw (2 * size (all_switches links)) [] (sorted (all_switches links)) ∅ ∅)
    as (tree & Et & Hg & Hj).
  - unfold togo. cbn [app]. rewrite length_sorted, dom_empty_L, difference_empty_L. lia.
  - split.
    + split; [intros v w p Hp|intros v w [p Hp]|intros v w [p Hp]]; unfold tree_port in Hp; rewrite lookup_empty in Hp; by apply elem_of_empty in Hp.
    + intros a b Ha. by apply elem_of_empty in Ha.
    + intros a b Ha. by apply not_elem_of_nil in Ha.
    + intros a Ha. rewrite dom_empty_L in Ha. by apply elem_of_empty in Ha.
    + intros a Ha. right. by apply elem_sorted.
  - exists tree. split; [exact Et|]. split; [|split; [|apply Hg]].
    + intros v w p Hp. pose proof (gr_port _ _ Hg _ _ _ Hp) as G.
      destruct (sy_get _ Hadj _ _ _ G) as (p' & q & [= <-] & G' & Hb). exists q. split; [done|].
      destruct (gr_sym _ _ Hg v w) as [q' Hq']; [by exists p|]. pose proof (gr_port _ _ Hg _ _ _ Hq') as G2. congruence.
    + intros a b Hab. apply Hj. by apply (sy_joined _ Hadj).
Qed.
End culling.

(** C6: For any links none of which joins a switch to itself, [_calc_spanning_tree] ends with
    a tree - within the fuel of two steps for each switch - such that: every port of the tree
    is of a link that was seen in both directions, and the other end's port is in the tree
    too; switches that such a link joins are connected through the tree; and the tree is a
    forest: without an edge, its ends are not connected. *)
Theorem spanning_tree_correct adjacency :
  (forall l, is_Some (adjacency !! l) -> dpid1 l <> dpid2 l) ->
  exists tree, calc_spanning_tree adjacency = Ok tree /\
    (forall v w p, tree_port tree v w p -> exists q, bilink adjacency v p w q /\ tree_port tree w v q) /\
    (forall a b, joined adjacency a b -> rtc (tree_edge tree) a b) /\
    forest (tree_edge tree).
Proof. apply tree_spec. Qed.

(** * A switch linked to itself *)

Lemma cull_pair_self adjacency s ls adj s1 s2 : adj_get adj s s = Some (Links ls) ->
  match cull_pair adjacency adj s1 s2 with
  | Ok adj' => adj_get adj' s s = Some (Links ls) /\ (s1, s2) <> (s, s)
  | Err e => e = AssertionError
  end.
Proof.
  intros H. unfold cull_pair. destruct (adj_get adj s1 s2) as [[ls'|p]|] eqn:E.
  - case_bool_decide as Hs; [done|]. destruct (List.find _ ls').
    + rewrite !adj_get_set. split; [|congruence]. by rewrite !decide_False by congruence.
    + rewrite !adj_get_del. split; [|congruence]. by rewrite !decide_False by congruence.
  - split; [done|]. intros [= -> ->]. congruence.
  - split; [done|]. intros [= -> ->]. congruence.
Qed.

Lemma cull_pairs_self adjacency s ls pairs adj : adj_get adj s s = Some (Links ls) -> (s, s) ∈ pairs ->
  cull_pairs adjacency adj pairs = Err AssertionError.
Proof.
  revert adj; induction pairs as [|[s1 s2] pairs IH]; intros adj H Hin; [by apply not_elem_of_nil in Hin|].
  cbn [cull_pairs]. pose proof (cull_pair_self adjacency s ls adj s1 s2 H) as Hc.
  destruct (cull_pair adjacency adj s1 s2) as [adj'|e]; [|by rewrite Hc]. destruct Hc as [H' Hne].
  cbn [mbind res_bind]. apply IH; [done|]. apply elem_of_cons in Hin as [Hin|Hin]; [by symmetry in Hin|done].
Qed.

Lemma elem_all_pairs (switches : list (option Z)) a b : a ∈ switches -> b ∈ switches -> (a, b) ∈ all_pairs switches.
Proof.
  rewrite !list_elem_of_In. intros Ha Hb. unfold all_pairs. apply in_concat. exists (map (pair a) switches).
  split; [by apply (in_map (fun s1 => map (pair s1) switches))|by apply in_map].
Qed.

Lemma self_link_asserts adjacency l : is_Some (adjacency !! l) -> dpid1 l = dpid2 l ->
  calc_spanning_tree adjacency = Err AssertionError.
Proof.
  intros Hl Hs. unfold calc_spanning_tree. set (links := (map_to_list adjacency).*1).
  assert (l ∈ links) as Hin by by apply links_in.
  assert (l ∈ links_of links (dpid1 l) (dpid1 l)) as Hof by by apply links_of_in.
  rewrite (cull_pairs_self adjacency (dpid1 l) (links_of links (dpid1 l) (dpid1 l))); [done| |].
  - rewrite all_links_get. destruct (links_of links _ _); [by apply not_elem_of_nil in Hof|done].
  - assert (dpid1 l ∈ elements (all_switches links)); [|by apply elem_all_pairs].
    apply elem_of_elements. unfold all_switches. apply elem_of_union_l, elem_of_list_to_set, list_elem_of_fmap. by exists l.
Qed.

Section self_link.
Abbreviation World := (Controller.World (Disc prev_t)).
Context (PIPE_BUF : Z) (sock_send : Z -> nat -> bytes -> send_result).
Context (nested : source -> Z -> event -> M World unit).

(** One cable from a switch to itself - discovery's own loop test only notices a probe that
    comes back to its own port - fails an assertion of the spanning tree.  As long as that link
    is there, no [LinkEvent] changes the tree or any port; and [_deleteLinks], which raises
    its events without the protection against errors, stops after the first link: the others
    stay - when a switch disconnects, links to a switch that is gone. *)
Theorem self_link_blocks (self link : Link) (links : list Link) (w : World) :
  is_Some (d_adjacency (w_app w) !! self) -> dpid1 self = dpid2 self ->
  (forall added l, handle_LinkEvent PIPE_BUF sock_send nested added l w = (Err AssertionError, w)) /\
  (is_Some (d_adjacency (w_app w) !! link) -> link <> self ->
   deleteLinks (handle_LinkEvent PIPE_BUF sock_send nested) (link :: links) w =
     (Err AssertionError, w_set_app (set_adjacency (delete link (d_adjacency (w_app w))) (w_app w)) w)).
Proof.
  intros Hs Hl.
  assert (forall w added l, is_Some (d_adjacency (w_app w) !! self) ->
    handle_LinkEvent PIPE_BUF sock_send nested added l w = (Err AssertionError, w)) as Hh.
  { intros w' added l H. unfold handle_LinkEvent. rewrite bind_get, (self_link_asserts _ self) by done. done. }
  split; [intros; by apply Hh|]. intros [t Ht] Hne. cbn [deleteLinks]. unfold get_disc.
  erewrite bind_ok by reflexivity. rewrite Ht. erewrite bind_ok by reflexivity.
  unfold mbind, M_bind. rewrite Hh; [done|]. cbn. by rewrite lookup_delete_ne.
Qed.
End self_link.

(** * Telling the ports *)

Lemma prev_get_set (prev : prev_t) sw port flood sw' port' :
  prev_get (prev_set prev sw port flood) sw' port' =
    if decide ((sw', port') = (sw, port)) then Some flood else prev_get prev sw' port'.
Proof.
  unfold prev_get, prev_set. destruct (decide (sw' = sw)) as [->|Hs].
  - rewrite lookup_insert_eq. cbn [mbind option_bind]. destruct (decide (port' = port)) as [->|Hp].
    + by rewrite lookup_insert_eq, decide_True.
    + rewrite lookup_insert_ne, decide_False by congruence. by destruct (prev !! sw).
  - by rewrite lookup_insert_ne, decide_False by congruence.
Qed.

Section ports.
Abbreviation World := (Controller.World (Disc prev_t)).
Context (PIPE_BUF : Z) (sock_send : Z -> nat -> bytes -> send_result).
Context (nested : source -> Z -> event -> M World unit).
Context (sw : option Z) (ports : gset (option Z * Z)) (con : Z) (n : gmap (option Z) Z)
  (r : list (source * Z * event)) (w : World).
Hypothesis Ht : takes_all sock_send con.
Hypothesis Hs : w_sending w = false.

(** The bytes tell the port whether to flood. *)
Definition tells (flood : bool) (p : ofp_phy_port) (b : bytes) : Prop :=
  exists h, frame b OFPT_PORT_MOD (MPortMod (PortMod h (pp_port_no p) (pp_hw_addr p)
    (if flood then 0 else OFPPC_NO_FLOOD) OFPPC_NO_FLOOD 0)).

Definition port_fits (p : ofp_phy_port) : Prop := u16 (pp_port_no p) /\ hw_wf (pp_hw_addr p).

Lemma port_mod_after (p : ofp_phy_port) (flood : bool) (c : Con) (x : Z) (d : Disc prev_t) : port_fits p -> con_disconnected c = false -> 0 <= x < 2 ^ 31 ->
  exists b x' m, con_send PIPE_BUF sock_send nested con (ofp_port_mod_pack true) (port_mod p flood) (after con c n x r d w) =
    (Ok m, after con (sent b c) n x' r d w) /\ 0 <= x' < 2 ^ 31 /\ tells flood p b.
Proof.
  intros [Hp Hh] Hd Hx. destruct (packs (port_mod p flood) x) as (b & x' & E & Hx' & F); [|done..|].
  { unfold port_mod. cbn. split; [by vm_compute|]. split; [done|]. split; [done|]. split; [done|].
    destruct flood; repeat split; by vm_compute. }
  exists b, x'. eexists. split; [by eapply con_send_after|]. split; [done|]. eexists. exact F.
Qed.

(** Whether the port floods, and whether it was told. *)
Definition port_floods (d : Disc prev_t) (p : ofp_phy_port) : bool := floods (d_adjacency d) sw ports (pp_port_no p).
Definition stale (d : Disc prev_t) (p : ofp_phy_port) : bool :=
  (pp_port_no p <? OFPP_MAX) && negb (bool_decide (prev_get (d_rest d) sw (pp_port_no p) = Some (port_floods d p))).

(** [d'] is [d] with the ports of [l], and no others, told. *)
Record all_told (l : list ofp_phy_port) (d d' : Disc prev_t) : Prop := {
  at_disc : d' = set_rest (d_rest d') d;
  at_told p : p ∈ l -> pp_port_no p < OFPP_MAX -> prev_get (d_rest d') sw (pp_port_no p) = Some (port_floods d p);
  at_other sw' port : sw' <> sw \/ port ∉ pp_port_no <$> l -> prev_get (d_rest d') sw' port = prev_get (d_rest d) sw' port
}.

Lemma push_ports_after (l : list ofp_phy_port) (c : Con) (x : Z) (d : Disc prev_t) : Forall port_fits l -> NoDup (pp_port_no <$> l) -> con_disconnected c = false ->
  0 <= x < 2 ^ 31 -> exists c' x' d' bs,
  push_ports PIPE_BUF sock_send nested sw ports con l (after con c n x r d w) = (Ok tt, after con c' n x' r d' w) /\
  con_out c' = con_out c ++ concat bs /\ Forall2 (fun p b => tells (port_floods d p) p b) (List.filter (stale d) l) bs /\
  all_told l d d' /\ 0 <= x' < 2 ^ 31 /\ con_features c' = con_features c /\ con_disconnected c' = false.
Proof.
  intros Hl; revert c x d; induction Hl as [|p l Hp _ IH]; intros c x d Hnd Hd Hx.
  { exists c, x, d, []. split; [done|]. split; [by rewrite app_nil_r|]. split; [constructor|].
    split; [|done]. split; [by destruct d|intros p Hp; by apply not_elem_of_nil in Hp|done]. }
  cbn [fmap list_fmap] in Hnd. apply NoDup_cons in Hnd as [Hpl Hnd]. cbn [push_ports List.filter].
  set (d1 := if stale d p then set_rest (prev_set (d_rest d) sw (pp_port_no p) (port_floods d p)) d else d).
  assert (exists c1 x1 b1,
    (if pp_port_no p <? OFPP_MAX then
       w ← get;
       let d := w_app w in
       let flood := floods (d_adjacency d) sw ports (pp_port_no p) in
       if bool_decide (prev_get (d_rest d) sw (pp_port_no p) = Some flood) then mret tt
       else
         '_ ← modify_disc (fun d => set_rest (prev_set (d_rest d) sw (pp_port_no p) flood) d);
         '_ ← con_send PIPE_BUF sock_send nested con (ofp_port_mod_pack true) (port_mod p flood);
         mret tt
     else mret tt) (after con c n x r d w) = (Ok tt, after con c1 n x1 r d1 w) /\
    (con_features c1 = con_features c /\ con_disconnected c1 = false) /\ 0 <= x1 < 2 ^ 31 /\ con_out c1 = con_out c ++ concat b1 /\
    Forall2 (fun p b => tells (port_floods d p) p b) (if stale d p then [p] else []) b1)
    as (c1 & x1 & b1 & E1 & [Hf1 Hd1] & Hx1 & O1 & T1).
  { unfold d1, stale. destruct (pp_port_no p <? OFPP_MAX); cbn [andb].
    - rewrite bind_get. change (w_app (after con c n x r d w)) with d. cbv zeta. fold (port_floods d p).
      case_bool_decide as Hst; cbn [negb].
      + exists c, x, []. split; [done|]. split; [done|]. split; [done|]. split; [by rewrite app_nil_r|constructor].
      + destruct (port_mod_after p (port_floods d p) c x
          (set_rest (prev_set (d_rest d) sw (pp_port_no p) (port_floods d p)) d) Hp Hd Hx) as (b & x' & m & E & Hx' & T).
        exists (sent b c), x', [b]. split; [|split; [done|split; [done|split]]].
        * erewrite bind_ok by reflexivity. by erewrite bind_ok by exact E.
        * cbn. by rewrite app_nil_r.
        * by constructor; [|constructor].
    - exists c, x, []. split; [done|]. split; [done|]. split; [done|]. split; [by rewrite app_nil_r|constructor]. }
  erewrite bind_ok by exact E1.
  destruct (IH c1 x1 d1 Hnd Hd1 Hx1) as (c2 & x2 & d2 & b2 & E2 & O2 & T2 & [A1 A2 A3] & Hx2 & Hf2 & Hd2).
  assert (d_adjacency d1 = d_adjacency d) as Ha by (unfold d1; by destruct (stale d p)).
  assert (forall q, port_floods d1 q = port_floods d q) as Hf by (intros q; unfold port_floods; by rewrite Ha).
  assert (forall sw' port, (sw', port) <> (sw, pp_port_no p) -> prev_get (d_rest d1) sw' port = prev_get (d_rest d) sw' port) as Hprev.
  { intros sw' port Hne. unfold d1. destruct (stale d p); [|done]. cbn. by rewrite prev_get_set, decide_False. }
  assert (forall q, q ∈ l -> pp_port_no q <> pp_port_no p) as Hne.
  { intros q Hq Heq. apply Hpl. rewrite <-Heq. by apply list_elem_of_fmap_2. }
  exists c2, x2, d2, (b1 ++ b2). split; [exact E2|]. split; [by rewrite O2, O1, concat_app, app_assoc|].
  split; [|split; [split|split; [done|split; [congruence|done]]]].
  - assert (List.filter (stale d1) l = List.filter (stale d) l) as Hfil.
    { apply List.filter_ext_in. intros q Hq. apply list_elem_of_In in Hq. unfold stale. rewrite Hf, Hprev; [done|].
      intros [= Heq]. by apply (Hne q). }
    rewrite Hfil in T2. replace (if stale d p then _ else _) with ((if stale d p then [p] else []) ++ List.filter (stale d) l)
      by (by destruct (stale d p)).
    apply Forall2_app; [done|]. eapply Forall2_impl; [exact T2|]. intros q b. cbv beta. by rewrite Hf.
  - rewrite A1. unfold d1. by destruct (stale d p).
  - intros q [->|Hq]%elem_of_cons Hmax; [|rewrite <-Hf; by apply A2]. rewrite A3 by (right; done).
    unfold d1, stale. rewrite (proj2 (Z.ltb_lt _ _)) by done. cbn [andb].
    case_bool_decide as Hst; cbn [negb]; [done|]. cbn. by rewrite prev_get_set, decide_True.
  - intros sw' port Hor. cbn [fmap list_fmap] in Hor. rewrite A3 by (destruct Hor as [?|[_ ?]%not_elem_of_cons]; tauto).
    apply Hprev. destruct Hor as [?|[? _]%not_elem_of_cons]; congruence.
Qed.
End ports.

(** ** The whole handler *)

Section handler.
Abbreviation World := (Controller.World (Disc prev_t)).
Context (PIPE_BUF : Z) (sock_send : Z -> nat -> bytes -> send_result).
Context (nested : source -> Z -> event -> M World unit).

(** Switch [sw] is connected by [con], has the ports [l], and can be told. *)
Record ready (w : World) (sw : option Z) (con : Z) (l : list ofp_phy_port) : Prop := {
  rd_nexus : w_nexus w !! sw = Some con;
  rd_con : is_Some (w_cons w !! con);
  rd_up : con_disconnected (the_con con w) = false;
  rd_socket : takes_all sock_send con;
  rd_features : exists f, con_features (the_con con w) = Some f /\ fy_ports f = l;
  rd_fits : Forall port_fits l;
  rd_distinct : NoDup (pp_port_no <$> l)
}.

(** The world of the program when switches can be told: each connection is of one switch. *)
Record tellable (w : World) : Prop := {
  tl_sending : w_sending w = false;
  tl_xids : 0 <= w_xids w < 2 ^ 31;
  tl_ready sw con : w_nexus w !! sw = Some con -> exists l, ready w sw con l;
  tl_one sw sw' con : w_nexus w !! sw = Some con -> w_nexus w !! sw' = Some con -> sw = sw'
}.

(** What became of switch [sw], with [ports] in the tree: every port that is not told what the
    tree says of it is sent that, in order, and every port is down as told. *)
Definition switch_told (w w' : World) (sw : option Z) (ports : gset (option Z * Z)) : Prop :=
  forall con l, ready w sw con l ->
    (exists bs, con_out (the_con con w') = con_out (the_con con w) ++ concat bs /\
      Forall2 (fun p b => tells (port_floods sw ports (w_app w) p) p b) (List.filter (stale sw ports (w_app w)) l) bs) /\
    forall p, p ∈ l -> pp_port_no p < OFPP_MAX ->
      prev_get (d_rest (w_app w')) sw (pp_port_no p) = Some (port_floods sw ports (w_app w) p).

Lemma ready_ports w sw con l l' : ready w sw con l -> ready w sw con l' -> l = l'.
Proof. intros [_ _ _ _ (f & E & <-) _ _] [_ _ _ _ (f' & E' & <-) _ _]. congruence. Qed.

(** Changing the socket's side of one connection leaves the switches of the others as they
    are. *)
Lemma tellable_after (w : World) (sw : option Z) (con : Z) (l : list ofp_phy_port) (c : Con) (x : Z) (d : Disc prev_t) :
  tellable w -> ready w sw con l -> 0 <= x < 2 ^ 31 ->
  con_features c = con_features (the_con con w) -> con_disconnected c = false ->
  let w' := after con c (w_nexus w) x (w_raised w) d w in
  tellable w' /\ forall sw' con' l', sw' <> sw -> ready w' sw' con' l' <-> ready w sw' con' l'.
Proof.
  intros Hw R Hx Hf Hu w'. pose proof R as [En Hcon Hup Hsock (f & Ef & El) Hfits Hdist].
  assert (forall sw' con' l', sw' <> sw -> (ready w' sw' con' l' <-> ready w sw' con' l')) as Hready.
  { intros sw' con' l' Hne. split; intros [R1 R2 R3 R4 R5 R6 R7];
      (assert (con' <> con) as Hc' by (intros ->; by apply Hne, (tl_one _ Hw sw' sw con)));
      (assert (the_con con' w' = the_con con' w) as H1 by by apply the_con_after_ne);
      (assert (w_cons w' !! con' = w_cons w !! con') as H2 by by apply lookup_insert_ne);
      [rewrite H1 in R3, R5; rewrite H2 in R2|rewrite <-H1 in R3, R5; rewrite <-H2 in R2]; by split. }
  split; [|done]. split; [apply (tl_sending _ Hw)|done| |apply (tl_one _ Hw)]. intros sw' con' H.
  destruct (decide (sw' = sw)) as [->|Hne].
  - change (w_nexus w !! sw = Some con') in H. assert (con' = con) as -> by congruence. exists l. unfold w'.
    split; [done| | |done| |done|done]; rewrite ?the_con_after; [by cbn; rewrite lookup_insert_eq|done|].
    exists f. split; [|done]. congruence.
  - destruct (tl_ready _ Hw sw' con' H) as [l' R']. exists l'. by apply Hready.
Qed.

Lemma push_tree_spec (l : list (option Z * gset (option Z * Z))) (w : World) : NoDup l.*1 -> tellable w ->
  exists w', push_tree PIPE_BUF sock_send nested l w = (Ok tt, w') /\
    w_app w' = set_rest (d_rest (w_app w')) (w_app w) /\
    (forall sw ports, (sw, ports) ∈ l -> switch_told w w' sw ports) /\
    (forall sw, sw ∉ l.*1 -> forall port, prev_get (d_rest (w_app w')) sw port = prev_get (d_rest (w_app w)) sw port) /\
    (forall con, (forall sw, sw ∈ l.*1 -> w_nexus w !! sw <> Some con) -> the_con con w' = the_con con w).
Proof.
  revert w; induction l as [|[sw ports] l IH]; intros w Hnd Hw.
  { exists w. split; [done|]. split; [by destruct w as [? ? ? ? ? ? ? ? ? []]|].
    split; [intros sw ports H; by apply not_elem_of_nil in H|done]. }
  cbn [fmap list_fmap fst] in *. apply NoDup_cons in Hnd as [Hsw Hnd]. cbn [push_tree]. rewrite bind_get. unfold getConnection.
  destruct (w_nexus w !! sw) as [con|] eqn:En.
  2: { erewrite bind_ok by reflexivity. destruct (IH w Hnd Hw) as (w' & E & Ha & Ht & Ho & Hc). exists w'.
    split; [exact E|]. split; [done|]. split; [|split].
    - intros sw' ports' [[= -> ->]|H]%elem_of_cons; [|by apply Ht]. intros con l' R. pose proof (rd_nexus _ _ _ _ R). congruence.
    - intros sw' [_ H]%not_elem_of_cons. by apply Ho.
    - intros con H. apply Hc. intros sw' H'. apply H. by right. }
  destruct (tl_ready _ Hw sw con En) as [pl R]. pose proof R as [_ [c Hcon] Hup Hsock (f & Ef & <-) Hfits Hdist].
  rewrite Ef. assert (the_con con w = c) as Hthe by by apply lookup_total_correct.
  pose proof (after_self con c w Hcon) as Hself. rewrite Hthe in Hup.
  destruct (push_ports_after PIPE_BUF sock_send nested sw ports con (w_nexus w) (w_raised w) w Hsock (tl_sending _ Hw)
    (fy_ports f) c (w_xids w) (w_app w) Hfits Hdist Hup (tl_xids _ Hw)) as (c1 & x1 & d1 & bs & E1 & O1 & T1 & [A1 A2 A3] & Hx1).
  rewrite <-Hself in E1. set (w1 := after con c1 (w_nexus w) x1 (w_raised w) d1 w) in *.
  erewrite bind_ok by exact E1.
  destruct Hx1 as (Hx1 & Hf1 & Hu1). rewrite <-Hthe in Hf1.
  destruct (tellable_after w sw con (fy_ports f) c1 x1 d1 Hw R Hx1 Hf1 Hu1) as [Hw1 Hready]. fold w1 in Hw1, Hready.
  destruct (IH w1 Hnd Hw1) as (w' & E & Ha & Ht & Ho & Hc). exists w'. split; [exact E|].
  assert (d_adjacency d1 = d_adjacency (w_app w)) as Hadj by by rewrite A1.
  assert (forall sw' ports' p, port_floods sw' ports' d1 p = port_floods sw' ports' (w_app w) p) as Hfl
    by (intros; unfold port_floods; by rewrite Hadj).
  assert (forall sw' port, sw' <> sw -> prev_get (d_rest d1) sw' port = prev_get (d_rest (w_app w)) sw' port) as Hpr
    by (intros; apply A3; by left).
  assert (the_con con w' = c1) as Hcon'.
  { rewrite Hc; [apply the_con_after|]. intros sw' H' Hn. change (w_nexus w !! sw' = Some con) in Hn. apply Hsw.
    by rewrite (tl_one _ Hw sw sw' con En Hn). }
  split; [rewrite Ha; change (w_app w1) with d1; rewrite A1; done|]. split; [|split].
  - intros sw' ports' [[= -> ->]|H]%elem_of_cons.
    + intros con' l' R'. pose proof (rd_nexus _ _ _ _ R') as Hn. assert (con' = con) as -> by congruence.
      rewrite <-(ready_ports _ _ _ _ _ R R'). rewrite Hcon', Hthe. split; [by exists bs|].
      intros p Hp Hm. rewrite (Ho sw Hsw). by apply A2.
    + assert (sw' <> sw) as Hne by (intros ->; apply Hsw, list_elem_of_fmap; by exists (sw, ports')).
      intros con' l' R'. pose proof R' as R1%Hready; [|done]. destruct (Ht sw' ports' H con' l' R1) as [(bs' & O' & T') P'].
      assert (con' <> con) as Hc' by (intros ->; apply Hne, (tl_one _ Hw sw' sw con); [apply (rd_nexus _ _ _ _ R')|done]).
      unfold w1 in O'. rewrite the_con_after_ne in O' by done. split.
      * exists bs'. split; [done|]. change (w_app w1) with d1 in T'.
        assert (List.filter (stale sw' ports' d1) l' = List.filter (stale sw' ports' (w_app w)) l') as Hst.
        { apply List.filter_ext. intros p. unfold stale. by rewrite Hfl, Hpr. }
        rewrite Hst in T'. eapply Forall2_impl; [exact T'|]. intros p b. cbv beta. by rewrite Hfl.
      * intros p Hp Hm. rewrite P' by done. by rewrite <-Hfl.
  - intros sw' [Hne Hn]%not_elem_of_cons port. rewrite (Ho sw' Hn). by apply Hpr.
  - intros con' H. rewrite Hc; [|intros sw' H'; apply H; by right].
    apply the_con_after_ne. intros ->. by apply (H sw); [left|].
Qed.

(** What a [LinkEvent] does to the ports, when no link joins a switch to itself and every
    registered connection can be sent to.  The tree is computed - it is the one of
    [spanning_tree_correct] - and every port of every connected switch in the tree, physical
    ones only, is sent exactly the change it needs: flooding when its link is in the tree or
    it has no link at all, not flooding otherwise, nothing when that is what it was last
    told.  No other connection is sent anything, and a switch that is in no tree edge - the
    last of its links has gone - is not told anything at all: its ports stay as they were. *)
Theorem link_event_tells (added : bool) (link : Link) (w : World) :
  (forall l, is_Some (d_adjacency (w_app w) !! l) -> dpid1 l <> dpid2 l) -> tellable w ->
  exists tree w', calc_spanning_tree (d_adjacency (w_app w)) = Ok tree /\
    handle_LinkEvent PIPE_BUF sock_send nested added link w = (Ok tt, w') /\
    w_app w' = set_rest (d_rest (w_app w')) (w_app w) /\
    (forall sw ports, tree !! sw = Some ports -> switch_told w w' sw ports) /\
    (forall sw, tree !! sw = None -> forall port,
      prev_get (d_rest (w_app w')) sw port = prev_get (d_rest (w_app w)) sw port) /\
    (forall con, (forall sw, is_Some (tree !! sw) -> w_nexus w !! sw <> Some con) -> the_con con w' = the_con con w).
Proof.
  intros Hno Hw. destruct (tree_spec (d_adjacency (w_app w)) Hno) as (tree & Et & _).
  destruct (push_tree_spec (map_to_list tree) w) as (w' & E & Ha & Ht & Ho & Hc); [apply NoDup_fst_map_to_list|done|].
  assert (forall sw, sw ∈ (map_to_list tree).*1 <-> is_Some (tree !! sw)) as Hin.
  { intros sw. rewrite list_elem_of_fmap. split.
    - intros ([sw' ports] & -> & H%elem_of_map_to_list). by exists ports.
    - intros [ports H]. exists (sw, ports). split; [done|]. by apply elem_of_map_to_list. }
  exists tree, w'. split; [done|]. split; [|split; [done|split; [|split]]].
  - unfold handle_LinkEvent. rewrite bind_get, Et. erewrite bind_ok by reflexivity. unfold or_clear. by rewrite E.
  - intros sw ports H. apply Ht. by apply elem_of_map_to_list.
  - intros sw H. apply Ho. rewrite Hin, H. by intros [? ?].
  - intros con H. apply Hc. intros sw Hsw. by apply H, Hin.
Qed.
End handler.

(** * The theorems on examples *)

(** Three switches in a triangle, every link seen both ways but one that was seen one way. *)
Definition both (a p b q : Z) : list (Link * Z) :=
  [(MkLink (Some a) p (Some b) q, 0); (MkLink (Some b) q (Some a) p, 0)].
Definition ex_triangle : gmap Link Z :=
  list_to_map (both 1 12 2 21 ++ both 2 23 3 32 ++ both 3 31 1 13 ++ [(MkLink (Some 1) 14 (Some 4) 41, 0)]).
Lemma no_self_triangle l : is_Some (ex_triangle !! l) -> dpid1 l <> dpid2 l.
Proof.
  intros [t H]. apply elem_of_list_to_map_2 in H. rewrite list_elem_of_In in H. cbn in H.
  intros E. repeat destruct H as [[= <- _]|H]; try done.
Qed.
Lemma spanning_tree_correct_witness : exists tree, calc_spanning_tree ex_triangle = Ok tree /\
  (forall a b, joined ex_triangle a b -> rtc (tree_edge tree) a b) /\ forest (tree_edge tree) /\
  elements (default ∅ (tree !! Some 2)) = [(Some 1, 21)].
Proof.
  destruct (spanning_tree_correct ex_triangle no_self_triangle) as (tree & E & _ & Hj & Hf).
  exists tree. split; [exact E|]. split; [exact Hj|]. split; [exact Hf|].
  assert (match calc_spanning_tree ex_triangle with
          | Ok tree => elements (default ∅ (tree !! Some 2))
          | Err _ => []
          end = [(Some 1, 21)]) as H by (vm_compute; reflexivity).
  rewrite E in H. exact H.
Defined.

(** Switch 1 with three ports, on a socket that takes everything. *)
Definition ex_ports : list ofp_phy_port :=
  (fun n => PhyPort n (HwEth EMPTY_ETH) [] 0 0 0 0 0 0) <$> [12; 13; 15; OFPP_LOCAL].
Definition ex_switch : Con := con_set_features (ofp_features_reply_init 1 0 0 0 0 ex_ports) (con_set_dpid (Some 1) Con_fresh).
Definition ex_state (adjacency : gmap Link Z) : Controller.World (Disc prev_t) :=
  MkWorld {[1 := ex_switch]} 2 {[Some 1 := 1]} false ∅ 0 7 (PState 0 (fun _ => 0)) []
    (MkDisc false true {[Some 1]} adjacency [] None ∅) [].
Definition ex_takes (_ : Z) (_ : nat) (data : bytes) : send_result := Sent (zlen data).
Definition ex_quiet (_ : source) (_ : Z) (_ : event) : M (Controller.World (Disc prev_t)) unit := mret tt.
Lemma ex_ready : ready ex_takes (ex_state ex_triangle) (Some 1) 1 ex_ports.
Proof.
  split; [by vm_compute|by eexists|by vm_compute|done|eexists; split; [by vm_compute|done]| |].
  - unfold ex_ports. cbn [fmap list_fmap]. repeat (apply Forall_cons; split); [..|by apply Forall_nil]; by vm_compute.
  - apply (bool_decide_unpack _). by vm_compute.
Qed.
Lemma ex_tellable : tellable ex_takes (ex_state ex_triangle).
Proof.
  split; [done|by vm_compute| |].
  - intros sw con H. cbn in H. apply lookup_singleton_Some in H as [<- <-]. exists ex_ports. exact ex_ready.
  - intros sw sw' con H H'. cbn in H, H'. apply lookup_singleton_Some in H as [<- _]. by apply lookup_singleton_Some in H' as [<- _].
Qed.

Lemma link_event_tells_witness : exists w',
  handle_LinkEvent 10 ex_takes ex_quiet true (MkLink (Some 1) 12 (Some 2) 21) (ex_state ex_triangle) = (Ok tt, w') /\
  prev_get (d_rest (w_app w')) (Some 1) 15 = Some true.
Proof.
  destruct (link_event_tells 10 ex_takes ex_quiet true (MkLink (Some 1) 12 (Some 2) 21) (ex_state ex_triangle)
    no_self_triangle ex_tellable) as (tree & w' & Et & E & _ & Ht & _).
  exists w'. split; [exact E|]. destruct (tree !! Some 1) as [ports|] eqn:Ep.
  - destruct (Ht (Some 1) ports Ep 1 ex_ports ex_ready) as [_ H].
    specialize (H (PhyPort 15 (HwEth EMPTY_ETH) [] 0 0 0 0 0 0)). cbn [pp_port_no] in H.
    rewrite H; [|by do 2 right; left|by vm_compute].
    unfold port_floods, floods. cbn [w_app ex_state d_adjacency pp_port_no].
    assert (isSwitchOnlyPort ex_triangle (Some 1) 15 = false) as -> by (vm_compute; reflexivity). by rewrite orb_true_r.
  - exfalso. assert (match calc_spanning_tree ex_triangle with
                     | Ok tree => match tree !! Some 1 with Some _ => true | None => false end
                     | Err _ => false
                     end = true) as H by (vm_compute; reflexivity).
    cbn [ex_state w_app d_adjacency] in Et. by rewrite Et, Ep in H.
Defined.

(** Port 3 of switch 1 cabled to its port 4. *)
Definition ex_self : Link := MkLink (Some 1) 3 (Some 1) 4.
Definition ex_gone : Link := MkLink (Some 2) 1 (Some 1) 5.
Lemma self_link_blocks_witness : let w := ex_state {[ex_self := 0; ex_gone := 0]} in
  deleteLinks (handle_LinkEvent 10 ex_takes ex_quiet) [ex_gone; ex_self] w =
    (Err AssertionError, w_set_app (set_adjacency (delete ex_gone (d_adjacency (w_app w))) (w_app w)) w).
Proof.
  intros w. apply (self_link_blocks 10 ex_takes ex_quiet ex_self ex_gone [ex_self] w).
  - by exists 0.
  - reflexivity.
  - by exists 0.
  - discriminate.
Defined.
