(* ===== verification/L2Multi.v ===== *)
(** [forwarding/l2_multi.py]: a learning switch made of all switches together.  It keeps
    which switches are next to each other (from discovery's [LinkEvent]), computes shortest
    paths between all of them, learns at which port of which switch every address is, and
    installs flows along the whole path.

    A [Switch] object is known by the key it has in [switches]: there is one for each
    datapath id, made at its first [ConnectionUp] and never removed. *)
From S2P Require Import Prelude.
From S2P Require Import Addresses.
From S2P Require Import OfConst.
From S2P Require Import PyStruct.
From S2P Require Import Wire.
From S2P Require Import OfBase.
From S2P Require Import OfMatch.
From S2P Require Import OfActions.
From S2P Require Import OfMessages.
From S2P Require Import Packets.
From S2P Require Import PacketCodec.
From S2P Require Import Lldp.
From S2P Require Import SoftSwitch.
From S2P Require Import Controller.
From S2P Require Import L2Learning.
From S2P Require Import Discovery.
From S2P Require Import SpanningTree.

(** * Paths *)

(** [adjacency[sw1][sw2]]: the port.  An entry None, which reading leaves behind in the
    [defaultdict], is no entry. *)
Abbreviation ports_t := (gmap dpid (gmap dpid Z)).
(** [path_map[sw1][sw2]]: the distance and the intermediate; [(None, None)] is no entry. *)
Abbreviation paths_t := (gmap dpid (gmap dpid (Z * option dpid))).
Implicit Types (adj : ports_t) (pm : paths_t).

Definition port_to adj (sw1 sw2 : dpid) : option Z := row ← adj !! sw1; row !! sw2.
Definition set_port adj (sw1 sw2 : dpid) (port : Z) : ports_t := <[sw1 := <[sw2 := port]> (default ∅ (adj !! sw1))]> adj.
Definition del_port adj (sw1 sw2 : dpid) : ports_t := <[sw1 := delete sw2 (default ∅ (adj !! sw1))]> adj.

Definition path_get pm (i j : dpid) : option (Z * option dpid) := row ← pm !! i; row !! j.
Definition path_set pm (i j : dpid) (e : Z * option dpid) : paths_t := <[i := <[j := e]> (default ∅ (pm !! i))]> pm.
Definition dist pm (i j : dpid) : option Z := fst <$> path_get pm i j.

(** [_calc_paths]: the neighbours first, and each switch itself. *)
Definition start_row adj (k : dpid) : gmap dpid (Z * option dpid) :=
  <[k := (0, None)]> ((fun _ => (1, None)) <$> default ∅ (adj !! k)).
Definition start_paths adj (sws : list dpid) : paths_t := foldl (fun pm k => <[k := start_row adj k]> pm) ∅ sws.

Definition relax pm (k i j : dpid) : paths_t :=
  match dist pm i k, dist pm k j with
  | Some a, Some b =>
      let ikj_dist := a + b in
      match dist pm i j with
      | None => path_set pm i j (ikj_dist, Some k)
      | Some c => if ikj_dist <? c then path_set pm i j (ikj_dist, Some k) else pm
      end
  | _, _ => pm
  end.
Definition relax_row (sws : list dpid) (k : dpid) pm (i : dpid) : paths_t := foldl (fun pm j => relax pm k i j) pm sws.
Definition relax_all (sws : list dpid) pm (k : dpid) : paths_t := foldl (relax_row sws k) pm sws.
Definition calc_paths adj (sws : list dpid) : paths_t := foldl (relax_all sws) (start_paths adj sws) sws.

(** [_get_raw_path], when the paths are computed: the switches in between.  None is no path;
    adding it to a list raises. *)
Definition py_add (a b : option (list dpid)) : res (option (list dpid)) :=
  match a, b with Some a, Some b => Ok (Some (a ++ b)) | _, _ => Err TypeError end.
Fixpoint raw_path (fuel : nat) pm (src dst : dpid) : res (option (list dpid)) :=
  if bool_decide (src = dst) then Ok (Some [])
  else match path_get pm src dst with
       | None => Ok None
       | Some (_, None) => Ok (Some [])
       | Some (_, Some intermediate) =>
           match fuel with
           | O => Err Diverge
           | S fuel =>
               a ← raw_path fuel pm src intermediate;
               a ← py_add a (Some [intermediate]);
               b ← raw_path fuel pm intermediate dst;
               py_add a b
           end
       end.

(** A path with the port to leave each switch by. *)
Abbreviation path_t := (list (dpid * option Z)).

Fixpoint check_path adj (p : path_t) : bool :=
  match p with
  | (s1, port) :: (((s2, _) :: _) as p') => bool_decide (port_to adj s1 s2 = port) && check_path adj p'
  | _ => true
  end.
(** [zip(path[:-1], path[1:])], and the ports. *)
Fixpoint cooked adj (path : list dpid) (dst : dpid) (final_port : Z) : path_t :=
  match path with
  | s1 :: ((s2 :: _) as path') => (s1, port_to adj s1 s2) :: cooked adj path' dst final_port
  | _ => [(dst, Some final_port)]
  end.

(** * The state *)

(** [Switch]. *)
Record MultiSwitch := MkMultiSwitch {
  sw_connection : option Z;
  sw_ports : option (list ofp_phy_port);
  sw_dpid : dpid
}.

(** The variables of the module.  [m_listening]: which switches listen to which connections,
    in the order they began. *)
Record Multi := MkMulti {
  m_adjacency : ports_t;
  m_switches : gmap dpid MultiSwitch;
  m_mac_map : gmap bytes (dpid * Z);
  m_path_map : paths_t;
  m_listening : list (Z * dpid)
}.
Definition Multi_init : Multi := MkMulti ∅ ∅ ∅ ∅ [].
Definition set_m_adjacency v m := MkMulti v (m_switches m) (m_mac_map m) (m_path_map m) (m_listening m).
Definition set_m_switches v m := MkMulti (m_adjacency m) v (m_mac_map m) (m_path_map m) (m_listening m).
Definition set_m_mac_map v m := MkMulti (m_adjacency m) (m_switches m) v (m_path_map m) (m_listening m).
Definition set_m_path_map v m := MkMulti (m_adjacency m) (m_switches m) (m_mac_map m) v (m_listening m).
Definition set_m_listening v m := MkMulti (m_adjacency m) (m_switches m) (m_mac_map m) (m_path_map m) v.

(** ** Links *)

(** [_handle_LinkEvent] on the two maps, [known] being discovery's adjacency: another link that
    goes both ways. *)
Definition other_link (known : gmap Link Z) (d1 d2 : dpid) : option Link :=
  List.find (fun ll => bool_decide (dpid1 ll = d1 /\ dpid2 ll = d2) && bool_decide (is_Some (known !! flip ll)))
    (map_to_list known).*1.
Definition connect_ports adj (l : Link) : ports_t :=
  set_port (set_port adj (dpid1 l) (dpid2 l) (port1 l)) (dpid2 l) (dpid1 l) (port2 l).
Definition link_removed (known : gmap Link Z) (l : Link) adj : ports_t :=
  let adj := del_port (del_port adj (dpid1 l) (dpid2 l)) (dpid2 l) (dpid1 l) in
  match other_link known (dpid1 l) (dpid2 l) with
  | Some ll => set_port (set_port adj (dpid1 l) (dpid2 l) (port1 ll)) (dpid2 l) (dpid1 l) (port2 ll)
  | None => adj
  end.
Definition link_added (known : gmap Link Z) (l : Link) adj : ports_t :=
  match port_to adj (dpid1 l) (dpid2 l) with
  | Some _ => adj
  | None => if bool_decide (is_Some (known !! flip l)) then connect_ports adj l else adj
  end.
(** Addresses learnt on a port that turns out to lead to a switch are forgotten. *)
Definition unlearn (l : Link) (mac_map : gmap bytes (dpid * Z)) : gmap bytes (dpid * Z) :=
  filter (fun x => x.2 <> (dpid1 l, port1 l) /\ x.2 <> (dpid2 l, port2 l)) mac_map.

(** * The component *)

Section multi.
Variable others : AppCodec.
#[local] Instance multi_codec : AppCodec := lldp_codec others.
Variable PIPE_BUF : Z.
Variable sock_send : Z -> nat -> bytes -> send_result.
Abbreviation World := (Controller.World (Disc Multi)).
Implicit Type w : World.
Variable nested : source -> Z -> event -> M World unit.
(** The listeners of [PathInstalled]. *)
Variable on_path : path_t -> M World unit.

Definition modify_multi (f : Multi -> Multi) : M World unit :=
  modify_disc (fun d => set_rest (f (d_rest d)) d).
Definition get_multi : M World Multi := w ← get; mret (d_rest (w_app w)).
Definition get_switch (key : dpid) : M World MultiSwitch := fun w =>
  match m_switches (d_rest (w_app w)) !! key with Some s => (Ok s, w) | None => (Err KeyError, w) end.

(** [sw.connection.send(msg)]. *)
Definition send_switch {T} (key : dpid) (pack : T -> M Z (T * option bytes)) (data : T) : M World T :=
  s ← get_switch key;
  match sw_connection s with
  | None => raise AttributeError
  | Some con => con_send PIPE_BUF sock_send nested con pack data
  end.

(** ** Paths *)

(** [_get_raw_path]: [len(path_map) == 0] is tested first; the recursion cannot find it empty. *)
Definition get_raw_path (src dst : dpid) : M World (option (list dpid)) :=
  m ← get_multi;
  '_ ← (if bool_decide (m_path_map m = ∅) then
          modify_multi (fun m => set_m_path_map (calc_paths (m_adjacency m) (map_to_list (m_switches m)).*1) m)
        else mret tt);
  m ← get_multi;
  lift (raw_path (S (Z.to_nat (default 0 (dist (m_path_map m) src dst)))) (m_path_map m) src dst).

Definition get_path (src dst : dpid) (final_port : Z) : M World (option path_t) :=
  path ← (if bool_decide (src = dst) then mret (Some [src])
          else
            path ← get_raw_path src dst;
            mret (match path with Some path => Some ([src] ++ path ++ [dst]) | None => None end));
  match path with
  | None => mret None
  | Some path =>
      m ← get_multi;
      let r := cooked (m_adjacency m) path dst final_port in
      if check_path (m_adjacency m) r then mret (Some r) else raise AssertionError
  end.

(** ** Flows *)

Definition path_flow (port : option Z) (m : ofp_match) (buf : Z) : ofp_flow_mod :=
  flow_mod m 10 30 buf [AOutput (ActOutput OFPAT_OUTPUT 8 port 0xffff)].
Definition install (sw : dpid) (port : option Z) (m : ofp_match) (buf : Z) : M World unit :=
  '_ ← send_switch sw (ofp_flow_mod_pack true) (path_flow port m buf); mret tt.
Fixpoint install_each (p : path_t) (m : ofp_match) : M World unit :=
  match p with
  | [] => mret tt
  | (sw, port) :: p => '_ ← install sw port m (-1); install_each p m
  end.
(** [_install_path]: the other switches first, the one with the buffer last. *)
Definition install_path (p : path_t) (m : ofp_match) (buffer_id : Z) : M World unit :=
  '_ ← install_each (tail p) m;
  match p with
  | (sw, port) :: _ => '_ ← install sw port m buffer_id; on_path p
  | [] => raise IndexError
  end.

(** The error for an IP packet that has no path: an ICMP message that quotes it, from an
    address made of the datapath id. *)
Definition unreachable (key : dpid) (s : MultiSwitch) (m : ofp_match) (orig : payload) : M pstate bytes :=
  text ← lift (dpidToStr (sw_dpid s));
  src ← lift (EthAddr_init (EBytes text));
  dst ← match g_dl_src m with Some a => mret a | None => raise AttributeError end;
  id ← next_ip_id;
  let h := ipv4_init id in
  srcip ← match g_nw_dst m with Some a => mret a | None => raise AttributeError end;
  dstip ← match g_nw_src m with Some a => mret a | None => raise AttributeError end;
  d ← lift (pack None orig).1;
  hl ← match orig with PPacket _ (LIpv4 o) _ => mret (ip_hl o) | _ => raise AttributeError end;
  u ← lift (struct_pack "!HH" [0; 0]);
  let icmp := PPacket None (LIcmp (Icmp 3 1 0)) (PBytes (u ++ slice d 0 (hl * 4 + 8))) in
  let ipp := PPacket (Some false)
    (LIpv4 (Ipv4 (ip_v h) (ip_hl h) (ip_tos h) (ip_iplen h) (ip_id h) (ip_flags h) (ip_frag h) (ip_ttl h) 1 (ip_csum h) srcip dstip))
    icmp in
  lift (ethernet_pack (Ethernet dst (HwEth src) 0x0800 ipp false)).1.

(** [Switch.install_path]. *)
Definition install_path_to (key dst_sw : dpid) (last_port : Z) (m : ofp_match) (packet : ethernet) (ofp : ofp_packet_in)
    : M World unit :=
  p ← get_path key dst_sw last_port;
  match p with
  | Some p => install_path p m (pi_buffer_id ofp)
  | None =>
      orig ← (if bool_decide (g_dl_type m = Some 0x0800) then lift (eth_find "ipv4" packet) else mret None);
      match orig with
      | Some (inr orig) =>
          s ← get_switch key;
          data ← zoom w_ps w_set_ps (unreachable key s m orig);
          '_ ← send_switch key (ofp_packet_out_pack true)
                 (PacketOut (po_hdr ofp_packet_out_init) (po_buffer_id ofp_packet_out_init) (po_in_port ofp_packet_out_init)
                    [action_output (pi_in_port ofp)] data);
          mret tt
      | _ => mret tt
      end
  end.

(** ** Packets *)

Definition flood_packet (key : dpid) (ofp : ofp_packet_in) : M World unit :=
  '_ ← send_switch key (ofp_packet_out_pack true) (packet_out (pi_buffer_id ofp) (pi_in_port ofp) [action_output OFPP_FLOOD]);
  mret tt.
(** [drop] marks the buffer as dead in the message that all handlers of the event share. *)
Definition kill_buffer (b : Z) (ofp : ofp_packet_in) : ofp_packet_in :=
  PacketIn (pi_hdr ofp) (pi_in_port ofp) b (pi_reason ofp) (pi_data ofp) (pi_total_len ofp).
Definition drop_packet (key : dpid) (ofp : ofp_packet_in) : M World ofp_packet_in :=
  if negb (pi_buffer_id ofp =? -1) then
    '_ ← send_switch key (ofp_packet_out_pack true) (packet_out (pi_buffer_id ofp) (pi_in_port ofp) []);
    mret (kill_buffer (-1) ofp)
  else mret ofp.

Definition learn_mac (mac : hwaddr) (loc : dpid * Z) : M World unit :=
  multicast ← lift (eth_test isMulticast mac);
  if multicast : bool then mret tt
  else modify_multi (fun m => set_m_mac_map (<[hw_raw mac := loc]> (m_mac_map m)) m).

(** What the place [loc] of an address does to [mac_map]; the messages for the log format
    datapath ids. *)
Definition connection_dpid (key : dpid) : M World dpid :=
  s ← get_switch key;
  match sw_connection s with
  | None => raise AttributeError
  | Some con => w ← get; mret (con_dpid (the_con con w))
  end.
Definition place (packet : ethernet) (loc : dpid * Z) : M World unit :=
  m ← get_multi;
  match m_mac_map m !! hw_raw (eth_src packet) with
  | None => learn_mac (eth_src packet) loc
  | Some oldloc =>
      if bool_decide (oldloc = loc) then mret tt
      else if negb (bool_decide (loc.2 ∈ (map_to_list (default ∅ (m_adjacency m !! loc.1))).*2)) then
        old ← connection_dpid oldloc.1; '_ ← lift (dpidToStr old);
        new ← connection_dpid loc.1; '_ ← lift (dpidToStr new);
        learn_mac (eth_src packet) loc
      else
        multicast ← lift (eth_test isMulticast (eth_dst packet));
        if multicast : bool then mret tt
        else s ← get_switch loc.1; '_ ← lift (dpidToStr (sw_dpid s)); mret tt
  end.

(** [Switch._handle_PacketIn]; the message as it is left. *)
Definition switch_PacketIn (key : dpid) (packet : ethernet) (ofp : ofp_packet_in) : M World ofp_packet_in :=
  if eth_type packet =? LLDP_TYPE then drop_packet key ofp
  else
    '_ ← place packet (key, pi_in_port ofp);
    multicast ← lift (eth_test isMulticast (eth_dst packet));
    if multicast : bool then '_ ← flood_packet key ofp; mret ofp
    else
      m ← get_multi;
      match m_mac_map m !! hw_raw (eth_dst packet) with
      | None => '_ ← flood_packet key ofp; mret ofp
      | Some dest =>
          match_ ← lift (from_packet packet None);
          '_ ← install_path_to key dest.1 dest.2 match_ packet ofp;
          mret ofp
      end.

(** ** Connections *)

Definition alter_switch (key : dpid) (f : MultiSwitch -> MultiSwitch) : M World unit :=
  modify_multi (fun m => set_m_switches (alter f key (m_switches m)) m).

(** [Switch.disconnect]: [removeListeners] takes away what [connect] added. *)
Definition switch_disconnect (key : dpid) : M World unit :=
  s ← get_switch key;
  match sw_connection s with
  | None => mret tt
  | Some con =>
      '_ ← modify_multi (fun m => set_m_listening (List.filter (fun x => negb (bool_decide (x = (con, key)))) (m_listening m)) m);
      alter_switch key (fun s => MkMultiSwitch None (sw_ports s) (sw_dpid s))
  end.

(** [Switch.connect]. *)
Definition switch_connect (key : dpid) (con : Z) : M World unit :=
  c ← get_con con;
  '_ ← alter_switch key (fun s => MkMultiSwitch (sw_connection s) (sw_ports s)
         (match sw_dpid s with None => con_dpid c | d => d end));
  s ← get_switch key;
  if negb (bool_decide (sw_dpid s = con_dpid c)) then raise AssertionError
  else
    '_ ← match sw_ports s with
         | Some _ => mret tt
         | None =>
             match con_features c with
             | None => raise AttributeError
             | Some f => alter_switch key (fun s => MkMultiSwitch (sw_connection s) (Some (fy_ports f)) (sw_dpid s))
             end
         end;
    '_ ← switch_disconnect key;
    '_ ← alter_switch key (fun s => MkMultiSwitch (Some con) (sw_ports s) (sw_dpid s));
    modify_multi (fun m => set_m_listening (m_listening m ++ [(con, key)]) m).

(** [l2_multi._handle_ConnectionUp]. *)
Definition multi_ConnectionUp (con : Z) : M World unit :=
  c ← get_con con;
  m ← get_multi;
  '_ ← match m_switches m !! con_dpid c with
       | Some _ => mret tt
       | None => modify_multi (fun m => set_m_switches (<[con_dpid c := MkMultiSwitch None None None]> (m_switches m)) m)
       end;
  switch_connect (con_dpid c) con.

(** ** Links *)

(** The same message goes to every switch: packing gives it its [xid] once. *)
Definition clear_message : ofp_flow_mod :=
  FlowMod (fm_hdr ofp_flow_mod_init) ofp_match_init (fm_cookie ofp_flow_mod_init) OFPFC_DELETE
    (fm_idle_timeout ofp_flow_mod_init) (fm_hard_timeout ofp_flow_mod_init) (fm_priority ofp_flow_mod_init)
    (fm_buffer_id ofp_flow_mod_init) (fm_out_port ofp_flow_mod_init) (fm_flags ofp_flow_mod_init)
    (fm_actions ofp_flow_mod_init).
Fixpoint send_all (keys : list dpid) (clear : ofp_flow_mod) : M World unit :=
  match keys with
  | [] => mret tt
  | key :: keys => clear ← send_switch key (ofp_flow_mod_pack true) clear; send_all keys clear
  end.

(** [l2_multi._handle_LinkEvent]. *)
Definition multi_LinkEvent (added : bool) (l : Link) : M World unit :=
  '_ ← get_switch (dpid1 l);
  '_ ← get_switch (dpid2 l);
  m ← get_multi;
  '_ ← send_all (map_to_list (m_switches m)).*1 clear_message;
  '_ ← modify_multi (set_m_path_map ∅);
  d ← get_disc;
  if added then
    '_ ← modify_multi (fun m => set_m_adjacency (link_added (d_adjacency d) l (m_adjacency m)) m);
    modify_multi (fun m => set_m_mac_map (unlearn l (m_mac_map m)) m)
  else modify_multi (fun m => set_m_adjacency (link_removed (d_adjacency d) l (m_adjacency m)) m).

(** ** The listeners *)

(** The handlers that listen to connection [con]. *)
Definition listening (con : Z) (m : Multi) : list dpid :=
  (List.filter (fun x => bool_decide (x.1 = con)) (m_listening m)).*2.
Fixpoint each_listening (keys : list dpid) (packet : ethernet) (ofp : ofp_packet_in) : M World unit :=
  match keys with
  | [] => mret tt
  | key :: keys => ofp ← switch_PacketIn key packet ofp; each_listening keys packet ofp
  end.
Fixpoint each_disconnect (keys : list dpid) : M World unit :=
  match keys with
  | [] => mret tt
  | key :: keys => '_ ← switch_disconnect key; each_disconnect keys
  end.

(** [l2_multi] listens with a priority, so before discovery. *)
Definition multi_listener (src : source) (con : Z) (e : event) : M World unit :=
  match src, e with
  | Nexus, EvConnectionUp _ =>
      '_ ← multi_ConnectionUp con;
      discovery_listener others PIPE_BUF sock_send nested multi_LinkEvent src con e
  | OnCon id, EvPacketIn ofp =>
      m ← get_multi;
      match listening id m with
      | [] => mret tt
      | keys =>
          packet ← zoom w_ps w_set_ps (ethernet_new (pi_data ofp));
          each_listening keys packet ofp
      end
  | OnCon id, EvConnectionDown => m ← get_multi; each_disconnect (listening id m)
  | _, _ => discovery_listener others PIPE_BUF sock_send nested multi_LinkEvent src con e
  end.
End multi.
