(* ===== verification/L2MultiTheory.v ===== *)
(** The paths of [l2_multi]: [_calc_paths] finds the distance between all switches,
    [_get_raw_path] ends with a shortest path, and the adjacency it works on mirrors the
    links of discovery. *)
From S2P Require Import Prelude.
From S2P Require Import Steps.
From S2P Require Import PyStruct.
From S2P Require Import Addresses.
From S2P Require Import OfConst.
From S2P Require Import Wire.
From S2P Require Import OfBase.
From S2P Require Import OfMatch.
From S2P Require Import MatchTheory.
From S2P Require Import OfMessages.
From S2P Require Import Packets.
From S2P Require Import PacketCodec.
From S2P Require Import Controller.
From S2P Require Import Connection.
From S2P Require Import ControllerTheory.
From S2P Require Import OfActions.
From S2P Require Import L2Learning.
From S2P Require Import L2Theory.
From S2P Require Import Discovery.
From S2P Require Import SpanningTree.
From S2P Require Import SpanningTheory.
From S2P Require Import L2Multi.

Implicit Types (adj : ports_t) (pm : paths_t).

(** * The two maps *)

Lemma path_get_set pm i j e a b :
  path_get (path_set pm i j e) a b = if decide ((a, b) = (i, j)) then Some e else path_get pm a b.
Proof.
  unfold path_get, path_set. destruct (decide (a = i)) as [->|Ha].
  - rewrite lookup_insert_eq. cbn [mbind option_bind]. destruct (decide (b = j)) as [->|Hb].
    + by rewrite lookup_insert_eq, decide_True.
    + rewrite lookup_insert_ne, decide_False by congruence. by destruct (pm !! i).
  - by rewrite lookup_insert_ne, decide_False by congruence.
Qed.
Lemma port_to_set adj a b p x y :
  port_to (set_port adj a b p) x y = if decide ((x, y) = (a, b)) then Some p else port_to adj x y.
Proof.
  unfold port_to, set_port. destruct (decide (x = a)) as [->|Ha].
  - rewrite lookup_insert_eq. cbn [mbind option_bind]. destruct (decide (y = b)) as [->|Hb].
    + by rewrite lookup_insert_eq, decide_True.
    + rewrite lookup_insert_ne, decide_False by congruence. by destruct (adj !! a).
  - by rewrite lookup_insert_ne, decide_False by congruence.
Qed.
Lemma port_to_del adj a b x y :
  port_to (del_port adj a b) x y = if decide ((x, y) = (a, b)) then None else port_to adj x y.
Proof.
  unfold port_to, del_port. destruct (decide (x = a)) as [->|Ha].
  - rewrite lookup_insert_eq. cbn [mbind option_bind]. destruct (decide (y = b)) as [->|Hb].
    + by rewrite lookup_delete_eq, decide_True.
    + rewrite lookup_delete_ne, decide_False by congruence. by destruct (adj !! a).
  - by rewrite lookup_insert_ne, decide_False by congruence.
Qed.

(** * Distances *)

(** A walk of [n] hops, through switches of [K] only. *)
Inductive via {V} (E : relation V) (K : list V) : nat -> relation V :=
  | via_nil i : via E K 0 i i
  | via_edge i j : E i j -> via E K 1 i j
  | via_cons i x j n : E i x -> x ∈ K -> via E K n x j -> via E K (S n) i j.

Lemma via_mono {V} (E : relation V) K K' n i j : K ⊆ K' -> via E K n i j -> via E K' n i j.
Proof. intros HK. induction 1; [constructor|by constructor|]. econstructor; eauto. Qed.

(** A walk through [k] is one to [k] and one from it, with [k] left out of both. *)
Lemma via_split {V} (E : relation V) k K n i j : via E (k :: K) n i j ->
  (exists m, (m <= n)%nat /\ via E K m i j) \/
  (exists a b, (a + b <= n)%nat /\ via E K a i k /\ via E K b k j).
Proof.
  induction 1 as [i|i j H|i x j n H Hx _ IH].
  - left. exists 0%nat. split; [lia|constructor].
  - left. exists 1%nat. split; [lia|by constructor].
  - apply elem_of_cons in Hx as [->|Hx].
    + right. destruct IH as [(m & Hm & Hv)|(a & b & Hab & _ & Hb)].
      * exists 1%nat, m. split; [lia|]. split; [by constructor|done].
      * exists 1%nat, b. split; [lia|]. split; [by constructor|done].
    + destruct IH as [(m & Hm & Hv)|(a & b & Hab & Ha & Hb)].
      * left. exists (S m). split; [lia|]. by apply via_cons with x.
      * right. exists (S a), b. split; [lia|]. split; [by apply via_cons with x|done].
Qed.

Section paths.
Context (adj : ports_t) (sws : list dpid).
Definition next_to (i j : dpid) : Prop := is_Some (port_to adj i j).
Hypothesis Hends : forall i j, next_to i j -> i ∈ sws /\ j ∈ sws.

(** What is always true of [path_map]: every entry is the length of a walk, and says how
    the walk goes. *)
Record sound pm : Prop := {
  sd_walk i j d : dist pm i j = Some d -> 0 <= d /\ i ∈ sws /\ j ∈ sws /\ nsteps next_to (Z.to_nat d) i j;
  sd_here i : i ∈ sws -> path_get pm i i = Some (0, None)
}.
Record sane pm : Prop := {
  sn_sound : sound pm;
  sn_edge i j d : path_get pm i j = Some (d, None) -> i <> j -> next_to i j;
  sn_via i j d m : path_get pm i j = Some (d, Some m) -> i <> m /\ m <> j /\
    exists a b, dist pm i m = Some a /\ dist pm m j = Some b /\ a + b <= d
}.

(** Distances only shrink. *)
Definition better pm pm' : Prop := forall i j d, dist pm i j = Some d -> exists d', dist pm' i j = Some d' /\ d' <= d.
(** The row and the column of [k] stay as they are. *)
Definition fixed (k : dpid) pm pm' : Prop :=
  forall x, path_get pm' k x = path_get pm k x /\ path_get pm' x k = path_get pm x k.
(** The way through [k] has been looked at. *)
Definition through (k i j : dpid) pm0 pm : Prop := forall a b, dist pm0 i k = Some a -> dist pm0 k j = Some b ->
  exists c, dist pm i j = Some c /\ c <= a + b.

Lemma better_refl pm : better pm pm.
Proof. intros i j d H. exists d. by split. Qed.
Lemma better_trans pm1 pm2 pm3 : better pm1 pm2 -> better pm2 pm3 -> better pm1 pm3.
Proof. intros H1 H2 i j d H. destruct (H1 i j d H) as (d' & H' & ?). destruct (H2 i j d' H') as (d'' & ? & ?). exists d''. split; [done|lia]. Qed.
Lemma fixed_trans k pm1 pm2 pm3 : fixed k pm1 pm2 -> fixed k pm2 pm3 -> fixed k pm1 pm3.
Proof. intros H1 H2 x. destruct (H1 x) as [<- <-]. apply H2. Qed.
Lemma through_better k i j pm0 pm pm' : through k i j pm0 pm -> better pm pm' -> through k i j pm0 pm'.
Proof. intros Ht Hb a b Ha Hb'. destruct (Ht a b Ha Hb') as (c & Hc & ?). destruct (Hb i j c Hc) as (c' & ? & ?). exists c'. split; [done|lia]. Qed.
Lemma fixed_dist k pm pm' : fixed k pm pm' -> forall x, dist pm' x k = dist pm x k /\ dist pm' k x = dist pm k x.
Proof. intros H x. unfold dist. by destruct (H x) as [-> ->]. Qed.

Lemma dist_here pm i : sound pm -> i ∈ sws -> dist pm i i = Some 0.
Proof. intros H Hi. unfold dist. by rewrite (sd_here _ H i Hi). Qed.
Lemma dist_pos pm i j d : sound pm -> dist pm i j = Some d -> i <> j -> 1 <= d.
Proof.
  intros H Hd Hne. destruct (sd_walk _ H _ _ _ Hd) as (? & _ & _ & Hw). destruct (decide (d = 0)) as [->|]; [|lia].
  by inversion Hw.
Qed.

(** An improved entry. *)
Section improve.
Context (pm : paths_t) (i j k : dpid) (a b : Z).
Hypothesis Hs : sane pm.
Hypothesis Ha : dist pm i k = Some a.
Hypothesis Hb : dist pm k j = Some b.
Hypothesis Hlt : forall c, dist pm i j = Some c -> a + b < c.
Let pm' : paths_t := path_set pm i j (a + b, Some k).

Lemma improve_ne : i <> k /\ j <> k /\ i <> j.
Proof.
  pose proof (sn_sound _ Hs) as Hw.
  destruct (sd_walk _ Hw _ _ _ Ha) as (Ha0 & Hi & Hk & _). destruct (sd_walk _ Hw _ _ _ Hb) as (Hb0 & _ & Hj & _).
  split; [|split]; intros E; subst.
  - rewrite (dist_here pm k Hw Hk) in Ha. injection Ha as <-. specialize (Hlt b Hb). lia.
  - rewrite (dist_here pm k Hw Hk) in Hb. injection Hb as <-. specialize (Hlt a Ha). lia.
  - specialize (Hlt 0 (dist_here pm j Hw Hj)). lia.
Qed.
Lemma improve_better : better pm pm'.
Proof.
  intros x y d H. unfold dist, pm'. rewrite path_get_set. destruct (decide ((x, y) = (i, j))) as [[= -> ->]|].
  - exists (a + b). split; [done|]. specialize (Hlt d H). lia.
  - exists d. by split.
Qed.
Lemma improve_fixed : fixed k pm pm'.
Proof. destruct improve_ne as (? & ? & ?). intros x. unfold pm'. rewrite !path_get_set, !decide_False by congruence. done. Qed.
Lemma improve_sound : sound pm'.
Proof.
  pose proof (sn_sound _ Hs) as Hw. destruct improve_ne as (Hik & Hjk & Hij).
  destruct (sd_walk _ Hw _ _ _ Ha) as (Ha0 & Hi & Hk & Wa). destruct (sd_walk _ Hw _ _ _ Hb) as (Hb0 & _ & Hj & Wb). split.
  - intros x y d. unfold dist, pm'. rewrite path_get_set. destruct (decide ((x, y) = (i, j))) as [[= -> ->]|]; [|apply (sd_walk _ Hw)].
    intros [= <-]. split; [lia|]. split; [done|]. split; [done|]. rewrite Z2Nat.inj_add by lia. by eapply nsteps_trans.
  - intros x Hx. unfold pm'. rewrite path_get_set, decide_False by congruence. by apply (sd_here _ Hw).
Qed.
Lemma improve_sane : sane pm'.
Proof.
  destruct improve_ne as (Hik & Hjk & Hij). split; [apply improve_sound| |].
  - intros x y d. unfold pm'. rewrite path_get_set. destruct (decide _); [done|]. apply (sn_edge _ Hs).
  - intros x y d m. unfold pm' at 1. rewrite path_get_set. destruct (decide ((x, y) = (i, j))) as [[= -> ->]|].
    + intros [= <- <-]. split; [done|]. split; [done|]. exists a, b. destruct (fixed_dist k pm pm' improve_fixed i) as [-> _].
      destruct (fixed_dist k pm pm' improve_fixed j) as [_ ->]. done.
    + intros H. destruct (sn_via _ Hs _ _ _ _ H) as (Hxm & Hmy & a' & b' & Ha' & Hb' & Hab). split; [done|]. split; [done|].
      destruct (improve_better _ _ _ Ha') as (a2 & Ha2 & ?). destruct (improve_better _ _ _ Hb') as (b2 & Hb2 & ?).
      exists a2, b2. split; [done|]. split; [done|]. lia.
Qed.
End improve.

Lemma relax_step pm k i j : sane pm ->
  let pm' := relax pm k i j in sane pm' /\ better pm pm' /\ fixed k pm pm' /\ through k i j pm pm'.
Proof.
  intros Hs. unfold relax. destruct (dist pm i k) as [a|] eqn:Ha.
  2: { split; [done|]. split; [apply better_refl|]. split; [done|]. intros a b H. congruence. }
  destruct (dist pm k j) as [b|] eqn:Hb.
  2: { split; [done|]. split; [apply better_refl|]. split; [done|]. intros a' b _ H. congruence. }
  destruct (dist pm i j) as [c|] eqn:Hc; [destruct (Z.ltb_spec (a + b) c)|].
  2: { split; [done|]. split; [apply better_refl|]. split; [done|]. intros a' b' H1 H2. exists c. split; [done|]. simplify_eq. lia. }
  all: assert (forall c, dist pm i j = Some c -> a + b < c) as Hlt by (intros c' Hc'; simplify_eq; done).
  all: split; [by apply improve_sane|]; split; [by apply improve_better|]; split; [by apply improve_fixed|].
  all: intros a' b' H1 H2; exists (a + b); unfold dist; rewrite path_get_set, decide_True by done; split; [done|]; simplify_eq; lia.
Qed.

(** ** The loops *)

Lemma through_fixed k i j pm0 pm1 pm : fixed k pm0 pm1 -> through k i j pm1 pm -> through k i j pm0 pm.
Proof. intros Hf Ht a b. destruct (fixed_dist _ _ _ Hf i) as [<- _], (fixed_dist _ _ _ Hf j) as [_ <-]. apply Ht. Qed.

Lemma relax_row_spec k i l pm : sane pm -> let pm' := relax_row l k pm i in
  sane pm' /\ better pm pm' /\ fixed k pm pm' /\ forall j, j ∈ l -> through k i j pm pm'.
Proof.
  revert pm; induction l as [|j l IH]; intros pm Hs.
  { split; [done|]. split; [apply better_refl|]. split; [done|]. intros j Hj. by apply not_elem_of_nil in Hj. }
  unfold relax_row. cbn [foldl]. destruct (relax_step pm k i j Hs) as (S1 & B1 & F1 & T1).
  destruct (IH _ S1) as (S2 & B2 & F2 & T2). split; [exact S2|]. split; [by eapply better_trans|]. split; [by eapply fixed_trans|].
  intros x [->|Hx]%elem_of_cons; [by eapply through_better|]. eapply through_fixed; [exact F1|]. by apply T2.
Qed.

Lemma relax_rows_spec k l l' pm : sane pm -> let pm' := foldl (relax_row l k) pm l' in
  sane pm' /\ better pm pm' /\ fixed k pm pm' /\ forall i j, i ∈ l' -> j ∈ l -> through k i j pm pm'.
Proof.
  revert pm; induction l' as [|i l' IH]; intros pm Hs.
  { split; [done|]. split; [apply better_refl|]. split; [done|]. intros i j Hi. by apply not_elem_of_nil in Hi. }
  cbn [foldl]. destruct (relax_row_spec k i l pm Hs) as (S1 & B1 & F1 & T1).
  destruct (IH _ S1) as (S2 & B2 & F2 & T2). split; [exact S2|]. split; [by eapply better_trans|]. split; [by eapply fixed_trans|].
  intros x j [->|Hx]%elem_of_cons Hj; [by eapply through_better, B2; apply T1|]. eapply through_fixed; [exact F1|]. by apply T2.
Qed.

(** Walks through the switches of [K] are taken into account. *)
Definition complete (K : list dpid) pm : Prop := forall n i j, i ∈ sws -> via next_to K n i j ->
  exists d, dist pm i j = Some d /\ d <= Z.of_nat n.

Lemma via_end K n i j : i ∈ sws -> via next_to K n i j -> j ∈ sws.
Proof. intros Hi. induction 1 as [|i j H|i x j n H Hx _ IH]; [done|by apply (Hends i j)|]. by apply IH, (Hends i x). Qed.

Lemma relax_all_spec K k pm : k ∈ sws -> sane pm -> complete K pm ->
  sane (relax_all sws pm k) /\ complete (k :: K) (relax_all sws pm k).
Proof.
  intros Hk Hs Hc. destruct (relax_rows_spec k sws sws pm Hs) as (S1 & B1 & F1 & T1). split; [exact S1|].
  intros n i j Hi Hv. pose proof (via_end _ _ _ _ Hi Hv) as Hj.
  destruct (via_split _ _ _ _ _ _ Hv) as [(m & Hm & Hv')|(a & b & Hab & Va & Vb)].
  - destruct (Hc m i j Hi Hv') as (d & Hd & ?). destruct (B1 _ _ _ Hd) as (d' & ? & ?). exists d'. split; [done|lia].
  - destruct (Hc a i k Hi Va) as (da & Hda & ?). destruct (Hc b k j Hk Vb) as (db & Hdb & ?).
    destruct (T1 i j Hi Hj da db Hda Hdb) as (c & Hcc & ?). exists c. split; [exact Hcc|lia].
Qed.

Lemma start_paths_get l i j : path_get (start_paths adj l) i j =
  if decide (i ∈ l) then
    if decide (j = i) then Some (0, None)
    else match port_to adj i j with Some _ => Some (1, None) | None => None end
  else None.
Proof.
  unfold start_paths. rewrite <-(rev_involutive l). generalize (rev l) as l'. intros l'.
  induction l' as [|x l' IH]; [by rewrite decide_False by apply not_elem_of_nil|].
  cbn [rev]. rewrite foldl_app. cbn [foldl]. unfold path_get at 1. destruct (decide (i = x)) as [->|Hne].
  - rewrite lookup_insert_eq. rewrite (decide_True (P := x ∈ _)) by (apply elem_of_app; right; by left).
    cbn [mbind option_bind]. unfold start_row, port_to. destruct (decide (j = x)) as [->|Hj]; [by rewrite lookup_insert_eq|].
    rewrite lookup_insert_ne by done. rewrite lookup_fmap. destruct (adj !! x) as [row|]; cbn; [by destruct (row !! j)|done].
  - rewrite lookup_insert_ne by done. fold (path_get (foldl (fun pm k => <[k:=start_row adj k]> pm) ∅ (rev l')) i j). rewrite IH.
    apply decide_ext. rewrite elem_of_app, list_elem_of_singleton. tauto.
Qed.

Lemma start_sane : sane (start_paths adj sws).
Proof.
  split; [split|..].
  - intros i j d. unfold dist. rewrite start_paths_get. destruct (decide (i ∈ sws)); [|done].
    destruct (decide (j = i)) as [->|]; [intros [= <-]; split; [lia|]; split; [done|]; split; [done|constructor]|].
    destruct (port_to adj i j) eqn:E; [|done]. intros [= <-]. assert (next_to i j) as H by (unfold next_to; by rewrite E).
    split; [lia|]. split; [done|]. split; [by apply (Hends i j)|]. by apply nsteps_once.
  - intros i Hi. by rewrite start_paths_get, !decide_True.
  - intros i j d. rewrite start_paths_get. destruct (decide (i ∈ sws)); [|done]. destruct (decide (j = i)) as [->|]; [done|].
    intros H _. unfold next_to. by destruct (port_to adj i j).
  - intros i j d m. rewrite start_paths_get. destruct (decide (i ∈ sws)); [|done]. destruct (decide (j = i)) as [->|]; [done|].
    by destruct (port_to adj i j).
Qed.
Lemma start_complete : complete [] (start_paths adj sws).
Proof.
  intros n i j Hi Hv. unfold dist. rewrite start_paths_get, decide_True by done.
  inversion Hv as [|? ? H|? x ? ? ? Hx]; subst; [|destruct (decide (j = i)); [|destruct H as [p ->]]|by apply not_elem_of_nil in Hx].
  - rewrite decide_True by done. by exists 0.
  - by exists 0.
  - by exists 1.
Qed.

Lemma calc_paths_spec : sane (calc_paths adj sws) /\ complete sws (calc_paths adj sws).
Proof.
  unfold calc_paths. assert (forall l K pm, l ⊆ sws -> sane pm -> complete K pm ->
    sane (foldl (relax_all sws) pm l) /\ complete (rev l ++ K) (foldl (relax_all sws) pm l)) as Hl.
  { induction l as [|k l IH]; intros K pm Hl Hs Hc; [done|]. cbn [foldl].
    destruct (relax_all_spec K k pm) as [S1 C1]; [apply Hl; by left|done|done|].
    destruct (IH (k :: K) _ ltac:(intros x Hx; apply Hl; by right) S1 C1) as [S2 C2]. split; [done|].
    cbn [rev]. by rewrite <-app_assoc. }
  destruct (Hl sws [] _ ltac:(done) start_sane start_complete) as [S C]. split; [done|].
  intros n i j Hi Hv. apply (C n i j Hi). eapply via_mono; [|exact Hv]. intros x Hx. rewrite app_nil_r.
  apply list_elem_of_In, in_rev. rewrite rev_involutive. by apply list_elem_of_In.
Qed.

Lemma nsteps_via n i j : nsteps next_to n i j -> via next_to sws n i j.
Proof.
  induction 1 as [i|n i x j H Hn IH]; [constructor|]. apply via_cons with x; [done|by apply (Hends i x)|done].
Qed.

(** The distance: as many hops as the shortest walk has. *)
Definition distance (i j : dpid) (d : Z) : Prop :=
  0 <= d /\ nsteps next_to (Z.to_nat d) i j /\ forall n, nsteps next_to n i j -> d <= Z.of_nat n.

Lemma calc_paths_distance i j : i ∈ sws ->
  match dist (calc_paths adj sws) i j with
  | Some d => distance i j d
  | None => ~ rtc next_to i j
  end.
Proof.
  intros Hi. destruct calc_paths_spec as [Hs Hc]. destruct (dist _ i j) as [d|] eqn:E.
  - destruct (sd_walk _ (sn_sound _ Hs) _ _ _ E) as (Hd & _ & _ & Hw). split; [done|]. split; [done|].
    intros n Hn. destruct (Hc n i j Hi (nsteps_via _ _ _ Hn)) as (d' & Hd' & ?). simplify_eq. lia.
  - intros Hr. apply rtc_nsteps in Hr as [n Hn]. destruct (Hc n i j Hi (nsteps_via _ _ _ Hn)) as (d' & Hd' & ?). congruence.
Qed.

(** ** One path *)

(** Each switch of the list is next to the one before. *)
Fixpoint hops (l : list dpid) : Prop :=
  match l with
  | i :: ((j :: _) as l') => next_to i j /\ hops l'
  | _ => True
  end.
Lemma hops_app l1 x l2 : hops (l1 ++ [x]) -> hops (x :: l2) -> hops (l1 ++ x :: l2).
Proof.
  induction l1 as [|i l1 IH]; intros H1 H2; [done|]. destruct l1 as [|j l1]; cbn in *; [by destruct H1|].
  destruct H1 as [? H1]. split; [done|]. by apply IH.
Qed.
Lemma hops_tail l1 l2 : hops (l1 ++ l2) -> hops l2.
Proof.
  induction l1 as [|i l1 IH]; [done|]. cbn [app]. intros H. apply IH. destruct (l1 ++ l2); [done|]. by destruct H.
Qed.
Lemma hops_init l1 x l2 : hops (l1 ++ x :: l2) -> hops (l1 ++ [x]).
Proof.
  induction l1 as [|i l1 IH]; [done|]. destruct l1 as [|j l1]; cbn in *; [by intros [? _]|]. intros [? H]. split; [done|]. by apply IH.
Qed.
Lemma hops_steps i l j : hops (i :: l ++ [j]) -> nsteps next_to (S (length l)) i j.
Proof.
  revert i; induction l as [|x l IH]; intros i; cbn [app hops length]; [intros [H _]; by apply nsteps_once|].
  intros [H Hl]. eapply nsteps_l; [exact H|]. by apply IH.
Qed.

Lemma raw_path_spec pm : sane pm -> forall fuel i j d, dist pm i j = Some d -> d <= Z.of_nat fuel -> i <> j ->
  exists l, raw_path fuel pm i j = Ok (Some l) /\ hops (i :: l ++ [j]) /\ Z.of_nat (S (length l)) <= d.
Proof.
  intros Hs. pose proof (sn_sound _ Hs) as Hw. induction fuel as [|fuel IH]; intros i j d Hd Hf Hne.
  { pose proof (dist_pos pm i j d Hw Hd Hne). lia. }
  pose proof (dist_pos pm i j d Hw Hd Hne). cbn [raw_path]. rewrite bool_decide_false by done.
  unfold dist in Hd. destruct (path_get pm i j) as [[d' [m|]]|] eqn:E; [|..|done]; cbn in Hd; injection Hd as ->.
  - destruct (sn_via _ Hs _ _ _ _ E) as (Him & Hmj & a & b & Ha & Hb & Hab).
    pose proof (dist_pos pm i m a Hw Ha Him). pose proof (dist_pos pm m j b Hw Hb Hmj).
    destruct (IH i m a Ha ltac:(lia) Him) as (la & -> & Hla & La). destruct (IH m j b Hb ltac:(lia) Hmj) as (lb & Elb & Hlb & Lb).
    cbn [mbind res_bind py_add]. rewrite Elb. cbn [mbind res_bind py_add]. exists ((la ++ [m]) ++ lb). split; [done|].
    rewrite <-!app_assoc. split; [by apply (hops_app (i :: la) m (lb ++ [j]))|]. rewrite !length_app. cbn [length]. lia.
  - exists []. split; [done|]. split; [split; [by apply (sn_edge _ Hs i j d)|done]|cbn; lia].
Qed.

Lemma raw_path_none pm fuel i j : dist pm i j = None -> i <> j -> raw_path fuel pm i j = Ok None.
Proof.
  intros Hd Hne. unfold dist in Hd. destruct fuel; cbn [raw_path]; rewrite bool_decide_false by done;
    by destruct (path_get pm i j).
Qed.

Lemma not_NoDup_split {V} `{EqDecision V} (l : list V) : ~ NoDup l -> exists l1 x l2 l3, l = l1 ++ x :: l2 ++ x :: l3.
Proof.
  induction l as [|y l IH]; intros H; [by destruct H; constructor|].
  destruct (decide (y ∈ l)) as [(l2 & l3 & ->)%list_elem_of_split|Hy]; [by exists [], y, l2, l3|].
  destruct IH as (l1 & x & l2 & l3 & ->); [intros Hl; apply H; by constructor|]. by exists (y :: l1), x, l2, l3.
Qed.

(** A shortest path meets no switch twice. *)
Lemma shortest_NoDup i l j d : i <> j -> hops (i :: l ++ [j]) -> distance i j d -> Z.of_nat (S (length l)) <= d ->
  NoDup (i :: l ++ [j]).
Proof.
  intros Hij Hh (_ & _ & Hmin) Hl. destruct (decide (NoDup (i :: l ++ [j]))) as [|Hn]; [done|]. exfalso.
  destruct (not_NoDup_split _ Hn) as (l1 & x & l2 & l3 & E).
  assert (hops (l1 ++ x :: l3)) as Hs.
  { rewrite E in Hh. apply hops_app; [by eapply hops_init|]. apply (hops_tail (l1 ++ x :: l2)). by rewrite <-app_assoc. }
  assert (length (l1 ++ x :: l3) < length (i :: l ++ [j]))%nat as Hlen by (rewrite E, !length_app; cbn; rewrite length_app; cbn; lia).
  assert (exists l', l1 ++ x :: l3 = i :: l' ++ [j]) as [l' E'].
  { assert (head (l1 ++ x :: l3) = Some i) as H1 by (destruct l1; cbn in *; by simplify_eq).
    assert (last (l1 ++ x :: l3) = Some j) as H2.
    { assert (last (i :: l ++ [j]) = Some j) as Hj by (rewrite app_comm_cons; by rewrite last_snoc).
      rewrite E in Hj. rewrite !last_app in Hj |- *. cbn in Hj |- *.
      rewrite last_cons, last_app in Hj. rewrite last_cons in Hj |- *. by destruct (last l3). }
    destruct (l1 ++ x :: l3) as [|i' r]; [done|]. injection H1 as ->. apply last_Some in H2 as [r' E2].
    destruct r' as [|i'' r']; [by injection E2 as -> ->|]. injection E2 as -> ->. by exists r'. }
  rewrite E' in Hs, Hlen. pose proof (Hmin _ (hops_steps _ _ _ Hs)). cbn [length] in Hlen. rewrite !length_app in Hlen. cbn in Hlen. lia.
Qed.
End paths.

(** * What [_get_path] answers *)

(** The switches that [adj] mentions are among [sws]. *)
Definition ends_in adj (sws : list dpid) : Prop := forall i j, next_to adj i j -> i ∈ sws /\ j ∈ sws.

(** [path_map] is empty, to be computed when it is needed, or it is what [_calc_paths] made of
    the adjacency as it is - of the switches that there were then. *)
Record paths_ok (m : Multi) : Prop := {
  po_ends : ends_in (m_adjacency m) (map_to_list (m_switches m)).*1;
  po_map : m_path_map m = ∅ \/ exists sws, ends_in (m_adjacency m) sws /\ m_path_map m = calc_paths (m_adjacency m) sws
}.

(** A path as [_install_path] gets it: loop-free, every switch but the last with the port to
    the next, the last with the port asked for, and as short as can be. *)
Record shortest_path adj (src dst : dpid) (port : Z) (p : path_t) : Prop := {
  sp_first : head p.*1 = Some src;
  sp_last : last p = Some (dst, Some port);
  sp_distinct : NoDup p.*1;
  sp_ports : check_path adj p = true;
  sp_hop i a b : p.*1 !! i = Some a -> p.*1 !! S i = Some b -> next_to adj a b;
  sp_shortest : distance adj src dst (zlen p - 1)
}.

Lemma cooked_nodes adj path dst port : last path = Some dst -> (cooked adj path dst port).*1 = path.
Proof.
  induction path as [|s1 path IH]; [done|]. destruct path as [|s2 path]; [by intros [= ->]|].
  intros H. cbn [cooked fmap list_fmap fst]. f_equal. apply IH. by rewrite last_cons_cons in H.
Qed.
Lemma cooked_checks adj path dst port : last path = Some dst -> check_path adj (cooked adj path dst port) = true.
Proof.
  induction path as [|s1 path IH]; [done|]. destruct path as [|s2 path]; [done|]. rewrite last_cons_cons. intros H.
  specialize (IH H). destruct path as [|s3 path]; cbn [check_path cooked] in *; [injection H as ->|];
    by rewrite bool_decide_true.
Qed.
Lemma cooked_last adj path dst port : last (cooked adj path dst port) = Some (dst, Some port).
Proof.
  induction path as [|s1 path IH]; [done|]. destruct path as [|s2 path]; [done|].
  cbn [cooked] in *. rewrite last_cons. by rewrite IH.
Qed.
Lemma hops_lookup adj l i a b : hops adj l -> l !! i = Some a -> l !! S i = Some b -> next_to adj a b.
Proof.
  revert i; induction l as [|x l IH]; intros i; [done|]. destruct l as [|y l]; [by destruct i|].
  intros [H Hl]. destruct i as [|i]; cbn; [by intros [= ->] [= ->]|]. by apply IH.
Qed.

Lemma cooked_shortest adj (src dst : dpid) port l : hops adj (src :: l) -> last (src :: l) = Some dst -> NoDup (src :: l) ->
  distance adj src dst (zlen l) -> shortest_path adj src dst port (cooked adj (src :: l) dst port).
Proof.
  intros Hh Hl Hn Hd. pose proof (cooked_nodes adj _ dst port Hl) as E. split.
  - by rewrite E.
  - apply cooked_last.
  - by rewrite E.
  - by apply cooked_checks.
  - intros i a b. rewrite E. by apply hops_lookup.
  - assert (zlen (cooked adj (src :: l) dst port) - 1 = zlen l) as ->; [|done].
    unfold zlen. rewrite <-(length_fmap fst), E. cbn [length]. lia.
Qed.

(** [calc_paths] on one pair, with what the recursion makes of it. *)
Lemma calc_paths_route adj sws (src dst : dpid) : ends_in adj sws -> src <> dst ->
  let pm := calc_paths adj sws in
  match raw_path (S (Z.to_nat (default 0 (dist pm src dst)))) pm src dst with
  | Ok (Some l) => hops adj (src :: l ++ [dst]) /\ NoDup (src :: l ++ [dst]) /\ distance adj src dst (zlen l + 1)
  | Ok None => ~ rtc (next_to adj) src dst
  | Err _ => False
  end.
Proof.
  intros He Hne pm. destruct (calc_paths_spec adj sws He) as [Hs _]. fold pm in Hs.
  pose proof (calc_paths_distance adj sws He src dst) as Hc. fold pm in Hc.
  destruct (dist pm src dst) as [d|] eqn:E.
  - assert (distance adj src dst d) as Hd by (apply Hc, (sd_walk _ _ _ (sn_sound _ _ _ Hs) _ _ _ E)).
    destruct (raw_path_spec adj sws pm Hs (S (Z.to_nat d)) src dst d E) as (l & El & Hh & Hlen); [lia|done|].
    cbn [from_option id]. rewrite El. split; [done|]. split; [by eapply shortest_NoDup|].
    assert (zlen l + 1 = d) as ->; [|done]. unfold zlen.
    destruct Hd as (_ & _ & Hmin). specialize (Hmin _ (hops_steps _ _ _ _ Hh)). lia.
  - rewrite raw_path_none by done. intros Hr. inversion Hr as [|? x ? Hx]; subst; [done|]. apply Hc; [by apply (He src x)|done].
Qed.

Section get_path.
Abbreviation World := (Controller.World (Disc Multi)).
Implicit Type w : World.

Lemma get_raw_path_spec w (src dst : dpid) : paths_ok (d_rest (w_app w)) -> src <> dst ->
  exists pm, let w' := (modify_multi (set_m_path_map pm) w).2 in
    get_raw_path src dst w =
      (raw_path (S (Z.to_nat (default 0 (dist pm src dst)))) pm src dst, w') /\ paths_ok (d_rest (w_app w')) /\
    exists sws, ends_in (m_adjacency (d_rest (w_app w))) sws /\ pm = calc_paths (m_adjacency (d_rest (w_app w))) sws.
Proof.
  intros [He Hm] Hne. unfold get_raw_path. rewrite bind_get || erewrite bind_ok by reflexivity.
  case_bool_decide as Hempty.
  - exists (calc_paths (m_adjacency (d_rest (w_app w))) (map_to_list (m_switches (d_rest (w_app w)))).*1).
    split; [done|]. split; [split; [done|right]|]; eexists; by split.
  - destruct Hm as [|(sws & Hs & E)]; [done|]. exists (m_path_map (d_rest (w_app w))).
    assert ((modify_multi (set_m_path_map (m_path_map (d_rest (w_app w)))) w).2 = w) as ->
      by (destruct w as [? ? ? ? ? ? ? ? ? [? ? ? ? ? ? []]]; done).
    split; [done|]. split; [split; [done|right]|]; eexists; by split.
Qed.

(** C7: What a path is.  While discovery's links join known switches, asking for a path never
    fails - the recursion ends, the assertion that the path fits the adjacency holds -
    changes nothing but the memoised [path_map], which is computed when it is empty, and
    answers a path that starts at the one switch and ends at the other, goes from each switch
    to one next to it by the port that leads there, meets no switch twice, and is as short as
    any walk there is; and it answers None only if there is no walk at all.  It does so also
    when switches have connected since the paths were computed. *)
Theorem get_path_shortest w (src dst : dpid) (port : Z) : paths_ok (d_rest (w_app w)) ->
  exists pm r, let w' := (modify_multi (set_m_path_map pm) w).2 in
    get_path src dst port w = (Ok r, w') /\ paths_ok (d_rest (w_app w')) /\
    match r with
    | Some p => shortest_path (m_adjacency (d_rest (w_app w))) src dst port p
    | None => ~ rtc (next_to (m_adjacency (d_rest (w_app w)))) src dst
    end.
Proof.
  intros Hok. unfold get_path. case_bool_decide as Hsd.
  - subst dst. exists (m_path_map (d_rest (w_app w))), (Some [(src, Some port)]).
    assert ((modify_multi (set_m_path_map (m_path_map (d_rest (w_app w)))) w).2 = w) as ->
      by (destruct w as [? ? ? ? ? ? ? ? ? [? ? ? ? ? ? []]]; done).
    split; [done|]. split; [done|]. apply (cooked_shortest _ src src port []); [done|done|apply NoDup_singleton|].
    split; [done|]. split; [apply nsteps_O|unfold zlen; cbn; lia].
  - destruct (get_raw_path_spec w src dst Hok Hsd) as (pm & E & Hok' & sws & He & Epm). exists pm.
    pose proof (calc_paths_route _ _ src dst He Hsd) as Hr. cbv zeta in Hr. rewrite <-Epm in Hr.
    destruct (raw_path _ pm src dst) as [[l|]|e]; [..|done].
    + destruct Hr as (Hh & Hn & Hd). eexists (Some _).
      assert (last (src :: l ++ [dst]) = Some dst) as Hl by by rewrite app_comm_cons, last_snoc.
      erewrite bind_ok by (erewrite bind_ok by exact E; reflexivity). cbv iota beta.
      erewrite bind_ok by reflexivity. cbv zeta. set (w' := (modify_multi _ w).2) in *.
      change (m_adjacency (d_rest (w_app w'))) with (m_adjacency (d_rest (w_app w))).
      cbn [app]. rewrite cooked_checks by done. split; [reflexivity|]. split; [done|].
      apply cooked_shortest; [done|done|done|]. unfold zlen in *. rewrite length_app. cbn [length]. by rewrite Nat2Z.inj_add.
    + exists None. erewrite bind_ok by (erewrite bind_ok by exact E; reflexivity). done.
Qed.
End get_path.

(** * The adjacency mirrors the links *)

(** Two switches are adjacent exactly when discovery has a link between them in both
    directions, and the two ports are the ends of one such link. *)
Record mirrors (known : gmap Link Z) adj : Prop := {
  mi_link a b p : a <> b -> port_to adj a b = Some p -> exists q, port_to adj b a = Some q /\ bilink known a p b q;
  mi_joined a b : a <> b -> joined known a b -> is_Some (port_to adj a b)
}.

Lemma two_ports adj a b p q x y : a <> b ->
  port_to (set_port (set_port adj a b p) b a q) x y =
    if decide ((x, y) = (a, b)) then Some p else if decide ((x, y) = (b, a)) then Some q else port_to adj x y.
Proof.
  intros Hab. rewrite !port_to_set. destruct (decide ((x, y) = (b, a))) as [[= -> ->]|]; [|done].
  by rewrite decide_False by congruence.
Qed.
Lemma no_ports adj a b x y :
  port_to (del_port (del_port adj a b) b a) x y =
    if decide ((x, y) = (a, b) \/ (x, y) = (b, a)) then None else port_to adj x y.
Proof.
  rewrite !port_to_del. destruct (decide ((x, y) = (b, a))) as [H|H]; [by rewrite decide_True by tauto|].
  apply decide_ext. tauto.
Qed.

(** Giving two switches the ends of a link. *)
Lemma mirrors_connect known adj l a b : dpid1 l = a -> dpid2 l = b ->
  is_Some (known !! l) -> is_Some (known !! flip l) ->
  (forall x y p, x <> y -> (x, y) <> (a, b) -> (x, y) <> (b, a) -> port_to adj x y = Some p ->
     exists q, port_to adj y x = Some q /\ bilink known x p y q) ->
  (forall x y, x <> y -> (x, y) <> (a, b) -> (x, y) <> (b, a) -> joined known x y -> is_Some (port_to adj x y)) ->
  mirrors known (set_port (set_port adj a b (port1 l)) b a (port2 l)).
Proof.
  intros <- <- Hl Hf Hlink Hjoin. set (a := dpid1 l) in *. set (b := dpid2 l) in *.
  assert (bilink known a (port1 l) b (port2 l)) as Hb by (split; by destruct l).
  destruct (decide (a = b)) as [Hab|Hab].
  - assert (forall x y, x <> y -> port_to (set_port (set_port adj a b (port1 l)) b a (port2 l)) x y = port_to adj x y) as E
      by (intros x y Hne; by rewrite !port_to_set, !decide_False by congruence).
    split; intros x y; [intros p|]; intros Hne; rewrite ?(E x y) by done; [rewrite ?(E y x) by done; apply Hlink|apply Hjoin];
      congruence.
  - split; intros x y; [intros p|]; intros Hne; rewrite !two_ports by done.
    + destruct (decide ((x, y) = (a, b))) as [[= -> ->]|H1].
      { intros [= <-]. exists (port2 l). rewrite decide_False by congruence. by rewrite decide_True. }
      destruct (decide ((x, y) = (b, a))) as [[= -> ->]|H2].
      { intros [= <-]. exists (port1 l). rewrite decide_True by done. split; [done|]. by apply bilink_sym. }
      rewrite !decide_False by congruence. by apply Hlink.
    + destruct (decide ((x, y) = (a, b))); [by eexists|]. destruct (decide ((x, y) = (b, a))); [by eexists|]. by apply Hjoin.
Qed.

Lemma link_added_mirrors known adj l t : mirrors known adj -> let known' := <[l := t]> known in
  mirrors known' (link_added known' l adj).
Proof.
  intros [Hl Hj] known'.
  assert (forall l', is_Some (known !! l') -> is_Some (known' !! l')) as Hmore
    by (intros l' H; unfold known'; destruct (decide (l' = l)) as [->|]; [rewrite lookup_insert_eq|rewrite lookup_insert_ne]; by eauto).
  assert (forall x y p, x <> y -> port_to adj x y = Some p -> exists q, port_to adj y x = Some q /\ bilink known' x p y q) as Hl'.
  { intros x y p Hne H. destruct (Hl x y p Hne H) as (q & ? & [? ?]). exists q. split; [done|]. split; by apply Hmore. }
  assert (is_Some (known' !! l)) as Hkl by (unfold known'; rewrite lookup_insert_eq; by eexists).
  (* a pair that was not joined before is that of the link *)
  assert (forall x y, x <> y -> joined known' x y ->
    joined known x y \/ ((x, y) = (dpid1 l, dpid2 l) \/ (x, y) = (dpid2 l, dpid1 l)) /\ is_Some (known' !! flip l)) as Hnew.
  { intros x y Hne (p & q & H1 & H2). destruct (decide (MkLink x p y q = l)) as [E|E1].
    - right. rewrite <-E. split; [by left|]. exact H2.
    - destruct (decide (MkLink y q x p = l)) as [E|E2]; [right; rewrite <-E; split; [by right|exact H1]|].
      left. exists p, q. unfold known' in H1, H2. rewrite lookup_insert_ne in H1, H2 by congruence. by split. }
  unfold link_added. destruct (port_to adj (dpid1 l) (dpid2 l)) as [p0|] eqn:E.
  - split; [done|]. intros x y Hne [H|[[[= -> ->]|[= -> ->]] _]]%Hnew; [by apply Hj|rewrite E; by eexists| |done].
    destruct (Hl (dpid1 l) (dpid2 l) p0) as (q & -> & _); [congruence|done|by eexists].
  - case_bool_decide as Hf.
    + apply mirrors_connect; [done..| |].
      * intros x y p Hne _ _. by apply Hl'.
      * intros x y Hne H1 H2 [H|[[|] _]]%Hnew; [by apply Hj|done..].
    + split; [done|]. intros x y Hne [H|[_ H]]%Hnew; [by apply Hj|done|done].
Qed.

Lemma other_link_spec known a b :
  match other_link known a b with
  | Some ll => is_Some (known !! ll) /\ is_Some (known !! flip ll) /\ dpid1 ll = a /\ dpid2 ll = b
  | None => ~ joined known a b
  end.
Proof.
  unfold other_link. destruct (List.find _ _) as [ll|] eqn:E.
  - apply find_some in E as [Hin [[H1 H2]%bool_decide_eq_true Hf%bool_decide_eq_true]%andb_prop].
    rewrite <-list_elem_of_In in Hin. split; [by apply (proj1 (links_in known ll))|]. by split.
  - intros (p & q & H1 & H2). apply (proj2 (links_in known _)), list_elem_of_In in H1.
    pose proof (find_none _ _ E _ H1) as H. cbn in H. rewrite !bool_decide_true in H by done. done.
Qed.

Lemma link_removed_mirrors known adj l : mirrors known adj -> let known' := delete l known in
  mirrors known' (link_removed known' l adj).
Proof.
  intros [Hl Hj] known'. set (a := dpid1 l) in *. set (b := dpid2 l) in *.
  set (adj' := del_port (del_port adj a b) b a).
  assert (forall x y p q, (x, y) <> (a, b) -> (x, y) <> (b, a) -> bilink known' x p y q <-> bilink known x p y q) as Hsame.
  { intros x y p q H1 H2. unfold bilink, known'. rewrite !lookup_delete_ne; [done|..].
    - intros ->. by apply H2.
    - intros ->. by apply H1. }
  assert (forall x y p, x <> y -> (x, y) <> (a, b) -> (x, y) <> (b, a) -> port_to adj' x y = Some p ->
     exists q, port_to adj' y x = Some q /\ bilink known' x p y q) as Hl'.
  { intros x y p Hne H1 H2. unfold adj'. rewrite !no_ports, !decide_False by (intros [?|?]; congruence). intros H.
    destruct (Hl x y p Hne H) as (q & ? & ?). exists q. split; [done|]. by apply Hsame. }
  assert (forall x y, x <> y -> (x, y) <> (a, b) -> (x, y) <> (b, a) -> joined known' x y -> is_Some (port_to adj' x y)) as Hj'.
  { intros x y Hne H1 H2 (p & q & H%Hsame); [|done..]. unfold adj'. rewrite no_ports, decide_False by tauto.
    apply Hj; [done|]. by exists p, q. }
  pose proof (other_link_spec known' a b) as Ho. unfold link_removed. fold a b adj'.
  destruct (other_link known' a b) as [ll|].
  - destruct Ho as (H1 & H2 & H3 & H4). by apply mirrors_connect.
  - split; intros x y; [intros p|]; intros Hne.
    + destruct (decide ((x, y) = (a, b) \/ (x, y) = (b, a))) as [H|H].
      * unfold adj'. by rewrite no_ports, decide_True.
      * apply Hl'; [done|tauto..].
    + destruct (decide ((x, y) = (a, b))) as [[= -> ->]|H1]; [done|].
      destruct (decide ((x, y) = (b, a))) as [[= -> ->]|H2]; [by intros ?%joined_sym|]. by apply Hj'.
Qed.

(** A link event: discovery's map is changed first, and then [l2_multi] is told. *)
Definition link_change (s : gmap Link Z * ports_t) (e : bool * Link * Z) : gmap Link Z * ports_t :=
  let '(added, l, t) := e in
  let known := if added : bool then <[l := t]> s.1 else delete l s.1 in
  (known, if added then link_added known l s.2 else link_removed known l s.2).

(** C8: After any sequence of links that come, are seen again and go, two switches are
    adjacent exactly when discovery knows a link between them in both directions, and then
    the ports of both are the two ends of one link that is up both ways: a removed link that
    has a parallel one is replaced by it, one end of a link alone never makes switches
    adjacent, and the order in which the two directions are found does not matter. *)
Theorem adjacency_mirrors (events : list (bool * Link * Z)) :
  let '(known, adj) := foldl link_change (∅, ∅) events in mirrors known adj.
Proof.
  assert (forall s, mirrors s.1 s.2 -> mirrors (foldl link_change s events).1 (foldl link_change s events).2) as H.
  { induction events as [|[[added l] t] events IH]; intros s Hs; [done|]. cbn [foldl]. apply IH.
    destruct added; [by apply link_added_mirrors|by apply link_removed_mirrors]. }
  specialize (H (∅, ∅)). destruct (foldl link_change (∅, ∅) events) as [known adj]. apply H.
  split; cbn; [done|]. intros a b _ (p & q & [? [=]] & _).
Qed.

(** * Installing a path *)

Section install.
Abbreviation World := (Controller.World (Disc Multi)).
Context (PIPE_BUF : Z) (sock_send : Z -> nat -> bytes -> send_result).
Context (nested : source -> Z -> event -> M World unit).
Implicit Type w : World.

(** Switch [key] is connected by [con], which can be sent to. *)
Record served w (key : dpid) (con : Z) : Prop := {
  sv_switch : exists s, m_switches (d_rest (w_app w)) !! key = Some s /\ sw_connection s = Some con;
  sv_con : is_Some (w_cons w !! con);
  sv_up : con_disconnected (the_con con w) = false;
  sv_socket : takes_all sock_send con
}.
(** The world between two messages. *)
Definition idle w : Prop := w_sending w = false /\ 0 <= w_xids w < 2 ^ 31.

(** The bytes are the flow of the match out of the port. *)
Definition flow_to (m : ofp_match) (port : Z) (buf : Z) (b : bytes) : Prop :=
  exists h, frame b OFPT_FLOW_MOD (MFlowMod (FlowMod h (wire_view true m) 0 OFPFC_ADD 10 30 OFP_DEFAULT_PRIORITY buf
    OFPP_NONE 0 [action_settle (action_output port)])).

(** What sending on connection [con] leaves as it was. *)
Record beside w w' (con : Z) : Prop := {
  bs_idle : idle w';
  bs_app : w_app w' = w_app w;
  bs_others con' : con' <> con -> the_con con' w' = the_con con' w;
  bs_served key con' : served w key con' <-> served w' key con'
}.

Lemma install_spec w (key : dpid) (con : Z) (port : Z) m buf : idle w -> served w key con -> match_wf m -> buffer_wf buf -> u16 port ->
  exists w' b, install PIPE_BUF sock_send nested key (Some port) m buf w = (Ok tt, w') /\ beside w w' con /\
    con_out (the_con con w') = con_out (the_con con w) ++ b /\ flow_to m port buf b.
Proof.
  intros [Hs Hx] [(s & Esw & Es) [c Hc] Hup Ht] Hm Hb Hp.
  assert (the_con con w = c) as Hthe by by apply lookup_total_correct. rewrite Hthe in Hup.
  pose proof (after_self con c w Hc) as Hself.
  assert (msg_wf (path_flow (Some port) m buf)) as Hw.
  { apply flow_mod_wf; [done|by vm_compute|by vm_compute|done| |done|by repeat constructor]. apply Forall_singleton.
    cbn. split_and!; [done|done|by exists port|lia..]. }
  destruct (packs (path_flow (Some port) m buf) (w_xids w) Hw Hx) as (b & x' & E & Hx' & F); [done..|].
  set (w' := after con (sent b c) (w_nexus w) x' (w_raised w) (w_app w) w).
  exists w', b. split; [|split; [split|split]].
  - unfold install, send_switch. erewrite bind_ok; [reflexivity|]. unfold get_switch.
    erewrite bind_ok by (by rewrite Esw). rewrite Es. rewrite Hself at 1. by eapply con_send_after.
  - by split.
  - done.
  - intros con' Hne. by apply the_con_after_ne.
  - intros key' con'. assert (is_Some (w_cons w' !! con') <-> is_Some (w_cons w !! con')) as H2.
    { unfold w'. cbn. destruct (decide (con' = con)) as [->|Hne]; [rewrite lookup_insert_eq, Hc; split; by eexists|].
      by rewrite lookup_insert_ne. }
    assert (con_disconnected (the_con con' w') = con_disconnected (the_con con' w)) as H3.
    { unfold w'. destruct (decide (con' = con)) as [->|Hne]; [by rewrite the_con_after, Hthe|by rewrite the_con_after_ne]. }
    split; intros [S1 S2 S3 S4]; (split; [done|by apply H2|congruence|done]).
  - unfold w'. by rewrite the_con_after, Hthe.
  - eexists. exact F.
Qed.

(** Every hop has a connection of its own that takes flows. *)
Definition hop_ready w (hop : dpid * option Z) : Prop :=
  exists con port, hop.2 = Some port /\ u16 port /\ served w hop.1 con.
Definition one_switch w : Prop := forall key key' con, served w key con -> served w key' con -> key = key'.

(** From [w] to [w'], the hops of [p] and no others are each sent one flow, with the buffer
    that [buf] gives. *)
Record flows_sent w w' (p : path_t) m (buf : dpid -> Z) : Prop := {
  fs_idle : idle w';
  fs_app : w_app w' = w_app w;
  fs_flow key port con : (key, Some port) ∈ p -> served w key con ->
    exists b, con_out (the_con con w') = con_out (the_con con w) ++ b /\ flow_to m port (buf key) b;
  fs_others con : (forall key, key ∈ p.*1 -> ~ served w key con) -> the_con con w' = the_con con w;
  fs_served key con : served w key con <-> served w' key con
}.

Lemma flows_one w (key : dpid) (con : Z) (port : Z) m buf : idle w -> served w key con -> one_switch w ->
  match_wf m -> buffer_wf (buf key) -> u16 port ->
  exists w', install PIPE_BUF sock_send nested key (Some port) m (buf key) w = (Ok tt, w') /\ flows_sent w w' [(key, Some port)] m buf.
Proof.
  intros Hi Hsv H1 Hm Hb Hp. destruct (install_spec w key con port m (buf key) Hi Hsv Hm Hb Hp) as (w' & b & E & [B1 B2 B3 B4] & O & F).
  exists w'. split; [exact E|]. split; [done|done| | |done].
  - intros key' port' con' [= -> ->]%list_elem_of_singleton Hsv'. destruct Hsv as [(s & Es & Ec) _ _ _], Hsv' as [(s' & Es' & Ec') _ _ _].
    assert (con' = con) as -> by congruence. by exists b.
  - intros con' H. apply B3. intros ->. apply (H key); [by left|done].
Qed.

Lemma flows_app w w1 w2 p1 p2 m buf : NoDup (p1 ++ p2).*1 -> one_switch w ->
  flows_sent w w1 p1 m buf -> flows_sent w1 w2 p2 m buf -> flows_sent w w2 (p1 ++ p2) m buf.
Proof.
  intros Hn H1 [A1 A2 A3 A4 A5] [B1 B2 B3 B4 B5]. rewrite fmap_app in Hn. apply NoDup_app in Hn as (_ & Hn & _).
  assert (forall (key : dpid) (port : option Z) (p : path_t), (key, port) ∈ p -> key ∈ p.*1) as Hkey
    by (intros key port p H; apply list_elem_of_fmap; by exists (key, port)).
  split; [done|congruence| | |].
  - intros key port con [H|H]%elem_of_app Hsv.
    + rewrite B4; [by apply A3|]. intros key' Hk' Hsv'%A5. assert (key' = key) as -> by by apply (H1 key' key con).
      by apply (Hn key (Hkey _ _ _ H)).
    + rewrite <-(A4 con); [apply B3; [done|by apply A5]|]. intros key' Hk' Hsv'.
      assert (key' = key) as -> by by apply (H1 key' key con). by apply (Hn key Hk'), (Hkey _ _ _ H).
  - intros con H. rewrite fmap_app in H. rewrite B4; [apply A4|]; intros key Hk; [|rewrite <-A5]; apply H, elem_of_app; tauto.
  - intros key con. by rewrite A5.
Qed.

Lemma flows_buf w w' p m buf buf' : (forall key, key ∈ p.*1 -> buf key = buf' key) ->
  flows_sent w w' p m buf -> flows_sent w w' p m buf'.
Proof.
  intros H [A1 A2 A3 A4 A5]. split; [done|done| |done|done]. intros key port con Hk. rewrite <-H; [by apply A3|].
  apply list_elem_of_fmap. by exists (key, Some port).
Qed.

Lemma hop_ready_sent w w' p m buf hop : flows_sent w w' p m buf -> hop_ready w hop -> hop_ready w' hop.
Proof. intros H (con & port & E & Hp & Hsv). exists con, port. split; [done|]. split; [done|]. by apply (fs_served _ _ _ _ _ H). Qed.
Lemma one_switch_sent w w' p m buf : flows_sent w w' p m buf -> one_switch w -> one_switch w'.
Proof. intros H H1 key key' con Ha Hb. apply (H1 key key' con); by apply (fs_served _ _ _ _ _ H). Qed.

Lemma install_each_spec p m w : idle w -> one_switch w -> match_wf m -> NoDup p.*1 -> Forall (hop_ready w) p ->
  exists w', install_each PIPE_BUF sock_send nested p m w = (Ok tt, w') /\ flows_sent w w' p m (fun _ => -1).
Proof.
  revert w; induction p as [|[key port] p IH]; intros w Hi H1 Hm Hn Hr.
  { exists w. split; [done|]. split; [done|done| |done|done]. intros key port con H. by apply not_elem_of_nil in H. }
  apply Forall_cons in Hr as [(con & port' & E & Hp & Hsv) Hr]. cbn [fst snd] in E, Hsv. subst port.
  destruct (flows_one w key con port' m (fun _ => -1) Hi Hsv H1 Hm (or_introl eq_refl) Hp) as (w1 & E1 & F1).
  destruct (IH w1) as (w' & E' & F'); [apply F1|by eapply one_switch_sent|done|by apply NoDup_cons in Hn as [_ ?]| |].
  { eapply Forall_impl; [exact Hr|]. intros hop. by eapply hop_ready_sent. }
  exists w'. split; [cbn [install_each]; by erewrite bind_ok by exact E1|].
  by apply (flows_app w w1 w' [(key, Some port')] p).
Qed.

(** C9: Installing a path.  Every switch of the path is sent exactly one flow - for the
    packet's exact match, out of the port that the path gives it, for ten seconds of silence
    and at most thirty in all - the first switch, which is installed last, with the
    buffered packet to release; no other connection is sent anything, the controller's own
    state stays as it is, and the listeners of [PathInstalled] are then told of the path. *)
Theorem path_installed (on_path : path_t -> M World unit) (first : dpid * option Z) (rest : path_t) m buffer_id w :
  idle w -> one_switch w -> match_wf m -> buffer_wf buffer_id -> NoDup (first :: rest).*1 ->
  Forall (hop_ready w) (first :: rest) ->
  exists w', install_path PIPE_BUF sock_send nested on_path (first :: rest) m buffer_id w = on_path (first :: rest) w' /\
    flows_sent w w' (first :: rest) m (fun key => if bool_decide (key = first.1) then buffer_id else -1).
Proof.
  intros Hi H1 Hm Hb Hn [Hf Hr]%Forall_cons. destruct first as [key port].
  set (buf := fun key' => if bool_decide (key' = (key, port).1) then buffer_id else -1).
  pose proof Hn as [Hkey Hn']%NoDup_cons.
  destruct (install_each_spec rest m w Hi H1 Hm Hn' Hr) as (w1 & E1 & F1).
  eapply hop_ready_sent in Hf as (con & port' & E & Hp & Hsv); [|exact F1]. cbn [fst snd] in E, Hsv. subst port.
  assert (buf key = buffer_id) as Hbuf by (unfold buf; by rewrite bool_decide_true).
  destruct (flows_one w1 key con port' m buf (fs_idle _ _ _ _ _ F1) Hsv) as (w2 & E2 & F2);
    [by eapply one_switch_sent|done|by rewrite Hbuf|done|].
  rewrite Hbuf in E2. exists w2. split.
  - unfold install_path. cbn [tail]. erewrite bind_ok by exact E1. by erewrite bind_ok by exact E2.
  - eapply (flows_buf _ _ _ _ (fun _ => -1) buf) in F1.
    2: { intros key' Hk'. unfold buf. rewrite bool_decide_false; [done|]. by intros ->. }
    pose proof (flows_app w w1 w2 rest [(key, Some port')] m buf) as Hx.
    destruct Hx as [A1 A2 A3 A4 A5]; [|done|done|done|].
    { rewrite fmap_app. cbn [fmap list_fmap fst]. by rewrite <-Permutation_cons_append. }
    split; [done|done| | |done].
    + intros key' p' con' H. apply A3. apply elem_of_app. apply elem_of_cons in H as [?|?]; [right; by apply list_elem_of_singleton|by left].
    + intros con' H. apply A4. intros key' Hk'. apply H. rewrite fmap_app in Hk'. apply elem_of_app in Hk' as [?|?]; [by right|].
      cbn. apply elem_of_cons. left. by apply list_elem_of_singleton.
Qed.
End install.

(** * The theorems on examples *)

(** Four switches in a ring. *)
Definition ex_ring : ports_t :=
  foldl connect_ports ∅ [MkLink (Some 1) 12 (Some 2) 21; MkLink (Some 2) 23 (Some 3) 32;
                         MkLink (Some 3) 34 (Some 4) 43; MkLink (Some 4) 41 (Some 1) 14].
Definition ex_multi_con : Con := con_set_dpid (Some 1) Con_fresh.
Definition ex_multi_state : Controller.World (Disc Multi) :=
  MkWorld (list_to_map ((fun i => (i, ex_multi_con)) <$> [1; 2; 3; 4])) 5 ∅ false ∅ 0 7 (PState 0 (fun _ => 0)) []
    (MkDisc false true ∅ ∅ [] None
      (MkMulti ex_ring (list_to_map ((fun i => (Some i, MkMultiSwitch (Some i) None (Some i))) <$> [1; 2; 3; 4])) ∅ ∅ [])) [].

Lemma ex_ring_ends : ends_in ex_ring [Some 1; Some 2; Some 3; Some 4].
Proof.
  intros i j [p H]. unfold ex_ring, connect_ports in H. cbn [foldl dpid1 dpid2 port1 port2] in H. rewrite !port_to_set in H.
  repeat (destruct (decide ((i, j) = _)) as [[= -> ->]|_] in H; [split; by vm_compute; set_solver|]). done.
Qed.
Lemma ex_multi_paths_ok : paths_ok (d_rest (w_app ex_multi_state)).
Proof.
  split; [|by left]. intros i j H. destruct (ex_ring_ends i j H) as [Hi Hj].
  assert ([Some 1; Some 2; Some 3; Some 4] ⊆ (map_to_list (m_switches (d_rest (w_app ex_multi_state)))).*1) as Hsub.
  { intros x Hx. apply list_elem_of_In in Hx. destruct Hx as [<-|[<-|[<-|[<-|[]]]]]; apply (bool_decide_unpack _); by vm_compute. }
  split; by apply Hsub.
Qed.

(** Two hops from switch 1 to switch 3, whatever the order of the loops. *)
Lemma get_path_shortest_witness : exists p w',
  get_path (Some 1) (Some 3) 7 ex_multi_state = (Ok (Some p), w') /\ distance ex_ring (Some 1) (Some 3) 2.
Proof.
  destruct (get_path_shortest ex_multi_state (Some 1) (Some 3) 7 ex_multi_paths_ok) as (pm & r & E & _ & Hr).
  assert (match (get_path (Some 1) (Some 3) 7 ex_multi_state).1 with Ok (Some p) => zlen p | _ => 0 end = 3) as H
    by (vm_compute; reflexivity).
  rewrite E in H. destruct r as [p|]; [|discriminate H]. exists p. eexists. split; [exact E|].
  pose proof (sp_shortest _ _ _ _ _ Hr) as Hd. cbn [fst] in H. rewrite H in Hd. exact Hd.
Defined.

Definition ex_all_bytes (_ : Z) (_ : nat) (data : bytes) : send_result := Sent (zlen data).
Definition ex_no_nested (_ : source) (_ : Z) (_ : event) : M (Controller.World (Disc Multi)) unit := mret tt.
Lemma ex_switches_inv (key : dpid) (s : MultiSwitch) :
  m_switches (d_rest (w_app ex_multi_state)) !! key = Some s -> sw_connection s = key.
Proof.
  intros H. apply elem_of_list_to_map_2 in H. rewrite list_elem_of_In in H. cbn in H.
  by repeat destruct H as [[= <- <-]|H].
Qed.
Lemma ex_one_switch : one_switch ex_all_bytes ex_multi_state.
Proof.
  intros key key' con [(s & H1 & H2) _ _ _] [(s' & H1' & H2') _ _ _].
  pose proof (ex_switches_inv key s H1). pose proof (ex_switches_inv key' s' H1'). congruence.
Qed.
Lemma ex_hop_ready i port : i ∈ [1; 2; 3; 4] -> u16 port -> hop_ready ex_all_bytes ex_multi_state (Some i, Some port).
Proof.
  intros Hi Hp. exists i, port. split; [done|]. split; [done|]. apply list_elem_of_In in Hi.
  destruct Hi as [<-|[<-|[<-|[<-|[]]]]]; (split; [eexists; split; [by vm_compute|done]|by eexists|by vm_compute|done]).
Qed.
Lemma path_installed_witness : exists w',
  install_path 10 ex_all_bytes ex_no_nested (fun _ => mret tt) [(Some 1, Some 12); (Some 2, Some 23); (Some 3, Some 7)]
    ofp_match_init 5 ex_multi_state = (Ok tt, w') /\
  exists b, con_out (the_con 1 w') = b /\ flow_to ofp_match_init 12 5 b.
Proof.
  destruct (path_installed 10 ex_all_bytes ex_no_nested (fun _ => mret tt) (Some 1, Some 12) [(Some 2, Some 23); (Some 3, Some 7)]
    ofp_match_init 5 ex_multi_state) as (w' & E & [_ _ F _ _]).
  - split; [reflexivity|]. split; [discriminate|reflexivity].
  - exact ex_one_switch.
  - repeat split; vm_compute; congruence.
  - right. split; [discriminate|reflexivity].
  - apply (bool_decide_unpack _). vm_compute. exact I.
  - repeat (apply Forall_cons; split); [apply ex_hop_ready..|apply Forall_nil; exact I];
      try (split; [discriminate|reflexivity]); set_solver.
  - exists w'. split; [exact E|]. destruct (F (Some 1) 12 1) as (b & O & T); [left|..].
    + destruct (ex_hop_ready 1 12) as (con & port & [= <-] & _ & H); [left|split; [discriminate|reflexivity]|].
      assert (con = 1) as -> by (destruct H as [(s & H1 & H2) _ _ _]; apply ex_switches_inv in H1; cbn [fst] in H1; congruence).
      exact H.
    + exists b. split; [exact O|exact T].
Defined.
