(* ===== verification/OfTopology.v ===== *)
(** [openflow/topology.py] with what it builds on: the registry of entities of
    [topology/topology.py], the switch objects that outlive their connections, and
    [NOMFlowTable] of [openflow/flow_table.py], by which such an object keeps a table of flows
    and a switch in step: every change is sent with a barrier, and counts when the barrier
    comes back.

    An [OpenFlowSwitch] object is known by its datapath id: the registry of ids admits no
    second one.  Clock readings are integers of nanoseconds. *)
From S2P Require Import Prelude.
From S2P Require Import Addresses.
From S2P Require Import OfConst.
From S2P Require Import Wire.
From S2P Require Import OfBase.
From S2P Require Import OfMatch.
From S2P Require Import OfActions.
From S2P Require Import OfMessages.
From S2P Require Import PacketCodec.
From S2P Require Import Lldp.
From S2P Require Import FlowTable.
From S2P Require Import SoftSwitch.
From S2P Require Import Controller.
From S2P Require Import Discovery.

(** * NOMFlowTable: the data *)

(** A pending operation: the tuple (command, entry).  Tuples compare by command and by the
    identity of the entry, and hash alike. *)
Abbreviation nom_op := (Z * TableEntry)%type.
Definition op_key (o : nom_op) : Z * Z := (o.1, te_id o.2).
Definition NOM_ADD : Z := OFPFC_ADD.
Definition NOM_REMOVE : Z := OFPFC_DELETE.
Definition NOM_REMOVE_STRICT : Z := OFPFC_DELETE_STRICT.

Record NOMFlowTable := MkNom {
  nt_table : FlowTable;
  nt_pending : list nom_op;
  nt_barrier_ops : gmap Z (list nom_op);
  nt_op_barrier : gmap (Z * Z) (Z * Z);
  nt_events : list FlowTableModification
}.
Definition NOMFlowTable_init : NOMFlowTable := MkNom FlowTable_init [] ∅ ∅ [].
Definition nt_set_table v t := MkNom v (nt_pending t) (nt_barrier_ops t) (nt_op_barrier t) (nt_events t).
Definition nt_set_pending v t := MkNom (nt_table t) v (nt_barrier_ops t) (nt_op_barrier t) (nt_events t).
Definition nt_set_barriers b o t := MkNom (nt_table t) (nt_pending t) b o (nt_events t).
Definition nt_raise e t := MkNom (nt_table t) (nt_pending t) (nt_barrier_ops t) (nt_op_barrier t) (nt_events t ++ [e]).

(** [entries], [num_pending], [len]. *)
Definition nom_entries (t : NOMFlowTable) : list TableEntry := ft_table (nt_table t).
Definition num_pending (t : NOMFlowTable) : Z := zlen (nt_pending t).
Definition nom_len (t : NOMFlowTable) : Z := FlowTable_len (nt_table t).

(** [self.pending.remove(op)]: the first equal one. *)
Fixpoint op_remove (o : nom_op) (l : list nom_op) : res (list nom_op) :=
  match l with
  | [] => Err ValueError
  | x :: l => if bool_decide (op_key x = op_key o) then Ok l else l ← op_remove o l; Ok (x :: l)
  end.

(** The loop of [_mod] over the entries.  There is no method [matches_with_wildcards] of
    entries: the filter raises at the first pending addition. *)
Fixpoint nom_enqueue (command : Z) (entries : list TableEntry) (pending : list nom_op) : res unit * list nom_op :=
  match entries with
  | [] => (Ok tt, pending)
  | entry :: entries =>
      if command =? NOM_REMOVE then
        if existsb (fun o => o.1 =? NOM_ADD) pending then (Err AttributeError, pending)
        else nom_enqueue command entries (pending ++ [(command, entry)])
      else
        let pending := if command =? NOM_REMOVE_STRICT
                       then List.filter (fun o => negb ((o.1 =? NOM_ADD) && (te_id o.2 =? te_id entry))) pending
                       else pending in
        nom_enqueue command entries (pending ++ [(command, entry)])
  end.

(** [t < time.time]: the function is not called; a number is smaller than any function. *)
Definition before_function (t : Z) : bool := true.
Definition TIME_OUT : Z := 2 * 10 ^ 9.
Definition nom_due (t : NOMFlowTable) (o : nom_op) : bool :=
  match nt_op_barrier t !! op_key o with
  | None => true
  | Some (_, time) => before_function (time + TIME_OUT)
  end.

(** * Entities *)

Inductive ekind := KSwitch | KHost | KEntity.
#[export] Instance ekind_eq_dec : EqDecision ekind.
Proof. solve_decision. Defined.

(** What topology raises: a join or leave, and after it an [Update] about it. *)
Inductive topo_event :=
  | Join (k : ekind) (id : Z)
  | Leave (k : ekind) (id : Z)
  | Update (e : topo_event).

(** * Switch objects *)

Record OpenFlowPort := MkOFPort {
  op_id : Z;
  op_number : Z;
  op_hwAddr : EthAddr;
  op_name : bytes;
  op_config : Z;
  op_state : Z;
  op_entities : gset Z
}.
Definition op_isController (p : OpenFlowPort) : bool := op_number p =? OFPP_CONTROLLER.
Definition op_set_entities v p := MkOFPort (op_id p) (op_number p) (op_hwAddr p) (op_name p) (op_config p) (op_state p) v.
Definition port_contains (entity : Z) (p : OpenFlowPort) : bool := bool_decide (entity ∈ op_entities p).
Definition addEntity_port (entity : Z) (single : bool) (p : OpenFlowPort) : OpenFlowPort :=
  op_set_entities (if single then {[entity]} else {[entity]} ∪ op_entities p) p.
Definition to_ofp_phy_port (p : OpenFlowPort) : ofp_phy_port :=
  PhyPort (op_number p) (HwEth (op_hwAddr p)) (op_name p) (op_config p) (op_state p) 0 0 0 0.

(** [EthAddr(hwAddr)]. *)
Definition port_hw (a : hwaddr) : res EthAddr :=
  match a with HwEth a => Ok a | HwBytes b => EthAddr_init (EBytes b) end.

(** [_update]. *)
Definition port_update (ofp : ofp_phy_port) (p : OpenFlowPort) : res OpenFlowPort :=
  '_ ← py_assert (bool_decide (op_name p = pp_name ofp));
  '_ ← py_assert (op_number p =? pp_port_no ofp);
  hw ← port_hw (pp_hw_addr ofp);
  Ok (MkOFPort (op_id p) (op_number p) hw (op_name p) (pp_config ofp) (pp_state ofp) (op_entities p)).

(** What a switch object raises. *)
Inductive sw_event :=
  | SwJoin
  | SwLeave
  | SwConnectionUp (con : Z)
  | SwConnectionDown
  | SwPortStatus (ofp : ofp_port_status)
  | SwFlowRemoved (ofp : ofp_flow_removed)
  | SwPacketIn (ofp : ofp_packet_in)
  | SwBarrierIn (ofp : ofp_barrier_reply).

(** [os_listening]: the connections that have the switch's handlers among their listeners;
    the attribute [_listeners] is what the last of them returned.  [os_timer]: when the timer
    for reconnecting fires.  [os_xid]: the state of the generator of xids. *)
Record OpenFlowSwitch := MkOFSwitch {
  os_ports : gmap Z OpenFlowPort;
  os_nom : NOMFlowTable;
  os_capabilities : Z;
  os_connection : option Z;
  os_listening : list Z;
  os_timer : option Z;
  os_xid : Z;
  os_raised : list sw_event
}.
Definition os_set_ports v s := MkOFSwitch v (os_nom s) (os_capabilities s) (os_connection s) (os_listening s) (os_timer s) (os_xid s) (os_raised s).
Definition os_set_nom v s := MkOFSwitch (os_ports s) v (os_capabilities s) (os_connection s) (os_listening s) (os_timer s) (os_xid s) (os_raised s).
Definition os_set_capabilities v s := MkOFSwitch (os_ports s) (os_nom s) v (os_connection s) (os_listening s) (os_timer s) (os_xid s) (os_raised s).
Definition os_set_connection v s := MkOFSwitch (os_ports s) (os_nom s) (os_capabilities s) v (os_listening s) (os_timer s) (os_xid s) (os_raised s).
Definition os_set_listening v s := MkOFSwitch (os_ports s) (os_nom s) (os_capabilities s) (os_connection s) v (os_timer s) (os_xid s) (os_raised s).
Definition os_set_timer v s := MkOFSwitch (os_ports s) (os_nom s) (os_capabilities s) (os_connection s) (os_listening s) v (os_xid s) (os_raised s).
Definition os_set_xid v s := MkOFSwitch (os_ports s) (os_nom s) (os_capabilities s) (os_connection s) (os_listening s) (os_timer s) v (os_raised s).
Definition os_raise e s := MkOFSwitch (os_ports s) (os_nom s) (os_capabilities s) (os_connection s) (os_listening s) (os_timer s) (os_xid s) (os_raised s ++ [e]).

(** [findPortForEntity]. *)
Definition findPortForEntity (entity : Z) (s : OpenFlowSwitch) : option OpenFlowPort :=
  List.find (port_contains entity) (map_to_list (os_ports s)).*2.

(** The classes' counter and set of ids; topology's dictionary; the switch objects. *)
Record Topology := MkTopology {
  t_next_id : Z;
  t_all_ids : gset Z;
  t_entities : gmap Z ekind;
  t_switches : gmap Z OpenFlowSwitch;
  t_raised : list topo_event
}.
Definition Topology_init : Topology := MkTopology 101 ∅ ∅ ∅ [].
Definition t_set_ids n ids t := MkTopology n ids (t_entities t) (t_switches t) (t_raised t).
Definition t_set_entities v t := MkTopology (t_next_id t) (t_all_ids t) v (t_switches t) (t_raised t).
Definition t_set_switches v t := MkTopology (t_next_id t) (t_all_ids t) (t_entities t) v (t_raised t).
Definition t_log e t := MkTopology (t_next_id t) (t_all_ids t) (t_entities t) (t_switches t) (t_raised t ++ [e]).

(** [Entity.__init__]: the loop over taken ids, at most once round for each of them. *)
Fixpoint free_id (fuel : nat) (ids : gset Z) (n : Z) : Z :=
  match fuel with
  | O => n
  | S fuel => if bool_decide (n ∈ ids) then free_id fuel ids (n + 1) else n
  end.
Definition Entity_init (id : option Z) (t : Topology) : res (Z * Topology) :=
  let take id n := Ok (id, t_set_ids n ({[id]} ∪ t_all_ids t) t) in
  match id with
  | Some id =>
      if negb (id =? 0) then
        if bool_decide (id ∈ t_all_ids t) then Err PlainException else take id (t_next_id t)
      else let n := free_id (size (t_all_ids t)) (t_all_ids t) (t_next_id t) in take n n
  | None => let n := free_id (size (t_all_ids t)) (t_all_ids t) (t_next_id t) in take n n
  end.

(** * Running *)

Section topology.
Variable PIPE_BUF : Z.
Variable sock_send : Z -> nat -> bytes -> send_result.
Abbreviation World := (Controller.World Topology).
Implicit Type w : World.
(** What hears a [ConnectionDown] that sending raises; the other listeners of a switch object
    (by its datapath id), after those of its flow table; the listeners of topology. *)
Variable nested : source -> Z -> event -> M World unit.
Variable on_switch : Z -> sw_event -> M World unit.
Variable on_topology : topo_event -> M World unit.

Definition modify_topo (f : Topology -> Topology) : M World unit := modify (fun w => w_set_app (f (w_app w)) w).
Definition get_topo : M World Topology := w ← get; mret (w_app w).
Definition the_sw (dpid : Z) (t : Topology) : OpenFlowSwitch :=
  default (MkOFSwitch ∅ NOMFlowTable_init 0 None [] None 0 []) (t_switches t !! dpid).
Definition get_sw (dpid : Z) : M World OpenFlowSwitch := t ← get_topo; mret (the_sw dpid t).
Definition set_sw (dpid : Z) (f : OpenFlowSwitch -> OpenFlowSwitch) : M World unit :=
  modify_topo (fun t => t_set_switches (alter f dpid (t_switches t)) t).
Definition set_nom (dpid : Z) (f : NOMFlowTable -> NOMFlowTable) : M World unit :=
  set_sw dpid (fun s => os_set_nom (f (os_nom s)) s).
Definition get_nom (dpid : Z) : M World NOMFlowTable := s ← get_sw dpid; mret (os_nom s).

(** A computation on the registry of ids that may raise. *)
Definition new_entity (id : option Z) : M World Z := fun w =>
  match Entity_init id (w_app w) with
  | Ok (id, t) => (Ok id, w_set_app t w)
  | Err e => (Err e, w)
  end.

(** ** Topology *)

Definition getEntityByID (id : option Z) (t : Topology) : option ekind := id ← id; t_entities t !! id.

(** [Topology.raiseEvent]: the event, then the [Update]. *)
Definition topo_raise (e : topo_event) : M World unit :=
  '_ ← modify_topo (t_log e);
  '_ ← on_topology e;
  match e with
  | Update _ => mret tt
  | _ => '_ ← modify_topo (t_log (Update e)); on_topology (Update e)
  end.

Definition addEntity (k : ekind) (id : Z) : M World unit :=
  t ← get_topo;
  match t_entities t !! id with
  | Some _ => raise RuntimeError
  | None =>
      '_ ← modify_topo (fun t => t_set_entities (<[id := k]> (t_entities t)) t);
      topo_raise (Join k id)
  end.
Definition removeEntity (k : ekind) (id : Z) : M World unit :=
  t ← get_topo;
  match t_entities t !! id with
  | None => raise KeyError
  | Some _ =>
      '_ ← modify_topo (fun t => t_set_entities (delete id (t_entities t)) t);
      topo_raise (Leave k id)
  end.

(** [getEntitiesOfType(Switch)], and the promise to those who listen for [SwitchJoin] late. *)
Definition entities_of (k : ekind) (t : Topology) : list Z :=
  (List.filter (fun e => bool_decide (e.2 = k)) (map_to_list (t_entities t))).*1.
Fixpoint each_entity (handler : Z -> M World unit) (ids : list Z) : M World unit :=
  match ids with [] => mret tt | id :: ids => '_ ← handler id; each_entity handler ids end.
Definition fulfill_SwitchJoin_promise (handler : Z -> M World unit) : M World unit :=
  t ← get_topo; each_entity handler (entities_of KSwitch t).

(** ** NOMFlowTable *)

(** [self.switch.send]: [_connection] is None once the connection has gone. *)
Definition sw_send {T} (dpid : Z) (pack : T -> M Z (T * option bytes)) (m : T) : M World unit :=
  s ← get_sw dpid;
  match os_connection s with
  | None => raise AttributeError
  | Some con => '_ ← con_send PIPE_BUF sock_send nested con pack m; mret tt
  end.

Definition sw_next_xid (dpid : Z) : M World Z :=
  s ← get_sw dpid;
  match xid_next (os_xid s) with
  | (r, n) => '_ ← set_sw dpid (os_set_xid n); lift r
  end.

(** A flow mod of an entry without buffer id, the default, cannot be packed; to a connection
    that is down it is not. *)
Definition send_op (dpid : Z) (o : nom_op) : M World unit :=
  fmod_xid ← sw_next_xid dpid;
  match to_flow_mod o.2 o.1 (Some fmod_xid) with
  | Ok fm => sw_send dpid (ofp_flow_mod_pack true) fm
  | Err e => sw_send dpid (fun m => raise e) ofp_flow_mod_init
  end.
Fixpoint send_ops (dpid : Z) (todo : list nom_op) : M World unit :=
  match todo with [] => mret tt | o :: todo => '_ ← send_op dpid o; send_ops dpid todo end.

Definition barrier_with (xid : Z) : ofp_barrier_request :=
  BarrierRequest (Hdr OFP_VERSION OFPT_BARRIER_REQUEST 8 (Some xid)).

(** What is to be sent; with [clear] after clearing the switch. *)
Definition nom_todo (dpid : Z) (clear : bool) : M World (list nom_op) :=
  if clear then
    '_ ← set_nom dpid (fun t => nt_set_barriers ∅ ∅ t);
    '_ ← set_nom dpid (fun t => nt_set_pending (List.filter (fun o => o.1 =? NOM_ADD) (nt_pending t)) t);
    '_ ← sw_send dpid (ofp_flow_mod_pack true) clear_flows;
    '_ ← sw_send dpid (ofp_barrier_request_pack true) ofp_barrier_request_init;
    t ← get_nom dpid;
    mret (((fun e => (NOM_ADD, e)) <$> nom_entries t) ++ nt_pending t)
  else t ← get_nom dpid; mret (List.filter (nom_due t) (nt_pending t)).

Definition sync_pending (dpid : Z) (clear : bool) : M World unit :=
  s ← get_sw dpid;
  match os_connection s with
  | None => mret tt
  | Some _ =>
      todo ← nom_todo dpid clear;
      '_ ← send_ops dpid todo;
      barrier_xid ← sw_next_xid dpid;
      '_ ← sw_send dpid (ofp_barrier_request_pack true) (barrier_with barrier_xid);
      w ← get;
      set_nom dpid (fun t =>
        nt_set_barriers (<[barrier_xid := todo]> (nt_barrier_ops t))
          (foldl (fun m o => <[op_key o := (barrier_xid, w_now w)]> m) (nt_op_barrier t) todo) t)
  end.

(** [_mod]; [install], [remove_with_wildcards], [remove_strict]. *)
Definition nom_mod (dpid : Z) (entries : list TableEntry) (command : Z) : M World unit :=
  t ← get_nom dpid;
  let '(r, pending) := nom_enqueue command entries (nt_pending t) in
  '_ ← set_nom dpid (nt_set_pending pending);
  '_ ← lift r;
  sync_pending dpid false.
Definition nom_install (dpid : Z) (entries : list TableEntry) : M World unit := nom_mod dpid entries NOM_ADD.
Definition remove_with_wildcards (dpid : Z) (entries : list TableEntry) : M World unit := nom_mod dpid entries NOM_REMOVE.
Definition remove_strict (dpid : Z) (entries : list TableEntry) : M World unit := nom_mod dpid entries NOM_REMOVE_STRICT.

(** The loop of [_handle_BarrierIn]: what an operation does to the table, then to the list. *)
Definition apply_op (o : nom_op) (t : FlowTable) : res (list TableEntry * list TableEntry * FlowTable) :=
  if o.1 =? NOM_ADD then Ok ([o.2], [], add_entry o.2 t)
  else
    '(removed, t) ← remove_matching_entries (te_match o.2) (te_priority o.2) (o.1 =? NOM_REMOVE_STRICT) t;
    Ok ([], removed, t).
Fixpoint confirm (dpid : Z) (ops : list nom_op) (added removed : list TableEntry) : M World (list TableEntry * list TableEntry) :=
  match ops with
  | [] => mret (added, removed)
  | o :: ops =>
      t ← get_nom dpid;
      '(a, r, table) ← lift (apply_op o (nt_table t));
      '_ ← set_nom dpid (nt_set_table table);
      pending ← lift (op_remove o (nt_pending t));
      '_ ← set_nom dpid (nt_set_pending pending);
      confirm dpid ops (added ++ a) (removed ++ r)
  end.

(** The handlers; the result tells whether the event stops with them. *)
Definition nom_BarrierIn (dpid : Z) (xid : option Z) : M World bool :=
  t ← get_nom dpid;
  match x ← xid; ops ← nt_barrier_ops t !! x; Some (x, ops) with
  | None => mret false
  | Some (x, ops) =>
      '(added, removed) ← confirm dpid ops [] [];
      '_ ← set_nom dpid (fun t => nt_set_barriers (delete x (nt_barrier_ops t)) (nt_op_barrier t) t);
      '_ ← set_nom dpid (nt_raise (Modification added removed));
      mret true
  end.
Definition nom_FlowRemoved (dpid : Z) (ofp : ofp_flow_removed) : M World bool :=
  t ← get_nom dpid;
  match List.find (fun e => ofp_match_eq (fr_match ofp) (te_match e) && (fr_priority ofp =? te_priority e)) (nom_entries t) with
  | None => mret false
  | Some entry =>
      table ← lift (remove_entry entry (nt_table t));
      '_ ← set_nom dpid (nt_set_table table);
      '_ ← set_nom dpid (nt_raise (Modification [] [entry]));
      mret true
  end.
Definition nom_handle (dpid : Z) (e : sw_event) : M World bool :=
  match e with
  | SwConnectionUp _ => '_ ← sync_pending dpid true; mret false
  | SwConnectionDown => '_ ← set_nom dpid (nt_set_barriers ∅ ∅); mret false
  | SwBarrierIn ofp => nom_BarrierIn dpid (hdr_xid (bp_hdr ofp))
  | SwFlowRemoved ofp => nom_FlowRemoved dpid ofp
  | _ => mret false
  end.

(** ** OpenFlowSwitch *)

(** [raiseEvent]: the flow table was the first to listen. *)
Definition sw_raise (dpid : Z) (e : sw_event) : M World unit :=
  '_ ← set_sw dpid (os_raise e);
  halt ← nom_handle dpid e;
  if halt : bool then mret tt else on_switch dpid e.

(** [OpenFlowPort(p)]. *)
Definition OpenFlowPort_init (p : ofp_phy_port) : M World OpenFlowPort :=
  id ← new_entity None;
  hw ← lift (port_hw (pp_hw_addr p));
  lift (port_update p (MkOFPort id (pp_port_no p) hw (pp_name p) 0 0 ∅)).

Definition RECONNECT_TIMEOUT : Z := 30 * 10 ^ 9.

Definition OpenFlowSwitch_init (dpid : option Z) : M World Z :=
  match dpid with
  | None => raise AssertionError
  | Some dpid =>
      if dpid =? 0 then raise AssertionError
      else
        '_ ← new_entity (Some dpid);
        '_ ← modify_topo (fun t => t_set_switches (<[dpid :=
               MkOFSwitch ∅ NOMFlowTable_init 0 None [] None
                 (xid_generator (Z.shiftl (Z.land dpid 0x7FFF) 16 + 1)) []]> (t_switches t)) t);
        mret dpid
  end.

(** The loops over the ports of the features reply, and over those it leaves out. *)
Definition put_port (dpid port_no : Z) (p : OpenFlowPort) : M World unit :=
  set_sw dpid (fun s => os_set_ports (<[port_no := p]> (os_ports s)) s).
Definition update_port (dpid : Z) (p : ofp_phy_port) (old : OpenFlowPort) : M World unit :=
  new ← lift (port_update p old); put_port dpid (pp_port_no p) new.
Fixpoint update_ports (dpid : Z) (ports : list ofp_phy_port) (untouched : gset Z) : M World (gset Z) :=
  match ports with
  | [] => mret untouched
  | p :: ports =>
      s ← get_sw dpid;
      match os_ports s !! pp_port_no p with
      | Some old =>
          '_ ← update_port dpid p old;
          if bool_decide (pp_port_no p ∈ untouched) then update_ports dpid ports (untouched ∖ {[pp_port_no p]})
          else raise KeyError
      | None => new ← OpenFlowPort_init p; '_ ← put_port dpid (pp_port_no p) new; update_ports dpid ports untouched
      end
  end.
Definition drop_ports (dpid : Z) (untouched : gset Z) : M World unit :=
  set_sw dpid (fun s => os_set_ports (filter (fun x => x.1 ∉ untouched) (os_ports s)) s).

Definition setConnection (dpid : Z) (connection : option Z) (ofp : option ofp_features_reply) : M World unit :=
  '_ ← set_sw dpid (fun s => match os_connection s with
         | Some old => os_set_listening (List.filter (fun c => negb (c =? old)) (os_listening s)) s
         | None => s
         end);
  '_ ← set_sw dpid (os_set_connection connection);
  '_ ← set_sw dpid (os_set_timer None);
  w ← get;
  '_ ← match connection with
       | None => set_sw dpid (os_set_timer (Some (w_now w + RECONNECT_TIMEOUT)))
       | Some _ => mret tt
       end;
  '_ ← match ofp with
       | None => mret tt
       | Some ofp =>
           '_ ← set_sw dpid (os_set_capabilities (fy_capabilities ofp));
           s ← get_sw dpid;
           untouched ← update_ports dpid (fy_ports ofp) (dom (os_ports s));
           drop_ports dpid untouched
       end;
  match connection with
  | Some con =>
      '_ ← set_sw dpid (fun s => os_set_listening (os_listening s ++ [con]) s);
      sw_raise dpid (SwConnectionUp con)
  | None => sw_raise dpid SwConnectionDown
  end.

Definition timer_ReconnectTimeout (dpid : Z) : M World unit :=
  '_ ← set_sw dpid (os_set_timer None);
  '_ ← removeEntity KSwitch dpid;
  sw_raise dpid SwLeave.

(** The handlers of the connection's events. *)
Definition con_PortStatus (dpid : Z) (ofp : ofp_port_status) : M World unit :=
  let p := pst_desc ofp in
  s ← get_sw dpid;
  '_ ← (if pst_reason ofp =? OFPPR_DELETE then
          set_sw dpid (fun s => os_set_ports (delete (pp_port_no p) (os_ports s)) s)
        else if pst_reason ofp =? OFPPR_MODIFY then
          match os_ports s !! pp_port_no p with Some old => update_port dpid p old | None => raise KeyError end
        else
          '_ ← lift (py_assert (pst_reason ofp =? OFPPR_ADD));
          '_ ← lift (py_assert (bool_decide (os_ports s !! pp_port_no p = None)));
          new ← OpenFlowPort_init p;
          put_port dpid (pp_port_no p) new);
  sw_raise dpid (SwPortStatus ofp).
Definition con_ConnectionDown (dpid : Z) : M World unit := setConnection dpid None None.
(** There is no attribute [flowTable]. *)
Definition con_FlowRemoved (dpid : Z) (ofp : ofp_flow_removed) : M World unit :=
  '_ ← sw_raise dpid (SwFlowRemoved ofp); raise AttributeError.
Definition con_handle (dpid : Z) (e : event) : M World unit :=
  match e with
  | EvPortStatus ofp => con_PortStatus dpid ofp
  | EvConnectionDown => con_ConnectionDown dpid
  | EvPacketIn ofp => sw_raise dpid (SwPacketIn ofp)
  | EvBarrierIn ofp => sw_raise dpid (SwBarrierIn ofp)
  | EvFlowRemoved ofp => con_FlowRemoved dpid ofp
  | _ => mret tt
  end.

(** [installFlow(...)], with the entry that [TableEntry(...)] makes. *)
Definition installFlow (dpid : Z) (entry : TableEntry) : M World unit := nom_install dpid [entry].

(** ** OpenFlowTopology *)

Definition topology_ConnectionUp (con : Z) (ofp : ofp_features_reply) : M World unit :=
  c ← get_con con;
  t ← get_topo;
  match getEntityByID (con_dpid c) t with
  | None =>
      sw ← OpenFlowSwitch_init (con_dpid c);
      '_ ← setConnection sw (Some con) (Some ofp);
      '_ ← lift (dpidToStr (con_dpid c));
      '_ ← addEntity KSwitch sw;
      sw_raise sw SwJoin
  | Some KSwitch =>
      let sw := default 0 (con_dpid c) in
      '_ ← (if bool_decide (os_connection (the_sw sw t) = None) then mret [] else lift (dpidToStr (con_dpid c)));
      '_ ← setConnection sw (Some con) (Some ofp);
      '_ ← lift (dpidToStr (con_dpid c)); mret tt
  | Some _ => raise AttributeError
  end.
Definition topology_ConnectionDown (con : Z) : M World unit :=
  c ← get_con con;
  t ← get_topo;
  match getEntityByID (con_dpid c) t with
  | None => '_ ← lift (dpidToStr (con_dpid c)); mret tt
  | Some KSwitch =>
      let sw := default 0 (con_dpid c) in
      '_ ← (if bool_decide (os_connection (the_sw sw t) = None) then lift (dpidToStr (con_dpid c)) else mret []);
      set_sw sw (os_set_connection None)
  | Some _ => raise AttributeError
  end.

(** [_handle_openflow_discovery_LinkEvent]. *)
Definition port_entities (dpid port : Z) (f : OpenFlowPort -> OpenFlowPort) : M World unit :=
  set_sw dpid (fun s => os_set_ports (alter f port (os_ports s)) s).
Definition topology_LinkEvent (added : bool) (link : Link) : M World unit :=
  t ← get_topo;
  match dpid1 link, dpid2 link, getEntityByID (dpid1 link) t, getEntityByID (dpid2 link) t with
  | Some sw1, Some sw2, Some KSwitch, Some KSwitch =>
      match os_ports (the_sw sw1 t) !! port1 link, os_ports (the_sw sw2 t) !! port2 link with
      | Some _, Some _ =>
          let change e := if added then addEntity_port e true
                          else fun p => op_set_entities (op_entities p ∖ {[e]}) p in
          '_ ← port_entities sw1 (port1 link) (change sw2);
          port_entities sw2 (port2 link) (change sw1)
      | _, _ => mret tt
      end
  | Some _, Some _, Some _, Some _ => raise AttributeError
  | _, _, _, _ => mret tt
  end.

(** What hears the controller: the component, and the switches of a connection. *)
Fixpoint each_sw (dpids : list Z) (e : event) : M World unit :=
  match dpids with [] => mret tt | dpid :: dpids => '_ ← con_handle dpid e; each_sw dpids e end.
Definition listening_on (con : Z) (t : Topology) : list Z :=
  (List.filter (fun x => existsb (Z.eqb con) (os_listening x.2)) (map_to_list (t_switches t))).*1.
Definition topology_listener (src : source) (con : Z) (e : event) : M World unit :=
  match src, e with
  | Nexus, EvConnectionUp ofp => topology_ConnectionUp con ofp
  | Nexus, EvConnectionDown => topology_ConnectionDown con
  | OnCon c, _ => t ← get_topo; each_sw (listening_on c t) e
  | _, _ => mret tt
  end.
End topology.
