(* ===== verification/OfTopologyTheory.v ===== *)
(** The switch objects and their flow tables: an installed entry is in step with the switch
    once the barrier comes back, what two barriers under way do to each other, and that a
    switch object never leaves. *)
From S2P Require Import Prelude.
From S2P Require Import Sorting.
From S2P Require Import Steps.
From S2P Require Import Addresses.
From S2P Require Import OfConst.
From S2P Require Import Wire.
From S2P Require Import OfBase.
From S2P Require Import OfMatch.
From S2P Require Import MatchTheory.
From S2P Require Import OfActions.
From S2P Require Import OfMessages.
From S2P Require Import PacketCodec.
From S2P Require Import PacketTheory.
From S2P Require Import Lldp.
From S2P Require Import FlowTable.
From S2P Require Import Connection.
From S2P Require Import SoftSwitch.
From S2P Require Import SwitchTheory.
From S2P Require Import Controller.
From S2P Require Import ControllerTheory.
From S2P Require Import Discovery.
From S2P Require Import OfTopology.

(** * Running on one switch object *)

Section nom.
Context (PIPE_BUF : Z) (sock_send : Z -> nat -> bytes -> send_result).
Context (nested : source -> Z -> event -> M (World Topology) unit).
Context (on_switch : Z -> sw_event -> M (World Topology) unit) (on_topology : topo_event -> M (World Topology) unit).
Abbreviation World := (Controller.World Topology).
Context (id : Z) (n : gmap (option Z) Z) (r : list (source * Z * event)) (w : World).
Hypothesis Ht : takes_all sock_send id.
Hypothesis Hs : w_sending w = false.

(** The topology [a] with the switch object [s] for [d]. *)
Definition with_sw (d : Z) (s : OpenFlowSwitch) (a : Topology) : Topology := t_set_switches (<[d := s]> (t_switches a)) a.
(** The world: the connection, the xids of the library, the switch object. *)
Definition at_ (c : Con) (x : Z) (d : Z) (s : OpenFlowSwitch) (a : Topology) : World := after id c n x r (with_sw d s a) w.

Lemma the_sw_with d s a : the_sw d (with_sw d s a) = s.
Proof. unfold the_sw. cbn. by rewrite lookup_insert_eq. Qed.
Lemma get_sw_at d s a c x : get_sw d (at_ c x d s a) = (Ok s, at_ c x d s a).
Proof. change (get_sw d (at_ c x d s a)) with (Ok (the_sw d (with_sw d s a)), at_ c x d s a). by rewrite the_sw_with. Qed.
Lemma get_nom_at d s a c x : get_nom d (at_ c x d s a) = (Ok (os_nom s), at_ c x d s a).
Proof. unfold get_nom. by erewrite bind_ok by apply get_sw_at. Qed.
Lemma set_sw_at d s a c x f : set_sw d f (at_ c x d s a) = (Ok tt, at_ c x d (f s) a).
Proof.
  change (set_sw d f (at_ c x d s a)) with
    (Ok tt, after id c n x r (t_set_switches (alter f d (<[d := s]> (t_switches a))) a) w).
  by rewrite alter_insert_eq.
Qed.
Lemma set_nom_at d s a c x f : set_nom d f (at_ c x d s a) = (Ok tt, at_ c x d (os_set_nom (f (os_nom s)) s) a).
Proof. unfold set_nom. by rewrite set_sw_at. Qed.

(** ** Sending *)

Definition nom_next_xid (s : OpenFlowSwitch) : OpenFlowSwitch := os_set_xid ((os_xid s + 1) mod 2 ^ 31) s.
Lemma sw_next_xid_at d s a c x : sw_next_xid d (at_ c x d s a) = (Ok (os_xid s), at_ c x d (nom_next_xid s) a).
Proof.
  unfold sw_next_xid. erewrite bind_ok by apply get_sw_at. cbn [xid_next]. change (MAX_XID + 1) with (2 ^ 31).
  erewrite bind_ok by apply set_sw_at. done.
Qed.
Lemma next_xid_range s : 0 <= os_xid (nom_next_xid s) < 2 ^ 31.
Proof. by apply Z.mod_pos_bound. Qed.

(** The flow mod an entry is sent in. *)
Definition add_mod (e : TableEntry) (buffer xid : Z) : ofp_flow_mod :=
  FlowMod (Hdr OFP_VERSION OFPT_FLOW_MOD 8 (Some xid)) (te_match e) (te_cookie e) NOM_ADD (te_idle_timeout e)
    (te_hard_timeout e) (te_priority e) buffer OFPP_NONE 0 (te_actions e).
Record sendable (e : TableEntry) : Prop := {
  sb_buffer : te_buffer_id e = Some (-1);
  sb_mod : msg_wf (add_mod e (-1) 0)
}.
Lemma sendable_mod e xid : sendable e -> u32 xid -> msg_wf (add_mod e (-1) xid).
Proof.
  intros [_ (Hh & Hr)] Hx. split; [|exact Hr]. destruct Hh as (Hv & Ht' & Hl & _). by repeat split; try apply Hv; try apply Ht'; try apply Hl; apply Hx.
Qed.

(** What the switch reads. *)
Definition mod_read (e : TableEntry) (xid len : Z) : ofp_flow_mod :=
  FlowMod (Hdr OFP_VERSION OFPT_FLOW_MOD len (Some xid)) (wire_view true (te_match e)) (te_cookie e) NOM_ADD
    (te_idle_timeout e) (te_hard_timeout e) (te_priority e) (-1) OFPP_NONE 0 (action_settle <$> te_actions e).

Section up.
Context (c : Con) (x : Z) (d : Z) (s : OpenFlowSwitch) (a : Topology).
Hypothesis Hup : con_disconnected c = false.
Hypothesis Hc : os_connection s = Some id.
Hypothesis Hx : 0 <= x < 2 ^ 31.

Lemma sw_send_at {T} (pack : T -> M Z (T * option bytes)) m m' b x' : pack m x = (Ok (m', Some b), x') ->
  sw_send PIPE_BUF sock_send nested d pack m (at_ c x d s a) = (Ok tt, at_ (sent b c) x' d s a).
Proof.
  intros E. unfold sw_send. erewrite bind_ok by apply get_sw_at. rewrite Hc.
  by erewrite bind_ok by (eapply con_send_after; [exact Ht|exact Hs|exact Hup|exact E]).
Qed.

Lemma send_msg_at `{MsgLaws T, !Dispatch T} (m : T) : msg_wf m ->
  let h := (hdr_settle (mhdr (mready m)) x).1 in let m' := with_hdr h (mready m) in
  hdr_version (mhdr m') = OFP_VERSION -> hdr_type (mhdr m') = disp_type ->
  exists b x', sw_send PIPE_BUF sock_send nested d (mpack true) m (at_ c x d s a) = (Ok tt, at_ (sent b c) x' d s a) /\
    0 <= x' < 2 ^ 31 /\ frame b disp_type (disp_wrap (mview m')).
Proof.
  intros Hw h m' Hv Hty. destruct (packs m x Hw Hx Hv Hty) as (b & x' & E & Hx' & F). exists b, x'.
  split; [by eapply sw_send_at|done].
Qed.

Lemma send_op_at e : sendable e -> 0 <= os_xid s < 2 ^ 31 -> exists b x' len,
  send_op PIPE_BUF sock_send nested d (NOM_ADD, e) (at_ c x d s a) = (Ok tt, at_ (sent b c) x' d (nom_next_xid s) a) /\
  0 <= x' < 2 ^ 31 /\ frame b OFPT_FLOW_MOD (MFlowMod (mod_read e (os_xid s) len)).
Proof.
  intros He Hn. pose proof (sendable_mod e (os_xid s) He ltac:(lia)) as Hm.
  pose proof (packs (add_mod e (-1) (os_xid s)) x Hm Hx eq_refl eq_refl) as (b & x' & E & Hx' & F).
  exists b, x', (ofp_flow_mod_len (add_mod e (-1) (os_xid s))). split; [|by split].
  unfold send_op. erewrite bind_ok by apply sw_next_xid_at. unfold to_flow_mod. cbn [fst snd]. rewrite (sb_buffer e He).
  unfold sw_send. erewrite bind_ok by apply get_sw_at. change (os_connection (nom_next_xid s)) with (os_connection s). rewrite Hc.
  by erewrite bind_ok by (eapply con_send_after; [exact Ht|exact Hs|exact Hup|exact E]).
Qed.
End up.

(** Several messages, one after the other. *)
Definition sent_all (bs : list bytes) (c : Con) : Con := foldl (fun c b => sent b c) c bs.
Lemma sent_all_spec bs c : con_disconnected (sent_all bs c) = con_disconnected c /\ con_out (sent_all bs c) = con_out c ++ concat bs /\
  con_finishing (sent_all bs c) = con_finishing c /\ con_nexus (sent_all bs c) = con_nexus c.
Proof.
  revert c; induction bs as [|b bs IH]; intros c; [by rewrite app_nil_r|]. destruct (IH (sent b c)) as (H1 & H2 & H3 & H4).
  cbn [sent_all foldl concat]. fold (sent_all bs (sent b c)). rewrite H1, H2, H3, H4. cbn. by rewrite <-app_assoc.
Qed.

(** The frames are the flow mods of the entries. *)
Definition mod_frame (e : TableEntry) (f : parsed) : Prop :=
  exists xid len, f.2 = (OFPT_FLOW_MOD, MFlowMod (mod_read e xid len)).

Lemma send_ops_at es c x d s a : con_disconnected c = false -> os_connection s = Some id -> 0 <= x < 2 ^ 31 ->
  0 <= os_xid s < 2 ^ 31 -> Forall sendable es -> exists fs x' k,
  send_ops PIPE_BUF sock_send nested d ((fun e => (NOM_ADD, e)) <$> es) (at_ c x d s a) =
    (Ok tt, at_ (sent_all (map fst fs) c) x' d (os_set_xid k s) a) /\
  0 <= x' < 2 ^ 31 /\ k = (os_xid s + zlen es) mod 2 ^ 31 /\ frames fs /\ Forall2 mod_frame es fs.
Proof.
  intros Hup Hc Hx Hn Hes. revert c x s Hup Hc Hx Hn; induction Hes as [|e es He _ IH]; intros c x s Hup Hc Hx Hn.
  { exists [], x, (os_xid s). split; [by destruct s|]. split; [done|]. split; [|split; constructor].
    change (zlen []) with 0. by rewrite Z.add_0_r, Z.mod_small. }
  destruct (send_op_at c x d s a Hup Hc Hx e He Hn) as (b & x1 & len & E1 & Hx1 & F).
  destruct (IH (sent b c) x1 (nom_next_xid s)) as (fs & x2 & k & E2 & Hx2 & Hk & Hfs & H2); [done..|apply next_xid_range|].
  exists ((b, (OFPT_FLOW_MOD, MFlowMod (mod_read e (os_xid s) len))) :: fs), x2, k.
  split; [|split; [done|split; [|split; [by constructor|constructor; [by eexists _, _|done]]]]]; cycle 1.
  { rewrite Hk. cbn [os_xid nom_next_xid os_set_xid]. rewrite Zplus_mod_idemp_l. f_equal. change (e :: es) with ([e] ++ es). rewrite zlen_app. change (zlen [e]) with 1. lia. }
  cbn [fmap list_fmap send_ops]. erewrite bind_ok by exact E1. exact E2.
Qed.

(** ** Synchronizing *)

Definition adds (es : list TableEntry) : list nom_op := (fun e => (NOM_ADD, e)) <$> es.

(** Every pending operation is sent, however lately it was. *)
Lemma nom_due_all t l : List.filter (nom_due t) l = l.
Proof.
  assert (forall o, nom_due t o = true) as H by (intros o; unfold nom_due; by destruct (nt_op_barrier t !! op_key o) as [[? ?]|]).
  induction l as [|o l IH]; [done|]. cbn. by rewrite H, IH.
Qed.

Lemma enqueue_adds es pending : nom_enqueue NOM_ADD es pending = (Ok tt, pending ++ adds es).
Proof.
  revert pending; induction es as [|e es IH]; intros pending; [by rewrite app_nil_r|].
  change (nom_enqueue NOM_ADD (e :: es) pending) with (nom_enqueue NOM_ADD es (pending ++ [(NOM_ADD, e)])).
  by rewrite IH, <-app_assoc.
Qed.

Lemma barrier_wf k : 0 <= k < 2 ^ 31 -> msg_wf (barrier_with k).
Proof. intros Hk. split; [|done]. split; [done|]. split; [done|]. split; [done|]. cbn. lia. Qed.

(** The flow table once the operations [todo] wait for the barrier [y]. *)
Definition waiting (y : Z) (todo : list nom_op) (t t' : NOMFlowTable) : Prop :=
  nt_table t' = nt_table t /\ nt_pending t' = todo /\ nt_events t' = nt_events t /\ nt_barrier_ops t' = <[y := todo]> (nt_barrier_ops t).

Lemma install_at es0 es c x d s a : con_disconnected c = false -> os_connection s = Some id -> 0 <= x < 2 ^ 31 ->
  0 <= os_xid s < 2 ^ 31 -> nt_pending (os_nom s) = adds es0 -> Forall sendable (es0 ++ es) -> exists fs b y x' k t,
  nom_install PIPE_BUF sock_send nested d es (at_ c x d s a) =
    (Ok tt, at_ (sent b (sent_all (map fst fs) c)) x' d (os_set_nom t (os_set_xid k s)) a) /\
  0 <= x' < 2 ^ 31 /\ k = (y + 1) mod 2 ^ 31 /\ y = (os_xid s + zlen (es0 ++ es)) mod 2 ^ 31 /\ waiting y (adds (es0 ++ es)) (os_nom s) t /\
  frames fs /\ Forall2 mod_frame (es0 ++ es) fs /\ frame b OFPT_BARRIER_REQUEST (MBarrierRequest (barrier_with y)).
Proof.
  intros Hup Hc Hx Hn Hp Hes. set (todo := adds (es0 ++ es)).
  assert (adds es0 ++ adds es = todo) as Htodo by (unfold todo, adds; by rewrite fmap_app).
  set (s1 := os_set_nom (nt_set_pending todo (os_nom s)) s).
  destruct (send_ops_at (es0 ++ es) c x d s1 a) as (fs & x1 & k & E1 & Hx1 & Hk & Hfs & H2); [done..|].
  assert (0 <= k < 2 ^ 31) as Hkr by (rewrite Hk; by apply Z.mod_pos_bound).
  set (s2 := os_set_xid k s1) in *. destruct (sent_all_spec (map fst fs) c) as (Hup' & _).
  assert (con_disconnected (sent_all (map fst fs) c) = false) as Hup1 by by rewrite Hup'.
  pose proof (send_msg_at (sent_all (map fst fs) c) x1 d (nom_next_xid s2) a Hup1 Hc Hx1 (barrier_with k) (barrier_wf k Hkr) eq_refl eq_refl)
    as (b & x2 & E2 & Hx2 & F).
  eexists fs, b, k, x2, _, _. split; [|split; [exact Hx2|split; [reflexivity|split; [exact Hk|split; [|split; [exact Hfs|split; [exact H2|exact F]]]]]]].
  - unfold nom_install, nom_mod. erewrite bind_ok by apply get_nom_at. rewrite Hp, enqueue_adds, Htodo. cbv beta iota zeta.
    erewrite bind_ok by apply set_nom_at. erewrite bind_ok by reflexivity. fold s1.
    unfold sync_pending. erewrite bind_ok by apply get_sw_at. change (os_connection s1) with (os_connection s). rewrite Hc.
    unfold nom_todo. erewrite bind_ok; [|erewrite bind_ok by apply get_nom_at; rewrite nom_due_all; reflexivity].
    change (nt_pending (os_nom s1)) with todo. erewrite bind_ok by exact E1. erewrite bind_ok by apply sw_next_xid_at.
    erewrite bind_ok by exact E2. rewrite bind_get, set_nom_at. reflexivity.
  - repeat split.
Qed.

(** ** The barrier comes back *)

(** The switch object with the table [t] and pending operations [p]. *)
Definition with_table (t : FlowTable) (p : list nom_op) (s : OpenFlowSwitch) : OpenFlowSwitch :=
  os_set_nom (nt_set_pending p (nt_set_table t (os_nom s))) s.

Lemma confirm_adds es rest ad rm c x d s a : nt_pending (os_nom s) = adds es ++ rest ->
  confirm d (adds es) ad rm (at_ c x d s a) =
    (Ok (ad ++ es, rm), at_ c x d (with_table (foldl (fun t e => add_entry e t) (nt_table (os_nom s)) es) rest s) a).
Proof.
  revert ad s; induction es as [|e es IH]; intros ad s Hp.
  { rewrite app_nil_r. cbn [adds fmap list_fmap app] in Hp. unfold with_table. rewrite <-Hp. by destruct s as [? [] ? ? ? ? ? ?]. }
  cbn [adds fmap list_fmap confirm]. erewrite bind_ok by apply get_nom_at. cbn [apply_op fst snd].
  erewrite bind_ok by reflexivity. cbv beta iota. erewrite bind_ok by apply set_nom_at.
  erewrite bind_ok; cycle 1.
  { rewrite Hp. cbn [adds fmap list_fmap app op_remove]. rewrite bool_decide_true by done. reflexivity. }
  erewrite bind_ok by apply set_nom_at. rewrite app_nil_r. fold (adds es). erewrite IH by reflexivity.
  by rewrite <-app_assoc.
Qed.

(** An operation that is not pending any more: the entry is added once more, then the handler
    raises. *)
Lemma op_remove_missing o l : op_key o ∉ (op_key <$> l) -> op_remove o l = Err ValueError.
Proof.
  induction l as [|y l IH]; [done|]. cbn [fmap list_fmap]. intros [Hne Hl]%not_elem_of_cons. cbn [op_remove].
  rewrite bool_decide_false by congruence. by rewrite IH.
Qed.
Lemma confirm_stale e ops ad rm c x d s a : op_key (NOM_ADD, e) ∉ (op_key <$> nt_pending (os_nom s)) ->
  confirm d ((NOM_ADD, e) :: ops) ad rm (at_ c x d s a) =
    (Err ValueError, at_ c x d (with_table (add_entry e (nt_table (os_nom s))) (nt_pending (os_nom s)) s) a).
Proof.
  intros Hp. cbn [confirm]. erewrite bind_ok by apply get_nom_at. erewrite bind_ok by reflexivity. cbv beta iota.
  erewrite bind_ok by apply set_nom_at. cbn [nt_pending nt_set_table os_nom os_set_nom].
  unfold lift. rewrite op_remove_missing by done. erewrite bind_err by reflexivity. by destruct s as [? [] ? ? ? ? ? ?].
Qed.
End nom.

(** * The switch at the other end *)

(** A flow, without the counters and the identity of an entry; and as the switch reads it. *)
Record flow := MkFlow {
  fl_priority : Z; fl_cookie : Z; fl_idle : Z; fl_hard : Z; fl_match : ofp_match; fl_actions : list action
}.
Definition flow_in (e : TableEntry) : flow :=
  MkFlow (te_priority e) (te_cookie e) (te_idle_timeout e) (te_hard_timeout e) (te_match e) (te_actions e).
Definition flow_as_sent (e : TableEntry) : flow :=
  MkFlow (te_priority e) (te_cookie e) (te_idle_timeout e) (te_hard_timeout e) (wire_view true (te_match e))
    (action_settle <$> te_actions e).
Definition in_step (t : NOMFlowTable) (s : Switch (option (list bytes))) : Prop :=
  flow_as_sent <$> nom_entries t ≡ₚ flow_in <$> ft_table (sw_table s).

(** Entries for matches and priorities that no flow has yet, nor another of them. *)
Definition clash (f g : flow) : bool := ofp_match_eq (fl_match f) (fl_match g) && (fl_priority f =? fl_priority g).
Fixpoint all_new (es : list TableEntry) (known : list flow) : Prop :=
  match es with
  | [] => True
  | e :: es => Forall (fun f => clash f (flow_as_sent e) = false) known /\ all_new es (flow_as_sent e :: known)
  end.
Lemma all_new_perm es k1 k2 : k1 ≡ₚ k2 -> all_new es k1 -> all_new es k2.
Proof.
  revert k1 k2; induction es as [|e es IH]; intros k1 k2 Hk; [done|]. intros [H1 H2]. split.
  - apply Forall_forall. intros f Hf. rewrite <-Hk in Hf. by eapply Forall_forall in H1.
  - eapply IH; [|exact H2]. by constructor.
Qed.

(** The switch handling messages one after the other. *)
Fixpoint serve `{AppCodec} (now : Z) (ms : list (Z * of_msg)) : M (Switch (option (list bytes))) unit :=
  match ms with
  | [] => mret tt
  | m :: ms => '_ ← switch_handle now m.1 m.2; serve now ms
  end.


Lemma serve_add `{AppCodec} now e xid len s : table_wf (sw_table s) -> dl_eth (wire_view true (te_match e)) ->
  Forall (fun f => clash f (flow_as_sent e) = false) (flow_in <$> ft_table (sw_table s)) ->
  exists t', switch_handle now OFPT_FLOW_MOD (MFlowMod (mod_read e xid len)) s = (Ok tt, set_flow_table t' s) /\
    table_wf t' /\ flow_in <$> ft_table t' ≡ₚ flow_as_sent e :: (flow_in <$> ft_table (sw_table s)).
Proof.
  intros Ht Hd Hnew. set (fm := mod_read e xid len).
  destruct (add_ok fm now (sw_table s) Ht Hd ltac:(done) eq_refl) as (t' & l1 & l2 & E & Ht' & Etab & El & _).
  exists t'. split; [|split; [done|]].
  - unfold switch_handle, handler, receive_flow_mod. rewrite bind_get.
    erewrite bind_ok by (unfold lift; rewrite E; reflexivity). done.
  - rewrite Etab, fmap_app, fmap_cons, <-Permutation_middle, <-fmap_app, El. apply Permutation_cons; [done|].
    apply Forall_fmap in Hnew. assert (List.filter (fun e => negb (same_flow fm e)) (ft_table (sw_table s)) = ft_table (sw_table s)) as ->; [|done].
    clear -Hnew. induction Hnew as [|y l Hy _ IH]; [done|]. cbn [List.filter].
    replace (same_flow fm y) with false by by rewrite <-Hy. cbn [negb]. by f_equal.
Qed.

Lemma serve_adds `{AppCodec} now es fs s : table_wf (sw_table s) -> Forall (fun e => dl_eth (wire_view true (te_match e))) es ->
  Forall2 mod_frame es fs -> all_new es (flow_in <$> ft_table (sw_table s)) ->
  exists t', serve now (map snd fs) s = (Ok tt, set_flow_table t' s) /\ table_wf t' /\
    flow_in <$> ft_table t' ≡ₚ (flow_as_sent <$> es) ++ (flow_in <$> ft_table (sw_table s)).
Proof.
  intros Ht Hd Hfs. revert s Ht Hd; induction Hfs as [|e [b [ty m]] es fs (xid & len & [= -> ->]) _ IH]; intros s Ht Hd Hnew.
  { exists (sw_table s). split; [by destruct s|done]. }
  apply Forall_cons in Hd as [Hd1 Hd]. destruct Hnew as [Hn1 Hn].
  destruct (serve_add now e xid len s Ht Hd1 Hn1) as (t1 & E1 & Ht1 & P1).
  destruct (IH (set_flow_table t1 s) Ht1 Hd) as (t2 & E2 & Ht2 & P2).
  { eapply all_new_perm; [|exact Hn]. change (sw_table (set_flow_table t1 s)) with t1. by rewrite P1. }
  exists t2. split; [|split; [exact Ht2|]].
  - cbn [map serve fst snd]. erewrite bind_ok by exact E1. exact E2.
  - rewrite P2. change (sw_table (set_flow_table t1 s)) with t1. rewrite P1. cbn [fmap list_fmap app]. by rewrite <-Permutation_middle.
Qed.

(** * A barrier reply reaches the switch object *)

(** [d] is the only switch object that listens to the connection [id]. *)
Definition sole_listener (id d : Z) (t : Topology) : Prop :=
  forall d' s', t_switches t !! d' = Some s' -> id ∈ os_listening s' <-> d' = d.

Lemma listening_on_sole id d s t : t_switches t !! d = Some s -> sole_listener id d t -> listening_on id t = [d].
Proof.
  intros Hd Hl. unfold listening_on.
  assert (forall l, NoDup l.*1 -> (forall d' s', (d', s') ∈ l -> t_switches t !! d' = Some s') ->
    (List.filter (fun x => existsb (Z.eqb id) (os_listening x.2)) l).*1 = if bool_decide (d ∈ l.*1) then [d] else []) as Hall.
  { induction l as [|[d' s'] l IH]; intros Hnd Hin; [done|]. cbn [fmap list_fmap] in Hnd. apply NoDup_cons in Hnd as [Hn Hnd].
    specialize (IH Hnd (fun d1 s1 H1 => Hin d1 s1 (list_elem_of_further _ _ _ H1))). cbn [List.filter fst snd fmap list_fmap].
    pose proof (Hl d' s' (Hin d' s' (list_elem_of_here _ _))) as Hd'.
    assert (existsb (Z.eqb id) (os_listening s') = bool_decide (d' = d)) as ->.
    { apply eq_true_iff_eq. rewrite existsb_exists, bool_decide_eq_true, <-Hd', list_elem_of_In. split.
      - by intros (y & Hy & ->%Z.eqb_eq).
      - intros Hy. exists id. by rewrite Z.eqb_refl. }
    destruct (bool_decide_reflect (d' = d)) as [->|Hne]; cbn [fmap list_fmap fst]; rewrite IH.
    - by rewrite (bool_decide_false (d ∈ l.*1)), (bool_decide_true (d ∈ d :: l.*1)) by (try apply list_elem_of_here; done).
    - erewrite (bool_decide_ext (d ∈ d' :: l.*1)); [reflexivity|]. rewrite elem_of_cons. split; [by intros [->|?]|by right]. }
  rewrite Hall; [|apply NoDup_fst_map_to_list|intros d' s'; by rewrite elem_of_map_to_list].
  rewrite bool_decide_true; [done|]. apply list_elem_of_fmap. exists (d, s). by rewrite elem_of_map_to_list.
Qed.

Section contract.
Context (PIPE_BUF : Z) (sock_send : Z -> nat -> bytes -> send_result).
Context (nested : source -> Z -> event -> M (Controller.World Topology) unit).
Context (on_switch : Z -> sw_event -> M (Controller.World Topology) unit) (on_topology : topo_event -> M (Controller.World Topology) unit).
Context (def : nexus_ref) (choice : Z -> nexus_ref) (l : option Z) (cl : bool).
Abbreviation World := (Controller.World Topology).
Abbreviation hears := (topology_listener PIPE_BUF sock_send nested on_switch on_topology).
Abbreviation handle := (of_handle PIPE_BUF sock_send hears def choice l cl).

(** What the controller does on a barrier reply, with no handshake under way. *)
Lemma barrier_reply_handled id d s c reply (w : World) : w_cons w !! id = Some c -> con_finishing c = [] ->
  t_switches (w_app w) !! d = Some s -> sole_listener id d (w_app w) -> exists r,
  handle id OFPT_BARRIER_REPLY (MBarrierReply reply) w =
    (Ok tt, (con_handle PIPE_BUF sock_send nested on_switch d (EvBarrierIn reply) (w_set_raised r w)).2).
Proof.
  intros Hc Hf Hd Hl. assert (the_con id w = c) as Hcon by (unfold the_con; by apply lookup_total_correct).
  change (handle id OFPT_BARRIER_REPLY (MBarrierReply reply) w) with (handle_BARRIER hears id reply w).
  unfold handle_BARRIER.
  assert (exists r, raise_nexus hears id (EvBarrierIn reply) w = (Ok tt, w_set_raised r w)) as [r0 E0].
  { unfold raise_nexus. erewrite bind_ok by reflexivity. destruct (con_nexus _ && _); [by eexists|]. exists (w_raised w). by destruct w. }
  erewrite bind_ok by exact E0. unfold con_event_finishing. erewrite bind_ok by reflexivity.
  change (the_con id (w_set_raised r0 w)) with (the_con id w). rewrite Hcon, Hf. erewrite bind_ok by reflexivity.
  exists (r0 ++ [(OnCon id, id, EvBarrierIn reply)]). unfold app_event. f_equal. cbn [topology_listener].
  set (w1 := w_set_raised (r0 ++ _) w). change (w_set_raised (w_raised (w_set_raised r0 w) ++ _) (w_set_raised r0 w)) with w1.
  erewrite bind_ok by reflexivity. change (listening_on id (w_app w1)) with (listening_on id (w_app w)).
  rewrite (listening_on_sole id d s _ Hd Hl). cbn [each_sw]. unfold mbind, M_bind.
  by destruct (con_handle PIPE_BUF sock_send nested on_switch d (EvBarrierIn reply) w1) as [[[]|e] w'].
Qed.

(** A switch object with a connection that works. *)
Record live (d id : Z) (s : OpenFlowSwitch) (c : Con) (w : World) : Prop := {
  lv_switch : t_switches (w_app w) !! d = Some s;
  lv_connection : os_connection s = Some id;
  lv_con : w_cons w !! id = Some c;
  lv_up : con_disconnected c = false;
  lv_takes : takes_all sock_send id;
  lv_sending : w_sending w = false;
  lv_xids : 0 <= w_xids w < 2 ^ 31;
  lv_xid : 0 <= os_xid s < 2 ^ 31
}.
Lemma live_at d id s c w : live d id s c w -> w = at_ id (w_nexus w) (w_raised w) w c (w_xids w) d s (w_app w).
Proof.
  intros [Hd _ Hc _ _ _ _ _]. unfold at_, with_sw. rewrite insert_id by done.
  rewrite (after_self id c w Hc) at 1. by destruct (w_app w).
Qed.

(** The reply to the barrier [y] of the additions [es], all of them pending still. *)
Lemma adds_confirmed y es rest d s c id x n r a (w0 : World) : nt_barrier_ops (os_nom s) !! y = Some (adds es) ->
  nt_pending (os_nom s) = adds es ++ rest -> forall reply, hdr_xid (bp_hdr reply) = Some y -> exists s',
  con_handle PIPE_BUF sock_send nested on_switch d (EvBarrierIn reply) (at_ id n r w0 c x d s a) = (Ok tt, at_ id n r w0 c x d s' a) /\
  nom_entries (os_nom s') ≡ₚ es ++ nom_entries (os_nom s) /\ nt_pending (os_nom s') = rest /\
  nt_events (os_nom s') = nt_events (os_nom s) ++ [Modification es []] /\
  nt_barrier_ops (os_nom s') = delete y (nt_barrier_ops (os_nom s)).
Proof.
  intros Hb Hp reply Hy. eexists. split.
  - cbn [con_handle]. unfold sw_raise. erewrite bind_ok by apply set_sw_at. cbn [nom_handle]. unfold nom_BarrierIn.
    erewrite bind_ok; cycle 1.
    { erewrite bind_ok by apply get_nom_at. rewrite Hy. cbn [mbind option_bind os_nom os_raise]. rewrite Hb.
      cbn [mbind option_bind]. erewrite bind_ok by by apply (confirm_adds _ _ _ _ es rest). cbv beta iota.
      erewrite bind_ok by apply set_nom_at. erewrite bind_ok by apply set_nom_at. reflexivity. }
    reflexivity.
  - split; [|split; [reflexivity|split; reflexivity]]. unfold nom_entries, with_table. cbn. generalize (nt_table (os_nom s)). clear.
    induction es as [|e es IH]; intros t; [done|]. cbn [foldl]. rewrite IH. unfold add_entry. cbn. rewrite sort_snoc_perm.
    by rewrite <-Permutation_middle.
Qed.

Lemma sole_listener_at id d d' s s0 a : t_switches a !! d' = Some s0 -> os_listening s = os_listening s0 ->
  sole_listener id d a -> sole_listener id d (with_sw d' s a).
Proof.
  intros Hd' El Hl e se. cbn [with_sw t_set_switches t_switches]. intros [[<- <-]|[_ H]]%lookup_insert_Some; [|by apply Hl].
  rewrite El. by apply Hl.
Qed.

(** C20: In step.  The flows of a switch object are those of its switch, nothing is pending, and
    entries for new flows are installed.  The bytes the controller sends are flow mods and a
    barrier request; the switch that handles them answers the barrier; until then the object's
    table is as it was; and when the answer is handled the object's flows are again those of
    the switch, nothing is pending, and one event tells of exactly the new entries. *)
Theorem installed_in_step `{AppCodec} d id s c es now S out w :
  live d id s c w -> sole_listener id d (w_app w) -> nt_pending (os_nom s) = [] ->
  Forall sendable es -> Forall (fun e => dl_eth (wire_view true (te_match e))) es ->
  sw_chan S = Some out -> 0 <= sw_xids S < 2 ^ 31 -> table_wf (sw_table S) ->
  in_step (os_nom s) S -> all_new es (flow_in <$> ft_table (sw_table S)) ->
  exists w1 fs S' rb reply,
    nom_install PIPE_BUF sock_send nested d es w = (Ok tt, w1) /\
    con_out (the_con id w1) = con_out c ++ wire_of fs /\ frames fs /\
    serve now (map snd fs) S = (Ok tt, S') /\
    sw_chan S' = Some (out ++ [rb]) /\ frame rb OFPT_BARRIER_REPLY (MBarrierReply reply) /\
    nom_entries (os_nom (the_sw d (w_app w1))) = nom_entries (os_nom s) /\
    forall w1' c', w_app w1' = w_app w1 -> w_cons w1' !! id = Some c' -> con_finishing c' = [] -> exists w2,
      handle id OFPT_BARRIER_REPLY (MBarrierReply reply) w1' = (Ok tt, w2) /\
      let t := os_nom (the_sw d (w_app w2)) in
      in_step t S' /\ nt_pending t = [] /\ nt_events t = nt_events (os_nom s) ++ [Modification es []].
Proof.
  intros Hlive Hsole Hp Hes Hdl Hch HxS HtS Hin Hnew. pose proof Hlive as [Hd Hc Hcon Hup Htk Hsd Hx Hxid].
  destruct (install_at PIPE_BUF sock_send nested id (w_nexus w) (w_raised w) w Htk Hsd [] es c (w_xids w) d s (w_app w)
    Hup Hc Hx Hxid Hp Hes) as (fs & b & y & x' & k & t & E & Hx' & Hk & Hy & (Ht & Hpt & Het & Hbt) & Hfs & Hmods & Fb).
  rewrite <-(live_at d id s c w Hlive) in E. rewrite app_nil_l in Hpt, Hbt, Hmods.
  assert (0 <= y < 2 ^ 31) as Hy31 by (rewrite Hy; by apply Z.mod_pos_bound).
  set (s1 := os_set_nom t (os_set_xid k s)) in *. set (c1 := sent b (sent_all (map fst fs) c)) in *.
  destruct (serve_adds now es fs S HtS Hdl Hmods Hnew) as (tab & E1 & Htab & Ptab).
  destruct (request_answered now OFPT_BARRIER_REQUEST (MBarrierRequest (barrier_with y)) OFPT_BARRIER_REPLY
    (MBarrierReply (with_xid (Some y) ofp_barrier_reply_init)) y out (set_flow_table tab S)) as (rb & E2 & Frb); [done|done|cbn; lia|done|done|].
  exists (at_ id (w_nexus w) (w_raised w) w c1 x' d s1 (w_app w)), (fs ++ [(b, (OFPT_BARRIER_REQUEST, MBarrierRequest (barrier_with y)))]),
    (set_chan (Some (out ++ [rb])) (set_flow_table tab S)), rb, (with_xid (Some y) ofp_barrier_reply_init).
  split; [exact E|]. split.
  { unfold at_. rewrite the_con_after. unfold c1, wire_of. destruct (sent_all_spec (map fst fs) c) as (_ & Ho & _). cbn.
    rewrite Ho, map_app, concat_app, <-app_assoc. cbn. by rewrite app_nil_r. }
  split; [apply Forall_app; split; [exact Hfs|by apply Forall_singleton]|]. split.
  { rewrite map_app. clear -E1 E2. revert E1. generalize (set_flow_table tab S) E2. clear E2. intros S1 E2. revert S.
    induction fs as [|f fs IH]; intros S E1; cbn [map app serve] in *.
    - injection E1 as ->. by erewrite bind_ok by exact E2.
    - unfold mbind, M_bind in *. destruct (switch_handle now f.2.1 f.2.2 S) as [[[]|] ?]; [by apply IH|done]. }
  split; [done|]. split; [exact Frb|]. split.
  { unfold nom_entries. change (w_app (at_ id (w_nexus w) (w_raised w) w c1 x' d s1 (w_app w))) with (with_sw d s1 (w_app w)).
    rewrite the_sw_with. unfold s1. cbn. by rewrite Ht. }
  intros w1' c' Happ Hc' Hf'. change (w_app (at_ _ _ _ _ _ _ _ _ _)) with (with_sw d s1 (w_app w)) in Happ.
  assert (t_switches (w_app w1') !! d = Some s1) as Hd1 by (rewrite Happ; apply lookup_insert_eq).
  assert (sole_listener id d (w_app w1')) as Hsole1 by (rewrite Happ; by apply (sole_listener_at id d d s1 s)).
  destruct (barrier_reply_handled id d s1 c' (with_xid (Some y) ofp_barrier_reply_init) w1' Hc' Hf' Hd1 Hsole1) as [r E3].
  destruct (adds_confirmed y es [] d s1 c' id (w_xids w1') (w_nexus w1') r (w_app w1') (w_set_raised r w1'))
    with (reply := with_xid (Some y) ofp_barrier_reply_init) as (s2 & E4 & Pe & Hp2 & He2 & _).
  { cbn. rewrite Hbt. by rewrite lookup_insert_eq. }
  { cbn. rewrite Hpt. by rewrite app_nil_r. }
  { done. }
  assert (w_set_raised r w1' = at_ id (w_nexus w1') r (w_set_raised r w1') c' (w_xids w1') d s1 (w_app w1')) as Ew.
  { unfold at_, with_sw. rewrite insert_id by done. rewrite (after_self id c' (w_set_raised r w1') Hc') at 1.
    by destruct w1' as [? ? ? ? ? ? ? ? ? [] ?]. }
  rewrite <-Ew in E4. rewrite E4 in E3. eexists. split; [exact E3|]. cbn [snd]. cbv zeta.
  change (w_app (at_ _ _ _ _ _ _ _ _ _)) with (with_sw d s2 (w_app w1')). rewrite the_sw_with. split; [|split; [done|]].
  - unfold in_step. rewrite Pe. cbn. rewrite fmap_app, Ptab. apply Permutation_app_head. unfold nom_entries. rewrite Ht. exact Hin.
  - rewrite He2. cbn. by rewrite Het.
Qed.

(** Two at a time.  Entries are installed while the barrier of others is still to come.  The
    controller then sends the first ones again, and on both answers counts on all of them
    being pending still: the first answer puts the first entries into the object's table, the
    second puts the first of them there once more and raises [ValueError].  So the later
    entries, which the switch has, never come into the table by this answer; they stay pending
    and no event tells of them. *)
Theorem overlapping_installs d id s c e es1 es2 w : live d id s c w -> nt_pending (os_nom s) = [] ->
  Forall sendable ((e :: es1) ++ es2) -> zlen ((e :: es1) ++ es2) < 2 ^ 30 -> te_id e ∉ (te_id <$> es2) ->
  exists w1 w2 fs1 fs2 y1 y2,
    nom_install PIPE_BUF sock_send nested d (e :: es1) w = (Ok tt, w1) /\
    nom_install PIPE_BUF sock_send nested d es2 w1 = (Ok tt, w2) /\
    con_out (the_con id w2) = con_out c ++ wire_of (fs1 ++ fs2) /\ frames (fs1 ++ fs2) /\
    Forall2 mod_frame (e :: es1) (take (length (e :: es1)) fs1) /\
    Forall2 mod_frame ((e :: es1) ++ es2) (take (length ((e :: es1) ++ es2)) fs2) /\
    snd <$> last fs1 = Some (OFPT_BARRIER_REQUEST, MBarrierRequest (barrier_with y1)) /\
    snd <$> last fs2 = Some (OFPT_BARRIER_REQUEST, MBarrierRequest (barrier_with y2)) /\
    forall r1 r2, hdr_xid (bp_hdr r1) = Some y1 -> hdr_xid (bp_hdr r2) = Some y2 -> exists w3 w4,
      con_handle PIPE_BUF sock_send nested on_switch d (EvBarrierIn r1) w2 = (Ok tt, w3) /\
      nom_entries (os_nom (the_sw d (w_app w3))) ≡ₚ (e :: es1) ++ nom_entries (os_nom s) /\
      con_handle PIPE_BUF sock_send nested on_switch d (EvBarrierIn r2) w3 = (Err ValueError, w4) /\
      nom_entries (os_nom (the_sw d (w_app w4))) ≡ₚ e :: (e :: es1) ++ nom_entries (os_nom s) /\
      nt_pending (os_nom (the_sw d (w_app w4))) = adds es2 /\
      nt_events (os_nom (the_sw d (w_app w4))) = nt_events (os_nom s) ++ [Modification (e :: es1) []].
Proof.
  intros Hlive Hp Hes Hlen Hid. pose proof Hlive as [Hd Hc Hcon Hup Htk Hsd Hx Hxid].
  pose proof Hes as [Hes1 _]%Forall_app.
  destruct (install_at PIPE_BUF sock_send nested id (w_nexus w) (w_raised w) w Htk Hsd [] (e :: es1) c (w_xids w) d s (w_app w)
    Hup Hc Hx Hxid Hp Hes1) as (fs1 & b1 & y1 & x1 & k1 & t1 & E1 & Hx1 & Hk1 & Hy1 & (Ht1 & Hp1 & He1 & Hb1) & Hfs1 & Hm1 & F1).
  rewrite <-(live_at d id s c w Hlive) in E1. rewrite app_nil_l in Hp1, Hb1, Hm1, Hy1.
  set (s1 := os_set_nom t1 (os_set_xid k1 s)) in *. set (c1 := sent b1 (sent_all (map fst fs1) c)) in *.
  destruct (sent_all_spec (map fst fs1) c) as (Hup1 & Ho1 & _).
  assert (con_disconnected c1 = false) as Hc1 by (unfold c1; cbn; by rewrite Hup1).
  assert (0 <= os_xid s1 < 2 ^ 31) as Hxid1 by (cbn; rewrite Hk1; by apply Z.mod_pos_bound).
  destruct (install_at PIPE_BUF sock_send nested id (w_nexus w) (w_raised w) w Htk Hsd (e :: es1) es2 c1 x1 d s1 (w_app w)
    Hc1 Hc Hx1 Hxid1 Hp1 Hes) as (fs2 & b2 & y2 & x2 & k2 & t2 & E2 & Hx2 & Hk2 & Hy2 & (Ht2 & Hp2 & He2 & Hb2) & Hfs2 & Hm2 & F2).
  change (os_nom s1) with t1 in Ht2, He2, Hb2. set (s2 := os_set_nom t2 (os_set_xid k2 s1)) in *. set (c2 := sent b2 (sent_all (map fst fs2) c1)) in *.
  destruct (sent_all_spec (map fst fs2) c1) as (_ & Ho2 & _).
  assert (y1 <> y2) as Hne.
  { change (os_xid s1) with k1 in Hy2. rewrite Hy2, Hk1, Zplus_mod_idemp_l. intros E.
    pose proof (zlen_nonneg ((e :: es1) ++ es2)) as H0. assert (0 <= y1 < 2 ^ 31) as Hr by (rewrite Hy1; by apply Z.mod_pos_bound).
    clear -E H0 Hr Hlen. revert E H0 Hlen. generalize (zlen ((e :: es1) ++ es2)). intros z E H0 Hlen.
    destruct (Z_lt_ge_dec (y1 + 1 + z) (2 ^ 31)); [rewrite Z.mod_small in E; lia|].
    rewrite <-(Z.mod_unique (y1 + 1 + z) (2 ^ 31) 1 (y1 + 1 + z - 2 ^ 31)) in E; lia. }
  exists (at_ id (w_nexus w) (w_raised w) w c1 x1 d s1 (w_app w)), (at_ id (w_nexus w) (w_raised w) w c2 x2 d s2 (w_app w)),
    (fs1 ++ [(b1, (OFPT_BARRIER_REQUEST, MBarrierRequest (barrier_with y1)))]),
    (fs2 ++ [(b2, (OFPT_BARRIER_REQUEST, MBarrierRequest (barrier_with y2)))]), y1, y2.
  split; [exact E1|]. split; [exact E2|]. split.
  { unfold at_. rewrite the_con_after. unfold c2, wire_of. cbn. rewrite Ho2. unfold c1. cbn. rewrite Ho1.
    rewrite !map_app, !concat_app. cbn. by rewrite !app_nil_r, <-!app_assoc. }
  split.
  { apply Forall_app; split; apply Forall_app; (split; [done|]); by apply Forall_singleton. }
  split; [by rewrite (Forall2_length _ _ _ Hm1), take_app_length|]. split; [by rewrite (Forall2_length _ _ _ Hm2), take_app_length|].
  rewrite !last_snoc. split; [done|]. split; [done|]. intros r1 r2 Hr1 Hr2.
  destruct (adds_confirmed y1 (e :: es1) (adds es2) d s2 c2 id x2 (w_nexus w) (w_raised w) (w_app w) w) with (reply := r1)
    as (s3 & E3 & P3 & Hp3 & He3 & Hb3).
  { cbn. by rewrite Hb2, lookup_insert_ne, Hb1, lookup_insert_eq by done. }
  { transitivity (nt_pending t2); [done|]. rewrite Hp2. unfold adds. by rewrite fmap_app. }
  { done. }
  eexists _, _. split; [exact E3|].
  assert (nom_entries (os_nom s2) = nom_entries (os_nom s)) as Hn2 by (unfold nom_entries; cbn; by rewrite Ht2; cbn; rewrite Ht1).
  rewrite Hn2 in P3. split; [change (w_app (at_ _ _ _ _ _ _ _ _ _)) with (with_sw d s3 (w_app w)); by rewrite the_sw_with|]. split.
  { cbn [con_handle]. unfold sw_raise. erewrite bind_ok by apply set_sw_at. cbn [nom_handle]. unfold nom_BarrierIn.
    erewrite bind_err; [reflexivity|]. erewrite bind_ok by apply get_nom_at. rewrite Hr2. cbn [mbind option_bind os_nom os_raise].
    rewrite Hb3, lookup_delete_ne by done. cbn. rewrite Hb2, lookup_insert_eq. cbn [mbind option_bind].
    erewrite bind_err; [reflexivity|]. apply (confirm_stale _ _ _ _ e (adds (es1 ++ es2))).
    cbn [os_nom os_raise]. rewrite Hp3. unfold adds. rewrite <-list_fmap_compose. intros (e' & [= Ee] & He')%list_elem_of_fmap.
    apply Hid. rewrite Ee. by apply list_elem_of_fmap_2. }
  change (w_app (at_ _ _ _ _ _ _ _ _ _)) with (with_sw d (with_table (add_entry e (nt_table (os_nom s3))) (nt_pending (os_nom s3)) (os_raise (SwBarrierIn r2) s3)) (w_app w)).
  rewrite the_sw_with. split; [|split].
  - unfold nom_entries. cbn. rewrite sort_snoc_perm. constructor. exact P3.
  - exact Hp3.
  - change (nt_events (os_nom s3) = nt_events (os_nom s) ++ [Modification (e :: es1) []]). rewrite He3. cbn. rewrite He2. cbn. by rewrite He1.
Qed.
End contract.

(** * Examples *)

(** Datapath 9 on the connection 1; entries that send everything out of a port. *)
Definition ex_out (port : Z) : list action := [AOutput (ActOutput OFPAT_OUTPUT 8 (Some port) 0)].
Definition ex_table_entry (i priority port : Z) : TableEntry := Entry i priority 0 0 0 ofp_match_init (ex_out port) (Some (-1)) 5 5 0 0.
Definition ex_of_switch : OpenFlowSwitch := MkOFSwitch ∅ NOMFlowTable_init 0 (Some 1) [1] None 7 [].
Definition ex_topology : Topology := MkTopology 101 {[9]} {[9 := KSwitch]} {[9 := ex_of_switch]} [].
Definition ex_topo_con : Con := con_set_dpid (Some 9) Con_fresh.
Definition ex_topo_world : Controller.World Topology :=
  MkWorld {[1 := ex_topo_con]} 1 {[Some 9 := 1]} false ∅ 0 7 (PState 0 (fun _ => 0)) [] ex_topology [].
Definition ex_topo_socket (_ : Z) (_ : nat) (data : bytes) : send_result := Sent (zlen data).
Definition ex_topo_nested (_ : source) (_ : Z) (_ : event) : M (Controller.World Topology) unit := mret tt.
Definition ex_on_switch (_ : Z) (_ : sw_event) : M (Controller.World Topology) unit := mret tt.
Definition ex_on_topology (_ : topo_event) : M (Controller.World Topology) unit := mret tt.
Definition ex_soft : Switch (option (list bytes)) := ex_switch (Some []).

Lemma ex_sendable i priority port : u16 priority -> u16 port -> sendable (ex_table_entry i priority port).
Proof.
  intros Hp Hport. split; [done|]. split; [by repeat split; vm_compute|].
  split; [by repeat split; first [done|cbn; lia|vm_compute; congruence]|].
  repeat (split; [first [done|exact Hp|by left|by vm_compute]|]). apply Forall_singleton. cbn.
  split_and!; [done|done|by exists port|lia..].
Qed.
Lemma ex_live : live ex_topo_socket 9 1 ex_of_switch ex_topo_con ex_topo_world.
Proof. by split; first [reflexivity|intros ? ?; reflexivity|cbn; lia]. Qed.
Lemma ex_sole : sole_listener 1 9 (w_app ex_topo_world).
Proof.
  intros d s E. apply (lookup_singleton_Some (M := gmap Z) 9 d ex_of_switch s) in E as [<- <-]. split; [done|]. intros _. apply list_elem_of_here.
Qed.

Lemma ex_entries_sendable : Forall sendable [ex_table_entry 1 5 2; ex_table_entry 2 6 3].
Proof. repeat (apply Forall_cons; split; [by apply ex_sendable|]). constructor. Qed.

Lemma installed_in_step_witness : exists w1 S' reply w2,
  nom_install 10 ex_topo_socket ex_topo_nested 9 [ex_table_entry 1 5 2; ex_table_entry 2 6 3] ex_topo_world = (Ok tt, w1) /\
  of_handle 10 ex_topo_socket (topology_listener 10 ex_topo_socket ex_topo_nested ex_on_switch ex_on_topology) NexusObject
    (fun _ => NexusObject) None true 1 OFPT_BARRIER_REPLY (MBarrierReply reply) w1 = (Ok tt, w2) /\
  in_step (os_nom (the_sw 9 (w_app w2))) S'.
Proof.
  destruct (installed_in_step (H := no_apps) 10 ex_topo_socket ex_topo_nested ex_on_switch ex_on_topology NexusObject (fun _ => NexusObject) None true
    9 1 ex_of_switch ex_topo_con [ex_table_entry 1 5 2; ex_table_entry 2 6 3] 0 ex_soft [] ex_topo_world)
    as (w1 & fs & S' & rb & reply & E1 & _ & _ & _ & _ & _ & _ & Hw2).
  - exact ex_live.
  - exact ex_sole.
  - reflexivity.
  - exact ex_entries_sendable.
  - repeat (apply Forall_cons; split; [by split; eexists|]). constructor.
  - reflexivity.
  - done.
  - repeat split; constructor.
  - apply perm_nil.
  - refine (conj (Forall_nil_2 _) (conj _ I)). apply Forall_singleton. vm_compute. reflexivity.
  - assert (match w_cons w1 !! 1 with Some c' => con_finishing c' = [] | None => False end) as Hc.
    { assert (forall p, p = (Ok tt, w1) -> w1 = p.2) as Hsnd by by intros p ->. rewrite (Hsnd _ E1). vm_compute. reflexivity. }
    destruct (w_cons w1 !! 1) as [c'|] eqn:Ec; [|destruct Hc].
    destruct (Hw2 w1 c' eq_refl Ec Hc) as (w2 & E2 & Hst & _). exists w1, S', reply, w2. exact (conj E1 (conj E2 Hst)).
Defined.

Lemma overlapping_installs_witness : exists w1 w2,
  nom_install 10 ex_topo_socket ex_topo_nested 9 [ex_table_entry 1 5 2] ex_topo_world = (Ok tt, w1) /\
  nom_install 10 ex_topo_socket ex_topo_nested 9 [ex_table_entry 2 6 3] w1 = (Ok tt, w2).
Proof.
  destruct (overlapping_installs 10 ex_topo_socket ex_topo_nested ex_on_switch 9 1 ex_of_switch ex_topo_con
    (ex_table_entry 1 5 2) [] [ex_table_entry 2 6 3] ex_topo_world) as (w1 & w2 & fs1 & fs2 & y1 & y2 & E1 & E2 & _).
  - exact ex_live.
  - reflexivity.
  - exact ex_entries_sendable.
  - done.
  - by intros [H|H%elem_of_nil]%elem_of_cons.
  - exists w1, w2. exact (conj E1 E2).
Defined.
