(* ===== verification/OfTopologyInv.v ===== *)
(** The invariant of the topology: every switch object and every port has an id of its own,
    and nothing that has joined ever leaves - the timer for reconnecting is never started. *)
From S2P Require Import Prelude.
From S2P Require Import Steps.
From S2P Require Import Addresses.
From S2P Require Import OfConst.
From S2P Require Import Wire.
From S2P Require Import OfBase.
From S2P Require Import OfMatch.
From S2P Require Import OfActions.
From S2P Require Import OfMessages.
From S2P Require Import PacketCodec.
From S2P Require Import Lldp.
From S2P Require Import FlowTable.
From S2P Require Import SoftSwitch.
From S2P Require Import Controller.
From S2P Require Import ControllerTheory.
From S2P Require Import Discovery.
From S2P Require Import OfTopology.

(** * The invariant *)

(** The port [p] of the switch object [d] has the id [i]. *)
Definition port_id (a : Topology) (d p i : Z) : Prop :=
  exists s P, t_switches a !! d = Some s /\ os_ports s !! p = Some P /\ op_id P = i.

Record topo_inv (a : Topology) : Prop := {
  iv_switch_ids : forall d s, t_switches a !! d = Some s -> d ∈ t_all_ids a;
  iv_port_ids : forall d p i, port_id a d p i -> i ∈ t_all_ids a /\ t_switches a !! i = None;
  iv_ports_own : forall d p d' p' i, port_id a d p i -> port_id a d' p' i -> d = d' /\ p = p';
  iv_no_timer : forall d s, t_switches a !! d = Some s -> os_timer s = None;
  iv_entities : forall d k, t_entities a !! d = Some k -> k = KSwitch /\ is_Some (t_switches a !! d)
}.

(** What every step does: it keeps the invariant, and nothing goes. *)
Definition grows (a a' : Topology) : Prop :=
  topo_inv a -> topo_inv a' /\ t_entities a ⊆ t_entities a' /\ dom (t_switches a) ⊆ dom (t_switches a').
#[export] Instance grows_preorder : PreOrder grows.
Proof.
  split; [by intros a Ha|]. intros a b c H1 H2 Ha. destruct (H1 Ha) as (Hb & E1 & S1). destruct (H2 Hb) as (Hc & E2 & S2).
  split; [done|]. split; [by etrans|set_solver].
Qed.

(** A switch object changed without new ports. *)
Definition no_new_ports (s s' : OpenFlowSwitch) : Prop :=
  (os_timer s = None -> os_timer s' = None) /\
  forall p P', os_ports s' !! p = Some P' -> exists P, os_ports s !! p = Some P /\ op_id P = op_id P'.

Lemma grows_alter d f a : (forall s, t_switches a !! d = Some s -> no_new_ports s (f s)) ->
  grows a (t_set_switches (alter f d (t_switches a)) a).
Proof.
  intros Hf Ha. set (a' := t_set_switches _ a).
  assert (forall d1 s1, t_switches a' !! d1 = Some s1 -> exists s0, t_switches a !! d1 = Some s0 /\ no_new_ports s0 s1) as Hold.
  { intros d1 s1. unfold a'. cbn. destruct (decide (d1 = d)) as [->|Hne].
    - rewrite lookup_alter_eq. destruct (t_switches a !! d) as [s0|] eqn:E; [|done]. cbn. intros [= <-]. exists s0. by split; [|apply Hf].
    - rewrite lookup_alter_ne by done. intros E. exists s1. split; [done|]. split; [done|]. intros p P HP. by exists P. }
  assert (forall d1, t_switches a' !! d1 = None <-> t_switches a !! d1 = None) as Hnone.
  { intros d1. unfold a'. cbn. apply lookup_alter_None. }
  assert (forall d1 p i, port_id a' d1 p i -> port_id a d1 p i) as Hports.
  { intros d1 p i (s1 & P & E & HP & <-). destruct (Hold _ _ E) as (s0 & E0 & _ & Hs). destruct (Hs _ _ HP) as (P0 & HP0 & Hi). by exists s0, P0. }
  split; [|split; [done|]].
  - destruct Ha as [H1 H2 H3 H4 H5]. split.
    + intros d1 s1 E. destruct (Hold _ _ E) as (s0 & E0 & _). by eapply H1.
    + intros d1 p i Hp. destruct (H2 _ _ _ (Hports _ _ _ Hp)) as [Hi Hd]. split; [done|]. by apply Hnone.
    + intros d1 p d2 p2 i P1 P2. by eapply H3; apply Hports.
    + intros d1 s1 E. destruct (Hold _ _ E) as (s0 & E0 & Ht & _). by eapply Ht, H4.
    + intros d1 k E. destruct (H5 _ _ E) as [Hk Hs]. split; [done|]. apply not_eq_None_Some. rewrite Hnone. by apply not_eq_None_Some.
  - unfold a'. cbn. by rewrite dom_alter.
Qed.

(** ** New ids *)

Lemma free_id_taken fuel ids n : free_id fuel ids n ∈ ids -> forall k, n <= k <= n + Z.of_nat fuel -> k ∈ ids.
Proof.
  revert n; induction fuel as [|fuel IH]; intros n; cbn [free_id].
  - intros Hn k Hk. by replace k with n by lia.
  - case_bool_decide as Hn; [|done]. intros Hf k Hk. destruct (decide (k = n)) as [->|]; [done|]. apply (IH _ Hf). lia.
Qed.
Lemma free_id_fresh ids n : free_id (size ids) ids n ∉ ids.
Proof.
  intros Hf. pose proof (free_id_taken _ _ _ Hf) as Hall.
  assert (list_to_set (seqZ n (Z.of_nat (size ids) + 1)) ⊆ ids) as Hsub.
  { intros k. rewrite elem_of_list_to_set, elem_of_seqZ. intros Hk. apply Hall. lia. }
  apply subseteq_size in Hsub. rewrite size_list_to_set, length_seqZ in Hsub by apply NoDup_seqZ. lia.
Qed.

Lemma Entity_init_fresh id t i t' : Entity_init id t = Ok (i, t') ->
  i ∉ t_all_ids t /\ (exists n, t' = t_set_ids n ({[i]} ∪ t_all_ids t) t) /\ (forall d, id = Some d -> d <> 0 -> i = d).
Proof.
  assert (forall n, n = free_id (size (t_all_ids t)) (t_all_ids t) (t_next_id t) -> n ∉ t_all_ids t) as Hfree
    by (intros n ->; apply free_id_fresh).
  unfold Entity_init. destruct id as [d|].
  - destruct (Z.eqb_spec d 0) as [->|Hd]; cbn [negb].
    + intros [= <- <-]. split; [by apply Hfree|]. split; [by eexists|]. by intros d [= <-].
    + case_bool_decide; [done|]. intros [= <- <-]. split; [done|]. split; [by eexists|]. by intros d' [= <-].
  - intros [= <- <-]. split; [by apply Hfree|]. split; [by eexists|]. done.
Qed.

Lemma grows_ids n i a : grows a (t_set_ids n ({[i]} ∪ t_all_ids a) a).
Proof.
  intros Ha. split; [|done]. destruct Ha as [H1 H2 H3 H4 H5]. split.
  - intros d s E. cbn. apply elem_of_union_r. by eapply H1.
  - intros d p j Hp. destruct (H2 d p j Hp) as [Hj Hn]. split; [cbn; by apply elem_of_union_r|done].
  - exact H3.
  - exact H4.
  - exact H5.
Qed.

Lemma grows_log e a : grows a (t_log e a).
Proof. intros [H1 H2 H3 H4 H5]. by split. Qed.

(** A switch object made for an id that was not taken. *)
Lemma grows_new_switch n d s a : d ∉ t_all_ids a -> os_ports s = ∅ -> os_timer s = None ->
  grows a (t_set_switches (<[d := s]> (t_switches a)) (t_set_ids n ({[d]} ∪ t_all_ids a) a)).
Proof.
  intros Hd Hs Ht Ha. destruct Ha as [H1 H2 H3 H4 H5]. set (a' := t_set_switches _ _).
  assert (t_switches a !! d = None) as Hdn by (apply eq_None_not_Some; intros [s0 E]; by apply Hd, (H1 d s0)).
  assert (t_switches a' = <[d := s]> (t_switches a)) as Esw by done.
  assert (forall d1 p i, port_id a' d1 p i -> port_id a d1 p i) as Hports.
  { intros d1 p i (s1 & P & E & HP & Hi). rewrite Esw in E. apply lookup_insert_Some in E as [[<- <-]|[_ E]]; [by rewrite Hs in HP|by exists s1, P]. }
  split; [|split; [done|rewrite Esw, dom_insert; set_solver]]. split.
  - intros d1 s1. rewrite Esw. intros [[<- _]|[_ E]]%lookup_insert_Some; cbn; [set_solver|]. apply elem_of_union_r. by eapply H1.
  - intros d1 p i Hp. destruct (H2 _ _ _ (Hports _ _ _ Hp)) as [Hi Hn]. split; [cbn; by apply elem_of_union_r|].
    rewrite Esw, lookup_insert_ne; [done|]. by intros <-.
  - intros d1 p d2 p2 i P1 P2. by eapply H3; apply Hports.
  - intros d1 s1. rewrite Esw. intros [[_ <-]|[_ E]]%lookup_insert_Some; [done|by eapply H4].
  - intros d1 k E. destruct (H5 _ _ E) as [Hk Hsome]. split; [done|]. rewrite Esw. apply lookup_insert_is_Some'. by right.
Qed.

Lemma port_update_id ofp p P : port_update ofp p = Ok P -> op_id P = op_id p.
Proof.
  unfold port_update, py_assert. destruct (bool_decide _), (_ =? _); cbn; try done.
  destruct (port_hw _); cbn; [by intros [= <-]|done].
Qed.

(** A port made with an id that was not taken. *)
Lemma grows_new_port n d no P a : op_id P ∉ t_all_ids a ->
  grows a (let a1 := t_set_ids n ({[op_id P]} ∪ t_all_ids a) a in
           t_set_switches (alter (fun s => os_set_ports (<[no := P]> (os_ports s)) s) d (t_switches a1)) a1).
Proof.
  intros HP Ha. destruct Ha as [H1 H2 H3 H4 H5]. cbv zeta. set (a' := t_set_switches _ _).
  assert (t_switches a' = alter (fun s => os_set_ports (<[no := P]> (os_ports s)) s) d (t_switches a)) as Esw by done.
  assert (forall d1 s1, t_switches a' !! d1 = Some s1 -> exists s0, t_switches a !! d1 = Some s0 /\ os_timer s1 = os_timer s0 /\
    (s1 = s0 \/ d1 = d /\ os_ports s1 = <[no := P]> (os_ports s0))) as Hold.
  { intros d1 s1. rewrite Esw. destruct (decide (d1 = d)) as [->|Hne].
    - rewrite lookup_alter_eq. destruct (t_switches a !! d) as [s0|]; [|done]. intros [= <-]. exists s0. split; [done|]. split; [done|]. by right.
    - rewrite lookup_alter_ne by done. intros E. exists s1. split; [done|]. split; [done|]. by left. }
  assert (forall d1 p i, port_id a' d1 p i -> port_id a d1 p i \/ d1 = d /\ p = no /\ i = op_id P) as Hports.
  { intros d1 p i (s1 & Q & E & HQ & <-). destruct (Hold _ _ E) as (s0 & E0 & _ & [->|[-> Hs]]); [left; by exists s0, Q|].
    rewrite Hs in HQ. apply lookup_insert_Some in HQ as [[<- <-]|[_ HQ]]; [by right|left; by exists s0, Q]. }
  assert (forall d1 p i, port_id a d1 p i -> i <> op_id P) as Hne by (intros d1 p i Hp ->; by apply HP, (H2 d1 p)).
  assert (forall d1, t_switches a' !! d1 = None <-> t_switches a !! d1 = None) as Hnone by (intros d1; rewrite Esw; apply lookup_alter_None).
  split; [|split; [done|by rewrite Esw, dom_alter]]. split.
  - intros d1 s1 E. destruct (Hold _ _ E) as (s0 & E0 & _). cbn. apply elem_of_union_r. by eapply H1.
  - intros d1 p i [Hp|(-> & -> & ->)]%Hports.
    + destruct (H2 _ _ _ Hp) as [Hi Hn]. split; [cbn; by apply elem_of_union_r|by apply Hnone].
    + split; [cbn; set_solver|]. apply Hnone, eq_None_not_Some. intros [s0 E0]. by apply HP, (H1 _ s0).
  - intros d1 p d2 p2 i [P1|(-> & -> & ->)]%Hports [P2|(-> & -> & E2)]%Hports; [by eapply H3| | |done].
    + subst i. by destruct (Hne _ _ _ P1).
    + by destruct (Hne _ _ _ P2).
  - intros d1 s1 E. destruct (Hold _ _ E) as (s0 & E0 & -> & _). by eapply H4.
  - intros d1 k E. destruct (H5 _ _ E) as [Hk Hs]. split; [done|]. apply not_eq_None_Some. rewrite Hnone. by apply not_eq_None_Some.
Qed.

(** An entity of the kind of switches, for a switch object. *)
Lemma grows_entity d a : is_Some (t_switches a !! d) -> t_entities a !! d = None ->
  grows a (t_set_entities (<[d := KSwitch]> (t_entities a)) a).
Proof.
  intros Hd He [H1 H2 H3 H4 H5]. split; [|split; [by apply insert_subseteq|done]]. split; [done..|].
  intros d1 k. cbn [t_entities t_set_entities]. intros [[<- <-]|[_ E]]%lookup_insert_Some; [done|by apply H5].
Qed.

(** * Every operation keeps it *)

Section steps.
Context (PIPE_BUF : Z) (sock_send : Z -> nat -> bytes -> send_result).
Context (nested : source -> Z -> event -> M (Controller.World Topology) unit).
Context (on_switch : Z -> sw_event -> M (Controller.World Topology) unit) (on_topology : topo_event -> M (Controller.World Topology) unit).
Abbreviation World := (Controller.World Topology).
Implicit Type w : World.
(** The other listeners, whatever they do through these operations, keep it too. *)
Hypothesis Hnested : forall src id e w, grows (w_app w) (w_app (nested src id e w).2).
Hypothesis Hon_switch : forall d e w, grows (w_app w) (w_app (on_switch d e w).2).
Hypothesis Hon_topology : forall e w, grows (w_app w) (w_app (on_topology e w).2).

Definition kept : relation World := app_kept grows.
#[local] Instance kept_preorder : PreOrder kept := app_kept_preorder grows.
Ltac kept_solve := keeps_solve ltac:(unfold kept, app_kept; simpl; reflexivity).

Lemma kept_modify f w : grows (w_app w) (f (w_app w)) -> keeps_at kept w (modify_topo f).
Proof. done. Qed.
Lemma kept_sw d f w : (forall s, no_new_ports s (f s)) -> keeps_at kept w (set_sw d f).
Proof. intros Hf. apply kept_modify, grows_alter. auto. Qed.
Lemma kept_nom d f w : keeps_at kept w (set_nom d f).
Proof. apply kept_sw. intros s. split; [done|]. intros p P HP. by exists P. Qed.
Lemma kept_read {A} (m : M World A) w : (m w).2 = w -> keeps_at kept w m.
Proof. apply keeps_pure. apply _. Qed.
#[local] Hint Extern 2 (keeps_at kept _ (set_nom _ _)) => by apply kept_nom : keeps.
#[local] Hint Extern 2 (keeps_at kept _ (get_sw _)) => by apply kept_read : keeps.
#[local] Hint Extern 2 (keeps_at kept _ (get_nom _)) => by apply kept_read : keeps.
#[local] Hint Extern 2 (keeps_at kept _ get_topo) => by apply kept_read : keeps.
#[local] Hint Extern 2 (keeps_at kept _ (get_con _)) => by apply kept_read : keeps.
#[local] Hint Extern 2 (keeps_at kept _ (modify_topo (t_log _))) => by apply kept_modify, grows_log : keeps.
#[local] Hint Extern 3 (keeps_at kept _ (set_sw _ _)) =>
  apply kept_sw; intros ?; (split; [done|]); intros ? P HP; by exists P : keeps.

Lemma on_switch_kept d e w : keeps_at kept w (on_switch d e).
Proof. apply Hon_switch. Qed.
Lemma on_topology_kept e w : keeps_at kept w (on_topology e).
Proof. apply Hon_topology. Qed.
#[local] Hint Resolve on_switch_kept on_topology_kept : keeps.

Lemma sw_send_kept {T} d (pack : T -> M Z (T * option bytes)) m w : keeps_at kept w (sw_send PIPE_BUF sock_send nested d pack m).
Proof.
  unfold sw_send. apply (keeps_bind kept); [by apply kept_read|]. intros s w1 _ _. destruct (os_connection s) as [con|]; [|by apply kept_read].
  apply (keeps_bind kept); [exact (con_send_kept grows PIPE_BUF sock_send nested Hnested con pack m w1)|]. intros. by apply kept_read.
Qed.
Lemma sw_next_xid_kept d w : keeps_at kept w (sw_next_xid d).
Proof. unfold sw_next_xid. kept_solve. Qed.
#[local] Hint Resolve sw_send_kept sw_next_xid_kept : keeps.
Lemma send_op_kept d o w : keeps_at kept w (send_op PIPE_BUF sock_send nested d o).
Proof. unfold send_op. kept_solve. Qed.
#[local] Hint Resolve send_op_kept : keeps.
Lemma send_ops_kept d l w : keeps_at kept w (send_ops PIPE_BUF sock_send nested d l).
Proof. revert w; induction l as [|o l IH]; intros w; cbn [send_ops]; kept_solve. Qed.
#[local] Hint Resolve send_ops_kept : keeps.
Lemma nom_todo_kept d b w : keeps_at kept w (nom_todo PIPE_BUF sock_send nested d b).
Proof. unfold nom_todo. kept_solve. Qed.
#[local] Hint Resolve nom_todo_kept : keeps.
Lemma sync_pending_kept d b w : keeps_at kept w (sync_pending PIPE_BUF sock_send nested d b).
Proof. unfold sync_pending. kept_solve. Qed.
#[local] Hint Resolve sync_pending_kept : keeps.
Lemma nom_mod_kept d es cmd w : keeps_at kept w (nom_mod PIPE_BUF sock_send nested d es cmd).
Proof. unfold nom_mod. kept_solve. Qed.
Lemma confirm_kept d ops ad rm w : keeps_at kept w (confirm d ops ad rm).
Proof. revert ad rm w; induction ops as [|o ops IH]; intros ad rm w; cbn [confirm]; kept_solve. Qed.
#[local] Hint Resolve confirm_kept : keeps.
Lemma nom_handle_kept d e w : keeps_at kept w (nom_handle PIPE_BUF sock_send nested d e).
Proof. unfold nom_handle, nom_BarrierIn, nom_FlowRemoved. kept_solve. Qed.
#[local] Hint Resolve nom_handle_kept : keeps.
Lemma sw_raise_kept d e w : keeps_at kept w (sw_raise PIPE_BUF sock_send nested on_switch d e).
Proof. unfold sw_raise. kept_solve. Qed.
Lemma topo_raise_kept e w : keeps_at kept w (topo_raise on_topology e).
Proof. unfold topo_raise. kept_solve. Qed.
#[local] Hint Resolve nom_mod_kept sw_raise_kept topo_raise_kept : keeps.

(** ** Switch objects, ports and entities *)

Lemma OpenFlowSwitch_init_kept dpid w : keeps_at kept w (OpenFlowSwitch_init dpid).
Proof.
  unfold OpenFlowSwitch_init. destruct dpid as [d|]; [|by apply kept_read]. destruct (Z.eqb_spec d 0) as [|Hd]; [by apply kept_read|].
  unfold keeps_at, new_entity, mbind, M_bind. destruct (Entity_init (Some d) (w_app w)) as [[i t]|] eqn:E; [|apply kept_preorder].
  apply Entity_init_fresh in E as (Hi & [n ->] & Ed). rewrite (Ed d eq_refl Hd) in *. unfold kept, app_kept. cbn [snd].
  match goal with |- context [<[_ := ?s]> (t_switches _)] => exact (grows_new_switch n d s (w_app w) Hi eq_refl eq_refl) end.
Qed.
Lemma OpenFlowSwitch_init_made dpid w sw w' : OpenFlowSwitch_init dpid w = (Ok sw, w') ->
  dpid = Some sw /\ is_Some (t_switches (w_app w') !! sw).
Proof.
  unfold OpenFlowSwitch_init. destruct dpid as [d|]; [|done]. destruct (d =? 0); [done|]. unfold new_entity, mbind, M_bind.
  destruct (Entity_init _ _) as [[i t]|]; [|done]. intros [= <- <-]. split; [done|]. cbn. rewrite lookup_insert_eq. by eexists.
Qed.

(** Making a port and putting it in its place. *)
Lemma new_port_kept {A} d p no (f : M World A) w : (forall w', keeps_at kept w' f) ->
  keeps_at kept w (new ← OpenFlowPort_init p; '_ ← put_port d no new; f).
Proof.
  intros Hf. unfold OpenFlowPort_init, keeps_at, new_entity, mbind, M_bind.
  destruct (Entity_init None (w_app w)) as [[i t]|] eqn:E; [|apply kept_preorder].
  apply Entity_init_fresh in E as (Hi & [n ->] & _).
  assert (kept w (w_set_app (t_set_ids n ({[i]} ∪ t_all_ids (w_app w)) (w_app w)) w)) as Hids by apply grows_ids.
  unfold lift. destruct (port_hw (pp_hw_addr p)) as [hw|]; [|exact Hids].
  destruct (port_update p _) as [P|] eqn:EP; [|exact Hids].
  assert (op_id P = i) as HP by exact (port_update_id _ _ _ EP).
  cbn [snd]. etrans; [|apply Hf]. subst i. exact (grows_new_port n d no P (w_app w) Hi).
Qed.

Lemma update_port_kept d p old w : os_ports (the_sw d (w_app w)) !! pp_port_no p = Some old -> keeps_at kept w (update_port d p old).
Proof.
  intros Ho. unfold update_port. apply (keeps_lift kept). intros P EP. unfold put_port, keeps_at, kept, app_kept. cbn.
  pose proof (port_update_id _ _ _ EP) as HP.
  apply grows_alter. intros s Es. unfold the_sw in Ho. rewrite Es in Ho. split; [done|]. intros q Q.
  cbn. intros [[<- <-]|[_ HQ]]%lookup_insert_Some; [by exists old|by exists Q].
Qed.

Lemma new_port_last_kept d p no w : keeps_at kept w (new ← OpenFlowPort_init p; put_port d no new).
Proof.
  pose proof (new_port_kept d p no (mret tt) w (fun w' => kept_read (mret tt) w' eq_refl)) as H. revert H. unfold keeps_at.
  unfold mbind, M_bind. by destruct (OpenFlowPort_init p w) as [[new|e] w'].
Qed.

Lemma update_ports_kept d ports untouched w : keeps_at kept w (update_ports d ports untouched).
Proof.
  revert untouched w; induction ports as [|p ports IH]; intros untouched w; [by apply kept_read|]. cbn [update_ports].
  apply (keeps_bind kept); [by apply kept_read|]. intros s w1 [= <- <-] _.
  destruct (os_ports (the_sw d (w_app w)) !! pp_port_no p) as [old|] eqn:E.
  - apply (keeps_bind kept); [by apply update_port_kept|]. intros _ w2 _ _. case_bool_decide; [apply IH|by apply kept_read].
  - by apply new_port_kept.
Qed.
#[local] Hint Resolve update_ports_kept new_port_last_kept : keeps.
Lemma drop_ports_kept d untouched w : keeps_at kept w (drop_ports d untouched).
Proof.
  apply kept_sw. intros s. split; [done|]. cbn. intros p P [HP _]%map_lookup_filter_Some. by exists P.
Qed.
#[local] Hint Resolve drop_ports_kept : keeps.

Lemma setConnection_kept d con ofp w : keeps_at kept w (setConnection PIPE_BUF sock_send nested on_switch d (Some con) ofp).
Proof.
  unfold setConnection. apply (keeps_bind kept).
  { apply kept_sw. intros s. destruct (os_connection s); (split; [done|]); intros p P HP; by exists P. }
  intros _ w1 _ _. kept_solve.
Qed.

Lemma con_handle_kept d e w : e <> EvConnectionDown -> keeps_at kept w (con_handle PIPE_BUF sock_send nested on_switch d e).
Proof.
  intros He. destruct e; try done; cbn [con_handle]; try (by apply kept_read); try apply sw_raise_kept.
  - unfold con_PortStatus. apply (keeps_bind kept); [by apply kept_read|]. intros s w1 [= <- <-] _.
    apply (keeps_bind kept); [|intros; apply sw_raise_kept]. destruct (pst_reason ofp =? OFPPR_DELETE).
    { apply kept_sw. intros s. split; [done|]. cbn. intros p P [_ HP]%lookup_delete_Some. by exists P. }
    destruct (pst_reason ofp =? OFPPR_MODIFY);
      [|do 2 (apply (keeps_lift kept); intros _ _); apply new_port_last_kept].
    destruct (os_ports _ !! _) as [old|] eqn:E; [by apply update_port_kept|by apply kept_read].
  - unfold con_FlowRemoved. kept_solve.
Qed.

Lemma kept_inv {A} w (m : M World A) : (topo_inv (w_app w) -> keeps_at kept w m) -> keeps_at kept w m.
Proof. unfold keeps_at, kept, app_kept, grows. auto. Qed.

Lemma addEntity_kept d w : is_Some (t_switches (w_app w) !! d) -> keeps_at kept w (addEntity on_topology KSwitch d).
Proof.
  intros Hd. unfold addEntity. apply (keeps_bind kept); [by apply kept_read|]. intros t w1 [= <- <-] _.
  destruct (t_entities (w_app w) !! d) eqn:E; [by apply kept_read|]. apply (keeps_bind kept); [|intros; apply topo_raise_kept].
  by apply kept_modify, grows_entity.
Qed.

Lemma topology_ConnectionUp_kept con ofp w :
  keeps_at kept w (topology_ConnectionUp PIPE_BUF sock_send nested on_switch on_topology con ofp).
Proof.
  apply kept_inv. intros Hinv. unfold topology_ConnectionUp. apply (keeps_bind kept); [by apply kept_read|]. intros c w0 [= <- <-] _.
  apply (keeps_bind kept); [by apply kept_read|]. intros t w0 [= <- <-] _.
  destruct (getEntityByID _ _) as [[]|]; [| |by apply kept_read|].
  - apply (keeps_bind kept); [destruct (bool_decide _); by apply kept_read|]. intros _ w1 _ _.
    apply (keeps_bind kept); [apply setConnection_kept|]. intros _ w2 _ _. kept_solve.
  - by apply kept_read.
  - apply (keeps_bind kept); [apply OpenFlowSwitch_init_kept|]. intros sw w1 E1 R1. destruct (R1 Hinv) as (Hinv1 & _).
    apply OpenFlowSwitch_init_made in E1 as [_ Hsw].
    apply (keeps_bind kept); [apply setConnection_kept|]. intros _ w2 _ R2. destruct (R2 Hinv1) as (_ & _ & Hdom).
    apply (keeps_lift kept). intros _ _. apply (keeps_bind kept); [|intros; apply sw_raise_kept].
    apply addEntity_kept. apply elem_of_dom, Hdom. by apply elem_of_dom.
Qed.

Lemma topology_listener_kept src con e w : src = Nexus \/ e <> EvConnectionDown ->
  keeps_at kept w (topology_listener PIPE_BUF sock_send nested on_switch on_topology src con e).
Proof.
  intros He. destruct src as [|c]; cbn [topology_listener].
  - destruct e; try (by apply kept_read); [apply topology_ConnectionUp_kept|]. unfold topology_ConnectionDown. kept_solve.
  - destruct He as [|He]; [done|]. apply (keeps_bind kept); [by apply kept_read|]. intros t w1 [= <- <-] _.
    generalize (listening_on c (w_app w)). intros ds. revert w; induction ds as [|d ds IH]; intros w; [by apply kept_read|].
    cbn [each_sw]. apply (keeps_bind kept); [by apply con_handle_kept|]. intros _ w1 _ _. apply IH.
Qed.

Lemma topology_LinkEvent_kept added link w : keeps_at kept w (topology_LinkEvent added link).
Proof.
  unfold topology_LinkEvent.
  assert (forall d port f w, (forall P, op_id (f P) = op_id P) -> keeps_at kept w (port_entities d port f)) as Hf.
  { intros d port f w0 Hid. apply kept_sw. intros s. split; [done|]. cbn. intros p P. destruct (decide (p = port)) as [->|Hne].
    - rewrite lookup_alter_eq. destruct (os_ports s !! port) as [P0|]; [|done]. cbn. intros [= <-]. by exists P0.
    - rewrite lookup_alter_ne by done. intros HP. by exists P. }
  apply (keeps_bind kept); [by apply kept_read|]. intros t w1 _ _.
  repeat match goal with |- keeps_at _ _ (match ?x with _ => _ end) => destruct x end; try by apply kept_read.
  all: cbv zeta; destruct added; (apply (keeps_bind kept); [|intros _ ? _ _]); apply Hf; by intros [].
Qed.

(** * The steps of the program *)

(** What happens to the topology: an event of the controller - it raises [ConnectionDown] on
    the nexus only -, an operation on a flow table, a link that comes or goes, the timer of a
    switch object when it is due, and all that is no business of the topology. *)
Inductive topo_step : relation World :=
  | step_event src con e w : src = Nexus \/ e <> EvConnectionDown ->
      topo_step w (topology_listener PIPE_BUF sock_send nested on_switch on_topology src con e w).2
  | step_mod d es command w : topo_step w (nom_mod PIPE_BUF sock_send nested d es command w).2
  | step_link added link w : topo_step w (topology_LinkEvent added link w).2
  | step_timer d t w : os_timer (the_sw d (w_app w)) = Some t -> t <= w_now w ->
      topo_step w (timer_ReconnectTimeout PIPE_BUF sock_send nested on_switch on_topology d w).2
  | step_other w w' : w_app w' = w_app w -> topo_step w w'.

Lemma topo_step_kept w w' : topo_step w w' -> kept w w'.
Proof.
  destruct 1 as [src con e w He|d es command w|added link w|d t w Ht _|w w' E].
  - by apply topology_listener_kept.
  - apply nom_mod_kept.
  - apply topology_LinkEvent_kept.
  - intros Hinv. exfalso. unfold the_sw in Ht. destruct (t_switches (w_app w) !! d) eqn:E; [|done].
    cbn in Ht. by rewrite (iv_no_timer _ Hinv _ _ E) in Ht.
  - unfold kept, app_kept. by rewrite E.
Qed.

(** C30: Ids, and staying.  However the program goes on from the start: switch objects and ports
    have ids of their own, no two alike, and each datapath id has one switch object at most;
    what has joined the topology stays in it; and the timer that is to remove a switch object
    some time after its connection has gone is never started. *)
Theorem joined_for_ever w0 w w' : w_app w0 = Topology_init -> rtc topo_step w0 w -> rtc topo_step w w' ->
  (forall d p d' p' i, port_id (w_app w) d p i -> port_id (w_app w) d' p' i -> d = d' /\ p = p') /\
  (forall d p i, port_id (w_app w) d p i -> t_switches (w_app w) !! i = None) /\
  (forall d, is_Some (t_switches (w_app w) !! d) -> Entity_init (Some d) (w_app w') = Err PlainException \/ d = 0) /\
  (forall d k, t_entities (w_app w) !! d = Some k -> t_entities (w_app w') !! d = Some k) /\
  (forall d, os_timer (the_sw d (w_app w)) = None).
Proof.
  intros E0 H1 H2. assert (forall a b, rtc topo_step a b -> kept a b) as Hk.
  { intros a b. induction 1 as [|a b c Hab _ IH]; [reflexivity|]. etrans; [by apply topo_step_kept|exact IH]. }
  assert (topo_inv (w_app w0)) as Hinv0.
  { rewrite E0. split; [done| | |done|done]; intros d p; [intros i (s & P & E & _)|intros d' p' i (s & P & E & _)]; done. }
  destruct (Hk _ _ H1 Hinv0) as (Hinv & _ & _). destruct (Hk _ _ H2 Hinv) as (Hinv' & He & Hd).
  split; [exact (iv_ports_own _ Hinv)|]. split; [by intros d p i [_ H]%(iv_port_ids _ Hinv)|]. split; [|split].
  - intros d Hs. apply elem_of_dom, Hd, elem_of_dom in Hs as [s Es]. unfold Entity_init.
    destruct (Z.eqb_spec d 0) as [->|]; [by right|]. left. cbn [negb]. rewrite bool_decide_true; [done|]. by eapply iv_switch_ids.
  - intros d k Ek. by eapply lookup_weaken.
  - intros d. unfold the_sw. destruct (t_switches (w_app w) !! d) eqn:E; [|done]. cbn. exact (iv_no_timer _ Hinv _ _ E).
Qed.
End steps.

(** * Example *)

(** A switch that has connected: one switch object, with a port. *)
Definition ex_port_desc : ofp_phy_port := PhyPort 1 (HwEth (MkEth (be_enc 6 5))) [] 0 0 0 0 0 0.
Definition ex_join_features : ofp_features_reply := ofp_features_reply_init 9 0 0 0 0 [ex_port_desc].
Definition ex_inv_world : Controller.World Topology :=
  MkWorld {[1 := con_set_dpid (Some 9) Con_fresh]} 1 {[Some 9 := 1]} false ∅ 0 7 (PState 0 (fun _ => 0)) [] Topology_init [].
Definition ex_inv_socket (_ : Z) (_ : nat) (data : bytes) : send_result := Sent (zlen data).
Definition ex_inv_nested (_ : source) (_ : Z) (_ : event) : M (Controller.World Topology) unit := mret tt.
Definition ex_inv_switch (_ : Z) (_ : sw_event) : M (Controller.World Topology) unit := mret tt.
Definition ex_inv_topology (_ : topo_event) : M (Controller.World Topology) unit := mret tt.

Lemma joined_for_ever_witness :
  let w := (topology_listener 10 ex_inv_socket ex_inv_nested ex_inv_switch ex_inv_topology Nexus 1 (EvConnectionUp ex_join_features) ex_inv_world).2 in
  t_entities (w_app w) = {[9 := KSwitch]} /\
  forall w', rtc (topo_step 10 ex_inv_socket ex_inv_nested ex_inv_switch ex_inv_topology) w w' -> t_entities (w_app w') !! 9 = Some KSwitch.
Proof.
  cbv zeta. split; [vm_compute; reflexivity|]. intros w' Hw.
  destruct (joined_for_ever 10 ex_inv_socket ex_inv_nested ex_inv_switch ex_inv_topology) with (w0 := ex_inv_world) (w := (topology_listener 10
    ex_inv_socket ex_inv_nested ex_inv_switch ex_inv_topology Nexus 1 (EvConnectionUp ex_join_features) ex_inv_world).2) (w' := w') as (_ & _ & _ & H & _).
  - by intros.
  - by intros.
  - by intros.
  - done.
  - apply rtc_once. apply step_event. by left.
  - exact Hw.
  - apply H. vm_compute. reflexivity.
Defined.
