(* ===== verification/L3Learning.v ===== *)
(** [forwarding/l3_learning.py]: for each switch a table from IP addresses to ports and
    Ethernet addresses, which answers ARP requests and forwards IP packets.  The component
    listens to the nexus, so one table serves all the connections of a datapath. *)
From S2P Require Import Prelude.
From S2P Require Import Addresses.
From S2P Require Import OfConst.
From S2P Require Import Wire.
From S2P Require Import OfBase.
From S2P Require Import OfMatch.
From S2P Require Import OfMessages.
From S2P Require Import Packets.
From S2P Require Import PacketCodec.
From S2P Require Import SoftSwitch.
From S2P Require Import Controller.
From S2P Require Import L2Learning.

Definition FLOW_IDLE_TIMEOUT : Z := 10.
Definition ARP_TIMEOUT : Z := 60 * 2 * 10 ^ 9.

(** [Entry]; [en_timeout] is on the clock of nanoseconds. *)
Record Entry := MkEntry { en_timeout : Z; en_port : Z; en_mac : hwaddr }.
Definition Entry_init (now port : Z) (mac : hwaddr) : Entry := MkEntry (now + ARP_TIMEOUT) port mac.
Definition isExpired (now : Z) (e : Entry) : bool := en_timeout e <? now.

Abbreviation table := (gmap (Z + Z) Entry).
Record l3_switch := L3 { arpTable : gmap (option Z) table }.
Definition l3_switch_init : l3_switch := L3 ∅.

(** The answer to the request [a], for the address [mac]. *)
Definition arp_answer (a : arp) (mac : hwaddr) : arp :=
  Arp (arp_hwtype a) (arp_prototype a) mac (arp_hwsrc a) (arp_hwlen a) 2 (arp_protolen a) (arp_protodst a) (arp_protosrc a).
Definition arp_answer_frame (type : Z) (a : arp) (mac : hwaddr) : ethernet :=
  Ethernet (arp_hwsrc a) mac type (PPacket (Some false) (LArp (arp_answer a mac)) (PBytes [])) false.

Section l3.
Context `{AppCodec}.
Variable PIPE_BUF : Z.
Variable sock_send : Z -> nat -> bytes -> send_result.
Abbreviation World := (Controller.World l3_switch).
Implicit Type w : World.

Definition l3_quiet (src : source) (id : Z) (e : event) : M World unit := mret tt.
Definition table_of (dpid : option Z) w : table := default ∅ (arpTable (w_app w) !! dpid).

(** [if dpid not in self.arpTable: self.arpTable[dpid] = {}]. *)
Definition new_table (dpid : option Z) : M World unit :=
  modify (fun w => w_set_app (L3 (<[dpid := table_of dpid w]> (arpTable (w_app w)))) w).
(** [self.arpTable[dpid][ip] = Entry(port, mac)]. *)
Definition l3_learn (dpid : option Z) (ip : nwaddr) (port : Z) (mac : hwaddr) : M World unit :=
  modify (fun w => w_set_app (L3 (<[dpid := <[ip_key ip := Entry_init (w_now w) port mac]> (table_of dpid w)]> (arpTable (w_app w)))) w).

(** [%i] of a datapath id, where the message is formatted before it is logged. *)
Definition dpid_formats (dpid : option Z) : M World unit :=
  match dpid with Some _ => mret tt | None => raise TypeError end.

(** The first branch: an IP packet. *)
Definition l3_ip (con : Z) (dpid : option Z) (packet : ethernet) (h : ipv4) (ofp : ofp_packet_in) : M World unit :=
  let inport := pi_in_port ofp in
  '_ ← l3_learn dpid (ip_srcip h) inport (eth_src packet);
  w ← get;
  match table_of dpid w !! ip_key (ip_dstip h) with
  | None => mret tt
  | Some e =>
      let prt := en_port e in
      '_ ← dpid_formats dpid;
      if prt =? inport then mret tt
      else
        m ← lift (from_packet packet (Some inport));
        con_send_packed PIPE_BUF sock_send l3_quiet con (ofp_flow_mod_pack true)
          (flow_mod m FLOW_IDLE_TIMEOUT OFP_FLOW_PERMANENT (pi_buffer_id ofp) [action_output prt])
  end.

(** Flooding.  [buffer_id is NO_BUFFER] compares the objects of two integers, one of them
    4294967295: it is never true. *)
Definition flood_arp (con : Z) (dpid : option Z) (ofp : ofp_packet_in) : M World unit :=
  '_ ← dpid_formats dpid;
  con_send_packed PIPE_BUF sock_send l3_quiet con (ofp_packet_out_pack true)
    (packet_out (pi_buffer_id ofp) (pi_in_port ofp) [action_output OFPP_FLOOD]).

(** What is learned from an ARP packet, and the entry to answer it with. *)
Definition arp_learns (a : arp) : bool := (arp_prototype a =? 0x0800) && (arp_hwtype a =? 1) && nw_nonzero (arp_protosrc a).
Definition answers (now : Z) (a : arp) (t : table) : option Entry :=
  if arp_opcode a =? 1 then
    match t !! ip_key (arp_protodst a) with
    | Some e => if isExpired now e then None else Some e
    | None => None
    end
  else None.

(** The second branch: ARP. *)
Definition l3_arp (con : Z) (dpid : option Z) (packet : ethernet) (a : arp) (ofp : ofp_packet_in) : M World unit :=
  if arp_learns a then
    '_ ← l3_learn dpid (arp_protosrc a) (pi_in_port ofp) (eth_src packet);
    w ← get;
    match answers (w_now w) a (table_of dpid w) with
    | Some e =>
        '_ ← dpid_formats dpid;
        data ← lift (ethernet_pack (arp_answer_frame (eth_type packet) a (en_mac e))).1;
        '_ ← con_send PIPE_BUF sock_send l3_quiet con (ofp_packet_out_pack true)
          (PacketOut (po_hdr ofp_packet_out_init) (po_buffer_id ofp_packet_out_init) (pi_in_port ofp)
             [action_output OFPP_IN_PORT] data);
        mret tt
    | None => flood_arp con dpid ofp
    end
  else flood_arp con dpid ofp.

(** [_handle_PacketIn]. *)
Definition l3_PacketIn (con : Z) (ofp : ofp_packet_in) : M World unit :=
  c ← get_con con;
  let dpid := con_dpid c in
  packet ← zoom w_ps w_set_ps (ethernet_new (pi_data ofp));
  if negb (eth_parsed packet) then mret tt
  else
    '_ ← new_table dpid;
    if eth_type packet =? LLDP_TYPE then mret tt
    else
      match eth_next packet with
      | PPacket _ (LIpv4 h) _ => l3_ip con dpid packet h ofp
      | PPacket _ (LArp a) _ => l3_arp con dpid packet a ofp
      | _ => mret tt
      end.

Definition l3_listener (src : source) (con : Z) (e : event) : M World unit :=
  match src, e with Nexus, EvPacketIn ofp => l3_PacketIn con ofp | _, _ => mret tt end.
End l3.
