(* ===== verification/L3Theory.v ===== *)
(** The layer-3 learning switch: its table is what it saw last, an ARP request for a known
    address is answered by the frame that the asker expects, packets to known addresses get a
    flow - and a request that comes without a buffer is lost. *)
From S2P Require Import Prelude.
From S2P Require Import Steps.
From S2P Require Import Addresses.
From S2P Require Import OfConst.
From S2P Require Import Wire.
From S2P Require Import OfBase.
From S2P Require Import OfMatch.
From S2P Require Import MatchTheory.
From S2P Require Import OfActions.
From S2P Require Import OfMessages.
From S2P Require Import Packets.
From S2P Require Import PacketCodec.
From S2P Require Import PacketTheory.
From S2P Require Import PacketRoundtrip.
From S2P Require Import PacketTyping.
From S2P Require Import FlowTable.
From S2P Require Import Connection.
From S2P Require Import SoftSwitch.
From S2P Require Import Controller.
From S2P Require Import ControllerTheory.
From S2P Require Import L2Learning.
From S2P Require Import L2Theory.
From S2P Require Import L3Learning.

(** * The table *)

(** What a packet tells: who has which address. *)
Definition sighting (packet : ethernet) : option nwaddr :=
  if eth_type packet =? LLDP_TYPE then None
  else match eth_next packet with
       | PPacket _ (LIpv4 h) _ => Some (ip_srcip h)
       | PPacket _ (LArp a) _ => if arp_learns a then Some (arp_protosrc a) else None
       | _ => None
       end.
Definition tables_after (now port : Z) (dpid : option Z) (packet : ethernet) (m : gmap (option Z) table) : gmap (option Z) table :=
  if eth_parsed packet then
    <[dpid := match sighting packet with
              | Some ip => <[ip_key ip := Entry_init now port (eth_src packet)]> (default ∅ (m !! dpid))
              | None => default ∅ (m !! dpid)
              end]> m
  else m.

Section l3.
Context `{AppCodec} (PIPE_BUF : Z) (sock_send : Z -> nat -> bytes -> send_result).
Abbreviation World := (Controller.World l3_switch).
Implicit Type w : World.

(** Sending leaves the table alone. *)
Definition same_tables : relation World := app_kept (fun a a' : l3_switch => a' = a).
#[local] Instance same_preorder : PreOrder (fun a a' : l3_switch => a' = a).
Proof. constructor; [by intros x|intros x y z ? ?; by etrans]. Qed.
#[local] Instance same_tables_preorder : PreOrder same_tables.
Proof. apply app_kept_preorder. apply _. Qed.

Lemma l3_con_send_same {T} id (pack : T -> M Z (T * option bytes)) m w :
  keeps_at same_tables w (con_send PIPE_BUF sock_send l3_quiet id pack m).
Proof. by apply (con_send_kept (fun a a' : l3_switch => a' = a)). Qed.
Lemma l3_send_packed_same {T} id (pack : T -> M Z (T * option bytes)) m w :
  keeps_at same_tables w (con_send_packed PIPE_BUF sock_send l3_quiet id pack m).
Proof.
  unfold con_send_packed. apply (keeps_bind same_tables); [by apply (run_pack_kept (fun a a' : l3_switch => a' = a))|].
  intros [m' s] w' _ _. by apply (con_send_bytes_kept (fun a a' : l3_switch => a' = a)).
Qed.
Lemma dpid_formats_same dpid w : keeps_at same_tables w (dpid_formats dpid).
Proof. apply (keeps_pure same_tables). by destruct dpid. Qed.
#[local] Hint Resolve l3_con_send_same l3_send_packed_same dpid_formats_same : keeps.
Lemma flood_arp_same con dpid ofp w : keeps_at same_tables w (flood_arp PIPE_BUF sock_send con dpid ofp).
Proof. unfold flood_arp. keeps_solve ltac:(done). Qed.
#[local] Hint Resolve flood_arp_same : keeps.

Lemma tables_same {A} (m : M World A) w : keeps_at same_tables w m -> arpTable (w_app (m w).2) = arpTable (w_app w).
Proof. unfold keeps_at, same_tables, app_kept. by intros ->. Qed.

Lemma l3_ip_tables con dpid packet h ofp w :
  arpTable (w_app (l3_ip PIPE_BUF sock_send con dpid packet h ofp w).2) =
    <[dpid := <[ip_key (ip_srcip h) := Entry_init (w_now w) (pi_in_port ofp) (eth_src packet)]> (table_of dpid w)]> (arpTable (w_app w)).
Proof.
  unfold l3_ip. erewrite bind_ok by reflexivity. rewrite bind_get.
  match goal with |- arpTable (w_app (?m ?w').2) = _ => transitivity (arpTable (w_app w')); [apply (tables_same m)|done] end.
  keeps_solve ltac:(done).
Qed.
Lemma l3_arp_tables con dpid packet a ofp w :
  arpTable (w_app (l3_arp PIPE_BUF sock_send con dpid packet a ofp w).2) =
    if arp_learns a then
      <[dpid := <[ip_key (arp_protosrc a) := Entry_init (w_now w) (pi_in_port ofp) (eth_src packet)]> (table_of dpid w)]> (arpTable (w_app w))
    else arpTable (w_app w).
Proof.
  unfold l3_arp. destruct (arp_learns a); [|apply tables_same, flood_arp_same].
  erewrite bind_ok by reflexivity. rewrite bind_get.
  match goal with |- arpTable (w_app (?m ?w').2) = _ => transitivity (arpTable (w_app w')); [apply (tables_same m)|done] end.
  keeps_solve ltac:(done).
Qed.

(** The table, exactly.  Whatever the handling of a packet does - send, find the socket
    broken, raise - it leaves the tables as they were, but for the source address of an IP
    packet or of an ARP packet for IP over Ethernet, which the table of the datapath (new, if
    there was none) now gives as the port and Ethernet source of this packet. *)
Theorem l3_table_exact con ofp packet ps w : ethernet_new (pi_data ofp) (w_ps w) = (Ok packet, ps) ->
  arpTable (w_app (l3_PacketIn PIPE_BUF sock_send con ofp w).2) =
    tables_after (w_now w) (pi_in_port ofp) (con_dpid (the_con con w)) packet (arpTable (w_app w)).
Proof.
  intros E. unfold l3_PacketIn, tables_after, sighting. erewrite bind_ok by reflexivity.
  erewrite bind_ok by (unfold zoom; rewrite E; reflexivity). destruct (eth_parsed packet); [|done]. cbn [negb].
  erewrite bind_ok by reflexivity. set (dpid := con_dpid (the_con con w)).
  set (w1 := w_set_app _ _). assert (table_of dpid w1 = default ∅ (arpTable (w_app w) !! dpid)) as Ht.
  { unfold table_of, w1. cbn. by rewrite lookup_insert_eq. }
  assert (forall t, <[dpid := t]> (arpTable (w_app w1)) = <[dpid := t]> (arpTable (w_app w))) as Hi
    by (intros t; unfold w1; cbn; by rewrite insert_insert_eq).
  destruct (eth_type packet =? LLDP_TYPE); [done|].
  destruct (eth_next packet) as [| |b|pd l nx]; [done..|]. destruct l; try done.
  - by rewrite l3_ip_tables, Ht, Hi.
  - rewrite l3_arp_tables, Ht. destruct (arp_learns _); [by rewrite Hi|done].
Qed.
End l3.

(** * What is sent *)

Section sends.
Context `{AppCodec} (PIPE_BUF : Z) (sock_send : Z -> nat -> bytes -> send_result).
Abbreviation World := (Controller.World l3_switch).
Implicit Type w : World.

(** The handlers, where the world is the one a connection's socket takes everything from. *)
Lemma send_packed_after `{MsgLaws T, !Dispatch T} (m : T) id c n x r a w :
  takes_all sock_send id -> w_sending w = false -> con_disconnected c = false ->
  msg_wf m -> 0 <= x < 2 ^ 31 ->
  let h := (hdr_settle (mhdr (mready m)) x).1 in
  let m' := with_hdr h (mready m) in
  hdr_version (mhdr m') = OFP_VERSION -> hdr_type (mhdr m') = disp_type ->
  exists b x', con_send_packed PIPE_BUF sock_send l3_quiet id (mpack true) m (after id c n x r a w) =
      (Ok tt, after id (sent b c) n x' r a w) /\ frame b disp_type (disp_wrap (mview m')).
Proof.
  intros Ht Hs Hd Hw Hx h m' Hv Hty. destruct (packs m x Hw Hx Hv Hty) as (b & x' & E & _ & F).
  exists b, x'. split; [|done]. unfold con_send_packed. erewrite bind_ok by by apply run_pack_after.
  unfold con_send_bytes. erewrite bind_ok by reflexivity. rewrite the_con_after, Hd. by apply send_raw_after.
Qed.

(** A packet-in that has been parsed, of an Ethernet frame for this program, on a connection
    in order. *)
Record heard (con d : Z) (ofp : ofp_packet_in) (packet : ethernet) (c : Con) w : Prop := {
  hd_con : w_cons w !! con = Some c;
  hd_up : con_disconnected c = false;
  hd_dpid : con_dpid c = Some d;
  hd_takes : takes_all sock_send con;
  hd_sending : w_sending w = false;
  hd_xids : 0 <= w_xids w < 2 ^ 31;
  hd_packet : exists ps, ethernet_new (pi_data ofp) (w_ps w) = (Ok packet, ps);
  hd_parsed : eth_parsed packet = true;
  hd_type : eth_type packet <> LLDP_TYPE;
  hd_port : u16 (pi_in_port ofp);
  hd_buffer : buffer_wf (pi_buffer_id ofp)
}.

(** The world in which the branch for the packet begins. *)
Lemma heard_branch con d ofp packet c w : heard con d ofp packet c w -> exists w1,
  l3_PacketIn PIPE_BUF sock_send con ofp w =
    match eth_next packet with
    | PPacket _ (LIpv4 h) _ => l3_ip PIPE_BUF sock_send con (Some d) packet h ofp w1
    | PPacket _ (LArp a) _ => l3_arp PIPE_BUF sock_send con (Some d) packet a ofp w1
    | _ => (Ok tt, w1)
    end /\
  w_cons w1 = w_cons w /\ w_sending w1 = false /\ w_xids w1 = w_xids w /\ w_now w1 = w_now w /\
  w_nexus w1 = w_nexus w /\ table_of (Some d) w1 = table_of (Some d) w.
Proof.
  intros [Hc _ Hd _ Hs _ [ps E] Hp Hty _ _]. assert (the_con con w = c) as Hcon by by apply lookup_total_correct.
  eexists. split.
  - unfold l3_PacketIn. erewrite bind_ok by reflexivity. rewrite Hcon, Hd. erewrite bind_ok by (unfold zoom; rewrite E; reflexivity).
    rewrite Hp. cbn [negb]. erewrite bind_ok by reflexivity. rewrite (proj2 (Z.eqb_neq _ _) Hty).
    destruct (eth_next packet) as [| |b|pd l nx]; [reflexivity..|]. destruct l; reflexivity.
  - repeat (split; [done|]). unfold table_of. cbn. by rewrite lookup_insert_eq.
Qed.

(** After learning, the connection is as it was. *)
Lemma learned_after con c d ip port mac w : w_cons w !! con = Some c ->
  l3_learn (Some d) ip port mac w =
    (Ok tt, after con c (w_nexus w) (w_xids w) (w_raised w)
       (L3 (<[Some d := <[ip_key ip := Entry_init (w_now w) port mac]> (table_of (Some d) w)]> (arpTable (w_app w)))) w).
Proof.
  intros Hc. unfold l3_learn, modify, after. assert (w_set_cons (<[con := c]> (w_cons w)) w = w) as -> by (destruct w; cbn in Hc; unfold w_set_cons; cbn; by rewrite insert_id).
  by destruct w.
Qed.

Lemma table_of_after d t m con c n x r w : table_of (Some d) (after con c n x r (L3 (<[Some d := t]> m)) w) = t.
Proof. unfold table_of. cbn. by rewrite lookup_insert_eq. Qed.

(** C21: Answering.  A host asks who has an address that the table of its datapath gives as
    [mac], not more than [ARP_TIMEOUT] old, and is not the owner itself.  The controller sends
    its switch a packet-out, to the port the request came from, with a frame that parses to the
    ARP reply from [mac] to the asker that says so; nothing else is sent anywhere. *)
Theorem arp_request_answered con d ofp packet c pd a nx e w : heard con d ofp packet c w ->
  eth_next packet = PPacket pd (LArp a) nx ->
  arp_learns a = true -> arp_opcode a = 1 -> arp_ok (arp_answer a (en_mac e)) ->
  ip_key (arp_protodst a) <> ip_key (arp_protosrc a) ->
  table_of (Some d) w !! ip_key (arp_protodst a) = Some e -> w_now w <= en_timeout e ->
  exists w' b h data, l3_PacketIn PIPE_BUF sock_send con ofp w = (Ok tt, w') /\ the_con con w' = sent b c /\
    (forall con', con' <> con -> the_con con' w' = the_con con' w) /\
    frame b OFPT_PACKET_OUT (MPacketOut (PacketOut h (-1) (pi_in_port ofp) [action_settle (action_output OFPP_IN_PORT)] data)) /\
    forall st, ethernet_new data st =
      (Ok (Ethernet (arp_hwsrc a) (en_mac e) (eth_type packet) (node (LArp (arp_answer a (en_mac e))) (PBytes [])) true), st).
Proof.
  intros Hh En Hl Hop Hok Hne He Hnow.
  assert (eth_type packet = 0x0806 \/ eth_type packet = 0x8035) as Hty.
  { destruct (hd_packet _ _ _ _ _ _ Hh) as [ps Eps]. apply ethernet_new_yields in Eps as (_ & _ & _ & Hn). rewrite En in Hn. by destruct Hn. }
  destruct (heard_branch _ _ _ _ _ _ Hh) as (w1 & -> & Hc1 & Hs1 & Hx1 & Hn1 & Hnx1 & Ht1).
  destruct Hh as [Hc Hup Hd Ht Hs Hx _ _ _ Hport Hbuf]. rewrite En. pose proof Hc as Hc'. rewrite <- Hc1 in Hc'.
  unfold l3_arp. rewrite Hl. erewrite bind_ok by by apply learned_after. rewrite bind_get.
  set (ap := L3 _). set (w2 := after _ _ _ _ _ ap w1).
  assert (answers (w_now w2) a (table_of (Some d) w2) = Some e) as ->.
  { unfold answers, w2, ap. rewrite Hop, table_of_after, lookup_insert_ne by congruence. cbn [Z.eqb Pos.eqb].
    rewrite Ht1, He. unfold isExpired. by rewrite (proj2 (Z.ltb_ge _ _)) by (rewrite <- Hn1 in Hnow; exact Hnow). }
  erewrite bind_ok by reflexivity.
  pose proof Hok as (_ & _ & _ & _ & _ & Hmac & Hasker & _).
  destruct (arp_frame_survives (arp_hwsrc a) (en_mac e) (eth_type packet) (arp_answer a (en_mac e)) [] (Some false) false)
    as (data & Ed & Ld & Hparse); [done..|]. change (zlen []) with 0 in Ld.
  erewrite bind_ok by (unfold lift, arp_answer_frame; rewrite Ed; reflexivity).
  set (m := PacketOut _ _ _ _ _).
  assert (msg_wf m) as Hw.
  { cbn [msg_wf ofp_packet_out_msg m po_hdr po_actions po_data po_buffer_id po_in_port].
    change (len_list 16 [action_output OFPP_IN_PORT]) with 24.
    split; [|split; [by left|split; [by left|split; [exact Hport|]]]].
    - unfold hdr_wf. cbn. unfold OFP_VERSION, OFPT_PACKET_OUT. split; [lia|]. split; [lia|]. by split; [lia|].
    - apply Forall_singleton, output_wf. by vm_compute. }
  destruct (packs m (w_xids w1) Hw) as (b & x' & E & _ & F); [lia|done|done|].
  eexists _, b, _, data. split; [|split; [|split; [|split; [exact F|exact Hparse]]]].
  - erewrite bind_ok; [reflexivity|]. by apply con_send_after.
  - apply the_con_after.
  - intros con' Hcon'. unfold the_con, lookup_total, map_lookup_total. cbn [w_cons after w_set_app w_set_raised w_set_xids w_set_nexus w_set_cons].
    by rewrite lookup_insert_ne, Hc1.
Qed.

Lemma others_after con con' c n x r a w w0 : con' <> con -> w_cons w = w_cons w0 ->
  the_con con' (after con c n x r a w) = the_con con' w0.
Proof.
  intros Hne E. unfold the_con, lookup_total, map_lookup_total.
  cbn [w_cons after w_set_app w_set_raised w_set_xids w_set_nexus w_set_cons]. by rewrite lookup_insert_ne, E.
Qed.

Lemma flood_arp_after con d ofp c n x r a w : takes_all sock_send con -> w_sending w = false -> con_disconnected c = false ->
  0 <= x < 2 ^ 31 -> buffer_wf (pi_buffer_id ofp) -> u16 (pi_in_port ofp) -> exists b x' h,
  flood_arp PIPE_BUF sock_send con (Some d) ofp (after con c n x r a w) = (Ok tt, after con (sent b c) n x' r a w) /\
  frame b OFPT_PACKET_OUT (MPacketOut (PacketOut h (pi_buffer_id ofp) (pi_in_port ofp) [action_settle (action_output OFPP_FLOOD)] [])).
Proof.
  intros Ht Hs Hc Hx Hb Hp.
  assert (msg_wf (packet_out (pi_buffer_id ofp) (pi_in_port ofp) [action_output OFPP_FLOOD])) as Hw.
  { apply packet_out_wf; [done..| |done|by repeat constructor]. apply Forall_singleton. by apply output_wf. }
  destruct (send_packed_after (packet_out (pi_buffer_id ofp) (pi_in_port ofp) [action_output OFPP_FLOOD]) con c n x r a w
    Ht Hs Hc Hw Hx) as (b & x' & E & F); [done|done|].
  exists b, x'. eexists. split; [|exact F]. unfold flood_arp. by erewrite bind_ok by reflexivity.
Qed.

(** Flooding.  An ARP packet that is not answered - no request, or its target not known or
    too old - becomes a packet-out to flood what the switch has buffered.  A packet that came
    without a buffer is not among what the switch has: the data is not sent along, since the
    test for [NO_BUFFER] never holds, and any switch that gets the message does nothing.  The
    ARP packet is lost. *)
Theorem arp_flooded_or_lost con d ofp packet c pd a nx w : heard con d ofp packet c w ->
  eth_next packet = PPacket pd (LArp a) nx ->
  (arp_learns a = true ->
     answers (w_now w) a (<[ip_key (arp_protosrc a) := Entry_init (w_now w) (pi_in_port ofp) (eth_src packet)]> (table_of (Some d) w)) = None) ->
  exists w' b h, let m := PacketOut h (pi_buffer_id ofp) (pi_in_port ofp) [action_settle (action_output OFPP_FLOOD)] [] in
    l3_PacketIn PIPE_BUF sock_send con ofp w = (Ok tt, w') /\ the_con con w' = sent b c /\
    (forall con', con' <> con -> the_con con' w' = the_con con' w) /\ frame b OFPT_PACKET_OUT (MPacketOut m) /\
    (pi_buffer_id ofp = -1 -> forall now s, switch_handle now OFPT_PACKET_OUT (MPacketOut m) s = (Ok tt, s)).
Proof.
  intros Hh En Ha. destruct (heard_branch _ _ _ _ _ _ Hh) as (w1 & -> & Hc1 & Hs1 & Hx1 & Hn1 & Hnx1 & Ht1).
  destruct Hh as [Hc Hup Hd Ht Hs Hx _ _ _ Hport Hbuf]. rewrite En. pose proof Hc as Hc'. rewrite <- Hc1 in Hc'.
  assert (exists w2 n x r ap, l3_arp PIPE_BUF sock_send con (Some d) packet a ofp w1 =
      flood_arp PIPE_BUF sock_send con (Some d) ofp (after con c n x r ap w2) /\ w_cons w2 = w_cons w /\
      w_sending w2 = false /\ 0 <= x < 2 ^ 31) as (w2 & n & x & r & ap & -> & Hc2 & Hs2 & Hx2).
  { unfold l3_arp. destruct (arp_learns a).
    - erewrite bind_ok by by apply learned_after. rewrite bind_get, table_of_after, Ht1.
      change (w_now (after _ _ _ _ _ _ w1)) with (w_now w1). rewrite Hn1, Ha by done. exists w1. do 4 eexists.
      split; [reflexivity|]. split; [done|]. split; [done|]. by rewrite Hx1.
    - exists w1, (w_nexus w1), (w_xids w1), (w_raised w1), (w_app w1). split; [by rewrite <- (after_self con c w1 Hc')|].
      split; [done|]. split; [done|]. by rewrite Hx1. }
  destruct (flood_arp_after con d ofp c n x r ap w2 Ht Hs2 Hup Hx2 Hbuf Hport) as (b & x' & h & E & F).
  eexists _, b, h. split; [exact E|]. split; [apply the_con_after|].
  split; [intros con' Hne; by apply others_after|]. split; [exact F|]. intros -> now s. reflexivity.
Qed.

(** Forwarding.  An IP packet to an address that the table of its datapath gives - after
    learning where it came from - as on another port becomes a flow for exactly this packet's
    match, out of that port, to which the packet is released; with the destination on the port
    it came from, or not known, nothing is sent. *)
Theorem ip_forwarded con d ofp packet c pd h nx m w : heard con d ofp packet c w ->
  eth_next packet = PPacket pd (LIpv4 h) nx -> from_packet packet (Some (pi_in_port ofp)) = Ok m -> match_wf m ->
  (forall k e, table_of (Some d) w !! k = Some e -> u16 (en_port e)) ->
  exists w', l3_PacketIn PIPE_BUF sock_send con ofp w = (Ok tt, w') /\
    (forall con', con' <> con -> the_con con' w' = the_con con' w) /\
    match <[ip_key (ip_srcip h) := Entry_init (w_now w) (pi_in_port ofp) (eth_src packet)]> (table_of (Some d) w)
            !! ip_key (ip_dstip h) with
    | Some e => if en_port e =? pi_in_port ofp then the_con con w' = c
                else exists b hd, the_con con w' = sent b c /\ frame b OFPT_FLOW_MOD
                  (MFlowMod (FlowMod hd (wire_view true m) 0 OFPFC_ADD 10 0 OFP_DEFAULT_PRIORITY (pi_buffer_id ofp) OFPP_NONE 0
                     [action_settle (action_output (en_port e))]))
    | None => the_con con w' = c
    end.
Proof.
  intros Hh En Em Hm Hports. destruct (heard_branch _ _ _ _ _ _ Hh) as (w1 & -> & Hc1 & Hs1 & Hx1 & Hn1 & Hnx1 & Ht1).
  destruct Hh as [Hc Hup Hd Ht Hs Hx _ _ _ Hport Hbuf]. rewrite En. pose proof Hc as Hc'. rewrite <- Hc1 in Hc'.
  unfold l3_ip. erewrite bind_ok by by apply learned_after. rewrite bind_get, table_of_after, Ht1, Hn1.
  set (t := <[_ := _]> (table_of _ w)). destruct (t !! ip_key (ip_dstip h)) as [e|] eqn:Ee.
  2: { eexists. split; [reflexivity|]. split; [intros con' Hne; by apply others_after|apply the_con_after]. }
  erewrite bind_ok by reflexivity. destruct (en_port e =? pi_in_port ofp).
  { eexists. split; [reflexivity|]. split; [intros con' Hne; by apply others_after|apply the_con_after]. }
  assert (u16 (en_port e)) as Hpe.
  { unfold t in Ee. apply lookup_insert_Some in Ee as [[_ <-]|[_ Ee]]; [done|]. by apply (Hports _ _ Ee). }
  erewrite bind_ok by (unfold lift; by rewrite Em).
  assert (msg_wf (flow_mod m FLOW_IDLE_TIMEOUT OFP_FLOW_PERMANENT (pi_buffer_id ofp) [action_output (en_port e)])) as Hw.
  { apply flow_mod_wf; [done..| |done|by repeat constructor]. apply Forall_singleton. by apply output_wf. }
  rewrite <- Hx1 in Hx.
  match goal with |- context [after con c ?n ?x ?r ?ap w1] =>
    destruct (send_packed_after _ con c n x r ap w1 Ht Hs1 Hup Hw Hx) as (b & x' & E & F); [done|done|] end.
  eexists. split; [exact E|]. split; [intros con' Hne; by apply others_after|].
  exists b. eexists. split; [apply the_con_after|exact F].
Qed.
End sends.

(** * Witnesses *)

(** Switch 9 on connection 1: station 1 (10.0.0.1) was seen on port 7, the clock is at 100 s. *)
Definition ex_ip (z : Z) : nwaddr := NwIP (ip_of_int (0x0a000000 + z)).
Definition ex_l3_entry : Entry := Entry_init (50 * 10 ^ 9) 7 (HwEth (ex_mac 1)).
Definition ex_l3_world (mac : bool) : Controller.World l3_switch :=
  MkWorld (<[1 := ex_l2_con]> ∅) 1 (<[Some 9 := 1]> ∅) false ∅ (100 * 10 ^ 9) 7 (PState 0 (fun _ => 0)) []
    (L3 {[Some 9 := if mac then {[ip_key (ex_ip 1) := ex_l3_entry]} else ∅]}) [].
(** Station 2 asks for it. *)
Definition ex_arp : arp := Arp 1 0x0800 (HwEth (ex_mac 2)) (HwEth (ex_mac 0)) 6 1 4 (ex_ip 2) (ex_ip 1).
Definition ex_arp_bytes : bytes := byte_of_Z <$> (replicate 6 255 ++ [0;0;0;0;0;2] ++ [8;6] ++
  [0;1; 8;0; 6; 4; 0;1] ++ [0;0;0;0;0;2] ++ [10;0;0;2] ++ [0;0;0;0;0;0] ++ [10;0;0;1]).
Definition ex_arp_frame : ethernet :=
  Ethernet (HwEth (MkEth (replicate 6 xff))) (HwEth (ex_mac 2)) 0x0806 (PPacket (Some true) (LArp ex_arp) (PBytes [])) true.
Definition ex_arp_in : ofp_packet_in := PacketIn (Hdr OFP_VERSION OFPT_PACKET_IN 18 (Some 1)) 3 (-1) OFPR_NO_MATCH ex_arp_bytes 42.
#[local] Existing Instance no_apps.

Lemma ex_heard known : heard ex_socket 1 9 ex_arp_in ex_arp_frame ex_l2_con (ex_l3_world known).
Proof.
  split; try reflexivity; try discriminate.
  - intros n data. reflexivity.
  - vm_compute. by split.
  - eexists. destruct known; vm_compute; reflexivity.
  - vm_compute. by split.
  - by left.
Qed.
Lemma ex_mac_wf n : 0 <= n < 3 -> hw_wf (HwEth (ex_mac n)).
Proof. intros Hn. assert (n = 0 \/ n = 1 \/ n = 2) as [->|[->| ->]] by lia; (split; [reflexivity|vm_compute; discriminate]). Qed.

Lemma l3_table_exact_witness :
  arpTable (w_app (l3_PacketIn 512 ex_socket 1 ex_arp_in (ex_l3_world false)).2) !! Some 9 =
    Some {[ip_key (ex_ip 2) := Entry_init (100 * 10 ^ 9) 3 (HwEth (ex_mac 2))]}.
Proof.
  destruct (hd_packet _ _ _ _ _ _ _ (ex_heard false)) as [ps E].
  rewrite (l3_table_exact 512 ex_socket 1 ex_arp_in ex_arp_frame ps (ex_l3_world false) E). vm_compute. reflexivity.
Defined.

Lemma arp_request_answered_witness : exists w' b, l3_PacketIn 512 ex_socket 1 ex_arp_in (ex_l3_world true) = (Ok tt, w') /\
  con_out (the_con 1 w') = b /\ exists h data,
    frame b OFPT_PACKET_OUT (MPacketOut (PacketOut h (-1) 3 [action_settle (action_output OFPP_IN_PORT)] data)) /\
    (ethernet_new data (PState 0 (fun _ => 0))).1 = Ok (Ethernet (HwEth (ex_mac 2)) (HwEth (ex_mac 1)) 0x0806
      (PPacket (Some true) (LArp (Arp 1 0x0800 (HwEth (ex_mac 1)) (HwEth (ex_mac 2)) 6 2 4 (ex_ip 1) (ex_ip 2))) (PBytes [])) true).
Proof.
  destruct (arp_request_answered 512 ex_socket 1 9 ex_arp_in ex_arp_frame ex_l2_con (Some true) ex_arp (PBytes []) ex_l3_entry
    (ex_l3_world true) (ex_heard true)) as (w' & b & h & data & E & Hc & _ & F & Hp).
  - reflexivity.
  - vm_compute. reflexivity.
  - reflexivity.
  - split; [by vm_compute|]. split; [by vm_compute|]. split; [reflexivity|]. split; [reflexivity|]. split; [by vm_compute|].
    split; [by apply ex_mac_wf|]. split; [by apply ex_mac_wf|]. split; apply ip_of_int_wf.
  - vm_compute. discriminate.
  - vm_compute. reflexivity.
  - vm_compute. discriminate.
  - exists w', b. split; [exact E|]. split; [by rewrite Hc|]. exists h, data. split; [exact F|]. by rewrite Hp.
Defined.

Lemma arp_flooded_or_lost_witness : exists w' b h,
  l3_PacketIn 512 ex_socket 1 ex_arp_in (ex_l3_world false) = (Ok tt, w') /\ con_out (the_con 1 w') = b /\
  frame b OFPT_PACKET_OUT (MPacketOut (PacketOut h (-1) 3 [action_settle (action_output OFPP_FLOOD)] [])).
Proof.
  destruct (arp_flooded_or_lost 512 ex_socket 1 9 ex_arp_in ex_arp_frame ex_l2_con (Some true) ex_arp (PBytes []) (ex_l3_world false)
    (ex_heard false)) as (w' & b & h & E & Hc & _ & F & _).
  - reflexivity.
  - intros _. vm_compute. reflexivity.
  - exists w', b, h. split; [exact E|]. split; [by rewrite Hc|exact F].
Defined.

(** Station 2 sends an IP packet to station 1. *)
Definition ex_ip_bytes : bytes := byte_of_Z <$> ([0;0;0;0;0;1] ++ [0;0;0;0;0;2] ++ [8;0] ++
  [0x45;0; 0;24; 0;1; 0;0; 64;253; 0;0] ++ [10;0;0;2] ++ [10;0;0;1] ++ [1;2;3;4]).
Definition ex_ip_in : ofp_packet_in := PacketIn (Hdr OFP_VERSION OFPT_PACKET_IN 18 (Some 1)) 3 5 OFPR_NO_MATCH ex_ip_bytes 38.
Definition ex_ip_header : ipv4 := Ipv4 4 5 0 24 1 0 0 64 253 0 (ex_ip 2) (ex_ip 1).
Definition ex_ip_packet : ethernet :=
  Ethernet (HwEth (ex_mac 1)) (HwEth (ex_mac 2)) 0x0800
    (PPacket (Some true) (LIpv4 ex_ip_header) (PBytes (byte_of_Z <$> [1;2;3;4]))) true.
Lemma ip_forwarded_witness : exists w' b h m, l3_PacketIn 512 ex_socket 1 ex_ip_in (ex_l3_world true) = (Ok tt, w') /\
  con_out (the_con 1 w') = b /\ frame b OFPT_FLOW_MOD
    (MFlowMod (FlowMod h m 0 OFPFC_ADD 10 0 OFP_DEFAULT_PRIORITY 5 OFPP_NONE 0 [action_settle (action_output 7)])).
Proof.
  assert (exists m, from_packet ex_ip_packet (Some 3) = Ok m /\ match_wf m) as (m & Em & Hm).
  { eexists. split; [vm_compute; reflexivity|]. vm_compute. intuition congruence. }
  destruct (ip_forwarded 512 ex_socket 1 9 ex_ip_in ex_ip_packet ex_l2_con (Some true) ex_ip_header (PBytes (byte_of_Z <$> [1;2;3;4])) m
    (ex_l3_world true)) as (w' & E & _ & Hr).
  - split; try reflexivity; try discriminate; [intros n data; reflexivity|vm_compute; by split|eexists; vm_compute; reflexivity|
      vm_compute; by split|right; vm_compute; by split].
  - reflexivity.
  - exact Em.
  - exact Hm.
  - intros k e He. change (table_of (Some 9) (ex_l3_world true)) with ({[ip_key (ex_ip 1) := ex_l3_entry]} : gmap (Z + Z) Entry) in He.
    apply lookup_singleton_Some in He as [_ <-]. by vm_compute.
  - assert (<[ip_key (ip_srcip ex_ip_header) := Entry_init (w_now (ex_l3_world true)) (pi_in_port ex_ip_in) (eth_src ex_ip_packet)]>
      (table_of (Some 9) (ex_l3_world true)) !! ip_key (ip_dstip ex_ip_header) = Some ex_l3_entry) as He by (vm_compute; reflexivity).
    rewrite He in Hr. destruct Hr as (b & h & Hc & F). exists w', b, h. eexists. split; [exact E|]. split; [by rewrite Hc|exact F].
Defined.
