(* ===== verification/Dns.v ===== *)
(** [lib/packet/dns.py]: DNS messages - [parse] with its reader of compressed names, and
    [hdr].  Printing is left out. *)
From S2P Require Import Prelude.
From S2P Require Import PyStruct.
From S2P Require Import Addresses.

Definition DNS_MIN_LEN : Z := 12.

Record question := Question { qn_name : bytes; qn_qtype : Z; qn_qclass : Z }.
(** The data of a record: an address, or text - a name or the raw bytes. *)
Inductive rddata := RdAddr (a : IPAddr) | RdText (s : bytes).
Record rr := RR { rr_name : bytes; rr_qtype : Z; rr_qclass : Z; rr_ttl : Z; rr_rdlen : Z; rr_rddata : rddata }.

Record dns := MkDns {
  dns_id : Z; dns_qr : bool; dns_opcode : Z; dns_aa : bool; dns_tc : bool; dns_rd : bool; dns_ra : bool;
  dns_z : bool; dns_ad : bool; dns_cd : bool; dns_rcode : Z;
  dns_questions : list question; dns_answers : list rr; dns_authorities : list rr; dns_additional : list rr;
  dns_parsed : bool
}.
Definition dns_init : dns := MkDns 0 false 0 false false false false false false false 0 [] [] [] [] false.

(** * Names *)

(** [ord(l[i])]. *)
Definition ord_at (l : bytes) (i : Z) : res Z :=
  match l !! Z.to_nat i with Some c => Ok (Z_of_byte c) | None => Err IndexError end.

(** [".".join(l)]. *)
Fixpoint join_dots (l : list bytes) : bytes :=
  match l with
  | [] => []
  | [x] => x
  | x :: l => x ++ x2e :: join_dots l
  end.

Section names.
Variable l : bytes.

(** The loop of [_read_dns_name_from_index], which ends at the latest with the bytes; a
    pointer is followed by [rec]. *)
Fixpoint name_loop (rec : Z -> list bytes -> res (Z * list bytes)) (fuel : nat) (index : Z) (retlist : list bytes)
    : res (Z * list bytes) :=
  match fuel with
  | O => Err Diverge
  | S fuel =>
      chunk_size ← ord_at l index;
      if Z.land chunk_size 0xc0 =? 0xc0 then
        low ← ord_at l (index + 1);
        let offset := Z.lor (Z.shiftl (Z.land chunk_size 0x3) 8) low in
        r ← rec offset retlist;
        Ok (index + 1, r.2)
      else if chunk_size =? 0 then Ok (index, retlist)
      else name_loop rec fuel (index + 1 + chunk_size) (retlist ++ [slice l (index + 1) (index + 1 + chunk_size)])
  end.

(** [_read_dns_name_from_index] calls itself for every pointer; [stack] is how many calls
    deep the interpreter still lets it go, after which it raises RuntimeError. *)
Fixpoint read_labels (stack : nat) (index : Z) (retlist : list bytes) : res (Z * list bytes) :=
  match stack with
  | O => Err RuntimeError
  | S stack => name_loop (read_labels stack) (S (length l)) index retlist
  end.

Definition read_dns_name_from_index (stack : nat) (index : Z) : res (Z * bytes) :=
  r ← read_labels stack index []; Ok (r.1 + 1, join_dots r.2).
End names.

(** * Questions and records *)

Definition get_rddata (stack : nat) (l : bytes) (type dlen beg_index : Z) : res rddata :=
  if zlen l <? beg_index + dlen then Err PlainException
  else if type =? 1 then
    (* [Exception] takes no keyword argument *)
    if negb (dlen =? 4) then Err TypeError
    else a ← IPAddr_init (IStr (slice l beg_index (beg_index + 4))) false; Ok (RdAddr a)
  else if type =? 2 then r ← read_dns_name_from_index l stack beg_index; Ok (RdText r.2)
  else if type =? 12 then r ← read_dns_name_from_index l stack beg_index; Ok (RdText r.2)
  else if type =? 15 then r ← read_dns_name_from_index l stack (beg_index + 2); Ok (RdText r.2)
  else Ok (RdText (slice l beg_index (beg_index + dlen))).

Definition next_rr (stack : nat) (l : bytes) (index : Z) : res (Z * rr) :=
  if zlen l <? index then Err PlainException
  else
    r ← read_dns_name_from_index l stack index;
    let '(index, name) := r in
    if zlen l <? index + 10 then Err PlainException
    else
      tuple [qtype; qclass; ttl; rdlen] ← struct_unpack "!HHIH" (slice l index (index + 10));
      if zlen l <? index + 10 + rdlen then Err PlainException
      else
        rddata ← get_rddata stack l qtype rdlen (index + 10);
        Ok (index + 10 + rdlen, RR name qtype qclass ttl rdlen rddata).

Definition next_question (stack : nat) (l : bytes) (index : Z) : res (Z * question) :=
  r ← read_dns_name_from_index l stack index;
  let '(index, name) := r in
  if zlen l <? index + 4 then Err PlainException
  else tuple [qtype; qclass] ← struct_unpack "!HH" (slice l index (index + 4));
       Ok (index + 4, Question name qtype qclass).

(** * The message *)

(** [for i in range(0, n)] with every exception caught: what was read, and where reading goes
    on, or None when it does not. *)
Fixpoint read_items {A} (next : Z -> res (Z * A)) (n : nat) (query_head : Z) : list A * option Z :=
  match n with
  | O => ([], Some query_head)
  | S n =>
      match next query_head with
      | Err _ => ([], None)
      | Ok (query_head, x) => let '(xs, r) := read_items next n query_head in (x :: xs, r)
      end
  end.
Definition read_section {A} (next : Z -> res (Z * A)) (n : Z) (query_head : option Z) : list A * option Z :=
  match query_head with Some h => read_items next (Z.to_nat n) h | None => ([], None) end.

Definition bit (x mask : Z) : bool := negb (Z.land x mask =? 0).

(** [parse]; none of its exceptions gets out of it. *)
Definition dns_parse (stack : nat) (raw : bytes) : res dns :=
  if zlen raw <? DNS_MIN_LEN then Ok dns_init
  else
    tuple [id; bits0; bits1; total_questions; total_answers; total_auth_rr; total_add_rr]
      ← struct_unpack "!HBBHHHH" (slice raw 0 12);
    let '(questions, h) := read_section (next_question stack raw) total_questions (Some 12) in
    let '(answers, h) := read_section (next_rr stack raw) total_answers h in
    let '(authorities, h) := read_section (next_rr stack raw) total_auth_rr h in
    let '(additional, h) := read_section (next_rr stack raw) total_add_rr h in
    Ok (MkDns id (bit bits0 0x80) (Z.land (Z.shiftr bits0 4) 0x07) (bit bits0 0x04) (bit bits0 0x02) (bit bits0 0x01)
          (bit bits1 0x80) (bit bits1 0x40) (bit bits1 0x20) (bit bits1 0x10) (Z.land bits1 0x0f)
          questions answers authorities additional
          (match h with Some _ => true | None => false end)).

(** * Packing *)

Definition flag (b : bool) (mask : Z) : Z := if b then mask else 0.
Definition dns_bits0 (d : dns) : Z :=
  Z.lor (Z.lor (Z.lor (Z.lor (flag (dns_qr d) 0x80) (Z.shiftl (Z.land (dns_opcode d) 0x7) 4)) (flag (dns_rd d) 1)) (flag (dns_tc d) 2))
    (flag (dns_aa d) 4).
Definition dns_bits1 (d : dns) : Z :=
  Z.lor (Z.lor (Z.lor (Z.lor (flag (dns_ra d) 0x80) (flag (dns_z d) 0x40)) (flag (dns_ad d) 0x20)) (flag (dns_cd d) 0x10))
    (Z.land (dns_rcode d) 0xf).

(** [putName] assigns to the header's [s], which makes it a variable of its own: reading it
    first fails. *)
Definition putName (name : bytes) : res unit := Err UnboundLocalError.

(** [hdr] has no [return]: the result is None. *)
Definition dns_hdr (d : dns) : res unit :=
  '_ ← struct_pack "!HBBHHHH" [dns_id d; dns_bits0 d; dns_bits1 d; zlen (dns_questions d); zlen (dns_answers d);
                              zlen (dns_authorities d); zlen (dns_additional d)];
  '_ ← mapM putName (qn_name <$> dns_questions d);
  '_ ← mapM putName (rr_name <$> dns_answers d);
  '_ ← mapM putName (rr_name <$> dns_authorities d);
  '_ ← mapM putName (rr_name <$> dns_additional d);
  Ok tt.

(** [pack]: a message has no payload, so its header is all there is; the packet around it
    takes the length of the None it gets. *)
Definition dns_pack (d : dns) : res bytes := '_ ← dns_hdr d; Err TypeError.
