(* ===== verification/DnsTheory.v ===== *)
(** DNS messages: what the parser makes of a message as RFC 1035 lays it out, compressed
    names included, and what it makes of pointers. *)
From S2P Require Import Prelude.
From S2P Require Import PyStruct.
From S2P Require Import Addresses.
From S2P Require Import Dns.

(** * Names on the wire *)

Section layout.
Context (l : bytes).

(** A name that begins at [i], as labels; what comes after its last byte here, at [j].  A label
    has at most 63 bytes; a pointer has fourteen bits, of which [limit] bounds the value, and
    [depth] counts the pointers that are followed. *)
Inductive name_at (limit : Z) : nat -> Z -> list bytes -> Z -> Prop :=
  | name_end d i : ord_at l i = Ok 0 -> name_at limit d i [] (i + 1)
  | name_label d i c ls j : ord_at l i = Ok c -> 0 < c < 64 -> name_at limit d (i + 1 + c) ls j ->
      name_at limit d i (slice l (i + 1) (i + 1 + c) :: ls) j
  | name_pointer d i high low ls j : ord_at l i = Ok high -> 192 <= high -> ord_at l (i + 1) = Ok low ->
      let offset := (high - 192) * 256 + low in
      offset < limit -> name_at limit d offset ls j -> name_at limit (S d) i ls (i + 2).

Lemma ord_at_range i c : ord_at l i = Ok c -> 0 <= c < 256 /\ (0 <= i -> i < zlen l).
Proof.
  unfold ord_at. destruct (l !! Z.to_nat i) as [b|] eqn:E; [|done]. intros [= <-]. split; [apply Z_of_byte_range|].
  apply lookup_lt_Some in E. unfold zlen. lia.
Qed.

Lemma pointer_bits c : 0 <= c < 256 -> (Z.land c 0xc0 =? 0xc0) = (192 <=? c) /\ Z.land c 3 = c mod 4.
Proof.
  intros Hc. assert (forallb (fun c => bool_decide ((Z.land c 0xc0 =? 0xc0) = (192 <=? c) /\ Z.land c 3 = c mod 4)) (seqZ 0 256)) as H
    by by vm_compute.
  rewrite forallb_True, Forall_forall in H. eapply bool_decide_unpack, H, elem_of_seqZ. lia.
Qed.

(** The offset that the parser follows: the low ten bits. *)
Lemma pointer_offset high low : 192 <= high < 256 -> 0 <= low < 256 ->
  Z.lor (Z.shiftl (Z.land high 3) 8) low = ((high - 192) * 256 + low) mod 1024.
Proof.
  intros Hh Hl. rewrite lor_concat by lia. destruct (pointer_bits high) as [_ ->]; [lia|].
  replace ((high - 192) * 256 + low) with (low + 256 * (high mod 4) + (high / 4 - 48) * 1024)
    by (pose proof (Z.div_mod high 4 ltac:(lia)); lia).
  rewrite Z.mod_add by done. rewrite (Z.mod_small (low + _)); [lia|]. pose proof (Z.mod_pos_bound high 4 ltac:(lia)). lia.
Qed.

(** One round of the loop at a pointer. *)
Lemma loop_pointer rec fuel i ret high low : ord_at l i = Ok high -> 192 <= high -> ord_at l (i + 1) = Ok low ->
  name_loop l rec (S fuel) i ret = r ← rec (((high - 192) * 256 + low) mod 1024) ret; Ok (i + 1, r.2).
Proof.
  intros Hh H Hl. destruct (ord_at_range _ _ Hh) as [Rh _]. destruct (ord_at_range _ _ Hl) as [Rl _].
  cbn [name_loop]. rewrite Hh. cbn [mbind res_bind]. destruct (pointer_bits high Rh) as [-> _].
  rewrite (proj2 (Z.leb_le _ _)) by done. rewrite Hl. cbn [mbind res_bind]. by rewrite pointer_offset by lia.
Qed.
Lemma loop_label rec fuel i ret c : ord_at l i = Ok c -> 0 < c < 192 ->
  name_loop l rec (S fuel) i ret = name_loop l rec fuel (i + 1 + c) (ret ++ [slice l (i + 1) (i + 1 + c)]).
Proof.
  intros Hc H. destruct (ord_at_range _ _ Hc) as [Rc _]. cbn [name_loop]. rewrite Hc. cbn [mbind res_bind].
  destruct (pointer_bits c Rc) as [-> _]. rewrite (proj2 (Z.leb_gt _ _)) by lia. by rewrite (proj2 (Z.eqb_neq _ _)) by lia.
Qed.

Lemma name_at_read d i ls j : name_at 1024 d i ls j -> 0 <= i -> forall stack fuel ret, (d <= stack)%nat ->
  (Z.to_nat (zlen l - i) < fuel)%nat -> name_loop l (read_labels l stack) fuel i ret = Ok (j - 1, ret ++ ls).
Proof.
  induction 1 as [d i H|d i c ls j Hc Hr _ IH|d i high low ls j Hh H192 Hl offset Ho _ IH]; intros Hi stack fuel ret Hd Hf.
  - destruct fuel as [|fuel]; [lia|]. cbn [name_loop]. rewrite H. cbn. rewrite app_nil_r. do 2 f_equal. lia.
  - destruct fuel as [|fuel]; [lia|]. destruct (ord_at_range _ _ Hc) as [_ Hlt]. rewrite loop_label with (c := c) by (done || lia).
    rewrite IH by lia. by rewrite <-app_assoc.
  - destruct fuel as [|fuel]; [lia|]. rewrite loop_pointer with (high := high) (low := low) by done.
    destruct (ord_at_range _ _ Hl) as [Rl _].
    fold offset. rewrite Z.mod_small by (unfold offset in *; lia). destruct stack as [|stack]; [lia|]. cbn [read_labels].
    rewrite IH by (unfold offset, zlen in *; lia). cbn [mbind res_bind snd]. do 2 f_equal. lia.
Qed.

Lemma name_read stack d i ls j : name_at 1024 d i ls j -> 0 <= i -> (d < stack)%nat ->
  read_dns_name_from_index l stack i = Ok (j, join_dots ls).
Proof.
  intros H Hi Hd. unfold read_dns_name_from_index. destruct stack as [|stack]; [lia|]. cbn [read_labels].
  rewrite (name_at_read d i ls j H Hi) by (unfold zlen; lia). cbn. do 2 f_equal. lia.
Qed.

Lemma name_at_after limit d i ls j : name_at limit d i ls j -> 0 <= i -> 0 <= j.
Proof. induction 1 as [| |]; lia. Qed.
End layout.

(** * Messages *)

(** The number in the [n] bytes at [i]. *)
Definition word (l : bytes) (i n : Z) : Z := be_dec (slice l i (i + n)).

Lemma slice_nonneg {A} (l : list A) i j : 0 <= i -> 0 <= j -> slice l i j = take (Z.to_nat (j - i)) (drop (Z.to_nat i) l).
Proof. intros Hi Hj. unfold slice, py_index. rewrite !(proj2 (Z.ltb_ge _ _)) by done. f_equal. lia. Qed.
(** Part of the bytes of a format, read on their own. *)
Lemma slice_part (l : bytes) i j a n : 0 <= i -> 0 <= a -> 0 <= n -> i + a + n <= j ->
  take (Z.to_nat n) (drop (Z.to_nat a) (slice l i j)) = slice l (i + a) (i + a + n).
Proof.
  intros. rewrite !slice_nonneg by lia. rewrite skipn_firstn_comm, take_take, drop_drop. f_equal; [lia|]. f_equal. lia.
Qed.

Ltac unpack_words l k :=
  erewrite struct_unpack_codes; [|by vm_compute|rewrite zlen_slice by lia; cbn; lia];
  cbn [unpack_codes udec]; rewrite ?drop_drop; unfold word;
  repeat match goal with
         | |- context [take ?n (slice l k ?j)] =>
             replace (take n (slice l k j)) with (take n (drop (Z.to_nat 0) (slice l k j))) by (by rewrite drop_0)
         end.

Lemma unpack_HH l k : 0 <= k -> k + 4 <= zlen l ->
  struct_unpack "!HH" (slice l k (k + 4)) = Ok [word l k 2; word l (k + 2) 2].
Proof.
  intros Hk Hl. unpack_words l k.
  pose proof (slice_part l k (k + 4) 0 2) as H1. pose proof (slice_part l k (k + 4) 2 2) as H2.
  change (Z.to_nat 2) with 2%nat in *. rewrite H1, H2 by lia. by rewrite Z.add_0_r.
Qed.
Lemma unpack_HHIH l k : 0 <= k -> k + 10 <= zlen l ->
  struct_unpack "!HHIH" (slice l k (k + 10)) = Ok [word l k 2; word l (k + 2) 2; word l (k + 4) 4; word l (k + 8) 2].
Proof.
  intros Hk Hl. unpack_words l k.
  pose proof (slice_part l k (k + 10) 0 2) as H1. pose proof (slice_part l k (k + 10) 2 2) as H2.
  pose proof (slice_part l k (k + 10) 4 4) as H3. pose proof (slice_part l k (k + 10) 8 2) as H4.
  cbn [Nat.add] in *. change (Z.to_nat 2) with 2%nat in *. change (Z.to_nat 4) with 4%nat in *. change (Z.to_nat 8) with 8%nat in *.
  rewrite H1, H2, H3, H4 by lia. by rewrite Z.add_0_r.
Qed.
Lemma unpack_header l : 12 <= zlen l -> struct_unpack "!HBBHHHH" (slice l 0 12) =
  Ok [word l 0 2; word l 2 1; word l 3 1; word l 4 2; word l 6 2; word l 8 2; word l 10 2].
Proof.
  intros Hl. unpack_words l 0.
  pose proof (slice_part l 0 12 0 2) as H1. pose proof (slice_part l 0 12 2 1) as H2. pose proof (slice_part l 0 12 3 1) as H3.
  pose proof (slice_part l 0 12 4 2) as H4. pose proof (slice_part l 0 12 6 2) as H5. pose proof (slice_part l 0 12 8 2) as H6.
  pose proof (slice_part l 0 12 10 2) as H7.
  cbn [Nat.add Z.add Pos.add] in *. change (Z.to_nat 1) with 1%nat in *. change (Z.to_nat 2) with 2%nat in *.
  change (Z.to_nat 3) with 3%nat in *. change (Z.to_nat 4) with 4%nat in *. change (Z.to_nat 6) with 6%nat in *.
  change (Z.to_nat 8) with 8%nat in *. change (Z.to_nat 10) with 10%nat in *.
  by rewrite H1, H2, H3, H4, H5, H6, H7 by lia.
Qed.

Section message.
Context (stack : nat) (l : bytes).

(** A name that the parser can follow. *)
Definition named (i : Z) (name : bytes) (j : Z) : Prop :=
  exists d ls, (d < stack)%nat /\ name_at l 1024 d i ls j /\ name = join_dots ls.

(** A question at [i], up to [j]. *)
Definition question_at (i : Z) (q : question) (j : Z) : Prop :=
  exists k, named i (qn_name q) k /\ j = k + 4 /\ j <= zlen l /\
    qn_qtype q = word l k 2 /\ qn_qclass q = word l (k + 2) 2.

(** The data of a record of [type] in [len] bytes at [i]. *)
Definition data_at (type len i : Z) (data : rddata) : Prop :=
  if type =? 1 then len = 4 /\ data = RdAddr (ip_of_int (word l i 4))
  else if (type =? 2) || (type =? 12) then exists name j, named i name j /\ data = RdText name
  else if type =? 15 then exists name j, named (i + 2) name j /\ data = RdText name
  else data = RdText (slice l i (i + len)).
Definition rr_at (i : Z) (r : rr) (j : Z) : Prop :=
  exists k, named i (rr_name r) k /\ j = k + 10 + rr_rdlen r /\ j <= zlen l /\
    rr_qtype r = word l k 2 /\ rr_qclass r = word l (k + 2) 2 /\ rr_ttl r = word l (k + 4) 4 /\ rr_rdlen r = word l (k + 8) 2 /\
    data_at (rr_qtype r) (rr_rdlen r) (k + 10) (rr_rddata r).

(** One after another. *)
Inductive items_at {A} (item_at : Z -> A -> Z -> Prop) : Z -> list A -> Z -> Prop :=
  | items_nil i : items_at item_at i [] i
  | items_cons i x k xs j : item_at i x k -> items_at item_at k xs j -> items_at item_at i (x :: xs) j.

(** [l] is the message [d]. *)
Record message_at (d : dns) : Prop := {
  ma_length : 12 <= zlen l;
  ma_id : dns_id d = word l 0 2;
  ma_bits0 : word l 2 1 = dns_bits0 d /\ 0 <= dns_opcode d < 8;
  ma_bits1 : word l 3 1 = dns_bits1 d /\ 0 <= dns_rcode d < 16;
  ma_counts : word l 4 2 = zlen (dns_questions d) /\ word l 6 2 = zlen (dns_answers d) /\
    word l 8 2 = zlen (dns_authorities d) /\ word l 10 2 = zlen (dns_additional d);
  ma_sections : exists i1 i2 i3 i4, items_at question_at 12 (dns_questions d) i1 /\ items_at rr_at i1 (dns_answers d) i2 /\
    items_at rr_at i2 (dns_authorities d) i3 /\ items_at rr_at i3 (dns_additional d) i4
}.

Lemma named_read i name j : named i name j -> 0 <= i -> read_dns_name_from_index l stack i = Ok (j, name) /\ 0 <= j.
Proof.
  intros (d & ls & Hd & Hn & ->) Hi. split; [by eapply name_read|by eapply name_at_after].
Qed.
Lemma word_range i n : 0 <= i -> 0 <= n -> 0 <= word l i n < 256 ^ n.
Proof.
  intros Hi Hn. unfold word. pose proof (be_dec_range (slice l i (i + n))) as [H1 H2]. split; [done|].
  eapply Z.lt_le_trans; [exact H2|]. apply Z.pow_le_mono_r; [lia|]. rewrite slice_nonneg by lia. rewrite length_take. lia.
Qed.

Lemma question_read i q j : question_at i q j -> 0 <= i -> next_question stack l i = Ok (j, q) /\ 0 <= j.
Proof.
  intros (k & Hn & -> & Hj & Ht & Hc) Hi. destruct (named_read _ _ _ Hn Hi) as [E Hk]. split; [|lia].
  unfold next_question. rewrite E. cbn [mbind res_bind]. rewrite (proj2 (Z.ltb_ge _ _)) by lia.
  rewrite unpack_HH by lia. cbn [mbind res_bind]. destruct q; cbn in *. by subst.
Qed.

Lemma data_read type len i data : data_at type len i data -> 0 <= i -> 0 <= len -> i + len <= zlen l ->
  get_rddata stack l type len i = Ok data.
Proof.
  intros Hd Hi Hlen Hl. unfold get_rddata, data_at in *. rewrite (proj2 (Z.ltb_ge _ _)) by lia.
  destruct (type =? 1).
  { destruct Hd as [-> ->]. cbn [negb Z.eqb Pos.eqb].
    assert (length (slice l i (i + 4)) = 4%nat) as H4 by (pose proof (zlen_slice l i (i + 4)); unfold zlen in *; lia).
    unfold word. by rewrite ip_of_raw. }
  destruct (type =? 2), (type =? 12); cbn [orb] in Hd;
    try (destruct Hd as (name & j & Hn & ->); destruct (named_read _ _ _ Hn Hi) as [-> _]; done).
  destruct (type =? 15); [|by subst].
  destruct Hd as (name & j & Hn & ->). by destruct (named_read _ _ _ Hn ltac:(lia)) as [-> _].
Qed.

Lemma rr_read i r j : rr_at i r j -> 0 <= i -> next_rr stack l i = Ok (j, r) /\ 0 <= j.
Proof.
  intros (k & Hn & -> & Hj & Ht & Hc & Htl & Hr & Hd) Hi. destruct (named_read _ _ _ Hn Hi) as [E Hk].
  pose proof (word_range (k + 8) 2) as Hw. rewrite <-Hr in Hw. split; [|lia].
  unfold next_rr. assert (i <= zlen l) as Hil.
  { destruct Hn as (d & ls & _ & H & _). inversion H as [? ? Ho|? ? ? ? ? Ho|? ? ? ? ? ? Ho]; subst;
      destruct (ord_at_range _ _ _ Ho) as [_ ?]; lia. }
  rewrite (proj2 (Z.ltb_ge _ _)) by lia. rewrite E. cbn [mbind res_bind]. rewrite (proj2 (Z.ltb_ge _ _)) by lia.
  rewrite unpack_HHIH by lia. cbn [mbind res_bind]. rewrite <-Ht, <-Hc, <-Htl, <-Hr. rewrite (proj2 (Z.ltb_ge _ _)) by lia.
  rewrite (data_read _ _ _ _ Hd) by lia. cbn [mbind res_bind]. by destruct r.
Qed.

Lemma items_read {A} (item_at : Z -> A -> Z -> Prop) (next : Z -> res (Z * A)) i xs j :
  (forall i x j, item_at i x j -> 0 <= i -> next i = Ok (j, x) /\ 0 <= j) -> items_at item_at i xs j -> 0 <= i ->
  read_section next (zlen xs) (Some i) = (xs, Some j) /\ 0 <= j.
Proof.
  intros Hnext H. unfold read_section, zlen. rewrite Nat2Z.id. induction H as [i|i x k xs j Hx _ IH]; intros Hi; [done|].
  destruct (Hnext _ _ _ Hx Hi) as [E Hk]. destruct (IH Hk) as [E' Hj]. split; [|done].
  cbn [length read_items]. by rewrite E, E'.
Qed.
End message.

Lemma bits0_read d : 0 <= dns_opcode d < 8 ->
  bit (dns_bits0 d) 0x80 = dns_qr d /\ Z.land (Z.shiftr (dns_bits0 d) 4) 0x07 = dns_opcode d /\
  bit (dns_bits0 d) 0x04 = dns_aa d /\ bit (dns_bits0 d) 0x02 = dns_tc d /\ bit (dns_bits0 d) 0x01 = dns_rd d.
Proof.
  unfold dns_bits0. intros H.
  assert (dns_opcode d = 0 \/ dns_opcode d = 1 \/ dns_opcode d = 2 \/ dns_opcode d = 3 \/ dns_opcode d = 4 \/ dns_opcode d = 5 \/
    dns_opcode d = 6 \/ dns_opcode d = 7) as Ho by lia.
  destruct (dns_qr d), (dns_aa d), (dns_tc d), (dns_rd d); by repeat destruct Ho as [->|Ho]; [..|rewrite Ho].
Qed.
Lemma bits1_read d : 0 <= dns_rcode d < 16 ->
  bit (dns_bits1 d) 0x80 = dns_ra d /\ bit (dns_bits1 d) 0x40 = dns_z d /\ bit (dns_bits1 d) 0x20 = dns_ad d /\
  bit (dns_bits1 d) 0x10 = dns_cd d /\ Z.land (dns_bits1 d) 0x0f = dns_rcode d.
Proof.
  unfold dns_bits1. intros H.
  assert (In (dns_rcode d) (seqZ 0 16)) as Hr by (apply list_elem_of_In, elem_of_seqZ; lia).
  change (seqZ 0 16) with [0; 1; 2; 3; 4; 5; 6; 7; 8; 9; 10; 11; 12; 13; 14; 15] in Hr. cbn [In] in Hr.
  generalize dependent (dns_rcode d). intros r _ Hr.
  destruct (dns_ra d), (dns_z d), (dns_ad d), (dns_cd d); by repeat destruct Hr as [<-|Hr].
Qed.

Definition set_parsed (d : dns) : dns :=
  MkDns (dns_id d) (dns_qr d) (dns_opcode d) (dns_aa d) (dns_tc d) (dns_rd d) (dns_ra d) (dns_z d) (dns_ad d) (dns_cd d)
    (dns_rcode d) (dns_questions d) (dns_answers d) (dns_authorities d) (dns_additional d) true.

(** The parser reads what RFC 1035 lays out.  If the bytes are a message - its header, then
    as many questions, answers, authorities and additional records as the header says, one
    after another, names made of labels and of pointers to names elsewhere in the message,
    each followed no deeper than the interpreter lets the parser recurse - then the object has
    exactly its fields, flags, questions and records, the data of an address record as an
    address and that of NS, PTR and MX records as the name, and counts as parsed; provided
    that the pointers are below 1024. *)
Theorem dns_reads_message stack l d : message_at stack l d -> dns_parse stack l = Ok (set_parsed d).
Proof.
  intros [Hlen Hid [H0 Ho] [H1 Hr] (C1 & C2 & C3 & C4) (i1 & i2 & i3 & i4 & S1 & S2 & S3 & S4)].
  unfold dns_parse. rewrite (proj2 (Z.ltb_ge _ _)) by (unfold DNS_MIN_LEN; lia). rewrite unpack_header by done.
  cbn [mbind res_bind]. rewrite C1, C2, C3, C4.
  destruct (items_read (question_at stack l) (next_question stack l) 12 _ i1 (question_read stack l) S1 ltac:(lia)) as [-> P1].
  destruct (items_read (rr_at stack l) (next_rr stack l) i1 _ i2 (rr_read stack l) S2 P1) as [-> P2].
  destruct (items_read (rr_at stack l) (next_rr stack l) i2 _ i3 (rr_read stack l) S3 P2) as [-> P3].
  destruct (items_read (rr_at stack l) (next_rr stack l) i3 _ i4 (rr_read stack l) S4 P3) as [-> P4].
  rewrite H0, H1. destruct (bits0_read d Ho) as (-> & -> & -> & -> & ->). destruct (bits1_read d Hr) as (-> & -> & -> & -> & ->).
  rewrite <-Hid. done.
Qed.

(** * Pointers *)

(** A pointer is followed as if it had ten bits: a name at an offset of 1024 or more is
    read from that offset modulo 1024, whatever is there.  And a name that is a pointer to
    itself is never read, however deep the interpreter can go. *)
Theorem pointer_ten_bits stack l i high low : ord_at l i = Ok high -> 192 <= high -> ord_at l (i + 1) = Ok low ->
  let offset := (high - 192) * 256 + low in
  read_dns_name_from_index l (S stack) i =
    match read_labels l stack (offset mod 1024) [] with Ok (_, ls) => Ok (i + 2, join_dots ls) | Err e => Err e end /\
  (offset mod 1024 = i -> read_dns_name_from_index l (S stack) i = Err RuntimeError).
Proof.
  intros Hh H192 Hl offset.
  assert (forall stack ret, read_labels l (S stack) i ret = r ← read_labels l stack (offset mod 1024) ret; Ok (i + 1, r.2)) as E
    by (intros; cbn [read_labels]; by rewrite (loop_pointer l _ _ _ _ high low)).
  split.
  - unfold read_dns_name_from_index. rewrite E. destruct (read_labels l stack _ []) as [[k ls]|e]; cbn; [|done]. do 2 f_equal. lia.
  - intros Hi. rewrite Hi in E. unfold read_dns_name_from_index.
    assert (forall stack ret, read_labels l stack i ret = Err RuntimeError) as ->; [|done].
    clear stack. intros stack; induction stack as [|stack IH]; intros ret; [done|]. by rewrite E, IH.
Qed.

(** * The theorems on examples *)

(** An answer for www.a, its name a pointer to that of the question. *)
Definition ex_dns : bytes :=
  [x12; x34; x81; x80; x00; x01; x00; x01; x00; x00; x00; x00] ++
  [x03; x77; x77; x77; x01; x61; x00; x00; x01; x00; x01] ++
  [xc0; x0c; x00; x01; x00; x01; x00; x00; x00; x3c; x00; x04; x0a; x00; x00; x01].
Definition ex_dns_message : dns :=
  MkDns 0x1234 true 0 false false true true false false false 0 [Question (lit "www.a") 1 1]
    [RR (lit "www.a") 1 1 60 4 (RdAddr (ip_of_int 0x0a000001))] [] [] false.
Lemma ex_dns_name : exists ls, name_at ex_dns 1024 0 12 ls 19 /\ lit "www.a" = join_dots ls.
Proof.
  eexists. split; [|].
  - apply (name_label _ _ _ 12 3); [vm_compute; reflexivity|lia|]. apply (name_label _ _ _ 16 1); [vm_compute; reflexivity|lia|].
    apply (name_end _ _ _ 18). vm_compute. reflexivity.
  - vm_compute. reflexivity.
Qed.
Lemma ex_dns_at : message_at 2 ex_dns ex_dns_message.
Proof.
  destruct ex_dns_name as (ls & Hn & Hls). split.
  - vm_compute. discriminate.
  - vm_compute. reflexivity.
  - split; [vm_compute; reflexivity|cbn; lia].
  - split; [vm_compute; reflexivity|cbn; lia].
  - repeat split; vm_compute; reflexivity.
  - exists 23, 39, 39, 39. split; [|split; [|split; [apply items_nil|apply items_nil]]].
    + apply (items_cons _ 12 _ 23); [|apply items_nil]. exists 19. split; [exists 0%nat, ls; split; [lia|split; [exact Hn|exact Hls]]|].
      split; [reflexivity|]. split; [vm_compute; discriminate|]. split; vm_compute; reflexivity.
    + apply (items_cons _ 23 _ 39); [|apply items_nil]. exists 25. split.
      { exists 1%nat, ls. split; [lia|]. split; [|exact Hls].
        apply (name_pointer _ _ 0 23 192 12 ls 19); [vm_compute; reflexivity|lia|vm_compute; reflexivity|lia|exact Hn]. }
      split; [reflexivity|]. split; [vm_compute; discriminate|].
      repeat split; vm_compute; reflexivity.
Qed.
Lemma dns_reads_message_witness : dns_parse 2 ex_dns = Ok (set_parsed ex_dns_message).
Proof. apply (dns_reads_message 2 ex_dns ex_dns_message). exact ex_dns_at. Defined.

(** A name at offset 12 that is a pointer to offset 0x40c: it is read from offset 12. *)
Lemma pointer_ten_bits_witness : let l := replicate 12 x00 ++ [xc4; x0c] in
  forall stack, read_dns_name_from_index l (S stack) 12 = Err RuntimeError.
Proof.
  intros l stack. apply (pointer_ten_bits stack l 12 196 12); [vm_compute; reflexivity|lia|vm_compute; reflexivity|vm_compute; reflexivity].
Defined.
