(* ===== verification/Dhcp.v ===== *)
(** [lib/packet/dhcp.py]: DHCP messages - [parse] with the options, [packOptions], [hdr],
    [appendRawOption] - and the codec that the packet library's interface asks of the three
    application classes.  Printing is left out. *)
From S2P Require Import Prelude.
From S2P Require Import PyStruct.
From S2P Require Import Addresses.
From S2P Require Import Packets.
From S2P Require Import PacketCodec.
From S2P Require Import Lldp.
From S2P Require Import Dns.

Definition DHCP_MIN_LEN : Z := 240.
Definition OVERLOAD_OPT : Z := 52.
Definition PAD_OPT : Z := 0.
Definition END_OPT : Z := 255.
Definition MAGIC : bytes := [x63; x82; x53; x63].

(** [chaddr]: None at first, bytes, or an address. *)
Inductive chaddr := ChNone | ChBytes (s : bytes) | ChEth (a : EthAddr).

(** [options] is set late; its values are bytes in what the parser makes, and may be lists of
    bytes in what a program makes. *)
Inductive optval := OBytes (v : bytes) | OList (parts : list bytes).
Record dhcp := MkDhcp {
  dh_op : Z; dh_htype : Z; dh_hlen : Z; dh_hops : Z; dh_xid : Z; dh_secs : Z; dh_flags : Z;
  dh_ciaddr : IPAddr; dh_yiaddr : IPAddr; dh_siaddr : IPAddr; dh_giaddr : IPAddr; dh_chaddr : chaddr;
  dh_sname : bytes; dh_file : bytes; dh_magic : bytes; dh_raw_options : bytes;
  dh_options : option (gmap Z optval); dh_dirty : bool; dh_parsed : bool
}.

(** * Options *)

Section segment.
Variable barr : bytes.

(** [parseOptionSegment] on a dict whose values are bytes. *)
Fixpoint segment_loop (fuel : nat) (ofs : Z) (options : gmap Z bytes) : res (gmap Z bytes) :=
  match fuel with
  | O => Err Diverge
  | S fuel =>
      if negb (ofs <? zlen barr) then Ok options
      else
        opt ← ord_at barr ofs;
        if opt =? END_OPT then Ok options
        else
          let ofs := ofs + 1 in
          if opt =? PAD_OPT then segment_loop fuel ofs options
          else if zlen barr <=? ofs then Ok options
          else
            opt_len ← ord_at barr ofs;
            let ofs := ofs + 1 in
            if zlen barr <? ofs + opt_len then Ok options
            else
              let v := slice barr ofs (ofs + opt_len) in
              segment_loop fuel (ofs + opt_len) (<[opt := default [] (options !! opt) ++ v]> options)
  end.
Definition parseOptionSegment (options : gmap Z bytes) : res (gmap Z bytes) := segment_loop (S (length barr)) 0 options.
End segment.

(** [parseOptions].  A character never equals 1, and is no number to put in the warning: both
    branches that the overload option takes raise. *)
Definition parseOptions (raw_options : bytes) : res (gmap Z bytes) :=
  options ← parseOptionSegment raw_options ∅;
  match options !! OVERLOAD_OPT with
  | None => Ok options
  | Some [] => Err IndexError
  | Some (_ :: _) => Err TypeError
  end.

(** [packOptions]. *)
Definition addPart (k : Z) (v : bytes) : res bytes :=
  if (k <? 0) || (255 <? k) || (255 <? zlen v) then Err ValueError
  else
    let o := [byte_of_Z k; byte_of_Z (zlen v)] ++ v in
    Ok (o ++ if Z.odd (zlen o) then [byte_of_Z PAD_OPT] else []).
(** [[v[i:i+255] for i in range(0, len(v), 255)]]. *)
Definition long_parts (v : bytes) : list bytes :=
  (fun i => slice v (Z.of_nat i * 255) (Z.of_nat i * 255 + 255)) <$> seq 0 (Z.to_nat ((zlen v + 254) / 255)).
Definition option_parts (v : optval) : list bytes :=
  match v with OBytes v => if 255 <? zlen v then long_parts v else [v] | OList parts => parts end.
Definition pack_option (kv : Z * optval) : res bytes :=
  if (kv.1 =? END_OPT) || (kv.1 =? PAD_OPT) then Ok []
  else l ← mapM (addPart kv.1) (option_parts kv.2); Ok (concat l).
(** In the order of [map_to_list], for the dict's own. *)
Definition packOptions (options : gmap Z optval) : res bytes :=
  l ← mapM pack_option (map_to_list options); Ok (concat l ++ [byte_of_Z END_OPT]).

(** * The message *)

Definition dhcp_init : dhcp :=
  MkDhcp 0 0 0 0 0 0 0 (ip_of_int 0) (ip_of_int 0) (ip_of_int 0) (ip_of_int 0) ChNone [] [] [] [] None false false.

Definition dhcp_parse (raw : bytes) : res dhcp :=
  if zlen raw <? DHCP_MIN_LEN then Ok dhcp_init
  else
    tuple [op; htype; hlen; hops; xid; secs; flags; ciaddr; yiaddr; siaddr; giaddr]
      ← struct_unpack "!BBBBIHHIIII" (slice raw 0 28);
    ciaddr ← IPAddr_init (IInt ciaddr) false;
    yiaddr ← IPAddr_init (IInt yiaddr) false;
    siaddr ← IPAddr_init (IInt siaddr) false;
    giaddr ← IPAddr_init (IInt giaddr) false;
    chaddr ← (if hlen =? 6 then a ← EthAddr_init (EBytes (slice (slice raw 28 44) 0 6)); Ok (ChEth a)
              else Ok (ChBytes (slice raw 28 44)));
    let d raw_options options dirty :=
      MkDhcp op htype hlen hops xid secs flags ciaddr yiaddr siaddr giaddr chaddr (slice raw 44 108) (slice raw 102 236)
        (slice raw 236 240) raw_options options dirty true in
    if 16 <? hlen then Ok (d [] None false)
    else if negb (bool_decide (slice raw 236 240 = MAGIC)) then Ok (d [] None false)
    else
      options ← parseOptions (slice_from raw 240);
      Ok (d (slice_from raw 240) (Some (OBytes <$> options)) (negb (bool_decide (options = ∅)))).

(** [hdr].  An [IPAddr] is no number that [struct] could pack. *)
Definition dhcp_hdr : M dhcp bytes :=
  d ← get;
  match dh_options d with
  | None => raise AttributeError
  | Some options =>
      '_ ← (if dh_dirty d then
              raw_options ← lift (packOptions options);
              put (MkDhcp (dh_op d) (dh_htype d) (dh_hlen d) (dh_hops d) (dh_xid d) (dh_secs d) (dh_flags d) (dh_ciaddr d)
                     (dh_yiaddr d) (dh_siaddr d) (dh_giaddr d) (dh_chaddr d) (dh_sname d) (dh_file d) (dh_magic d)
                     raw_options (Some options) false (dh_parsed d))
            else mret tt);
      match dh_chaddr d with
      | ChEth _ => raise StructError
      | _ => raise UnboundLocalError
      end
  end.

Definition appendRawOption (code : Z) (val : option bytes) (length : option Z) (raw_options : bytes) : bytes * res unit :=
  if (code <? 0) || (255 <? code) then (raw_options, Err ValueError)
  else
    let raw_options := raw_options ++ [byte_of_Z code] in
    let rest length :=
      if (length <? 0) || (255 <? length) then (raw_options, Err ValueError)
      else
        let raw_options := raw_options ++ [byte_of_Z length] in
        match val with Some val => (raw_options ++ val, Ok tt) | None => (raw_options, Err TypeError) end in
    match length, val with
    | None, None => (raw_options, Ok tt)
    | None, Some val => rest (zlen val)
    | Some length, _ => rest length
    end.

(** * The codecs of the application classes *)

(** All three; [stack] is how deep the interpreter lets the DNS parser recurse. *)
Definition app_codec (stack : nat) : AppCodec := lldp_codec {|
  app_parsed c raw :=
    match c with
    | C_lldp => Ok false
    | C_dhcp => d ← dhcp_parse raw; Ok (dh_parsed d)
    | C_dns => d ← dns_parse stack raw; Ok (dns_parsed d)
    end;
  app_pack c raw :=
    match c with
    | C_lldp => Err NotImplementedError
    | C_dhcp => d ← dhcp_parse raw; (dhcp_hdr d).1
    | C_dns => d ← dns_parse stack raw; dns_pack d
    end
|}.
