(* ===== verification/DhcpTheory.v ===== *)
(** DHCP messages: options survive packing and parsing, the overload option does not; and
    what the application codecs mean for the packets around them. *)
From S2P Require Import Prelude.
From S2P Require Import Steps.
From S2P Require Import PyStruct.
From S2P Require Import Addresses.
From S2P Require Import Wire.
From S2P Require Import Packets.
From S2P Require Import PacketCodec.
From S2P Require Import Lldp.
From S2P Require Import Dns.
From S2P Require Import DnsTheory.
From S2P Require Import Dhcp.
From S2P Require Import OfBase.
From S2P Require Import OfMessages.
From S2P Require Import Connection.
From S2P Require Import FlowTable.
From S2P Require Import SoftSwitch.

(** * Options *)

(** A dict gets another part of an option. *)
Definition add_part (options : gmap Z bytes) (kv : Z * bytes) : gmap Z bytes :=
  <[kv.1 := default [] (options !! kv.1) ++ kv.2]> options.
Definition part_ok (kv : Z * bytes) : Prop := 0 < kv.1 < 255 /\ zlen kv.2 <= 255.
Definition part_wire (kv : Z * bytes) : bytes :=
  [byte_of_Z kv.1; byte_of_Z (zlen kv.2)] ++ kv.2 ++ if Z.odd (zlen kv.2) then [x00] else [].

Lemma ord_at_head (pre : bytes) c rest : ord_at (pre ++ c :: rest) (zlen pre) = Ok (Z_of_byte c).
Proof. unfold ord_at, zlen. by rewrite Nat2Z.id, list_lookup_middle. Qed.

Lemma addPart_wire kv : part_ok kv -> addPart kv.1 kv.2 = Ok (part_wire kv).
Proof.
  intros [Hk Hv]. unfold addPart, part_wire. rewrite !(proj2 (Z.ltb_ge _ _)) by lia. cbn [orb].
  rewrite zlen_app. change (zlen [byte_of_Z kv.1; byte_of_Z (zlen kv.2)]) with 2.
  rewrite Z.odd_add. change (Z.odd 2) with false. rewrite xorb_false_l. by rewrite <-app_assoc.
Qed.

Section segment.
Context (barr : bytes).
Implicit Types (pre rest : bytes).

Lemma loop_pad pre rest fuel options : barr = pre ++ x00 :: rest ->
  segment_loop barr (S fuel) (zlen pre) options = segment_loop barr fuel (zlen pre + 1) options.
Proof.
  intros E. cbn [segment_loop]. rewrite (proj2 (Z.ltb_lt _ _)) by (rewrite E, zlen_app; unfold zlen; cbn [length]; lia).
  cbn [negb]. rewrite E at 1. rewrite ord_at_head. done.
Qed.

Lemma loop_option pre rest fuel options k v : part_ok (k, v) ->
  barr = pre ++ [byte_of_Z k; byte_of_Z (zlen v)] ++ v ++ rest ->
  segment_loop barr (S fuel) (zlen pre) options =
    segment_loop barr fuel (zlen pre + 2 + zlen v) (add_part options (k, v)).
Proof.
  intros [Hk Hv] E. cbn [fst snd] in *. pose proof (zlen_nonneg v). pose proof (zlen_nonneg rest).
  assert (zlen barr = zlen pre + 2 + zlen v + zlen rest) as Hl
    by (rewrite E, !zlen_app; change (zlen [byte_of_Z k; byte_of_Z (zlen v)]) with 2; lia).
  cbn [segment_loop]. rewrite (proj2 (Z.ltb_lt _ _)) by lia. cbn [negb].
  assert (ord_at barr (zlen pre) = Ok k) as -> by (rewrite E; cbn [app]; rewrite ord_at_head, Z_of_byte_of_Z, Z.mod_small by lia; done).
  cbn [mbind res_bind]. rewrite (proj2 (Z.eqb_neq k END_OPT)) by (unfold END_OPT; lia).
  rewrite (proj2 (Z.eqb_neq k PAD_OPT)) by (unfold PAD_OPT; lia). rewrite (proj2 (Z.leb_gt _ _)) by lia.
  assert (ord_at barr (zlen pre + 1) = Ok (zlen v)) as ->.
  { rewrite E. cbn [app]. change (pre ++ byte_of_Z k :: ?x) with (pre ++ [byte_of_Z k] ++ x). rewrite app_assoc.
    change 1 with (zlen [byte_of_Z k]). rewrite <-zlen_app, ord_at_head, Z_of_byte_of_Z, Z.mod_small by lia. done. }
  cbn [mbind res_bind]. rewrite (proj2 (Z.ltb_ge _ _)) by lia.
  replace (zlen pre + 1 + 1) with (zlen pre + 2) by lia.
  assert (slice barr (zlen pre + 2) (zlen pre + 2 + zlen v) = v) as ->.
  { rewrite E, app_assoc. apply slice_tail; [by rewrite zlen_app|done]. }
  done.
Qed.

Lemma loop_part pre rest fuel options kv : part_ok kv -> barr = pre ++ part_wire kv ++ rest ->
  (Z.to_nat (zlen (part_wire kv ++ rest)) < fuel)%nat -> exists fuel', (Z.to_nat (zlen rest) < fuel')%nat /\
    segment_loop barr fuel (zlen pre) options = segment_loop barr fuel' (zlen (pre ++ part_wire kv)) (add_part options kv).
Proof.
  destruct kv as [k v]. intros Hok E Hf. unfold part_wire in *. cbn [fst snd] in *.
  rewrite !zlen_app in Hf. change (zlen [byte_of_Z k; byte_of_Z (zlen v)]) with 2 in Hf.
  pose proof (zlen_nonneg v). pose proof (zlen_nonneg rest). destruct fuel as [|fuel]; [lia|].
  rewrite (loop_option pre ((if Z.odd (zlen v) then [x00] else []) ++ rest) fuel options k v); [|done|by rewrite E, <-!app_assoc].
  destruct (Z.odd (zlen v)).
  - change (zlen [x00]) with 1 in Hf. destruct fuel as [|fuel]; [lia|].
    assert (zlen pre + 2 + zlen v = zlen (pre ++ [byte_of_Z k; byte_of_Z (zlen v)] ++ v)) as -> by (rewrite !zlen_app; change (zlen [byte_of_Z k; byte_of_Z (zlen v)]) with 2; lia).
    rewrite (loop_pad _ rest) by (by rewrite E, <-!app_assoc).
    exists fuel. split; [lia|]. f_equal. rewrite !zlen_app. change (zlen [x00]) with 1. lia.
  - change (zlen []) with 0 in Hf. exists fuel. split; [lia|]. f_equal. rewrite app_nil_r, !zlen_app. change (zlen [byte_of_Z k; byte_of_Z (zlen v)]) with 2. lia.
Qed.

Lemma loop_parts kvs pre rest fuel options : Forall part_ok kvs ->
  barr = pre ++ concat (part_wire <$> kvs) ++ xff :: rest ->
  (Z.to_nat (zlen (concat (part_wire <$> kvs) ++ xff :: rest)) < fuel)%nat ->
  segment_loop barr fuel (zlen pre) options = Ok (foldl add_part options kvs).
Proof.
  intros Hok. revert pre fuel options; induction Hok as [|kv kvs Hkv _ IH]; intros pre fuel options E Hf.
  - cbn [fmap list_fmap concat app foldl] in *. destruct fuel as [|fuel]; [lia|]. cbn [segment_loop].
    rewrite (proj2 (Z.ltb_lt _ _)) by (rewrite E, zlen_app; unfold zlen; cbn [length]; lia). cbn [negb].
    rewrite E at 1. by rewrite ord_at_head.
  - rewrite fmap_cons in E, Hf. cbn [concat] in E, Hf. rewrite <-app_assoc in E, Hf.
    destruct (loop_part pre _ fuel options kv Hkv E Hf) as (fuel' & Hf' & ->). cbn [foldl].
    apply IH; [by rewrite <-app_assoc|done].
Qed.
End segment.

(** ** The parts of a value *)

Lemma concat_chunks (v : bytes) k n : (length v <= (k + n) * 255)%nat ->
  concat ((fun i => take 255 (drop (i * 255) v)) <$> seq k n) = drop (k * 255) v.
Proof.
  revert k; induction n as [|n IH]; intros k Hn.
  - cbn. by rewrite drop_ge by lia.
  - cbn [seq]. rewrite fmap_cons. cbn [concat]. rewrite IH by lia.
    replace (S k * 255)%nat with (k * 255 + 255)%nat by lia. rewrite <-drop_drop. apply take_drop.
Qed.
Lemma option_parts_spec (v : bytes) : concat (option_parts (OBytes v)) = v /\ option_parts (OBytes v) <> [] /\
  Forall (fun p => zlen p <= 255) (option_parts (OBytes v)).
Proof.
  cbn [option_parts]. destruct (Z.ltb_spec 255 (zlen v)) as [Hv|Hv].
  2: { split; [cbn; by rewrite app_nil_r|]. split; [done|]. by apply Forall_singleton. }
  unfold long_parts. set (n := Z.to_nat ((zlen v + 254) / 255)).
  assert (length v <= n * 255)%nat as Hn.
  { unfold n, zlen in *. pose proof (Z.div_mod (Z.of_nat (length v) + 254) 255 ltac:(lia)).
    pose proof (Z.mod_pos_bound (Z.of_nat (length v) + 254) 255 ltac:(lia)). lia. }
  rewrite (list_fmap_ext _ (fun i => take 255 (drop (i * 255) v))).
  2: { intros i x _. unfold slice, py_index. rewrite !(proj2 (Z.ltb_ge _ 0)) by lia. f_equal; [lia|f_equal; lia]. }
  split; [by rewrite (concat_chunks v 0)|]. split.
  - intros E. apply (f_equal length) in E. rewrite length_fmap, length_seq in E. unfold zlen in *. cbn in E. lia.
  - apply Forall_fmap, Forall_forall. intros i _. cbn. unfold zlen. rewrite length_take. lia.
Qed.

(** Parts of one option add up. *)
Lemma add_parts_one options k ps : ps <> [] ->
  foldl add_part options (pair k <$> ps) = <[k := default [] (options !! k) ++ concat ps]> options.
Proof.
  revert options; induction ps as [|p ps IH]; intros options Hne; [done|]. rewrite fmap_cons. cbn [foldl concat].
  destruct ps as [|p' ps]; [by rewrite app_nil_r|]. rewrite IH by done.
  change (add_part options (k, p)) with (<[k := default [] (options !! k) ++ p]> options).
  rewrite lookup_insert_eq. cbn [from_option id]. by rewrite insert_insert_eq, <-app_assoc.
Qed.

Definition parts_of (l : list (Z * bytes)) : list (Z * bytes) := concat ((fun kv => pair kv.1 <$> option_parts (OBytes kv.2)) <$> l).

Lemma add_parts_lookup (l : list (Z * bytes)) (options : gmap Z bytes) : NoDup l.*1 -> (forall k, k ∈ l.*1 -> options !! k = None) ->
  forall k v, foldl add_part options (parts_of l) !! k = Some v <-> (k, v) ∈ l \/ options !! k = Some v.
Proof.
  revert options; induction l as [|[k v] l IH]; intros options Hnd Hno k' v'.
  { cbn. rewrite elem_of_nil. tauto. }
  rewrite fmap_cons in Hnd, Hno. cbn [fst] in *. apply NoDup_cons in Hnd as [Hk Hnd].
  unfold parts_of. rewrite fmap_cons. cbn [concat fst snd]. rewrite foldl_app.
  destruct (option_parts_spec v) as (Hc & Hne & _). rewrite add_parts_one by done. rewrite Hc, (Hno k) by by left.
  cbn [from_option id app]. fold (parts_of l).
  rewrite (IH (<[k := v]> options)); [|done|intros x Hx; rewrite lookup_insert_ne by (by intros ->); apply Hno; by right].
  rewrite elem_of_cons. destruct (decide (k' = k)) as [->|Hne'].
  - rewrite lookup_insert_eq. rewrite (Hno k) by by left. split.
    + intros [H|[= ->]]; [|by left; left]. by left; right.
    + intros [[[= ->]|H]|[=]]; [by right|by left].
  - rewrite lookup_insert_ne by done. split; [naive_solver|]. intros [[[= ? ?]|?]|?]; tauto.
Qed.

Lemma pack_option_parts (kv : Z * bytes) : 0 < kv.1 < 255 ->
  pack_option (kv.1, OBytes kv.2) = Ok (concat (part_wire <$> (pair kv.1 <$> option_parts (OBytes kv.2)))) /\
  Forall part_ok (pair kv.1 <$> option_parts (OBytes kv.2)).
Proof.
  intros Hk. destruct (option_parts_spec kv.2) as (_ & _ & Hps). set (ps := option_parts (OBytes kv.2)) in *.
  assert (Forall part_ok (pair kv.1 <$> ps)) as Hok by (apply Forall_fmap; eapply Forall_impl; [exact Hps|done]).
  split; [|done]. unfold pack_option. cbn [fst snd]. fold ps. rewrite (proj2 (Z.eqb_neq _ _)) by (unfold END_OPT; lia).
  rewrite (proj2 (Z.eqb_neq _ _)) by (unfold PAD_OPT; lia). cbn [orb].
  assert (mapM (addPart kv.1) ps = Ok (part_wire <$> (pair kv.1 <$> ps))) as ->; [|done].
  clear Hps. induction ps as [|p ps IH]; [done|]. rewrite fmap_cons in Hok |- *. apply Forall_cons in Hok as [Hp Hok].
  cbn [mapM]. pose proof (addPart_wire (kv.1, p) Hp) as E. cbn [fst snd] in E. rewrite E. cbn [mbind res_bind]. by rewrite (IH Hok).
Qed.

Lemma pack_options_parts (l : list (Z * bytes)) : Forall (fun kv => 0 < kv.1 < 255) l ->
  exists bs, mapM pack_option ((fun kv => (kv.1, OBytes kv.2)) <$> l) = Ok bs /\
    concat bs = concat (part_wire <$> parts_of l) /\ Forall part_ok (parts_of l).
Proof.
  induction 1 as [|kv l Hkv _ (bs & E & Hc & Hok)]; [by exists []|]. destruct (pack_option_parts kv Hkv) as [Ep Hp].
  rewrite fmap_cons. cbn [mapM]. rewrite Ep. cbn [mbind res_bind]. rewrite E. eexists. split; [done|].
  unfold parts_of. rewrite fmap_cons. cbn [concat]. fold (parts_of l). rewrite fmap_app, concat_app, Hc. split; [done|].
  by apply Forall_app.
Qed.

(** C35: Options survive packing.  Of options with any codes but those of the padding and of the
    end, and values of any length, the long ones cut into parts of 255 bytes, [packOptions] makes bytes from which,
    whatever follows them, [parseOptionSegment] gets the same options again: parts are joined, the padding is skipped.
    So does [parseOptions], the reader of whole messages, unless the overload option, 52, is among them: then it raises. *)
Theorem options_roundtrip (options : gmap Z bytes) rest : (forall k, is_Some (options !! k) -> 0 < k < 255) ->
  exists b, packOptions (OBytes <$> options) = Ok b /\ parseOptionSegment (b ++ rest) ∅ = Ok options /\
    parseOptions (b ++ rest) =
      match options !! OVERLOAD_OPT with None => Ok options | Some [] => Err IndexError | Some (_ :: _) => Err TypeError end.
Proof.
  intros Hk.
  assert (Forall (fun kv => 0 < kv.1 < 255) (map_to_list options)) as Hl.
  { apply Forall_forall. intros [k v] H%elem_of_map_to_list. apply Hk. by exists v. }
  destruct (pack_options_parts _ Hl) as (bs & E & Hc & Hok). unfold packOptions. rewrite map_to_list_fmap.
  assert ((prod_map id OBytes <$> map_to_list options) = (fun kv : Z * bytes => (kv.1, OBytes kv.2)) <$> map_to_list options) as ->
    by (apply list_fmap_ext; by intros i [k v] _).
  rewrite E. eexists. split; [done|]. set (barr := (concat bs ++ [byte_of_Z END_OPT]) ++ rest).
  assert (parseOptionSegment barr ∅ = Ok options) as Es; [|split; [done|unfold parseOptions; by rewrite Es]].
  unfold parseOptionSegment. rewrite (loop_parts barr (parts_of (map_to_list options)) [] rest); [|done|by unfold barr; rewrite <-app_assoc, Hc|].
  2: { unfold barr. rewrite Hc, <-app_assoc. unfold zlen. change (byte_of_Z END_OPT) with xff. rewrite Nat2Z.id. cbn [app]. lia. }
  f_equal. apply map_eq. intros k. apply option_eq. intros v.
  rewrite add_parts_lookup; [|apply NoDup_fst_map_to_list|intros; apply lookup_empty].
  rewrite elem_of_map_to_list, lookup_empty. split; [by intros [?|?]|by left].
Qed.

(** * The overload option *)

Lemma parse_options_err raw options : parseOptionSegment raw ∅ = Ok options -> is_Some (options !! OVERLOAD_OPT) ->
  exists e, parseOptions raw = Err e.
Proof.
  intros E [v Hv]. unfold parseOptions. rewrite E. cbn [mbind res_bind]. rewrite Hv. destruct v; by eexists.
Qed.

Lemma header_hlen (raw : bytes) hlen : DHCP_MIN_LEN <= zlen raw -> raw !! 2%nat = Some hlen ->
  exists op htype hops xid secs flags ciaddr yiaddr siaddr giaddr,
    struct_unpack "!BBBBIHHIIII" (slice raw 0 28) =
      Ok [op; htype; Z_of_byte hlen; hops; xid; secs; flags; ciaddr; yiaddr; siaddr; giaddr].
Proof.
  intros Hl Hh. unfold DHCP_MIN_LEN in Hl.
  assert (slice raw 0 28 !! 2%nat = Some hlen) as Hh'.
  { unfold slice, py_index. cbn. change (Pos.to_nat 28) with 28%nat. rewrite drop_0. by rewrite lookup_take_lt by lia. }
  assert (length (slice raw 0 28) = 28%nat) as Hlen.
  { pose proof (zlen_slice raw 0 28) as H. unfold zlen in *. lia. }
  erewrite struct_unpack_codes; [|by vm_compute|unfold zlen; rewrite Hlen; by vm_compute].
  cbn [unpack_codes]. rewrite !drop_drop. apply drop_S in Hh'. cbn [Nat.add]. rewrite Hh'. cbn [firstn udec].
  rewrite take_0.
  assert (be_dec [hlen] = Z_of_byte hlen) as -> by (unfold be_dec; cbn [rev app le_dec]; lia).
  do 10 eexists. reflexivity.
Qed.

(** The overload option cannot be parsed.  If a message is long enough, has the magic
    number and no hardware address of Ethernet's length, and its options name the overload
    option - which asks to read on in other fields - then the constructor raises: a character
    is never the number it looks for, and no number for the warning.  The exception is not
    caught by the UDP packet around the message, nor by the IP packet around that. *)
Theorem overload_raises stack (raw : bytes) options (hlen : Byte.byte) (header : bytes) : DHCP_MIN_LEN <= zlen raw ->
  raw !! 2%nat = Some hlen -> Z_of_byte hlen <= 16 -> Z_of_byte hlen <> 6 -> slice raw 236 240 = MAGIC ->
  parseOptionSegment (slice_from raw 240) ∅ = Ok options -> is_Some (options !! OVERLOAD_OPT) ->
  (exists e, dhcp_parse raw = Err e) /\
  forall srcport dstport len csum, struct_unpack "!HHHH" header = Ok [srcport; dstport; len; csum] ->
    dstport = SERVER_PORT \/ dstport = CLIENT_PORT -> 8 <= len ->
    exists e, udp_new (H := app_codec stack) (header ++ raw) = Err e.
Proof.
  intros Hl Hh H16 H6 Hm Ho Hover.
  assert (exists e, dhcp_parse raw = Err e) as [e He].
  { unfold dhcp_parse. rewrite (proj2 (Z.ltb_ge _ _)) by done.
    destruct (header_hlen raw hlen Hl Hh) as (op & htype & hops & xid & secs & flags & ci & yi & si & gi & ->).
    cbn [mbind res_bind]. rewrite !IPAddr_init_int. cbn [mbind res_bind]. rewrite (proj2 (Z.eqb_neq _ _)) by done.
    cbn [mbind res_bind]. cbv zeta. rewrite (proj2 (Z.ltb_ge _ _)) by done. rewrite Hm, bool_decide_true by done. cbn [negb].
    destruct (parse_options_err _ _ Ho Hover) as [e ->]. by exists e. }
  split; [by exists e|]. intros srcport dstport len csum Hu Hp Hlen. exists e.
  assert (zlen header = 8) as H8.
  { unfold struct_unpack in Hu. change (struct_calcsize "!HHHH") with 8 in Hu. by destruct (Z.eqb_spec (zlen header) 8). }
  pose proof (zlen_nonneg raw). unfold udp_new. rewrite (proj2 (Z.ltb_ge _ _)) by (rewrite zlen_app; lia).
  rewrite slice_hit, slice_from_app by done. rewrite Hu. cbn [mbind res_bind]. rewrite (proj2 (Z.ltb_ge _ _)) by done.
  assert ((dstport =? SERVER_PORT) || (dstport =? CLIENT_PORT) = true) as ->
    by (destruct Hp as [->| ->]; rewrite Z.eqb_refl; [done|by rewrite orb_true_r]).
  unfold app_new. cbn [app_parsed app_codec lldp_codec]. by rewrite He.
Qed.

(** * Packing *)

Lemma app_pack_fails stack c raw : c <> C_lldp -> exists e, app_pack (AppCodec := app_codec stack) c raw = Err e.
Proof.
  intros Hc. destruct c; [done|..]; cbn [app_pack app_codec lldp_codec].
  - destruct (dhcp_parse raw) as [d|e]; [|by exists e]. cbn [mbind res_bind].
    unfold dhcp_hdr. rewrite bind_get. destruct (dh_options d) as [options|]; [|by eexists].
    destruct (dh_dirty d).
    + destruct (packOptions options) as [b|e]; [|by exists e].
      erewrite bind_ok by (erewrite bind_ok by reflexivity; reflexivity). destruct (dh_chaddr d); by eexists.
    + erewrite bind_ok by reflexivity. destruct (dh_chaddr d); by eexists.
  - destruct (dns_parse stack raw) as [d|e]; [|by exists e]. cbn [mbind res_bind]. unfold dns_pack.
    destruct (dns_hdr d) as [u|e]; by eexists.
Qed.

(** A packet that holds a DHCP or DNS message at some depth. *)
Fixpoint holds_app (p : payload) : Prop :=
  match p with
  | PPacket _ (LApp c _) _ => c <> C_lldp
  | PPacket _ _ next => holds_app next
  | _ => False
  end.
Lemma holds_app_pack stack p prev : holds_app p -> exists e, (pack (H := app_codec stack) prev p).1 = Err e.
Proof.
  revert prev; induction p as [| |b|parsed l next IH]; intros prev Hp; [done..|].
  destruct l as [| | | | | | | | | | |c raw]; cbn [holds_app] in Hp;
    lazymatch goal with
    | |- context [LApp] => idtac
    | _ => cbn [pack]; match goal with |- context [pack ?x next] => destruct (IH x Hp) as [err E]; destruct (pack x next) as [r next'] end;
           cbn [fst] in E; subst r; by exists err
    end.
  apply app_pack_fails. exact Hp.
Qed.

(** * The software switch *)

Section switch.
Context (stack : nat) {C : Type} (send : of_msg -> M (Switch C) unit).
#[local] Instance stack_codec : AppCodec := app_codec stack.

Lemma pack_at_app packet (p : ethernet) (s : Switch C) : sw_heap s !! packet = Some p -> holds_app (eth_next p) ->
  exists e p', pack_at packet s = (Err e, set_heap (<[packet := p']> (sw_heap s)) s).
Proof.
  intros Hheap Hp. unfold pack_at. erewrite bind_ok by (unfold deref; rewrite bind_get, Hheap; reflexivity).
  unfold ethernet_pack. destruct (holds_app_pack stack (eth_next p) None Hp) as [e E].
  change (pack (H := stack_codec)) with (pack (H := app_codec stack)).
  destruct (pack None (eth_next p)) as [r next]. cbn [fst] in E. subst r. exists e. eexists.
  unfold store. erewrite bind_ok by reflexivity. reflexivity.
Qed.

(** The software switch cannot handle an application message.  A frame that holds a parsed
    DHCP or DNS message - packing such a message always fails - raises in [process_packet],
    whatever the flow table says of it: it is not forwarded, no flow's counters are touched,
    nothing is sent to the controller. *)
Theorem app_message_stops_switch now packet in_port (p : ethernet) (s : Switch C) : sw_heap s !! packet = Some p -> holds_app (eth_next p) ->
  exists e s', process_packet send now packet in_port s = (Err e, s') /\
    sw_out s' = sw_out s /\ sw_table s' = sw_table s /\ sw_chan s' = sw_chan s /\ sw_ports s' = sw_ports s.
Proof.
  intros Hheap Hp. unfold process_packet.
  erewrite bind_ok by (unfold deref; rewrite bind_get, Hheap; reflexivity). rewrite bind_get.
  destruct (entry_for_packet p in_port (sw_table s)) as [entry|e] eqn:Ee.
  2: { exists e, s. split; [|done]. unfold mbind at 1, M_bind. unfold lift. done. }
  erewrite bind_ok by reflexivity. destruct entry as [te|].
  - destruct (pack_at_app packet p s Hheap Hp) as (e & p' & E).
    exists e, (set_heap (<[packet := p']> (sw_heap s)) s). split; [|done]. unfold mbind, M_bind. by rewrite E.
  - unfold buffer_packet. destruct (fill_slot (packet, in_port) 0 (sw_buffer s)) as [l id] eqn:El.
    erewrite bind_ok by (rewrite bind_get, El, bind_put; reflexivity).
    erewrite bind_ok by reflexivity. set (s1 := set_xid_count _ (set_buffer l s)).
    destruct (pack_at_app packet p s1 Hheap Hp) as (e & p' & E).
    exists e, (set_heap (<[packet := p']> (sw_heap s1)) s1). split; [|done].
    unfold send_packet_in. erewrite bind_ok by reflexivity. unfold mbind, M_bind. by rewrite E.
Qed.
End switch.

(** * The theorems on examples *)

(** A host name too long for one part, and a message type. *)
Definition ex_options : gmap Z bytes := {[12 := replicate 300 x61; 53 := [x01]]}.
Lemma options_roundtrip_witness : exists b, packOptions (OBytes <$> ex_options) = Ok b /\
  parseOptionSegment (b ++ [x00]) ∅ = Ok ex_options /\ parseOptions (b ++ [x00]) = Ok ex_options.
Proof.
  apply (options_roundtrip ex_options [x00]). intros k [v H]. unfold ex_options in H.
  apply lookup_insert_Some in H as [[<- _]|[_ H]]; [lia|]. apply lookup_singleton_Some in H as [<- _]. lia.
Defined.

Definition ex_overload : bytes :=
  [x01; x01; x00; x00] ++ replicate 232 x00 ++ MAGIC ++ [x34; x01; x01; xff].
Definition ex_udp_header : bytes := [x00; x44; x00; x43; x00; xfc; x00; x00].
Lemma overload_raises_witness : exists e, udp_new (H := app_codec 10) (ex_udp_header ++ ex_overload) = Err e.
Proof.
  destruct (overload_raises 10 ex_overload (<[52 := [x01]]> ∅) x00 ex_udp_header) as [_ H].
  - vm_compute. discriminate.
  - reflexivity.
  - vm_compute. discriminate.
  - vm_compute. discriminate.
  - vm_compute. reflexivity.
  - vm_compute. reflexivity.
  - eexists. reflexivity.
  - apply (H 68 67 252 0); [vm_compute; reflexivity|left; reflexivity|lia].
Defined.

Definition ex_dns_frame : ethernet :=
  Ethernet (HwEth (MkEth (replicate 6 x0a))) (HwEth (MkEth (replicate 6 x0b))) 0x0800
    (PPacket (Some true) (LIpv4 (ipv4_init 1)) (PPacket (Some true) (LUdp udp_init) (PPacket (Some true) (LApp C_dns ex_dns) PNone))) true.
Definition ex_dns_switch : Switch unit :=
  MkSwitch 1 100 1 (SwitchCapabilities_init 128) ∅ FlowTable_init [ex_dns_frame] [] 1 (PState 0 (fun _ => 0)) 0 [] tt.
Lemma app_message_stops_switch_witness : exists e s',
  process_packet (H := app_codec 10) (fun _ => mret tt) 5 0 1 ex_dns_switch = (Err e, s') /\ sw_out s' = [].
Proof.
  destruct (app_message_stops_switch 10 (fun _ => mret tt) 5 0 1 ex_dns_frame ex_dns_switch) as (e & s' & E & H & _).
  - reflexivity.
  - discriminate.
  - exists e, s'. split; [exact E|exact H].
Defined.
