(* ===== verification/PacketText.v ===== *)
(** The [__str__] methods of the packet classes ([lib/packet/]), as far as the program can tell
    them apart: whether making the text raises.  The text itself is only printed. *)
From S2P Require Import Prelude.
From S2P Require Import Addresses.
From S2P Require Import Wire.
From S2P Require Import OfMatch.
From S2P Require Import Packets.
From S2P Require Import PacketCodec.
From S2P Require Import Lldp.
From S2P Require Import Dhcp.

(** [str(EthAddr(a))] and [IPAddr(a)] in a format. *)
Definition hw_str (a : hwaddr) : res unit :=
  match a with HwEth _ => Ok tt | HwBytes b => '_ ← EthAddr_init (EBytes b); Ok tt end.
Definition nw_str (a : nwaddr) : res unit := '_ ← IPAddr_init (nw_arg_of a) false; Ok tt.

Definition arp_str (a : arp) : res unit :=
  '_ ← hw_str (arp_hwsrc a); '_ ← hw_str (arp_hwdst a); '_ ← nw_str (arp_protosrc a); nw_str (arp_protodst a).

(** [eap.type_names[self.type]]. *)
Definition eap_type_names : list Z := [1; 2; 3; 4; 5; 6; 254; 255].
Definition eap_str (e : eap) : res unit :=
  match eap_type e with
  | None => Ok tt
  | Some type => if bool_decide (type ∈ eap_type_names) then Ok tt else Err KeyError
  end.

(** The identifiers of LLDP: both classes compare with [chassis_id.SUB_MAC]. *)
Definition id_str (subtype : Z) (id : option bytes) : res unit :=
  match id with
  | None => Err TypeError
  | Some id =>
      if subtype =? SUB_MAC then
        '_ ← py_assert (zlen id =? 6); '_ ← EthAddr_init (EBytes id); Ok tt
      else Ok tt
  end.
Fixpoint caps_str (n : nat) (caps enabled_caps : list bool) : res unit :=
  match n with
  | O => Ok tt
  | S n =>
      match caps with
      | [] => Err IndexError
      | true :: caps => match enabled_caps with [] => Err IndexError | _ :: enabled_caps => caps_str n caps enabled_caps end
      | false :: caps => caps_str n caps (tail enabled_caps)
      end
  end.
Definition tlv_str (t : tlv) : res unit :=
  match t with
  | ChassisId _ subtype id | PortId subtype id => id_str subtype id
  | SystemCapabilities _ caps enabled_caps => caps_str 16 caps enabled_caps
  | _ => Ok tt
  end.
Fixpoint lldp_str (tlvs : list tlv) : res unit :=
  match tlvs with [] => Ok tt | t :: tlvs => '_ ← tlv_str t; lldp_str tlvs end.

(** ["{0:02x}".format(x)] of the characters of a string. *)
Definition chars_hex (s : bytes) : res unit := match s with [] => Ok tt | _ => Err ValueError end.
Definition dhcp_str (d : dhcp) : res unit :=
  '_ ← match dh_chaddr d with ChEth _ => Ok tt | ChNone => Err TypeError | ChBytes s => chars_hex s end;
  '_ ← chars_hex (dh_magic d);
  chars_hex (dh_raw_options d).

(** The application classes, from the bytes they were made of. *)
Definition app_str (c : app_class) (raw : bytes) : res unit :=
  match c with
  | C_lldp => l ← lldp_new raw; lldp_str (lldp_tlvs l)
  | C_dhcp => d ← dhcp_parse raw; dhcp_str d
  | C_dns => Ok tt
  end.

(** [str(p)] for what [next] holds.  Without the attribute the method that asks for it raises. *)
Fixpoint payload_str (p : payload) : res unit :=
  match p with
  | PMissing => Err AttributeError
  | PNone | PBytes _ => Ok tt
  | PPacket _ l next =>
      match l with
      | LVlan _ | LMpls _ | LIpv4 _ | LUdp _ | LTcp _ | LIcmp _ | LUnreach _ | LEapol _ => payload_str next
      | LArp a => arp_str a
      | LEcho _ => Ok tt
      | LEap e => '_ ← eap_str e; payload_str next
      | LApp c raw => app_str c raw
      end
  end.
Definition ethernet_str (packet : ethernet) : res unit :=
  '_ ← hw_str (eth_src packet);
  '_ ← hw_str (eth_dst packet);
  payload_str (eth_next packet).
