(* ===== verification/HostTracker.v ===== *)
(** [host_tracker/host_tracker.py]: which host is where, from the packets the controller sees
    and from ARP requests to hosts that have been quiet.  It keeps its tables beside those of
    discovery, which it asks whether a port leads to a switch.  [time.time()] is the clock of
    the world, in nanoseconds. *)
From S2P Require Import Prelude.
From S2P Require Import Addresses.
From S2P Require Import OfConst.
From S2P Require Import Wire.
From S2P Require Import OfBase.
From S2P Require Import OfMatch.
From S2P Require Import OfMessages.
From S2P Require Import Packets.
From S2P Require Import PacketCodec.
From S2P Require Import SoftSwitch.
From S2P Require Import Controller.
From S2P Require Import L2Learning.
From S2P Require Import Discovery.

(** [timeoutSec]. *)
Definition arpAware : Z := 60 * 2 * 10 ^ 9.
Definition arpSilent : Z := 60 * 20 * 10 ^ 9.
Definition entryMove : Z := 60 * 10 ^ 9.

(** [PingCtrl]; its own interval is never looked at. *)
Record PingCtrl := MkPing { pg_lastTimeSeen : Z; pg_pending : Z }.
Definition pingLim : Z := 3.
Definition ping_sent (now : Z) (p : PingCtrl) : PingCtrl := MkPing now (pg_pending p + 1).
Definition ping_failed (p : PingCtrl) : bool := pingLim <? pg_pending p.
Definition ping_received (p : PingCtrl) : PingCtrl := MkPing (pg_lastTimeSeen p) 0.

Record IpEntry := MkIpEntry {
  ie_addr : nwaddr; ie_lastTimeSeen : Z; ie_interval : Z; ie_hasARP : bool; ie_pings : PingCtrl
}.
Definition IpEntry_init (now : Z) (addr : nwaddr) (hasARP : bool) : IpEntry :=
  MkIpEntry addr now (if hasARP then arpAware else arpSilent) hasARP (MkPing now 0).

(** [MacEntry]; [me_inport] is the attribute that a move sets. *)
Record MacEntry := MkMacEntry {
  me_dpid : option Z; me_port : Z; me_macaddr : hwaddr; me_inport : option Z;
  me_lastTimeSeen : Z; me_interval : Z; me_ipAddrs : gmap (Z + Z) IpEntry
}.
Definition MacEntry_init (now : Z) (dpid : option Z) (port : Z) (macaddr : hwaddr) : MacEntry :=
  MkMacEntry dpid port macaddr None now arpAware ∅.

(** [Alive.expired]. *)
Definition expired (now lastTimeSeen interval : Z) : bool := lastTimeSeen + interval <? now.

Definition ie_refresh (now : Z) (e : IpEntry) : IpEntry := MkIpEntry (ie_addr e) now (ie_interval e) (ie_hasARP e) (ie_pings e).
Definition ie_set_pings (p : PingCtrl) (e : IpEntry) : IpEntry :=
  MkIpEntry (ie_addr e) (ie_lastTimeSeen e) (ie_interval e) (ie_hasARP e) p.
Definition me_refresh (now : Z) (e : MacEntry) : MacEntry :=
  MkMacEntry (me_dpid e) (me_port e) (me_macaddr e) (me_inport e) now (me_interval e) (me_ipAddrs e).
Definition me_move (dpid : option Z) (inport : Z) (e : MacEntry) : MacEntry :=
  MkMacEntry dpid (me_port e) (me_macaddr e) (Some inport) (me_lastTimeSeen e) (me_interval e) (me_ipAddrs e).
Definition me_set_ipAddrs (m : gmap (Z + Z) IpEntry) (e : MacEntry) : MacEntry :=
  MkMacEntry (me_dpid e) (me_port e) (me_macaddr e) (me_inport e) (me_lastTimeSeen e) (me_interval e) m.

(** [getSrcIPandARP]. *)
Definition getSrcIPandARP (packet : payload) : option nwaddr * bool :=
  match packet with
  | PPacket _ (LIpv4 h) _ => (Some (ip_srcip h), false)
  | PPacket _ (LArp r) _ =>
      if (arp_hwtype r =? 1) && (arp_prototype r =? 0x0800) && nw_nonzero (arp_protosrc r)
      then (Some (arp_protosrc r), true) else (None, false)
  | _ => (None, false)
  end.

(** [updateIPInfo]. *)
Definition updateIPInfo (now : Z) (ip : nwaddr) (hasARP : bool) (e : MacEntry) : MacEntry :=
  let entry := match me_ipAddrs e !! ip_key ip with
               | Some entry => ie_refresh now entry
               | None => IpEntry_init now ip hasARP
               end in
  let entry := if hasARP then ie_set_pings (ping_received (ie_pings entry)) entry else entry in
  me_set_ipAddrs (<[ip_key ip := entry]> (me_ipAddrs e)) e.

(** * The component *)

(** [entryByMAC], keyed by addresses, which hash and compare as their raw bytes. *)
Record Tracker := MkTracker { entryByMAC : gmap bytes MacEntry }.
Definition Tracker_init : Tracker := MkTracker ∅.

Section tracker.
Context `{AppCodec}.
Variable PIPE_BUF : Z.
Variable sock_send : Z -> nat -> bytes -> send_result.
Abbreviation World := (Controller.World (Disc Tracker)).
Implicit Type w : World.
Variable nested : source -> Z -> event -> M World unit.

Definition modify_entries (f : gmap bytes MacEntry -> gmap bytes MacEntry) : M World unit :=
  modify_disc (fun d => set_rest (MkTracker (f (entryByMAC (d_rest d)))) d).
Definition alter_entry (key : bytes) (f : MacEntry -> MacEntry) : M World unit := modify_entries (alter f key).
Definition get_entry (key : bytes) : M World MacEntry := fun w =>
  match entryByMAC (d_rest (w_app w)) !! key with Some e => (Ok e, w) | None => (Err KeyError, w) end.
Definition get_now : M World Z := w ← get; mret (w_now w).

(** [_handle_PacketIn].  Two places within a minute: the warning calls a number. *)
Definition tracker_PacketIn (con : Z) (ofp : ofp_packet_in) : M World unit :=
  c ← get_con con;
  let dpid := con_dpid c in
  let inport := pi_in_port ofp in
  packet ← zoom w_ps w_set_ps (ethernet_new (pi_data ofp));
  if negb (eth_parsed packet) then mret tt
  else if eth_type packet =? LLDP_TYPE then mret tt
  else
    d ← get_disc;
    if isSwitchOnlyPort (d_adjacency d) dpid inport then mret tt
    else
      now ← get_now;
      let key := hw_raw (eth_src packet) in
      '_ ← match entryByMAC (d_rest d) !! key with
           | None => modify_entries (insert key (MacEntry_init now dpid inport (eth_src packet)))
           | Some e =>
               if bool_decide (me_dpid e = dpid /\ me_port e = inport) then mret tt
               else if now - me_lastTimeSeen e <? entryMove then raise TypeError
               else alter_entry key (me_move dpid inport)
           end;
      '_ ← alter_entry key (me_refresh now);
      match getSrcIPandARP (eth_next packet) with
      | (Some ip, hasARP) => alter_entry key (updateIPInfo now ip hasARP)
      | (None, _) => mret tt
      end.

(** ** Timeouts *)

(** [sendPing], to the address of the entry under [k]. *)
Definition arp_ask (e : MacEntry) (ip : nwaddr) : arp :=
  Arp (arp_hwtype arp_init) (arp_prototype arp_init) (arp_hwsrc arp_init) (me_macaddr e) (arp_hwlen arp_init) 1
    (arp_protolen arp_init) (arp_protosrc arp_init) ip.
Definition arp_request (e : MacEntry) (ip : nwaddr) : ethernet :=
  Ethernet (me_macaddr e) ETHER_ANY 0x0806 (PPacket (Some false) (LArp (arp_ask e ip)) (PBytes [])) false.
Definition alter_ip (key : bytes) (k : Z + Z) (f : IpEntry -> IpEntry) : M World unit :=
  alter_entry key (fun e => me_set_ipAddrs (alter f k (me_ipAddrs e)) e).
Definition pings_sent (key : bytes) (k : Z + Z) : M World unit :=
  now ← get_now; alter_ip key k (fun i => ie_set_pings (ping_sent now (ie_pings i)) i).
Definition sendPing (key : bytes) (k : Z + Z) (ip : nwaddr) : M World unit :=
  e ← get_entry key;
  data ← lift (ethernet_pack (arp_request e ip)).1;
  r ← run_pack (ofp_packet_out_pack true)
        (PacketOut (po_hdr ofp_packet_out_init) (po_buffer_id ofp_packet_out_init) (po_in_port ofp_packet_out_init)
           [action_output (me_port e)] data);
  ok ← sendToDPID PIPE_BUF sock_send nested (me_dpid e) r.2;
  if ok : bool then
    e ← get_entry key;
    match me_ipAddrs e !! k with
    | Some _ => pings_sent key k
    | None => raise KeyError
    end
  else
    e ← get_entry key;
    match me_ipAddrs e !! k with
    | Some _ => alter_entry key (fun e => me_set_ipAddrs (delete k (me_ipAddrs e)) e)
    | None => raise KeyError
    end.

(** The addresses of an entry, as they were before the loop; whether one was pinged.  An entry
    that [sendPing] has removed is counted as pinged where nobody sees it. *)
Fixpoint check_ips (key : bytes) (ips : list ((Z + Z) * IpEntry)) (entryPinged : bool) : M World bool :=
  match ips with
  | [] => mret entryPinged
  | (k, i) :: ips =>
      now ← get_now;
      if expired now (ie_lastTimeSeen i) (ie_interval i) then
        if ping_failed (ie_pings i) then
          '_ ← alter_entry key (fun e => me_set_ipAddrs (delete k (me_ipAddrs e)) e);
          check_ips key ips entryPinged
        else
          '_ ← sendPing key k (ie_addr i);
          '_ ← pings_sent key k;
          check_ips key ips true
      else check_ips key ips entryPinged
  end.

(** The sanity check: each round takes away [ip_addr], the address the loop before ended
    with. *)
Fixpoint purge (n : nat) (ip_addr : option (Z + Z)) (key : bytes) : M World unit :=
  match n with
  | O => mret tt
  | S n =>
      match ip_addr with
      | None => raise UnboundLocalError
      | Some k =>
          e ← get_entry key;
          match me_ipAddrs e !! k with
          | None => raise KeyError
          | Some _ => '_ ← alter_entry key (fun e => me_set_ipAddrs (delete k (me_ipAddrs e)) e); purge n ip_addr key
          end
      end
  end.

Definition check_entry (key : bytes) : M World unit :=
  e ← get_entry key;
  let ips := map_to_list (me_ipAddrs e) in
  entryPinged ← check_ips key ips false;
  e ← get_entry key;
  now ← get_now;
  if expired now (me_lastTimeSeen e) (me_interval e) && negb entryPinged then
    '_ ← purge (size (me_ipAddrs e)) (last ips.*1) key;
    modify_entries (delete (hw_raw (me_macaddr e)))
  else mret tt.

(** [_check_timeouts]. *)
Fixpoint check_entries (keys : list bytes) : M World unit :=
  match keys with
  | [] => mret tt
  | key :: keys => '_ ← check_entry key; check_entries keys
  end.
Definition check_timeouts : M World unit := d ← get_disc; check_entries (map_to_list (entryByMAC (d_rest d))).*1.

Definition tracker_listener (src : source) (con : Z) (e : event) : M World unit :=
  match src, e with Nexus, EvPacketIn ofp => tracker_PacketIn con ofp | _, _ => mret tt end.
End tracker.
