(* ===== verification/HostTrackerTheory.v ===== *)
(** The host tracker: what an entry says of a host's place, how pings and timeouts treat the
    addresses of a host, and when the check of the timeouts raises. *)
From S2P Require Import Prelude.
From S2P Require Import Steps.
From S2P Require Import PyStruct.
From S2P Require Import Addresses.
From S2P Require Import OfConst.
From S2P Require Import Wire.
From S2P Require Import OfBase.
From S2P Require Import OfMatch.
From S2P Require Import OfActions.
From S2P Require Import OfMessages.
From S2P Require Import Packets.
From S2P Require Import PacketCodec.
From S2P Require Import PacketRoundtrip.
From S2P Require Import Dhcp.
From S2P Require Import Connection.
From S2P Require Import SoftSwitch.
From S2P Require Import Controller.
From S2P Require Import ControllerTheory.
From S2P Require Import L2Learning.
From S2P Require Import Discovery.
From S2P Require Import DiscoveryTheory.
From S2P Require Import HostTracker.

Section tracker.
Context `{AppCodec} (PIPE_BUF : Z) (sock_send : Z -> nat -> bytes -> send_result).
Abbreviation World := (Controller.World (Disc Tracker)).
Context (nested : source -> Z -> event -> M World unit).
Implicit Type w : World.

Definition entries w : gmap bytes MacEntry := entryByMAC (d_rest (w_app w)).

(** * Places *)

(** Every entry of [w] is still there, of the same host and at the same port. *)
Definition stays : relation (gmap bytes MacEntry) := fun m m' => forall key e, m !! key = Some e ->
  exists e', m' !! key = Some e' /\ me_port e' = me_port e /\ me_macaddr e' = me_macaddr e /\ me_interval e' = me_interval e.
(** Every entry of [w'] was there before, of the same host and at the same port. *)
Definition shrinks : relation (gmap bytes MacEntry) := fun m m' => stays m' m.

#[local] Instance stays_preorder : PreOrder stays.
Proof.
  split; [intros m key e He; by exists e|]. intros m1 m2 m3 H1 H2 key e He.
  destruct (H1 key e He) as (e2 & He2 & -> %eq_sym & -> %eq_sym & -> %eq_sym). by apply H2.
Qed.
#[local] Instance shrinks_preorder : PreOrder shrinks.
Proof. unfold shrinks. split; [intros m; reflexivity|intros m1 m2 m3 ? ?; by etrans]. Qed.

Lemma stays_alter key f m : (forall e, me_port (f e) = me_port e /\ me_macaddr (f e) = me_macaddr e /\ me_interval (f e) = me_interval e) ->
  stays m (alter f key m) /\ shrinks m (alter f key m).
Proof.
  intros Hf. split; intros k e He.
  - destruct (decide (k = key)) as [->|Hne]; [|exists e; by rewrite lookup_alter_ne].
    exists (f e). rewrite lookup_alter_eq, He. split; [done|]. apply Hf.
  - destruct (decide (k = key)) as [->|Hne]; [|exists e; by rewrite lookup_alter_ne in He].
    rewrite lookup_alter_eq in He. destruct (m !! key) as [e0|]; [|done]. injection He as <-. exists e0. split; [done|].
    destruct (Hf e0) as (-> & -> & ->). done.
Qed.

(** What a packet does to the entries. *)
Definition entries_kept (R : relation (gmap bytes MacEntry)) : relation World :=
  app_kept (fun d d' : Disc Tracker => R (entryByMAC (d_rest d)) (entryByMAC (d_rest d'))).
#[local] Instance entries_kept_preorder R `{!PreOrder R} : PreOrder (entries_kept R).
Proof. apply app_kept_preorder. split; [intros x; reflexivity|intros x y z ? ?; by etrans]. Qed.

Lemma alter_entry_kept key f w : (forall e, me_port (f e) = me_port e /\ me_macaddr (f e) = me_macaddr e /\ me_interval (f e) = me_interval e) ->
  keeps_at (entries_kept stays) w (alter_entry key f) /\ keeps_at (entries_kept shrinks) w (alter_entry key f).
Proof. intros Hf. by apply stays_alter. Qed.

Section packet_in.
Context (R : relation (gmap bytes MacEntry)) `{!PreOrder R}.
Hypothesis Hinit : forall m now dpid port a, m !! hw_raw a = None -> R m (<[hw_raw a := MacEntry_init now dpid port a]> m).
Hypothesis Halter : forall m key f,
  (forall e, me_port (f e) = me_port e /\ me_macaddr (f e) = me_macaddr e /\ me_interval (f e) = me_interval e) -> R m (alter f key m).

Lemma packet_in_kept con ofp w : keeps_at (entries_kept R) w (tracker_PacketIn con ofp).
Proof.
  unfold tracker_PacketIn. apply (keeps_bind (entries_kept R)); [by apply (keeps_pure (entries_kept R))|].
  intros c w1 [= <- <-] _. apply (keeps_bind (entries_kept R)).
  { unfold keeps_at, zoom. destruct (ethernet_new (pi_data ofp) (w_ps w)). change (entries_kept R w w). reflexivity. }
  intros packet w1 _ _. destruct (negb (eth_parsed packet)); [by apply (keeps_pure (entries_kept R))|].
  destruct (eth_type packet =? LLDP_TYPE); [by apply (keeps_pure (entries_kept R))|].
  apply (keeps_bind (entries_kept R)); [by apply (keeps_pure (entries_kept R))|]. intros d w2 [= <- <-] _.
  destruct (isSwitchOnlyPort _ _ _); [by apply (keeps_pure (entries_kept R))|].
  apply (keeps_bind (entries_kept R)); [by apply (keeps_pure (entries_kept R))|]. intros now w2 [= <- <-] _.
  assert (forall key f w', (forall e, me_port (f e) = me_port e /\ me_macaddr (f e) = me_macaddr e /\ me_interval (f e) = me_interval e) ->
    keeps_at (entries_kept R) w' (alter_entry key f)) as Hf by (intros; by apply Halter).
  apply (keeps_bind (entries_kept R)).
  - destruct (entryByMAC (d_rest (w_app w1)) !! hw_raw (eth_src packet)) as [e|] eqn:Ee; [|by apply Hinit].
    case_bool_decide; [by apply (keeps_pure (entries_kept R))|].
    destruct (_ <? entryMove); [by apply (keeps_pure (entries_kept R))|]. by apply Hf.
  - intros _ w2 _ _. apply (keeps_bind (entries_kept R)); [by apply Hf|]. intros _ w3 _ _.
    destruct (getSrcIPandARP (eth_next packet)) as [[ip|] hasARP]; [by apply Hf|by apply (keeps_pure (entries_kept R))].
Qed.
End packet_in.

Definition entries_wf (m : gmap bytes MacEntry) : Prop :=
  forall key e, m !! key = Some e -> hw_raw (me_macaddr e) = key /\ me_interval e = arpAware.
Lemma shrinks_wf m m' : shrinks m m' -> entries_wf m -> entries_wf m'.
Proof. intros Hsh Hwf key e' He'. destruct (Hsh key e' He') as (e & He & _ & <- & <-). by apply Hwf. Qed.
Lemma packet_in_wf con ofp w : entries_wf (entries w) -> entries_wf (entries (tracker_PacketIn con ofp w).2).
Proof.
  assert (PreOrder (fun m m' => entries_wf m -> entries_wf m')) as Hpre
    by (constructor; [by intros m|by intros m1 m2 m3 H1 H2 Hm; apply H2, H1]).
  refine (packet_in_kept (fun m m' => entries_wf m -> entries_wf m') _ _ con ofp w).
  - intros m now dpid port a _ Hm key e [[<- <-]|[_ He]]%lookup_insert_Some; [done|by apply Hm].
  - intros m key f Hf. by apply shrinks_wf, stays_alter.
Qed.
Lemma packet_in_stays con ofp w : stays (entries w) (entries (tracker_PacketIn con ofp w).2).
Proof.
  refine (packet_in_kept stays _ _ con ofp w).
  - intros m now dpid port a Hno k e He. exists e. split; [|done]. rewrite lookup_insert_ne; [done|]. intros <-. congruence.
  - intros m key f Hf. by apply stays_alter.
Qed.

(** The check of the timeouts only takes entries away. *)
Hypothesis Hnested : forall src id e w, d_rest (w_app (nested src id e w).2) = d_rest (w_app w).

Lemma sendToDPID_rest dpid b w : d_rest (w_app (sendToDPID PIPE_BUF sock_send nested dpid b w).2) = d_rest (w_app w).
Proof.
  assert (PreOrder (fun d d' : Disc Tracker => d_rest d' = d_rest d)) as Hpre
    by (constructor; [intros x; reflexivity|intros x y z ? ?; by etrans]).
  refine (sendToDPID_kept (fun d d' : Disc Tracker => d_rest d' = d_rest d) PIPE_BUF sock_send nested _ dpid b w).
  intros. apply Hnested.
Qed.

Ltac shrink_step :=
  match goal with
  | |- keeps_at _ _ (mbind _ _) => apply (keeps_bind (entries_kept shrinks)); [|intros ? ? ? _]
  | |- keeps_at _ _ (alter_entry _ _) => by apply alter_entry_kept
  | |- keeps_at _ _ (alter_ip _ _ _) => by apply alter_entry_kept
  | |- keeps_at _ _ (if ?b then _ else _) => destruct b
  | |- keeps_at _ _ (match ?x with _ => _ end) => destruct x
  | |- keeps_at _ _ _ => by apply (keeps_pure (entries_kept shrinks))
  | |- keeps_at _ _ _ => solve [eauto with keeps]
  end.
Lemma get_entry_shrinks key w : keeps_at (entries_kept shrinks) w (get_entry key).
Proof. apply (keeps_pure (entries_kept shrinks)). unfold get_entry. by destruct (_ !! key). Qed.
#[local] Hint Resolve get_entry_shrinks : keeps.
Lemma run_pack_shrinks {T} (pack : T -> M Z (T * option bytes)) m w : keeps_at (entries_kept shrinks) w (run_pack pack m).
Proof. apply run_pack_kept. constructor; [intros x; reflexivity|intros x y z ? ?; by etrans]. Qed.
Lemma sendToDPID_shrinks dpid b w : keeps_at (entries_kept shrinks) w (sendToDPID PIPE_BUF sock_send nested dpid b).
Proof. unfold keeps_at, entries_kept, app_kept. rewrite sendToDPID_rest. reflexivity. Qed.
#[local] Hint Resolve run_pack_shrinks sendToDPID_shrinks : keeps.
Lemma pings_sent_shrinks key k w : keeps_at (entries_kept shrinks) w (pings_sent key k).
Proof. unfold pings_sent. repeat shrink_step. Qed.
#[local] Hint Resolve pings_sent_shrinks : keeps.
Lemma sendPing_shrinks key k ip w : keeps_at (entries_kept shrinks) w (sendPing PIPE_BUF sock_send nested key k ip).
Proof. unfold sendPing. repeat shrink_step. Qed.
#[local] Hint Resolve sendPing_shrinks : keeps.
Lemma check_ips_shrinks key ips b w : keeps_at (entries_kept shrinks) w (check_ips PIPE_BUF sock_send nested key ips b).
Proof. revert b w; induction ips as [|[k i] ips IH]; intros b w; cbn [check_ips]; repeat shrink_step; apply IH. Qed.
#[local] Hint Resolve check_ips_shrinks : keeps.
Lemma purge_shrinks n k key w : keeps_at (entries_kept shrinks) w (purge n k key).
Proof. revert w; induction n as [|n IH]; intros w; cbn [purge]; repeat shrink_step; apply IH. Qed.
#[local] Hint Resolve purge_shrinks : keeps.
Lemma modify_delete_shrinks key w : keeps_at (entries_kept shrinks) w (modify_entries (delete key)).
Proof. intros k e He. exists e. split; [|done]. cbn in He. by apply lookup_delete_Some in He as [_ ?]. Qed.
#[local] Hint Resolve modify_delete_shrinks : keeps.
Lemma check_entry_shrinks key w : keeps_at (entries_kept shrinks) w (check_entry PIPE_BUF sock_send nested key).
Proof. unfold check_entry. repeat shrink_step. Qed.
#[local] Hint Resolve check_entry_shrinks : keeps.
Lemma check_entries_shrinks keys w : keeps_at (entries_kept shrinks) w (check_entries PIPE_BUF sock_send nested keys).
Proof. revert w; induction keys as [|key keys IH]; intros w; cbn [check_entries]; repeat shrink_step; apply IH. Qed.
Lemma check_timeouts_shrinks w : keeps_at (entries_kept shrinks) w (check_timeouts PIPE_BUF sock_send nested).
Proof.
  unfold check_timeouts. apply (keeps_bind (entries_kept shrinks)); [by apply (keeps_pure (entries_kept shrinks))|].
  intros d w' _ _. apply check_entries_shrinks.
Qed.

(** What happens to the entries: packets, checks of the timeouts, and everything else. *)
Inductive tracker_step : relation World :=
  | step_packet con ofp w : tracker_step w (tracker_PacketIn con ofp w).2
  | step_timeouts w : tracker_step w (check_timeouts PIPE_BUF sock_send nested w).2
  | step_other w w' : d_rest (w_app w') = d_rest (w_app w) -> tracker_step w w'.

Lemma tracker_step_wf w w' : tracker_step w w' -> entries_wf (entries w) -> entries_wf (entries w').
Proof.
  intros [con ofp w1|w1|w1 w2 E] Hw; [by apply packet_in_wf| |].
  { refine (shrinks_wf _ _ (check_timeouts_shrinks w1) Hw). }
  unfold entries. by rewrite E.
Qed.
Lemma tracker_step_stays w w' key e e' : tracker_step w w' -> entries w !! key = Some e -> entries w' !! key = Some e' ->
  me_port e' = me_port e.
Proof.
  intros Hstep He He'. destruct Hstep as [con ofp w1|w1|w1 w2 E].
  - destruct (packet_in_stays con ofp w1 key e He) as (e2 & He2 & Hp & _). congruence.
  - destruct (check_timeouts_shrinks w1 key e' He') as (e2 & He2 & Hp & _). unfold entries in He. congruence.
  - unfold entries in *. congruence.
Qed.
End tracker.

(** * Pings *)

(** What the check makes of an address: a ping is counted by [sendPing] and again by its
    caller. *)
Definition aged (now : Z) (i : IpEntry) : option IpEntry :=
  if expired now (ie_lastTimeSeen i) (ie_interval i) then
    if ping_failed (ie_pings i) then None
    else Some (ie_set_pings (MkPing now (pg_pending (ie_pings i) + 2)) i)
  else Some i.
(** The addresses it pings. *)
Definition to_ping (now : Z) (ki : (Z + Z) * IpEntry) : bool :=
  expired now (ie_lastTimeSeen ki.2) (ie_interval ki.2) && negb (ping_failed (ie_pings ki.2)).

(** A packet out with an ARP request from nobody to [ip], for the host and port of the entry. *)
Definition is_ping `{AppCodec} (e : MacEntry) (ip : nwaddr) (b : bytes) : Prop :=
  exists h data,
    (forall st, ethernet_new data st =
      (Ok (Ethernet (me_macaddr e) ETHER_ANY 0x0806 (node (LArp (arp_ask e ip)) (PBytes [])) true), st)) /\
    forall y rest, ofp_packet_out_unpack y (b ++ rest) =
      Ok (PacketOut h (-1) OFPP_NONE [action_settle (action_output (me_port e))] data, rest).

Section pings.
Context `{AppCodec} (PIPE_BUF : Z) (sock_send : Z -> nat -> bytes -> send_result).
Abbreviation World := (Controller.World (Disc Tracker)).
Context (nested : source -> Z -> event -> M World unit).
Context (id : Z) (dpid : option Z) (n : gmap (option Z) Z) (r : list (source * Z * event)) (d : Disc Tracker) (w : World).
Hypothesis Ht : takes_all sock_send id.
Hypothesis Hs : w_sending w = false.
Hypothesis Hn : n !! dpid = Some id.

(** The world with the connection, the xid generator and the entries as given. *)
Definition tracked (c : Con) (x : Z) (m : gmap bytes MacEntry) : World := after id c n x r (set_rest (MkTracker m) d) w.

Lemma tracked_alter key f c x m : alter_entry key f (tracked c x m) = (Ok tt, tracked c x (alter f key m)).
Proof. done. Qed.
Lemma tracked_get key e c x m : m !! key = Some e -> get_entry key (tracked c x m) = (Ok e, tracked c x m).
Proof. intros E. unfold get_entry, tracked. cbn. by rewrite E. Qed.

Lemma arp_ask_ok e ip : hw_wf (me_macaddr e) -> addr_ok ip -> arp_ok (arp_ask e ip).
Proof.
  intros Hm Hi. split; [done|]. split; [done|]. split; [done|]. split; [done|]. split; [done|].
  split; [split; [done|vm_compute; discriminate]|]. split; [done|]. split; [exact (ip_of_int_wf 0)|done].
Qed.

Definition ping_counted (now : Z) (k : Z + Z) (times : Z) (e : MacEntry) : MacEntry :=
  me_set_ipAddrs (alter (fun i => ie_set_pings (MkPing now (pg_pending (ie_pings i) + times)) i) k (me_ipAddrs e)) e.

Lemma sendToDPID_tracked b c x m : con_disconnected c = false ->
  sendToDPID PIPE_BUF sock_send nested dpid b (tracked c x m) = (Ok true, tracked (sent b c) x m).
Proof.
  intros Hc. unfold sendToDPID. rewrite bind_get. cbn [w_nexus tracked after w_set_app w_set_raised w_set_xids w_set_nexus].
  rewrite Hn. unfold con_send_bytes. erewrite bind_ok; [reflexivity|]. erewrite bind_ok by reflexivity.
  unfold tracked at 1. rewrite the_con_after, Hc. by apply send_raw_after.
Qed.

Lemma sendPing_ok key e k i c x m : m !! key = Some e -> me_ipAddrs e !! k = Some i -> me_dpid e = dpid ->
  hw_wf (me_macaddr e) -> addr_ok (ie_addr i) -> 0 <= me_port e <= OFPP_MAX ->
  con_disconnected c = false -> 0 <= x < 2 ^ 31 -> exists b x',
  sendPing PIPE_BUF sock_send nested key k (ie_addr i) (tracked c x m) =
    (Ok tt, tracked (sent b c) x' (alter (ping_counted (w_now w) k 1) key m)) /\ 0 <= x' < 2 ^ 31 /\
  is_ping e (ie_addr i) b.
Proof.
  intros Ee Ei Hd Hm Hi Hp Hc Hx. destruct (arp_frame_survives (me_macaddr e) ETHER_ANY 0x0806 (arp_ask e (ie_addr i)) [] (Some false) false)
    as (data & Ed & Ld & Hparse); [done|split; [done|vm_compute; discriminate]|by left|by apply arp_ask_ok|].
  change (zlen []) with 0 in Ld.
  pose proof (msg_roundtrip (discovery_packet_out (me_port e) data) x
    (discovery_packet_out_wf (me_port e) data Hp ltac:(lia)) Hx) as HR.
  destruct (hdr_settle _ _) as [h x'] eqn:Eh. destruct HR as (s & Ep & _ & U). exists s, x'.
  split; [|split; [unfold hdr_settle in Eh; cbn in Eh; injection Eh as _ <-; by apply Z.mod_pos_bound|by exists h, data]].
  unfold sendPing. erewrite bind_ok by by apply tracked_get. unfold lift at 1. erewrite bind_ok by (unfold arp_request; rewrite Ed; reflexivity).
  unfold tracked. erewrite bind_ok by (apply (run_pack_after (ofp_packet_out_pack true)); exact Ep). cbn [snd].
  erewrite bind_ok by (rewrite Hd; by apply (sendToDPID_tracked s c x' m)). cbv iota.
  erewrite bind_ok by by apply tracked_get. rewrite Ei. done.
Qed.

(** What a step of the loop does to the entries, [o] being what becomes of the address. *)
Definition with_ip (key : bytes) (k : Z + Z) (o : option IpEntry) (e : MacEntry) (m : gmap bytes MacEntry) : gmap bytes MacEntry :=
  <[key := me_set_ipAddrs (partial_alter (fun _ => o) k (me_ipAddrs e)) e]> m.

Lemma alter_with_ip key k i f e m : m !! key = Some e -> me_ipAddrs e !! k = Some i ->
  alter (fun e => me_set_ipAddrs (alter f k (me_ipAddrs e)) e) key m = with_ip key k (Some (f i)) e m.
Proof.
  intros Ee Ei. apply map_eq. intros key'. unfold with_ip. destruct (decide (key' = key)) as [->|Hne].
  - rewrite lookup_alter_eq, lookup_insert_eq, Ee. cbn [fmap option_fmap option_map]. do 2 f_equal. apply map_eq. intros k'.
    destruct (decide (k' = k)) as [->|Hk]; [by rewrite lookup_alter_eq, lookup_partial_alter_eq, Ei|].
    by rewrite lookup_alter_ne, lookup_partial_alter_ne by done.
  - by rewrite lookup_alter_ne, lookup_insert_ne by done.
Qed.
Lemma delete_with_ip key k e m : m !! key = Some e ->
  alter (fun e => me_set_ipAddrs (delete k (me_ipAddrs e)) e) key m = with_ip key k None e m.
Proof.
  intros Ee. apply map_eq. intros key'. unfold with_ip. destruct (decide (key' = key)) as [->|Hne].
  - by rewrite lookup_alter_eq, lookup_insert_eq, Ee.
  - by rewrite lookup_alter_ne, lookup_insert_ne by done.
Qed.

Lemma with_ip_again key k i f e m :
  alter (fun e => me_set_ipAddrs (alter f k (me_ipAddrs e)) e) key (with_ip key k (Some i) e m) = with_ip key k (Some (f i)) e m.
Proof.
  unfold with_ip at 1. erewrite (alter_with_ip key k i); [|apply lookup_insert_eq|apply lookup_partial_alter_eq].
  unfold with_ip. rewrite insert_insert_eq. f_equal. unfold me_set_ipAddrs. cbn. f_equal. apply map_eq. intros k'.
  destruct (decide (k' = k)) as [->|Hk]; [by rewrite !lookup_partial_alter_eq|by rewrite !lookup_partial_alter_ne].
Qed.

(** A step of the loop. *)
Lemma check_ip_ok key e k i ips b c x m : m !! key = Some e -> me_ipAddrs e !! k = Some i -> me_dpid e = dpid ->
  hw_wf (me_macaddr e) -> addr_ok (ie_addr i) -> 0 <= me_port e <= OFPP_MAX ->
  con_disconnected c = false -> 0 <= x < 2 ^ 31 -> exists bs c' x',
  check_ips PIPE_BUF sock_send nested key ((k, i) :: ips) b (tracked c x m) =
    check_ips PIPE_BUF sock_send nested key ips (b || to_ping (w_now w) (k, i))
      (tracked c' x' (with_ip key k (aged (w_now w) i) e m)) /\ 0 <= x' < 2 ^ 31 /\
  con_disconnected c' = false /\ con_out c' = con_out c ++ concat bs /\
  Forall2 (fun ki s => is_ping e (ie_addr ki.2) s) (List.filter (to_ping (w_now w)) [(k, i)]) bs.
Proof.
  intros Ee Ei Hd Hm Hi Hp Hc Hx. cbn [check_ips]. erewrite bind_ok by reflexivity.
  change (w_now (tracked c x m)) with (w_now w). unfold to_ping, aged. cbn [List.filter snd].
  assert (with_ip key k (Some i) e m = m) as Hid.
  { unfold with_ip. rewrite insert_id; [done|]. rewrite Ee. f_equal. destruct e. cbn in *. f_equal.
    rewrite <- Ei. unfold me_set_ipAddrs. cbn. by rewrite partial_alter_self. }
  destruct (expired _ _ _); cbn [andb negb].
  - destruct (ping_failed (ie_pings i)); cbn [negb].
    + exists [], c, x. rewrite orb_false_r. split; [|split; [done|split; [done|split; [by rewrite app_nil_r|by constructor]]]].
      erewrite bind_ok by apply tracked_alter. by rewrite (delete_with_ip key k e m Ee).
    + destruct (sendPing_ok key e k i c x m Ee Ei Hd Hm Hi Hp Hc Hx) as (s & x' & Es & Hx' & Hping).
      exists [s], (sent s c), x'. rewrite orb_true_r. split; [|split; [done|split; [done|split; [by rewrite concat_cons, app_nil_r|]]]].
      * erewrite bind_ok by exact Es. erewrite bind_ok by (unfold pings_sent; erewrite bind_ok by reflexivity; apply tracked_alter).
        f_equal. f_equal. unfold ping_counted. rewrite (alter_with_ip key k i _ e m Ee Ei).
        rewrite with_ip_again. unfold ie_set_pings, ping_sent. cbn. by rewrite <- Z.add_assoc.
      * by apply Forall2_cons.
  - exists [], c, x. rewrite orb_false_r, Hid. split; [done|split; [done|split; [done|split; [by rewrite app_nil_r|by constructor]]]].
Qed.

Definition pings_for (e : MacEntry) (ips : list ((Z + Z) * IpEntry)) (bs : list bytes) : Prop :=
  Forall2 (fun ki s => is_ping e (ie_addr ki.2) s) (List.filter (to_ping (w_now w)) ips) bs.

(** An entry whose pings can be made. *)
Definition pingable (e : MacEntry) : Prop := me_dpid e = dpid /\ hw_wf (me_macaddr e) /\ 0 <= me_port e <= OFPP_MAX /\
  forall k i, me_ipAddrs e !! k = Some i -> addr_ok (ie_addr i).

Lemma check_ips_ok key ips e b c x m : m !! key = Some e -> me_dpid e = dpid -> hw_wf (me_macaddr e) ->
  0 <= me_port e <= OFPP_MAX -> NoDup ips.*1 ->
  (forall k i, (k, i) ∈ ips -> me_ipAddrs e !! k = Some i /\ addr_ok (ie_addr i)) ->
  con_disconnected c = false -> 0 <= x < 2 ^ 31 -> exists M' bs c' x',
  check_ips PIPE_BUF sock_send nested key ips b (tracked c x m) =
    (Ok (b || existsb (to_ping (w_now w)) ips), tracked c' x' (<[key := me_set_ipAddrs M' e]> m)) /\
  0 <= x' < 2 ^ 31 /\ con_disconnected c' = false /\ con_out c' = con_out c ++ concat bs /\ pings_for e ips bs /\
  (forall k i, (k, i) ∈ ips -> M' !! k = aged (w_now w) i) /\ (forall k, k ∉ ips.*1 -> M' !! k = me_ipAddrs e !! k).
Proof.
  unfold pings_for.
  revert e b c x m; induction ips as [|[k i] ips IH]; intros e b c x m Ee Hd Hm Hp Hnd Hin Hc Hx.
  { exists (me_ipAddrs e), [], c, x. cbn [check_ips existsb]. rewrite orb_false_r, app_nil_r.
    split; [|split; [done|split; [done|split; [done|split; [by constructor|split; [set_solver|done]]]]]].
    by rewrite insert_id by (rewrite Ee; by destruct e). }
  destruct (Hin k i) as [Ei Hi]; [set_solver|]. rewrite fmap_cons in Hnd. apply NoDup_cons in Hnd as [Hk Hnd]. cbn [fst] in Hk.
  destruct (check_ip_ok key e k i ips b c x m Ee Ei Hd Hm Hi Hp Hc Hx) as (bs1 & c1 & x1 & -> & Hx1 & Hc1 & Ho1 & Hb1).
  set (M1 := partial_alter (fun _ => aged (w_now w) i) k (me_ipAddrs e)).
  destruct (IH (me_set_ipAddrs M1 e) (b || to_ping (w_now w) (k, i)) c1 x1 (with_ip key k (aged (w_now w) i) e m))
    as (M' & bs & c' & x' & -> & Hx' & Hc' & Ho' & Hb' & HM & HM'); [apply lookup_insert_eq|done..| |done|done|].
  { intros k' i' Hin'. destruct (Hin k' i') as [E' ?]; [set_solver|]. split; [|done].
    assert (k' <> k) by (intros ->; apply Hk; apply list_elem_of_fmap; by exists (k, i')).
    cbn. unfold M1. by rewrite lookup_partial_alter_ne. }
  exists M', (bs1 ++ bs), c', x'. cbn [existsb]. rewrite orb_assoc.
  split; [unfold with_ip; by rewrite insert_insert_eq|]. split; [done|]. split; [done|].
  split; [by rewrite Ho', Ho1, concat_app, app_assoc|].
  split; [change (List.filter ?f ((k, i) :: ips)) with (List.filter f ([(k, i)] ++ ips)); rewrite List.filter_app; by apply Forall2_app|].
  split.
  - intros k' i' [[= -> ->]|Hin']%elem_of_cons; [|by apply HM]. rewrite (HM' k Hk). cbn. apply lookup_partial_alter_eq.
  - intros k'. rewrite fmap_cons. intros [Hne Hk']%not_elem_of_cons. rewrite HM' by done. cbn. by apply lookup_partial_alter_ne.
Qed.
End pings.

(** * The check of the timeouts *)

Section check.
Context `{AppCodec} (PIPE_BUF : Z) (sock_send : Z -> nat -> bytes -> send_result).
Abbreviation World := (Controller.World (Disc Tracker)).
Context (nested : source -> Z -> event -> M World unit).
Implicit Type w : World.

Definition with_entries (m : gmap bytes MacEntry) w : World := w_set_app (set_rest (MkTracker m) (w_app w)) w.

(** How a quiet host is asked.  One check of an entry that has an address to ask for, or is
    itself not due: every address that is due gets one ARP request, out of the entry's port,
    and has two more pings counted; an address with more than [pingLim] pings counted goes; the
    others stay as they are.  So an address that is never heard of again is asked for twice -
    not the four times that [pending > pingLim] suggests - and goes at the third check. *)
Theorem pings_count_twice id c key e w : takes_all sock_send id -> w_sending w = false -> 0 <= w_xids w < 2 ^ 31 ->
  w_cons w !! id = Some c -> con_disconnected c = false -> w_nexus w !! me_dpid e = Some id ->
  entries w !! key = Some e -> pingable (me_dpid e) e ->
  expired (w_now w) (me_lastTimeSeen e) (me_interval e) = false \/
    (exists k i, me_ipAddrs e !! k = Some i /\ to_ping (w_now w) (k, i) = true) ->
  (exists bs c' x', check_entry PIPE_BUF sock_send nested key w =
     (Ok tt, after id c' (w_nexus w) x' (w_raised w)
        (set_rest (MkTracker (<[key := me_set_ipAddrs (omap (M:=gmap (Z + Z)) (aged (w_now w)) (me_ipAddrs e)) e]> (entries w))) (w_app w)) w) /\
     con_out c' = con_out c ++ concat bs /\ pings_for w e (map_to_list (me_ipAddrs e)) bs) /\
  (forall i t1 t2 t3, pg_pending (ie_pings i) = 0 -> ie_lastTimeSeen i + ie_interval i < t1 < t2 -> t2 < t3 ->
     exists i1 i2, aged t1 i = Some i1 /\ aged t2 i1 = Some i2 /\ aged t3 i2 = None).
Proof.
  intros Ht Hs Hx Hcon Hc Hn Ee (Hd & Hm & Hp & Ha) Hdue. split.
  - set (ips := map_to_list (me_ipAddrs e)).
    destruct (check_ips_ok PIPE_BUF sock_send nested id (me_dpid e) (w_nexus w) (w_raised w) (w_app w) w Ht Hs Hn key ips e false
      c (w_xids w) (entries w) Ee Hd Hm Hp) as (M' & bs & c' & x' & E & _ & _ & Ho & Hb & HM & HM'); [|  |done|done|].
    { apply NoDup_fst_map_to_list. }
    { intros k i Hk%elem_of_map_to_list. split; [done|]. by eapply Ha. }
    assert (tracked id (w_nexus w) (w_raised w) (w_app w) w c (w_xids w) (entries w) = w) as Hw.
    { unfold tracked. rewrite (after_self id c w Hcon) at 7. f_equal. unfold entries. destruct (w_app w) as [? ? ? ? ? ? [?]]; done. }
    rewrite Hw in E. exists bs, c', x'. split; [|done].
    assert (M' = omap (M:=gmap (Z + Z)) (aged (w_now w)) (me_ipAddrs e)) as ->.
    { apply map_eq. intros k. rewrite lookup_omap. destruct (me_ipAddrs e !! k) as [i|] eqn:Ei.
      - apply HM, elem_of_map_to_list, Ei.
      - rewrite HM'; [done|]. intros ([k' i] & -> & Hk%elem_of_map_to_list)%list_elem_of_fmap. cbn in Ei. congruence. }
    unfold check_entry. erewrite bind_ok by (unfold get_entry; fold (entries w); rewrite Ee; reflexivity).
    erewrite bind_ok by exact E. erewrite bind_ok by (apply tracked_get, lookup_insert_eq). erewrite bind_ok by reflexivity.
    change (w_now (tracked _ _ _ _ _ _ _ _)) with (w_now w). cbn [me_lastTimeSeen me_interval me_set_ipAddrs orb].
    destruct Hdue as [->|(k & i & Hi & Hping)]; [done|].
    assert (existsb (to_ping (w_now w)) ips = true) as ->; [|by rewrite andb_false_r].
    apply existsb_exists. exists (k, i). split; [|done]. by apply list_elem_of_In, elem_of_map_to_list.
  - intros i t1 t2 t3 H0 [H1 H2] H3. assert (forall t, t1 <= t -> expired t (ie_lastTimeSeen i) (ie_interval i) = true) as Hexp
      by (intros t ?; apply Z.ltb_lt; lia).
    assert (aged t1 i = Some (ie_set_pings (MkPing t1 2) i)) as -> by (unfold aged, ping_failed; by rewrite (Hexp t1), H0 by lia).
    assert (aged t2 (ie_set_pings (MkPing t1 2) i) = Some (ie_set_pings (MkPing t2 4) i)) as E2
      by (unfold aged; cbn; by rewrite (Hexp t2) by lia).
    do 2 eexists. split; [reflexivity|]. split; [exact E2|]. unfold aged. cbn. by rewrite (Hexp t3) by lia.
Qed.

(** A quiet entry with quiet addresses. *)
Lemma check_ips_quiet key ips b w : Forall (fun ki => expired (w_now w) (ie_lastTimeSeen ki.2) (ie_interval ki.2) = false) ips ->
  check_ips PIPE_BUF sock_send nested key ips b w = (Ok b, w).
Proof.
  induction 1 as [|[k i] ips Hi _ IH]; [done|]. cbn [check_ips]. erewrite bind_ok by reflexivity. cbn [snd] in Hi. by rewrite Hi.
Qed.
Lemma alter_entry_eq key f e w : entries w !! key = Some e ->
  alter_entry key f w = (Ok tt, with_entries (<[key := f e]> (entries w)) w).
Proof.
  intros Ee. unfold alter_entry, modify_entries, modify_disc, with_entries, modify. cbv beta. do 4 f_equal. apply map_eq. intros k'.
  destruct (decide (k' = key)) as [->|Hk]; [by rewrite lookup_alter_eq, lookup_insert_eq; fold (entries w); rewrite Ee|].
  by rewrite lookup_alter_ne, lookup_insert_ne.
Qed.
Lemma get_entry_eq key e w : entries w !! key = Some e -> get_entry key w = (Ok e, w).
Proof. intros Ee. unfold get_entry. fold (entries w). by rewrite Ee. Qed.

(** A host that has been quiet for [arpAware] and whose addresses are not due yet - those
    learned from IP packets are given ten times as long.  With at most one address it goes, and
    the check goes on.  With more the sanity check deletes the same address twice: it raises
    KeyError, all that has changed is that one address is gone, and the entries that were to
    come are not looked at. *)
Theorem quiet_host_raises key keys e w : entries w !! key = Some e -> hw_raw (me_macaddr e) = key ->
  expired (w_now w) (me_lastTimeSeen e) (me_interval e) = true ->
  (forall k i, me_ipAddrs e !! k = Some i -> expired (w_now w) (ie_lastTimeSeen i) (ie_interval i) = false) ->
  if decide (size (me_ipAddrs e) <= 1)%nat then
    check_entries PIPE_BUF sock_send nested (key :: keys) w =
      check_entries PIPE_BUF sock_send nested keys (with_entries (delete key (entries w)) w)
  else exists k, is_Some (me_ipAddrs e !! k) /\
    check_entries PIPE_BUF sock_send nested (key :: keys) w =
      (Err KeyError, with_entries (<[key := me_set_ipAddrs (delete k (me_ipAddrs e)) e]> (entries w)) w).
Proof.
  intros Ee Hkey Hexp Hips. set (ips := map_to_list (me_ipAddrs e)).
  assert (check_ips PIPE_BUF sock_send nested key ips false w = (Ok false, w)) as Eips.
  { apply check_ips_quiet, Forall_forall. intros [k i] Hk%elem_of_map_to_list. by apply (Hips k). }
  assert (check_entry PIPE_BUF sock_send nested key w =
    ('_ ← purge (size (me_ipAddrs e)) (last ips.*1) key; modify_entries (delete key)) w) as Ec.
  { unfold check_entry. erewrite bind_ok by by apply get_entry_eq. fold ips. erewrite bind_ok by exact Eips.
    erewrite bind_ok by by apply get_entry_eq. erewrite bind_ok by reflexivity. by rewrite Hexp, Hkey. }
  assert (length ips = size (me_ipAddrs e)) as Hlen by apply length_map_to_list.
  cbn [check_entries]. destruct (decide _) as [Hsz|Hsz].
  - assert (exists w', check_entry PIPE_BUF sock_send nested key w = (Ok tt, w') /\ w' = with_entries (delete key (entries w)) w)
      as (w' & E & ->); [|by erewrite bind_ok by exact E].
    rewrite Ec. destruct ips as [|[k i] [|]] eqn:El; cbn [length] in Hlen; [| |lia].
    + rewrite <- Hlen. cbn [purge]. eexists. by split.
    + assert (me_ipAddrs e !! k = Some i) as Ei by (apply elem_of_map_to_list; fold ips; rewrite El; by left).
      rewrite <- Hlen. cbn [purge fmap list_fmap last fst]. eexists. split; [|reflexivity].
      erewrite bind_ok; [|erewrite bind_ok by (by apply get_entry_eq); rewrite Ei;
        erewrite bind_ok by (by apply alter_entry_eq); reflexivity].
      unfold modify_entries, modify_disc, modify, with_entries. cbn. by rewrite delete_insert_eq.
  - destruct (last ips.*1) as [k|] eqn:El; [|by apply last_None in El; apply fmap_nil_inv in El; rewrite El in Hlen; cbn in Hlen; lia].
    assert (is_Some (me_ipAddrs e !! k)) as [i Hi].
    { apply last_Some_elem_of, list_elem_of_fmap in El as ([k' i] & -> & Hk%elem_of_map_to_list). by eexists. }
    exists k. split; [by eexists|].
    destruct (size (me_ipAddrs e)) as [|[|n]]; [lia..|]. cbn [purge] in Ec.
    assert (check_entry PIPE_BUF sock_send nested key w =
      (Err KeyError, with_entries (<[key := me_set_ipAddrs (delete k (me_ipAddrs e)) e]> (entries w)) w)) as E.
    { rewrite Ec. erewrite bind_err; [done|]. erewrite bind_ok by by apply get_entry_eq. rewrite Hi.
      erewrite bind_ok by by apply alter_entry_eq. erewrite bind_ok by (apply get_entry_eq, lookup_insert_eq).
      cbn [me_ipAddrs me_set_ipAddrs]. by rewrite lookup_delete_eq. }
    by erewrite bind_err by exact E.
Qed.

(** C17: A known host's port is that of the packet it was first seen in, for as long as it is
    known: whatever packets come, from wherever, and however often the timeouts are checked,
    no step changes it - a move sets another attribute - and an entry's key is its address. *)
Theorem port_is_first_seen w w' key e :
  (forall src id e w, d_rest (w_app (nested src id e w).2) = d_rest (w_app w)) ->
  rtc (fun w w' => tracker_step PIPE_BUF sock_send nested w w' /\ is_Some (entries w' !! key)) w w' ->
  entries_wf (entries w) -> entries w !! key = Some e ->
  entries_wf (entries w') /\ exists e', entries w' !! key = Some e' /\ me_port e' = me_port e /\ hw_raw (me_macaddr e') = key.
Proof.
  intros Hn Hr. revert e. induction Hr as [w|w w1 w' [Hstep [e1 He1]] _ IH]; intros e Hw He.
  - split; [done|]. exists e. split; [done|]. split; [done|]. by apply (Hw key e).
  - destruct (IH e1) as (Hw' & e' & He' & Hp & Hk); [by eapply tracker_step_wf|done|]. split; [done|].
    exists e'. split; [done|]. split; [|done]. rewrite Hp. by eapply tracker_step_stays.
Qed.

(** A known host is heard of from somewhere else: through the ethernet parser, a packet
    from its address that is no LLDP, on a port that leads to no switch, with another datapath
    or port than the entry's.  Within [entryMove] of the last time the handler raises
    TypeError - the warning calls the time - and nothing is learned; later the entry gets the
    new datapath and the time, and keeps the old port beside it: the place it now tells, where
    the pings go, is a port of another switch. *)
Theorem host_moves con ofp packet ps e w : let key := hw_raw (eth_src packet) in
  ethernet_new (pi_data ofp) (w_ps w) = (Ok packet, ps) -> eth_parsed packet = true -> (eth_type packet =? LLDP_TYPE) = false ->
  isSwitchOnlyPort (d_adjacency (w_app w)) (con_dpid (the_con con w)) (pi_in_port ofp) = false ->
  entries w !! key = Some e -> (me_dpid e, me_port e) <> (con_dpid (the_con con w), pi_in_port ofp) ->
  if w_now w - me_lastTimeSeen e <? entryMove then tracker_PacketIn con ofp w = (Err TypeError, w_set_ps ps w)
  else exists e', tracker_PacketIn con ofp w = (Ok tt, with_entries (<[key := e']> (entries w)) (w_set_ps ps w)) /\
    me_dpid e' = con_dpid (the_con con w) /\ me_port e' = me_port e /\ me_inport e' = Some (pi_in_port ofp) /\
    me_lastTimeSeen e' = w_now w /\ me_interval e' = me_interval e.
Proof.
  intros key E Hp Hl Hsw He Hne. unfold tracker_PacketIn. erewrite bind_ok by reflexivity.
  erewrite bind_ok by (unfold zoom; rewrite E; reflexivity). rewrite Hp, Hl. cbn [negb].
  erewrite bind_ok by reflexivity. change (w_app (w_set_ps ps w)) with (w_app w). rewrite Hsw.
  erewrite bind_ok by reflexivity. change (w_now (w_set_ps ps w)) with (w_now w).
  fold key. fold (entries w). rewrite He. rewrite bool_decide_false by (intros [? ?]; congruence).
  destruct (_ <? entryMove); [by erewrite bind_err by reflexivity|].
  set (w1 := w_set_ps ps w). assert (entries w1 = entries w) as Ew by done. rewrite <- Ew in He |- *.
  erewrite bind_ok by by apply alter_entry_eq.
  assert (forall m, entries (with_entries m w1) = m) as Hm by done.
  assert (forall m m', with_entries m (with_entries m' w1) = with_entries m w1) as Hww by done.
  erewrite bind_ok by (apply alter_entry_eq; rewrite Hm; apply lookup_insert_eq). rewrite Hww, Hm, insert_insert_eq.
  destruct (getSrcIPandARP (eth_next packet)) as [[ip|] hasARP]; [|eexists; by split].
  erewrite alter_entry_eq by (rewrite Hm; apply lookup_insert_eq). rewrite Hww, Hm, insert_insert_eq. eexists. by split.
Qed.
End check.

(** * Witnesses *)

(** A host seen on port 3 of switch 1 half a minute or more ago, with two addresses from IP
    packets; a packet of it from port 5 of switch 2. *)
#[local] Instance ex_codec : AppCodec := app_codec 10.
Definition ex_mac : bytes := replicate 6 x02.
Definition ex_host (seen : Z) (ips : list Z) : MacEntry :=
  MkMacEntry (Some 1) 3 (HwEth (MkEth ex_mac)) None seen arpAware
    (list_to_map ((fun a => (ip_key (NwIP (ip_of_int a)), IpEntry_init seen (NwIP (ip_of_int a)) false)) <$> ips)).
Definition ex_tracker_con (d : Z) : Con := con_set_dpid (Some d) Con_fresh.
Definition ex_tracker_state (now : Z) (e : MacEntry) : Controller.World (Disc Tracker) :=
  MkWorld {[1 := ex_tracker_con 1; 2 := ex_tracker_con 2]} 3 {[Some 1 := 1; Some 2 := 2]} false ∅ now 7 (PState 0 (fun _ => 0)) []
    (MkDisc false true ∅ ∅ [] None (MkTracker {[ex_mac := e]})) [].
Definition ex_moved : ofp_packet_in :=
  PacketIn (pi_hdr ofp_packet_in_init) 5 (-1) 0 (replicate 6 x01 ++ ex_mac ++ [x99; x99; x00]) 15.
Definition ex_tracker_socket (_ : Z) (_ : nat) (data : bytes) : send_result := Sent (zlen data).
Definition ex_tracker_nested (_ : source) (_ : Z) (_ : event) : M (Controller.World (Disc Tracker)) unit := mret tt.

Lemma port_is_first_seen_witness : let w := ex_tracker_state (100 * 10 ^ 9) (ex_host 0 [1; 2]) in
  exists e', entries (tracker_PacketIn 2 ex_moved w).2 !! ex_mac = Some e' /\ me_port e' = 3.
Proof.
  intros w. destruct (port_is_first_seen 10 ex_tracker_socket ex_tracker_nested w (tracker_PacketIn 2 ex_moved w).2 ex_mac
    (ex_host 0 [1; 2])) as (_ & e' & He & Hp & _).
  - reflexivity.
  - apply rtc_once. split; [apply step_packet|]. apply (bool_decide_unpack _). vm_compute. exact I.
  - intros key e He. change (entries w) with ({[ex_mac := ex_host 0 [1; 2]]} : gmap bytes MacEntry) in He.
    apply lookup_singleton_Some in He as [<- <-]. by split.
  - vm_compute. reflexivity.
  - exists e'. split; [exact He|]. exact Hp.
Defined.

Lemma host_moves_witness :
  (tracker_PacketIn 2 ex_moved (ex_tracker_state (30 * 10 ^ 9) (ex_host 0 [1; 2]))).1 = Err TypeError /\
  exists e', (tracker_PacketIn 2 ex_moved (ex_tracker_state (100 * 10 ^ 9) (ex_host 0 [1; 2]))).1 = Ok tt /\
    me_dpid e' = Some 2 /\ me_port e' = 3.
Proof.
  assert (forall now, exists packet ps, ethernet_new (pi_data ex_moved) (w_ps (ex_tracker_state now (ex_host 0 [1; 2]))) = (Ok packet, ps) /\
    eth_parsed packet = true /\ (eth_type packet =? LLDP_TYPE) = false /\ hw_raw (eth_src packet) = ex_mac) as Hp.
  { intros now. eexists _, _. vm_compute. repeat split; reflexivity. }
  split.
  - destruct (Hp (30 * 10 ^ 9)) as (packet & ps & E & Hpd & Hl & Hk).
    pose proof (host_moves 2 ex_moved packet ps (ex_host 0 [1; 2]) _ E Hpd Hl) as H. rewrite Hk in H.
    rewrite H; [reflexivity|reflexivity|reflexivity|discriminate].
  - destruct (Hp (100 * 10 ^ 9)) as (packet & ps & E & Hpd & Hl & Hk).
    pose proof (host_moves 2 ex_moved packet ps (ex_host 0 [1; 2]) _ E Hpd Hl) as H. rewrite Hk in H.
    destruct H as (e' & H & Hd & Hpt & _); [reflexivity|reflexivity|discriminate|].
    exists e'. rewrite H. split; [reflexivity|]. by split.
Defined.

Lemma quiet_host_raises_witness :
  (check_entries 10 ex_tracker_socket ex_tracker_nested [ex_mac] (ex_tracker_state (130 * 10 ^ 9) (ex_host 0 [1; 2]))).1 = Err KeyError.
Proof.
  assert (forall k i, me_ipAddrs (ex_host 0 [1; 2]) !! k = Some i -> expired (130 * 10 ^ 9) (ie_lastTimeSeen i) (ie_interval i) = false) as Hi.
  { intros k i H. apply elem_of_list_to_map_2 in H. rewrite list_elem_of_In in H. cbn in H. by repeat destruct H as [[= <- <-]|H]. }
  pose proof (quiet_host_raises 10 ex_tracker_socket ex_tracker_nested ex_mac [] (ex_host 0 [1; 2])
    (ex_tracker_state (130 * 10 ^ 9) (ex_host 0 [1; 2])) eq_refl eq_refl eq_refl Hi) as H.
  destruct (decide _) as [Hsz|_] in H; [exfalso; revert Hsz; vm_compute; lia|]. destruct H as (k & _ & H). by rewrite H.
Defined.

Lemma pings_count_twice_witness : let w := ex_tracker_state (1300 * 10 ^ 9) (ex_host 0 [1; 2]) in
  exists bs c' x' e', check_entry 10 ex_tracker_socket ex_tracker_nested ex_mac w =
    (Ok tt, after 1 c' (w_nexus w) x' (w_raised w) (set_rest (MkTracker {[ex_mac := e']}) (w_app w)) w) /\
    con_out c' = concat bs /\ length bs = 2%nat.
Proof.
  intros w. destruct (pings_count_twice 10 ex_tracker_socket ex_tracker_nested 1 (ex_tracker_con 1) ex_mac (ex_host 0 [1; 2]) w)
    as [(bs & c' & x' & E & Ho & Hb) _].
  - intros n data. reflexivity.
  - reflexivity.
  - vm_compute. by split.
  - reflexivity.
  - reflexivity.
  - reflexivity.
  - vm_compute. reflexivity.
  - split; [reflexivity|]. split; [split; [reflexivity|vm_compute; discriminate]|]. split; [vm_compute; by split|].
    intros k i H. apply elem_of_list_to_map_2 in H. rewrite list_elem_of_In in H. cbn in H.
    repeat destruct H as [[= <- <-]|H]; [apply ip_of_int_wf..|done].
  - right. exists (ip_key (NwIP (ip_of_int 1))), (IpEntry_init 0 (NwIP (ip_of_int 1)) false). by vm_compute.
  - exists bs, c', x'. eexists. split; [|split; [exact Ho|]].
    + rewrite E. do 4 f_equal. 
    + rewrite <- (Forall2_length _ _ _ Hb). vm_compute. reflexivity.
Defined.
