(* ===== verification/Vns.v ===== *)
(** [pox_module/cs561/VNSProtocol.py]: the messages between the course's bridge and the
    router under test.  The framing in [ltprotocol] and Twisted is not in the repository;
    the classes are what it is given: a type, a length, [pack] and [unpack]. *)
From S2P Require Import Prelude.
From S2P Require Import PyStruct.
From S2P Require Import Addresses.
From S2P Require Import SoftSwitch.

Definition VNS_DEFAULT_PORT : Z := 3250.
Definition IDSIZE : nat := 32.

Definition strip_null_chars (s : bytes) : bytes := strip0 s.

(** The code [%us] of [struct]: cut or filled up with NULs to [n] bytes. *)
Definition pack_field (n : nat) (s : bytes) : bytes := take n (ljust0 s n).

(** [socket.inet_ntoa]. *)
Definition inet_ntoa (s : bytes) : res bytes :=
  match s with
  | [a; b; c; d] => Ok (str_int (Z_of_byte a) ++ x2e :: str_int (Z_of_byte b) ++ x2e ::
                        str_int (Z_of_byte c) ++ x2e :: str_int (Z_of_byte d))
  | _ => Err SocketError
  end.

(** * Interfaces *)

Record VNSInterface := MkVNSInterface { if_name : bytes; if_mac : bytes; if_ip : bytes; if_mask : bytes }.
Definition VNSInterface_init (name mac ip mask : bytes) : res VNSInterface :=
  if negb (zlen mac =? 6) then Err VNSProtocolException
  else if negb (zlen ip =? 4) then Err VNSProtocolException
  else if negb (zlen mask =? 4) then Err VNSProtocolException
  else Ok (MkVNSInterface name mac ip mask).

Definition HWINTERFACE : Z := 1.
Definition HWSPEED : Z := 2.
Definition HWSUBNET : Z := 4.
Definition HWETHER : Z := 32.
Definition HWETHIP : Z := 64.
Definition HWMASK : Z := 128.
(** [struct.calcsize] of the interface's format. *)
Definition interface_SIZE : Z := 6 * (4 + 32).

Definition interface_pack (i : VNSInterface) : res bytes :=
  a ← struct_pack "!I" [HWINTERFACE];
  b ← struct_pack "!II" [HWSPEED; 0];
  c ← struct_pack "!I" [HWETHER];
  d ← struct_pack "!I" [HWETHIP];
  e ← struct_pack "!II" [HWSUBNET; 0];
  f ← struct_pack "!I" [HWMASK];
  Ok (a ++ pack_field 32 (if_name i) ++
      b ++ pack_field 28 [] ++
      c ++ pack_field 32 (if_mac i) ++
      d ++ pack_field 4 (if_ip i) ++ pack_field 28 [] ++
      e ++ pack_field 28 [] ++
      f ++ pack_field 4 (if_mask i) ++ pack_field 28 []).

(** * Messages *)

(** A source filter: an address in text and a number of bits. *)
Abbreviation src_filter := (bytes * Z)%type.

Inductive vns_msg :=
  | VNSOpen (topo_id : Z) (vhost user pw : bytes)
  | VNSClose (msg : bytes)
  | VNSPacket (intf_name ethernet_frame : bytes)
  | VNSBanner (msg : bytes)
  | VNSHardwareInfo (interfaces : list VNSInterface)
  | VNSRtable (vrhost rtable : bytes)
  | VNSOpenTemplate (template_name vrhost : bytes) (src_filters : list src_filter)
  | VNSAuthRequest (salt : bytes)
  | VNSAuthReply (username ssp : bytes)
  | VNSAuthStatus (auth_ok : bool) (msg : bytes).

(** [__set_src_filters]. *)
Definition NO_SRC_FILTERS : list src_filter := [(lit "0.0.0.0", 0)].
Definition set_src_filters (src_filters : list src_filter) : list src_filter :=
  match src_filters with [] => NO_SRC_FILTERS | _ => src_filters end.
Definition VNSOpenTemplate_init (template_name vrhost : bytes) (src_filters : list src_filter) : vns_msg :=
  VNSOpenTemplate template_name vrhost (set_src_filters src_filters).

Definition get_type (m : vns_msg) : Z :=
  match m with
  | VNSOpen _ _ _ _ => 1
  | VNSClose _ => 2
  | VNSPacket _ _ => 4
  | VNSBanner _ => 8
  | VNSHardwareInfo _ => 16
  | VNSRtable _ _ => 32
  | VNSOpenTemplate _ _ _ => 64
  | VNSAuthRequest _ => 128
  | VNSAuthReply _ _ => 256
  | VNSAuthStatus _ _ => 512
  end.

Definition open_SIZE : Z := 4 + 3 * Z.of_nat IDSIZE.
Definition text_SIZE : Z := 256.
Definition packet_HEADER_SIZE : Z := 16.
Definition rtable_HEADER_SIZE : Z := Z.of_nat IDSIZE.
Definition template_HEADER_SIZE : Z := 30 + Z.of_nat IDSIZE.

Definition vns_length (m : vns_msg) : Z :=
  match m with
  | VNSOpen _ _ _ _ => open_SIZE
  | VNSClose _ | VNSBanner _ => text_SIZE
  | VNSPacket _ frame => packet_HEADER_SIZE + zlen frame
  | VNSHardwareInfo interfaces => zlen interfaces * interface_SIZE
  | VNSRtable _ rtable => rtable_HEADER_SIZE + zlen rtable
  | VNSOpenTemplate _ _ src_filters => template_HEADER_SIZE + 30 + 5 * zlen src_filters
  | VNSAuthRequest salt => zlen salt
  | VNSAuthReply username ssp => zlen username + zlen ssp
  | VNSAuthStatus _ msg => 1 + zlen msg
  end.

(** ** [pack] *)

Definition filter_pack (f : src_filter) : res bytes :=
  ip ← inet_aton f.1; mask ← struct_pack "!B" [f.2]; Ok (ip ++ mask).

Definition open_pack (topo_id : Z) (vhost user pw : bytes) : res bytes :=
  h ← struct_pack "!HH" [topo_id; 0];
  Ok (h ++ pack_field IDSIZE vhost ++ pack_field IDSIZE user ++ pack_field IDSIZE pw).
Definition close_pack (msg : bytes) : res bytes := Ok (pack_field 256 msg).
Definition packet_pack (intf_name frame : bytes) : res bytes := Ok (pack_field 16 intf_name ++ frame).
Definition banner_pack (msg : bytes) : res bytes := Ok (pack_field 256 msg).
Definition hardware_pack (interfaces : list VNSInterface) : res bytes :=
  l ← mapM interface_pack interfaces; Ok (concat l).
Definition rtable_pack (vrhost rtable : bytes) : res bytes := Ok (pack_field IDSIZE vrhost ++ rtable).
Definition template_pack (template_name vrhost : bytes) (src_filters : list src_filter) : res bytes :=
  body ← mapM filter_pack src_filters;
  Ok (pack_field 30 template_name ++ pack_field IDSIZE vrhost ++ concat body).
Definition auth_reply_pack (username ssp : bytes) : res bytes :=
  n ← struct_pack "!I" [zlen username]; Ok (n ++ username ++ ssp).
Definition auth_status_pack (auth_ok : bool) (msg : bytes) : res bytes :=
  b ← struct_pack "!B" [Z.b2z auth_ok]; Ok (b ++ msg).

Definition vns_pack (m : vns_msg) : res bytes :=
  match m with
  | VNSOpen topo_id vhost user pw => open_pack topo_id vhost user pw
  | VNSClose msg => close_pack msg
  | VNSPacket intf_name frame => packet_pack intf_name frame
  | VNSBanner msg => banner_pack msg
  | VNSHardwareInfo interfaces => hardware_pack interfaces
  | VNSRtable vrhost rtable => rtable_pack vrhost rtable
  | VNSOpenTemplate template_name vrhost src_filters => template_pack template_name vrhost src_filters
  | VNSAuthRequest salt => Ok salt
  | VNSAuthReply username ssp => auth_reply_pack username ssp
  | VNSAuthStatus auth_ok msg => auth_status_pack auth_ok msg
  end.

(** ** [unpack] *)

(** [struct.unpack] wants exactly the size. *)
Definition sized (n : Z) (body : bytes) : res unit := if zlen body =? n then Ok tt else Err StructError.

Definition open_unpack (body : bytes) : res vns_msg :=
  '_ ← sized open_SIZE body;
  tuple [topo_id; pad] ← struct_unpack_from "!HH" body 0;
  Ok (VNSOpen topo_id (strip_null_chars (slice body 4 36)) (strip_null_chars (slice body 36 68))
        (strip_null_chars (slice body 68 100))).
Definition close_unpack (body : bytes) : res vns_msg := '_ ← sized text_SIZE body; Ok (VNSClose (strip_null_chars body)).
Definition banner_unpack (body : bytes) : res vns_msg := '_ ← sized text_SIZE body; Ok (VNSBanner (strip_null_chars body)).
Definition packet_unpack (body : bytes) : res vns_msg :=
  let h := slice body 0 packet_HEADER_SIZE in
  '_ ← sized packet_HEADER_SIZE h;
  Ok (VNSPacket (strip_null_chars h) (slice_from body packet_HEADER_SIZE)).
Definition rtable_unpack (body : bytes) : res vns_msg :=
  Ok (VNSRtable (strip_null_chars (slice body 0 32)) (slice_from body 32)).

Fixpoint filters_unpack (n : nat) (i : Z) (sf_bytes : bytes) : res (list src_filter) :=
  match n with
  | O => Ok []
  | S n =>
      ip ← inet_ntoa (slice sf_bytes (i * 5) (i * 5 + 4));
      tuple [mask] ← struct_unpack "!B" (slice sf_bytes (i * 5 + 4) (i * 5 + 5));
      if (mask <? 0) || (32 <? mask) then Err VNSProtocolException
      else l ← filters_unpack n (i + 1) sf_bytes; Ok ((ip, mask) :: l)
  end.
Definition template_unpack (body : bytes) : res vns_msg :=
  let h := slice body 0 template_HEADER_SIZE in
  '_ ← sized template_HEADER_SIZE h;
  let sf_bytes := slice_from body template_HEADER_SIZE in
  l ← filters_unpack (Z.to_nat (zlen sf_bytes / 5)) 0 sf_bytes;
  Ok (VNSOpenTemplate_init (strip_null_chars (slice h 0 30)) (strip_null_chars (slice h 30 62)) l).

Definition auth_reply_unpack (body : bytes) : res vns_msg :=
  tuple [username_len] ← struct_unpack "!I" (slice body 0 4);
  let body := slice_from body 4 in
  Ok (VNSAuthReply (slice body 0 username_len) (slice_from body username_len)).
Definition auth_status_unpack (body : bytes) : res vns_msg :=
  tuple [auth_ok] ← struct_unpack "!B" (slice body 0 1);
  Ok (VNSAuthStatus (negb (auth_ok =? 0)) (slice_from body 1)).

(** [VNS_MESSAGES]: the classes by type.  [VNSHardwareInfo] has no [unpack] of its own. *)
Definition vns_unpack (type : Z) : option (bytes -> res vns_msg) :=
  if type =? 1 then Some open_unpack
  else if type =? 2 then Some close_unpack
  else if type =? 4 then Some packet_unpack
  else if type =? 8 then Some banner_unpack
  else if type =? 32 then Some rtable_unpack
  else if type =? 64 then Some template_unpack
  else if type =? 128 then Some (fun body => Ok (VNSAuthRequest body))
  else if type =? 256 then Some auth_reply_unpack
  else if type =? 512 then Some auth_status_unpack
  else None.

(** * Long texts *)

(** The [i]-th piece of 255 bytes. *)
Definition piece (msg : bytes) (i : nat) : bytes := slice msg (Z.of_nat i * 255) ((Z.of_nat i + 1) * 255).
Definition pieces (msg : bytes) : nat := Z.to_nat (zlen msg / 255 + 1).
Definition get_banners (msg : bytes) : list vns_msg := (fun i => VNSBanner (piece msg i)) <$> seq 0 (pieces msg).
Definition get_banners_and_close (msg : bytes) : list vns_msg :=
  (fun i => if Nat.ltb (i + 1) (pieces msg) then VNSBanner (piece msg i) else VNSClose (piece msg i)) <$> seq 0 (pieces msg).
