(* ===== verification/VnsTheory.v ===== *)
(** The course's protocol: a message is read back as it was sent, how its announced length
    relates to its bytes, and a long text arrives in pieces. *)
From S2P Require Import Prelude.
From S2P Require Import PyStruct.
From S2P Require Import Addresses.
From S2P Require Import SoftSwitch.
From S2P Require Import Vns.

(** * Fields of text *)

(** What fits a field of [n] bytes and comes back out of it. *)
Definition text (n : nat) (s : bytes) : Prop := (length s <= n)%nat /\ x00 ∉ s.

Lemma pack_field_length n s : length (pack_field n s) = n.
Proof. unfold pack_field, ljust0. rewrite length_take, length_app, length_replicate. lia. Qed.
Lemma pack_field_zlen n s : zlen (pack_field n s) = Z.of_nat n.
Proof. unfold zlen. by rewrite pack_field_length. Qed.
Lemma pack_field_text n s : text n s -> strip_null_chars (pack_field n s) = s.
Proof.
  intros [Hl Hs]. unfold strip_null_chars, pack_field. rewrite take_ge; [by apply strip0_ljust0|]. by rewrite ljust0_length.
Qed.

(** * Addresses in text *)

(** The digits of a byte in decimal. *)
Definition digits_ok (z : Z) : bool :=
  let s := str_int z in
  bool_decide (foldl (fun acc c => acc * 10 + default 0 (digit_val c)) 0 s = z) &&
  forallb (fun c => bool_decide (c <> x00) && match digit_val c with Some v => v <? 10 | None => false end) s &&
  match s with [] => false | c :: t => bool_decide (c = x30 -> t = []) end.
Lemma byte_digits (c : Byte.byte) : digits_ok (Z_of_byte c) = true.
Proof. destruct c; vm_compute; reflexivity. Qed.

Lemma span_digits_all (s rest : bytes) acc :
  forallb (fun c => match digit_val c with Some v => v <? 10 | None => false end) s = true ->
  rest = [] \/ head rest = Some x2e ->
  span_digits 10 acc (s ++ rest) = (foldl (fun acc c => acc * 10 + default 0 (digit_val c)) acc s, rest).
Proof.
  intros Hs Hr. revert acc Hs; induction s as [|c s IH]; intros acc Hs; cbn [app foldl].
  - destruct Hr as [->|Hr]; [done|]. destruct rest as [|c r]; [done|]. injection Hr as ->. done.
  - cbn [forallb] in Hs. apply andb_prop in Hs as [Hc Hs]. cbn [span_digits]. destruct (digit_val c) as [d|]; [|done].
    rewrite Hc. by rewrite IH.
Qed.
Lemma strtoul0_byte (c : Byte.byte) (rest : bytes) : rest = [] \/ head rest = Some x2e ->
  strtoul0 (str_int (Z_of_byte c) ++ rest) = (Z_of_byte c, rest) /\
  (exists d s, str_int (Z_of_byte c) = d :: s /\ (match digit_val d with Some v => v <? 10 | None => false end) = true) /\
  x00 ∉ str_int (Z_of_byte c).
Proof.
  intros Hr. pose proof (byte_digits c) as H. unfold digits_ok in H. cbv zeta in H.
  apply andb_prop in H as [[Hv%bool_decide_eq_true Hd]%andb_prop Hz].
  assert (forallb (fun c => match digit_val c with Some v => v <? 10 | None => false end) (str_int (Z_of_byte c)) = true) as Hd'
    by (rewrite forallb_forall in Hd |- *; intros x Hx; by apply Hd, andb_prop in Hx as [_ ?]).
  assert (x00 ∉ str_int (Z_of_byte c)) as H0.
  { intros Hx%list_elem_of_In. rewrite forallb_forall in Hd. apply Hd, andb_prop in Hx as [Hx%bool_decide_eq_true _]. done. }
  destruct (str_int (Z_of_byte c)) as [|d s] eqn:E; [done|]. apply bool_decide_eq_true in Hz.
  split; [|split; [|done]].
  - cbn [app strtoul0]. destruct (decide (d = x30)) as [->|Hne].
    + rewrite (Hz eq_refl) in *. cbn in Hv. rewrite <-Hv. cbn [app].
      assert (span_digits 8 0 (x30 :: rest) = (0, rest)) as Hs.
      { destruct Hr as [->|Hr]; [done|]. destruct rest as [|r0 r]; [done|]. injection Hr as ->. done. }
      destruct Hr as [->|Hr]; [done|]. destruct rest as [|r0 [|r1 r]]; [done|done|]. injection Hr as ->. exact Hs.
    + rewrite app_comm_cons, span_digits_all by done. by rewrite Hv.
  - exists d, s. split; [done|]. cbn [forallb] in Hd'. by apply andb_prop in Hd' as [? _].
Qed.

(** One part of an address, and what follows it. *)
Lemma inet_aton_part (parts : nat) (pre : bytes) (c : Byte.byte) (rest : bytes) :
  inet_aton_loop (S parts) pre (str_int (Z_of_byte c) ++ x2e :: rest) = inet_aton_loop parts (pre ++ [c]) rest.
Proof.
  destruct (strtoul0_byte c (x2e :: rest)) as (E & (d & s & Ed & Hd) & _); [by right|].
  pose proof (Z_of_byte_range c). cbn [inet_aton_loop]. rewrite E, Ed. cbn [app]. rewrite Hd.
  rewrite (proj2 (Z.ltb_ge _ _)) by lia. cbn [head]. rewrite bool_decide_true by done.
  rewrite (proj2 (Z.ltb_ge _ _)) by lia. cbn [drop]. by rewrite byte_of_Z_of_byte.
Qed.

Lemma inet_aton_last (pre : bytes) (c : Byte.byte) : length pre = 3%nat ->
  inet_aton_loop 0 pre (str_int (Z_of_byte c)) = Some (pre ++ [c]).
Proof.
  intros Hp. destruct (strtoul0_byte c []) as (E & (d & s & Ed & Hd) & _); [by left|]. rewrite app_nil_r in E.
  pose proof (Z_of_byte_range c). cbn [inet_aton_loop]. rewrite E, Ed, Hd.
  rewrite (proj2 (Z.ltb_ge _ _)) by lia. cbn [head]. rewrite bool_decide_false by done. rewrite Hp.
  change (256 ^ Z.of_nat (4 - 3)) with 256. rewrite (proj2 (Z.ltb_lt _ _)) by lia. do 2 f_equal. unfold be_enc. cbn. by rewrite byte_of_Z_of_byte.
Qed.

(** The text of an address is read as the address. *)
Lemma inet_aton_ntoa (raw s : bytes) : inet_ntoa raw = Ok s -> inet_aton s = Ok raw.
Proof.
  unfold inet_ntoa. destruct raw as [|a [|b [|c [|d [|? ?] ] ] ] ]; try done. intros [= <-].
  assert (forall c, x00 ∉ str_int (Z_of_byte c)) as H0 by (intros x; destruct (strtoul0_byte x []) as (_ & _ & ?); [by left|done]).
  unfold inet_aton. rewrite decide_False.
  - change [a; b; c; d] with ((([] ++ [a]) ++ [b]) ++ [c] ++ [d]).
    rewrite !inet_aton_part. by rewrite inet_aton_last, <-app_assoc.
  - rewrite !elem_of_app, !elem_of_cons, !elem_of_app, !elem_of_cons, !elem_of_app, !elem_of_cons.
    pose proof (H0 a); pose proof (H0 b); pose proof (H0 c); pose proof (H0 d). naive_solver.
Qed.

(** * Messages *)

Definition filter_ok (f : bytes * Z) : Prop := (exists raw, inet_ntoa raw = Ok f.1) /\ 0 <= f.2 <= 32.
(** The messages whose fields fit, of the classes that can be read. *)
Definition vns_wf (m : vns_msg) : Prop :=
  match m with
  | VNSOpen topo_id vhost user pw => 0 <= topo_id < 2 ^ 16 /\ text 32 vhost /\ text 32 user /\ text 32 pw
  | VNSClose msg | VNSBanner msg => text 256 msg
  | VNSPacket intf_name _ => text 16 intf_name
  | VNSHardwareInfo _ => False
  | VNSRtable vrhost _ => text 32 vrhost
  | VNSOpenTemplate name vrhost src_filters =>
      text 30 name /\ text 32 vrhost /\ src_filters <> [] /\ Forall filter_ok src_filters
  | VNSAuthRequest _ | VNSAuthStatus _ _ => True
  | VNSAuthReply username _ => zlen username < 2 ^ 32
  end.

Lemma inet_ntoa_len raw s : inet_ntoa raw = Ok s -> length raw = 4%nat.
Proof. unfold inet_ntoa. by destruct raw as [|a [|b [|c [|d [|? ?] ] ] ] ]. Qed.

Lemma filter_pack_ok f : filter_ok f -> exists raw b, filter_pack f = Ok (raw ++ [b]) /\ length raw = 4%nat /\
  inet_ntoa raw = Ok f.1 /\ struct_unpack "!B" [b] = Ok [f.2].
Proof.
  intros [[raw Hr] Hm]. destruct (struct_pack_ok "!B" [f.2]) as (s & E); [split; [lia|done]|].
  destruct (struct_pack_B _ _ (proj1 E)) as [-> _].
  exists raw, (byte_of_Z f.2). unfold filter_pack. rewrite (inet_aton_ntoa raw) by done. cbn [mbind res_bind]. rewrite (proj1 E).
  split; [done|]. split; [by eapply inet_ntoa_len|]. split; [done|]. apply struct_unpack_pack, E.
Qed.

(** The filters are read from what follows [pre]. *)
Lemma filters_unpack_pack (fs : list (bytes * Z)) (pre : bytes) (i : Z) : Forall filter_ok fs -> zlen pre = i * 5 ->
  exists l, mapM filter_pack fs = Ok l /\ zlen (concat l) = 5 * zlen fs /\
    forall rest, filters_unpack (length fs) i (pre ++ concat l ++ rest) = Ok fs.
Proof.
  intros Hfs. revert pre i; induction Hfs as [|f fs Hf _ IH]; intros pre i Hi; [exists []; split; [done|]; split; [by vm_compute|done]|].
  destruct (filter_pack_ok f Hf) as (raw & b & Ep & Hlen & En & Eb).
  assert (zlen raw = 4) as Hraw by (unfold zlen; lia).
  destruct (IH (pre ++ raw ++ [b]) (i + 1)) as (l & El & Hl & Hr); [rewrite !zlen_app, Hraw; change (zlen [b]) with 1; lia|].
  exists ((raw ++ [b]) :: l). split; [cbn [mapM]; rewrite Ep; cbn [mbind res_bind]; rewrite El; done|].
  cbn [concat]. split; [rewrite !zlen_app, Hraw, Hl; unfold zlen; cbn [length]; lia|]. intros rest. cbn [length filters_unpack].
  rewrite <-!app_assoc. rewrite (slice_tail pre raw _ (i * 5) (i * 5 + 4)) by lia. rewrite En. cbn [mbind res_bind].
  rewrite (app_assoc pre raw). rewrite (slice_tail (pre ++ raw) [b]) by (rewrite ?zlen_app; change (zlen [b]) with 1; lia).
  rewrite Eb. cbn [mbind res_bind]. destruct Hf as [_ Hm].
  rewrite (proj2 (Z.ltb_ge _ _)), (proj2 (Z.ltb_ge _ _)) by lia. cbn [orb].
  specialize (Hr rest). rewrite <-!app_assoc in Hr. rewrite <-!app_assoc. rewrite Hr. by destruct f.
Qed.

Lemma sized_ok n (b : bytes) : zlen b = n -> sized n b = Ok tt.
Proof. intros <-. unfold sized. by rewrite Z.eqb_refl. Qed.
(** The field between [pre] and [rest]. *)
Lemma field_read n (pre s rest : bytes) i j : text n s -> zlen pre = i -> j = i + Z.of_nat n ->
  strip_null_chars (slice (pre ++ pack_field n s ++ rest) i j) = s.
Proof. intros Hs Hp ->. rewrite slice_tail; [by apply pack_field_text|done|by rewrite pack_field_zlen]. Qed.

Lemma open_roundtrip topo_id vhost user pw : vns_wf (VNSOpen topo_id vhost user pw) ->
  exists b, vns_pack (VNSOpen topo_id vhost user pw) = Ok b /\ open_unpack b = Ok (VNSOpen topo_id vhost user pw).
Proof.
  intros (Ht & Hv & Hu & Hp). destruct (struct_pack_ok "!HH" [topo_id; 0]) as (h & Eh & Hh); [by repeat split; cbn; lia|].
  change (struct_calcsize "!HH") with 4 in Hh. unfold vns_pack, open_pack, template_pack, auth_reply_pack, auth_status_pack. rewrite Eh. eexists. split; [done|].
  pose proof (pack_field_zlen IDSIZE vhost). pose proof (pack_field_zlen IDSIZE user). pose proof (pack_field_zlen IDSIZE pw).
  change (Z.of_nat IDSIZE) with 32 in *. unfold open_unpack. rewrite sized_ok by (rewrite !zlen_app; change open_SIZE with 100; lia).
  cbn [mbind res_bind]. pose proof (struct_unpack_hit "!HH" _ _ (pack_field IDSIZE vhost ++ pack_field IDSIZE user ++ pack_field IDSIZE pw) Eh) as ->.
  cbn [mbind res_bind]. rewrite (field_read 32) by done.
  rewrite (app_assoc h), (field_read 32) by (rewrite ?zlen_app; first [done|lia]).
  rewrite (app_assoc (h ++ _)). rewrite <-(app_nil_r (pack_field IDSIZE pw)).
  by rewrite (field_read 32) by (rewrite ?zlen_app; first [done|lia]).
Qed.

Lemma template_roundtrip name vrhost fs : vns_wf (VNSOpenTemplate name vrhost fs) ->
  exists b, vns_pack (VNSOpenTemplate name vrhost fs) = Ok b /\ template_unpack b = Ok (VNSOpenTemplate name vrhost fs).
Proof.
  intros (Hn & Hv & Hne & Hf). destruct (filters_unpack_pack fs [] 0 Hf) as (l & El & Hl & Hr); [done|].
  unfold vns_pack, open_pack, template_pack, auth_reply_pack, auth_status_pack. rewrite El. eexists. split; [done|]. unfold template_unpack.
  pose proof (pack_field_zlen 30 name) as Z1. pose proof (pack_field_zlen IDSIZE vrhost) as Z2.
  change (Z.of_nat IDSIZE) with 32 in *. change template_HEADER_SIZE with 62.
  rewrite (app_assoc (pack_field 30 name)). rewrite slice_hit, slice_from_app by (rewrite zlen_app; lia).
  rewrite sized_ok by (rewrite zlen_app; lia). cbn [mbind res_bind]. rewrite Hl.
  replace (Z.to_nat (5 * zlen fs / 5)) with (length fs) by (rewrite Z.mul_comm, Z.div_mul by lia; unfold zlen; lia).
  specialize (Hr []). rewrite app_nil_r in Hr. cbn [app] in Hr. rewrite Hr. cbn [mbind res_bind].
  rewrite (slice_hit (pack_field 30 name)), pack_field_text by done. rewrite <-(app_nil_r (pack_field IDSIZE vrhost)). rewrite (field_read 32) by done.
  by destruct fs.
Qed.

(** A text in a message of its own. *)
Lemma text_message m msg : m = VNSBanner msg \/ m = VNSClose msg -> text 256 msg ->
  exists b unpack, vns_pack m = Ok b /\ zlen b = 256 /\ vns_unpack (get_type m) = Some unpack /\ unpack b = Ok m.
Proof.
  intros Hm Ht. exists (pack_field 256 msg). destruct Hm as [->| ->]; eexists; (split; [done|]; split; [by apply pack_field_zlen|]);
    (split; [done|]); unfold banner_unpack, close_unpack; rewrite sized_ok by apply pack_field_zlen;
    cbn [mbind res_bind]; by rewrite pack_field_text.
Qed.

Lemma vns_survives m : vns_wf m ->
  exists b unpack, vns_pack m = Ok b /\ vns_unpack (get_type m) = Some unpack /\ unpack b = Ok m.
Proof.
  intros Hm. destruct m as [topo_id vhost user pw|msg|intf_name frame|msg|interfaces|vrhost rtable|name vrhost fs|salt|username ssp|auth_ok msg].
  - destruct (open_roundtrip topo_id vhost user pw Hm) as (b & E & U). by exists b, open_unpack.
  - destruct (text_message _ msg (or_intror eq_refl) Hm) as (b & u & ? & _ & ?). by exists b, u.
  - eexists _, _. split; [done|]. split; [done|]. unfold packet_unpack. change packet_HEADER_SIZE with (Z.of_nat 16).
    rewrite slice_hit, slice_from_app, sized_ok by apply pack_field_zlen. cbn [mbind res_bind]. by rewrite pack_field_text.
  - destruct (text_message _ msg (or_introl eq_refl) Hm) as (b & u & ? & _ & ?). by exists b, u.
  - done.
  - eexists _, _. split; [done|]. split; [done|]. unfold rtable_unpack.
    rewrite slice_hit, slice_from_app by apply pack_field_zlen. by rewrite pack_field_text.
  - destruct (template_roundtrip name vrhost fs Hm) as (b & E & U). by exists b, template_unpack.
  - by eexists _, _.
  - pose proof (zlen_nonneg username). destruct (struct_pack_ok "!I" [zlen username]) as (n & En & Hn); [split; [cbn in *; lia|done]|].
    unfold vns_pack, open_pack, template_pack, auth_reply_pack, auth_status_pack. rewrite En. eexists _, _. split; [done|]. split; [done|]. unfold auth_reply_unpack.
    rewrite slice_hit, slice_from_app by done. rewrite (struct_unpack_pack _ _ _ En). cbn [mbind res_bind].
    by rewrite slice_hit, slice_from_app.
  - destruct (struct_pack_ok "!B" [Z.b2z auth_ok]) as (n & En & Hn); [split; [destruct auth_ok; cbn; lia|done]|].
    unfold vns_pack, open_pack, template_pack, auth_reply_pack, auth_status_pack. rewrite En. eexists _, _. split; [done|]. split; [done|]. unfold auth_status_unpack.
    rewrite slice_hit, slice_from_app by done. rewrite (struct_unpack_pack _ _ _ En). by destruct auth_ok.
Qed.

(** The two sides agree on what was sent: a message whose texts fit their fields and hold
    no NUL, of any class that can be read, packs to bytes from which the class's [unpack]
    gives the same message - the source filters with their addresses in text included. *)
Theorem vns_roundtrip m : vns_wf m ->
  exists b unpack, vns_pack m = Ok b /\ vns_unpack (get_type m) = Some unpack /\ unpack b = Ok m.
Proof. apply vns_survives. Qed.

(** * Lengths *)

Lemma inet_aton_loop_len parts (pre s r : bytes) : (length pre + parts <= 3)%nat -> inet_aton_loop parts pre s = Some r ->
  length r = 4%nat.
Proof.
  revert pre s; induction parts as [|parts IH]; intros pre s Hp; destruct s as [|c s]; cbn [inet_aton_loop]; try done;
    repeat case_match; intros E; simplify_eq/=; rewrite ?length_app, ?be_enc_length; try lia.
  eapply IH; [|exact E]. rewrite length_app. cbn. lia.
Qed.
Lemma inet_aton_len s r : inet_aton s = Ok r -> zlen r = 4.
Proof.
  unfold inet_aton. destruct (decide _); [done|]. destruct (inet_aton_loop 3 [] s) as [r'|] eqn:E; [|done]. intros [= <-].
  unfold zlen. by rewrite (inet_aton_loop_len 3 [] s r').
Qed.

Lemma filter_pack_len f b : filter_pack f = Ok b -> zlen b = 5.
Proof.
  unfold filter_pack. destruct (inet_aton f.1) as [raw|] eqn:Ea; cbn [mbind res_bind]; [|done].
  destruct (struct_pack "!B" [f.2]) as [m|] eqn:Eb; cbn [mbind res_bind]; [|done]. intros [= <-].
  by rewrite zlen_app, (inet_aton_len _ _ Ea), (struct_pack_len _ _ _ Eb).
Qed.
Lemma interface_pack_len i b : interface_pack i = Ok b -> zlen b = interface_SIZE.
Proof.
  unfold interface_pack.
  repeat match goal with
         | |- context [struct_pack ?f ?v] =>
             let H := fresh in destruct (struct_pack f v) eqn:H; cbn [mbind res_bind]; [apply struct_pack_len in H|done]
         end.
  match goal with |- Ok ?x = Ok b -> _ => intros E; assert (x = b) as <- by congruence; clear E end.
  rewrite !zlen_app, !pack_field_zlen.
  repeat match goal with H : zlen _ = struct_calcsize _ |- _ => rewrite H; clear H end. by vm_compute.
Qed.
(** Packing a list of things of one size. *)
Lemma mapM_len {T} (pack : T -> res bytes) n : (forall x b, pack x = Ok b -> zlen b = n) ->
  forall xs l, mapM pack xs = Ok l -> zlen (concat l) = n * zlen xs.
Proof.
  intros Hn. induction xs as [|x xs IH]; intros l; cbn [mapM mret res_ret]; [intros [= <-]; unfold zlen; cbn [length concat]; lia|].
  destruct (pack x) as [b|] eqn:Eb; cbn [mbind res_bind]; [|done].
  destruct (mapM pack xs) as [l'|] eqn:El; cbn [mbind res_bind]; [|done]. intros [= <-]. specialize (IH l' eq_refl).
  cbn [concat]. rewrite zlen_app, IH, (Hn _ _ Eb). unfold zlen. cbn [length]. lia.
Qed.

(** How far [length] is off. *)
Definition length_error (m : vns_msg) : Z :=
  match m with VNSOpenTemplate _ _ _ => 30 | VNSAuthReply _ _ => -4 | _ => 0 end.

(** C37: What [length] announces is the number of bytes that [pack] makes, whatever the
    fields hold - texts too long are cut - except for two classes: a template is announced
    as thirty bytes longer than it is, an authentication reply as four bytes shorter. *)
Theorem vns_length_exact m b : vns_pack m = Ok b -> vns_length m = zlen b + length_error m.
Proof.
  destruct m as [topo_id vhost user pw|msg|intf_name frame|msg|interfaces|vrhost rtable|name vrhost fs|salt|username ssp|auth_ok msg];
    unfold vns_pack, open_pack, close_pack, packet_pack, banner_pack, hardware_pack, rtable_pack, template_pack, auth_reply_pack, auth_status_pack;
    cbn [vns_length length_error]; rewrite ?Z.add_0_r.
  - destruct (struct_pack "!HH" [topo_id; 0]) as [h|] eqn:E; [|done]. intros [= <-].
    rewrite !zlen_app, !pack_field_zlen, (struct_pack_len _ _ _ E). by vm_compute.
  - intros [= <-]. by rewrite pack_field_zlen.
  - intros [= <-]. by rewrite zlen_app, pack_field_zlen.
  - intros [= <-]. by rewrite pack_field_zlen.
  - destruct (mapM interface_pack interfaces) as [l|] eqn:E; [|done]. intros [= <-]. rewrite (mapM_len _ _ interface_pack_len _ _ E). lia.
  - intros [= <-]. by rewrite zlen_app, pack_field_zlen.
  - destruct (mapM filter_pack fs) as [l|] eqn:E; [|done]. intros [= <-].
    rewrite !zlen_app, !pack_field_zlen, (mapM_len _ _ filter_pack_len _ _ E). unfold template_HEADER_SIZE. lia.
  - by intros [= <-].
  - destruct (struct_pack "!I" [zlen username]) as [n|] eqn:E; [|done]. intros [= <-].
    rewrite !zlen_app, (struct_pack_len _ _ _ E). change (struct_calcsize "!I") with 4. lia.
  - destruct (struct_pack "!B" [Z.b2z auth_ok]) as [n|] eqn:E; [|done]. intros [= <-].
    by rewrite zlen_app, (struct_pack_len _ _ _ E).
Qed.

(** * Long texts *)

(** The text that a message carries. *)
Definition vns_text (m : vns_msg) : bytes := match m with VNSBanner msg | VNSClose msg => msg | _ => [] end.

Lemma piece_eq msg i : piece msg i = take 255 (drop (i * 255) msg).
Proof. unfold piece, slice, py_index. rewrite !(proj2 (Z.ltb_ge _ 0)) by lia. f_equal; [lia|f_equal; lia]. Qed.
Lemma pieces_eq msg : pieces msg = S (length msg / 255).
Proof. unfold pieces, zlen. change 255 with (Z.of_nat 255). rewrite <-Nat2Z.inj_div. lia. Qed.

Lemma pieces_concat msg k n : (length msg < (k + n) * 255)%nat ->
  concat (piece msg <$> seq k n) = drop (k * 255) msg.
Proof.
  revert k; induction n as [|n IH]; intros k Hn.
  - cbn. rewrite drop_ge; [done|lia].
  - cbn [seq]. rewrite fmap_cons. cbn [concat]. rewrite IH by lia. rewrite piece_eq. replace (S k * 255)%nat with (k * 255 + 255)%nat by lia.
    rewrite <-drop_drop. apply take_drop.
Qed.

Lemma piece_text msg i : x00 ∉ msg -> text 256 (piece msg i) /\ (length (piece msg i) <= 255)%nat.
Proof.
  intros H. rewrite piece_eq. assert (length (take 255 (drop (i * 255) msg)) <= 255)%nat as Hl by (rewrite length_take; lia).
  split; [|done]. split; [lia|]. intros Hx. apply H.
  apply list_elem_of_lookup in Hx as [j Hx]. apply lookup_take_Some in Hx as [Hx _]. rewrite lookup_drop in Hx.
  by eapply list_elem_of_lookup_2.
Qed.

(** The pieces of a text, each in a message of the given kind. *)
Lemma texts_concat msg (mk : nat -> vns_msg) : (forall i, vns_text (mk i) = piece msg i) ->
  concat (vns_text <$> (mk <$> seq 0 (pieces msg))) = msg.
Proof.
  intros Hmk. rewrite <-list_fmap_compose.
  rewrite (list_fmap_ext _ (piece msg)) by (intros ? ? _; apply Hmk).
  rewrite (pieces_concat msg 0) by (rewrite pieces_eq; pose proof (Nat.div_mod_eq (length msg) 255);
    pose proof (Nat.mod_upper_bound (length msg) 255); lia). done.
Qed.

(** A text of any length is sent in pieces that lose nothing.  It is cut into one message
    for each 255 bytes and one more - the last one empty when the length is a multiple of
    255 - each of which fits, and packs to a frame of 256 bytes that the other side reads as
    that piece; the pieces in order are the text.  For the close the same pieces are used,
    the last one alone being the message that closes. *)
Theorem banners_reassemble msg : x00 ∉ msg ->
  (forall m, m ∈ get_banners msg \/ m ∈ get_banners_and_close msg -> zlen (vns_text m) <= 255 /\
     exists b unpack, vns_pack m = Ok b /\ zlen b = 256 /\ vns_unpack (get_type m) = Some unpack /\ unpack b = Ok m) /\
  concat (vns_text <$> get_banners msg) = msg /\ concat (vns_text <$> get_banners_and_close msg) = msg /\
  zlen (get_banners msg) = zlen msg / 255 + 1 /\ zlen (get_banners_and_close msg) = zlen msg / 255 + 1 /\
  exists l last, get_banners_and_close msg = (VNSBanner <$> l) ++ [VNSClose last].
Proof.
  intros H0. split; [|split; [by apply texts_concat|split]].
  - assert (forall i m, m = VNSBanner (piece msg i) \/ m = VNSClose (piece msg i) -> zlen (vns_text m) <= 255 /\
      exists b unpack, vns_pack m = Ok b /\ zlen b = 256 /\ vns_unpack (get_type m) = Some unpack /\ unpack b = Ok m) as Hm.
    { intros i m Hm. destruct (piece_text msg i H0) as [Ht Hl]. split; [destruct Hm as [->| ->]; cbn [vns_text]; unfold zlen; lia|].
      by apply (text_message m (piece msg i)). }
    intros m [(i & -> & _)%list_elem_of_fmap|(i & -> & _)%list_elem_of_fmap]; apply (Hm i); [by left|].
    destruct (Nat.ltb _ _); [by left|by right].
  - apply texts_concat. intros i. by destruct (Nat.ltb _ _).
  - unfold get_banners, get_banners_and_close, zlen. rewrite !length_fmap, !length_seq, pieces_eq.
    assert (Z.of_nat (S (length msg / 255)) = Z.of_nat (length msg) / 255 + 1) as Hn
      by (change 255 with (Z.of_nat 255); rewrite <-Nat2Z.inj_div; lia).
    split; [done|]. split; [done|]. exists (piece msg <$> seq 0 (length msg / 255)), (piece msg (length msg / 255)).
    rewrite seq_S, fmap_app. cbn [fmap list_fmap]. f_equal.
    + rewrite <-list_fmap_compose. apply list_fmap_ext. intros i x Hx. apply lookup_seq in Hx as [-> Hi].
      rewrite (proj2 (Nat.ltb_lt _ _)) by lia. done.
    + rewrite (proj2 (Nat.ltb_ge _ _)) by lia. done.
Qed.

(** * The theorems on examples *)

Lemma vns_roundtrip_witness :
  let m := VNSOpenTemplate (lit "two-nodes") (lit "sw0") [(lit "10.0.255.1", 24)] in
  exists b unpack, vns_pack m = Ok b /\ vns_unpack (get_type m) = Some unpack /\ unpack b = Ok m.
Proof.
  intros m. apply (vns_roundtrip m). split; [split; apply (bool_decide_unpack _); vm_compute; exact I|].
  split; [split; apply (bool_decide_unpack _); vm_compute; exact I|]. split; [discriminate|].
  apply Forall_cons; split; [split; [|cbn; lia]|apply Forall_nil; exact I]. exists [x0a; x00; xff; x01]. vm_compute. reflexivity.
Defined.
Lemma vns_length_exact_witness :
  vns_length (VNSAuthReply (lit "user") []) = zlen [x00; x00; x00; x04; x75; x73; x65; x72] + length_error (VNSAuthReply (lit "user") []).
Proof. apply (vns_length_exact (VNSAuthReply (lit "user") [])). vm_compute. reflexivity. Defined.
Lemma banners_reassemble_witness : let msg := replicate 510 x41 in
  concat (vns_text <$> get_banners msg) = msg /\ zlen (get_banners msg) = 3.
Proof.
  intros msg. destruct (banners_reassemble msg) as (_ & H & _ & Hn & _).
  - apply (bool_decide_unpack _). vm_compute. exact I.
  - split; [exact H|]. rewrite Hn. reflexivity.
Defined.
