(* ===== verification/Bridge.v ===== *)
(** [pox_module/cs561/ofhandler.py] and [srhandler.py]: the bridge between the switches that
    are connected to the controller and the routers under test, which are clients of a server
    for VNS messages.  A frame the switch has no flow for goes to every client under the name of
    the interface; a frame from a client goes out of the port of that name.  What [ltprotocol]
    does with a message it is given to send is a parameter. *)
From S2P Require Import Prelude.
From S2P Require Import Addresses.
From S2P Require Import OfConst.
From S2P Require Import Wire.
From S2P Require Import OfBase.
From S2P Require Import OfMessages.
From S2P Require Import Packets.
From S2P Require Import PacketCodec.
From S2P Require Import SoftSwitch.
From S2P Require Import Controller.
From S2P Require Import L2Learning.
From S2P Require Import PacketText.
From S2P Require Import Vns.

(** * The configuration file *)

(** [line.split()]. *)
Fixpoint split_words (word : bytes) (s : bytes) : list bytes :=
  match s with
  | [] => match word with [] => [] | _ => [word] end
  | c :: s =>
      if is_space c then match word with [] => split_words [] s | _ => word :: split_words [] s end
      else split_words (word ++ [c]) s
  end.

(** A row of the routing table: destination, gateway, mask, interface. *)
Abbreviation row := (bytes * bytes * bytes * bytes)%type.
Record settings := MkSettings { RTABLE : list row; ROUTER_IP : gmap bytes bytes }.

(** The loop over the lines of the file: up to the first blank one. *)
Fixpoint read_settings (lines : list bytes) (IP_SETTING : gmap bytes bytes) : res (gmap bytes bytes) :=
  match lines with
  | [] => Ok IP_SETTING
  | line :: lines =>
      match split_words [] line with
      | [] => Ok IP_SETTING
      | [name; ip] =>
          if bool_decide (ip = lit "<ELASTIC_IP>") then Err SystemExit
          else read_settings lines (<[name := ip]> IP_SETTING)
      | _ => Err ValueError
      end
  end.
Definition setting (IP_SETTING : gmap bytes bytes) (name : bytes) : res bytes :=
  match IP_SETTING !! name with Some ip => Ok ip | None => Err KeyError end.

(** [get_ip_setting]; None is a missing file, for which it returns -1. *)
Definition get_ip_setting (file : option (list bytes)) : res (option settings) :=
  match file with
  | None => Ok None
  | Some lines =>
      m ← read_settings lines ∅;
      client ← setting m (lit "client");
      server1 ← setting m (lit "server1");
      server2 ← setting m (lit "server2");
      eth1 ← setting m (lit "sw0-eth1");
      eth2 ← setting m (lit "sw0-eth2");
      eth3 ← setting m (lit "sw0-eth3");
      let mask := lit "255.255.255.255" in
      Ok (Some (MkSettings
        [(client, client, mask, lit "eth3"); (server1, server1, mask, lit "eth1"); (server2, server2, mask, lit "eth2")]
        (<[lit "eth3" := eth3]> (<[lit "eth2" := eth2]> {[lit "eth1" := eth1]}))))
  end.

(** * Addresses in text *)

Definition pack_mac (macaddr : bytes) : res bytes :=
  mapM_res (fun byte => v ← py_int 16 byte; chr v) (split_byte x3a macaddr).
Definition pack_ip (ipaddr : bytes) : res bytes :=
  mapM_res (fun byte => v ← py_int 10 byte; chr v) (split_byte x2e ipaddr).
Definition hw_toStr (a : hwaddr) : res bytes :=
  match a with HwEth a => Ok (eth_toStr [x3a] a) | HwBytes _ => Err AttributeError end.

(** * The bridge *)

(** What a client's connection is given to send: a message, or the string of
    [_handle_close_msg]. *)
Inductive sr_out := OutMsg (m : vns_msg) | OutText (s : bytes).

(** [b_handlers]: the connections of the [OFHandler]s, in the order they were made.
    [b_interfaces]: the attribute [interfaces], which the first [RouterInfo] sets.  [b_sent]:
    what was given to clients; [b_closed]: the connections told to close. *)
Record Bridge := MkBridge {
  b_settings : settings;
  b_handlers : list Z;
  b_clients : list Z;
  b_intfname_to_port : gmap bytes Z;
  b_port_to_intfname : gmap Z bytes;
  b_interfaces : option (list VNSInterface);
  b_sent : list (Z * sr_out);
  b_closed : list Z
}.
Definition Bridge_init (s : settings) : Bridge := MkBridge s [] [] ∅ ∅ None [] [].
Definition set_ofhandlers l b := MkBridge (b_settings b) l (b_clients b) (b_intfname_to_port b) (b_port_to_intfname b) (b_interfaces b) (b_sent b) (b_closed b).
Definition set_clients l b := MkBridge (b_settings b) (b_handlers b) l (b_intfname_to_port b) (b_port_to_intfname b) (b_interfaces b) (b_sent b) (b_closed b).
Definition set_names n p b := MkBridge (b_settings b) (b_handlers b) (b_clients b) n p (b_interfaces b) (b_sent b) (b_closed b).
Definition set_interfaces i b := MkBridge (b_settings b) (b_handlers b) (b_clients b) (b_intfname_to_port b) (b_port_to_intfname b) (Some i) (b_sent b) (b_closed b).
Definition add_sent x b := MkBridge (b_settings b) (b_handlers b) (b_clients b) (b_intfname_to_port b) (b_port_to_intfname b) (b_interfaces b) (b_sent b ++ [x]) (b_closed b).
Definition add_closed x b := MkBridge (b_settings b) (b_handlers b) (b_clients b) (b_intfname_to_port b) (b_port_to_intfname b) (b_interfaces b) (b_sent b) (b_closed b ++ [x]).

Section bridge.
Context `{AppCodec}.
Variable PIPE_BUF : Z.
Variable sock_send : Z -> nat -> bytes -> send_result.
(** [send] of a client's connection, which may raise, and its text. *)
Variable client_send : Z -> sr_out -> res unit.
Variable client_text : Z -> bytes.
Abbreviation World := (Controller.World Bridge).
Implicit Type w : World.

Definition modify_bridge (f : Bridge -> Bridge) : M World unit := modify (fun w => w_set_app (f (w_app w)) w).
Definition get_bridge : M World Bridge := w ← get; mret (w_app w).
Definition bridge_quiet (src : source) (id : Z) (e : event) : M World unit := mret tt.

(** ** srhandler.py: the clients *)

Definition client_out (client : Z) (m : sr_out) : M World unit :=
  '_ ← lift (client_send client m); modify_bridge (add_sent (client, m)).
Fixpoint broadcast (message : vns_msg) (clients : list Z) : M World unit :=
  match clients with
  | [] => mret tt
  | client :: clients => '_ ← client_out client (OutMsg message); broadcast message clients
  end.

(** The print statement makes the text of the parsed frame. *)
Definition handle_SRPacketIn (pkt : bytes) (port : Z) : M World unit :=
  b ← get_bridge;
  match b_port_to_intfname b !! port with
  | None => mret tt
  | Some intfname =>
      packet ← zoom w_ps w_set_ps (ethernet_new pkt);
      '_ ← lift (ethernet_str packet);
      broadcast (VNSPacket intfname pkt) (b_clients b)
  end.

(** [_handle_RouterInfo], over the items of [info]: name, (address, Ethernet address, port). *)
Fixpoint router_info (info : list (bytes * (bytes * bytes * Z))) (interfaces : list VNSInterface) : M World unit :=
  match info with
  | [] => modify_bridge (set_interfaces interfaces)
  | (intf, (ip, mac, port)) :: info =>
      ip ← lift (pack_ip ip);
      mac ← lift (pack_mac mac);
      mask ← lift (pack_ip (lit "255.255.255.255"));
      i ← lift (VNSInterface_init intf mac ip mask);
      '_ ← modify_bridge (fun b => set_names (<[intf := port]> (b_intfname_to_port b)) (<[port := intf]> (b_port_to_intfname b)) b);
      router_info info (interfaces ++ [i])
  end.
Definition handle_RouterInfo (info : gmap bytes (bytes * bytes * Z)) : M World unit := router_info (map_to_list info) [].

(** ** ofhandler.py: the switches *)

(** [self.sw_info], from the ports of the features reply. *)
Fixpoint sw_info (router_ip : gmap bytes bytes) (ports : list ofp_phy_port) (info : gmap bytes (bytes * bytes * Z))
    : res (gmap bytes (bytes * bytes * Z)) :=
  match ports with
  | [] => Ok info
  | port :: ports =>
      match split_byte x2d (pp_name port) with
      | _ :: intf_name :: _ =>
          match router_ip !! intf_name with
          | Some ip => mac ← hw_toStr (pp_hw_addr port); sw_info router_ip ports (<[intf_name := (ip, mac, pp_port_no port)]> info)
          | None => sw_info router_ip ports info
          end
      | _ => sw_info router_ip ports info
      end
  end.

(** [OFHandler.__init__]. *)
Definition OFHandler_init (con : Z) : M World unit :=
  '_ ← con_send PIPE_BUF sock_send bridge_quiet con (ofp_switch_config_pack true)
         (SwitchConfig (sc_hdr ofp_switch_config_init) (sc_flags ofp_switch_config_init) 20000);
  c ← get_con con;
  match con_features c with
  | None => raise AttributeError
  | Some features =>
      b ← get_bridge;
      info ← lift (sw_info (ROUTER_IP (b_settings b)) (fy_ports features) ∅);
      '_ ← modify_bridge (fun b => set_ofhandlers (b_handlers b ++ [con]) b);
      handle_RouterInfo info
  end.

(** [OFHandler._handle_PacketIn], after [event.parse()]: [pkt.raw] is the data that came. *)
Definition handle_frame (con : Z) (ofp : ofp_packet_in) : M World unit :=
  '_ ← handle_SRPacketIn (pi_data ofp) (pi_in_port ofp);
  '_ ← con_send PIPE_BUF sock_send bridge_quiet con (ofp_packet_out_pack true)
         (packet_out (pi_buffer_id ofp) (pi_in_port ofp) []);
  mret tt.
Fixpoint each_handler (con : Z) (ofp : ofp_packet_in) (handlers : list Z) : M World unit :=
  match handlers with
  | [] => mret tt
  | h :: handlers => '_ ← (if h =? con then handle_frame con ofp else mret tt); each_handler con ofp handlers
  end.

(** [OFHandler._handle_SRPacketOut], of every handler. *)
Definition frame_out (pkt : bytes) (port : Z) : ofp_packet_out :=
  PacketOut (po_hdr ofp_packet_out_init) (-1) OFPP_NONE [action_output port] pkt.
Fixpoint handle_SRPacketOut (pkt : bytes) (port : Z) (handlers : list Z) : M World unit :=
  match handlers with
  | [] => mret tt
  | con :: handlers =>
      '_ ← con_send PIPE_BUF sock_send bridge_quiet con (ofp_packet_out_pack true) (frame_out pkt port);
      handle_SRPacketOut pkt port handlers
  end.

(** What the components hear of the controller. *)
Definition bridge_listener (src : source) (con : Z) (e : event) : M World unit :=
  match src, e with
  | Nexus, EvConnectionUp _ => OFHandler_init con
  | OnCon _, EvPacketIn ofp =>
      b ← get_bridge;
      if existsb (Z.eqb con) (b_handlers b) then
        '_ ← zoom w_ps w_set_ps (ethernet_new (pi_data ofp));
        each_handler con ofp (b_handlers b)
      else mret tt
  | _, _ => mret tt
  end.

(** ** srhandler.py: what clients say *)

Definition handle_new_client (client : Z) (salt : bytes) : M World unit :=
  '_ ← modify_bridge (fun b => set_clients (b_clients b ++ [client]) b);
  client_out client (OutMsg (VNSAuthRequest salt)).
Definition lose_connection (client : Z) : M World unit := modify_bridge (add_closed client).
Definition handle_client_disconnected (client : Z) : M World unit := lose_connection client.

Definition handle_auth_reply (client : Z) : M World unit :=
  client_out client (OutMsg (VNSAuthStatus true (lit "authenticated " ++ client_text client ++ lit " as user"))).
(** A bare [except] around the answer. *)
Definition handle_open_msg (client : Z) : M World unit := fun w =>
  match (b ← get_bridge;
         match b_interfaces b with
         | None => raise AttributeError
         | Some interfaces => client_out client (OutMsg (VNSHardwareInfo interfaces))
         end) w with
  | (_, w) => (Ok tt, w)
  end.
Definition handle_close_msg (client : Z) : M World unit :=
  '_ ← client_out client (OutText (lit "Goodbyte!")); lose_connection client.
(** For an unknown interface the message about it looks at [out_port]. *)
Definition handle_packet_msg (out_intf pkt : bytes) : M World unit :=
  b ← get_bridge;
  match b_intfname_to_port b !! out_intf with
  | None => raise UnboundLocalError
  | Some out_port => handle_SRPacketOut pkt out_port (b_handlers b)
  end.

(** [_handle_recv_msg]; there is no [_handle_open_template_msg]. *)
Definition handle_recv_msg (client : Z) (m : option vns_msg) : M World unit :=
  match m with
  | None => handle_close_msg client
  | Some (VNSAuthReply _ _) => handle_auth_reply client
  | Some (VNSOpen _ _ _ _) => handle_open_msg client
  | Some (VNSClose _) => handle_close_msg client
  | Some (VNSPacket intf_name ethernet_frame) => handle_packet_msg intf_name ethernet_frame
  | Some (VNSOpenTemplate _ _ _) => raise AttributeError
  | Some _ => mret tt
  end.
End bridge.
