(* ===== verification/BridgeTheory.v ===== *)
(** The bridge: frames of the switch reach the clients under the name of their interface, what
    a client sends goes out of the port of that name, and which frames do not cross. *)
From S2P Require Import Prelude.
From S2P Require Import Steps.
From S2P Require Import PyStruct.
From S2P Require Import Addresses.
From S2P Require Import OfConst.
From S2P Require Import Wire.
From S2P Require Import OfBase.
From S2P Require Import OfActions.
From S2P Require Import OfMessages.
From S2P Require Import Packets.
From S2P Require Import PacketCodec.
From S2P Require Import PacketTheory.
From S2P Require Import Dhcp.
From S2P Require Import Connection.
From S2P Require Import SoftSwitch.
From S2P Require Import Controller.
From S2P Require Import ControllerTheory.
From S2P Require Import L2Learning.
From S2P Require Import L2Theory.
From S2P Require Import PacketText.
From S2P Require Import Vns.
From S2P Require Import VnsTheory.
From S2P Require Import Bridge.

(** * Text *)

(** A packet that holds a DHCP message at some depth. *)
Fixpoint holds_dhcp (p : payload) : Prop :=
  match p with
  | PPacket _ (LApp c _) _ => c = C_dhcp
  | PPacket _ (LArp _ | LEcho _) _ => False
  | PPacket _ _ next => holds_dhcp next
  | _ => False
  end.

Lemma chars_hex_raises s : s <> [] -> chars_hex s = Err ValueError.
Proof. by destruct s. Qed.
Lemma slice_not_nil {A} (l : list A) i j : 0 <= i < j -> j <= zlen l -> slice l i j <> [].
Proof. intros Hi Hj E. pose proof (zlen_slice l i j) as Hl. rewrite E in Hl. change (zlen []) with 0 in Hl. lia. Qed.
Lemma dhcp_str_raises raw : exists e, (d ← dhcp_parse raw; dhcp_str d) = Err e.
Proof.
  unfold dhcp_parse. destruct (Z.ltb_spec (zlen raw) DHCP_MIN_LEN) as [|Hl]; [by eexists|]. unfold DHCP_MIN_LEN in Hl.
  assert (slice raw 236 240 <> []) as Hm by (apply slice_not_nil; lia).
  assert (slice raw 28 44 <> []) as Hc by (apply slice_not_nil; lia).
  assert (forall d, dh_magic d = slice raw 236 240 -> (exists a, dh_chaddr d = ChEth a) \/ dh_chaddr d = ChBytes (slice raw 28 44) ->
    exists e, dhcp_str d = Err e) as Hd.
  { intros d Em Ec. unfold dhcp_str. destruct Ec as [[a ->]| ->]; [|rewrite (chars_hex_raises _ Hc); by eexists].
    cbn [mbind res_bind]. rewrite Em, (chars_hex_raises _ Hm). by eexists. }
  repeat match goal with
  | |- exists e, (mbind _ (mbind _ ?x)) = _ => let E := fresh in destruct x eqn:E; cbn [mbind res_bind]; [|by eexists]
  | |- exists e, (mbind _ (match ?x with _ => _ end)) = _ => let E := fresh in destruct x eqn:E; cbn [mbind res_bind]; try (by eexists)
  | |- exists e, dhcp_str _ = _ => apply Hd; cbn; [done|]
  | |- exists e, Err _ = _ => by eexists
  end.
  all: match goal with E : (if ?b then _ else _) = Ok _ |- _ => destruct b end;
    [destruct (EthAddr_init _) as [a'|]; [|done]|];
    match goal with E : Ok _ = Ok _ |- _ => injection E as <- | E : _ = Ok _ |- _ => injection E as <- end; [left; by eexists|by right].
Qed.

Lemma dhcp_text_raises p : holds_dhcp p -> exists e, payload_str p = Err e.
Proof.
  induction p as [| |b|parsed l next IH]; intros Hp; [done..|].
  destruct l as [| | | | | | | | | |e|c raw]; cbn [holds_dhcp] in Hp; cbn [payload_str]; try done; try (by apply IH).
  - destruct (eap_str e); [by apply IH|by eexists].
  - subst c. apply dhcp_str_raises.
Qed.

(** * Frames from the switch *)

Section bridge.
Context `{AppCodec} (PIPE_BUF : Z) (sock_send : Z -> nat -> bytes -> send_result).
Context (client_send : Z -> sr_out -> res unit) (client_text : Z -> bytes).
Abbreviation World := (Controller.World Bridge).
Implicit Type w : World.

Definition sent_to (l : list (Z * sr_out)) (b : Bridge) : Bridge := foldl (fun b x => add_sent x b) b l.
Lemma sent_to_spec l b : sent_to l b =
  MkBridge (b_settings b) (b_handlers b) (b_clients b) (b_intfname_to_port b) (b_port_to_intfname b) (b_interfaces b) (b_sent b ++ l) (b_closed b).
Proof.
  revert b; induction l as [|x l IH]; intros b; [by destruct b; cbn; rewrite app_nil_r|]. cbn [sent_to foldl]. fold (sent_to l (add_sent x b)).
  rewrite IH. cbn. by rewrite <- app_assoc.
Qed.

Lemma broadcast_ok m clients w : Forall (fun client => client_send client (OutMsg m) = Ok tt) clients ->
  broadcast client_send m clients w = (Ok tt, w_set_app (sent_to ((fun client => (client, OutMsg m)) <$> clients) (w_app w)) w).
Proof.
  intros Hc. revert w; induction Hc as [|client clients E _ IH]; intros w; [by destruct w|]. cbn [broadcast].
  erewrite bind_ok; [|unfold client_out; erewrite bind_ok by (unfold lift; rewrite E; reflexivity); reflexivity].
  by rewrite IH.
Qed.

(** The frames that can be told apart and printed, however the parser's counters stand. *)
Definition printable_frame (data : bytes) : Prop :=
  forall ps, exists packet ps', ethernet_new data ps = (Ok packet, ps') /\ ethernet_str packet = Ok tt.

(** A packet-in on the connection of the bridge's only handler for it. *)
Record bridged (con : Z) (ofp : ofp_packet_in) (intf : bytes) (c : Con) w : Prop := {
  br_con : w_cons w !! con = Some c;
  br_up : con_disconnected c = false;
  br_takes : takes_all sock_send con;
  br_sending : w_sending w = false;
  br_xids : 0 <= w_xids w < 2 ^ 31;
  br_handler : exists l1 l2, b_handlers (w_app w) = l1 ++ con :: l2 /\ con ∉ l1 /\ con ∉ l2;
  br_name : b_port_to_intfname (w_app w) !! pi_in_port ofp = Some intf;
  br_port : u16 (pi_in_port ofp);
  br_buffer : buffer_wf (pi_buffer_id ofp)
}.

Lemma each_handler_none con ofp l w : con ∉ l -> each_handler PIPE_BUF sock_send client_send con ofp l w = (Ok tt, w).
Proof.
  induction l as [|h l IH]; [done|]. intros [Hne Hl]%not_elem_of_cons. cbn [each_handler].
  rewrite (proj2 (Z.eqb_neq _ _)) by congruence. erewrite bind_ok by reflexivity. by apply IH.
Qed.
Lemma each_handler_one con ofp l1 l2 w w' : con ∉ l1 -> con ∉ l2 -> handle_frame PIPE_BUF sock_send client_send con ofp w = (Ok tt, w') ->
  each_handler PIPE_BUF sock_send client_send con ofp (l1 ++ con :: l2) w = (Ok tt, w').
Proof.
  intros H1 H2 E. induction l1 as [|h l1 IH]; cbn [app each_handler].
  - rewrite Z.eqb_refl. erewrite bind_ok by exact E. by apply each_handler_none.
  - apply not_elem_of_cons in H1 as [Hne H1]. rewrite (proj2 (Z.eqb_neq _ _)) by congruence. erewrite bind_ok by reflexivity. by apply IH.
Qed.
Lemma each_handler_err con ofp l1 l2 w e w' : con ∉ l1 -> handle_frame PIPE_BUF sock_send client_send con ofp w = (Err e, w') ->
  each_handler PIPE_BUF sock_send client_send con ofp (l1 ++ con :: l2) w = (Err e, w').
Proof.
  intros H1 E. induction l1 as [|h l1 IH]; cbn [app each_handler].
  - rewrite Z.eqb_refl. by erewrite bind_err by exact E.
  - apply not_elem_of_cons in H1 as [Hne H1]. rewrite (proj2 (Z.eqb_neq _ _)) by congruence. erewrite bind_ok by reflexivity. by apply IH.
Qed.

(** Up.  A packet-in on a port that has a name, with a frame that can be printed, is sent
    to every client, in order, as a VNS packet with the name and exactly the bytes of the
    frame - which the client's side of the protocol reads as these; the switch is then told to
    do nothing with the frame it buffered.  Nothing else changes. *)
Theorem frame_reaches_clients con ofp intf c w : bridged con ofp intf c w -> printable_frame (pi_data ofp) ->
  Forall (fun client => client_send client (OutMsg (VNSPacket intf (pi_data ofp))) = Ok tt) (b_clients (w_app w)) ->
  exists w' b h, bridge_listener PIPE_BUF sock_send client_send (OnCon con) con (EvPacketIn ofp) w = (Ok tt, w') /\
    w_app w' = sent_to ((fun client => (client, OutMsg (VNSPacket intf (pi_data ofp)))) <$> b_clients (w_app w)) (w_app w) /\
    the_con con w' = sent b c /\ (forall con', con' <> con -> the_con con' w' = the_con con' w) /\
    frame b OFPT_PACKET_OUT (MPacketOut (PacketOut h (pi_buffer_id ofp) (pi_in_port ofp) [] [])) /\
    (text 16 intf -> exists s unpack, vns_pack (VNSPacket intf (pi_data ofp)) = Ok s /\
       vns_unpack (get_type (VNSPacket intf (pi_data ofp))) = Some unpack /\ unpack s = Ok (VNSPacket intf (pi_data ofp))).
Proof.
  intros [Hc Hup Ht Hs Hx (l1 & l2 & Hl & Hl1 & Hl2) Hname Hport Hbuf] Hpr Hcl.
  destruct (Hpr (w_ps w)) as (p1 & ps1 & E1 & _). destruct (Hpr ps1) as (p2 & ps2 & E2 & Estr).
  set (m := VNSPacket intf (pi_data ofp)) in *. set (b' := sent_to _ _).
  assert (msg_wf (packet_out (pi_buffer_id ofp) (pi_in_port ofp) [])) as Hw by (by apply packet_out_wf).
  destruct (packs (packet_out (pi_buffer_id ofp) (pi_in_port ofp) []) (w_xids w) Hw Hx) as (b & x' & E & _ & F); [done|done|].
  set (w2 := w_set_app b' (w_set_ps ps2 w)).
  exists (after con (sent b c) (w_nexus w2) x' (w_raised w2) (w_app w2) w2), b. eexists.
  split; [|split; [reflexivity|split; [apply the_con_after|split; [|split; [exact F|]]]]].
  - cbn [bridge_listener]. erewrite bind_ok by reflexivity.
    assert (existsb (Z.eqb con) (b_handlers (w_app w)) = true) as -> by (rewrite Hl, existsb_app; cbn; by rewrite Z.eqb_refl, orb_true_r).
    erewrite bind_ok by (unfold zoom; rewrite E1; reflexivity). rewrite Hl. apply each_handler_one; [done..|].
    unfold handle_frame. erewrite (bind_ok _ _ _ tt w2); [erewrite bind_ok; [reflexivity|]|].
    + rewrite (after_self con c w2 Hc) at 1. by apply con_send_after.
    + unfold handle_SRPacketIn. erewrite bind_ok by reflexivity. change (w_app (w_set_ps ps1 w)) with (w_app w). rewrite Hname.
      erewrite bind_ok by (unfold zoom; change (w_ps (w_set_ps ps1 w)) with ps1; rewrite E2; reflexivity).
      erewrite bind_ok by (unfold lift; rewrite Estr; reflexivity). by apply broadcast_ok.
  - intros con' Hne. unfold the_con, lookup_total, map_lookup_total.
    cbn [w_cons after w_set_app w_set_raised w_set_xids w_set_nexus w_set_cons]. by rewrite lookup_insert_ne.
  - intros Htext. by apply (vns_survives m).
Qed.

(** What does not cross.  A frame in which the parser finds a DHCP message - in UDP, behind
    tags or not - cannot be printed: formatting its characters as numbers raises.  So the
    handler raises before any client is told, and before the switch is: the frame stays in
    the switch's buffer, and no client hears of it. *)
Theorem dhcp_does_not_cross con ofp intf c w : bridged con ofp intf c w ->
  (forall ps, exists packet ps', ethernet_new (pi_data ofp) ps = (Ok packet, ps') /\ holds_dhcp (eth_next packet)) ->
  exists e w', bridge_listener PIPE_BUF sock_send client_send (OnCon con) con (EvPacketIn ofp) w = (Err e, w') /\
    w_app w' = w_app w /\ w_cons w' = w_cons w.
Proof.
  intros [Hc Hup Ht Hs Hx (l1 & l2 & Hl & Hl1 & Hl2) Hname Hport Hbuf] Hp.
  destruct (Hp (w_ps w)) as (p1 & ps1 & E1 & _). destruct (Hp ps1) as (p2 & ps2 & E2 & Hd).
  assert (exists e, ethernet_str p2 = Err e) as [e Estr].
  { unfold ethernet_str. destruct (hw_str (eth_src p2)); [|by eexists]. destruct (hw_str (eth_dst p2)); [|by eexists]. by apply dhcp_text_raises. }
  exists e, (w_set_ps ps2 w). split; [|done]. cbn [bridge_listener]. erewrite bind_ok by reflexivity.
  assert (existsb (Z.eqb con) (b_handlers (w_app w)) = true) as -> by (rewrite Hl, existsb_app; cbn; by rewrite Z.eqb_refl, orb_true_r).
  erewrite bind_ok by (unfold zoom; rewrite E1; reflexivity). rewrite Hl. apply each_handler_err; [done|].
  unfold handle_frame. apply bind_err. unfold handle_SRPacketIn. erewrite bind_ok by reflexivity.
  change (w_app (w_set_ps ps1 w)) with (w_app w). rewrite Hname.
  erewrite bind_ok by (unfold zoom; change (w_ps (w_set_ps ps1 w)) with ps1; rewrite E2; reflexivity).
  apply bind_err. unfold lift. by rewrite Estr.
Qed.

(** * Frames from clients *)

(** A connection in order. *)
Definition in_order w (con : Z) : Prop :=
  exists c, w_cons w !! con = Some c /\ con_disconnected c = false /\ takes_all sock_send con.
(** A packet-out with exactly this frame, to this port. *)
Definition carries_out (pkt : bytes) (port : Z) (b : bytes) : Prop :=
  exists h, frame b OFPT_PACKET_OUT (MPacketOut (PacketOut h (-1) OFPP_NONE [action_settle (action_output port)] pkt)).

Lemma frame_out_wf pkt port : u16 port -> zlen pkt <= 65000 -> msg_wf (frame_out pkt port).
Proof.
  intros Hp Hl. pose proof (zlen_nonneg pkt).
  cbn [msg_wf ofp_packet_out_msg frame_out po_hdr po_actions po_data po_buffer_id po_in_port].
  change (len_list 16 [action_output port]) with 24. split; [|split; [by left|split; [by left|split; [by vm_compute|]]]].
  - unfold hdr_wf. cbn. unfold OFP_VERSION, OFPT_PACKET_OUT. split; [lia|]. split; [lia|]. by split; [lia|].
  - apply Forall_singleton. by apply output_wf.
Qed.

Lemma handle_SRPacketOut_ok pkt port l w : u16 port -> zlen pkt <= 65000 -> NoDup l -> Forall (in_order w) l ->
  w_sending w = false -> 0 <= w_xids w < 2 ^ 31 ->
  exists w', handle_SRPacketOut PIPE_BUF sock_send pkt port l w = (Ok tt, w') /\ w_app w' = w_app w /\
    (forall con, con ∈ l -> exists b, the_con con w' = sent b (the_con con w) /\ carries_out pkt port b) /\
    (forall con, con ∉ l -> the_con con w' = the_con con w).
Proof.
  intros Hp Hlen. revert w; induction l as [|con l IH]; intros w Hnd Hin Hs Hx.
  { exists w. split; [done|]. split; [done|]. split; [intros con Hc; by apply not_elem_of_nil in Hc|done]. }
  apply NoDup_cons in Hnd as [Hcon Hnd]. apply Forall_cons in Hin as [(c & Hc & Hup & Ht) Hin].
  destruct (packs (frame_out pkt port) (w_xids w) (frame_out_wf pkt port Hp Hlen) Hx) as (b & x' & E & Hx' & F); [done|done|].
  assert (the_con con w = c) as Ec by by apply lookup_total_correct.
  set (w1 := after con (sent b c) (w_nexus w) x' (w_raised w) (w_app w) w).
  assert (forall con', con' <> con -> w_cons w1 !! con' = w_cons w !! con') as Hother.
  { intros con' Hne. unfold w1. cbn [w_cons after w_set_app w_set_raised w_set_xids w_set_nexus w_set_cons]. by rewrite lookup_insert_ne. }
  destruct (IH w1 Hnd) as (w' & E' & Ha & Hl & Ho); [|done|done|].
  { apply Forall_forall. intros con' Hc'. destruct (proj1 (Forall_forall _ _) Hin con' Hc') as (c' & H1 & H2 & H3). exists c'.
    rewrite Hother by (intros ->; done). done. }
  exists w'. split; [|split; [by rewrite Ha|split]].
  - cbn [handle_SRPacketOut]. erewrite bind_ok; [exact E'|].
    rewrite (after_self con c w Hc) at 1. by apply con_send_after.
  - intros con' [->|Hc']%elem_of_cons.
    + exists b. rewrite (Ho con Hcon). unfold w1. rewrite the_con_after, Ec. split; [done|]. eexists. exact F.
    + destruct (Hl con' Hc') as (b' & Hb & Hf). exists b'. split; [|done]. rewrite Hb. f_equal.
      unfold the_con, lookup_total, map_lookup_total. rewrite Hother; [done|]. intros ->. done.
  - intros con' [Hne Hc']%not_elem_of_cons. rewrite (Ho con' Hc').
    unfold the_con, lookup_total, map_lookup_total. by rewrite Hother.
Qed.

(** The names of the ports: a switch's interfaces, as [_handle_RouterInfo] gets them. *)
Definition info_ok (i : bytes * (bytes * bytes * Z)) : Prop :=
  exists ip mac, pack_ip i.2.1.1 = Ok ip /\ zlen ip = 4 /\ pack_mac i.2.1.2 = Ok mac /\ zlen mac = 6.
Definition info_interface (i : bytes * (bytes * bytes * Z)) (v : VNSInterface) : Prop :=
  if_name v = i.1 /\ pack_ip i.2.1.1 = Ok (if_ip v) /\ pack_mac i.2.1.2 = Ok (if_mac v) /\ if_mask v = [xff; xff; xff; xff].

Lemma router_info_ok info l w : Forall info_ok info -> NoDup info.*1 -> NoDup (info.*2.*2) ->
  exists vs n p, router_info info l w = (Ok tt, w_set_app (set_interfaces (l ++ vs) (set_names n p (w_app w))) w) /\
    Forall2 info_interface info vs /\
    (forall intf, (forall x port, (intf, (x, port)) ∈ info -> n !! intf = Some port) /\
       (intf ∉ info.*1 -> n !! intf = b_intfname_to_port (w_app w) !! intf)) /\
    (forall port, (forall x intf, (intf, (x, port)) ∈ info -> p !! port = Some intf) /\
       (port ∉ info.*2.*2 -> p !! port = b_port_to_intfname (w_app w) !! port)).
Proof.
  intros Hok. revert l w; induction Hok as [|[intf [[ipt mact] port]] info (ip & mac & Eip & Lip & Emac & Lmac) _ IH]; intros l w Hn Hp.
  { exists [], (b_intfname_to_port (w_app w)), (b_port_to_intfname (w_app w)). rewrite app_nil_r.
    split; [by destruct w as [? ? ? ? ? ? ? ? ? [] ?]|]. split; [done|].
    split; intros k; (split; [intros x y Hk; by apply not_elem_of_nil in Hk|done]). }
  change (NoDup (intf :: info.*1)) in Hn. change (NoDup (port :: info.*2.*2)) in Hp.
  apply NoDup_cons in Hn as [Hi Hn]. apply NoDup_cons in Hp as [Hq Hp]. cbn [fst snd] in Eip, Emac, Hi, Hq.
  set (v := MkVNSInterface intf mac ip [xff; xff; xff; xff]).
  set (w1 := w_set_app (set_names (<[intf := port]> (b_intfname_to_port (w_app w))) (<[port := intf]> (b_port_to_intfname (w_app w))) (w_app w)) w).
  destruct (IH (l ++ [v]) w1 Hn Hp) as (vs & n & p & E & Hvs & HN & HP). exists (v :: vs), n, p. split; [|split; [|split]].
  - cbn [router_info]. erewrite bind_ok by (unfold lift; rewrite Eip; reflexivity). erewrite bind_ok by (unfold lift; rewrite Emac; reflexivity).
    erewrite bind_ok by (unfold lift; vm_compute; reflexivity).
    erewrite bind_ok by (unfold lift, VNSInterface_init; rewrite Lip, Lmac; reflexivity).
    erewrite bind_ok by reflexivity. rewrite <- app_assoc in E. exact E.
  - apply Forall2_cons. split; [|done]. by repeat split.
  - intros k. destruct (HN k) as [H1 H2]. split.
    + intros x port' [[= -> -> ->]|Hk]%elem_of_cons; [|by eapply H1]. rewrite H2 by done. cbn. by rewrite lookup_insert_eq.
    + change (k ∉ intf :: info.*1 -> n !! k = b_intfname_to_port (w_app w) !! k).
      intros [Hne Hk]%not_elem_of_cons. rewrite H2 by done. cbn in *. by rewrite lookup_insert_ne.
  - intros k. destruct (HP k) as [H1 H2]. split.
    + intros x intf' [[= -> -> ->]|Hk]%elem_of_cons; [|by eapply H1]. rewrite H2 by done. cbn. by rewrite lookup_insert_eq.
    + change (k ∉ port :: info.*2.*2 -> p !! k = b_port_to_intfname (w_app w) !! k).
      intros [Hne Hk]%not_elem_of_cons. rewrite H2 by done. cbn in *. by rewrite lookup_insert_ne.
Qed.

(** C19: Down.  When a switch's interfaces become known, each with a text of an address that
    packs and a port of its own, ports and names are the inverse of each other for them, and
    clients are offered exactly these interfaces.  From then on a frame that a client sends on
    an interface goes, byte for byte, out of the port of that name - of every switch that is
    connected, the bridge keeps no more than the name - and nowhere else; so what a client
    sends on the interface it received something on goes back where that came from. *)
Theorem client_frame_goes_out (info : gmap bytes (bytes * bytes * Z)) w :
  map_Forall (fun intf x => info_ok (intf, x)) info ->
  (forall i j x y port, info !! i = Some (x, port) -> info !! j = Some (y, port) -> i = j) ->
  exists w1 vs, handle_RouterInfo info w = (Ok tt, w1) /\
    b_interfaces (w_app w1) = Some vs /\ Forall2 info_interface (map_to_list info) vs /\
    forall intf x port, info !! intf = Some (x, port) -> b_port_to_intfname (w_app w1) !! port = Some intf /\
      forall client pkt, u16 port -> zlen pkt <= 65000 ->
        let handlers := b_handlers (w_app w1) in
        NoDup handlers -> Forall (in_order w1) handlers -> w_sending w1 = false -> 0 <= w_xids w1 < 2 ^ 31 ->
        exists w2, handle_recv_msg PIPE_BUF sock_send client_send client_text client (Some (VNSPacket intf pkt)) w1 = (Ok tt, w2) /\
          w_app w2 = w_app w1 /\
          (forall con, con ∈ handlers -> exists b, the_con con w2 = sent b (the_con con w1) /\ carries_out pkt port b) /\
          (forall con, con ∉ handlers -> the_con con w2 = the_con con w1).
Proof.
  intros Hok Hports. destruct (router_info_ok (map_to_list info) [] w) as (vs & n & p & E & Hvs & HN & HP).
  { apply Forall_forall. intros [intf x] Hi%elem_of_map_to_list. by apply (Hok intf x). }
  { apply NoDup_fst_map_to_list. }
  { rewrite <- list_fmap_compose. apply NoDup_fmap_2_strong; [|apply NoDup_map_to_list].
    intros [i [x port]] [j [y port']] Hi%elem_of_map_to_list Hj%elem_of_map_to_list. cbn. intros ->.
    assert (i = j) as -> by by eapply Hports. congruence. }
  eexists _, vs. split; [exact E|]. split; [done|]. split; [done|]. intros intf x port Hi.
  assert ((intf, (x, port)) ∈ map_to_list info) as Hin by by apply elem_of_map_to_list.
  split; [by eapply (proj1 (HP port))|]. intros client pkt Hp Hl handlers Hnd Ho Hs Hx.
  destruct (handle_SRPacketOut_ok pkt port handlers _ Hp Hl Hnd Ho Hs Hx) as (w2 & E2 & Ha & H1 & H2).
  exists w2. split; [|done]. cbn [handle_recv_msg]. unfold handle_packet_msg. erewrite bind_ok by reflexivity.
  cbn [b_intfname_to_port w_app w_set_app set_interfaces set_names]. by rewrite (proj1 (HN intf) x port Hin).
Qed.

(** What a client can do wrong - or right, too early: an unknown interface and any template
    raise, and an open before a switch has connected gets no answer. *)
Lemma client_mistakes client w :
  (forall intf pkt, b_intfname_to_port (w_app w) !! intf = None ->
     handle_recv_msg PIPE_BUF sock_send client_send client_text client (Some (VNSPacket intf pkt)) w = (Err UnboundLocalError, w)) /\
  (forall name vrhost fs,
     handle_recv_msg PIPE_BUF sock_send client_send client_text client (Some (VNSOpenTemplate name vrhost fs)) w = (Err AttributeError, w)) /\
  (b_interfaces (w_app w) = None -> forall topo_id vhost user pw,
     handle_recv_msg PIPE_BUF sock_send client_send client_text client (Some (VNSOpen topo_id vhost user pw)) w = (Ok tt, w)).
Proof.
  split; [|split; [done|]].
  - intros intf pkt Hn. cbn [handle_recv_msg]. unfold handle_packet_msg. erewrite bind_ok by reflexivity. by rewrite Hn.
  - intros Hi topo_id vhost user pw. cbn [handle_recv_msg]. unfold handle_open_msg. erewrite bind_ok by reflexivity. by rewrite Hi.
Qed.
End bridge.

(** * Witnesses *)

#[local] Existing Instance no_apps.

(** The file that comes with the repository, and a switch with the ports it names. *)
Definition ex_file : list bytes :=
  [lit "server1 192.168.2.2"; lit "server2 172.64.3.10"; lit "client    10.0.1.100"; lit "sw0-eth1 192.168.2.1";
   lit "sw0-eth2 172.64.3.1"; lit "sw0-eth3 10.0.1.1"].
Definition ex_settings : settings := Eval vm_compute in
  match get_ip_setting (Some ex_file) with Ok (Some s) => s | _ => MkSettings [] ∅ end.
Definition ex_sw_port (n : Z) (name : bytes) : ofp_phy_port := PhyPort n (HwEth (MkEth (be_enc 6 n))) name 0 0 0 0 0 0.
Definition ex_sw_ports : list ofp_phy_port := [ex_sw_port 1 (lit "sw0-eth1"); ex_sw_port 2 (lit "sw0-eth2"); ex_sw_port 3 (lit "sw0-eth3")].
Definition ex_info : gmap bytes (bytes * bytes * Z) :=
  match sw_info (ROUTER_IP ex_settings) ex_sw_ports ∅ with Ok info => info | Err _ => ∅ end.
Definition ex_bridge_con : Con := con_set_dpid (Some 9) Con_fresh.
Definition ex_bridge : Bridge := MkBridge ex_settings [1] [5; 6] ∅ ∅ None [] [].
Definition ex_bridge_world (b : Bridge) : Controller.World Bridge :=
  MkWorld {[1 := ex_bridge_con]} 2 {[Some 9 := 1]} false ∅ 0 7 (PState 0 (fun _ => 0)) [] b [].
Definition ex_bridge_socket (_ : Z) (_ : nat) (data : bytes) : send_result := Sent (zlen data).
Definition ex_client (_ : Z) (_ : sr_out) : res unit := Ok tt.
Definition ex_client_text (_ : Z) : bytes := lit "a client".

Definition ex_entries : list (bytes * (bytes * bytes * Z)) := [
  (lit "eth1", (lit "192.168.2.1", lit "00:00:00:00:00:01", 1)); (lit "eth2", (lit "172.64.3.1", lit "00:00:00:00:00:02", 2));
  (lit "eth3", (lit "10.0.1.1", lit "00:00:00:00:00:03", 3))].
Lemma ex_info_entries intf x : ex_info !! intf = Some x -> (intf, x) ∈ ex_entries.
Proof.
  intros Hi%elem_of_map_to_list. assert (Forall (fun e => e ∈ ex_entries) (map_to_list ex_info)) as Hall
    by (apply (bool_decide_unpack _); vm_compute; exact I).
  by apply (proj1 (Forall_forall _ _) Hall).
Qed.

Lemma client_frame_goes_out_witness : exists w1 vs, handle_RouterInfo ex_info (ex_bridge_world ex_bridge) = (Ok tt, w1) /\
  b_interfaces (w_app w1) = Some vs /\ length vs = 3%nat /\ b_port_to_intfname (w_app w1) !! 2 = Some (lit "eth2").
Proof.
  destruct (client_frame_goes_out 10 ex_bridge_socket ex_client ex_client_text ex_info (ex_bridge_world ex_bridge)) as (w1 & vs & E & Hvs & Hall & Hi).
  - intros intf x Hx. apply ex_info_entries in Hx. apply list_elem_of_In in Hx. cbn in Hx.
    repeat destruct Hx as [[= <- <-]|Hx]; [..|done]; eexists _, _; vm_compute; repeat split; reflexivity.
  - intros i j x y port H1 H2. apply ex_info_entries, list_elem_of_In in H1. apply ex_info_entries, list_elem_of_In in H2. cbn in H1, H2.
    repeat destruct H1 as [[= <- <- <-]|H1]; repeat destruct H2 as [[= <- <-]|H2]; done.
  - exists w1, vs. split; [exact E|]. split; [exact Hvs|].
    split; [rewrite <- (Forall2_length _ _ _ Hall); vm_compute; reflexivity|].
    destruct (Hi (lit "eth2") (lit "172.64.3.1", lit "00:00:00:00:00:02") 2) as [H _]; [vm_compute; reflexivity|exact H].
Defined.

(** An unknown Ethernet type on port 2, buffered under 5; and a DHCP message. *)
Definition ex_named : Bridge := MkBridge ex_settings [1] [5; 6] {[lit "eth2" := 2]} {[2 := lit "eth2"]} None [] [].
Definition ex_frame_in (data : bytes) : ofp_packet_in := PacketIn (Hdr OFP_VERSION OFPT_PACKET_IN 18 (Some 1)) 2 5 OFPR_NO_MATCH data 17.
Definition ex_plain_frame : bytes := byte_of_Z <$> ([0;0;0;0;0;3] ++ [0;0;0;0;0;1] ++ [0x12;0x34] ++ [1;2;3]).
Lemma ex_bridged data : bridged ex_bridge_socket 1 (ex_frame_in data) (lit "eth2") ex_bridge_con (ex_bridge_world ex_named).
Proof.
  assert (exists l1 l2, [1] = l1 ++ 1 :: l2 /\ 1 ∉ l1 /\ 1 ∉ l2) as Hone
    by (exists [], []; split; [reflexivity|split; apply not_elem_of_nil]).
  split; solve [reflexivity|exact Hone|intros ? ?; reflexivity|vm_compute; by split|right; vm_compute; by split].
Qed.

Lemma frame_reaches_clients_witness : exists w',
  bridge_listener 10 ex_bridge_socket ex_client (OnCon 1) 1 (EvPacketIn (ex_frame_in ex_plain_frame)) (ex_bridge_world ex_named) = (Ok tt, w') /\
  b_sent (w_app w') = [(5, OutMsg (VNSPacket (lit "eth2") ex_plain_frame)); (6, OutMsg (VNSPacket (lit "eth2") ex_plain_frame))].
Proof.
  destruct (frame_reaches_clients 10 ex_bridge_socket ex_client 1 (ex_frame_in ex_plain_frame) (lit "eth2") ex_bridge_con
    (ex_bridge_world ex_named)) as (w' & b & h & E & Ha & _).
  - apply ex_bridged.
  - intros ps. eexists _, ps. split; [vm_compute; reflexivity|vm_compute; reflexivity].
  - repeat constructor.
  - exists w'. split; [exact E|]. rewrite Ha. vm_compute. reflexivity.
Defined.

(** The codecs as the source has them; a message to the DHCP port that is cut short. *)
Definition ex_dhcp_frame : bytes := byte_of_Z <$> ([0;0;0;0;0;3] ++ [0;0;0;0;0;1] ++ [8;0] ++
  [0x45;0; 0;30; 0;1; 0;0; 64;17; 0;0] ++ [10;0;0;2] ++ [10;0;0;1] ++ [0;68; 0;67; 0;10; 0;0] ++ [1;1]).
Lemma dhcp_does_not_cross_witness : exists e,
  (bridge_listener (H := app_codec 10) 10 ex_bridge_socket ex_client (OnCon 1) 1 (EvPacketIn (ex_frame_in ex_dhcp_frame))
     (ex_bridge_world ex_named)).1 = Err e.
Proof.
  destruct (dhcp_does_not_cross (H := app_codec 10) 10 ex_bridge_socket ex_client 1 (ex_frame_in ex_dhcp_frame) (lit "eth2") ex_bridge_con
    (ex_bridge_world ex_named)) as (e & w' & E & _).
  - apply ex_bridged.
  - intros [i r]. eexists _, _. split; [vm_compute; reflexivity|vm_compute; reflexivity].
  - exists e. by rewrite E.
Defined.
