(* ===== verification/Revent.v ===== *)
(** [lib/revent/revent.py]: event sources.  The handlers of an event type are a list
    object that [addListener] changes in place, that [removeListener] replaces by a
    new one, and that [raiseEvent] walks by index while handlers run; so the lists
    live in a store, and the dictionary of an event source maps event types to
    places in it.  Handlers are functions on the whole state: they may subscribe,
    unsubscribe and raise events themselves. *)
From Stdlib Require Import Ascii.
From S2P Require Import Prelude.
From S2P Require Import Sorting.
From S2P Require Import Steps.

(** * Event types, events and listeners *)

(** What [_eventMixin_events] holds: subclasses of Event, with their [__name__],
    or strings. *)
Inductive etype :=
  | EvClass (id : positive) (name : String.string)
  | EvName (name : String.string).
#[export] Instance etype_eq_dec : EqDecision etype.
Proof. solve_decision. Defined.
#[export] Instance etype_countable : Countable etype.
Proof.
  refine (inj_countable'
    (fun t => match t with EvClass i n => inl (i, n) | EvName n => inr n end)
    (fun s => match s with inl (i, n) => EvClass i n | inr n => EvName n end) _).
  by intros [].
Defined.

(** What a handler can return, as far as [raiseEvent] looks at it. *)
Inductive retval :=
  | RvNone
  | RvBool (b : bool)
  | RvTuple (l : list bool)
  | RvOther.

Definition EventReturn (halt remove : bool) : retval := RvTuple [halt; remove].
Definition EventContinue : retval := EventReturn false false.
Definition EventHalt : retval := EventReturn true false.
Definition EventRemove : retval := EventReturn false true.
Definition EventHaltAndRemove : retval := EventReturn true true.

(** [self._eventMixin_events]: True, or a set in the order it is iterated in. *)
Inductive declared :=
  | AnyEvent
  | EventSet (l : list etype).
Definition raises (d : declared) (t : etype) : bool :=
  match d with AnyEvent => true | EventSet l => bool_decide (t ∈ l) end.

(** The handler of an entry: a callable, or the [CallProxy] made for a weak one. *)
Inductive listener (H : Type) :=
  | Strong (h : H)
  | Proxy (h : H) (removeData : etype * Z).
Arguments Strong {H} h.
Arguments Proxy {H} h removeData.
#[export] Instance listener_eq_dec `{EqDecision H} : EqDecision (listener H).
Proof. solve_decision. Defined.

Record Handler (H : Type) := HandlerEntry {
  en_priority : option Z;
  en_handler : listener H;
  en_once : bool;
  en_eid : Z
}.
Arguments HandlerEntry {H} _ _ _ _.
Arguments en_priority {H} _.
Arguments en_handler {H} _.
Arguments en_once {H} _.
Arguments en_eid {H} _.

(** None comes before every number. *)
Definition prio_le (a b : option Z) : bool :=
  match a, b with
  | None, _ => true
  | Some _, None => false
  | Some a, Some b => a <=? b
  end.
#[export, refine] Instance handler_sort_key {H} : SortKey (Handler H) := {
  key_le a b := prio_le (en_priority a) (en_priority b); key_le_total := _; key_le_trans := _
}.
Proof.
  - intros [[a|] ? ? ?] [[b|] ? ? ?]; cbn; try done. rewrite Z.leb_gt, Z.leb_le. lia.
  - intros [[a|] ? ? ?] [[b|] ? ? ?] [[c|] ? ? ?]; cbn; try done. rewrite !Z.leb_le. lia.
Defined.

Record Event (D : Type) := MkEvent {
  ev_type : etype;
  ev_halt : bool;
  ev_source : option positive;
  ev_data : D
}.
Arguments MkEvent {D} _ _ _ _.
Arguments ev_type {D} _.
Arguments ev_halt {D} _.
Arguments ev_source {D} _.
Arguments ev_data {D} _.

(** ** The state of an event source *)

(** [mx_handlers] is [_eventMixin_handlers]; [mx_eid] the global [_nextEventID];
    [mx_gone] the identifiers of the proxies whose [obj] was set to None. *)
Record EventMixin (H : Type) := Mixin {
  mx_self : positive;
  mx_events : declared;
  mx_heap : gmap positive (list (Handler H));
  mx_next : positive;
  mx_handlers : gmap etype positive;
  mx_eid : Z;
  mx_gone : gset Z
}.
Arguments Mixin {H} _ _ _ _ _ _ _.
Arguments mx_self {H} _.
Arguments mx_events {H} _.
Arguments mx_heap {H} _.
Arguments mx_next {H} _.
Arguments mx_handlers {H} _.
Arguments mx_eid {H} _.
Arguments mx_gone {H} _.

Inductive listener_ref (H : Type) :=
  | RefPair (t : etype) (eid : Z)
  | RefEid (eid : Z)
  | RefHandler (h : listener H).
Arguments RefPair {H} t eid.
Arguments RefEid {H} eid.
Arguments RefHandler {H} h.

Section mixin.
Context {H : Type} `{EqDecision H}.
Implicit Types (mx : EventMixin H) (t : etype).

Definition EventMixin_init (self : positive) (events : declared) (eid : Z) : EventMixin H :=
  Mixin self events ∅ 1 ∅ eid ∅.

(** [_eventMixin_addEvents]: the new events come last in the order of iteration. *)
Definition eventMixin_addEvent t : M (EventMixin H) unit := fun mx =>
  match mx_events mx with
  | AnyEvent => (Err AssertionError, mx)
  | EventSet l =>
      (Ok tt, Mixin (mx_self mx) (EventSet (if bool_decide (t ∈ l) then l else l ++ [t])) (mx_heap mx)
                (mx_next mx) (mx_handlers mx) (mx_eid mx) (mx_gone mx))
  end.
Fixpoint eventMixin_addEvents (ts : list etype) : M (EventMixin H) unit :=
  match ts with
  | [] => mret tt
  | t :: ts => '_ ← eventMixin_addEvent t; eventMixin_addEvents ts
  end.

(** [self._eventMixin_handlers[t]], as the list it is at the moment. *)
Definition handler_list t mx : option (list (Handler H)) :=
  p ← mx_handlers mx !! t; mx_heap mx !! p.

(** [self._eventMixin_handlers[t] = l] for a new list [l]. *)
Definition set_handlers t (l : list (Handler H)) mx : EventMixin H :=
  Mixin (mx_self mx) (mx_events mx) (<[mx_next mx := l]> (mx_heap mx)) (Pos.succ (mx_next mx))
    (<[t := mx_next mx]> (mx_handlers mx)) (mx_eid mx) (mx_gone mx).
(** The list at [p] changed in place. *)
Definition update_list (p : positive) (l : list (Handler H)) mx : EventMixin H :=
  Mixin (mx_self mx) (mx_events mx) (<[p := l]> (mx_heap mx)) (mx_next mx) (mx_handlers mx)
    (mx_eid mx) (mx_gone mx).

Definition generateEventID : M (EventMixin H) Z := fun mx =>
  (Ok (mx_eid mx + 1), Mixin (mx_self mx) (mx_events mx) (mx_heap mx) (mx_next mx)
    (mx_handlers mx) (mx_eid mx + 1) (mx_gone mx)).

Definition eventMixin_get_listener_count mx : Z :=
  Z.of_nat (sum_list_with (fun t => length (default [] (handler_list t mx)))
    (map_to_list (mx_handlers mx)).*1).

(** ** removeListener *)

Definition keep_eid (eid : Z) (x : Handler H) : bool := negb (en_eid x =? eid).
Definition keep_handler (h : listener H) (x : Handler H) : bool := negb (bool_decide (en_handler x = h)).

(** [handlers = d[t]; d[t] = [x for x in handlers if keep x]]; whether the length
    changed. *)
Definition remove_in (keep : Handler H -> bool) t : M (EventMixin H) bool := fun mx =>
  match handler_list t mx with
  | None => (Err KeyError, mx)
  | Some l =>
      let l' := List.filter keep l in
      (Ok (negb (zlen l =? zlen l')), set_handlers t l' mx)
  end.

(** The loop over the keys of the dictionary. *)
Fixpoint remove_in_all (keep : Handler H -> bool) (ts : list etype) (altered : bool)
    : M (EventMixin H) bool :=
  match ts with
  | [] => mret altered
  | t :: ts => a ← remove_in keep t; remove_in_all keep ts (altered || a)
  end.

(** With an identifier and a type, [handlers] is used before it is assigned. *)
Definition removeListener (r : listener_ref H) (eventType : option etype)
    : M (EventMixin H) bool := fun mx =>
  let keys := (map_to_list (mx_handlers mx)).*1 in
  match r, eventType with
  | RefPair t eid, _ => remove_in (keep_eid eid) (default t eventType) mx
  | RefEid eid, None => remove_in_all (keep_eid eid) keys false mx
  | RefEid _, Some _ => (Err NameError, mx)
  | RefHandler h, None => remove_in_all (keep_handler h) keys false mx
  | RefHandler h, Some t => remove_in (keep_handler h) t mx
  end.

Fixpoint removeListeners (ls : list (listener_ref H)) (altered : bool) : M (EventMixin H) bool :=
  match ls with
  | [] => mret altered
  | l :: ls => a ← removeListener l None; removeListeners ls (altered || a)
  end.

Definition clearHandlers mx : EventMixin H :=
  Mixin (mx_self mx) (mx_events mx) (mx_heap mx) (mx_next mx) ∅ (mx_eid mx) (mx_gone mx).

(** ** addListener *)

(** The search by name: [issubclass] fails on an element that is a string. *)
Fixpoint find_by_name (name : String.string) (l : list etype) : res (option etype) :=
  match l with
  | [] => Ok None
  | EvName _ :: _ => Err TypeError
  | EvClass i n :: l => if String.eqb n name then Ok (Some (EvClass i n)) else find_by_name name l
  end.

Definition resolve_event t (byName : bool) mx : res etype :=
  if raises (mx_events mx) t then Ok t
  else
    match mx_events mx, t with
    | EventSet l, EvName s =>
        if byName then
          o ← find_by_name s l;
          match o with Some e => Ok e | None => Err RuntimeError end
        else Err RuntimeError
    | EventSet l, EvClass _ _ =>
        (* no name equals a class; the elements are looked at all the same *)
        if byName && existsb (fun e => if e is EvName _ then true else false) l
        then Err TypeError else Err RuntimeError
    | AnyEvent, _ => Err RuntimeError
    end.

(** [im_self], which only bound methods have. *)
Variable bound : H -> bool.

Definition addListener t (handler : H) (once weak : bool) (priority : option Z) (byName : bool)
    : M (EventMixin H) (etype * Z) :=
  mx ← get;
  t ← lift (resolve_event t byName mx);
  '_ ← put (if handler_list t mx is None then set_handlers t [] mx else mx);
  eid ← generateEventID;
  h ← (if weak then if bound handler then mret (Proxy handler (t, eid)) else raise AttributeError
       else mret (Strong handler));
  let entry := HandlerEntry priority h once eid in
  mx ← get;
  match mx_handlers mx !! t, handler_list t mx with
  | Some p, Some l =>
      let l := l ++ [entry] in
      let l := if priority is Some _ then sort_desc l else l in
      '_ ← put (update_list p l mx); mret (t, eid)
  | _, _ => raise KeyError
  end.

Definition addListenerByName t handler once weak priority : M (EventMixin H) (etype * Z) :=
  addListener t handler once weak priority true.

(** ** autoBindEvents *)

(** [events]: the names of the events the source raises. *)
Definition event_names (l : list etype) : gmap String.string etype :=
  foldl (fun m e => match e with EvName n | EvClass _ n => <[n := e]> m end) ∅ l.

Definition starts_with (p s : String.string) : bool := String.prefix p s.
Definition skip_chars (n : nat) (s : String.string) : String.string :=
  String.substring n (String.length s - n) s.

Definition bind_prefix (prefix : String.string) : String.string :=
  match prefix with
  | String.EmptyString => prefix
  | String.String "_"%char _ => prefix
  | _ => String.append "_" prefix
  end.

Fixpoint bind_methods (events : gmap String.string etype) (prefix : String.string) (weak : bool)
    (priority : option Z) (ms : list (String.string * H)) : M (EventMixin H) (list (etype * Z)) :=
  match ms with
  | [] => mret []
  | (m, a) :: ms =>
      if starts_with (String.append "_handle" (String.append prefix "_")) m then
        match events !! skip_chars (8 + String.length prefix) m with
        | Some e =>
            x ← addListener e a false weak priority false;
            xs ← bind_methods events prefix weak priority ms;
            mret (x :: xs)
        | None => bind_methods events prefix weak priority ms
        end
      else bind_methods events prefix weak priority ms
  end.

(** [sink] as the callables among its attributes, in the order of [dir]. *)
Definition autoBindEvents (sink : list (String.string * H)) (prefix : String.string) (weak : bool)
    (priority : option Z) : M (EventMixin H) (list (etype * Z)) := fun mx =>
  match mx_events mx with
  | AnyEvent => (Err TypeError, mx)
  | EventSet l => bind_methods (event_names l) (bind_prefix prefix) weak priority sink mx
  end.

(** ** CallProxy *)

(** [_forgetMe], called when the object of the weak handler is gone; an exception in
    such a callback is dropped. *)
Definition forgetMe (removeData : etype * Z) mx : EventMixin H :=
  let '(r, mx) := removeListener (RefPair (fst removeData) (snd removeData)) None mx in
  match r with
  | Ok _ => Mixin (mx_self mx) (mx_events mx) (mx_heap mx) (mx_next mx) (mx_handlers mx)
              (mx_eid mx) ({[snd removeData]} ∪ mx_gone mx)
  | Err _ => mx
  end.
End mixin.

(** * raiseEvent *)

Section raising.
Context {H : Type} `{EqDecision H} {D Args A : Type}.
Implicit Types (mx : EventMixin H) (t : etype) (ev : Event D).

(** Calling a handler on the event and the arguments, [event._invoke] included;
    whether the object of a method is still there; the constructors of the events,
    and no arguments. *)
Variable run : H -> Args -> M (Event D * (EventMixin H * A)) retval.
Variable alive : H -> A -> bool.
Variable new_event : etype -> Args -> res (Event D).
Variable no_args : Args.

Definition invoke (x : Handler H) (args : Args) : M (Event D * (EventMixin H * A)) retval :=
  fun s =>
    match en_handler x with
    | Strong h => run h args s
    | Proxy h d =>
        let '(ev, (mx, a)) := s in
        if bool_decide (snd d ∈ mx_gone mx) then (Ok RvNone, s)
        else if alive h a then run h args s
        else (Err RuntimeError, s)
    end.

Definition on_mixin {X} (f : M (EventMixin H) X) : M (Event D * (EventMixin H * A)) X :=
  fun '(ev, (mx, a)) => let '(r, mx) := f mx in (r, (ev, (mx, a))).

(** What the loop does about a return value: unsubscribe?, and stop?  [halt] is the
    event's attribute, which None never gets to. *)
Definition rv_removes (rv : retval) : bool :=
  match rv with
  | RvBool false => true
  | RvTuple (_ :: r :: _) => r
  | _ => false
  end.
Definition rv_stops (rv : retval) (halt : bool) : bool :=
  match rv with
  | RvNone => false
  | RvBool true => true
  | RvTuple [] => true
  | RvTuple (b :: _) => b || halt
  | _ => halt
  end.

(** [for (priority, handler, once, eid) in handlers]: the iterator holds the list
    object and an index. *)
Fixpoint raise_loop (fuel : nat) (p : positive) (i : nat) (args : Args)
    : M (Event D * (EventMixin H * A)) unit := fun s =>
  match mx_heap (fst (snd s)) !! p ≫= (.!! i) with
  | None => (Ok tt, s)
  | Some x =>
      match fuel with
      | O => (Err Diverge, s)
      | S fuel =>
          (rv ← invoke x args;
           '_ ← (if en_once x then on_mixin (removeListener (RefEid (en_eid x)) None) else mret false);
           '_ ← (if rv_removes rv then on_mixin (removeListener (RefEid (en_eid x)) None) else mret false);
           s ← get;
           if rv_stops rv (ev_halt (fst s)) then mret tt else raise_loop fuel p (S i) args) s
      end
  end.

Definition with_source (self : positive) ev : Event D :=
  match ev_source ev with
  | None => MkEvent (ev_type ev) (ev_halt ev) (Some self) (ev_data ev)
  | Some _ => ev
  end.

(** The argument of [raiseEvent]: an event, or the type to make one of. *)
Inductive raise_arg :=
  | RaInstance (ev : Event D)
  | RaClass (t : etype).

Definition raise_on (fuel : nat) t ev (args : Args) : M (EventMixin H * A) (option (Event D)) :=
  fun '(mx, a) =>
    let ev := with_source (mx_self mx) ev in
    if negb (raises (mx_events mx) t) then (Err RuntimeError, (mx, a))
    else
      match mx_handlers mx !! t with
      | None => (Ok (Some ev), (mx, a))
      | Some p =>
          let '(r, (ev, s)) := raise_loop fuel p 0 args (ev, (mx, a)) in
          (match r with Ok _ => Ok (Some ev) | Err e => Err e end, s)
      end.

Definition raiseEvent (fuel : nat) (e : raise_arg) (args : Args)
    : M (EventMixin H * A) (option (Event D)) := fun '(mx, a) =>
  match e with
  | RaInstance ev => raise_on fuel (ev_type ev) ev args (mx, a)
  | RaClass (EvName _) => (Err TypeError, (mx, a))
  | RaClass t =>
      match handler_list t mx with
      | None | Some [] => (Ok None, (mx, a))
      | Some _ =>
          match new_event t args with
          | Ok ev => raise_on fuel t ev no_args (mx, a)
          | Err e => (Err e, (mx, a))
          end
      end
  end.

(** The exception is handed to [handleEventException], which prints it. *)
Definition raiseEventNoErrors (fuel : nat) (e : raise_arg) (args : Args)
    : M (EventMixin H * A) (option (Event D)) := fun s =>
  match raiseEvent fuel e args s with
  | (Err Diverge, s) => (Err Diverge, s)
  | (Err _, s) => (Ok None, s)
  | r => r
  end.
End raising.

(** * The store of handler lists *)

Section store.
Context {H : Type} `{EqDecision H}.
Implicit Types (mx : EventMixin H) (t : etype) (l : list (Handler H)).

(** The handlers of a type, in the order they are called. *)
Definition view t mx : list (Handler H) := default [] (handler_list t mx).

Record heap_ok mx : Prop := {
  heap_alloc t p : mx_handlers mx !! t = Some p -> is_Some (mx_heap mx !! p);
  heap_fresh p : is_Some (mx_heap mx !! p) -> (p < mx_next mx)%positive;
  heap_inj t t' p : mx_handlers mx !! t = Some p -> mx_handlers mx !! t' = Some p -> t = t'
}.

(** The lists are sorted, and identifiers are unique and were given out. *)
Record lists_ok mx : Prop := {
  lists_sorted t : StronglySorted desc (view t mx);
  lists_nodup t : NoDup (en_eid <$> view t mx);
  lists_given t x : x ∈ view t mx -> en_eid x <= mx_eid mx;
  lists_apart t t' x y : x ∈ view t mx -> y ∈ view t' mx -> en_eid x = en_eid y -> t = t'
}.

Definition mixin_wf mx : Prop := heap_ok mx /\ lists_ok mx.

(** What removals leave alone: every list object, and the rest of the state. *)
Record untouched mx mx' : Prop := {
  un_heap p l : mx_heap mx !! p = Some l -> mx_heap mx' !! p = Some l;
  un_self : mx_self mx' = mx_self mx;
  un_events : mx_events mx' = mx_events mx;
  un_eid : mx_eid mx' = mx_eid mx;
  un_gone : mx_gone mx' = mx_gone mx;
  un_keys t : is_Some (handler_list t mx) <-> is_Some (handler_list t mx')
}.

#[export] Instance untouched_preorder : PreOrder untouched.
Proof.
  split.
  - intros mx. by split.
  - intros mx1 mx2 mx3 [H1 H2 H3 H4 H5 H6] [K1 K2 K3 K4 K5 K6].
    split; try congruence; [by auto|]. intros t. by rewrite H6.
Qed.

Lemma handler_list_some t p mx : heap_ok mx -> mx_handlers mx !! t = Some p ->
  exists l, mx_heap mx !! p = Some l /\ handler_list t mx = Some l.
Proof.
  intros Hh E. destruct (heap_alloc _ Hh _ _ E) as [l El]. exists l. split; [done|].
  unfold handler_list. rewrite E. cbn. done.
Qed.

Lemma set_handlers_list t l t' mx : heap_ok mx ->
  handler_list t' (set_handlers t l mx) = if decide (t' = t) then Some l else handler_list t' mx.
Proof.
  intros Hh. unfold handler_list, set_handlers. cbn. destruct (decide (t' = t)) as [->|Hn].
  - rewrite lookup_insert_eq. cbn. by rewrite lookup_insert_eq.
  - rewrite lookup_insert_ne by done. destruct (mx_handlers mx !! t') as [p|] eqn:E; [|done].
    cbn. rewrite lookup_insert_ne; [done|].
    intros <-. pose proof (heap_fresh _ Hh _ (heap_alloc _ Hh _ _ E)). lia.
Qed.

Lemma set_handlers_ok t l mx : heap_ok mx -> heap_ok (set_handlers t l mx).
Proof.
  intros Hh.
  assert (forall t' p, mx_handlers mx !! t' = Some p -> (p < mx_next mx)%positive) as Hlt
    by (intros t' p E; apply (heap_fresh _ Hh), (heap_alloc _ Hh _ _ E)).
  split; cbn.
  - intros t' p [[-> <-]|[Hn E]]%lookup_insert_Some; [rewrite lookup_insert_eq; by eexists|].
    rewrite lookup_insert_ne by (specialize (Hlt _ _ E); lia). by apply (heap_alloc _ Hh t').
  - intros p [l' [[<- _]|[_ E]]%lookup_insert_Some]; [lia|].
    pose proof (heap_fresh _ Hh p (mk_is_Some _ _ E)). lia.
  - intros t1 t2 p [[-> <-]|[Hn1 E1]]%lookup_insert_Some [[-> E2']|[Hn2 E2]]%lookup_insert_Some;
      [done|specialize (Hlt _ _ E2); lia|specialize (Hlt _ _ E1); subst; lia|].
    by apply (heap_inj _ Hh t1 t2 p).
Qed.

Lemma set_handlers_untouched t l mx : heap_ok mx -> is_Some (handler_list t mx) ->
  untouched mx (set_handlers t l mx).
Proof.
  intros Hh Ht. split; try done; cbn.
  - intros p l' E. rewrite lookup_insert_ne; [done|].
    pose proof (heap_fresh _ Hh p (mk_is_Some _ _ E)). lia.
  - intros t'. rewrite set_handlers_list by done. destruct (decide (t' = t)) as [->|]; [|done].
    split; intros; [by eexists|done].
Qed.

(** ** Removal *)

Definition changes (keep : Handler H -> bool) l : bool := negb (zlen l =? zlen (List.filter keep l)).

Lemma remove_in_ok keep t mx l : heap_ok mx -> handler_list t mx = Some l ->
  exists mx', remove_in keep t mx = (Ok (changes keep l), mx') /\ heap_ok mx' /\ untouched mx mx' /\
    forall t', view t' mx' = if decide (t' = t) then List.filter keep l else view t' mx.
Proof.
  intros Hh E. unfold remove_in. rewrite E. eexists. split; [done|].
  split; [by apply set_handlers_ok|]. split; [by apply set_handlers_untouched; [|eexists]|].
  intros t'. unfold view. rewrite set_handlers_list by done. by destruct (decide (t' = t)).
Qed.

Lemma filter_idemp {B} (f : B -> bool) (l : list B) : List.filter f (List.filter f l) = List.filter f l.
Proof.
  induction l as [|x l IH]; [done|]. cbn. destruct (f x) eqn:E; [|done]. cbn. by rewrite E, IH.
Qed.

Lemma remove_in_all_ok keep ts alt mx : heap_ok mx -> NoDup ts ->
  (forall t, t ∈ ts -> is_Some (handler_list t mx)) ->
  exists mx', remove_in_all keep ts alt mx =
      (Ok (alt || existsb (fun t => changes keep (view t mx)) ts), mx') /\
    heap_ok mx' /\ untouched mx mx' /\
    forall t, view t mx' = if decide (t ∈ ts) then List.filter keep (view t mx) else view t mx.
Proof.
  revert alt mx. induction ts as [|t ts IH]; intros alt mx Hh Hnd Hts.
  - exists mx. cbn. rewrite orb_false_r. split; [done|]. split; [done|]. split; [done|].
    intros t. destruct (decide (t ∈ [])) as [Hin|]; [by apply elem_of_nil in Hin|done].
  - destruct (Hts t ltac:(by left)) as [l El]. apply NoDup_cons in Hnd as [Hnt Hnd].
    destruct (remove_in_ok keep t mx l Hh El) as (mx1 & E1 & Hh1 & Hu1 & Hv1).
    destruct (IH (alt || changes keep l) mx1 Hh1 Hnd) as (mx2 & E2 & Hh2 & Hu2 & Hv2).
    { intros t' Ht'. apply (un_keys _ _ Hu1). apply Hts. by right. }
    exists mx2. cbn [remove_in_all]. unfold mbind, M_bind. rewrite E1, E2.
    split; [|split; [done|split; [by etrans|]]].
    + do 2 f_equal. cbn [existsb]. rewrite <-orb_assoc. f_equal.
      unfold view at 2. rewrite El. cbn [default]. f_equal.
      clear -Hv1 Hnt. induction ts as [|t' ts IH]; [done|].
      apply not_elem_of_cons in Hnt as [Hn Hnt]. cbn [existsb]. rewrite IH by done.
      rewrite (Hv1 t'). by destruct (decide (t' = t)).
    + intros t'. rewrite Hv2, Hv1. destruct (decide (t' = t)) as [->|Hn].
      * rewrite (decide_False (P := t ∈ ts)) by done. rewrite decide_True by (by left).
        unfold view. by rewrite El.
      * destruct (decide (t' ∈ ts)) as [Hin|Hin].
        -- by rewrite decide_True by (by right).
        -- rewrite decide_False; [done|]. by intros [?|?]%elem_of_cons.
Qed.

(** The keys of the dictionary, all of which have a list. *)
Lemma keys_elem t mx : heap_ok mx ->
  t ∈ (map_to_list (mx_handlers mx)).*1 <-> is_Some (handler_list t mx).
Proof.
  intros Hh. rewrite list_elem_of_fmap. split.
  - intros ([t' p] & -> & E%elem_of_map_to_list). cbn.
    destruct (handler_list_some t' p mx Hh E) as (l & _ & ->). by eexists.
  - intros [l E]. unfold handler_list in E. destruct (mx_handlers mx !! t) as [p|] eqn:Ep; [|done].
    exists (t, p). split; [done|]. by apply elem_of_map_to_list.
Qed.

Lemma remove_all_types keep mx : heap_ok mx -> exists mx' b,
  remove_in_all keep (map_to_list (mx_handlers mx)).*1 false mx = (Ok b, mx') /\
  heap_ok mx' /\ untouched mx mx' /\
  (forall t, view t mx' = List.filter keep (view t mx)) /\
  (b = true <-> exists t, changes keep (view t mx) = true).
Proof.
  intros Hh.
  destruct (remove_in_all_ok keep (map_to_list (mx_handlers mx)).*1 false mx Hh)
    as (mx' & E & Hh' & Hu & Hv).
  { apply NoDup_fst_map_to_list. }
  { intros t. by apply keys_elem. }
  exists mx'. eexists. split; [exact E|]. split; [done|]. split; [done|]. split.
  - intros t. rewrite Hv. destruct (decide _) as [|Hn]; [done|].
    rewrite keys_elem in Hn by done. unfold view.
    destruct (handler_list t mx) as [l|]; [|done]. exfalso. apply Hn. by eexists.
  - cbn [orb]. rewrite existsb_exists. split.
    + intros (t & _ & Ht). by exists t.
    + intros [t Ht]. exists t. split; [|done]. apply list_elem_of_In, keys_elem; [done|].
      unfold view in Ht. destruct (handler_list t mx); [by eexists|done].
Qed.
End store.

(** * Subscribing and unsubscribing *)

Section listeners.
Context {H : Type} `{EqDecision H}.
Implicit Types (mx : EventMixin H) (t : etype) (l : list (Handler H)).

Lemma filter_sub (k : Handler H -> bool) l x : x ∈ List.filter k l <-> x ∈ l /\ k x = true.
Proof. by rewrite !list_elem_of_In, filter_In. Qed.

Lemma filter_nodup_eid (k : Handler H -> bool) l :
  NoDup (en_eid <$> l) -> NoDup (en_eid <$> List.filter k l).
Proof.
  induction l as [|x l IH]; [done|]. cbn. intros [Hx Hl]%NoDup_cons.
  destruct (k x); [|by apply IH]. cbn. apply NoDup_cons. split; [|by apply IH].
  contradict Hx. apply list_elem_of_fmap in Hx as (y & -> & Hy%filter_sub).
  apply list_elem_of_fmap. exists y. by destruct Hy.
Qed.

(** Filtering the lists, each with a test of its own, keeps them in order. *)
Lemma lists_ok_filter (k : etype -> Handler H -> bool) mx mx' : lists_ok mx ->
  (forall t, view t mx' = List.filter (k t) (view t mx)) -> mx_eid mx <= mx_eid mx' -> lists_ok mx'.
Proof.
  intros [H1 H2 H3 H4] Hv He. split; intros *; rewrite !Hv.
  - by apply filter_sorted.
  - by apply filter_nodup_eid.
  - intros [Hx _]%filter_sub. specialize (H3 _ _ Hx). lia.
  - intros [Hx _]%filter_sub [Hy _]%filter_sub. by apply H4.
Qed.

Lemma filter_all (k : Handler H -> bool) l : (forall x, x ∈ l -> k x = true) -> List.filter k l = l.
Proof.
  induction l as [|x l IH]; [done|]. intros Hk. cbn. rewrite Hk by (by left).
  f_equal. apply IH. intros y Hy. apply Hk. by right.
Qed.

(** The test of a removal and the types it is applied to. *)
Definition removal (r : listener_ref H) (eventType : option etype) : Handler H -> bool :=
  match r with
  | RefPair _ eid | RefEid eid => keep_eid eid
  | RefHandler h => keep_handler h
  end.
Definition removal_types (r : listener_ref H) (eventType : option etype) : option etype :=
  match r, eventType with RefPair t _, None => Some t | _, _ => eventType end.

(** [mx'] is [mx] with the handlers that fail [keep] gone - from the list of one
    type, or of every type - and [b] tells whether there were any. *)
Record removed (keep : Handler H -> bool) (o : option etype) mx (b : bool) mx' : Prop := {
  rem_wf : mixin_wf mx';
  rem_untouched : untouched mx mx';
  rem_view t : view t mx' = if decide (o = None \/ o = Some t)
                            then List.filter keep (view t mx) else view t mx;
  rem_altered : b = true <-> exists t, view t mx' <> view t mx
}.

Lemma changes_spec (keep : Handler H -> bool) l : changes keep l = true <-> List.filter keep l <> l.
Proof.
  unfold changes. rewrite negb_true_iff, Z.eqb_neq. split; [congruence|].
  intros Hn E. apply Hn. clear Hn. unfold zlen in E. apply Nat2Z.inj in E.
  induction l as [|x l IH]; [done|]. cbn in *. pose proof (filter_length_le keep l).
  destruct (keep x); [|lia]. cbn in *. rewrite IH; [done|lia].
Qed.

Lemma removed_wf keep o mx mx' : mixin_wf mx -> heap_ok mx' -> untouched mx mx' ->
  (forall t, view t mx' = if decide (o = None \/ o = Some t)
     then List.filter keep (view t mx) else view t mx) -> mixin_wf mx'.
Proof.
  intros [Hh Hl] Hh' Hu Hv. split; [done|].
  apply (lists_ok_filter (fun t => if decide (o = None \/ o = Some t) then keep else fun _ => true) mx);
    [done| |by rewrite (un_eid _ _ Hu)].
  intros t. rewrite Hv. destruct (decide _); [done|]. symmetry. by apply filter_all.
Qed.

Lemma remove_in_removed keep t mx l : mixin_wf mx -> handler_list t mx = Some l ->
  exists mx' b, remove_in keep t mx = (Ok b, mx') /\ removed keep (Some t) mx b mx'.
Proof.
  intros Hw El. destruct (remove_in_ok keep t mx l (proj1 Hw) El) as (mx' & E & Hh' & Hu & Hv).
  assert (view t mx = l) as Evl by (unfold view; by rewrite El).
  assert (forall t', view t' mx' = if decide (Some t = None \/ Some t = Some t')
     then List.filter keep (view t' mx) else view t' mx) as Hv'.
  { intros t'. rewrite Hv. destruct (decide (t' = t)) as [->|Hn].
    - rewrite decide_True by (by right). by rewrite Evl.
    - rewrite decide_False; [done|]. intros [?|?]; congruence. }
  exists mx', (changes keep l). split; [done|].
  split; [by apply (removed_wf keep (Some t) mx)|done|done|]. rewrite changes_spec. split.
  - intros Hn. exists t. by rewrite Hv, decide_True, Evl by done.
  - intros [t' Hn] E'. apply Hn. rewrite Hv. destruct (decide (t' = t)) as [->|]; [|done].
    by rewrite Evl.
Qed.

Lemma remove_all_removed keep mx : mixin_wf mx -> exists mx' b,
  remove_in_all keep (map_to_list (mx_handlers mx)).*1 false mx = (Ok b, mx') /\
  removed keep None mx b mx'.
Proof.
  intros Hw. destruct (remove_all_types keep mx (proj1 Hw)) as (mx' & b & E & Hh' & Hu & Hv & Hb).
  assert (forall t, view t mx' = if decide (@None etype = None \/ @None etype = Some t)
     then List.filter keep (view t mx) else view t mx) as Hv'
    by (intros t; rewrite Hv; by rewrite decide_True by (by left)).
  exists mx', b. split; [done|]. split; [by apply (removed_wf keep None mx)|done|done|].
  rewrite Hb. split; intros [t Hn]; exists t; [rewrite Hv; by apply changes_spec|apply changes_spec; by rewrite <-Hv].
Qed.

Lemma removeListener_ok (r : listener_ref H) eventType mx : mixin_wf mx ->
  (if r is RefEid _ then eventType = None else True) ->
  (forall t, removal_types r eventType = Some t -> is_Some (handler_list t mx)) ->
  exists mx' b, removeListener r eventType mx = (Ok b, mx') /\
    removed (removal r eventType) (removal_types r eventType) mx b mx'.
Proof.
  intros Hw Hr Ht. destruct r as [t eid|eid|h]; unfold removeListener; cbn [removal removal_types] in *.
  - destruct (Ht (default t eventType)) as [l El]; [by destruct eventType|].
    destruct eventType; by apply (remove_in_removed _ _ _ l).
  - subst eventType. by apply remove_all_removed.
  - destruct eventType as [t|]; [|by apply remove_all_removed].
    destruct (Ht t eq_refl) as [l El]. by apply (remove_in_removed _ _ _ l).
Qed.

(** ** addListener *)

Lemma keep_sorted_end (x : Handler H) l : StronglySorted desc l ->
  Forall (fun y => key_le x y = true) l -> StronglySorted desc (l ++ [x]).
Proof.
  induction 1 as [|y l Hs IH Hf]; intros Hx; [repeat constructor|].
  apply Forall_cons in Hx as [Hxy Hx]. cbn. constructor; [by apply IH|].
  apply Forall_app. split; [done|]. by constructor.
Qed.

(** The list with the new entry: behind those of at least its priority. *)
Lemma add_entry_list (x : Handler H) l : StronglySorted desc l -> exists l1 l2, l = l1 ++ l2 /\
  Forall (fun y => key_le x y = true) l1 /\ Forall (fun y => key_le x y = false) l2 /\
  (if en_priority x is Some _ then sort_desc (l ++ [x]) else l ++ [x]) = l1 ++ x :: l2 /\
  StronglySorted desc (l1 ++ x :: l2).
Proof.
  intros Hs. destruct (en_priority x) eqn:Ep.
  - destruct (sort_desc_snoc x l Hs) as (l1 & l2 & -> & H1 & H2 & E).
    exists l1, l2. split_and!; try done. rewrite <-E. apply sort_desc_sorted.
  - assert (Forall (fun y => key_le x y = true) l) as Hx
      by (apply Forall_forall; intros y _; cbn; by rewrite Ep).
    exists l, []. rewrite app_nil_r. split_and!; try done. by apply keep_sorted_end.
Qed.
End listeners.

Section subscribing.
Context {H : Type} `{EqDecision H}.
Implicit Types (mx : EventMixin H) (t : etype) (l : list (Handler H)).

Lemma update_list_ok t p l mx : heap_ok mx -> mx_handlers mx !! t = Some p ->
  heap_ok (update_list p l mx) /\
  forall t', view t' (update_list p l mx) = if decide (t' = t) then l else view t' mx.
Proof.
  intros Hh Ep. split.
  - split; cbn.
    + intros t' p' E. destruct (decide (p' = p)) as [->|Hn]; [rewrite lookup_insert_eq; by eexists|].
      rewrite lookup_insert_ne by done. by apply (heap_alloc _ Hh t').
    + intros p' [l' [[<- _]|[_ E]]%lookup_insert_Some].
      * by apply (heap_fresh _ Hh), (heap_alloc _ Hh t).
      * apply (heap_fresh _ Hh). by eexists.
    + apply (heap_inj _ Hh).
  - intros t'. unfold view, handler_list, update_list. cbn.
    destruct (decide (t' = t)) as [->|Hn].
    + rewrite Ep. cbn. by rewrite lookup_insert_eq.
    + destruct (mx_handlers mx !! t') as [p'|] eqn:E; [|done]. cbn.
      rewrite lookup_insert_ne; [done|]. intros <-. apply Hn. by apply (heap_inj _ Hh _ _ p).
Qed.

Definition bump_eid mx : EventMixin H :=
  Mixin (mx_self mx) (mx_events mx) (mx_heap mx) (mx_next mx) (mx_handlers mx) (mx_eid mx + 1)
    (mx_gone mx).

(** A new entry with a new identifier, in its place. *)
Lemma lists_ok_add t x mx mx' l1 l2 : lists_ok mx -> view t mx = l1 ++ l2 ->
  en_eid x = mx_eid mx + 1 -> mx_eid mx' = mx_eid mx + 1 -> StronglySorted desc (l1 ++ x :: l2) ->
  (forall t', view t' mx' = if decide (t' = t) then l1 ++ x :: l2 else view t' mx) -> lists_ok mx'.
Proof.
  intros [H1 H2 H3 H4] Hl Hx He Hs Hv.
  assert (forall t' y, y ∈ view t' mx' -> y = x /\ t' = t \/ y ∈ view t' mx) as Hin.
  { intros t' y. rewrite Hv. destruct (decide (t' = t)) as [->|]; [|by right].
    rewrite Hl. rewrite !elem_of_app, elem_of_cons. tauto. }
  split.
  - intros t'. rewrite Hv. destruct (decide _); [done|]. apply H1.
  - intros t'. rewrite Hv. destruct (decide _) as [->|]; [|apply H2].
    rewrite <-Permutation_middle. cbn. apply NoDup_cons. rewrite <-Hl. split; [|apply H2].
    intros (y & E & Hy)%list_elem_of_fmap. specialize (H3 t y Hy). lia.
  - intros t' y Hy. rewrite He. destruct (Hin _ _ Hy) as [[-> ->]|Hy']; [lia|].
    specialize (H3 _ _ Hy'). lia.
  - intros t1 t2 y z Hy Hz E.
    destruct (Hin _ _ Hy) as [[-> ->]|Hy'], (Hin _ _ Hz) as [[-> ->]|Hz']; try done.
    + specialize (H3 _ _ Hz'). lia.
    + specialize (H3 _ _ Hy'). lia.
    + by apply (H4 t1 t2 y z).
Qed.

(** The list of the type is there once [addListener] has looked. *)
Lemma ensure_list t mx : heap_ok mx ->
  let mx1 := if handler_list t mx is None then set_handlers t [] mx else mx in
  heap_ok mx1 /\ (mx_eid mx1 = mx_eid mx /\ mx_events mx1 = mx_events mx) /\
  (forall t', view t' mx1 = view t' mx) /\
  exists p, mx_handlers mx1 !! t = Some p /\ handler_list t mx1 = Some (view t mx).
Proof.
  intros Hh. destruct (handler_list t mx) as [l|] eqn:E; cbn zeta.
  - split_and!; try done. unfold handler_list in E.
    destruct (mx_handlers mx !! t) as [p|] eqn:Ep; [|done]. exists p. split; [done|].
    unfold view, handler_list. rewrite Ep. cbn in *. by rewrite E.
  - split; [by apply set_handlers_ok|]. split; [done|]. split.
    + intros t'. unfold view. rewrite set_handlers_list by done.
      destruct (decide (t' = t)) as [->|]; [by rewrite E|done].
    + exists (mx_next mx). split; [cbn; by rewrite lookup_insert_eq|].
      rewrite set_handlers_list, decide_True by done. unfold view. by rewrite E.
Qed.

Variable bound : H -> bool.

Lemma addListener_ok t0 h once weak priority byName mx t : mixin_wf mx ->
  resolve_event t0 byName mx = Ok t -> (weak = true -> bound h = true) ->
  let eid := mx_eid mx + 1 in
  let entry := HandlerEntry priority (if weak then Proxy h (t, eid) else Strong h) once eid in
  exists mx' l1 l2, addListener bound t0 h once weak priority byName mx = (Ok (t, eid), mx') /\
    mixin_wf mx' /\ mx_events mx' = mx_events mx /\ view t mx = l1 ++ l2 /\
    Forall (fun y => key_le entry y = true) l1 /\ Forall (fun y => key_le entry y = false) l2 /\
    forall t', view t' mx' = if decide (t' = t) then l1 ++ entry :: l2 else view t' mx.
Proof.
  intros [Hh Hl] Hr Hb eid entry.
  unfold addListener, lift, get, put, mbind, M_bind, mret, M_ret. rewrite Hr. cbv beta iota zeta.
  destruct (ensure_list t mx Hh) as (Hh1 & [He1 Hd1] & Hv1 & p & Ep & El).
  set (mx1 := if handler_list t mx is None then set_handlers t [] mx else mx) in *.
  destruct (add_entry_list entry (view t mx) (lists_sorted _ Hl t)) as (l1 & l2 & E & F1 & F2 & Es & Hs).
  destruct (update_list_ok t p (l1 ++ entry :: l2) (bump_eid mx1)) as [Hh2 Hv2];
    [by destruct Hh1|done|].
  exists (update_list p (l1 ++ entry :: l2) (bump_eid mx1)), l1, l2.
  assert (forall t', view t' (update_list p (l1 ++ entry :: l2) (bump_eid mx1)) =
            if decide (t' = t) then l1 ++ entry :: l2 else view t' mx) as Hv.
  { intros t'. rewrite Hv2. destruct (decide _); [done|]. apply Hv1. }
  split; [|split; [split; [done|]|split_and!; done]].
  - rewrite <-Es. unfold generateEventID. fold (bump_eid mx1). rewrite He1. fold eid.
    change (mx_handlers (bump_eid mx1) !! t = Some p) in Ep.
    change (handler_list t (bump_eid mx1) = Some (view t mx)) in El.
    destruct weak; [rewrite (Hb eq_refl)|]; cbv beta iota; rewrite Ep, El; done.
  - eapply (lists_ok_add t entry mx _ l1 l2); try done. cbn. by rewrite He1.
Qed.

(** Unsubscribing what was just subscribed. *)
Lemma remove_added x l1 l2 : NoDup (en_eid <$> l1 ++ x :: l2) ->
  List.filter (keep_eid (en_eid x)) (l1 ++ x :: l2) = l1 ++ l2.
Proof.
  intros Hnd. assert (en_eid x ∉ en_eid <$> l1 ++ l2) as Hx
    by (rewrite <-Permutation_middle in Hnd; by apply NoDup_cons in Hnd as [? _]).
  assert (forall y, y ∈ l1 ++ l2 -> keep_eid (en_eid x) y = true) as Hk.
  { intros y Hy. unfold keep_eid. apply negb_true_iff, Z.eqb_neq. intros E. apply Hx.
    rewrite <-E. by apply list_elem_of_fmap_2. }
  rewrite List.filter_app. cbn. unfold keep_eid at 2. rewrite Z.eqb_refl. cbn.
  rewrite !filter_all; [done| |]; intros y Hy; apply Hk, elem_of_app; auto.
Qed.
End subscribing.

(** * Delivery *)

(** Handlers that may unsubscribe others, and themselves, while the event is raised. *)
Section delivery.
Context {H : Type} `{EqDecision H} {D Args A : Type}.
Implicit Types (mx : EventMixin H) (t : etype) (ev : Event D) (es : list (Handler H)) (rs : list (listener_ref H)).

(** What a handler does: its result, the event and the program's state after it, and what it has
    unsubscribed on the way, by whatever [removeListener] accepts. *)
Variable act : H -> Args -> Event D -> A -> res retval * Event D * A * list (listener_ref H).
Variable alive : H -> A -> bool.

Fixpoint unsubscribe rs : M (EventMixin H) unit :=
  match rs with [] => mret tt | r :: rs => '_ ← removeListener r None; unsubscribe rs end.
Definition acting (h : H) (args : Args) : M (Event D * (EventMixin H * A)) retval :=
  fun '(ev, (mx, a)) =>
    let '(r, ev, a, rs) := act h args ev a in
    let '(q, mx) := unsubscribe rs mx in
    (match q with Ok _ => r | Err e => Err e end, (ev, (mx, a))).

(** Whether a removal is about the handler [x] of the events [t]; the handlers left by some removals. *)
Definition hits (r : listener_ref H) t (x : Handler H) : bool :=
  match r with
  | RefPair t' eid => bool_decide (t = t') && (en_eid x =? eid)
  | RefEid eid => en_eid x =? eid
  | RefHandler h => bool_decide (en_handler x = h)
  end.
Definition survives rs t (x : Handler H) : bool := negb (existsb (fun r => hits r t x) rs).

(** The removals that are carried out: a pair with a type that never had a handler is a [KeyError]. *)
Fixpoint carried_out (known : etype -> bool) rs : res unit * list (listener_ref H) :=
  match rs with
  | [] => (Ok tt, [])
  | r :: rs =>
      if match r with RefPair t _ => known t | _ => true end
      then let '(q, done) := carried_out known rs in (q, r :: done)
      else (Err KeyError, [])
  end.

Definition act_entry (known : etype -> bool) (gone : gset Z) (x : Handler H) (args : Args) ev (a : A)
    : res retval * Event D * A * list (listener_ref H) :=
  let call h :=
    let '(r, ev, a, rs) := act h args ev a in
    let '(q, rs) := carried_out known rs in
    (match q with Ok _ => r | Err e => Err e end, ev, a, rs) in
  match en_handler x with
  | Strong h => call h
  | Proxy h d =>
      if bool_decide (snd d ∈ gone) then (Ok RvNone, ev, a, [])
      else if alive h a then call h else (Err RuntimeError, ev, a, [])
  end.

(** What raising an event is meant to do: call the handlers in order until one
    stops it or fails, and tell what has been unsubscribed: what they have, and those that were to
    run once or have asked for it. *)
Fixpoint deliver (known : etype -> bool) (gone : gset Z) es (args : Args) ev (a : A)
    : res unit * Event D * A * list (listener_ref H) :=
  match es with
  | [] => (Ok tt, ev, a, [])
  | x :: es =>
      let '(r, ev, a, rs) := act_entry known gone x args ev a in
      match r with
      | Err e => (Err e, ev, a, rs)
      | Ok rv =>
          let rs := rs ++ if en_once x || rv_removes rv then [RefEid (en_eid x)] else [] in
          if rv_stops rv (ev_halt ev) then (Ok tt, ev, a, rs)
          else let '(r, ev, a, rs') := deliver known gone es args ev a in (r, ev, a, rs ++ rs')
      end
  end.

(** [mx'] is [mx] without the handlers that [rs] are about. *)
Definition without rs mx mx' : Prop :=
  mixin_wf mx' /\ untouched mx mx' /\ forall t, view t mx' = List.filter (survives rs t) (view t mx).
Definition knows (known : etype -> bool) mx : Prop := forall t, known t = true <-> is_Some (handler_list t mx).

Lemma filter_filter {B} (f g : B -> bool) (l : list B) :
  List.filter f (List.filter g l) = List.filter (fun x => f x && g x) l.
Proof.
  induction l as [|x l IH]; [done|]. cbn. rewrite andb_comm.
  destruct (g x); cbn; [by destruct (f x); rewrite IH|done].
Qed.

Lemma without_nil mx : mixin_wf mx -> without [] mx mx.
Proof.
  intros Hw. split; [done|]. split; [done|]. intros t. symmetry. by apply filter_all.
Qed.

Lemma without_app rs1 rs2 mx1 mx2 mx3 : without rs1 mx1 mx2 -> without rs2 mx2 mx3 ->
  without (rs1 ++ rs2) mx1 mx3.
Proof.
  intros (_ & Hu1 & Hv1) (Hw & Hu2 & Hv2). split; [done|]. split; [by etrans|].
  intros t. rewrite Hv2, Hv1, filter_filter. apply filter_ext. intros x.
  unfold survives. rewrite existsb_app, negb_orb. apply andb_comm.
Qed.

Lemma knows_without known rs mx mx' : without rs mx mx' -> knows known mx -> knows known mx'.
Proof. intros (_ & Hu & _) Hk t. by rewrite (Hk t), (un_keys _ _ Hu). Qed.

Lemma remove_one known r mx : mixin_wf mx -> knows known mx ->
  match r with RefPair t _ => known t | _ => true end = true ->
  exists b mx', removeListener r None mx = (Ok b, mx') /\ without [r] mx mx'.
Proof.
  intros Hw Hk Hr. destruct (removeListener_ok r None mx Hw) as (mx' & b & E & [Hw' Hu Hv _]); [by destruct r| |].
  { intros t Ht. destruct r; cbn in Ht; [|done..]. injection Ht as <-. by apply (Hk t0). }
  exists b, mx'. split; [done|]. split; [done|]. split; [done|]. intros t. rewrite Hv.
  destruct r as [t' eid|eid|h]; cbn [removal_types].
  - destruct (decide (t = t')) as [->|Hn].
    + rewrite decide_True by (by right). apply filter_ext. intros x. unfold survives, removal, keep_eid. cbn.
      by rewrite orb_false_r, bool_decide_true.
    + rewrite decide_False by (intros [?|[= ?]]; congruence). symmetry. apply filter_all. intros x _.
      unfold survives. cbn. by rewrite bool_decide_false.
  - rewrite decide_True by (by left). apply filter_ext. intros x. unfold survives, removal, keep_eid. cbn. by rewrite orb_false_r.
  - rewrite decide_True by (by left). apply filter_ext. intros x. unfold survives, removal, keep_handler. cbn. by rewrite orb_false_r.
Qed.

Lemma unsubscribe_run known rs mx : mixin_wf mx -> knows known mx ->
  let '(q, done) := carried_out known rs in
  exists mx', unsubscribe rs mx = (q, mx') /\ without done mx mx'.
Proof.
  revert mx. induction rs as [|r rs IH]; intros mx Hw Hk; [exists mx; split; [done|by apply without_nil]|]. cbn [carried_out unsubscribe].
  destruct (match r with RefPair t _ => known t | _ => true end) eqn:Er.
  - destruct (remove_one known r mx Hw Hk Er) as (b & mx1 & E & R). specialize (IH mx1 (proj1 R) (knows_without _ _ _ _ R Hk)).
    destruct (carried_out known rs) as [q done]. destruct IH as (mx' & E' & R'). exists mx'. erewrite bind_ok by exact E.
    split; [done|]. exact (without_app [r] done _ _ _ R R').
  - destruct r as [t eid|eid|h]; [|done..]. exists mx. split; [|by apply without_nil]. erewrite bind_err; [done|]. unfold removeListener, remove_in. cbn [default].
    destruct (handler_list t mx) eqn:El; [|done]. exfalso. apply not_true_iff_false in Er. apply Er, Hk. rewrite El. by eexists.
Qed.

(** The two removals after a call: by [once] and by the return value. *)
Lemma remove_if (b : bool) eid mx (ev : Event D) (a : A) : mixin_wf mx -> exists r mx',
  (if b then on_mixin (removeListener (RefEid eid) None) else mret false) (ev, (mx, a)) =
    (Ok r, (ev, (mx', a))) /\ without (if b then [RefEid eid] else []) mx mx'.
Proof.
  intros Hw. destruct b.
  - destruct (remove_one (fun t => bool_decide (is_Some (handler_list t mx))) (RefEid eid) mx Hw) as (r & mx' & E & Hr);
      [intros t; apply bool_decide_eq_true|done|]. exists r, mx'. cbn [on_mixin]. by rewrite E.
  - exists false, mx. split; [done|]. by apply without_nil.
Qed.

Lemma without_once (b c : bool) eid rs mx mx' :
  without ((rs ++ if b then [RefEid eid] else []) ++ (if c then [RefEid eid] else [])) mx mx' ->
  without (rs ++ if b || c then [RefEid eid] else []) mx mx'.
Proof.
  intros (Hw & Hu & Hv). split; [done|]. split; [done|]. intros t. rewrite Hv.
  apply filter_ext. intros x. unfold survives. f_equal. rewrite <-app_assoc, !existsb_app. f_equal.
  destruct b, c; cbn; rewrite ?orb_false_r, ?orb_diag; done.
Qed.

Lemma invoke_acts known x args mx ev a : mixin_wf mx -> knows known mx ->
  let '(r, ev', a', rs) := act_entry known (mx_gone mx) x args ev a in
  exists mx', invoke acting alive x args (ev, (mx, a)) = (r, (ev', (mx', a'))) /\ without rs mx mx'.
Proof.
  intros Hw Hk.
  assert (forall h, let '(r, ev', a', rs) := act h args ev a in
    let '(q, rs) := carried_out known rs in
    exists mx', acting h args (ev, (mx, a)) = (match q with Ok _ => r | Err e => Err e end, (ev', (mx', a'))) /\ without rs mx mx') as Hcall.
  { intros h. unfold acting. destruct (act h args ev a) as [[[r ev'] a'] rs]. pose proof (unsubscribe_run known rs mx Hw Hk) as Hu.
    destruct (carried_out known rs) as [q rs']. destruct Hu as (mx' & E & R). exists mx'. by rewrite E. }
  assert (exists mx', mx' = mx /\ without [] mx mx') as (mx0 & E0 & R0) by (exists mx; split; [done|by apply without_nil]).
  unfold invoke, act_entry. destruct (en_handler x) as [h|h d].
  - specialize (Hcall h). destruct (act h args ev a) as [[[r ev'] a'] rs]. by destruct (carried_out known rs) as [q rs'].
  - destruct (bool_decide _); [by exists mx0; subst|]. destruct (alive h a); [|by exists mx0; subst].
    specialize (Hcall h). destruct (act h args ev a) as [[[r ev'] a'] rs]. by destruct (carried_out known rs) as [q rs'].
Qed.

Lemma raise_loop_deliver known fuel p i args ev mx a pre es : mixin_wf mx -> knows known mx ->
  mx_heap mx !! p = Some (pre ++ es) -> length pre = i -> (length es <= fuel)%nat ->
  let '(r, ev', a', rs) := deliver known (mx_gone mx) es args ev a in
  exists mx', raise_loop acting alive fuel p i args (ev, (mx, a)) = (r, (ev', (mx', a'))) /\
    without rs mx mx'.
Proof.
  intros Hw Hk Hp <- Hf. revert fuel pre ev mx a Hw Hk Hp Hf.
  induction es as [|x es IH]; intros fuel pre ev mx a Hw Hk Hp Hf.
  - cbn [deliver]. exists mx. split; [|by apply without_nil].
    rewrite app_nil_r in Hp. destruct fuel; cbn [raise_loop fst snd];
      rewrite Hp; cbn; by rewrite lookup_ge_None_2.
  - destruct fuel as [|fuel]; [cbn in Hf; lia|]. cbn [raise_loop deliver fst snd]. rewrite Hp. cbn [mbind option_bind].
    rewrite list_lookup_middle by done. pose proof (invoke_acts known x args mx ev a Hw Hk) as Ei.
    destruct (act_entry known (mx_gone mx) x args ev a) as [[[r ev1] a1] rs0]. destruct Ei as (mx0 & Ei & R0).
    destruct r as [rv|e]; [|exists mx0; split; [by erewrite bind_err by exact Ei|done]].
    erewrite bind_ok by exact Ei.
    destruct (remove_if (en_once x) (en_eid x) mx0 ev1 a1 (proj1 R0)) as (r1 & mx1 & E1 & R1). erewrite bind_ok by exact E1.
    destruct (remove_if (rv_removes rv) (en_eid x) mx1 ev1 a1 (proj1 R1)) as (r2 & mx2 & E2 & R2). erewrite bind_ok by exact E2.
    rewrite bind_get. cbn [fst].
    pose proof (without_once _ _ _ _ _ _ (without_app _ _ _ _ _ (without_app _ _ _ _ _ R0 R1) R2)) as R.
    destruct (rv_stops rv (ev_halt ev1)); [by exists mx2|].
    specialize (IH fuel (pre ++ [x]) ev1 mx2 a1 (proj1 R) (knows_without _ _ _ _ R Hk)).
    destruct R as (Hw2 & Hu2 & Hv2). rewrite (un_gone _ _ Hu2) in IH.
    destruct (deliver known (mx_gone mx) es args ev1 a1) as [[[r ev'] a'] rs'].
    rewrite <-app_assoc, length_app, Nat.add_comm in IH. cbn in IH, Hf.
    destruct IH as (mx' & E & R'); [by apply (un_heap _ _ Hu2)|lia|].
    exists mx'. split; [done|]. by apply (without_app _ _ _ mx2).
Qed.
End delivery.

(** * Properties of event sources *)

(** C33: Raising an event calls the handlers that its type has when it is raised, in order of priority, until one
    of them stops it or fails.  They may unsubscribe handlers on the way, themselves or others, by identifier, pair or
    handler; those that are called do not change by that, and afterwards exactly the handlers are gone that were
    unsubscribed so, ran once only or asked to be removed.  (Handlers that subscribe to the source meanwhile are not
    covered: what they add may be called in the same round, [raiseEvent_resubscribe_diverges].) *)
Theorem raiseEvent_delivers {H} `{EqDecision H} {D Args A}
    (act : H -> Args -> Event D -> A -> res retval * Event D * A * list (listener_ref H)) alive new_event (no_args : Args)
    fuel (ev : Event D) args (mx : EventMixin H) (a : A) :
  mixin_wf mx -> raises (mx_events mx) (ev_type ev) = true ->
  (length (view (ev_type ev) mx) <= fuel)%nat ->
  let '(r, ev', a', rs) :=
    deliver act alive (fun t => bool_decide (is_Some (handler_list t mx))) (mx_gone mx) (view (ev_type ev) mx) args
      (with_source (mx_self mx) ev) a in
  exists mx',
    raiseEvent (acting act) alive new_event no_args fuel (RaInstance ev) args (mx, a) =
      (match r with Ok _ => Ok (Some ev') | Err e => Err e end, (mx', a')) /\
    without rs mx mx'.
Proof.
  intros Hw Hr Hf. cbn [raiseEvent]. unfold raise_on. rewrite Hr. cbn [negb].
  set (known := fun t => bool_decide _). assert (knows known mx) as Hk by (intros t; apply bool_decide_eq_true).
  destruct (mx_handlers mx !! ev_type ev) as [p|] eqn:Ep.
  - destruct (handler_list_some _ _ _ (proj1 Hw) Ep) as (l & El & Ev).
    assert (view (ev_type ev) mx = l) as E by (unfold view; by rewrite Ev). rewrite E in *.
    pose proof (raise_loop_deliver act alive known fuel p 0 args (with_source (mx_self mx) ev) mx a [] l
      Hw Hk El eq_refl Hf) as HL.
    destruct (deliver _ _ _ _ _ _) as [[[r ev'] a'] rs]. destruct HL as (mx' & EL & R).
    exists mx'. by rewrite EL.
  - assert (view (ev_type ev) mx = []) as -> by (unfold view, handler_list; by rewrite Ep).
    cbn [deliver]. exists mx. split; [done|by apply without_nil].
Qed.

(** A subscription gets a new identifier and its place in the handler list: behind
    all handlers of at least its priority, before all others; no other list changes, and
    the lists stay sorted with distinct identifiers. *)
Theorem addListener_places {H} `{EqDecision H} (bound : H -> bool) t0 h once weak priority byName
    (mx : EventMixin H) t :
  mixin_wf mx -> resolve_event t0 byName mx = Ok t -> (weak = true -> bound h = true) ->
  let eid := mx_eid mx + 1 in
  let entry := HandlerEntry priority (if weak then Proxy h (t, eid) else Strong h) once eid in
  exists mx' l1 l2, addListener bound t0 h once weak priority byName mx = (Ok (t, eid), mx') /\
    mixin_wf mx' /\ view t mx = l1 ++ l2 /\ view t mx' = l1 ++ entry :: l2 /\
    Forall (fun y => prio_le priority (en_priority y) = true) l1 /\
    Forall (fun y => prio_le priority (en_priority y) = false) l2 /\
    forall t', t' <> t -> view t' mx' = view t' mx.
Proof.
  intros Hw Hr Hb eid entry.
  destruct (addListener_ok bound t0 h once weak priority byName mx t Hw Hr Hb)
    as (mx' & l1 & l2 & E & Hw' & _ & Hl & H1 & H2 & Hv).
  exists mx', l1, l2. split_and!; try done.
  - by rewrite Hv, decide_True.
  - intros t' Ht. by rewrite Hv, decide_False.
Qed.

(** What [addListener] returns undoes it: unsubscribing by that pair leaves every
    handler list as it was, and reports a change. *)
Theorem subscribe_unsubscribe {H} `{EqDecision H} (bound : H -> bool) t0 h once weak priority byName
    (mx : EventMixin H) t :
  mixin_wf mx -> resolve_event t0 byName mx = Ok t -> (weak = true -> bound h = true) ->
  exists eid mx1 mx2, addListener bound t0 h once weak priority byName mx = (Ok (t, eid), mx1) /\
    removeListener (RefPair t eid) None mx1 = (Ok true, mx2) /\ mixin_wf mx2 /\
    forall t', view t' mx2 = view t' mx.
Proof.
  intros Hw Hr Hb.
  destruct (addListener_ok bound t0 h once weak priority byName mx t Hw Hr Hb)
    as (mx1 & l1 & l2 & E & Hw1 & He & Hl & _ & _ & Hv).
  set (eid := mx_eid mx + 1) in *.
  set (entry := HandlerEntry priority (if weak then Proxy h (t, eid) else Strong h) once eid) in *.
  assert (view t mx1 = l1 ++ entry :: l2) as Hvt by (by rewrite Hv, decide_True).
  destruct (removeListener_ok (RefPair t eid) None mx1 Hw1) as (mx2 & b & E2 & [Hw2 _ Hv2 Hb2]); [done| |].
  { intros t' [= <-]. unfold view in Hvt. destruct (handler_list t mx1); [by eexists|].
    by destruct l1. }
  assert (view t mx2 = l1 ++ l2) as Hvt2.
  { rewrite Hv2, decide_True by (by right). rewrite Hvt. apply (remove_added entry).
    rewrite <-Hvt. apply (lists_nodup _ (proj2 Hw1)). }
  exists eid, mx1, mx2. split; [done|]. split.
  - rewrite E2. do 2 f_equal. apply Hb2. exists t. rewrite Hvt, Hvt2. intros Ea.
    apply (f_equal length) in Ea. rewrite !length_app in Ea. cbn in Ea. lia.
  - split; [done|]. intros t'. destruct (decide (t' = t)) as [->|Hn]; [by rewrite Hvt2, Hl|].
    rewrite Hv2, decide_False by (cbn; intros [?|?]; congruence). by rewrite Hv, decide_False.
Qed.

(** [removeListener] takes out exactly the handlers it is asked for - by pair, by
    identifier or by handler, of one type or of all - and says whether there were any;
    the others keep their order. *)
Theorem removeListener_removes {H} `{EqDecision H} (r : listener_ref H) eventType (mx : EventMixin H) :
  mixin_wf mx -> (if r is RefEid _ then eventType = None else True) ->
  (forall t, removal_types r eventType = Some t -> is_Some (handler_list t mx)) ->
  exists mx' b, removeListener r eventType mx = (Ok b, mx') /\ mixin_wf mx' /\
    (forall t, view t mx' =
       if decide (removal_types r eventType = None \/ removal_types r eventType = Some t)
       then List.filter (removal r eventType) (view t mx) else view t mx) /\
    (b = true <-> exists t, view t mx' <> view t mx).
Proof.
  intros Hw Hr Ht. destruct (removeListener_ok r eventType mx Hw Hr Ht) as (mx' & b & E & [? _ ? ?]).
  by exists mx', b.
Qed.

(** Unsubscribing by identifier with an event type given always fails: the branch
    uses its list before assigning it. *)
Theorem removeListener_eid_and_type {H} `{EqDecision H} eid t (mx : EventMixin H) :
  removeListener (RefEid eid) (Some t) mx = (Err NameError, mx).
Proof. done. Qed.

(** A handler that subscribes itself again without a priority. *)
Definition resubscribe {H} `{EqDecision H} {D Args A} (bound : H -> bool) t (h0 h : H) (args : Args)
    : M (Event D * (EventMixin H * A)) retval :=
  '_ ← on_mixin (addListener bound t h0 false false None false); mret RvNone.

(** The handler list is not copied before the handlers run: with a handler that
    subscribes one more handler each time it is called, [raiseEvent] never ends. *)
Theorem raiseEvent_resubscribe_diverges {H} `{EqDecision H} {D Args A} (bound : H -> bool)
    (alive : H -> A -> bool) new_event (no_args : Args) t (h0 : H) (ev : Event D) args
    (mx : EventMixin H) (a : A) fuel :
  ev_type ev = t -> mx_events mx = AnyEvent -> view t mx <> [] ->
  Forall (fun x => en_once x = false /\ exists h, en_handler x = Strong h) (view t mx) ->
  fst (raiseEvent (resubscribe bound t h0) alive new_event no_args fuel (RaInstance ev) args (mx, a)) =
    Err Diverge.
Proof.
  intros <- He Hne Hl. unfold view, handler_list in *. cbn [raiseEvent]. unfold raise_on.
  rewrite He. cbn [raises negb].
  destruct (mx_handlers mx !! ev_type ev) as [p|] eqn:Ep; [|done]. cbn [mbind option_bind] in *.
  destruct (mx_heap mx !! p) as [l|] eqn:El; [|done]. cbn [default] in *.
  set (t := ev_type ev) in *.
  enough (forall (i : nat) mx l, mx_events mx = AnyEvent -> mx_handlers mx !! t = Some p ->
    mx_heap mx !! p = Some l -> (i < length l)%nat ->
    Forall (fun x => en_once x = false /\ exists h, en_handler x = Strong h) l ->
    fst (raise_loop (resubscribe bound t h0) alive fuel p i args (with_source (mx_self mx) ev, (mx, a)))
      = Err Diverge) as Hloop.
  { specialize (Hloop 0%nat mx l He Ep El). destruct l; [done|]. specialize (Hloop ltac:(cbn; lia) Hl).
    destruct (raise_loop _ _ _ _ _ _ _) as [r [ev' s]]. cbn in *. by subst r. }
  clear. induction fuel as [|fuel IH]; intros i mx l He Ep El Hi Hl; cbn [raise_loop fst snd];
    rewrite El; cbn [mbind option_bind];
    destruct (lookup_lt_is_Some_2 l i Hi) as [x Ex]; rewrite Ex; [done|].
  destruct (proj1 (Forall_lookup _ _) Hl i x Ex) as [Ho [h Hh]].
  assert (handler_list t mx = Some l) as Eh by (unfold handler_list; by rewrite Ep).
  unfold invoke. rewrite Hh. cbn [fst snd resubscribe].
  unfold resubscribe, addListener, resolve_event, raises, lift, get, put, on_mixin, mbind, M_bind, mret, M_ret, generateEventID.
  rewrite He. cbv beta iota. rewrite Eh. cbn [mx_handlers]. rewrite Ep.
  unfold handler_list at 1. cbn [mx_handlers mx_heap]. rewrite Ep. cbn [mbind option_bind]. rewrite El.
  rewrite Ho. cbv beta iota. cbn [rv_removes rv_stops].
  set (mx' := update_list _ _ _).
  change (mx_self mx) with (mx_self mx').
  apply (IH (S i) mx' (l ++ [HandlerEntry None (Strong h0) false (mx_eid mx + 1)])); try done.
  - cbn. by rewrite lookup_insert_eq.
  - rewrite length_app. cbn. lia.
  - apply Forall_app. split; [done|]. constructor; [|done]. split; [done|]. by exists h0.
Qed.

(** ** Concrete instances *)

Lemma init_wf {H} (self : positive) events eid : mixin_wf (H:=H) (EventMixin_init self events eid).
Proof.
  split; split; cbn.
  - intros t p E. by rewrite lookup_empty in E.
  - intros p [l E]. by rewrite lookup_empty in E.
  - intros t t' p E. by rewrite lookup_empty in E.
  - intros t. constructor.
  - intros t. constructor.
  - intros t x Hx. by apply elem_of_nil in Hx.
  - intros t t' x y Hx. by apply elem_of_nil in Hx.
Qed.

(** ** Binding by name *)

(** The event a method of the sink is bound to. *)
Definition bound_event (events : gmap String.string etype) (prefix m : String.string) : option etype :=
  if starts_with (String.append "_handle" (String.append prefix "_")) m
  then events !! skip_chars (8 + String.length prefix) m else None.
Definition listener_fun {H} (x : listener H) : H := match x with Strong h | Proxy h _ => h end.

Lemma event_names_declared l n e : event_names l !! n = Some e -> e ∈ l.
Proof.
  unfold event_names. enough (forall m : gmap String.string etype,
    foldl (fun m e => match e with EvName n | EvClass _ n => <[n := e]> m end) m l !! n = Some e ->
    m !! n = Some e \/ e ∈ l) as Hg.
  { intros E. destruct (Hg ∅ E) as [E'|?]; [by rewrite lookup_empty in E'|done]. }
  induction l as [|x l IH]; intros m E; [by left|]. cbn [foldl] in E.
  destruct (IH _ E) as [E'|Hin]; [|right; by right].
  destruct x; apply lookup_insert_Some in E' as [[_ <-]|[_ E']]; (by left) || (right; by left).
Qed.

Lemma bind_methods_cons {H} `{EqDecision H} (bound : H -> bool) events prefix weak priority m a ms mx :
  bind_methods bound events prefix weak priority ((m, a) :: ms) mx =
  match bound_event events prefix m with
  | Some e => (x ← addListener bound e a false weak priority false;
               xs ← bind_methods bound events prefix weak priority ms; mret (x :: xs)) mx
  | None => bind_methods bound events prefix weak priority ms mx
  end.
Proof.
  unfold bound_event. cbn [bind_methods]. destruct (starts_with _ _); [|done].
  by destruct (events !! _).
Qed.

Lemma bind_methods_ok {H} `{EqDecision H} (bound : H -> bool) events prefix weak priority ms :
  forall mx : EventMixin H, mixin_wf mx ->
  (forall n e, events !! n = Some e -> raises (mx_events mx) e = true) ->
  (weak = true -> Forall (fun m => bound m.2 = true) ms) ->
  exists ids mx', bind_methods bound events prefix weak priority ms mx = (Ok ids, mx') /\
    mixin_wf mx' /\ ids.*1 = omap (fun m => bound_event events prefix m.1) ms /\
    (forall t x, x ∈ view t mx -> x ∈ view t mx') /\
    (forall m a t, (m, a) ∈ ms -> bound_event events prefix m = Some t ->
       exists x, x ∈ view t mx' /\ listener_fun (en_handler x) = a).
Proof.
  induction ms as [|[m a] ms IH]; intros mx Hw Hd Hb.
  - exists [], mx. split_and!; try done. intros m a t Hin. by apply elem_of_nil in Hin.
  - assert (weak = true -> Forall (fun m => bound m.2 = true) ms) as Hb'
      by (intros Ew; specialize (Hb Ew); by inversion Hb).
    rewrite bind_methods_cons. cbn [omap list_omap fst].
    destruct (bound_event events prefix m) as [e|] eqn:Eb.
    + assert (raises (mx_events mx) e = true) as Hre
        by (unfold bound_event in Eb; destruct (starts_with _ _); [by eapply Hd|done]).
      destruct (addListener_ok bound e a false weak priority false mx e Hw)
        as (mx1 & l1 & l2 & E1 & Hw1 & He1 & Hl & _ & _ & Hv).
      { unfold resolve_event. by rewrite Hre. }
      { intros Ew. specialize (Hb Ew). by inversion Hb. }
      destruct (IH mx1 Hw1) as (ids & mx2 & E2 & Hw2 & Hi & Hs2 & Ha2); [by rewrite He1|done|].
      assert (forall t x, x ∈ view t mx -> x ∈ view t mx1) as Hs1.
      { intros t x Hx. rewrite Hv. destruct (decide (t = e)) as [->|]; [|done].
        rewrite Hl in Hx. rewrite !elem_of_app, elem_of_cons in *. tauto. }
      exists ((e, mx_eid mx + 1) :: ids), mx2. split; [|split; [done|split; [by cbn; rewrite Hi|split]]].
      * unfold mbind, M_bind, mret, M_ret. by rewrite E1, E2.
      * auto.
      * intros m' a' t [[= -> ->]|Hin]%elem_of_cons Et; [|by apply (Ha2 m')].
        rewrite Eb in Et. injection Et as <-.
        eexists. split; [apply Hs2; rewrite Hv, decide_True by done; apply elem_of_app; right; by left|].
        by destruct weak.
    + destruct (IH mx Hw Hd Hb') as (ids & mx2 & E2 & Hw2 & Hi & Hs2 & Ha2).
      exists ids, mx2. split_and!; try done.
      intros m' a' t [[= -> ->]|Hin]%elem_of_cons Et; [congruence|by apply (Ha2 m')].
Qed.

(** [autoBindEvents] subscribes exactly the methods whose name is the handler prefix
    followed by the name of an event of the source, in the order of [dir], and loses no
    listener that was there. *)
Theorem autoBindEvents_binds {H} `{EqDecision H} (bound : H -> bool) sink prefix weak priority
    (mx : EventMixin H) l :
  mixin_wf mx -> mx_events mx = EventSet l ->
  (weak = true -> Forall (fun m => bound m.2 = true) sink) ->
  exists ids mx', autoBindEvents bound sink prefix weak priority mx = (Ok ids, mx') /\
    mixin_wf mx' /\
    ids.*1 = omap (fun m => bound_event (event_names l) (bind_prefix prefix) m.1) sink /\
    (forall t x, x ∈ view t mx -> x ∈ view t mx') /\
    (forall m a t, (m, a) ∈ sink ->
       bound_event (event_names l) (bind_prefix prefix) m = Some t ->
       exists x, x ∈ view t mx' /\ listener_fun (en_handler x) = a).
Proof.
  intros Hw He Hb. unfold autoBindEvents. rewrite He. apply bind_methods_ok; [done| |done].
  intros n e E. rewrite He. cbn. apply bool_decide_eq_true_2. by eapply event_names_declared.
Qed.

(** An event type with three handlers; handler 1 runs first and once only. *)
Definition up_event : etype := EvClass 1 "ConnectionUp".
Definition up_source : EventMixin nat :=
  let sub h once prio mx := snd (addListener (fun _ => true) up_event h once false prio false mx) in
  sub 1%nat true (Some 5) (sub 2%nat false (Some 1) (sub 3%nat false None
    (EventMixin_init 1 (EventSet [up_event]) 0))).

Lemma subscribed_wf {H} `{EqDecision H} bound t0 (h : H) once weak priority byName mx t : mixin_wf mx ->
  resolve_event t0 byName mx = Ok t -> (weak = true -> bound h = true) ->
  mixin_wf (snd (addListener bound t0 h once weak priority byName mx)).
Proof.
  intros Hw Hr Hb. destruct (addListener_ok bound t0 h once weak priority byName mx t Hw Hr Hb)
    as (mx' & l1 & l2 & -> & Hw' & _). done.
Qed.

Lemma up_source_wf : mixin_wf up_source.
Proof.
  unfold up_source. cbv zeta.
  repeat (eapply subscribed_wf; [|vm_compute; reflexivity|done]). apply init_wf.
Qed.

(** Handlers that log their number; 2 stops the event and unsubscribes. *)
Definition log_act (h : nat) (_ : unit) (ev : Event unit) (log : list nat)
    : res retval * Event unit * list nat * list (listener_ref nat) :=
  (Ok (if decide (h = 2%nat) then EventHaltAndRemove else RvNone), ev, log ++ [h],
   if decide (h = 1%nat) then [RefHandler (Strong 3%nat)] else []).
Definition up_instance : Event unit := MkEvent up_event false None tt.

Lemma raiseEvent_delivers_witness :
  deliver log_act (fun _ _ => true) (fun t => bool_decide (is_Some (handler_list t up_source))) ∅ (view up_event up_source) tt
      (with_source 1 up_instance) [] =
    (Ok tt, with_source 1 up_instance, [1; 2]%nat, [RefHandler (Strong 3%nat); RefEid 3; RefEid 2]) /\
  exists mx', raiseEvent (acting log_act) (fun _ _ => true) (fun _ _ => Err TypeError) tt 3
      (RaInstance up_instance) tt (up_source, []) =
    (Ok (Some (with_source 1 up_instance)), (mx', [1; 2]%nat)) /\
    without [RefHandler (Strong 3%nat); RefEid 3; RefEid 2] up_source mx'.
Proof.
  split; [vm_compute; reflexivity|].
  pose proof (raiseEvent_delivers log_act (fun _ _ => true) (fun _ _ => Err TypeError) tt 3
    up_instance tt up_source [] up_source_wf ltac:(vm_compute; reflexivity)
    ltac:(vm_compute; lia)) as HR.
  exact HR.
Defined.

Lemma addListener_places_witness : exists mx' l1 l2,
  addListener (fun _ => true) up_event 4%nat false true (Some 1) false up_source = (Ok (up_event, 4), mx') /\
  mixin_wf mx' /\ view up_event up_source = l1 ++ l2 /\
  view up_event mx' = l1 ++ HandlerEntry (Some 1) (Proxy 4%nat (up_event, 4)) false 4 :: l2 /\
  Forall (fun y => prio_le (Some 1) (en_priority y) = true) l1 /\
  Forall (fun y => prio_le (Some 1) (en_priority y) = false) l2 /\
  forall t', t' <> up_event -> view t' mx' = view t' up_source.
Proof.
  exact (addListener_places (fun _ => true) up_event 4%nat false true (Some 1) false up_source up_event
    up_source_wf eq_refl (fun _ => eq_refl)).
Defined.

Lemma subscribe_unsubscribe_witness : exists eid mx1 mx2,
  addListener (fun _ => true) (EvName "ConnectionUp") 4%nat false false None true up_source =
    (Ok (up_event, eid), mx1) /\
  removeListener (RefPair up_event eid) None mx1 = (Ok true, mx2) /\ mixin_wf mx2 /\
  forall t', view t' mx2 = view t' up_source.
Proof.
  exact (subscribe_unsubscribe (fun _ => true) (EvName "ConnectionUp") 4%nat false false None true
    up_source up_event up_source_wf eq_refl (fun _ => eq_refl)).
Defined.

Lemma removeListener_removes_witness : exists mx' b,
  removeListener (RefHandler (Strong 2%nat)) None up_source = (Ok b, mx') /\ mixin_wf mx' /\
  (forall t, view t mx' = if decide (@None etype = None \/ None = Some t)
     then List.filter (keep_handler (Strong 2%nat)) (view t up_source) else view t up_source) /\
  (b = true <-> exists t, view t mx' <> view t up_source).
Proof.
  apply (removeListener_removes (RefHandler (Strong 2%nat)) None up_source up_source_wf I).
  intros t Ht. discriminate Ht.
Defined.

Definition any_source : EventMixin nat :=
  snd (addListener (fun _ => true) up_event 1%nat false false None false (EventMixin_init 1 AnyEvent 0)).

Lemma raiseEvent_resubscribe_diverges_witness :
  fst (raiseEvent (resubscribe (A:=unit) (fun _ => true) up_event 1%nat) (fun _ _ => true)
    (fun _ _ => Err TypeError) tt 100 (RaInstance up_instance) tt (any_source, tt)) = Err Diverge.
Proof.
  apply raiseEvent_resubscribe_diverges; [reflexivity|reflexivity|vm_compute; discriminate|].
  vm_compute. constructor; [|constructor]. split; [reflexivity|]. exists 1%nat. reflexivity.
Defined.

Lemma autoBindEvents_binds_witness :
  let sink := [("__init__", 7%nat); ("_handle_ConnectionUp", 8%nat); ("_handle_PacketIn", 9%nat)]%string in
  exists ids mx', autoBindEvents (fun _ => true) sink "" false None up_source = (Ok ids, mx') /\
  mixin_wf mx' /\ ids.*1 = [up_event] /\
  (forall t x, x ∈ view t up_source -> x ∈ view t mx') /\
  (forall m a t, (m, a) ∈ sink -> bound_event (event_names [up_event]) "" m = Some t ->
     exists x, x ∈ view t mx' /\ listener_fun (en_handler x) = a).
Proof.
  exact (autoBindEvents_binds (fun _ => true)
    [("__init__", 7%nat); ("_handle_ConnectionUp", 8%nat); ("_handle_PacketIn", 9%nat)]%string
    "" false None up_source [up_event] up_source_wf eq_refl (fun E => match Bool.diff_false_true E with end)).
Defined.
