(* ===== verification/Recoco.v ===== *)
(** [lib/recoco/recoco.py]: tasks that are Python generators, the scheduler that runs them in
    turn, the hub in whose thread one [select] waits for all of them, and the tasks the library
    brings along: timers, calls to be made later, calls that block.

    A generator of the library is a program counter ([gen]); those of other modules are values
    of a type [G] with a function that resumes them.  Threads are interleaved in steps: a cycle
    of the scheduler, the two halves of a round of the hub (before and after [select]), the end
    of a blocking call, what another thread does.  There is one scheduler, the default one; the
    clock is a field that is read, in integers of nanoseconds. *)
From S2P Require Import Prelude.

(** * Data *)

(** What is sent into a generator: None, what [select] returned, what a blocking call returned
    or raised, and other values. *)
Inductive pyval :=
  | VNone
  | VFds (r w x : list Z)
  | VRet (v : pyval)
  | VExc (e : exn)
  | VData (b : bytes)
  | VInt (z : Z)
  | VFalse
  | VObj (z : Z).
#[export] Instance pyval_eq_dec : EqDecision pyval.
Proof. solve_decision. Defined.

Section data.
Context {G F W : Type}.

(** The system calls; a [Sleep] has its time absolute. *)
Inductive BlockingOperation :=
  | Exit
  | Sleep (t : option Z)
  | Select (rlist wlist xlist : option (list Z)) (timeout : option Z) (timeIsAbsolute : bool)
  | Recv (fd length : Z) (timeout : option Z)
  | Send (fd : Z) (data : bytes)
  | CallBlocking (func : F).
Definition Sleep_init (timeToWake : option Z) (absoluteTime : bool) (now : Z) : BlockingOperation :=
  Sleep (if absoluteTime then timeToWake else (fun t => t + now) <$> timeToWake).

Inductive yielded :=
  | YOp (op : BlockingOperation)
  | YFalse
  | YNum (n : Z)
  | YNone
  | YOther.

(** [run] of a class derived from [BaseTask] elsewhere; of [BaseTask], of [Task] with its
    [target], of [ScheduleTask], [Timer], [CallLaterTask] and [BlockingTask], each where it
    stands; a generator that has ended. *)
Inductive callback := NoCallback | OneCallback (f : F) | TwoCallbacks (ok err : option F).
Inductive gen :=
  | GUser (g : G)
  | GBase (yielded : bool)
  | GTarget (g : G)
  | GSchedule (task : Z)
  | GScheduled
  | GTimer (asleep : bool)
  | GTimerQuit
  | GCallLater (waiting : bool)
  | GBlocking (func : F) (cb : callback)
  | GBlocked (cb : callback)
  | GDone.

(** The return functions of [Recv] and [Send]. *)
Inductive return_func :=
  | RFRecv (length : Z)
  | RFSend (fd : Z) (data : bytes) (sent : Z).

Record Task := MkTask {
  tk_gen : gen;
  tk_started : bool;
  tk_rv : pyval;
  tk_rf : option return_func
}.
Record Timer := MkTimer {
  tm_next : Z;
  tm_interval : Z;
  tm_cancelled : bool;
  tm_recurring : bool;
  tm_self_stoppable : bool;
  tm_callback : F
}.

(** What is registered with the hub, and what a round of it waits for: the task of every
    descriptor, and the task whose time comes first. *)
Record hub_entry := MkEntry {
  he_task : Z;
  he_rlist : option (list Z);
  he_wlist : option (list Z);
  he_xlist : option (list Z);
  he_timeout : option Z
}.
Record Wait := MkWait {
  wt_rl : gmap Z Z;
  wt_wl : gmap Z Z;
  wt_xl : gmap Z Z;
  wt_timeout : option (Z * Z);
  wt_deadline : Z
}.
Record SelectHub := MkHub {
  h_incoming : list hub_entry;
  h_pings : Z;
  h_tasks : gmap Z hub_entry;
  h_wait : option Wait;
  h_dead : bool
}.
Definition SelectHub_init : SelectHub := MkHub [] 0 ∅ None false.

(** [s_running]: the task whose generator runs, which is when code is in the scheduler's own
    thread.  [s_blocking]: the threads of blocking calls, each with its task and function.
    Task objects are known by their ids. *)
Record Scheduler := MkSched {
  s_ready : list Z;
  s_hasQuit : bool;
  s_allDone : bool;
  s_event : bool;
  s_running : option Z;
  s_tasks : gmap Z Task;
  s_timers : gmap Z Timer;
  s_nextTaskID : Z;
  s_callLaterTask : option Z;
  s_calls : list F;
  s_call_pings : Z;
  s_selectHub : SelectHub;
  s_blocking : list (Z * F);
  s_now : Z;
  s_world : W
}.
Definition Scheduler_init (now : Z) (w : W) : Scheduler :=
  MkSched [] false false false None ∅ ∅ 0 None [] 0 SelectHub_init [] now w.
Implicit Type s : Scheduler.
Definition s_set_ready v s := MkSched v (s_hasQuit s) (s_allDone s) (s_event s) (s_running s) (s_tasks s) (s_timers s) (s_nextTaskID s) (s_callLaterTask s) (s_calls s) (s_call_pings s) (s_selectHub s) (s_blocking s) (s_now s) (s_world s).
Definition s_set_quit q d s := MkSched (s_ready s) q d (s_event s) (s_running s) (s_tasks s) (s_timers s) (s_nextTaskID s) (s_callLaterTask s) (s_calls s) (s_call_pings s) (s_selectHub s) (s_blocking s) (s_now s) (s_world s).
Definition s_set_event v s := MkSched (s_ready s) (s_hasQuit s) (s_allDone s) v (s_running s) (s_tasks s) (s_timers s) (s_nextTaskID s) (s_callLaterTask s) (s_calls s) (s_call_pings s) (s_selectHub s) (s_blocking s) (s_now s) (s_world s).
Definition s_set_running v s := MkSched (s_ready s) (s_hasQuit s) (s_allDone s) (s_event s) v (s_tasks s) (s_timers s) (s_nextTaskID s) (s_callLaterTask s) (s_calls s) (s_call_pings s) (s_selectHub s) (s_blocking s) (s_now s) (s_world s).
Definition s_set_tasks v n s := MkSched (s_ready s) (s_hasQuit s) (s_allDone s) (s_event s) (s_running s) v (s_timers s) n (s_callLaterTask s) (s_calls s) (s_call_pings s) (s_selectHub s) (s_blocking s) (s_now s) (s_world s).
Definition s_set_timers v s := MkSched (s_ready s) (s_hasQuit s) (s_allDone s) (s_event s) (s_running s) (s_tasks s) v (s_nextTaskID s) (s_callLaterTask s) (s_calls s) (s_call_pings s) (s_selectHub s) (s_blocking s) (s_now s) (s_world s).
Definition s_set_callLaterTask v s := MkSched (s_ready s) (s_hasQuit s) (s_allDone s) (s_event s) (s_running s) (s_tasks s) (s_timers s) (s_nextTaskID s) v (s_calls s) (s_call_pings s) (s_selectHub s) (s_blocking s) (s_now s) (s_world s).
Definition s_set_calls v n s := MkSched (s_ready s) (s_hasQuit s) (s_allDone s) (s_event s) (s_running s) (s_tasks s) (s_timers s) (s_nextTaskID s) (s_callLaterTask s) v n (s_selectHub s) (s_blocking s) (s_now s) (s_world s).
Definition s_set_hub v s := MkSched (s_ready s) (s_hasQuit s) (s_allDone s) (s_event s) (s_running s) (s_tasks s) (s_timers s) (s_nextTaskID s) (s_callLaterTask s) (s_calls s) (s_call_pings s) v (s_blocking s) (s_now s) (s_world s).
Definition s_set_blocking v s := MkSched (s_ready s) (s_hasQuit s) (s_allDone s) (s_event s) (s_running s) (s_tasks s) (s_timers s) (s_nextTaskID s) (s_callLaterTask s) (s_calls s) (s_call_pings s) (s_selectHub s) v (s_now s) (s_world s).
Definition s_set_now v s := MkSched (s_ready s) (s_hasQuit s) (s_allDone s) (s_event s) (s_running s) (s_tasks s) (s_timers s) (s_nextTaskID s) (s_callLaterTask s) (s_calls s) (s_call_pings s) (s_selectHub s) (s_blocking s) v (s_world s).
Definition s_set_world v s := MkSched (s_ready s) (s_hasQuit s) (s_allDone s) (s_event s) (s_running s) (s_tasks s) (s_timers s) (s_nextTaskID s) (s_callLaterTask s) (s_calls s) (s_call_pings s) (s_selectHub s) (s_blocking s) (s_now s) v.
Definition set_incoming l n h := MkHub l n (h_tasks h) (h_wait h) (h_dead h).
Definition set_hub_tasks m h := MkHub (h_incoming h) (h_pings h) m (h_wait h) (h_dead h).
Definition set_wait v h := MkHub (h_incoming h) (h_pings h) (h_tasks h) v (h_dead h).
Definition set_dead h := MkHub (h_incoming h) (h_pings h) (h_tasks h) None true.
Definition tk_set_gen g b t := MkTask g b (tk_rv t) (tk_rf t).
Definition tk_set_rv v t := MkTask (tk_gen t) (tk_started t) v (tk_rf t).
Definition tk_set_rf v t := MkTask (tk_gen t) (tk_started t) (tk_rv t) v.
Definition tm_set_next v t := MkTimer v (tm_interval t) (tm_cancelled t) (tm_recurring t) (tm_self_stoppable t) (tm_callback t).
Definition tm_cancel t := MkTimer (tm_next t) (tm_interval t) true (tm_recurring t) (tm_self_stoppable t) (tm_callback t).
Definition upd (f : Scheduler -> Scheduler) : M Scheduler unit := fun s => (Ok tt, f s).
Definition upd_hub (f : SelectHub -> SelectHub) : M Scheduler unit := upd (fun s => s_set_hub (f (s_selectHub s)) s).
Definition upd_task (t : Z) (f : Task -> Task) : M Scheduler unit :=
  upd (fun s => s_set_tasks (alter f t (s_tasks s)) (s_nextTaskID s) s).
End data.
Arguments BlockingOperation : clear implicits.
Arguments yielded : clear implicits.
Arguments callback : clear implicits.
Arguments gen : clear implicits.
Arguments Task : clear implicits.
Arguments Timer : clear implicits.
Arguments Scheduler : clear implicits.

(** [try: ... except: ...]: what raises is handed on as a value. *)
Definition attempt {S A} (m : M S A) : M S (res A) := fun s =>
  match m s with
  | (Err Diverge, s) => (Err Diverge, s)
  | (r, s) => (Ok r, s)
  end.

(** * Running *)

Section recoco.
Context {G F W : Type}.
Abbreviation Sched := (Scheduler G F W).
Implicit Type s : Sched.
(** The generators and callables of other modules; what a socket's [recv] does; the
    descriptors of the two pingers. *)
Variable user_resume : G -> pyval -> M Sched (option (yielded F * G)).
Variable call : F -> list pyval -> M Sched pyval.
Variable sock_recv : Z -> Z -> W -> res bytes * W.
Variable hub_pinger call_pinger : Z.
(** How many calls the task for later calls makes in one go. *)
Variable max_calls : nat.

Definition the_task (t : Z) s : Task G F := default (MkTask GDone false VNone None) (s_tasks s !! t).
Definition get_task (t : Z) : M Sched (Task G F) := s ← get; mret (the_task t s).

(** ** Scheduling *)

(** [BaseTask.__init__], and [Task.__init__] with its second id. *)
Definition generateTaskID : M Sched Z :=
  s ← get;
  '_ ← upd (s_set_tasks (s_tasks s) (s_nextTaskID s + 1));
  mret (s_nextTaskID s + 1).
Definition BaseTask_init (g : gen G F) : M Sched Z :=
  id ← generateTaskID;
  '_ ← upd (fun s => s_set_tasks (<[id := MkTask g false VNone None]> (s_tasks s)) (s_nextTaskID s) s);
  mret id.
Definition Task_init (g : gen G F) : M Sched Z := '_ ← generateTaskID; BaseTask_init g.

Definition is_ready (t : Z) s : bool := bool_decide (t ∈ s_ready s).
Definition fast_schedule (t : Z) (first : bool) : M Sched unit :=
  s ← get;
  '_ ← lift (if is_ready t s then Err AssertionError else Ok tt);
  '_ ← upd (s_set_ready (if first then t :: s_ready s else s_ready s ++ [t]));
  upd (s_set_event true).

(** In the scheduler's thread at once, from another thread by a task of its own. *)
Definition schedule (t : Z) (first : bool) : M Sched (option bool) :=
  s ← get;
  match s_running s with
  | Some _ => if is_ready t s then mret (Some false) else '_ ← fast_schedule t first; mret (Some true)
  | None => st ← BaseTask_init (GSchedule t); '_ ← fast_schedule st false; mret None
  end.
Definition start (t : Z) (fast : bool) : M Sched unit :=
  if fast then fast_schedule t false else '_ ← schedule t false; mret tt.
Definition new (g : gen G F) : M Sched Z := t ← BaseTask_init g; '_ ← start t true; mret t.
Definition quit : M Sched unit := upd (fun s => s_set_quit true (s_allDone s) s).

Definition hub_cycle : M Sched unit := upd_hub (fun h => set_incoming (h_incoming h) (h_pings h + 1) h).
Definition registerSelect (t : Z) (rlist wlist xlist : option (list Z)) (timeout : option Z) (timeIsAbsolute : bool) : M Sched unit :=
  s ← get;
  let timeout := if timeIsAbsolute then timeout else (fun x => x + s_now s) <$> timeout in
  '_ ← upd_hub (fun h => set_incoming (h_incoming h ++ [MkEntry t rlist wlist xlist timeout]) (h_pings h) h);
  hub_cycle.
Definition registerTimer (t : Z) (timeToWake : option Z) (timeIsAbsolute : bool) : M Sched unit :=
  registerSelect t None None None timeToWake timeIsAbsolute.

(** [callLater]; [callLater] of the task it makes. *)
Definition callLater (f : F) : M Sched unit :=
  s ← get;
  '_ ← match s_callLaterTask s with
       | Some _ => mret tt
       | None =>
           t ← BaseTask_init (GCallLater false);
           '_ ← upd (s_set_callLaterTask (Some t));
           start t false
       end;
  upd (fun s => s_set_calls (s_calls s ++ [f]) (s_call_pings s + 1) s).

Definition Timer_init (timeToWake : Z) (callback : F) (absoluteTime recurring started selfStoppable : bool) : M Sched Z :=
  if absoluteTime && recurring then raise RuntimeError
  else
    t ← Task_init (GTimer false);
    s ← get;
    '_ ← upd (s_set_timers (<[t := MkTimer (if absoluteTime then timeToWake else timeToWake + s_now s)
             (if recurring then timeToWake else 0) false recurring selfStoppable callback]> (s_timers s)));
    '_ ← (if started then start t false else mret tt);
    mret t.
Definition cancel (t : Z) : M Sched unit := upd (fun s => s_set_timers (alter tm_cancel t (s_timers s)) s).

(** ** System calls *)

Definition Sleep_execute (x : option Z) (t : Z) : M Sched unit :=
  match x with
  | None => mret tt
  | Some x =>
      s ← get;
      if (x =? 0) || (x <? s_now s) then fast_schedule t false else registerTimer t (Some x) true
  end.
Definition Recv_execute (fd length : Z) (timeout : option Z) (t : Z) : M Sched unit :=
  '_ ← upd_task t (tk_set_rf (Some (RFRecv length)));
  registerSelect t (Some [fd]) None (Some [fd]) timeout false.
Definition Send_execute (fd : Z) (data : bytes) (sent t : Z) : M Sched unit :=
  '_ ← upd_task t (tk_set_rf (Some (RFSend fd data sent)));
  registerSelect t None (Some [fd]) (Some [fd]) None false.
Definition CallBlocking_execute (func : F) (t : Z) : M Sched unit :=
  upd (fun s => s_set_blocking (s_blocking s ++ [(t, func)]) s).
Definition op_execute (op : BlockingOperation F) (t : Z) : M Sched unit :=
  match op with
  | Exit => quit
  | Sleep x => Sleep_execute x t
  | Select rlist wlist xlist timeout absolute => registerSelect t rlist wlist xlist timeout absolute
  | Recv fd length timeout => Recv_execute fd length timeout t
  | Send fd data => Send_execute fd data 0 t
  | CallBlocking func => CallBlocking_execute func t
  end.

(** [task.rv] as the three lists that [select] returns. *)
Definition as_fds (v : pyval) : res (list Z * list Z * list Z) :=
  match v with
  | VFds r w x => Ok (r, w, x)
  | VRet _ | VExc _ => Err IndexError
  | _ => Err TypeError
  end.

(** The return functions; None is [ABORT].  [sock] in that of [Send] is a list, not a socket,
    and [data] is assigned only when there is much of it: both errors are caught. *)
Definition recvReturnFunc (length : Z) (t : Z) : M Sched (option pyval) :=
  o ← get_task t;
  '(r, _, x) ← lift (as_fds (tk_rv o));
  '_ ← upd_task t (tk_set_rv VNone);
  match x, r with
  | [], sock :: _ =>
      s ← get;
      match sock_recv sock length (s_world s) with
      | (Ok b, w) => '_ ← upd (s_set_world w); mret (Some (VData b))
      | (Err _, w) => '_ ← upd (s_set_world w); mret (Some VNone)
      end
  | _, _ => mret (Some VNone)
  end.
Definition sendReturnFunc (fd : Z) (data : bytes) (sent : Z) (t : Z) : M Sched (option pyval) :=
  o ← get_task t;
  '(_, _, x) ← lift (as_fds (tk_rv o));
  '_ ← upd_task t (tk_set_rv VNone);
  match x with
  | _ :: _ => mret (Some (VInt sent))
  | [] =>
      let data := if 1024 <? zlen data then slice_from data 1024 else data in
      '_ ← Send_execute fd data sent t;
      mret None
  end.
Definition rf_call (f : return_func) (t : Z) : M Sched (option pyval) :=
  match f with
  | RFRecv length => recvReturnFunc length t
  | RFSend fd data sent => sendReturnFunc fd data sent t
  end.

(** ** Generators *)

Definition run_schedule (u : Z) : M Sched unit :=
  s ← get; if is_ready u s then mret tt else fast_schedule u true.

Definition the_timer (t : Z) s : option (Timer F) := s_timers s !! t.
(** From the head of the loop of [Timer.run], and from where it slept. *)
Definition timer_loop (t : Z) : M Sched (option (yielded F * gen G F)) :=
  s ← get;
  match the_timer t s with
  | None => raise AttributeError
  | Some m =>
      if tm_cancelled m then mret (Some (YFalse, GTimerQuit))
      else mret (Some (YOp (Sleep_init (Some (tm_next m)) true (s_now s)), GTimer true))
  end.
Definition timer_wakes (t : Z) : M Sched (option (yielded F * gen G F)) :=
  s ← get;
  match the_timer t s with
  | None => raise AttributeError
  | Some m =>
      if tm_cancelled m then mret (Some (YFalse, GTimerQuit))
      else
        '_ ← upd (s_set_timers (<[t := tm_set_next (s_now s + tm_interval m) m]> (s_timers s)));
        rv ← call (tm_callback m) [];
        if tm_self_stoppable m && bool_decide (rv = VFalse) then mret (Some (YFalse, GTimerQuit))
        else if negb (tm_recurring m) then mret (Some (YFalse, GTimerQuit))
        else timer_loop t
  end.

(** The inner loop of [CallLaterTask.run]; what a call raises is logged. *)
Fixpoint make_calls (fuel : nat) : M Sched unit :=
  match fuel with
  | O => raise Diverge
  | S fuel =>
      s ← get;
      match s_calls s with
      | [] => mret tt
      | f :: calls =>
          '_ ← upd (s_set_calls calls (s_call_pings s));
          '_ ← attempt (call f []);
          make_calls fuel
      end
  end.
Definition pongAll (n : Z) : Z := Z.max 0 (n - 1024).
Definition select_calls : yielded F * gen G F :=
  (YOp (Select (Some [call_pinger]) None None None false), GCallLater true).

Definition run_callback (cb : callback F) (v : pyval) : M Sched unit :=
  '(rv, exc) ← lift match v with
                    | VRet v => Ok (v, VNone)
                    | VExc e => Ok (VNone, VExc e)
                    | VFds _ _ _ => Err ValueError
                    | _ => Err TypeError
                    end;
  match cb with
  | NoCallback => mret tt
  | TwoCallbacks ok err =>
      if bool_decide (exc = VNone) then
        match ok with Some f => '_ ← call f [rv]; mret tt | None => mret tt end
      else match err with Some f => '_ ← call f [exc]; mret tt | None => mret tt end
  | OneCallback f => '_ ← call f [rv; exc]; mret tt
  end.

(** A step of [Task.run]: the target goes on, and None is yielded. *)
Definition Task_run (g : G) (v : pyval) : M Sched (option (yielded F * gen G F)) :=
  r ← user_resume g v; mret ((fun p => (YNone, GTarget p.2)) <$> r).
Definition CallLaterTask_run : M Sched (option (yielded F * gen G F)) :=
  '_ ← upd (fun s => s_set_calls (s_calls s) (pongAll (s_call_pings s)) s);
  '_ ← make_calls max_calls;
  mret (Some select_calls).

(** The generator [g] of the task [t] goes on with [v]: what it yields and where it stands
    then, or None when it returns. *)
Definition gen_run (t : Z) (g : gen G F) (v : pyval) : M Sched (option (yielded F * gen G F)) :=
  match g with
  | GUser g => r ← user_resume g v; mret ((fun p => (p.1, GUser p.2)) <$> r)
  | GBase false => mret (Some (YNum 0, GBase true))
  | GTarget g => Task_run g v
  | GSchedule u => '_ ← run_schedule u; mret (Some (YFalse, GScheduled))
  | GTimer false => timer_loop t
  | GTimer true => timer_wakes t
  | GCallLater false => mret (Some select_calls)
  | GCallLater true => CallLaterTask_run
  | GBlocking func cb => mret (Some (YOp (CallBlocking func), GBlocked cb))
  | GBlocked cb => '_ ← run_callback cb v; mret None
  | GBase true | GScheduled | GTimerQuit | GDone => mret None
  end.

(** [gen.send(v)]: an exception ends the generator. *)
Definition gen_send (t : Z) (v : pyval) : M Sched (option (yielded F)) :=
  o ← get_task t;
  if negb (tk_started o) && negb (bool_decide (v = VNone)) then raise TypeError
  else
    '_ ← upd (s_set_running (Some t));
    r ← attempt (gen_run t (tk_gen o) v);
    '_ ← upd (s_set_running None);
    match r with
    | Ok (Some (y, g)) => '_ ← upd_task t (tk_set_gen g true); mret (Some y)
    | Ok None => '_ ← upd_task t (tk_set_gen GDone true); mret None
    | Err e => '_ ← upd_task t (tk_set_gen GDone true); raise e
    end.

(** ** The scheduler *)

(** [BaseTask.execute]. *)
Definition execute (t : Z) : M Sched (option (yielded F)) :=
  o ← get_task t;
  match tk_rf o with
  | Some f =>
      v ← rf_call f t;
      '_ ← upd_task t (tk_set_rf None);
      '_ ← upd_task t (tk_set_rv VNone);
      match v with None => mret (Some YFalse) | Some v => gen_send t v end
  | None =>
      '_ ← upd_task t (tk_set_rv VNone);
      gen_send t (tk_rv o)
  end.

(** What a task yields is done. *)
Definition perform (t : Z) (y : yielded F) : M Sched unit :=
  match y with
  | YOp op => '_ ← attempt (op_execute op t); mret tt
  | YFalse | YOther => mret tt
  | YNum n => if n =? 0 then upd (fun s => s_set_ready (s_ready s ++ [t]) s) else registerTimer t (Some n) false
  | YNone => raise RuntimeError
  end.

(** [cycle].  The task that is taken is always the first: the test [t >= 1] compares an object
    with a number, which is true, so priorities are not looked at. *)
Definition cycle : M Sched bool :=
  s ← get;
  match s_ready s with
  | [] => mret false
  | t :: ready =>
      '_ ← upd (s_set_ready ready);
      r ← attempt (execute t);
      match r with
      | Ok (Some y) => '_ ← perform t y; mret true
      | Ok None | Err _ => mret true
      end
  end.

(** One round of the loop of [run], after the wait for work; what follows the loop. *)
Definition run_end : M Sched unit :=
  '_ ← quit;
  '_ ← hub_cycle;
  upd (s_set_quit true true).
Definition run_round : M Sched unit :=
  s ← get;
  '_ ← match s_ready s with [] => upd (s_set_event false) | _ => mret tt end;
  r ← attempt cycle;
  match r with Ok _ => mret tt | Err e => '_ ← run_end; raise e end.

(** ** The hub *)

Definition hub_return (t : Z) (r w x : list Z) : M Sched unit :=
  '_ ← upd_task t (tk_set_rv (VFds r w x));
  fast_schedule t false.

(** The pass over the tasks: those whose time is over, the first time to come, and whose each
    descriptor is. *)
Definition claim (t : Z) (l : option (list Z)) (m : gmap Z Z) : gmap Z Z :=
  foldl (fun m i => <[i := t]> m) m (default [] l).
Fixpoint hub_scan (now : Z) (es : list hub_entry) (expired : list Z) (timer : option (Z * Z)) (rl wl xl : gmap Z Z) : list Z * option (Z * Z) * gmap Z Z * gmap Z Z * gmap Z Z :=
  match es with
  | [] => (expired, timer, rl, wl, xl)
  | e :: es =>
      let t := he_task e in
      let go timer := hub_scan now es expired timer (claim t (he_rlist e) rl) (claim t (he_wlist e) wl) (claim t (he_xlist e) xl) in
      match he_timeout e with
      | None => go timer
      | Some tto =>
          if tto <=? now then hub_scan now es (expired ++ [t]) timer rl wl xl
          else
            let tt := tto - now in
            go match timer with
               | Some (timeout, _) => if tt <? timeout then Some (tt, t) else timer
               | None => Some (tt, t)
               end
      end
  end.

Definition hub_delete (t : Z) : M Sched unit :=
  s ← get;
  match h_tasks (s_selectHub s) !! t with
  | None => raise KeyError
  | Some _ => upd_hub (fun h => set_hub_tasks (delete t (h_tasks h)) h)
  end.
Fixpoint hub_return_each (l : list (Z * (list Z * list Z * list Z))) : M Sched unit :=
  match l with
  | [] => mret tt
  | (t, (r, w, x)) :: l => '_ ← hub_delete t; '_ ← hub_return t r w x; hub_return_each l
  end.

Definition CYCLE_MAXIMUM : Z := 2 * 10 ^ 9.

(** A round up to the call of [select]. *)
Definition hub_prepare : M Sched unit :=
  s ← get;
  let '(expired, timer, rl, wl, xl) := hub_scan (s_now s) (map_to_list (h_tasks (s_selectHub s))).*2 [] None ∅ ∅ ∅ in
  '_ ← hub_return_each ((fun t => (t, ([], [], []))) <$> expired);
  upd_hub (set_wait (Some (MkWait rl wl xl timer (s_now s + default CYCLE_MAXIMUM (fst <$> timer))))).

(** New registrations. *)
Fixpoint hub_take (l : list hub_entry) (tasks : gmap Z hub_entry) : res (gmap Z hub_entry) :=
  match l with
  | [] => Ok tasks
  | e :: l => if bool_decide (is_Some (tasks !! he_task e)) then Err AssertionError else hub_take l (<[he_task e := e]> tasks)
  end.

(** Who gets which descriptors. *)
Abbreviation returns := (gmap Z (list Z * list Z * list Z)).
Definition ret_of (t : Z) (m : returns) : list Z * list Z * list Z := default ([], [], []) (m !! t).
Fixpoint hub_give (owner : gmap Z Z) (l : list Z) (add : Z -> list Z * list Z * list Z -> list Z * list Z * list Z) (m : returns) : res returns :=
  match l with
  | [] => Ok m
  | i :: l =>
      match owner !! i with
      | None => Err KeyError
      | Some t => hub_give owner l add (<[t := add i (ret_of t m)]> m)
      end
  end.
Definition hub_rets (w : Wait) (ro wo xo : list Z) : res returns :=
  m ← hub_give (wt_rl w) ro (fun i p => (p.1.1 ++ [i], p.1.2, p.2)) ∅;
  m ← hub_give (wt_wl w) wo (fun i p => (p.1.1, p.1.2 ++ [i], p.2)) m;
  hub_give (wt_xl w) xo (fun i p => (p.1.1, p.1.2, p.2 ++ [i])) m.

(** [ro.remove(pinger)]. *)
Fixpoint remove_first (i : Z) (l : list Z) : list Z :=
  match l with [] => [] | x :: l => if x =? i then l else x :: remove_first i l end.
Definition none_left (ro wo xo : list Z) : bool := (zlen ro =? 0) && (zlen wo =? 0) && (zlen xo =? 0).

(** The round from the return of [select] on. *)
Definition hub_incoming : M Sched unit :=
  '_ ← upd_hub (fun h => set_incoming (h_incoming h) (pongAll (h_pings h)) h);
  s ← get;
  let h := s_selectHub s in
  tasks ← lift (hub_take (h_incoming h) (h_tasks h));
  upd_hub (fun h => set_hub_tasks tasks (set_incoming [] (h_pings h) h)).
Definition hub_events (w : Wait) (ro wo xo : list Z) : M Sched unit :=
  let pinged := bool_decide (hub_pinger ∈ ro) in
  '_ ← (if pinged then hub_incoming else mret tt);
  if pinged && (zlen ro =? 1) && none_left [] wo xo then mret tt
  else
    rets ← lift (hub_rets w (if pinged then remove_first hub_pinger ro else ro) wo xo);
    hub_return_each (map_to_list rets).
Definition hub_finish (w : Wait) (ro wo xo : list Z) : M Sched unit :=
  '_ ← upd_hub (set_wait None);
  match none_left ro wo xo, wt_timeout w with
  | true, Some (_, t) => '_ ← hub_delete t; hub_return t [] [] []
  | _, _ => hub_events w ro wo xo
  end.

(** In the hub's thread: an exception ends it. *)
Definition in_hub (m : M Sched unit) : M Sched unit :=
  r ← attempt m;
  match r with Ok _ => mret tt | Err _ => upd_hub set_dead end.

(** ** Blocking calls *)

(** [_proc] of the [i]-th of the threads. *)
Definition blocking_proc (i : nat) : M Sched unit :=
  s ← get;
  match s_blocking s !! i with
  | None => mret tt
  | Some (t, func) =>
      r ← attempt (call func []);
      '_ ← upd (fun s => s_set_blocking (delete i (s_blocking s)) s);
      '_ ← upd_task t (tk_set_rv match r with Ok v => VRet v | Err e => VExc e end);
      fast_schedule t false
  end.
End recoco.

(** * Synchronizer *)

(** [SyncTask.run] has no [yield], so calling it for a generator runs it: inside
    [BaseTask.__init__], before [__init__] assigns [inlock]. *)
Definition SyncTask_run (inlock outlock : option unit) : res unit :=
  match inlock, outlock with Some _, Some _ => Ok tt | _, _ => Err AttributeError end.
Definition SyncTask_init : res unit := SyncTask_run None None.
Record Synchronizer := MkSynchronizer { sy_syncer : option unit; sy_enter : Z }.
Definition Synchronizer_init : Synchronizer := MkSynchronizer None 0.
Definition synchronizer_enter : M Synchronizer (option unit) :=
  y ← get;
  '_ ← put (MkSynchronizer (sy_syncer y) (sy_enter y + 1));
  if sy_enter y + 1 =? 1 then
    syncer ← lift SyncTask_init; '_ ← put (MkSynchronizer (Some syncer) (sy_enter y + 1)); mret (Some syncer)
  else mret (sy_syncer y).
Definition synchronizer_exit : M Synchronizer unit :=
  y ← get;
  '_ ← put (MkSynchronizer (sy_syncer y) (sy_enter y - 1));
  if sy_enter y - 1 =? 0 then
    match sy_syncer y with Some _ => mret tt | None => raise AttributeError end
  else mret tt.
