(* ===== verification/RecocoInv.v ===== *)
(** The states of the scheduler of Recoco that can come about: what other modules may do, the
    steps of the threads, and the invariant that every task is in one place at most and no
    assertion of the scheduler or the hub fails. *)
From S2P Require Import Prelude.
From S2P Require Import Steps.
From S2P Require Import Recoco.

Section inv.
Context {G F W : Type}.
Abbreviation Sched := (Scheduler G F W).
Implicit Type s : Sched.

(** * Where tasks are *)

(** The task that a [ScheduleTask] is to wake. *)
Definition target (tasks : gmap Z (Task G F)) (t : Z) : option Z :=
  match tk_gen <$> tasks !! t with Some (GSchedule u) => Some u | _ => None end.

(** The task that is under way ([cur]), the ready ones with those they wake, those registered
    with the hub or on their way to it, those whose blocking calls run. *)
Definition places (cur : option Z) s : list Z :=
  option_list cur ++ s_ready s ++ omap (target (s_tasks s)) (s_ready s) ++
  (he_task <$> h_incoming (s_selectHub s)) ++ (map_to_list (h_tasks (s_selectHub s))).*1 ++ (s_blocking s).*1.

(** * What other modules do *)

(** Generators they make tasks of; tasks that nothing else is going to run. *)
Definition user_gen (g : gen G F) : Prop :=
  match g with GUser _ | GBase false | GTarget _ | GBlocking _ _ => True | _ => False end.
Definition parked (t : Z) s : Prop :=
  t ∉ places (s_running s) s /\ exists o, s_tasks s !! t = Some o /\ user_gen (tk_gen o).

Inductive api : Sched -> Sched -> Prop :=
  | api_new g s : user_gen g -> api s (BaseTask_init g s).2
  | api_wake t s : parked t s -> api s (schedule t false s).2
  | api_start t s : parked t s -> api s (fast_schedule t false s).2
  | api_later f s : api s (callLater f s).2
  | api_timer x f absolute recurring started stoppable s : api s (Timer_init x f absolute recurring started stoppable s).2
  | api_cancel t s : api s (cancel t s).2
  | api_quit s : api s (quit s).2
  | api_world w s : api s (s_set_world w s).

(** * The invariant *)

(** What the hub waits for is registered: the descriptors, and the time it waits until. *)
Definition owned (owner : gmap Z Z) (list_of : hub_entry -> option (list Z)) (tasks : gmap Z hub_entry) : Prop :=
  forall i t, owner !! i = Some t -> exists e, tasks !! t = Some e /\ i ∈ default [] (list_of e).
Definition wait_ok (w : Wait) (tasks : gmap Z hub_entry) : Prop :=
  owned (wt_rl w) he_rlist tasks /\ owned (wt_wl w) he_wlist tasks /\ owned (wt_xl w) he_xlist tasks /\
  forall d t, wt_timeout w = Some (d, t) -> exists e, tasks !! t = Some e /\ he_timeout e = Some (wt_deadline w).

(** Only tasks of other modules have return functions; a generator that waits has begun. *)
Definition task_ok (o : Task G F) : Prop :=
  (tk_rf o <> None -> exists g, tk_gen o = GUser g) /\
  match tk_gen o with GTimer true | GCallLater true => tk_started o = true | _ => True end.

(** A timer that sleeps is with the hub until its time, or ready since then. *)
Definition timer_entry (t d : Z) : hub_entry := MkEntry t None None None (Some d).
Definition sleeps_until (t d : Z) s : Prop :=
  (t ∈ s_ready s /\ d <= s_now s) \/ timer_entry t d ∈ h_incoming (s_selectHub s) \/
  h_tasks (s_selectHub s) !! t = Some (timer_entry t d).

(** Those in the hub, on their way there, and in blocking calls are no [ScheduleTask]s. *)
Definition others_places s : list Z :=
  (he_task <$> h_incoming (s_selectHub s)) ++ (map_to_list (h_tasks (s_selectHub s))).*1 ++ (s_blocking s).*1.
Record inv (cur : option Z) s : Prop := MkInv {
  iv_nodup : NoDup (places cur s);
  iv_exist : forall t, t ∈ places cur s -> is_Some (s_tasks s !! t);
  iv_ids : forall t, s_nextTaskID s < t -> s_tasks s !! t = None;
  iv_targets : forall t u, target (s_tasks s) t = Some u -> target (s_tasks s) u = None /\ is_Some (s_tasks s !! u);
  iv_task : forall t o, s_tasks s !! t = Some o -> task_ok o;
  iv_timer : forall t o, s_tasks s !! t = Some o -> (exists b, tk_gen o = GTimer b) -> is_Some (s_timers s !! t);
  iv_timer_id : forall t, s_nextTaskID s < t -> s_timers s !! t = None;
  iv_sleep : forall t o m, s_tasks s !! t = Some o -> tk_gen o = GTimer true -> s_timers s !! t = Some m ->
    cur = Some t \/ sleeps_until t (tm_next m) s;
  iv_hub : forall t e, h_tasks (s_selectHub s) !! t = Some e -> he_task e = t;
  iv_wait : forall w, h_wait (s_selectHub s) = Some w -> wait_ok w (h_tasks (s_selectHub s));
  iv_pings : 0 <= h_pings (s_selectHub s) /\ (h_incoming (s_selectHub s) <> [] -> 0 < h_pings (s_selectHub s));
  iv_alive : h_dead (s_selectHub s) = false;
  iv_now : 0 <= s_now s;
  iv_plain : forall t, t ∈ others_places s -> target (s_tasks s) t = None
}.

(** * What the pure parts of the operations do to it *)

Definition add_task (g : gen G F) s : Sched :=
  s_set_tasks (<[s_nextTaskID s + 1 := MkTask g false VNone None]> (s_tasks s)) (s_nextTaskID s + 1) s.
Definition push (first : bool) (t : Z) s : Sched :=
  s_set_event true (s_set_ready (if first then t :: s_ready s else s_ready s ++ [t]) s).

Lemma BaseTask_init_run g s : BaseTask_init g s = (Ok (s_nextTaskID s + 1), add_task g s).
Proof. done. Qed.
Lemma fast_schedule_run t first s : t ∉ s_ready s -> fast_schedule t first s = (Ok tt, push first t s).
Proof. intros H. unfold fast_schedule, is_ready. rewrite bind_get, bool_decide_false by done. done. Qed.

(** Existing tasks keep their generators. *)
Lemma target_insert (tasks : gmap Z (Task G F)) t o u :
  target (<[t := o]> tasks) u = if decide (t = u) then match tk_gen o with GSchedule v => Some v | _ => None end else target tasks u.
Proof. unfold target. destruct (decide (t = u)) as [->|]; [by rewrite lookup_insert_eq|by rewrite lookup_insert_ne]. Qed.
Lemma targets_ext (f g : Z -> option Z) (l : list Z) : (forall t, t ∈ l -> f t = g t) -> omap f l = omap g l.
Proof.
  induction l as [|x l IH]; intros H; [done|]. cbn. rewrite (H x) by apply list_elem_of_here.
  rewrite IH; [done|]. intros t Ht. apply H. by apply list_elem_of_further.
Qed.
Lemma ready_place cur s t : t ∈ s_ready s -> t ∈ places cur s.
Proof. intros H. unfold places. rewrite !elem_of_app. by right; left. Qed.

Lemma others_place cur s t : t ∈ others_places s -> t ∈ places cur s.
Proof. intros H. unfold places, others_places in *. rewrite !elem_of_app in *. tauto. Qed.

(** A new task, with the timer that it may be. *)
Definition add_timer (om : option (Timer F)) s : gmap Z (Timer F) :=
  match om with Some m => <[s_nextTaskID s + 1 := m]> (s_timers s) | None => s_timers s end.
Definition new_ok (g : gen G F) (om : option (Timer F)) s : Prop :=
  match g with
  | GSchedule u => om = None /\ target (s_tasks s) u = None /\ is_Some (s_tasks s !! u)
  | GTimer b => b = false /\ is_Some om
  | GCallLater b => b = false /\ om = None
  | _ => om = None
  end.

Lemma new_fresh cur s : inv cur s -> s_tasks s !! (s_nextTaskID s + 1) = None.
Proof. intros I. apply (iv_ids _ _ I). lia. Qed.
Lemma add_targets cur g s : inv cur s ->
  omap (target (<[s_nextTaskID s + 1 := MkTask g false VNone None]> (s_tasks s))) (s_ready s) = omap (target (s_tasks s)) (s_ready s).
Proof.
  intros I. apply targets_ext. intros t Ht. rewrite target_insert. rewrite decide_False; [done|]. intros <-.
  destruct (iv_exist _ _ I _ (ready_place cur s _ Ht)) as [o Ho]. by rewrite (new_fresh cur s I) in Ho.
Qed.

Lemma inv_add cur g om s : inv cur s -> new_ok g om s -> inv cur (s_set_timers (add_timer om s) (add_task g s)).
Proof.
  intros I Hg. pose proof (new_fresh cur s I) as Hn.
  assert (places cur (s_set_timers (add_timer om s) (add_task g s)) = places cur s) as Hp.
  { unfold places. cbn. by rewrite (add_targets cur). }
  assert (forall t, is_Some (s_tasks s !! t) -> is_Some (s_tasks (s_set_timers (add_timer om s) (add_task g s)) !! t)) as Hs.
  { intros t Ht. cbn. destruct (decide (s_nextTaskID s + 1 = t)) as [<-|]; [by rewrite lookup_insert_eq|by rewrite lookup_insert_ne]. }
  assert (forall t, (exists m, add_timer om s !! t = Some m) <-> (t = s_nextTaskID s + 1 /\ is_Some om) \/ is_Some (s_timers s !! t)) as Ht.
  { intros t. unfold add_timer. destruct om as [m|]; cbn; [|by split; [right|intros [[? [? ?]]|?]]].
    destruct (decide (s_nextTaskID s + 1 = t)) as [<-|Hne].
    - rewrite lookup_insert_eq. split; [left; eauto|eauto].
    - rewrite lookup_insert_ne by done. split; [by right|]. intros [[-> _]|?]; done. }
  split; try rewrite Hp; cbn; try apply I.
  - intros t. cbn. intros Hin. by apply Hs, (iv_exist _ _ I).
  - intros t Hlt. rewrite lookup_insert_ne by lia. apply (iv_ids _ _ I). lia.
  - intros t u. rewrite !target_insert. destruct (decide (s_nextTaskID s + 1 = t)) as [<-|].
    + intros E. destruct g; try done. injection E as <-. destruct Hg as (_ & H1 & H2).
      rewrite decide_False by (intros <-; rewrite Hn in H2; by destruct H2). split; [done|]. by apply Hs.
    + intros [H1 H2]%(iv_targets _ _ I). rewrite decide_False by (intros <-; rewrite Hn in H2; by destruct H2).
      split; [done|]. by apply Hs.
  - intros t o. rewrite lookup_insert_Some. intros [[<- <-]|[_ Ho]]; [|by apply (iv_task _ _ I _ _ Ho)].
    split; [done|]. cbn. destruct g as [| | | | |[]| |[]| | |]; cbn in Hg; naive_solver.
  - intros t o. rewrite lookup_insert_Some. intros [[<- <-]|[_ Ho]] Hb.
    + apply Ht. left. split; [done|]. destruct Hb as [b Eb]. cbn in Eb. subst g. by destruct Hg.
    + apply Ht. right. by apply (iv_timer _ _ I _ _ Ho).
  - intros t Hlt. destruct (add_timer om s !! t) eqn:E; [|done]. exfalso.
    destruct (proj1 (Ht t) (ex_intro _ _ E)) as [[-> _]|[m Hm]]; [lia|]. by rewrite (iv_timer_id _ _ I) in Hm by lia.
  - intros t o m. rewrite lookup_insert_Some. intros [[<- <-]|[Hne Ho]] Hgt Hm.
    + cbn in Hgt. subst g. by destruct Hg.
    + apply (iv_sleep _ _ I t o m Ho Hgt). unfold add_timer in Hm. destruct om; [by rewrite lookup_insert_ne in Hm|done].
  - intros t Hin. pose proof (iv_plain _ _ I t Hin) as Hp1. rewrite target_insert, decide_False; [done|]. intros <-.
    destruct (iv_exist _ _ I _ (others_place cur s _ Hin)) as [o Ho]. by rewrite Hn in Ho.
Qed.

Lemma set_timers_id s : s_set_timers (s_timers s) s = s.
Proof. by destruct s. Qed.

(** Changes of the parts it does not speak of. *)
Lemma inv_frame cur s s' : inv cur s ->
  s_ready s' = s_ready s -> s_tasks s' = s_tasks s -> s_timers s' = s_timers s -> s_nextTaskID s' = s_nextTaskID s ->
  s_selectHub s' = s_selectHub s -> s_blocking s' = s_blocking s -> s_now s <= s_now s' -> inv cur s'.
Proof.
  intros I E1 E2 E3 E4 E5 E6 E7. assert (places cur s' = places cur s) as Hp by (unfold places; by rewrite E1, E2, E5, E6).
  destruct I. split; try rewrite Hp; rewrite ?E2, ?E3, ?E4, ?E5; try done; [|lia|by unfold others_places; rewrite E5, E6].
  intros t o m Ho Hg Hm. destruct (iv_sleep0 t o m Ho Hg Hm) as [?|H]; [by left|right].
  unfold sleeps_until in *. rewrite E1, E5. destruct H as [[H1 H2]|H]; [left; split; [done|lia]|by right].
Qed.
Lemma inv_bump cur s n : inv cur s -> s_nextTaskID s <= n -> inv cur (s_set_tasks (s_tasks s) n s).
Proof.
  intros I Hn. destruct I. split; cbn; try done.
  - intros t Ht. apply iv_ids0. lia.
  - intros t Ht. apply iv_timer_id0. lia.
Qed.

(** Tasks that move from place to place; [t] in hand. *)
Lemma moved cur cur' s s' l : inv cur s -> s_tasks s' = s_tasks s -> places cur s ≡ₚ places cur' s' ++ l ->
  NoDup (places cur' s') /\ forall t, t ∈ places cur' s' -> is_Some (s_tasks s' !! t).
Proof.
  intros I Et P. pose proof (iv_nodup _ _ I) as Hd. rewrite P in Hd. apply NoDup_app in Hd as (Hd & _ & _). split; [done|].
  intros t Ht. rewrite Et. apply (iv_exist _ _ I). rewrite P. apply elem_of_app. by left.
Qed.

Lemma inv_take t ready s : inv None s -> s_ready s = t :: ready -> inv (Some t) (s_set_ready ready s).
Proof.
  intros I E. destruct (moved None (Some t) s (s_set_ready ready s) (option_list (target (s_tasks s) t)) I) as [H1 H2]; [done| |].
  { unfold places. cbn. rewrite E. cbn. destruct (target (s_tasks s) t); cbn; solve_Permutation. }
  split; cbn; try apply I; try done.
  intros u o m Ho Hg Hm. destruct (iv_sleep _ _ I u o m Ho Hg Hm) as [?|[[Hr Hd]|H]]; [done| |right; by right].
  rewrite E in Hr. apply elem_of_cons in Hr as [->|Hr]; [by left|]. right. left. done.
Qed.

(** The task in hand is left: it waits for others to wake it, or not at all. *)
Definition asleep (t : Z) s : Prop := exists o, s_tasks s !! t = Some o /\ tk_gen o = GTimer true.
Lemma inv_drop t s : inv (Some t) s -> ~ asleep t s -> inv None s.
Proof.
  intros I Ht. destruct (moved (Some t) None s s [t] I) as [H1 H2]; [done|unfold places; cbn; solve_Permutation|].
  split; try apply I; try done.
  intros u o m Ho Hg Hm. destruct (iv_sleep _ _ I u o m Ho Hg Hm) as [[= <-]|H]; [|by right].
  exfalso. apply Ht. by exists o.
Qed.

(** The time of a sleeping timer that is put back. *)
Definition due_by (t : Z) s : Prop :=
  asleep t s -> forall m, s_timers s !! t = Some m -> tm_next m <= s_now s.

Lemma inv_push_hand first t s : inv (Some t) s -> target (s_tasks s) t = None -> due_by t s -> inv None (push first t s).
Proof.
  intros I Et Ht. destruct (moved (Some t) None s (push first t s) [] I) as [H1 H2]; [done| |].
  { unfold places. cbn. destruct first; rewrite ?omap_app; cbn; rewrite Et; cbn; rewrite ?app_nil_r; solve_Permutation. }
  split; cbn; try apply I; try done.
  assert (t ∈ s_ready (push first t s)) as Hin.
  { cbn. destruct first; [apply list_elem_of_here|apply elem_of_app; right; by apply list_elem_of_singleton]. }
  intros u o m Ho Hg Hm. destruct (iv_sleep _ _ I u o m Ho Hg Hm) as [[= <-]|[[Hr Hd]|H]]; right; [left|left|by right].
  - split; [done|]. apply (Ht ltac:(by exists o) m Hm).
  - split; [|done]. cbn. destruct first; [by apply list_elem_of_further|apply elem_of_app; by left].
Qed.
Lemma inv_push cur first t s : inv cur s -> NoDup (t :: option_list (target (s_tasks s) t) ++ places cur s) -> is_Some (s_tasks s !! t) ->
  inv cur (push first t s).
Proof.
  intros I Hd Ht.
  assert (places cur (push first t s) ≡ₚ t :: option_list (target (s_tasks s) t) ++ places cur s) as P.
  { unfold places. cbn. destruct first; rewrite ?omap_app; cbn; destruct (target (s_tasks s) t); cbn; rewrite ?app_nil_r; solve_Permutation. }
  split; try rewrite P; cbn; try apply I; try done.
  - intros u. rewrite P, elem_of_cons, elem_of_app. intros [->|[Hu|Hu]]; [done| |by apply (iv_exist _ _ I)].
    destruct (target (s_tasks s) t) as [v|] eqn:Ev; cbn in Hu; [|by apply elem_of_nil in Hu].
    apply list_elem_of_singleton in Hu as ->. by apply (iv_targets _ _ I) in Ev as [_ Hv].
  - intros u o m Ho Hg Hm. destruct (iv_sleep _ _ I u o m Ho Hg Hm) as [?|[[Hr Hd']|H]]; [by left|right; left|by right; right].
    split; [|done]. cbn. destruct first; [by apply list_elem_of_further|apply elem_of_app; by left].
Qed.

Definition registered (e : hub_entry) s : Sched :=
  s_set_hub (set_incoming (h_incoming (s_selectHub s) ++ [e]) (h_pings (s_selectHub s) + 1) (s_selectHub s)) s.
Lemma registerSelect_run t rl wl xl timeout absolute s :
  registerSelect t rl wl xl timeout absolute s =
  (Ok tt, registered (MkEntry t rl wl xl (if absolute then timeout else (fun x => x + s_now s) <$> timeout)) s).
Proof. done. Qed.
Lemma inv_register t e s : inv (Some t) s -> he_task e = t -> target (s_tasks s) t = None ->
  (asleep t s -> forall m, s_timers s !! t = Some m -> e = timer_entry t (tm_next m)) -> inv None (registered e s).
Proof.
  intros I Ee Et He. destruct (moved (Some t) None s (registered e s) [] I) as [H1 H2]; [done| |].
  { unfold places. cbn. rewrite fmap_app. cbn. rewrite Ee, app_nil_r. solve_Permutation. }
  split; cbn; try apply I; try done.
  - intros u o m Ho Hg Hm. right. destruct (iv_sleep _ _ I u o m Ho Hg Hm) as [[= <-]|[H|[H|H]]].
    + right. left. cbn. rewrite (He ltac:(by exists o) m Hm). apply elem_of_app. right. by apply list_elem_of_singleton.
    + by left.
    + right. left. cbn. apply elem_of_app. by left.
    + by right; right.
  - pose proof (iv_pings _ _ I) as [? ?]. split; lia.
  - intros u. unfold others_places. cbn. rewrite fmap_app, !elem_of_app. cbn. rewrite list_elem_of_singleton, Ee.
    intros [[H|H]|H]; [|by subst|]; apply (iv_plain _ _ I); unfold others_places; rewrite !elem_of_app; tauto.
Qed.

Lemma inv_block t f s : inv (Some t) s -> ~ asleep t s -> target (s_tasks s) t = None -> inv None (s_set_blocking (s_blocking s ++ [(t, f)]) s).
Proof.
  intros I Ht Et. destruct (moved (Some t) None s (s_set_blocking (s_blocking s ++ [(t, f)]) s) [] I) as [H1 H2]; [done| |].
  { unfold places. cbn. rewrite fmap_app. cbn. rewrite app_nil_r. solve_Permutation. }
  split; cbn; try apply I; try done.
  - intros u o m Ho Hg Hm. destruct (iv_sleep _ _ I u o m Ho Hg Hm) as [[= <-]|H]; [|by right]. exfalso. apply Ht. by exists o.
  - intros u. unfold others_places. cbn. rewrite fmap_app, !elem_of_app. cbn. rewrite list_elem_of_singleton.
    intros [H|[H|[H|H]]]; [| | |by subst]; apply (iv_plain _ _ I); unfold others_places; rewrite !elem_of_app; tauto.
Qed.
Lemma inv_unblock i t f s : inv None s -> s_blocking s !! i = Some (t, f) -> inv (Some t) (s_set_blocking (delete i (s_blocking s)) s).
Proof.
  intros I E. destruct (moved None (Some t) s (s_set_blocking (delete i (s_blocking s)) s) [] I) as [H1 H2]; [done| |].
  { unfold places. cbn. rewrite (delete_Permutation _ _ _ E) at 1. cbn. rewrite app_nil_r. solve_Permutation. }
  split; cbn; try apply I; try done.
  - intros u o m Ho Hg Hm. destruct (iv_sleep _ _ I u o m Ho Hg Hm) as [?|H]; [done|by right].
  - intros u. unfold others_places. cbn. rewrite !elem_of_app. intros H. apply (iv_plain _ _ I). unfold others_places.
    rewrite (delete_Permutation _ _ _ E). cbn. rewrite !elem_of_app, elem_of_cons. tauto.
Qed.

(** The hub. *)
Definition hub_without (t : Z) s : Sched :=
  s_set_hub (set_hub_tasks (delete t (h_tasks (s_selectHub s))) (s_selectHub s)) s.
Lemma inv_hub_delete t e s : inv None s -> h_wait (s_selectHub s) = None -> h_tasks (s_selectHub s) !! t = Some e ->
  inv (Some t) (hub_without t s).
Proof.
  intros I Hw E. destruct (moved None (Some t) s (hub_without t s) [] I) as [H1 H2]; [done| |].
  { unfold places. cbn. rewrite <-(map_to_list_delete _ _ _ E) at 1. cbn. rewrite app_nil_r. solve_Permutation. }
  split; cbn; try apply I; try done.
  - intros u o m Ho Hg Hm. destruct (decide (u = t)) as [->|Hne]; [by left|]. right.
    destruct (iv_sleep _ _ I u o m Ho Hg Hm) as [?|[H|[H|H]]]; [done|by left|by right; left|].
    right. right. cbn. by rewrite lookup_delete_ne.
  - intros u x. rewrite lookup_delete_Some. intros [_ H]. by apply (iv_hub _ _ I).
  - intros w. by rewrite Hw.
  - intros u. unfold others_places. cbn. rewrite !elem_of_app. intros H. apply (iv_plain _ _ I). unfold others_places.
    rewrite <-(map_to_list_delete _ _ _ E), fmap_cons, !elem_of_app, elem_of_cons. naive_solver.
Qed.

(** What happens to the task in hand itself. *)
Lemma inv_task t f s : inv (Some t) s ->
  (forall o, s_tasks s !! t = Some o -> task_ok o -> task_ok (f o) /\
     (forall u, tk_gen (f o) = GSchedule u -> tk_gen o = GSchedule u) /\
     ((exists b, tk_gen (f o) = GTimer b) -> exists b, tk_gen o = GTimer b)) ->
  inv (Some t) (s_set_tasks (alter f t (s_tasks s)) (s_nextTaskID s) s).
Proof.
  intros I Hf. set (s' := s_set_tasks _ _ _).
  assert (forall u, is_Some (s_tasks s' !! u) <-> is_Some (s_tasks s !! u)) as Hs.
  { intros u. cbn. destruct (decide (t = u)) as [<-|]; [rewrite lookup_alter_eq; by rewrite fmap_is_Some|by rewrite lookup_alter_ne]. }
  assert (t ∉ s_ready s) as Hr.
  { pose proof (iv_nodup _ _ I) as Hd. unfold places in Hd. cbn in Hd. apply NoDup_cons in Hd as [Hd _].
    intros H. apply Hd. apply elem_of_app. by left. }
  assert (forall u, u <> t -> target (s_tasks s') u = target (s_tasks s) u) as Hne.
  { intros u Hu. unfold target. cbn. by rewrite lookup_alter_ne. }
  assert (forall u v, target (s_tasks s') u = Some v -> target (s_tasks s) u = Some v) as Ht.
  { intros u v. destruct (decide (u = t)) as [->|]; [|by rewrite Hne]. unfold target. cbn. rewrite lookup_alter_eq.
    destruct (s_tasks s !! t) as [o|] eqn:Eo; [|done]. cbn. destruct (Hf o eq_refl (iv_task _ _ I _ _ Eo)) as (_ & H & _).
    destruct (tk_gen (f o)) eqn:Eg; try done. intros [= ->]. by rewrite (H v eq_refl). }
  assert (places (Some t) s' = places (Some t) s) as Hp.
  { unfold places. cbn [s_ready s_tasks s' s_set_tasks s_selectHub s_blocking]. f_equal. f_equal. f_equal.
    apply targets_ext. intros u Hu. apply Hne. by intros ->. }
  split; try rewrite Hp; cbn; try apply I.
  - intros u Hu. by apply Hs, (iv_exist _ _ I).
  - intros u Hu. rewrite lookup_alter_None. by apply (iv_ids _ _ I).
  - intros u v H. apply Ht, (iv_targets _ _ I) in H as [H1 H2]. split; [|by apply Hs].
    destruct (target (s_tasks s') v) eqn:E; [|exact E]. apply Ht in E. by rewrite H1 in E.
  - intros u o. rewrite lookup_alter_Some. intros [(<- & o0 & Ho & ->)|[_ Ho]]; [|by apply (iv_task _ _ I _ _ Ho)].
    by apply (Hf _ Ho), (iv_task _ _ I _ _ Ho).
  - intros u o. rewrite lookup_alter_Some. intros [(<- & o0 & Ho & ->)|[_ Ho]] Hg; [|by apply (iv_timer _ _ I _ _ Ho)].
    apply (iv_timer _ _ I _ _ Ho). by apply (Hf _ Ho (iv_task _ _ I _ _ Ho)).
  - intros u o m. rewrite lookup_alter_Some. intros [(<- & _)|[_ Ho]] Hg Hm; [by left|]. by apply (iv_sleep _ _ I _ _ _ Ho).
  - intros u H. destruct (target (alter f t (s_tasks s)) u) eqn:E; [|done]. apply Ht in E. by rewrite (iv_plain _ _ I u H) in E.
Qed.

(** * What other modules do keeps it *)

Record grows s s' : Prop := MkGrows {
  gr_ready : exists l, s_ready s' = s_ready s ++ l;
  gr_tasks : s_tasks s ⊆ s_tasks s';
  gr_timers : forall t m, s_timers s !! t = Some m -> exists m', s_timers s' !! t = Some m' /\
    m' ∈ [m; tm_cancel m];
  gr_hub : s_selectHub s' = s_selectHub s;
  gr_blocking : s_blocking s' = s_blocking s;
  gr_running : s_running s' = s_running s;
  gr_now : s_now s' = s_now s;
  gr_calls : exists l, s_calls s' = s_calls s ++ l
}.
#[export] Instance grows_preorder : PreOrder grows.
Proof.
  constructor.
  - intros s. split; try done; [by exists []; rewrite app_nil_r| |by exists []; rewrite app_nil_r].
    intros t m H. exists m. split; [done|apply list_elem_of_here].
  - intros x y z [[l1 R1] T1 M1 H1 B1 U1 N1 [c1 C1]] [[l2 R2] T2 M2 H2 B2 U2 N2 [c2 C2]]. split; try congruence.
    + exists (l1 ++ l2). by rewrite R2, R1, app_assoc.
    + by etrans.
    + intros t m Hm. destruct (M1 t m Hm) as (m1 & Hm1 & Hc1). destruct (M2 t m1 Hm1) as (m2 & Hm2 & Hc2).
      exists m2. split; [done|]. set_unfold. destruct Hc1 as [->|[->|[]]]; destruct Hc2 as [->|[->|[]]]; cbn; auto.
    + exists (c1 ++ c2). by rewrite C2, C1, app_assoc.
Qed.

Definition kept cur s s' : Prop := inv cur s -> s_running s = cur -> inv cur s' /\ grows s s'.
#[export] Instance kept_preorder cur : PreOrder (kept cur).
Proof.
  constructor.
  - intros s I _. split; [done|reflexivity].
  - intros x y z H1 H2 I E. destruct (H1 I E) as [I1 G1]. destruct (H2 I1 ltac:(by rewrite (gr_running _ _ G1))) as [I2 G2].
    split; [done|by etrans].
Qed.

Lemma kept_new cur g om s : new_ok g om s -> kept cur s (s_set_timers (add_timer om s) (add_task g s)).
Proof.
  intros Hg I _. split; [by apply inv_add|]. pose proof (new_fresh cur s I) as Hn.
  split; try done; cbn; [by exists []; rewrite app_nil_r|by apply insert_subseteq| |by exists []; rewrite app_nil_r].
  intros t m Hm. exists m. split; [|apply list_elem_of_here]. unfold add_timer. destruct om; [|done].
  rewrite lookup_insert_ne; [done|]. intros <-. by rewrite (iv_timer_id _ _ I) in Hm by lia.
Qed.
Lemma kept_add cur g s : new_ok g None s -> kept cur s (add_task g s).
Proof. intros Hg. rewrite <-(set_timers_id (add_task g s)). exact (kept_new cur g None s Hg). Qed.
Lemma grows_push t s : grows s (push false t s).
Proof.
  split; try done; [by exists [t]| |by exists []; rewrite app_nil_r].
  intros u m H. exists m. split; [done|apply list_elem_of_here].
Qed.

(** A new task is nowhere yet. *)
Lemma new_nowhere cur s : inv cur s -> s_nextTaskID s + 1 ∉ places cur s.
Proof. intros I H. apply (iv_exist _ _ I) in H as [o Ho]. by rewrite (new_fresh cur s I) in Ho. Qed.
Lemma add_places cur g om s : inv cur s -> places cur (s_set_timers (add_timer om s) (add_task g s)) = places cur s.
Proof. intros I. unfold places. cbn. by rewrite (add_targets cur). Qed.
Lemma new_target g s om : target (s_tasks (s_set_timers (add_timer om s) (add_task g s))) (s_nextTaskID s + 1) =
  match g with GSchedule u => Some u | _ => None end.
Proof. cbn. rewrite target_insert, decide_True by done. by destruct g. Qed.

Lemma kept_push_new cur g om s : new_ok g om s ->
  (forall u, g = GSchedule u -> u ∉ places cur s) ->
  kept cur s (push false (s_nextTaskID s + 1) (s_set_timers (add_timer om s) (add_task g s))).
Proof.
  intros Hg Hu I E. destruct (kept_new cur g om s Hg I E) as [I1 G1]. split; [|etrans; [exact G1|apply grows_push]].
  apply inv_push; [done| |cbn; rewrite lookup_insert_eq; by eexists].
  rewrite new_target, (add_places cur g om s I). pose proof (new_nowhere cur s I) as Hn. pose proof (iv_nodup _ _ I).
  destruct g as [| | |u| | | | | | |]; cbn; try by apply NoDup_cons. apply NoDup_cons. split.
  - intros [Hin|Hin]%elem_of_cons; [|done]. destruct Hg as (_ & _ & Hs). rewrite <-Hin, (new_fresh cur s I) in Hs. by destruct Hs.
  - apply NoDup_cons. split; [by apply Hu|done].
Qed.

Lemma user_target t s o : s_tasks s !! t = Some o -> user_gen (tk_gen o) -> target (s_tasks s) t = None.
Proof. intros Ho Hg. unfold target. rewrite Ho. cbn. by destruct (tk_gen o). Qed.

Lemma kept_push_parked cur t s : parked t s -> kept cur s (push false t s).
Proof.
  intros (Hp & o & Ho & Hg) I E. split; [|apply grows_push]. rewrite E in Hp.
  apply inv_push; [done| |by eexists]. rewrite (user_target t s o Ho Hg). cbn. apply NoDup_cons. split; [done|apply I].
Qed.
Lemma parked_not_ready t s : parked t s -> t ∉ s_ready s.
Proof. intros [H _] Hr. apply H. by apply ready_place. Qed.

Lemma kept_start cur t s : parked t s -> kept cur s (fast_schedule t false s).2.
Proof. intros Hp. rewrite fast_schedule_run by by apply parked_not_ready. by apply kept_push_parked. Qed.

Lemma new_not_ready cur s : inv cur s -> s_nextTaskID s + 1 ∉ s_ready s.
Proof. intros I H. by apply (new_nowhere cur s I), ready_place. Qed.

(** Scheduling: at once in the scheduler's thread, by a task of its own in another. *)
Lemma schedule_here r t s : s_running s = Some r -> t ∉ s_ready s -> schedule t false s = (Ok (Some true), push false t s).
Proof.
  intros Er Ht. unfold schedule. rewrite bind_get, Er. unfold is_ready. rewrite bool_decide_false by done.
  erewrite bind_ok by by apply fast_schedule_run. done.
Qed.
Lemma schedule_there t s : s_running s = None -> s_nextTaskID s + 1 ∉ s_ready s ->
  schedule t false s = (Ok None, push false (s_nextTaskID s + 1) (add_task (GSchedule t) s)).
Proof.
  intros Er Hn. unfold schedule. rewrite bind_get, Er. erewrite bind_ok by apply BaseTask_init_run.
  erewrite bind_ok by by apply fast_schedule_run. done.
Qed.
Lemma kept_schedule_at cur t s : t ∉ places cur s -> target (s_tasks s) t = None -> is_Some (s_tasks s !! t) ->
  kept cur s (schedule t false s).2.
Proof.
  intros Hn Ht Hs I E. destruct cur as [r|].
  - rewrite (schedule_here r) by (try (intros H; by apply Hn, ready_place); done). split; [|apply grows_push].
    apply inv_push; try done. rewrite Ht. cbn. apply NoDup_cons. split; [done|apply I].
  - rewrite schedule_there by (try apply (new_not_ready None); done). cbn [snd].
    rewrite <-(set_timers_id (add_task _ _)). apply (kept_push_new None (GSchedule t) None); try done. by intros u [= <-].
Qed.
Lemma kept_schedule cur t s : parked t s -> kept cur s (schedule t false s).2.
Proof.
  intros (Hn & o & Ho & Hg) I E. rewrite E in Hn.
  apply kept_schedule_at; try done. by apply (user_target t s o).
Qed.
(** Fields that the invariant does not speak of. *)
Lemma kept_frame cur s s' : s_ready s' = s_ready s -> s_tasks s' = s_tasks s -> s_timers s' = s_timers s ->
  s_nextTaskID s' = s_nextTaskID s -> s_selectHub s' = s_selectHub s -> s_blocking s' = s_blocking s ->
  s_now s' = s_now s -> s_running s' = s_running s -> (exists l, s_calls s' = s_calls s ++ l) -> kept cur s s'.
Proof.
  intros E1 E2 E3 E4 E5 E6 E7 E8 E9 I E. split; [apply (inv_frame cur s); try done; lia|].
  split; try done; [exists []; by rewrite app_nil_r|by rewrite E2|]. intros t m H. rewrite E3. exists m. split; [done|apply list_elem_of_here].
Qed.
Lemma kept_start_new cur g om s s1 : new_ok g om s -> (forall u, g <> GSchedule u) ->
  let s2 := s_set_timers (add_timer om s) (add_task g s) in
  s_ready s1 = s_ready s2 -> s_tasks s1 = s_tasks s2 -> s_timers s1 = s_timers s2 -> s_nextTaskID s1 = s_nextTaskID s2 ->
  s_selectHub s1 = s_selectHub s2 -> s_blocking s1 = s_blocking s2 -> s_now s1 = s_now s2 -> s_running s1 = s_running s2 -> s_calls s1 = s_calls s2 ->
  kept cur s (schedule (s_nextTaskID s + 1) false s1).2.
Proof.
  intros Hg Hns s2 E1 E2 E3 E4 E5 E6 E7 E8 E9 I E.
  destruct (kept_new cur g om s Hg I E) as [I2 G2]. fold s2 in I2, G2.
  assert (kept cur s2 s1) as H21 by (apply kept_frame; try done; by exists []; rewrite app_nil_r).
  destruct (H21 I2 ltac:(by rewrite (gr_running _ _ G2))) as [I1 G1].
  destruct (kept_schedule_at cur (s_nextTaskID s + 1) s1) as [I3 G3]; try done.
  - replace (places cur s1) with (places cur s2) by (unfold places; by rewrite E1, E2, E5, E6).
    unfold s2. rewrite add_places by done. by apply new_nowhere.
  - rewrite E2. unfold s2. rewrite new_target. destruct g; try done. by destruct (Hns task).
  - rewrite E2. unfold s2. cbn. rewrite lookup_insert_eq. by eexists.
  - by rewrite E8, (gr_running _ _ G2).
  - split; [done|]. etrans; [exact G2|]. by etrans.
Qed.


Lemma kept_cancel cur t s : kept cur s (cancel t s).2.
Proof.
  unfold cancel, upd. cbn [snd]. intros I E.
  assert (forall u m, alter tm_cancel t (s_timers s) !! u = Some m ->
    exists m0, s_timers s !! u = Some m0 /\ tm_next m = tm_next m0) as Hm.
  { intros u m. rewrite lookup_alter_Some. intros [(<- & m0 & Hm & ->)|[_ Hm]]; by eexists. }
  split.
  - destruct I. split; cbn; try done.
    + intros u o Ho Hb. destruct (decide (t = u)) as [<-|]; [rewrite lookup_alter_eq, fmap_is_Some|rewrite lookup_alter_ne by done]; by eapply iv_timer0.
    + intros u Hu. rewrite lookup_alter_None. by apply iv_timer_id0.
    + intros u o m Ho Hg (m0 & H0 & ->)%Hm. by apply (iv_sleep0 u o m0).
  - split; try done; cbn; [by exists []; rewrite app_nil_r| |by exists []; rewrite app_nil_r]. intros u m Hu.
    destruct (decide (t = u)) as [<-|]; [rewrite lookup_alter_eq, Hu|rewrite lookup_alter_ne by done].
    + exists (tm_cancel m). split; [done|]. apply list_elem_of_further, list_elem_of_here.
    + exists m. split; [done|apply list_elem_of_here].
Qed.

(** A bind whose second part changes what the invariant does not speak of. *)
Lemma kept_bind {A B} cur s s0 (m : M Sched A) (f : A -> M Sched B) :
  kept cur s (m s0).2 -> (forall a s', kept cur s' (f a s').2) -> kept cur s ((m ≫= f) s0).2.
Proof.
  intros Hm Hf. unfold mbind, M_bind. destruct (m s0) as [[a|e] s'] eqn:E; cbn in *; [|done]. etrans; [exact Hm|apply Hf].
Qed.
Lemma kept_mret {A} cur s (a : A) : kept cur s (mret (M := M Sched) a s).2.
Proof. reflexivity. Qed.

Lemma kept_later cur f s : kept cur s (callLater f s).2.
Proof.
  unfold callLater. rewrite bind_get. apply kept_bind; [|intros _ s'; apply kept_frame; try done; by exists [f]].
  destruct (s_callLaterTask s) as [c|]; [reflexivity|].
  erewrite bind_ok by apply BaseTask_init_run. erewrite bind_ok by reflexivity. cbn [start].
  apply kept_bind; [|intros; apply kept_mret]. by eapply (kept_start_new cur (GCallLater false) None s).
Qed.

Lemma kept_bump cur s n : s_nextTaskID s <= n -> kept cur s (s_set_tasks (s_tasks s) n s).
Proof.
  intros Hn I E. split; [by apply inv_bump|]. split; try done; [by exists []; rewrite app_nil_r| |by exists []; rewrite app_nil_r].
  intros t m H. exists m. split; [done|apply list_elem_of_here].
Qed.
Lemma kept_Timer cur x f absolute recurring started stoppable s :
  kept cur s (Timer_init x f absolute recurring started stoppable s).2.
Proof.
  unfold Timer_init. destruct (absolute && recurring); [reflexivity|].
  set (s1 := s_set_tasks (s_tasks s) (s_nextTaskID s + 1) s).
  assert (Task_init (GTimer false) s = (Ok (s_nextTaskID s1 + 1), add_task (GTimer false) s1)) as E1 by done.
  erewrite bind_ok by exact E1. rewrite bind_get. erewrite bind_ok by reflexivity. set (m := MkTimer _ _ _ _ _ _).
  etrans; [apply (kept_bump cur s (s_nextTaskID s + 1)); lia|]. fold s1.
  assert (new_ok (GTimer false) (Some m) s1) as Hok by by split.
  destruct started; cbn [start].
  - apply kept_bind; [|intros; apply kept_mret]. apply kept_bind; [|intros; apply kept_mret].
    by apply (kept_start_new cur (GTimer false) (Some m) s1).
  - apply (kept_new cur (GTimer false) (Some m) s1 Hok).
Qed.

Lemma api_kept cur s s' : api s s' -> kept cur s s'.
Proof.
  destruct 1 as [g s Hg|t s Hp|t s Hp|f s|x f absolute recurring started stoppable s|t s|s|w s].
  - rewrite BaseTask_init_run. apply kept_add. destruct g as [|[]| | | | | | | | |]; done.
  - by apply kept_schedule.
  - by apply kept_start.
  - apply kept_later.
  - apply kept_Timer.
  - apply kept_cancel.
  - apply kept_frame; try done. exists []. by rewrite app_nil_r.
  - apply kept_frame; try done. exists []. by rewrite app_nil_r.
Qed.
Lemma apis_kept cur s s' : rtc api s s' -> kept cur s s'.
Proof. induction 1 as [|x y z H _ IH]; [reflexivity|]. etrans; [by eapply api_kept|exact IH]. Qed.
End inv.
