(* ===== verification/RecocoRun.v ===== *)
(** The steps of the threads of Recoco keep its invariant: a cycle of the scheduler, the two
    halves of a round of the hub, the end of a blocking call. *)
From S2P Require Import Prelude.
From S2P Require Import Steps.
From S2P Require Import Recoco.
From S2P Require Import RecocoInv.

Section run.
Context {G F W : Type}.
Abbreviation Sched := (Scheduler G F W).
Implicit Type s : Sched.
Variable user_resume : G -> pyval -> M Sched (option (yielded F * G)).
Variable call : F -> list pyval -> M Sched pyval.
Variable sock_recv : Z -> Z -> W -> res bytes * W.
Variable hub_pinger call_pinger : Z.
Variable max_calls : nat.
(** Other modules do what they may do. *)
Hypothesis user_api : forall g v s, rtc api s (user_resume g v s).2.
Hypothesis call_api : forall f vs s, rtc api s (call f vs s).2.

(** * What code run for a task may change *)

Record adv (t : Z) s s' : Prop := MkAdv {
  ad_tasks : forall u o, u <> t -> s_tasks s !! u = Some o -> s_tasks s' !! u = Some o;
  ad_hub : s_selectHub s' = s_selectHub s;
  ad_blocking : s_blocking s' = s_blocking s;
  ad_now : s_now s' = s_now s;
  ad_running : s_running s' = s_running s
}.
#[export] Instance adv_preorder t : PreOrder (adv t).
Proof. constructor; [by intros s|]. intros x y z [] []. split; try congruence. intros u o Hu H. auto. Qed.
Definition appends s s' : Prop := exists l, s_ready s' = s_ready s ++ l.
#[export] Instance appends_preorder : PreOrder appends.
Proof.
  constructor; [intros s; exists []; by rewrite app_nil_r|]. intros x y z [l1 H1] [l2 H2].
  exists (l1 ++ l2). by rewrite H2, H1, app_assoc.
Qed.
Definition body (t : Z) s s' : Prop := inv (Some t) s -> s_running s = Some t ->
  inv (Some t) s' /\ adv t s s' /\ appends s s' /\ s_tasks s' !! t = s_tasks s !! t.
#[export] Instance body_preorder t : PreOrder (body t).
Proof.
  constructor; [intros s I _; split; [done|split; [reflexivity|split; [reflexivity|done]]]|].
  intros x y z H1 H2 I E. destruct (H1 I E) as (I1 & A1 & P1 & T1).
  destruct (H2 I1 ltac:(by rewrite (ad_running _ _ _ A1))) as (I2 & A2 & P2 & T2).
  split; [done|]. split; [by etrans|]. split; [by etrans|congruence].
Qed.

Lemma apis_body t s s' : rtc api s s' -> body t s s'.
Proof.
  intros H I E. destruct (apis_kept _ _ _ H I E) as [I' [P T M Hu B R N C]]. split; [done|].
  split; [split; try done; intros u o _ Ho; by eapply lookup_weaken|]. split; [done|].
  destruct (iv_exist _ _ I t) as [o Ho]; [apply elem_of_app; left; by apply list_elem_of_singleton|].
  rewrite Ho. by eapply lookup_weaken.
Qed.
Lemma user_body t g v s : keeps_at (body t) s (user_resume g v).
Proof. apply apis_body, user_api. Qed.
Lemma call_body t f vs s : keeps_at (body t) s (call f vs).
Proof. apply apis_body, call_api. Qed.
Lemma attempt_body {A} t (m : M Sched A) s : keeps_at (body t) s m -> keeps_at (body t) s (attempt m).
Proof. unfold keeps_at, attempt. by destruct (m s) as [[|[]] ?]. Qed.
Hint Resolve user_body call_body attempt_body : keeps.

Lemma upd_body t f s : body t s (f s) -> keeps_at (body t) s (upd f).
Proof. done. Qed.
Lemma calls_body t l n s : body t s (s_set_calls l n s).
Proof. intros I E. split; [by apply (inv_frame _ s)|]. split; [done|]. split; [exists []; by rewrite app_nil_r|done]. Qed.

Lemma make_calls_body t fuel s : keeps_at (body t) s (make_calls call fuel).
Proof.
  revert s. induction fuel as [|fuel IH]; intros s; cbn [make_calls]; [by apply (keeps_pure (body t))|].
  change (keeps_at (body t) s (match s_calls s with [] => mret tt | f :: calls => '_ ← upd (s_set_calls calls (s_call_pings s)); '_ ← attempt (call f []); make_calls call fuel end)).
  destruct (s_calls s) as [|f calls]; [by apply (keeps_pure (body t))|].
  apply (keeps_bind (body t)); [apply upd_body, calls_body|]. intros _ s1 _ _.
  apply (keeps_bind (body t)); [auto with keeps|]. intros _ s2 _ _. apply IH.
Qed.
Hint Resolve make_calls_body : keeps.

Lemma run_callback_body t cb v s : keeps_at (body t) s (run_callback call cb v).
Proof. unfold run_callback. keeps_solve ltac:(idtac). Qed.
Hint Resolve run_callback_body : keeps.

(** * Where the generator of a task stands after it has run *)

(** What is yielded from where. *)
Definition yields (t : Z) (y : yielded F) (g g' : gen G F) s : Prop :=
  (forall u, g' <> GSchedule u) /\
  ((exists b, g' = GTimer b) -> exists b, g = GTimer b) /\
  (g' = GTimer true -> forall m, s_timers s !! t = Some m -> y = YOp (Sleep (Some (tm_next m)))) /\
  match y with YOp (Recv _ _ _) | YOp (Send _ _) => exists x, g' = GUser x | _ => True end.

Lemma yields_plain t y g g' s : match g' with GSchedule _ | GTimer _ => False | _ => True end ->
  match y with YOp (Recv _ _ _) | YOp (Send _ _) => exists x, g' = GUser x | _ => True end -> yields t y g g' s.
Proof.
  intros Hg Hy. split; [by intros u ->|]. split; [by intros [b ->]|]. split; [by intros ->|done].
Qed.
Lemma timer_loop_yields t b s r s' : timer_loop t s = (r, s') -> s' = s /\
  forall y g', r = Ok (Some (y, g')) -> yields t y (GTimer b) g' s.
Proof.
  unfold timer_loop, the_timer. rewrite bind_get. destruct (s_timers s !! t) as [m|] eqn:E; [|by intros [= <- <-]].
  destruct (tm_cancelled m); intros [= <- <-]; (split; [done|]); intros y g' [= <- <-].
  - by apply yields_plain.
  - split; [done|]. split; [intros _; by exists b|]. split; [|done]. intros _ m'. by intros [= <-]%(eq_trans (eq_sym E)).
Qed.

Lemma set_timer_body t m m' s : s_timers s !! t = Some m -> body t s (s_set_timers (<[t := m']> (s_timers s)) s).
Proof.
  intros Hm I E. split; [|split; [done|split; [exists []; by rewrite app_nil_r|done]]].
  assert (forall u, u <> t -> <[t := m']> (s_timers s) !! u = s_timers s !! u) as Hne by (intros; by rewrite lookup_insert_ne).
  split; cbn; try apply I.
  - intros u o Ho Hb. destruct (decide (u = t)) as [->|]; [by rewrite lookup_insert_eq|]. rewrite Hne by done. by apply (iv_timer _ _ I u o).
  - intros u Hu. destruct (decide (u = t)) as [->|]; [by rewrite (iv_timer_id _ _ I) in Hm by done|]. rewrite Hne by done. by apply (iv_timer_id _ _ I).
  - intros u o m1 Ho Hg. destruct (decide (u = t)) as [->|]; [by left|]. rewrite Hne by done. by apply (iv_sleep _ _ I u o).
Qed.

Lemma yields_quit t y g g' s : g' = GTimerQuit \/ g' = GScheduled \/ g' = GBase true ->
  match y with YOp _ => False | _ => True end -> yields t y g g' s.
Proof. intros Hg Hy. apply yields_plain; [by destruct Hg as [->|[->| ->]]|by destruct y]. Qed.

Lemma timer_wakes_body t b s : keeps_at (body t) s (timer_wakes call t) /\
  forall r s', timer_wakes call t s = (r, s') -> forall y g', r = Ok (Some (y, g')) -> yields t y (GTimer b) g' s'.
Proof.
  unfold timer_wakes, the_timer. unfold keeps_at. rewrite bind_get. destruct (s_timers s !! t) as [m|] eqn:Em; [|by split; [|intros r s' [= <- <-]]].
  destruct (tm_cancelled m).
  { split; [done|]. intros r s' [= <- <-] y g' [= <- <-]. apply yields_quit; auto. }
  erewrite bind_ok by reflexivity. set (s1 := s_set_timers _ s).
  assert (body t s s1) as H1 by by eapply set_timer_body.
  pose proof (call_body t (tm_callback m) [] s1) as H2. unfold keeps_at in H2.
  unfold mbind, M_bind. destruct (call (tm_callback m) [] s1) as [[rv|e] s2]; cbn in *; [|by split; [etrans|intros r s' [= <- <-]]].
  assert (body t s s2) as H3 by by etrans.
  destruct (tm_self_stoppable m && _).
  { split; [done|]. intros r s' [= <- <-] y g' [= <- <-]. apply yields_quit; auto. }
  destruct (negb _).
  { split; [done|]. intros r s' [= <- <-] y g' [= <- <-]. apply yields_quit; auto. }
  split.
  - destruct (timer_loop t s2) as [r s'] eqn:E. apply (timer_loop_yields t b) in E as [-> _]. done.
  - intros r s' E. apply (timer_loop_yields t b) in E as [-> E]. done.
Qed.

(** A generator runs, and says where it stands. *)
Lemma gen_run_spec t g v s r s' : inv (Some t) s -> s_running s = Some t ->
  (forall u, g = GSchedule u -> target (s_tasks s) t = Some u /\ u ∉ places (Some t) s) ->
  gen_run user_resume call call_pinger max_calls t g v s = (r, s') ->
  inv (Some t) s' /\ adv t s s' /\ s_tasks s' !! t = s_tasks s !! t /\
  (appends s s' \/ exists u, g = GSchedule u /\ s_ready s' = u :: s_ready s) /\
  forall y g', r = Ok (Some (y, g')) -> yields t y g g' s'.
Proof.
  intros I E Hsch Eg.
  assert (forall (m : M Sched (option (yielded F * gen G F))), m s = (r, s') -> keeps_at (body t) s m ->
    (forall y g', r = Ok (Some (y, g')) -> yields t y g g' s') ->
    inv (Some t) s' /\ adv t s s' /\ s_tasks s' !! t = s_tasks s !! t /\
    (appends s s' \/ exists u, g = GSchedule u /\ s_ready s' = u :: s_ready s) /\
    forall y g', r = Ok (Some (y, g')) -> yields t y g g' s') as Hbody.
  { intros m Em Hm Hy. unfold keeps_at in Hm. rewrite Em in Hm. destruct (Hm I E) as (? & ? & ? & ?). auto 10. }
  destruct g as [g|[]|g|u| |[]| |[]|func cb|cb|]; cbn [gen_run] in Eg; unfold Task_run, CallLaterTask_run in *.
  - apply (Hbody _ Eg); [keeps_solve ltac:(idtac)|]. unfold mbind at 1, M_bind in Eg.
    destruct (user_resume g v s) as [[[[y0 g0]|]|e] s1]; injection Eg as <- <-; intros y g'; [|done|done].
    intros [= <- <-]. apply yields_plain; [done|]. destruct y0 as [[]| | | |]; eauto.
  - apply (Hbody _ Eg); [by apply (keeps_pure (body t))|]. by injection Eg as <- <-.
  - apply (Hbody _ Eg); [by apply (keeps_pure (body t))|]. injection Eg as <- <-. intros y g' [= <- <-]. apply yields_quit; auto.
  - apply (Hbody _ Eg); [keeps_solve ltac:(idtac)|]. unfold mbind at 1, M_bind in Eg.
    destruct (user_resume g v s) as [[[[y0 g0]|]|e] s1]; injection Eg as <- <-; intros y g'; [|done|done].
    intros [= <- <-]. by apply yields_plain.
  - destruct (Hsch u eq_refl) as [Ht Hu]. unfold run_schedule, is_ready in Eg.
    assert (u ∉ s_ready s) as Hr by (intros H; by apply Hu, ready_place).
    erewrite bind_ok in Eg; [|rewrite bind_get, bool_decide_false by done; by apply fast_schedule_run].
    injection Eg as <- <-. destruct (iv_targets _ _ I _ _ Ht) as [Ht' Hs]. split; [|split; [done|split; [done|split; [right; by exists u|]]]].
    + apply inv_push; try done. rewrite Ht'. apply NoDup_cons. split; [done|apply I].
    + intros y g' [= <- <-]. apply yields_quit; auto.
  - apply (Hbody _ Eg); [by apply (keeps_pure (body t))|]. by injection Eg as <- <-.
  - destruct (timer_wakes_body t true s) as [H1 H2]. apply (Hbody _ Eg H1). by apply H2.
  - pose proof (timer_loop_yields t false s r s' Eg) as [-> H]. apply (Hbody _ Eg); [|done]. unfold keeps_at. rewrite Eg. cbn. reflexivity.
  - apply (Hbody _ Eg); [by apply (keeps_pure (body t))|]. by injection Eg as <- <-.
  - apply (Hbody _ Eg).
    + apply (keeps_bind (body t)); [apply upd_body, calls_body|]. intros _ s1 _ _. keeps_solve ltac:(idtac).
    + erewrite bind_ok in Eg by reflexivity. unfold mbind at 1, M_bind in Eg.
      destruct (make_calls call max_calls _) as [[[]|e] s1]; injection Eg as <- <-; intros y g'; [|done].
      intros [= <- <-]. by apply yields_plain.
  - apply (Hbody _ Eg); [by apply (keeps_pure (body t))|]. injection Eg as <- <-. intros y g' [= <- <-]. by apply yields_plain.
  - apply (Hbody _ Eg); [by apply (keeps_pure (body t))|]. injection Eg as <- <-. intros y g' [= <- <-]. by apply yields_plain.
  - apply (Hbody _ Eg); [keeps_solve ltac:(idtac)|]. unfold mbind at 1, M_bind in Eg.
    destruct (run_callback call cb v s) as [[[]|e] s1]; by injection Eg as <- <-.
  - apply (Hbody _ Eg); [by apply (keeps_pure (body t))|]. by injection Eg as <- <-.
Qed.

(** * The task in hand *)

Lemma hand_exists t s : inv (Some t) s -> exists o, s_tasks s !! t = Some o.
Proof. intros I. destruct (iv_exist _ _ I t) as [o Ho]; [apply elem_of_app; left; by apply list_elem_of_singleton|by exists o]. Qed.
Lemma inv_running cur r s : inv cur s -> inv cur (s_set_running r s).
Proof. intros I. by apply (inv_frame cur s). Qed.

Definition with_task (t : Z) (f : Task G F -> Task G F) s : Sched := s_set_tasks (alter f t (s_tasks s)) (s_nextTaskID s) s.
Lemma the_task_at t s o : s_tasks s !! t = Some o -> the_task t s = o.
Proof. unfold the_task. by intros ->. Qed.
Lemma get_task_at t s o : s_tasks s !! t = Some o -> get_task t s = (Ok o, s).
Proof. intros Ho. unfold get_task. rewrite bind_get, (the_task_at t s o Ho). done. Qed.
Lemma with_task_at t f s o : s_tasks s !! t = Some o -> s_tasks (with_task t f s) !! t = Some (f o).
Proof. intros Ho. cbn. by rewrite lookup_alter_eq, Ho. Qed.
Lemma upd_task_run t f s : upd_task t f s = (Ok tt, with_task t f s).
Proof. done. Qed.
Lemma adv_with_task t f s : adv t s (with_task t f s).
Proof. split; try done. intros u o Hu Ho. cbn. by rewrite lookup_alter_ne. Qed.
Lemma inv_set_rv t v s : inv (Some t) s -> inv (Some t) (with_task t (tk_set_rv v) s).
Proof. intros I. apply inv_task; [done|]. intros o _ H. by split. Qed.
Lemma inv_clear_rf t s : inv (Some t) s -> inv (Some t) (with_task t (tk_set_rf None) s).
Proof. intros I. apply inv_task; [done|]. intros o _ [_ H]. by split; [split|]. Qed.
Lemma inv_set_rf t f s o x : inv (Some t) s -> s_tasks s !! t = Some o -> tk_gen o = GUser x -> inv (Some t) (with_task t (tk_set_rf (Some f)) s).
Proof.
  intros I Ho Hg. apply inv_task; [done|]. intros o' Ho' [_ H]. replace o' with o in * by congruence.
  split; [|done]. split; [by exists x|done].
Qed.

Lemma target_gen t s o : s_tasks s !! t = Some o -> target (s_tasks s) t = match tk_gen o with GSchedule u => Some u | _ => None end.
Proof. intros Ho. unfold target. by rewrite Ho. Qed.
(** What is yielded, and the task that yields it. *)
Definition rests (t : Z) (r : res (option (yielded F))) s : Prop :=
  match r with
  | Ok (Some y) =>
      target (s_tasks s) t = None /\
      (asleep t s -> forall m, s_timers s !! t = Some m -> y = YOp (Sleep (Some (tm_next m)))) /\
      match y with YOp (Recv _ _ _) | YOp (Send _ _) => exists o x, s_tasks s !! t = Some o /\ tk_gen o = GUser x | _ => True end
  | _ => ~ asleep t s
  end.

Lemma inv_set_gen t s y g g' o : inv (Some t) s -> s_tasks s !! t = Some o -> tk_gen o = g -> tk_rf o = None ->
  yields t y g g' s -> inv (Some t) (with_task t (tk_set_gen g' true) s).
Proof.
  intros I Ho Hg Hrf (Y1 & Y2 & _). apply inv_task; [done|]. intros o' Ho' _. replace o' with o in * by congruence.
  split; [|split].
  - split; [done|]. cbn. by destruct g' as [| | | | |[]| |[]| | |].
  - cbn. intros u E. by destruct (Y1 u).
  - cbn. rewrite Hg. exact Y2.
Qed.
Lemma rests_set_gen t s y g g' o : s_tasks s !! t = Some o -> yields t y g g' s -> rests t (Ok (Some y)) (with_task t (tk_set_gen g' true) s).
Proof.
  intros Ho (Y1 & _ & Y3 & Y4). pose proof (with_task_at t (tk_set_gen g' true) s o Ho) as E. split; [|split].
  - rewrite (target_gen t _ _ E). cbn. destruct g' as [| | |u| | | | | | |]; try done. by destruct (Y1 u).
  - intros (o' & Eo' & Hg). rewrite E in Eo'. injection Eo' as <-. exact (Y3 Hg).
  - destruct y as [[]| | | |]; try done; destruct Y4 as [x ->]; eexists; exists x; split; [exact E|done|exact E|done].
Qed.
Lemma inv_done t s o : inv (Some t) s -> s_tasks s !! t = Some o -> tk_rf o = None -> inv (Some t) (with_task t (tk_set_gen GDone true) s).
Proof.
  intros I Ho Hrf. apply inv_task; [done|]. intros o' Ho' _. replace o' with o in * by congruence. split; [by split|].
  split; [done|]. by intros [b ?].
Qed.
Lemma done_not_asleep t s o : s_tasks s !! t = Some o -> ~ asleep t (with_task t (tk_set_gen GDone true) s).
Proof. intros Ho (o' & Eo' & Hg). rewrite (with_task_at t _ s o Ho) in Eo'. injection Eo' as <-. done. Qed.

(** The queue: appended to, or a [ScheduleTask]'s task put first. *)
Definition queues (t : Z) s s' : Prop :=
  appends s s' \/ exists u, target (s_tasks s) t = Some u /\ s_ready s' = u :: s_ready s.


Lemma attempt_run {A} (m : M Sched A) s r s' : m s = (r, s') ->
  attempt m s = match r with Err Diverge => (Err Diverge, s') | _ => (Ok r, s') end.
Proof. unfold attempt. intros ->. by destruct r as [|[]]. Qed.
Lemma gen_send_spec t v s o r s' : inv (Some t) s -> s_running s = None -> s_tasks s !! t = Some o -> tk_rf o = None ->
  (forall u, target (s_tasks s) t = Some u -> u ∉ places (Some t) s) ->
  gen_send user_resume call call_pinger max_calls t v s = (r, s') -> r <> Err Diverge ->
  inv (Some t) s' /\ adv t s s' /\ queues t s s' /\ rests t r s'.
Proof.
  intros I E Ho Hrf Hu. unfold gen_send. erewrite bind_ok by apply (get_task_at t s o Ho).
  destruct (negb (tk_started o) && negb (bool_decide (v = VNone))) eqn:Ev.
  { intros [= <- <-] _. split; [done|]. split; [reflexivity|]. split; [left; reflexivity|]. intros (o' & Ho' & Hg).
    replace o' with o in * by congruence. pose proof (iv_task _ _ I _ _ Ho) as [_ Hs]. rewrite Hg in Hs. by rewrite Hs in Ev. }
  erewrite bind_ok by reflexivity. set (s1 := s_set_running (Some t) s).
  destruct (gen_run user_resume call call_pinger max_calls t (tk_gen o) v s1) as [r1 s2] eqn:Eg.
  destruct (gen_run_spec t (tk_gen o) v s1 r1 s2) as (I2 & A2 & T2 & Q2 & Y2); try done.
  { by apply inv_running. }
  { intros u Hg. assert (target (s_tasks s) t = Some u) as Ht by (rewrite (target_gen t s o Ho), Hg; done).
    split; [exact Ht|]. exact (Hu u Ht). }
  set (s3 := s_set_running None s2).
  assert (inv (Some t) s3) as I3 by by apply inv_running.
  assert (s_tasks s3 !! t = Some o) as T3 by (cbn; rewrite T2; exact Ho).
  assert (adv t s s3) as A3 by (destruct A2; split; try done).
  assert (queues t s s3) as Q3.
  { destruct Q2 as [Q|(u & Hg & Q)]; [by left|right]. exists u. split; [|exact Q]. by rewrite (target_gen t s o Ho), Hg. }
  assert (forall g', adv t s (with_task t (tk_set_gen g' true) s3) /\ queues t s (with_task t (tk_set_gen g' true) s3)) as H.
  { intros g'. split; [|exact Q3]. etrans; [exact A3|apply adv_with_task]. }
  unfold mbind, M_bind at 1. rewrite (attempt_run _ _ _ _ Eg). destruct r1 as [[[y g']|]|e]; [| |destruct e].
  all: cbn beta iota; try (intros [= <- <-]; done); intros [= <- <-] _; destruct (H GDone) as [Hd1 Hd2].
  2-17: split; [exact (inv_done t s3 o I3 T3 Hrf)|split; [exact Hd1|split; [exact Hd2|exact (done_not_asleep t s3 o T3)]]].
  destruct (H g') as [H1 H2]. specialize (Y2 y g' eq_refl).
  split; [by eapply (inv_set_gen t s3 y (tk_gen o) g' o)|]. split; [done|]. split; [done|]. by eapply (rests_set_gen t s3 y (tk_gen o) g' o).
Qed.

(** * Executing a task *)

(** The hub learns of new registrations, and of nothing else. *)
Definition hub_grows s s' : Prop :=
  h_tasks (s_selectHub s') = h_tasks (s_selectHub s) /\ h_wait (s_selectHub s') = h_wait (s_selectHub s) /\
  s_now s' = s_now s /\ exists l, h_incoming (s_selectHub s') = h_incoming (s_selectHub s) ++ l.
#[export] Instance hub_grows_preorder : PreOrder hub_grows.
Proof.
  constructor; [intros s; split_and!; try done; by exists []; rewrite app_nil_r|].
  intros x y z (A1 & B1 & C1 & l1 & D1) (A2 & B2 & C2 & l2 & D2). split_and!; try congruence.
  exists (l1 ++ l2). by rewrite D2, D1, app_assoc.
Qed.
Lemma hub_same_grows s s' : s_selectHub s' = s_selectHub s -> s_now s' = s_now s -> hub_grows s s'.
Proof. intros E1 E2. unfold hub_grows. rewrite E1, E2. split_and!; try done. by exists []; rewrite app_nil_r. Qed.
Lemma registered_grows e s : hub_grows s (registered e s).
Proof. split_and!; try done. by exists [e]. Qed.

(** The task in hand is changed, and the rest of the world. *)
Record touch (t : Z) (x : G) s s' : Prop := MkTouch {
  to_inv : inv (Some t) s';
  to_ready : s_ready s' = s_ready s;
  to_running : s_running s' = s_running s;
  to_hub : hub_grows s s';
  to_others : forall u o, u <> t -> s_tasks s !! u = Some o -> s_tasks s' !! u = Some o;
  to_gen : exists o, s_tasks s' !! t = Some o /\ tk_gen o = GUser x
}.
Lemma touch_trans t x s s1 s2 : touch t x s s1 -> touch t x s1 s2 -> touch t x s s2.
Proof. intros [] []. split; try done; try congruence; [by etrans|]. intros u o Hu Ho. auto. Qed.
Lemma touch_task t x s f : inv (Some t) (with_task t f s) -> (exists o, s_tasks s !! t = Some o /\ tk_gen o = GUser x) ->
  (forall o, tk_gen (f o) = tk_gen o) -> touch t x s (with_task t f s).
Proof.
  intros I (o & Ho & Hg) Hf. split; try done.
  - by apply hub_same_grows.
  - intros u o' Hu Ho'. cbn. by rewrite lookup_alter_ne.
  - exists (f o). split; [by apply with_task_at|by rewrite Hf].
Qed.
Lemma touch_rv t x s v : inv (Some t) s -> (exists o, s_tasks s !! t = Some o /\ tk_gen o = GUser x) -> touch t x s (with_task t (tk_set_rv v) s).
Proof. intros I Ho. apply touch_task; [by apply inv_set_rv|done|done]. Qed.
Lemma touch_clear t x s : inv (Some t) s -> (exists o, s_tasks s !! t = Some o /\ tk_gen o = GUser x) -> touch t x s (with_task t (tk_set_rf None) s).
Proof. intros I Ho. apply touch_task; [by apply inv_clear_rf|done|done]. Qed.
Lemma touch_rf t x s f : inv (Some t) s -> (exists o, s_tasks s !! t = Some o /\ tk_gen o = GUser x) -> touch t x s (with_task t (tk_set_rf (Some f)) s).
Proof. intros I Ho. pose proof Ho as (o & Ho' & Hg). apply touch_task; [by eapply (inv_set_rf t f s o x)|done|done]. Qed.

Lemma rf_call_spec f t x s o r s1 : inv (Some t) s -> s_tasks s !! t = Some o -> tk_gen o = GUser x ->
  rf_call sock_recv f t s = (r, s1) ->
  (exists e, r = Err e /\ s1 = s) \/ (exists v, r = Ok (Some v) /\ touch t x s s1) \/
  (exists e s0, r = Ok None /\ he_task e = t /\ s1 = registered e s0 /\ touch t x s s0).
Proof.
  intros I Ho Hg. assert (exists o, s_tasks s !! t = Some o /\ tk_gen o = GUser x) as Hu by by exists o.
  set (s2 := with_task t (tk_set_rv VNone) s). pose proof (touch_rv t x s VNone I Hu) as H2. fold s2 in H2.
  destruct f as [len|fd data sent]; cbn [rf_call]; unfold recvReturnFunc, sendReturnFunc;
    (erewrite bind_ok by apply (get_task_at t s o Ho));
    (destruct (as_fds (tk_rv o)) as [[[rl wl] xl]|e]; [|erewrite bind_err by reflexivity; intros [= <- <-]; left; by exists e]);
    (erewrite bind_ok by reflexivity); cbv beta iota; (erewrite bind_ok by apply upd_task_run); fold s2.
  - destruct xl as [|]; [destruct rl as [|sock rl]|]; try (intros [= <- <-]; right; left; eexists; split; [reflexivity|exact H2]).
    rewrite bind_get. cbv beta. assert (forall w, touch t x s (s_set_world w s2)) as Hw.
    { intros w. destruct H2 as [I2 R2 U2 K2 O2 G2]. split; try done. by apply (inv_frame (Some t) s2). }
    destruct (sock_recv sock len (s_world s2)) as [[b|e] w]; intros [= <- <-]; right; left; eexists; (split; [reflexivity|apply Hw]).
  - destruct xl as [|]; [|intros [= <- <-]; right; left; eexists; split; [reflexivity|exact H2]].
    set (d := if 1024 <? zlen data then _ else _).
    unfold Send_execute. erewrite bind_ok by (erewrite bind_ok by apply upd_task_run; apply registerSelect_run). intros [= <- <-]. right; right.
    eexists. exists (with_task t (tk_set_rf (Some (RFSend fd d sent))) s2). split; [done|]. split; [|split; [reflexivity|]]; [done|].
    eapply touch_trans; [exact H2|]. destruct H2. by apply touch_rf.
Qed.

Lemma user_not_asleep t s o x : s_tasks s !! t = Some o -> tk_gen o = GUser x -> ~ asleep t s.
Proof. intros Ho Hg (o' & Ho' & Hg'). replace o' with o in * by congruence. by rewrite Hg in Hg'. Qed.

Definition others (t : Z) s s' : Prop := forall u o, u <> t -> s_tasks s !! u = Some o -> s_tasks s' !! u = Some o.

Lemma execute_spec t s r s' : inv (Some t) s -> s_running s = None ->
  (forall u, target (s_tasks s) t = Some u -> u ∉ places (Some t) s) ->
  execute user_resume call sock_recv call_pinger max_calls t s = (r, s') -> r <> Err Diverge ->
  s_running s' = None /\ others t s s' /\ queues t s s' /\ hub_grows s s' /\
  ((inv (Some t) s' /\ rests t r s') \/ (inv None s' /\ r = Ok (Some YFalse))).
Proof.
  intros I E Hu. destruct (hand_exists t s I) as [o Ho]. unfold execute. erewrite bind_ok by apply (get_task_at t s o Ho).
  destruct (tk_rf o) as [f|] eqn:Ef.
  - destruct (iv_task _ _ I _ _ Ho) as [Hgx _]. destruct (Hgx ltac:(by rewrite Ef)) as [x Hg].
    destruct (rf_call sock_recv f t s) as [r1 s1] eqn:E1. unfold mbind at 1, M_bind at 1. rewrite E1.
    destruct (rf_call_spec f t x s o r1 s1 I Ho Hg E1) as [(e & -> & ->)|[(v & -> & T1)|(e & s0 & -> & He & -> & T0)]].
    + intros [= <- <-] _. split; [done|]. split; [by intros u|]. split; [left; reflexivity|]. split; [reflexivity|]. left. split; [done|]. by eapply user_not_asleep.
    + erewrite bind_ok by apply upd_task_run. erewrite bind_ok by apply upd_task_run. set (s2 := with_task t _ (with_task t _ s1)).
      assert (touch t x s s2) as T2.
      { eapply touch_trans; [exact T1|]. pose proof T1 as [I1 _ _ _ _ G1].
        pose proof (touch_clear t x s1 I1 G1) as T2. eapply touch_trans; [exact T2|]. pose proof T2 as [I2 _ _ _ _ G2]. by apply touch_rv. }
      pose proof T2 as [I2 R2 U2 K2 O2 (o2 & Ho2 & Hg2)]. intros Es Hr.
      destruct (gen_send_spec t v s2 o2 r s') as (I3 & A3 & Q3 & Y3); try done; [by rewrite U2| | |].
      { destruct (to_gen _ _ _ _ T1) as (o1 & Ho1 & _).
        pose proof (with_task_at t (tk_set_rv VNone) _ _ (with_task_at t (tk_set_rf None) s1 o1 Ho1)) as E2. fold s2 in E2. by replace o2 with (tk_set_rv VNone (tk_set_rf None o1)) by congruence. }
      { intros u. rewrite (target_gen t s2 o2 Ho2), Hg2. done. }
      split; [by rewrite (ad_running _ _ _ A3), U2|]. split; [intros u o' Hne Ho'; by apply (ad_tasks _ _ _ A3), O2|]. split; [|split; [|by left]].
      * destruct Q3 as [[l Q]|(u & Q & _)]; [left; exists l; by rewrite Q, R2|]. by rewrite (target_gen t s2 o2 Ho2), Hg2 in Q.
      * etrans; [exact K2|]. destruct A3. by apply hub_same_grows.
    + erewrite bind_ok by apply upd_task_run. erewrite bind_ok by apply upd_task_run. intros [= <- <-] _.
      pose proof T0 as [I0 R0 U0 K0 O0 G0]. pose proof (touch_clear t x s0 I0 G0) as T1. pose proof T1 as [I1 _ _ _ _ G1].
      pose proof (touch_rv t x _ VNone I1 G1) as T2. pose proof (touch_trans _ _ _ _ _ T0 (touch_trans _ _ _ _ _ T1 T2)) as [I2 R2 U2 K2 O2 (o2 & Ho2 & Hg2)].
      split; [exact (eq_trans U2 E)|]. split; [exact O2|]. split; [left; exists []; rewrite app_nil_r; exact R2|]. split; [etrans; [exact K2|exact (registered_grows e _)]|]. right. split; [|done].
      apply (inv_register t e _ I2 He); [by rewrite (target_gen t _ o2 Ho2), Hg2|]. intros Ha. exfalso. by apply (user_not_asleep t _ o2 x Ho2 Hg2).
  - erewrite bind_ok by apply upd_task_run. set (s1 := with_task t (tk_set_rv VNone) s). intros Es Hr.
    pose proof (with_task_at t (tk_set_rv VNone) s o Ho) as Ho1. fold s1 in Ho1.
    assert (target (s_tasks s1) t = target (s_tasks s) t) as Et by by rewrite (target_gen t s1 _ Ho1), (target_gen t s o Ho).
    assert (places (Some t) s1 = places (Some t) s) as Hp.
    { unfold places. cbn [s1 s_ready s_tasks with_task s_set_tasks s_selectHub s_blocking]. do 3 f_equal.
      apply targets_ext. intros u Hu'. unfold target. destruct (decide (u = t)) as [->|]; [|by rewrite lookup_alter_ne].
      rewrite lookup_alter_eq, Ho. done. }
    destruct (gen_send_spec t (tk_rv o) s1 (tk_set_rv VNone o) r s') as (I3 & A3 & Q3 & Y3); try done; [by apply inv_set_rv|rewrite Et, Hp; exact Hu|].
    split; [by rewrite (ad_running _ _ _ A3)|]. split; [intros u o' Hne Ho'; by apply (ad_tasks _ _ _ A3), (ad_tasks _ _ _ (adv_with_task _ _ _))|].
    split; [|split; [destruct A3; by apply hub_same_grows|by left]].
    destruct Q3 as [[l Q]|(u & Q1 & Q2)]; [left; by exists l|right; exists u]. by rewrite <-Et.
Qed.

(** What is yielded is done: the task goes where it waits. *)
Lemma perform_spec t y s r s' : inv (Some t) s -> s_running s = None -> rests t (Ok (Some y)) s -> perform t y s = (r, s') ->
  inv None s' /\ s_running s' = None /\ others t s s' /\ appends s s' /\ hub_grows s s' /\ (r = Ok tt \/ r = Err RuntimeError /\ y = YNone).
Proof.
  intros I E (Ht & Hs & Hy). assert (appends s s) as A0 by reflexivity. assert (others t s s) as O0 by by intros u. assert (hub_grows s s) as K0 by reflexivity.
  assert (forall e, hub_grows s (registered e s)) as K1 by (intros; apply registered_grows).
  assert (t ∉ s_ready s) as Hr.
  { pose proof (iv_nodup _ _ I) as Hd. apply NoDup_cons in Hd as [Hd _]. intros H. apply Hd, elem_of_app. by left. }
  assert ((forall x, y <> YOp (Sleep (Some x))) -> ~ asleep t s) as Hna.
  { intros Hne Ha. pose proof Ha as (o & Ho & Hg). destruct (iv_timer _ _ I t o Ho (ex_intro _ true Hg)) as [m Hm].
    by apply (Hne (tm_next m)), Hs. }
  assert (forall e, he_task e = t -> ~ asleep t s -> inv None (registered e s)) as Hreg.
  { intros e He Ha. apply (inv_register t e s I He Ht). intros H. by destruct Ha. }
  destruct y as [op| |n| |]; cbn [perform].
  - assert (exists s1, op_execute op t s = (Ok tt, s1) /\ inv None s1 /\ s_running s1 = None /\ others t s s1 /\ appends s s1 /\ hub_grows s s1) as (s1 & E1 & H1).
    { destruct op as [|[x|]|rl wl xl to ab|fd len to|fd data|f]; cbn [op_execute]; unfold Sleep_execute, Recv_execute, Send_execute, CallBlocking_execute.
      - eexists. split; [reflexivity|]. split; [|done]. apply inv_drop with t; [by apply (inv_frame (Some t) s)|]. by apply Hna.
      - rewrite bind_get. destruct ((x =? 0) || (x <? s_now s)) eqn:Ex.
        + rewrite fast_schedule_run by done. eexists. split; [reflexivity|]. split; [|split; [done|split; [done|split; [by exists [t]|by apply hub_same_grows]]]].
          apply inv_push_hand; [done|done|]. intros Ha m Hm. specialize (Hs Ha m Hm) as [= ->].
          pose proof (iv_now _ _ I). apply orb_true_iff in Ex. lia.
        + unfold registerTimer. rewrite registerSelect_run. eexists. split; [reflexivity|]. split; [|done].
          apply (inv_register t _ s I); [done|done|]. intros Ha m Hm. by specialize (Hs Ha m Hm) as [= ->].
      - eexists. split; [reflexivity|]. split; [|done]. apply inv_drop with t; [done|]. by apply Hna.
      - rewrite registerSelect_run. eexists. split; [reflexivity|]. split; [|done]. apply Hreg; [done|]. by apply Hna.
      - destruct Hy as (o & x & Ho & Hg). erewrite bind_ok by apply upd_task_run. rewrite registerSelect_run. eexists. split; [reflexivity|].
        pose proof (touch_rf t x s (RFRecv len) I ltac:(by exists o)) as [I1 R1 U1 K2 O1 (o1 & Ho1 & Hg1)].
        split; [|split; [done|split; [done|split; [done|etrans; [exact K2|apply registered_grows]]]]]. apply (inv_register t _ _ I1); [done|by rewrite (target_gen t _ o1 Ho1), Hg1|]. intros Ha. exfalso. by apply (user_not_asleep t _ o1 x Ho1 Hg1).
      - destruct Hy as (o & x & Ho & Hg). erewrite bind_ok by apply upd_task_run. rewrite registerSelect_run. eexists. split; [reflexivity|].
        pose proof (touch_rf t x s (RFSend fd data 0) I ltac:(by exists o)) as [I1 R1 U1 K2 O1 (o1 & Ho1 & Hg1)].
        split; [|split; [done|split; [done|split; [done|etrans; [exact K2|apply registered_grows]]]]]. apply (inv_register t _ _ I1); [done|by rewrite (target_gen t _ o1 Ho1), Hg1|]. intros Ha. exfalso. by apply (user_not_asleep t _ o1 x Ho1 Hg1).
      - eexists. split; [reflexivity|]. split; [|done]. apply inv_block; [done|by apply Hna|done]. }
    erewrite bind_ok by (rewrite (attempt_run _ _ _ _ E1); reflexivity). intros [= <- <-]. destruct H1 as (? & ? & ? & ? & ?). split_and!; auto.
  - intros [= <- <-]. split; [|by split_and!; auto]. apply inv_drop with t; [done|]. by apply Hna.
  - destruct (n =? 0).
    + intros [= <- <-]. split; [|split; [done|split; [done|split; [by exists [t]|split; [by apply hub_same_grows|by left]]]]].
      apply (inv_frame None (push false t s)); try done. apply inv_push_hand; [done|done|]. intros Ha. exfalso. by apply Hna.
    + unfold registerTimer. rewrite registerSelect_run. intros [= <- <-]. split; [|by split_and!; auto]. apply Hreg; [done|]. by apply Hna.
  - intros [= <- <-]. split; [|by split_and!; auto]. apply inv_drop with t; [done|]. by apply Hna.
  - intros [= <- <-]. split; [|by split_and!; auto]. apply inv_drop with t; [done|]. by apply Hna.
Qed.

(** * A cycle *)

(** What a cycle makes of the queue: the first task goes, the others stay in their order, new
    ones come after them; only a task that a [ScheduleTask] wakes comes first. *)
Definition turned (t : Z) (ready : list Z) s s' : Prop :=
  exists first l, s_ready s' = first ++ ready ++ l /\ (first = [] \/ exists u, target (s_tasks s) t = Some u /\ first = [u]).

Lemma woken_nowhere t ready s u : inv None s -> s_ready s = t :: ready -> target (s_tasks s) t = Some u ->
  u ∉ places (Some t) (s_set_ready ready s).
Proof.
  intros I E Et. pose proof (iv_nodup _ _ I) as Hd.
  assert (places None s ≡ₚ u :: places (Some t) (s_set_ready ready s)) as P.
  { unfold places. cbn. rewrite E. cbn. rewrite Et. solve_Permutation. }
  rewrite P in Hd. by apply NoDup_cons in Hd as [? _].
Qed.

Lemma cycle_spec t ready s r s' : inv None s -> s_running s = None -> s_ready s = t :: ready ->
  cycle user_resume call sock_recv call_pinger max_calls s = (r, s') -> r <> Err Diverge ->
  inv None s' /\ s_running s' = None /\ others t s s' /\ turned t ready s s' /\ hub_grows s s' /\ (r = Ok true \/ r = Err RuntimeError).
Proof.
  intros I E Er. unfold cycle. rewrite bind_get, Er. erewrite bind_ok by reflexivity. set (s1 := s_set_ready ready s).
  assert (inv (Some t) s1) as I1 by by apply inv_take.
  destruct (execute user_resume call sock_recv call_pinger max_calls t s1) as [r1 s2] eqn:Ex.
  intros Ec Hd. unfold mbind at 1, M_bind at 1 in Ec. rewrite (attempt_run _ _ _ _ Ex) in Ec.
  assert (r1 <> Err Diverge) as Hd1 by (intros ->; injection Ec as <- <-; done).
  destruct (execute_spec t s1 r1 s2 I1 E) as (U2 & O2 & Q2 & K2 & H2); try done.
  { intros u Hu. by apply (woken_nowhere t ready s u I Er). }
  assert (turned t ready s s2) as T2.
  { destruct Q2 as [[l Q]|(u & Hu & Q)]; [exists [], l; by auto|]. exists [u], []. rewrite app_nil_r. split; [exact Q|]. right. by exists u. }
  assert (forall y s3 r3, r1 = Ok (Some y) -> perform t y s2 = (r3, s3) ->
    inv None s3 /\ s_running s3 = None /\ others t s s3 /\ turned t ready s s3 /\ hub_grows s s3 /\ (r3 = Ok tt \/ r3 = Err RuntimeError)) as Hp.
  { intros y s3 r3 -> Ep. destruct H2 as [[I2 Y2]|[I2 [= ->]]].
    - destruct (perform_spec t y s2 r3 s3 I2 U2 Y2 Ep) as (I3 & U3 & O3 & [l Q3] & K3 & R3). split; [done|]. split; [done|].
      split; [intros u o Hu Ho; by apply O3, O2|]. split; [|split; [by etrans|by destruct R3 as [->|[-> _]]; auto]].
      destruct T2 as (f & l2 & Q & Hf). exists f, (l2 ++ l). split; [|done]. by rewrite Q3, Q, !app_assoc.
    - injection Ep as <- <-. by split_and!; auto. }
  assert (inv None s2 \/ exists y, r1 = Ok (Some y)) as Hi.
  { destruct H2 as [[I2 Y2]|[I2 _]]; [|by left]. destruct r1 as [[y|]|e]; [right; by exists y| |]; left; by apply inv_drop with t. }
  destruct r1 as [[y|]|e].
  - destruct (perform t y s2) as [r3 s3] eqn:Ep. destruct (Hp y s3 r3 eq_refl Ep) as (I3 & U3 & O3 & T3 & K3 & R3).
    unfold mbind, M_bind in Ec. rewrite Ep in Ec. destruct R3 as [->| ->]; injection Ec as <- <-; split_and!; auto.
  - injection Ec as <- <-. destruct Hi as [Hi|[y Hy]]; [by split_and!; auto|done].
  - destruct Hi as [Hi|[y Hy]]; [|done]. destruct e; injection Ec as <- <-; by split_and!; auto.
Qed.

Lemma run_round_spec s r s' : inv None s -> s_running s = None ->
  run_round user_resume call sock_recv call_pinger max_calls s = (r, s') -> r <> Err Diverge ->
  inv None s' /\ s_running s' = None /\
  match s_ready s with
  | [] => s_ready s' = [] /\ s_tasks s' = s_tasks s
  | t :: ready => others t s s' /\ turned t ready s s'
  end /\ hub_grows s s' /\ (r = Ok tt \/ (r = Err RuntimeError /\ s_hasQuit s' = true /\ s_allDone s' = true)).
Proof.
  intros I E. unfold run_round. rewrite bind_get. destruct (s_ready s) as [|t ready] eqn:Er.
  - erewrite bind_ok by reflexivity. set (s1 := s_set_event false s).
    assert (cycle user_resume call sock_recv call_pinger max_calls s1 = (Ok false, s1)) as Ec by (unfold cycle; by rewrite bind_get; cbn; rewrite Er).
    erewrite bind_ok by (rewrite (attempt_run _ _ _ _ Ec); reflexivity). intros [= <- <-] _.
    split; [by apply (inv_frame None s)|]. split; [done|]. split; [by split|]. split; [by apply hub_same_grows|by left].
  - erewrite bind_ok by reflexivity.
    destruct (cycle user_resume call sock_recv call_pinger max_calls s) as [r1 s1] eqn:Ec. intros Eq Hd.
    unfold mbind at 1, M_bind at 1 in Eq. rewrite (attempt_run _ _ _ _ Ec) in Eq.
    assert (r1 <> Err Diverge) as Hd1 by (intros ->; injection Eq as <- <-; done).
    destruct (cycle_spec t ready s r1 s1 I E Er Ec Hd1) as (I1 & U1 & O1 & T1 & K1 & R1).
    destruct R1 as [->| ->]; injection Eq as <- <-; [by split_and!; auto|].
    assert (inv None (s_set_quit true true (s_set_hub (set_incoming (h_incoming (s_selectHub s1)) (h_pings (s_selectHub s1) + 1) (s_selectHub s1)) (s_set_quit true (s_allDone s1) s1)))) as I2.
    { destruct (iv_pings _ _ I1) as [P1 P2]. split; cbn; try apply I1. split; [lia|]. intros H. specialize (P2 H). lia. }
    split; [exact I2|]. split; [done|]. split; [by split|]. split; [exact K1|by right].
Qed.
End run.
