(* ===== verification/RecocoHub.v ===== *)
(** The hub of Recoco keeps the invariant: the pass over its tasks, what [select] finds, the
    tasks it gives back.  Under the invariant none of its assertions fails. *)
From S2P Require Import Prelude.
From S2P Require Import Steps.
From S2P Require Import Recoco.
From S2P Require Import RecocoInv.

Section hub.
Context {G F W : Type}.
Abbreviation Sched := (Scheduler G F W).
Implicit Type s : Sched.
Variable hub_pinger : Z.

(** * The pass over the tasks *)

Definition expired_by (now : Z) (e : hub_entry) : bool :=
  match he_timeout e with Some d => d <=? now | None => false end.
Definition claims (now : Z) (list_of : hub_entry -> option (list Z)) (es : list hub_entry) (i t : Z) : Prop :=
  exists e, e ∈ es /\ expired_by now e = false /\ he_task e = t /\ i ∈ default [] (list_of e).

Lemma claim_lookup t l m i u : claim t l m !! i = Some u -> m !! i = Some u \/ (u = t /\ i ∈ default [] l).
Proof.
  unfold claim. destruct l as [l|]; cbn; [|by left]. revert m. induction l as [|x l IH]; intros m; cbn; [by left|].
  intros [H|[-> H]]%IH; [|right; split; [done|by apply list_elem_of_further]].
  destruct (decide (x = i)) as [->|Hne]; [rewrite lookup_insert_eq in H|rewrite lookup_insert_ne in H by done; by left].
  injection H as <-. right. split; [done|apply list_elem_of_here].
Qed.

Lemma claims_cons now f e es i t : claims now f es i t -> claims now f (e :: es) i t.
Proof. intros (x & Hx & H). exists x. split; [by apply list_elem_of_further|done]. Qed.
Lemma claims_here now f e es i t : expired_by now e = false ->
  (forall m, claim (he_task e) (f e) m !! i = Some t -> m !! i = Some t \/ claims now f (e :: es) i t).
Proof.
  intros He m [H|[-> H]]%claim_lookup; [by left|right]. exists e. split; [apply list_elem_of_here|done].
Qed.

Lemma hub_scan_spec now es expired timer rl wl xl expired' timer' rl' wl' xl' :
  hub_scan now es expired timer rl wl xl = (expired', timer', rl', wl', xl') ->
  expired' = expired ++ (he_task <$> List.filter (expired_by now) es) /\
  (forall i t, rl' !! i = Some t -> rl !! i = Some t \/ claims now he_rlist es i t) /\
  (forall i t, wl' !! i = Some t -> wl !! i = Some t \/ claims now he_wlist es i t) /\
  (forall i t, xl' !! i = Some t -> xl !! i = Some t \/ claims now he_xlist es i t) /\
  (forall d t, timer' = Some (d, t) -> timer = Some (d, t) \/
     exists e, e ∈ es /\ expired_by now e = false /\ he_task e = t /\ he_timeout e = Some (now + d)).
Proof.
  revert expired timer rl wl xl. induction es as [|e es IH]; intros expired timer rl wl xl; cbn [hub_scan].
  { intros [= <- <- <- <- <-]. rewrite app_nil_r. split_and!; auto. }
  assert (forall timer1, expired_by now e = false ->
    (forall d t, timer1 = Some (d, t) -> timer = Some (d, t) \/ (he_task e = t /\ he_timeout e = Some (now + d))) ->
    hub_scan now es expired timer1 (claim (he_task e) (he_rlist e) rl) (claim (he_task e) (he_wlist e) wl) (claim (he_task e) (he_xlist e) xl)
      = (expired', timer', rl', wl', xl') ->
    expired' = expired ++ (he_task <$> List.filter (expired_by now) (e :: es)) /\
    (forall i t, rl' !! i = Some t -> rl !! i = Some t \/ claims now he_rlist (e :: es) i t) /\
    (forall i t, wl' !! i = Some t -> wl !! i = Some t \/ claims now he_wlist (e :: es) i t) /\
    (forall i t, xl' !! i = Some t -> xl !! i = Some t \/ claims now he_xlist (e :: es) i t) /\
    (forall d t, timer' = Some (d, t) -> timer = Some (d, t) \/
       exists x, x ∈ e :: es /\ expired_by now x = false /\ he_task x = t /\ he_timeout x = Some (now + d))) as Hgo.
  { intros timer1 He Ht (E & H1 & H2 & H3 & H4)%IH. cbn [List.filter]. rewrite He. split; [done|].
    split; [|split; [|split]].
    - intros i t [H|H]%H1; [by apply (claims_here now he_rlist)|right; by apply claims_cons].
    - intros i t [H|H]%H2; [by apply (claims_here now he_wlist)|right; by apply claims_cons].
    - intros i t [H|H]%H3; [by apply (claims_here now he_xlist)|right; by apply claims_cons].
    - intros d t [H|(x & Hx & H)]%H4.
      + destruct (Ht d t H) as [?|[? ?]]; [by left|right]. exists e. split; [apply list_elem_of_here|done].
      + right. exists x. split; [by apply list_elem_of_further|done]. }
  destruct (he_timeout e) as [tto|] eqn:Et.
  - destruct (tto <=? now) eqn:Hle.
    + intros (E & H1 & H2 & H3 & H4)%IH. cbn [List.filter]. unfold expired_by at 1. rewrite Et, Hle. cbn [fmap list_fmap].
      split; [by rewrite E, <-app_assoc|]. split_and!.
      * intros i t [H|H]%H1; [by left|right; by apply claims_cons].
      * intros i t [H|H]%H2; [by left|right; by apply claims_cons].
      * intros i t [H|H]%H3; [by left|right; by apply claims_cons].
      * intros d t [H|(x & Hx & H)]%H4; [by left|right]. exists x. split; [by apply list_elem_of_further|done].
    + apply Hgo; [unfold expired_by; by rewrite Et|]. intros d t.
      assert (Some tto = Some (now + (tto - now))) as Eq by (f_equal; lia).
      destruct timer as [[to u]|]; [destruct (tto - now <? to)|]; try (by left); intros [= <- <-]; right; split; done.
  - apply Hgo; [unfold expired_by; by rewrite Et|]. by left.
Qed.

(** * Giving tasks back *)

(** The entries of the tasks given back are of descriptors, or their time has come. *)
Definition returnable (t : Z) s : Prop :=
  exists e, h_tasks (s_selectHub s) !! t = Some e /\ forall d, e = timer_entry t d -> d <= s_now s.

(** Generators stay, the queue grows. *)
Definition gens_kept s s' : Prop := forall u, is_Some (s_tasks s !! u) -> tk_gen <$> s_tasks s' !! u = tk_gen <$> s_tasks s !! u.
#[export] Instance gens_kept_preorder : PreOrder gens_kept.
Proof.
  constructor; [by intros s u|]. intros x y z H1 H2 u Hu. rewrite H2; [by apply H1|].
  apply (fmap_is_Some tk_gen). rewrite H1 by done. by apply fmap_is_Some.
Qed.

Definition given (t : Z) (v : pyval) s : Sched :=
  push false t (s_set_tasks (alter (tk_set_rv v) t (s_tasks s)) (s_nextTaskID s) (hub_without t s)).
Lemma given_gens t v s : gens_kept s (given t v s).
Proof.
  intros u Hu. cbn. destruct (decide (t = u)) as [<-|]; [rewrite lookup_alter_eq|by rewrite lookup_alter_ne]. by destruct (s_tasks s !! t).
Qed.

Lemma hub_entry_place t e s : h_tasks (s_selectHub s) !! t = Some e -> t ∈ others_places s.
Proof.
  intros H. unfold others_places. rewrite !elem_of_app. right; left. apply list_elem_of_fmap. exists (t, e).
  split; [done|]. by apply elem_of_map_to_list.
Qed.

(** A timer that sleeps in the hub has the entry of its time. *)
Lemma hub_timer t e s m : inv None s -> h_tasks (s_selectHub s) !! t = Some e -> asleep t s -> s_timers s !! t = Some m ->
  e = timer_entry t (tm_next m).
Proof.
  intros I He (o & Ho & Hg) Hm. pose proof (iv_nodup _ _ I) as Hd. unfold places in Hd. cbn in Hd.
  assert (t ∈ (map_to_list (h_tasks (s_selectHub s))).*1) as Hin.
  { apply list_elem_of_fmap. exists (t, e). split; [done|]. by apply elem_of_map_to_list. }
  destruct (iv_sleep _ _ I t o m Ho Hg Hm) as [?|[[Hr _]|[Hr|Hr]]]; [done| | |congruence]; exfalso.
  - apply NoDup_app in Hd as (_ & Hd & _). apply (Hd t Hr). rewrite !elem_of_app. by right; right; left.
  - apply NoDup_app in Hd as (_ & _ & Hd). apply NoDup_app in Hd as (_ & _ & Hd). apply NoDup_app in Hd as (_ & Hd & _).
    apply (Hd t); [|apply elem_of_app; by left]. apply list_elem_of_fmap. by exists (timer_entry t (tm_next m)).
Qed.

Lemma inv_given t v s : inv None s -> h_wait (s_selectHub s) = None -> returnable t s -> inv None (given t v s).
Proof.
  intros I Hw (e & He & Hdue). pose proof (inv_hub_delete t e s I Hw He) as I1.
  pose proof (inv_task t (tk_set_rv v) _ I1 ltac:(by intros o _ H; split)) as I2.
  apply inv_push_hand; [exact I2| |].
  - assert (target (s_tasks s) t = None) as Et by (apply (iv_plain _ _ I); by eapply hub_entry_place).
    unfold target in *. cbn. rewrite lookup_alter_eq. by destruct (s_tasks s !! t).
  - intros (o & Ho & Hg) m Hm. apply Hdue. change (alter (tk_set_rv v) t (s_tasks s) !! t = Some o) in Ho. apply lookup_alter_Some in Ho as [(_ & o0 & Ho & ->)|[? _]]; [|done].
    by apply (hub_timer t e s m I He ltac:(by exists o0)).
Qed.

Lemma hub_return_run t r w x s e : h_tasks (s_selectHub s) !! t = Some e -> t ∉ s_ready s ->
  ('_ ← hub_delete t; hub_return t r w x) s = (Ok tt, given t (VFds r w x) s).
Proof.
  intros He Hr. unfold hub_delete, hub_return. erewrite bind_ok by (rewrite bind_get, He; reflexivity).
  erewrite bind_ok by reflexivity. by rewrite fast_schedule_run.
Qed.

(** All of them, in their order. *)
Lemma return_each_spec l s : inv None s -> h_wait (s_selectHub s) = None -> NoDup l.*1 -> (forall t, t ∈ l.*1 -> returnable t s) ->
  exists s', hub_return_each l s = (Ok tt, s') /\ inv None s' /\ s_ready s' = s_ready s ++ l.*1 /\ gens_kept s s' /\
    h_wait (s_selectHub s') = None /\ h_incoming (s_selectHub s') = h_incoming (s_selectHub s) /\
    h_pings (s_selectHub s') = h_pings (s_selectHub s) /\
    (forall t, t ∉ l.*1 -> h_tasks (s_selectHub s') !! t = h_tasks (s_selectHub s) !! t) /\
    s_now s' = s_now s /\ s_running s' = s_running s /\ s_hasQuit s' = s_hasQuit s.
Proof.
  revert s. induction l as [|[t [[r w] x]] l IH]; intros s I Hw Hd Hret.
  { exists s. cbn. rewrite app_nil_r. split_and!; try done. }
  cbn [hub_return_each fmap list_fmap fst] in *. apply NoDup_cons in Hd as [Hn Hd].
  pose proof (Hret t ltac:(apply list_elem_of_here)) as Ht. pose proof Ht as (e & He & _).
  assert (t ∉ s_ready s) as Hr.
  { intros Hr. pose proof (iv_nodup _ _ I) as Hnd. unfold places in Hnd. cbn in Hnd. apply NoDup_app in Hnd as (_ & Hnd & _).
    apply (Hnd t Hr). pose proof (hub_entry_place t e s He) as Ho. unfold others_places in Ho. rewrite !elem_of_app in *. tauto. }
  pose proof (inv_given t (VFds r w x) s I Hw Ht) as I1. set (s1 := given t (VFds r w x) s) in *.
  destruct (IH s1 I1) as (s' & E & I' & R' & G' & W' & N' & P' & T' & C'); try done.
  { intros u Hu. destruct (Hret u ltac:(by apply list_elem_of_further)) as (eu & Heu & Hdu). exists eu. split; [|done].
    cbn. rewrite lookup_delete_ne; [done|]. by intros ->. }
  exists s'. split.
  - pose proof (hub_return_run t r w x s e He Hr) as E1. unfold mbind, M_bind in *. destruct (hub_delete t s) as [[[]|] s0]; [|done].
    by rewrite E1.
  - split_and!; try done; try (by apply C').
    + rewrite R'. cbn. by rewrite <-app_assoc.
    + etrans; [apply given_gens|exact G'].
    + intros u Hu. apply not_elem_of_cons in Hu as [Hu1 Hu2]. rewrite T' by done. cbn. by rewrite lookup_delete_ne.
Qed.

(** * The first half of a round *)

Lemma hub_entries e s cur : inv cur s -> e ∈ (map_to_list (h_tasks (s_selectHub s))).*2 -> h_tasks (s_selectHub s) !! he_task e = Some e.
Proof.
  intros I ([t e'] & -> & H%elem_of_map_to_list)%list_elem_of_fmap. cbn. by rewrite (iv_hub _ _ I t e' H).
Qed.
Lemma hub_entries_in t e s : h_tasks (s_selectHub s) !! t = Some e -> e ∈ (map_to_list (h_tasks (s_selectHub s))).*2.
Proof. intros H. apply list_elem_of_fmap. exists (t, e). split; [done|]. by apply elem_of_map_to_list. Qed.
Lemma hub_entries_tasks s cur : inv cur s -> he_task <$> (map_to_list (h_tasks (s_selectHub s))).*2 = (map_to_list (h_tasks (s_selectHub s))).*1.
Proof.
  intros I. rewrite <-list_fmap_compose. apply list_fmap_ext. intros i [t e] H. cbn. apply (iv_hub _ _ I).
  apply elem_of_map_to_list. by eapply list_elem_of_lookup_2.
Qed.
Lemma hub_filter_NoDup (f : hub_entry -> bool) l : NoDup (he_task <$> l) -> NoDup (he_task <$> List.filter f l).
Proof.
  induction l as [|e l IH]; [done|]. cbn. intros [Hn Hd]%NoDup_cons. destruct (f e); [|by apply IH]. cbn. apply NoDup_cons.
  split; [|by apply IH]. intros (x & Ex & Hx)%list_elem_of_fmap. apply Hn. apply list_elem_of_fmap. exists x. split; [done|].
  apply list_elem_of_In, filter_In in Hx as [Hx _]. by apply list_elem_of_In.
Qed.
Lemma hub_tasks_NoDup s cur : inv cur s -> NoDup (map_to_list (h_tasks (s_selectHub s))).*1.
Proof. intros _. apply NoDup_fst_map_to_list. Qed.

(** What is the same before and after the hub's work. *)
Record same_clock s s' : Prop := MkSame {
  sc_now : s_now s' = s_now s;
  sc_running : s_running s' = s_running s;
  sc_quit : s_hasQuit s' = s_hasQuit s
}.
#[export] Instance same_clock_preorder : PreOrder same_clock.
Proof. constructor; [by intros s|]. intros x y z [] []. split; congruence. Qed.

Definition wait_of (timer : option (Z * Z)) (now : Z) rl wl xl : Wait :=
  MkWait rl wl xl timer (now + default CYCLE_MAXIMUM (fst <$> timer)).

Lemma hub_prepare_spec s : inv None s -> h_wait (s_selectHub s) = None -> exists s' l,
  hub_prepare s = (Ok tt, s') /\ inv None s' /\ s_ready s' = s_ready s ++ l /\ gens_kept s s' /\ same_clock s s' /\
  (forall t e, h_tasks (s_selectHub s) !! t = Some e -> expired_by (s_now s) e = true -> t ∈ l) /\
  (forall t e, h_tasks (s_selectHub s) !! t = Some e -> expired_by (s_now s) e = false -> h_tasks (s_selectHub s') !! t = Some e) /\
  h_incoming (s_selectHub s') = h_incoming (s_selectHub s) /\ is_Some (h_wait (s_selectHub s')).
Proof.
  intros I Hw. unfold hub_prepare. rewrite bind_get. set (es := (map_to_list (h_tasks (s_selectHub s))).*2).
  destruct (hub_scan (s_now s) es [] None ∅ ∅ ∅) as [[[[expired timer] rl] wl] xl] eqn:Es.
  apply hub_scan_spec in Es as (-> & H1 & H2 & H3 & H4). cbn [app].
  set (l := he_task <$> List.filter (expired_by (s_now s)) es). set (rets := (fun t => (t, ([], [], []))) <$> l).
  assert (rets.*1 = l) as El by (unfold rets; rewrite <-list_fmap_compose; apply list_fmap_id).
  assert (forall t, t ∈ l <-> exists e, h_tasks (s_selectHub s) !! t = Some e /\ expired_by (s_now s) e = true) as Hl.
  { intros t. unfold l. rewrite list_elem_of_fmap. split.
    - intros (e & -> & [He Hx]%list_elem_of_In%filter_In). exists e. split; [|done]. apply (hub_entries e s None I). by apply list_elem_of_In.
    - intros (e & He & Hx). exists e. split; [symmetry; by apply (iv_hub _ _ I)|]. apply list_elem_of_In, filter_In. split; [|done].
      apply list_elem_of_In. by eapply hub_entries_in. }
  assert (NoDup l) as Hd by (apply hub_filter_NoDup; unfold es; rewrite (hub_entries_tasks s None I); by eapply hub_tasks_NoDup).
  destruct (return_each_spec rets s I Hw) as (s1 & E1 & I1 & R1 & G1 & W1 & N1 & P1 & T1 & C1 & U1 & Q1); [by rewrite El| |].
  { rewrite El. intros t Ht. apply Hl in Ht as (e & He & Hx). exists e. split; [done|]. intros d ->. unfold expired_by in Hx. cbn in Hx. lia. }
  rewrite El in *. erewrite bind_ok by exact E1.
  assert (forall t e, h_tasks (s_selectHub s) !! t = Some e -> expired_by (s_now s) e = false -> h_tasks (s_selectHub s1) !! t = Some e) as Hstay.
  { intros t e He Hx. rewrite T1; [done|]. intros (e' & He' & Hx')%Hl. congruence. }
  eexists. exists l. split; [reflexivity|]. cbn. split; [|split; [done|split; [exact G1|split; [done|split; [|split; [exact Hstay|split; [exact N1|by eexists]]]]]]].
  - assert (forall owner f, (forall i t, owner !! i = Some t -> (∅ : gmap Z Z) !! i = Some t \/ claims (s_now s) f es i t) ->
      owned owner f (h_tasks (s_selectHub s1))) as Hown.
    { intros owner f H i t [[]%lookup_empty_Some|(e & He & Hx & <- & Hi)]%H. exists e. split; [|done]. apply Hstay; [|done]. by eapply hub_entries. }
    split; cbn; try apply I1. intros w [= <-]. split; [by apply Hown|split; [by apply Hown|split; [by apply Hown|]]].
    intros d t Et. cbn in Et. destruct (H4 d t Et) as [?|(e & He & Hx & <- & Hto)]; [done|]. exists e. split.
    + apply Hstay; [|done]. by eapply hub_entries.
    + cbn. by rewrite Et.
  - intros t e He Hx. apply Hl. by exists e.
Qed.

(** * The second half of a round *)

(** New registrations come in. *)
Definition with_hub (l : list hub_entry) (m : gmap Z hub_entry) s : Sched :=
  s_set_hub (set_hub_tasks m (set_incoming l (h_pings (s_selectHub s)) (s_selectHub s))) s.
Lemma inv_take_entry e l m s : h_wait (s_selectHub s) = None -> inv None (with_hub (e :: l) m s) ->
  m !! he_task e = None /\ inv None (with_hub l (<[he_task e := e]> m) s).
Proof.
  intros Hw I. assert (m !! he_task e = None) as Hn.
  { destruct (m !! he_task e) as [x|] eqn:E; [|done]. exfalso. pose proof (iv_nodup _ _ I) as Hd. unfold places in Hd. cbn in Hd.
    apply NoDup_app in Hd as (_ & _ & Hd). apply NoDup_app in Hd as (_ & _ & Hd). apply NoDup_cons in Hd as [Hd _].
    apply Hd. rewrite !elem_of_app. right; left. apply list_elem_of_fmap. exists (he_task e, x). split; [done|]. by apply elem_of_map_to_list. }
  split; [done|]. destruct (moved None None _ (with_hub l (<[he_task e := e]> m) s) [] I) as [H1 H2]; [done| |].
  { unfold places. cbn. rewrite (map_to_list_insert _ _ _ Hn). cbn. rewrite app_nil_r. solve_Permutation. }
  split; cbn; try apply I; try done.
  - intros u o x Ho Hg Hx. destruct (iv_sleep _ _ I u o x Ho Hg Hx) as [?|[H|[H|H]]]; [done|right; by left| |]; right; right.
    + cbn in H. apply elem_of_cons in H as [<-|H]; [right; cbn; by rewrite lookup_insert_eq|by left].
    + right. cbn in *. rewrite lookup_insert_ne; [done|]. intros <-. by rewrite Hn in H.
  - intros u x. rewrite lookup_insert_Some. intros [[<- <-]|[_ H]]; [done|]. by apply (iv_hub _ _ I).
  - intros w. by rewrite Hw.
  - pose proof (iv_pings _ _ I) as [Hp1 Hp2]. cbn in *. split; [done|]. intros _. by apply Hp2.
  - intros u. unfold others_places. cbn. rewrite (map_to_list_insert _ _ _ Hn). cbn. rewrite elem_of_app, elem_of_cons, elem_of_app.
    intros Hu. apply (iv_plain _ _ I). unfold others_places. cbn. rewrite elem_of_cons, !elem_of_app. tauto.
Qed.
Lemma hub_take_spec l m s : h_wait (s_selectHub s) = None -> inv None (with_hub l m s) -> exists m',
  hub_take l m = Ok m' /\ inv None (with_hub [] m' s) /\ m ⊆ m' /\ forall e, e ∈ l -> m' !! he_task e = Some e.
Proof.
  intros Hw. revert m. induction l as [|e l IH]; intros m I; cbn [hub_take].
  { exists m. split; [done|]. split; [done|]. split; [done|]. by intros e ?%elem_of_nil. }
  destruct (inv_take_entry e l m s Hw I) as [Hn I1]. rewrite bool_decide_false by (intros [x Hx]; congruence).
  destruct (IH _ I1) as (m' & E & I' & Hs & Hl). exists m'. split; [done|]. split; [done|].
  assert (<[he_task e := e]> m !! he_task e = Some e) as He by apply lookup_insert_eq.
  split; [etrans; [by apply insert_subseteq|exact Hs]|]. intros x [->|Hx]%elem_of_cons; [|by apply Hl]. by eapply lookup_weaken.
Qed.

Lemma hub_incoming_spec s : inv None s -> h_wait (s_selectHub s) = None -> exists s',
  hub_incoming s = (Ok tt, s') /\ inv None s' /\ s_ready s' = s_ready s /\ s_tasks s' = s_tasks s /\ same_clock s s' /\
  h_tasks (s_selectHub s) ⊆ h_tasks (s_selectHub s') /\ h_incoming (s_selectHub s') = [] /\ h_wait (s_selectHub s') = None /\
  forall e, e ∈ h_incoming (s_selectHub s) -> h_tasks (s_selectHub s') !! he_task e = Some e.
Proof.
  intros I Hw. unfold hub_incoming. erewrite bind_ok by reflexivity. rewrite bind_get. cbv zeta.
  destruct (hub_take_spec (h_incoming (s_selectHub s)) (h_tasks (s_selectHub s)) s Hw) as (m & E & I1 & Hs & Hl).
  { by destruct s as [? ? ? ? ? ? ? ? ? ? ? [] ? ? ?]. }
  erewrite bind_ok by (cbn; rewrite E; reflexivity). eexists. split; [reflexivity|]. cbn. split; [|done].
  split; cbn; try apply I1. split; [unfold pongAll; lia|done].
Qed.

(** Who gets which descriptors: only those that wait for one. *)
Lemma hub_give_spec owner l add (m : gmap Z (list Z * list Z * list Z)) : (forall i, i ∈ l -> is_Some (owner !! i)) -> exists m',
  hub_give owner l add m = Ok m' /\
  (forall t, is_Some (m !! t) -> is_Some (m' !! t)) /\
  forall t, is_Some (m' !! t) -> is_Some (m !! t) \/ exists i, owner !! i = Some t.
Proof.
  revert m. induction l as [|i l IH]; intros m Hl; cbn [hub_give]; [exists m; auto|].
  destruct (Hl i ltac:(apply list_elem_of_here)) as [t Ht]. rewrite Ht.
  destruct (IH (<[t := add i (ret_of t m)]> m)) as (m' & E & H1 & H2); [intros; apply Hl; by apply list_elem_of_further|].
  exists m'. split; [done|]. split.
  - intros u Hu. apply H1. destruct (decide (t = u)) as [<-|]; [by rewrite lookup_insert_eq|by rewrite lookup_insert_ne].
  - intros u [Hu|Hu]%H2; [|by right]. destruct (decide (t = u)) as [<-|]; [right; by exists i|left; by rewrite lookup_insert_ne in Hu].
Qed.
Definition waits_on (w : Wait) (t : Z) : Prop :=
  exists i, wt_rl w !! i = Some t \/ wt_wl w !! i = Some t \/ wt_xl w !! i = Some t.
Lemma hub_rets_spec w ro wo xo : (forall i, i ∈ ro -> is_Some (wt_rl w !! i)) -> (forall i, i ∈ wo -> is_Some (wt_wl w !! i)) ->
  (forall i, i ∈ xo -> is_Some (wt_xl w !! i)) -> exists m, hub_rets w ro wo xo = Ok m /\ forall t, is_Some (m !! t) -> waits_on w t.
Proof.
  intros Hr Hw Hx. unfold hub_rets.
  destruct (hub_give_spec (wt_rl w) ro (fun i p => (p.1.1 ++ [i], p.1.2, p.2)) ∅ Hr) as (m1 & -> & _ & H1). cbn [mbind res_bind].
  destruct (hub_give_spec (wt_wl w) wo (fun i p => (p.1.1, p.1.2 ++ [i], p.2)) m1 Hw) as (m2 & -> & _ & H2). cbn [mbind res_bind].
  destruct (hub_give_spec (wt_xl w) xo (fun i p => (p.1.1, p.1.2, p.2 ++ [i])) m2 Hx) as (m3 & -> & _ & H3).
  exists m3. split; [done|]. unfold waits_on. intros t [[[H|[i Hi]]%H1|[i Hi]]%H2|[i Hi]]%H3; [|exists i; auto..].
  rewrite lookup_empty in H. by destruct H.
Qed.

(** What [select] returns: descriptors that were asked for; nothing only at the end of the time
    given; the pinger when there has been a ping. *)
Record select_ok (w : Wait) (ro wo xo : list Z) s : Prop := MkSelect {
  se_read : forall i, i ∈ ro -> i = hub_pinger \/ is_Some (wt_rl w !! i);
  se_write : forall i, i ∈ wo -> is_Some (wt_wl w !! i);
  se_except : forall i, i ∈ xo -> is_Some (wt_xl w !! i);
  se_once : NoDup ro;
  se_time : none_left ro wo xo = true -> wt_deadline w <= s_now s;
  se_ping : 0 < h_pings (s_selectHub s) -> hub_pinger ∈ ro
}.

Lemma remove_first_in i x l : NoDup l -> x ∈ remove_first i l -> x ∈ l /\ x <> i.
Proof.
  induction l as [|y l IH]; cbn; [by intros _ ?%elem_of_nil|]. intros [Hn Hd]%NoDup_cons. destruct (Z.eqb_spec y i) as [->|Hne].
  - intros Hx. split; [by apply list_elem_of_further|]. by intros ->.
  - intros [->|Hx]%elem_of_cons; [split; [apply list_elem_of_here|done]|]. destruct (IH Hd Hx). split; [by apply list_elem_of_further|done].
Qed.

Lemma waits_on_returnable w t s : inv None s -> wait_ok w (h_tasks (s_selectHub s)) -> waits_on w t -> returnable t s.
Proof.
  intros I (Hr & Hw & Hx & _) [i [H|[H|H]]]; [destruct (Hr i t H) as (e & He & Hi)|destruct (Hw i t H) as (e & He & Hi)|destruct (Hx i t H) as (e & He & Hi)];
    exists e; (split; [done|]); intros d ->; cbn in Hi; by apply elem_of_nil in Hi.
Qed.
Lemma wait_ok_weaken w m m' : m ⊆ m' -> wait_ok w m -> wait_ok w m'.
Proof.
  intros Hs (H1 & H2 & H3 & H4). split_and!; [intros i t H|intros i t H|intros i t H|intros d t H].
  - destruct (H1 i t H) as (e & ? & ?). exists e. split; [by eapply lookup_weaken|done].
  - destruct (H2 i t H) as (e & ? & ?). exists e. split; [by eapply lookup_weaken|done].
  - destruct (H3 i t H) as (e & ? & ?). exists e. split; [by eapply lookup_weaken|done].
  - destruct (H4 d t H) as (e & ? & ?). exists e. split; [by eapply lookup_weaken|done].
Qed.

Lemma inv_set_wait s : inv None s -> inv None (s_set_hub (set_wait None (s_selectHub s)) s).
Proof. intros I. split; cbn; try apply I. done. Qed.

Lemma rets_given w rets s : inv None s -> h_wait (s_selectHub s) = None -> wait_ok w (h_tasks (s_selectHub s)) ->
  (forall t, is_Some (rets !! t) -> waits_on w t) -> exists s' l,
  hub_return_each (map_to_list rets) s = (Ok tt, s') /\ inv None s' /\ s_ready s' = s_ready s ++ l /\ gens_kept s s' /\ same_clock s s' /\
  h_wait (s_selectHub s') = None /\ forall t, t ∉ l -> h_tasks (s_selectHub s') !! t = h_tasks (s_selectHub s) !! t.
Proof.
  intros I Hw Hok Hr. destruct (return_each_spec (map_to_list rets) s I Hw) as (s' & E & I' & R & Gk & W' & N & P & T & C & U & Q).
  { apply NoDup_fst_map_to_list. }
  { intros t ([u v] & -> & H%elem_of_map_to_list)%list_elem_of_fmap. cbn. apply (waits_on_returnable w); [done|done|]. apply Hr. by eexists. }
  exists s', (map_to_list rets).*1. by split_and!.
Qed.

(** What is registered, or about to be, comes back or stays in the hub. *)
Definition handed s s' (l : list Z) : Prop :=
  (forall e, e ∈ h_incoming (s_selectHub s) -> he_task e ∈ l \/ h_tasks (s_selectHub s') !! he_task e = Some e) /\
  (forall t e, h_tasks (s_selectHub s) !! t = Some e -> t ∈ l \/ h_tasks (s_selectHub s') !! t = Some e).

Lemma hub_events_spec w ro wo xo s : inv None s -> h_wait (s_selectHub s) = None -> wait_ok w (h_tasks (s_selectHub s)) ->
  select_ok w ro wo xo s -> exists s' l,
  hub_events hub_pinger w ro wo xo s = (Ok tt, s') /\ inv None s' /\ s_ready s' = s_ready s ++ l /\ gens_kept s s' /\ same_clock s s' /\
  h_wait (s_selectHub s') = None /\ handed s s' l.
Proof.
  intros I Hw Hok [Sr Sw Sx Sd St Sp]. unfold hub_events. case_bool_decide as Hp; cbn [andb].
  - destruct (hub_incoming_spec s I Hw) as (s1 & E1 & I1 & R1 & T1 & C1 & M1 & N1 & W1 & L1). erewrite bind_ok by exact E1.
    destruct ((zlen ro =? 1) && none_left [] wo xo).
    + exists s1, []. rewrite app_nil_r. split; [done|]. split; [done|]. split; [done|]. split; [by intros u; rewrite T1|]. split; [done|]. split; [done|].
      split; [intros e He; right; by apply L1|]. intros t e He. right. by eapply lookup_weaken.
    + destruct (hub_rets_spec w (remove_first hub_pinger ro) wo xo) as (m & Em & Hm); [|done|done|].
      { intros i [Hi Hne]%remove_first_in; [|done]. by destruct (Sr i Hi). }
      erewrite bind_ok by (unfold lift; rewrite Em; reflexivity).
      destruct (rets_given w m s1 I1 W1 (wait_ok_weaken _ _ _ M1 Hok) Hm) as (s' & l & E & I' & R & Gk & C & W' & T).
      exists s', l. split; [done|]. split; [done|]. split; [by rewrite R, R1|]. split; [intros u Hu; rewrite Gk by (by rewrite T1); by rewrite T1|].
      split; [by etrans|]. split; [done|]. split.
      * intros e He. destruct (decide (he_task e ∈ l)); [by left|right]. rewrite T by done. by apply L1.
      * intros t e He. destruct (decide (t ∈ l)); [by left|right]. rewrite T by done. by eapply lookup_weaken.
  - erewrite bind_ok by reflexivity.
    assert (h_incoming (s_selectHub s) = []) as Hi.
    { destruct (h_incoming (s_selectHub s)) eqn:E; [done|]. exfalso. apply Hp, Sp, (iv_pings _ _ I). by rewrite E. }
    destruct (hub_rets_spec w ro wo xo) as (m & Em & Hm); [|done|done|].
    { intros i Hi'. destruct (Sr i Hi') as [->|]; done. }
    erewrite bind_ok by (unfold lift; rewrite Em; reflexivity).
    destruct (rets_given w m s I Hw Hok Hm) as (s' & l & E & I' & R & Gk & C & W' & T).
    exists s', l. split_and!; try done. split; rewrite ?Hi; [by intros e ?%elem_of_nil|].
    intros t e He. destruct (decide (t ∈ l)); [by left|right]. by rewrite T.
Qed.

Lemma hub_finish_spec w ro wo xo s : inv None s -> h_wait (s_selectHub s) = Some w -> select_ok w ro wo xo s -> exists s' l,
  hub_finish hub_pinger w ro wo xo s = (Ok tt, s') /\ inv None s' /\ s_ready s' = s_ready s ++ l /\ gens_kept s s' /\ same_clock s s' /\
  h_wait (s_selectHub s') = None /\ handed s s' l.
Proof.
  intros I Hw Hsel. pose proof Hsel as [Sr Sw Sx Sd St Sp]. set (s1 := s_set_hub (set_wait None (s_selectHub s)) s).
  pose proof (inv_set_wait s I) as I1. fold s1 in I1. pose proof (iv_wait _ _ I w Hw) as Hok.
  assert (exists s' l, hub_events hub_pinger w ro wo xo s1 = (Ok tt, s') /\ inv None s' /\ s_ready s' = s_ready s ++ l /\ gens_kept s s' /\ same_clock s s' /\
    h_wait (s_selectHub s') = None /\ handed s s' l) as Hev.
  { destruct (hub_events_spec w ro wo xo s1 I1 eq_refl Hok ltac:(by split)) as (s' & l & E & I' & R & Gk & [C1 C2 C3] & W' & H).
    exists s', l. split; [exact E|]. split; [exact I'|]. split; [exact R|]. split; [exact Gk|]. split; [by split|]. by split. }
  unfold hub_finish. erewrite bind_ok by reflexivity. fold s1.
  destruct (none_left ro wo xo) eqn:En; [|exact Hev]. destruct (wt_timeout w) as [[d t]|] eqn:Et; [|exact Hev]. clear Hev.
  assert (ro = []) as ->.
  { unfold none_left in En. apply andb_prop in En as [[En _]%andb_prop _]. destruct ro; [done|]. rewrite zlen_cons in En. pose proof (zlen_nonneg ro). lia. }
  assert (h_incoming (s_selectHub s) = []) as Hi.
  { destruct (h_incoming (s_selectHub s)) eqn:E; [done|]. exfalso. apply (not_elem_of_nil hub_pinger), Sp, (iv_pings _ _ I). by rewrite E. }
  destruct Hok as (_ & _ & _ & Ht). destruct (Ht d t Et) as (e & He & Hto).
  assert (returnable t s1) as Hr by (exists e; split; [done|]; intros x ->; injection Hto as ->; by apply St).
  assert (t ∉ s_ready s1) as Hnr.
  { intros Hr'. pose proof (iv_nodup _ _ I1) as Hnd. unfold places in Hnd. cbn in Hnd. apply NoDup_app in Hnd as (_ & Hnd & _).
    apply (Hnd t Hr'). pose proof (hub_entry_place t e s1 He) as Ho. unfold others_places in Ho. rewrite !elem_of_app in *. tauto. }
  exists (given t (VFds [] [] []) s1), [t]. split; [exact (hub_return_run t [] [] [] s1 e He Hnr)|]. split; [by apply inv_given|].
  split; [done|]. split; [apply (given_gens t _ s1)|]. split; [done|]. split; [done|]. split; rewrite ?Hi; [by intros x ?%elem_of_nil|].
  intros u x Hu. destruct (decide (t = u)) as [<-|Hne]; [left; apply list_elem_of_here|right]. cbn. by rewrite lookup_delete_ne.
Qed.
End hub.
