(* ===== verification/RecocoTheory.v ===== *)
(** What Recoco guarantees: tasks are in one place, ready ones run in their order, sleeping
    ones wake in time and timers fire, calls for later are made in order; and what it does not. *)
From S2P Require Import Prelude.
From S2P Require Import Steps.
From S2P Require Import Recoco.
From S2P Require Import RecocoInv.
From S2P Require Import RecocoRun.
From S2P Require Import RecocoHub.

(** A cycle of the scheduler; a round of the hub up to [select], and from there; the end of a
    blocking call; what another thread does; time that passes. *)
Inductive label := Cycle | Prepare | Finish | Proc | Outside | Tick.
#[export] Instance label_eq_dec : EqDecision label.
Proof. solve_decision. Defined.

Section theory.
Context {G F W : Type}.
Abbreviation Sched := (Scheduler G F W).
Implicit Type s : Sched.
Variable user_resume : G -> pyval -> M Sched (option (yielded F * G)).
Variable call : F -> list pyval -> M Sched pyval.
Variable sock_recv : Z -> Z -> W -> res bytes * W.
Variable hub_pinger call_pinger : Z.
Variable max_calls : nat.
(** Other modules do what they may do. *)
Hypothesis user_api : forall g v s, rtc api s (user_resume g v s).2.
Hypothesis call_api : forall f vs s, rtc api s (call f vs s).2.

Abbreviation round := (run_round user_resume call sock_recv call_pinger max_calls).

(** * The steps of the threads *)

(** A computation that uses up its fuel stands for one that does not end. *)
Inductive step : label -> Sched -> Sched -> Prop :=
  | step_cycle s r s' : s_hasQuit s = false -> round s = (r, s') -> r <> Err Diverge -> step Cycle s s'
  | step_prepare s r s' : s_hasQuit s = false -> h_dead (s_selectHub s) = false -> h_wait (s_selectHub s) = None ->
      in_hub hub_prepare s = (r, s') -> step Prepare s s'
  | step_finish w ro wo xo s r s' : h_dead (s_selectHub s) = false -> h_wait (s_selectHub s) = Some w -> select_ok hub_pinger w ro wo xo s ->
      in_hub (hub_finish hub_pinger w ro wo xo) s = (r, s') -> step Finish s s'
  | step_proc i s r s' : blocking_proc call i s = (r, s') -> r <> Err Diverge -> step Proc s s'
  | step_outside s s' : rtc api s s' -> step Outside s s'
  | step_tick d s : 0 <= d -> step Tick s (s_set_now (s_now s + d) s).
Inductive run : list label -> Sched -> Sched -> Prop :=
  | run_nil s : run [] s s
  | run_cons l ls s s1 s' : step l s s1 -> run ls s1 s' -> run (l :: ls) s s'.
Definition reachable s : Prop := exists now w ls, 0 <= now /\ run ls (Scheduler_init now w) s.

Lemma run_app ls1 ls2 s s1 s' : run ls1 s s1 -> run ls2 s1 s' -> run (ls1 ++ ls2) s s'.
Proof. induction 1 as [|l ls s s0 s1 Hs _ IH]; [done|]. intros H. cbn. econstructor; [done|by apply IH]. Qed.

(** * Every step keeps the invariant *)

Definition sound s : Prop := inv None s /\ s_running s = None.
Lemma sound_init now w : 0 <= now -> sound (Scheduler_init now w).
Proof. intros Hn. split; [|done]. split; cbn; try done; [constructor|by intros t ?%elem_of_nil]. Qed.

Lemma hub_ok (m : M Sched unit) s s' r s1 : m s = (Ok tt, s') -> in_hub m s = (r, s1) -> r = Ok tt /\ s1 = s'.
Proof.
  intros E. unfold in_hub. erewrite bind_ok by (unfold attempt; rewrite E; reflexivity). by intros [= <- <-].
Qed.

Lemma blocking_not_asleep i t f s : inv None s -> s_blocking s !! i = Some (t, f) -> ~ asleep t s.
Proof.
  intros I Hi (o & Ho & Hg). destruct (iv_timer _ _ I t o Ho (ex_intro _ true Hg)) as [m Hm].
  assert (t ∈ (s_blocking s).*1) as Hin by (apply list_elem_of_fmap; exists (t, f); split; [done|by eapply list_elem_of_lookup_2]).
  pose proof (iv_nodup _ _ I) as Hd. unfold places in Hd. cbn in Hd.
  apply NoDup_app in Hd as (_ & H1 & Hd). apply NoDup_app in Hd as (_ & _ & Hd). apply NoDup_app in Hd as (_ & H2 & Hd).
  apply NoDup_app in Hd as (_ & H3 & _).
  destruct (iv_sleep _ _ I t o m Ho Hg Hm) as [?|[[Hr _]|[Hr|Hr]]]; [done| | |].
  - apply (H1 t Hr). rewrite !elem_of_app. tauto.
  - apply (H2 t); [apply list_elem_of_fmap; by exists (timer_entry t (tm_next m))|]. apply elem_of_app. by right.
  - apply (H3 t); [|done]. apply list_elem_of_fmap. exists (t, timer_entry t (tm_next m)). split; [done|]. by apply elem_of_map_to_list.
Qed.

Lemma blocking_spec i s r s' : sound s -> blocking_proc call i s = (r, s') -> r <> Err Diverge ->
  sound s' /\ appends s s' /\ gens_kept s s' /\ hub_grows s s' /\ r = Ok tt.
Proof.
  intros [I E]. unfold blocking_proc. rewrite bind_get. destruct (s_blocking s !! i) as [[t f]|] eqn:Ei.
  2:{ intros [= <- <-] _. split; [done|]. split; [reflexivity|]. split; [reflexivity|]. split; [reflexivity|done]. }
  destruct (call f [] s) as [r1 s1] eqn:Ec. pose proof (call_api f [] s) as Ha. rewrite Ec in Ha. cbn in Ha.
  destruct (apis_kept None s s1 Ha I E) as [I1 G1]. unfold mbind at 1, M_bind at 1. rewrite (attempt_run _ _ _ _ Ec).
  assert (s_blocking s1 !! i = Some (t, f)) as Ei1 by by rewrite (gr_blocking _ _ G1).
  assert (forall v, exists s2, ('_ ← upd (fun s => s_set_blocking (delete i (s_blocking s)) s); '_ ← upd_task t (tk_set_rv v); fast_schedule t false) s1 = (Ok tt, s2) /\
    sound s2 /\ appends s s2 /\ gens_kept s s2 /\ hub_grows s s2) as Hend.
  { intros v. pose proof (inv_unblock i t f s1 I1 Ei1) as I2. set (s2 := s_set_blocking _ s1) in I2.
    pose proof (inv_set_rv t v s2 I2) as I3. set (s3 := with_task t (tk_set_rv v) s2) in I3.
    assert (t ∉ s_ready s3) as Hr.
    { pose proof (iv_nodup _ _ I3) as Hd. apply NoDup_cons in Hd as [Hd _]. intros H. apply Hd, elem_of_app. by left. }
    exists (push false t s3). split; [|split; [split|split; [|split]]].
    - erewrite bind_ok by reflexivity. erewrite bind_ok by apply upd_task_run. by apply fast_schedule_run.
    - apply inv_push_hand; [exact I3| |].
      + assert (target (s_tasks s1) t = None) as Et.
        { apply (iv_plain _ _ I1). unfold others_places. rewrite !elem_of_app. right; right. apply list_elem_of_fmap. exists (t, f).
          split; [done|]. by eapply list_elem_of_lookup_2. }
        unfold target in *. cbn. rewrite lookup_alter_eq. by destruct (s_tasks s1 !! t).
      + intros (o & Ho & Hg). exfalso. apply (blocking_not_asleep i t f s1 I1 Ei1).
        change (alter (tk_set_rv v) t (s_tasks s1) !! t = Some o) in Ho. apply lookup_alter_Some in Ho as [(_ & o0 & Ho & ->)|[? _]]; [|done]. by exists o0.
    - cbn. by rewrite (gr_running _ _ G1).
    - destruct (gr_ready _ _ G1) as [l Hl]. exists (l ++ [t]). cbn. by rewrite Hl, app_assoc.
    - intros u [o Ho]. pose proof (lookup_weaken _ _ _ _ Ho (gr_tasks _ _ G1)) as Ho1. cbn. rewrite Ho.
      destruct (decide (t = u)) as [<-|]; [rewrite lookup_alter_eq, Ho1|rewrite lookup_alter_ne, Ho1 by done]; done.
    - apply hub_same_grows; [exact (gr_hub _ _ G1)|exact (gr_now _ _ G1)]. }
  destruct r1 as [v|e].
  - destruct (Hend (VRet v)) as (s2 & E2 & H). cbv beta iota. rewrite E2. intros [= <- <-] _. by split_and!; try apply H.
  - destruct (Hend (VExc e)) as (s2 & E2 & H). destruct e; try (by intros [= <- <-]); cbv beta iota; rewrite E2; intros [= <- <-] _; by split_and!; try apply H.
Qed.

(** What a step that is no cycle does to the queue. *)
Lemma step_sound l s s' : step l s s' -> sound s -> sound s' /\
  (l <> Cycle -> appends s s' /\ gens_kept s s').
Proof.
  intros Hs [I E]. destruct Hs as [s r s' Hq Er Hd|s r s' Hq Hal Hw Er|w ro wo xo s r s' Hal Hw Hsel Er|i s r s' Er Hd|s s' Ha|d s Hd].
  - destruct (run_round_spec user_resume call sock_recv call_pinger max_calls user_api call_api s r s' I E Er Hd) as (I' & E' & _). by split.
  - destruct (hub_prepare_spec s I Hw) as (s1 & l & E1 & I1 & R1 & G1 & C1 & _). destruct (hub_ok _ _ _ _ _ E1 Er) as [_ ->].
    split; [split; [done|by rewrite (sc_running _ _ C1)]|]. intros _. split; [by exists l|done].
  - destruct (hub_finish_spec hub_pinger w ro wo xo s I Hw Hsel) as (s1 & l & E1 & I1 & R1 & G1 & C1 & _). destruct (hub_ok _ _ _ _ _ E1 Er) as [_ ->].
    split; [split; [done|by rewrite (sc_running _ _ C1)]|]. intros _. split; [by exists l|done].
  - destruct (blocking_spec i s r s' (conj I E) Er Hd) as (H & A & Gk & _). by split.
  - destruct (apis_kept None s s' Ha I E) as [I' G']. split; [split; [done|by rewrite (gr_running _ _ G')]|]. intros _.
    split; [exact (gr_ready _ _ G')|]. intros u [o Ho]. by rewrite Ho, (lookup_weaken _ _ _ _ Ho (gr_tasks _ _ G')).
  - split; [split; [|done]|].
    + apply (inv_frame None s); try done. cbn. lia.
    + intros _. split; [exists []; by rewrite app_nil_r|by intros u].
Qed.
Lemma run_sound ls s s' : run ls s s' -> sound s -> sound s'.
Proof. induction 1 as [|l ls s s0 s1 Hs _ IH]; [done|]. intros H. apply IH. by eapply step_sound. Qed.
Lemma reachable_sound s : reachable s -> sound s.
Proof. intros (now & w & ls & Hn & H). eapply run_sound; [exact H|by apply sound_init]. Qed.

(** * Turns *)

(** How many cycles go by before what stands behind [l] has its turn: a [ScheduleTask] puts
    one task before the others. *)
Definition weight s (l : list Z) : nat := sum_list_with (fun t => if target (s_tasks s) t then 2%nat else 1%nat) l.
Definition cycles (ls : list label) : nat := length (List.filter (fun l => match l with Cycle => true | _ => false end) ls).
Definition prepares (ls : list label) : nat := length (List.filter (fun l => match l with Prepare => true | _ => false end) ls).

(** In the course of the run the scheduler takes [t] to resume it. *)
Definition has_turn (t : Z) (ls : list label) s : Prop := exists ls1 ls2 s1 s2,
  ls = ls1 ++ Cycle :: ls2 /\ run ls1 s s1 /\ head (s_ready s1) = Some t /\ step Cycle s1 s2.

Lemma has_turn_later t l ls s s1 : step l s s1 -> has_turn t ls s1 -> has_turn t (l :: ls) s.
Proof.
  intros Hs (ls1 & ls2 & s2 & s3 & -> & Hr & Hh & Hc). exists (l :: ls1), ls2, s2, s3. split; [done|]. split; [by econstructor|done].
Qed.
Lemma has_turn_after t ls1 ls2 s s1 : run ls1 s s1 -> has_turn t ls2 s1 -> has_turn t (ls1 ++ ls2) s.
Proof. induction 1 as [|l ls s s0 s1 Hs _ IH]; [done|]. intros H. cbn. eapply has_turn_later; [done|by apply IH]. Qed.
Lemma has_turn_app t ls1 ls2 s : has_turn t ls1 s -> has_turn t (ls1 ++ ls2) s.
Proof. intros (l1 & l2 & s1 & s2 & -> & H). exists l1, (l2 ++ ls2), s1, s2. split; [by rewrite <-app_assoc|done]. Qed.

Lemma target_gens s s' t : gens_kept s s' -> is_Some (s_tasks s !! t) -> target (s_tasks s') t = target (s_tasks s) t.
Proof. intros Gk H. unfold target. by rewrite Gk. Qed.
Lemma weight_gens s s' l : (forall t, t ∈ l -> target (s_tasks s') t = target (s_tasks s) t) -> weight s' l = weight s l.
Proof.
  unfold weight. induction l as [|t l IH]; intros H; [done|]. cbn. rewrite (H t) by apply list_elem_of_here. f_equal. apply IH.
  intros u Hu. apply H. by apply list_elem_of_further.
Qed.
Lemma weight_app s k l : weight s (k ++ l) = (weight s k + weight s l)%nat.
Proof. apply sum_list_with_app. Qed.

Lemma queue_moves ls s s' pre t post : run ls s s' -> sound s -> s_ready s = pre ++ t :: post ->
  has_turn t ls s \/ exists pre' post', s_ready s' = pre' ++ t :: post' /\ (weight s' pre' + cycles ls <= weight s pre)%nat.
Proof.
  intros Hr. revert pre post. induction Hr as [s|l ls s s1 s' Hs Hr IH]; intros pre post Hok Eq.
  { right. exists pre, post. unfold cycles. cbn. split; [done|lia]. }
  destruct (step_sound l s s1 Hs Hok) as [Hok1 Hn]. pose proof Hok as [I E].
  assert ((exists pre1 post1, s_ready s1 = pre1 ++ t :: post1 /\
    (weight s1 pre1 + cycles [l] <= weight s pre)%nat) -> has_turn t (l :: ls) s \/
    exists pre' post', s_ready s' = pre' ++ t :: post' /\ (weight s' pre' + cycles (l :: ls) <= weight s pre)%nat) as Hgo.
  { intros (pre1 & post1 & E1 & W1). destruct (IH pre1 post1 Hok1 E1) as [H|(pre' & post' & E' & W')]; [left; by eapply has_turn_later|right].
    exists pre', post'. split; [done|]. assert (cycles (l :: ls) = (cycles [l] + cycles ls)%nat) as -> by (unfold cycles; cbn; by destruct l). lia. }
  assert (forall u, u ∈ s_ready s -> is_Some (s_tasks s !! u)) as Hex by (intros u Hu; by apply (iv_exist _ _ I), ready_place).
  destruct (decide (l = Cycle)) as [->|Hne].
  - destruct pre as [|x pre].
    { left. exists [], ls, s, s1. split; [done|]. split; [constructor|]. split; [by rewrite Eq|done]. }
    inversion Hs as [? r ? Hq Er Hd| | | | |]; subst.
    destruct (run_round_spec user_resume call sock_recv call_pinger max_calls user_api call_api s r s1 I E Er Hd) as (I1 & E1 & H & _).
    rewrite Eq in H. cbn in H. destruct H as [Ho (first & tl & Et & Hf)]. apply Hgo. exists (first ++ pre), (post ++ tl).
    split; [rewrite Et, <-!app_assoc; done|]. rewrite weight_app.
    pose proof (iv_nodup _ _ I) as Hnd. unfold places in Hnd. cbn in Hnd. apply NoDup_app in Hnd as (Hnd & _ & _). rewrite Eq in Hnd.
    cbn in Hnd. apply NoDup_cons in Hnd as [Hx _].
    assert (weight s1 pre = weight s pre) as ->.
    { apply weight_gens. intros u Hu. destruct (Hex u) as [o Hou]; [rewrite Eq; apply list_elem_of_further, elem_of_app; by left|].
      unfold target. rewrite Hou, (Ho u o); [done| |done]. intros ->. apply Hx, elem_of_app. by left. }
    change (weight s (x :: pre)) with ((if target (s_tasks s) x then 2%nat else 1%nat) + weight s pre)%nat.
    unfold cycles. cbn [List.filter length]. destruct Hf as [->|(u & Hu & ->)]; cbn; [destruct (target _ x); lia|].
    rewrite Hu. destruct (iv_targets _ _ I _ _ Hu) as [Hun [o Hou]].
    assert (target (s_tasks s1) u = None) as ->; [|lia]. unfold target in *. rewrite (Ho u o); [by rewrite Hou in Hun| |done].
    intros ->. by rewrite Hu in Hun.
  - destruct (Hn Hne) as [[tl Et] Gk]. apply Hgo. exists pre, (post ++ tl). split; [by rewrite Et, Eq, <-app_assoc|].
    assert (cycles [l] = 0%nat) as -> by (by destruct l). rewrite (weight_gens s s1); [lia|]. intros u Hu. apply target_gens; [done|].
    apply Hex. rewrite Eq. apply elem_of_app. by left.
Qed.

Lemma ready_has_turn ls s s' t : run ls s s' -> sound s -> t ∈ s_ready s -> (weight s (s_ready s) <= cycles ls)%nat -> has_turn t ls s.
Proof.
  intros Hr Hok (pre & post & Eq)%list_elem_of_split Hw.
  destruct (queue_moves ls s s' pre t post Hr Hok Eq) as [H|(pre' & post' & _ & Hle)]; [done|]. exfalso. rewrite Eq, weight_app in Hw.
  change (weight s (t :: post)) with ((if target (s_tasks s) t then 2%nat else 1%nat) + weight s post)%nat in Hw. destruct (target _ t); lia.
Qed.

(** * Sleeping *)

(** [t] is to be woken by the hub at [d]: its registration is on its way, or there. *)
Definition waiting (t d : Z) s : Prop :=
  (exists e, he_task e = t /\ he_timeout e = Some d /\ e ∈ h_incoming (s_selectHub s)) \/
  (exists e, he_timeout e = Some d /\ h_tasks (s_selectHub s) !! t = Some e).
(** How many rounds the hub begins until it gives [t] back. *)
Definition rounds_left (t : Z) s : nat :=
  match h_tasks (s_selectHub s) !! t, h_wait (s_selectHub s) with
  | None, None => 2
  | _, _ => 1
  end.

Lemma step_now l s s' : step l s s' -> sound s -> s_now s <= s_now s'.
Proof.
  intros Hs [I E]. destruct Hs as [s r s' Hq Er Hd|s r s' Hq Hal Hw Er|w ro wo xo s r s' Hal Hw Hsel Er|i s r s' Er Hd|s s' Ha|d s Hd].
  - destruct (run_round_spec user_resume call sock_recv call_pinger max_calls user_api call_api s r s' I E Er Hd) as (_ & _ & _ & (_ & _ & -> & _) & _). done.
  - destruct (hub_prepare_spec s I Hw) as (s1 & l & E1 & _ & _ & _ & C1 & _). destruct (hub_ok _ _ _ _ _ E1 Er) as [_ ->]. by rewrite (sc_now _ _ C1).
  - destruct (hub_finish_spec hub_pinger w ro wo xo s I Hw Hsel) as (s1 & l & E1 & _ & _ & _ & C1 & _). destruct (hub_ok _ _ _ _ _ E1 Er) as [_ ->]. by rewrite (sc_now _ _ C1).
  - destruct (blocking_spec i s r s' (conj I E) Er Hd) as (_ & _ & _ & (_ & _ & -> & _) & _). done.
  - destruct (apis_kept None s s' Ha I E) as [_ G']. by rewrite (gr_now _ _ G').
  - cbn. lia.
Qed.

Lemma grows_waiting t d s s' : hub_grows s s' -> waiting t d s -> waiting t d s' /\ (rounds_left t s' <= rounds_left t s)%nat.
Proof.
  intros (E1 & E2 & _ & l & E3) H. split.
  - destruct H as [(e & ? & ? & He)|(e & ? & He)]; [left|right]; exists e; [|by rewrite E1].
    split; [done|]. split; [done|]. rewrite E3. apply elem_of_app. by left.
  - unfold rounds_left. by rewrite E1, E2.
Qed.

Lemma step_waiting l t d s s' : step l s s' -> sound s -> waiting t d s -> d <= s_now s ->
  t ∈ s_ready s' \/ (waiting t d s' /\ (rounds_left t s' + prepares [l] <= rounds_left t s)%nat).
Proof.
  intros Hs [I E] Hwt Hdt.
  destruct Hs as [s r s' Hq Er Hd|s r s' Hq Hal Hw Er|w ro wo xo s r s' Hal Hw Hsel Er|i s r s' Er Hd|s s' Ha|x s Hx]; unfold prepares; cbn [List.filter length]; rewrite ?Nat.add_0_r.
  - right. apply grows_waiting; [|done].
    by destruct (run_round_spec user_resume call sock_recv call_pinger max_calls user_api call_api s r s' I E Er Hd) as (_ & _ & _ & Hg & _).
  - destruct (hub_prepare_spec s I Hw) as (s1 & l & E1 & _ & R1 & _ & _ & X1 & X2 & N1 & W1). destruct (hub_ok _ _ _ _ _ E1 Er) as [_ ->].
    destruct Hwt as [(e & He1 & He2 & He)|(e & He1 & He)].
    + destruct (h_tasks (s_selectHub s) !! t) as [e'|] eqn:Et.
      { exfalso. pose proof (iv_nodup _ _ I) as Hnd. unfold places in Hnd. cbn in Hnd. apply NoDup_app in Hnd as (_ & _ & Hnd).
        apply NoDup_app in Hnd as (_ & _ & Hnd). apply NoDup_app in Hnd as (_ & Hnd & _). apply (Hnd t).
        - apply list_elem_of_fmap. by exists e.
        - rewrite elem_of_app. left. apply list_elem_of_fmap. exists (t, e'). split; [done|]. by apply elem_of_map_to_list. }
      right. split; [left; exists e; by rewrite N1|]. unfold rounds_left. rewrite Et, Hw. destruct W1 as [w ->].
      by destruct (h_tasks (s_selectHub s1) !! t).
    + left. rewrite R1. apply elem_of_app. right. apply (X1 t e He). unfold expired_by. rewrite He1. lia.
  - destruct (hub_finish_spec hub_pinger w ro wo xo s I Hw Hsel) as (s1 & l & E1 & _ & R1 & _ & _ & W1 & H1 & H2). destruct (hub_ok _ _ _ _ _ E1 Er) as [_ ->].
    assert (t ∈ l \/ exists e, he_timeout e = Some d /\ h_tasks (s_selectHub s1) !! t = Some e) as [Hl|(e & He1 & He)].
    { destruct Hwt as [(e & <- & He2 & He)|(e & He1 & He)]; [destruct (H1 e He)|destruct (H2 t e He)]; eauto. }
    + left. rewrite R1. apply elem_of_app. by right.
    + right. split; [right; by exists e|]. unfold rounds_left. rewrite He, Hw. by destruct (h_tasks (s_selectHub s) !! t).
  - right. apply grows_waiting; [|done]. by destruct (blocking_spec i s r s' (conj I E) Er Hd) as (_ & _ & _ & ? & _).
  - right. apply grows_waiting; [|done]. destruct (apis_kept None s s' Ha I E) as [_ G']. apply hub_same_grows; [exact (gr_hub _ _ G')|exact (gr_now _ _ G')].
  - right. by split.
Qed.

Lemma woken ls t d s s' : run ls s s' -> sound s -> waiting t d s -> d <= s_now s -> (rounds_left t s <= prepares ls)%nat ->
  exists ls1 ls2 s1, ls = ls1 ++ ls2 /\ run ls1 s s1 /\ run ls2 s1 s' /\ t ∈ s_ready s1.
Proof.
  intros Hr. induction Hr as [s|l ls s s1 s' Hs Hr IH]; intros Hok Hw Hd Hle.
  { exfalso. unfold rounds_left, prepares in Hle. cbn in Hle. destruct (h_tasks (s_selectHub s) !! t); [|destruct (h_wait (s_selectHub s))]; lia. }
  destruct (step_waiting l t d s s1 Hs Hok Hw Hd) as [H|[Hw1 Hle1]].
  { exists [l], ls, s1. split; [done|]. split; [by econstructor; [|constructor]|done]. }
  pose proof (step_now l s s1 Hs Hok). destruct (step_sound l s s1 Hs Hok) as [Hok1 _].
  assert (prepares (l :: ls) = (prepares [l] + prepares ls)%nat) as El by (unfold prepares; cbn; by destruct l).
  destruct IH as (ls1 & ls2 & s2 & -> & H1 & H2 & H3); [done|done|lia|lia|]. exists (l :: ls1), ls2, s2. split; [done|]. split; [by econstructor|done].
Qed.

(** C12: One place.  However the threads of the scheduler, of the hub and of blocking calls are
    interleaved with each other and with what other modules may do: every task is in one place
    at most - ready, to be woken, with the hub or on the way to it, or in a blocking call - and
    exists; no assertion of the scheduler and no lookup of the hub fails, so the hub's thread
    lives, and the scheduler's ends with no exception but for a task that yields None. *)
Theorem one_place s : reachable s ->
  NoDup (places None s) /\ (forall t, t ∈ places None s -> is_Some (s_tasks s !! t)) /\ h_dead (s_selectHub s) = false /\
  (forall r s', round s = (r, s') -> r <> Err Diverge -> r = Ok tt \/ r = Err RuntimeError) /\
  (forall i r s', blocking_proc call i s = (r, s') -> r <> Err Diverge -> r = Ok tt) /\
  (h_wait (s_selectHub s) = None -> exists s', hub_prepare s = (Ok tt, s')) /\
  (forall w ro wo xo, h_wait (s_selectHub s) = Some w -> select_ok hub_pinger w ro wo xo s ->
     exists s', hub_finish hub_pinger w ro wo xo s = (Ok tt, s')).
Proof.
  intros Hr. pose proof (reachable_sound s Hr) as [I E]. split; [apply I|]. split; [apply (iv_exist _ _ I)|]. split; [apply I|]. split; [|split; [|split]].
  - intros r s' Er Hd. destruct (run_round_spec user_resume call sock_recv call_pinger max_calls user_api call_api s r s' I E Er Hd) as (_ & _ & _ & _ & [?|[? _]]); auto.
  - intros i r s' Er Hd. by destruct (blocking_spec i s r s' (conj I E) Er Hd) as (_ & _ & _ & _ & ?).
  - intros Hw. destruct (hub_prepare_spec s I Hw) as (s1 & l & E1 & _). by exists s1.
  - intros w ro wo xo Hw Hsel. destruct (hub_finish_spec hub_pinger w ro wo xo s I Hw Hsel) as (s1 & l & E1 & _). by exists s1.
Qed.

(** C13: Every task has its turn.  A task that is ready, or that waits for a time which has come
    while the hub begins two rounds, is resumed by the scheduler once this has gone through as
    many cycles as there are tasks ready, those that wake another task counted twice -
    whatever else the threads do meanwhile. *)
Theorem turn_comes ls1 ls2 s s1 s2 t : reachable s -> run ls1 s s1 -> run ls2 s1 s2 ->
  t ∈ s_ready s \/ (exists d, waiting t d s /\ d <= s_now s /\ (2 <= prepares ls1)%nat) ->
  (weight s1 (s_ready s1) <= cycles ls2)%nat -> has_turn t (ls1 ++ ls2) s.
Proof.
  intros Hr H1 H2 Ht Hw. pose proof (reachable_sound s Hr) as Hok. pose proof (run_sound ls1 s s1 H1 Hok) as Hok1.
  assert (exists l1 l2 s0, ls1 = l1 ++ l2 /\ run l1 s s0 /\ run l2 s0 s1 /\ t ∈ s_ready s0) as (l1 & l2 & s0 & -> & R1 & R2 & H0).
  { destruct Ht as [Ht|(d & Hwt & Hd & Hp)]; [exists [], ls1, s; split_and!; try done; constructor|].
    apply (woken ls1 t d s s1 H1 Hok Hwt Hd). etrans; [|exact Hp]. unfold rounds_left. destruct (h_tasks (s_selectHub s) !! t); [lia|]. destruct (h_wait (s_selectHub s)); lia. }
  rewrite <-app_assoc. apply (has_turn_after t l1 (l2 ++ ls2) s s0 R1).
  pose proof (run_sound l1 s s0 R1 Hok) as Hok0. apply list_elem_of_split in H0 as (pre & post & Eq).
  destruct (queue_moves l2 s0 s1 pre t post R2 Hok0 Eq) as [H|(pre' & post' & Eq' & _)]; [by apply has_turn_app|].
  apply (has_turn_after t l2 ls2 s0 s1 R2). eapply ready_has_turn; [exact H2|done| |exact Hw]. rewrite Eq'. apply elem_of_app. right. apply list_elem_of_here.
Qed.

(** * Timers *)

(** The task is over: nothing runs it again. *)
Definition over (t : Z) s : Prop := t ∉ places None s /\ ~ asleep t s.
Definition in_hand (t : Z) (rest : list Z) s : Sched := with_task t (tk_set_rv VNone) (s_set_ready rest s).
Definition at_callback (t : Z) (rest : list Z) (m : Timer F) s : Sched :=
  s_set_timers (<[t := tm_set_next (s_now s + tm_interval m) m]> (s_timers s)) (s_set_running (Some t) (in_hand t rest s)).

Abbreviation send := (gen_send user_resume call call_pinger max_calls).

Lemma inv_in_hand t rest s : inv None s -> s_ready s = t :: rest -> inv (Some t) (in_hand t rest s).
Proof. intros I E. apply inv_set_rv. by apply inv_take. Qed.
Lemma hand_over t s : inv (Some t) s -> ~ asleep t s -> over t s.
Proof. intros I Ha. split; [|done]. pose proof (iv_nodup _ _ I) as Hd. unfold places in Hd. by apply NoDup_cons in Hd as [? _]. Qed.

(** A round that resumes a task without return function. *)
Lemma round_runs t rest s o r s1 : s_ready s = t :: rest -> s_tasks s !! t = Some o -> tk_rf o = None ->
  send t (tk_rv o) (in_hand t rest s) = (r, s1) -> r <> Err Diverge ->
  match r with
  | Ok (Some y) => forall s2, perform t y s1 = (Ok tt, s2) -> round s = (Ok tt, s2)
  | _ => round s = (Ok tt, s1)
  end.
Proof.
  intros Er Ho Hrf Es Hd.
  assert (execute user_resume call sock_recv call_pinger max_calls t (s_set_ready rest s) = (r, s1)) as Ex.
  { unfold execute. erewrite bind_ok by apply (get_task_at t (s_set_ready rest s) o Ho). rewrite Hrf.
    erewrite bind_ok by apply upd_task_run. exact Es. }
  assert (forall b s2, cycle user_resume call sock_recv call_pinger max_calls s = (Ok b, s2) -> round s = (Ok tt, s2)) as Hround.
  { intros b s2 Ec. unfold run_round. rewrite bind_get, Er. erewrite bind_ok by reflexivity.
    erewrite bind_ok by (rewrite (attempt_run _ _ _ _ Ec); reflexivity). done. }
  assert (cycle user_resume call sock_recv call_pinger max_calls s =
    match r with Ok (Some y) => '_ ← perform t y; mret true | _ => mret true end s1) as Ec.
  { unfold cycle. rewrite bind_get, Er. erewrite bind_ok by reflexivity. unfold mbind at 1, M_bind at 1. rewrite (attempt_run _ _ _ _ Ex).
    by destruct r as [[y|]|[]]. }
  destruct r as [[y|]|e]; [|by apply (Hround true)|by apply (Hround true)].
  intros s2 Ep. apply (Hround true). rewrite Ec. erewrite bind_ok by exact Ep. done.
Qed.

Definition stands (t : Z) (g : gen G F) s : Sched := with_task t (tk_set_gen g true) (s_set_running None s).
Lemma send_runs t v s o r s1 : s_tasks s !! t = Some o -> tk_started o = true ->
  gen_run user_resume call call_pinger max_calls t (tk_gen o) v (s_set_running (Some t) s) = (r, s1) -> r <> Err Diverge ->
  send t v s = match r with
    | Ok (Some (y, g)) => (Ok (Some y), stands t g s1)
    | Ok None => (Ok None, stands t GDone s1)
    | Err e => (Err e, stands t GDone s1)
    end.
Proof.
  intros Ho Hs Eg Hd. unfold gen_send. erewrite bind_ok by apply (get_task_at t s o Ho). rewrite Hs. cbn [negb andb].
  erewrite bind_ok by reflexivity. unfold mbind at 1, M_bind at 1. rewrite (attempt_run _ _ _ _ Eg). by destruct r as [[[y g]|]|[]].
Qed.
Lemma asleep_stands t g s o : s_tasks s !! t = Some o -> g <> GTimer true -> ~ asleep t (stands t g s).
Proof.
  intros Ho Hg (o' & Ho' & Hg'). apply Hg. unfold stands in Ho'. rewrite (with_task_at t _ (s_set_running None s) o Ho) in Ho'. by injection Ho' as <-.
Qed.

Lemma timer_ready_due t rest s o m : inv None s -> s_ready s = t :: rest -> s_tasks s !! t = Some o -> tk_gen o = GTimer true ->
  s_timers s !! t = Some m -> tm_next m <= s_now s.
Proof.
  intros I Er Ho Hg Hm. pose proof (iv_nodup _ _ I) as Hnd. unfold places in Hnd. cbn in Hnd. apply NoDup_app in Hnd as (_ & Hnd & _).
  specialize (Hnd t ltac:(rewrite Er; apply list_elem_of_here)). destruct (iv_sleep _ _ I t o m Ho Hg Hm) as [?|[[_ ?]|[H|H]]]; [done|done| |]; exfalso; apply Hnd;
    rewrite !elem_of_app; right; [left|right; left]; apply list_elem_of_fmap.
  - by exists (timer_entry t (tm_next m)).
  - exists (t, timer_entry t (tm_next m)). split; [done|]. by apply elem_of_map_to_list.
Qed.

(** A round that resumes a sleeping timer, by what its generator does. *)
Section timer_round.
Variables (t : Z) (rest : list Z) (s : Sched) (o : Task G F) (r : res (option (yielded F * gen G F))) (s1 : Sched).
Hypothesis Hok : sound s.
Hypothesis Er : s_ready s = t :: rest.
Hypothesis Ho : s_tasks s !! t = Some o.
Hypothesis Hg : tk_gen o = GTimer true.
Hypothesis Ew : timer_wakes call t (s_set_running (Some t) (in_hand t rest s)) = (r, s1).
Hypothesis Hd : r <> Err Diverge.

Lemma timer_task : tk_rf o = None /\ tk_started o = true.
Proof.
  destruct Hok as [I _]. destruct (iv_task _ _ I t o Ho) as [Hrf Hst]. rewrite Hg in Hst. split; [|done].
  destruct (tk_rf o); [|done]. destruct Hrf as [x Hx]; [done|]. by rewrite Hg in Hx.
Qed.
Lemma timer_hand : s_tasks (in_hand t rest s) !! t = Some (tk_set_rv VNone o).
Proof. exact (with_task_at t (tk_set_rv VNone) (s_set_ready rest s) o Ho). Qed.
Lemma timer_after : s_tasks s1 !! t = Some (tk_set_rv VNone o).
Proof.
  destruct Hok as [I _]. pose proof (timer_wakes_body call call_api t true (s_set_running (Some t) (in_hand t rest s))) as [Hb _].
  unfold keeps_at in Hb. rewrite Ew in Hb.
  destruct (Hb (inv_running _ _ _ (inv_in_hand t rest s I Er)) eq_refl) as (_ & _ & _ & T1). cbn [snd] in T1. rewrite T1. exact timer_hand.
Qed.
Lemma timer_send r1 s2 : send t (tk_rv o) (in_hand t rest s) = (r1, s2) -> r1 <> Err Diverge -> inv (Some t) s2.
Proof.
  intros Es Hd'. destruct Hok as [I E]. destruct timer_task as [Hrf _].
  eapply (gen_send_spec user_resume call call_pinger max_calls user_api call_api t (tk_rv o) (in_hand t rest s) (tk_set_rv VNone o)); try done.
  - by apply inv_in_hand.
  - exact timer_hand.
  - intros u. rewrite (target_gen t _ _ timer_hand). cbn. by rewrite Hg.
Qed.
Lemma timer_sends : send t (tk_rv o) (in_hand t rest s) =
  match r with
  | Ok (Some (y, g)) => (Ok (Some y), stands t g s1)
  | Ok None => (Ok None, stands t GDone s1)
  | Err e => (Err e, stands t GDone s1)
  end.
Proof.
  destruct timer_task as [_ Hst]. apply (send_runs t (tk_rv o) (in_hand t rest s) (tk_set_rv VNone o) r s1 timer_hand Hst); [|done].
  cbn [tk_gen tk_set_rv]. rewrite Hg. exact Ew.
Qed.

Definition timer_left (s' : Sched) : Prop := round s = (Ok tt, s') /\ s_world s' = s_world s1 /\ s_timers s' = s_timers s1.
Lemma timer_quits : r = Ok (Some (YFalse, GTimerQuit)) \/ (exists e, r = Err e) -> exists s', timer_left s' /\ over t s'.
Proof.
  pose proof timer_sends as Es. destruct timer_task as [Hrf _]. intros [Eq|[e Eq]]; rewrite Eq in Es.
  - exists (stands t GTimerQuit s1). split; [split; [|done]; exact (round_runs t rest s o _ _ Er Ho Hrf Es ltac:(done) _ eq_refl)|].
    apply hand_over; [by eapply timer_send|]. by eapply asleep_stands; [apply timer_after|].
  - assert (e <> Diverge) as He by congruence.
    exists (stands t GDone s1). split; [split; [|done]; exact (round_runs t rest s o _ _ Er Ho Hrf Es ltac:(congruence))|].
    apply hand_over; [eapply timer_send; [exact Es|congruence]|]. by eapply asleep_stands; [apply timer_after|].
Qed.
Lemma timer_sleeps x : r = Ok (Some (YOp (Sleep (Some x)), GTimer true)) -> 0 < x -> s_now s1 <= x ->
  exists s', timer_left s' /\ waiting t x s' /\ asleep t s'.
Proof.
  pose proof timer_sends as Es. destruct timer_task as [Hrf _]. intros Eq Hx Hn. rewrite Eq in Es.
  assert (op_execute (F := F) (G := G) (W := W) (Sleep (Some x)) t (stands t (GTimer true) s1) =
    (Ok tt, registered (timer_entry t x) (stands t (GTimer true) s1))) as Eop.
  { unfold op_execute, Sleep_execute. rewrite bind_get. cbn [s_now stands with_task s_set_tasks s_set_running].
    rewrite (proj2 (Z.eqb_neq _ _)), (proj2 (Z.ltb_ge _ _)) by lia. cbn [orb]. unfold registerTimer. by rewrite registerSelect_run. }
  exists (registered (timer_entry t x) (stands t (GTimer true) s1)). split; [split; [|done]|split].
  - apply (round_runs t rest s o _ _ Er Ho Hrf Es ltac:(done)). cbn [perform].
    erewrite bind_ok by (rewrite (attempt_run _ _ _ _ Eop); reflexivity). reflexivity.
  - left. exists (timer_entry t x). split; [done|]. split; [done|]. cbn. apply elem_of_app. right. by apply list_elem_of_singleton.
  - eexists. split; [exact (with_task_at t (tk_set_gen (GTimer true) true) (s_set_running None s1) _ timer_after)|done].
Qed.
End timer_round.

Lemma timer_wakes_run t rest m s : s_timers s !! t = Some m -> timer_wakes call t (s_set_running (Some t) (in_hand t rest s)) =
  if tm_cancelled m then (Ok (Some (YFalse, GTimerQuit)), s_set_running (Some t) (in_hand t rest s))
  else match call (tm_callback m) [] (at_callback t rest m s) with
       | (Err e, s2) => (Err e, s2)
       | (Ok rv, s2) =>
           if negb (tm_recurring m && negb (tm_self_stoppable m && bool_decide (rv = VFalse))) then (Ok (Some (YFalse, GTimerQuit)), s2)
           else timer_loop t s2
       end.
Proof.
  intros Hm. unfold timer_wakes, the_timer. rewrite bind_get. cbn [s_timers s_set_running in_hand with_task s_set_tasks s_set_ready]. rewrite Hm.
  destruct (tm_cancelled m); [done|]. erewrite bind_ok by reflexivity. change (s_set_timers _ _) with (at_callback t rest m s).
  unfold mbind, M_bind. destruct (call (tm_callback m) [] (at_callback t rest m s)) as [[rv|e] s2]; [|done].
  by destruct (tm_self_stoppable m && _), (tm_recurring m).
Qed.
Lemma at_callback_call t rest m s r s2 : inv None s -> s_ready s = t :: rest -> s_timers s !! t = Some m ->
  call (tm_callback m) [] (at_callback t rest m s) = (r, s2) ->
  s_now s2 = s_now s /\ exists m2, s_timers s2 !! t = Some m2 /\ tm_next m2 = s_now s + tm_interval m.
Proof.
  intros I Er Hm Ec. assert (inv (Some t) (at_callback t rest m s)) as Ic.
  { destruct (set_timer_body t m (tm_set_next (s_now s + tm_interval m) m) (s_set_running (Some t) (in_hand t rest s)) Hm) as (H & _); [|done|exact H].
    by apply inv_running, inv_in_hand. }
  pose proof (call_api (tm_callback m) [] (at_callback t rest m s)) as Ha. rewrite Ec in Ha. destruct (apis_kept (Some t) _ _ Ha Ic eq_refl) as [I2 G2].
  split; [exact (gr_now _ _ G2)|]. cbn [snd] in G2.
  destruct (gr_timers _ _ G2 t (tm_set_next (s_now s + tm_interval m) m)) as (m2 & Hm2 & Hin); [apply lookup_insert_eq|].
  exists m2. split; [done|]. set_unfold in Hin. by destruct Hin as [->|[->|[]]].
Qed.

(** C14: Timers fire on time.  When the scheduler takes a timer that has slept, its time has come.
    A cancelled timer calls nothing and is over.  Any other calls its callback, once, with its
    next time set to the interval from now.  After that it sleeps with the hub until that
    time when it is recurring, was not cancelled meanwhile and was not told to stop; else, and
    when the callback raises, it is over. *)
Theorem timer_fires s t rest o m : reachable s -> s_ready s = t :: rest -> s_tasks s !! t = Some o -> tk_gen o = GTimer true ->
  s_timers s !! t = Some m -> (tm_recurring m = true -> 0 < tm_interval m) ->
  tm_next m <= s_now s /\
  (tm_cancelled m = true -> exists s', round s = (Ok tt, s') /\ over t s' /\ s_world s' = s_world s /\ s_timers s' = s_timers s) /\
  (tm_cancelled m = false ->
    (forall e s2, call (tm_callback m) [] (at_callback t rest m s) = (Err e, s2) -> e <> Diverge ->
       exists s', round s = (Ok tt, s') /\ over t s' /\ s_world s' = s_world s2) /\
    (forall rv s2, call (tm_callback m) [] (at_callback t rest m s) = (Ok rv, s2) ->
       exists s' m2, round s = (Ok tt, s') /\ s_world s' = s_world s2 /\ s_timers s' !! t = Some m2 /\
         tm_next m2 = s_now s + tm_interval m /\
         if tm_recurring m && negb (tm_self_stoppable m && bool_decide (rv = VFalse)) && negb (tm_cancelled m2)
         then waiting t (s_now s + tm_interval m) s' /\ asleep t s' else over t s')).
Proof.
  intros Hr Er Ho Hg Hm Hi. pose proof (reachable_sound s Hr) as Hok. pose proof Hok as [I E].
  split; [by apply (timer_ready_due t rest s o)|]. pose proof (timer_quits t rest s o) as Hquit. pose proof (timer_sleeps t rest s o) as Hsleep.
  rewrite (timer_wakes_run t rest m s Hm) in Hquit, Hsleep. split; intros Hc; rewrite Hc in Hquit, Hsleep.
  { destruct (Hquit _ _ Hok Er Ho Hg eq_refl ltac:(done)) as (s' & (? & ? & ?) & ?); [by left|by exists s']. }
  split.
  - intros e s2 Ec Hd. rewrite Ec in Hquit.
    destruct (Hquit _ _ Hok Er Ho Hg eq_refl ltac:(congruence)) as (s' & (? & ? & ?) & ?); [right; by exists e|by exists s'].
  - intros rv s2 Ec. rewrite Ec in Hquit, Hsleep. destruct (at_callback_call t rest m s _ s2 I Er Hm Ec) as (En & m2 & Hm2 & Hnext).
    destruct (tm_recurring m && negb (tm_self_stoppable m && bool_decide (rv = VFalse))) eqn:Ea; cbn [negb andb] in *.
    + unfold timer_loop, the_timer in Hquit, Hsleep. rewrite !bind_get, Hm2 in Hquit, Hsleep. destruct (tm_cancelled m2) eqn:Em; cbn [negb andb].
      * destruct (Hquit _ _ Hok Er Ho Hg eq_refl ltac:(done)) as (s' & (? & ? & Et) & ?); [by left|]. exists s', m2. rewrite Et, Em. by split_and!.
      * apply andb_prop in Ea as [Ha _]. specialize (Hi Ha). pose proof (iv_now _ _ I).
        destruct (Hsleep _ _ Hok Er Ho Hg eq_refl ltac:(done) (tm_next m2)) as (s' & (? & ? & Et) & Hw & ?); [done|lia|lia|].
        exists s', m2. rewrite Et, Em, <-Hnext. by split_and!.
    + destruct (Hquit _ _ Hok Er Ho Hg eq_refl ltac:(done)) as (s' & (? & ? & Et) & ?); [by left|]. exists s', m2. rewrite Et. by split_and!.
Qed.

(** * Calls for later *)

(** The calls, one after the other; what they raise is dropped. *)
Fixpoint make_all (fs : list F) s : Sched :=
  match fs with [] => s | f :: fs => make_all fs (call f [] (s_set_calls fs (s_call_pings s) s)).2 end.
Definition adds_no_calls (fs : list F) : Prop := forall f s, f ∈ fs ->
  (call f [] s).1 <> Err Diverge /\ s_calls (call f [] s).2 = s_calls s.

Lemma make_calls_run fuel fs s : s_calls s = fs -> (length fs < fuel)%nat -> adds_no_calls fs ->
  make_calls call fuel s = (Ok tt, make_all fs s) /\ s_calls (make_all fs s) = [].
Proof.
  revert fs s. induction fuel as [|fuel IH]; intros fs s Ec Hl Hf; [lia|]. cbn [make_calls]. rewrite bind_get, Ec.
  destruct fs as [|f fs]; [done|]. erewrite bind_ok by reflexivity.
  destruct (Hf f (s_set_calls fs (s_call_pings s) s) ltac:(apply list_elem_of_here)) as [Hd Hc].
  cbn [make_all]. destruct (call f [] (s_set_calls fs (s_call_pings s) s)) as [r s1] eqn:E. cbn [fst snd] in *.
  assert (attempt (call f []) (s_set_calls fs (s_call_pings s) s) = (Ok r, s1)) as Ea by (rewrite (attempt_run _ _ _ _ E); by destruct r as [|[]]).
  erewrite bind_ok by exact Ea. apply IH; [done|cbn in Hl; lia|]. intros x s0 Hx. apply Hf. by apply list_elem_of_further.
Qed.

Definition call_entry (t : Z) : hub_entry := MkEntry t (Some [call_pinger]) None None None.

(** C31: Calls for later.  [callLater] queues a function, whichever thread it is called from.  When the
    task for such calls is resumed it makes exactly the calls queued, each once and in
    their order, whether or not some of them raise; then the queue is empty and the task
    waits for the next ping.  The functions are taken to return, and to queue no calls themselves
    ([adds_no_calls]): those would be made in the same turn. *)
Theorem calls_in_order s : reachable s ->
  (forall f, exists s', callLater f s = (Ok tt, s') /\ s_calls s' = s_calls s ++ [f]) /\
  forall t rest o fs, s_ready s = t :: rest -> s_tasks s !! t = Some o -> tk_gen o = GCallLater true ->
    s_calls s = fs -> (length fs < max_calls)%nat -> adds_no_calls fs ->
    let s1 := make_all fs (s_set_calls fs (pongAll (s_call_pings s)) (s_set_running (Some t) (in_hand t rest s))) in
    exists s', round s = (Ok tt, s') /\ s_calls s' = [] /\ s_world s' = s_world s1 /\
      call_entry t ∈ h_incoming (s_selectHub s') /\ fmap tk_gen (s_tasks s' !! t) = fmap tk_gen (Some o).
Proof.
  intros Hr. pose proof (reachable_sound s Hr) as [I E]. split.
  - intros f. unfold callLater. rewrite bind_get. destruct (s_callLaterTask s) as [c|]; [by eexists|].
    set (s0 := s_set_callLaterTask (Some (s_nextTaskID s + 1)) (add_task (GCallLater false) s)).
    assert (s_nextTaskID s0 + 1 ∉ s_ready s0) as Hn.
    { cbn. intros Hin. destruct (iv_exist _ _ I _ (ready_place None s _ Hin)) as [o Ho]. by rewrite (iv_ids _ _ I) in Ho by lia. }
    assert (start (s_nextTaskID s + 1) false s0 = (Ok tt, push false (s_nextTaskID s0 + 1) (add_task (GSchedule (s_nextTaskID s + 1)) s0))) as Es.
    { unfold start. by erewrite bind_ok by by apply schedule_there. }
    erewrite bind_ok; cycle 1.
    { erewrite bind_ok by apply BaseTask_init_run. erewrite bind_ok by reflexivity. exact Es. }
    by eexists.
  - intros t rest o fs Er Ho Hg Ec Hl Hf s1. destruct (iv_task _ _ I t o Ho) as [Hrf Hst]. rewrite Hg in Hst.
    assert (tk_rf o = None) as Hrf' by (destruct (tk_rf o); [destruct Hrf as [x Hx]; [done|by rewrite Hg in Hx]|done]).
    pose proof (with_task_at t (tk_set_rv VNone) (s_set_ready rest s) o Ho) as Ho1. fold (in_hand t rest s) in Ho1.
    destruct (make_calls_run max_calls fs (s_set_calls fs (pongAll (s_call_pings s)) (s_set_running (Some t) (in_hand t rest s)))) as [Em Ee]; try done.
    fold s1 in Em, Ee.
    assert (gen_run user_resume call call_pinger max_calls t (GCallLater true) (tk_rv o) (s_set_running (Some t) (in_hand t rest s)) = (Ok (Some (select_calls call_pinger)), s1)) as Eg.
    { cbn [gen_run]; unfold CallLaterTask_run, Task_run. erewrite bind_ok by reflexivity. cbn [s_calls s_call_pings s_set_running in_hand with_task s_set_tasks s_set_ready]. rewrite Ec.
      erewrite bind_ok by exact Em. done. }
    pose proof (send_runs t (tk_rv o) (in_hand t rest s) (tk_set_rv VNone o) (Ok (Some (select_calls call_pinger))) s1 Ho1 Hst) as Es. cbn [tk_gen tk_set_rv] in Es. rewrite Hg in Es.
    specialize (Es Eg ltac:(done)). cbv iota beta zeta in Es. unfold select_calls in Es.
    eexists. split; [apply (round_runs t rest s o _ _ Er Ho Hrf' Es ltac:(done)); reflexivity|]. split; [exact Ee|]. split; [done|]. split.
    + cbn. apply elem_of_app. right. by apply list_elem_of_singleton.
    + assert (keeps_at (body t) (s_set_running (Some t) (in_hand t rest s)) (gen_run user_resume call call_pinger max_calls t (GCallLater true) (tk_rv o))) as Hb.
      { cbn [gen_run]; unfold CallLaterTask_run. apply (keeps_bind (body t)); [apply upd_body, calls_body|]. intros _ s2 _ _. apply (keeps_bind (body t)); [by apply make_calls_body|].
        intros _ s3 _ _. by apply (keeps_pure (body t)). }
      unfold keeps_at in Hb. rewrite Eg in Hb. destruct (Hb (inv_running _ _ _ (inv_in_hand t rest s I Er)) eq_refl) as (_ & _ & _ & T1).
      cbn [snd] in T1. assert (s_tasks s1 !! t = Some (tk_set_rv VNone o)) as Ht1 by (rewrite T1; exact Ho1).
      change (tk_gen <$> s_tasks (stands t (GCallLater true) s1) !! t = tk_gen <$> Some o).
      unfold stands. rewrite (with_task_at t _ (s_set_running None s1) _ Ht1). cbn. by rewrite Hg.
Qed.

(** * What goes wrong *)

Lemma return_each_dies l s t : t ∈ l.*1 -> t ∈ s_ready s -> exists e s', hub_return_each l s = (Err e, s') /\ e <> Diverge.
Proof.
  revert s. induction l as [|[u [[r w] x]] l IH]; intros s Hl Ht; [by apply elem_of_nil in Hl|]. cbn [hub_return_each].
  unfold hub_delete. destruct (h_tasks (s_selectHub s) !! u) eqn:Eu.
  2:{ erewrite bind_err by (rewrite bind_get, Eu; reflexivity). by eexists _, _. }
  erewrite bind_ok by (rewrite bind_get, Eu; reflexivity). set (s1 := s_set_hub _ s). unfold hub_return.
  destruct (decide (u ∈ s_ready s)) as [Hu|Hu].
  - erewrite (bind_err _ _ _ AssertionError); [eexists _, _; by split|]. erewrite bind_ok by reflexivity. unfold fast_schedule, is_ready. rewrite bind_get.
    rewrite bool_decide_true by done. by erewrite bind_err by reflexivity.
  - assert (t ∈ l.*1) as Hl' by (apply elem_of_cons in Hl as [->|Hl]; [done|exact Hl]).
    erewrite bind_ok by (erewrite bind_ok by reflexivity; by apply fast_schedule_run).
    apply IH; [done|]. cbn. apply elem_of_app. by left.
Qed.

(** C39: Waking a sleeper.  [schedule] is documented never to make a task run multiple times.  Called
    from another thread for a task that sleeps with the hub, it puts the task before all
    others, though its time has not come; and when the hub's next round finds the time come
    before the task has run, an assertion ends the hub's thread: nothing that sleeps or waits
    for a descriptor wakes again. *)
Theorem waking_kills_hub s u rest t o e d : s_ready s = u :: rest -> s_tasks s !! u = Some o -> tk_gen o = GSchedule t ->
  tk_rf o = None -> tk_rv o = VNone -> t ∉ rest -> h_tasks (s_selectHub s) !! t = Some e -> he_task e = t -> he_timeout e = Some d ->
  exists s1, round s = (Ok tt, s1) /\ head (s_ready s1) = Some t /\ s_now s1 = s_now s /\
    forall x, d <= s_now s1 + x -> exists s2, in_hub hub_prepare (s_set_now (s_now s1 + x) s1) = (Ok tt, s2) /\ h_dead (s_selectHub s2) = true.
Proof.
  intros Er Ho Hg Hrf Hrv Ht He Het Hd.
  pose proof (with_task_at u (tk_set_rv VNone) (s_set_ready rest s) o Ho) as Ho1. fold (in_hand u rest s) in Ho1.
  set (s1 := push true t (s_set_running (Some u) (in_hand u rest s))).
  assert (gen_run user_resume call call_pinger max_calls u (GSchedule t) VNone (s_set_running (Some u) (in_hand u rest s)) = (Ok (Some (YFalse, GScheduled)), s1)) as Eg.
  { cbn [gen_run]. unfold run_schedule, is_ready. erewrite bind_ok; [reflexivity|]. rewrite bind_get, bool_decide_false by done. by apply fast_schedule_run. }
  assert (send u VNone (in_hand u rest s) = (Ok (Some YFalse), stands u GScheduled s1)) as Es.
  { unfold gen_send. erewrite bind_ok by apply (get_task_at u (in_hand u rest s) _ Ho1). rewrite bool_decide_true by done. rewrite andb_false_r.
    erewrite bind_ok by reflexivity. unfold mbind at 1, M_bind at 1. cbn [tk_gen tk_set_rv]. rewrite Hg. rewrite (attempt_run _ _ _ _ Eg). done. }
  rewrite <-Hrv in Es. exists (stands u GScheduled s1). split; [by apply (round_runs u rest s o _ _ Er Ho Hrf Es ltac:(done))|].
  split; [done|]. split; [done|]. intros x Hx. set (s2 := s_set_now _ _).
  destruct (hub_scan (s_now s2) (map_to_list (h_tasks (s_selectHub s2))).*2 [] None ∅ ∅ ∅) as [[[[expired timer] rl] wl] xl] eqn:Ess.
  assert (t ∈ expired) as Hin.
  { apply hub_scan_spec in Ess as (-> & _). apply list_elem_of_fmap. exists e. split; [done|]. apply list_elem_of_In, filter_In. split.
    - apply list_elem_of_In. by apply (hub_entries_in t e s2).
    - unfold expired_by. rewrite Hd. cbn. cbn in Hx. lia. }
  destruct (return_each_dies ((fun t => (t, ([], [], []))) <$> expired) s2 t) as (ex & s3 & Ed & Hne).
  { rewrite <-list_fmap_compose. apply list_elem_of_fmap. by exists t. }
  { cbn. apply list_elem_of_here. }
  assert (hub_prepare s2 = (Err ex, s3)) as Ep by (unfold hub_prepare; rewrite bind_get, Ess; by erewrite bind_err by exact Ed).
  eexists. split; [unfold in_hub; erewrite bind_ok by (rewrite (attempt_run _ _ _ _ Ep); by destruct ex); reflexivity|done].
Qed.

(** A target stops the scheduler.  [Task] is documented as close to [threading.Thread].  Its
    [run] yields None after every step of the target, which [cycle] answers with a
    [RuntimeError]: with the first step of a target that yields anything, the scheduler's
    thread ends, for all tasks. *)
Theorem target_stops_scheduler s t rest o g y g' s2 : s_ready s = t :: rest -> s_tasks s !! t = Some o -> tk_gen o = GTarget g ->
  tk_rf o = None -> tk_rv o = VNone -> user_resume g VNone (s_set_running (Some t) (in_hand t rest s)) = (Ok (Some (y, g')), s2) ->
  exists s', round s = (Err RuntimeError, s') /\ s_hasQuit s' = true /\ s_allDone s' = true /\ (forall s3, ~ step Cycle s' s3) /\
    forall s3, ~ step Prepare s' s3.
Proof.
  intros Er Ho Hg Hrf Hrv Eu.
  pose proof (with_task_at t (tk_set_rv VNone) (s_set_ready rest s) o Ho) as Ho1. fold (in_hand t rest s) in Ho1.
  assert (gen_run user_resume call call_pinger max_calls t (GTarget g) VNone (s_set_running (Some t) (in_hand t rest s)) = (Ok (Some (YNone, GTarget g')), s2)) as Eg.
  { cbn [gen_run]; unfold Task_run. by erewrite bind_ok by exact Eu. }
  assert (send t VNone (in_hand t rest s) = (Ok (Some YNone), stands t (GTarget g') s2)) as Es.
  { unfold gen_send. erewrite bind_ok by apply (get_task_at t (in_hand t rest s) _ Ho1). rewrite bool_decide_true by done. rewrite andb_false_r.
    erewrite bind_ok by reflexivity. unfold mbind at 1, M_bind at 1. cbn [tk_gen tk_set_rv]. rewrite Hg. rewrite (attempt_run _ _ _ _ Eg). done. }
  assert (execute user_resume call sock_recv call_pinger max_calls t (s_set_ready rest s) = (Ok (Some YNone), stands t (GTarget g') s2)) as Ex.
  { unfold execute. erewrite bind_ok by apply (get_task_at t (s_set_ready rest s) o Ho). rewrite Hrf. erewrite bind_ok by apply upd_task_run.
    rewrite Hrv. exact Es. }
  assert (cycle user_resume call sock_recv call_pinger max_calls s = (Err RuntimeError, stands t (GTarget g') s2)) as Ec.
  { unfold cycle. rewrite bind_get, Er. erewrite bind_ok by reflexivity. unfold mbind at 1, M_bind at 1. by rewrite (attempt_run _ _ _ _ Ex). }
  eexists. split; [|split; [|split; [|split]]].
  - unfold run_round. rewrite bind_get, Er. erewrite bind_ok by reflexivity. erewrite bind_ok by (rewrite (attempt_run _ _ _ _ Ec); reflexivity).
    reflexivity.
  - done.
  - done.
  - intros s3 Hs. by inversion Hs.
  - intros s3 Hs. by inversion Hs.
Qed.
End theory.

(** The first [with] statement on a synchronizer raises; the later ones run without waiting for the
    scheduler, since the count stays at one. *)
Lemma synchronizer_never_syncs : exists y, synchronizer_enter Synchronizer_init = (Err AttributeError, y) /\
  forall n, 0 < n -> let z := MkSynchronizer (sy_syncer y) n in
    synchronizer_enter z = (Ok None, MkSynchronizer None (n + 1)) /\
    synchronizer_exit (MkSynchronizer None (n + 1)) = (Ok tt, z).
Proof.
  eexists. split; [reflexivity|]. intros n Hn. cbv zeta. unfold synchronizer_enter, synchronizer_exit. rewrite !bind_get. cbn [sy_syncer sy_enter].
  rewrite !bind_put. rewrite (proj2 (Z.eqb_neq _ _)) by lia. rewrite (proj2 (Z.eqb_neq (n + 1 - 1) 0)) by lia.
  replace (n + 1 - 1) with n by lia. done.
Qed.

(** * Examples *)

(** Generators that yield 0 for ever; callables that count, and return None or False. *)
Definition ex_resume (g : Z) (v : pyval) : M (Scheduler Z bool Z) (option (yielded bool * Z)) := mret (Some (YNum 0, g + 1)).
Definition ex_call (f : bool) (vs : list pyval) : M (Scheduler Z bool Z) pyval :=
  fun s => (Ok (if f then VNone else VFalse), s_set_world (s_world s + 1) s).
Definition ex_recv (fd len w : Z) : res bytes * Z := (Ok [], w).
Abbreviation ex_round := (run_round ex_resume ex_call ex_recv 101 10).
Abbreviation ex_step := (step ex_resume ex_call ex_recv 100 101 10).
Abbreviation ex_run := (run ex_resume ex_call ex_recv 100 101 10).

Lemma ex_user_api g v s : rtc api s (ex_resume g v s).2.
Proof. constructor. Qed.
Lemma ex_call_api f vs s : rtc api s (ex_call f vs s).2.
Proof. apply rtc_once. apply api_world. Qed.

(** A recurring timer, made by another thread, until it is ready again. *)
Definition the_wait (s : Scheduler Z bool Z) : Wait := default (MkWait ∅ ∅ ∅ None 0) (h_wait (s_selectHub s)).
Definition ex_0 : Scheduler Z bool Z := Scheduler_init 1 0.
Definition ex_1 := (Timer_init 3 true false true true true ex_0).2.
Definition ex_2 := (ex_round ex_1).2.
Definition ex_3 := (ex_round ex_2).2.
Definition ex_4 := (in_hub hub_prepare ex_3).2.
Definition ex_5 := (in_hub (hub_finish 100 (the_wait ex_4) [100] [] []) ex_4).2.
Definition ex_6 := s_set_now (s_now ex_5 + 5) ex_5.
Definition ex_7 := (in_hub hub_prepare ex_6).2.
Definition ex_8 := s_set_now (s_now ex_7 + 3 * 10 ^ 9) ex_7.
Definition ex_9 := (in_hub (hub_finish 100 (the_wait ex_8) [] [] []) ex_8).2.
Definition ex_10 := (in_hub hub_prepare ex_9).2.
Definition ex_11 := (ex_round ex_10).2.

Example ex_states : (s_ready ex_1, s_ready ex_2, s_ready ex_7, s_ready ex_10, s_world ex_11) = ([3], [2], [2], [2], 1).
Proof. vm_compute. reflexivity. Qed.

Lemma ex_cycles s : s_hasQuit s = false -> (ex_round s).1 <> Err Diverge -> ex_step Cycle s (ex_round s).2.
Proof. intros Hq Hd. apply (step_cycle _ _ _ _ _ _ s (ex_round s).1); [done| |done]. by destruct (ex_round s). Qed.
Lemma ex_prepares s : s_hasQuit s = false -> h_dead (s_selectHub s) = false -> h_wait (s_selectHub s) = None ->
  ex_step Prepare s (in_hub hub_prepare s).2.
Proof. intros Hq Hd Hw. apply (step_prepare _ _ _ _ _ _ s (in_hub hub_prepare s).1); [done..|]. by destruct (in_hub hub_prepare s). Qed.
Lemma ex_finishes ro wo xo s : h_dead (s_selectHub s) = false -> is_Some (h_wait (s_selectHub s)) -> select_ok 100 (the_wait s) ro wo xo s ->
  ex_step Finish s (in_hub (hub_finish 100 (the_wait s) ro wo xo) s).2.
Proof.
  intros Hd [w Hw] Hs. apply (step_finish _ _ _ _ _ _ (the_wait s) ro wo xo s (in_hub (hub_finish 100 (the_wait s) ro wo xo) s).1);
    [done|unfold the_wait; by rewrite Hw|done|]. by destruct (in_hub _ s).
Qed.
Lemma ex_selects w ro s : (forall i, i ∈ ro -> i = 100 \/ is_Some (wt_rl w !! i)) -> NoDup ro -> (none_left ro [] [] = true -> wt_deadline w <= s_now s) ->
  (0 < h_pings (s_selectHub s) -> 100 ∈ ro) -> select_ok (G := Z) (F := bool) (W := Z) 100 w ro [] [] s.
Proof. intros H1 H2 H3 H4. split; try done; by intros i ?%elem_of_nil. Qed.

Lemma ex_run_6 : ex_run [Outside; Cycle; Cycle; Prepare; Finish; Tick] ex_0 ex_6.
Proof.
  apply (run_cons _ _ _ _ _ _ Outside _ _ ex_1); [apply step_outside, rtc_once, api_timer|].
  apply (run_cons _ _ _ _ _ _ Cycle _ _ ex_2); [apply ex_cycles; vm_compute; done|].
  apply (run_cons _ _ _ _ _ _ Cycle _ _ ex_3); [apply ex_cycles; vm_compute; done|].
  apply (run_cons _ _ _ _ _ _ Prepare _ _ ex_4); [apply ex_prepares; vm_compute; done|].
  apply (run_cons _ _ _ _ _ _ Finish _ _ ex_5).
  { apply (ex_finishes [100] [] [] ex_4); [vm_compute; done|vm_compute; by eexists|]. apply ex_selects.
    - intros i ?%list_elem_of_singleton. by left.
    - apply NoDup_singleton.
    - done.
    - intros _. apply list_elem_of_here. }
  apply (run_cons _ _ _ _ _ _ Tick _ _ ex_6); [apply (step_tick _ _ _ _ _ _ 5); lia|]. constructor.
Qed.
Lemma ex_run_10 : ex_run [Prepare; Tick; Finish; Prepare] ex_6 ex_10.
Proof.
  apply (run_cons _ _ _ _ _ _ Prepare _ _ ex_7); [apply ex_prepares; vm_compute; done|].
  apply (run_cons _ _ _ _ _ _ Tick _ _ ex_8); [apply (step_tick _ _ _ _ _ _ (3 * 10 ^ 9)); lia|].
  apply (run_cons _ _ _ _ _ _ Finish _ _ ex_9).
  { apply (ex_finishes [] [] [] ex_8); [vm_compute; done|vm_compute; by eexists|]. apply ex_selects.
    - by intros i ?%elem_of_nil.
    - constructor.
    - intros _. vm_compute. done.
    - intros H. vm_compute in H. done. }
  apply (run_cons _ _ _ _ _ _ Prepare _ _ ex_10); [apply ex_prepares; vm_compute; done|]. constructor.
Qed.
Lemma ex_reachable_6 : reachable ex_resume ex_call ex_recv 100 101 10 ex_6.
Proof. exists 1, 0, [Outside; Cycle; Cycle; Prepare; Finish; Tick]. split; [lia|exact ex_run_6]. Qed.
Lemma ex_reachable_7 : reachable ex_resume ex_call ex_recv 100 101 10 ex_7.
Proof.
  exists 1, 0, ([Outside; Cycle; Cycle; Prepare; Finish; Tick] ++ [Prepare]). split; [lia|]. eapply run_app; [exact ex_run_6|].
  apply (run_cons _ _ _ _ _ _ Prepare _ _ ex_7); [apply ex_prepares; vm_compute; done|]. constructor.
Qed.

Lemma one_place_witness : NoDup (places None ex_7) /\ h_dead (s_selectHub ex_7) = false.
Proof.
  destruct (one_place ex_resume ex_call ex_recv 100 101 10 ex_user_api ex_call_api ex_7 ex_reachable_7) as (H1 & _ & H2 & _).
  exact (conj H1 H2).
Defined.

Lemma turn_comes_witness : has_turn ex_resume ex_call ex_recv 100 101 10 2 ([Prepare; Tick; Finish; Prepare] ++ [Cycle]) ex_6.
Proof.
  apply (turn_comes ex_resume ex_call ex_recv 100 101 10 ex_user_api ex_call_api _ _ ex_6 ex_10 ex_11 2 ex_reachable_6 ex_run_10).
  - apply (run_cons _ _ _ _ _ _ Cycle _ _ ex_11); [apply ex_cycles; vm_compute; done|]. constructor.
  - right. exists 4. split; [|split; [vm_compute; discriminate|vm_compute; lia]]. right. exists (timer_entry 2 4). split; [reflexivity|vm_compute; reflexivity].
  - vm_compute. lia.
Defined.

Definition ex_timer : Timer bool := MkTimer 4 3 false true true true.
Lemma timer_fires_witness : tm_next ex_timer <= s_now ex_7 /\
  exists s', ex_round ex_7 = (Ok tt, s') /\ s_world s' = 1 /\ waiting 2 9 s'.
Proof.
  destruct (timer_fires ex_resume ex_call ex_recv 100 101 10 ex_user_api ex_call_api ex_7 2 []
    (MkTask (GTimer true) true (VFds [] [] []) None) ex_timer ex_reachable_7) as (H1 & _ & H2).
  - vm_compute. reflexivity.
  - vm_compute. reflexivity.
  - reflexivity.
  - vm_compute. reflexivity.
  - intros _. vm_compute. reflexivity.
  - split; [exact H1|]. destruct (H2 eq_refl) as [_ H].
    destruct (H VNone (s_set_world 1 (at_callback 2 [] ex_timer ex_7))) as (s' & m2 & Er & Hw & Hm & _ & Ha); [vm_compute; reflexivity|].
    exists s'. split; [exact Er|]. split; [exact Hw|].
    assert (s_timers (ex_round ex_7).2 !! 2 = Some (MkTimer 9 3 false true true true)) as Hm' by (vm_compute; reflexivity).
    rewrite Er in Hm'. change (s_timers s' !! 2 = Some (MkTimer 9 3 false true true true)) in Hm'. rewrite Hm' in Hm. injection Hm as <-.
    exact (proj1 Ha).
Defined.

(** Two calls for later, until the task that makes them is ready. *)
Definition ex_c1 := (callLater false (callLater true ex_0).2).2.
Definition ex_c2 := (ex_round ex_c1).2.
Definition ex_c3 := (ex_round ex_c2).2.
Definition ex_c4 := (in_hub hub_prepare ex_c3).2.
Definition ex_c5 := (in_hub (hub_finish 100 (the_wait ex_c4) [100] [] []) ex_c4).2.
Definition ex_c6 := (in_hub hub_prepare ex_c5).2.
Definition ex_c7 := (in_hub (hub_finish 100 (the_wait ex_c6) [101] [] []) ex_c6).2.

Lemma ex_reachable_c7 : reachable ex_resume ex_call ex_recv 100 101 10 ex_c7.
Proof.
  exists 1, 0, [Outside; Cycle; Cycle; Prepare; Finish; Prepare; Finish]. split; [lia|].
  apply (run_cons _ _ _ _ _ _ Outside _ _ ex_c1).
  { apply step_outside. eapply rtc_l; [exact (api_later true ex_0)|]. apply rtc_once. exact (api_later false (callLater true ex_0).2). }
  apply (run_cons _ _ _ _ _ _ Cycle _ _ ex_c2); [apply ex_cycles; vm_compute; done|].
  apply (run_cons _ _ _ _ _ _ Cycle _ _ ex_c3); [apply ex_cycles; vm_compute; done|].
  apply (run_cons _ _ _ _ _ _ Prepare _ _ ex_c4); [apply ex_prepares; vm_compute; done|].
  apply (run_cons _ _ _ _ _ _ Finish _ _ ex_c5).
  { apply (ex_finishes [100] [] [] ex_c4); [vm_compute; done|vm_compute; by eexists|]. apply ex_selects.
    - intros i ?%list_elem_of_singleton. by left.
    - apply NoDup_singleton.
    - done.
    - intros _. apply list_elem_of_here. }
  apply (run_cons _ _ _ _ _ _ Prepare _ _ ex_c6); [apply ex_prepares; vm_compute; done|].
  apply (run_cons _ _ _ _ _ _ Finish _ _ ex_c7).
  { apply (ex_finishes [101] [] [] ex_c6); [vm_compute; done|vm_compute; by eexists|]. apply ex_selects.
    - intros i ->%list_elem_of_singleton. right. vm_compute. by eexists.
    - apply NoDup_singleton.
    - done.
    - intros H. vm_compute in H. done. }
  constructor.
Qed.

Lemma calls_in_order_witness : exists s', ex_round ex_c7 = (Ok tt, s') /\ s_calls s' = [] /\ s_world s' = 2.
Proof.
  destruct (calls_in_order ex_resume ex_call ex_recv 100 101 10 ex_user_api ex_call_api ex_c7 ex_reachable_c7) as [_ H].
  destruct (H 1 [] (MkTask (GCallLater true) true (VFds [101] [] []) None) [true; false]) as (s' & Er & Hc & Hw & _).
  - vm_compute. reflexivity.
  - vm_compute. reflexivity.
  - reflexivity.
  - vm_compute. reflexivity.
  - cbn. lia.
  - intros f s _. split; [discriminate|reflexivity].
  - exists s'. split; [exact Er|]. split; [exact Hc|]. rewrite Hw. vm_compute. reflexivity.
Defined.

(** Another thread schedules the timer of [ex_5], which sleeps. *)
Definition ex_w := (schedule 2 false ex_5).2.
Lemma waking_kills_hub_witness : exists s1, ex_round ex_w = (Ok tt, s1) /\ exists s2, in_hub hub_prepare (s_set_now (s_now s1 + 3) s1) = (Ok tt, s2) /\
  h_dead (s_selectHub s2) = true.
Proof.
  destruct (waking_kills_hub ex_resume ex_call ex_recv 101 10 ex_w 4 [] 2 (MkTask (GSchedule 2) false VNone None) (timer_entry 2 4) 4)
    as (s1 & Er & _ & En & H).
  - vm_compute. reflexivity.
  - vm_compute. reflexivity.
  - reflexivity.
  - reflexivity.
  - reflexivity.
  - apply not_elem_of_nil.
  - vm_compute. reflexivity.
  - reflexivity.
  - reflexivity.
  - exists s1. split; [exact Er|]. apply H. rewrite En. vm_compute. discriminate.
Defined.

(** A [Task] whose target yields. *)
Definition ex_t := (new (GTarget 5) ex_0).2.
Lemma target_stops_scheduler_witness : exists s', ex_round ex_t = (Err RuntimeError, s') /\ s_hasQuit s' = true.
Proof.
  destruct (target_stops_scheduler ex_resume ex_call ex_recv 100 101 10 ex_t 1 [] (MkTask (GTarget 5) false VNone None) 5 (YNum 0) 6
    (s_set_running (Some 1) (in_hand 1 [] ex_t))) as (s' & Er & Hq & _).
  - vm_compute. reflexivity.
  - vm_compute. reflexivity.
  - reflexivity.
  - reflexivity.
  - reflexivity.
  - reflexivity.
  - exists s'. exact (conj Er Hq).
Defined.
