(* ===== verification/Epoll.v ===== *)
(** [lib/epoll_select.py]: a [select] made of epoll, which the hub of Recoco can use in place
    of the system's.  It keeps its own copy of what the kernel watches and tells the kernel
    only what has changed since the last call. *)
From S2P Require Import Prelude.
From S2P Require Import Recoco.

(** The constants of Python's [select] module. *)
Definition EPOLLIN : Z := 1.
Definition EPOLLPRI : Z := 2.
Definition EPOLLOUT : Z := 4.
Definition EPOLLERR : Z := 8.
Definition EPOLLHUP : Z := 16.
Definition EPOLLRDNORM : Z := 64.
Definition EPOLLRDBAND : Z := 128.
Definition EPOLLWRNORM : Z := 256.
Definition EPOLLWRBAND : Z := 512.

(** The selector, with what it lives on.  Of the kernel: the descriptors that are open, and what it watches,
    behind [self.epoll].  Of the program: its lists, which the selector keeps by reference, and what
    [fileno] of an object gives now - for a number, the number; [None] when it raises, as for a closed socket. *)
Record EpollSelect := MkEpoll {
  ep_open : gset Z;
  ep_table : gmap Z Z;
  ep_lists : gmap positive (list Z);
  ep_fileno : Z -> option Z;
  ep_fd_to_obj : gmap Z Z;
  ep_registered : gmap Z Z;
  ep_lastrl : positive;
  ep_lastrl_set : gset Z;
  ep_lastwl : positive;
  ep_lastwl_set : gset Z
}.
(** [self.lastrl] and [self.lastwl] are new lists at first, here the first two. *)
Definition EpollSelect_init (open : gset Z) (fileno : Z -> option Z) : EpollSelect :=
  MkEpoll open ∅ {[1%positive := []; 2%positive := []]} fileno ∅ ∅ 1 ∅ 2 ∅.
Definition ep_set_kernel o t e := MkEpoll o t (ep_lists e) (ep_fileno e) (ep_fd_to_obj e) (ep_registered e) (ep_lastrl e) (ep_lastrl_set e) (ep_lastwl e) (ep_lastwl_set e).
Definition ep_set_lists v e := MkEpoll (ep_open e) (ep_table e) v (ep_fileno e) (ep_fd_to_obj e) (ep_registered e) (ep_lastrl e) (ep_lastrl_set e) (ep_lastwl e) (ep_lastwl_set e).
Definition ep_set_fileno v e := MkEpoll (ep_open e) (ep_table e) (ep_lists e) v (ep_fd_to_obj e) (ep_registered e) (ep_lastrl e) (ep_lastrl_set e) (ep_lastwl e) (ep_lastwl_set e).
Definition ep_set_objs v e := MkEpoll (ep_open e) (ep_table e) (ep_lists e) (ep_fileno e) v (ep_registered e) (ep_lastrl e) (ep_lastrl_set e) (ep_lastwl e) (ep_lastwl_set e).
Definition ep_set_tables t r e := MkEpoll (ep_open e) t (ep_lists e) (ep_fileno e) (ep_fd_to_obj e) r (ep_lastrl e) (ep_lastrl_set e) (ep_lastwl e) (ep_lastwl_set e).
Definition ep_set_rl l s e := MkEpoll (ep_open e) (ep_table e) (ep_lists e) (ep_fileno e) (ep_fd_to_obj e) (ep_registered e) l s (ep_lastwl e) (ep_lastwl_set e).
Definition ep_set_wl l s e := MkEpoll (ep_open e) (ep_table e) (ep_lists e) (ep_fileno e) (ep_fd_to_obj e) (ep_registered e) (ep_lastrl e) (ep_lastrl_set e) l s.

(** What the program and the kernel do between calls: lists change, files are opened and closed - a
    closed descriptor is watched no longer, and nobody is told - and with them what [fileno] gives. *)
Definition list_changes (p : positive) (l : list Z) e := ep_set_lists (<[p := l]> (ep_lists e)) e.
Definition file_opens (fd : Z) e := ep_set_kernel ({[fd]} ∪ ep_open e) (ep_table e) e.
Definition file_closes (fd : Z) e := ep_set_kernel (ep_open e ∖ {[fd]}) (delete fd (ep_table e)) e.

(** The calls of the kernel's table: an entry that is there already, or is not, is an error, and so is a descriptor that
    is closed - except that Python lets a closed one be taken out. *)
Definition epoll_register (fd mask : Z) e : res (gmap Z Z) :=
  if negb (bool_decide (fd ∈ ep_open e)) then Err SocketError
  else match ep_table e !! fd with Some _ => Err SocketError | None => Ok (<[fd := mask]> (ep_table e)) end.
Definition epoll_modify (fd mask : Z) e : res (gmap Z Z) :=
  if negb (bool_decide (fd ∈ ep_open e)) then Err SocketError
  else match ep_table e !! fd with Some _ => Ok (<[fd := mask]> (ep_table e)) | None => Err SocketError end.
Definition epoll_unregister (fd : Z) e : res (gmap Z Z) :=
  if negb (bool_decide (fd ∈ ep_open e)) then Ok (ep_table e)
  else match ep_table e !! fd with Some _ => Ok (delete fd (ep_table e)) | None => Err SocketError end.

(** [modify_table]: descriptors that come in, and those that go, for the events [op]. *)
Definition mask_now (registered modify : gmap Z Z) (fd : Z) : Z :=
  match modify !! fd with Some m => m | None => default 0 (registered !! fd) end.
Fixpoint note_objs (objs : list Z) (current : gset Z) : M EpollSelect (gset Z) :=
  match objs with
  | [] => mret current
  | obj :: objs =>
      e ← get;
      match ep_fileno e obj with
      | None => raise SocketError
      | Some fd => '_ ← put (ep_set_objs (<[fd := obj]> (ep_fd_to_obj e)) e); note_objs objs ({[fd]} ∪ current)
      end
  end.
Definition add_ops (registered : gmap Z Z) (op : Z) (fds : list Z) (modify : gmap Z Z) : gmap Z Z :=
  foldl (fun m fd => <[fd := Z.lor (mask_now registered m fd) op]> m) modify fds.
Definition del_ops (registered : gmap Z Z) (op : Z) (fds : list Z) (modify : gmap Z Z) : gmap Z Z :=
  foldl (fun m fd => <[fd := Z.land (mask_now registered m fd) (Z.lnot op)]> m) modify fds.
Definition modify_table (objs : list Z) (old : gset Z) (op : Z) (modify : gmap Z Z) : M EpollSelect (gset Z * gmap Z Z) :=
  current ← note_objs objs ∅;
  e ← get;
  let modify := add_ops (ep_registered e) op (elements (current ∖ old)) modify in
  mret (current, del_ops (ep_registered e) op (elements (old ∖ current)) modify).

(** The loop that tells the kernel. *)
Definition apply_one (fd mask : Z) : M EpollSelect unit :=
  e ← get;
  match ep_registered e !! fd with
  | Some _ =>
      if mask =? 0 then
        t ← lift (epoll_unregister fd e);
        put (ep_set_tables t (delete fd (ep_registered e)) e)
      else
        t ← lift (epoll_modify fd mask e);
        put (ep_set_tables t (<[fd := mask]> (ep_registered e)) e)
  | None =>
      if mask =? 0 then raise AssertionError
      else
        t ← lift (epoll_register fd mask e);
        put (ep_set_tables t (<[fd := mask]> (ep_registered e)) e)
  end.
Fixpoint apply_all (l : list (Z * Z)) : M EpollSelect unit :=
  match l with [] => mret tt | (fd, mask) :: l => '_ ← apply_one fd mask; apply_all l end.

(** The events as three lists. *)
Definition READ_EVENTS : Z := Z.lor (Z.lor EPOLLIN EPOLLPRI) (Z.lor EPOLLRDNORM EPOLLRDBAND).
Definition WRITE_EVENTS : Z := Z.lor EPOLLOUT (Z.lor EPOLLWRNORM EPOLLWRBAND).
Definition ERROR_EVENTS : Z := Z.lor EPOLLERR EPOLLHUP.
Definition has (event mask : Z) : bool := negb (Z.land event mask =? 0).
Fixpoint pick (objs : gmap Z Z) (mask : Z) (events : list (Z * Z)) : res (list Z) :=
  match events with
  | [] => Ok []
  | (fd, event) :: events =>
      if has event mask then
        match objs !! fd with None => Err KeyError | Some o => l ← pick objs mask events; Ok (o :: l) end
      else pick objs mask events
  end.

(** [select] of the lists [rl], [wl] and [xl]; [events] is what [poll] returns.  The lists are compared by what is in
    them, and kept themselves. *)
Definition the_list (p : positive) e : list Z := default [] (ep_lists e !! p).
Definition epoll_tell (rl wl : positive) : M EpollSelect unit :=
  e ← get;
  modify ← (if bool_decide (the_list rl e = the_list (ep_lastrl e) e) then mret ∅
            else '(s, m) ← modify_table (the_list rl e) (ep_lastrl_set e) (Z.lor EPOLLIN EPOLLPRI) ∅;
                 e ← get; '_ ← put (ep_set_rl rl s e); mret m);
  e ← get;
  modify ← (if bool_decide (the_list wl e = the_list (ep_lastwl e) e) then mret modify
            else '(s, m) ← modify_table (the_list wl e) (ep_lastwl_set e) EPOLLOUT modify;
                 e ← get; '_ ← put (ep_set_wl wl s e); mret m);
  apply_all (map_to_list (modify : gmap Z Z)).
Definition epoll_select (rl wl xl : positive) (events : list (Z * Z)) : M EpollSelect (list Z * list Z * list Z) :=
  '_ ← epoll_tell rl wl;
  e ← get;
  retrl ← lift (pick (ep_fd_to_obj e) READ_EVENTS events);
  retwl ← lift (pick (ep_fd_to_obj e) WRITE_EVENTS events);
  retxl ← lift (pick (ep_fd_to_obj e) ERROR_EVENTS events);
  mret (retrl, retwl, retxl).
