(* ===== verification/EpollTheory.v ===== *)
(** [EpollSelect] watches, after any calls of a caller that keeps to its rules, exactly what it was last asked for, and
    returns what [select] returns - but for errors, which it reports unasked; and what this does to the hub
    of Recoco.  What becomes of other callers. *)
From S2P Require Import Prelude.
From S2P Require Import Steps.
From S2P Require Import Recoco.
From S2P Require Import RecocoRun.
From S2P Require Import RecocoHub.
From S2P Require Import RecocoTheory.
From S2P Require Import Epoll.

(** * Masks *)

Definition mask_of (r w : bool) : option Z :=
  match r, w with
  | false, false => None
  | true, false => Some (Z.lor EPOLLIN EPOLLPRI)
  | false, true => Some EPOLLOUT
  | true, true => Some (Z.lor (Z.lor EPOLLIN EPOLLPRI) EPOLLOUT)
  end.

Lemma ops_lookup registered (g : Z -> Z) fds m x : NoDup fds ->
  foldl (fun m fd => <[fd := g (mask_now registered m fd)]> m) m fds !! x =
  if decide (x ∈ fds) then Some (g (mask_now registered m x)) else m !! x.
Proof.
  revert m. induction fds as [|fd fds IH]; intros m Hd; cbn; [by rewrite decide_False by apply not_elem_of_nil|].
  apply NoDup_cons in Hd as [Hn Hd]. rewrite IH by done. unfold mask_now at 1. destruct (decide (x = fd)) as [->|Hne].
  - rewrite decide_False, lookup_insert_eq by done. by rewrite decide_True by apply list_elem_of_here.
  - rewrite lookup_insert_ne by done. destruct (decide (x ∈ fds)) as [Hx|Hx].
    + rewrite decide_True by by apply list_elem_of_further. done.
    + rewrite decide_False; [done|]. by intros [?|?]%elem_of_cons.
Qed.

(** * Telling the kernel *)

Definition told (registered modify : gmap Z Z) (x : Z) : option Z :=
  match modify !! x with Some m => if m =? 0 then None else Some m | None => registered !! x end.
Definition told_one (fd m : Z) (r : gmap Z Z) : gmap Z Z := if m =? 0 then delete fd r else <[fd := m]> r.

(** The kernel watches what the selector thinks, and only what is open. *)
Definition in_step e : Prop := ep_table e = ep_registered e /\ forall fd, is_Some (ep_table e !! fd) -> fd ∈ ep_open e.

Lemma apply_one_run fd m e : in_step e -> (ep_registered e !! fd = None -> m <> 0 /\ fd ∈ ep_open e) ->
  let r := told_one fd m (ep_registered e) in apply_one fd m e = (Ok tt, ep_set_tables r r e) /\ in_step (ep_set_tables r r e).
Proof.
  intros [Et Ho] Hm r. assert (fd ∈ ep_open e) as Hfd.
  { destruct (ep_registered e !! fd) eqn:E; [|by apply Hm]. apply Ho. rewrite Et, E. by eexists. }
  assert (in_step (ep_set_tables r r e)) as Hs.
  { split; [done|]. cbn. intros x. unfold r, told_one. rewrite <-Et. destruct (decide (x = fd)) as [->|Hne]; [done|].
    destruct (m =? 0); [rewrite lookup_delete_ne by done|rewrite lookup_insert_ne by done]; apply Ho. }
  split; [|done]. unfold apply_one, r, told_one. rewrite bind_get. unfold epoll_unregister, epoll_modify, epoll_register. rewrite bool_decide_true by done. cbn [negb]. rewrite Et.
  destruct (ep_registered e !! fd) as [v|]; destruct (Z.eqb_spec m 0) as [->|]; try done. by destruct (Hm eq_refl).
Qed.

Lemma apply_all_run l e : in_step e -> NoDup l.*1 -> (forall fd m, (fd, m) ∈ l -> ep_registered e !! fd = None -> m <> 0 /\ fd ∈ ep_open e) ->
  exists r, apply_all l e = (Ok tt, ep_set_tables r r e) /\ in_step (ep_set_tables r r e) /\ forall x, r !! x = told (ep_registered e) (list_to_map l) x.
Proof.
  revert e. induction l as [|[fd m] l IH]; intros e Hs Hd Hm.
  { exists (ep_registered e). assert (e = ep_set_tables (ep_registered e) (ep_registered e) e) as <- by (destruct Hs as [Et _]; destruct e; cbn in *; by subst). done. }
  cbn [fmap list_fmap fst] in Hd. apply NoDup_cons in Hd as [Hn Hd].
  destruct (apply_one_run fd m e Hs) as [E1 Hs1]; [apply Hm; apply list_elem_of_here|].
  cbn [apply_all]. erewrite bind_ok by exact E1. clear E1. set (r1 := told_one fd m (ep_registered e)) in *. set (e1 := ep_set_tables r1 r1 e) in *.
  assert (forall x, x <> fd -> r1 !! x = ep_registered e !! x) as Hne.
  { intros x Hx. unfold r1, told_one. destruct (m =? 0); [by rewrite lookup_delete_ne|by rewrite lookup_insert_ne]. }
  destruct (IH e1) as (r & E & Hs2 & Hr); [done|done| |].
  { intros fd' m' Hin. cbn. rewrite Hne; [apply Hm; by apply list_elem_of_further|]. intros ->. apply Hn.
    apply list_elem_of_fmap. by exists (fd, m'). }
  exists r. split; [rewrite E; by destruct e|]. split; [by destruct e|]. intros x. rewrite Hr. unfold told. cbn [list_to_map foldr ep_registered e1 ep_set_tables fst snd].
  destruct (decide (x = fd)) as [->|Hx].
  - rewrite (not_elem_of_list_to_map_1 l fd) by done. rewrite lookup_insert_eq. unfold r1, told_one.
    destruct (m =? 0); [by rewrite lookup_delete_eq|by rewrite lookup_insert_eq].
  - rewrite lookup_insert_ne by done. destruct (list_to_map l !! x); [done|]. by apply Hne.
Qed.

(** * Objects and descriptors *)

Definition fds (f : Z -> option Z) (l : list Z) : gset Z := list_to_set (omap f l).
Lemma elem_fds f l fd : fd ∈ fds f l <-> exists o, o ∈ l /\ f o = Some fd.
Proof. unfold fds. rewrite elem_of_list_to_set, list_elem_of_omap. naive_solver. Qed.

(** Objects that are open, each with a descriptor of its own. *)
Record usable (f : Z -> option Z) (open : gset Z) (l : list Z) : Prop := MkUsable {
  us_open : forall o, o ∈ l -> exists fd, f o = Some fd /\ fd ∈ open;
  us_own : forall o o' fd, o ∈ l -> o' ∈ l -> f o = Some fd -> f o' = Some fd -> o = o'
}.
Definition found (f : Z -> option Z) (l : list Z) (m : gmap Z Z) : Prop := forall o fd, o ∈ l -> f o = Some fd -> m !! fd = Some o.

Definition noted (f : Z -> option Z) (objs : list Z) (m : gmap Z Z) : gmap Z Z :=
  foldl (fun m o => match f o with Some fd => <[fd := o]> m | None => m end) m objs.
Lemma noted_lookup f objs m fd : noted f objs m !! fd = m !! fd \/ exists o, o ∈ objs /\ f o = Some fd /\ noted f objs m !! fd = Some o.
Proof.
  unfold noted. revert m. induction objs as [|x objs IH]; intros m; cbn [foldl]; [by left|]. destruct (IH (match f x with Some fd => <[fd := x]> m | None => m end)) as [H|(o & Ho & Hf & H)].
  - destruct (f x) as [fd'|] eqn:Ex; [|by left]. destruct (decide (fd' = fd)) as [->|]; [|left; by rewrite H, lookup_insert_ne].
    right. exists x. split; [apply list_elem_of_here|]. split; [done|]. by rewrite H, lookup_insert_eq.
  - right. exists o. split; [by apply list_elem_of_further|done].
Qed.
Lemma noted_last f objs m o fd : o ∈ objs -> f o = Some fd -> exists o', o' ∈ objs /\ f o' = Some fd /\ noted f objs m !! fd = Some o'.
Proof.
  unfold noted. revert m. induction objs as [|x objs IH]; intros m Ho Hf; [by apply elem_of_nil in Ho|]. cbn [foldl].
  set (m' := match f x with Some _ => _ | None => m end). apply elem_of_cons in Ho as [<-|Ho].
  - destruct (noted_lookup f objs m' fd) as [H|(o' & Ho' & H)]; [|exists o'; split; [by apply list_elem_of_further|done]].
    exists o. split; [apply list_elem_of_here|]. split; [done|]. unfold noted in H. rewrite H. unfold m'. by rewrite Hf, lookup_insert_eq.
  - destruct (IH m' Ho Hf) as (o' & H & ?). exists o'. split; [by apply list_elem_of_further|done].
Qed.
(** The objects of a list are found, and those of another that shares no descriptor with it still are. *)
Lemma noted_found f open objs all m : usable f open all -> (forall o, o ∈ objs -> o ∈ all) -> found f objs (noted f objs m).
Proof.
  intros Hu Hs o fd Ho Hf. destruct (noted_last f objs m o fd Ho Hf) as (o' & Ho' & Hf' & ->). f_equal. by apply (us_own _ _ _ Hu o' o fd); auto.
Qed.
Lemma noted_keeps f open objs l all m : usable f open all -> (forall o, o ∈ objs \/ o ∈ l -> o ∈ all) -> found f l m -> found f l (noted f objs m).
Proof.
  intros Hu Hs Hl o fd Ho Hf. destruct (noted_lookup f objs m fd) as [->|(o' & Ho' & Hf' & ->)]; [by apply Hl|]. f_equal. by apply (us_own _ _ _ Hu o' o fd); auto.
Qed.
Lemma note_objs_run objs current e : (forall o, o ∈ objs -> is_Some (ep_fileno e o)) ->
  note_objs objs current e = (Ok (fds (ep_fileno e) objs ∪ current), ep_set_objs (noted (ep_fileno e) objs (ep_fd_to_obj e)) e).
Proof.
  revert current e. induction objs as [|o objs IH]; intros current e Hs; cbn [note_objs].
  { unfold fds. cbn. rewrite (left_id_L ∅ (∪)). by destruct e. }
  rewrite bind_get. destruct (Hs o ltac:(apply list_elem_of_here)) as [fd Hf]. rewrite Hf. erewrite bind_ok by reflexivity.
  rewrite IH by (intros o' Ho'; cbn; apply Hs; by apply list_elem_of_further). cbn [ep_fileno ep_set_objs ep_fd_to_obj].
  f_equal; [f_equal|]; [|unfold noted; cbn [foldl]; by rewrite Hf]. unfold fds. cbn [omap list_omap]. rewrite Hf. cbn. set_solver.
Qed.

(** * The invariant *)

Definition watched (f : Z -> option Z) (rl wl : list Z) (fd : Z) : option Z :=
  mask_of (bool_decide (fd ∈ fds f rl)) (bool_decide (fd ∈ fds f wl)).
Abbreviation last_r e := (the_list (ep_lastrl e) e).
Abbreviation last_w e := (the_list (ep_lastwl e) e).

Record watch_ok (e : EpollSelect) : Prop := MkWatch {
  wa_step : in_step e;
  wa_mask : forall fd, ep_registered e !! fd = watched (ep_fileno e) (last_r e) (last_w e) fd;
  wa_rset : ep_lastrl_set e = fds (ep_fileno e) (last_r e);
  wa_wset : ep_lastwl_set e = fds (ep_fileno e) (last_w e);
  wa_robjs : found (ep_fileno e) (last_r e) (ep_fd_to_obj e);
  wa_wobjs : found (ep_fileno e) (last_w e) (ep_fd_to_obj e)
}.
Lemma watch_init open f : watch_ok (EpollSelect_init open f).
Proof. split; try done; [split; [done|]; by intros fd [? ?]|by intros o fd ?%elem_of_nil..]. Qed.

(** What [modify_table] asks for. *)
Definition change (registered : gmap Z Z) (op : Z) (old new : gset Z) (modify : gmap Z Z) (x : Z) : option Z :=
  if decide (x ∈ new ∖ old) then Some (Z.lor (mask_now registered modify x) op)
  else if decide (x ∈ old ∖ new) then Some (Z.land (mask_now registered modify x) (Z.lnot op))
  else modify !! x.
Lemma modify_table_run objs old op modify e : (forall o, o ∈ objs -> is_Some (ep_fileno e o)) -> exists m,
  modify_table objs old op modify e = (Ok (fds (ep_fileno e) objs, m), ep_set_objs (noted (ep_fileno e) objs (ep_fd_to_obj e)) e) /\
  forall x, m !! x = change (ep_registered e) op old (fds (ep_fileno e) objs) modify x.
Proof.
  intros Hs. unfold modify_table. erewrite bind_ok by (by apply note_objs_run). rewrite (right_id_L ∅ (∪)). rewrite bind_get. set (cur := fds _ _).
  eexists. split; [reflexivity|]. intros x. unfold del_ops, add_ops, change. cbn [ep_registered ep_set_objs].
  rewrite (ops_lookup _ (fun v => Z.land v (Z.lnot op))) by apply NoDup_elements.
  set (m1 := foldl _ _ _). assert (forall y, m1 !! y = if decide (y ∈ elements (cur ∖ old)) then Some (Z.lor (mask_now (ep_registered e) modify y) op) else modify !! y) as Hm1.
  { intros y. apply (ops_lookup _ (fun v => Z.lor v op)). apply NoDup_elements. }
  rewrite !Hm1. unfold mask_now at 1. rewrite Hm1.
  destruct (decide (x ∈ elements (old ∖ cur))) as [Hx|Hx], (decide (x ∈ elements (cur ∖ old))) as [Hy|Hy];
    rewrite elem_of_elements in Hx, Hy.
  - set_solver.
  - rewrite decide_False, decide_True by done. done.
  - by rewrite decide_True by done.
  - by rewrite !decide_False by done.
Qed.

Section asking.
Variable fileno : Z -> option Z.

(** The mask that is asked for by the readers and the writers. *)
Definition inside (l : list Z) (x : Z) : bool := bool_decide (x ∈ fds fileno l).
Definition ask (r w : bool) : Z := default 0 (mask_of r w).
Lemma ask_told r w : (if ask r w =? 0 then None else Some (ask r w)) = mask_of r w.
Proof. by destruct r, w. Qed.
Lemma ask_nonzero r w : r || w = true -> ask r w <> 0.
Proof. by destruct r, w. Qed.
Lemma mask_of_nonzero r w : mask_of r w <> Some 0.
Proof. by destruct r, w. Qed.
Lemma ask_set (x : Z) (old new : gset Z) (f : bool -> Z) op m :
  m = f (bool_decide (x ∈ old)) -> (forall b, Z.lor (f b) op = f true) -> (forall b, Z.land (f b) (Z.lnot op) = f false) ->
  (if decide (x ∈ new ∖ old) then Z.lor m op else if decide (x ∈ old ∖ new) then Z.land m (Z.lnot op) else m) = f (bool_decide (x ∈ new)).
Proof.
  intros -> Hor Hand. destruct (decide (x ∈ new ∖ old)) as [H|H].
  { rewrite Hor. by rewrite (bool_decide_true (x ∈ new)) by set_solver. }
  destruct (decide (x ∈ old ∖ new)) as [H'|H'].
  { rewrite Hand. by rewrite (bool_decide_false (x ∈ new)) by set_solver. }
  destruct (decide (x ∈ new)).
  - by rewrite !bool_decide_true by set_solver.
  - by rewrite !bool_decide_false by set_solver.
Qed.
Lemma mask_now_change registered op old new modify m x : m !! x = change registered op old new modify x ->
  mask_now registered m x = if decide (x ∈ new ∖ old) then Z.lor (mask_now registered modify x) op
    else if decide (x ∈ old ∖ new) then Z.land (mask_now registered modify x) (Z.lnot op) else mask_now registered modify x.
Proof.
  intros Hm. unfold mask_now at 1. rewrite Hm. unfold change.
  destruct (decide (x ∈ new ∖ old)); [done|]. destruct (decide (x ∈ old ∖ new)); done.
Qed.

(** Half of a call: the objects of one kind are noted and asked for. *)
Definition asked (registered modify : gmap Z Z) (rl wl : list Z) : Prop :=
  forall x, mask_now registered modify x = ask (inside rl x) (inside wl x) /\
    (is_Some (modify !! x) -> is_Some (registered !! x) \/ x ∈ fds fileno rl \/ x ∈ fds fileno wl).

Lemma asked_read registered modify m rl rl' wl : (forall x, registered !! x = None -> x ∉ fds fileno rl) -> asked registered modify rl wl ->
  (forall x, m !! x = change registered (Z.lor EPOLLIN EPOLLPRI) (fds fileno rl) (fds fileno rl') modify x) ->
  (forall x, is_Some (modify !! x) -> is_Some (registered !! x)) -> asked registered m rl' wl.
Proof.
  intros Hr Ha Hm Hmod x. destruct (Ha x) as [Hx Hs]. split.
  - rewrite (mask_now_change _ _ _ _ _ _ _ (Hm x)). apply (ask_set x _ _ (fun b => ask b (inside wl x))); [done| |]; intros []; by destruct (inside wl x).
  - rewrite Hm. unfold change. destruct (decide (x ∈ fds fileno rl' ∖ _)); [set_solver|].
    destruct (decide (x ∈ _ ∖ _)) as [H|H]; [|by left; apply Hmod]. intros _. left. destruct (registered !! x) eqn:E; [done|]. apply Hr in E. set_solver.
Qed.
Lemma asked_write registered modify m rl wl wl' : (forall x, registered !! x = None -> x ∉ fds fileno wl) -> asked registered modify rl wl ->
  (forall x, is_Some (modify !! x) -> is_Some (registered !! x) \/ x ∈ fds fileno rl) ->
  (forall x, m !! x = change registered EPOLLOUT (fds fileno wl) (fds fileno wl') modify x) -> asked registered m rl wl'.
Proof.
  intros Hw Ha Hmod Hm x. destruct (Ha x) as [Hx Hs]. split.
  - rewrite (mask_now_change _ _ _ _ _ _ _ (Hm x)). apply (ask_set x _ _ (fun b => ask (inside rl x) b)); [done| |]; intros []; by destruct (inside rl x).
  - rewrite Hm. unfold change. destruct (decide (x ∈ fds fileno wl' ∖ _)); [set_solver|].
    destruct (decide (x ∈ _ ∖ _)) as [H|H]; [|intros [?|?]%Hmod; auto]. intros _. left. destruct (registered !! x) eqn:E; [done|]. apply Hw in E. set_solver.
Qed.
End asking.

Lemma unwatched e x : watch_ok e -> ep_registered e !! x = None -> x ∉ fds (ep_fileno e) (last_r e) /\ x ∉ fds (ep_fileno e) (last_w e).
Proof.
  intros W. rewrite (wa_mask _ W). unfold watched. by case_bool_decide; case_bool_decide.
Qed.
Lemma asked_nothing e : watch_ok e -> asked (ep_fileno e) (ep_registered e) ∅ (last_r e) (last_w e).
Proof.
  intros W x. split; [|rewrite lookup_empty; by intros [? ?]]. unfold mask_now. by rewrite lookup_empty, (wa_mask _ W).
Qed.

(** What a call leaves alone. *)
Record same_world e e1 : Prop := MkSameWorld {
  sw_open : ep_open e1 = ep_open e;
  sw_lists : ep_lists e1 = ep_lists e;
  sw_fileno : ep_fileno e1 = ep_fileno e;
  sw_table : ep_table e1 = ep_table e;
  sw_registered : ep_registered e1 = ep_registered e
}.
(** What is known half way. *)
Record half (e e1 : EpollSelect) (rl : list Z) (m : gmap Z Z) : Prop := MkHalf {
  hf_same : same_world e e1;
  hf_rl : the_list (ep_lastrl e1) e = rl;
  hf_rset : ep_lastrl_set e1 = fds (ep_fileno e) rl;
  hf_wl : ep_lastwl e1 = ep_lastwl e;
  hf_wset : ep_lastwl_set e1 = fds (ep_fileno e) (last_w e);
  hf_asked : asked (ep_fileno e) (ep_registered e) m rl (last_w e);
  hf_reads : forall x, is_Some (m !! x) -> is_Some (ep_registered e !! x) \/ x ∈ fds (ep_fileno e) rl;
  hf_robjs : found (ep_fileno e) rl (ep_fd_to_obj e1);
  hf_wobjs : last_w e = [] \/ ep_fd_to_obj e1 = ep_fd_to_obj e \/ ep_fd_to_obj e1 = noted (ep_fileno e) rl (ep_fd_to_obj e)
}.
Lemma read_half p e all : watch_ok e -> usable (ep_fileno e) (ep_open e) all -> (forall o, o ∈ the_list p e -> o ∈ all) -> exists m e1,
  (if bool_decide (the_list p e = last_r e) then mret ∅
   else '(s, m) ← modify_table (the_list p e) (ep_lastrl_set e) (Z.lor EPOLLIN EPOLLPRI) ∅;
        e ← get; '_ ← put (ep_set_rl p s e); mret m) e = (Ok m, e1) /\ half e e1 (the_list p e) m.
Proof.
  intros W Hu Hall. pose proof (asked_nothing e W) as Ha. pose proof W as [Ws Wm Wr Ww Wro Wwo]. case_bool_decide as Hrl.
  { exists ∅, e. rewrite Hrl. split; [done|]. split; try done; [by intros x; rewrite lookup_empty; intros [? ?]|]. auto. }
  destruct (modify_table_run (the_list p e) (ep_lastrl_set e) (Z.lor EPOLLIN EPOLLPRI) ∅ e) as (m & E & Hm).
  { intros o Ho. destruct (us_open _ _ _ Hu o) as (fd & -> & _); [by apply Hall|by eexists]. }
  rewrite Wr in Hm.
  exists m, (ep_set_rl p (fds (ep_fileno e) (the_list p e)) (ep_set_objs (noted (ep_fileno e) (the_list p e) (ep_fd_to_obj e)) e)).
  erewrite bind_ok by exact E. split; [done|].
  assert (asked (ep_fileno e) (ep_registered e) m (the_list p e) (last_w e)) as Ha'.
  { apply (asked_read _ _ ∅ m (last_r e) (the_list p e)); [|done|done|by intros x; rewrite lookup_empty; intros [? ?]].
    intros x Hx. by destruct (unwatched e x W Hx). }
  split; try done; [| |by right; right].
  - intros x Hx. destruct (ep_registered e !! x) eqn:Ex; [by left; eexists|]. right. destruct (unwatched e x W Ex) as [Hu1 Hu2].
    destruct (proj2 (Ha' x) Hx) as [H|[H|H]]; [rewrite Ex in H; by destruct H|done|done].
  - by apply (noted_found _ (ep_open e) _ all).
Qed.

(** A call of [select] leaves the kernel watching what it was asked. *)
Lemma tell_run p q e all : watch_ok e -> usable (ep_fileno e) (ep_open e) all -> (forall o, o ∈ the_list p e \/ o ∈ the_list q e -> o ∈ all) ->
  exists e', epoll_tell p q e = (Ok tt, e') /\ watch_ok e' /\ last_r e' = the_list p e /\ last_w e' = the_list q e /\
    ep_fileno e' = ep_fileno e /\ ep_open e' = ep_open e /\ ep_lists e' = ep_lists e.
Proof.
  intros W Hu Hall. destruct (read_half p e all W Hu) as (m1 & e1 & E1 & []); [auto|]. destruct hf_same0 as [So Sl Sf St Sr].
  unfold epoll_tell. rewrite bind_get. erewrite bind_ok by exact E1. rewrite bind_get. clear E1.
  set (rl := the_list p e) in *. set (wl := the_list q e) in *. assert (the_list q e1 = wl) as Eq by (unfold the_list; by rewrite Sl).
  assert (last_w e1 = last_w e) as Elw by (unfold the_list; by rewrite Sl, hf_wl0). rewrite Eq, Elw.
  assert (exists m e2, (if bool_decide (wl = last_w e) then mret m1
            else '(s, m) ← modify_table wl (ep_lastwl_set e1) EPOLLOUT m1;
                 e ← get; '_ ← put (ep_set_wl q s e); mret m) e1 = (Ok m, e2) /\
    same_world e e2 /\ the_list (ep_lastrl e2) e = rl /\ ep_lastrl_set e2 = fds (ep_fileno e) rl /\
    the_list (ep_lastwl e2) e = wl /\ ep_lastwl_set e2 = fds (ep_fileno e) wl /\ asked (ep_fileno e) (ep_registered e) m rl wl /\
    found (ep_fileno e) rl (ep_fd_to_obj e2) /\ found (ep_fileno e) wl (ep_fd_to_obj e2)) as (m & e2 & E2 & [To Tl Tf Tt Tr] & Hrl & Hrs & Hwl & Hws & Ha & Hor & How).
  { case_bool_decide as Hwl.
    - exists m1, e1. rewrite <-Hwl in *. split; [done|]. split_and!; try done; [by rewrite hf_wl0|].
      destruct hf_wobjs0 as [->|[->| ->]]; [by intros o fd ?%elem_of_nil|rewrite Hwl; apply (wa_wobjs _ W)|].
      apply (noted_keeps _ (ep_open e) _ _ all); [done|naive_solver|]. rewrite Hwl. apply (wa_wobjs _ W).
    - destruct (modify_table_run wl (ep_lastwl_set e1) EPOLLOUT m1 e1) as (m & E & Hm).
      { intros o Ho. rewrite Sf. destruct (us_open _ _ _ Hu o) as (fd & -> & _); [by apply Hall; right|by eexists]. }
      rewrite hf_wset0, Sr, Sf in Hm. rewrite Sf in E.
      eexists m, _. erewrite bind_ok by exact E. split; [reflexivity|]. cbn. split_and!; try done.
      + apply (asked_write _ _ m1 m rl (last_w e) wl); [|done|done|done]. intros x Hx. by destruct (unwatched e x W Hx).
      + apply (noted_keeps _ (ep_open e) _ _ all); [done|naive_solver|done].
      + apply (noted_found _ (ep_open e) _ all); [done|auto]. }
  erewrite bind_ok by exact E2. clear E2.
  destruct (apply_all_run (map_to_list m) e2) as (r & Er & Hs & Hr').
  { destruct (wa_step _ W) as [H1 H2]. split; [by rewrite Tt, Tr|]. by rewrite Tt, To. }
  { apply NoDup_fst_map_to_list. }
  { intros fd mask Hin%elem_of_map_to_list. rewrite Tr, To. intros Hn. destruct (Ha fd) as [H1 H2]. unfold mask_now in H1. rewrite Hin in H1. subst mask.
    unfold inside. assert (forall l, fd ∈ fds (ep_fileno e) l -> (forall o, o ∈ l -> o ∈ all) -> fd ∈ ep_open e) as Hopen.
    { intros l (o & Ho & Hf)%elem_fds Hl. destruct (us_open _ _ _ Hu o (Hl o Ho)) as (fd' & Hf' & ?). by rewrite Hf in Hf'; injection Hf' as ->. }
    destruct (H2 ltac:(by eexists)) as [H|[H|H]]; [rewrite Hn in H; by destruct H| |].
    - split; [|apply (Hopen rl H); auto]. rewrite (bool_decide_true (fd ∈ fds _ rl)) by done. by apply ask_nonzero.
    - split; [|apply (Hopen wl H); auto]. rewrite (bool_decide_true (fd ∈ fds _ wl)) by done. apply ask_nonzero, orb_true_r. }
  assert (the_list (ep_lastrl e2) e2 = rl) as Er2 by (unfold the_list in *; by rewrite Tl). assert (the_list (ep_lastwl e2) e2 = wl) as Ew2 by (unfold the_list in *; by rewrite Tl).
  exists (ep_set_tables r r e2). split; [done|]. split; [|done].
  assert (last_r (ep_set_tables r r e2) = rl) as Er3 by exact Er2. assert (last_w (ep_set_tables r r e2) = wl) as Ew3 by exact Ew2.
  split; rewrite ?Er3, ?Ew3; cbn [ep_fileno ep_registered ep_lastrl_set ep_lastwl_set ep_fd_to_obj ep_set_tables]; rewrite ?Tf; try done.
  intros fd. rewrite Hr', Tr, list_to_map_to_list. unfold told, watched. fold (inside (ep_fileno e) rl fd) (inside (ep_fileno e) wl fd).
  destruct (Ha fd) as [H1 _]. unfold mask_now in H1. destruct (m !! fd) as [v|].
  - subst v. apply ask_told.
  - destruct (ep_registered e !! fd) as [v|] eqn:Ev; cbn in H1.
    + rewrite <-ask_told, <-H1. destruct (Z.eqb_spec v 0) as [->|]; [|done]. rewrite (wa_mask _ W) in Ev. by apply mask_of_nonzero in Ev.
    + by rewrite <-ask_told, <-H1.
Qed.

(** * What comes back *)

(** What the manual says of [poll]: the events of a descriptor are those asked for, errors and
    hang-ups always among them. [ready] is the state of the descriptors. *)
Definition poll_ok (table : gmap Z Z) (ready : Z -> Z) (events : list (Z * Z)) : Prop :=
  forall fd ev, (fd, ev) ∈ events <-> exists mask, table !! fd = Some mask /\ ev = Z.land (ready fd) (Z.lor mask ERROR_EVENTS) /\ ev <> 0.

Lemma pick_run objs mask events : (forall fd ev, (fd, ev) ∈ events -> is_Some (objs !! fd)) ->
  exists l, pick objs mask events = Ok l /\ forall o, o ∈ l <-> exists fd ev, (fd, ev) ∈ events /\ has ev mask = true /\ objs !! fd = Some o.
Proof.
  induction events as [|[fd ev] events IH]; intros Hobjs.
  { exists []. split; [done|]. intros o. split; [by intros ?%elem_of_nil|]. by intros (? & ? & ?%elem_of_nil & _). }
  destruct IH as (l & E & Hl); [intros fd' ev' H; apply (Hobjs fd' ev'); by apply list_elem_of_further|]. cbn [pick].
  destruct (has ev mask) eqn:Hh.
  - destruct (Hobjs fd ev ltac:(apply list_elem_of_here)) as [x Hx]. rewrite Hx, E. exists (x :: l). split; [done|]. intros o. rewrite elem_of_cons, Hl. split.
    + intros [->|(fd' & ev' & H & ?)]; [exists fd, ev; split; [apply list_elem_of_here|done]|exists fd', ev'; split; [by apply list_elem_of_further|done]].
    + intros (fd' & ev' & [[= -> ->]|H]%elem_of_cons & Hh' & Ho); [left; congruence|right; by exists fd', ev'].
  - exists l. split; [done|]. intros o. rewrite Hl. split; intros (fd' & ev' & H & Hh' & Ho); exists fd', ev'.
    + split; [by apply list_elem_of_further|done].
    + apply elem_of_cons in H as [[= -> ->]|H]; [congruence|done].
Qed.

Lemma has_asked ready mask want : has (Z.land ready mask) want = has ready (Z.land mask want).
Proof. unfold has. by rewrite Z.land_assoc. Qed.
Lemma has_nonzero ev want : has ev want = true -> ev <> 0.
Proof. intros H ->. done. Qed.


(** What the descriptor of an object can do. *)
Definition state_of (ready : Z -> Z) (f : Z -> option Z) (o : Z) : Z := match f o with Some fd => ready fd | None => 0 end.

Lemma in_fds f open all l o fd : usable f open all -> o ∈ all -> (forall x, x ∈ l -> x ∈ all) -> f o = Some fd -> fd ∈ fds f l <-> o ∈ l.
Proof.
  intros Hu Ho Hl Hf. rewrite elem_fds. split; [|intros H; by exists o]. intros (o' & Ho' & Hf'). by rewrite (us_own _ _ _ Hu o o' fd) by auto.
Qed.
Lemma watched_object e fd mask : watch_ok e -> ep_table e !! fd = Some mask ->
  exists o, (o ∈ last_r e \/ o ∈ last_w e) /\ ep_fileno e o = Some fd /\ ep_fd_to_obj e !! fd = Some o.
Proof.
  intros W. rewrite (proj1 (wa_step _ W)), (wa_mask _ W). unfold watched. intros H.
  assert (fd ∈ fds (ep_fileno e) (last_r e) \/ fd ∈ fds (ep_fileno e) (last_w e)) as [(o & Ho & Hf)%elem_fds|(o & Ho & Hf)%elem_fds]
    by (case_bool_decide; [by left|]; case_bool_decide; [by right|done]); exists o; split_and!; auto.
  - by apply (wa_robjs _ W).
  - by apply (wa_wobjs _ W).
Qed.

Definition own_objects e : Prop := usable (ep_fileno e) (ep_open e) (last_r e ++ last_w e).
Lemma watched_mask e o fd : watch_ok e -> own_objects e -> o ∈ last_r e ++ last_w e -> ep_fileno e o = Some fd ->
  ep_table e !! fd = mask_of (bool_decide (o ∈ last_r e)) (bool_decide (o ∈ last_w e)).
Proof.
  intros W Hu Ho Hf. rewrite (proj1 (wa_step _ W)), (wa_mask _ W). unfold watched.
  f_equal; apply bool_decide_ext, (in_fds _ _ _ _ _ _ Hu Ho); try done; intros x Hx; apply elem_of_app; auto.
Qed.

(** One of the three lists. *)
Lemma picked e ready events want (q : bool -> bool -> Z) : watch_ok e -> own_objects e -> poll_ok (ep_table e) ready events ->
  (forall r w m, mask_of r w = Some m -> Z.land (Z.lor m ERROR_EVENTS) want = q r w) -> q false false = 0 ->
  exists l, pick (ep_fd_to_obj e) want events = Ok l /\
    forall o, o ∈ l <-> has (state_of ready (ep_fileno e) o) (q (bool_decide (o ∈ last_r e)) (bool_decide (o ∈ last_w e))) = true.
Proof.
  intros W Hu Hp Hq Hq0. destruct (pick_run (ep_fd_to_obj e) want events) as (l & E & Hl).
  { intros fd ev (mask & Ht & _)%Hp. destruct (watched_object e fd mask W Ht) as (o & _ & _ & ->). by eexists. }
  exists l. split; [done|]. intros o. rewrite Hl. split.
  - intros (fd & ev & (mask & Hm & -> & _)%Hp & Hh & Ho). destruct (watched_object e fd mask W Hm) as (o' & Hin & Hf & Ho').
    rewrite Ho in Ho'. injection Ho' as <-. unfold state_of. rewrite Hf. rewrite (watched_mask e o fd W Hu) in Hm; [|by apply elem_of_app|done].
    rewrite has_asked in Hh. by rewrite (Hq _ _ _ Hm) in Hh.
  - intros Hh. destruct (decide (o ∈ last_r e ++ last_w e)) as [Ho|Ho].
    + destruct (us_open _ _ _ Hu o Ho) as (fd & Hf & _). unfold state_of in Hh. rewrite Hf in Hh. pose proof (watched_mask e o fd W Hu Ho Hf) as Ht.
      destruct (mask_of _ _) as [mask|] eqn:Hm.
      * rewrite <-(Hq _ _ _ Hm), <-has_asked in Hh. exists fd, (Z.land (ready fd) (Z.lor mask ERROR_EVENTS)). split_and!; [|done|].
        -- apply Hp. exists mask. split_and!; [done|done|by apply (has_nonzero _ want)].
        -- apply elem_of_app in Ho as [Ho|Ho]; [by apply (wa_robjs _ W)|by apply (wa_wobjs _ W)].
      * destruct (bool_decide (o ∈ last_r e)), (bool_decide (o ∈ last_w e)); try done. rewrite Hq0 in Hh. unfold has in Hh. by rewrite Z.land_0_r in Hh.
    + rewrite elem_of_app in Ho. rewrite !bool_decide_false, Hq0 in Hh by tauto. unfold has in Hh. by rewrite Z.land_0_r in Hh.
Qed.

(** ** The uses of a selector *)

(** What may happen between calls: lists change, but not those that the selector holds; files are opened, and closed, but
    not those that it watches; the objects it was given last keep their descriptors. *)
Inductive outside : EpollSelect -> EpollSelect -> Prop :=
  | out_list p l e : p <> ep_lastrl e -> p <> ep_lastwl e -> outside e (list_changes p l e)
  | out_open fd e : outside e (file_opens fd e)
  | out_close fd e : ep_registered e !! fd = None -> outside e (file_closes fd e)
  | out_fileno f e : (forall o, o ∈ last_r e \/ o ∈ last_w e -> f o = ep_fileno e o) -> outside e (ep_set_fileno f e).
(** The objects of a call are open, and no two have the same descriptor. *)
Definition callable (rl wl : positive) e : Prop := usable (ep_fileno e) (ep_open e) (the_list rl e ++ the_list wl e).
Inductive epoll_used : EpollSelect -> Prop :=
  | used_new open f : epoll_used (EpollSelect_init open f)
  | used_outside e e' : epoll_used e -> outside e e' -> epoll_used e'
  | used_select rl wl xl events r e e' : epoll_used e -> callable rl wl e -> epoll_select rl wl xl events e = (r, e') -> epoll_used e'.

Lemma outside_watch e e' : outside e e' -> watch_ok e -> watch_ok e'.
Proof.
  intros [p l e0 Hr Hw|fd e0|fd e0 Hn|f e0 Hf] [[W0 W1] W2 W3 W4 W5 W6].
  - assert (last_r (list_changes p l e0) = last_r e0) as Er by (unfold the_list; cbn; by rewrite lookup_insert_ne).
    assert (last_w (list_changes p l e0) = last_w e0) as Ew by (unfold the_list; cbn; by rewrite lookup_insert_ne).
    split; rewrite ?Er, ?Ew; done.
  - split; try done. split; [done|]. intros x Hx. cbn. apply elem_of_union. right. by apply W1.
  - rewrite <-W0 in Hn. split; try done. split; cbn; [by rewrite delete_id|]. intros x Hx. rewrite delete_id in Hx by done.
    apply elem_of_difference. split; [by apply W1|]. intros ->%elem_of_singleton. rewrite Hn in Hx. by destruct Hx.
  - assert (forall l, (forall o, o ∈ l -> o ∈ last_r e0 \/ o ∈ last_w e0) -> fds f l = fds (ep_fileno e0) l) as Hfds.
    { intros l Hl. apply set_eq. intros x. rewrite !elem_fds. split; intros (o & Ho & Hx); exists o; (split; [done|]); [rewrite <-Hf by auto|rewrite Hf by auto]; done. }
    assert (fds f (last_r e0) = fds (ep_fileno e0) (last_r e0)) as Er by (apply Hfds; auto).
    assert (fds f (last_w e0) = fds (ep_fileno e0) (last_w e0)) as Ew by (apply Hfds; auto).
    split; cbn [ep_fileno ep_registered ep_lastrl_set ep_lastwl_set ep_fd_to_obj ep_set_fileno ep_table ep_open in_step]; try done.
    + intros fd. rewrite W2. unfold watched. change (last_r (ep_set_fileno f e0)) with (last_r e0). change (last_w (ep_set_fileno f e0)) with (last_w e0). by rewrite Er, Ew.
    + rewrite W3. symmetry. exact Er.
    + rewrite W4. symmetry. exact Ew.
    + intros o fd Ho Hfd. change (o ∈ last_r e0) in Ho. rewrite Hf in Hfd by auto. by apply W5.
    + intros o fd Ho Hfd. change (o ∈ last_w e0) in Ho. rewrite Hf in Hfd by auto. by apply W6.
Qed.
Lemma select_state rl wl xl events e e1 : epoll_tell rl wl e = (Ok tt, e1) -> (epoll_select rl wl xl events e).2 = e1.
Proof.
  intros E. unfold epoll_select. erewrite bind_ok by exact E. rewrite bind_get.
  destruct (pick _ READ_EVENTS _); [|done]. destruct (pick _ WRITE_EVENTS _); [|done]. by destruct (pick _ ERROR_EVENTS _).
Qed.
Lemma tell_called rl wl e : watch_ok e -> callable rl wl e ->
  exists e', epoll_tell rl wl e = (Ok tt, e') /\ watch_ok e' /\ last_r e' = the_list rl e /\ last_w e' = the_list wl e /\
    ep_fileno e' = ep_fileno e /\ ep_open e' = ep_open e.
Proof.
  intros W Hu. destruct (tell_run rl wl e _ W Hu) as (e' & E & W' & Hr & Hw & Hf & Ho & _); [intros o; by rewrite elem_of_app|]. by exists e'.
Qed.
Lemma used_watch e : epoll_used e -> watch_ok e.
Proof.
  induction 1 as [open f|e e' _ IH H|rl wl xl events r e e' _ IH Hc E]; [apply watch_init|by apply (outside_watch e)|].
  destruct (tell_called rl wl e IH Hc) as (e1 & E1 & W & _).
  pose proof (select_state rl wl xl events e e1 E1) as H. rewrite E in H. cbn in H. by subst.
Qed.

(** A call, with what comes back. *)
Lemma select_run e rl wl xl : epoll_used e -> callable rl wl e ->
  exists e', epoll_tell rl wl e = (Ok tt, e') /\ watch_ok e' /\ last_r e' = the_list rl e /\ last_w e' = the_list wl e /\
    ep_fileno e' = ep_fileno e /\ own_objects e' /\
    forall ready events, poll_ok (ep_table e') ready events ->
    exists r w x, epoll_select rl wl xl events e = (Ok (r, w, x), e') /\
      pick (ep_fd_to_obj e') READ_EVENTS events = Ok r /\ pick (ep_fd_to_obj e') WRITE_EVENTS events = Ok w /\
      pick (ep_fd_to_obj e') ERROR_EVENTS events = Ok x /\
      forall o, let can := has (state_of ready (ep_fileno e) o) in
        (o ∈ r <-> o ∈ the_list rl e /\ can (Z.lor EPOLLIN EPOLLPRI) = true) /\
        (o ∈ w <-> o ∈ the_list wl e /\ can EPOLLOUT = true) /\
        (o ∈ x <-> (o ∈ the_list rl e \/ o ∈ the_list wl e) /\ can ERROR_EVENTS = true).
Proof.
  intros W%used_watch Hc. destruct (tell_called rl wl e W Hc) as (e' & E & W' & Hrl & Hwl & Hf & Hop). exists e'.
  assert (own_objects e') as Ho by (unfold own_objects; by rewrite Hrl, Hwl, Hf, Hop). split_and!; [done..|].
  intros ready events Hp.
  destruct (picked e' ready events READ_EVENTS (fun r _ => if r then Z.lor EPOLLIN EPOLLPRI else 0) W' Ho Hp) as (r & Er & Hr); [by intros [] [] m [= <-]|done|].
  destruct (picked e' ready events WRITE_EVENTS (fun _ w => if w then EPOLLOUT else 0) W' Ho Hp) as (w & Ew & Hw); [by intros [] [] m [= <-]|done|].
  destruct (picked e' ready events ERROR_EVENTS (fun r w => if r || w then ERROR_EVENTS else 0) W' Ho Hp) as (x & Ex & Hx); [by intros [] [] m [= <-]|done|].
  exists r, w, x. split; [unfold epoll_select; erewrite bind_ok by exact E; rewrite bind_get; by rewrite Er, Ew, Ex|]. split_and!; [done..|].
  intros o. cbv zeta. rewrite Hr, Hw, Hx, Hrl, Hwl, Hf. assert (forall z, has z 0 = false) as H0 by (intros z; unfold has; by rewrite Z.land_0_r).
  do 2 case_bool_decide; cbn [orb]; rewrite ?H0; naive_solver.
Qed.

(** C11: [EpollSelect] does what [select] does, for a caller that keeps to this: it does not change a list that the selector
    holds, nor close a file that is watched before it has called without it; what it asks for is open, with a descriptor of its own.
    Then, however it was used before, a call returns, the kernel watches
    exactly the objects of the two lists; the first list that comes back holds the readers with something to read, the second
    the writers that can be written, the third the objects of both lists with an error, whatever [xl] says. *)
Theorem epoll_like_select e rl wl xl : epoll_used e -> callable rl wl e ->
  exists e', epoll_tell rl wl e = (Ok tt, e') /\
    (forall fd, ep_table e' !! fd = mask_of (bool_decide (fd ∈ fds (ep_fileno e) (the_list rl e))) (bool_decide (fd ∈ fds (ep_fileno e) (the_list wl e)))) /\
    forall ready events, poll_ok (ep_table e') ready events ->
    exists r w x, epoll_select rl wl xl events e = (Ok (r, w, x), e') /\
      forall o, let can := has (state_of ready (ep_fileno e) o) in
        (o ∈ r <-> o ∈ the_list rl e /\ can (Z.lor EPOLLIN EPOLLPRI) = true) /\
        (o ∈ w <-> o ∈ the_list wl e /\ can EPOLLOUT = true) /\
        (o ∈ x <-> (o ∈ the_list rl e \/ o ∈ the_list wl e) /\ can ERROR_EVENTS = true).
Proof.
  intros Hu Hc. destruct (select_run e rl wl xl Hu Hc) as (e' & E & W & Hrl & Hwl & Hf & _ & H). exists e'. split; [done|]. split.
  { intros fd. rewrite (proj1 (wa_step _ W)), (wa_mask _ W), Hrl, Hwl, Hf. done. }
  intros ready events Hp. destruct (H ready events Hp) as (r & w & x & Es & _ & _ & _ & Ho). by exists r, w, x.
Qed.

(** What else callers do: the selector compares the list it was given last with itself, and sees nothing of what it has become; *)
Lemma changed_list_unseen l e : let e' := list_changes (ep_lastrl e) l e in epoll_tell (ep_lastrl e) (ep_lastwl e) e' = (Ok tt, e').
Proof.
  cbv zeta. unfold epoll_tell. rewrite bind_get. rewrite bool_decide_true by done. erewrite bind_ok by reflexivity. rewrite bind_get.
  rewrite bool_decide_true by done. erewrite bind_ok by reflexivity. by rewrite map_to_list_empty.
Qed.
(** and where a file was closed and another opened with its number, it thinks this one watched. *)
Lemma reopened_unwatched fd e : ep_table (file_opens fd (file_closes fd e)) !! fd = None /\
  ep_registered (file_opens fd (file_closes fd e)) = ep_registered e.
Proof. cbn. by rewrite lookup_delete_eq. Qed.

(** * Under the hub *)

Lemma pick_NoDup (f : Z -> option Z) objs mask events l : (forall fd ev o, (fd, ev) ∈ events -> objs !! fd = Some o -> f o = Some fd) ->
  NoDup events.*1 -> pick objs mask events = Ok l -> NoDup l.
Proof.
  intros Hobjs. enough (NoDup events.*1 -> pick objs mask events = Ok l -> NoDup l /\ forall o, o ∈ l -> exists fd, f o = Some fd /\ fd ∈ events.*1) by naive_solver.
  revert l. induction events as [|[fd ev] events IH]; intros l; cbn [pick fmap list_fmap fst].
  { intros _ [= <-]. split; [constructor|by intros o ?%elem_of_nil]. }
  assert (forall fd' ev' o, (fd', ev') ∈ events -> objs !! fd' = Some o -> f o = Some fd') as Hobjs' by (intros fd' ev' o H; apply (Hobjs fd' ev'); by apply list_elem_of_further).
  intros [Hn Hd]%NoDup_cons. destruct (has ev mask).
  - destruct (objs !! fd) as [x|] eqn:Hx; [|done]. destruct (pick objs mask events) as [l'|] eqn:E; [|done]. intros [= <-].
    destruct (IH Hobjs' l' Hd eq_refl) as [Hd' Hin]. apply (Hobjs fd ev) in Hx as Hf; [|apply list_elem_of_here]. split.
    + constructor; [|done]. intros (fd' & Hf' & ?)%Hin. congruence.
    + intros o [->|Ho]%elem_of_cons; [exists fd; split; [done|apply list_elem_of_here]|]. destruct (Hin o Ho) as (fd' & ? & ?).
      exists fd'. split; [done|by apply list_elem_of_further].
  - intros E. destruct (IH Hobjs' l Hd E) as [Hd' Hin]. split; [done|]. intros o Ho. destruct (Hin o Ho) as (fd' & ? & ?). exists fd'. split; [done|by apply list_elem_of_further].
Qed.

(** An event that is reported is in one of the lists. *)
Lemma event_is_seen r w mask ready : mask_of r w = Some mask -> Z.land ready (Z.lor mask ERROR_EVENTS) <> 0 ->
  has (Z.land ready (Z.lor mask ERROR_EVENTS)) READ_EVENTS || has (Z.land ready (Z.lor mask ERROR_EVENTS)) WRITE_EVENTS ||
  has (Z.land ready (Z.lor mask ERROR_EVENTS)) ERROR_EVENTS = true.
Proof.
  intros Hm Hne. set (m := Z.lor mask ERROR_EVENTS) in *. apply not_false_is_true. intros [[H1 H2]%orb_false_elim H3]%orb_false_elim.
  unfold has in *. apply negb_false_iff, Z.eqb_eq in H1, H2, H3. apply Hne.
  assert (m = Z.land m (Z.lor (Z.lor READ_EVENTS WRITE_EVENTS) ERROR_EVENTS)) as Em by (unfold m; destruct r, w; [injection Hm as <-; done..|done]).
  rewrite Em, Z.land_assoc, !Z.land_lor_distr_r, H1, H2, H3. done.
Qed.
Lemma pick_none objs mask events : pick objs mask events = Ok [] -> forall fd ev, (fd, ev) ∈ events -> has ev mask = false.
Proof.
  induction events as [|[fd ev] events IH]; cbn [pick]; [by intros _ fd ev ?%elem_of_nil|]. intros E fd' ev' [[= -> ->]|Hin]%elem_of_cons.
  - destruct (has ev mask); [|done]. destruct (objs !! fd); [|done]. by destruct (pick objs mask events).
  - destruct (has ev mask); [|by apply (IH E fd' ev')]. destruct (objs !! fd); [|done]. by destruct (pick objs mask events).
Qed.

Lemma nothing_seen e ready events ro wo xo : watch_ok e -> poll_ok (ep_table e) ready events -> pick (ep_fd_to_obj e) READ_EVENTS events = Ok ro ->
  pick (ep_fd_to_obj e) WRITE_EVENTS events = Ok wo -> pick (ep_fd_to_obj e) ERROR_EVENTS events = Ok xo -> none_left ro wo xo = true -> events = [].
Proof.
  intros W Hp Er Ew Ex Hn. destruct ro, wo, xo; try (cbn in Hn; discriminate). destruct events as [|[fd ev] events]; [done|exfalso].
  pose proof (list_elem_of_here (fd, ev) events) as Hin. pose proof Hin as (mask & Ht & -> & Hne)%Hp.
  rewrite (proj1 (wa_step _ W)), (wa_mask _ W) in Ht. pose proof (event_is_seen _ _ _ _ Ht Hne) as Hs.
  by rewrite (pick_none _ _ _ Er _ _ Hin), (pick_none _ _ _ Ew _ _ Hin), (pick_none _ _ _ Ex _ _ Hin) in Hs.
Qed.
Lemma has_more ev : has ev EPOLLIN = true -> has ev (Z.lor EPOLLIN EPOLLPRI) = true.
Proof.
  unfold has. rewrite !negb_true_iff, !Z.eqb_neq, Z.land_lor_distr_r. intros H [H1 _]%Z.lor_eq_0_iff. done.
Qed.

Section hub.
Context {G F W : Type}.
Implicit Type s : Scheduler G F W.
Variable hub_pinger : Z.
Abbreviation keys m := (map_to_list (m : gmap Z Z)).*1.

Lemma in_keys (m : gmap Z Z) i : i ∈ keys m <-> is_Some (m !! i).
Proof.
  rewrite list_elem_of_fmap. split; [intros ([j v] & -> & H%elem_of_map_to_list); by eexists|].
  intros [v H]. exists (i, v). split; [done|]. by apply elem_of_map_to_list.
Qed.
Lemma give_fails owner l add m i : i ∈ l -> owner !! i = None -> hub_give owner l add m = Err KeyError.
Proof.
  intros Hi Hn. revert m. induction l as [|j l IH]; intros m; [by apply elem_of_nil in Hi|]. cbn [hub_give].
  destruct (owner !! j) as [t|] eqn:Hj; [|done]. apply elem_of_cons in Hi as [->|Hi]; [congruence|]. by apply IH.
Qed.
Lemma give_error owner l add m x : hub_give owner l add m = Err x -> x = KeyError.
Proof. revert m. induction l as [|j l IH]; intros m; cbn [hub_give]; [done|]. destruct (owner !! j); [apply IH|congruence]. Qed.
Lemma rets_fail w ro wo xo i : i ∈ xo -> wt_xl w !! i = None -> hub_rets w ro wo xo = Err KeyError.
Proof.
  intros Hi Hn. unfold hub_rets. destruct (hub_give (wt_rl w) ro _ _) as [m1|x] eqn:E; [|by rewrite (give_error _ _ _ _ _ E)]. cbn.
  destruct (hub_give (wt_wl w) wo _ _) as [m2|x] eqn:E2; [|by rewrite (give_error _ _ _ _ _ E2)]. cbn. by apply (give_fails _ _ _ _ i).
Qed.
Lemma take_error l tasks x : hub_take l tasks = Err x -> x = AssertionError.
Proof. revert tasks. induction l as [|e l IH]; intros tasks; cbn [hub_take]; [done|]. case_bool_decide; [congruence|apply IH]. Qed.
Lemma dies (m : M (Scheduler G F W) unit) s x s' : m s = (Err x, s') -> x <> Diverge ->
  exists s2, in_hub m s = (Ok tt, s2) /\ h_dead (s_selectHub s2) = true.
Proof.
  intros E Hx. eexists. split; [unfold in_hub; erewrite bind_ok by (rewrite (attempt_run _ _ _ _ E); by destruct x); reflexivity|done].
Qed.
Lemma unasked_kills w ro wo xo i s : i ∈ xo -> wt_xl w !! i = None ->
  exists s', in_hub (hub_finish hub_pinger w ro wo xo) s = (Ok tt, s') /\ h_dead (s_selectHub s') = true.
Proof.
  intros Hi Hn. assert ((zlen xo =? 0) = false) as Hx by (destruct xo; [by apply elem_of_nil in Hi|done]).
  assert (exists x s', hub_finish hub_pinger w ro wo xo s = (Err x, s') /\ x <> Diverge) as (x & s' & E & Hd); [|by apply (dies _ s x s')].
  unfold hub_finish. erewrite bind_ok by reflexivity. unfold none_left at 1. rewrite Hx, !andb_false_r.
  unfold hub_events, none_left. rewrite Hx, !andb_false_r. cbv zeta.
  match goal with |- context [(_ ≫= _) ?x] => set (s0 := x) end.
  destruct ((if bool_decide (hub_pinger ∈ ro) then hub_incoming else mret tt) s0) as [[[]|x'] s1] eqn:E1.
  - exists KeyError, s1. erewrite bind_ok by exact E1. by rewrite (rets_fail w _ wo xo i Hi Hn).
  - exists x', s1. split; [by erewrite bind_err by exact E1|]. destruct (bool_decide _); [|done]. unfold hub_incoming in E1.
    erewrite bind_ok in E1 by reflexivity. rewrite bind_get in E1. destruct (hub_take _ _) as [?|x] eqn:Et; [done|]. injection E1 as <- _.
    by rewrite (take_error _ _ _ Et).
Qed.

(** C40: A selector made of epoll under the hub, which makes its lists anew for every call.  What it returns is what the hub relies on, if errors come only
    from descriptors whose task asked for errors; an error, or a hang-up, of any other descriptor ends the hub's thread. *)
Theorem epoll_under_hub e s w rl wl xl ready events ro wo xo e' : epoll_used e -> h_wait (s_selectHub s) = Some w -> callable rl wl e ->
  the_list rl e = keys (wt_rl w) ++ [hub_pinger] -> the_list wl e = keys (wt_wl w) -> the_list xl e = keys (wt_xl w) ->
  epoll_select rl wl xl events e = (Ok (ro, wo, xo), e') ->
  poll_ok (ep_table e') ready events -> NoDup events.*1 -> (events = [] -> wt_deadline w <= s_now s) ->
  let can i := has (state_of ready (ep_fileno e) i) in
  (0 < h_pings (s_selectHub s) -> can hub_pinger EPOLLIN = true) ->
  let erring i := (i = hub_pinger \/ is_Some (wt_rl w !! i) \/ is_Some (wt_wl w !! i)) /\ can i ERROR_EVENTS = true in
  ((forall i, erring i -> is_Some (wt_xl w !! i)) -> select_ok hub_pinger w ro wo xo s) /\
  (forall i, erring i -> wt_xl w !! i = None -> exists s', in_hub (hub_finish hub_pinger w ro wo xo) s = (Ok tt, s') /\ h_dead (s_selectHub s') = true).
Proof.
  intros Hu Hw Hc Erl Ewl Exl E Hp Hd Hnone can Hping erring. destruct (select_run e rl wl xl Hu Hc) as (e1 & Et & Wa & Hrl & Hwl & Hf & Hown & H).
  pose proof (select_state _ _ xl events e e1 Et) as He. rewrite E in He. cbn in He. subst e1.
  destruct (H ready events Hp) as (r & wr & x & E2 & Er & Ew & Ex & Ho). rewrite E in E2. injection E2 as <- <- <-. rewrite Erl, Ewl in Ho.
  assert (forall i, i ∈ xo <-> erring i) as Hxo.
  { intros i. rewrite (proj2 (proj2 (Ho i))), elem_of_app, list_elem_of_singleton, !in_keys. unfold erring, can. tauto. }
  split; [|intros i Hi%Hxo; by apply unasked_kills]. intros Herr. split.
  - intros i Hi. apply Ho in Hi as [Hi _]. rewrite elem_of_app, list_elem_of_singleton, in_keys in Hi. tauto.
  - intros i Hi. apply Ho in Hi as [Hi _]. by apply in_keys.
  - intros i Hi. apply Herr. by apply Hxo.
  - apply (pick_NoDup (ep_fileno e') _ _ _ _) in Er; [done| |done]. intros fd ev o (mask & Ht & _)%Hp Hfo.
    destruct (watched_object e' fd mask Wa Ht) as (o' & _ & Hf' & Ho'). congruence.
  - intros Hn. apply Hnone. by apply (nothing_seen e' ready events ro wo xo Wa Hp Er Ew Ex).
  - intros Hpos. apply Ho. split; [apply elem_of_app; right; apply list_elem_of_here|]. apply has_more, Hping, Hpos.
Qed.
End hub.

(** * Examples *)

(** A [poll] as the manual has it. *)
Definition poll (table : gmap Z Z) (ready : Z -> Z) : list (Z * Z) :=
  omap (fun '(fd, mask) => let ev := Z.land (ready fd) (Z.lor mask ERROR_EVENTS) in if ev =? 0 then None else Some (fd, ev)) (map_to_list table).
Lemma poll_as_said table ready : poll_ok table ready (poll table ready).
Proof.
  intros fd ev. unfold poll. rewrite list_elem_of_omap. split.
  - intros ([fd' mask] & H%elem_of_map_to_list & E). destruct (Z.eqb_spec (Z.land (ready fd') (Z.lor mask ERROR_EVENTS)) 0) as [|Hne]; [done|].
    injection E as <- <-. by exists mask.
  - intros (mask & H & -> & Hne). exists (fd, mask). split; [by apply elem_of_map_to_list|]. by rewrite (proj2 (Z.eqb_neq _ _)).
Qed.

(** A selector that has been used. *)
Definition ex_fileno (o : Z) : option Z := Some (o + 1).
Definition ex_open : gset Z := {[4; 5; 6; 101]}.
Definition ex_lists (e : EpollSelect) : EpollSelect :=
  list_changes 8 [5; 100] (list_changes 7 [] (list_changes 6 [4] (list_changes 5 [3; 5] (list_changes 4 [3; 4] (list_changes 3 [3] e))))).
Definition ex_listed : EpollSelect := ex_lists (EpollSelect_init ex_open ex_fileno).
Definition ex_used : EpollSelect := (epoll_select 3 4 7 [] ex_listed).2.

Lemma ex_callable rl wl e : ep_fileno e = ex_fileno -> forallb (fun o => bool_decide (o + 1 ∈ ep_open e)) (the_list rl e ++ the_list wl e) = true ->
  callable rl wl e.
Proof.
  unfold callable. intros -> H. split.
  - intros o Ho. exists (o + 1). split; [done|]. rewrite forallb_forall in H. apply (bool_decide_eq_true_1 _), H. by apply list_elem_of_In.
  - unfold ex_fileno. intros o o' fd _ _ [= <-] [= E]. lia.
Qed.
Lemma ex_used_ok : epoll_used ex_used.
Proof.
  apply (used_select 3 4 7 [] (epoll_select 3 4 7 [] ex_listed).1 ex_listed); [|apply ex_callable; vm_compute; reflexivity|apply surjective_pairing].
  unfold ex_listed, ex_lists. do 6 (eapply used_outside; [|apply out_list; discriminate]). apply used_new.
Qed.

(** Then the third can be read, and the peer of the fifth has closed. *)
Definition ex_ready (fd : Z) : Z := if fd =? 4 then EPOLLIN else if fd =? 6 then EPOLLHUP else 0.
Lemma epoll_like_select_witness : exists e' r w x,
  epoll_select 5 6 7 (poll (ep_table e') ex_ready) ex_used = (Ok (r, w, x), e') /\ 3 ∈ r /\ 5 ∉ r /\ 4 ∉ w /\ 5 ∈ x.
Proof.
  destruct (epoll_like_select ex_used 5 6 7 ex_used_ok ltac:(apply ex_callable; vm_compute; reflexivity)) as (e' & _ & _ & H).
  destruct (H ex_ready (poll (ep_table e') ex_ready) (poll_as_said _ _)) as (r & w & x & E & Ho). exists e', r, w, x. split; [exact E|].
  split; [apply Ho; split; [vm_compute; left|vm_compute; reflexivity]|]. split; [intros Hr; apply Ho in Hr as [_ Hr]; vm_compute in Hr; discriminate|].
  split; [intros Hw; apply Ho in Hw as [_ Hw]; vm_compute in Hw; discriminate|]. apply Ho. split; [left; vm_compute; right; left|vm_compute; reflexivity].
Defined.

(** A task waits to read the fifth, without a word on errors. *)
Definition ex_waits : Scheduler Z bool Z :=
  let s := (registerSelect 2 (Some [5]) None None None false ex_0).2 in
  let s := (in_hub hub_prepare s).2 in
  let s := (in_hub (hub_finish 100 (the_wait s) [100] [] []) s).2 in
  (in_hub hub_prepare s).2.
Definition ex_events := poll (<[6 := 3]> (<[101 := 3]> ∅)) ex_ready.
Definition ex_selected := (epoll_select 8 7 7 ex_events ex_used).2.
Lemma epoll_under_hub_witness : exists s', in_hub (hub_finish 100 (the_wait ex_waits) [] [] [5]) ex_waits = (Ok tt, s') /\ h_dead (s_selectHub s') = true.
Proof.
  refine (proj2 (epoll_under_hub 100 ex_used ex_waits (the_wait ex_waits) 8 7 7 ex_ready ex_events [] [] [5] ex_selected
    ex_used_ok _ _ _ _ _ _ _ _ _ _) 5 _ _).
  - vm_compute. reflexivity.
  - apply ex_callable; vm_compute; reflexivity.
  - vm_compute. reflexivity.
  - vm_compute. reflexivity.
  - vm_compute. reflexivity.
  - vm_compute. reflexivity.
  - exact (poll_as_said _ _).
  - vm_compute. repeat constructor; by intros ?%elem_of_nil.
  - vm_compute. discriminate.
  - vm_compute. discriminate.
  - vm_compute. split; [right; left; by eexists|reflexivity].
  - vm_compute. reflexivity.
Defined.
