(* ===== verification/IoLoop.v ===== *)
(** [lib/ioworker/io_worker.py]: [RecocoIOLoop], the task that does the input and output of all
    workers in one loop over [select], with the commands other threads leave for it.  The
    buffers of a worker are in [Connection].  Other threads run between the statements of the loop;
    the statements themselves are steps. *)
From S2P Require Import Prelude.
From S2P Require Import Connection.
From S2P Require Import Recoco.

(** What waits in [_pending_commands]: the two lambdas of [create_worker_for_socket]. *)
Inductive command := AddWorker (w : Z) | CloseWorker (w : Z).
#[export] Instance command_eq_dec : EqDecision command.
Proof. solve_decision. Defined.

(** A call of a socket: its result, a [socket.error] with its number, or another exception. *)
Inductive io_result (R : Type) := IoOk (r : R) | IoError (errno : Z) | IoRaise (e : exn).
Arguments IoOk {R} r.
Arguments IoError {R} errno.
Arguments IoRaise {R} e.
Definition EAGAIN : Z := 11.
Definition _BUF_SIZE : Z := 8192.

(** The objects; [_workers]; the queue of commands; the bytes in the pinger; the sockets that
    have been closed; what the [Select] that is waited for asks, with None for the pinger;
    whether [run] has ended; what the clients keep, and the network. *)
Record RecocoIOLoop {A W : Type} := MkIoLoop {
  lo_objs : gmap Z IOWorker;
  lo_next : Z;
  lo_workers : gset Z;
  lo_pending : list command;
  lo_running : bool;
  lo_pings : Z;
  lo_closed : gset Z;
  lo_waiting : option (list (option Z) * list Z * list Z);
  lo_ended : bool;
  lo_app : A;
  lo_world : W
}.
Arguments RecocoIOLoop : clear implicits.

Section ioloop.
Context {A W : Type}.
Abbreviation Loop := (RecocoIOLoop A W).
Implicit Type s : Loop.

Definition lo_set_objs v s : Loop := MkIoLoop _ _ v (lo_next s) (lo_workers s) (lo_pending s) (lo_running s) (lo_pings s) (lo_closed s) (lo_waiting s) (lo_ended s) (lo_app s) (lo_world s).
Definition lo_set_next v s : Loop := MkIoLoop _ _ (lo_objs s) v (lo_workers s) (lo_pending s) (lo_running s) (lo_pings s) (lo_closed s) (lo_waiting s) (lo_ended s) (lo_app s) (lo_world s).
Definition lo_set_workers v s : Loop := MkIoLoop _ _ (lo_objs s) (lo_next s) v (lo_pending s) (lo_running s) (lo_pings s) (lo_closed s) (lo_waiting s) (lo_ended s) (lo_app s) (lo_world s).
Definition lo_set_pending v s : Loop := MkIoLoop _ _ (lo_objs s) (lo_next s) (lo_workers s) v (lo_running s) (lo_pings s) (lo_closed s) (lo_waiting s) (lo_ended s) (lo_app s) (lo_world s).
Definition lo_set_running v s : Loop := MkIoLoop _ _ (lo_objs s) (lo_next s) (lo_workers s) (lo_pending s) v (lo_pings s) (lo_closed s) (lo_waiting s) (lo_ended s) (lo_app s) (lo_world s).
Definition lo_set_pings v s : Loop := MkIoLoop _ _ (lo_objs s) (lo_next s) (lo_workers s) (lo_pending s) (lo_running s) v (lo_closed s) (lo_waiting s) (lo_ended s) (lo_app s) (lo_world s).
Definition lo_set_closed v s : Loop := MkIoLoop _ _ (lo_objs s) (lo_next s) (lo_workers s) (lo_pending s) (lo_running s) (lo_pings s) v (lo_waiting s) (lo_ended s) (lo_app s) (lo_world s).
Definition lo_set_waiting v s : Loop := MkIoLoop _ _ (lo_objs s) (lo_next s) (lo_workers s) (lo_pending s) (lo_running s) (lo_pings s) (lo_closed s) v (lo_ended s) (lo_app s) (lo_world s).
Definition lo_set_ended v s : Loop := MkIoLoop _ _ (lo_objs s) (lo_next s) (lo_workers s) (lo_pending s) (lo_running s) (lo_pings s) (lo_closed s) (lo_waiting s) v (lo_app s) (lo_world s).
Definition lo_set_app v s : Loop := MkIoLoop _ _ (lo_objs s) (lo_next s) (lo_workers s) (lo_pending s) (lo_running s) (lo_pings s) (lo_closed s) (lo_waiting s) (lo_ended s) v (lo_world s).
Definition lo_set_world v s : Loop := MkIoLoop _ _ (lo_objs s) (lo_next s) (lo_workers s) (lo_pending s) (lo_running s) (lo_pings s) (lo_closed s) (lo_waiting s) (lo_ended s) (lo_app s) v.
Definition lo_modify (f : Loop -> Loop) : M Loop unit := s ← get; put (f s).

Definition RecocoIOLoop_init (app : A) (world : W) : Loop := MkIoLoop _ _ ∅ 0 ∅ [] false 0 ∅ None false app world.

(** The object [w]. *)
Definition the_worker (w : Z) s : IOWorker := default IOWorker_init (lo_objs s !! w).
Definition set_worker (w : Z) (o : IOWorker) s : Loop := lo_set_objs (<[w := o]> (lo_objs s)) s.
Definition command_put (c : command) s : Loop := lo_set_pings (lo_pings s + 1) (lo_set_pending (lo_pending s ++ [c]) s).

(** What clients and other threads call. *)
Definition create_worker_for_socket : M Loop Z :=
  s ← get;
  let w := lo_next s in
  '_ ← put (lo_set_next (w + 1) (set_worker w IOWorker_init s));
  '_ ← lo_modify (command_put (AddWorker w));
  mret w.
Definition on_close (w : Z) : M Loop unit := lo_modify (command_put (CloseWorker w)).
Definition worker_close (w : Z) : M Loop unit := on_close w.
Definition loop_send (w : Z) (data : bytes) : M Loop unit :=
  '_ ← lo_modify (fun s => set_worker w (worker_send data (the_worker w s)) s);
  lo_modify (fun s => lo_set_pings (lo_pings s + 1) s).
Definition loop_consume (w l : Z) : M Loop unit :=
  s ← get;
  o ← lift (consume_receive_buf l (the_worker w s));
  put (set_worker w o s).
Definition stop : M Loop unit := lo_modify (fun s => lo_set_pings (lo_pings s + 1) (lo_set_running false s)).

(** The two halves of [self.send_buf += data] and of [self.send_buf = self.send_buf[l:]]: what was read,
    and what is made of it written back.  The threads have no lock; when halves of two threads mix, one of
    the changes is undone. *)
Definition send_store (w : Z) (old data : bytes) s : Loop := set_worker w (Worker (old ++ data) (w_receive_buf (the_worker w s))) s.
Definition consume_store (w l : Z) (old : bytes) s : Loop := set_worker w (Worker (slice_from old l) (w_receive_buf (the_worker w s))) s.

(** What other threads do when the interpreter switches to them; they may keep count of their turns in [lo_app].
    And [_on_data_receive] of the worker; what [recv] and [send] of its socket do. *)
Variable others : Loop -> Loop.
Definition switch : M Loop unit := lo_modify others.
Variable on_data : Z -> M Loop unit.
Variable sock_recv : Z -> Z -> W -> io_result bytes * W.
Variable sock_send : Z -> bytes -> W -> io_result Z * W.

(** The commands. *)
Definition run_command (c : command) s : Loop :=
  match c with
  | AddWorker w => lo_set_workers ({[w]} ∪ lo_workers s) s
  | CloseWorker w => lo_set_workers (lo_workers s ∖ {[w]}) (lo_set_closed ({[w]} ∪ lo_closed s) s)
  end.
(** Others may add commands meanwhile: [fuel] is the number of commands there may be. *)
Fixpoint run_commands (fuel : nat) : M Loop unit :=
  '_ ← switch;
  s ← get;
  match lo_pending s with
  | [] => mret tt
  | c :: l =>
      match fuel with
      | O => raise Diverge
      | S fuel => '_ ← put (run_command c (lo_set_pending l s)); run_commands fuel
      end
  end.

(** The loop up to its [yield].  The three lists are made at once: only the loop changes [_workers], and what others
    send while the lists are made is as good as sent after the [yield]. *)
Definition loop_start : M Loop unit := lo_modify (lo_set_running true).
Definition loop_prepare (fuel : nat) : M Loop unit :=
  s ← get;
  if lo_running s then
    '_ ← run_commands fuel;
    s ← get;
    let workers := elements (lo_workers s) in
    put (lo_set_waiting (Some ((Some <$> workers) ++ [None], List.filter (fun w => ready_to_send (the_worker w s)) workers, workers)) s)
  else put (lo_set_ended true s).

(** And from there. *)
Definition discard (w : Z) : M Loop unit :=
  '_ ← worker_close w;
  '_ ← switch;
  lo_modify (fun s => lo_set_workers (lo_workers s ∖ {[w]}) s).
Fixpoint failed_each (l : list Z) : M Loop unit :=
  match l with [] => mret tt | w :: l => '_ ← switch; '_ ← discard w; failed_each l end.
Definition socket_call {R} (f : W -> io_result R * W) : M Loop (io_result R) :=
  s ← get;
  '_ ← put (lo_set_world (f (lo_world s)).2 s);
  mret (f (lo_world s)).1.
Definition _push_receive_data (w : Z) (data : bytes) : M Loop unit :=
  '_ ← lo_modify (fun s => set_worker w (push_receive_data data (the_worker w s)) s);
  '_ ← switch;
  on_data w.
Definition read_one (w : Z) : M Loop unit :=
  '_ ← switch;
  r ← socket_call (sock_recv w _BUF_SIZE);
  '_ ← switch;
  match r with
  | IoOk data =>
      r ← attempt (_push_receive_data w data);
      match r with Ok _ => mret tt | Err SocketError => discard w | Err e => raise e end
  | IoError _ => discard w
  | IoRaise e => raise e
  end.
Fixpoint read_each (l : list Z) : M Loop unit :=
  match l with [] => mret tt | w :: l => '_ ← read_one w; read_each l end.

(** [worker.send_buf] is read before the socket is called. *)
Definition _consume_send_buf (w l : Z) : M Loop unit :=
  s ← get;
  o ← lift (consume_send_buf l (the_worker w s));
  put (set_worker w o s).
Definition write_one (w : Z) : M Loop unit :=
  '_ ← switch;
  s ← get;
  let send_buf := w_send_buf (the_worker w s) in
  '_ ← switch;
  r ← socket_call (sock_send w send_buf);
  '_ ← switch;
  match r with
  | IoOk l => if 0 <? l then _consume_send_buf w l else mret tt
  | IoError errno => if errno =? EAGAIN then mret tt else discard w
  | IoRaise e => raise e
  end.
Fixpoint write_each (l : list Z) : M Loop unit :=
  match l with [] => mret tt | w :: l => '_ ← write_one w; write_each l end.
Definition loop_finish (rlist : list (option Z)) (wlist elist : list Z) : M Loop unit :=
  '_ ← lo_modify (lo_set_waiting None);
  '_ ← switch;
  '_ ← (if bool_decide (None ∈ rlist) then lo_modify (fun s => lo_set_pings (pongAll (lo_pings s)) s) else mret tt);
  '_ ← failed_each elist;
  '_ ← read_each (omap id rlist);
  write_each wlist.

(** An exception ends the task, as does the [break] for [KeyboardInterrupt]. *)
Definition in_loop (m : M Loop unit) : M Loop unit :=
  r ← attempt m;
  match r with Ok _ => mret tt | Err _ => lo_modify (lo_set_ended true) end.

(** [run], from its start or a [yield] to the next [yield] or the end. *)
Definition run_first (fuel : nat) : M Loop unit := '_ ← loop_start; '_ ← switch; loop_prepare fuel.
Definition run_next (fuel : nat) (rlist : list (option Z)) (wlist elist : list Z) : M Loop unit :=
  '_ ← loop_finish rlist wlist elist; '_ ← switch; loop_prepare fuel.
End ioloop.
