(* ===== verification/IoLoopTheory.v ===== *)
(** The loop of [io_worker]: whatever clients and sockets do, and other threads between its statements, the bytes of every
    worker pass in their order and none is lost in the buffers, and a socket that has been
    closed is not used again.  What two threads do to one buffer without a lock. *)
From S2P Require Import Prelude.
From S2P Require Import Steps.
From S2P Require Import Connection.
From S2P Require Import Recoco.
From S2P Require Import IoLoop.

Section theory.
Context {A W : Type}.
Abbreviation Loop := (RecocoIOLoop A W).
Implicit Type s : Loop.
Variable others : Loop -> Loop.
Variable on_data : Z -> M Loop unit.
Variable sock_recv : Z -> Z -> W -> io_result bytes * W.
Variable sock_send : Z -> bytes -> W -> io_result Z * W.

(** The clients' own records of what they have sent to a worker and what they have taken from
    it; the network's, of what its socket has accepted and what it has returned. *)
Variables sent got : A -> Z -> bytes.
Variables taken given : W -> Z -> bytes.

Definition plus_at (w : Z) (data : bytes) (f g : Z -> bytes) : Prop := forall v, g v = f v ++ if v =? w then data else [].

Hypothesis recv_returns : forall w n x, let '(r, x') := sock_recv w n x in
  plus_at w [] (taken x) (taken x') /\ plus_at w (match r with IoOk d => d | _ => [] end) (given x) (given x').
Hypothesis send_accepts : forall w data x, let '(r, x') := sock_send w data x in
  match r with IoOk l => 0 <= l <= zlen data | _ => True end /\
  plus_at w (match r with IoOk l => take (Z.to_nat l) data | _ => [] end) (taken x) (taken x') /\ plus_at w [] (given x) (given x').

(** ** What clients do *)
Inductive api_io : Loop -> Loop -> Prop :=
  | io_create s : api_io s (create_worker_for_socket s).2
  | io_close w s : w < lo_next s -> api_io s (worker_close w s).2
  | io_send w data a s : w < lo_next s -> plus_at w data (sent (lo_app s)) (sent a) -> plus_at w [] (got (lo_app s)) (got a) ->
      api_io s (loop_send w data (lo_set_app a s)).2
  | io_consume w l a s : w < lo_next s -> 0 <= l <= zlen (w_receive_buf (the_worker w s)) -> plus_at w [] (sent (lo_app s)) (sent a) ->
      plus_at w (take (Z.to_nat l) (w_receive_buf (the_worker w s))) (got (lo_app s)) (got a) -> api_io s (loop_consume w l (lo_set_app a s)).2
  | io_stop s : api_io s (stop s).2
  | io_app a s : (forall v, sent a v = sent (lo_app s) v) -> (forall v, got a v = got (lo_app s) v) -> api_io s (lo_set_app a s).

Hypothesis others_api : forall s, rtc api_io s (others s).
Hypothesis on_data_api : forall w s, w < lo_next s -> rtc api_io s (on_data w s).2.

(** * The invariant *)

(** Within a round of the loop, bytes a socket has accepted are still in the buffer, or bytes it has returned not yet. *)
Definition at_worker (w : Z) (data : bytes) (v : Z) : bytes := if v =? w then data else [].
Abbreviation transit := ((Z -> bytes) * (Z -> bytes))%type.
Definition settled : transit := (fun _ => [], fun _ => []).
Definition in_order_at (p : transit) s : Prop := forall w,
  taken (lo_world s) w ++ drop (length (p.1 w)) (w_send_buf (the_worker w s)) = sent (lo_app s) w /\
  take (length (p.1 w)) (w_send_buf (the_worker w s)) = p.1 w /\
  given (lo_world s) w = got (lo_app s) w ++ w_receive_buf (the_worker w s) ++ p.2 w.
Definition selectable s (w : Z) : Prop := w < lo_next s /\ w ∉ lo_closed s.

Record io_inv_at (p : transit) s : Prop := MkIoInv {
  ii_order : in_order_at p s;
  ii_fresh : forall w, lo_next s <= w -> lo_objs s !! w = None /\ w ∉ lo_closed s /\ CloseWorker w ∉ lo_pending s;
  ii_known : forall w, w ∈ lo_workers s \/ AddWorker w ∈ lo_pending s -> w < lo_next s;
  ii_open : forall w, w ∈ lo_workers s -> w ∉ lo_closed s;
  ii_gone : forall w, w ∈ lo_closed s -> AddWorker w ∉ lo_pending s;
  ii_queue : forall l1 l2 w, lo_pending s = l1 ++ CloseWorker w :: l2 -> AddWorker w ∉ l2;
  ii_wait : forall r wl x, lo_waiting s = Some (r, wl, x) -> forall w, Some w ∈ r \/ w ∈ wl \/ w ∈ x -> selectable s w
}.
Abbreviation io_inv := (io_inv_at settled).

(** Between a [yield] and the next, sockets are not closed. *)
Record held (p : transit) s s' : Prop := MkHeld {
  hl_inv : io_inv_at p s';
  hl_next : lo_next s <= lo_next s';
  hl_closed : lo_closed s' = lo_closed s;
  hl_waiting : lo_waiting s' = lo_waiting s;
  hl_queue : exists l, lo_pending s' = lo_pending s ++ l
}.
Ltac grow := first [exists []; cbn; by rewrite app_nil_r | by eexists [_]].
Definition moves (p q : transit) s s' : Prop := io_inv_at p s -> held q s s'.
Abbreviation holds := (moves settled settled).
Lemma moves_then p q r x y z : moves p q x y -> (lo_next x <= lo_next y -> moves q r y z) -> moves p r x z.
Proof.
  intros H1 H2 I. destruct (H1 I) as [I1 N1 C1 W1 [l1 Q1]]. destruct (H2 N1 I1) as [I2 N2 C2 W2 [l2 Q2]].
  split; [done|lia|congruence|congruence|]. exists (l1 ++ l2). by rewrite Q2, Q1, app_assoc.
Qed.
#[export] Instance moves_preorder p : PreOrder (moves p p).
Proof.
  constructor; [intros s I; split; [done..|grow]|]. intros x y z H1 H2. apply (moves_then _ _ _ _ _ _ H1). by intros _.
Qed.
Lemma moves_from p q x y : moves p q x y -> forall z, moves q q y z -> moves p q x z.
Proof. intros H1 z H2. apply (moves_then _ _ _ _ _ _ H1). by intros _. Qed.

(** ** Each assignment keeps it *)
Lemma the_set_worker w o s v : the_worker v (set_worker w o s) = if decide (v = w) then o else the_worker v s.
Proof.
  unfold the_worker, set_worker. cbn. destruct (decide (v = w)) as [->|]; [by rewrite lookup_insert_eq|by rewrite lookup_insert_ne].
Qed.

(** A change of the buffers of [w], of the clients' records and of the network. *)
Lemma buffers_moved p q w o a x s : w < lo_next s ->
  (in_order_at p s -> in_order_at q (lo_set_world x (lo_set_app a (set_worker w o s)))) -> moves p q s (lo_set_world x (lo_set_app a (set_worker w o s))).
Proof.
  intros Hw Ho I. split; [|cbn; lia|done|done|grow]. destruct I as [I1 I2 I3 I4 I5 I6 I7]. split; try done; [by apply Ho|].
  intros v Hv. destruct (I2 v Hv) as (Hn & Hc). split; [|done]. cbn. by rewrite lookup_insert_ne by (cbn in Hv; lia).
Qed.
Lemma world_moved p q x s : (in_order_at p s -> in_order_at q (lo_set_world x s)) -> moves p q s (lo_set_world x s).
Proof. intros Ho [I1 I2 I3 I4 I5 I6 I7]. split; [|done|done|done|grow]. split; try done. by apply Ho. Qed.

Section kept.
Context (p : transit).
Lemma pings_held v s : moves p p s (lo_set_pings v s).
Proof. intros []. split; [by split|done|done|done|grow]. Qed.
Lemma waiting_none s : io_inv_at p s -> io_inv_at p (lo_set_waiting None s).
Proof. intros []. by split. Qed.
Lemma close_held w s : w < lo_next s -> moves p p s (command_put (CloseWorker w) s).
Proof.
  intros Hw [I1 I2 I3 I4 I5 I6 I7]. split; [|cbn; lia|done|done|grow]. split; try done; cbn.
  - intros v Hv. destruct (I2 v Hv) as (Hn & Hc & Hp). split_and!; [done..|]. rewrite elem_of_app, list_elem_of_singleton. intros [?|[= ->]]; [done|lia].
  - intros v [Hv|[Hv|?%list_elem_of_singleton]%elem_of_app]; auto; done.
  - intros v Hv [?|?%list_elem_of_singleton]%elem_of_app; [by apply (I5 v)|done].
  - intros l1 l2 v E. destruct l2 as [|c l2 _] using rev_ind; [by apply not_elem_of_nil|].
    rewrite app_comm_cons, app_assoc in E. apply app_inj_tail in E as [E <-]. rewrite elem_of_app, list_elem_of_singleton.
    intros [?|?]; [by apply (I6 _ _ _ E)|done].
Qed.
Lemma create_held s : moves p p s (create_worker_for_socket s).2.
Proof.
  change (create_worker_for_socket s).2 with (command_put (AddWorker (lo_next s)) (lo_set_next (lo_next s + 1) (set_worker (lo_next s) IOWorker_init s))).
  intros [I1 I2 I3 I4 I5 I6 I7]. split; [|cbn; lia|done|done|grow]. destruct (I2 (lo_next s) ltac:(lia)) as (Hn & Hc & Hp). split; cbn.
  - intros w. pose proof (I1 w) as Hw. cbn [lo_world lo_app lo_set_pending].
    change (the_worker w _) with (the_worker w (set_worker (lo_next s) IOWorker_init s)). rewrite the_set_worker.
    destruct (decide (w = lo_next s)) as [->|]; [|done]. unfold the_worker in Hw. by rewrite Hn in Hw.
  - intros w Hw. destruct (I2 w ltac:(lia)) as (Hn' & Hc' & Hp'). rewrite lookup_insert_ne by lia. split_and!; [done..|].
    rewrite elem_of_app, list_elem_of_singleton. by intros [?|?].
  - intros w [Hw|[Hw|[= ->]%list_elem_of_singleton]%elem_of_app]; [|assert (w < lo_next s) by auto; lia|lia]. assert (w < lo_next s) by auto. lia.
  - done.
  - intros v Hv [?|[= ->]%list_elem_of_singleton]%elem_of_app; [by apply (I5 v)|done].
  - intros l1 l2 v E. destruct l2 as [|c l2 _] using rev_ind; [by apply not_elem_of_nil|].
    rewrite app_comm_cons, app_assoc in E. apply app_inj_tail in E as [E <-]. rewrite elem_of_app, list_elem_of_singleton.
    intros [?|[= ->]]; [by apply (I6 _ _ _ E)|]. apply Hp. rewrite E, elem_of_app. right. apply list_elem_of_here.
  - intros r wl x E w Hw. destruct (I7 r wl x E w Hw). split; cbn; [lia|done].
Qed.

Lemma plus_nil w f g v : plus_at w [] f g -> g v = f v.
Proof. intros ->. destruct (v =? w); by rewrite app_nil_r. Qed.
Lemma plus_here w d f g : plus_at w d f g -> g w = f w ++ d.
Proof. intros ->. by rewrite Z.eqb_refl. Qed.
Lemma plus_else w d f g v : v <> w -> plus_at w d f g -> g v = f v.
Proof. intros H ->. rewrite (proj2 (Z.eqb_neq _ _)) by done. by rewrite app_nil_r. Qed.
Lemma slice_drop (b : bytes) l : 0 <= l -> slice_from b l = drop (Z.to_nat l) b.
Proof. intros H. unfold slice_from, py_index. by rewrite (proj2 (Z.ltb_ge l 0)) by lia. Qed.
Lemma take_slice (b : bytes) l : 0 <= l <= zlen b -> take (Z.to_nat l) b ++ slice_from b l = b.
Proof. intros H. rewrite slice_drop by lia. apply take_drop. Qed.
Lemma take_front (q b d : bytes) : take (length q) b = q -> drop (length q) (b ++ d) = drop (length q) b ++ d /\ take (length q) (b ++ d) = q.
Proof.
  intros E. assert (length q <= length b)%nat by (apply (f_equal length) in E; rewrite length_take in E; lia).
  split; [by rewrite drop_app_le|by rewrite take_app_le].
Qed.

Lemma send_held w d a s : w < lo_next s -> plus_at w d (sent (lo_app s)) (sent a) -> plus_at w [] (got (lo_app s)) (got a) ->
  moves p p s (loop_send w d (lo_set_app a s)).2.
Proof.
  intros Hw Hs Hg. apply (moves_from _ _ _ (lo_set_world (lo_world s) (lo_set_app a (set_worker w (worker_send d (the_worker w s)) s)))); [|apply (pings_held (lo_pings s + 1))].
  apply (buffers_moved _ _ w (worker_send d (the_worker w s)) a (lo_world s) s Hw). intros Ho v. cbn [lo_world lo_app lo_set_world lo_set_app].
  change (the_worker v _) with (the_worker v (set_worker w (worker_send d (the_worker w s)) s)). rewrite the_set_worker. destruct (Ho v) as (H1 & H2 & H3).
  rewrite (plus_nil _ _ _ _ Hg). destruct (decide (v = w)) as [->|Hne].
  - cbn. destruct (take_front _ _ d H2) as [-> ->]. rewrite (plus_here _ _ _ _ Hs), app_assoc. by rewrite H1.
  - by rewrite (plus_else _ _ _ _ v Hne Hs).
Qed.
Lemma consume_held w l a s : w < lo_next s -> 0 <= l <= zlen (w_receive_buf (the_worker w s)) -> plus_at w [] (sent (lo_app s)) (sent a) ->
  plus_at w (take (Z.to_nat l) (w_receive_buf (the_worker w s))) (got (lo_app s)) (got a) -> moves p p s (loop_consume w l (lo_set_app a s)).2.
Proof.
  intros Hw Hl Hs Hg. unfold loop_consume. rewrite bind_get. unfold consume_receive_buf.
  change (the_worker w (lo_set_app a s)) with (the_worker w s). rewrite (proj2 (Z.leb_le _ _)) by lia. erewrite bind_ok by reflexivity.
  apply (buffers_moved _ _ w (Worker (w_send_buf (the_worker w s)) (slice_from (w_receive_buf (the_worker w s)) l)) a (lo_world s) s Hw).
  intros Ho v. cbn [lo_world lo_app lo_set_world lo_set_app].
  change (the_worker v _) with (the_worker v (set_worker w (Worker (w_send_buf (the_worker w s)) (slice_from (w_receive_buf (the_worker w s)) l)) s)).
  rewrite the_set_worker. destruct (Ho v) as (H1 & H2 & H3). rewrite (plus_nil _ _ _ _ Hs). destruct (decide (v = w)) as [->|Hne].
  - cbn. split_and!; [done..|]. rewrite (plus_here _ _ _ _ Hg), <-app_assoc, (app_assoc (take _ _)), take_slice by done. done.
  - by rewrite (plus_else _ _ _ _ v Hne Hg).
Qed.

Lemma api_held s s' : api_io s s' -> moves p p s s'.
Proof.
  intros []; [apply create_held|by apply close_held|by apply send_held|by apply consume_held| |].
  - intros [I1 I2 I3 I4 I5 I6 I7]. split; [by split|done|done|done|grow].
  - intros [I1 I2 I3 I4 I5 I6 I7]. split; [|done|done|done|grow]. split; try done. intros w. destruct (I1 w) as (H1 & H2 & H3). cbn. by rewrite H, H0.
Qed.
Lemma apis_held s s' : rtc api_io s s' -> moves p p s s'.
Proof. induction 1 as [|x y z H _ IH]; [done|]. etrans; [by apply api_held|done]. Qed.
Lemma others_held s : moves p p s (others s).
Proof. apply apis_held, others_api. Qed.
Lemma workers_held w s : moves p p s (lo_set_workers (lo_workers s ∖ {[w]}) s).
Proof.
  intros [I1 I2 I3 I4 I5 I6 I7]. split; [|done|done|done|grow]. split; try done; cbn.
  - intros v [Hv|Hv]; [apply I3; left; set_solver|auto].
  - intros v Hv. apply I4. set_solver.
Qed.
End kept.

(** What others do to a buffer: they add to it. *)
Lemma api_grows s s' w : api_io s s' -> w < lo_next s -> w < lo_next s' /\ w_send_buf (the_worker w s) `prefix_of` w_send_buf (the_worker w s').
Proof.
  intros [s0|v s0 Hv|v data a s0 Hv _ _|v l a s0 Hv Hl _ _|s0|a s0 _ _] Hw; [|by split| | |by split..].
  - split; [change (w < lo_next s0 + 1); lia|]. change (the_worker w (create_worker_for_socket s0).2) with (the_worker w (set_worker (lo_next s0) IOWorker_init s0)).
    rewrite the_set_worker, decide_False by lia. done.
  - split; [done|]. change (the_worker w (loop_send v data (lo_set_app a s0)).2) with (the_worker w (set_worker v (worker_send data (the_worker v s0)) s0)).
    rewrite the_set_worker. case_decide; [subst; by eexists|done].
  - unfold loop_consume. rewrite bind_get. unfold consume_receive_buf. change (the_worker v (lo_set_app a s0)) with (the_worker v s0).
    rewrite (proj2 (Z.leb_le _ _)) by lia. erewrite bind_ok by reflexivity. split; [done|].
    set (o := Worker _ _). change (the_worker w (put (set_worker v o (lo_set_app a s0)) (lo_set_app a s0)).2) with (the_worker w (set_worker v o s0)).
    rewrite the_set_worker. case_decide; [by subst|done].
Qed.
Lemma apis_grow s s' w : rtc api_io s s' -> w < lo_next s -> w < lo_next s' /\ w_send_buf (the_worker w s) `prefix_of` w_send_buf (the_worker w s').
Proof.
  induction 1 as [|x y z H _ IH]; intros Hw; [done|]. destruct (api_grows x y w H Hw) as [H1 H2]. destruct (IH H1) as [H3 H4].
  split; [done|by etrans].
Qed.

(** ** The loop *)
Lemma switch_run {B} (f : unit -> M Loop B) s : (switch others ≫= f) s = f tt (others s).
Proof. done. Qed.
Lemma others_next s w : w < lo_next s -> w < lo_next (others s).
Proof. intros Hw. by destruct (apis_grow _ _ w (others_api s) Hw). Qed.

Lemma discard_held w s : w < lo_next s -> holds s (discard others w s).2.
Proof.
  intros Hw. etrans; [by apply (close_held settled w)|]. etrans; [apply others_held|apply (workers_held settled w)].
Qed.

(** Computations over workers that are known. *)
Definition held_by (m : M Loop unit) (w : Z) : Prop := forall s, w < lo_next s -> holds s (m s).2.
Lemma each_held (f : Z -> M Loop unit) (fs : list Z -> M Loop unit) l s :
  (forall w, held_by (f w) w) -> fs [] = mret tt -> (forall w l, fs (w :: l) = ('_ ← f w; fs l)) ->
  (forall w, w ∈ l -> w < lo_next s) -> holds s (fs l s).2.
Proof.
  intros Hf H0 Hs. revert s. induction l as [|w l IH]; intros s Hl; [by rewrite H0|]. rewrite Hs.
  assert (holds s (f w s).2) as H by (apply Hf, Hl, list_elem_of_here). unfold mbind, M_bind. destruct (f w s) as [[[]|e] s1]; [|done].
  cbn in H. apply (moves_then _ _ _ _ _ _ H). intros Hn. apply IH. intros v Hv.
  assert (v < lo_next s) by (apply Hl; by apply list_elem_of_further). lia.
Qed.

(** Bytes on their way from a socket to the buffer, and from the buffer to a socket. *)
Definition arriving (w : Z) (data : bytes) : transit := (fun _ => [], at_worker w data).
Definition leaving (w : Z) (data : bytes) : transit := (at_worker w data, fun _ => []).
Lemma at_nil w v : at_worker w [] v = [].
Proof. unfold at_worker. by destruct (v =? w). Qed.
Lemma at_here w d : at_worker w d w = d.
Proof. unfold at_worker. by rewrite Z.eqb_refl. Qed.
Lemma at_else w d v : v <> w -> at_worker w d v = [].
Proof. intros H. unfold at_worker. by rewrite (proj2 (Z.eqb_neq _ _)). Qed.
Lemma arrived_nothing w s s' : moves settled (arriving w []) s s' -> holds s s'.
Proof.
  intros H I. destruct (H I) as [[I1 I2 I3 I4 I5 I6 I7] N C W0 Q]. split; try done. split; try done.
  intros v. destruct (I1 v) as (H1 & H2 & H3). cbn in *. by rewrite at_nil in H3.
Qed.
Lemma left_nothing w s s' : moves settled (leaving w []) s s' -> holds s s'.
Proof.
  intros H I. destruct (H I) as [[I1 I2 I3 I4 I5 I6 I7] N C W0 Q]. split; try done. split; try done.
  intros v. destruct (I1 v) as (H1 & H2 & H3). cbn in *. by rewrite at_nil in H1, H2.
Qed.

Lemma recv_moves w s r x : sock_recv w _BUF_SIZE (lo_world s) = (r, x) ->
  moves settled (arriving w (match r with IoOk d => d | _ => [] end)) s (lo_set_world x s).
Proof.
  intros Er. pose proof (recv_returns w _BUF_SIZE (lo_world s)) as Hr. rewrite Er in Hr. destruct Hr as [Ht Hg]. set (d := match r with IoOk d => d | _ => [] end) in *.
  apply world_moved. intros Ho v. destruct (Ho v) as (H1 & H2 & H3). cbn in *. rewrite (plus_nil _ _ _ _ Ht). split_and!; [done..|].
  rewrite (Hg v), H3, app_nil_r, <-app_assoc. done.
Qed.
Lemma push_moves w d s : w < lo_next s -> moves (arriving w d) settled s (set_worker w (push_receive_data d (the_worker w s)) s).
Proof.
  intros Hw. set (o := push_receive_data d (the_worker w s)). apply (buffers_moved _ _ w o (lo_app s) (lo_world s) s Hw). intros Ho v. cbn [lo_world lo_app lo_set_world lo_set_app].
  change (the_worker v _) with (the_worker v (set_worker w o s)). rewrite the_set_worker. destruct (Ho v) as (H1 & H2 & H3). cbn in *.
  destruct (decide (v = w)) as [->|Hne]; cbn.
  - rewrite at_here in H3. split_and!; [done..|]. by rewrite app_nil_r.
  - rewrite at_else in H3 by done. done.
Qed.
Lemma read_held w : held_by (read_one others on_data sock_recv w) w.
Proof.
  intros s Hw. unfold read_one. rewrite switch_run. etrans; [apply others_held|]. apply others_next in Hw. set (s1 := others s) in *.
  unfold socket_call. destruct (sock_recv w _BUF_SIZE (lo_world s1)) as [r x] eqn:Er. pose proof (recv_moves w s1 r x Er) as Hr.
  erewrite bind_ok by (rewrite bind_get; rewrite Er; reflexivity). cbn [fst snd]. rewrite switch_run.
  set (s2 := lo_set_world x s1) in *. pose proof (moves_from _ _ _ _ Hr _ (others_held _ s2)) as Hm. assert (w < lo_next (others s2)) as Hw2 by by apply others_next.
  destruct r as [data|n|e]; [|apply arrived_nothing in Hm; etrans; [exact Hm|by apply discard_held]|by apply arrived_nothing in Hm].
  set (s3 := set_worker w (push_receive_data data (the_worker w (others s2))) (others s2)).
  assert (holds s1 s3) as H1 by (apply (moves_then _ _ _ _ _ _ Hm); intros _; by apply push_moves).
  assert (_push_receive_data others on_data w data (others s2) = on_data w (others s3)) as Ep by reflexivity.
  assert (w < lo_next (others s3)) as Hw3 by by apply others_next.
  assert (holds s1 (on_data w (others s3)).2) as H2.
  { etrans; [exact H1|]. etrans; [apply others_held|]. by apply apis_held, on_data_api. }
  unfold mbind, M_bind, attempt. rewrite Ep. destruct (on_data w (others s3)) as [[[]|e] s4] eqn:Ed; cbn in H2; [done|].
  assert (w < lo_next s4) as Hw4 by (pose proof (on_data_api w (others s3) Hw3) as Ha; rewrite Ed in Ha; by destruct (apis_grow _ _ w Ha Hw3)).
  destruct e; try exact H2. etrans; [exact H2|by apply discard_held].
Qed.

Lemma accept_moves w buf l s x : w < lo_next s -> buf `prefix_of` w_send_buf (the_worker w s) -> 0 <= l <= zlen buf ->
  plus_at w (take (Z.to_nat l) buf) (taken (lo_world s)) (taken x) -> plus_at w [] (given (lo_world s)) (given x) ->
  moves settled (leaving w (take (Z.to_nat l) buf)) s (lo_set_world x s).
Proof.
  intros Hw [more Eb] Hl Ht Hg. apply world_moved. intros Ho v. destruct (Ho v) as (H1 & H2 & H3). cbn in *. change (the_worker v (lo_set_world x s)) with (the_worker v s).
  rewrite (plus_nil _ _ _ _ Hg). destruct (decide (v = w)) as [->|Hne].
  - rewrite at_here. rewrite (plus_here _ _ _ _ Ht), Eb. rewrite Eb in H1.
    assert (length (take (Z.to_nat l) buf) = Z.to_nat l) as El by (rewrite length_take; unfold zlen in Hl; lia). rewrite El.
    assert (Z.to_nat l <= length buf)%nat by (unfold zlen in Hl; lia). rewrite drop_app_le, take_app_le by done. split_and!; [|done..].
    rewrite <-H1, drop_0, <-app_assoc. f_equal. by rewrite app_assoc, take_drop.
  - rewrite at_else by done. cbn. by rewrite (plus_else _ _ _ _ v Hne Ht).
Qed.
Lemma consume_moves w d s : w < lo_next s -> moves (leaving w d) settled s (_consume_send_buf w (zlen d) s).2.
Proof.
  intros Hw I. pose proof (ii_order _ s I w) as (_ & Hd & _). cbn in Hd. rewrite at_here in Hd. unfold _consume_send_buf. rewrite bind_get. unfold consume_send_buf.
  assert (zlen d <= zlen (w_send_buf (the_worker w s))) as Hl by (unfold zlen; apply (f_equal length) in Hd; rewrite length_take in Hd; lia).
  rewrite (proj2 (Z.leb_le _ _)) by done. erewrite bind_ok by reflexivity. revert I. set (o := Worker _ _).
  apply (buffers_moved _ _ w o (lo_app s) (lo_world s) s Hw). intros Ho v. cbn [lo_world lo_app lo_set_world lo_set_app].
  change (the_worker v _) with (the_worker v (set_worker w o s)). rewrite the_set_worker. destruct (Ho v) as (H1 & H2 & H3). cbn in *.
  destruct (decide (v = w)) as [->|Hne]; cbn; [|by rewrite at_else in H1 by done].
  rewrite at_here in H1. rewrite slice_drop by apply zlen_nonneg. unfold zlen. by rewrite Nat2Z.id.
Qed.
Lemma write_held w : held_by (write_one others sock_send w) w.
Proof.
  intros s Hw. unfold write_one. rewrite switch_run. etrans; [apply others_held|]. apply others_next in Hw. set (s1 := others s) in *.
  rewrite bind_get. set (buf := w_send_buf (the_worker w s1)). cbv zeta. rewrite switch_run. etrans; [apply others_held|].
  destruct (apis_grow _ _ w (others_api s1) Hw) as [Hw2 Hp]. fold buf in Hp. set (s2 := others s1) in *.
  unfold socket_call. pose proof (send_accepts w buf (lo_world s2)) as Hr. destruct (sock_send w buf (lo_world s2)) as [r x] eqn:Er. destruct Hr as (Hl & Ht & Hg).
  erewrite bind_ok by (rewrite bind_get; rewrite Er; reflexivity). cbn [fst snd]. rewrite switch_run.
  set (l := match r with IoOk l => l | _ => 0 end). assert (0 <= l <= zlen buf) as Hlb by (unfold l; destruct r; [done|pose proof (zlen_nonneg buf); lia..]).
  assert (plus_at w (take (Z.to_nat l) buf) (taken (lo_world s2)) (taken x)) as Ht' by (unfold l; by destruct r).
  pose proof (moves_from _ _ _ _ (accept_moves w buf l s2 x Hw2 Hp Hlb Ht' Hg) _ (others_held _ (lo_set_world x s2))) as Hm. set (s3 := others (lo_set_world x s2)) in *.
  assert (w < lo_next s3) as Hw3 by by apply others_next.
  assert (l = 0 -> holds s2 s3) as H0 by (intros E; rewrite E in Hm; by apply (left_nothing w)).
  destruct r as [n|n|e]; [|specialize (H0 eq_refl); destruct (n =? EAGAIN); [exact H0|etrans; [exact H0|by apply discard_held]]|by apply H0].
  change n with l. destruct (Z.ltb_spec 0 l) as [Hpos|Hnon]; [|apply H0; lia].
  assert (zlen (take (Z.to_nat l) buf) = l) as El by (unfold zlen in *; rewrite length_take; lia).
  apply (moves_then _ _ _ _ _ _ Hm). intros _. rewrite <-El at 2. by apply consume_moves.
Qed.

(** ** The commands *)
Lemma command_ok c l s : lo_waiting s = None -> io_inv (lo_set_pending (c :: l) s) -> io_inv (lo_set_pending l (run_command c s)).
Proof.
  intros Hw [I1 I2 I3 I4 I5 I6 I7]. cbn in *. assert (forall v, v ∈ l -> v ∈ c :: l) as Hl by (intros v; apply list_elem_of_further).
  destruct c as [w|w]; split; cbn; try done.
  - intros v Hv. destruct (I2 v Hv) as (Hn & Hc & Hp). split_and!; auto.
  - intros v [[Hv|Hv]%elem_of_union|Hv]; [|auto|auto]. apply elem_of_singleton in Hv as ->. apply I3. right. apply list_elem_of_here.
  - intros v [Hv|Hv]%elem_of_union; [|auto]. apply elem_of_singleton in Hv as ->. intros H. apply (I5 w H). apply list_elem_of_here.
  - intros v Hv H. by apply (I5 v Hv), Hl.
  - intros l1 l2 v E. apply (I6 (AddWorker w :: l1) l2 v). cbn. by rewrite E.
  - intros v Hv. destruct (I2 v Hv) as (Hn & Hc & Hp). split_and!; [done| |auto]. intros [H|H]%elem_of_union; [|done].
    apply elem_of_singleton in H as ->. apply Hp, list_elem_of_here.
  - intros v [Hv|Hv]; apply I3; [left; set_solver|right; auto].
  - intros v Hv [H|H]%elem_of_union; [set_solver|]. apply (I4 v); [set_solver|done].
  - intros v [Hv|Hv]%elem_of_union; [|intros H; by apply (I5 v Hv), Hl]. apply elem_of_singleton in Hv as ->. by apply (I6 [] l w).
  - intros l1 l2 v E. apply (I6 (CloseWorker w :: l1) l2 v). cbn. by rewrite E.
  - rewrite Hw. done.
Qed.
Lemma command_kept c s : lo_waiting (run_command c s) = lo_waiting s /\ lo_closed s ⊆ lo_closed (run_command c s) /\
  forall w, c = CloseWorker w -> w ∈ lo_closed (run_command c s).
Proof. destruct c; cbn; split_and!; try done; [set_solver|]. intros w' [= ->]. set_solver. Qed.
Lemma run_commands_ok fuel s r s' : lo_waiting s = None -> io_inv s -> run_commands others fuel s = (r, s') ->
  io_inv s' /\ lo_waiting s' = None /\ lo_closed s ⊆ lo_closed s' /\ (r = Ok tt -> forall w, CloseWorker w ∈ lo_pending s -> w ∈ lo_closed s').
Proof.
  revert s. induction fuel as [|fuel IH]; intros s Hw I E; cbn [run_commands] in E; rewrite switch_run, bind_get in E;
    destruct (others_held settled s I) as [I1 _ Hc1 Hw1 [l0 Q1]]; set (s1 := others s) in *.
  - destruct (lo_pending s1) as [|c l]; injection E as <- <-; (split_and!; [done|congruence|by rewrite Hc1|]); [|done].
    intros _ w Hin. symmetry in Q1. apply app_nil in Q1 as [Q1 _]. rewrite Q1 in Hin. by apply elem_of_nil in Hin.
  - destruct (lo_pending s1) as [|c l] eqn:Ep.
    { injection E as <- <-. split_and!; [done|congruence|by rewrite Hc1|]. intros _ w Hin. symmetry in Q1. apply app_nil in Q1 as [Q1 _]. rewrite Q1 in Hin.
      by apply elem_of_nil in Hin. }
    rewrite bind_put in E. assert (run_command c (lo_set_pending l s1) = lo_set_pending l (run_command c s1)) as Es by by destruct c. rewrite Es in E.
    destruct (command_kept c s1) as (Hk & Hm & Hc).
    destruct (IH (lo_set_pending l (run_command c s1))) as (I' & Hw' & Hs' & Hc'); [cbn; congruence| |done|].
    { apply command_ok; [congruence|]. rewrite <-Ep. by destruct s1. }
    cbn in Hs', Hc'. split_and!; [done|done|set_solver|]. intros Er w Hin. assert (CloseWorker w ∈ c :: l) as [Heq|Hl]%elem_of_cons by (rewrite Q1; apply elem_of_app; by left).
    + apply Hs', Hc. by rewrite Heq.
    + by apply Hc'.
Qed.

(** What [select] is asked for. *)
Definition asks s (r : list (option Z)) (wl x : list Z) : Prop := forall w,
  (Some w ∈ r <-> w ∈ lo_workers s) /\ (w ∈ wl <-> w ∈ lo_workers s /\ w_send_buf (the_worker w s) <> []) /\ (w ∈ x <-> w ∈ lo_workers s).
Lemma ready_nonempty (o : IOWorker) : ready_to_send o = true <-> w_send_buf o <> [].
Proof. unfold ready_to_send, zlen. destruct (w_send_buf o); cbn [length]; split; try done; intros; lia. Qed.

(** A run to the next [yield], or the end. *)
Definition yields_at s s' : Prop := io_inv s' /\ (lo_ended s' = false ->
  (exists r wl x, lo_waiting s' = Some (r, wl, x) /\ asks s' r wl x) /\ forall w, CloseWorker w ∈ lo_pending s -> w ∈ lo_closed s').
Lemma prepare_ok fuel s r s' : io_inv s -> lo_waiting s = None -> loop_prepare others fuel s = (r, s') -> io_inv s' /\ (r = Ok tt -> yields_at s s').
Proof.
  intros I Hw E. unfold loop_prepare in E. rewrite bind_get in E. destruct (lo_running s) eqn:Hr.
  2: { injection E as <- <-. assert (io_inv (lo_set_ended true s)) as I' by by destruct I. by split. }
  destruct (run_commands others fuel s) as [[[]|e] s1] eqn:Ec; destruct (run_commands_ok fuel s _ s1 Hw I Ec) as (I' & Hw' & _ & Hc).
  2: { erewrite bind_err in E by exact Ec. injection E as <- <-. by split. }
  erewrite bind_ok in E by exact Ec. rewrite bind_get in E. injection E as <- <-. set (r := _ ++ _). set (wl := List.filter _ _). set (x := elements _).
  assert (asks s1 r wl x) as Ha.
  { intros w. unfold r, wl, x. rewrite elem_of_app, list_elem_of_fmap, list_elem_of_singleton, (list_elem_of_In (List.filter _ _) w), filter_In, <-list_elem_of_In, ready_nonempty, elem_of_elements.
    split; [|done]. split; [|intros ?; left; by exists w; rewrite elem_of_elements]. intros [(v & [= ->] & ?)|?]; [by apply elem_of_elements|done]. }
  assert (io_inv (lo_set_waiting (Some (r, wl, x)) s1)) as I2.
  { destruct I' as [I1 I2 I3 I4 I5 I6 I7]. split; try done. intros r' wl' x' [= <- <- <-] w Hin. assert (w ∈ lo_workers s1) as Hk.
    { destruct (Ha w) as (H1 & H2 & H3). destruct Hin as [Hin|[Hin|Hin]]; [by apply H1|by apply H2 in Hin as []|by apply H3]. }
    split; cbn; [apply I3; by left|by apply I4]. }
  split; [done|]. intros _. split; [done|]. intros _. split; [by exists r, wl, x|]. by apply Hc.
Qed.

(** ** The steps.  A handler that does not return, or commands without end, stand for a step that does not end. *)
Inductive loop_runs : Loop -> Loop -> Prop :=
  | runs_first fuel s s' : lo_ended s = false -> lo_waiting s = None -> in_loop (run_first others fuel) s = (Ok tt, s') -> loop_runs s s'
  | runs_next fuel rl wl el r w x s s' : lo_ended s = false -> lo_waiting s = Some (r, w, x) -> rl ⊆ r -> wl ⊆ w -> el ⊆ x ->
      in_loop (run_next others on_data sock_recv sock_send fuel rl wl el) s = (Ok tt, s') -> loop_runs s s'.
Inductive io_step : Loop -> Loop -> Prop :=
  | io_runs s s' : loop_runs s s' -> io_step s s'
  | io_outside s s' : rtc api_io s s' -> io_step s s'.
Definition io_reachable s : Prop := exists a x, (forall w, sent a w = [] /\ got a w = []) /\ (forall w, taken x w = [] /\ given x w = []) /\
  rtc io_step (RecocoIOLoop_init a x) s.

Lemma init_ok a x : (forall w, sent a w = [] /\ got a w = []) -> (forall w, taken x w = [] /\ given x w = []) -> io_inv (RecocoIOLoop_init a x).
Proof.
  intros Ha Hx. split; try done.
  - intros w. destruct (Ha w) as [E1 E2], (Hx w) as [E3 E4]. cbn. rewrite E1, E2, E3, E4. done.
  - intros w _. split_and!; [done|apply not_elem_of_empty|apply not_elem_of_nil].
  - intros w [H|H]; [by apply not_elem_of_empty in H|by apply elem_of_nil in H].
  - intros [|] ? ?; done.
Qed.

Lemma finish_ok rl wl el s r w x : io_inv s -> lo_waiting s = Some (r, w, x) -> rl ⊆ r -> wl ⊆ w -> el ⊆ x ->
  holds (lo_set_waiting None s) (loop_finish others on_data sock_recv sock_send rl wl el s).2.
Proof.
  intros I Hw Hr Hwl He. unfold loop_finish. erewrite bind_ok by reflexivity. set (s0 := lo_set_waiting None s).
  assert (forall v, Some v ∈ rl \/ v ∈ wl \/ v ∈ el -> v < lo_next s0) as Hknown.
  { intros v Hv. assert (Some v ∈ r \/ v ∈ w \/ v ∈ x) as Hin by (clear -Hv Hr Hwl He; set_solver). by destruct (ii_wait _ s I r w x Hw v Hin). }
  rewrite switch_run. apply (moves_then _ _ _ _ _ _ (others_held settled s0)). set (s1 := others s0). intros N1.
  set (s2 := if bool_decide (None ∈ rl) then lo_set_pings (pongAll (lo_pings s1)) s1 else s1).
  assert (holds s1 s2) as H2 by (unfold s2; case_bool_decide; [apply pings_held|done]).
  assert ((if bool_decide (None ∈ rl) then lo_modify (fun s => lo_set_pings (pongAll (lo_pings s)) s) else mret tt) s1 = (Ok tt, s2)) as E2
    by (unfold s2; by case_bool_decide).
  erewrite bind_ok by exact E2. apply (moves_then _ _ _ _ _ _ H2). intros N2.
  assert (holds s2 (failed_each others el s2).2) as H3.
  { apply (each_held (fun v => '_ ← switch others; discard others v) (failed_each others)); [|done|done|].
    - intros v t Hv. rewrite switch_run. etrans; [apply others_held|]. by apply discard_held, others_next.
    - intros v Hv. assert (v < lo_next s0) by auto. lia. }
  unfold mbind at 1, M_bind at 1. destruct (failed_each others el s2) as [[[]|e] s3]; cbn in H3; [|done]. apply (moves_then _ _ _ _ _ _ H3). intros N3.
  assert (holds s3 (read_each others on_data sock_recv (omap id rl) s3).2) as H4.
  { apply (each_held (read_one others on_data sock_recv)); [apply read_held|done|done|]. intros v (o & Ho & [= ->])%list_elem_of_omap. assert (v < lo_next s0) by auto. lia. }
  unfold mbind at 1, M_bind at 1. destruct (read_each _ _ _ _ s3) as [[[]|e] s4]; cbn in H4; [|done]. apply (moves_then _ _ _ _ _ _ H4). intros N4.
  apply (each_held (write_one others sock_send)); [apply write_held|done|done|]. intros v Hv. assert (v < lo_next s0) by auto. lia.
Qed.

Lemma in_loop_cases m s s' : in_loop m s = (Ok tt, s') -> m s = (Ok tt, s') \/ s' = lo_set_ended true (m s).2.
Proof.
  unfold in_loop, mbind, M_bind, attempt. destruct (m s) as [[[]|e] s1]; [intros [= <-]; by left|].
  destruct e; try (intros [= <-]; by right).
Qed.

(** From a state without a [Select] that is waited for. *)
Lemma prepares fuel m s s1 s' : m s = (Ok tt, s1) -> io_inv s1 -> lo_waiting s1 = None -> (exists l, lo_pending s1 = lo_pending s ++ l) ->
  in_loop ('_ ← m; '_ ← switch others; loop_prepare others fuel) s = (Ok tt, s') -> yields_at s s'.
Proof.
  intros Em I Hw [l Hl] H. destruct (others_held settled s1 I) as [I1 _ Hc1 Hw1 [l1 Q1]].
  destruct (loop_prepare others fuel (others s1)) as [r s2] eqn:E. destruct (prepare_ok fuel (others s1) r s2 I1 ltac:(congruence) E) as [I2 Hy].
  apply in_loop_cases in H as [H|H]; erewrite bind_ok in H by exact Em; rewrite switch_run, E in H.
  - injection H as -> <-. destruct (Hy eq_refl) as [_ Hy']. split; [done|]. intros He. destruct (Hy' He) as [Ha Hc]. split; [done|].
    intros w Hin. apply Hc. rewrite Q1, Hl, !elem_of_app. auto.
  - subst s'. split; [by destruct I2|done].
Qed.
Lemma runs_yield s s' : loop_runs s s' -> io_inv s -> yields_at s s'.
Proof.
  intros [fuel s0 s1 He Hw E|fuel rl wl el r w x s0 s1 He Hw Hr Hwl Hel E] I.
  - apply (prepares fuel loop_start s0 (lo_set_running true s0)); [done|by destruct I|done|exists []; cbn; by rewrite app_nil_r|exact E].
  - destruct (finish_ok rl wl el s0 r w x I Hw Hr Hwl Hel (waiting_none settled s0 I)) as [I1 _ _ Hn [l Hl]].
    destruct (loop_finish others on_data sock_recv sock_send rl wl el s0) as [[[]|e] s2] eqn:Ef; cbn [snd] in *.
    + apply (prepares fuel _ s0 s2 s1 Ef I1 Hn); [by exists l|exact E].
    + apply in_loop_cases in E as [E|E]; unfold run_next in E; erewrite bind_err in E by exact Ef; [done|]. subst s1. split; [by destruct I1|done].
Qed.
Lemma step_ok s s' : io_step s s' -> io_inv s -> io_inv s'.
Proof.
  intros [s0 s1 H|s0 s1 H] I; [by destruct (runs_yield s0 s1 H I)|exact (hl_inv _ _ _ (apis_held settled s0 s1 H I))].
Qed.
Lemma reachable_inv s : io_reachable s -> io_inv s.
Proof.
  intros (a & x & Ha & Hx & H). pose proof (init_ok a x Ha Hx) as I. induction H as [|y z t H _ IH]; [done|]. apply IH. by apply (step_ok y).
Qed.

(** C15: Streams through the loop.  Clients, handlers and sockets act at any time, other threads between any two statements of
    the loop, each call of [send] and [consume_receive_buf] and each of the loop's own assignments to a buffer being one step.  Then what the
    socket of a worker has accepted and what waits in its buffer are together what was sent to it, in the same
    order; what the socket has returned is what was consumed and what waits; and a socket that has been closed is neither
    in the loop nor in what [select] is asked for.  (Nothing in the code makes the assignments single steps: when a [send]
    meets the loop's in the middle of one, bytes are lost or go out twice, [send_meets_consume].) *)
Theorem io_streams s w : io_reachable s ->
  taken (lo_world s) w ++ w_send_buf (the_worker w s) = sent (lo_app s) w /\
  given (lo_world s) w = got (lo_app s) w ++ w_receive_buf (the_worker w s) /\
  (w ∈ lo_closed s -> w ∉ lo_workers s /\ forall r wl x, lo_waiting s = Some (r, wl, x) -> Some w ∉ r /\ w ∉ wl /\ w ∉ x).
Proof.
  intros I%reachable_inv. destruct (ii_order _ s I w) as (H1 & _ & H3). cbn in H1, H3. rewrite drop_0 in H1. rewrite app_nil_r in H3. split_and!; [done|done|]. intros Hc. split.
  - intros Hw. by apply (ii_open _ s I w).
  - intros r wl x E. assert (forall v, Some v ∈ r \/ v ∈ wl \/ v ∈ x -> v ∉ lo_closed s) as Hs by (intros v Hv; by destruct (ii_wait _ s I r wl x E v Hv)).
    split_and!; intros Hin; (apply (Hs w); [auto|done]).
Qed.

(** C16: The turn of the loop.  Unless it ends, every run of the loop comes to a [select] for the workers that there are then: all of
    them for reading and for errors, for writing those with bytes in their buffer; and every worker that was to be closed before is closed. *)
Theorem io_turn s s' : io_reachable s -> loop_runs s s' -> lo_ended s' = false ->
  (exists r wl x, lo_waiting s' = Some (r, wl, x) /\ forall w,
    (Some w ∈ r <-> w ∈ lo_workers s') /\ (w ∈ wl <-> w ∈ lo_workers s' /\ w_send_buf (the_worker w s') <> []) /\ (w ∈ x <-> w ∈ lo_workers s')) /\
  forall w, CloseWorker w ∈ lo_pending s -> w ∈ lo_closed s'.
Proof. intros I%reachable_inv H He. by apply (runs_yield s s' H I). Qed.

(** The commands that are there are run when others add none meanwhile. *)
Lemma commands_end fuel s : (forall s, lo_pending (others s) = lo_pending s) -> (length (lo_pending s) <= fuel)%nat ->
  exists s', run_commands others fuel s = (Ok tt, s') /\ lo_pending s' = [].
Proof.
  intros Ho. revert s. induction fuel as [|fuel IH]; intros s Hl; cbn [run_commands]; rewrite switch_run, bind_get, Ho.
  - destruct (lo_pending s) eqn:E; [|cbn in Hl; lia]. exists (others s). split; [done|]. by rewrite Ho.
  - destruct (lo_pending s) as [|c l] eqn:E; [exists (others s); split; [done|by rewrite Ho]|]. rewrite bind_put. apply IH. destruct c; cbn in *; lia.
Qed.
End theory.

(** ** Two threads at one buffer *)

(** [send] and [_consume_send_buf] in one piece are their halves together. *)
Lemma send_whole {A W} w data (s : RecocoIOLoop A W) :
  (loop_send w data s).2 = lo_set_pings (lo_pings s + 1) (send_store w (w_send_buf (the_worker w s)) data s).
Proof. done. Qed.
Lemma consume_whole {A W} w l (s : RecocoIOLoop A W) : l <= zlen (w_send_buf (the_worker w s)) ->
  _consume_send_buf w l s = (Ok tt, consume_store w l (w_send_buf (the_worker w s)) s).
Proof.
  intros Hl. unfold _consume_send_buf. rewrite bind_get. unfold consume_send_buf. by rewrite (proj2 (Z.leb_le _ _) Hl).
Qed.
(** Between the halves of the loop's assignment, what is sent is lost; when the loop's comes between those of a [send], what the
    socket has accepted stays in the buffer and goes out again. *)
Lemma send_meets_consume {A W} w l data (s : RecocoIOLoop A W) :
  let b := w_send_buf (the_worker w s) in
  w_send_buf (the_worker w (consume_store w l b (send_store w b data s))) = slice_from b l /\
  w_send_buf (the_worker w (send_store w b data (consume_store w l b s))) = b ++ data.
Proof. cbv zeta. unfold send_store, consume_store. by rewrite !the_set_worker, !decide_True. Qed.

(** The end of a stream: the worker stays, and is asked for again at once. *)
Lemma end_of_stream_unnoticed {A W} (on_data : Z -> M (RecocoIOLoop A W) unit) sock_recv sock_send w s :
  lo_running s = true -> lo_ended s = false -> lo_pending s = [] -> w ∈ lo_workers s ->
  (sock_recv w _BUF_SIZE (lo_world s)).1 = IoOk [] -> (forall s, on_data w s = (Ok tt, s)) ->
  exists s' r wl x, in_loop (run_next id on_data sock_recv sock_send 0 [Some w] [] []) s = (Ok tt, s') /\ lo_workers s' = lo_workers s /\
    lo_ended s' = false /\ lo_waiting s' = Some (r, wl, x) /\ Some w ∈ r.
Proof.
  intros Hr He Hp Hw Er Hd. set (s1 := lo_set_waiting None s). set (s2 := lo_set_world (sock_recv w _BUF_SIZE (lo_world s)).2 s1).
  set (s3 := set_worker w (push_receive_data [] (the_worker w s2)) s2).
  assert (read_one id on_data sock_recv w s1 = (Ok tt, s3)) as E1.
  { unfold read_one. rewrite switch_run. erewrite bind_ok by (unfold socket_call; rewrite bind_get; erewrite bind_ok by reflexivity; reflexivity).
    change (lo_world (id s1)) with (lo_world s). rewrite Er, switch_run. change (id (lo_set_world _ (id s1))) with s2.
    assert (attempt (_push_receive_data id on_data w []) s2 = (Ok (Ok tt), s3)) as Ea
      by (unfold attempt, _push_receive_data; erewrite bind_ok by reflexivity; rewrite switch_run; by rewrite Hd).
    by erewrite bind_ok by exact Ea. }
  assert (loop_finish id on_data sock_recv sock_send [Some w] [] [] s = (Ok tt, s3)) as E2.
  { unfold loop_finish. erewrite bind_ok by reflexivity. rewrite switch_run. rewrite bool_decide_false by (intros [|?%elem_of_nil]%elem_of_cons; done).
    erewrite bind_ok by reflexivity. erewrite bind_ok by reflexivity. erewrite bind_ok; [reflexivity|]. cbn [omap list_omap id read_each].
    by erewrite bind_ok by exact E1. }
  assert (run_commands id 0 s3 = (Ok tt, s3)) as E3
    by (cbn [run_commands]; rewrite switch_run, bind_get; change (lo_pending (id s3)) with (lo_pending s); by rewrite Hp).
  assert (exists r wl x, run_next id on_data sock_recv sock_send 0 [Some w] [] [] s = (Ok tt, lo_set_waiting (Some (r, wl, x)) s3) /\ Some w ∈ r) as (r & wl & x & E & Hin).
  { unfold run_next. erewrite bind_ok by exact E2. rewrite switch_run. unfold loop_prepare. rewrite bind_get.
    change (lo_running (id s3)) with (lo_running s). rewrite Hr. erewrite bind_ok by exact E3. rewrite bind_get. eexists _, _, _. split; [reflexivity|].
    apply elem_of_app. left. apply list_elem_of_fmap. exists w. split; [done|]. by apply elem_of_elements. }
  exists (lo_set_waiting (Some (r, wl, x)) s3), r, wl, x. split_and!; [|done..]. unfold in_loop.
  assert (attempt (run_next id on_data sock_recv sock_send 0 [Some w] [] []) s = (Ok (Ok tt), lo_set_waiting (Some (r, wl, x)) s3)) as Ea by (unfold attempt; by rewrite E).
  by erewrite bind_ok by exact Ea.
Qed.

(** * Examples *)

(** Clients that keep account, a network that delivers five bytes once to every socket and accepts two at a time. *)
Abbreviation account := (gmap Z bytes).
Definition at_ (w : Z) (a : account) : bytes := default [] (a !! w).
Definition more (w : Z) (data : bytes) (a : account) : account := <[w := at_ w a ++ data]> a.
Lemma more_plus w data a : plus_at w data (fun v => at_ v a) (fun v => at_ v (more w data a)).
Proof.
  intros v. unfold more, at_ at 1. destruct (Z.eqb_spec v w) as [->|H]; [by rewrite lookup_insert_eq|]. rewrite lookup_insert_ne by done. by rewrite app_nil_r.
Qed.
Lemma plus_refl w f : plus_at w [] f f.
Proof. intros v. destruct (v =? w); by rewrite app_nil_r. Qed.
Abbreviation books := (account * account)%type.
Abbreviation ExLoop := (RecocoIOLoop books books).
Definition ex_sent (a : books) (w : Z) : bytes := at_ w a.1.
Definition ex_got (a : books) (w : Z) : bytes := at_ w a.2.
Definition ex_on_data (w : Z) : M ExLoop unit := fun s =>
  let b := w_receive_buf (the_worker w s) in loop_consume w (zlen b) (lo_set_app ((lo_app s).1, more w (take (Z.to_nat (zlen b)) b) (lo_app s).2) s).
Definition ex_sock_recv (w n : Z) (x : books) : io_result bytes * books :=
  if bool_decide (at_ w x.2 = []) then (IoOk [x68; x65; x6c; x6c; x6f], (x.1, more w [x68; x65; x6c; x6c; x6f] x.2)) else (IoError EAGAIN, x).
Definition ex_sock_send (w : Z) (data : bytes) (x : books) : io_result Z * books :=
  (IoOk (zlen (take 2 data)), (more w (take (Z.to_nat (zlen (take 2 data))) data) x.1, x.2)).

Lemma ex_recv_returns w n x : let '(r, x') := ex_sock_recv w n x in
  plus_at w [] (ex_sent x) (ex_sent x') /\ plus_at w (match r with IoOk d => d | _ => [] end) (ex_got x) (ex_got x').
Proof. unfold ex_sock_recv. case_bool_decide; split; try apply plus_refl. apply more_plus. Qed.
Lemma ex_send_accepts w data x : let '(r, x') := ex_sock_send w data x in
  match r with IoOk l => 0 <= l <= zlen data | _ => True end /\
  plus_at w (match r with IoOk l => take (Z.to_nat l) data | _ => [] end) (ex_sent x) (ex_sent x') /\ plus_at w [] (ex_got x) (ex_got x').
Proof.
  unfold ex_sock_send. split; [unfold zlen; rewrite length_take; lia|]. split; [apply more_plus|apply plus_refl].
Qed.
Abbreviation ex_api := (api_io ex_sent ex_got).
Lemma ex_on_data_api w (s : ExLoop) : w < lo_next s -> rtc ex_api s (ex_on_data w s).2.
Proof.
  intros Hw. apply rtc_once. unfold ex_on_data. apply io_consume; [done|unfold zlen; lia|apply plus_refl|]. apply more_plus.
Qed.

(** Another thread that sends a byte whenever it is its turn, up to six bytes in all. *)
Definition ex_others (s : ExLoop) : ExLoop :=
  if (0 <? lo_next s) && (zlen (ex_sent (lo_app s) 0) <? 6)
  then (loop_send 0 [x7a] (lo_set_app (more 0 [x7a] (lo_app s).1, (lo_app s).2) s)).2 else s.
Lemma ex_others_api (s : ExLoop) : rtc ex_api s (ex_others s).
Proof.
  unfold ex_others. destruct (_ && _) eqn:E; [|done]. apply andb_prop in E as [E _]. apply Z.ltb_lt in E.
  apply rtc_once, io_send; [done|apply more_plus|apply plus_refl].
Qed.

(** A worker is made and sends three bytes; the loop runs twice; the worker is closed; the loop runs again. *)
Definition ex_io_0 : ExLoop := RecocoIOLoop_init (∅, ∅) (∅, ∅).
Definition ex_io_1 := (create_worker_for_socket ex_io_0).2.
Definition ex_io_2 := (loop_send 0 [x61; x62; x63] (lo_set_app (more 0 [x61; x62; x63] (lo_app ex_io_1).1, (lo_app ex_io_1).2) ex_io_1)).2.
Definition ex_io_3 := (in_loop (run_first ex_others 5) ex_io_2).2.
Definition ex_io_next := run_next ex_others ex_on_data ex_sock_recv ex_sock_send 5.
Definition ex_io_4 := (in_loop (ex_io_next [Some 0; None] [0] []) ex_io_3).2.
Definition ex_io_5 := (worker_close 0 ex_io_4).2.
Definition ex_io_6 := (in_loop (ex_io_next [] [] []) ex_io_5).2.
Abbreviation ex_runs := (loop_runs ex_others ex_on_data ex_sock_recv ex_sock_send).
Lemma ex_runs_3 : ex_runs ex_io_2 ex_io_3.
Proof. apply (runs_first _ _ _ _ 5); vm_compute; reflexivity. Qed.
Lemma ex_runs_4 : ex_runs ex_io_3 ex_io_4.
Proof.
  apply (runs_next _ _ _ _ 5 [Some 0; None] [0] [] [Some 0; None] [0] [0]); [vm_compute; reflexivity|vm_compute; reflexivity|set_solver|set_solver|set_solver|vm_compute; reflexivity].
Qed.
Lemma ex_runs_6 : ex_runs ex_io_5 ex_io_6.
Proof.
  apply (runs_next _ _ _ _ 5 [] [] [] [Some 0; None] [0] [0]); [vm_compute; reflexivity|vm_compute; reflexivity|set_solver|set_solver|set_solver|vm_compute; reflexivity].
Qed.
Abbreviation ex_reachable := (io_reachable ex_others ex_on_data ex_sock_recv ex_sock_send ex_sent ex_got ex_sent ex_got).
Lemma ex_reaches_5 : ex_reachable ex_io_5.
Proof.
  exists (∅, ∅), (∅, ∅). split; [done|]. split; [done|]. eapply rtc_l; [apply io_outside, rtc_once, io_create|].
  eapply rtc_l; [apply io_outside, rtc_once; apply (io_send ex_sent ex_got 0 [x61; x62; x63] (more 0 [x61; x62; x63] (lo_app ex_io_1).1, (lo_app ex_io_1).2) ex_io_1);
    [reflexivity|apply more_plus|apply plus_refl]|].
  eapply rtc_l; [apply io_runs, ex_runs_3|]. eapply rtc_l; [apply io_runs, ex_runs_4|]. apply rtc_once, io_outside, rtc_once.
  exact (io_close ex_sent ex_got 0 ex_io_4 ltac:(vm_compute; reflexivity)).
Qed.
Lemma ex_reaches_6 : ex_reachable ex_io_6.
Proof.
  destruct ex_reaches_5 as (a & x & Ha & Hx & H). exists a, x. split; [done|]. split; [done|]. eapply rtc_r; [exact H|]. apply io_runs, ex_runs_6.
Qed.

(** Two of the six bytes went out; the others are lost with the worker. *)
Lemma io_streams_witness : ex_sent (lo_world ex_io_6) 0 ++ [x63; x7a; x7a; x7a] = [x61; x62; x63; x7a; x7a; x7a] /\ ex_got (lo_world ex_io_6) 0 = [x68; x65; x6c; x6c; x6f] /\ 0 ∉ lo_workers ex_io_6.
Proof.
  destruct (io_streams ex_others ex_on_data ex_sock_recv ex_sock_send ex_sent ex_got ex_sent ex_got ex_recv_returns ex_send_accepts ex_others_api ex_on_data_api ex_io_6 0 ex_reaches_6)
    as (H1 & H2 & H3). split_and!.
  - transitivity (ex_sent (lo_app ex_io_6) 0); [|vm_compute; reflexivity]. rewrite <-H1. f_equal.
  - rewrite H2. vm_compute. reflexivity.
  - apply H3. vm_compute. reflexivity.
Defined.
Lemma io_turn_witness : 0 ∈ lo_closed ex_io_6.
Proof.
  refine (proj2 (io_turn ex_others ex_on_data ex_sock_recv ex_sock_send ex_sent ex_got ex_sent ex_got ex_recv_returns ex_send_accepts ex_others_api ex_on_data_api ex_io_5 ex_io_6
    ex_reaches_5 ex_runs_6 _) 0 _); [vm_compute; reflexivity|]. vm_compute. apply list_elem_of_here.
Defined.
