(* ===== verification/Messenger.v ===== *)
(** [messenger/messenger.py] and [messenger/mux.py]: connections over which clients exchange
    JSON messages with services, on a stream or multiplexed on another connection. *)
From S2P Require Import Prelude.
From S2P Require Import Addresses.
From S2P Require Import Revent.

(** What the code asks of the values of Python's [json]: their use as keys and as conditions,
    and dictionaries. *)
Class Json (J : Type) := {
  json_key : Type;
  json_key_eq :: EqDecision json_key;
  json_key_countable :: Countable json_key;
  key_of : J -> res json_key;
  truthy : J -> bool;
  is_null : J -> bool;
  the_string : String.string -> J;
  json_eqb : J -> J -> bool;
  dict_of : J -> option (gmap String.string J);
  of_dict : gmap String.string J -> J
}.

(** The sources that make connections, and what is particular to theirs: the name of the
    channel and its connection are not there before [__init__] comes to them. *)
Inductive msource := TCPMessengerSource | MuxSource (m : Z).
Inductive con_kind (J : Type) := TcpCon | MuxCon (channel : option (J * Z)).
Arguments TcpCon {J}.
Arguments MuxCon {J} channel.
Record MessengerConnection {J : Type} := MkMessenger {
  mc_isConnected : bool;
  mc_buf : bytes;
  mc_msgs : list J;
  mc_source : msource;
  mc_newlines : bool;
  mc_buffered : bool;
  mc_kind : con_kind J
}.
Arguments MessengerConnection : clear implicits.

(** Where events are raised, the events, and the subscriptions made here. *)
Inductive event_source := AtCon (c : Z) | AtHub.
Inductive mevent (J : Type) := ConnectionStarted (c : Z) | MessageReceived (c : Z) (msg : option J) | ConnectionClosed (c : Z).
Arguments ConnectionStarted {J} c.
Arguments MessageReceived {J} c msg.
Arguments ConnectionClosed {J} c.
Inductive subscription := DefaultOf (c : Z) | MuxOf (m c : Z).

(** The connections; [_connections] of the TCP source; the demultiplexers with their
    [channels]; the services and the network. *)
Record Messenger {J : Type} `{Json J} {A : Type} := MkMessengers {
  ms_cons : gmap Z (MessengerConnection J);
  ms_next : Z;
  ms_tcp : gset Z;
  ms_mux : gmap Z (gmap json_key Z);
  ms_app : A
}.
Arguments Messenger J {_} A.

Section messenger.
Context {J : Type} `{Json J} {A : Type}.
Abbreviation World := (Messenger J A).
Implicit Type s : World.

Definition mc_set_connected v c := MkMessenger J v (mc_buf c) (mc_msgs c) (mc_source c) (mc_newlines c) (mc_buffered c) (mc_kind c).
Definition mc_set_buf v c := MkMessenger J (mc_isConnected c) v (mc_msgs c) (mc_source c) (mc_newlines c) (mc_buffered c) (mc_kind c).
Definition mc_set_msgs v c := MkMessenger J (mc_isConnected c) (mc_buf c) v (mc_source c) (mc_newlines c) (mc_buffered c) (mc_kind c).
Definition mc_set_newlines v c := MkMessenger J (mc_isConnected c) (mc_buf c) (mc_msgs c) (mc_source c) v (mc_buffered c) (mc_kind c).
Definition mc_set_kind v c := MkMessenger J (mc_isConnected c) (mc_buf c) (mc_msgs c) (mc_source c) (mc_newlines c) (mc_buffered c) v.
Definition ms_set_cons v s : World := MkMessengers J _ A v (ms_next s) (ms_tcp s) (ms_mux s) (ms_app s).
Definition ms_set_next v s : World := MkMessengers J _ A (ms_cons s) v (ms_tcp s) (ms_mux s) (ms_app s).
Definition ms_set_tcp v s : World := MkMessengers J _ A (ms_cons s) (ms_next s) v (ms_mux s) (ms_app s).
Definition ms_set_mux v s : World := MkMessengers J _ A (ms_cons s) (ms_next s) (ms_tcp s) v (ms_app s).
Definition ms_set_app v s : World := MkMessengers J _ A (ms_cons s) (ms_next s) (ms_tcp s) (ms_mux s) v.
Definition on_con (c : Z) f s : World := ms_set_cons (alter f c (ms_cons s)) s.
(** An attribute of the connection [c]. *)
Definition con_attr {R} (c : Z) (d : R) (f : MessengerConnection J -> R) s : R := from_option f d (ms_cons s !! c).

(** [raiseEventNoErrors]: the event that comes back, with its [_claimed]; [addListener] and
    [listenTo]; [raw_decode] of the decoder with the bytes it used, [json.dumps]; [send] of the
    socket of a connection: the bytes it took, or None for an exception; and its [shutdown]. *)
Variable raise_ : event_source -> mevent J -> World -> World * option bool.
Variable subscribe : subscription -> World -> World.
Variable raw_decode : bytes -> option (J * Z).
Variable dumps : J -> bytes.
Variable sock_send : Z -> bytes -> A -> option Z * A.
Variable sock_shutdown : Z -> A -> A.
Definition raise_on_ (x : event_source) (e : mevent J) s : World := (raise_ x e s).1.

(** * MessengerConnection *)
Definition isReadable (c : Z) s : bool := negb (zlen (con_attr c [] mc_msgs s) =? 0).
Definition read (c : Z) (peek : bool) s : World * option J :=
  match con_attr c [] mc_msgs s with
  | [] => (s, None)
  | m :: ms => (if peek then s else on_con c (mc_set_msgs ms) s, Some m)
  end.
Definition announce (c : Z) s : World :=
  let '(s, e) := raise_ AtHub (ConnectionStarted c) s in
  if default false e then s else subscribe (DefaultOf c) s.
Definition MessengerConnection_init (src : msource) (kind : con_kind J) s : World * Z :=
  let c := ms_next s in
  (announce c (ms_set_next (c + 1) (ms_set_cons (<[c := MkMessenger J true [] [] src false false kind]> (ms_cons s)) s)), c).

(** A demultiplexer looks the connection up among the names of its channels. *)
Definition source_forget (src : msource) (c : Z) s : World :=
  match src with TCPMessengerSource => ms_set_tcp (ms_tcp s ∖ {[c]}) s | MuxSource _ => s end.
Definition base_close (c : Z) s : World :=
  match ms_cons s !! c with
  | None => s
  | Some o =>
      if mc_isConnected o then
        let s := on_con c (mc_set_connected false) (source_forget (mc_source o) c s) in
        let s := raise_on_ (AtCon c) (ConnectionClosed c) s in
        let s := raise_on_ (AtCon c) (MessageReceived c None) s in
        raise_on_ AtHub (ConnectionClosed c) s
      else s
  end.
(** [_close] of a TCP connection shuts the socket down as well, every time. *)
Definition close_ (c : Z) s : World :=
  let s' := base_close c s in
  match con_attr c TcpCon mc_kind s with TcpCon => ms_set_app (sock_shutdown c (ms_app s')) s' | MuxCon _ => s' end.

(** [TCPMessengerConnection.sendRaw]; [MuxConnection.sendRaw] hands the data on. *)
Definition tcp_sendRaw (c : Z) (data : bytes) s : World :=
  let '(r, a) := sock_send c data (ms_app s) in
  let s := ms_set_app a s in
  match r with Some l => if l =? zlen data then s else close_ c s | None => close_ c s end.
Fixpoint sendRaw (fuel : nat) (c : Z) (data : bytes) s : res World :=
  match con_attr c TcpCon mc_kind s with
  | TcpCon => Ok (tcp_sendRaw c data s)
  | MuxCon None => Err AttributeError
  | MuxCon (Some (_, con)) => match fuel with O => Err Diverge | S fuel => sendRaw fuel con data s end
  end.
(** A channel is made after its connection. *)
Definition con_sendRaw (c : Z) (data : bytes) : M World unit := fun s =>
  match sendRaw (Z.to_nat c) c data s with Ok s => (Ok tt, s) | Err e => (Err e, s) end.
Definition message_send (c : Z) (whatever : J) : M World bool :=
  s ← get;
  if con_attr c false mc_isConnected s then
    '_ ← con_sendRaw c (dumps whatever ++ (if con_attr c false mc_newlines s then [x0a] else []));
    mret true
  else mret false.

(** ** Receiving *)
Definition _recv_msg (c : Z) (msg : J) s : World :=
  let s := on_con c (fun o => mc_set_msgs (mc_msgs o ++ [msg]) o) s in
  let s := raise_on_ (AtCon c) (MessageReceived c (Some msg)) s in
  if con_attr c false mc_buffered s then s else on_con c (mc_set_msgs []) s.
Definition strip_if_space (data : bytes) : bytes :=
  match data with x :: _ => if is_space x then lstrip data else data | [] => data end.
(** The loop; every message uses at least a byte. *)
Fixpoint recv_loop (fuel : nat) (c : Z) s : res World :=
  match con_attr c [] mc_buf s with
  | [] => Ok s
  | buf =>
      match raw_decode buf with
      | None => Ok s
      | Some (msg, l) =>
          match fuel with
          | O => Err Diverge
          | S fuel => recv_loop fuel c (_recv_msg c msg (on_con c (mc_set_buf (strip_if_space (slice_from buf l))) s))
          end
      end
  end.
Definition _recv_raw (c : Z) (data : bytes) s : res World :=
  match data with
  | [] => Ok s
  | _ =>
      let buf := con_attr c [] mc_buf s in
      let buf := match buf with [] => strip_if_space data | _ => buf ++ data end in
      recv_loop (length buf) c (on_con c (mc_set_buf buf) s)
  end.

(** [MessageReceived._invoke]: a handler that returns nothing but reads stops the event. *)
Definition message_invoke (c : Z) (handler : World -> World * retval) s : World * retval :=
  let l := zlen (con_attr c [] mc_msgs s) in
  let '(s, r) := handler s in
  match r with
  | RvNone => (s, if zlen (con_attr c [] mc_msgs s) <? l then EventHalt else RvNone)
  | _ => (s, r)
  end.
Definition _defaultMessageReceived (c : Z) (msg : option J) s : World * retval :=
  let '(s, e) := raise_ AtHub (MessageReceived c msg) s in
  (s, if default false e then EventRemove else RvNone).

(** ** TCP *)
Definition accept_tcp s : World :=
  let '(s, c) := MessengerConnection_init TCPMessengerSource TcpCon s in ms_set_tcp ({[c]} ∪ ms_tcp s) s.
(** A round of [run]: whether it goes on. *)
Definition tcp_received (c : Z) (d : bytes) s : res (World * bool) :=
  match d with
  | [] => Ok (close_ c s, false)
  | _ =>
      match _recv_raw c d s with
      | Err e => Err e
      | Ok s => if con_attr c false mc_isConnected s then Ok (s, true) else Ok (close_ c s, false)
      end
  end.
(** [run] of a connection, on what [Recv] gives it; it waits for more when that is used up. *)
Fixpoint tcp_loop (c : Z) (ds : list bytes) s : res World :=
  match ds with
  | [] => Ok s
  | d :: ds => '(s, more) ← tcp_received c d s; if more : bool then tcp_loop c ds s else Ok s
  end.
Definition tcp_run (c : Z) (ds : list bytes) s : res World :=
  if con_attr c false mc_isConnected s then tcp_loop c ds s else Ok (close_ c s).

(** * The multiplexer *)
Definition MuxConnection_init (m : Z) (channelName : J) (con : Z) s : World * Z :=
  let '(s, c) := MessengerConnection_init (MuxSource m) (MuxCon None) s in
  let s := on_con c (mc_set_kind (MuxCon (Some (channelName, con)))) s in
  let s := announce c s in
  (on_con c (mc_set_newlines false) s, c).
Definition mux_send (c : Z) (whatever : J) : M World unit :=
  s ← get;
  match dict_of whatever with
  | None => raise TypeError
  | Some d =>
      match con_attr c TcpCon mc_kind s with
      | MuxCon (Some (name, _)) => '_ ← message_send c (of_dict (<["_mux"%string := name]> d)); mret tt
      | _ => raise AttributeError
      end
  end.
Definition MuxSource_init (con : Z) s : World * Z :=
  let m := ms_next s in
  (ms_set_mux (<[m := ∅]> (ms_mux s)) (subscribe (MuxOf m con) (ms_set_next (m + 1) s)), m).

Definition channels_of (m : Z) s : gmap json_key Z := default ∅ (ms_mux s !! m).
Definition closeAll (m : Z) s : World := foldl (fun s c => close_ c s) s (map_to_list (channels_of m s)).*2.
Definition mux_channel (m : Z) (name : J) (con : Z) : M World Z :=
  s ← get;
  k ← lift (key_of name);
  match channels_of m s !! k with
  | Some c => mret c
  | None =>
      let '(s, c) := MuxConnection_init m name con s in
      '_ ← put (ms_set_mux (<[m := <[k := c]> (channels_of m s)]> (ms_mux s)) s);
      mret c
  end.
(** [_handle_MessageReceived] of the demultiplexer [m] for an event of the connection [c]. *)
Definition mux_MessageReceived (m c : Z) : M World unit :=
  s ← get;
  if isReadable c s then
    let '(s, r) := read c false s in
    '_ ← put s;
    match r ≫= dict_of with
    | None => mret tt
    | Some d =>
        match d !! "_mux"%string with
        | Some name =>
            if is_null name then (if from_option truthy false (d !! "_mux_bye"%string) then put (close_ c s) else mret tt)
            else
              channel ← mux_channel m name c;
              s ← get;
              put (_recv_msg channel (of_dict (delete "_mux"%string d)) s)
        | None => if from_option truthy false (d !! "_mux_bye"%string) then put (close_ c s) else mret tt
        end
    end
  else put (closeAll m s).
Definition mux_ConnectionClosed (m : Z) s : World := closeAll m s.

(** [MuxHub._handle_global_MessageReceived], with the event's [_claimed] before and after. *)
Definition mux_hub (c : Z) (msg : option J) (claimed : bool) s : World * bool :=
  let d := match msg with Some m => dict_of m | None => None end in
  match d ≫= lookup "hello"%string with
  | Some v =>
      if json_eqb v (the_string "mux"%string) && negb claimed then
        let '(s, _) := read c false s in
        ((MuxSource_init c s).1, true)
      else (s, claimed)
  | None => (s, claimed)
  end.
End messenger.
