(* ===== verification/MessengerTheory.v ===== *)
(** The messages of a messenger connection: however the stream is cut, the services get them
    all, in order, and a channel of the multiplexer gets what was sent on its name. *)
From S2P Require Import Prelude.
From S2P Require Import Steps.
From S2P Require Import Addresses.
From S2P Require Import Messenger.

(** * Space *)
Definition spaces (b : bytes) : Prop := Forall (fun c => is_space c = true) b.
Definition starts_dark (b : bytes) : Prop := match b with [] => True | c :: _ => is_space c = false end.

Lemma strip_is_lstrip b : strip_if_space b = lstrip b.
Proof. destruct b as [|c b]; [done|]. cbn. by destruct (is_space c). Qed.
Lemma lstrip_spaces ws b : spaces ws -> starts_dark b -> lstrip (ws ++ b) = b.
Proof.
  induction 1 as [|c ws Hc _ IH]; cbn; [|by rewrite Hc]. destruct b as [|c b]; [done|]. cbn. by intros ->.
Qed.
Lemma lstrip_length b : (length (lstrip b) <= length b)%nat.
Proof. induction b as [|c b IH]; cbn; [done|]. destruct (is_space c); cbn; lia. Qed.
(** A piece of a stream that begins with space. *)
Lemma strip_piece r f ws x : r ++ f = ws ++ x -> spaces ws -> starts_dark x ->
  (lstrip r = [] /\ exists ws', f = ws' ++ x /\ spaces ws') \/ (lstrip r <> [] /\ lstrip r ++ f = x).
Proof.
  intros E Hs Hx. apply app_eq_inv in E as [(k & -> & ->)|(k & -> & ->)].
  - rewrite lstrip_spaces by (try done; by destruct k). destruct k as [|c k]; [left|by right]. split; [done|]. exists []. split; [done|constructor].
  - left. apply Forall_app in Hs as [H1 H2]. split; [|by exists k]. rewrite <-(app_nil_r r). by apply lstrip_spaces.
Qed.

Section theory.
Context {J : Type} `{Json J} {A : Type}.
Abbreviation World := (Messenger J A).
Implicit Type s : World.
Variable raise_ : event_source -> mevent J -> World -> World * option bool.
Variable raw_decode : bytes -> option (J * Z).
Variable dumps : J -> bytes.
Variable c : Z.
Abbreviation with_buf b := (on_con c (mc_set_buf b)).

(** The connection is there to stay, and its buffer is its own business. *)
Hypothesis raise_keeps : forall x e s, is_Some (ms_cons s !! c) -> is_Some (ms_cons (raise_ x e s).1 !! c).
Hypothesis raise_blind : forall x e b s, raise_ x e (with_buf b s) = (with_buf b (raise_ x e s).1, (raise_ x e s).2).

(** What the decoder does with the text of a message: objects, arrays and strings show where they end. *)
Record framed (m : J) : Prop := MkFramed {
  fr_some : dumps m <> [];
  fr_dark : starts_dark (dumps m);
  fr_decodes : forall rest, raw_decode (dumps m ++ rest) = Some (m, zlen (dumps m));
  fr_waits : forall p q, dumps m = p ++ q -> p <> [] -> q <> [] -> raw_decode p = None
}.

(** A stream of messages, each followed by space, and its unfinished end. *)
Definition wire (l : list (J * bytes)) : bytes := concat (map (fun x => dumps x.1 ++ x.2) l).
Definition sendable (l : list (J * bytes)) : Prop := Forall (fun x => framed x.1 /\ spaces x.2) l.
Definition unfinished (p : bytes) : Prop := p = [] \/ exists m q, framed m /\ dumps m = p ++ q /\ q <> [].

Lemma unfinished_dark p : unfinished p -> starts_dark p.
Proof. intros [->|(m & q & Hm & E & Hq)]; [done|]. pose proof (fr_dark m Hm) as Hd. rewrite E in Hd. by destruct p. Qed.
Lemma wire_dark l p : sendable l -> unfinished p -> starts_dark (wire l ++ p).
Proof.
  intros Hl Hp. destruct Hl as [|[m ws] l [Hm _] _]; [by apply unfinished_dark|]. cbn. pose proof (fr_dark m Hm). pose proof (fr_some m Hm). by destruct (dumps m).
Qed.

(** ** Messages and the buffer *)
Definition there s : Prop := is_Some (ms_cons s !! c).
Definition the_buf s : bytes := con_attr c [] mc_buf s.
Abbreviation received := (_recv_msg raise_ c).

Lemma on_con_there d f s : there s -> there (on_con d f s).
Proof. unfold there, on_con. cbn. intros Hs. destruct (decide (c = d)) as [<-|]; [by rewrite lookup_alter_eq, fmap_is_Some|by rewrite lookup_alter_ne]. Qed.
Lemma with_buf_there b s : there s -> there (with_buf b s).
Proof. apply on_con_there. Qed.
Lemma the_with_buf b s : there s -> the_buf (with_buf b s) = b.
Proof. intros [o E]. unfold the_buf, con_attr, on_con. cbn. by rewrite lookup_alter_eq, E. Qed.
Lemma with_own_buf s : there s -> with_buf (the_buf s) s = s.
Proof.
  intros [o E]. destruct s as [cons n t m a]. unfold with_buf, the_buf, con_attr, on_con, ms_set_cons. cbn in *. rewrite E. cbn. f_equal.
  rewrite <-(alter_id (fun x => x) cons c) at 2 by done. apply alter_ext. intros o' E'. rewrite E in E'. injection E' as <-. by destruct o.
Qed.
Lemma on_con_comp f g s : on_con c f (on_con c g s) = on_con c (fun o => f (g o)) s.
Proof. unfold on_con, ms_set_cons. cbn. f_equal. by rewrite alter_alter_eq. Qed.
Lemma with_buf_twice b b' s : with_buf b (with_buf b' s) = with_buf b s.
Proof. rewrite on_con_comp. done. Qed.

Lemma raise_kept x e s : there s -> there (raise_on_ raise_ x e s).
Proof. apply raise_keeps. Qed.
Lemma raise_buf x e b s : raise_on_ raise_ x e (with_buf b s) = with_buf b (raise_on_ raise_ x e s).
Proof. unfold raise_on_. by rewrite raise_blind. Qed.
Lemma received_there m s : there s -> there (received m s).
Proof.
  intros Hs. unfold _recv_msg. set (s1 := raise_on_ _ _ _ _). assert (there s1) by by apply raise_kept, on_con_there.
  destruct (con_attr c false mc_buffered s1); [done|by apply on_con_there].
Qed.
Lemma con_attr_buf {R} (d : R) f b s : (forall o, f (mc_set_buf b o) = f o) -> con_attr c d f (with_buf b s) = con_attr c d f s.
Proof. intros Hf. unfold con_attr, on_con. cbn. rewrite lookup_alter_eq. by destruct (ms_cons s !! c); cbn. Qed.
Lemma received_buf m b s : received m (with_buf b s) = with_buf b (received m s).
Proof.
  assert (forall f s, (forall o, f (mc_set_buf b o) = mc_set_buf b (f o)) -> on_con c f (with_buf b s) = with_buf b (on_con c f s)) as Hcomm.
  { intros f s0 Hf. rewrite !on_con_comp. unfold on_con. f_equal. apply alter_ext. intros o _. apply Hf. }
  unfold _recv_msg. rewrite Hcomm by done. rewrite raise_buf. set (s1 := raise_on_ _ _ _ _). rewrite con_attr_buf by done.
  destruct (con_attr c false mc_buffered s1); [done|]. by rewrite Hcomm.
Qed.
Definition all_received (l : list J) s : World := foldl (fun s m => received m s) s l.
Lemma all_there l s : there s -> there (all_received l s).
Proof. revert s. induction l as [|m l IH]; intros s Hs; [done|]. apply IH. by apply received_there. Qed.
Lemma all_buf l b s : all_received l (with_buf b s) = with_buf b (all_received l s).
Proof. unfold all_received. revert s. induction l as [|m l IH]; intros s; [done|]. cbn. by rewrite received_buf, IH. Qed.

(** ** The loop *)

(** What the buffer is after a piece of the stream, when [l] and [p] are still to come in full and [f] is what has not arrived. *)
Definition between (b f : bytes) (l : list (J * bytes)) (p : bytes) : Prop :=
  (b = [] /\ exists ws, f = ws ++ wire l ++ p /\ spaces ws) \/
  (b <> [] /\ b ++ f = wire l ++ p /\ match l with [] => True | (m, _) :: _ => (length b < length (dumps m))%nat end).

Lemma decode_waits b f l p : sendable l -> unfinished p -> b <> [] -> b ++ f = wire l ++ p ->
  match l with [] => True | (m, _) :: _ => (length b < length (dumps m))%nat end -> raw_decode b = None.
Proof.
  intros Hl Hp Hb E Hlen. destruct Hl as [|[m ws] l [Hm _] _].
  - destruct Hp as [->|(m & q & Hm & Em & Hq)]; [by destruct b|]. apply (fr_waits m Hm b (f ++ q)); [|done|by destruct f].
    rewrite Em. cbn in E. by rewrite <-E, <-app_assoc.
  - cbn in E. rewrite <-!app_assoc in E. apply app_eq_inv in E as [(k & -> & _)|(k & E & _)]; [rewrite length_app in Hlen; lia|].
    apply (fr_waits m Hm b k E Hb). intros ->. rewrite app_nil_r in E. cbn in Hlen. rewrite E in Hlen. lia.
Qed.

Lemma loop_receives fuel b f l p s : there s -> the_buf s = b -> sendable l -> unfinished p -> (length b <= fuel)%nat ->
  (b = [] -> exists ws, f = ws ++ wire l ++ p /\ spaces ws) -> (b <> [] -> b ++ f = wire l ++ p) ->
  exists l1 l2 b', l = l1 ++ l2 /\ recv_loop raise_ raw_decode fuel c s = Ok (with_buf b' (all_received l1.*1 s)) /\ between b' f l2 p.
Proof.
  revert b l s. induction fuel as [|fuel IH]; intros b l s Hs Eb Hl Hp Hfuel H0 H1.
  { destruct b; [|cbn in Hfuel; lia]. exists [], l, []. split; [done|]. split; [|left; auto]. cbn. unfold the_buf in Eb. rewrite Eb. f_equal.
    symmetry. by rewrite <-Eb at 1; apply with_own_buf. }
  destruct b as [|x b].
  { exists [], l, []. split; [done|]. split; [|left; auto]. cbn. unfold the_buf in Eb. rewrite Eb. f_equal. symmetry. by rewrite <-Eb at 1; apply with_own_buf. }
  specialize (H1 ltac:(done)). clear H0. cbn [recv_loop]. unfold the_buf in Eb. rewrite Eb. fold (the_buf s) in Eb.
  assert (match l with [] => True | (m, _) :: _ => (length (x :: b) < length (dumps m))%nat end ->
    exists l1 l2 b', l = l1 ++ l2 /\ match raw_decode (x :: b) with
      | None => Ok s
      | Some (msg, l) => recv_loop raise_ raw_decode fuel c (received msg (with_buf (strip_if_space (slice_from (x :: b) l)) s)) end
      = Ok (with_buf b' (all_received l1.*1 s)) /\ between b' f l2 p) as Hwait.
  { intros Hlen. exists [], l, (x :: b). split; [done|]. rewrite (decode_waits (x :: b) f l p) by done. split; [|by right].
    cbn. f_equal. symmetry. by rewrite <-Eb at 1; apply with_own_buf. }
  destruct l as [|[m ws] l]; [by apply Hwait|]. destruct (Nat.lt_ge_cases (length (x :: b)) (length (dumps m))) as [Hlt|Hge]; [by apply Hwait|]. clear Hwait.
  apply Forall_cons in Hl as [[Hm Hws] Hl]. cbn in H1. rewrite <-!app_assoc in H1.
  assert (exists r, x :: b = dumps m ++ r /\ r ++ f = ws ++ wire l ++ p) as (r & Er & E).
  { change (x :: (b ++ f)) with ((x :: b) ++ f) in H1. apply app_eq_inv in H1 as [(r & Er & E)|(k & Ek & E)]; [by exists r|].
    assert (k = []) as -> by (apply (f_equal length) in Ek; rewrite length_app in Ek; destruct k; [done|cbn in *; lia]).
    exists []. by rewrite app_nil_r, Ek, app_nil_r. }
  rewrite Er, (fr_decodes m Hm), slice_from_app, strip_is_lstrip by done.
  set (s1 := received m (with_buf (lstrip r) s)).
  assert (s1 = with_buf (lstrip r) (received m s)) as E1 by apply received_buf.
  destruct (IH (lstrip r) l s1) as (l1 & l2 & b' & El & Erun & Hbt); [by apply received_there, with_buf_there| |done|done| | | |].
  - rewrite E1. by apply the_with_buf, received_there.
  - assert (length (lstrip r) <= length r)%nat by apply lstrip_length. apply (f_equal length) in Er. rewrite length_app in Er. pose proof (fr_some m Hm).
    destruct (dumps m); [done|]. cbn in *. lia.
  - intros Hn. destruct (strip_piece r f ws (wire l ++ p) E Hws (wire_dark l p Hl Hp)) as [[_ ?]|[? _]]; [done|congruence].
  - intros Hn. destruct (strip_piece r f ws (wire l ++ p) E Hws (wire_dark l p Hl Hp)) as [[? _]|[_ ?]]; [congruence|done].
  - exists ((m, ws) :: l1), l2, b'. split; [by rewrite El|]. split; [|done]. rewrite Erun, E1. cbn [fmap list_fmap fst]. change (all_received (m :: l1.*1) s) with (all_received l1.*1 (received m s)).
    by rewrite all_buf, with_buf_twice.
Qed.

(** A piece of the stream. *)
Lemma raw_receives d b f l p s : there s -> the_buf s = b -> sendable l -> unfinished p -> between b (d ++ f) l p ->
  exists l1 l2 b', l = l1 ++ l2 /\ _recv_raw raise_ raw_decode c d s = Ok (with_buf b' (all_received l1.*1 s)) /\ between b' f l2 p.
Proof.
  intros Hs Eb Hl Hp Hbt. destruct d as [|x d].
  { exists [], l, b. split; [done|]. split; [|done]. cbn. f_equal. symmetry. rewrite <-Eb. by apply with_own_buf. }
  unfold _recv_raw. unfold the_buf in Eb. rewrite Eb. fold (the_buf s) in Eb. set (b1 := match b with [] => _ | _ => _ end).
  destruct (loop_receives (length b1) b1 f l p (with_buf b1 s)) as (l1 & l2 & b' & El & Er & Hbt'); [by apply with_buf_there|by apply the_with_buf|done|done|done| | |].
  - intros Hn. destruct Hbt as [[-> (ws & E & Hws)]|(Hb & _)]; [|unfold b1 in Hn; by destruct b].
    unfold b1 in Hn. rewrite strip_is_lstrip in Hn. by destruct (strip_piece (x :: d) f ws (wire l ++ p) E Hws (wire_dark l p Hl Hp)) as [[_ ?]|[? _]].
  - intros Hn. destruct Hbt as [[-> (ws & E & Hws)]|(Hb & E & _)].
    + unfold b1 in *. rewrite strip_is_lstrip in *. by destruct (strip_piece (x :: d) f ws (wire l ++ p) E Hws (wire_dark l p Hl Hp)) as [[? _]|[_ ?]].
    + assert (b1 = b ++ x :: d) as -> by (unfold b1; by destruct b). by rewrite <-app_assoc.
  - exists l1, l2, b'. split; [done|]. split; [|done]. rewrite Er, all_buf. by rewrite with_buf_twice.
Qed.

(** The pieces, as [run] gets them one after another: all are read, or a handler has closed the connection. *)
Variable sock_shutdown : Z -> A -> A.
Definition connected s : bool := con_attr c false mc_isConnected s.
Abbreviation ended := (close_ raise_ sock_shutdown c).
Definition served (b : bytes) s : World := if connected s then with_buf b s else ended (with_buf b s).

Lemma connected_with_buf b s : connected (with_buf b s) = connected s.
Proof. by apply con_attr_buf. Qed.
Lemma all_received_app l1 l2 s : all_received (l1 ++ l2) s = all_received l2 (all_received l1 s).
Proof. apply foldl_app. Qed.

Lemma nothing_left l p b : sendable l -> between b [] l p -> l = [] /\ b = p.
Proof.
  intros Hl [[-> (ws & E & _)]|(Hb & E & Hlen)].
  - symmetry in E. apply app_nil in E as [_ E]. apply app_nil in E as [E ->]. destruct Hl as [|[m ws'] l [Hm _] _]; [done|].
    cbn in E. apply app_nil in E as [E _]. apply app_nil in E as [E _]. by destruct (fr_some m Hm).
  - rewrite app_nil_r in E. destruct l as [|[m ws] l]; [done|]. cbn in E. rewrite E, !length_app in Hlen. lia.
Qed.

Lemma loop_served ds b l p s : there s -> the_buf s = b -> connected s = true -> sendable l -> unfinished p ->
  Forall (fun d => d <> []) ds -> between b (concat ds) l p ->
  exists l1 l2 b', l = l1 ++ l2 /\ tcp_loop raise_ raw_decode sock_shutdown c ds s = Ok (served b' (all_received l1.*1 s)) /\
    (connected (all_received l1.*1 s) = true -> l2 = [] /\ b' = p).
Proof.
  revert b l s. induction ds as [|d ds IH]; intros b l s Hs Eb Hc Hl Hp Hd Hbt.
  { destruct (nothing_left l p b Hl Hbt) as [-> <-]. exists [], [], b. split; [done|]. split; [|done].
    cbn. unfold served. rewrite Hc, <-Eb. by rewrite with_own_buf. }
  apply Forall_cons in Hd as [Hd1 Hd]. cbn [concat] in Hbt.
  destruct (raw_receives d b (concat ds) l p s Hs Eb Hl Hp Hbt) as (l1 & l2 & b' & -> & Er & Hbt').
  apply Forall_app in Hl as [_ Hl2]. cbn [tcp_loop]. unfold tcp_received. rewrite Er.
  set (s1 := all_received l1.*1 s) in *. destruct d as [|x d]; [done|].
  change (con_attr c false mc_isConnected (with_buf b' s1)) with (connected (with_buf b' s1)). rewrite connected_with_buf.
  destruct (connected s1) eqn:Hc1.
  - cbn [mbind res_bind]. destruct (IH b' l2 (with_buf b' s1)) as (l3 & l4 & b2 & -> & E & Hall); try done.
    { by apply with_buf_there, all_there. } { by apply the_with_buf, all_there. } { by rewrite connected_with_buf. }
    exists (l1 ++ l3), l4, b2. rewrite app_assoc. split; [done|]. rewrite fmap_app, all_received_app. fold s1.
    rewrite all_buf in E, Hall. rewrite connected_with_buf in Hall. split; [|done]. rewrite E. unfold served. by rewrite connected_with_buf, with_buf_twice.
  - exists l1, l2, b'. split; [done|]. fold s1. unfold served. rewrite Hc1. by split.
Qed.

(** C29: Messages over a stream.  A client sends messages - objects, arrays, strings, not numbers, of which the text of one can begin
    another's - with space between them, and the network cuts them into pieces.  [run], reading the pieces, delivers the messages, in order,
    whatever their handlers do to anything but the buffer; unless one of them closes the connection it delivers all of them, and
    keeps in the buffer the beginning of an unfinished one; if one does, [run] ends, the messages that were delivered being the first.  (Between the pieces nobody else
    acts on the connection.) *)
Theorem messages_reassembled ds ws l p s : there s -> the_buf s = [] -> spaces ws -> sendable l -> unfinished p ->
  Forall (fun d => d <> []) ds -> concat ds = ws ++ wire l ++ p ->
  exists l1 l2 b, l = l1 ++ l2 /\ let s' := foldl (fun s m => _recv_msg raise_ c m s) s l1.*1 in
    tcp_run raise_ raw_decode sock_shutdown c ds s = Ok (if connected s' then with_buf b s' else ended (with_buf b s')) /\
    (connected s' = true -> l2 = [] /\ b = p).
Proof.
  intros Hs Eb Hws Hl Hp Hd E. unfold tcp_run. fold (connected s). destruct (connected s) eqn:Hc.
  - apply (loop_served ds [] l p s Hs Eb Hc Hl Hp Hd). left. split; [done|]. by exists ws.
  - exists [], l, []. split; [done|]. cbn. rewrite Hc, <-Eb, with_own_buf by done. by split.
Qed.

(** What is excluded: text whose beginning the decoder takes for a message, as it does the first digits of a number, is
    delivered as that message when it is cut there. *)
Lemma beginning_taken d m s : there s -> the_buf s = [] -> d <> [] -> starts_dark d -> raw_decode d = Some (m, zlen d) ->
  _recv_raw raise_ raw_decode c d s = Ok (with_buf [] (received m s)).
Proof.
  intros Hs Eb Hd Hdark E. destruct d as [|x d]; [done|]. unfold _recv_raw. unfold the_buf in Eb. rewrite Eb.
  rewrite strip_is_lstrip. assert (lstrip (x :: d) = x :: d) as -> by exact (lstrip_spaces [] (x :: d) ltac:(constructor) Hdark). cbn [length recv_loop].
  pose proof (the_with_buf (x :: d) s Hs) as Eb1. unfold the_buf in Eb1. rewrite Eb1, E.
  assert (slice_from (x :: d) (zlen (x :: d)) = []) as -> by (rewrite <-(app_nil_r (x :: d)) at 1; by apply slice_from_app).
  cbn [strip_if_space]. rewrite received_buf, received_buf, with_buf_twice. set (s1 := with_buf [] (received m s)).
  assert (con_attr c [] mc_buf s1 = []) as Eb2 by by apply the_with_buf, received_there. destruct (length d); cbn [recv_loop]; by rewrite Eb2.
Qed.
End theory.

(** * The multiplexer *)
Section mux.
Context {J : Type} `{Json J} {A : Type}.
Implicit Type s : Messenger J A.
Variable raise_ : event_source -> mevent J -> Messenger J A -> Messenger J A * option bool.
Variable subscribe : subscription -> Messenger J A -> Messenger J A.
Variable dumps : J -> bytes.
Variable sock_send : Z -> bytes -> A -> option Z * A.
Variable sock_shutdown : Z -> A -> A.
Hypothesis dict_of_dict : forall d, dict_of (of_dict d) = Some d.

(** What is sent on a channel is the text of the object with the name of the channel in it. *)
Lemma channel_sends c con name d s o : ms_cons s !! c = Some o -> mc_isConnected o = true -> mc_newlines o = false -> mc_kind o = MuxCon (Some (name, con)) ->
  0 < c -> con_attr con TcpCon mc_kind s = TcpCon ->
  mux_send raise_ dumps sock_send sock_shutdown c (of_dict d) s = (Ok tt, tcp_sendRaw raise_ sock_send sock_shutdown con (dumps (of_dict (<["_mux"%string := name]> d))) s).
Proof.
  intros Eo Hc Hn Hk Hpos Ht. unfold mux_send. rewrite bind_get, dict_of_dict. unfold con_attr at 1. rewrite Eo. cbn [from_option]. rewrite Hk.
  erewrite bind_ok; [reflexivity|]. unfold message_send. rewrite bind_get. unfold con_attr. rewrite Eo. cbn [from_option]. rewrite Hc, Hn, app_nil_r.
  erewrite bind_ok; [reflexivity|]. unfold con_sendRaw. destruct (Z.to_nat c) as [|n] eqn:En; [lia|]. cbn [sendRaw].
  unfold con_attr at 1. rewrite Eo. cbn [from_option]. rewrite Hk. destruct n; cbn [sendRaw]; by rewrite Ht.
Qed.

(** And the channel of that name gets the object as it was. *)
Lemma channel_receives m c ch name k d s o : d !! "_mux"%string = None -> is_null name = false -> key_of name = Ok k -> channels_of m s !! k = Some ch ->
  ms_cons s !! c = Some o -> mc_msgs o = [of_dict (<["_mux"%string := name]> d)] ->
  mux_MessageReceived raise_ subscribe sock_shutdown m c s = (Ok tt, _recv_msg raise_ ch (of_dict d) (on_con c (mc_set_msgs []) s)).
Proof.
  intros Hd Hn Hk Hch Eo Hm. set (s1 := on_con c (mc_set_msgs []) s).
  assert (isReadable c s = true) as Er by (unfold isReadable, con_attr; rewrite Eo; cbn [from_option]; by rewrite Hm).
  assert (read c false s = (s1, Some (of_dict (<["_mux"%string := name]> d)))) as Ed by (unfold read, con_attr; rewrite Eo; cbn [from_option]; by rewrite Hm).
  assert (mux_channel raise_ subscribe m name c s1 = (Ok ch, s1)) as Ec.
  { unfold mux_channel. rewrite bind_get. erewrite bind_ok by (rewrite Hk; reflexivity). change (channels_of m s1) with (channels_of m s). by rewrite Hch. }
  unfold mux_MessageReceived. rewrite bind_get, Er, Ed, bind_put. cbn [mbind option_bind]. rewrite dict_of_dict, lookup_insert_eq, Hn.
  erewrite bind_ok by exact Ec. rewrite bind_get. by rewrite delete_insert_id.
Qed.
End mux.

(** * Examples *)

(** Messages that are strings without quotes. *)
#[export] Instance text_json : Json bytes := {
  json_key := list Z; key_of := fun m => Ok (Z_of_byte <$> m); truthy := fun m => negb (zlen m =? 0); is_null := fun _ => false;
  the_string := String.list_byte_of_string; json_eqb := fun a b => bool_decide (a = b); dict_of := fun _ => None; of_dict := fun _ => []
}.
Definition quote : Byte.byte := x22.
Definition ex_dumps (m : bytes) : bytes := quote :: m ++ [quote].
Fixpoint to_quote (b : bytes) : option bytes :=
  match b with [] => None | x :: b => if bool_decide (x = quote) then Some [] else (fun m => x :: m) <$> to_quote b end.
Definition ex_decode (b : bytes) : option (bytes * Z) :=
  match b with x :: b => if bool_decide (x = quote) then (fun m => (m, zlen m + 2)) <$> to_quote b else None | [] => None end.
Definition ex_raise (x : event_source) (e : mevent bytes) (s : Messenger bytes (list bytes)) : Messenger bytes (list bytes) * option bool :=
  match x, e with AtCon _, MessageReceived _ (Some m) => (ms_set_app (ms_app s ++ [m]) s, None) | _, _ => (s, None) end.

Lemma to_quote_text m rest : quote ∉ m -> to_quote (m ++ quote :: rest) = Some m.
Proof.
  induction m as [|x m IH]; intros Hm; [done|]. apply not_elem_of_cons in Hm as [Hx Hm]. cbn. rewrite bool_decide_false by congruence. by rewrite IH.
Qed.
Lemma to_quote_waits p q m : quote ∉ m -> p ++ q = m ++ [quote] -> q <> [] -> to_quote p = None.
Proof.
  revert m. induction p as [|x p IH]; intros m Hm E Hq; [done|]. destruct m as [|y m]; cbn in E.
  - injection E as _ E. apply app_nil in E as [_ E]. done.
  - injection E as <- E. apply not_elem_of_cons in Hm as [Hx Hm]. cbn. rewrite bool_decide_false by congruence. by rewrite (IH m Hm E Hq).
Qed.
Lemma text_framed m : quote ∉ m -> framed ex_decode ex_dumps m.
Proof.
  intros Hm. split; [done|done| |].
  - intros rest. unfold ex_dumps, ex_decode. cbn [app]. rewrite <-app_assoc. cbn [app]. rewrite bool_decide_true, to_quote_text by done. cbn [fmap option_fmap option_map].
    do 2 f_equal. unfold zlen. cbn [length]. rewrite length_app. cbn [length]. lia.
  - intros p q E Hp Hq. destruct p as [|x p]; [done|]. unfold ex_dumps in E. cbn in E. injection E as <- E. cbn. by rewrite (to_quote_waits p q m).
Qed.

Definition ex_con : MessengerConnection bytes := MkMessenger _ true [] [] TCPMessengerSource false false TcpCon.
Definition ex_messenger : Messenger bytes (list bytes) := MkMessengers _ _ _ {[0 := ex_con]} 1 {[0]} ∅ [].
Definition ex_tcp_run := tcp_run ex_raise ex_decode (fun _ a => a).
Lemma messages_reassembled_witness : exists s,
  ex_tcp_run 0 [[x20; x22; x61]; [x62; x22; x20]; [x20; x22; x63; x22; x22]; [x64]] ex_messenger = Ok s /\
  ms_app s = [[x61; x62]; [x63]] /\ the_buf 0 s = [x22; x64].
Proof.
  destruct (messages_reassembled ex_raise ex_decode ex_dumps 0) with (sock_shutdown := fun (_ : Z) (a : list bytes) => a) (s := ex_messenger)
    (ds := [[x20; x22; x61]; [x62; x22; x20]; [x20; x22; x63; x22; x22]; [x64]])
    (ws := [x20]) (l := [([x61; x62], [x20; x20]); ([x63], [])]) (p := [x22; x64]) as (l1 & l2 & b & El & Er & Hall).
  - intros [] [?|? [?|]|?] s Hs; exact Hs.
  - intros [] [?|? [?|]|?] b s; reflexivity.
  - by eexists.
  - reflexivity.
  - repeat constructor.
  - repeat constructor; cbn; apply text_framed; by apply (bool_decide_unpack _).
  - right. exists [x64], [x22]. split; [apply text_framed; by apply (bool_decide_unpack _)|]. split; [reflexivity|discriminate].
  - repeat constructor; discriminate.
  - reflexivity.
  - destruct l1 as [|m1 [|m2 [|m3 l1]]].
    + by destruct (Hall eq_refl) as [-> _].
    + injection El as <- El. destruct (Hall eq_refl) as [-> _]. discriminate.
    + injection El as <- <- <-. destruct (Hall eq_refl) as [_ ->]. eexists. split; [exact Er|]. split; reflexivity.
    + discriminate.
Defined.
