(* ===== verification/Minigraph.v ===== *)
(** [lib/graph/minigraph.py]: [MultiGraph].  An edge is in the table of both its nodes, with the
    same dictionary of attributes; looking into a [defaultdict] adds what is not there. *)
From S2P Require Import Prelude.

Section minigraph.
Context {V : Type}.
Abbreviation attrs := (gmap String.string V).

(** node -> node -> key -> dictionary, the dictionaries; node -> attributes. *)
Record MultiGraph := MkMultiGraph {
  mg_next_key : Z;
  mg_edges : gmap Z (gmap Z (gmap Z Z));
  mg_dicts : gmap Z attrs;
  mg_new : Z;
  mg_nodes : gmap Z attrs
}.
Definition MultiGraph_init : MultiGraph := MkMultiGraph 0 ∅ ∅ 0 ∅.
Definition mg_set_key v g := MkMultiGraph v (mg_edges g) (mg_dicts g) (mg_new g) (mg_nodes g).
Definition mg_set_edges v g := MkMultiGraph (mg_next_key g) v (mg_dicts g) (mg_new g) (mg_nodes g).
Definition mg_set_dicts v n g := MkMultiGraph (mg_next_key g) (mg_edges g) v n (mg_nodes g).
Definition mg_set_nodes v g := MkMultiGraph (mg_next_key g) (mg_edges g) (mg_dicts g) (mg_new g) v.
Definition mg_modify (f : MultiGraph -> MultiGraph) : M MultiGraph unit := g ← get; put (f g).

(** [self._edges[a]], [self._edges[a][b]]. *)
Definition edges_of (a : Z) g : gmap Z (gmap Z Z) := default ∅ (mg_edges g !! a).
Definition edges_between (a b : Z) g : gmap Z Z := default ∅ (edges_of a g !! b).
Definition touch_node (a : Z) g : MultiGraph := mg_set_edges (<[a := edges_of a g]> (mg_edges g)) g.
Definition set_between (a b : Z) (m : gmap Z Z) g : MultiGraph := mg_set_edges (<[a := <[b := m]> (edges_of a g)]> (mg_edges g)) g.

Definition nodes g : list Z := (map_to_list (mg_nodes g)).*1.

(** [edges]: the first table that is met for a pair of nodes counts. *)
Definition fix_ (a b : Z) : Z * Z := if b <? a then (b, a) else (a, b).
Definition in_bunch (nbunch : option (list Z)) (e1 e2 : Z) : bool :=
  match nbunch with
  | None => true
  | Some l =>
      let s : gset Z := list_to_set l in
      bool_decide (e1 ∈ s) && (bool_decide (e2 ∈ s) || negb (1 <? Z.of_nat (size s)))
  end.
Definition tables g : list (Z * Z * gmap Z Z) :=
  map_to_list (mg_edges g) ≫= fun '(e1, otherEnd) => (fun '(e2, rest) => (e1, e2, rest)) <$> map_to_list (otherEnd : gmap Z (gmap Z Z)).
Definition first_tables (nbunch : option (list Z)) (l : list (Z * Z * gmap Z Z)) : gmap (Z * Z) (gmap Z Z) :=
  foldl (fun m '(e1, e2, rest) =>
    if in_bunch nbunch e1 e2 then
      match m !! fix_ e1 e2 with Some _ => m | None => <[fix_ e1 e2 := rest]> m end
    else m) ∅ l.
Definition edges (nbunch : option (list Z)) g : list (Z * Z * Z * Z) :=
  map_to_list (first_tables nbunch (tables g)) ≫= fun '((a, b), edgelist) => (fun '(k, d) => (a, b, k, d)) <$> map_to_list (edgelist : gmap Z Z).

Definition neighbors (node : Z) : M MultiGraph (list Z) :=
  g ← get;
  if bool_decide (is_Some (mg_nodes g !! node)) then
    '_ ← put (touch_node node g); mret (map_to_list (edges_of node g)).*1
  else raise AssertionError.

Definition gen_key : M MultiGraph Z := g ← get; '_ ← put (mg_set_key (mg_next_key g + 1) g); mret (mg_next_key g).
Definition add_node (node : Z) (attr : attrs) g : MultiGraph :=
  mg_set_nodes (<[node := match mg_nodes g !! node with Some old => attr ∪ old | None => attr end]> (mg_nodes g)) g.

Fixpoint remove_from (node : Z) (others : list Z) : M MultiGraph unit :=
  match others with
  | [] => mret tt
  | other :: others =>
      if other =? node then remove_from node others
      else
        g ← get;
        '_ ← put (touch_node other g);
        match edges_of other g !! node with
        | None => raise KeyError
        | Some _ => '_ ← mg_modify (fun g => mg_set_edges (<[other := delete node (edges_of other g)]> (mg_edges g)) g); remove_from node others
        end
  end.
Definition remove_node (node : Z) : M MultiGraph unit :=
  g ← get;
  let others := (map_to_list (edges_of node g)).*1 in
  '_ ← put (mg_set_edges (delete node (mg_edges g)) g);
  '_ ← remove_from node others;
  g ← get;
  match mg_nodes g !! node with
  | None => raise KeyError
  | Some _ => put (mg_set_nodes (delete node (mg_nodes g)) g)
  end.

(** [e = self._edges[node1][node2][key]], made when it is not there. *)
Definition edge_dict (a b key : Z) : M MultiGraph Z :=
  g ← get;
  match edges_between a b g !! key with
  | Some d => mret d
  | None =>
      let d := mg_new g in
      '_ ← put (set_between a b (<[key := d]> (edges_between a b g)) (mg_set_dicts (<[d := ∅]> (mg_dicts g)) (d + 1) g));
      mret d
  end.
Definition add_edge (node1 node2 : Z) (key : option Z) (attr : attrs) : M MultiGraph unit :=
  if node1 =? node2 then raise AssertionError
  else
    '_ ← mg_modify (fun g => add_node node2 ∅ (add_node node1 ∅ g));
    key ← (match key with Some k => mret k | None => gen_key end);
    e ← edge_dict node1 node2 key;
    mg_modify (fun g =>
      let g := mg_set_dicts (alter (fun old => attr ∪ old) e (mg_dicts g)) (mg_new g) g in
      set_between node2 node1 (<[key := e]> (edges_between node2 node1 g)) g).

(** An edge of [add_edges_from]; one of four takes its dictionary for the key. *)
Inductive edge_arg := Edge2 (a b : Z) | Edge3 (a b : Z) (d : attrs) | Edge4 (a b : Z) (d : attrs) | EdgeOther.
Fixpoint add_edges_from (l : list edge_arg) (attr : attrs) : M MultiGraph unit :=
  match l with
  | [] => mret tt
  | e :: l =>
      '_ ← (match e with
            | Edge2 a b => add_edge a b None ∅
            | Edge3 a b d => add_edge a b None (attr ∪ d)
            | Edge4 a b d =>
                if a =? b then raise AssertionError
                else '_ ← mg_modify (fun g => add_node b ∅ (add_node a ∅ g)); raise TypeError
            | EdgeOther => raise AssertionError
            end);
      add_edges_from l attr
  end.

Definition remove_half (a b key : Z) : M MultiGraph unit :=
  g ← get;
  match edges_between a b g !! key with
  | None => '_ ← put (set_between a b (edges_between a b g) g); raise KeyError
  | Some _ => put (set_between a b (delete key (edges_between a b g)) g)
  end.
Definition remove_edge (node1 node2 : Z) (key : option Z) : M MultiGraph unit :=
  key ← (match key with
         | Some k => mret k
         | None =>
             g ← get;
             match (map_to_list (edges_between node1 node2 g)).*1 with
             | [] => '_ ← put (set_between node1 node2 ∅ g); raise IndexError
             | k :: _ => mret k
             end
         end);
  '_ ← remove_half node1 node2 key;
  remove_half node2 node1 key.

Fixpoint add_pairs (l : list (Z * Z)) : M MultiGraph unit :=
  match l with [] => mret tt | (a, b) :: l => '_ ← add_edge a b None ∅; add_pairs l end.
Definition add_path (l : list Z) (attr : attrs) : M MultiGraph unit :=
  '_ ← mg_modify (fun g => foldl (fun g n => add_node n attr g) g l);
  add_pairs (zip l (tail l)).
End minigraph.
Arguments MultiGraph V : clear implicits.
