(* ===== verification/Graph.v ===== *)
(** [lib/graph/graph.py]: links, the wiring of nodes port by port over a [MultiGraph], and the
    queries for nodes and links. *)
From S2P Require Import Prelude.
From S2P Require Import Minigraph.

(** * Link *)

(** A node or (node, port). *)
Inductive end_arg := ANode (n : Z) | APort (n p : Z).
Record GraphLink := MkLink { l_n0 : Z; l_p0 : Z; l_n1 : Z; l_p1 : Z }.
#[export] Instance link_eq_dec : EqDecision GraphLink.
Proof. solve_decision. Defined.
Definition Link_init (np1 np2 : Z * Z) : GraphLink := MkLink np1.1 np1.2 np2.1 np2.2.
Definition link_0 (l : GraphLink) : Z * Z := (l_n0 l, l_p0 l).
Definition link_1 (l : GraphLink) : Z * Z := (l_n1 l, l_p1 l).
(** [_index] and [self[i]] for a node; nodes are not numbers. *)
Definition link_index (l : GraphLink) (i : Z) : res Z :=
  if i =? l_n0 l then Ok 0 else if i =? l_n1 l then Ok 1 else Err AssertionError.
Definition getitem (l : GraphLink) (i : Z) : res (Z * Z) := i ← link_index l i; Ok (if i =? 0 then link_0 l else link_1 l).
Definition link_flip (l : GraphLink) : GraphLink := Link_init (link_1 l) (link_0 l).
(** [_index] is not a name here. *)
Definition link_port (l : GraphLink) (n : Z) : res Z := Err NameError.
Definition other (l : GraphLink) (n : end_arg) : res (Z * Z) :=
  match n with
  | APort n p =>
      if bool_decide (link_0 l = (n, p)) then Ok (link_1 l)
      else if bool_decide (link_1 l = (n, p)) then Ok (link_0 l) else Err AssertionError
  | ANode n => if l_n0 l =? n then Ok (link_1 l) else if l_n1 l =? n then Ok (link_0 l) else Err AssertionError
  end.
Definition other_port (l : GraphLink) (n : end_arg) : res Z := o ← other l n; Ok o.2.
(** A node is compared with the list of both. *)
Definition contains (l : GraphLink) (n : end_arg) : bool :=
  match n with APort n p => bool_decide (link_0 l = (n, p)) || bool_decide (link_1 l = (n, p)) | ANode _ => false end.
Fixpoint link_order (links : list GraphLink) (n : Z) : res (list GraphLink) :=
  match links with
  | [] => Ok []
  | l :: links =>
      if contains l (ANode n) then r ← link_order links n; Ok ((if l_n0 l =? n then l else link_flip l) :: r)
      else Err AssertionError
  end.

(** * Graph *)
Definition LINK : String.string := "link".
Record Graph := MkGraph { gr_g : MultiGraph GraphLink; node_port : gmap Z (gmap Z (Z * Z)) }.
Definition Graph_init : Graph := MkGraph MultiGraph_init ∅.
Definition gr_set_g v G := MkGraph v (node_port G).
Definition gr_set_ports v G := MkGraph (gr_g G) v.
(** A computation on the multigraph. *)
Definition on_g {A} (m : M (MultiGraph GraphLink) A) : M Graph A := fun G => let '(r, g) := m (gr_g G) in (r, gr_set_g g G).
Definition ports_of (n : Z) G : gmap Z (Z * Z) := default ∅ (node_port G !! n).

Definition add (node : Z) G : Graph := MkGraph (add_node node ∅ (gr_g G)) (<[node := ∅]> (node_port G)).
Definition remove (node : Z) : M Graph unit := on_g (remove_node node).
Definition graph_neighbors (n : Z) : M Graph (list Z) := on_g (neighbors n).

(** [d[LINK]] of an edge. *)
Definition link_of (d : Z) (g : MultiGraph GraphLink) : res GraphLink :=
  match default ∅ (mg_dicts g !! d) !! LINK with Some l => Ok l | None => Err KeyError end.
Definition find_port (node1 node2 : Z) G : res (option (Z * Z)) :=
  match edges (Some [node1; node2]) (gr_g G) with
  | [] => Ok None
  | (_, _, _, d) :: _ =>
      l ← link_of d (gr_g G);
      a ← getitem l node1;
      b ← getitem l node2;
      Ok (Some (a.2, b.2))
  end.
Definition nodes_connected (node1 node2 : Z) G : res bool := r ← find_port node1 node2 G; Ok (match r with Some _ => true | None => false end).

Definition port_for_node (node port : Z) G : res (option (Z * Z)) :=
  match node_port G !! node with None => Err AssertionError | Some m => Ok (m !! port) end.
(** [del self.node_port[n][p]]. *)
Definition del_node_port (n p : Z) : M Graph unit :=
  G ← get;
  match node_port G !! n with
  | None => raise KeyError
  | Some m => match m !! p with None => raise KeyError | Some _ => put (gr_set_ports (<[n := delete p m]> (node_port G)) G) end
  end.
Definition del_ends (n1 n2 : Z) (l : GraphLink) : M Graph unit :=
  a ← lift (getitem l n1);
  '_ ← del_node_port n1 a.2;
  b ← lift (getitem l n2);
  del_node_port n2 b.2.

Fixpoint disconnect_loop (np : Z * Z) (es : list (Z * Z * Z * Z)) (rm : list (Z * Z * Z)) : M Graph (list (Z * Z * Z)) :=
  match es with
  | [] => mret rm
  | (n1, n2, k, d) :: es =>
      G ← get;
      l ← lift (link_of d (gr_g G));
      if contains l (APort np.1 np.2) then '_ ← del_ends n1 n2 l; disconnect_loop np es (rm ++ [(n1, n2, k)])
      else disconnect_loop np es rm
  end.
Fixpoint remove_each (es : list (Z * Z * Z)) : M Graph unit :=
  match es with [] => mret tt | (n1, n2, k) :: es => '_ ← on_g (remove_edge n1 n2 (Some k)); remove_each es end.
Definition disconnect_port (np : Z * Z) : M Graph Z :=
  G ← get;
  o ← lift (port_for_node np.1 np.2 G);
  match o with
  | None => mret 0
  | Some o =>
      rm ← disconnect_loop np (edges (Some [np.1; o.1]) (gr_g G)) [];
      '_ ← remove_each rm;
      mret (zlen rm)
  end.

Fixpoint unlink_loop (es : list (Z * Z * Z * Z)) (count : Z) : M Graph Z :=
  match es with
  | [] => mret count
  | (n1, n2, k, d) :: es =>
      '_ ← on_g (remove_edge n1 n2 (Some k));
      G ← get;
      l ← lift (link_of d (gr_g G));
      '_ ← del_ends n1 n2 l;
      unlink_loop es (count + 1)
  end.
(** [disconnect_port] is not a name there. *)
Definition unlink (np1 np2 : end_arg) : M Graph Z :=
  match np1, np2 with
  | ANode n1, ANode n2 => G ← get; unlink_loop (edges (Some [n1; n2]) (gr_g G)) 0
  | _, _ => raise NameError
  end.
Definition disconnect_nodes (node1 node2 : end_arg) : M Graph unit := '_ ← unlink node1 node2; mret tt.
Fixpoint disconnect_all (node1 : Z) (l : list Z) : M Graph unit :=
  match l with [] => mret tt | n :: l => '_ ← disconnect_nodes (ANode node1) (ANode n); disconnect_all node1 l end.
Definition disconnect_node (node1 : Z) : M Graph unit := l ← graph_neighbors node1; disconnect_all node1 l.

(** [np] without a port gets the first that is free of a thousand; [ports] is the attribute of the node. *)
Section graph.
Variable ports : Z -> option (gset Z).
Definition choose_port (np : end_arg) : res end_arg :=
  match np with
  | APort n p => Ok (APort n p)
  | ANode n =>
      match ports n with
      | None => Err AttributeError
      | Some used =>
          Ok (match list_find (fun free => free ∉ used) (seqZ 0 1000) with Some (_, free) => APort n free | None => ANode n end)
      end
  end.
Definition link_ports (np1 np2 : Z * Z) : M Graph unit :=
  '_ ← on_g (mg_modify (fun g => add_node np2.1 ∅ (add_node np1.1 ∅ g)));
  '_ ← disconnect_port np1;
  '_ ← disconnect_port np2;
  '_ ← on_g (add_edge np1.1 np2.1 None {[LINK := Link_init np1 np2]});
  G ← get;
  match node_port G !! np1.1 with
  | None => raise KeyError
  | Some m1 =>
      '_ ← put (gr_set_ports (<[np1.1 := <[np1.2 := np2]> m1]> (node_port G)) G);
      G ← get;
      match node_port G !! np2.1 with
      | None => raise KeyError
      | Some m2 => put (gr_set_ports (<[np2.1 := <[np2.2 := np1]> m2]> (node_port G)) G)
      end
  end.
Definition link (np1 np2 : end_arg) : M Graph unit :=
  np1 ← lift (choose_port np1);
  np2 ← lift (choose_port np2);
  match np1, np2 with
  | APort n1 p1, APort n2 p2 => link_ports (n1, p1) (n2, p2)
  | _, _ => raise TypeError
  end.
End graph.

(** An edge comes with its smaller node first. *)
Fixpoint ports_loop (node : Z) (es : list (Z * Z * Z * Z)) (g : MultiGraph GraphLink) (ports : gmap Z (Z * Z)) : res (gmap Z (Z * Z)) :=
  match es with
  | [] => Ok ports
  | (n1, n2, k, d) :: es =>
      l ← link_of d g;
      if n1 =? node then
        a ← getitem l node;
        o ← other l (ANode node);
        ports_loop node es g (<[a.2 := o]> ports)
      else Err AssertionError
  end.
Definition ports_for_node (node : Z) G : res (gmap Z (Z * Z)) := ports_loop node (edges (Some [node]) (gr_g G)) (gr_g G) ∅.

(** [len(self._g)]: the multigraph has no length. *)
Definition graph_len (G : Graph) : res Z := Err TypeError.

(** * Queries *)

(** What the operators ask of values: nodes, attributes and everything else. *)
Class PyValue (V : Type) := {
  v_node : Z -> V;
  v_num : Z -> V;
  v_bool : bool -> V;
  v_truth : V -> bool;
  v_eq : V -> V -> bool;
  v_is : V -> V -> bool;
  v_text : V -> option String.string;
  v_len : V -> res V;
  v_index : V -> V -> res V;
  v_in : V -> V -> res bool;
  v_attr : V -> String.string -> option V;
  v_call : V -> list V -> res V;
  v_isinstance : V -> V -> res bool;
  v_type_is : V -> V -> bool;
  v_type_named : V -> String.string -> bool
}.

(** The operators that can be made: a [Call] with keywords and [InValues] raise in [__init__]. *)
Inductive Operator (V : Type) :=
  | Literal (v : V) | Anything | Self | Port | OtherPort | Other
  | Call (arg : list (Operator V))
  | Or (l r : Operator V) | And (l r : Operator V)
  | LessThan (l r : Operator V) | GreaterThan (l r : Operator V) | LessThanEqualTo (l r : Operator V) | GreaterThanEqualTo (l r : Operator V)
  | Not (o : Operator V) | Length (o : Operator V) | Index (l r : Operator V)
  | Equal (l r : Operator V) | Is (l r : Operator V) | Field (l r : Operator V) (optional : bool)
  | IsInstance (l r : Operator V) | IsType (l r : Operator V) | ConnectedTo (l r : Operator V)
  | In (l r : Operator V) | Member (l r : Operator V) (optional : bool).
Arguments Literal {V}. Arguments Anything {V}. Arguments Self {V}. Arguments Port {V}. Arguments OtherPort {V}. Arguments Other {V}.
Arguments Call {V}. Arguments Or {V}. Arguments And {V}. Arguments LessThan {V}. Arguments GreaterThan {V}. Arguments LessThanEqualTo {V}.
Arguments GreaterThanEqualTo {V}. Arguments Not {V}. Arguments Length {V}. Arguments Index {V}. Arguments Equal {V}. Arguments Is {V}.
Arguments Field {V}. Arguments IsInstance {V}. Arguments IsType {V}. Arguments ConnectedTo {V}. Arguments In {V}. Arguments Member {V}.

(** The result of an operator; [LeaveException] is a RuntimeError of its own. *)
Inductive answer (A : Type) := Answer (a : A) | Leave | Raised (e : exn).
Arguments Answer {A} a.
Arguments Leave {A}.
Arguments Raised {A} e.
#[export] Instance answer_ret : MRet answer := @Answer.
#[export] Instance answer_bind : MBind answer := fun A B f m =>
  match m with Answer a => f a | Leave => Leave | Raised e => Raised e end.
Definition of_res {A} (r : res A) : answer A := match r with Ok a => Answer a | Err e => Raised e end.

Section query.
Context {V : Type} `{PyValue V}.

Definition strip_call (r : String.string) : String.string * bool :=
  let n := String.length r in
  if String.eqb (String.substring (n - 2) 2 r) "()" && (2 <=? Z.of_nat n) then (String.substring 0 (n - 2) r, true) else (r, false).
Definition get_attr (l : V) (name : String.string) (optional : bool) : answer V :=
  match v_attr l name with Some a => Answer a | None => if optional then Leave else Raised AttributeError end.
Definition field_apply (l r : V) (optional : bool) : answer V :=
  match v_text r with
  | None => Raised AttributeError
  | Some r => let '(name, do_call) := strip_call r in a ← get_attr l name optional; if do_call then of_res (v_call a []) else Answer a
  end.
Definition type_apply (l r : V) : answer V := Answer (v_bool (match v_text r with Some name => v_type_named l name | None => v_type_is l r end)).
Definition connected_apply (l r : V) : answer V :=
  match v_attr l "connected_to" with Some f => of_res (v_call f [r]) | None => Raised AttributeError end.

(** The operators on links; the [_apply]s.  [LessThan] and [LessThanEqualTo] take one operand
    too few, the other two look for a [value] that is not there. *)
Definition on_link (f : GraphLink -> V) (li : option GraphLink) : answer V :=
  match li with None => Raised RuntimeError | Some l => Answer (f l) end.
Definition port_op : option GraphLink -> answer V := on_link (fun l => v_num (l_p0 l)).
Definition other_port_op : option GraphLink -> answer V := on_link (fun l => v_num (l_p1 l)).
Definition other_op : option GraphLink -> answer V := on_link (fun l => v_node (l_n1 l)).
Definition call_apply (arglist : list V) : answer V :=
  match arglist with [] => Raised IndexError | func :: arglist => of_res (v_call func arglist) end.
Definition or_apply (l r : V) : answer V := Answer (if v_truth l then l else r).
Definition and_apply (l r : V) : answer V := Answer (if v_truth l then r else l).
Definition less_apply (l r : V) : answer V := Raised TypeError.
Definition greater_apply (l r : V) : answer V := Raised NameError.
Definition not_apply (v : V) : answer V := Answer (v_bool (negb (v_truth v))).
Definition length_apply (v : V) : answer V := of_res (v_len v).
Definition index_apply (l r : V) : answer V := of_res (v_index l r).
Definition equal_apply (l r : V) : answer V := Answer (v_bool (v_eq l r)).
Definition is_apply (l r : V) : answer V := Answer (v_bool (v_is l r)).
Definition isinstance_apply (l r : V) : answer V := v ← of_res (v_isinstance l r); Answer (v_bool v).
Definition in_apply (l r : V) : answer V := v ← of_res (v_in l r); Answer (v_bool v).
Definition member_apply (l r : V) (optional : bool) : answer V :=
  match v_text r with Some name => get_attr l name optional | None => Raised TypeError end.

(** [operator(n, li)]: the operands first. *)
Fixpoint eval (n : Z) (li : option GraphLink) (o : Operator V) : answer V :=
  let both l r (f : V -> V -> answer V) := a ← eval n li l; b ← eval n li r; f a b in
  match o with
  | Literal v => Answer v
  | Anything => Answer (v_bool true)
  | Self => Answer (v_node n)
  | Port => port_op li
  | OtherPort => other_port_op li
  | Other => other_op li
  | Call arg =>
      arglist ← (fix eval_all args := match args with [] => Answer [] | a :: args => v ← eval n li a; vs ← eval_all args; Answer (v :: vs) end) arg;
      call_apply arglist
  | Or l r => both l r or_apply
  | And l r => both l r and_apply
  | LessThan l r | LessThanEqualTo l r => both l r less_apply
  | GreaterThan l r | GreaterThanEqualTo l r => both l r greater_apply
  | Not o => a ← eval n li o; not_apply a
  | Length o => a ← eval n li o; length_apply a
  | Index l r => both l r index_apply
  | Equal l r => both l r equal_apply
  | Is l r => both l r is_apply
  | Field l r optional => both l r (fun a b => field_apply a b optional)
  | IsInstance l r => both l r isinstance_apply
  | IsType l r => both l r type_apply
  | ConnectedTo l r => both l r connected_apply
  | In l r => both l r in_apply
  | Member l r optional => both l r (fun a b => member_apply a b optional)
  end.

(** [_test_node]; a keyword is [is_a], [type] or the name of an attribute. *)
Fixpoint test_kw (n : Z) (kw : list (String.string * V)) : res bool :=
  match kw with
  | [] => Ok true
  | (k, v) :: kw =>
      ok ← (if String.eqb k "is_a" then v_isinstance (v_node n) v
            else if String.eqb k "type" then Ok (v_type_is (v_node n) v)
            else Ok (match v_attr (v_node n) k with None => false | Some a => v_eq a v end));
      if ok : bool then test_kw n kw else Ok false
  end.
Fixpoint test_args (n : Z) (args : list (Operator V)) (link : option GraphLink) : res bool :=
  match args with
  | [] => Ok true
  | a :: args =>
      match eval n link a with
      | Answer v => if v_truth v then test_args n args link else Ok false
      | Leave => Ok false
      | Raised e => Err e
      end
  end.
Definition test_node (n : Z) (args : list (Operator V)) (kw : list (String.string * V)) (link : option GraphLink) : res bool :=
  ok ← test_kw n kw; if ok : bool then test_args n args link else Ok false.

Fixpoint filter_nodes (test : Z -> res bool) (l : list Z) : res (list Z) :=
  match l with [] => Ok [] | n :: l => ok ← test n; r ← filter_nodes test l; Ok (if ok : bool then n :: r else r) end.
Definition graph_find (args : list (Operator V)) (kw : list (String.string * V)) G : res (list Z) :=
  filter_nodes (fun n => test_node n args kw None) (nodes (gr_g G)).
Definition the_one {A} (one : bool) (has_default : option A) (r : list A) : res A :=
  match r with
  | [] => match has_default with Some d => Ok d | None => Err RuntimeError end
  | x :: _ => if one && (1 <? zlen r) then Err RuntimeError else Ok x
  end.
Definition graph_get (one : bool) (has_default : option Z) args kw G : res Z := r ← graph_find args kw G; the_one one has_default r.
Definition graph_has args kw G : res bool := r ← graph_find args kw G; Ok (0 <? zlen r).

(** [find_links]: the second query is the first, or one of its own. *)
Inductive second_query := SameQuery | OwnQuery (q : option (Operator V)).
Definition test_end (q : option (Operator V)) (n : Z) (l : GraphLink) : res bool :=
  match q with None => Ok true | Some o => test_node n [o] [] (Some l) end.
Definition test_ends (qa qb : option (Operator V)) (l : GraphLink) : res bool :=
  a ← test_end qa (l_n0 l) l; if a : bool then test_end qb (l_n1 l) l else Ok false.
Definition test_link (q1 : option (Operator V)) (q2 : second_query) (l : GraphLink) : res (option GraphLink) :=
  let second := match q2 with SameQuery => q1 | OwnQuery q => q end in
  let differ := match q1, q2 with _, SameQuery => false | None, OwnQuery None => false | _, _ => true end in
  ok ← test_ends q1 second l;
  if ok : bool then Ok (Some l)
  else if differ then ok ← test_ends second q1 l; Ok (if ok : bool then Some (link_flip l) else None)
  else Ok None.
Fixpoint filter_links (test : GraphLink -> res (option GraphLink)) (g : MultiGraph GraphLink) (es : list (Z * Z * Z * Z)) : res (list GraphLink) :=
  match es with
  | [] => Ok []
  | (_, _, _, d) :: es => l ← link_of d g; o ← test l; r ← filter_links test g es; Ok (match o with Some l => l :: r | None => r end)
  end.
Definition find_links (q1 : option (Operator V)) (q2 : second_query) G : res (list GraphLink) :=
  filter_links (test_link q1 q2) (gr_g G) (edges None (gr_g G)).
Definition get_link (one : bool) (has_default : option GraphLink) q1 q2 G : res GraphLink := r ← find_links q1 q2 G; the_one one has_default r.
Definition has_link q1 q2 G : res bool := r ← find_links q1 q2 G; Ok (0 <? zlen r).
End query.
