(* ===== verification/GraphTheory.v ===== *)
(** The wiring of a [Graph]: its table of ports and the edges of its multigraph always say the
    same, and linking, disconnecting and unlinking change it port by port; and what queries find. *)
From S2P Require Import Prelude.
From S2P Require Import Steps.
From S2P Require Import Minigraph.
From S2P Require Import Graph.

(** * The edges of a multigraph *)
Section edges.
Context {V : Type}.
Implicit Type g : MultiGraph V.
Implicit Type nb : option (list Z).

Definition edge_at g (a b k : Z) : option Z := edges_between a b g !! k.
Definition symmetric g : Prop := forall a b k, edge_at g a b k = edge_at g b a k.

Definition passes (nb : option (list Z)) (xy : Z * Z) (t : Z * Z * gmap Z Z) : bool :=
  in_bunch nb t.1.1 t.1.2 && bool_decide (fix_ t.1.1 t.1.2 = xy).
Lemma first_tables_from (nb : option (list Z)) (l : list (Z * Z * gmap Z Z)) (m : gmap (Z * Z) (gmap Z Z)) (xy : Z * Z) :
  foldl (fun (m : gmap (Z * Z) (gmap Z Z)) (t : Z * Z * gmap Z Z) => let '(e1, e2, rest) := t in
    if in_bunch nb e1 e2 then match m !! fix_ e1 e2 with Some _ => m | None => <[fix_ e1 e2 := rest]> m end else m) m l !! xy =
  match m !! xy with Some r => Some r | None => snd <$> List.find (passes nb xy) l end.
Proof.
  revert m. induction l as [|[[e1 e2] rest] l IH]; intros m; cbn [foldl List.find].
  { by destruct (m !! xy). }
  rewrite IH. change (passes nb xy (e1, e2, rest)) with (in_bunch nb e1 e2 && bool_decide (fix_ e1 e2 = xy)). destruct (in_bunch nb e1 e2); cbn [andb]; [|done].
  case_bool_decide as E.
  - rewrite E. destruct (m !! xy) as [r|] eqn:Em; [by rewrite ?Em|]. by rewrite lookup_insert_eq.
  - destruct (m !! fix_ e1 e2); [done|]. by rewrite lookup_insert_ne by congruence.
Qed.
Lemma first_tables_find nb (l : list (Z * Z * gmap Z Z)) (xy : Z * Z) : first_tables nb l !! xy = snd <$> List.find (passes nb xy) l.
Proof. unfold first_tables. rewrite first_tables_from. by rewrite lookup_empty. Qed.

Lemma in_tables g e1 e2 rest : (e1, e2, rest) ∈ tables g <-> exists o, mg_edges g !! e1 = Some o /\ o !! e2 = Some rest.
Proof.
  unfold tables. rewrite list_elem_of_bind. split.
  - intros ([e o] & H & He%elem_of_map_to_list). apply list_elem_of_fmap in H as ([e' r] & [= -> -> ->] & Hr%elem_of_map_to_list). by exists o.
  - intros (o & He & Hr). exists (e1, o). split; [|by apply elem_of_map_to_list]. apply list_elem_of_fmap. exists (e2, rest). split; [done|]. by apply elem_of_map_to_list.
Qed.
Lemma table_edge g e1 e2 rest k : (e1, e2, rest) ∈ tables g -> rest !! k = edge_at g e1 e2 k.
Proof. intros (o & He & Hr)%in_tables. unfold edge_at, edges_between, edges_of. rewrite He. cbn. by rewrite Hr. Qed.
Lemma edge_table g a b k d : edge_at g a b k = Some d -> exists rest, (a, b, rest) ∈ tables g /\ rest !! k = Some d.
Proof.
  unfold edge_at, edges_between, edges_of. destruct (mg_edges g !! a) as [o|] eqn:Ea; cbn; [|by rewrite !lookup_empty].
  destruct (o !! b) as [rest|] eqn:Eb; cbn; [|by rewrite lookup_empty]. intros H. exists rest. split; [|done]. apply in_tables. by exists o.
Qed.

Lemma fix_cases a b : fix_ a b = (a, b) \/ fix_ a b = (b, a).
Proof. unfold fix_. destruct (b <? a); auto. Qed.
Lemma fix_sorted a b x y : fix_ a b = (x, y) -> x <= y.
Proof. unfold fix_. destruct (Z.ltb_spec b a); intros [= <- <-]; lia. Qed.
Lemma fix_id x y : x <= y -> fix_ x y = (x, y).
Proof. intros H. unfold fix_. by rewrite (proj2 (Z.ltb_ge _ _)). Qed.
Lemma fix_swap x y : x <= y -> fix_ y x = (x, y).
Proof. intros H. unfold fix_. destruct (Z.ltb_spec x y); [done|]. by replace y with x by lia. Qed.

Lemma edges_spec nb g x y k d : symmetric g ->
  (x, y, k, d) ∈ edges nb g <-> x <= y /\ edge_at g x y k = Some d /\ (in_bunch nb x y = true \/ in_bunch nb y x = true).
Proof.
  intros Hs. unfold edges. rewrite list_elem_of_bind. split.
  - intros ([[a b] el] & H & Hm%elem_of_map_to_list). apply list_elem_of_fmap in H as ([k' d'] & [= <- <- <- <-] & Hk%elem_of_map_to_list).
    rewrite first_tables_find in Hm. destruct (List.find _ _) as [[[e1 e2] rest]|] eqn:Ef; [|done]. cbn in Hm. injection Hm as ->.
    apply find_some in Ef as [Hin Hp]. apply list_elem_of_In in Hin. unfold passes in Hp. cbn in Hp. apply andb_true_iff in Hp as [Hb Hf%bool_decide_eq_true].
    rewrite (table_edge g e1 e2 el k Hin) in Hk. split; [by apply (fix_sorted e1 e2)|].
    destruct (fix_cases e1 e2) as [E|E]; rewrite E in Hf; injection Hf as -> ->; [auto|]. rewrite Hs. auto.
  - intros (Hxy & He & Hb). assert (exists e1 e2 rest, (e1, e2, rest) ∈ tables g /\ passes nb (x, y) (e1, e2, rest) = true) as (e1 & e2 & rest & Hin & Hp).
    { destruct Hb as [Hb|Hb].
      - destruct (edge_table g x y k d He) as (rest & Hin & _). exists x, y, rest. split; [done|]. unfold passes. cbn. rewrite Hb, fix_id by done. by apply bool_decide_eq_true.
      - rewrite Hs in He. destruct (edge_table g y x k d He) as (rest & Hin & _). exists y, x, rest. split; [done|]. unfold passes. cbn. rewrite Hb, fix_swap by done. by apply bool_decide_eq_true. }
    destruct (List.find (passes nb (x, y)) (tables g)) as [[[f1 f2] rest']|] eqn:Ef.
    2: { apply list_elem_of_In in Hin. pose proof (find_none _ _ Ef _ Hin). congruence. }
    exists ((x, y), rest'). split; [|apply elem_of_map_to_list; by rewrite first_tables_find, Ef].
    apply find_some in Ef as [Hin' Hp']. apply list_elem_of_In in Hin'. unfold passes in Hp'. cbn in Hp'. apply andb_true_iff in Hp' as [_ Hf%bool_decide_eq_true].
    apply list_elem_of_fmap. exists (k, d). split; [done|]. apply elem_of_map_to_list. rewrite (table_edge g f1 f2 rest' k Hin').
    destruct (fix_cases f1 f2) as [E|E]; rewrite E in Hf; injection Hf as -> ->; [done|by rewrite Hs].
Qed.

Lemma edges_once nb g : NoDup (edges nb g).
Proof.
  unfold edges. apply NoDup_bind.
  - intros [[a b] el] [[a' b'] el'] t H1%elem_of_map_to_list H2%elem_of_map_to_list Ht1 Ht2.
    apply list_elem_of_fmap in Ht1 as ([k d] & -> & _). apply list_elem_of_fmap in Ht2 as ([k' d'] & [= <- <- _ _] & _). congruence.
  - intros [[a b] el] _. apply NoDup_fmap_2; [|apply NoDup_map_to_list]. by intros [k d] [k' d'] [= -> ->].
  - apply NoDup_map_to_list.
Qed.
Lemma bunch_pair (n m x y : Z) : n <> m -> in_bunch (Some [n; m]) x y = true <-> (x = n \/ x = m) /\ (y = n \/ y = m).
Proof.
  intros Hne. unfold in_bunch. assert (size (list_to_set [n; m] : gset Z) = 2)%nat as Hsize.
  { rewrite size_list_to_set; [done|]. apply NoDup_cons. split; [by intros ->%list_elem_of_singleton|apply NoDup_singleton]. }
  rewrite Hsize. change (negb (1 <? Z.of_nat 2)) with false. rewrite orb_false_r, andb_true_iff, !bool_decide_eq_true. set_solver.
Qed.
End edges.

(** * The wiring *)
Definition port_at G (np : Z * Z) : option (Z * Z) := ports_of np.1 G !! np.2.
Definition joins (l : GraphLink) (np1 np2 : Z * Z) : Prop := l = Link_init np1 np2 \/ l = Link_init np2 np1.
Definition at_end (l : GraphLink) (np : Z * Z) : Prop := link_0 l = np \/ link_1 l = np.

Record wired G : Prop := MkWired {
  wi_sym : symmetric (gr_g G);
  wi_key : forall a b k d, edge_at (gr_g G) a b k = Some d -> k < mg_next_key (gr_g G);
  wi_dict : forall a b k d, edge_at (gr_g G) a b k = Some d -> d < mg_new (gr_g G);
  wi_link : forall a b k d, edge_at (gr_g G) a b k = Some d -> a <> b /\ exists l p q, link_of d (gr_g G) = Ok l /\ joins l (a, p) (b, q) /\ port_at G (a, p) = Some (b, q);
  wi_edge : forall n p m q, port_at G (n, p) = Some (m, q) -> exists k d l, edge_at (gr_g G) n m k = Some d /\ link_of d (gr_g G) = Ok l /\ joins l (n, p) (m, q);
  wi_once : forall n p m k k' d d' l l', edge_at (gr_g G) n m k = Some d -> edge_at (gr_g G) n m k' = Some d' ->
    link_of d (gr_g G) = Ok l -> link_of d' (gr_g G) = Ok l' -> at_end l (n, p) -> at_end l' (n, p) -> k = k'
}.

Lemma wired_init : wired Graph_init.
Proof.
  assert (forall a b k, edge_at (gr_g Graph_init) a b k = None) as He by (intros a b k; unfold edge_at, edges_between, edges_of; cbn; by rewrite !lookup_empty).
  split; try (intros a b k d; by rewrite He).
  - intros a b k. by rewrite !He.
  - intros n p m q. unfold port_at, ports_of. cbn. by rewrite lookup_empty.
Qed.

Lemma joins_sym l x y : joins l x y -> joins l y x.
Proof. intros [->| ->]; [by right|by left]. Qed.
Lemma joins_ends l x y : joins l x y -> at_end l x /\ at_end l y.
Proof. destruct x, y. intros [->| ->]; unfold at_end, link_0, link_1; cbn; auto. Qed.
Lemma joins_unique l n p m q p' q' : n <> m -> joins l (n, p) (m, q) -> joins l (n, p') (m, q') -> p = p' /\ q = q'.
Proof. intros Hne [->| ->] [E|E]; unfold Link_init in E; cbn in E; injection E; intros; subst; done. Qed.
Lemma at_end_joins l n p m p' q' : n <> m -> joins l (n, p') (m, q') -> at_end l (n, p) -> p = p'.
Proof. intros Hne [->| ->] [E|E]; unfold link_0, link_1 in E; cbn in E; congruence. Qed.

(** The other end of a connection points back. *)
Lemma wired_back G n p m q : wired G -> port_at G (n, p) = Some (m, q) -> n <> m /\ port_at G (m, q) = Some (n, p).
Proof.
  intros W (k & d & l & He & Hl & Hj)%(wi_edge _ W). pose proof He as He'. rewrite (wi_sym _ W) in He'.
  destruct (wi_link _ W _ _ _ _ He') as (Hne & l' & q' & p' & Hl' & Hj' & Hp). rewrite Hl in Hl'. injection Hl' as <-.
  destruct (joins_unique l m q n p q' p' Hne (joins_sym _ _ _ Hj) Hj') as [-> ->]. split; [congruence|done].
Qed.

(** ** What an edge's removal does *)
Definition half_removed (a b k : Z) (g : MultiGraph GraphLink) : MultiGraph GraphLink := set_between a b (delete k (edges_between a b g)) g.
Lemma edge_set_between a b m (g : MultiGraph GraphLink) x y k : edge_at (set_between a b m g) x y k = if decide (x = a /\ y = b) then m !! k else edge_at g x y k.
Proof.
  unfold edge_at, edges_between, edges_of, set_between, mg_set_edges. cbn. destruct (decide (x = a)) as [->|Hx].
  - rewrite lookup_insert_eq. cbn. destruct (decide (y = b)) as [->|Hy].
    + rewrite lookup_insert_eq. by rewrite decide_True.
    + rewrite lookup_insert_ne by done. rewrite decide_False by naive_solver. done.
  - rewrite lookup_insert_ne by done. by rewrite decide_False by naive_solver.
Qed.
Lemma half_removed_edge a b k (g : MultiGraph GraphLink) x y k' :
  edge_at (half_removed a b k g) x y k' = if decide (x = a /\ y = b /\ k' = k) then None else edge_at g x y k'.
Proof.
  unfold half_removed. rewrite edge_set_between. destruct (decide (x = a /\ y = b)) as [[-> ->]|Hn].
  - destruct (decide (k' = k)) as [->|Hk]; [rewrite lookup_delete_eq; by rewrite decide_True|].
    rewrite lookup_delete_ne by done. by rewrite decide_False by naive_solver.
  - by rewrite decide_False by naive_solver.
Qed.
Definition removed_edge (a b k : Z) (g : MultiGraph GraphLink) : MultiGraph GraphLink := half_removed b a k (half_removed a b k g).
Lemma removed_edge_at a b k g x y k' : a <> b ->
  edge_at (removed_edge a b k g) x y k' = if decide (((x = a /\ y = b) \/ (x = b /\ y = a)) /\ k' = k) then None else edge_at g x y k'.
Proof.
  intros Hne. unfold removed_edge. rewrite !half_removed_edge. repeat case_decide; try done; naive_solver.
Qed.
Lemma remove_edge_run a b k d g : symmetric g -> a <> b -> edge_at g a b k = Some d -> remove_edge a b (Some k) g = (Ok tt, removed_edge a b k g).
Proof.
  intros Hs Hne He. unfold remove_edge. erewrite bind_ok by reflexivity.
  assert (remove_half a b k g = (Ok tt, half_removed a b k g)) as E1 by (unfold remove_half; rewrite bind_get; change (edges_between a b g !! k) with (edge_at g a b k); by rewrite He).
  erewrite bind_ok by exact E1. unfold remove_half. rewrite bind_get.
  change (edges_between b a (half_removed a b k g) !! k) with (edge_at (half_removed a b k g) b a k). rewrite half_removed_edge, decide_False by naive_solver.
  by rewrite <-Hs, He.
Qed.

(** Ports deleted. *)
Definition port_deleted (n p : Z) G : Graph := gr_set_ports (<[n := delete p (ports_of n G)]> (node_port G)) G.
Lemma port_deleted_at n p G x : port_at (port_deleted n p G) x = if decide (x = (n, p)) then None else port_at G x.
Proof.
  destruct x as [m q]. unfold port_at, port_deleted, ports_of. cbn. destruct (decide (m = n)) as [->|Hm].
  - rewrite lookup_insert_eq. cbn. destruct (decide (q = p)) as [->|Hq]; [rewrite lookup_delete_eq; by rewrite decide_True|].
    rewrite lookup_delete_ne by done. by rewrite decide_False by congruence.
  - rewrite lookup_insert_ne by done. by rewrite decide_False by congruence.
Qed.
Lemma del_port_run n p G o : port_at G (n, p) = Some o -> del_node_port n p G = (Ok tt, port_deleted n p G).
Proof.
  unfold port_at, ports_of, del_node_port, port_deleted. cbn. rewrite bind_get. unfold ports_of. destruct (node_port G !! n) as [m|]; cbn; [|by rewrite lookup_empty]. by intros ->.
Qed.
Definition ends_deleted (np1 np2 : Z * Z) G : Graph := port_deleted np2.1 np2.2 (port_deleted np1.1 np1.2 G).
Lemma ends_deleted_at np1 np2 G x : port_at (ends_deleted np1 np2 G) x = if decide (x = np1 \/ x = np2) then None else port_at G x.
Proof. destruct np1, np2. unfold ends_deleted. cbn. rewrite !port_deleted_at. repeat case_decide; naive_solver. Qed.
Lemma ends_deleted_dom np1 np2 G n : is_Some (node_port G !! n) -> is_Some (node_port (ends_deleted np1 np2 G) !! n).
Proof. intros Hn. unfold ends_deleted, port_deleted. cbn. apply lookup_insert_is_Some'. right. apply lookup_insert_is_Some'. by right. Qed.
Lemma getitem_joins l n p m q : n <> m -> joins l (n, p) (m, q) -> getitem l n = Ok (n, p) /\ getitem l m = Ok (m, q).
Proof.
  intros Hne [->| ->]; unfold getitem, link_index, Link_init; cbn; rewrite ?Z.eqb_refl, ?(proj2 (Z.eqb_neq n m)), ?(proj2 (Z.eqb_neq m n)) by congruence; done.
Qed.
Lemma del_ends_run l n p m q G : n <> m -> joins l (n, p) (m, q) -> port_at G (n, p) = Some (m, q) -> port_at G (m, q) = Some (n, p) ->
  del_ends n m l G = (Ok tt, ends_deleted (n, p) (m, q) G).
Proof.
  intros Hne Hj Hp Hq. destruct (getitem_joins l n p m q Hne Hj) as [E1 E2]. unfold del_ends. erewrite bind_ok by (rewrite E1; reflexivity).
  erewrite bind_ok by (by apply (del_port_run n p G (m, q))). erewrite bind_ok by (rewrite E2; reflexivity). cbn [fst snd].
  apply (del_port_run m q _ (n, p)). rewrite port_deleted_at, decide_False by congruence. done.
Qed.

(** A connection cut: its edge and both its ports are gone. *)
Definition cut (a b k : Z) (np1 np2 : Z * Z) G : Graph := gr_set_g (removed_edge a b k (gr_g G)) (ends_deleted np1 np2 G).
Lemma cut_at a b k np1 np2 G x : port_at (cut a b k np1 np2 G) x = if decide (x = np1 \/ x = np2) then None else port_at G x.
Proof. apply (ends_deleted_at np1 np2 G x). Qed.
Lemma cut_edge a b k np1 np2 G x y k' : a <> b ->
  edge_at (gr_g (cut a b k np1 np2 G)) x y k' = if decide (((x = a /\ y = b) \/ (x = b /\ y = a)) /\ k' = k) then None else edge_at (gr_g G) x y k'.
Proof. apply removed_edge_at. Qed.

Lemma cut_wired a b k d l p q G : wired G -> edge_at (gr_g G) a b k = Some d -> link_of d (gr_g G) = Ok l -> joins l (a, p) (b, q) -> wired (cut a b k (a, p) (b, q) G).
Proof.
  intros W He Hl Hj. destruct (wi_link _ W _ _ _ _ He) as (Hne & l0 & p0 & q0 & Hl0 & Hj0 & Hp). rewrite Hl in Hl0. injection Hl0 as <-.
  destruct (joins_unique l a p b q p0 q0 Hne Hj Hj0) as [<- <-].
  assert (forall x y k' d', edge_at (gr_g (cut a b k (a, p) (b, q) G)) x y k' = Some d' ->
    edge_at (gr_g G) x y k' = Some d' /\ ~ (((x = a /\ y = b) \/ (x = b /\ y = a)) /\ k' = k)) as Hin.
  { intros x y k' d'. rewrite cut_edge by done. by case_decide. }
  (* another edge does not end at the ports that are cut *)
  assert (forall x y k' d' l' px, edge_at (gr_g G) x y k' = Some d' -> ~ (((x = a /\ y = b) \/ (x = b /\ y = a)) /\ k' = k) ->
    link_of d' (gr_g G) = Ok l' -> at_end l' (x, px) -> port_at G (x, px) <> None -> (x, px) <> (a, p) /\ (x, px) <> (b, q)) as Hother.
  { intros x y k' d' l' px He' Hn Hl' Hend _. destruct (wi_link _ W _ _ _ _ He') as (Hxy & l2 & p2 & q2 & Hl2 & Hj2 & Hp2). rewrite Hl' in Hl2. injection Hl2 as <-.
    assert (px = p2) as -> by by apply (at_end_joins l' x px y p2 q2). pose proof (proj2 (wired_back G a p b q W Hp)) as Hq.
    split; intros [= -> ->]; apply Hn.
    - rewrite Hp in Hp2. injection Hp2 as -> ->. split; [by left|]. by apply (wi_once _ W a p y k' k d' d l' l); [..|by destruct (joins_ends l (a, p) (y, q2))].
    - rewrite Hq in Hp2. injection Hp2 as -> ->. split; [by right|]. rewrite (wi_sym _ W) in He. by apply (wi_once _ W b q y k' k d' d l' l); [..|by destruct (joins_ends l (y, q2) (b, q))]. }
  split.
  - intros x y k'. rewrite !cut_edge by done. rewrite (wi_sym _ W x y). repeat case_decide; try done; naive_solver.
  - intros x y k' d' [H _]%Hin. by apply (wi_key _ W x y k' d').
  - intros x y k' d' [H _]%Hin. by apply (wi_dict _ W x y k' d').
  - intros x y k' d' [H Hn]%Hin. destruct (wi_link _ W _ _ _ _ H) as (Hxy & l' & p' & q' & Hl' & Hj' & Hp'). split; [done|]. exists l', p', q'. split; [done|]. split; [done|].
    rewrite cut_at, decide_False; [done|]. destruct (Hother x y k' d' l' p' H Hn Hl') as [? ?]; [by destruct (joins_ends l' (x, p') (y, q'))|congruence|naive_solver].
  - intros n p' m q'. rewrite cut_at. case_decide as Hx; [done|]. intros H. destruct (wi_edge _ W _ _ _ _ H) as (k' & d' & l' & He' & Hl' & Hj').
    exists k', d', l'. split; [|done]. rewrite cut_edge by done. rewrite decide_False; [done|]. intros [Hxy ->]. apply Hx.
    destruct Hxy as [[-> ->]|[-> ->]].
    + rewrite He in He'. injection He' as <-. change (link_of d (gr_g G) = Ok l') in Hl'. rewrite Hl in Hl'. injection Hl' as <-. left. by destruct (joins_unique l a p b q p' q' Hne Hj Hj') as [-> ->].
    + rewrite (wi_sym _ W) in He'. rewrite He in He'. injection He' as <-. change (link_of d (gr_g G) = Ok l') in Hl'. rewrite Hl in Hl'. injection Hl' as <-. right.
      by destruct (joins_unique l a p b q q' p' Hne Hj (joins_sym _ _ _ Hj')) as [-> ->].
  - intros n p' m k1 k2 d1 d2 l1 l2 [H1 _]%Hin [H2 _]%Hin. by apply (wi_once _ W n p' m).
Qed.

(** * Disconnecting a port *)
Lemma disconnect_none np es G rm : (forall n1 n2 k d, (n1, n2, k, d) ∈ es -> exists l, link_of d (gr_g G) = Ok l /\ contains l (APort np.1 np.2) = false) ->
  disconnect_loop np es rm G = (Ok rm, G).
Proof.
  induction es as [|[[[n1 n2] k] d] es IH]; intros H; [done|]. cbn [disconnect_loop]. rewrite bind_get.
  destruct (H n1 n2 k d ltac:(apply list_elem_of_here)) as (l & El & Hc). erewrite bind_ok by (rewrite El; reflexivity). rewrite Hc. apply IH.
  intros. apply (H n0 n3 k0 d0). by apply list_elem_of_further.
Qed.
Lemma disconnect_loop_app np es1 es2 G rm : (forall n1 n2 k d, (n1, n2, k, d) ∈ es1 -> exists l, link_of d (gr_g G) = Ok l /\ contains l (APort np.1 np.2) = false) ->
  disconnect_loop np (es1 ++ es2) rm G = disconnect_loop np es2 rm G.
Proof.
  induction es1 as [|[[[n1 n2] k] d] es IH]; intros H; [done|]. cbn [app disconnect_loop]. rewrite bind_get.
  destruct (H n1 n2 k d ltac:(apply list_elem_of_here)) as (l & El & Hc). erewrite bind_ok by (rewrite El; reflexivity). rewrite Hc. apply IH.
  intros. apply (H n0 n3 k0 d0). by apply list_elem_of_further.
Qed.
Lemma contains_at l n p : contains l (APort n p) = true <-> at_end l (n, p).
Proof. unfold contains, at_end. by rewrite orb_true_iff, !bool_decide_eq_true. Qed.

(** The edge that is there for a connection, smaller node first. *)
Lemma connection_edge n p m q G : wired G -> port_at G (n, p) = Some (m, q) -> exists x y k d l px py,
  (x, y, k, d) ∈ edges (Some [n; m]) (gr_g G) /\ edge_at (gr_g G) x y k = Some d /\ link_of d (gr_g G) = Ok l /\ joins l (x, px) (y, py) /\
  (((x, px) = (n, p) /\ (y, py) = (m, q)) \/ ((x, px) = (m, q) /\ (y, py) = (n, p))).
Proof.
  intros W Hp. destruct (wired_back G n p m q W Hp) as [Hne _]. destruct (wi_edge _ W _ _ _ _ Hp) as (k & d & l & He & Hl & Hj).
  pose proof (wi_sym _ W) as Hs. destruct (Z.le_ge_cases n m) as [Hle|Hge].
  - exists n, m, k, d, l, p, q. split_and!; [|done|done|done|by left]. apply edges_spec; [done|]. split; [done|]. split; [done|]. left. apply bunch_pair; naive_solver.
  - exists m, n, k, d, l, q, p. split_and!; [|by rewrite Hs|done|by apply joins_sym|by right]. apply edges_spec; [done|]. split; [done|]. split; [by rewrite Hs|]. left. apply bunch_pair; naive_solver.
Qed.
Lemma edge_between n m x y k d G : wired G -> n <> m -> (x, y, k, d) ∈ edges (Some [n; m]) (gr_g G) ->
  edge_at (gr_g G) x y k = Some d /\ x <= y /\ ((x = n /\ y = m) \/ (x = m /\ y = n)).
Proof.
  intros W Hne H. apply edges_spec in H as (Hxy & He & Hb); [|apply (wi_sym _ W)]. split; [done|]. split; [done|]. destruct (wi_link _ W _ _ _ _ He) as [Hd _].
  destruct Hb as [Hb|Hb]; apply bunch_pair in Hb; try done; destruct Hb as [[->| ->] [->| ->]]; naive_solver.
Qed.

Definition same_nodes G G' : Prop := forall n, is_Some (node_port G !! n) -> is_Some (node_port G' !! n).

Lemma disconnect_runs n p G : wired G -> is_Some (node_port G !! n) -> exists c G',
  disconnect_port (n, p) G = (Ok c, G') /\ wired G' /\ same_nodes G G' /\
  (forall x, port_at G' x = if decide (x = (n, p) \/ port_at G x = Some (n, p)) then None else port_at G x) /\
  c = match port_at G (n, p) with Some _ => 1 | None => 0 end.
Proof.
  intros W [ps Hps]. unfold disconnect_port. rewrite bind_get. unfold port_for_node. cbn [fst snd]. rewrite Hps. erewrite bind_ok by reflexivity.
  assert (ps !! p = port_at G (n, p)) as Ep by (unfold port_at, ports_of; cbn; by rewrite Hps). rewrite Ep.
  destruct (port_at G (n, p)) as [[m q]|] eqn:Hp.
  2: { exists 0, G. split; [done|]. split; [done|]. split; [by intros ?|]. split; [|done]. intros x. case_decide as Hx; [|done]. destruct Hx as [->|Hx]; [done|].
       destruct x as [x px]. destruct (wired_back G x px n p W Hx) as [_ H]. congruence. }
  destruct (wired_back G n p m q W Hp) as [Hne Hq].
  destruct (connection_edge n p m q G W Hp) as (x & y & k & d & l & px & py & Hin & He & Hl & Hj & Hxy).
  assert (x <> y) as Hxyne by (destruct (wi_link _ W _ _ _ _ He); done).
  assert (at_end l (n, p)) as Hend by (destruct (joins_ends l _ _ Hj), Hxy as [[<- _]|[_ <-]]; done).
  assert (port_at G (x, px) = Some (y, py) /\ port_at G (y, py) = Some (x, px)) as [Hpx Hpy] by (destruct Hxy as [[-> ->]|[-> ->]]; done).
  destruct (list_elem_of_split _ _ Hin) as (es1 & es2 & Ees). cbn [fst snd].
  assert (forall n1 n2 k' d', (n1, n2, k', d') ∈ es1 \/ (n1, n2, k', d') ∈ es2 -> exists l', link_of d' (gr_g G) = Ok l' /\ contains l' (APort n p) = false) as Hothers.
  { intros n1 n2 k' d' Hin'. assert ((n1, n2, k', d') ∈ edges (Some [n; m]) (gr_g G)) as Hed by (rewrite Ees, elem_of_app, elem_of_cons; naive_solver).
    destruct (edge_between n m n1 n2 k' d' G W Hne Hed) as (He' & Hle' & Hnm'). destruct (edge_between n m x y k d G W Hne Hin) as (_ & Hle & Hnm).
    destruct (wi_link _ W _ _ _ _ He') as (_ & l' & p' & q' & Hl' & _). exists l'. split; [done|]. apply not_true_is_false. intros Hc%contains_at.
    assert (n1 = x /\ n2 = y) as [-> ->] by lia.
    assert (k' = k) as ->.
    { destruct Hnm as [[-> ->]|[-> ->]].
      - by apply (wi_once _ W n p m k' k d' d l' l).
      - rewrite (wi_sym _ W) in He', He. by apply (wi_once _ W n p m k' k d' d l' l). }
    rewrite He in He'. injection He' as <-. pose proof (edges_once (Some [n; m]) (gr_g G)) as Hd. rewrite Ees in Hd. apply NoDup_app in Hd as (_ & Hd1 & Hd2).
    apply NoDup_cons in Hd2 as [Hd2 _]. destruct Hin' as [Hin'|Hin']; [|done]. by apply (Hd1 _ Hin'), list_elem_of_here. }
  rewrite Ees. rewrite (bind_ok _ _ _ [(x, y, k)] (ends_deleted (x, px) (y, py) G)).
  2: { rewrite disconnect_loop_app by (intros; apply (Hothers n1 n2 k0 d0); by left). cbn [disconnect_loop]. rewrite bind_get. erewrite bind_ok by (rewrite Hl; reflexivity).
       cbn [fst snd]. rewrite (proj2 (contains_at l n p) Hend). erewrite bind_ok by (by apply (del_ends_run l x px y py G)).
       apply disconnect_none. intros n1 n2 k' d' Hin'. apply (Hothers n1 n2 k' d'). by right. }
  erewrite bind_ok.
  2: { cbn [remove_each]. erewrite bind_ok; [reflexivity|]. unfold on_g. change (gr_g (ends_deleted (x, px) (y, py) G)) with (gr_g G).
       rewrite (remove_edge_run x y k d) by (done || apply (wi_sym _ W)). reflexivity. }
  exists 1, (cut x y k (x, px) (y, py) G). split; [done|]. split; [by apply (cut_wired x y k d l)|]. split; [intros u; apply ends_deleted_dom|]. split; [|done].
  intros u. rewrite cut_at. assert (port_at G u = Some (n, p) <-> u = (m, q)) as Hu.
  { split; [|by intros ->]. destruct u as [u pu]. intros H. destruct (wired_back G u pu n p W H) as [_ H']. congruence. }
  destruct Hxy as [[-> ->]|[-> ->]]; repeat case_decide; naive_solver.
Qed.

(** * Linking *)
Lemma nodes_wired v G : wired G -> wired (gr_set_g (mg_set_nodes v (gr_g G)) G).
Proof. by intros []. Qed.

Lemma add_edge_run n m np1 np2 (g : MultiGraph GraphLink) : n <> m -> symmetric g -> (forall a b k d, edge_at g a b k = Some d -> k < mg_next_key g) ->
  (forall a b k d, edge_at g a b k = Some d -> d < mg_new g) ->
  exists g', add_edge n m None {[LINK := Link_init np1 np2]} g = (Ok tt, g') /\ mg_next_key g' = mg_next_key g + 1 /\ mg_new g' = mg_new g + 1 /\
    (forall x y k, edge_at g' x y k = if decide (((x = n /\ y = m) \/ (x = m /\ y = n)) /\ k = mg_next_key g) then Some (mg_new g) else edge_at g x y k) /\
    (forall d, link_of d g' = if decide (d = mg_new g) then Ok (Link_init np1 np2) else link_of d g).
Proof.
  intros Hne Hs Hkey Hnew. unfold add_edge. rewrite (proj2 (Z.eqb_neq n m)) by done. erewrite bind_ok by reflexivity. set (g0 := add_node m ∅ (add_node n ∅ g)).
  erewrite bind_ok by reflexivity. set (g1 := mg_set_key (mg_next_key g0 + 1) g0). set (k := mg_next_key g0). set (d := mg_new g1).
  assert (forall x y k', edge_at g1 x y k' = edge_at g x y k') as E1 by done.
  assert (edges_between n m g1 !! k = None) as Hn.
  { change (edge_at g n m k = None). destruct (edge_at g n m k) as [d'|] eqn:E; [|done]. apply Hkey in E. unfold k in E. cbn in E. lia. }
  set (g2 := set_between n m (<[k := d]> (edges_between n m g1)) (mg_set_dicts (<[d := ∅]> (mg_dicts g1)) (d + 1) g1)).
  assert (edge_dict n m k g1 = (Ok d, g2)) as E2 by (unfold edge_dict; rewrite bind_get, Hn; by erewrite bind_put).
  erewrite bind_ok by exact E2. eexists. split; [reflexivity|]. split; [done|]. split; [done|]. split.
  - intros x y k'. cbv zeta. set (g3 := mg_set_dicts _ _ g2). rewrite edge_set_between.
    assert (forall x y k', edge_at g2 x y k' = if decide ((x = n /\ y = m) /\ k' = k) then Some d else edge_at g x y k') as E3.
    { intros u v k2. unfold g2. rewrite edge_set_between. destruct (decide (u = n /\ v = m)) as [[-> ->]|Hu]; [|by rewrite decide_False by naive_solver].
      destruct (decide (k2 = k)) as [->|Hk]; [rewrite lookup_insert_eq; by rewrite decide_True|]. rewrite lookup_insert_ne by done. by rewrite decide_False by naive_solver. }
    change (mg_next_key g) with k. change (mg_new g) with d. destruct (decide (x = m /\ y = n)) as [[-> ->]|Hx].
    + destruct (decide (k' = k)) as [->|Hk]; [rewrite lookup_insert_eq; by rewrite decide_True by naive_solver|]. rewrite lookup_insert_ne by done.
      change (edges_between m n g3 !! k') with (edge_at g2 m n k'). rewrite E3. rewrite !decide_False by naive_solver. done.
    + change (edge_at g3 x y k') with (edge_at g2 x y k'). rewrite E3. repeat case_decide; try done; naive_solver.
  - intros d'. unfold link_of. cbn. change (mg_new g) with d. destruct (decide (d' = d)) as [->|Hd].
    + rewrite lookup_alter_eq, lookup_insert_eq. cbn. by rewrite (right_id_L ∅ (∪)), lookup_insert_eq.
    + rewrite lookup_alter_ne, lookup_insert_ne by done. done.
Qed.

(** The ports of a new connection. *)
Lemma ports_connected n p m q G : n <> m -> is_Some (node_port G !! n) -> is_Some (node_port G !! m) -> exists G',
  (G ← get;
   match node_port G !! n with
   | None => raise KeyError
   | Some m1 =>
       '_ ← put (gr_set_ports (<[n := <[p := (m, q)]> m1]> (node_port G)) G);
       G ← get;
       match node_port G !! m with
       | None => raise KeyError
       | Some m2 => put (gr_set_ports (<[m := <[q := (n, p)]> m2]> (node_port G)) G)
       end
   end) G = (Ok tt, G') /\ gr_g G' = gr_g G /\ same_nodes G G' /\
  forall x, port_at G' x = if decide (x = (n, p)) then Some (m, q) else if decide (x = (m, q)) then Some (n, p) else port_at G x.
Proof.
  intros Hne [m1 H1] [m2 H2]. rewrite bind_get, H1, bind_put, bind_get. cbn [node_port gr_set_ports]. rewrite lookup_insert_ne, H2 by done.
  eexists. split; [reflexivity|]. split; [done|]. split.
  - intros u Hu. cbn. apply lookup_insert_is_Some'. right. apply lookup_insert_is_Some'. by right.
  - intros [u pu]. unfold port_at, ports_of. cbn. destruct (decide (u = m)) as [->|Hum].
    + rewrite lookup_insert_eq. cbn. rewrite (decide_False (P := (m, pu) = (n, p))) by congruence. destruct (decide (pu = q)) as [->|Hp].
      * rewrite lookup_insert_eq. by rewrite decide_True.
      * rewrite lookup_insert_ne by done. rewrite decide_False by congruence. by rewrite H2.
    + rewrite lookup_insert_ne by done. rewrite (decide_False (P := (u, pu) = (m, q))) by congruence. destruct (decide (u = n)) as [->|Hun].
      * rewrite lookup_insert_eq. cbn. destruct (decide (pu = p)) as [->|Hp]; [rewrite lookup_insert_eq; by rewrite decide_True|].
        rewrite lookup_insert_ne by done. rewrite decide_False by congruence. by rewrite H1.
      * rewrite lookup_insert_ne by done. by rewrite decide_False by congruence.
Qed.

(** The wiring with a connection between two free ports more. *)
Lemma connection_wired n p m q G g' G' : wired G -> n <> m -> port_at G (n, p) = None -> port_at G (m, q) = None ->
  mg_next_key g' = mg_next_key (gr_g G) + 1 -> mg_new g' = mg_new (gr_g G) + 1 ->
  (forall x y k, edge_at g' x y k = if decide (((x = n /\ y = m) \/ (x = m /\ y = n)) /\ k = mg_next_key (gr_g G)) then Some (mg_new (gr_g G)) else edge_at (gr_g G) x y k) ->
  (forall d, link_of d g' = if decide (d = mg_new (gr_g G)) then Ok (Link_init (n, p) (m, q)) else link_of d (gr_g G)) ->
  gr_g G' = g' -> (forall x, port_at G' x = if decide (x = (n, p)) then Some (m, q) else if decide (x = (m, q)) then Some (n, p) else port_at G x) ->
  wired G'.
Proof.
  intros W Hne Hp Hq Hkey Hnew He Hl Eg Hport. set (k0 := mg_next_key (gr_g G)) in *. set (d0 := mg_new (gr_g G)) in *. rewrite <-Eg in *.
  assert (forall x y k d, edge_at (gr_g G') x y k = Some d -> (((x = n /\ y = m) \/ (x = m /\ y = n)) /\ k = k0 /\ d = d0) \/ (edge_at (gr_g G) x y k = Some d /\ k <> k0 /\ d <> d0)) as Hcases.
  { intros x y k d. rewrite He. case_decide as Hd; [intros [= <-]; left; naive_solver|]. intros H. right. split; [done|].
    pose proof (wi_key _ W _ _ _ _ H). pose proof (wi_dict _ W _ _ _ _ H). unfold k0, d0. split; lia. }
  assert (link_of d0 (gr_g G') = Ok (Link_init (n, p) (m, q))) as Hl0 by (rewrite Hl; by rewrite decide_True).
  assert (forall d, d <> d0 -> link_of d (gr_g G') = link_of d (gr_g G)) as Hl1 by (intros d Hd; rewrite Hl; by rewrite decide_False).
  assert (forall x y k d l px, edge_at (gr_g G) x y k = Some d -> link_of d (gr_g G) = Ok l -> at_end l (x, px) -> (x, px) <> (n, p) /\ (x, px) <> (m, q)) as Hold.
  { intros x y k d l px H Hl' Hend. destruct (wi_link _ W _ _ _ _ H) as (Hxy & l2 & p2 & q2 & Hl2 & Hj2 & Hp2). rewrite Hl' in Hl2. injection Hl2 as <-.
    assert (px = p2) as -> by by apply (at_end_joins l x px y p2 q2). split; congruence. }
  split.
  - intros x y k. rewrite !He, (wi_sym _ W x y). repeat case_decide; try done; naive_solver.
  - intros x y k d H. rewrite Hkey. destruct (Hcases x y k d H) as [(_ & -> & _)|(H' & _)]; [lia|]. pose proof (wi_key _ W _ _ _ _ H'). unfold k0. lia.
  - intros x y k d H. rewrite Hnew. destruct (Hcases x y k d H) as [(_ & _ & ->)|(H' & _)]; [lia|]. pose proof (wi_dict _ W _ _ _ _ H'). unfold d0. lia.
  - intros x y k d H. destruct (Hcases x y k d H) as [([[-> ->]|[-> ->]] & -> & ->)|(H' & Hk & Hd)].
    + split; [done|]. exists (Link_init (n, p) (m, q)), p, q. split; [done|]. split; [by left|]. rewrite Hport. by rewrite decide_True.
    + split; [done|]. exists (Link_init (n, p) (m, q)), q, p. split; [done|]. split; [by right|]. rewrite Hport. rewrite decide_False by congruence. by rewrite decide_True.
    + destruct (wi_link _ W _ _ _ _ H') as (Hxy & l & p' & q' & Hl' & Hj & Hp'). split; [done|]. exists l, p', q'. split; [by rewrite Hl1|]. split; [done|].
      destruct (Hold x y k d l p' H' Hl') as [? ?]; [by destruct (joins_ends l (x, p') (y, q'))|]. rewrite Hport. by rewrite !decide_False.
  - intros x px y py. rewrite Hport. case_decide as H1; [|case_decide as H2].
    + injection H1 as -> ->. intros [= -> ->]. exists k0, d0, (Link_init (n, p) (y, py)). split; [|split; [done|by left]]. rewrite He. by rewrite decide_True by naive_solver.
    + injection H2 as -> ->. intros [= -> ->]. exists k0, d0, (Link_init (y, py) (m, q)). split; [|split; [done|by right]]. rewrite He. by rewrite decide_True by naive_solver.
    + intros H. destruct (wi_edge _ W _ _ _ _ H) as (k & d & l & He' & Hl' & Hj). pose proof (wi_key _ W _ _ _ _ He'). pose proof (wi_dict _ W _ _ _ _ He').
      exists k, d, l. split; [rewrite He, decide_False; [done|unfold k0; naive_solver lia]|]. split; [|done]. rewrite Hl1; [done|unfold d0; lia].
  - intros u pu v k k' d d' l l' H H' Hlk Hlk' Hend Hend'.
    destruct (Hcases u v k d H) as [(Huv & -> & ->)|(H1 & Hk1 & Hd1)], (Hcases u v k' d' H') as [(Huv' & -> & ->)|(H2 & Hk2 & Hd2)]; [done| | |].
    + exfalso. rewrite Hl0 in Hlk. injection Hlk as <-. rewrite Hl1 in Hlk' by done. destruct (Hold u v k' d' l' pu H2 Hlk' Hend'). by destruct Hend.
    + exfalso. rewrite Hl0 in Hlk'. injection Hlk' as <-. rewrite Hl1 in Hlk by done. destruct (Hold u v k d l pu H1 Hlk Hend). by destruct Hend'.
    + rewrite Hl1 in Hlk, Hlk' by done. by apply (wi_once _ W u pu v k k' d d' l l').
Qed.

(** C10: Linking two ports.  In a graph whose table of ports and edges agree, linking a port of one node with a port of another first
    disconnects whatever either was connected to, at both its ends, then connects the two; nothing else changes, and the two still agree. *)
Theorem link_connects ports n p m q G : wired G -> n <> m -> is_Some (node_port G !! n) -> is_Some (node_port G !! m) ->
  exists G', link ports (APort n p) (APort m q) G = (Ok tt, G') /\ wired G' /\
    forall x, port_at G' x = if decide (x = (n, p)) then Some (m, q) else if decide (x = (m, q)) then Some (n, p)
      else if decide (port_at G x = Some (n, p) \/ port_at G x = Some (m, q)) then None else port_at G x.
Proof.
  intros W Hne Hn Hm. unfold link. erewrite bind_ok by reflexivity. erewrite bind_ok by reflexivity. unfold link_ports. cbn [fst snd].
  erewrite bind_ok by reflexivity. set (G0 := gr_set_g _ G). assert (wired G0) as W0 by by apply (nodes_wired _ (gr_set_g _ G)), nodes_wired.
  destruct (disconnect_runs n p G0 W0 Hn) as (c1 & G1 & E1 & W1 & S1 & P1 & _). erewrite bind_ok by exact E1.
  destruct (disconnect_runs m q G1 W1 (S1 m Hm)) as (c2 & G2 & E2 & W2 & S2 & P2 & _). erewrite bind_ok by exact E2.
  destruct (add_edge_run n m (n, p) (m, q) (gr_g G2) Hne (wi_sym _ W2) (wi_key _ W2) (wi_dict _ W2)) as (g' & E3 & Hkey & Hnew & He & Hl).
  erewrite bind_ok by (unfold on_g; rewrite E3; reflexivity). set (G3 := gr_set_g g' G2).
  destruct (ports_connected n p m q G3 Hne (S2 n (S1 n Hn)) (S2 m (S1 m Hm))) as (G4 & E4 & Eg & _ & P4). exists G4. split; [exact E4|].
  assert (forall x, port_at G2 x = if decide (x = (n, p) \/ x = (m, q) \/ port_at G x = Some (n, p) \/ port_at G x = Some (m, q)) then None else port_at G x) as P.
  { intros x. rewrite P2, P1. change (port_at G0 x) with (port_at G x). repeat case_decide; try done; naive_solver. }
  split.
  - apply (connection_wired n p m q G2 g' G4); try done; rewrite P; by rewrite decide_True by auto.
  - intros x. rewrite P4. change (port_at G3 x) with (port_at G2 x). rewrite P. repeat case_decide; try done; naive_solver.
Qed.

(** * Unlinking *)
Definition edge_in (e : Z * Z * Z * Z) G : Prop := let '(x, y, k, d) := e in edge_at (gr_g G) x y k = Some d /\ x < y.
(** A port at the end of one of the edges. *)
Definition at_edges (es : list (Z * Z * Z * Z)) (g : MultiGraph GraphLink) (np : Z * Z) : Prop :=
  exists x y k d l, (x, y, k, d) ∈ es /\ link_of d g = Ok l /\ at_end l np.

Lemma unlink_runs es c G : wired G -> NoDup es -> (forall e, e ∈ es -> edge_in e G) -> exists G',
  unlink_loop es c G = (Ok (c + zlen es), G') /\ wired G' /\
  (forall np, (at_edges es (gr_g G) np -> port_at G' np = None) /\ (~ at_edges es (gr_g G) np -> port_at G' np = port_at G np) /\ (port_at G np = None -> port_at G' np = None)).
Proof.
  revert c G. induction es as [|[[[x y] k] d] es IH]; intros c G W Hd Hes.
  { exists G. cbn. rewrite Z.add_0_r. split; [done|]. split; [done|]. intros np. split; [|done]. intros (x & y & k & d & l & H & _). by apply elem_of_nil in H. }
  apply NoDup_cons in Hd as [Hn Hd]. destruct (Hes (x, y, k, d) ltac:(apply list_elem_of_here)) as [He Hxy].
  destruct (wi_link _ W _ _ _ _ He) as (Hne & l & p & q & Hl & Hj & Hp). destruct (wired_back G x p y q W Hp) as [_ Hq].
  cbn [unlink_loop]. erewrite bind_ok by (unfold on_g; rewrite (remove_edge_run x y k d) by (done || apply (wi_sym _ W)); reflexivity).
  set (G1 := gr_set_g (removed_edge x y k (gr_g G)) G). rewrite bind_get. change (link_of d (gr_g G1)) with (link_of d (gr_g G)).
  erewrite bind_ok by (rewrite Hl; reflexivity). erewrite bind_ok by (by apply (del_ends_run l x p y q G1)).
  change (ends_deleted (x, p) (y, q) G1) with (cut x y k (x, p) (y, q) G). pose proof (cut_wired x y k d l p q G W He Hl Hj) as Wc.
  destruct (IH (c + 1) (cut x y k (x, p) (y, q) G) Wc Hd) as (G' & E & W' & Hports).
  { intros [[[x' y'] k'] d'] Hin. destruct (Hes (x', y', k', d') ltac:(by apply list_elem_of_further)) as [He' Hxy']. split; [|done].
    rewrite cut_edge by done. rewrite decide_False; [done|]. intros [[[-> ->]|[-> ->]] ->]; [|lia]. rewrite He in He'. injection He' as <-. done. }
  exists G'. split; [rewrite E; do 2 f_equal; unfold zlen; cbn [length]; lia|]. split; [done|]. intros np.
  assert (at_edges es (gr_g (cut x y k (x, p) (y, q) G)) np <-> at_edges es (gr_g G) np) as Hsame by done.
  destruct (Hports np) as (H1 & H2 & H3). rewrite Hsame in H1, H2. rewrite cut_at in H2, H3.
  assert (at_edges ((x, y, k, d) :: es) (gr_g G) np <-> at_end l np \/ at_edges es (gr_g G) np) as Hcons.
  { split.
    - intros (x' & y' & k' & d' & l' & [[= -> -> -> ->]|Hin]%elem_of_cons & Hl' & Hend); [rewrite Hl in Hl'; injection Hl' as <-; by left|right; by exists x', y', k', d', l'].
    - intros [Hend|(x' & y' & k' & d' & l' & Hin & H)]; [exists x, y, k, d, l; split; [apply list_elem_of_here|done]|exists x', y', k', d', l'; split; [by apply list_elem_of_further|done]]. }
  assert (at_end l np <-> np = (x, p) \/ np = (y, q)) as Hend by (destruct Hj as [->| ->]; unfold at_end, link_0, link_1; cbn; naive_solver).
  rewrite Hcons, Hend. split; [|split].
  - intros [Hx|Hx]; [apply H3; by rewrite decide_True|by apply H1].
  - intros Hx. rewrite H2 by naive_solver. by rewrite decide_False by naive_solver.
  - intros Hx. apply H3. rewrite Hx. by case_decide.
Qed.

(** The ends of the edges between two nodes are the ports that connect them. *)
Lemma ends_between n m np G : wired G -> n <> m ->
  at_edges (edges (Some [n; m]) (gr_g G)) (gr_g G) np <->
  exists o, port_at G np = Some o /\ ((np.1 = n /\ o.1 = m) \/ (np.1 = m /\ o.1 = n)).
Proof.
  intros W Hne. split.
  - intros (x & y & k & d & l & Hin & Hl & Hend). destruct (edge_between n m x y k d G W Hne Hin) as (He & _ & Hxy).
    destruct (wi_link _ W _ _ _ _ He) as (_ & l' & p & q & Hl' & Hj & Hp). rewrite Hl in Hl'. injection Hl' as <-. destruct (wired_back G x p y q W Hp) as [_ Hq].
    assert (np = (x, p) \/ np = (y, q)) as [->| ->] by (destruct Hj as [->| ->], Hend as [<-|<-]; unfold link_0, link_1; cbn; auto).
    + exists (y, q). split; [done|]. cbn. naive_solver.
    + exists (x, p). split; [done|]. cbn. naive_solver.
  - destruct np as [n' p]. intros ([m' q] & Hp & Hnm). cbn in Hnm.
    destruct (connection_edge n' p m' q G W Hp) as (x & y & k & d & l & px & py & Hin & He & Hl & Hj & Hxy). exists x, y, k, d, l. split; [|split; [done|]].
    + apply edges_spec in Hin as (Hle & _ & _); [|apply (wi_sym _ W)]. apply edges_spec; [apply (wi_sym _ W)|]. split; [done|]. split; [done|]. left. apply bunch_pair; [done|]. naive_solver.
    + destruct (joins_ends l _ _ Hj), Hxy as [[<- _]|[_ <-]]; done.
Qed.

(** C32: Unlinking two nodes.  It removes exactly the connections between the two, however many there are, on both sides; the table of
    ports and the edges still agree. *)
Theorem unlink_separates n m G : wired G -> n <> m -> exists c G', unlink (ANode n) (ANode m) G = (Ok c, G') /\ wired G' /\
  forall np, port_at G' np = match port_at G np with
    | Some o => if decide ((np.1 = n /\ o.1 = m) \/ (np.1 = m /\ o.1 = n)) then None else Some o
    | None => None
    end.
Proof.
  intros W Hne. unfold unlink. rewrite bind_get.
  destruct (unlink_runs (edges (Some [n; m]) (gr_g G)) 0 G W (edges_once _ _)) as (G' & E & W' & Hports).
  { intros [[[x y] k] d] Hin. destruct (edge_between n m x y k d G W Hne Hin) as (He & Hle & Hxy). split; [done|]. lia. }
  eexists _, G'. split; [exact E|]. split; [done|]. intros np. destruct (Hports np) as (H1 & H2 & H3). rewrite ends_between in H1, H2 by done.
  destruct (port_at G np) as [o|]; [|by apply H3]. case_decide as Hd; [apply H1; by exists o|]. apply H2. intros (o' & [= <-] & ?). done.
Qed.

(** * Finding connections *)
Lemma find_port_connects n m G : wired G -> n <> m ->
  match find_port n m G with
  | Ok (Some (p, q)) => port_at G (n, p) = Some (m, q)
  | Ok None => forall p q, port_at G (n, p) <> Some (m, q)
  | Err _ => False
  end.
Proof.
  intros W Hne. unfold find_port. destruct (edges (Some [n; m]) (gr_g G)) as [|[[[x y] k] d] es] eqn:Ees.
  - intros p q Hp. destruct (connection_edge n p m q G W Hp) as (x & y & k & d & l & px & py & Hin & _). rewrite Ees in Hin. by apply elem_of_nil in Hin.
  - destruct (edge_between n m x y k d G W Hne) as (He & _ & Hxy); [rewrite Ees; apply list_elem_of_here|].
    assert (exists k', edge_at (gr_g G) n m k' = Some d) as [k' He'] by (exists k; destruct Hxy as [[-> ->]|[-> ->]]; [done|by rewrite (wi_sym _ W)]).
    destruct (wi_link _ W _ _ _ _ He') as (_ & l & p & q & Hl & Hj & Hp). destruct (getitem_joins l n p m q Hne Hj) as [E1 E2].
    cbn [mbind res_bind]. rewrite Hl. cbn [mbind res_bind]. rewrite E1. cbn [mbind res_bind]. by rewrite E2.
Qed.

(** A disconnected neighbour is still listed. *)
Lemma neighbors_stay : exists G G', unlink (ANode 1) (ANode 2) G = (Ok 1, G') /\ nodes_connected 1 2 G' = Ok false /\ (graph_neighbors 1 G').1 = Ok [2].
Proof.
  set (G0 := add 2 (add 1 Graph_init)). set (G1 := (link (fun _ => None) (APort 1 0) (APort 2 0) G0).2).
  exists G1, (unlink (ANode 1) (ANode 2) G1).2. split_and!; vm_compute; reflexivity.
Qed.

(** * Queries *)
Section query.
Context {V : Type} `{PyValue V}.

(** [find] gives the nodes that pass, each once, in the order of the nodes. *)
Lemma find_exact args kw G r : graph_find args kw G = Ok r ->
  r = List.filter (fun n => match test_node n args kw None with Ok b => b | Err _ => false end) (nodes (gr_g G)) /\
  forall n, n ∈ nodes (gr_g G) -> exists b, test_node n args kw None = Ok b.
Proof.
  unfold graph_find. generalize (nodes (gr_g G)) as l. intros l. revert r. induction l as [|n l IH]; intros r; cbn [filter_nodes List.filter].
  { intros [= <-]. split; [done|]. by intros n ?%elem_of_nil. }
  destruct (test_node n args kw None) as [b|e] eqn:Et; [|done]. cbn [mbind res_bind]. destruct (filter_nodes _ l) as [r'|] eqn:Er; [|done].
  destruct (IH r' eq_refl) as [-> Hall]. cbn [mbind res_bind]. intros [= <-]. split; [done|]. intros u [->|Hu]%elem_of_cons; [by exists b|by apply Hall].
Qed.

(** The operators that compare raise whenever they are reached. *)
Lemma comparisons_raise n li l r o a : o = LessThan l r \/ o = GreaterThan l r \/ o = LessThanEqualTo l r \/ o = GreaterThanEqualTo l r -> eval n li o <> Answer a.
Proof. intros [->|[->|[->| ->]]]; cbn; by destruct (eval n li l), (eval n li r). Qed.
End query.

(** * Examples *)
Definition ex_graph : Graph :=
  let G := add 3 (add 2 (add 1 Graph_init)) in
  let G := (link (fun _ => None) (APort 1 0) (APort 2 0) G).2 in
  (link (fun _ => None) (APort 1 1) (APort 2 1) G).2.
Lemma add_wired n G : wired G -> node_port G !! n = None -> wired (add n G).
Proof.
  intros W Hn. assert (forall x, port_at (add n G) x = port_at G x) as Hp.
  { intros [u p]. unfold port_at, ports_of, add. cbn. destruct (decide (u = n)) as [->|]; [rewrite lookup_insert_eq, Hn; done|by rewrite lookup_insert_ne]. }
  destruct W as [W1 W2 W3 W4 W5 W6]. split; try done.
  - intros a b k d He. destruct (W4 a b k d He) as (Hne & l & p & q & H). split; [done|]. exists l, p, q. by rewrite Hp.
  - intros u p m q. rewrite Hp. apply W5.
Qed.
Lemma ex_linked n p m q G : wired G -> n <> m -> is_Some (node_port G !! n) -> is_Some (node_port G !! m) -> wired (link (fun _ => None) (APort n p) (APort m q) G).2.
Proof. intros W Hne Hn Hm. destruct (link_connects (fun _ => None) n p m q G W Hne Hn Hm) as (G' & E & W' & _). by rewrite E. Qed.
Lemma ex_graph_wired : wired ex_graph.
Proof.
  unfold ex_graph. cbv zeta. apply ex_linked; [apply ex_linked|..]; try done; try (vm_compute; by eexists).
  apply add_wired; [apply add_wired; [apply add_wired; [apply wired_init|]|]|]; vm_compute; reflexivity.
Qed.

(** The port of the first node goes to the third. *)
Lemma link_connects_witness : exists G', link (fun _ => None) (APort 1 0) (APort 3 7) ex_graph = (Ok tt, G') /\
  port_at G' (1, 0) = Some (3, 7) /\ port_at G' (2, 0) = None /\ port_at G' (2, 1) = Some (1, 1).
Proof.
  destruct (link_connects (fun _ => None) 1 0 3 7 ex_graph ex_graph_wired ltac:(discriminate) ltac:(vm_compute; by eexists) ltac:(vm_compute; by eexists)) as (G' & E & _ & H).
  exists G'. split; [exact E|]. rewrite !H. vm_compute. split_and!; reflexivity.
Defined.
Lemma unlink_separates_witness : exists c G', unlink (ANode 2) (ANode 1) ex_graph = (Ok c, G') /\ port_at G' (1, 0) = None /\ port_at G' (2, 1) = None.
Proof.
  destruct (unlink_separates 2 1 ex_graph ex_graph_wired ltac:(discriminate)) as (c & G' & E & _ & H).
  exists c, G'. split; [exact E|]. rewrite !H. vm_compute. split_and!; reflexivity.
Defined.
